(* ===== verification/_CoqProject ===== *)
-Q . S2P
Prelude.v
BitUtils.v
Instructions.v
DecodeSystem.v
DecodeDPImm.v
DecodeDPReg.v
DecodeFloat.v
DecodeLoadStore.v
DecodeSIMD.v
Decode.v
DecodeEquiv.v
Core.v
InstUtils.v
Machine.v
Memory.v
MemoryInv.v
MemorySpec.v
MemoryRegions.v
Float.v
InterpBranch.v
InterpDPImm.v
InterpDPReg.v
InterpLoadStore.v
InterpFloat.v
InterpSIMD.v
Interp.v
InterpWf.v
DPSpec.v
StepSpec.v
LoadStoreSpec.v
FloatSpec.v
FloatSIMDSpec.v
Disasm.v
DisasmSpec.v
JitAsm.v
JitInsts.v
Jit.v
JitAllocSpec.v
JitSpec.v
JitRepr.v
JitRefine.v
JitRun.v
HandleManager.v
MemoryMapper.v
Thread.v
Display.v
LoaderFormat.v
KernelState.v
Scheduler.v
KernelLemmas.v
SchedulerSpec.v
SchedulerInv.v
SchedulerSafety.v
SchedulerPolicy.v
MapperSpec.v
Alarm.v
AlarmSpec.v
Ipc.v
IpcReply.v
IpcSpec.v
SmService.v
Svc.v
Loader.v
LoaderSpec.v
LoaderModules.v
Gpu.v
GpuSpec.v
ServiceBase.v
NnServices.v
Services.v
DisplaySpec.v
ServicesSpec.v
RunLoop.v
RunLoopSpec.v
DebugPause.v
TestBase.v
TestBranch.v
TestDPImm.v
TestDPReg.v
TestSuite.v
