(* ===== verification/Prelude.v ===== *)
(** * switch-emu: an AArch64 interpreter, a JIT compiler and the emulation of a console kernel

    The program runs console executables: [libcpu] decodes AArch64 instructions and
    interprets or compiles them over an emulated address space, and [switch-emu] emulates the
    operating system above it (handles, threads, a scheduler, alarms, supervisor calls,
    messages to services).  This library models these parts as executable definitions
    and proves what they do.  The names of the source are kept.

    ** How the parts interact

    A core executes [step] ([Interp]): it fetches a word through guest memory
    ([Machine.GuestMemory], implemented by [Memory]), decodes it ([Decode]), and runs
    the handler of the table [init] fills.  The handler of [SVC] is a hook
    ([Machine.CpuHooks]), which the kernel fills with [callSVC] ([RunLoop.kernel_hooks]);
    the kernel's functions run in the same monad over a machine whose memory carries
    the kernel's state ([KernelState.K]).  Threads are objects behind handles
    ([HandleManager]); the scheduler ([Scheduler]) moves their registers in and out of
    the core; alarms ([Alarm]) and interrupts make it run; [SVC] handlers ([Svc]) reach
    the services through messages ([Ipc], [SmService], [Services]).  The loader ([Loader])
    puts a program into memory; what it draws goes through the queues of [Display].  The
    run loop of a core ([RunLoop]) alternates steps and interrupt checks.  Instead of the
    interpreter it may use the compiler: [Jit.step] finds the block at the program counter,
    generates host code for it with the register cache of [JitAsm] and the functions of
    [JitInsts], and runs it; instructions without code of their own call the interpreter's
    handler ([JitInsts.FALLBACK]).

    ** The files

    - This file: integers of a fixed width ([wrap], [u8] to [u64], [to_signed]), bit
      lemmas with the hint databases [emu], [emu_simpl] and [testbit], tactics.  [BitUtils]
      ([common/inc/bitutils.h]), [Core] ([cpu.h], [instruction.h], [types.h]: the
      registers of a core and the fields of an instruction word), [InstUtils]
      ([instutils.h]), [Machine] (faults, the state monad, the memory interface with
      its laws).
    - Decoding: [Instructions] (the rows of [instructions.inl]), [DecodeDPImm],
      [DecodeDPReg], [DecodeSystem], [DecodeFloat], [DecodeLoadStore], [DecodeSIMD],
      [Decode] ([libcpu/src/decode], [encode.cpp]); [DecodeEquiv] reifies the decoder and
      checks it against the table.
    - Memory ([libcpu/src/mem.cpp], [inc/mem.h]): [Memory] (page table, free list kept
      inside the free pages, lock, regions, accesses), [MemoryInv] (the invariant of the
      allocator; the interface is implemented), [MemorySpec] (refinement
      of a flat address space), [MemoryRegions] (regions of pages, [fini]).
    - The interpreter ([libcpu/src/interpreter]): [InterpBranch] (with the system
      instructions), [InterpDPImm], [InterpDPReg], [InterpLoadStore], [Float] and
      [InterpFloat], [InterpSIMD], [Interp]; the typing invariant in
      [InterpWf]; the behaviour of instructions in [DPSpec], [LoadStoreSpec], [FloatSpec],
      [FloatSIMDSpec]; whole steps in [StepSpec].
    - The disassembler ([libcpu/src/disassembler]): [Disasm] (the tables [init] fills from
      [instructions.inl] and [instruction_aliases.inl], the stream, [disassemble]) and
      [DisasmSpec].
    - The compiler ([libcpu/src/jit]): [JitAsm] ([jit.h]: the emitted instructions as
      values, the register cache [allocReg], [envict], [loadGpRegister], the handles and
      their lifetimes), [JitInsts] (a Module for each file of instructions), [Jit]
      ([jit.cpp], [jitVerify.cpp], [meta.cpp]; and [run], the host executing the generated
      code); [JitAllocSpec] (the register cache never fails), [JitSpec] (blocks: their end,
      that each is compiled, and how they are linked), [JitRepr] (when the host and the
      cache represent a guest), [JitRefine] (each function of the compiler, then whole
      blocks, against the interpreter's handlers), [JitRun] ([step]).
    - The kernel ([switch-emu/src/hle/kernel]): [HandleManager] ([handleManager.cpp],
      [types/KAutoObject.h]), [MemoryMapper] and [MapperSpec] ([memoryMapper.cpp]),
      [Thread] ([thread.cpp]), [KernelState] (the globals of all these files, and of the
      devices, the displays and the loader), [Scheduler] ([scheduler.cpp]) with
      [KernelLemmas], [SchedulerSpec], [SchedulerInv], [SchedulerSafety],
      [SchedulerPolicy], [Alarm] and [AlarmSpec] ([alarm.cpp], [clock.cpp]), [Svc]
      ([hle/svc.cpp]), [RunLoop] ([kernel.cpp] and the loop of [libcpu/src/cpu.cpp])
      with [RunLoopSpec].
    - The loader ([hle/kernel/loader]): [LoaderFormat] (the headers of ELF and NSO files
      and what is read of them), [Loader] (segments, modules, libraries, files),
      [LoaderSpec] (a module in guest memory), [LoaderModules] (all runs of the loader).
    - Messages: [Ipc] ([hle/ipc.cpp], [ipc.h], [service.cpp]), [IpcReply] (the reply),
      [IpcSpec] (the request), [SmService] ([hle/SmService]).
    - Services: [ServiceBase] (what the classes share), [NnServices] (a Module for each
      class of [hle/nn]), [Services] ([hle/nns/hosbinder], all tables, and the start of the
      modules), [ServicesSpec].
    - Displays: [Display] ([hle/nn/vi/display.cpp]: buffer queues, layers, [draw]),
      [DisplaySpec] (also a frame on its way through the binder).
    - The devices of the graphics card ([switch-emu/src/gpu], [hle/nns/nvdrv]): [Gpu] (the
      functions of each device and [INvDrvServices]), [GpuSpec].
    - [DebugPause] ([debug/debug.cpp]): the barrier at which a breakpoint stops the
      cores.
    - The unit tests ([InterpreterUnitTest]): [TestBase] (the fixture and its constants),
      [TestBranch], [TestDPImm], [TestDPReg], [TestSuite].

    ** What the theorems show

    - Decoding: the switch decoder and the table decoder agree on all 2^32 words, the
      decoder reaches a decision on each, and encoding is undone by decoding.
    - Types: any number of steps keeps every register and flag inside its C++ type.
    - Arithmetic, bit fields, division, high multiplication, logical immediates,
      conversions, lanes: the handlers against independent definitions of the
      architecture, flags included; pairs of instructions (compare and branch, push and
      pop, store and load, exclusives).  Floating point is compared with the IEEE 754
      specification of the Standard Library.
    - The unit tests of the repository pass on the modelled handlers.
    - The disassembler: it returns for every instruction and prints each operand on its own,
      for a branch the address the interpreter goes to; a word is printed under its own row
      or an alias of its own instruction; [MOV] copies what it names; and for rows that fix or
      show every bit ([DisasmSpec.identified]) the text determines the word.
      [DisasmSpec.rows_that_hide] lists the other rows, those whose operands are not
      written yet ([TODO]) aside.
    - The compiler: it gives code for every block, whatever its words; linked blocks never
      form a loop; and a step of it is a run of the interpreter on the blocks it goes
      through, for blocks of instructions that are covered ([JitRefine.coveredWords]):
      those that call the interpreter, and all that are compiled except loads, stores and
      [SVC] and except the cases whose code is wrong, which the findings list and
      [JitRun.uncovered_words_differ] shows.
    - Memory: the operations refine a partial map from addresses to bytes, [init]
      establishes the invariant, [allocateRegion] ends with an exact result.
    - Kernel: handles refine a finite map; mappings refine a map from addresses to
      attributes; the scheduler keeps its invariant in every reachable state and follows
      a priority policy; alarms wake exactly the threads that are due; requests and
      replies read back as they were written; sessions reach the service they name, from
      the port [sm:] and from the commands of a service that open another; the objects
      of nvmap answer what was stored in them.
    - Displays: every queued buffer is shown once and is free afterwards, in every
      reachable state; a frame makes the round from the program through two parcels to
      the graphics driver.
    - Loader: a well-formed module is in guest memory, and in the list of mappings, where
      its header says, and nothing else changes; in every run modules stand one behind
      the other; when it does not end.
    - Composition: what a context switch inside a supervisor call does to the two
      threads, what a core does after it became idle, and that cores other than the
      first never receive the interrupt that would make them reschedule; how two
      breakpoints one after the other leave the cores waiting for ever.
    - Several theorems state where the code departs from what it means to do; each says
      so in its comment.

    ** Bounds and fuel

    Integers are [Z] reduced at the points where C++ reduces them.  The loops of
    [mem.cpp] with a 32-bit counter run with the fuel [loopFuel], one more round than
    the limit, and a loop that exceeds it is the fault [Diverges]; [whileU32_inv] and
    [allocateLoop_spec] show that it is not exceeded below 2^32.  The functions
    of the loader that follow libraries take the depth as fuel, and
    [LoaderModules.loadExe_enough_fuel] says how much is enough; the loops over a dynamic
    section and a symbol table have a round for every byte of the image, which is enough
    too ([readDynamic_ends], [readDynSymbols_ends]).  [Jit.findBlockEnd] has the 3000 rounds
    of the code's own limit, [fetchWords] a round for every byte of the block, and
    [runBlocks] one for every compiled block and one more, which
    [JitSpec.linked_blocks_return] shows to be enough.  The other loops are structural.  The
    endless loops of the run loop and of the clock are given round by round
    ([resumeBody], [clockRound], [cpuRounds]).  What C++ leaves undefined is the
    fault [Undefined], or, where the program runs into it in practice, the behaviour of
    the host as an instance ([ShiftTarget], [HostFloat], [HostEnv]).

    ** Concurrency

    Cores are host threads.  The functions of the kernel are modelled as steps of one
    core that run to their end under the scheduler's lock, and systems of cores as
    sequences of such steps in any order ([SchedulerSafety.reachable],
    [RunLoopSpec.system_run]).  Memory accesses of different cores are not interleaved
    inside an instruction.  The barrier of [DebugPause] is the part whose point is the
    order of the accesses themselves; there every access to shared state is a step.

    ** Not modelled

    - The assembler library [asmjit] is not part of the repository: an emitted instruction
      is a value of [JitAsm.HostInst], its runtime is the interface [Jit.AsmRuntime] with
      the laws [JitSpec.AsmRuntimeLaws], the layout of the core is [JitAsm.CoreLayout], and
      [Jit.execInst] follows the documentation of the x86-64 processor, with what that
      leaves open in [Jit.HostCpu].
    - The refinement of the interpreter by the compiler leaves out the compiled loads,
      stores and [SVC]: the code keeps guest registers in [r10] and [r11] across calls
      that may destroy them, and calls with a program counter that is not up to date, so
      what they do depends on the host.  The kernel's run loop takes the step of the
      compiler as a parameter ([RunLoop.jitStep]), since the compiler's state is not part
      of the kernel's, and the fixture of the unit tests is modelled up to its second run,
      of the compiled code.
    - The windows of the debugger, graphics, input, logging and the platform layer: user
      interface and calls of the host.
    - Files of the host and the library [lz4], which the loader and one service read:
      the parameters [Loader.LoaderHost] and [ServiceBase.ServiceHost].  The copy of each
      image the loader writes to [out.bin], and what it prints, are left out.
    - An object of a service class has no state of its own, so the pointer to it is the
      number of its class; the graphics driver is the list of the addresses it was given
      ([KernelState.shown]).  Bytes that answers leave uninitialised are the parameters
      [Gpu.GpuHost] and [ServiceBase.ServiceHost].
    - [CpuUnitTest] holds the same files as [InterpreterUnitTest], byte for byte.

    ** Plan

    What is left is the compiled loads and stores under a host whose calls preserve [r10]
    and [r11]; the run loop over the compiler; and rows of different instructions that the
    disassembler prints with the same name. *)
From Stdlib Require Export ZArith Lia Bool List Btauto.
From stdpp Require Export base decidable countable numbers list option gmap.

#[global] Open Scope Z_scope.
#[global] Open Scope bool_scope.

(** ** Notations *)

Declare Scope emu_scope.
Delimit Scope emu_scope with emu.
#[global] Open Scope emu_scope.

(** The C++ [a != b] on integers, as a boolean. *)
Notation "a !=? b" := (negb (Z.eqb a b)) (at level 70, no associativity) : emu_scope.

(** [case_of v labels] is the test made by the group of labels
    [case l1: case l2: ...] of a C++ [switch (v)]. *)
Definition case_of (v : Z) (labels : list Z) : bool := existsb (Z.eqb v) labels.

(** ** Machine integers

    A C++ [uintN_t] is an integer in [0 .. 2^N - 1]; every arithmetic operation
    is taken modulo [2^N]. *)

Definition wrap (w z : Z) : Z := z mod 2 ^ w.
Definition u8 (z : Z) : Z := wrap 8 z.
Definition u16 (z : Z) : Z := wrap 16 z.
Definition u32 (z : Z) : Z := wrap 32 z.
Definition u64 (z : Z) : Z := wrap 64 z.

(** [uint z w]: [z] is a value of an unsigned [w]-bit type. *)
Definition uint (w z : Z) : Prop := 0 <= z < 2 ^ w.

(** Two's complement reading of a [w]-bit pattern, as done by the cast from
    [uintN_t] to [intN_t]. *)
Definition to_signed (w z : Z) : Z :=
  let z := wrap w z in if z <? 2 ^ (w - 1) then z else z - 2 ^ w.

(** [~z] on [uint64_t]. *)
Definition not64 (z : Z) : Z := u64 (Z.lnot z).

(** ** Automation *)

Create HintDb emu.
Create Rewrite HintDb testbit.
Create Rewrite HintDb emu_simpl.

(** [simpl_bool]: normalise boolean connectives. *)
#[export] Hint Rewrite andb_true_r andb_true_l andb_false_r andb_false_l
  orb_true_r orb_true_l orb_false_r orb_false_l negb_involutive
  xorb_false_r xorb_false_l : testbit.

Lemma testbit_wrap (w z i : Z) :
  0 <= w -> 0 <= i -> Z.testbit (wrap w z) i = (i <? w) && Z.testbit z i.
Proof.
  intros Hw Hi. unfold wrap. destruct (Z.ltb_spec i w); simpl.
  - apply Z.mod_pow2_bits_low; lia.
  - apply Z.mod_pow2_bits_high; lia.
Qed.

Lemma testbit_ones (n i : Z) :
  0 <= n -> 0 <= i -> Z.testbit (Z.ones n) i = (i <? n).
Proof.
  intros Hn Hi. destruct (Z.ltb_spec i n).
  - apply Z.ones_spec_low; lia.
  - apply Z.ones_spec_high; lia.
Qed.

Lemma testbit_shiftl (z n i : Z) :
  0 <= i -> Z.testbit (Z.shiftl z n) i = (0 <=? i - n) && Z.testbit z (i - n).
Proof.
  intros Hi. rewrite Z.shiftl_spec by lia.
  destruct (Z.leb_spec 0 (i - n)); simpl; [done|].
  rewrite Z.testbit_neg_r by lia. done.
Qed.

Lemma testbit_uint_high (w z i : Z) :
  uint w z -> 0 <= w -> w <= i -> Z.testbit z i = false.
Proof.
  intros [H0 H1] Hw Hi. destruct (Z.eq_dec z 0) as [->|].
  - apply Z.bits_0.
  - apply Z.bits_above_log2; [lia|].
    apply Z.lt_le_trans with w; [|lia]. apply Z.log2_lt_pow2; lia.
Qed.

#[export] Hint Rewrite Z.land_spec Z.lor_spec Z.lxor_spec Z.ldiff_spec Z.bits_0 : testbit.
#[export] Hint Rewrite testbit_wrap testbit_ones testbit_shiftl
  Z.shiftr_spec Z.lnot_spec using lia : testbit.

(** [decide_ltb]: split every integer comparison of the goal, closing the
    impossible branches by linear arithmetic. *)
Ltac decide_ltb :=
  repeat match goal with
  | |- context [?a <? ?b] =>
      first [ replace (a <? b) with true by (symmetry; apply Z.ltb_lt; lia)
            | replace (a <? b) with false by (symmetry; apply Z.ltb_ge; lia)
            | destruct (Z.ltb_spec a b) ]
  | |- context [?a <=? ?b] =>
      first [ replace (a <=? b) with true by (symmetry; apply Z.leb_le; lia)
            | replace (a <=? b) with false by (symmetry; apply Z.leb_gt; lia)
            | destruct (Z.leb_spec a b) ]
  end.

(** [use_uint]: a bit above the width of an unsigned value is zero. *)
Ltac use_uint :=
  repeat match goal with
  | H : uint ?w ?z |- context [Z.testbit ?z ?i] =>
      rewrite (testbit_uint_high w z i H) by lia
  end.

(** [bitwise]: prove an equation of integers bit by bit. *)
Ltac bitwise_at i Hi :=
  apply Z.bits_inj'; intros i Hi;
  repeat (autorewrite with testbit; decide_ltb; use_uint);
  autorewrite with testbit.
Tactic Notation "bitwise" "as" ident(i) ident(Hi) := bitwise_at i Hi.
Tactic Notation "bitwise" :=
  let i := fresh "i" in let Hi := fresh "Hi" in bitwise_at i Hi;
  try reflexivity; try (f_equal; lia); try btauto.

(** ** Lemmas on machine integers *)

Section Wrap.
Context (w : Z) (Hw : 0 <= w).

Lemma wrap_uint (z : Z) : uint w (wrap w z).
Proof. unfold uint, wrap. apply Z.mod_pos_bound. lia. Qed.

Lemma wrap_id (z : Z) : uint w z -> wrap w z = z.
Proof. apply Z.mod_small. Qed.

Lemma wrap_wrap (z : Z) : wrap w (wrap w z) = wrap w z.
Proof. apply wrap_id, wrap_uint. Qed.

Lemma wrap_add_l (a b : Z) : wrap w (wrap w a + b) = wrap w (a + b).
Proof. apply Zplus_mod_idemp_l. Qed.

Lemma wrap_add_r (a b : Z) : wrap w (a + wrap w b) = wrap w (a + b).
Proof. apply Zplus_mod_idemp_r. Qed.

Lemma wrap_mul_l (a b : Z) : wrap w (wrap w a * b) = wrap w (a * b).
Proof. apply Zmult_mod_idemp_l. Qed.

Lemma wrap_mul_r (a b : Z) : wrap w (a * wrap w b) = wrap w (a * b).
Proof. apply Zmult_mod_idemp_r. Qed.

Lemma wrap_land_ones (z : Z) : Z.land z (Z.ones w) = wrap w z.
Proof. apply Z.land_ones; lia. Qed.

Lemma uint_land (a b : Z) : uint w a -> 0 <= b -> uint w (Z.land a b).
Proof.
  intros Ha Hb. rewrite <-(wrap_id a Ha), <-wrap_land_ones,
    <-Z.land_assoc, (Z.land_comm _ b), Z.land_assoc, wrap_land_ones.
  apply wrap_uint.
Qed.
End Wrap.

#[export] Hint Resolve wrap_uint wrap_id : emu.

(** An integer is a [w]-bit value when its bits from [w] on are zero. *)
Lemma uint_bits (w z : Z) :
  0 <= w -> 0 <= z -> (forall i, w <= i -> Z.testbit z i = false) -> uint w z.
Proof.
  intros Hw Hz Hb. split; [done|]. destruct (Z.eq_dec z 0) as [->|].
  - by apply Z.pow_pos_nonneg.
  - apply Z.log2_lt_pow2; [lia|]. destruct (Z.lt_ge_cases (Z.log2 z) w) as [|Hge]; [done|].
    pose proof (Hb _ Hge) as Hf. rewrite Z.bit_log2 in Hf by lia. done.
Qed.

Section UintClosure.
Context (w : Z) (Hw : 0 <= w) (a b : Z) (Ha : uint w a).

Lemma uint_land_pos : 0 <= b -> uint w (Z.land a b).
Proof. by apply uint_land. Qed.

Lemma uint_shiftr (n : Z) : 0 <= n -> uint w (Z.shiftr a n).
Proof.
  intros Hn. destruct Ha as [H0 H1]. rewrite Z.shiftr_div_pow2 by lia.
  assert (0 < 2 ^ n) by (apply Z.pow_pos_nonneg; lia). split.
  - apply Z.div_pos; lia.
  - apply Z.le_lt_trans with a; [|done]. apply Z.div_le_upper_bound; nia.
Qed.

Context (Hb : uint w b).

Lemma uint_land_both : uint w (Z.land a b).
Proof. apply uint_land_pos, Hb. Qed.

Lemma uint_lor : uint w (Z.lor a b).
Proof.
  apply uint_bits; [done|apply Z.lor_nonneg; unfold uint in *; lia|]. intros i Hi.
  by rewrite Z.lor_spec, (testbit_uint_high w a), (testbit_uint_high w b).
Qed.

Lemma uint_lxor : uint w (Z.lxor a b).
Proof.
  apply uint_bits; [done|apply Z.lxor_nonneg; unfold uint in *; lia|]. intros i Hi.
  by rewrite Z.lxor_spec, (testbit_uint_high w a), (testbit_uint_high w b).
Qed.
End UintClosure.

Lemma uint_le (w w' z : Z) : uint w z -> 0 <= w <= w' -> uint w' z.
Proof.
  intros [H0 H1] Hw. split; [done|]. apply Z.lt_le_trans with (2 ^ w); [done|].
  apply Z.pow_le_mono_r; lia.
Qed.

Lemma not64_uint (z : Z) : uint 64 (not64 z).
Proof. by apply wrap_uint. Qed.

Lemma uint_if (w : Z) (b : bool) (x y : Z) :
  uint w x -> uint w y -> uint w (if b then x else y).
Proof. by destruct b. Qed.

#[export] Hint Resolve uint_land_both uint_lor uint_lxor not64_uint uint_if : emu.
(** Integer side conditions of the [emu] lemmas: numerals and linear facts. *)
#[export] Hint Extern 3 (_ <= _) => lia : emu.
#[export] Hint Extern 3 (_ <= _ <= _) => lia : emu.
#[export] Hint Extern 3 (uint _ ?z) =>
  match z with Z0 => idtac | Zpos _ => idtac end; unfold uint; lia : emu.

Lemma wrap_wrap_le (w w' z : Z) :
  0 <= w <= w' -> wrap w (wrap w' z) = wrap w z.
Proof. intros Hw. bitwise. Qed.

Lemma u64_id (z : Z) : uint 64 z -> u64 z = z.
Proof. apply wrap_id. Qed.

Lemma u64_uint (z : Z) : uint 64 (u64 z).
Proof. by apply wrap_uint. Qed.

Lemma testbit_u64 (z i : Z) :
  0 <= i -> Z.testbit (u64 z) i = (i <? 64) && Z.testbit z i.
Proof. by apply testbit_wrap. Qed.

Lemma testbit_not64 (z i : Z) :
  0 <= i -> Z.testbit (not64 z) i = (i <? 64) && negb (Z.testbit z i).
Proof.
  intros Hi. unfold not64. rewrite testbit_u64, Z.lnot_spec by lia. done.
Qed.

#[export] Hint Resolve u64_uint u64_id : emu.
#[export] Hint Rewrite testbit_u64 testbit_not64 using lia : testbit.
