(* ===== verification/BitUtils.v ===== *)
(** * Bit utilities: [common/inc/bitutils.h]

    The helpers the decoder and the interpreter read instruction words and
    registers with.  The templates come in two forms: position and size as
    template arguments (constants of the program: [testBit], [bitmask],
    [bitRange], [signExtend]) and as run-time arguments ([testBit_rt],
    [bitmask_rt], [signExtend_rt]), where a shift count may reach the width of
    the operand. *)
From S2P Require Import Prelude.

(** ** Shifts by a run-time count

    ISO C++ defines [x << n] and [x >> n] on a 64-bit type for counts below 64
    only.  What the compiled program does beyond that is the target's business:
    the two fields of [ShiftTarget] are the value it produces. *)
Class ShiftTarget := {
  shl_oversize : Z -> Z -> Z;
  shr_oversize : Z -> Z -> Z;
}.

Section Shifts.
Context `{ShiftTarget}.

Definition shl64 (x n : Z) : Z :=
  if (0 <=? n) && (n <? 64) then u64 (Z.shiftl x n) else u64 (shl_oversize x n).

Definition shr64 (x n : Z) : Z :=
  if (0 <=? n) && (n <? 64) then Z.shiftr x n else u64 (shr_oversize x n).
End Shifts.

(** The x86-64 target of the project: the hardware takes the count modulo 64. *)
#[export] Instance x86_shifts : ShiftTarget | 10 := {
  shl_oversize x n := Z.shiftl x (n mod 64);
  shr_oversize x n := Z.shiftr x (n mod 64);
}.

(** ** Template-argument forms *)

Definition testBit (pos val : Z) : bool := Z.land val (Z.shiftl 1 pos) !=? 0.

Definition bitmask (size : Z) : Z := Z.shiftl 1 size - 1.

Definition bitRange (start end_ val : Z) : Z :=
  Z.land (Z.shiftr val start) (bitmask (end_ - start + 1)).

Definition signExtend (size val : Z) : Z :=
  if testBit (size - 1) val then Z.lor val (not64 (bitmask size)) else val.

(** ** Run-time forms, at [T = uint64_t] *)

Section RunTime.
Context `{ShiftTarget}.

Definition testBit_rt (val pos : Z) : bool := Z.land val (shl64 1 pos) !=? 0.

Definition bitmask_rt (size : Z) : Z :=
  if size =? 64 then 2 ^ 64 - 1 else u64 (shl64 1 size - 1).

Definition signExtend_rt (val size : Z) : Z :=
  if testBit_rt val (u64 (size - 1)) then Z.lor val (not64 (bitmask_rt size))
  else val.
End RunTime.

(** [constLog2] of [bitutils.h], on the operand sizes of the load/store code. *)
Fixpoint constLog2_pos (num : positive) : Z :=
  match num with
  | xH => 0
  | xO n | xI n => 1 + constLog2_pos n
  end.
Definition constLog2 (num : Z) : Z :=
  match num with Zpos p => constLog2_pos p | _ => 0 end.

(** The condition [flags & flag] of an [if constexpr] on a template argument. *)
Definition has (flags flag : Z) : bool := Z.land flags flag !=? 0.

(** ** Members of structs in buffers *)

(** The little-endian value of bytes, and a member of [n] bytes at an offset. *)
Definition ofBytes (l : list Z) : Z := foldr (fun b v => b + 256 * v) 0 l.
Definition member (off n : nat) (l : list Z) : Z := ofBytes (take n (drop off l)).

(** ** What they compute *)

Lemma testBit_spec (pos val : Z) :
  0 <= pos -> testBit pos val = Z.testbit val pos.
Proof.
  intros Hp. unfold testBit. rewrite Z.shiftl_1_l.
  destruct (Z.testbit val pos) eqn:E.
  - apply negb_true_iff, Z.eqb_neq. intros H0.
    assert (Z.testbit (Z.land val (2 ^ pos)) pos = true) as C
      by (rewrite Z.land_spec, Z.pow2_bits_true, E; done).
    by rewrite H0, Z.bits_0 in C.
  - apply negb_false_iff, Z.eqb_eq. apply Z.bits_inj'. intros i Hi.
    rewrite Z.land_spec, Z.pow2_bits_eqb, Z.bits_0 by lia.
    destruct (Z.eqb_spec pos i) as [<-|]; [by rewrite E|apply andb_false_r].
Qed.

Lemma bitmask_ones (size : Z) : bitmask size = Z.ones size.
Proof. unfold bitmask. rewrite Z.ones_equiv, Z.shiftl_1_l. lia. Qed.

Lemma testbit_bitRange (a b val i : Z) :
  0 <= a <= b -> 0 <= i ->
  Z.testbit (bitRange a b val) i = (i <=? b - a) && Z.testbit val (a + i).
Proof.
  intros Hab Hi. unfold bitRange. rewrite bitmask_ones.
  autorewrite with testbit. rewrite andb_comm, (Z.add_comm i). f_equal.
  destruct (Z.leb_spec i (b - a)), (Z.ltb_spec i (b - a + 1)); lia.
Qed.

Lemma bitRange_div (a b val : Z) :
  0 <= a <= b -> bitRange a b val = (val / 2 ^ a) mod 2 ^ (b - a + 1).
Proof.
  intros Hab. unfold bitRange.
  by rewrite bitmask_ones, Z.land_ones, Z.shiftr_div_pow2 by lia.
Qed.

Lemma bitRange_uint (a b val : Z) :
  0 <= a <= b -> uint (b - a + 1) (bitRange a b val).
Proof. intros Hab. rewrite bitRange_div by lia. apply (wrap_uint (b - a + 1)). lia. Qed.

Lemma shl64_small `{ShiftTarget} (x n : Z) :
  0 <= n < 64 -> shl64 x n = u64 (Z.shiftl x n).
Proof. intros Hn. unfold shl64. decide_ltb. done. Qed.

Lemma shr64_small `{ShiftTarget} (x n : Z) :
  0 <= n < 64 -> shr64 x n = Z.shiftr x n.
Proof. intros Hn. unfold shr64. decide_ltb. done. Qed.

#[export] Hint Rewrite @shl64_small @shr64_small using lia : emu_simpl.

Lemma u64_pow2 (n : Z) : 0 <= n < 64 -> u64 (Z.shiftl 1 n) = Z.shiftl 1 n.
Proof.
  intros Hn. apply wrap_id. rewrite Z.shiftl_1_l. unfold uint.
  split; [by apply Z.pow_nonneg|]. apply Z.pow_lt_mono_r; lia.
Qed.

Lemma testBit_rt_spec `{ShiftTarget} (val pos : Z) :
  0 <= pos < 64 -> testBit_rt val pos = Z.testbit val pos.
Proof.
  intros Hp. unfold testBit_rt. rewrite shl64_small, u64_pow2 by lia.
  rewrite <-(testBit_spec pos val) by lia. done.
Qed.

Lemma bitmask_rt_spec `{ShiftTarget} (size : Z) :
  0 <= size <= 64 -> bitmask_rt size = Z.ones size.
Proof.
  intros Hs. unfold bitmask_rt. destruct (Z.eqb_spec size 64) as [->|]; [done|].
  rewrite shl64_small, u64_pow2 by lia. rewrite Z.shiftl_1_l, Z.ones_equiv.
  apply wrap_id. unfold uint. pose proof (Z.pow_pos_nonneg 2 size).
  pose proof (Z.pow_lt_mono_r 2 size 64). lia.
Qed.

Lemma signExtend_rt_eq `{ShiftTarget} (val size : Z) :
  0 < size <= 64 -> signExtend_rt val size = signExtend size val.
Proof.
  intros Hs. unfold signExtend_rt, signExtend.
  rewrite (u64_id (size - 1)) by (unfold uint; lia).
  rewrite testBit_rt_spec, bitmask_rt_spec, testBit_spec, <-bitmask_ones by lia.
  done.
Qed.

Lemma testbit_signExtend (size val i : Z) :
  0 < size <= 64 -> uint 64 val -> 0 <= i ->
  Z.testbit (signExtend size val) i =
  Z.testbit val i || ((size <=? i) && (i <? 64) && Z.testbit val (size - 1)).
Proof.
  intros Hs Hv Hi. unfold signExtend. rewrite testBit_spec, bitmask_ones by lia.
  destruct (Z.testbit val (size - 1)).
  - autorewrite with testbit. f_equal.
    destruct (Z.ltb_spec i size), (Z.leb_spec size i); try lia; simpl;
      by rewrite ?andb_true_r, ?andb_false_r.
  - by rewrite andb_false_r, orb_false_r.
Qed.

(** On a [size]-bit value, [signExtend<size>] is sign extension to 64 bits. *)
Lemma signExtend_to_signed (size val : Z) :
  0 < size <= 64 -> uint size val -> signExtend size val = u64 (to_signed size val).
Proof.
  intros Hs [H0 H1]. assert (2 ^ size = 2 * 2 ^ (size - 1)) as Hpow.
  { rewrite <-Z.pow_succ_r by lia. f_equal. lia. }
  assert (2 ^ size <= 2 ^ 64) by (apply Z.pow_le_mono_r; lia).
  assert (uint 64 val) as Hv by (unfold uint; lia).
  unfold to_signed. rewrite wrap_id by done.
  unfold signExtend. rewrite testBit_spec, bitmask_ones by lia.
  destruct (Z.ltb_spec val (2 ^ (size - 1))).
  - rewrite (testbit_uint_high (size - 1) val) by (unfold uint; lia).
    symmetry. by apply wrap_id.
  - assert (Z.testbit val (size - 1) = true) as ->.
    { apply Z.testbit_true; [lia|].
      rewrite <-(Z.div_unique_pos val (2 ^ (size - 1)) 1 (val - 2 ^ (size - 1))) by lia.
      done. }
    assert (Z.lor val (not64 (Z.ones size)) = val + not64 (Z.ones size)) as ->.
    { rewrite <-Z.lxor_lor, Z.add_nocarry_lxor; try done;
        bitwise; rewrite (testbit_uint_high size val) by (done || lia);
        by rewrite ?andb_false_r. }
    unfold not64, u64, wrap. rewrite Z.ones_equiv.
    replace (Z.lnot (Z.pred (2 ^ size))) with (- 2 ^ size)
      by (unfold Z.lnot; lia).
    rewrite <-(Z.mod_unique_pos (- 2 ^ size) (2 ^ 64) (-1) (2 ^ 64 - 2 ^ size)) by lia.
    rewrite <-(Z.mod_unique_pos (val - 2 ^ size) (2 ^ 64) (-1)
                 (val + 2 ^ 64 - 2 ^ size)) by lia. lia.
Qed.

(** ** Every helper returns a [uint64_t] *)

Lemma shl64_uint `{ShiftTarget} (x n : Z) : uint 64 (shl64 x n).
Proof. unfold shl64. destruct (_ && _); apply u64_uint. Qed.

Lemma shr64_uint `{ShiftTarget} (x n : Z) : uint 64 x -> uint 64 (shr64 x n).
Proof.
  intros Hx. unfold shr64. destruct (_ && _) eqn:E; [|apply u64_uint].
  apply andb_true_iff in E as [E%Z.leb_le _]. by apply uint_shiftr.
Qed.

Lemma bitmask_uint (size : Z) : 0 <= size <= 64 -> uint 64 (bitmask size).
Proof.
  intros Hs. rewrite bitmask_ones, Z.ones_equiv. unfold uint.
  pose proof (Z.pow_pos_nonneg 2 size). pose proof (Z.pow_le_mono_r 2 size 64). lia.
Qed.

Lemma bitmask_rt_uint `{ShiftTarget} (size : Z) : uint 64 (bitmask_rt size).
Proof.
  unfold bitmask_rt. destruct (_ =? _); [unfold uint; lia|apply u64_uint].
Qed.

Lemma signExtend_uint (size val : Z) : uint 64 val -> uint 64 (signExtend size val).
Proof. intros Hv. unfold signExtend. destruct (testBit _ _); auto with emu. Qed.

Lemma signExtend_rt_uint `{ShiftTarget} (val size : Z) :
  uint 64 val -> uint 64 (signExtend_rt val size).
Proof. intros Hv. unfold signExtend_rt. destruct (testBit_rt _ _); auto with emu. Qed.

Lemma bitRange_uint64 (a b val : Z) :
  0 <= a -> a <= b -> b - a < 64 -> uint 64 (bitRange a b val).
Proof.
  intros H1 H2 H3. apply (uint_le (b - a + 1)); [apply bitRange_uint; lia|lia].
Qed.

#[export] Hint Resolve shl64_uint shr64_uint bitmask_uint bitmask_rt_uint
  signExtend_uint signExtend_rt_uint : emu.
#[export] Hint Extern 2 (uint 64 (bitRange _ _ _)) =>
  apply bitRange_uint64; lia : emu.
