(* ===== verification/Instructions.v ===== *)
(** * The instruction set: [libcpu/inc/instruction.h], [instructionTable.h] and
    [instructions.inl]

    [instructions.inl] is an X-macro list, included once to declare the
    enumeration [instructionID], once to fill the table of the second decoder
    ([decoder::init]) and once for the encoder.  Here the enumeration is an
    inductive type, and the rows of the list, section by section in the order of
    the file, are the entries of the table. *)
From S2P Require Import Prelude.

Module instructionID.

(** [enum class instructionID : uint32_t] *)
Inductive t : Set :=
  | INVALID
  | B_cond
  | BR
  | BLR
  | RET
  | ERET
  | DRPS
  | B
  | BL
  | CBZ_32
  | CBNZ_32
  | CBZ_64
  | CBNZ_64
  | TBZ
  | TBNZ
  | SVC
  | HVC
  | SMC
  | BRK
  | HLT
  | DCPS1
  | DCPS2
  | DCPS3
  | MSR_imm
  | MSR_reg
  | HINT
  | NOP
  | YIELD
  | WFE
  | WFI
  | SEV
  | SEVL
  | CLREX
  | DSB
  | DMB
  | ISB
  | SYS
  | SYSL
  | MRS
  | ADR
  | ADRP
  | ADD_32_imm
  | ADDS_32_imm
  | SUB_32_imm
  | SUBS_32_imm
  | ADD_64_imm
  | ADDS_64_imm
  | SUB_64_imm
  | SUBS_64_imm
  | AND_32_imm
  | ORR_32_imm
  | EOR_32_imm
  | ANDS_32_imm
  | AND_64_imm
  | ORR_64_imm
  | EOR_64_imm
  | ANDS_64_imm
  | MOVN_32
  | MOVZ_32
  | MOVK_32
  | MOVN_64
  | MOVZ_64
  | MOVK_64
  | SBFM_32
  | BFM_32
  | UBFM_32
  | SBFM_64
  | BFM_64
  | UBFM_64
  | EXTR_32
  | EXTR_64
  | UDIV_32
  | SDIV_32
  | LSLV_32
  | LSRV_32
  | ASRV_32
  | RORV_32
  | UDIV_64
  | SDIV_64
  | LSLV_64
  | LSRV_64
  | ASRV_64
  | RORV_64
  | CRC32B
  | CRC32H
  | CRC32W
  | CRC32X
  | CRC32CB
  | CRC32CH
  | CRC32CW
  | CRC32CX
  | RBIT_32
  | REV16_32
  | REV_32
  | CLZ_32
  | CLS_32
  | RBIT_64
  | REV16_64
  | REV32_64
  | REV_64
  | CLZ_64
  | CLS_64
  | AND_32_shifted
  | BIC_32_shifted
  | ORR_32_shifted
  | ORN_32_shifted
  | EOR_32_shifted
  | EON_32_shifted
  | ANDS_32_shifted
  | BICS_32_shifted
  | AND_64_shifted
  | BIC_64_shifted
  | ORR_64_shifted
  | ORN_64_shifted
  | EOR_64_shifted
  | EON_64_shifted
  | ANDS_64_shifted
  | BICS_64_shifted
  | ADD_32_shifted
  | ADDS_32_shifted
  | SUB_32_shifted
  | SUBS_32_shifted
  | ADD_64_shifted
  | ADDS_64_shifted
  | SUB_64_shifted
  | SUBS_64_shifted
  | ADD_32_extended
  | ADDS_32_extended
  | SUB_32_extended
  | SUBS_32_extended
  | ADD_64_extended
  | ADDS_64_extended
  | SUB_64_extended
  | SUBS_64_extended
  | ADC_32
  | ADCS_32
  | SBC_32
  | SBCS_32
  | ADC_64
  | ADCS_64
  | SBC_64
  | SBCS_64
  | CCMN_32_reg
  | CCMP_32_reg
  | CCMN_64_reg
  | CCMP_64_reg
  | CCMN_32_imm
  | CCMP_32_imm
  | CCMN_64_imm
  | CCMP_64_imm
  | CSEL_32
  | CSINC_32
  | CSINV_32
  | CSNEG_32
  | CSEL_64
  | CSINC_64
  | CSINV_64
  | CSNEG_64
  | MADD_32
  | MSUB_32
  | MADD_64
  | MSUB_64
  | SMADDL
  | SMSUBL
  | SMULH
  | UMADDL
  | UMSUBL
  | UMULH
  | ST1_multi_1reg
  | ST1_multi_2reg
  | ST1_multi_3reg
  | ST1_multi_4reg
  | ST2_multi
  | ST3_multi
  | ST4_multi
  | LD1_multi_1reg
  | LD1_multi_2reg
  | LD1_multi_3reg
  | LD1_multi_4reg
  | LD2_multi
  | LD3_multi
  | LD4_multi
  | ST1_multi_reg_1reg
  | ST1_multi_reg_2reg
  | ST1_multi_reg_3reg
  | ST1_multi_reg_4reg
  | ST2_multi_reg
  | ST3_multi_reg
  | ST4_multi_reg
  | ST1_multi_offset_1reg
  | ST1_multi_offset_2reg
  | ST1_multi_offset_3reg
  | ST1_multi_offset_4reg
  | ST2_multi_offset
  | ST3_multi_offset
  | ST4_multi_offset
  | LD1_multi_reg_1reg
  | LD1_multi_reg_2reg
  | LD1_multi_reg_3reg
  | LD1_multi_reg_4reg
  | LD2_multi_reg
  | LD3_multi_reg
  | LD4_multi_reg
  | LD1_multi_offset_1reg
  | LD1_multi_offset_2reg
  | LD1_multi_offset_3reg
  | LD1_multi_offset_4reg
  | LD2_multi_offset
  | LD3_multi_offset
  | LD4_multi_offset
  | ST1_single_8
  | ST1_single_16
  | ST1_single_32
  | ST1_single_64
  | ST2_single_8
  | ST2_single_16
  | ST2_single_32
  | ST2_single_64
  | ST3_single_8
  | ST3_single_16
  | ST3_single_32
  | ST3_single_64
  | ST4_single_8
  | ST4_single_16
  | ST4_single_32
  | ST4_single_64
  | LD1_single_8
  | LD1_single_16
  | LD1_single_32
  | LD1_single_64
  | LD2_single_8
  | LD2_single_16
  | LD2_single_32
  | LD2_single_64
  | LD3_single_8
  | LD3_single_16
  | LD3_single_32
  | LD3_single_64
  | LD4_single_8
  | LD4_single_16
  | LD4_single_32
  | LD4_single_64
  | LD1R
  | LD2R
  | LD3R
  | LD4R
  | ST1_single_8_reg
  | ST1_single_16_reg
  | ST1_single_32_reg
  | ST1_single_64_reg
  | ST2_single_8_reg
  | ST2_single_16_reg
  | ST2_single_32_reg
  | ST2_single_64_reg
  | ST3_single_8_reg
  | ST3_single_16_reg
  | ST3_single_32_reg
  | ST3_single_64_reg
  | ST4_single_8_reg
  | ST4_single_16_reg
  | ST4_single_32_reg
  | ST4_single_64_reg
  | ST1_single_8_imm
  | ST1_single_16_imm
  | ST1_single_32_imm
  | ST1_single_64_imm
  | ST2_single_8_imm
  | ST2_single_16_imm
  | ST2_single_32_imm
  | ST2_single_64_imm
  | ST3_single_8_imm
  | ST3_single_16_imm
  | ST3_single_32_imm
  | ST3_single_64_imm
  | ST4_single_8_imm
  | ST4_single_16_imm
  | ST4_single_32_imm
  | ST4_single_64_imm
  | LD1_single_8_reg
  | LD1_single_16_reg
  | LD1_single_32_reg
  | LD1_single_64_reg
  | LD2_single_8_reg
  | LD2_single_16_reg
  | LD2_single_32_reg
  | LD2_single_64_reg
  | LD3_single_8_reg
  | LD3_single_16_reg
  | LD3_single_32_reg
  | LD3_single_64_reg
  | LD4_single_8_reg
  | LD4_single_16_reg
  | LD4_single_32_reg
  | LD4_single_64_reg
  | LD1R_reg
  | LD2R_reg
  | LD3R_reg
  | LD4R_reg
  | LD1_single_8_imm
  | LD1_single_16_imm
  | LD1_single_32_imm
  | LD1_single_64_imm
  | LD2_single_8_imm
  | LD2_single_16_imm
  | LD2_single_32_imm
  | LD2_single_64_imm
  | LD3_single_8_imm
  | LD3_single_16_imm
  | LD3_single_32_imm
  | LD3_single_64_imm
  | LD4_single_8_imm
  | LD4_single_16_imm
  | LD4_single_32_imm
  | LD4_single_64_imm
  | LD1R_imm
  | LD2R_imm
  | LD3R_imm
  | LD4R_imm
  | STXRB
  | STLXRB
  | LDXRB
  | LDAXRB
  | STLRB
  | LDARB
  | STXRH
  | STLXRH
  | LDXRH
  | LDAXRH
  | STLRH
  | LDARH
  | STXR32
  | STLXR32
  | STXP32
  | STLXP32
  | LDXR32
  | LDAXR32
  | LDXP32
  | LDAXP32
  | STLR32
  | LDAR32
  | STXR64
  | STLXR64
  | STXP64
  | STLXP64
  | LDXR64
  | LDAXR64
  | LDXP64
  | LDAXP64
  | STLR64
  | LDAR64
  | LDR32_literal
  | LDR32_literal_float
  | LDR64_literal
  | LDR64_literal_float
  | LDRSW_literal
  | LDR128_literal
  | PRFM_literal
  | STNP32
  | LDNP32
  | STNP32_float
  | LDNP32_float
  | STNP64_float
  | LDNP64_float
  | STNP64
  | LDNP64
  | STNP128
  | LDNP128
  | STP32_post
  | LDP32_post
  | STP32_post_float
  | LDP32_post_float
  | LDPSW_post
  | STP64_post_float
  | LDP64_post_float
  | STP64_post
  | LDP64_post
  | STP128_post
  | LDP128_post
  | STP32_offset
  | LDP32_offset
  | STP32_offset_float
  | LDP32_offset_float
  | LDPSW_offset
  | STP64_offset_float
  | LDP64_offset_float
  | STP64_offset
  | LDP64_offset
  | STP128_offset
  | LDP128_offset
  | STP32_pre
  | LDP32_pre
  | STP32_pre_float
  | LDP32_pre_float
  | LDPSW_pre
  | STP64_pre_float
  | LDP64_pre_float
  | STP64_pre
  | LDP64_pre
  | STP128_pre
  | LDP128_pre
  | STURB
  | LDURB
  | LDURSB64
  | LDURSB32
  | STUR8_float
  | LDUR8_float
  | STUR128
  | LDUR128
  | STURH
  | LDURH
  | LDURSH64
  | LDURSH32
  | STUR16_float
  | LDUR16_float
  | STUR32
  | LDUR32
  | LDURSW
  | STUR32_float
  | LDUR32_float
  | STUR64
  | LDUR64
  | PRFM_unscaled
  | STUR64_float
  | LDUR64_float
  | STRB_post
  | LDRB_post
  | LDRSB64_post
  | LDRSB32_post
  | STR8_post_float
  | LDR8_post_float
  | STR128_post
  | LDR128_post
  | STRH_post
  | LDRH_post
  | LDRSH64_post
  | LDRSH32_post
  | STR16_post_float
  | LDR16_post_float
  | STR32_post
  | LDR32_post
  | LDRSW_post
  | STR32_post_float
  | LDR32_post_float
  | STR64_post
  | LDR64_post
  | STR64_post_float
  | LDR64_post_float
  | STTRB
  | LDTRB
  | LDTRSB64
  | LDTRSB32
  | STTRH
  | LDTRH
  | LDTRSH64
  | LDTRSH32
  | STTR32
  | LDTR32
  | LDTRSW
  | STTR64
  | LDTR64
  | STRB_pre
  | LDRB_pre
  | LDRSB64_pre
  | LDRSB32_pre
  | STR8_pre_float
  | LDR8_pre_float
  | STR128_pre
  | LDR128_pre
  | STRH_pre
  | LDRH_pre
  | LDRSH64_pre
  | LDRSH32_pre
  | STR16_pre_float
  | LDR16_pre_float
  | STR32_pre
  | LDR32_pre
  | LDRSW_pre
  | STR32_pre_float
  | LDR32_pre_float
  | STR64_pre
  | LDR64_pre
  | STR64_pre_float
  | LDR64_pre_float
  | STRB_reg
  | LDRB_reg
  | LDRSB64_reg
  | LDRSB32_reg
  | STR8_reg_float
  | LDR8_reg_float
  | STR128_reg
  | LDR128_reg
  | STRH_reg
  | LDRH_reg
  | LDRSH64_reg
  | LDRSH32_reg
  | STR16_reg_float
  | LDR16_reg_float
  | STR32_reg
  | LDR32_reg
  | LDRSW_reg
  | STR32_reg_float
  | LDR32_reg_float
  | STR64_reg
  | LDR64_reg
  | PRFM_reg
  | STR64_reg_float
  | LDR64_reg_float
  | STRB_imm
  | LDRB_imm
  | LDRSB64_imm
  | LDRSB32_imm
  | STR8_imm_float
  | LDR8_imm_float
  | STR128_imm
  | LDR128_imm
  | STRH_imm
  | LDRH_imm
  | LDRSH64_imm
  | LDRSH32_imm
  | STR16_imm_float
  | LDR16_imm_float
  | STR32_imm
  | LDR32_imm
  | LDRSW_imm
  | STR32_imm_float
  | LDR32_imm_float
  | STR64_imm
  | LDR64_imm
  | PRFM_imm
  | STR64_imm_float
  | LDR64_imm_float
  | SCVTF_32_single_fixed
  | UCVTF_32_single_fixed
  | FCVTZS_single_32_fixed
  | FCVTZU_single_32_fixed
  | SCVTF_32_double_fixed
  | UCVTF_32_double_fixed
  | FCVTZS_double_32_fixed
  | FCVTZU_double_32_fixed
  | SCVTF_64_single_fixed
  | UCVTF_64_single_fixed
  | FCVTZS_single_64_fixed
  | FCVTZU_single_64_fixed
  | SCVTF_64_double_fixed
  | UCVTF_64_double_fixed
  | FCVTZS_double_64_fixed
  | FCVTZU_double_64_fixed
  | FCVTNS_single_32_int
  | FCVTNU_single_32_int
  | SCVTF_32_single_int
  | UCVTF_32_single_int
  | FCVTAS_single_32_int
  | FCVTAU_single_32_int
  | FMOV_single_32
  | FMOV_32_single
  | FCVTPS_single_32_int
  | FCVTPU_single_32_int
  | FCVTMS_single_32_int
  | FCVTMU_single_32_int
  | FCVTZS_single_32_int
  | FCVTZU_single_32_int
  | FCVTNS_double_32_int
  | FCVTNU_double_32_int
  | SCVTF_32_double_int
  | UCVTF_32_double_int
  | FCVTAS_double_32_int
  | FCVTAU_double_32_int
  | FCVTPS_double_32_int
  | FCVTPU_double_32_int
  | FCVTMS_double_32_int
  | FCVTMU_double_32_int
  | FCVTZS_double_32_int
  | FCVTZU_double_32_int
  | FCVTNS_single_64_int
  | FCVTNU_single_64_int
  | SCVTF_64_single_int
  | UCVTF_64_single_int
  | FCVTAS_single_64_int
  | FCVTAU_single_64_int
  | FCVTPS_single_64_int
  | FCVTPU_single_64_int
  | FCVTMS_single_64_int
  | FCVTMU_single_64_int
  | FCVTZS_single_64_int
  | FCVTZU_single_64_int
  | FCVTNS_double_64_int
  | FCVTNU_double_64_int
  | SCVTF_64_double_int
  | UCVTF_64_double_int
  | FCVTAS_double_64_int
  | FCVTAU_double_64_int
  | FMOV_double_64
  | FMOV_64_double
  | FCVTPS_double_64_int
  | FCVTPU_double_64_int
  | FCVTMS_double_64_int
  | FCVTMU_double_64_int
  | FCVTZS_double_64_int
  | FCVTZU_double_64_int
  | FMOV_top128_64
  | FMOV_64_top128
  | FMOV_reg_single
  | FABS_single
  | FNEG_single
  | FSQRT_single
  | FCVT_single_double
  | FCVT_single_half
  | FRINTN_single
  | FRINTP_single
  | FRINTM_single
  | FRINTZ_single
  | FRINTA_single
  | FRINTX_single
  | FRINTI_single
  | FMOV_reg_double
  | FABS_double
  | FNEG_double
  | FSQRT_double
  | FCVT_double_single
  | FCVT_double_half
  | FRINTN_double
  | FRINTP_double
  | FRINTM_double
  | FRINTZ_double
  | FRINTA_double
  | FRINTX_double
  | FRINTI_double
  | FCVT_half_single
  | FCVT_half_double
  | FCMP_single
  | FCMP_single_zero
  | FCMPE_single
  | FCMPE_single_zero
  | FCMP_double
  | FCMP_double_zero
  | FCMPE_double
  | FCMPE_double_zero
  | FMOV_imm_single
  | FMOV_imm_double
  | FCCMP_single
  | FCCMPE_single
  | FCCMP_double
  | FCCMPE_double
  | FMUL_single
  | FDIV_single
  | FADD_single
  | FSUB_single
  | FMAX_single
  | FMIN_single
  | FMAXNM_single
  | FMINNM_single
  | FNMUL_single
  | FMUL_double
  | FDIV_double
  | FADD_double
  | FSUB_double
  | FMAX_double
  | FMIN_double
  | FMAXNM_double
  | FMINNM_double
  | FNMUL_double
  | FCSEL_single
  | FCSEL_double
  | FMADD_single
  | FMSUB_single
  | FNMADD_single
  | FNMSUB_single
  | FMADD_double
  | FMSUB_double
  | FNMADD_double
  | FNMSUB_double
  | AESE
  | AESD
  | AESMC
  | AESIMC
  | SHA1C
  | SHA1P
  | SHA1M
  | SHA1SU0
  | SHA256H
  | SHA256H2
  | SHA256SU1
  | SHA1H
  | SHA1SU1
  | SHA256SU0
  | DUP_element_scalar
  | SUQADD_scalar
  | SQABS_scalar
  | CMGT_scalar_zero
  | CMEQ_scalar_zero
  | CMLT_scalar_zero
  | ABS_scalar
  | SQXTN_scalar
  | FCVTNS_scalar
  | FCVTMS_scalar
  | FCVTAS_scalar
  | SCVTF_scalar_int
  | FCMGT_scalar_zero
  | FCMEQ_scalar_zero
  | FCMLT_scalar_zero
  | FCVTPS_scalar
  | FCVTZS_scalar_int
  | FRECPE_scalar
  | FRECPX_scalar
  | USQADD_scalar
  | SQNEG_scalar
  | CMGE_scalar_zero
  | CMLE_scalar_zero
  | NEG_scalar
  | SQXTUN_scalar
  | UQXTN_scalar
  | FCVTXN_scalar
  | FCVTNU_scalar
  | FCVTMU_scalar
  | FCVTAU_scalar
  | UCVTF_scalar_int
  | FCMGE_scalar_zero
  | FCMLE_scalar_zero
  | FCVTPU_scalar
  | FCVTZU_scalar_int
  | FRSQRTE_scalar
  | ADDP_scalar
  | FMAXNMP_scalar
  | FADDP_scalar
  | FMAXP_scalar
  | FMINNMP_scalar
  | FMINP_scalar
  | SQDMLAL_scalar
  | SQDMLSL_scalar
  | SQDMULL_scalar
  | SQADD_scalar
  | SQSUB_scalar
  | CMGT_scalar_reg
  | CMGE_scalar_reg
  | SSHL_scalar
  | SQSHL_scalar_reg
  | SRSHL_scalar
  | SQRSHL_scalar
  | ADD_scalar
  | CMTST_scalar
  | SQDMULH_scalar
  | FMULX_scalar
  | FCMEQ_scalar_reg
  | FRECPS_scalar
  | FRSQRTS_scalar
  | UQADD_scalar
  | UQSUB_scalar
  | CMHI_scalar_reg
  | CMHS_scalar_reg
  | USHL_scalar
  | UQSHL_scalar_reg
  | URSHL_scalar
  | UQRSHL_scalar
  | SUB_scalar
  | CMEQ_scalar_reg
  | SQRDMULH_scalar
  | FCMGE_scalar_reg
  | FACGE_scalar
  | FABD_scalar
  | FCMGT_scalar_reg
  | FACGT_scalar
  | SSHR_scalar
  | SSRA_scalar
  | SRSHR_scalar
  | SRSRA_scalar
  | SHL_scalar
  | SQSHL_scalar_imm
  | SQSHRN_scalar
  | SQRSHRN_scalar
  | SCVTF_scalar_fixed
  | FCVTZS_scalar_fixed
  | USHR_scalar
  | USRA_scalar
  | URSHR_scalar
  | URSRA_scalar
  | SRI_scalar
  | SLI_scalar
  | SQSHLU_scalar
  | UQSHL_scalar_imm
  | SQSHRUN_scalar
  | SQRSHRUN_scalar
  | UQSHRN_scalar
  | UQRSHRN_scalar
  | UCVTF_scalar_fixed
  | FCVTZU_scalar_fixed
  | SQDMLAL_scalar_element
  | SQDMLSL_scalar_element
  | SQDMULL_scalar_element
  | SQDMULH_scalar_element
  | SQRDMULH_scalar_element
  | FMLA_scalar_element
  | FMLS_scalar_element
  | FMUL_scalar_element
  | FMULX_scalar_element
  | TBL_one_reg
  | TBX_one_reg
  | TBL_two_reg
  | TBX_two_reg
  | TBL_three_reg
  | TBX_three_reg
  | TBL_four_reg
  | TBX_four_reg
  | UZP1
  | TRN1
  | ZIP1
  | UZP2
  | TRN2
  | ZIP2
  | EXT
  | DUP_element_vec
  | DUP_general
  | SMOV_32
  | UMOV_32
  | INS_general
  | SMOV_64
  | UMOV_64
  | INS_element
  | REV64_vec
  | REV16_vec
  | SADDLP_vec
  | SUQADD_vec
  | CLS_vec
  | CNT_vec
  | SADALP_vec
  | SQABS_vec
  | CMGT_vec_zero
  | CMEQ_vec_zero
  | CMLT_vec_zero
  | ABS_vec
  | XTN_vec
  | XTN2_vec
  | SQXTN_vec
  | SQXTN2_vec
  | FCVTN_vec
  | FCVTN2_vec
  | FCVTL_vec
  | FCVTL2_vec
  | FRINTN_vec
  | FRINTM_vec
  | FCVTNS_vec
  | FCVTMS_vec
  | FCVTAS_vec
  | SCVTF_vec_int
  | FCMGT_vec_zero
  | FCMEQ_vec_zero
  | FCMLT_vec_zero
  | FABS_vec
  | FRINTP_vec
  | FRINTZ_vec
  | FCVTPS_vec
  | FCVTZS_vec_int
  | URECPE_vec
  | FRECPE_vec
  | REV32_vec
  | UADDLP_vec
  | USQADD_vec
  | CLZ_vec
  | UADALP_vec
  | SQNEG_vec
  | CMGE_vec_zero
  | CMLE_vec_zero
  | NEG_vec
  | SQXTUN_vec
  | SQXTUN2_vec
  | SHLL_vec
  | SHLL2_vec
  | UQXTN_vec
  | UQXTN2_vec
  | FCVTXN_vec
  | FCVTXN2_vec
  | FRINTA_vec
  | FRINTX_vec
  | FCVTNU_vec
  | FCVTMU_vec
  | FCVTAU_vec
  | UCVTF_vec_int
  | NOT_vec
  | RBIT_vec
  | FCMGE_vec_zero
  | FCMLE_vec_zero
  | FNEG_vec
  | FRINTI_vec
  | FCVTPU_vec
  | FCVTZU_vec_int
  | URSQRTE_vec
  | FRSQRTE_vec
  | FSQRT_vec
  | SADDLV_vec
  | SMAXV_vec
  | SMINV_vec
  | ADDV_vec
  | UADDLV_vec
  | UMAXV_vec
  | UMINV_vec
  | FMAXNMV_vec
  | FMAXV_vec
  | FMINNMV_vec
  | FMINV_vec
  | SADDL
  | SADDL2
  | SADDW
  | SADDW2
  | SSUBL
  | SSUBL2
  | SSUBW
  | SSUBW2
  | ADDHN
  | ADDHN2
  | SABAL
  | SABAL2
  | SUBHN
  | SUBHN2
  | SABDL
  | SABDL2
  | SMLAL_vec
  | SMLAL2_vec
  | SQDMLAL_vec
  | SQDMLAL2_vec
  | SMLSL_vec
  | SMLSL2_vec
  | SQDMLSL_vec
  | SQDMLSL2_vec
  | SMULL_vec
  | SMULL2_vec
  | SQDMULL_vec
  | SQDMULL2_vec
  | PMULL
  | PMULL2
  | UADDL
  | UADDL2
  | UADDW
  | UADDW2
  | USUBL
  | USUBL2
  | USUBW
  | USUBW2
  | RADDHN
  | RADDHN2
  | UABAL
  | UABAL2
  | RSUBHN
  | RSUBHN2
  | UABDL
  | UABDL2
  | UMLAL_vec
  | UMLAL2_vec
  | UMLSL_vec
  | UMLSL2_vec
  | UMULL_vec
  | UMULL2_vec
  | SHADD_vec
  | SQADD_vec
  | SRHADD_vec
  | SHSUB_vec
  | SQSUB_vec
  | CMGT_vec_reg
  | CMGE_vec_reg
  | SSHL_vec
  | SQSHL_vec_reg
  | SRSHL_vec
  | SQRSHL_vec
  | SMAX_vec
  | SMIN_vec
  | SABD_vec
  | SABA_vec
  | ADD_vec
  | CMTST_vec
  | MLA_vec
  | MUL_vec
  | SMAXP_vec
  | SMINP_vec
  | SQDMULH_vec
  | ADDP_vec
  | FMAXNM_vec
  | FMLA_vec
  | FADD_vec
  | FMULX_vec
  | FCMEQ_vec_reg
  | FMAX_vec
  | FRECPS_vec
  | AND_vec
  | BIC_vec_reg
  | FMINNM_vec
  | FMLS_vec
  | FSUB_vec
  | FMIN_vec
  | FRSQRTS_vec
  | ORR_vec_reg
  | ORN_vec
  | UHADD_vec
  | UQADD_vec
  | URHADD_vec
  | UHSUB_vec
  | UQSUB_vec
  | CMHI_vec_reg
  | CMHS_vec_reg
  | USHL_vec
  | UQSHL_vec_reg
  | URSHL_vec
  | UQRSHL_vec
  | UMAX_vec
  | UMIN_vec
  | UABD_vec
  | UABA_vec
  | SUB_vec
  | CMEQ_vec_reg
  | MLS_vec
  | PMUL_vec
  | UMAXP_vec
  | UMINP_vec
  | SQRDMULH_vec
  | FMAXNMP_vec
  | FADDP_vec
  | FMUL_vec
  | FCMGE_vec_reg
  | FACGE_vec
  | FMAXP_vec
  | FDIV_vec
  | EOR_vec
  | BSL_vec
  | FMINNMP_vec
  | FABD_vec
  | FCMGT_vec_reg
  | FACGT_vec
  | FMINP_vec
  | BIT_vec
  | BIF_vec
  | MOVI_32_shifted_imm
  | ORR_vec_imm_32
  | MOVI_16_shifted_imm
  | ORR_vec_imm_16
  | MOVI_32_shifting_ones
  | MOVI_8_imm
  | FMOV_vec_imm_single
  | MVNI_32_shifted_imm
  | BIC_vec_imm_32
  | MVNI_16_shifted_imm
  | BIC_vec_imm_16
  | MVNI_32_shifting_ones
  | MOVI_64_scalar
  | MOVI_64_vec
  | FMOV_vec_imm_double
  | SSHR_vec
  | SSRA_vec
  | SRSHR_vec
  | SRSRA_vec
  | SHL_vec
  | SQSHL_vec_imm
  | SHRN_vec
  | SHRN2_vec
  | RSHRN_vec
  | RSHRN2_vec
  | SQSHRN_vec
  | SQSHRN2_vec
  | SQRSHRN_vec
  | SQRSHRN2_vec
  | SSHLL_vec
  | SSHLL2_vec
  | SCVTF_vec_fixed
  | FCVTZS_vec_fixed
  | USHR_vec
  | USRA_vec
  | URSHR_vec
  | URSRA_vec
  | SRI_vec
  | SLI_vec
  | SQSHLU_vec
  | UQSHL_vec_imm
  | SQSHRUN_vec
  | SQSHRUN2_vec
  | SQRSHRUN_vec
  | SQRSHRUN2_vec
  | UQSHRN_vec
  | UQSHRN2_vec
  | UQRSHRN_vec
  | UQRSHRN2_vec
  | USHLL_vec
  | USHLL2_vec
  | UCVTF_vec_fixed
  | FCVTZU_vec_fixed
  | SMLAL_vec_element
  | SMLAL2_vec_element
  | SQDMLAL_vec_element
  | SQDMLAL2_vec_element
  | SMLSL_vec_element
  | SMLSL2_vec_element
  | SQDMLSL_vec_element
  | SQDMLSL2_vec_element
  | MUL_vec_element
  | SMULL_vec_element
  | SMULL2_vec_element
  | SQDMULL_vec_element
  | SQDMULL2_vec_element
  | SQDMULH_vec_element
  | SQRDMULH_vec_element
  | FMLA_vec_element
  | FMLS_vec_element
  | FMUL_vec_element
  | MLA_vec_element
  | UMLAL_vec_element
  | UMLAL2_vec_element
  | MLS_vec_element
  | UMLSL_vec_element
  | UMLSL2_vec_element
  | UMULL_vec_element
  | UMULL2_vec_element
  | FMULX_vec_element
.

(** [static_cast<size_t>(id)] *)
Definition index (id : t) : Z :=
  match id with
  | INVALID => 0
  | B_cond => 1
  | BR => 2
  | BLR => 3
  | RET => 4
  | ERET => 5
  | DRPS => 6
  | B => 7
  | BL => 8
  | CBZ_32 => 9
  | CBNZ_32 => 10
  | CBZ_64 => 11
  | CBNZ_64 => 12
  | TBZ => 13
  | TBNZ => 14
  | SVC => 15
  | HVC => 16
  | SMC => 17
  | BRK => 18
  | HLT => 19
  | DCPS1 => 20
  | DCPS2 => 21
  | DCPS3 => 22
  | MSR_imm => 23
  | MSR_reg => 24
  | HINT => 25
  | NOP => 26
  | YIELD => 27
  | WFE => 28
  | WFI => 29
  | SEV => 30
  | SEVL => 31
  | CLREX => 32
  | DSB => 33
  | DMB => 34
  | ISB => 35
  | SYS => 36
  | SYSL => 37
  | MRS => 38
  | ADR => 39
  | ADRP => 40
  | ADD_32_imm => 41
  | ADDS_32_imm => 42
  | SUB_32_imm => 43
  | SUBS_32_imm => 44
  | ADD_64_imm => 45
  | ADDS_64_imm => 46
  | SUB_64_imm => 47
  | SUBS_64_imm => 48
  | AND_32_imm => 49
  | ORR_32_imm => 50
  | EOR_32_imm => 51
  | ANDS_32_imm => 52
  | AND_64_imm => 53
  | ORR_64_imm => 54
  | EOR_64_imm => 55
  | ANDS_64_imm => 56
  | MOVN_32 => 57
  | MOVZ_32 => 58
  | MOVK_32 => 59
  | MOVN_64 => 60
  | MOVZ_64 => 61
  | MOVK_64 => 62
  | SBFM_32 => 63
  | BFM_32 => 64
  | UBFM_32 => 65
  | SBFM_64 => 66
  | BFM_64 => 67
  | UBFM_64 => 68
  | EXTR_32 => 69
  | EXTR_64 => 70
  | UDIV_32 => 71
  | SDIV_32 => 72
  | LSLV_32 => 73
  | LSRV_32 => 74
  | ASRV_32 => 75
  | RORV_32 => 76
  | UDIV_64 => 77
  | SDIV_64 => 78
  | LSLV_64 => 79
  | LSRV_64 => 80
  | ASRV_64 => 81
  | RORV_64 => 82
  | CRC32B => 83
  | CRC32H => 84
  | CRC32W => 85
  | CRC32X => 86
  | CRC32CB => 87
  | CRC32CH => 88
  | CRC32CW => 89
  | CRC32CX => 90
  | RBIT_32 => 91
  | REV16_32 => 92
  | REV_32 => 93
  | CLZ_32 => 94
  | CLS_32 => 95
  | RBIT_64 => 96
  | REV16_64 => 97
  | REV32_64 => 98
  | REV_64 => 99
  | CLZ_64 => 100
  | CLS_64 => 101
  | AND_32_shifted => 102
  | BIC_32_shifted => 103
  | ORR_32_shifted => 104
  | ORN_32_shifted => 105
  | EOR_32_shifted => 106
  | EON_32_shifted => 107
  | ANDS_32_shifted => 108
  | BICS_32_shifted => 109
  | AND_64_shifted => 110
  | BIC_64_shifted => 111
  | ORR_64_shifted => 112
  | ORN_64_shifted => 113
  | EOR_64_shifted => 114
  | EON_64_shifted => 115
  | ANDS_64_shifted => 116
  | BICS_64_shifted => 117
  | ADD_32_shifted => 118
  | ADDS_32_shifted => 119
  | SUB_32_shifted => 120
  | SUBS_32_shifted => 121
  | ADD_64_shifted => 122
  | ADDS_64_shifted => 123
  | SUB_64_shifted => 124
  | SUBS_64_shifted => 125
  | ADD_32_extended => 126
  | ADDS_32_extended => 127
  | SUB_32_extended => 128
  | SUBS_32_extended => 129
  | ADD_64_extended => 130
  | ADDS_64_extended => 131
  | SUB_64_extended => 132
  | SUBS_64_extended => 133
  | ADC_32 => 134
  | ADCS_32 => 135
  | SBC_32 => 136
  | SBCS_32 => 137
  | ADC_64 => 138
  | ADCS_64 => 139
  | SBC_64 => 140
  | SBCS_64 => 141
  | CCMN_32_reg => 142
  | CCMP_32_reg => 143
  | CCMN_64_reg => 144
  | CCMP_64_reg => 145
  | CCMN_32_imm => 146
  | CCMP_32_imm => 147
  | CCMN_64_imm => 148
  | CCMP_64_imm => 149
  | CSEL_32 => 150
  | CSINC_32 => 151
  | CSINV_32 => 152
  | CSNEG_32 => 153
  | CSEL_64 => 154
  | CSINC_64 => 155
  | CSINV_64 => 156
  | CSNEG_64 => 157
  | MADD_32 => 158
  | MSUB_32 => 159
  | MADD_64 => 160
  | MSUB_64 => 161
  | SMADDL => 162
  | SMSUBL => 163
  | SMULH => 164
  | UMADDL => 165
  | UMSUBL => 166
  | UMULH => 167
  | ST1_multi_1reg => 168
  | ST1_multi_2reg => 169
  | ST1_multi_3reg => 170
  | ST1_multi_4reg => 171
  | ST2_multi => 172
  | ST3_multi => 173
  | ST4_multi => 174
  | LD1_multi_1reg => 175
  | LD1_multi_2reg => 176
  | LD1_multi_3reg => 177
  | LD1_multi_4reg => 178
  | LD2_multi => 179
  | LD3_multi => 180
  | LD4_multi => 181
  | ST1_multi_reg_1reg => 182
  | ST1_multi_reg_2reg => 183
  | ST1_multi_reg_3reg => 184
  | ST1_multi_reg_4reg => 185
  | ST2_multi_reg => 186
  | ST3_multi_reg => 187
  | ST4_multi_reg => 188
  | ST1_multi_offset_1reg => 189
  | ST1_multi_offset_2reg => 190
  | ST1_multi_offset_3reg => 191
  | ST1_multi_offset_4reg => 192
  | ST2_multi_offset => 193
  | ST3_multi_offset => 194
  | ST4_multi_offset => 195
  | LD1_multi_reg_1reg => 196
  | LD1_multi_reg_2reg => 197
  | LD1_multi_reg_3reg => 198
  | LD1_multi_reg_4reg => 199
  | LD2_multi_reg => 200
  | LD3_multi_reg => 201
  | LD4_multi_reg => 202
  | LD1_multi_offset_1reg => 203
  | LD1_multi_offset_2reg => 204
  | LD1_multi_offset_3reg => 205
  | LD1_multi_offset_4reg => 206
  | LD2_multi_offset => 207
  | LD3_multi_offset => 208
  | LD4_multi_offset => 209
  | ST1_single_8 => 210
  | ST1_single_16 => 211
  | ST1_single_32 => 212
  | ST1_single_64 => 213
  | ST2_single_8 => 214
  | ST2_single_16 => 215
  | ST2_single_32 => 216
  | ST2_single_64 => 217
  | ST3_single_8 => 218
  | ST3_single_16 => 219
  | ST3_single_32 => 220
  | ST3_single_64 => 221
  | ST4_single_8 => 222
  | ST4_single_16 => 223
  | ST4_single_32 => 224
  | ST4_single_64 => 225
  | LD1_single_8 => 226
  | LD1_single_16 => 227
  | LD1_single_32 => 228
  | LD1_single_64 => 229
  | LD2_single_8 => 230
  | LD2_single_16 => 231
  | LD2_single_32 => 232
  | LD2_single_64 => 233
  | LD3_single_8 => 234
  | LD3_single_16 => 235
  | LD3_single_32 => 236
  | LD3_single_64 => 237
  | LD4_single_8 => 238
  | LD4_single_16 => 239
  | LD4_single_32 => 240
  | LD4_single_64 => 241
  | LD1R => 242
  | LD2R => 243
  | LD3R => 244
  | LD4R => 245
  | ST1_single_8_reg => 246
  | ST1_single_16_reg => 247
  | ST1_single_32_reg => 248
  | ST1_single_64_reg => 249
  | ST2_single_8_reg => 250
  | ST2_single_16_reg => 251
  | ST2_single_32_reg => 252
  | ST2_single_64_reg => 253
  | ST3_single_8_reg => 254
  | ST3_single_16_reg => 255
  | ST3_single_32_reg => 256
  | ST3_single_64_reg => 257
  | ST4_single_8_reg => 258
  | ST4_single_16_reg => 259
  | ST4_single_32_reg => 260
  | ST4_single_64_reg => 261
  | ST1_single_8_imm => 262
  | ST1_single_16_imm => 263
  | ST1_single_32_imm => 264
  | ST1_single_64_imm => 265
  | ST2_single_8_imm => 266
  | ST2_single_16_imm => 267
  | ST2_single_32_imm => 268
  | ST2_single_64_imm => 269
  | ST3_single_8_imm => 270
  | ST3_single_16_imm => 271
  | ST3_single_32_imm => 272
  | ST3_single_64_imm => 273
  | ST4_single_8_imm => 274
  | ST4_single_16_imm => 275
  | ST4_single_32_imm => 276
  | ST4_single_64_imm => 277
  | LD1_single_8_reg => 278
  | LD1_single_16_reg => 279
  | LD1_single_32_reg => 280
  | LD1_single_64_reg => 281
  | LD2_single_8_reg => 282
  | LD2_single_16_reg => 283
  | LD2_single_32_reg => 284
  | LD2_single_64_reg => 285
  | LD3_single_8_reg => 286
  | LD3_single_16_reg => 287
  | LD3_single_32_reg => 288
  | LD3_single_64_reg => 289
  | LD4_single_8_reg => 290
  | LD4_single_16_reg => 291
  | LD4_single_32_reg => 292
  | LD4_single_64_reg => 293
  | LD1R_reg => 294
  | LD2R_reg => 295
  | LD3R_reg => 296
  | LD4R_reg => 297
  | LD1_single_8_imm => 298
  | LD1_single_16_imm => 299
  | LD1_single_32_imm => 300
  | LD1_single_64_imm => 301
  | LD2_single_8_imm => 302
  | LD2_single_16_imm => 303
  | LD2_single_32_imm => 304
  | LD2_single_64_imm => 305
  | LD3_single_8_imm => 306
  | LD3_single_16_imm => 307
  | LD3_single_32_imm => 308
  | LD3_single_64_imm => 309
  | LD4_single_8_imm => 310
  | LD4_single_16_imm => 311
  | LD4_single_32_imm => 312
  | LD4_single_64_imm => 313
  | LD1R_imm => 314
  | LD2R_imm => 315
  | LD3R_imm => 316
  | LD4R_imm => 317
  | STXRB => 318
  | STLXRB => 319
  | LDXRB => 320
  | LDAXRB => 321
  | STLRB => 322
  | LDARB => 323
  | STXRH => 324
  | STLXRH => 325
  | LDXRH => 326
  | LDAXRH => 327
  | STLRH => 328
  | LDARH => 329
  | STXR32 => 330
  | STLXR32 => 331
  | STXP32 => 332
  | STLXP32 => 333
  | LDXR32 => 334
  | LDAXR32 => 335
  | LDXP32 => 336
  | LDAXP32 => 337
  | STLR32 => 338
  | LDAR32 => 339
  | STXR64 => 340
  | STLXR64 => 341
  | STXP64 => 342
  | STLXP64 => 343
  | LDXR64 => 344
  | LDAXR64 => 345
  | LDXP64 => 346
  | LDAXP64 => 347
  | STLR64 => 348
  | LDAR64 => 349
  | LDR32_literal => 350
  | LDR32_literal_float => 351
  | LDR64_literal => 352
  | LDR64_literal_float => 353
  | LDRSW_literal => 354
  | LDR128_literal => 355
  | PRFM_literal => 356
  | STNP32 => 357
  | LDNP32 => 358
  | STNP32_float => 359
  | LDNP32_float => 360
  | STNP64_float => 361
  | LDNP64_float => 362
  | STNP64 => 363
  | LDNP64 => 364
  | STNP128 => 365
  | LDNP128 => 366
  | STP32_post => 367
  | LDP32_post => 368
  | STP32_post_float => 369
  | LDP32_post_float => 370
  | LDPSW_post => 371
  | STP64_post_float => 372
  | LDP64_post_float => 373
  | STP64_post => 374
  | LDP64_post => 375
  | STP128_post => 376
  | LDP128_post => 377
  | STP32_offset => 378
  | LDP32_offset => 379
  | STP32_offset_float => 380
  | LDP32_offset_float => 381
  | LDPSW_offset => 382
  | STP64_offset_float => 383
  | LDP64_offset_float => 384
  | STP64_offset => 385
  | LDP64_offset => 386
  | STP128_offset => 387
  | LDP128_offset => 388
  | STP32_pre => 389
  | LDP32_pre => 390
  | STP32_pre_float => 391
  | LDP32_pre_float => 392
  | LDPSW_pre => 393
  | STP64_pre_float => 394
  | LDP64_pre_float => 395
  | STP64_pre => 396
  | LDP64_pre => 397
  | STP128_pre => 398
  | LDP128_pre => 399
  | STURB => 400
  | LDURB => 401
  | LDURSB64 => 402
  | LDURSB32 => 403
  | STUR8_float => 404
  | LDUR8_float => 405
  | STUR128 => 406
  | LDUR128 => 407
  | STURH => 408
  | LDURH => 409
  | LDURSH64 => 410
  | LDURSH32 => 411
  | STUR16_float => 412
  | LDUR16_float => 413
  | STUR32 => 414
  | LDUR32 => 415
  | LDURSW => 416
  | STUR32_float => 417
  | LDUR32_float => 418
  | STUR64 => 419
  | LDUR64 => 420
  | PRFM_unscaled => 421
  | STUR64_float => 422
  | LDUR64_float => 423
  | STRB_post => 424
  | LDRB_post => 425
  | LDRSB64_post => 426
  | LDRSB32_post => 427
  | STR8_post_float => 428
  | LDR8_post_float => 429
  | STR128_post => 430
  | LDR128_post => 431
  | STRH_post => 432
  | LDRH_post => 433
  | LDRSH64_post => 434
  | LDRSH32_post => 435
  | STR16_post_float => 436
  | LDR16_post_float => 437
  | STR32_post => 438
  | LDR32_post => 439
  | LDRSW_post => 440
  | STR32_post_float => 441
  | LDR32_post_float => 442
  | STR64_post => 443
  | LDR64_post => 444
  | STR64_post_float => 445
  | LDR64_post_float => 446
  | STTRB => 447
  | LDTRB => 448
  | LDTRSB64 => 449
  | LDTRSB32 => 450
  | STTRH => 451
  | LDTRH => 452
  | LDTRSH64 => 453
  | LDTRSH32 => 454
  | STTR32 => 455
  | LDTR32 => 456
  | LDTRSW => 457
  | STTR64 => 458
  | LDTR64 => 459
  | STRB_pre => 460
  | LDRB_pre => 461
  | LDRSB64_pre => 462
  | LDRSB32_pre => 463
  | STR8_pre_float => 464
  | LDR8_pre_float => 465
  | STR128_pre => 466
  | LDR128_pre => 467
  | STRH_pre => 468
  | LDRH_pre => 469
  | LDRSH64_pre => 470
  | LDRSH32_pre => 471
  | STR16_pre_float => 472
  | LDR16_pre_float => 473
  | STR32_pre => 474
  | LDR32_pre => 475
  | LDRSW_pre => 476
  | STR32_pre_float => 477
  | LDR32_pre_float => 478
  | STR64_pre => 479
  | LDR64_pre => 480
  | STR64_pre_float => 481
  | LDR64_pre_float => 482
  | STRB_reg => 483
  | LDRB_reg => 484
  | LDRSB64_reg => 485
  | LDRSB32_reg => 486
  | STR8_reg_float => 487
  | LDR8_reg_float => 488
  | STR128_reg => 489
  | LDR128_reg => 490
  | STRH_reg => 491
  | LDRH_reg => 492
  | LDRSH64_reg => 493
  | LDRSH32_reg => 494
  | STR16_reg_float => 495
  | LDR16_reg_float => 496
  | STR32_reg => 497
  | LDR32_reg => 498
  | LDRSW_reg => 499
  | STR32_reg_float => 500
  | LDR32_reg_float => 501
  | STR64_reg => 502
  | LDR64_reg => 503
  | PRFM_reg => 504
  | STR64_reg_float => 505
  | LDR64_reg_float => 506
  | STRB_imm => 507
  | LDRB_imm => 508
  | LDRSB64_imm => 509
  | LDRSB32_imm => 510
  | STR8_imm_float => 511
  | LDR8_imm_float => 512
  | STR128_imm => 513
  | LDR128_imm => 514
  | STRH_imm => 515
  | LDRH_imm => 516
  | LDRSH64_imm => 517
  | LDRSH32_imm => 518
  | STR16_imm_float => 519
  | LDR16_imm_float => 520
  | STR32_imm => 521
  | LDR32_imm => 522
  | LDRSW_imm => 523
  | STR32_imm_float => 524
  | LDR32_imm_float => 525
  | STR64_imm => 526
  | LDR64_imm => 527
  | PRFM_imm => 528
  | STR64_imm_float => 529
  | LDR64_imm_float => 530
  | SCVTF_32_single_fixed => 531
  | UCVTF_32_single_fixed => 532
  | FCVTZS_single_32_fixed => 533
  | FCVTZU_single_32_fixed => 534
  | SCVTF_32_double_fixed => 535
  | UCVTF_32_double_fixed => 536
  | FCVTZS_double_32_fixed => 537
  | FCVTZU_double_32_fixed => 538
  | SCVTF_64_single_fixed => 539
  | UCVTF_64_single_fixed => 540
  | FCVTZS_single_64_fixed => 541
  | FCVTZU_single_64_fixed => 542
  | SCVTF_64_double_fixed => 543
  | UCVTF_64_double_fixed => 544
  | FCVTZS_double_64_fixed => 545
  | FCVTZU_double_64_fixed => 546
  | FCVTNS_single_32_int => 547
  | FCVTNU_single_32_int => 548
  | SCVTF_32_single_int => 549
  | UCVTF_32_single_int => 550
  | FCVTAS_single_32_int => 551
  | FCVTAU_single_32_int => 552
  | FMOV_single_32 => 553
  | FMOV_32_single => 554
  | FCVTPS_single_32_int => 555
  | FCVTPU_single_32_int => 556
  | FCVTMS_single_32_int => 557
  | FCVTMU_single_32_int => 558
  | FCVTZS_single_32_int => 559
  | FCVTZU_single_32_int => 560
  | FCVTNS_double_32_int => 561
  | FCVTNU_double_32_int => 562
  | SCVTF_32_double_int => 563
  | UCVTF_32_double_int => 564
  | FCVTAS_double_32_int => 565
  | FCVTAU_double_32_int => 566
  | FCVTPS_double_32_int => 567
  | FCVTPU_double_32_int => 568
  | FCVTMS_double_32_int => 569
  | FCVTMU_double_32_int => 570
  | FCVTZS_double_32_int => 571
  | FCVTZU_double_32_int => 572
  | FCVTNS_single_64_int => 573
  | FCVTNU_single_64_int => 574
  | SCVTF_64_single_int => 575
  | UCVTF_64_single_int => 576
  | FCVTAS_single_64_int => 577
  | FCVTAU_single_64_int => 578
  | FCVTPS_single_64_int => 579
  | FCVTPU_single_64_int => 580
  | FCVTMS_single_64_int => 581
  | FCVTMU_single_64_int => 582
  | FCVTZS_single_64_int => 583
  | FCVTZU_single_64_int => 584
  | FCVTNS_double_64_int => 585
  | FCVTNU_double_64_int => 586
  | SCVTF_64_double_int => 587
  | UCVTF_64_double_int => 588
  | FCVTAS_double_64_int => 589
  | FCVTAU_double_64_int => 590
  | FMOV_double_64 => 591
  | FMOV_64_double => 592
  | FCVTPS_double_64_int => 593
  | FCVTPU_double_64_int => 594
  | FCVTMS_double_64_int => 595
  | FCVTMU_double_64_int => 596
  | FCVTZS_double_64_int => 597
  | FCVTZU_double_64_int => 598
  | FMOV_top128_64 => 599
  | FMOV_64_top128 => 600
  | FMOV_reg_single => 601
  | FABS_single => 602
  | FNEG_single => 603
  | FSQRT_single => 604
  | FCVT_single_double => 605
  | FCVT_single_half => 606
  | FRINTN_single => 607
  | FRINTP_single => 608
  | FRINTM_single => 609
  | FRINTZ_single => 610
  | FRINTA_single => 611
  | FRINTX_single => 612
  | FRINTI_single => 613
  | FMOV_reg_double => 614
  | FABS_double => 615
  | FNEG_double => 616
  | FSQRT_double => 617
  | FCVT_double_single => 618
  | FCVT_double_half => 619
  | FRINTN_double => 620
  | FRINTP_double => 621
  | FRINTM_double => 622
  | FRINTZ_double => 623
  | FRINTA_double => 624
  | FRINTX_double => 625
  | FRINTI_double => 626
  | FCVT_half_single => 627
  | FCVT_half_double => 628
  | FCMP_single => 629
  | FCMP_single_zero => 630
  | FCMPE_single => 631
  | FCMPE_single_zero => 632
  | FCMP_double => 633
  | FCMP_double_zero => 634
  | FCMPE_double => 635
  | FCMPE_double_zero => 636
  | FMOV_imm_single => 637
  | FMOV_imm_double => 638
  | FCCMP_single => 639
  | FCCMPE_single => 640
  | FCCMP_double => 641
  | FCCMPE_double => 642
  | FMUL_single => 643
  | FDIV_single => 644
  | FADD_single => 645
  | FSUB_single => 646
  | FMAX_single => 647
  | FMIN_single => 648
  | FMAXNM_single => 649
  | FMINNM_single => 650
  | FNMUL_single => 651
  | FMUL_double => 652
  | FDIV_double => 653
  | FADD_double => 654
  | FSUB_double => 655
  | FMAX_double => 656
  | FMIN_double => 657
  | FMAXNM_double => 658
  | FMINNM_double => 659
  | FNMUL_double => 660
  | FCSEL_single => 661
  | FCSEL_double => 662
  | FMADD_single => 663
  | FMSUB_single => 664
  | FNMADD_single => 665
  | FNMSUB_single => 666
  | FMADD_double => 667
  | FMSUB_double => 668
  | FNMADD_double => 669
  | FNMSUB_double => 670
  | AESE => 671
  | AESD => 672
  | AESMC => 673
  | AESIMC => 674
  | SHA1C => 675
  | SHA1P => 676
  | SHA1M => 677
  | SHA1SU0 => 678
  | SHA256H => 679
  | SHA256H2 => 680
  | SHA256SU1 => 681
  | SHA1H => 682
  | SHA1SU1 => 683
  | SHA256SU0 => 684
  | DUP_element_scalar => 685
  | SUQADD_scalar => 686
  | SQABS_scalar => 687
  | CMGT_scalar_zero => 688
  | CMEQ_scalar_zero => 689
  | CMLT_scalar_zero => 690
  | ABS_scalar => 691
  | SQXTN_scalar => 692
  | FCVTNS_scalar => 693
  | FCVTMS_scalar => 694
  | FCVTAS_scalar => 695
  | SCVTF_scalar_int => 696
  | FCMGT_scalar_zero => 697
  | FCMEQ_scalar_zero => 698
  | FCMLT_scalar_zero => 699
  | FCVTPS_scalar => 700
  | FCVTZS_scalar_int => 701
  | FRECPE_scalar => 702
  | FRECPX_scalar => 703
  | USQADD_scalar => 704
  | SQNEG_scalar => 705
  | CMGE_scalar_zero => 706
  | CMLE_scalar_zero => 707
  | NEG_scalar => 708
  | SQXTUN_scalar => 709
  | UQXTN_scalar => 710
  | FCVTXN_scalar => 711
  | FCVTNU_scalar => 712
  | FCVTMU_scalar => 713
  | FCVTAU_scalar => 714
  | UCVTF_scalar_int => 715
  | FCMGE_scalar_zero => 716
  | FCMLE_scalar_zero => 717
  | FCVTPU_scalar => 718
  | FCVTZU_scalar_int => 719
  | FRSQRTE_scalar => 720
  | ADDP_scalar => 721
  | FMAXNMP_scalar => 722
  | FADDP_scalar => 723
  | FMAXP_scalar => 724
  | FMINNMP_scalar => 725
  | FMINP_scalar => 726
  | SQDMLAL_scalar => 727
  | SQDMLSL_scalar => 728
  | SQDMULL_scalar => 729
  | SQADD_scalar => 730
  | SQSUB_scalar => 731
  | CMGT_scalar_reg => 732
  | CMGE_scalar_reg => 733
  | SSHL_scalar => 734
  | SQSHL_scalar_reg => 735
  | SRSHL_scalar => 736
  | SQRSHL_scalar => 737
  | ADD_scalar => 738
  | CMTST_scalar => 739
  | SQDMULH_scalar => 740
  | FMULX_scalar => 741
  | FCMEQ_scalar_reg => 742
  | FRECPS_scalar => 743
  | FRSQRTS_scalar => 744
  | UQADD_scalar => 745
  | UQSUB_scalar => 746
  | CMHI_scalar_reg => 747
  | CMHS_scalar_reg => 748
  | USHL_scalar => 749
  | UQSHL_scalar_reg => 750
  | URSHL_scalar => 751
  | UQRSHL_scalar => 752
  | SUB_scalar => 753
  | CMEQ_scalar_reg => 754
  | SQRDMULH_scalar => 755
  | FCMGE_scalar_reg => 756
  | FACGE_scalar => 757
  | FABD_scalar => 758
  | FCMGT_scalar_reg => 759
  | FACGT_scalar => 760
  | SSHR_scalar => 761
  | SSRA_scalar => 762
  | SRSHR_scalar => 763
  | SRSRA_scalar => 764
  | SHL_scalar => 765
  | SQSHL_scalar_imm => 766
  | SQSHRN_scalar => 767
  | SQRSHRN_scalar => 768
  | SCVTF_scalar_fixed => 769
  | FCVTZS_scalar_fixed => 770
  | USHR_scalar => 771
  | USRA_scalar => 772
  | URSHR_scalar => 773
  | URSRA_scalar => 774
  | SRI_scalar => 775
  | SLI_scalar => 776
  | SQSHLU_scalar => 777
  | UQSHL_scalar_imm => 778
  | SQSHRUN_scalar => 779
  | SQRSHRUN_scalar => 780
  | UQSHRN_scalar => 781
  | UQRSHRN_scalar => 782
  | UCVTF_scalar_fixed => 783
  | FCVTZU_scalar_fixed => 784
  | SQDMLAL_scalar_element => 785
  | SQDMLSL_scalar_element => 786
  | SQDMULL_scalar_element => 787
  | SQDMULH_scalar_element => 788
  | SQRDMULH_scalar_element => 789
  | FMLA_scalar_element => 790
  | FMLS_scalar_element => 791
  | FMUL_scalar_element => 792
  | FMULX_scalar_element => 793
  | TBL_one_reg => 794
  | TBX_one_reg => 795
  | TBL_two_reg => 796
  | TBX_two_reg => 797
  | TBL_three_reg => 798
  | TBX_three_reg => 799
  | TBL_four_reg => 800
  | TBX_four_reg => 801
  | UZP1 => 802
  | TRN1 => 803
  | ZIP1 => 804
  | UZP2 => 805
  | TRN2 => 806
  | ZIP2 => 807
  | EXT => 808
  | DUP_element_vec => 809
  | DUP_general => 810
  | SMOV_32 => 811
  | UMOV_32 => 812
  | INS_general => 813
  | SMOV_64 => 814
  | UMOV_64 => 815
  | INS_element => 816
  | REV64_vec => 817
  | REV16_vec => 818
  | SADDLP_vec => 819
  | SUQADD_vec => 820
  | CLS_vec => 821
  | CNT_vec => 822
  | SADALP_vec => 823
  | SQABS_vec => 824
  | CMGT_vec_zero => 825
  | CMEQ_vec_zero => 826
  | CMLT_vec_zero => 827
  | ABS_vec => 828
  | XTN_vec => 829
  | XTN2_vec => 830
  | SQXTN_vec => 831
  | SQXTN2_vec => 832
  | FCVTN_vec => 833
  | FCVTN2_vec => 834
  | FCVTL_vec => 835
  | FCVTL2_vec => 836
  | FRINTN_vec => 837
  | FRINTM_vec => 838
  | FCVTNS_vec => 839
  | FCVTMS_vec => 840
  | FCVTAS_vec => 841
  | SCVTF_vec_int => 842
  | FCMGT_vec_zero => 843
  | FCMEQ_vec_zero => 844
  | FCMLT_vec_zero => 845
  | FABS_vec => 846
  | FRINTP_vec => 847
  | FRINTZ_vec => 848
  | FCVTPS_vec => 849
  | FCVTZS_vec_int => 850
  | URECPE_vec => 851
  | FRECPE_vec => 852
  | REV32_vec => 853
  | UADDLP_vec => 854
  | USQADD_vec => 855
  | CLZ_vec => 856
  | UADALP_vec => 857
  | SQNEG_vec => 858
  | CMGE_vec_zero => 859
  | CMLE_vec_zero => 860
  | NEG_vec => 861
  | SQXTUN_vec => 862
  | SQXTUN2_vec => 863
  | SHLL_vec => 864
  | SHLL2_vec => 865
  | UQXTN_vec => 866
  | UQXTN2_vec => 867
  | FCVTXN_vec => 868
  | FCVTXN2_vec => 869
  | FRINTA_vec => 870
  | FRINTX_vec => 871
  | FCVTNU_vec => 872
  | FCVTMU_vec => 873
  | FCVTAU_vec => 874
  | UCVTF_vec_int => 875
  | NOT_vec => 876
  | RBIT_vec => 877
  | FCMGE_vec_zero => 878
  | FCMLE_vec_zero => 879
  | FNEG_vec => 880
  | FRINTI_vec => 881
  | FCVTPU_vec => 882
  | FCVTZU_vec_int => 883
  | URSQRTE_vec => 884
  | FRSQRTE_vec => 885
  | FSQRT_vec => 886
  | SADDLV_vec => 887
  | SMAXV_vec => 888
  | SMINV_vec => 889
  | ADDV_vec => 890
  | UADDLV_vec => 891
  | UMAXV_vec => 892
  | UMINV_vec => 893
  | FMAXNMV_vec => 894
  | FMAXV_vec => 895
  | FMINNMV_vec => 896
  | FMINV_vec => 897
  | SADDL => 898
  | SADDL2 => 899
  | SADDW => 900
  | SADDW2 => 901
  | SSUBL => 902
  | SSUBL2 => 903
  | SSUBW => 904
  | SSUBW2 => 905
  | ADDHN => 906
  | ADDHN2 => 907
  | SABAL => 908
  | SABAL2 => 909
  | SUBHN => 910
  | SUBHN2 => 911
  | SABDL => 912
  | SABDL2 => 913
  | SMLAL_vec => 914
  | SMLAL2_vec => 915
  | SQDMLAL_vec => 916
  | SQDMLAL2_vec => 917
  | SMLSL_vec => 918
  | SMLSL2_vec => 919
  | SQDMLSL_vec => 920
  | SQDMLSL2_vec => 921
  | SMULL_vec => 922
  | SMULL2_vec => 923
  | SQDMULL_vec => 924
  | SQDMULL2_vec => 925
  | PMULL => 926
  | PMULL2 => 927
  | UADDL => 928
  | UADDL2 => 929
  | UADDW => 930
  | UADDW2 => 931
  | USUBL => 932
  | USUBL2 => 933
  | USUBW => 934
  | USUBW2 => 935
  | RADDHN => 936
  | RADDHN2 => 937
  | UABAL => 938
  | UABAL2 => 939
  | RSUBHN => 940
  | RSUBHN2 => 941
  | UABDL => 942
  | UABDL2 => 943
  | UMLAL_vec => 944
  | UMLAL2_vec => 945
  | UMLSL_vec => 946
  | UMLSL2_vec => 947
  | UMULL_vec => 948
  | UMULL2_vec => 949
  | SHADD_vec => 950
  | SQADD_vec => 951
  | SRHADD_vec => 952
  | SHSUB_vec => 953
  | SQSUB_vec => 954
  | CMGT_vec_reg => 955
  | CMGE_vec_reg => 956
  | SSHL_vec => 957
  | SQSHL_vec_reg => 958
  | SRSHL_vec => 959
  | SQRSHL_vec => 960
  | SMAX_vec => 961
  | SMIN_vec => 962
  | SABD_vec => 963
  | SABA_vec => 964
  | ADD_vec => 965
  | CMTST_vec => 966
  | MLA_vec => 967
  | MUL_vec => 968
  | SMAXP_vec => 969
  | SMINP_vec => 970
  | SQDMULH_vec => 971
  | ADDP_vec => 972
  | FMAXNM_vec => 973
  | FMLA_vec => 974
  | FADD_vec => 975
  | FMULX_vec => 976
  | FCMEQ_vec_reg => 977
  | FMAX_vec => 978
  | FRECPS_vec => 979
  | AND_vec => 980
  | BIC_vec_reg => 981
  | FMINNM_vec => 982
  | FMLS_vec => 983
  | FSUB_vec => 984
  | FMIN_vec => 985
  | FRSQRTS_vec => 986
  | ORR_vec_reg => 987
  | ORN_vec => 988
  | UHADD_vec => 989
  | UQADD_vec => 990
  | URHADD_vec => 991
  | UHSUB_vec => 992
  | UQSUB_vec => 993
  | CMHI_vec_reg => 994
  | CMHS_vec_reg => 995
  | USHL_vec => 996
  | UQSHL_vec_reg => 997
  | URSHL_vec => 998
  | UQRSHL_vec => 999
  | UMAX_vec => 1000
  | UMIN_vec => 1001
  | UABD_vec => 1002
  | UABA_vec => 1003
  | SUB_vec => 1004
  | CMEQ_vec_reg => 1005
  | MLS_vec => 1006
  | PMUL_vec => 1007
  | UMAXP_vec => 1008
  | UMINP_vec => 1009
  | SQRDMULH_vec => 1010
  | FMAXNMP_vec => 1011
  | FADDP_vec => 1012
  | FMUL_vec => 1013
  | FCMGE_vec_reg => 1014
  | FACGE_vec => 1015
  | FMAXP_vec => 1016
  | FDIV_vec => 1017
  | EOR_vec => 1018
  | BSL_vec => 1019
  | FMINNMP_vec => 1020
  | FABD_vec => 1021
  | FCMGT_vec_reg => 1022
  | FACGT_vec => 1023
  | FMINP_vec => 1024
  | BIT_vec => 1025
  | BIF_vec => 1026
  | MOVI_32_shifted_imm => 1027
  | ORR_vec_imm_32 => 1028
  | MOVI_16_shifted_imm => 1029
  | ORR_vec_imm_16 => 1030
  | MOVI_32_shifting_ones => 1031
  | MOVI_8_imm => 1032
  | FMOV_vec_imm_single => 1033
  | MVNI_32_shifted_imm => 1034
  | BIC_vec_imm_32 => 1035
  | MVNI_16_shifted_imm => 1036
  | BIC_vec_imm_16 => 1037
  | MVNI_32_shifting_ones => 1038
  | MOVI_64_scalar => 1039
  | MOVI_64_vec => 1040
  | FMOV_vec_imm_double => 1041
  | SSHR_vec => 1042
  | SSRA_vec => 1043
  | SRSHR_vec => 1044
  | SRSRA_vec => 1045
  | SHL_vec => 1046
  | SQSHL_vec_imm => 1047
  | SHRN_vec => 1048
  | SHRN2_vec => 1049
  | RSHRN_vec => 1050
  | RSHRN2_vec => 1051
  | SQSHRN_vec => 1052
  | SQSHRN2_vec => 1053
  | SQRSHRN_vec => 1054
  | SQRSHRN2_vec => 1055
  | SSHLL_vec => 1056
  | SSHLL2_vec => 1057
  | SCVTF_vec_fixed => 1058
  | FCVTZS_vec_fixed => 1059
  | USHR_vec => 1060
  | USRA_vec => 1061
  | URSHR_vec => 1062
  | URSRA_vec => 1063
  | SRI_vec => 1064
  | SLI_vec => 1065
  | SQSHLU_vec => 1066
  | UQSHL_vec_imm => 1067
  | SQSHRUN_vec => 1068
  | SQSHRUN2_vec => 1069
  | SQRSHRUN_vec => 1070
  | SQRSHRUN2_vec => 1071
  | UQSHRN_vec => 1072
  | UQSHRN2_vec => 1073
  | UQRSHRN_vec => 1074
  | UQRSHRN2_vec => 1075
  | USHLL_vec => 1076
  | USHLL2_vec => 1077
  | UCVTF_vec_fixed => 1078
  | FCVTZU_vec_fixed => 1079
  | SMLAL_vec_element => 1080
  | SMLAL2_vec_element => 1081
  | SQDMLAL_vec_element => 1082
  | SQDMLAL2_vec_element => 1083
  | SMLSL_vec_element => 1084
  | SMLSL2_vec_element => 1085
  | SQDMLSL_vec_element => 1086
  | SQDMLSL2_vec_element => 1087
  | MUL_vec_element => 1088
  | SMULL_vec_element => 1089
  | SMULL2_vec_element => 1090
  | SQDMULL_vec_element => 1091
  | SQDMULL2_vec_element => 1092
  | SQDMULH_vec_element => 1093
  | SQRDMULH_vec_element => 1094
  | FMLA_vec_element => 1095
  | FMLS_vec_element => 1096
  | FMUL_vec_element => 1097
  | MLA_vec_element => 1098
  | UMLAL_vec_element => 1099
  | UMLAL2_vec_element => 1100
  | MLS_vec_element => 1101
  | UMLSL_vec_element => 1102
  | UMLSL2_vec_element => 1103
  | UMULL_vec_element => 1104
  | UMULL2_vec_element => 1105
  | FMULX_vec_element => 1106
  end.

Definition eqb (i j : t) : bool := index i =? index j.

End instructionID.

(** [struct instructionDecodeInfo], with the [instructionID] the entry is
    stored under. *)
Record instructionDecodeInfo := INST {
  inst_id : instructionID.t;
  mask : Z;
  match_ : Z;
  bitsMustNotAllBeClear : list Z;
  bitsMustNotAllBeSet : list Z;
}.

(** Index 0 of the table: [init] leaves the entry of [INVALID] at its default
    member initializers. *)
Definition table_invalid : list instructionDecodeInfo :=
  [ INST instructionID.INVALID 0xFFFFFFFF 0 [] [] ].

(** Branch *)
Definition table_branch : list instructionDecodeInfo :=
  [ INST instructionID.B_cond 0xFF000010 0x54000000 [] [];
    INST instructionID.BR 0xFFFFFC1F 0xD61F0000 [] [];
    INST instructionID.BLR 0xFFFFFC1F 0xD63F0000 [] [];
    INST instructionID.RET 0xFFFFFC1F 0xD65F0000 [] [];
    INST instructionID.ERET 0xFFFFFFFF 0xD69F03E0 [] [];
    INST instructionID.DRPS 0xFFFFFFFF 0xD6BF03E0 [] [];
    INST instructionID.B 0xFC000000 0x14000000 [] [];
    INST instructionID.BL 0xFC000000 0x94000000 [] [];
    INST instructionID.CBZ_32 0xFF000000 0x34000000 [] [];
    INST instructionID.CBNZ_32 0xFF000000 0x35000000 [] [];
    INST instructionID.CBZ_64 0xFF000000 0xB4000000 [] [];
    INST instructionID.CBNZ_64 0xFF000000 0xB5000000 [] [];
    INST instructionID.TBZ 0x7F000000 0x36000000 [] [];
    INST instructionID.TBNZ 0x7F000000 0x37000000 [] [] ].

(** Exception Generating *)
Definition table_exception_generating : list instructionDecodeInfo :=
  [ INST instructionID.SVC 0xFFE0001F 0xD4000001 [] [];
    INST instructionID.HVC 0xFFE0001F 0xD4000002 [] [];
    INST instructionID.SMC 0xFFE0001F 0xD4000003 [] [];
    INST instructionID.BRK 0xFFE0001F 0xD4200000 [] [];
    INST instructionID.HLT 0xFFE0001F 0xD4400000 [] [];
    INST instructionID.DCPS1 0xFFE0001F 0xD4A00001 [] [];
    INST instructionID.DCPS2 0xFFE0001F 0xD4A00002 [] [];
    INST instructionID.DCPS3 0xFFE0001F 0xD4A00003 [] [] ].

(** System *)
Definition table_system : list instructionDecodeInfo :=
  [ INST instructionID.MSR_imm 0xFFF8F01F 0xD500401F [] [];
    INST instructionID.MSR_reg 0xFFF00000 0xD5100000 [] [];
    INST instructionID.HINT 0xFFFFF01F 0xD503201F [] [];
    INST instructionID.NOP 0xFFFFFFFF 0xD503201F [] [];
    INST instructionID.YIELD 0xFFFFFFFF 0xD503203F [] [];
    INST instructionID.WFE 0xFFFFFFFF 0xD503205F [] [];
    INST instructionID.WFI 0xFFFFFFFF 0xD503207F [] [];
    INST instructionID.SEV 0xFFFFFFFF 0xD503209F [] [];
    INST instructionID.SEVL 0xFFFFFFFF 0xD50320BF [] [];
    INST instructionID.CLREX 0xFFFFF0FF 0xD503305F [] [];
    INST instructionID.DSB 0xFFFFF0FF 0xD503309F [] [];
    INST instructionID.DMB 0xFFFFF0FF 0xD50330BF [] [];
    INST instructionID.ISB 0xFFFFF0FF 0xD50330DF [] [];
    INST instructionID.SYS 0xFFF80000 0xD5080000 [] [];
    INST instructionID.SYSL 0xFFF80000 0xD5280000 [] [];
    INST instructionID.MRS 0xFFF00000 0xD5300000 [] [] ].

(** PC-rel. addressing *)
Definition table_pc_rel_addressing : list instructionDecodeInfo :=
  [ INST instructionID.ADR 0x9F000000 0x10000000 [] [];
    INST instructionID.ADRP 0x9F000000 0x90000000 [] [] ].

(** Add/subtract (immediate) *)
Definition table_add_subtract_immediate : list instructionDecodeInfo :=
  [ INST instructionID.ADD_32_imm 0xFF800000 0x11000000 [] [];
    INST instructionID.ADDS_32_imm 0xFF800000 0x31000000 [] [];
    INST instructionID.SUB_32_imm 0xFF800000 0x51000000 [] [];
    INST instructionID.SUBS_32_imm 0xFF800000 0x71000000 [] [];
    INST instructionID.ADD_64_imm 0xFF800000 0x91000000 [] [];
    INST instructionID.ADDS_64_imm 0xFF800000 0xB1000000 [] [];
    INST instructionID.SUB_64_imm 0xFF800000 0xD1000000 [] [];
    INST instructionID.SUBS_64_imm 0xFF800000 0xF1000000 [] [] ].

(** Logical (immediate) *)
Definition table_logical_immediate : list instructionDecodeInfo :=
  [ INST instructionID.AND_32_imm 0xFFC00000 0x12000000 [] [];
    INST instructionID.ORR_32_imm 0xFFC00000 0x32000000 [] [];
    INST instructionID.EOR_32_imm 0xFFC00000 0x52000000 [] [];
    INST instructionID.ANDS_32_imm 0xFFC00000 0x72000000 [] [];
    INST instructionID.AND_64_imm 0xFF800000 0x92000000 [] [];
    INST instructionID.ORR_64_imm 0xFF800000 0xB2000000 [] [];
    INST instructionID.EOR_64_imm 0xFF800000 0xD2000000 [] [];
    INST instructionID.ANDS_64_imm 0xFF800000 0xF2000000 [] [] ].

(** Move wide (immediate) *)
Definition table_move_wide_immediate : list instructionDecodeInfo :=
  [ INST instructionID.MOVN_32 0xFFC00000 0x12800000 [] [];
    INST instructionID.MOVZ_32 0xFFC00000 0x52800000 [] [];
    INST instructionID.MOVK_32 0xFFC00000 0x72800000 [] [];
    INST instructionID.MOVN_64 0xFF800000 0x92800000 [] [];
    INST instructionID.MOVZ_64 0xFF800000 0xD2800000 [] [];
    INST instructionID.MOVK_64 0xFF800000 0xF2800000 [] [] ].

(** Bitfield *)
Definition table_bitfield : list instructionDecodeInfo :=
  [ INST instructionID.SBFM_32 0xFFE08000 0x13000000 [] [];
    INST instructionID.BFM_32 0xFFE08000 0x33000000 [] [];
    INST instructionID.UBFM_32 0xFFE08000 0x53000000 [] [];
    INST instructionID.SBFM_64 0xFFC00000 0x93400000 [] [];
    INST instructionID.BFM_64 0xFFC00000 0xB3400000 [] [];
    INST instructionID.UBFM_64 0xFFC00000 0xD3400000 [] [] ].

(** Extract *)
Definition table_extract : list instructionDecodeInfo :=
  [ INST instructionID.EXTR_32 0xFFE08000 0x13800000 [] [];
    INST instructionID.EXTR_64 0xFFE00000 0x93C00000 [] [] ].

(** Data-processing (2 source) *)
Definition table_data_processing_2_source : list instructionDecodeInfo :=
  [ INST instructionID.UDIV_32 0xFFE0FC00 0x1AC00800 [] [];
    INST instructionID.SDIV_32 0xFFE0FC00 0x1AC00C00 [] [];
    INST instructionID.LSLV_32 0xFFE0FC00 0x1AC02000 [] [];
    INST instructionID.LSRV_32 0xFFE0FC00 0x1AC02400 [] [];
    INST instructionID.ASRV_32 0xFFE0FC00 0x1AC02800 [] [];
    INST instructionID.RORV_32 0xFFE0FC00 0x1AC02C00 [] [];
    INST instructionID.UDIV_64 0xFFE0FC00 0x9AC00800 [] [];
    INST instructionID.SDIV_64 0xFFE0FC00 0x9AC00C00 [] [];
    INST instructionID.LSLV_64 0xFFE0FC00 0x9AC02000 [] [];
    INST instructionID.LSRV_64 0xFFE0FC00 0x9AC02400 [] [];
    INST instructionID.ASRV_64 0xFFE0FC00 0x9AC02800 [] [];
    INST instructionID.RORV_64 0xFFE0FC00 0x9AC02C00 [] [];
    INST instructionID.CRC32B 0xFFE0FC00 0x1AC04000 [] [];
    INST instructionID.CRC32H 0xFFE0FC00 0x1AC04400 [] [];
    INST instructionID.CRC32W 0xFFE0FC00 0x1AC04800 [] [];
    INST instructionID.CRC32X 0xFFE0FC00 0x9AC04C00 [] [];
    INST instructionID.CRC32CB 0xFFE0FC00 0x1AC05000 [] [];
    INST instructionID.CRC32CH 0xFFE0FC00 0x1AC05400 [] [];
    INST instructionID.CRC32CW 0xFFE0FC00 0x1AC05800 [] [];
    INST instructionID.CRC32CX 0xFFE0FC00 0x9AC05C00 [] [] ].

(** Data-processing (1 source) *)
Definition table_data_processing_1_source : list instructionDecodeInfo :=
  [ INST instructionID.RBIT_32 0xFFFFFC00 0x5AC00000 [] [];
    INST instructionID.REV16_32 0xFFFFFC00 0x5AC00400 [] [];
    INST instructionID.REV_32 0xFFFFFC00 0x5AC00800 [] [];
    INST instructionID.CLZ_32 0xFFFFFC00 0x5AC01000 [] [];
    INST instructionID.CLS_32 0xFFFFFC00 0x5AC01400 [] [];
    INST instructionID.RBIT_64 0xFFFFFC00 0xDAC00000 [] [];
    INST instructionID.REV16_64 0xFFFFFC00 0xDAC00400 [] [];
    INST instructionID.REV32_64 0xFFFFFC00 0xDAC00800 [] [];
    INST instructionID.REV_64 0xFFFFFC00 0xDAC00C00 [] [];
    INST instructionID.CLZ_64 0xFFFFFC00 0xDAC01000 [] [];
    INST instructionID.CLS_64 0xFFFFFC00 0xDAC01400 [] [] ].

(** Logical (shifted register) *)
Definition table_logical_shifted_register : list instructionDecodeInfo :=
  [ INST instructionID.AND_32_shifted 0xFF208000 0x0A000000 [] [];
    INST instructionID.BIC_32_shifted 0xFF208000 0x0A200000 [] [];
    INST instructionID.ORR_32_shifted 0xFF208000 0x2A000000 [] [];
    INST instructionID.ORN_32_shifted 0xFF208000 0x2A200000 [] [];
    INST instructionID.EOR_32_shifted 0xFF208000 0x4A000000 [] [];
    INST instructionID.EON_32_shifted 0xFF208000 0x4A200000 [] [];
    INST instructionID.ANDS_32_shifted 0xFF208000 0x6A000000 [] [];
    INST instructionID.BICS_32_shifted 0xFF208000 0x6A200000 [] [];
    INST instructionID.AND_64_shifted 0xFF200000 0x8A000000 [] [];
    INST instructionID.BIC_64_shifted 0xFF200000 0x8A200000 [] [];
    INST instructionID.ORR_64_shifted 0xFF200000 0xAA000000 [] [];
    INST instructionID.ORN_64_shifted 0xFF200000 0xAA200000 [] [];
    INST instructionID.EOR_64_shifted 0xFF200000 0xCA000000 [] [];
    INST instructionID.EON_64_shifted 0xFF200000 0xCA200000 [] [];
    INST instructionID.ANDS_64_shifted 0xFF200000 0xEA000000 [] [];
    INST instructionID.BICS_64_shifted 0xFF200000 0xEA200000 [] [] ].

(** Add/subtract (shifted register) *)
Definition table_add_subtract_shifted_register : list instructionDecodeInfo :=
  [ INST instructionID.ADD_32_shifted 0xFF208000 0x0B000000 [] [0xC00000];
    INST instructionID.ADDS_32_shifted 0xFF208000 0x2B000000 [] [0xC00000];
    INST instructionID.SUB_32_shifted 0xFF208000 0x4B000000 [] [0xC00000];
    INST instructionID.SUBS_32_shifted 0xFF208000 0x6B000000 [] [0xC00000];
    INST instructionID.ADD_64_shifted 0xFF200000 0x8B000000 [] [0xC00000];
    INST instructionID.ADDS_64_shifted 0xFF200000 0xAB000000 [] [0xC00000];
    INST instructionID.SUB_64_shifted 0xFF200000 0xCB000000 [] [0xC00000];
    INST instructionID.SUBS_64_shifted 0xFF200000 0xEB000000 [] [0xC00000] ].

(** Add/subtract (extended register) *)
Definition table_add_subtract_extended_register : list instructionDecodeInfo :=
  [ INST instructionID.ADD_32_extended 0xFFE00000 0x0B200000 [] [0x1800; 0x1400];
    INST instructionID.ADDS_32_extended 0xFFE00000 0x2B200000 [] [0x1800; 0x1400];
    INST instructionID.SUB_32_extended 0xFFE00000 0x4B200000 [] [0x1800; 0x1400];
    INST instructionID.SUBS_32_extended 0xFFE00000 0x6B200000 [] [0x1800; 0x1400];
    INST instructionID.ADD_64_extended 0xFFE00000 0x8B200000 [] [0x1800; 0x1400];
    INST instructionID.ADDS_64_extended 0xFFE00000 0xAB200000 [] [0x1800; 0x1400];
    INST instructionID.SUB_64_extended 0xFFE00000 0xCB200000 [] [0x1800; 0x1400];
    INST instructionID.SUBS_64_extended 0xFFE00000 0xEB200000 [] [0x1800; 0x1400] ].

(** Add/subtract (with carry) *)
Definition table_add_subtract_with_carry : list instructionDecodeInfo :=
  [ INST instructionID.ADC_32 0xFFE0FC00 0x1A000000 [] [];
    INST instructionID.ADCS_32 0xFFE0FC00 0x3A000000 [] [];
    INST instructionID.SBC_32 0xFFE0FC00 0x5A000000 [] [];
    INST instructionID.SBCS_32 0xFFE0FC00 0x7A000000 [] [];
    INST instructionID.ADC_64 0xFFE0FC00 0x9A000000 [] [];
    INST instructionID.ADCS_64 0xFFE0FC00 0xBA000000 [] [];
    INST instructionID.SBC_64 0xFFE0FC00 0xDA000000 [] [];
    INST instructionID.SBCS_64 0xFFE0FC00 0xFA000000 [] [] ].

(** Conditional compare (register) *)
Definition table_conditional_compare_register : list instructionDecodeInfo :=
  [ INST instructionID.CCMN_32_reg 0xFFE00C10 0x3A400000 [] [];
    INST instructionID.CCMP_32_reg 0xFFE00C10 0x7A400000 [] [];
    INST instructionID.CCMN_64_reg 0xFFE00C10 0xBA400000 [] [];
    INST instructionID.CCMP_64_reg 0xFFE00C10 0xFA400000 [] [] ].

(** Conditional compare (immediate) *)
Definition table_conditional_compare_immediate : list instructionDecodeInfo :=
  [ INST instructionID.CCMN_32_imm 0xFFE00C10 0x3A400800 [] [];
    INST instructionID.CCMP_32_imm 0xFFE00C10 0x7A400800 [] [];
    INST instructionID.CCMN_64_imm 0xFFE00C10 0xBA400800 [] [];
    INST instructionID.CCMP_64_imm 0xFFE00C10 0xFA400800 [] [] ].

(** Conditional select *)
Definition table_conditional_select : list instructionDecodeInfo :=
  [ INST instructionID.CSEL_32 0xFFE00C00 0x1A800000 [] [];
    INST instructionID.CSINC_32 0xFFE00C00 0x1A800400 [] [];
    INST instructionID.CSINV_32 0xFFE00C00 0x5A800000 [] [];
    INST instructionID.CSNEG_32 0xFFE00C00 0x5A800400 [] [];
    INST instructionID.CSEL_64 0xFFE00C00 0x9A800000 [] [];
    INST instructionID.CSINC_64 0xFFE00C00 0x9A800400 [] [];
    INST instructionID.CSINV_64 0xFFE00C00 0xDA800000 [] [];
    INST instructionID.CSNEG_64 0xFFE00C00 0xDA800400 [] [] ].

(** Data-processing (3 source) *)
Definition table_data_processing_3_source : list instructionDecodeInfo :=
  [ INST instructionID.MADD_32 0xFFE08000 0x1B000000 [] [];
    INST instructionID.MSUB_32 0xFFE08000 0x1B008000 [] [];
    INST instructionID.MADD_64 0xFFE08000 0x9B000000 [] [];
    INST instructionID.MSUB_64 0xFFE08000 0x9B008000 [] [];
    INST instructionID.SMADDL 0xFFE08000 0x9B200000 [] [];
    INST instructionID.SMSUBL 0xFFE08000 0x9B208000 [] [];
    INST instructionID.SMULH 0xFFE08000 0x9B400000 [] [];
    INST instructionID.UMADDL 0xFFE08000 0x9BA00000 [] [];
    INST instructionID.UMSUBL 0xFFE08000 0x9BA08000 [] [];
    INST instructionID.UMULH 0xFFE08000 0x9BC00000 [] [] ].

(** Advanced SIMD load/store multiple structures *)
Definition table_advanced_simd_load_store_multiple_structures : list instructionDecodeInfo :=
  [ INST instructionID.ST1_multi_1reg 0xBFFFF000 0x0C007000 [] [];
    INST instructionID.ST1_multi_2reg 0xBFFFF000 0x0C00A000 [] [];
    INST instructionID.ST1_multi_3reg 0xBFFFF000 0x0C006000 [] [];
    INST instructionID.ST1_multi_4reg 0xBFFFF000 0x0C002000 [] [];
    INST instructionID.ST2_multi 0xBFFFF000 0x0C008000 [] [];
    INST instructionID.ST3_multi 0xBFFFF000 0x0C004000 [] [];
    INST instructionID.ST4_multi 0xBFFFF000 0x0C000000 [] [];
    INST instructionID.LD1_multi_1reg 0xBFFFF000 0x0C407000 [] [];
    INST instructionID.LD1_multi_2reg 0xBFFFF000 0x0C40A000 [] [];
    INST instructionID.LD1_multi_3reg 0xBFFFF000 0x0C406000 [] [];
    INST instructionID.LD1_multi_4reg 0xBFFFF000 0x0C402000 [] [];
    INST instructionID.LD2_multi 0xBFFFF000 0x0C408000 [] [];
    INST instructionID.LD3_multi 0xBFFFF000 0x0C404000 [] [];
    INST instructionID.LD4_multi 0xBFFFF000 0x0C400000 [] [] ].

(** Advanced SIMD load/store multiple structures (post-indexed) *)
Definition table_advanced_simd_load_store_multiple_structures_post_indexed : list instructionDecodeInfo :=
  [ INST instructionID.ST1_multi_reg_1reg 0xBFE0F000 0x0C807000 [] [0x1F0000];
    INST instructionID.ST1_multi_reg_2reg 0xBFE0F000 0x0C80A000 [] [0x1F0000];
    INST instructionID.ST1_multi_reg_3reg 0xBFE0F000 0x0C806000 [] [0x1F0000];
    INST instructionID.ST1_multi_reg_4reg 0xBFE0F000 0x0C802000 [] [0x1F0000];
    INST instructionID.ST2_multi_reg 0xBFE0F000 0x0C808000 [] [0x1F0000];
    INST instructionID.ST3_multi_reg 0xBFE0F000 0x0C804000 [] [0x1F0000];
    INST instructionID.ST4_multi_reg 0xBFE0F000 0x0C800000 [] [0x1F0000];
    INST instructionID.ST1_multi_offset_1reg 0xBFFFF000 0x0C9F7000 [] [];
    INST instructionID.ST1_multi_offset_2reg 0xBFFFF000 0x0C9FA000 [] [];
    INST instructionID.ST1_multi_offset_3reg 0xBFFFF000 0x0C9F6000 [] [];
    INST instructionID.ST1_multi_offset_4reg 0xBFFFF000 0x0C9F2000 [] [];
    INST instructionID.ST2_multi_offset 0xBFFFF000 0x0C9F8000 [] [];
    INST instructionID.ST3_multi_offset 0xBFFFF000 0x0C9F4000 [] [];
    INST instructionID.ST4_multi_offset 0xBFFFF000 0x0C9F0000 [] [];
    INST instructionID.LD1_multi_reg_1reg 0xBFE0F000 0x0CC07000 [] [0x1F0000];
    INST instructionID.LD1_multi_reg_2reg 0xBFE0F000 0x0CC0A000 [] [0x1F0000];
    INST instructionID.LD1_multi_reg_3reg 0xBFE0F000 0x0CC06000 [] [0x1F0000];
    INST instructionID.LD1_multi_reg_4reg 0xBFE0F000 0x0CC02000 [] [0x1F0000];
    INST instructionID.LD2_multi_reg 0xBFE0F000 0x0CC08000 [] [0x1F0000];
    INST instructionID.LD3_multi_reg 0xBFE0F000 0x0CC04000 [] [0x1F0000];
    INST instructionID.LD4_multi_reg 0xBFE0F000 0x0CC00000 [] [0x1F0000];
    INST instructionID.LD1_multi_offset_1reg 0xBFFFF000 0x0CDF7000 [] [];
    INST instructionID.LD1_multi_offset_2reg 0xBFFFF000 0x0CDFA000 [] [];
    INST instructionID.LD1_multi_offset_3reg 0xBFFFF000 0x0CDF6000 [] [];
    INST instructionID.LD1_multi_offset_4reg 0xBFFFF000 0x0CDF2000 [] [];
    INST instructionID.LD2_multi_offset 0xBFFFF000 0x0CDF8000 [] [];
    INST instructionID.LD3_multi_offset 0xBFFFF000 0x0CDF4000 [] [];
    INST instructionID.LD4_multi_offset 0xBFFFF000 0x0CDF0000 [] [] ].

(** Advanced SIMD load/store single structure *)
Definition table_advanced_simd_load_store_single_structure : list instructionDecodeInfo :=
  [ INST instructionID.ST1_single_8 0xBFFFE000 0x0D000000 [] [];
    INST instructionID.ST1_single_16 0xBFFFE400 0x0D004000 [] [];
    INST instructionID.ST1_single_32 0xBFFFEC00 0x0D008000 [] [];
    INST instructionID.ST1_single_64 0xBFFFFC00 0x0D008400 [] [];
    INST instructionID.ST2_single_8 0xBFFFE000 0x0D200000 [] [];
    INST instructionID.ST2_single_16 0xBFFFE400 0x0D204000 [] [];
    INST instructionID.ST2_single_32 0xBFFFEC00 0x0D208000 [] [];
    INST instructionID.ST2_single_64 0xBFFFFC00 0x0D208400 [] [];
    INST instructionID.ST3_single_8 0xBFFFE000 0x0D002000 [] [];
    INST instructionID.ST3_single_16 0xBFFFE400 0x0D006000 [] [];
    INST instructionID.ST3_single_32 0xBFFFEC00 0x0D00A000 [] [];
    INST instructionID.ST3_single_64 0xBFFFFC00 0x0D00A400 [] [];
    INST instructionID.ST4_single_8 0xBFFFE000 0x0D202000 [] [];
    INST instructionID.ST4_single_16 0xBFFFE400 0x0D206000 [] [];
    INST instructionID.ST4_single_32 0xBFFFEC00 0x0D20A000 [] [];
    INST instructionID.ST4_single_64 0xBFFFFC00 0x0D20A400 [] [];
    INST instructionID.LD1_single_8 0xBFFFE000 0x0D400000 [] [];
    INST instructionID.LD1_single_16 0xBFFFE400 0x0D404000 [] [];
    INST instructionID.LD1_single_32 0xBFFFEC00 0x0D408000 [] [];
    INST instructionID.LD1_single_64 0xBFFFFC00 0x0D408400 [] [];
    INST instructionID.LD2_single_8 0xBFFFE000 0x0D600000 [] [];
    INST instructionID.LD2_single_16 0xBFFFE400 0x0D604000 [] [];
    INST instructionID.LD2_single_32 0xBFFFEC00 0x0D608000 [] [];
    INST instructionID.LD2_single_64 0xBFFFFC00 0x0D608400 [] [];
    INST instructionID.LD3_single_8 0xBFFFE000 0x0D402000 [] [];
    INST instructionID.LD3_single_16 0xBFFFE400 0x0D406000 [] [];
    INST instructionID.LD3_single_32 0xBFFFEC00 0x0D40A000 [] [];
    INST instructionID.LD3_single_64 0xBFFFFC00 0x0D40A400 [] [];
    INST instructionID.LD4_single_8 0xBFFFE000 0x0D602000 [] [];
    INST instructionID.LD4_single_16 0xBFFFE400 0x0D606000 [] [];
    INST instructionID.LD4_single_32 0xBFFFEC00 0x0D60A000 [] [];
    INST instructionID.LD4_single_64 0xBFFFFC00 0x0D60A400 [] [];
    INST instructionID.LD1R 0xBFFFF000 0x0D40C000 [] [];
    INST instructionID.LD2R 0xBFFFF000 0x0D60C000 [] [];
    INST instructionID.LD3R 0xBFFFF000 0x0D40E000 [] [];
    INST instructionID.LD4R 0xBFFFF000 0x0D60E000 [] [] ].

(** Advanced SIMD load/store single structure (post-indexed) *)
Definition table_advanced_simd_load_store_single_structure_post_indexed : list instructionDecodeInfo :=
  [ INST instructionID.ST1_single_8_reg 0xBFE0E000 0x0D800000 [] [0x1F0000];
    INST instructionID.ST1_single_16_reg 0xBFE0E400 0x0D804000 [] [0x1F0000];
    INST instructionID.ST1_single_32_reg 0xBFE0EC00 0x0D808000 [] [0x1F0000];
    INST instructionID.ST1_single_64_reg 0xBFE0FC00 0x0D808400 [] [0x1F0000];
    INST instructionID.ST2_single_8_reg 0xBFE0E000 0x0DA00000 [] [0x1F0000];
    INST instructionID.ST2_single_16_reg 0xBFE0E400 0x0DA04000 [] [0x1F0000];
    INST instructionID.ST2_single_32_reg 0xBFE0EC00 0x0DA08000 [] [0x1F0000];
    INST instructionID.ST2_single_64_reg 0xBFE0FC00 0x0DA08400 [] [0x1F0000];
    INST instructionID.ST3_single_8_reg 0xBFE0E000 0x0D802000 [] [0x1F0000];
    INST instructionID.ST3_single_16_reg 0xBFE0E400 0x0D806000 [] [0x1F0000];
    INST instructionID.ST3_single_32_reg 0xBFE0EC00 0x0D80A000 [] [0x1F0000];
    INST instructionID.ST3_single_64_reg 0xBFE0FC00 0x0D80A400 [] [0x1F0000];
    INST instructionID.ST4_single_8_reg 0xBFE0E000 0x0DA02000 [] [0x1F0000];
    INST instructionID.ST4_single_16_reg 0xBFE0E400 0x0DA06000 [] [0x1F0000];
    INST instructionID.ST4_single_32_reg 0xBFE0EC00 0x0DA0A000 [] [0x1F0000];
    INST instructionID.ST4_single_64_reg 0xBFE0FC00 0x0DA0A400 [] [0x1F0000];
    INST instructionID.ST1_single_8_imm 0xBFFFE000 0x0D9F0000 [] [];
    INST instructionID.ST1_single_16_imm 0xBFFFE400 0x0D9F4000 [] [];
    INST instructionID.ST1_single_32_imm 0xBFFFEC00 0x0D9F8000 [] [];
    INST instructionID.ST1_single_64_imm 0xBFFFFC00 0x0D9F8400 [] [];
    INST instructionID.ST2_single_8_imm 0xBFFFE000 0x0DBF0000 [] [];
    INST instructionID.ST2_single_16_imm 0xBFFFE400 0x0DBF4000 [] [];
    INST instructionID.ST2_single_32_imm 0xBFFFEC00 0x0DBF8000 [] [];
    INST instructionID.ST2_single_64_imm 0xBFFFFC00 0x0DBF8400 [] [];
    INST instructionID.ST3_single_8_imm 0xBFFFE000 0x0D9F2000 [] [];
    INST instructionID.ST3_single_16_imm 0xBFFFE400 0x0D9F6000 [] [];
    INST instructionID.ST3_single_32_imm 0xBFFFEC00 0x0D9FA000 [] [];
    INST instructionID.ST3_single_64_imm 0xBFFFFC00 0x0D9FA400 [] [];
    INST instructionID.ST4_single_8_imm 0xBFFFE000 0x0DBF2000 [] [];
    INST instructionID.ST4_single_16_imm 0xBFFFE400 0x0DBF6000 [] [];
    INST instructionID.ST4_single_32_imm 0xBFFFEC00 0x0DBFA000 [] [];
    INST instructionID.ST4_single_64_imm 0xBFFFFC00 0x0DBFA400 [] [];
    INST instructionID.LD1_single_8_reg 0xBFE0E000 0x0DC00000 [] [0x1F0000];
    INST instructionID.LD1_single_16_reg 0xBFE0E400 0x0DC04000 [] [0x1F0000];
    INST instructionID.LD1_single_32_reg 0xBFE0EC00 0x0DC08000 [] [0x1F0000];
    INST instructionID.LD1_single_64_reg 0xBFE0FC00 0x0DC08400 [] [0x1F0000];
    INST instructionID.LD2_single_8_reg 0xBFE0E000 0x0DE00000 [] [0x1F0000];
    INST instructionID.LD2_single_16_reg 0xBFE0E400 0x0DE04000 [] [0x1F0000];
    INST instructionID.LD2_single_32_reg 0xBFE0EC00 0x0DE08000 [] [0x1F0000];
    INST instructionID.LD2_single_64_reg 0xBFE0FC00 0x0DE08400 [] [0x1F0000];
    INST instructionID.LD3_single_8_reg 0xBFE0E000 0x0DC02000 [] [0x1F0000];
    INST instructionID.LD3_single_16_reg 0xBFE0E400 0x0DC06000 [] [0x1F0000];
    INST instructionID.LD3_single_32_reg 0xBFE0EC00 0x0DC0A000 [] [0x1F0000];
    INST instructionID.LD3_single_64_reg 0xBFE0FC00 0x0DC0A400 [] [0x1F0000];
    INST instructionID.LD4_single_8_reg 0xBFE0E000 0x0DE02000 [] [0x1F0000];
    INST instructionID.LD4_single_16_reg 0xBFE0E400 0x0DE06000 [] [0x1F0000];
    INST instructionID.LD4_single_32_reg 0xBFE0EC00 0x0DE0A000 [] [0x1F0000];
    INST instructionID.LD4_single_64_reg 0xBFE0FC00 0x0DE0A400 [] [0x1F0000];
    INST instructionID.LD1R_reg 0xBFE0F000 0x0DC0C000 [] [0x1F0000];
    INST instructionID.LD2R_reg 0xBFE0F000 0x0DE0C000 [] [0x1F0000];
    INST instructionID.LD3R_reg 0xBFE0F000 0x0DC0E000 [] [0x1F0000];
    INST instructionID.LD4R_reg 0xBFE0F000 0x0DE0E000 [] [0x1F0000];
    INST instructionID.LD1_single_8_imm 0xBFFFE000 0x0DDF0000 [] [];
    INST instructionID.LD1_single_16_imm 0xBFFFE400 0x0DDF4000 [] [];
    INST instructionID.LD1_single_32_imm 0xBFFFEC00 0x0DDF8000 [] [];
    INST instructionID.LD1_single_64_imm 0xBFFFFC00 0x0DDF8400 [] [];
    INST instructionID.LD2_single_8_imm 0xBFFFE000 0x0DFF0000 [] [];
    INST instructionID.LD2_single_16_imm 0xBFFFE400 0x0DFF4000 [] [];
    INST instructionID.LD2_single_32_imm 0xBFFFEC00 0x0DFF8000 [] [];
    INST instructionID.LD2_single_64_imm 0xBFFFFC00 0x0DFF8400 [] [];
    INST instructionID.LD3_single_8_imm 0xBFFFE000 0x0DDF2000 [] [];
    INST instructionID.LD3_single_16_imm 0xBFFFE400 0x0DDF6000 [] [];
    INST instructionID.LD3_single_32_imm 0xBFFFEC00 0x0DDFA000 [] [];
    INST instructionID.LD3_single_64_imm 0xBFFFFC00 0x0DDFA400 [] [];
    INST instructionID.LD4_single_8_imm 0xBFFFE000 0x0DFF2000 [] [];
    INST instructionID.LD4_single_16_imm 0xBFFFE400 0x0DFF6000 [] [];
    INST instructionID.LD4_single_32_imm 0xBFFFEC00 0x0DFFA000 [] [];
    INST instructionID.LD4_single_64_imm 0xBFFFFC00 0x0DFFA400 [] [];
    INST instructionID.LD1R_imm 0xBFFFF000 0x0DDFC000 [] [];
    INST instructionID.LD2R_imm 0xBFFFF000 0x0DFFC000 [] [];
    INST instructionID.LD3R_imm 0xBFFFF000 0x0DDFE000 [] [];
    INST instructionID.LD4R_imm 0xBFFFF000 0x0DFFE000 [] [] ].

(** Load/store exclusive *)
Definition table_load_store_exclusive : list instructionDecodeInfo :=
  [ INST instructionID.STXRB 0xFFE08000 0x08000000 [] [];
    INST instructionID.STLXRB 0xFFE08000 0x08008000 [] [];
    INST instructionID.LDXRB 0xFFE08000 0x08400000 [] [];
    INST instructionID.LDAXRB 0xFFE08000 0x08408000 [] [];
    INST instructionID.STLRB 0xFFE08000 0x08808000 [] [];
    INST instructionID.LDARB 0xFFE08000 0x08C08000 [] [];
    INST instructionID.STXRH 0xFFE08000 0x48000000 [] [];
    INST instructionID.STLXRH 0xFFE08000 0x48008000 [] [];
    INST instructionID.LDXRH 0xFFE08000 0x48400000 [] [];
    INST instructionID.LDAXRH 0xFFE08000 0x48408000 [] [];
    INST instructionID.STLRH 0xFFE08000 0x48808000 [] [];
    INST instructionID.LDARH 0xFFE08000 0x48C08000 [] [];
    INST instructionID.STXR32 0xFFE08000 0x88000000 [] [];
    INST instructionID.STLXR32 0xFFE08000 0x88008000 [] [];
    INST instructionID.STXP32 0xFFE08000 0x88200000 [] [];
    INST instructionID.STLXP32 0xFFE08000 0x88208000 [] [];
    INST instructionID.LDXR32 0xFFE08000 0x88400000 [] [];
    INST instructionID.LDAXR32 0xFFE08000 0x88408000 [] [];
    INST instructionID.LDXP32 0xFFE08000 0x88600000 [] [];
    INST instructionID.LDAXP32 0xFFE08000 0x88608000 [] [];
    INST instructionID.STLR32 0xFFE08000 0x88808000 [] [];
    INST instructionID.LDAR32 0xFFE08000 0x88C08000 [] [];
    INST instructionID.STXR64 0xFFE08000 0xC8000000 [] [];
    INST instructionID.STLXR64 0xFFE08000 0xC8008000 [] [];
    INST instructionID.STXP64 0xFFE08000 0xC8200000 [] [];
    INST instructionID.STLXP64 0xFFE08000 0xC8208000 [] [];
    INST instructionID.LDXR64 0xFFE08000 0xC8400000 [] [];
    INST instructionID.LDAXR64 0xFFE08000 0xC8408000 [] [];
    INST instructionID.LDXP64 0xFFE08000 0xC8600000 [] [];
    INST instructionID.LDAXP64 0xFFE08000 0xC8608000 [] [];
    INST instructionID.STLR64 0xFFE08000 0xC8808000 [] [];
    INST instructionID.LDAR64 0xFFE08000 0xC8C08000 [] [] ].

(** Load register (literal) *)
Definition table_load_register_literal : list instructionDecodeInfo :=
  [ INST instructionID.LDR32_literal 0xFF000000 0x18000000 [] [];
    INST instructionID.LDR32_literal_float 0xFF000000 0x1C000000 [] [];
    INST instructionID.LDR64_literal 0xFF000000 0x58000000 [] [];
    INST instructionID.LDR64_literal_float 0xFF000000 0x5C000000 [] [];
    INST instructionID.LDRSW_literal 0xFF000000 0x98000000 [] [];
    INST instructionID.LDR128_literal 0xFF000000 0x9C000000 [] [];
    INST instructionID.PRFM_literal 0xFF000000 0xD8000000 [] [] ].

(** Load/store no-allocate pair (offset) *)
Definition table_load_store_no_allocate_pair_offset : list instructionDecodeInfo :=
  [ INST instructionID.STNP32 0xFFC00000 0x28000000 [] [];
    INST instructionID.LDNP32 0xFFC00000 0x28400000 [] [];
    INST instructionID.STNP32_float 0xFFC00000 0x2C000000 [] [];
    INST instructionID.LDNP32_float 0xFFC00000 0x2C400000 [] [];
    INST instructionID.STNP64_float 0xFFC00000 0x6C000000 [] [];
    INST instructionID.LDNP64_float 0xFFC00000 0x6C400000 [] [];
    INST instructionID.STNP64 0xFFC00000 0xA8000000 [] [];
    INST instructionID.LDNP64 0xFFC00000 0xA8400000 [] [];
    INST instructionID.STNP128 0xFFC00000 0xAC000000 [] [];
    INST instructionID.LDNP128 0xFFC00000 0xAC400000 [] [] ].

(** Load/store register pair (post-indexed) *)
Definition table_load_store_register_pair_post_indexed : list instructionDecodeInfo :=
  [ INST instructionID.STP32_post 0xFFC00000 0x28800000 [] [];
    INST instructionID.LDP32_post 0xFFC00000 0x28C00000 [] [];
    INST instructionID.STP32_post_float 0xFFC00000 0x2C800000 [] [];
    INST instructionID.LDP32_post_float 0xFFC00000 0x2CC00000 [] [];
    INST instructionID.LDPSW_post 0xFFC00000 0x68C00000 [] [];
    INST instructionID.STP64_post_float 0xFFC00000 0x6C800000 [] [];
    INST instructionID.LDP64_post_float 0xFFC00000 0x6CC00000 [] [];
    INST instructionID.STP64_post 0xFFC00000 0xA8800000 [] [];
    INST instructionID.LDP64_post 0xFFC00000 0xA8C00000 [] [];
    INST instructionID.STP128_post 0xFFC00000 0xAC800000 [] [];
    INST instructionID.LDP128_post 0xFFC00000 0xACC00000 [] [] ].

(** Load/store register pair (offset) *)
Definition table_load_store_register_pair_offset : list instructionDecodeInfo :=
  [ INST instructionID.STP32_offset 0xFFC00000 0x29000000 [] [];
    INST instructionID.LDP32_offset 0xFFC00000 0x29400000 [] [];
    INST instructionID.STP32_offset_float 0xFFC00000 0x2D000000 [] [];
    INST instructionID.LDP32_offset_float 0xFFC00000 0x2D400000 [] [];
    INST instructionID.LDPSW_offset 0xFFC00000 0x69400000 [] [];
    INST instructionID.STP64_offset_float 0xFFC00000 0x6D000000 [] [];
    INST instructionID.LDP64_offset_float 0xFFC00000 0x6D400000 [] [];
    INST instructionID.STP64_offset 0xFFC00000 0xA9000000 [] [];
    INST instructionID.LDP64_offset 0xFFC00000 0xA9400000 [] [];
    INST instructionID.STP128_offset 0xFFC00000 0xAD000000 [] [];
    INST instructionID.LDP128_offset 0xFFC00000 0xAD400000 [] [] ].

(** Load/store register pair (pre-indexed) *)
Definition table_load_store_register_pair_pre_indexed : list instructionDecodeInfo :=
  [ INST instructionID.STP32_pre 0xFFC00000 0x29800000 [] [];
    INST instructionID.LDP32_pre 0xFFC00000 0x29C00000 [] [];
    INST instructionID.STP32_pre_float 0xFFC00000 0x2D800000 [] [];
    INST instructionID.LDP32_pre_float 0xFFC00000 0x2DC00000 [] [];
    INST instructionID.LDPSW_pre 0xFFC00000 0x69C00000 [] [];
    INST instructionID.STP64_pre_float 0xFFC00000 0x6D800000 [] [];
    INST instructionID.LDP64_pre_float 0xFFC00000 0x6DC00000 [] [];
    INST instructionID.STP64_pre 0xFFC00000 0xA9800000 [] [];
    INST instructionID.LDP64_pre 0xFFC00000 0xA9C00000 [] [];
    INST instructionID.STP128_pre 0xFFC00000 0xAD800000 [] [];
    INST instructionID.LDP128_pre 0xFFC00000 0xADC00000 [] [] ].

(** Load/store register (unscaled immediate) *)
Definition table_load_store_register_unscaled_immediate : list instructionDecodeInfo :=
  [ INST instructionID.STURB 0xFFE00C00 0x38000000 [] [];
    INST instructionID.LDURB 0xFFE00C00 0x38400000 [] [];
    INST instructionID.LDURSB64 0xFFE00C00 0x38800000 [] [];
    INST instructionID.LDURSB32 0xFFE00C00 0x38C00000 [] [];
    INST instructionID.STUR8_float 0xFFE00C00 0x3C000000 [] [];
    INST instructionID.LDUR8_float 0xFFE00C00 0x3C400000 [] [];
    INST instructionID.STUR128 0xFFE00C00 0x3C800000 [] [];
    INST instructionID.LDUR128 0xFFE00C00 0x3CC00000 [] [];
    INST instructionID.STURH 0xFFE00C00 0x78000000 [] [];
    INST instructionID.LDURH 0xFFE00C00 0x78400000 [] [];
    INST instructionID.LDURSH64 0xFFE00C00 0x78800000 [] [];
    INST instructionID.LDURSH32 0xFFE00C00 0x78C00000 [] [];
    INST instructionID.STUR16_float 0xFFE00C00 0x7C000000 [] [];
    INST instructionID.LDUR16_float 0xFFE00C00 0x7C400000 [] [];
    INST instructionID.STUR32 0xFFE00C00 0xB8000000 [] [];
    INST instructionID.LDUR32 0xFFE00C00 0xB8400000 [] [];
    INST instructionID.LDURSW 0xFFE00C00 0xB8800000 [] [];
    INST instructionID.STUR32_float 0xFFE00C00 0xBC000000 [] [];
    INST instructionID.LDUR32_float 0xFFE00C00 0xBC400000 [] [];
    INST instructionID.STUR64 0xFFE00C00 0xF8000000 [] [];
    INST instructionID.LDUR64 0xFFE00C00 0xF8400000 [] [];
    INST instructionID.PRFM_unscaled 0xFFE00C00 0xF8800000 [] [];
    INST instructionID.STUR64_float 0xFFE00C00 0xFC000000 [] [];
    INST instructionID.LDUR64_float 0xFFE00C00 0xFC400000 [] [] ].

(** Load/store register (immediate post-indexed) *)
Definition table_load_store_register_immediate_post_indexed : list instructionDecodeInfo :=
  [ INST instructionID.STRB_post 0xFFE00C00 0x38000400 [] [];
    INST instructionID.LDRB_post 0xFFE00C00 0x38400400 [] [];
    INST instructionID.LDRSB64_post 0xFFE00C00 0x38800400 [] [];
    INST instructionID.LDRSB32_post 0xFFE00C00 0x38C00400 [] [];
    INST instructionID.STR8_post_float 0xFFE00C00 0x3C000400 [] [];
    INST instructionID.LDR8_post_float 0xFFE00C00 0x3C400400 [] [];
    INST instructionID.STR128_post 0xFFE00C00 0x3C800400 [] [];
    INST instructionID.LDR128_post 0xFFE00C00 0x3CC00400 [] [];
    INST instructionID.STRH_post 0xFFE00C00 0x78000400 [] [];
    INST instructionID.LDRH_post 0xFFE00C00 0x78400400 [] [];
    INST instructionID.LDRSH64_post 0xFFE00C00 0x78800400 [] [];
    INST instructionID.LDRSH32_post 0xFFE00C00 0x78C00400 [] [];
    INST instructionID.STR16_post_float 0xFFE00C00 0x7C000400 [] [];
    INST instructionID.LDR16_post_float 0xFFE00C00 0x7C400400 [] [];
    INST instructionID.STR32_post 0xFFE00C00 0xB8000400 [] [];
    INST instructionID.LDR32_post 0xFFE00C00 0xB8400400 [] [];
    INST instructionID.LDRSW_post 0xFFE00C00 0xB8800400 [] [];
    INST instructionID.STR32_post_float 0xFFE00C00 0xBC000400 [] [];
    INST instructionID.LDR32_post_float 0xFFE00C00 0xBC400400 [] [];
    INST instructionID.STR64_post 0xFFE00C00 0xF8000400 [] [];
    INST instructionID.LDR64_post 0xFFE00C00 0xF8400400 [] [];
    INST instructionID.STR64_post_float 0xFFE00C00 0xFC000400 [] [];
    INST instructionID.LDR64_post_float 0xFFE00C00 0xFC400400 [] [] ].

(** Load/store register (unprivileged) *)
Definition table_load_store_register_unprivileged : list instructionDecodeInfo :=
  [ INST instructionID.STTRB 0xFFE00C00 0x38000800 [] [];
    INST instructionID.LDTRB 0xFFE00C00 0x38400800 [] [];
    INST instructionID.LDTRSB64 0xFFE00C00 0x38800800 [] [];
    INST instructionID.LDTRSB32 0xFFE00C00 0x38C00800 [] [];
    INST instructionID.STTRH 0xFFE00C00 0x78000800 [] [];
    INST instructionID.LDTRH 0xFFE00C00 0x78400800 [] [];
    INST instructionID.LDTRSH64 0xFFE00C00 0x78800800 [] [];
    INST instructionID.LDTRSH32 0xFFE00C00 0x78C00800 [] [];
    INST instructionID.STTR32 0xFFE00C00 0xB8000800 [] [];
    INST instructionID.LDTR32 0xFFE00C00 0xB8400800 [] [];
    INST instructionID.LDTRSW 0xFFE00C00 0xB8800800 [] [];
    INST instructionID.STTR64 0xFFE00C00 0xF8000800 [] [];
    INST instructionID.LDTR64 0xFFE00C00 0xF8400800 [] [] ].

(** Load/store register (immediate pre-indexed) *)
Definition table_load_store_register_immediate_pre_indexed : list instructionDecodeInfo :=
  [ INST instructionID.STRB_pre 0xFFE00C00 0x38000C00 [] [];
    INST instructionID.LDRB_pre 0xFFE00C00 0x38400C00 [] [];
    INST instructionID.LDRSB64_pre 0xFFE00C00 0x38800C00 [] [];
    INST instructionID.LDRSB32_pre 0xFFE00C00 0x38C00C00 [] [];
    INST instructionID.STR8_pre_float 0xFFE00C00 0x3C000C00 [] [];
    INST instructionID.LDR8_pre_float 0xFFE00C00 0x3C400C00 [] [];
    INST instructionID.STR128_pre 0xFFE00C00 0x3C800C00 [] [];
    INST instructionID.LDR128_pre 0xFFE00C00 0x3CC00C00 [] [];
    INST instructionID.STRH_pre 0xFFE00C00 0x78000C00 [] [];
    INST instructionID.LDRH_pre 0xFFE00C00 0x78400C00 [] [];
    INST instructionID.LDRSH64_pre 0xFFE00C00 0x78800C00 [] [];
    INST instructionID.LDRSH32_pre 0xFFE00C00 0x78C00C00 [] [];
    INST instructionID.STR16_pre_float 0xFFE00C00 0x7C000C00 [] [];
    INST instructionID.LDR16_pre_float 0xFFE00C00 0x7C400C00 [] [];
    INST instructionID.STR32_pre 0xFFE00C00 0xB8000C00 [] [];
    INST instructionID.LDR32_pre 0xFFE00C00 0xB8400C00 [] [];
    INST instructionID.LDRSW_pre 0xFFE00C00 0xB8800C00 [] [];
    INST instructionID.STR32_pre_float 0xFFE00C00 0xBC000C00 [] [];
    INST instructionID.LDR32_pre_float 0xFFE00C00 0xBC400C00 [] [];
    INST instructionID.STR64_pre 0xFFE00C00 0xF8000C00 [] [];
    INST instructionID.LDR64_pre 0xFFE00C00 0xF8400C00 [] [];
    INST instructionID.STR64_pre_float 0xFFE00C00 0xFC000C00 [] [];
    INST instructionID.LDR64_pre_float 0xFFE00C00 0xFC400C00 [] [] ].

(** Load/store register (register offset) *)
Definition table_load_store_register_register_offset : list instructionDecodeInfo :=
  [ INST instructionID.STRB_reg 0xFFE00C00 0x38200800 [] [];
    INST instructionID.LDRB_reg 0xFFE00C00 0x38600800 [] [];
    INST instructionID.LDRSB64_reg 0xFFE00C00 0x38A00800 [] [];
    INST instructionID.LDRSB32_reg 0xFFE00C00 0x38E00800 [] [];
    INST instructionID.STR8_reg_float 0xFFE00C00 0x3C200800 [] [];
    INST instructionID.LDR8_reg_float 0xFFE00C00 0x3C600800 [] [];
    INST instructionID.STR128_reg 0xFFE00C00 0x3CA00800 [] [];
    INST instructionID.LDR128_reg 0xFFE00C00 0x3CE00800 [] [];
    INST instructionID.STRH_reg 0xFFE00C00 0x78200800 [] [];
    INST instructionID.LDRH_reg 0xFFE00C00 0x78600800 [] [];
    INST instructionID.LDRSH64_reg 0xFFE00C00 0x78A00800 [] [];
    INST instructionID.LDRSH32_reg 0xFFE00C00 0x78E00800 [] [];
    INST instructionID.STR16_reg_float 0xFFE00C00 0x7C200800 [] [];
    INST instructionID.LDR16_reg_float 0xFFE00C00 0x7C600800 [] [];
    INST instructionID.STR32_reg 0xFFE00C00 0xB8200800 [] [];
    INST instructionID.LDR32_reg 0xFFE00C00 0xB8600800 [] [];
    INST instructionID.LDRSW_reg 0xFFE00C00 0xB8A00800 [] [];
    INST instructionID.STR32_reg_float 0xFFE00C00 0xBC200800 [] [];
    INST instructionID.LDR32_reg_float 0xFFE00C00 0xBC600800 [] [];
    INST instructionID.STR64_reg 0xFFE00C00 0xF8200800 [] [];
    INST instructionID.LDR64_reg 0xFFE00C00 0xF8600800 [] [];
    INST instructionID.PRFM_reg 0xFFE00C00 0xF8A00800 [] [];
    INST instructionID.STR64_reg_float 0xFFE00C00 0xFC200800 [] [];
    INST instructionID.LDR64_reg_float 0xFFE00C00 0xFC600800 [] [] ].

(** Load/store register (unsigned immediate) *)
Definition table_load_store_register_unsigned_immediate : list instructionDecodeInfo :=
  [ INST instructionID.STRB_imm 0xFFC00000 0x39000000 [] [];
    INST instructionID.LDRB_imm 0xFFC00000 0x39400000 [] [];
    INST instructionID.LDRSB64_imm 0xFFC00000 0x39800000 [] [];
    INST instructionID.LDRSB32_imm 0xFFC00000 0x39C00000 [] [];
    INST instructionID.STR8_imm_float 0xFFC00000 0x3D000000 [] [];
    INST instructionID.LDR8_imm_float 0xFFC00000 0x3D400000 [] [];
    INST instructionID.STR128_imm 0xFFC00000 0x3D800000 [] [];
    INST instructionID.LDR128_imm 0xFFC00000 0x3DC00000 [] [];
    INST instructionID.STRH_imm 0xFFC00000 0x79000000 [] [];
    INST instructionID.LDRH_imm 0xFFC00000 0x79400000 [] [];
    INST instructionID.LDRSH64_imm 0xFFC00000 0x79800000 [] [];
    INST instructionID.LDRSH32_imm 0xFFC00000 0x79C00000 [] [];
    INST instructionID.STR16_imm_float 0xFFC00000 0x7D000000 [] [];
    INST instructionID.LDR16_imm_float 0xFFC00000 0x7D400000 [] [];
    INST instructionID.STR32_imm 0xFFC00000 0xB9000000 [] [];
    INST instructionID.LDR32_imm 0xFFC00000 0xB9400000 [] [];
    INST instructionID.LDRSW_imm 0xFFC00000 0xB9800000 [] [];
    INST instructionID.STR32_imm_float 0xFFC00000 0xBD000000 [] [];
    INST instructionID.LDR32_imm_float 0xFFC00000 0xBD400000 [] [];
    INST instructionID.STR64_imm 0xFFC00000 0xF9000000 [] [];
    INST instructionID.LDR64_imm 0xFFC00000 0xF9400000 [] [];
    INST instructionID.PRFM_imm 0xFFC00000 0xF9800000 [] [];
    INST instructionID.STR64_imm_float 0xFFC00000 0xFD000000 [] [];
    INST instructionID.LDR64_imm_float 0xFFC00000 0xFD400000 [] [] ].

(** Conversion between floating-point and fixed-point *)
Definition table_conversion_between_floating_point_and_fixed_point : list instructionDecodeInfo :=
  [ INST instructionID.SCVTF_32_single_fixed 0xFFFF0000 0x1E020000 [] [];
    INST instructionID.UCVTF_32_single_fixed 0xFFFF0000 0x1E030000 [] [];
    INST instructionID.FCVTZS_single_32_fixed 0xFFFF0000 0x1E180000 [] [];
    INST instructionID.FCVTZU_single_32_fixed 0xFFFF0000 0x1E190000 [] [];
    INST instructionID.SCVTF_32_double_fixed 0xFFFF0000 0x1E420000 [] [];
    INST instructionID.UCVTF_32_double_fixed 0xFFFF0000 0x1E430000 [] [];
    INST instructionID.FCVTZS_double_32_fixed 0xFFFF0000 0x1E580000 [] [];
    INST instructionID.FCVTZU_double_32_fixed 0xFFFF0000 0x1E590000 [] [];
    INST instructionID.SCVTF_64_single_fixed 0xFFFF0000 0x9E020000 [] [];
    INST instructionID.UCVTF_64_single_fixed 0xFFFF0000 0x9E030000 [] [];
    INST instructionID.FCVTZS_single_64_fixed 0xFFFF0000 0x9E180000 [] [];
    INST instructionID.FCVTZU_single_64_fixed 0xFFFF0000 0x9E190000 [] [];
    INST instructionID.SCVTF_64_double_fixed 0xFFFF0000 0x9E420000 [] [];
    INST instructionID.UCVTF_64_double_fixed 0xFFFF0000 0x9E430000 [] [];
    INST instructionID.FCVTZS_double_64_fixed 0xFFFF0000 0x9E580000 [] [];
    INST instructionID.FCVTZU_double_64_fixed 0xFFFF0000 0x9E590000 [] [] ].

(** Conversion between floating-point and integer *)
Definition table_conversion_between_floating_point_and_integer : list instructionDecodeInfo :=
  [ INST instructionID.FCVTNS_single_32_int 0xFFFFFC00 0x1E200000 [] [];
    INST instructionID.FCVTNU_single_32_int 0xFFFFFC00 0x1E210000 [] [];
    INST instructionID.SCVTF_32_single_int 0xFFFFFC00 0x1E220000 [] [];
    INST instructionID.UCVTF_32_single_int 0xFFFFFC00 0x1E230000 [] [];
    INST instructionID.FCVTAS_single_32_int 0xFFFFFC00 0x1E240000 [] [];
    INST instructionID.FCVTAU_single_32_int 0xFFFFFC00 0x1E250000 [] [];
    INST instructionID.FMOV_single_32 0xFFFFFC00 0x1E260000 [] [];
    INST instructionID.FMOV_32_single 0xFFFFFC00 0x1E270000 [] [];
    INST instructionID.FCVTPS_single_32_int 0xFFFFFC00 0x1E280000 [] [];
    INST instructionID.FCVTPU_single_32_int 0xFFFFFC00 0x1E290000 [] [];
    INST instructionID.FCVTMS_single_32_int 0xFFFFFC00 0x1E300000 [] [];
    INST instructionID.FCVTMU_single_32_int 0xFFFFFC00 0x1E310000 [] [];
    INST instructionID.FCVTZS_single_32_int 0xFFFFFC00 0x1E380000 [] [];
    INST instructionID.FCVTZU_single_32_int 0xFFFFFC00 0x1E390000 [] [];
    INST instructionID.FCVTNS_double_32_int 0xFFFFFC00 0x1E600000 [] [];
    INST instructionID.FCVTNU_double_32_int 0xFFFFFC00 0x1E610000 [] [];
    INST instructionID.SCVTF_32_double_int 0xFFFFFC00 0x1E620000 [] [];
    INST instructionID.UCVTF_32_double_int 0xFFFFFC00 0x1E630000 [] [];
    INST instructionID.FCVTAS_double_32_int 0xFFFFFC00 0x1E640000 [] [];
    INST instructionID.FCVTAU_double_32_int 0xFFFFFC00 0x1E650000 [] [];
    INST instructionID.FCVTPS_double_32_int 0xFFFFFC00 0x1E680000 [] [];
    INST instructionID.FCVTPU_double_32_int 0xFFFFFC00 0x1E690000 [] [];
    INST instructionID.FCVTMS_double_32_int 0xFFFFFC00 0x1E700000 [] [];
    INST instructionID.FCVTMU_double_32_int 0xFFFFFC00 0x1E710000 [] [];
    INST instructionID.FCVTZS_double_32_int 0xFFFFFC00 0x1E780000 [] [];
    INST instructionID.FCVTZU_double_32_int 0xFFFFFC00 0x1E790000 [] [];
    INST instructionID.FCVTNS_single_64_int 0xFFFFFC00 0x9E200000 [] [];
    INST instructionID.FCVTNU_single_64_int 0xFFFFFC00 0x9E210000 [] [];
    INST instructionID.SCVTF_64_single_int 0xFFFFFC00 0x9E220000 [] [];
    INST instructionID.UCVTF_64_single_int 0xFFFFFC00 0x9E230000 [] [];
    INST instructionID.FCVTAS_single_64_int 0xFFFFFC00 0x9E240000 [] [];
    INST instructionID.FCVTAU_single_64_int 0xFFFFFC00 0x9E250000 [] [];
    INST instructionID.FCVTPS_single_64_int 0xFFFFFC00 0x9E280000 [] [];
    INST instructionID.FCVTPU_single_64_int 0xFFFFFC00 0x9E290000 [] [];
    INST instructionID.FCVTMS_single_64_int 0xFFFFFC00 0x9E300000 [] [];
    INST instructionID.FCVTMU_single_64_int 0xFFFFFC00 0x9E310000 [] [];
    INST instructionID.FCVTZS_single_64_int 0xFFFFFC00 0x9E380000 [] [];
    INST instructionID.FCVTZU_single_64_int 0xFFFFFC00 0x9E390000 [] [];
    INST instructionID.FCVTNS_double_64_int 0xFFFFFC00 0x9E600000 [] [];
    INST instructionID.FCVTNU_double_64_int 0xFFFFFC00 0x9E610000 [] [];
    INST instructionID.SCVTF_64_double_int 0xFFFFFC00 0x9E620000 [] [];
    INST instructionID.UCVTF_64_double_int 0xFFFFFC00 0x9E630000 [] [];
    INST instructionID.FCVTAS_double_64_int 0xFFFFFC00 0x9E640000 [] [];
    INST instructionID.FCVTAU_double_64_int 0xFFFFFC00 0x9E650000 [] [];
    INST instructionID.FMOV_double_64 0xFFFFFC00 0x9E660000 [] [];
    INST instructionID.FMOV_64_double 0xFFFFFC00 0x9E670000 [] [];
    INST instructionID.FCVTPS_double_64_int 0xFFFFFC00 0x9E680000 [] [];
    INST instructionID.FCVTPU_double_64_int 0xFFFFFC00 0x9E690000 [] [];
    INST instructionID.FCVTMS_double_64_int 0xFFFFFC00 0x9E700000 [] [];
    INST instructionID.FCVTMU_double_64_int 0xFFFFFC00 0x9E710000 [] [];
    INST instructionID.FCVTZS_double_64_int 0xFFFFFC00 0x9E780000 [] [];
    INST instructionID.FCVTZU_double_64_int 0xFFFFFC00 0x9E790000 [] [];
    INST instructionID.FMOV_top128_64 0xFFFFFC00 0x9EAE0000 [] [];
    INST instructionID.FMOV_64_top128 0xFFFFFC00 0x9EAF0000 [] [] ].

(** Floating-point data-processing (1 source) *)
Definition table_floating_point_data_processing_1_source : list instructionDecodeInfo :=
  [ INST instructionID.FMOV_reg_single 0xFFFFFC00 0x1E204000 [] [];
    INST instructionID.FABS_single 0xFFFFFC00 0x1E20C000 [] [];
    INST instructionID.FNEG_single 0xFFFFFC00 0x1E214000 [] [];
    INST instructionID.FSQRT_single 0xFFFFFC00 0x1E21C000 [] [];
    INST instructionID.FCVT_single_double 0xFFFFFC00 0x1E22C000 [] [];
    INST instructionID.FCVT_single_half 0xFFFFFC00 0x1E23C000 [] [];
    INST instructionID.FRINTN_single 0xFFFFFC00 0x1E244000 [] [];
    INST instructionID.FRINTP_single 0xFFFFFC00 0x1E24C000 [] [];
    INST instructionID.FRINTM_single 0xFFFFFC00 0x1E254000 [] [];
    INST instructionID.FRINTZ_single 0xFFFFFC00 0x1E25C000 [] [];
    INST instructionID.FRINTA_single 0xFFFFFC00 0x1E264000 [] [];
    INST instructionID.FRINTX_single 0xFFFFFC00 0x1E274000 [] [];
    INST instructionID.FRINTI_single 0xFFFFFC00 0x1E27C000 [] [];
    INST instructionID.FMOV_reg_double 0xFFFFFC00 0x1E604000 [] [];
    INST instructionID.FABS_double 0xFFFFFC00 0x1E60C000 [] [];
    INST instructionID.FNEG_double 0xFFFFFC00 0x1E614000 [] [];
    INST instructionID.FSQRT_double 0xFFFFFC00 0x1E61C000 [] [];
    INST instructionID.FCVT_double_single 0xFFFFFC00 0x1E624000 [] [];
    INST instructionID.FCVT_double_half 0xFFFFFC00 0x1E63C000 [] [];
    INST instructionID.FRINTN_double 0xFFFFFC00 0x1E644000 [] [];
    INST instructionID.FRINTP_double 0xFFFFFC00 0x1E64C000 [] [];
    INST instructionID.FRINTM_double 0xFFFFFC00 0x1E654000 [] [];
    INST instructionID.FRINTZ_double 0xFFFFFC00 0x1E65C000 [] [];
    INST instructionID.FRINTA_double 0xFFFFFC00 0x1E664000 [] [];
    INST instructionID.FRINTX_double 0xFFFFFC00 0x1E674000 [] [];
    INST instructionID.FRINTI_double 0xFFFFFC00 0x1E67C000 [] [];
    INST instructionID.FCVT_half_single 0xFFFFFC00 0x1EE24000 [] [];
    INST instructionID.FCVT_half_double 0xFFFFFC00 0x1EE2C000 [] [] ].

(** Floating-point compare *)
Definition table_floating_point_compare : list instructionDecodeInfo :=
  [ INST instructionID.FCMP_single 0xFFE0FC1F 0x1E202000 [] [];
    INST instructionID.FCMP_single_zero 0xFFE0FC1F 0x1E202008 [] [];
    INST instructionID.FCMPE_single 0xFFE0FC1F 0x1E202010 [] [];
    INST instructionID.FCMPE_single_zero 0xFFE0FC1F 0x1E202018 [] [];
    INST instructionID.FCMP_double 0xFFE0FC1F 0x1E602000 [] [];
    INST instructionID.FCMP_double_zero 0xFFE0FC1F 0x1E602008 [] [];
    INST instructionID.FCMPE_double 0xFFE0FC1F 0x1E602010 [] [];
    INST instructionID.FCMPE_double_zero 0xFFE0FC1F 0x1E602018 [] [] ].

(** Floating-point immediate *)
Definition table_floating_point_immediate : list instructionDecodeInfo :=
  [ INST instructionID.FMOV_imm_single 0xFFE01FE0 0x1E201000 [] [];
    INST instructionID.FMOV_imm_double 0xFFE01FE0 0x1E601000 [] [] ].

(** Floating-point conditional compare *)
Definition table_floating_point_conditional_compare : list instructionDecodeInfo :=
  [ INST instructionID.FCCMP_single 0xFFE00C10 0x1E200400 [] [];
    INST instructionID.FCCMPE_single 0xFFE00C10 0x1E200410 [] [];
    INST instructionID.FCCMP_double 0xFFE00C10 0x1E600400 [] [];
    INST instructionID.FCCMPE_double 0xFFE00C10 0x1E600410 [] [] ].

(** Floating-point data-processing (2 source) *)
Definition table_floating_point_data_processing_2_source : list instructionDecodeInfo :=
  [ INST instructionID.FMUL_single 0xFFE0FC00 0x1E200800 [] [];
    INST instructionID.FDIV_single 0xFFE0FC00 0x1E201800 [] [];
    INST instructionID.FADD_single 0xFFE0FC00 0x1E202800 [] [];
    INST instructionID.FSUB_single 0xFFE0FC00 0x1E203800 [] [];
    INST instructionID.FMAX_single 0xFFE0FC00 0x1E204800 [] [];
    INST instructionID.FMIN_single 0xFFE0FC00 0x1E205800 [] [];
    INST instructionID.FMAXNM_single 0xFFE0FC00 0x1E206800 [] [];
    INST instructionID.FMINNM_single 0xFFE0FC00 0x1E207800 [] [];
    INST instructionID.FNMUL_single 0xFFE0FC00 0x1E208800 [] [];
    INST instructionID.FMUL_double 0xFFE0FC00 0x1E600800 [] [];
    INST instructionID.FDIV_double 0xFFE0FC00 0x1E601800 [] [];
    INST instructionID.FADD_double 0xFFE0FC00 0x1E602800 [] [];
    INST instructionID.FSUB_double 0xFFE0FC00 0x1E603800 [] [];
    INST instructionID.FMAX_double 0xFFE0FC00 0x1E604800 [] [];
    INST instructionID.FMIN_double 0xFFE0FC00 0x1E605800 [] [];
    INST instructionID.FMAXNM_double 0xFFE0FC00 0x1E606800 [] [];
    INST instructionID.FMINNM_double 0xFFE0FC00 0x1E607800 [] [];
    INST instructionID.FNMUL_double 0xFFE0FC00 0x1E608800 [] [] ].

(** Floating-point conditional select *)
Definition table_floating_point_conditional_select : list instructionDecodeInfo :=
  [ INST instructionID.FCSEL_single 0xFFE00C00 0x1E200C00 [] [];
    INST instructionID.FCSEL_double 0xFFE00C00 0x1E600C00 [] [] ].

(** Floating-point data-processing (3 source) *)
Definition table_floating_point_data_processing_3_source : list instructionDecodeInfo :=
  [ INST instructionID.FMADD_single 0xFFE08000 0x1F000000 [] [];
    INST instructionID.FMSUB_single 0xFFE08000 0x1F008000 [] [];
    INST instructionID.FNMADD_single 0xFFE08000 0x1F200000 [] [];
    INST instructionID.FNMSUB_single 0xFFE08000 0x1F208000 [] [];
    INST instructionID.FMADD_double 0xFFE08000 0x1F400000 [] [];
    INST instructionID.FMSUB_double 0xFFE08000 0x1F408000 [] [];
    INST instructionID.FNMADD_double 0xFFE08000 0x1F600000 [] [];
    INST instructionID.FNMSUB_double 0xFFE08000 0x1F608000 [] [] ].

(** Cryptographic AES *)
Definition table_cryptographic_aes : list instructionDecodeInfo :=
  [ INST instructionID.AESE 0xFFFFFC00 0x4E284800 [] [];
    INST instructionID.AESD 0xFFFFFC00 0x4E285800 [] [];
    INST instructionID.AESMC 0xFFFFFC00 0x4E286800 [] [];
    INST instructionID.AESIMC 0xFFFFFC00 0x4E287800 [] [] ].

(** Cryptographic three-register SHA *)
Definition table_cryptographic_three_register_sha : list instructionDecodeInfo :=
  [ INST instructionID.SHA1C 0xFFE0FC00 0x5E000000 [] [];
    INST instructionID.SHA1P 0xFFE0FC00 0x5E001000 [] [];
    INST instructionID.SHA1M 0xFFE0FC00 0x5E002000 [] [];
    INST instructionID.SHA1SU0 0xFFE0FC00 0x5E003000 [] [];
    INST instructionID.SHA256H 0xFFE0FC00 0x5E004000 [] [];
    INST instructionID.SHA256H2 0xFFE0FC00 0x5E005000 [] [];
    INST instructionID.SHA256SU1 0xFFE0FC00 0x5E006000 [] [] ].

(** Cryptographic two-register SHA *)
Definition table_cryptographic_two_register_sha : list instructionDecodeInfo :=
  [ INST instructionID.SHA1H 0xFFFFFC00 0x5E280800 [] [];
    INST instructionID.SHA1SU1 0xFFFFFC00 0x5E281800 [] [];
    INST instructionID.SHA256SU0 0xFFFFFC00 0x5E282800 [] [] ].

(** Advanced SIMD scalar copy *)
Definition table_advanced_simd_scalar_copy : list instructionDecodeInfo :=
  [ INST instructionID.DUP_element_scalar 0xFFE0FC00 0x5E000400 [0xF0000] [] ].

(** Advanced SIMD scalar two-register miscellaneous *)
Definition table_advanced_simd_scalar_two_register_miscellaneous : list instructionDecodeInfo :=
  [ INST instructionID.SUQADD_scalar 0xFF3FFC00 0x5E203800 [] [];
    INST instructionID.SQABS_scalar 0xFF3FFC00 0x5E207800 [] [];
    INST instructionID.CMGT_scalar_zero 0xFF3FFC00 0x5E208800 [] [];
    INST instructionID.CMEQ_scalar_zero 0xFF3FFC00 0x5E209800 [] [];
    INST instructionID.CMLT_scalar_zero 0xFF3FFC00 0x5E20A800 [] [];
    INST instructionID.ABS_scalar 0xFF3FFC00 0x5E20B800 [] [];
    INST instructionID.SQXTN_scalar 0xFF3FFC00 0x5E214800 [] [];
    INST instructionID.FCVTNS_scalar 0xFFBFFC00 0x5E21A800 [] [];
    INST instructionID.FCVTMS_scalar 0xFFBFFC00 0x5E21B800 [] [];
    INST instructionID.FCVTAS_scalar 0xFFBFFC00 0x5E21C800 [] [];
    INST instructionID.SCVTF_scalar_int 0xFFBFFC00 0x5E21D800 [] [];
    INST instructionID.FCMGT_scalar_zero 0xFFBFFC00 0x5EA0C800 [] [];
    INST instructionID.FCMEQ_scalar_zero 0xFFBFFC00 0x5EA0D800 [] [];
    INST instructionID.FCMLT_scalar_zero 0xFFBFFC00 0x5EA0E800 [] [];
    INST instructionID.FCVTPS_scalar 0xFFBFFC00 0x5EA1A800 [] [];
    INST instructionID.FCVTZS_scalar_int 0xFFBFFC00 0x5EA1B800 [] [];
    INST instructionID.FRECPE_scalar 0xFFBFFC00 0x5EA1D800 [] [];
    INST instructionID.FRECPX_scalar 0xFFBFFC00 0x5EA1F800 [] [];
    INST instructionID.USQADD_scalar 0xFF3FFC00 0x7E203800 [] [];
    INST instructionID.SQNEG_scalar 0xFF3FFC00 0x7E207800 [] [];
    INST instructionID.CMGE_scalar_zero 0xFF3FFC00 0x7E208800 [] [];
    INST instructionID.CMLE_scalar_zero 0xFF3FFC00 0x7E209800 [] [];
    INST instructionID.NEG_scalar 0xFF3FFC00 0x7E20B800 [] [];
    INST instructionID.SQXTUN_scalar 0xFF3FFC00 0x7E212800 [] [];
    INST instructionID.UQXTN_scalar 0xFF3FFC00 0x7E214800 [] [];
    INST instructionID.FCVTXN_scalar 0xFFBFFC00 0x7E216800 [] [];
    INST instructionID.FCVTNU_scalar 0xFFBFFC00 0x7E21A800 [] [];
    INST instructionID.FCVTMU_scalar 0xFFBFFC00 0x7E21B800 [] [];
    INST instructionID.FCVTAU_scalar 0xFFBFFC00 0x7E21C800 [] [];
    INST instructionID.UCVTF_scalar_int 0xFFBFFC00 0x7E21D800 [] [];
    INST instructionID.FCMGE_scalar_zero 0xFFBFFC00 0x7EA0C800 [] [];
    INST instructionID.FCMLE_scalar_zero 0xFFBFFC00 0x7EA0D800 [] [];
    INST instructionID.FCVTPU_scalar 0xFFBFFC00 0x7EA1A800 [] [];
    INST instructionID.FCVTZU_scalar_int 0xFFBFFC00 0x7EA1B800 [] [];
    INST instructionID.FRSQRTE_scalar 0xFFBFFC00 0x7EA1D800 [] [] ].

(** Advanced SIMD scalar pairwise *)
Definition table_advanced_simd_scalar_pairwise : list instructionDecodeInfo :=
  [ INST instructionID.ADDP_scalar 0xFF3FFC00 0x5E31B800 [] [];
    INST instructionID.FMAXNMP_scalar 0xFFBFFC00 0x7E30C800 [] [];
    INST instructionID.FADDP_scalar 0xFFBFFC00 0x7E30D800 [] [];
    INST instructionID.FMAXP_scalar 0xFFBFFC00 0x7E30F800 [] [];
    INST instructionID.FMINNMP_scalar 0xFFBFFC00 0x7EB0C800 [] [];
    INST instructionID.FMINP_scalar 0xFFBFFC00 0x7EB0F800 [] [] ].

(** Advanced SIMD scalar three different *)
Definition table_advanced_simd_scalar_three_different : list instructionDecodeInfo :=
  [ INST instructionID.SQDMLAL_scalar 0xFF20FC00 0x5E209000 [] [];
    INST instructionID.SQDMLSL_scalar 0xFF20FC00 0x5E20B000 [] [];
    INST instructionID.SQDMULL_scalar 0xFF20FC00 0x5E20D000 [] [] ].

(** Advanced SIMD scalar three same *)
Definition table_advanced_simd_scalar_three_same : list instructionDecodeInfo :=
  [ INST instructionID.SQADD_scalar 0xFF20FC00 0x5E200C00 [] [];
    INST instructionID.SQSUB_scalar 0xFF20FC00 0x5E202C00 [] [];
    INST instructionID.CMGT_scalar_reg 0xFF20FC00 0x5E203400 [] [];
    INST instructionID.CMGE_scalar_reg 0xFF20FC00 0x5E203C00 [] [];
    INST instructionID.SSHL_scalar 0xFF20FC00 0x5E204400 [] [];
    INST instructionID.SQSHL_scalar_reg 0xFF20FC00 0x5E204C00 [] [];
    INST instructionID.SRSHL_scalar 0xFF20FC00 0x5E205400 [] [];
    INST instructionID.SQRSHL_scalar 0xFF20FC00 0x5E205C00 [] [];
    INST instructionID.ADD_scalar 0xFF20FC00 0x5E208400 [] [];
    INST instructionID.CMTST_scalar 0xFF20FC00 0x5E208C00 [] [];
    INST instructionID.SQDMULH_scalar 0xFF20FC00 0x5E20B400 [] [];
    INST instructionID.FMULX_scalar 0xFFA0FC00 0x5E20DC00 [] [];
    INST instructionID.FCMEQ_scalar_reg 0xFFA0FC00 0x5E20E400 [] [];
    INST instructionID.FRECPS_scalar 0xFFA0FC00 0x5E20FC00 [] [];
    INST instructionID.FRSQRTS_scalar 0xFFA0FC00 0x5EA0FC00 [] [];
    INST instructionID.UQADD_scalar 0xFF20FC00 0x7E200C00 [] [];
    INST instructionID.UQSUB_scalar 0xFF20FC00 0x7E202C00 [] [];
    INST instructionID.CMHI_scalar_reg 0xFF20FC00 0x7E203400 [] [];
    INST instructionID.CMHS_scalar_reg 0xFF20FC00 0x7E203C00 [] [];
    INST instructionID.USHL_scalar 0xFF20FC00 0x7E204400 [] [];
    INST instructionID.UQSHL_scalar_reg 0xFF20FC00 0x7E204C00 [] [];
    INST instructionID.URSHL_scalar 0xFF20FC00 0x7E205400 [] [];
    INST instructionID.UQRSHL_scalar 0xFF20FC00 0x7E205C00 [] [];
    INST instructionID.SUB_scalar 0xFF20FC00 0x7E208400 [] [];
    INST instructionID.CMEQ_scalar_reg 0xFF20FC00 0x7E208C00 [] [];
    INST instructionID.SQRDMULH_scalar 0xFF20FC00 0x7E20B400 [] [];
    INST instructionID.FCMGE_scalar_reg 0xFFA0FC00 0x7E20E400 [] [];
    INST instructionID.FACGE_scalar 0xFFA0FC00 0x7E20EC00 [] [];
    INST instructionID.FABD_scalar 0xFFA0FC00 0x7EA0D400 [] [];
    INST instructionID.FCMGT_scalar_reg 0xFFA0FC00 0x7EA0E400 [] [];
    INST instructionID.FACGT_scalar 0xFFA0FC00 0x7EA0EC00 [] [] ].

(** Advanced SIMD scalar shift by immediate *)
Definition table_advanced_simd_scalar_shift_by_immediate : list instructionDecodeInfo :=
  [ INST instructionID.SSHR_scalar 0xFF80FC00 0x5F000400 [0x780000] [];
    INST instructionID.SSRA_scalar 0xFF80FC00 0x5F001400 [0x780000] [];
    INST instructionID.SRSHR_scalar 0xFF80FC00 0x5F002400 [0x780000] [];
    INST instructionID.SRSRA_scalar 0xFF80FC00 0x5F003400 [0x780000] [];
    INST instructionID.SHL_scalar 0xFF80FC00 0x5F005400 [0x780000] [];
    INST instructionID.SQSHL_scalar_imm 0xFF80FC00 0x5F007400 [0x780000] [];
    INST instructionID.SQSHRN_scalar 0xFF80FC00 0x5F009400 [0x780000] [];
    INST instructionID.SQRSHRN_scalar 0xFF80FC00 0x5F009C00 [0x780000] [];
    INST instructionID.SCVTF_scalar_fixed 0xFF80FC00 0x5F00E400 [0x780000] [];
    INST instructionID.FCVTZS_scalar_fixed 0xFF80FC00 0x5F00FC00 [0x780000] [];
    INST instructionID.USHR_scalar 0xFF80FC00 0x7F000400 [0x780000] [];
    INST instructionID.USRA_scalar 0xFF80FC00 0x7F001400 [0x780000] [];
    INST instructionID.URSHR_scalar 0xFF80FC00 0x7F002400 [0x780000] [];
    INST instructionID.URSRA_scalar 0xFF80FC00 0x7F003400 [0x780000] [];
    INST instructionID.SRI_scalar 0xFF80FC00 0x7F004400 [0x780000] [];
    INST instructionID.SLI_scalar 0xFF80FC00 0x7F005400 [0x780000] [];
    INST instructionID.SQSHLU_scalar 0xFF80FC00 0x7F006400 [0x780000] [];
    INST instructionID.UQSHL_scalar_imm 0xFF80FC00 0x7F007400 [0x780000] [];
    INST instructionID.SQSHRUN_scalar 0xFF80FC00 0x7F008400 [0x780000] [];
    INST instructionID.SQRSHRUN_scalar 0xFF80FC00 0x7F008C00 [0x780000] [];
    INST instructionID.UQSHRN_scalar 0xFF80FC00 0x7F009400 [0x780000] [];
    INST instructionID.UQRSHRN_scalar 0xFF80FC00 0x7F009C00 [0x780000] [];
    INST instructionID.UCVTF_scalar_fixed 0xFF80FC00 0x7F00E400 [0x780000] [];
    INST instructionID.FCVTZU_scalar_fixed 0xFF80FC00 0x7F00FC00 [0x780000] [] ].

(** Advanced SIMD scalar x indexed element *)
Definition table_advanced_simd_scalar_x_indexed_element : list instructionDecodeInfo :=
  [ INST instructionID.SQDMLAL_scalar_element 0xFF00F400 0x5F003000 [] [];
    INST instructionID.SQDMLSL_scalar_element 0xFF00F400 0x5F007000 [] [];
    INST instructionID.SQDMULL_scalar_element 0xFF00F400 0x5F00B000 [] [];
    INST instructionID.SQDMULH_scalar_element 0xFF00F400 0x5F00C000 [] [];
    INST instructionID.SQRDMULH_scalar_element 0xFF00F400 0x5F00D000 [] [];
    INST instructionID.FMLA_scalar_element 0xFF80F400 0x5F801000 [] [];
    INST instructionID.FMLS_scalar_element 0xFF80F400 0x5F805000 [] [];
    INST instructionID.FMUL_scalar_element 0xFF80F400 0x5F809000 [] [];
    INST instructionID.FMULX_scalar_element 0xFF80F400 0x7F809000 [] [] ].

(** Advanced SIMD table lookup *)
Definition table_advanced_simd_table_lookup : list instructionDecodeInfo :=
  [ INST instructionID.TBL_one_reg 0xBFE0FC00 0x0E000000 [] [];
    INST instructionID.TBX_one_reg 0xBFE0FC00 0x0E001000 [] [];
    INST instructionID.TBL_two_reg 0xBFE0FC00 0x0E002000 [] [];
    INST instructionID.TBX_two_reg 0xBFE0FC00 0x0E003000 [] [];
    INST instructionID.TBL_three_reg 0xBFE0FC00 0x0E004000 [] [];
    INST instructionID.TBX_three_reg 0xBFE0FC00 0x0E005000 [] [];
    INST instructionID.TBL_four_reg 0xBFE0FC00 0x0E006000 [] [];
    INST instructionID.TBX_four_reg 0xBFE0FC00 0x0E007000 [] [] ].

(** Advanced SIMD permute *)
Definition table_advanced_simd_permute : list instructionDecodeInfo :=
  [ INST instructionID.UZP1 0xBF20FC00 0x0E001800 [] [];
    INST instructionID.TRN1 0xBF20FC00 0x0E002800 [] [];
    INST instructionID.ZIP1 0xBF20FC00 0x0E003800 [] [];
    INST instructionID.UZP2 0xBF20FC00 0x0E005800 [] [];
    INST instructionID.TRN2 0xBF20FC00 0x0E006800 [] [];
    INST instructionID.ZIP2 0xBF20FC00 0x0E007800 [] [] ].

(** Advanced SIMD extract *)
Definition table_advanced_simd_extract : list instructionDecodeInfo :=
  [ INST instructionID.EXT 0xBFE08400 0x2E000000 [] [] ].

(** Advanced SIMD copy *)
Definition table_advanced_simd_copy : list instructionDecodeInfo :=
  [ INST instructionID.DUP_element_vec 0xBFE0FC00 0x0E000400 [0xF0000] [];
    INST instructionID.DUP_general 0xBFE0FC00 0x0E000C00 [0xF0000] [];
    INST instructionID.SMOV_32 0xFFE0FC00 0x0E002C00 [0xF0000] [];
    INST instructionID.UMOV_32 0xFFE0FC00 0x0E003C00 [0xF0000] [];
    INST instructionID.INS_general 0xFFE0FC00 0x4E001C00 [0xF0000] [];
    INST instructionID.SMOV_64 0xFFE0FC00 0x4E002C00 [0xF0000] [];
    INST instructionID.UMOV_64 0xFFEFFC00 0x4E083C00 [0xF0000] [];
    INST instructionID.INS_element 0xFFE08400 0x6E000400 [0xF0000] [] ].

(** Advanced SIMD two-register miscellaneous *)
Definition table_advanced_simd_two_register_miscellaneous : list instructionDecodeInfo :=
  [ INST instructionID.REV64_vec 0xBF3FFC00 0x0E200800 [] [];
    INST instructionID.REV16_vec 0xBF3FFC00 0x0E201800 [] [];
    INST instructionID.SADDLP_vec 0xBF3FFC00 0x0E202800 [] [];
    INST instructionID.SUQADD_vec 0xBF3FFC00 0x0E203800 [] [];
    INST instructionID.CLS_vec 0xBF3FFC00 0x0E204800 [] [];
    INST instructionID.CNT_vec 0xBF3FFC00 0x0E205800 [] [];
    INST instructionID.SADALP_vec 0xBF3FFC00 0x0E206800 [] [];
    INST instructionID.SQABS_vec 0xBF3FFC00 0x0E207800 [] [];
    INST instructionID.CMGT_vec_zero 0xBF3FFC00 0x0E208800 [] [];
    INST instructionID.CMEQ_vec_zero 0xBF3FFC00 0x0E209800 [] [];
    INST instructionID.CMLT_vec_zero 0xBF3FFC00 0x0E20A800 [] [];
    INST instructionID.ABS_vec 0xBF3FFC00 0x0E20B800 [] [];
    INST instructionID.XTN_vec 0xFF3FFC00 0x0E212800 [] [];
    INST instructionID.XTN2_vec 0xFF3FFC00 0x4E212800 [] [];
    INST instructionID.SQXTN_vec 0xFF3FFC00 0x0E214800 [] [];
    INST instructionID.SQXTN2_vec 0xFF3FFC00 0x4E214800 [] [];
    INST instructionID.FCVTN_vec 0xFFBFFC00 0x0E216800 [] [];
    INST instructionID.FCVTN2_vec 0xFFBFFC00 0x4E216800 [] [];
    INST instructionID.FCVTL_vec 0xFFBFFC00 0x0E217800 [] [];
    INST instructionID.FCVTL2_vec 0xFFBFFC00 0x4E217800 [] [];
    INST instructionID.FRINTN_vec 0xBFBFFC00 0x0E218800 [] [];
    INST instructionID.FRINTM_vec 0xBFBFFC00 0x0E219800 [] [];
    INST instructionID.FCVTNS_vec 0xBFBFFC00 0x0E21A800 [] [];
    INST instructionID.FCVTMS_vec 0xBFBFFC00 0x0E21B800 [] [];
    INST instructionID.FCVTAS_vec 0xBFBFFC00 0x0E21C800 [] [];
    INST instructionID.SCVTF_vec_int 0xBFBFFC00 0x0E21D800 [] [];
    INST instructionID.FCMGT_vec_zero 0xBFBFFC00 0x0EA0C800 [] [];
    INST instructionID.FCMEQ_vec_zero 0xBFBFFC00 0x0EA0D800 [] [];
    INST instructionID.FCMLT_vec_zero 0xBFBFFC00 0x0EA0E800 [] [];
    INST instructionID.FABS_vec 0xBFBFFC00 0x0EA0F800 [] [];
    INST instructionID.FRINTP_vec 0xBFBFFC00 0x0EA18800 [] [];
    INST instructionID.FRINTZ_vec 0xBFBFFC00 0x0EA19800 [] [];
    INST instructionID.FCVTPS_vec 0xBFBFFC00 0x0EA1A800 [] [];
    INST instructionID.FCVTZS_vec_int 0xBFBFFC00 0x0EA1B800 [] [];
    INST instructionID.URECPE_vec 0xBFBFFC00 0x0EA1C800 [] [];
    INST instructionID.FRECPE_vec 0xBFBFFC00 0x0EA1D800 [] [];
    INST instructionID.REV32_vec 0xBF3FFC00 0x2E200800 [] [];
    INST instructionID.UADDLP_vec 0xBF3FFC00 0x2E202800 [] [];
    INST instructionID.USQADD_vec 0xBF3FFC00 0x2E203800 [] [];
    INST instructionID.CLZ_vec 0xBF3FFC00 0x2E204800 [] [];
    INST instructionID.UADALP_vec 0xBF3FFC00 0x2E206800 [] [];
    INST instructionID.SQNEG_vec 0xBF3FFC00 0x2E207800 [] [];
    INST instructionID.CMGE_vec_zero 0xBF3FFC00 0x2E208800 [] [];
    INST instructionID.CMLE_vec_zero 0xBF3FFC00 0x2E209800 [] [];
    INST instructionID.NEG_vec 0xBF3FFC00 0x2E20B800 [] [];
    INST instructionID.SQXTUN_vec 0xFF3FFC00 0x2E212800 [] [];
    INST instructionID.SQXTUN2_vec 0xFF3FFC00 0x6E212800 [] [];
    INST instructionID.SHLL_vec 0xFF3FFC00 0x2E213800 [] [];
    INST instructionID.SHLL2_vec 0xFF3FFC00 0x6E213800 [] [];
    INST instructionID.UQXTN_vec 0xFF3FFC00 0x2E214800 [] [];
    INST instructionID.UQXTN2_vec 0xFF3FFC00 0x6E214800 [] [];
    INST instructionID.FCVTXN_vec 0xFFBFFC00 0x2E216800 [] [];
    INST instructionID.FCVTXN2_vec 0xFFBFFC00 0x6E216800 [] [];
    INST instructionID.FRINTA_vec 0xBFBFFC00 0x2E218800 [] [];
    INST instructionID.FRINTX_vec 0xBFBFFC00 0x2E219800 [] [];
    INST instructionID.FCVTNU_vec 0xBFBFFC00 0x2E21A800 [] [];
    INST instructionID.FCVTMU_vec 0xBFBFFC00 0x2E21B800 [] [];
    INST instructionID.FCVTAU_vec 0xBFBFFC00 0x2E21C800 [] [];
    INST instructionID.UCVTF_vec_int 0xBFBFFC00 0x2E21D800 [] [];
    INST instructionID.NOT_vec 0xBFFFFC00 0x2E205800 [] [];
    INST instructionID.RBIT_vec 0xBFFFFC00 0x2E605800 [] [];
    INST instructionID.FCMGE_vec_zero 0xBFBFFC00 0x2EA0C800 [] [];
    INST instructionID.FCMLE_vec_zero 0xBFBFFC00 0x2EA0D800 [] [];
    INST instructionID.FNEG_vec 0xBFBFFC00 0x2EA0F800 [] [];
    INST instructionID.FRINTI_vec 0xBFBFFC00 0x2EA19800 [] [];
    INST instructionID.FCVTPU_vec 0xBFBFFC00 0x2EA1A800 [] [];
    INST instructionID.FCVTZU_vec_int 0xBFBFFC00 0x2EA1B800 [] [];
    INST instructionID.URSQRTE_vec 0xBFBFFC00 0x2EA1C800 [] [];
    INST instructionID.FRSQRTE_vec 0xBFBFFC00 0x2EA1D800 [] [];
    INST instructionID.FSQRT_vec 0xBFBFFC00 0x2EA1F800 [] [] ].

(** Advanced SIMD across lanes *)
Definition table_advanced_simd_across_lanes : list instructionDecodeInfo :=
  [ INST instructionID.SADDLV_vec 0xBF3FFC00 0x0E303800 [] [];
    INST instructionID.SMAXV_vec 0xBF3FFC00 0x0E30A800 [] [];
    INST instructionID.SMINV_vec 0xBF3FFC00 0x0E31A800 [] [];
    INST instructionID.ADDV_vec 0xBF3FFC00 0x0E31B800 [] [];
    INST instructionID.UADDLV_vec 0xBF3FFC00 0x2E303800 [] [];
    INST instructionID.UMAXV_vec 0xBF3FFC00 0x2E30A800 [] [];
    INST instructionID.UMINV_vec 0xBF3FFC00 0x2E31A800 [] [];
    INST instructionID.FMAXNMV_vec 0xBFBFFC00 0x2E30C800 [] [];
    INST instructionID.FMAXV_vec 0xBFBFFC00 0x2E30F800 [] [];
    INST instructionID.FMINNMV_vec 0xBFBFFC00 0x2EB0C800 [] [];
    INST instructionID.FMINV_vec 0xBFBFFC00 0x2EB0F800 [] [] ].

(** Advanced SIMD three different *)
Definition table_advanced_simd_three_different : list instructionDecodeInfo :=
  [ INST instructionID.SADDL 0xFF20FC00 0x0E200000 [] [];
    INST instructionID.SADDL2 0xFF20FC00 0x4E200000 [] [];
    INST instructionID.SADDW 0xFF20FC00 0x0E201000 [] [];
    INST instructionID.SADDW2 0xFF20FC00 0x4E201000 [] [];
    INST instructionID.SSUBL 0xFF20FC00 0x0E202000 [] [];
    INST instructionID.SSUBL2 0xFF20FC00 0x4E202000 [] [];
    INST instructionID.SSUBW 0xFF20FC00 0x0E203000 [] [];
    INST instructionID.SSUBW2 0xFF20FC00 0x4E203000 [] [];
    INST instructionID.ADDHN 0xFF20FC00 0x0E204000 [] [];
    INST instructionID.ADDHN2 0xFF20FC00 0x4E204000 [] [];
    INST instructionID.SABAL 0xFF20FC00 0x0E205000 [] [];
    INST instructionID.SABAL2 0xFF20FC00 0x4E205000 [] [];
    INST instructionID.SUBHN 0xFF20FC00 0x0E206000 [] [];
    INST instructionID.SUBHN2 0xFF20FC00 0x4E206000 [] [];
    INST instructionID.SABDL 0xFF20FC00 0x0E207000 [] [];
    INST instructionID.SABDL2 0xFF20FC00 0x4E207000 [] [];
    INST instructionID.SMLAL_vec 0xFF20FC00 0x0E208000 [] [];
    INST instructionID.SMLAL2_vec 0xFF20FC00 0x4E208000 [] [];
    INST instructionID.SQDMLAL_vec 0xFF20FC00 0x0E209000 [] [];
    INST instructionID.SQDMLAL2_vec 0xFF20FC00 0x4E209000 [] [];
    INST instructionID.SMLSL_vec 0xFF20FC00 0x0E20A000 [] [];
    INST instructionID.SMLSL2_vec 0xFF20FC00 0x4E20A000 [] [];
    INST instructionID.SQDMLSL_vec 0xFF20FC00 0x0E20B000 [] [];
    INST instructionID.SQDMLSL2_vec 0xFF20FC00 0x4E20B000 [] [];
    INST instructionID.SMULL_vec 0xFF20FC00 0x0E20C000 [] [];
    INST instructionID.SMULL2_vec 0xFF20FC00 0x4E20C000 [] [];
    INST instructionID.SQDMULL_vec 0xFF20FC00 0x0E20D000 [] [];
    INST instructionID.SQDMULL2_vec 0xFF20FC00 0x4E20D000 [] [];
    INST instructionID.PMULL 0xFF20FC00 0x0E20E000 [] [];
    INST instructionID.PMULL2 0xFF20FC00 0x4E20E000 [] [];
    INST instructionID.UADDL 0xFF20FC00 0x2E200000 [] [];
    INST instructionID.UADDL2 0xFF20FC00 0x6E200000 [] [];
    INST instructionID.UADDW 0xFF20FC00 0x2E201000 [] [];
    INST instructionID.UADDW2 0xFF20FC00 0x6E201000 [] [];
    INST instructionID.USUBL 0xFF20FC00 0x2E202000 [] [];
    INST instructionID.USUBL2 0xFF20FC00 0x6E202000 [] [];
    INST instructionID.USUBW 0xFF20FC00 0x2E203000 [] [];
    INST instructionID.USUBW2 0xFF20FC00 0x6E203000 [] [];
    INST instructionID.RADDHN 0xFF20FC00 0x2E204000 [] [];
    INST instructionID.RADDHN2 0xFF20FC00 0x6E204000 [] [];
    INST instructionID.UABAL 0xFF20FC00 0x2E205000 [] [];
    INST instructionID.UABAL2 0xFF20FC00 0x6E205000 [] [];
    INST instructionID.RSUBHN 0xFF20FC00 0x2E206000 [] [];
    INST instructionID.RSUBHN2 0xFF20FC00 0x6E206000 [] [];
    INST instructionID.UABDL 0xFF20FC00 0x2E207000 [] [];
    INST instructionID.UABDL2 0xFF20FC00 0x6E207000 [] [];
    INST instructionID.UMLAL_vec 0xFF20FC00 0x2E208000 [] [];
    INST instructionID.UMLAL2_vec 0xFF20FC00 0x6E208000 [] [];
    INST instructionID.UMLSL_vec 0xFF20FC00 0x2E20A000 [] [];
    INST instructionID.UMLSL2_vec 0xFF20FC00 0x6E20A000 [] [];
    INST instructionID.UMULL_vec 0xFF20FC00 0x2E20C000 [] [];
    INST instructionID.UMULL2_vec 0xFF20FC00 0x6E20C000 [] [] ].

(** Advanced SIMD three same *)
Definition table_advanced_simd_three_same : list instructionDecodeInfo :=
  [ INST instructionID.SHADD_vec 0xBF20FC00 0x0E200400 [] [];
    INST instructionID.SQADD_vec 0xBF20FC00 0x0E200C00 [] [];
    INST instructionID.SRHADD_vec 0xBF20FC00 0x0E201400 [] [];
    INST instructionID.SHSUB_vec 0xBF20FC00 0x0E202400 [] [];
    INST instructionID.SQSUB_vec 0xBF20FC00 0x0E202C00 [] [];
    INST instructionID.CMGT_vec_reg 0xBF20FC00 0x0E203400 [] [];
    INST instructionID.CMGE_vec_reg 0xBF20FC00 0x0E203C00 [] [];
    INST instructionID.SSHL_vec 0xBF20FC00 0x0E204400 [] [];
    INST instructionID.SQSHL_vec_reg 0xBF20FC00 0x0E204C00 [] [];
    INST instructionID.SRSHL_vec 0xBF20FC00 0x0E205400 [] [];
    INST instructionID.SQRSHL_vec 0xBF20FC00 0x0E205C00 [] [];
    INST instructionID.SMAX_vec 0xBF20FC00 0x0E206400 [] [];
    INST instructionID.SMIN_vec 0xBF20FC00 0x0E206C00 [] [];
    INST instructionID.SABD_vec 0xBF20FC00 0x0E207400 [] [];
    INST instructionID.SABA_vec 0xBF20FC00 0x0E207C00 [] [];
    INST instructionID.ADD_vec 0xBF20FC00 0x0E208400 [] [];
    INST instructionID.CMTST_vec 0xBF20FC00 0x0E208C00 [] [];
    INST instructionID.MLA_vec 0xBF20FC00 0x0E209400 [] [];
    INST instructionID.MUL_vec 0xBF20FC00 0x0E209C00 [] [];
    INST instructionID.SMAXP_vec 0xBF20FC00 0x0E20A400 [] [];
    INST instructionID.SMINP_vec 0xBF20FC00 0x0E20AC00 [] [];
    INST instructionID.SQDMULH_vec 0xBF20FC00 0x0E20B400 [] [];
    INST instructionID.ADDP_vec 0xBF20FC00 0x0E20BC00 [] [];
    INST instructionID.FMAXNM_vec 0xBFA0FC00 0x0E20C400 [] [];
    INST instructionID.FMLA_vec 0xBFA0FC00 0x0E20CC00 [] [];
    INST instructionID.FADD_vec 0xBFA0FC00 0x0E20D400 [] [];
    INST instructionID.FMULX_vec 0xBFA0FC00 0x0E20DC00 [] [];
    INST instructionID.FCMEQ_vec_reg 0xBFA0FC00 0x0E20E400 [] [];
    INST instructionID.FMAX_vec 0xBFA0FC00 0x0E20F400 [] [];
    INST instructionID.FRECPS_vec 0xBFA0FC00 0x0E20FC00 [] [];
    INST instructionID.AND_vec 0xBFE0FC00 0x0E201C00 [] [];
    INST instructionID.BIC_vec_reg 0xBFE0FC00 0x0E601C00 [] [];
    INST instructionID.FMINNM_vec 0xBFA0FC00 0x0EA0C400 [] [];
    INST instructionID.FMLS_vec 0xBFA0FC00 0x0EA0CC00 [] [];
    INST instructionID.FSUB_vec 0xBFA0FC00 0x0EA0D400 [] [];
    INST instructionID.FMIN_vec 0xBFA0FC00 0x0EA0F400 [] [];
    INST instructionID.FRSQRTS_vec 0xBFA0FC00 0x0EA0FC00 [] [];
    INST instructionID.ORR_vec_reg 0xBFE0FC00 0x0EA01C00 [] [];
    INST instructionID.ORN_vec 0xBFE0FC00 0x0EE01C00 [] [];
    INST instructionID.UHADD_vec 0xBF20FC00 0x2E200400 [] [];
    INST instructionID.UQADD_vec 0xBF20FC00 0x2E200C00 [] [];
    INST instructionID.URHADD_vec 0xBF20FC00 0x2E201400 [] [];
    INST instructionID.UHSUB_vec 0xBF20FC00 0x2E202400 [] [];
    INST instructionID.UQSUB_vec 0xBF20FC00 0x2E202C00 [] [];
    INST instructionID.CMHI_vec_reg 0xBF20FC00 0x2E203400 [] [];
    INST instructionID.CMHS_vec_reg 0xBF20FC00 0x2E203C00 [] [];
    INST instructionID.USHL_vec 0xBF20FC00 0x2E204400 [] [];
    INST instructionID.UQSHL_vec_reg 0xBF20FC00 0x2E204C00 [] [];
    INST instructionID.URSHL_vec 0xBF20FC00 0x2E205400 [] [];
    INST instructionID.UQRSHL_vec 0xBF20FC00 0x2E205C00 [] [];
    INST instructionID.UMAX_vec 0xBF20FC00 0x2E206400 [] [];
    INST instructionID.UMIN_vec 0xBF20FC00 0x2E206C00 [] [];
    INST instructionID.UABD_vec 0xBF20FC00 0x2E207400 [] [];
    INST instructionID.UABA_vec 0xBF20FC00 0x2E207C00 [] [];
    INST instructionID.SUB_vec 0xBF20FC00 0x2E208400 [] [];
    INST instructionID.CMEQ_vec_reg 0xBF20FC00 0x2E208C00 [] [];
    INST instructionID.MLS_vec 0xBF20FC00 0x2E209400 [] [];
    INST instructionID.PMUL_vec 0xBF20FC00 0x2E209C00 [] [];
    INST instructionID.UMAXP_vec 0xBF20FC00 0x2E20A400 [] [];
    INST instructionID.UMINP_vec 0xBF20FC00 0x2E20AC00 [] [];
    INST instructionID.SQRDMULH_vec 0xBF20FC00 0x2E20B400 [] [];
    INST instructionID.FMAXNMP_vec 0xBFA0FC00 0x2E20C400 [] [];
    INST instructionID.FADDP_vec 0xBFA0FC00 0x2E20D400 [] [];
    INST instructionID.FMUL_vec 0xBFA0FC00 0x2E20DC00 [] [];
    INST instructionID.FCMGE_vec_reg 0xBFA0FC00 0x2E20E400 [] [];
    INST instructionID.FACGE_vec 0xBFA0FC00 0x2E20EC00 [] [];
    INST instructionID.FMAXP_vec 0xBFA0FC00 0x2E20F400 [] [];
    INST instructionID.FDIV_vec 0xBFA0FC00 0x2E20FC00 [] [];
    INST instructionID.EOR_vec 0xBFE0FC00 0x2E201C00 [] [];
    INST instructionID.BSL_vec 0xBFE0FC00 0x2E601C00 [] [];
    INST instructionID.FMINNMP_vec 0xBFA0FC00 0x2EA0C400 [] [];
    INST instructionID.FABD_vec 0xBFA0FC00 0x2EA0D400 [] [];
    INST instructionID.FCMGT_vec_reg 0xBFA0FC00 0x2EA0E400 [] [];
    INST instructionID.FACGT_vec 0xBFA0FC00 0x2EA0EC00 [] [];
    INST instructionID.FMINP_vec 0xBFA0FC00 0x2EA0F400 [] [];
    INST instructionID.BIT_vec 0xBFE0FC00 0x2EA01C00 [] [];
    INST instructionID.BIF_vec 0xBFE0FC00 0x2EE01C00 [] [] ].

(** Advanced SIMD modified immediate *)
Definition table_advanced_simd_modified_immediate : list instructionDecodeInfo :=
  [ INST instructionID.MOVI_32_shifted_imm 0xBFF89C00 0x0F000400 [] [];
    INST instructionID.ORR_vec_imm_32 0xBFF89C00 0x0F001400 [] [];
    INST instructionID.MOVI_16_shifted_imm 0xBFF8DC00 0x0F008400 [] [];
    INST instructionID.ORR_vec_imm_16 0xBFF8DC00 0x0F009400 [] [];
    INST instructionID.MOVI_32_shifting_ones 0xBFF8EC00 0x0F00C400 [] [];
    INST instructionID.MOVI_8_imm 0xBFF8FC00 0x0F00E400 [] [];
    INST instructionID.FMOV_vec_imm_single 0xBFF8FC00 0x0F00F400 [] [];
    INST instructionID.MVNI_32_shifted_imm 0xBFF89C00 0x2F000400 [] [];
    INST instructionID.BIC_vec_imm_32 0xBFF89C00 0x2F001400 [] [];
    INST instructionID.MVNI_16_shifted_imm 0xBFF8DC00 0x2F008400 [] [];
    INST instructionID.BIC_vec_imm_16 0xBFF8DC00 0x2F009400 [] [];
    INST instructionID.MVNI_32_shifting_ones 0xBFF8EC00 0x2F00C400 [] [];
    INST instructionID.MOVI_64_scalar 0xFFF8FC00 0x2F00E400 [] [];
    INST instructionID.MOVI_64_vec 0xFFF8FC00 0x6F00E400 [] [];
    INST instructionID.FMOV_vec_imm_double 0xFFF8FC00 0x6F00F400 [] [] ].

(** Advanced SIMD shift by immediate *)
Definition table_advanced_simd_shift_by_immediate : list instructionDecodeInfo :=
  [ INST instructionID.SSHR_vec 0xBF80FC00 0x0F000400 [0x780000] [];
    INST instructionID.SSRA_vec 0xBF80FC00 0x0F001400 [0x780000] [];
    INST instructionID.SRSHR_vec 0xBF80FC00 0x0F002400 [0x780000] [];
    INST instructionID.SRSRA_vec 0xBF80FC00 0x0F003400 [0x780000] [];
    INST instructionID.SHL_vec 0xBF80FC00 0x0F005400 [0x780000] [];
    INST instructionID.SQSHL_vec_imm 0xBF80FC00 0x0F007400 [0x780000] [];
    INST instructionID.SHRN_vec 0xFF80FC00 0x0F008400 [0x780000] [];
    INST instructionID.SHRN2_vec 0xFF80FC00 0x4F008400 [0x780000] [];
    INST instructionID.RSHRN_vec 0xFF80FC00 0x0F008C00 [0x780000] [];
    INST instructionID.RSHRN2_vec 0xFF80FC00 0x4F008C00 [0x780000] [];
    INST instructionID.SQSHRN_vec 0xFF80FC00 0x0F009400 [0x780000] [];
    INST instructionID.SQSHRN2_vec 0xFF80FC00 0x4F009400 [0x780000] [];
    INST instructionID.SQRSHRN_vec 0xFF80FC00 0x0F009C00 [0x780000] [];
    INST instructionID.SQRSHRN2_vec 0xFF80FC00 0x4F009C00 [0x780000] [];
    INST instructionID.SSHLL_vec 0xFF80FC00 0x0F00A400 [0x780000] [];
    INST instructionID.SSHLL2_vec 0xFF80FC00 0x4F00A400 [0x780000] [];
    INST instructionID.SCVTF_vec_fixed 0xBF80FC00 0x0F00E400 [0x780000] [];
    INST instructionID.FCVTZS_vec_fixed 0xBF80FC00 0x0F00FC00 [0x780000] [];
    INST instructionID.USHR_vec 0xBF80FC00 0x2F000400 [0x780000] [];
    INST instructionID.USRA_vec 0xBF80FC00 0x2F001400 [0x780000] [];
    INST instructionID.URSHR_vec 0xBF80FC00 0x2F002400 [0x780000] [];
    INST instructionID.URSRA_vec 0xBF80FC00 0x2F003400 [0x780000] [];
    INST instructionID.SRI_vec 0xBF80FC00 0x2F004400 [0x780000] [];
    INST instructionID.SLI_vec 0xBF80FC00 0x2F005400 [0x780000] [];
    INST instructionID.SQSHLU_vec 0xBF80FC00 0x2F006400 [0x780000] [];
    INST instructionID.UQSHL_vec_imm 0xBF80FC00 0x2F007400 [0x780000] [];
    INST instructionID.SQSHRUN_vec 0xFF80FC00 0x2F008400 [0x780000] [];
    INST instructionID.SQSHRUN2_vec 0xFF80FC00 0x6F008400 [0x780000] [];
    INST instructionID.SQRSHRUN_vec 0xFF80FC00 0x2F008C00 [0x780000] [];
    INST instructionID.SQRSHRUN2_vec 0xFF80FC00 0x6F008C00 [0x780000] [];
    INST instructionID.UQSHRN_vec 0xFF80FC00 0x2F009400 [0x780000] [];
    INST instructionID.UQSHRN2_vec 0xFF80FC00 0x6F009400 [0x780000] [];
    INST instructionID.UQRSHRN_vec 0xFF80FC00 0x2F009C00 [0x780000] [];
    INST instructionID.UQRSHRN2_vec 0xFF80FC00 0x6F009C00 [0x780000] [];
    INST instructionID.USHLL_vec 0xFF80FC00 0x2F00A400 [0x780000] [];
    INST instructionID.USHLL2_vec 0xFF80FC00 0x6F00A400 [0x780000] [];
    INST instructionID.UCVTF_vec_fixed 0xBF80FC00 0x2F00E400 [0x780000] [];
    INST instructionID.FCVTZU_vec_fixed 0xBF80FC00 0x2F00FC00 [0x780000] [] ].

(** Advanced SIMD vector x indexed element *)
Definition table_advanced_simd_vector_x_indexed_element : list instructionDecodeInfo :=
  [ INST instructionID.SMLAL_vec_element 0xFF00F400 0x0F002000 [] [];
    INST instructionID.SMLAL2_vec_element 0xFF00F400 0x4F002000 [] [];
    INST instructionID.SQDMLAL_vec_element 0xFF00F400 0x0F003000 [] [];
    INST instructionID.SQDMLAL2_vec_element 0xFF00F400 0x4F003000 [] [];
    INST instructionID.SMLSL_vec_element 0xFF00F400 0x0F006000 [] [];
    INST instructionID.SMLSL2_vec_element 0xFF00F400 0x4F006000 [] [];
    INST instructionID.SQDMLSL_vec_element 0xFF00F400 0x0F007000 [] [];
    INST instructionID.SQDMLSL2_vec_element 0xFF00F400 0x4F007000 [] [];
    INST instructionID.MUL_vec_element 0xBF00F400 0x0F008000 [] [];
    INST instructionID.SMULL_vec_element 0xFF00F400 0x0F00A000 [] [];
    INST instructionID.SMULL2_vec_element 0xFF00F400 0x4F00A000 [] [];
    INST instructionID.SQDMULL_vec_element 0xFF00F400 0x0F00B000 [] [];
    INST instructionID.SQDMULL2_vec_element 0xFF00F400 0x4F00B000 [] [];
    INST instructionID.SQDMULH_vec_element 0xBF00F400 0x0F00C000 [] [];
    INST instructionID.SQRDMULH_vec_element 0xBF00F400 0x0F00D000 [] [];
    INST instructionID.FMLA_vec_element 0xBF80F400 0x0F801000 [] [];
    INST instructionID.FMLS_vec_element 0xBF80F400 0x0F805000 [] [];
    INST instructionID.FMUL_vec_element 0xBF80F400 0x0F809000 [] [];
    INST instructionID.MLA_vec_element 0xBF00F400 0x2F000000 [] [];
    INST instructionID.UMLAL_vec_element 0xFF00F400 0x2F002000 [] [];
    INST instructionID.UMLAL2_vec_element 0xFF00F400 0x6F002000 [] [];
    INST instructionID.MLS_vec_element 0xBF00F400 0x2F004000 [] [];
    INST instructionID.UMLSL_vec_element 0xFF00F400 0x2F006000 [] [];
    INST instructionID.UMLSL2_vec_element 0xFF00F400 0x6F006000 [] [];
    INST instructionID.UMULL_vec_element 0xFF00F400 0x2F00A000 [] [];
    INST instructionID.UMULL2_vec_element 0xFF00F400 0x6F00A000 [] [];
    INST instructionID.FMULX_vec_element 0xBF80F400 0x2F809000 [] [] ].

(** [gInstructionDecodeTable], in the order of the enumeration. *)
Definition gInstructionDecodeTable : list instructionDecodeInfo :=
  table_invalid ++
  table_branch ++
  table_exception_generating ++
  table_system ++
  table_pc_rel_addressing ++
  table_add_subtract_immediate ++
  table_logical_immediate ++
  table_move_wide_immediate ++
  table_bitfield ++
  table_extract ++
  table_data_processing_2_source ++
  table_data_processing_1_source ++
  table_logical_shifted_register ++
  table_add_subtract_shifted_register ++
  table_add_subtract_extended_register ++
  table_add_subtract_with_carry ++
  table_conditional_compare_register ++
  table_conditional_compare_immediate ++
  table_conditional_select ++
  table_data_processing_3_source ++
  table_advanced_simd_load_store_multiple_structures ++
  table_advanced_simd_load_store_multiple_structures_post_indexed ++
  table_advanced_simd_load_store_single_structure ++
  table_advanced_simd_load_store_single_structure_post_indexed ++
  table_load_store_exclusive ++
  table_load_register_literal ++
  table_load_store_no_allocate_pair_offset ++
  table_load_store_register_pair_post_indexed ++
  table_load_store_register_pair_offset ++
  table_load_store_register_pair_pre_indexed ++
  table_load_store_register_unscaled_immediate ++
  table_load_store_register_immediate_post_indexed ++
  table_load_store_register_unprivileged ++
  table_load_store_register_immediate_pre_indexed ++
  table_load_store_register_register_offset ++
  table_load_store_register_unsigned_immediate ++
  table_conversion_between_floating_point_and_fixed_point ++
  table_conversion_between_floating_point_and_integer ++
  table_floating_point_data_processing_1_source ++
  table_floating_point_compare ++
  table_floating_point_immediate ++
  table_floating_point_conditional_compare ++
  table_floating_point_data_processing_2_source ++
  table_floating_point_conditional_select ++
  table_floating_point_data_processing_3_source ++
  table_cryptographic_aes ++
  table_cryptographic_three_register_sha ++
  table_cryptographic_two_register_sha ++
  table_advanced_simd_scalar_copy ++
  table_advanced_simd_scalar_two_register_miscellaneous ++
  table_advanced_simd_scalar_pairwise ++
  table_advanced_simd_scalar_three_different ++
  table_advanced_simd_scalar_three_same ++
  table_advanced_simd_scalar_shift_by_immediate ++
  table_advanced_simd_scalar_x_indexed_element ++
  table_advanced_simd_table_lookup ++
  table_advanced_simd_permute ++
  table_advanced_simd_extract ++
  table_advanced_simd_copy ++
  table_advanced_simd_two_register_miscellaneous ++
  table_advanced_simd_across_lanes ++
  table_advanced_simd_three_different ++
  table_advanced_simd_three_same ++
  table_advanced_simd_modified_immediate ++
  table_advanced_simd_shift_by_immediate ++
  table_advanced_simd_vector_x_indexed_element.

(** [static_cast<instructionID>(i)] *)
Definition instruction_at (i : Z) : instructionID.t :=
  nth (Z.to_nat i) (map inst_id gInstructionDecodeTable) instructionID.INVALID.

(** ** The enumeration and the list agree *)

Lemma instruction_at_index (i : instructionID.t) :
  instruction_at (instructionID.index i) = i.
Proof. destruct i; vm_compute; reflexivity. Qed.

Lemma index_inj (i j : instructionID.t) :
  instructionID.index i = instructionID.index j -> i = j.
Proof.
  intros H. rewrite <-(instruction_at_index i), <-(instruction_at_index j).
  by rewrite H.
Qed.

Lemma eqb_true (i j : instructionID.t) : instructionID.eqb i j = true <-> i = j.
Proof.
  unfold instructionID.eqb. rewrite Z.eqb_eq. split; [apply index_inj|by intros ->].
Qed.

#[export] Instance instructionID_eq_dec : EqDecision instructionID.t.
Proof.
  refine (fun i j => match decide (instructionID.eqb i j = true) with
                     | left H => left (proj1 (eqb_true i j) H)
                     | right H => right (fun E => H (proj2 (eqb_true i j) E))
                     end).
Defined.
