(* ===== verification/DecodeSystem.v ===== *)
(** * What a decoder function does, and system instructions: [libcpu/inc/decode.h],
    [libcpu/src/decode/decodeSystem.cpp]

    A decoder function of the source assigns [inst.id] on some paths and runs into
    [UNREACHABLE] on others. *)
From S2P Require Import Prelude BitUtils Instructions.

(** The effect of a run on [inst.id]: left alone, assigned, or the [UNREACHABLE]
    macro was executed, which logs an error and goes on. *)
Inductive assignment : Set :=
  | Keep
  | Assign (id : instructionID.t)
  | Unreachable.

(** Two pieces of code one after the other: the last assignment wins. *)
Definition andThen (first second : assignment) : assignment :=
  match first, second with
  | Unreachable, _ | _, Unreachable => Unreachable
  | _, Keep => first
  | _, Assign _ => second
  end.

(** The value of [inst.id] after a run, when it was [before] at the start. *)
Definition assigned (before : instructionID.t) (a : assignment) : instructionID.t :=
  match a with
  | Assign id => id
  | Keep | Unreachable => before
  end.

(** [struct DecodedInstruction]; [inst] is the union [AArch64Inst], all of whose
    members are views of the same 32 bits. *)
Record DecodedInstruction := {
  id : instructionID.t;
  inst : Z;
}.

(** * System and exception-generating instructions: [decodeSystem.cpp] *)

Definition decodeSystem (bits : Z) : assignment :=
  let L := bitRange 21 21 bits in
  let op0 := bitRange 19 20 bits in
  let op1 := bitRange 16 18 bits in
  let CRn := bitRange 12 15 bits in
  let CRm := bitRange 8 11 bits in
  let op2 := bitRange 5 7 bits in
  let Rt := bitRange 0 4 bits in
  if L =? 1 then
    if op0 =? 0 then
      Assign instructionID.INVALID
    else if op0 =? 1 then
      Assign instructionID.SYSL
    else
      Assign instructionID.MRS
  else if op0 =? 0 then
    if case_of CRn [0; 1; 5; 6; 7; 8; 9; 10; 11; 12; 13; 14; 15] then
      Assign instructionID.INVALID
    else if case_of CRn [4] then
      if Rt =? 31 then
        Assign instructionID.MSR_imm
      else
        Assign instructionID.INVALID
    else if case_of CRn [2] then
      if op1 !=? 3 then
        Assign instructionID.INVALID
      else if Rt !=? 31 then
        Assign instructionID.INVALID
      else if CRm !=? 0 then
        Assign instructionID.HINT
      else
        if case_of op2 [0] then
          Assign instructionID.NOP
        else if case_of op2 [1] then
          Assign instructionID.YIELD
        else if case_of op2 [2] then
          Assign instructionID.WFE
        else if case_of op2 [3] then
          Assign instructionID.WFI
        else if case_of op2 [4] then
          Assign instructionID.SEV
        else if case_of op2 [5] then
          Assign instructionID.SEVL
        else if case_of op2 [6; 7] then
          Assign instructionID.HINT
        else
          Keep
    else if case_of CRn [3] then
      if op1 !=? 3 then
        Assign instructionID.INVALID
      else if Rt !=? 31 then
        Assign instructionID.INVALID
      else
        if case_of op2 [0; 1; 3; 7] then
          Assign instructionID.INVALID
        else if case_of op2 [2] then
          Assign instructionID.CLREX
        else if case_of op2 [4] then
          Assign instructionID.DSB
        else if case_of op2 [5] then
          Assign instructionID.DMB
        else if case_of op2 [6] then
          Assign instructionID.ISB
        else
          Keep
    else
      Keep
  else if op0 =? 1 then
    Assign instructionID.SYS
  else
    Assign instructionID.MSR_reg.

Definition decodeExceptionGenerating (bits : Z) : assignment :=
  let opc := bitRange 21 23 bits in
  let op2 := bitRange 2 4 bits in
  let LL := bitRange 0 1 bits in
  if op2 !=? 0 then
    Assign instructionID.INVALID
  else
    if case_of opc [0] then
      if case_of LL [0] then
        Assign instructionID.INVALID
      else if case_of LL [1] then
        Assign instructionID.SVC
      else if case_of LL [2] then
        Assign instructionID.HVC
      else if case_of LL [3] then
        Assign instructionID.SMC
      else
        Keep
    else if case_of opc [1] then
      if LL =? 0 then
        Assign instructionID.BRK
      else
        Assign instructionID.INVALID
    else if case_of opc [2] then
      if LL =? 0 then
        Assign instructionID.HLT
      else
        Assign instructionID.INVALID
    else if case_of opc [5] then
      if case_of LL [0] then
        Assign instructionID.INVALID
      else if case_of LL [1] then
        Assign instructionID.DCPS1
      else if case_of LL [2] then
        Assign instructionID.DCPS2
      else if case_of LL [3] then
        Assign instructionID.DCPS3
      else
        Keep
    else if case_of opc [3; 4; 6; 7] then
      Assign instructionID.INVALID
    else
      Keep.
