(* ===== verification/DecodeDPImm.v ===== *)
(** * Data processing, immediate: [libcpu/src/decode/decodeDPImm.cpp] *)
From S2P Require Import Prelude BitUtils Instructions DecodeSystem.

Definition decodePCRel (bits : Z) : assignment :=
  let isPage := testBit 31 bits in
  if isPage then
    Assign instructionID.ADRP
  else
    Assign instructionID.ADR.

Definition decodeAddSubImm (bits : Z) : assignment :=
  let shift := bitRange 22 23 bits in
  if shift >? 1 then
    Assign instructionID.INVALID
  else
    let flags := bitRange 29 31 bits in
    if case_of flags [0] then
      Assign instructionID.ADD_32_imm
    else if case_of flags [1] then
      Assign instructionID.ADDS_32_imm
    else if case_of flags [2] then
      Assign instructionID.SUB_32_imm
    else if case_of flags [3] then
      Assign instructionID.SUBS_32_imm
    else if case_of flags [4] then
      Assign instructionID.ADD_64_imm
    else if case_of flags [5] then
      Assign instructionID.ADDS_64_imm
    else if case_of flags [6] then
      Assign instructionID.SUB_64_imm
    else if case_of flags [7] then
      Assign instructionID.SUBS_64_imm
    else
      Keep.

Definition decodeLogicalImm (bits : Z) : assignment :=
  let is64 := testBit 31 bits in
  let opc := bitRange 29 30 bits in
  let N := bitRange 22 22 bits in
  if (negb is64) && (N =? 1) then
    Assign instructionID.INVALID
  else if is64 then
    if case_of opc [0] then
      Assign instructionID.AND_64_imm
    else if case_of opc [1] then
      Assign instructionID.ORR_64_imm
    else if case_of opc [2] then
      Assign instructionID.EOR_64_imm
    else if case_of opc [3] then
      Assign instructionID.ANDS_64_imm
    else
      Keep
  else
    if case_of opc [0] then
      Assign instructionID.AND_32_imm
    else if case_of opc [1] then
      Assign instructionID.ORR_32_imm
    else if case_of opc [2] then
      Assign instructionID.EOR_32_imm
    else if case_of opc [3] then
      Assign instructionID.ANDS_32_imm
    else
      Keep.

Definition decodeMoveWide (bits : Z) : assignment :=
  let is64 := testBit 31 bits in
  let opc := bitRange 29 30 bits in
  let hw := bitRange 21 22 bits in
  if ((negb is64) && (hw >? 1)) || (opc =? 1) then
    Assign instructionID.INVALID
  else if is64 then
    if case_of opc [0] then
      Assign instructionID.MOVN_64
    else if case_of opc [2] then
      Assign instructionID.MOVZ_64
    else if case_of opc [3] then
      Assign instructionID.MOVK_64
    else
      Keep
  else
    if case_of opc [0] then
      Assign instructionID.MOVN_32
    else if case_of opc [2] then
      Assign instructionID.MOVZ_32
    else if case_of opc [3] then
      Assign instructionID.MOVK_32
    else
      Keep.

Definition decodeBitfield (bits : Z) : assignment :=
  let sf := bitRange 31 31 bits in
  let opc := bitRange 29 30 bits in
  let N := bitRange 22 22 bits in
  let immr := bitRange 16 21 bits in
  let imms := bitRange 10 15 bits in
  if (sf !=? N) || (opc =? 3) then
    Assign instructionID.INVALID
  else if (sf =? 0) && ((immr >? 31) || (imms >? 31)) then
    Assign instructionID.INVALID
  else if sf =? 1 then
    if case_of opc [0] then
      Assign instructionID.SBFM_64
    else if case_of opc [1] then
      Assign instructionID.BFM_64
    else if case_of opc [2] then
      Assign instructionID.UBFM_64
    else
      Keep
  else
    if case_of opc [0] then
      Assign instructionID.SBFM_32
    else if case_of opc [1] then
      Assign instructionID.BFM_32
    else if case_of opc [2] then
      Assign instructionID.UBFM_32
    else
      Keep.

Definition decodeExtract (bits : Z) : assignment :=
  let sf := bitRange 31 31 bits in
  let op21 := bitRange 29 30 bits in
  let N := bitRange 22 22 bits in
  let o0 := bitRange 21 21 bits in
  let imms := bitRange 10 15 bits in
  if (sf =? 0) && (op21 =? 0) && (N =? 0) && (o0 =? 0) && (imms <? 32) then
    Assign instructionID.EXTR_32
  else if (sf =? 1) && (op21 =? 0) && (N =? 1) && (o0 =? 0) then
    Assign instructionID.EXTR_64
  else
    Assign instructionID.INVALID.

Definition decodeDPImm (bits : Z) : assignment :=
  let opcode := bitRange 23 25 bits in
  if case_of opcode [0; 1] then
    decodePCRel bits
  else if case_of opcode [2; 3] then
    decodeAddSubImm bits
  else if case_of opcode [4] then
    decodeLogicalImm bits
  else if case_of opcode [5] then
    decodeMoveWide bits
  else if case_of opcode [6] then
    decodeBitfield bits
  else if case_of opcode [7] then
    decodeExtract bits
  else
    Unreachable.
