(* ===== verification/DecodeDPReg.v ===== *)
(** * Data processing, register: [libcpu/src/decode/decodeDPReg.cpp] *)
From S2P Require Import Prelude BitUtils Instructions DecodeSystem.

Definition decodeDP2Source (bits : Z) : assignment :=
  let is64 := testBit 31 bits in
  let S := bitRange 29 29 bits in
  let opcode := bitRange 10 15 bits in
  if S =? 1 then
    Assign instructionID.INVALID
  else
    if case_of opcode [2] then
      if is64 then
        Assign instructionID.UDIV_64
      else
        Assign instructionID.UDIV_32
    else if case_of opcode [3] then
      if is64 then
        Assign instructionID.SDIV_64
      else
        Assign instructionID.SDIV_32
    else if case_of opcode [8] then
      if is64 then
        Assign instructionID.LSLV_64
      else
        Assign instructionID.LSLV_32
    else if case_of opcode [9] then
      if is64 then
        Assign instructionID.LSRV_64
      else
        Assign instructionID.LSRV_32
    else if case_of opcode [10] then
      if is64 then
        Assign instructionID.ASRV_64
      else
        Assign instructionID.ASRV_32
    else if case_of opcode [11] then
      if is64 then
        Assign instructionID.RORV_64
      else
        Assign instructionID.RORV_32
    else if case_of opcode [16] then
      if is64 then
        Assign instructionID.INVALID
      else
        Assign instructionID.CRC32B
    else if case_of opcode [17] then
      if is64 then
        Assign instructionID.INVALID
      else
        Assign instructionID.CRC32H
    else if case_of opcode [18] then
      if is64 then
        Assign instructionID.INVALID
      else
        Assign instructionID.CRC32W
    else if case_of opcode [19] then
      if is64 then
        Assign instructionID.CRC32X
      else
        Assign instructionID.INVALID
    else if case_of opcode [20] then
      if is64 then
        Assign instructionID.INVALID
      else
        Assign instructionID.CRC32CB
    else if case_of opcode [21] then
      if is64 then
        Assign instructionID.INVALID
      else
        Assign instructionID.CRC32CH
    else if case_of opcode [22] then
      if is64 then
        Assign instructionID.INVALID
      else
        Assign instructionID.CRC32CW
    else if case_of opcode [23] then
      if is64 then
        Assign instructionID.CRC32CX
      else
        Assign instructionID.INVALID
    else
      Assign instructionID.INVALID.

Definition decodeDP1Source (bits : Z) : assignment :=
  let is64 := testBit 31 bits in
  let S := bitRange 29 29 bits in
  let opcode2 := bitRange 16 20 bits in
  let opcode := bitRange 10 15 bits in
  if opcode >? 5 then
    Assign instructionID.INVALID
  else if opcode2 !=? 0 then
    Assign instructionID.INVALID
  else if S =? 1 then
    Assign instructionID.INVALID
  else
    if case_of opcode [0] then
      if is64 then
        Assign instructionID.RBIT_64
      else
        Assign instructionID.RBIT_32
    else if case_of opcode [1] then
      if is64 then
        Assign instructionID.REV16_64
      else
        Assign instructionID.REV16_32
    else if case_of opcode [2] then
      if is64 then
        Assign instructionID.REV32_64
      else
        Assign instructionID.REV_32
    else if case_of opcode [3] then
      if is64 then
        Assign instructionID.REV_64
      else
        Assign instructionID.INVALID
    else if case_of opcode [4] then
      if is64 then
        Assign instructionID.CLZ_64
      else
        Assign instructionID.CLZ_32
    else if case_of opcode [5] then
      if is64 then
        Assign instructionID.CLS_64
      else
        Assign instructionID.CLS_32
    else
      Keep.

Definition decodeLogicalReg (bits : Z) : assignment :=
  let is64 := testBit 31 bits in
  let opc := bitRange 29 30 bits in
  let negate := testBit 21 bits in
  let imm := bitRange 10 15 bits in
  if (negb is64) && (imm >? 31) then
    Assign instructionID.INVALID
  else if is64 then
    if case_of opc [0] then
      if negate then
        Assign instructionID.BIC_64_shifted
      else
        Assign instructionID.AND_64_shifted
    else if case_of opc [1] then
      if negate then
        Assign instructionID.ORN_64_shifted
      else
        Assign instructionID.ORR_64_shifted
    else if case_of opc [2] then
      if negate then
        Assign instructionID.EON_64_shifted
      else
        Assign instructionID.EOR_64_shifted
    else if case_of opc [3] then
      if negate then
        Assign instructionID.BICS_64_shifted
      else
        Assign instructionID.ANDS_64_shifted
    else
      Keep
  else
    if case_of opc [0] then
      if negate then
        Assign instructionID.BIC_32_shifted
      else
        Assign instructionID.AND_32_shifted
    else if case_of opc [1] then
      if negate then
        Assign instructionID.ORN_32_shifted
      else
        Assign instructionID.ORR_32_shifted
    else if case_of opc [2] then
      if negate then
        Assign instructionID.EON_32_shifted
      else
        Assign instructionID.EOR_32_shifted
    else if case_of opc [3] then
      if negate then
        Assign instructionID.BICS_32_shifted
      else
        Assign instructionID.ANDS_32_shifted
    else
      Keep.

Definition decodeAddSubShifted (bits : Z) : assignment :=
  let flags := bitRange 29 31 bits in
  let shift := bitRange 22 23 bits in
  if shift =? 3 then
    Assign instructionID.INVALID
  else if (testBit 15 bits) && (negb (testBit 31 bits)) then
    Assign instructionID.INVALID
  else
    if case_of flags [0] then
      Assign instructionID.ADD_32_shifted
    else if case_of flags [1] then
      Assign instructionID.ADDS_32_shifted
    else if case_of flags [2] then
      Assign instructionID.SUB_32_shifted
    else if case_of flags [3] then
      Assign instructionID.SUBS_32_shifted
    else if case_of flags [4] then
      Assign instructionID.ADD_64_shifted
    else if case_of flags [5] then
      Assign instructionID.ADDS_64_shifted
    else if case_of flags [6] then
      Assign instructionID.SUB_64_shifted
    else if case_of flags [7] then
      Assign instructionID.SUBS_64_shifted
    else
      Keep.

Definition decodeAddSubExtended (bits : Z) : assignment :=
  let flags := bitRange 29 31 bits in
  let opt := bitRange 22 23 bits in
  let imm := bitRange 10 12 bits in
  if opt !=? 0 then
    Assign instructionID.INVALID
  else if imm >? 4 then
    Assign instructionID.INVALID
  else
    if case_of flags [0] then
      Assign instructionID.ADD_32_extended
    else if case_of flags [1] then
      Assign instructionID.ADDS_32_extended
    else if case_of flags [2] then
      Assign instructionID.SUB_32_extended
    else if case_of flags [3] then
      Assign instructionID.SUBS_32_extended
    else if case_of flags [4] then
      Assign instructionID.ADD_64_extended
    else if case_of flags [5] then
      Assign instructionID.ADDS_64_extended
    else if case_of flags [6] then
      Assign instructionID.SUB_64_extended
    else if case_of flags [7] then
      Assign instructionID.SUBS_64_extended
    else
      Keep.

Definition decodeAddSubCarry (bits : Z) : assignment :=
  let flags := bitRange 29 31 bits in
  let opcode2 := bitRange 10 15 bits in
  if opcode2 !=? 0 then
    Assign instructionID.INVALID
  else
    if case_of flags [0] then
      Assign instructionID.ADC_32
    else if case_of flags [1] then
      Assign instructionID.ADCS_32
    else if case_of flags [2] then
      Assign instructionID.SBC_32
    else if case_of flags [3] then
      Assign instructionID.SBCS_32
    else if case_of flags [4] then
      Assign instructionID.ADC_64
    else if case_of flags [5] then
      Assign instructionID.ADCS_64
    else if case_of flags [6] then
      Assign instructionID.SBC_64
    else if case_of flags [7] then
      Assign instructionID.SBCS_64
    else
      Keep.

Definition decodeCondCmpReg (bits : Z) : assignment :=
  let is64 := testBit 31 bits in
  let negate := testBit 30 bits in
  let S := bitRange 29 29 bits in
  let o2 := bitRange 10 10 bits in
  let o3 := bitRange 4 4 bits in
  if (o3 =? 1) || (o2 =? 1) || (S =? 0) then
    Assign instructionID.INVALID
  else if is64 then
    if negate then
      Assign instructionID.CCMP_64_reg
    else
      Assign instructionID.CCMN_64_reg
  else if negate then
    Assign instructionID.CCMP_32_reg
  else
    Assign instructionID.CCMN_32_reg.

Definition decodeCondCmpImm (bits : Z) : assignment :=
  let is64 := testBit 31 bits in
  let negate := testBit 30 bits in
  let S := bitRange 29 29 bits in
  let o2 := bitRange 10 10 bits in
  let o3 := bitRange 4 4 bits in
  if (o3 =? 1) || (o2 =? 1) || (S =? 0) then
    Assign instructionID.INVALID
  else if is64 then
    if negate then
      Assign instructionID.CCMP_64_imm
    else
      Assign instructionID.CCMN_64_imm
  else if negate then
    Assign instructionID.CCMP_32_imm
  else
    Assign instructionID.CCMN_32_imm.

Definition decodeCondSel (bits : Z) : assignment :=
  let is64 := testBit 31 bits in
  let invert := testBit 30 bits in
  let S := bitRange 29 29 bits in
  let op2 := bitRange 10 11 bits in
  if (S =? 1) || (op2 >? 1) then
    Assign instructionID.INVALID
  else if op2 =? 1 then
    if is64 then
      if invert then
        Assign instructionID.CSNEG_64
      else
        Assign instructionID.CSINC_64
    else if invert then
      Assign instructionID.CSNEG_32
    else
      Assign instructionID.CSINC_32
  else if is64 then
    if invert then
      Assign instructionID.CSINV_64
    else
      Assign instructionID.CSEL_64
  else if invert then
    Assign instructionID.CSINV_32
  else
    Assign instructionID.CSEL_32.

Definition decodeDP3Source (bits : Z) : assignment :=
  let is64 := testBit 31 bits in
  let op54 := bitRange 29 30 bits in
  let op31 := bitRange 21 23 bits in
  let o0 := bitRange 15 15 bits in
  if op54 !=? 0 then
    Assign instructionID.INVALID
  else if is64 then
    if case_of op31 [0] then
      if o0 !=? 0 then
        Assign instructionID.MSUB_64
      else
        Assign instructionID.MADD_64
    else if case_of op31 [1] then
      if o0 !=? 0 then
        Assign instructionID.SMSUBL
      else
        Assign instructionID.SMADDL
    else if case_of op31 [2] then
      if o0 =? 1 then
        Assign instructionID.INVALID
      else
        Assign instructionID.SMULH
    else if case_of op31 [5] then
      if o0 !=? 0 then
        Assign instructionID.UMSUBL
      else
        Assign instructionID.UMADDL
    else if case_of op31 [6] then
      if o0 =? 1 then
        Assign instructionID.INVALID
      else
        Assign instructionID.UMULH
    else if case_of op31 [3; 4; 7] then
      Assign instructionID.INVALID
    else
      Keep
  else if op31 !=? 0 then
    Assign instructionID.INVALID
  else if o0 !=? 0 then
    Assign instructionID.MSUB_32
  else
    Assign instructionID.MADD_32.

Definition decodeDPReg (bits : Z) : assignment :=
  let op0 := bitRange 30 30 bits in
  let op1 := bitRange 28 28 bits in
  let op2 := bitRange 21 24 bits in
  let op3 := bitRange 11 11 bits in
  if op1 =? 1 then
    if case_of op2 [0] then
      decodeAddSubCarry bits
    else if case_of op2 [2] then
      if op3 =? 0 then
        decodeCondCmpReg bits
      else
        decodeCondCmpImm bits
    else if case_of op2 [4] then
      decodeCondSel bits
    else if case_of op2 [6] then
      if op0 =? 0 then
        decodeDP2Source bits
      else
        decodeDP1Source bits
    else if case_of op2 [8; 9; 10; 11; 12; 13; 14; 15] then
      decodeDP3Source bits
    else if case_of op2 [1; 3; 5; 7] then
      Assign instructionID.INVALID
    else
      Keep
  else
    if case_of op2 [0; 1; 2; 3; 4; 5; 6; 7] then
      decodeLogicalReg bits
    else if case_of op2 [8; 10; 12; 14] then
      decodeAddSubShifted bits
    else if case_of op2 [9; 11; 13; 15] then
      decodeAddSubExtended bits
    else
      Assign instructionID.INVALID.
