(* ===== verification/DecodeFloat.v ===== *)
(** * Scalar floating point: [libcpu/src/decode/decodeFloat.cpp] *)
From S2P Require Import Prelude BitUtils Instructions DecodeSystem.

Definition decodeConvertFloatAndFixed (bits : Z) : assignment :=
  let sf := bitRange 31 31 bits in
  let S := bitRange 29 29 bits in
  let type := bitRange 22 23 bits in
  let rmode := bitRange 19 20 bits in
  let opcode := bitRange 16 18 bits in
  if S =? 1 then
    Assign instructionID.INVALID
  else if sf =? 0 then
    if type =? 0 then
      if (rmode =? 0) && (opcode =? 2) then
        Assign instructionID.SCVTF_32_single_fixed
      else if (rmode =? 0) && (opcode =? 3) then
        Assign instructionID.UCVTF_32_single_fixed
      else if (rmode =? 3) && (opcode =? 0) then
        Assign instructionID.FCVTZS_single_32_fixed
      else if (rmode =? 3) && (opcode =? 1) then
        Assign instructionID.FCVTZU_single_32_fixed
      else
        Assign instructionID.INVALID
    else if type =? 1 then
      if (rmode =? 0) && (opcode =? 2) then
        Assign instructionID.SCVTF_32_double_fixed
      else if (rmode =? 0) && (opcode =? 3) then
        Assign instructionID.UCVTF_32_double_fixed
      else if (rmode =? 3) && (opcode =? 0) then
        Assign instructionID.FCVTZS_double_32_fixed
      else if (rmode =? 3) && (opcode =? 1) then
        Assign instructionID.FCVTZU_double_32_fixed
      else
        Assign instructionID.INVALID
    else
      Assign instructionID.INVALID
  else if type =? 0 then
    if (rmode =? 0) && (opcode =? 2) then
      Assign instructionID.SCVTF_64_single_fixed
    else if (rmode =? 0) && (opcode =? 3) then
      Assign instructionID.UCVTF_64_single_fixed
    else if (rmode =? 3) && (opcode =? 0) then
      Assign instructionID.FCVTZS_single_64_fixed
    else if (rmode =? 3) && (opcode =? 1) then
      Assign instructionID.FCVTZU_single_64_fixed
    else
      Assign instructionID.INVALID
  else if type =? 1 then
    if (rmode =? 0) && (opcode =? 2) then
      Assign instructionID.SCVTF_64_double_fixed
    else if (rmode =? 0) && (opcode =? 3) then
      Assign instructionID.UCVTF_64_double_fixed
    else if (rmode =? 3) && (opcode =? 0) then
      Assign instructionID.FCVTZS_double_64_fixed
    else if (rmode =? 3) && (opcode =? 1) then
      Assign instructionID.FCVTZU_double_64_fixed
    else
      Assign instructionID.INVALID
  else
    Assign instructionID.INVALID.

Definition decodeConvertFloatAndInt (bits : Z) : assignment :=
  let sf := bitRange 31 31 bits in
  let S := bitRange 29 29 bits in
  let type := bitRange 22 23 bits in
  let rmode := bitRange 19 20 bits in
  let opcode := bitRange 16 18 bits in
  if S =? 1 then
    Assign instructionID.INVALID
  else if sf =? 0 then
    if type =? 0 then
      if case_of rmode [0] then
        if case_of opcode [0] then
          Assign instructionID.FCVTNS_single_32_int
        else if case_of opcode [1] then
          Assign instructionID.FCVTNU_single_32_int
        else if case_of opcode [2] then
          Assign instructionID.SCVTF_32_single_int
        else if case_of opcode [3] then
          Assign instructionID.UCVTF_32_single_int
        else if case_of opcode [4] then
          Assign instructionID.FCVTAS_single_32_int
        else if case_of opcode [5] then
          Assign instructionID.FCVTAU_single_32_int
        else if case_of opcode [6] then
          Assign instructionID.FMOV_single_32
        else if case_of opcode [7] then
          Assign instructionID.FMOV_32_single
        else
          Unreachable
      else if case_of rmode [1] then
        if opcode =? 0 then
          Assign instructionID.FCVTPS_single_32_int
        else if opcode =? 1 then
          Assign instructionID.FCVTPU_single_32_int
        else
          Assign instructionID.INVALID
      else if case_of rmode [2] then
        if opcode =? 0 then
          Assign instructionID.FCVTMS_single_32_int
        else if opcode =? 1 then
          Assign instructionID.FCVTMU_single_32_int
        else
          Assign instructionID.INVALID
      else if case_of rmode [3] then
        if opcode =? 0 then
          Assign instructionID.FCVTZS_single_32_int
        else if opcode =? 1 then
          Assign instructionID.FCVTZU_single_32_int
        else
          Assign instructionID.INVALID
      else
        Unreachable
    else if type =? 1 then
      if case_of rmode [0] then
        if case_of opcode [0] then
          Assign instructionID.FCVTNS_double_32_int
        else if case_of opcode [1] then
          Assign instructionID.FCVTNU_double_32_int
        else if case_of opcode [2] then
          Assign instructionID.SCVTF_32_double_int
        else if case_of opcode [3] then
          Assign instructionID.UCVTF_32_double_int
        else if case_of opcode [4] then
          Assign instructionID.FCVTAS_double_32_int
        else if case_of opcode [5] then
          Assign instructionID.FCVTAU_double_32_int
        else if case_of opcode [6; 7] then
          Assign instructionID.INVALID
        else
          Unreachable
      else if case_of rmode [1] then
        if opcode =? 0 then
          Assign instructionID.FCVTPS_double_32_int
        else if opcode =? 1 then
          Assign instructionID.FCVTPU_double_32_int
        else
          Assign instructionID.INVALID
      else if case_of rmode [2] then
        if opcode =? 0 then
          Assign instructionID.FCVTMS_double_32_int
        else if opcode =? 1 then
          Assign instructionID.FCVTMU_double_32_int
        else
          Assign instructionID.INVALID
      else if case_of rmode [3] then
        if opcode =? 0 then
          Assign instructionID.FCVTZS_double_32_int
        else if opcode =? 1 then
          Assign instructionID.FCVTZU_double_32_int
        else
          Assign instructionID.INVALID
      else
        Unreachable
    else
      Assign instructionID.INVALID
  else if type =? 0 then
    if case_of rmode [0] then
      if case_of opcode [0] then
        Assign instructionID.FCVTNS_single_64_int
      else if case_of opcode [1] then
        Assign instructionID.FCVTNU_single_64_int
      else if case_of opcode [2] then
        Assign instructionID.SCVTF_64_single_int
      else if case_of opcode [3] then
        Assign instructionID.UCVTF_64_single_int
      else if case_of opcode [4] then
        Assign instructionID.FCVTAS_single_64_int
      else if case_of opcode [5] then
        Assign instructionID.FCVTAU_single_64_int
      else if case_of opcode [6; 7] then
        Assign instructionID.INVALID
      else
        Unreachable
    else if case_of rmode [1] then
      if opcode =? 0 then
        Assign instructionID.FCVTPS_single_64_int
      else if opcode =? 1 then
        Assign instructionID.FCVTPU_single_64_int
      else
        Assign instructionID.INVALID
    else if case_of rmode [2] then
      if opcode =? 0 then
        Assign instructionID.FCVTMS_single_64_int
      else if opcode =? 1 then
        Assign instructionID.FCVTMU_single_64_int
      else
        Assign instructionID.INVALID
    else if case_of rmode [3] then
      if opcode =? 0 then
        Assign instructionID.FCVTZS_single_64_int
      else if opcode =? 1 then
        Assign instructionID.FCVTZU_single_64_int
      else
        Assign instructionID.INVALID
    else
      Unreachable
  else if type =? 1 then
    if case_of rmode [0] then
      if case_of opcode [0] then
        Assign instructionID.FCVTNS_double_64_int
      else if case_of opcode [1] then
        Assign instructionID.FCVTNU_double_64_int
      else if case_of opcode [2] then
        Assign instructionID.SCVTF_64_double_int
      else if case_of opcode [3] then
        Assign instructionID.UCVTF_64_double_int
      else if case_of opcode [4] then
        Assign instructionID.FCVTAS_double_64_int
      else if case_of opcode [5] then
        Assign instructionID.FCVTAU_double_64_int
      else if case_of opcode [6] then
        Assign instructionID.FMOV_double_64
      else if case_of opcode [7] then
        Assign instructionID.FMOV_64_double
      else
        Unreachable
    else if case_of rmode [1] then
      if opcode =? 0 then
        Assign instructionID.FCVTPS_double_64_int
      else if opcode =? 1 then
        Assign instructionID.FCVTPU_double_64_int
      else
        Assign instructionID.INVALID
    else if case_of rmode [2] then
      if opcode =? 0 then
        Assign instructionID.FCVTMS_double_64_int
      else if opcode =? 1 then
        Assign instructionID.FCVTMU_double_64_int
      else
        Assign instructionID.INVALID
    else if case_of rmode [3] then
      if opcode =? 0 then
        Assign instructionID.FCVTZS_double_64_int
      else if opcode =? 1 then
        Assign instructionID.FCVTZU_double_64_int
      else
        Assign instructionID.INVALID
    else
      Unreachable
  else if type =? 2 then
    if rmode =? 1 then
      if opcode =? 6 then
        Assign instructionID.FMOV_top128_64
      else if opcode =? 7 then
        Assign instructionID.FMOV_64_top128
      else
        Assign instructionID.INVALID
    else
      Assign instructionID.INVALID
  else
    Assign instructionID.INVALID.

Definition decodeFloatDP1Source (bits : Z) : assignment :=
  let M := bitRange 31 31 bits in
  let S := bitRange 29 29 bits in
  let type := bitRange 22 23 bits in
  let opcode := bitRange 15 20 bits in
  if (M =? 1) || (S =? 1) || (type =? 2) || (opcode >? 15) then
    Assign instructionID.INVALID
  else
    if case_of type [0] then
      if case_of opcode [0] then
        Assign instructionID.FMOV_reg_single
      else if case_of opcode [1] then
        Assign instructionID.FABS_single
      else if case_of opcode [2] then
        Assign instructionID.FNEG_single
      else if case_of opcode [3] then
        Assign instructionID.FSQRT_single
      else if case_of opcode [5] then
        Assign instructionID.FCVT_single_double
      else if case_of opcode [7] then
        Assign instructionID.FCVT_single_half
      else if case_of opcode [8] then
        Assign instructionID.FRINTN_single
      else if case_of opcode [9] then
        Assign instructionID.FRINTP_single
      else if case_of opcode [10] then
        Assign instructionID.FRINTM_single
      else if case_of opcode [11] then
        Assign instructionID.FRINTZ_single
      else if case_of opcode [12] then
        Assign instructionID.FRINTA_single
      else if case_of opcode [14] then
        Assign instructionID.FRINTX_single
      else if case_of opcode [15] then
        Assign instructionID.FRINTI_single
      else if case_of opcode [4; 6; 13] then
        Assign instructionID.INVALID
      else
        Unreachable
    else if case_of type [1] then
      if case_of opcode [0] then
        Assign instructionID.FMOV_reg_double
      else if case_of opcode [1] then
        Assign instructionID.FABS_double
      else if case_of opcode [2] then
        Assign instructionID.FNEG_double
      else if case_of opcode [3] then
        Assign instructionID.FSQRT_double
      else if case_of opcode [4] then
        Assign instructionID.FCVT_double_single
      else if case_of opcode [7] then
        Assign instructionID.FCVT_double_half
      else if case_of opcode [8] then
        Assign instructionID.FRINTN_double
      else if case_of opcode [9] then
        Assign instructionID.FRINTP_double
      else if case_of opcode [10] then
        Assign instructionID.FRINTM_double
      else if case_of opcode [11] then
        Assign instructionID.FRINTZ_double
      else if case_of opcode [12] then
        Assign instructionID.FRINTA_double
      else if case_of opcode [14] then
        Assign instructionID.FRINTX_double
      else if case_of opcode [15] then
        Assign instructionID.FRINTI_double
      else if case_of opcode [5; 6; 13] then
        Assign instructionID.INVALID
      else
        Unreachable
    else if case_of type [2] then
      Assign instructionID.INVALID
    else if case_of type [3] then
      if opcode =? 4 then
        Assign instructionID.FCVT_half_single
      else if opcode =? 5 then
        Assign instructionID.FCVT_half_double
      else
        Assign instructionID.INVALID
    else
      Unreachable.

Definition decodeFloatCmp (bits : Z) : assignment :=
  let M := bitRange 31 31 bits in
  let S := bitRange 29 29 bits in
  let type := bitRange 22 23 bits in
  let op := bitRange 14 15 bits in
  let opcode2 := bitRange 0 4 bits in
  if (M =? 1) || (S =? 1) || (type >? 1) || (op !=? 0) || ((Z.land opcode2 7) !=? 0) then
    Assign instructionID.INVALID
  else if type =? 0 then
    if opcode2 =? 0 then
      Assign instructionID.FCMP_single
    else if opcode2 =? 8 then
      Assign instructionID.FCMP_single_zero
    else if opcode2 =? 16 then
      Assign instructionID.FCMPE_single
    else if opcode2 =? 24 then
      Assign instructionID.FCMPE_single_zero
    else
      Keep
  else if opcode2 =? 0 then
    Assign instructionID.FCMP_double
  else if opcode2 =? 8 then
    Assign instructionID.FCMP_double_zero
  else if opcode2 =? 16 then
    Assign instructionID.FCMPE_double
  else if opcode2 =? 24 then
    Assign instructionID.FCMPE_double_zero
  else
    Keep.

Definition decodeFloatImm (bits : Z) : assignment :=
  let M := bitRange 31 31 bits in
  let S := bitRange 29 29 bits in
  let type := bitRange 22 23 bits in
  let imm5 := bitRange 5 9 bits in
  if (M =? 1) || (S =? 1) || (type >? 1) || (imm5 !=? 0) then
    Assign instructionID.INVALID
  else if type =? 0 then
    Assign instructionID.FMOV_imm_single
  else
    Assign instructionID.FMOV_imm_double.

Definition decodeFloatCondCmp (bits : Z) : assignment :=
  let M := bitRange 31 31 bits in
  let S := bitRange 29 29 bits in
  let type := bitRange 22 23 bits in
  let op := bitRange 4 4 bits in
  if (M =? 1) || (S =? 1) || (type >? 1) then
    Assign instructionID.INVALID
  else if type =? 0 then
    if op =? 0 then
      Assign instructionID.FCCMP_single
    else
      Assign instructionID.FCCMPE_single
  else if op =? 0 then
    Assign instructionID.FCCMP_double
  else
    Assign instructionID.FCCMPE_double.

Definition decodeFloatDP2Source (bits : Z) : assignment :=
  let M := bitRange 31 31 bits in
  let S := bitRange 29 29 bits in
  let type := bitRange 22 23 bits in
  let opcode := bitRange 12 15 bits in
  if (M =? 1) || (S =? 1) || (type >? 1) || (opcode >? 8) then
    Assign instructionID.INVALID
  else if type =? 0 then
    if case_of opcode [0] then
      Assign instructionID.FMUL_single
    else if case_of opcode [1] then
      Assign instructionID.FDIV_single
    else if case_of opcode [2] then
      Assign instructionID.FADD_single
    else if case_of opcode [3] then
      Assign instructionID.FSUB_single
    else if case_of opcode [4] then
      Assign instructionID.FMAX_single
    else if case_of opcode [5] then
      Assign instructionID.FMIN_single
    else if case_of opcode [6] then
      Assign instructionID.FMAXNM_single
    else if case_of opcode [7] then
      Assign instructionID.FMINNM_single
    else if case_of opcode [8] then
      Assign instructionID.FNMUL_single
    else
      Unreachable
  else
    if case_of opcode [0] then
      Assign instructionID.FMUL_double
    else if case_of opcode [1] then
      Assign instructionID.FDIV_double
    else if case_of opcode [2] then
      Assign instructionID.FADD_double
    else if case_of opcode [3] then
      Assign instructionID.FSUB_double
    else if case_of opcode [4] then
      Assign instructionID.FMAX_double
    else if case_of opcode [5] then
      Assign instructionID.FMIN_double
    else if case_of opcode [6] then
      Assign instructionID.FMAXNM_double
    else if case_of opcode [7] then
      Assign instructionID.FMINNM_double
    else if case_of opcode [8] then
      Assign instructionID.FNMUL_double
    else
      Unreachable.

Definition decodeFloatCondSel (bits : Z) : assignment :=
  let M := bitRange 31 31 bits in
  let S := bitRange 29 29 bits in
  let type := bitRange 22 23 bits in
  if (M =? 1) || (S =? 1) || (type >? 1) then
    Assign instructionID.INVALID
  else if type =? 0 then
    Assign instructionID.FCSEL_single
  else
    Assign instructionID.FCSEL_double.

Definition decodeFloatDP3Source (bits : Z) : assignment :=
  let M := bitRange 31 31 bits in
  let S := bitRange 29 29 bits in
  let type := bitRange 22 23 bits in
  let op1 := bitRange 21 21 bits in
  let op0 := bitRange 15 15 bits in
  if (M =? 1) || (S =? 1) || (type >? 1) then
    Assign instructionID.INVALID
  else if type =? 0 then
    if op1 =? 0 then
      if op0 =? 0 then
        Assign instructionID.FMADD_single
      else
        Assign instructionID.FMSUB_single
    else if op0 =? 0 then
      Assign instructionID.FNMADD_single
    else
      Assign instructionID.FNMSUB_single
  else if op1 =? 0 then
    if op0 =? 0 then
      Assign instructionID.FMADD_double
    else
      Assign instructionID.FMSUB_double
  else if op0 =? 0 then
    Assign instructionID.FNMADD_double
  else
    Assign instructionID.FNMSUB_double.

Definition decodeFloat (bits : Z) : assignment :=
  let op1 := bitRange 23 24 bits in
  let op2 := bitRange 19 22 bits in
  let op4 := bitRange 10 15 bits in
  if op1 <? 2 then
    if testBit 2 op2 then
      if testBit 0 op4 then
        if testBit 1 op4 then
          decodeFloatCondSel bits
        else
          decodeFloatCondCmp bits
      else if testBit 1 op4 then
        decodeFloatDP2Source bits
      else if testBit 2 op4 then
        decodeFloatImm bits
      else if testBit 3 op4 then
        decodeFloatCmp bits
      else if testBit 4 op4 then
        decodeFloatDP1Source bits
      else if testBit 5 op4 then
        Assign instructionID.INVALID
      else
        decodeConvertFloatAndInt bits
    else
      decodeConvertFloatAndFixed bits
  else
    decodeFloatDP3Source bits.
