(* ===== verification/DecodeLoadStore.v ===== *)
(** * Loads and stores: [libcpu/src/decode/decodeLoadStore.cpp] *)
From S2P Require Import Prelude BitUtils Instructions DecodeSystem.

Definition decodeLoadStoreSIMDMultipleStructs (bits : Z) : assignment :=
  let L := bitRange 22 22 bits in
  let opcode := bitRange 12 15 bits in
  if case_of opcode [0] then
    if L =? 0 then
      Assign instructionID.ST4_multi
    else
      Assign instructionID.LD4_multi
  else if case_of opcode [2] then
    if L =? 0 then
      Assign instructionID.ST1_multi_4reg
    else
      Assign instructionID.LD1_multi_4reg
  else if case_of opcode [4] then
    if L =? 0 then
      Assign instructionID.ST3_multi
    else
      Assign instructionID.LD3_multi
  else if case_of opcode [6] then
    if L =? 0 then
      Assign instructionID.ST1_multi_3reg
    else
      Assign instructionID.LD1_multi_3reg
  else if case_of opcode [7] then
    if L =? 0 then
      Assign instructionID.ST1_multi_1reg
    else
      Assign instructionID.LD1_multi_1reg
  else if case_of opcode [8] then
    if L =? 0 then
      Assign instructionID.ST2_multi
    else
      Assign instructionID.LD2_multi
  else if case_of opcode [10] then
    if L =? 0 then
      Assign instructionID.ST1_multi_2reg
    else
      Assign instructionID.LD1_multi_2reg
  else
    Assign instructionID.INVALID.

Definition decodeLoadStoreSIMDMultipleStructsPostIndex (bits : Z) : assignment :=
  let L := bitRange 22 22 bits in
  let Rm := bitRange 16 20 bits in
  let opcode := bitRange 12 15 bits in
  if Rm !=? 31 then
    if case_of opcode [0] then
      if L =? 0 then
        Assign instructionID.ST4_multi_reg
      else
        Assign instructionID.LD4_multi_reg
    else if case_of opcode [2] then
      if L =? 0 then
        Assign instructionID.ST1_multi_reg_4reg
      else
        Assign instructionID.LD1_multi_reg_4reg
    else if case_of opcode [4] then
      if L =? 0 then
        Assign instructionID.ST3_multi_reg
      else
        Assign instructionID.LD3_multi_reg
    else if case_of opcode [6] then
      if L =? 0 then
        Assign instructionID.ST1_multi_reg_3reg
      else
        Assign instructionID.LD1_multi_reg_3reg
    else if case_of opcode [7] then
      if L =? 0 then
        Assign instructionID.ST1_multi_reg_1reg
      else
        Assign instructionID.LD1_multi_reg_1reg
    else if case_of opcode [8] then
      if L =? 0 then
        Assign instructionID.ST2_multi_reg
      else
        Assign instructionID.LD2_multi_reg
    else if case_of opcode [10] then
      if L =? 0 then
        Assign instructionID.ST1_multi_reg_2reg
      else
        Assign instructionID.LD1_multi_reg_2reg
    else
      Assign instructionID.INVALID
  else
    if case_of opcode [0] then
      if L =? 0 then
        Assign instructionID.ST4_multi_offset
      else
        Assign instructionID.LD4_multi_offset
    else if case_of opcode [2] then
      if L =? 0 then
        Assign instructionID.ST1_multi_offset_4reg
      else
        Assign instructionID.LD1_multi_offset_4reg
    else if case_of opcode [4] then
      if L =? 0 then
        Assign instructionID.ST3_multi_offset
      else
        Assign instructionID.LD3_multi_offset
    else if case_of opcode [6] then
      if L =? 0 then
        Assign instructionID.ST1_multi_offset_3reg
      else
        Assign instructionID.LD1_multi_offset_3reg
    else if case_of opcode [7] then
      if L =? 0 then
        Assign instructionID.ST1_multi_offset_1reg
      else
        Assign instructionID.LD1_multi_offset_1reg
    else if case_of opcode [8] then
      if L =? 0 then
        Assign instructionID.ST2_multi_offset
      else
        Assign instructionID.LD2_multi_offset
    else if case_of opcode [10] then
      if L =? 0 then
        Assign instructionID.ST1_multi_offset_2reg
      else
        Assign instructionID.LD1_multi_offset_2reg
    else
      Assign instructionID.INVALID.

Definition decodeLoadStoreSIMDSingleStruct (bits : Z) : assignment :=
  let L := bitRange 22 22 bits in
  let R := bitRange 21 21 bits in
  let opcode := bitRange 13 15 bits in
  let S := bitRange 12 12 bits in
  let size := bitRange 10 11 bits in
  if L =? 0 then
    if R =? 0 then
      if case_of opcode [0] then
        Assign instructionID.ST1_single_8
      else if case_of opcode [1] then
        Assign instructionID.ST3_single_8
      else if case_of opcode [2] then
        if (Z.land size 1) =? 0 then
          Assign instructionID.ST1_single_16
        else
          Assign instructionID.INVALID
      else if case_of opcode [3] then
        if (Z.land size 1) =? 0 then
          Assign instructionID.ST3_single_16
        else
          Assign instructionID.INVALID
      else if case_of opcode [4] then
        if size =? 0 then
          Assign instructionID.ST1_single_32
        else if (size =? 1) && (S =? 0) then
          Assign instructionID.ST1_single_64
        else
          Assign instructionID.INVALID
      else if case_of opcode [5] then
        if size =? 0 then
          Assign instructionID.ST3_single_32
        else if (size =? 1) && (S =? 0) then
          Assign instructionID.ST3_single_64
        else
          Assign instructionID.INVALID
      else
        Assign instructionID.INVALID
    else
      if case_of opcode [0] then
        Assign instructionID.ST2_single_8
      else if case_of opcode [1] then
        Assign instructionID.ST4_single_8
      else if case_of opcode [2] then
        if (Z.land size 1) =? 0 then
          Assign instructionID.ST2_single_16
        else
          Assign instructionID.INVALID
      else if case_of opcode [3] then
        if (Z.land size 1) =? 0 then
          Assign instructionID.ST4_single_16
        else
          Assign instructionID.INVALID
      else if case_of opcode [4] then
        if size =? 0 then
          Assign instructionID.ST2_single_32
        else if (size =? 1) && (S =? 0) then
          Assign instructionID.ST2_single_64
        else
          Assign instructionID.INVALID
      else if case_of opcode [5] then
        if size =? 0 then
          Assign instructionID.ST4_single_32
        else if (size =? 1) && (S =? 0) then
          Assign instructionID.ST4_single_64
        else
          Assign instructionID.INVALID
      else
        Assign instructionID.INVALID
  else if R =? 0 then
    if case_of opcode [0] then
      Assign instructionID.LD1_single_8
    else if case_of opcode [1] then
      Assign instructionID.LD3_single_8
    else if case_of opcode [2] then
      if (Z.land size 1) =? 0 then
        Assign instructionID.LD1_single_16
      else
        Assign instructionID.INVALID
    else if case_of opcode [3] then
      if (Z.land size 1) =? 0 then
        Assign instructionID.LD3_single_16
      else
        Assign instructionID.INVALID
    else if case_of opcode [4] then
      if size =? 0 then
        Assign instructionID.LD1_single_32
      else if (size =? 1) && (S =? 0) then
        Assign instructionID.LD1_single_64
      else
        Assign instructionID.INVALID
    else if case_of opcode [5] then
      if size =? 0 then
        Assign instructionID.LD3_single_32
      else if (size =? 1) && (S =? 0) then
        Assign instructionID.LD3_single_64
      else
        Assign instructionID.INVALID
    else if case_of opcode [6] then
      if S =? 0 then
        Assign instructionID.LD1R
      else
        Assign instructionID.INVALID
    else if case_of opcode [7] then
      if S =? 0 then
        Assign instructionID.LD3R
      else
        Assign instructionID.INVALID
    else
      Assign instructionID.INVALID
  else
    if case_of opcode [0] then
      Assign instructionID.LD2_single_8
    else if case_of opcode [1] then
      Assign instructionID.LD4_single_8
    else if case_of opcode [2] then
      if (Z.land size 1) =? 0 then
        Assign instructionID.LD2_single_16
      else
        Assign instructionID.INVALID
    else if case_of opcode [3] then
      if (Z.land size 1) =? 0 then
        Assign instructionID.LD4_single_16
      else
        Assign instructionID.INVALID
    else if case_of opcode [4] then
      if size =? 0 then
        Assign instructionID.LD2_single_32
      else if (size =? 1) && (S =? 0) then
        Assign instructionID.LD2_single_64
      else
        Assign instructionID.INVALID
    else if case_of opcode [5] then
      if size =? 0 then
        Assign instructionID.LD4_single_32
      else if (size =? 1) && (S =? 0) then
        Assign instructionID.LD4_single_64
      else
        Assign instructionID.INVALID
    else if case_of opcode [6] then
      if S =? 0 then
        Assign instructionID.LD2R
      else
        Assign instructionID.INVALID
    else if case_of opcode [7] then
      if S =? 0 then
        Assign instructionID.LD4R
      else
        Assign instructionID.INVALID
    else
      Assign instructionID.INVALID.

Definition decodeLoadStoreSIMDSingleStructPostIndex (bits : Z) : assignment :=
  let L := bitRange 22 22 bits in
  let R := bitRange 21 21 bits in
  let Rm := bitRange 16 20 bits in
  let opcode := bitRange 13 15 bits in
  let S := bitRange 12 12 bits in
  let size := bitRange 10 11 bits in
  if Rm !=? 31 then
    if L =? 0 then
      if R =? 0 then
        if case_of opcode [0] then
          Assign instructionID.ST1_single_8_reg
        else if case_of opcode [1] then
          Assign instructionID.ST3_single_8_reg
        else if case_of opcode [2] then
          if (Z.land size 1) =? 0 then
            Assign instructionID.ST1_single_16_reg
          else
            Assign instructionID.INVALID
        else if case_of opcode [3] then
          if (Z.land size 1) =? 0 then
            Assign instructionID.ST3_single_16_reg
          else
            Assign instructionID.INVALID
        else if case_of opcode [4] then
          if size =? 0 then
            Assign instructionID.ST1_single_32_reg
          else if (size =? 1) && (S =? 0) then
            Assign instructionID.ST1_single_64_reg
          else
            Assign instructionID.INVALID
        else if case_of opcode [5] then
          if size =? 0 then
            Assign instructionID.ST3_single_32_reg
          else if (size =? 1) && (S =? 0) then
            Assign instructionID.ST3_single_64_reg
          else
            Assign instructionID.INVALID
        else
          Assign instructionID.INVALID
      else
        if case_of opcode [0] then
          Assign instructionID.ST2_single_8_reg
        else if case_of opcode [1] then
          Assign instructionID.ST4_single_8_reg
        else if case_of opcode [2] then
          if (Z.land size 1) =? 0 then
            Assign instructionID.ST2_single_16_reg
          else
            Assign instructionID.INVALID
        else if case_of opcode [3] then
          if (Z.land size 1) =? 0 then
            Assign instructionID.ST4_single_16_reg
          else
            Assign instructionID.INVALID
        else if case_of opcode [4] then
          if size =? 0 then
            Assign instructionID.ST2_single_32_reg
          else if (size =? 1) && (S =? 0) then
            Assign instructionID.ST2_single_64_reg
          else
            Assign instructionID.INVALID
        else if case_of opcode [5] then
          if size =? 0 then
            Assign instructionID.ST4_single_32_reg
          else if (size =? 1) && (S =? 0) then
            Assign instructionID.ST4_single_64_reg
          else
            Assign instructionID.INVALID
        else
          Assign instructionID.INVALID
    else if R =? 0 then
      if case_of opcode [0] then
        Assign instructionID.LD1_single_8_reg
      else if case_of opcode [1] then
        Assign instructionID.LD3_single_8_reg
      else if case_of opcode [2] then
        if (Z.land size 1) =? 0 then
          Assign instructionID.LD1_single_16_reg
        else
          Assign instructionID.INVALID
      else if case_of opcode [3] then
        if (Z.land size 1) =? 0 then
          Assign instructionID.LD3_single_16_reg
        else
          Assign instructionID.INVALID
      else if case_of opcode [4] then
        if size =? 0 then
          Assign instructionID.LD1_single_32_reg
        else if (size =? 1) && (S =? 0) then
          Assign instructionID.LD1_single_64_reg
        else
          Assign instructionID.INVALID
      else if case_of opcode [5] then
        if size =? 0 then
          Assign instructionID.LD3_single_32_reg
        else if (size =? 1) && (S =? 0) then
          Assign instructionID.LD3_single_64_reg
        else
          Assign instructionID.INVALID
      else if case_of opcode [6] then
        if S =? 0 then
          Assign instructionID.LD1R_reg
        else
          Assign instructionID.INVALID
      else if case_of opcode [7] then
        if S =? 0 then
          Assign instructionID.LD3R_reg
        else
          Assign instructionID.INVALID
      else
        Assign instructionID.INVALID
    else
      if case_of opcode [0] then
        Assign instructionID.LD2_single_8_reg
      else if case_of opcode [1] then
        Assign instructionID.LD4_single_8_reg
      else if case_of opcode [2] then
        if (Z.land size 1) =? 0 then
          Assign instructionID.LD2_single_16_reg
        else
          Assign instructionID.INVALID
      else if case_of opcode [3] then
        if (Z.land size 1) =? 0 then
          Assign instructionID.LD4_single_16_reg
        else
          Assign instructionID.INVALID
      else if case_of opcode [4] then
        if size =? 0 then
          Assign instructionID.LD2_single_32_reg
        else if (size =? 1) && (S =? 0) then
          Assign instructionID.LD2_single_64_reg
        else
          Assign instructionID.INVALID
      else if case_of opcode [5] then
        if size =? 0 then
          Assign instructionID.LD4_single_32_reg
        else if (size =? 1) && (S =? 0) then
          Assign instructionID.LD4_single_64_reg
        else
          Assign instructionID.INVALID
      else if case_of opcode [6] then
        if S =? 0 then
          Assign instructionID.LD2R_reg
        else
          Assign instructionID.INVALID
      else if case_of opcode [7] then
        if S =? 0 then
          Assign instructionID.LD4R_reg
        else
          Assign instructionID.INVALID
      else
        Assign instructionID.INVALID
  else if L =? 0 then
    if R =? 0 then
      if case_of opcode [0] then
        Assign instructionID.ST1_single_8_imm
      else if case_of opcode [1] then
        Assign instructionID.ST3_single_8_imm
      else if case_of opcode [2] then
        if (Z.land size 1) =? 0 then
          Assign instructionID.ST1_single_16_imm
        else
          Assign instructionID.INVALID
      else if case_of opcode [3] then
        if (Z.land size 1) =? 0 then
          Assign instructionID.ST3_single_16_imm
        else
          Assign instructionID.INVALID
      else if case_of opcode [4] then
        if size =? 0 then
          Assign instructionID.ST1_single_32_imm
        else if (size =? 1) && (S =? 0) then
          Assign instructionID.ST1_single_64_imm
        else
          Assign instructionID.INVALID
      else if case_of opcode [5] then
        if size =? 0 then
          Assign instructionID.ST3_single_32_imm
        else if (size =? 1) && (S =? 0) then
          Assign instructionID.ST3_single_64_imm
        else
          Assign instructionID.INVALID
      else
        Assign instructionID.INVALID
    else
      if case_of opcode [0] then
        Assign instructionID.ST2_single_8_imm
      else if case_of opcode [1] then
        Assign instructionID.ST4_single_8_imm
      else if case_of opcode [2] then
        if (Z.land size 1) =? 0 then
          Assign instructionID.ST2_single_16_imm
        else
          Assign instructionID.INVALID
      else if case_of opcode [3] then
        if (Z.land size 1) =? 0 then
          Assign instructionID.ST4_single_16_imm
        else
          Assign instructionID.INVALID
      else if case_of opcode [4] then
        if size =? 0 then
          Assign instructionID.ST2_single_32_imm
        else if (size =? 1) && (S =? 0) then
          Assign instructionID.ST2_single_64_imm
        else
          Assign instructionID.INVALID
      else if case_of opcode [5] then
        if size =? 0 then
          Assign instructionID.ST4_single_32_imm
        else if (size =? 1) && (S =? 0) then
          Assign instructionID.ST4_single_64_imm
        else
          Assign instructionID.INVALID
      else
        Assign instructionID.INVALID
  else if R =? 0 then
    if case_of opcode [0] then
      Assign instructionID.LD1_single_8_imm
    else if case_of opcode [1] then
      Assign instructionID.LD3_single_8_imm
    else if case_of opcode [2] then
      if (Z.land size 1) =? 0 then
        Assign instructionID.LD1_single_16_imm
      else
        Assign instructionID.INVALID
    else if case_of opcode [3] then
      if (Z.land size 1) =? 0 then
        Assign instructionID.LD3_single_16_imm
      else
        Assign instructionID.INVALID
    else if case_of opcode [4] then
      if size =? 0 then
        Assign instructionID.LD1_single_32_imm
      else if (size =? 1) && (S =? 0) then
        Assign instructionID.LD1_single_64_imm
      else
        Assign instructionID.INVALID
    else if case_of opcode [5] then
      if size =? 0 then
        Assign instructionID.LD3_single_32_imm
      else if (size =? 1) && (S =? 0) then
        Assign instructionID.LD3_single_64_imm
      else
        Assign instructionID.INVALID
    else if case_of opcode [6] then
      if S =? 0 then
        Assign instructionID.LD1R_imm
      else
        Assign instructionID.INVALID
    else if case_of opcode [7] then
      if S =? 0 then
        Assign instructionID.LD3R_imm
      else
        Assign instructionID.INVALID
    else
      Assign instructionID.INVALID
  else
    if case_of opcode [0] then
      Assign instructionID.LD2_single_8_imm
    else if case_of opcode [1] then
      Assign instructionID.LD4_single_8_imm
    else if case_of opcode [2] then
      if (Z.land size 1) =? 0 then
        Assign instructionID.LD2_single_16_imm
      else
        Assign instructionID.INVALID
    else if case_of opcode [3] then
      if (Z.land size 1) =? 0 then
        Assign instructionID.LD4_single_16_imm
      else
        Assign instructionID.INVALID
    else if case_of opcode [4] then
      if size =? 0 then
        Assign instructionID.LD2_single_32_imm
      else if (size =? 1) && (S =? 0) then
        Assign instructionID.LD2_single_64_imm
      else
        Assign instructionID.INVALID
    else if case_of opcode [5] then
      if size =? 0 then
        Assign instructionID.LD4_single_32_imm
      else if (size =? 1) && (S =? 0) then
        Assign instructionID.LD4_single_64_imm
      else
        Assign instructionID.INVALID
    else if case_of opcode [6] then
      if S =? 0 then
        Assign instructionID.LD2R_imm
      else
        Assign instructionID.INVALID
    else if case_of opcode [7] then
      if S =? 0 then
        Assign instructionID.LD4R_imm
      else
        Assign instructionID.INVALID
    else
      Assign instructionID.INVALID.

Definition decodeLoadStoreExclusive (bits : Z) : assignment :=
  let size := bitRange 30 31 bits in
  let o2 := bitRange 23 23 bits in
  let L := bitRange 22 22 bits in
  let o1 := bitRange 21 21 bits in
  let o0 := bitRange 15 15 bits in
  if (o2 =? 1) && (o1 =? 0) && (o0 =? 0) then
    Assign instructionID.INVALID
  else if (o2 =? 1) && (o1 =? 1) then
    Assign instructionID.INVALID
  else if (size <? 2) && (o1 =? 1) then
    Assign instructionID.INVALID
  else
    if case_of size [0] then
      if o2 =? 0 then
        if L =? 0 then
          if o0 =? 0 then
            Assign instructionID.STXRB
          else
            Assign instructionID.STLXRB
        else if o0 =? 0 then
          Assign instructionID.LDXRB
        else
          Assign instructionID.LDAXRB
      else if L =? 0 then
        Assign instructionID.STLRB
      else
        Assign instructionID.LDARB
    else if case_of size [1] then
      if o2 =? 0 then
        if L =? 0 then
          if o0 =? 0 then
            Assign instructionID.STXRH
          else
            Assign instructionID.STLXRH
        else if o0 =? 0 then
          Assign instructionID.LDXRH
        else
          Assign instructionID.LDAXRH
      else if L =? 0 then
        Assign instructionID.STLRH
      else
        Assign instructionID.LDARH
    else if case_of size [2] then
      if o2 =? 0 then
        if o1 =? 0 then
          if L =? 0 then
            if o0 =? 0 then
              Assign instructionID.STXR32
            else
              Assign instructionID.STLXR32
          else if o0 =? 0 then
            Assign instructionID.LDXR32
          else
            Assign instructionID.LDAXR32
        else if L =? 0 then
          if o0 =? 0 then
            Assign instructionID.STXP32
          else
            Assign instructionID.STLXP32
        else if o0 =? 0 then
          Assign instructionID.LDXP32
        else
          Assign instructionID.LDAXP32
      else if L =? 0 then
        Assign instructionID.STLR32
      else
        Assign instructionID.LDAR32
    else if case_of size [3] then
      if o2 =? 0 then
        if o1 =? 0 then
          if L =? 0 then
            if o0 =? 0 then
              Assign instructionID.STXR64
            else
              Assign instructionID.STLXR64
          else if o0 =? 0 then
            Assign instructionID.LDXR64
          else
            Assign instructionID.LDAXR64
        else if L =? 0 then
          if o0 =? 0 then
            Assign instructionID.STXP64
          else
            Assign instructionID.STLXP64
        else if o0 =? 0 then
          Assign instructionID.LDXP64
        else
          Assign instructionID.LDAXP64
      else if L =? 0 then
        Assign instructionID.STLR64
      else
        Assign instructionID.LDAR64
    else
      Unreachable.

Definition decodeLoadStoreUnprivileged (bits : Z) : assignment :=
  let size := bitRange 30 31 bits in
  let isSIMD := testBit 26 bits in
  let opc := bitRange 22 23 bits in
  if isSIMD then
    Assign instructionID.INVALID
  else
    if case_of size [0] then
      if case_of opc [0] then
        Assign instructionID.STTRB
      else if case_of opc [1] then
        Assign instructionID.LDTRB
      else if case_of opc [2] then
        Assign instructionID.LDTRSB64
      else if case_of opc [3] then
        Assign instructionID.LDTRSB32
      else
        Assign instructionID.INVALID
    else if case_of size [1] then
      if case_of opc [0] then
        Assign instructionID.STTRH
      else if case_of opc [1] then
        Assign instructionID.LDTRH
      else if case_of opc [2] then
        Assign instructionID.LDTRSH64
      else if case_of opc [3] then
        Assign instructionID.LDTRSH32
      else
        Assign instructionID.INVALID
    else if case_of size [2] then
      if case_of opc [0] then
        Assign instructionID.STTR32
      else if case_of opc [1] then
        Assign instructionID.LDTR32
      else if case_of opc [2] then
        Assign instructionID.LDTRSW
      else
        Assign instructionID.INVALID
    else if case_of size [3] then
      if case_of opc [0] then
        Assign instructionID.STTR64
      else if case_of opc [1] then
        Assign instructionID.LDTR64
      else
        Assign instructionID.INVALID
    else
      Assign instructionID.INVALID.

Definition decodeLoadStoreRegUnsignedImm (bits : Z) : assignment :=
  let size := bitRange 30 31 bits in
  let isSIMD := testBit 26 bits in
  let opc := bitRange 22 23 bits in
  andThen (
    if (size !=? 0) && isSIMD && (opc >? 1) then
      Assign instructionID.INVALID
    else
      Keep
  ) (
  if isSIMD then
    if case_of size [0] then
      if case_of opc [0] then
        Assign instructionID.STR8_imm_float
      else if case_of opc [1] then
        Assign instructionID.LDR8_imm_float
      else if case_of opc [2] then
        Assign instructionID.STR128_imm
      else if case_of opc [3] then
        Assign instructionID.LDR128_imm
      else
        Unreachable
    else if case_of size [1] then
      if case_of opc [0] then
        Assign instructionID.STR16_imm_float
      else if case_of opc [1] then
        Assign instructionID.LDR16_imm_float
      else if case_of opc [2; 3] then
        Assign instructionID.INVALID
      else
        Unreachable
    else if case_of size [2] then
      if case_of opc [0] then
        Assign instructionID.STR32_imm_float
      else if case_of opc [1] then
        Assign instructionID.LDR32_imm_float
      else if case_of opc [2; 3] then
        Assign instructionID.INVALID
      else
        Unreachable
    else if case_of size [3] then
      if case_of opc [0] then
        Assign instructionID.STR64_imm_float
      else if case_of opc [1] then
        Assign instructionID.LDR64_imm_float
      else if case_of opc [2; 3] then
        Assign instructionID.INVALID
      else
        Unreachable
    else
      Unreachable
  else
    if case_of size [0] then
      if case_of opc [0] then
        Assign instructionID.STRB_imm
      else if case_of opc [1] then
        Assign instructionID.LDRB_imm
      else if case_of opc [2] then
        Assign instructionID.LDRSB64_imm
      else if case_of opc [3] then
        Assign instructionID.LDRSB32_imm
      else
        Unreachable
    else if case_of size [1] then
      if case_of opc [0] then
        Assign instructionID.STRH_imm
      else if case_of opc [1] then
        Assign instructionID.LDRH_imm
      else if case_of opc [2] then
        Assign instructionID.LDRSH64_imm
      else if case_of opc [3] then
        Assign instructionID.LDRSH32_imm
      else
        Unreachable
    else if case_of size [2] then
      if case_of opc [0] then
        Assign instructionID.STR32_imm
      else if case_of opc [1] then
        Assign instructionID.LDR32_imm
      else if case_of opc [2] then
        Assign instructionID.LDRSW_imm
      else if case_of opc [3] then
        Assign instructionID.INVALID
      else
        Unreachable
    else if case_of size [3] then
      if case_of opc [0] then
        Assign instructionID.STR64_imm
      else if case_of opc [1] then
        Assign instructionID.LDR64_imm
      else if case_of opc [2] then
        Assign instructionID.PRFM_imm
      else if case_of opc [3] then
        Assign instructionID.INVALID
      else
        Unreachable
    else
      Unreachable
  ).

Definition decodeLoadStoreRegImmPostIndex (bits : Z) : assignment :=
  let size := bitRange 30 31 bits in
  let isSIMD := testBit 26 bits in
  let opc := bitRange 22 23 bits in
  andThen (
    if (size !=? 0) && isSIMD && (opc >? 1) then
      Assign instructionID.INVALID
    else
      Keep
  ) (
  if isSIMD then
    if case_of size [0] then
      if case_of opc [0] then
        Assign instructionID.STR8_post_float
      else if case_of opc [1] then
        Assign instructionID.LDR8_post_float
      else if case_of opc [2] then
        Assign instructionID.STR128_post
      else if case_of opc [3] then
        Assign instructionID.LDR128_post
      else
        Unreachable
    else if case_of size [1] then
      if case_of opc [0] then
        Assign instructionID.STR16_post_float
      else if case_of opc [1] then
        Assign instructionID.LDR16_post_float
      else if case_of opc [2; 3] then
        Assign instructionID.INVALID
      else
        Unreachable
    else if case_of size [2] then
      if case_of opc [0] then
        Assign instructionID.STR32_post_float
      else if case_of opc [1] then
        Assign instructionID.LDR32_post_float
      else if case_of opc [2; 3] then
        Assign instructionID.INVALID
      else
        Unreachable
    else if case_of size [3] then
      if case_of opc [0] then
        Assign instructionID.STR64_post_float
      else if case_of opc [1] then
        Assign instructionID.LDR64_post_float
      else if case_of opc [2; 3] then
        Assign instructionID.INVALID
      else
        Unreachable
    else
      Unreachable
  else
    if case_of size [0] then
      if case_of opc [0] then
        Assign instructionID.STRB_post
      else if case_of opc [1] then
        Assign instructionID.LDRB_post
      else if case_of opc [2] then
        Assign instructionID.LDRSB64_post
      else if case_of opc [3] then
        Assign instructionID.LDRSB32_post
      else
        Unreachable
    else if case_of size [1] then
      if case_of opc [0] then
        Assign instructionID.STRH_post
      else if case_of opc [1] then
        Assign instructionID.LDRH_post
      else if case_of opc [2] then
        Assign instructionID.LDRSH64_post
      else if case_of opc [3] then
        Assign instructionID.LDRSH32_post
      else
        Unreachable
    else if case_of size [2] then
      if case_of opc [0] then
        Assign instructionID.STR32_post
      else if case_of opc [1] then
        Assign instructionID.LDR32_post
      else if case_of opc [2] then
        Assign instructionID.LDRSW_post
      else if case_of opc [3] then
        Assign instructionID.INVALID
      else
        Unreachable
    else if case_of size [3] then
      if case_of opc [0] then
        Assign instructionID.STR64_post
      else if case_of opc [1] then
        Assign instructionID.LDR64_post
      else if case_of opc [2; 3] then
        Assign instructionID.INVALID
      else
        Unreachable
    else
      Unreachable
  ).

Definition decodeLoadStoreRegImmPreIndex (bits : Z) : assignment :=
  let size := bitRange 30 31 bits in
  let isSIMD := testBit 26 bits in
  let opc := bitRange 22 23 bits in
  andThen (
    if (size !=? 0) && isSIMD && (opc >? 1) then
      Assign instructionID.INVALID
    else
      Keep
  ) (
  if isSIMD then
    if case_of size [0] then
      if case_of opc [0] then
        Assign instructionID.STR8_pre_float
      else if case_of opc [1] then
        Assign instructionID.LDR8_pre_float
      else if case_of opc [2] then
        Assign instructionID.STR128_pre
      else if case_of opc [3] then
        Assign instructionID.LDR128_pre
      else
        Unreachable
    else if case_of size [1] then
      if case_of opc [0] then
        Assign instructionID.STR16_pre_float
      else if case_of opc [1] then
        Assign instructionID.LDR16_pre_float
      else if case_of opc [2; 3] then
        Assign instructionID.INVALID
      else
        Unreachable
    else if case_of size [2] then
      if case_of opc [0] then
        Assign instructionID.STR32_pre_float
      else if case_of opc [1] then
        Assign instructionID.LDR32_pre_float
      else if case_of opc [2; 3] then
        Assign instructionID.INVALID
      else
        Unreachable
    else if case_of size [3] then
      if case_of opc [0] then
        Assign instructionID.STR64_pre_float
      else if case_of opc [1] then
        Assign instructionID.LDR64_pre_float
      else if case_of opc [2; 3] then
        Assign instructionID.INVALID
      else
        Unreachable
    else
      Unreachable
  else
    if case_of size [0] then
      if case_of opc [0] then
        Assign instructionID.STRB_pre
      else if case_of opc [1] then
        Assign instructionID.LDRB_pre
      else if case_of opc [2] then
        Assign instructionID.LDRSB64_pre
      else if case_of opc [3] then
        Assign instructionID.LDRSB32_pre
      else
        Unreachable
    else if case_of size [1] then
      if case_of opc [0] then
        Assign instructionID.STRH_pre
      else if case_of opc [1] then
        Assign instructionID.LDRH_pre
      else if case_of opc [2] then
        Assign instructionID.LDRSH64_pre
      else if case_of opc [3] then
        Assign instructionID.LDRSH32_pre
      else
        Unreachable
    else if case_of size [2] then
      if case_of opc [0] then
        Assign instructionID.STR32_pre
      else if case_of opc [1] then
        Assign instructionID.LDR32_pre
      else if case_of opc [2] then
        Assign instructionID.LDRSW_pre
      else if case_of opc [3] then
        Assign instructionID.INVALID
      else
        Unreachable
    else if case_of size [3] then
      if case_of opc [0] then
        Assign instructionID.STR64_pre
      else if case_of opc [1] then
        Assign instructionID.LDR64_pre
      else if case_of opc [2; 3] then
        Assign instructionID.INVALID
      else
        Unreachable
    else
      Unreachable
  ).

Definition decodeLoadStoreRegUnscaled (bits : Z) : assignment :=
  let size := bitRange 30 31 bits in
  let isSIMD := testBit 26 bits in
  let opc := bitRange 22 23 bits in
  andThen (
    if (size !=? 0) && isSIMD && (opc >? 1) then
      Assign instructionID.INVALID
    else
      Keep
  ) (
  if isSIMD then
    if case_of size [0] then
      if case_of opc [0] then
        Assign instructionID.STUR8_float
      else if case_of opc [1] then
        Assign instructionID.LDUR8_float
      else if case_of opc [2] then
        Assign instructionID.STUR128
      else if case_of opc [3] then
        Assign instructionID.LDUR128
      else
        Unreachable
    else if case_of size [1] then
      if case_of opc [0] then
        Assign instructionID.STUR16_float
      else if case_of opc [1] then
        Assign instructionID.LDUR16_float
      else if case_of opc [2; 3] then
        Assign instructionID.INVALID
      else
        Unreachable
    else if case_of size [2] then
      if case_of opc [0] then
        Assign instructionID.STUR32_float
      else if case_of opc [1] then
        Assign instructionID.LDUR32_float
      else if case_of opc [2; 3] then
        Assign instructionID.INVALID
      else
        Unreachable
    else if case_of size [3] then
      if case_of opc [0] then
        Assign instructionID.STUR64_float
      else if case_of opc [1] then
        Assign instructionID.LDUR64_float
      else if case_of opc [2; 3] then
        Assign instructionID.INVALID
      else
        Unreachable
    else
      Unreachable
  else
    if case_of size [0] then
      if case_of opc [0] then
        Assign instructionID.STURB
      else if case_of opc [1] then
        Assign instructionID.LDURB
      else if case_of opc [2] then
        Assign instructionID.LDURSB64
      else if case_of opc [3] then
        Assign instructionID.LDURSB32
      else
        Unreachable
    else if case_of size [1] then
      if case_of opc [0] then
        Assign instructionID.STURH
      else if case_of opc [1] then
        Assign instructionID.LDURH
      else if case_of opc [2] then
        Assign instructionID.LDURSH64
      else if case_of opc [3] then
        Assign instructionID.LDURSH32
      else
        Unreachable
    else if case_of size [2] then
      if case_of opc [0] then
        Assign instructionID.STUR32
      else if case_of opc [1] then
        Assign instructionID.LDUR32
      else if case_of opc [2] then
        Assign instructionID.LDURSW
      else if case_of opc [3] then
        Assign instructionID.INVALID
      else
        Unreachable
    else if case_of size [3] then
      if case_of opc [0] then
        Assign instructionID.STUR64
      else if case_of opc [1] then
        Assign instructionID.LDUR64
      else if case_of opc [2] then
        Assign instructionID.PRFM_unscaled
      else if case_of opc [3] then
        Assign instructionID.INVALID
      else
        Unreachable
    else
      Unreachable
  ).

Definition decodeLoadStorePair (bits : Z) : assignment :=
  let op3 := bitRange 23 24 bits in
  let opc := bitRange 30 31 bits in
  let isSIMD := testBit 26 bits in
  let isLoad := testBit 22 bits in
  if (opc =? 3) || (((negb isLoad) && (negb isSIMD)) && (opc =? 1)) then
    Assign instructionID.INVALID
  else if isSIMD then
    if case_of op3 [0] then
      if opc =? 0 then
        if isLoad then
          Assign instructionID.LDNP32_float
        else
          Assign instructionID.STNP32_float
      else if opc =? 1 then
        if isLoad then
          Assign instructionID.LDNP64_float
        else
          Assign instructionID.STNP64_float
      else if isLoad then
        Assign instructionID.LDNP128
      else
        Assign instructionID.STNP128
    else if case_of op3 [1] then
      if opc =? 0 then
        if isLoad then
          Assign instructionID.LDP32_post_float
        else
          Assign instructionID.STP32_post_float
      else if opc =? 1 then
        if isLoad then
          Assign instructionID.LDP64_post_float
        else
          Assign instructionID.STP64_post_float
      else if isLoad then
        Assign instructionID.LDP128_post
      else
        Assign instructionID.STP128_post
    else if case_of op3 [2] then
      if opc =? 0 then
        if isLoad then
          Assign instructionID.LDP32_offset_float
        else
          Assign instructionID.STP32_offset_float
      else if opc =? 1 then
        if isLoad then
          Assign instructionID.LDP64_offset_float
        else
          Assign instructionID.STP64_offset_float
      else if isLoad then
        Assign instructionID.LDP128_offset
      else
        Assign instructionID.STP128_offset
    else if case_of op3 [3] then
      if opc =? 0 then
        if isLoad then
          Assign instructionID.LDP32_pre_float
        else
          Assign instructionID.STP32_pre_float
      else if opc =? 1 then
        if isLoad then
          Assign instructionID.LDP64_pre_float
        else
          Assign instructionID.STP64_pre_float
      else if isLoad then
        Assign instructionID.LDP128_pre
      else
        Assign instructionID.STP128_pre
    else
      Unreachable
  else
    if case_of op3 [0] then
      if opc =? 0 then
        if isLoad then
          Assign instructionID.LDNP32
        else
          Assign instructionID.STNP32
      else if opc =? 1 then
        Assign instructionID.INVALID
      else if isLoad then
        Assign instructionID.LDNP64
      else
        Assign instructionID.STNP64
    else if case_of op3 [1] then
      if opc =? 0 then
        if isLoad then
          Assign instructionID.LDP32_post
        else
          Assign instructionID.STP32_post
      else if opc =? 1 then
        Assign instructionID.LDPSW_post
      else if isLoad then
        Assign instructionID.LDP64_post
      else
        Assign instructionID.STP64_post
    else if case_of op3 [2] then
      if opc =? 0 then
        if isLoad then
          Assign instructionID.LDP32_offset
        else
          Assign instructionID.STP32_offset
      else if opc =? 1 then
        Assign instructionID.LDPSW_offset
      else if isLoad then
        Assign instructionID.LDP64_offset
      else
        Assign instructionID.STP64_offset
    else if case_of op3 [3] then
      if opc =? 0 then
        if isLoad then
          Assign instructionID.LDP32_pre
        else
          Assign instructionID.STP32_pre
      else if opc =? 1 then
        Assign instructionID.LDPSW_pre
      else if isLoad then
        Assign instructionID.LDP64_pre
      else
        Assign instructionID.STP64_pre
    else
      Unreachable.

Definition decodeLoadStoreRegOff (bits : Z) : assignment :=
  let size := bitRange 30 31 bits in
  let isSIMD := testBit 26 bits in
  let opc := bitRange 22 23 bits in
  let option := bitRange 13 15 bits in
  andThen (
    if (size !=? 0) && isSIMD && (opc >? 1) then
      Assign instructionID.INVALID
    else
      Keep
  ) (
  andThen (
    if testBit 1 option then
      Assign instructionID.INVALID
    else
      Keep
  ) (
  if isSIMD then
    if case_of size [0] then
      if case_of opc [0] then
        Assign instructionID.STR8_reg_float
      else if case_of opc [1] then
        Assign instructionID.LDR8_reg_float
      else if case_of opc [2] then
        Assign instructionID.STR128_reg
      else if case_of opc [3] then
        Assign instructionID.LDR128_reg
      else
        Unreachable
    else if case_of size [1] then
      if case_of opc [0] then
        Assign instructionID.STR16_reg_float
      else if case_of opc [1] then
        Assign instructionID.LDR16_reg_float
      else if case_of opc [2; 3] then
        Assign instructionID.INVALID
      else
        Unreachable
    else if case_of size [2] then
      if case_of opc [0] then
        Assign instructionID.STR32_reg_float
      else if case_of opc [1] then
        Assign instructionID.LDR32_reg_float
      else if case_of opc [2; 3] then
        Assign instructionID.INVALID
      else
        Unreachable
    else if case_of size [3] then
      if case_of opc [0] then
        Assign instructionID.STR64_reg_float
      else if case_of opc [1] then
        Assign instructionID.LDR64_reg_float
      else if case_of opc [2; 3] then
        Assign instructionID.INVALID
      else
        Unreachable
    else
      Unreachable
  else
    if case_of size [0] then
      if case_of opc [0] then
        Assign instructionID.STRB_reg
      else if case_of opc [1] then
        Assign instructionID.LDRB_reg
      else if case_of opc [2] then
        Assign instructionID.LDRSB64_reg
      else if case_of opc [3] then
        Assign instructionID.LDRSB32_reg
      else
        Unreachable
    else if case_of size [1] then
      if case_of opc [0] then
        Assign instructionID.STRH_reg
      else if case_of opc [1] then
        Assign instructionID.LDRH_reg
      else if case_of opc [2] then
        Assign instructionID.LDRSH64_reg
      else if case_of opc [3] then
        Assign instructionID.LDRSH32_reg
      else
        Unreachable
    else if case_of size [2] then
      if case_of opc [0] then
        Assign instructionID.STR32_reg
      else if case_of opc [1] then
        Assign instructionID.LDR32_reg
      else if case_of opc [2] then
        Assign instructionID.LDRSW_reg
      else if case_of opc [3] then
        Assign instructionID.INVALID
      else
        Unreachable
    else if case_of size [3] then
      if case_of opc [0] then
        Assign instructionID.STR64_reg
      else if case_of opc [1] then
        Assign instructionID.LDR64_reg
      else if case_of opc [2] then
        Assign instructionID.PRFM_reg
      else if case_of opc [3] then
        Assign instructionID.INVALID
      else
        Unreachable
    else
      Unreachable
  )
  ).

Definition decodeLoadRegLiteral (bits : Z) : assignment :=
  let opc := bitRange 30 31 bits in
  let isSIMD := testBit 26 bits in
  if isSIMD then
    if case_of opc [0] then
      Assign instructionID.LDR32_literal_float
    else if case_of opc [1] then
      Assign instructionID.LDR64_literal_float
    else if case_of opc [2] then
      Assign instructionID.LDR128_literal
    else if case_of opc [3] then
      Assign instructionID.INVALID
    else
      Unreachable
  else
    if case_of opc [0] then
      Assign instructionID.LDR32_literal
    else if case_of opc [1] then
      Assign instructionID.LDR64_literal
    else if case_of opc [2] then
      Assign instructionID.LDRSW_literal
    else if case_of opc [3] then
      Assign instructionID.PRFM_literal
    else
      Unreachable.

Definition decodeLoadStore (bits : Z) : assignment :=
  let op0 := bitRange 31 31 bits in
  let op1 := bitRange 28 29 bits in
  let op2 := bitRange 26 26 bits in
  let op3 := bitRange 23 24 bits in
  let op4 := bitRange 16 21 bits in
  let op5 := bitRange 10 11 bits in
  if case_of op1 [0] then
    if op2 =? 1 then
      if op0 =? 1 then
        Assign instructionID.INVALID
      else
        if case_of op3 [0] then
          if op4 =? 0 then
            decodeLoadStoreSIMDMultipleStructs bits
          else
            Assign instructionID.INVALID
        else if case_of op3 [1] then
          if op4 <? 32 then
            decodeLoadStoreSIMDMultipleStructsPostIndex bits
          else
            Assign instructionID.INVALID
        else if case_of op3 [2] then
          if (op4 =? 0) || (op4 =? 32) then
            decodeLoadStoreSIMDSingleStruct bits
          else
            Assign instructionID.INVALID
        else if case_of op3 [3] then
          decodeLoadStoreSIMDSingleStructPostIndex bits
        else
          Unreachable
    else if op3 <? 2 then
      decodeLoadStoreExclusive bits
    else
      Assign instructionID.INVALID
  else if case_of op1 [1] then
    if op3 <? 2 then
      decodeLoadRegLiteral bits
    else
      Assign instructionID.INVALID
  else if case_of op1 [2] then
    decodeLoadStorePair bits
  else if case_of op1 [3] then
    if op3 <? 2 then
      if op4 <? 32 then
        if case_of op5 [0] then
          decodeLoadStoreRegUnscaled bits
        else if case_of op5 [1] then
          decodeLoadStoreRegImmPostIndex bits
        else if case_of op5 [2] then
          decodeLoadStoreUnprivileged bits
        else if case_of op5 [3] then
          decodeLoadStoreRegImmPreIndex bits
        else
          Unreachable
      else if op5 =? 2 then
        decodeLoadStoreRegOff bits
      else
        Assign instructionID.INVALID
    else
      decodeLoadStoreRegUnsignedImm bits
  else
    Unreachable.
