(* ===== verification/DecodeSIMD.v ===== *)
(** * Advanced SIMD and cryptographic: [libcpu/src/decode/decodeSIMD.cpp] *)
From S2P Require Import Prelude BitUtils Instructions DecodeSystem.

Definition decodeCryptographicAES (bits : Z) : assignment :=
  let size := bitRange 22 23 bits in
  let opcode := bitRange 12 16 bits in
  if size !=? 0 then
    Assign instructionID.INVALID
  else
    if case_of opcode [4] then
      Assign instructionID.AESE
    else if case_of opcode [5] then
      Assign instructionID.AESD
    else if case_of opcode [6] then
      Assign instructionID.AESMC
    else if case_of opcode [7] then
      Assign instructionID.AESIMC
    else
      Assign instructionID.INVALID.

Definition decodeCryptographic3Reg (bits : Z) : assignment :=
  let size := bitRange 22 23 bits in
  let opcode := bitRange 12 14 bits in
  if size !=? 0 then
    Assign instructionID.INVALID
  else
    if case_of opcode [0] then
      Assign instructionID.SHA1C
    else if case_of opcode [1] then
      Assign instructionID.SHA1P
    else if case_of opcode [2] then
      Assign instructionID.SHA1M
    else if case_of opcode [3] then
      Assign instructionID.SHA1SU0
    else if case_of opcode [4] then
      Assign instructionID.SHA256H
    else if case_of opcode [5] then
      Assign instructionID.SHA256H2
    else if case_of opcode [6] then
      Assign instructionID.SHA256SU1
    else
      Assign instructionID.INVALID.

Definition decodeCryptographic2Reg (bits : Z) : assignment :=
  let size := bitRange 22 23 bits in
  let opcode := bitRange 12 16 bits in
  if size !=? 0 then
    Assign instructionID.INVALID
  else
    if case_of opcode [0] then
      Assign instructionID.SHA1H
    else if case_of opcode [1] then
      Assign instructionID.SHA1SU1
    else if case_of opcode [2] then
      Assign instructionID.SHA256SU0
    else
      Assign instructionID.INVALID.

Definition decodeSIMDScalarCopy (bits : Z) : assignment :=
  if (negb (testBit 29 bits)) && ((bitRange 16 19 bits) !=? 0) &&
      ((bitRange 11 15 bits) =? 0) then
    Assign instructionID.DUP_element_scalar
  else
    Assign instructionID.INVALID.

Definition decodeSIMDScalar2Reg (bits : Z) : assignment :=
  let U := testBit 29 bits in
  let size := bitRange 22 23 bits in
  let opcode := bitRange 12 16 bits in
  if negb U then
    if case_of opcode [3] then
      Assign instructionID.SUQADD_scalar
    else if case_of opcode [7] then
      Assign instructionID.SQABS_scalar
    else if case_of opcode [8] then
      Assign instructionID.CMGT_scalar_zero
    else if case_of opcode [9] then
      Assign instructionID.CMEQ_scalar_zero
    else if case_of opcode [10] then
      Assign instructionID.CMLT_scalar_zero
    else if case_of opcode [11] then
      Assign instructionID.ABS_scalar
    else if case_of opcode [12] then
      if size <? 2 then
        Assign instructionID.INVALID
      else
        Assign instructionID.FCMGT_scalar_zero
    else if case_of opcode [13] then
      if size <? 2 then
        Assign instructionID.INVALID
      else
        Assign instructionID.FCMEQ_scalar_zero
    else if case_of opcode [14] then
      if size <? 2 then
        Assign instructionID.INVALID
      else
        Assign instructionID.FCMLT_scalar_zero
    else if case_of opcode [20] then
      Assign instructionID.SQXTN_scalar
    else if case_of opcode [26] then
      if size <? 2 then
        Assign instructionID.FCVTNS_scalar
      else
        Assign instructionID.FCVTPS_scalar
    else if case_of opcode [27] then
      if size <? 2 then
        Assign instructionID.FCVTMS_scalar
      else
        Assign instructionID.FCVTZS_scalar_int
    else if case_of opcode [28] then
      if size <? 2 then
        Assign instructionID.FCVTAS_scalar
      else
        Assign instructionID.INVALID
    else if case_of opcode [29] then
      if size <? 2 then
        Assign instructionID.SCVTF_scalar_int
      else
        Assign instructionID.FRECPE_scalar
    else if case_of opcode [31] then
      if size <? 2 then
        Assign instructionID.INVALID
      else
        Assign instructionID.FRECPX_scalar
    else
      Assign instructionID.INVALID
  else
    if case_of opcode [3] then
      Assign instructionID.USQADD_scalar
    else if case_of opcode [7] then
      Assign instructionID.SQNEG_scalar
    else if case_of opcode [8] then
      Assign instructionID.CMGE_scalar_zero
    else if case_of opcode [9] then
      Assign instructionID.CMLE_scalar_zero
    else if case_of opcode [11] then
      Assign instructionID.NEG_scalar
    else if case_of opcode [12] then
      if size <? 2 then
        Assign instructionID.INVALID
      else
        Assign instructionID.FCMGE_scalar_zero
    else if case_of opcode [13] then
      if size <? 2 then
        Assign instructionID.INVALID
      else
        Assign instructionID.FCMLE_scalar_zero
    else if case_of opcode [18] then
      Assign instructionID.SQXTUN_scalar
    else if case_of opcode [20] then
      Assign instructionID.UQXTN_scalar
    else if case_of opcode [22] then
      if size <? 2 then
        Assign instructionID.FCVTXN_scalar
      else
        Assign instructionID.INVALID
    else if case_of opcode [26] then
      if size <? 2 then
        Assign instructionID.FCVTNU_scalar
      else
        Assign instructionID.FCVTPU_scalar
    else if case_of opcode [27] then
      if size <? 2 then
        Assign instructionID.FCVTMU_scalar
      else
        Assign instructionID.FCVTZU_scalar_int
    else if case_of opcode [28] then
      if size <? 2 then
        Assign instructionID.FCVTAU_scalar
      else
        Assign instructionID.INVALID
    else if case_of opcode [29] then
      if size <? 2 then
        Assign instructionID.UCVTF_scalar_int
      else
        Assign instructionID.FRSQRTE_scalar
    else
      Assign instructionID.INVALID.

Definition decodeSIMDScalarPairwise (bits : Z) : assignment :=
  let U := testBit 29 bits in
  let size := bitRange 22 23 bits in
  let opcode := bitRange 12 16 bits in
  if negb U then
    if opcode =? 27 then
      Assign instructionID.ADDP_scalar
    else
      Assign instructionID.INVALID
  else if size <? 2 then
    if opcode =? 12 then
      Assign instructionID.FMAXNMP_scalar
    else if opcode =? 13 then
      Assign instructionID.FADDP_scalar
    else if opcode =? 15 then
      Assign instructionID.FMAXP_scalar
    else
      Assign instructionID.INVALID
  else if opcode =? 12 then
    Assign instructionID.FMINNMP_scalar
  else if opcode =? 15 then
    Assign instructionID.FMINP_scalar
  else
    Assign instructionID.INVALID.

Definition decodeSIMDScalar3Different (bits : Z) : assignment :=
  let U := testBit 29 bits in
  let opcode := bitRange 12 15 bits in
  if negb U then
    if opcode =? 9 then
      Assign instructionID.SQDMLAL_scalar
    else if opcode =? 11 then
      Assign instructionID.SQDMLSL_scalar
    else if opcode =? 13 then
      Assign instructionID.SQDMULL_scalar
    else
      Assign instructionID.INVALID
  else
    Assign instructionID.INVALID.

Definition decodeSIMDScalar3Same (bits : Z) : assignment :=
  let U := testBit 29 bits in
  let size := bitRange 22 23 bits in
  let opcode := bitRange 11 15 bits in
  if negb U then
    if case_of opcode [1] then
      Assign instructionID.SQADD_scalar
    else if case_of opcode [5] then
      Assign instructionID.SQSUB_scalar
    else if case_of opcode [6] then
      Assign instructionID.CMGT_scalar_reg
    else if case_of opcode [7] then
      Assign instructionID.CMGE_scalar_reg
    else if case_of opcode [8] then
      Assign instructionID.SSHL_scalar
    else if case_of opcode [9] then
      Assign instructionID.SQSHL_scalar_reg
    else if case_of opcode [10] then
      Assign instructionID.SRSHL_scalar
    else if case_of opcode [11] then
      Assign instructionID.SQRSHL_scalar
    else if case_of opcode [16] then
      Assign instructionID.ADD_scalar
    else if case_of opcode [17] then
      Assign instructionID.CMTST_scalar
    else if case_of opcode [22] then
      Assign instructionID.SQDMULH_scalar
    else if case_of opcode [27] then
      if size <? 2 then
        Assign instructionID.FMULX_scalar
      else
        Assign instructionID.INVALID
    else if case_of opcode [28] then
      if size <? 2 then
        Assign instructionID.FCMEQ_scalar_reg
      else
        Assign instructionID.INVALID
    else if case_of opcode [31] then
      if size <? 2 then
        Assign instructionID.FRECPS_scalar
      else
        Assign instructionID.FRSQRTS_scalar
    else
      Assign instructionID.INVALID
  else
    if case_of opcode [1] then
      Assign instructionID.UQADD_scalar
    else if case_of opcode [5] then
      Assign instructionID.UQSUB_scalar
    else if case_of opcode [6] then
      Assign instructionID.CMHI_scalar_reg
    else if case_of opcode [7] then
      Assign instructionID.CMHS_scalar_reg
    else if case_of opcode [8] then
      Assign instructionID.USHL_scalar
    else if case_of opcode [9] then
      Assign instructionID.UQSHL_scalar_reg
    else if case_of opcode [10] then
      Assign instructionID.URSHL_scalar
    else if case_of opcode [11] then
      Assign instructionID.UQRSHL_scalar
    else if case_of opcode [16] then
      Assign instructionID.SUB_scalar
    else if case_of opcode [17] then
      Assign instructionID.CMEQ_scalar_reg
    else if case_of opcode [22] then
      Assign instructionID.SQRDMULH_scalar
    else if case_of opcode [26] then
      if size <? 2 then
        Assign instructionID.INVALID
      else
        Assign instructionID.FABD_scalar
    else if case_of opcode [28] then
      if size <? 2 then
        Assign instructionID.FCMGE_scalar_reg
      else
        Assign instructionID.FCMGT_scalar_reg
    else if case_of opcode [29] then
      if size <? 2 then
        Assign instructionID.FACGE_scalar
      else
        Assign instructionID.FACGT_scalar
    else
      Assign instructionID.INVALID.

Definition decodeSIMDScalarShiftImmediate (bits : Z) : assignment :=
  if (bitRange 19 22 bits) =? 0 then
    Assign instructionID.INVALID
  else
    let U := testBit 29 bits in
    let opcode := bitRange 11 15 bits in
    if negb U then
      if case_of opcode [0] then
        Assign instructionID.SSHR_scalar
      else if case_of opcode [2] then
        Assign instructionID.SSRA_scalar
      else if case_of opcode [4] then
        Assign instructionID.SRSHR_scalar
      else if case_of opcode [6] then
        Assign instructionID.SRSRA_scalar
      else if case_of opcode [10] then
        Assign instructionID.SHL_scalar
      else if case_of opcode [14] then
        Assign instructionID.SQSHL_scalar_imm
      else if case_of opcode [18] then
        Assign instructionID.SQSHRN_scalar
      else if case_of opcode [19] then
        Assign instructionID.SQRSHRN_scalar
      else if case_of opcode [28] then
        Assign instructionID.SCVTF_scalar_fixed
      else if case_of opcode [31] then
        Assign instructionID.FCVTZS_scalar_fixed
      else
        Assign instructionID.INVALID
    else
      if case_of opcode [0] then
        Assign instructionID.USHR_scalar
      else if case_of opcode [2] then
        Assign instructionID.USRA_scalar
      else if case_of opcode [4] then
        Assign instructionID.URSHR_scalar
      else if case_of opcode [6] then
        Assign instructionID.URSRA_scalar
      else if case_of opcode [8] then
        Assign instructionID.SRI_scalar
      else if case_of opcode [10] then
        Assign instructionID.SLI_scalar
      else if case_of opcode [12] then
        Assign instructionID.SQSHLU_scalar
      else if case_of opcode [14] then
        Assign instructionID.UQSHL_scalar_imm
      else if case_of opcode [16] then
        Assign instructionID.SQSHRUN_scalar
      else if case_of opcode [17] then
        Assign instructionID.SQRSHRUN_scalar
      else if case_of opcode [18] then
        Assign instructionID.UQSHRN_scalar
      else if case_of opcode [19] then
        Assign instructionID.UQRSHRN_scalar
      else if case_of opcode [28] then
        Assign instructionID.UCVTF_scalar_fixed
      else if case_of opcode [31] then
        Assign instructionID.FCVTZU_scalar_fixed
      else
        Assign instructionID.INVALID.

Definition decodeSIMDScalarXIndexed (bits : Z) : assignment :=
  let U := testBit 29 bits in
  let size := bitRange 22 23 bits in
  let opcode := bitRange 12 15 bits in
  if negb U then
    if case_of opcode [1] then
      if size >? 1 then
        Assign instructionID.FMLA_scalar_element
      else
        Assign instructionID.INVALID
    else if case_of opcode [3] then
      Assign instructionID.SQDMLAL_scalar_element
    else if case_of opcode [5] then
      if size >? 1 then
        Assign instructionID.FMLS_scalar_element
      else
        Assign instructionID.INVALID
    else if case_of opcode [7] then
      Assign instructionID.SQDMLSL_scalar_element
    else if case_of opcode [9] then
      if size >? 1 then
        Assign instructionID.FMUL_scalar_element
      else
        Assign instructionID.INVALID
    else if case_of opcode [11] then
      Assign instructionID.SQDMULL_scalar_element
    else if case_of opcode [12] then
      Assign instructionID.SQDMULH_scalar_element
    else if case_of opcode [13] then
      Assign instructionID.SQRDMULH_scalar_element
    else
      Assign instructionID.INVALID
  else if (size >? 1) && (opcode =? 9) then
    Assign instructionID.FMULX_scalar_element
  else
    Assign instructionID.INVALID.

Definition decodeSIMDTableLookup (bits : Z) : assignment :=
  if (bitRange 22 23 bits) !=? 0 then
    Assign instructionID.INVALID
  else
    let len := bitRange 13 14 bits in
    let op := bitRange 12 12 bits in
    if case_of len [0] then
      if op =? 0 then
        Assign instructionID.TBL_one_reg
      else
        Assign instructionID.TBX_one_reg
    else if case_of len [1] then
      if op =? 0 then
        Assign instructionID.TBL_two_reg
      else
        Assign instructionID.TBX_two_reg
    else if case_of len [2] then
      if op =? 0 then
        Assign instructionID.TBL_three_reg
      else
        Assign instructionID.TBX_three_reg
    else if case_of len [3] then
      if op =? 0 then
        Assign instructionID.TBL_four_reg
      else
        Assign instructionID.TBX_four_reg
    else
      Assign instructionID.INVALID.

Definition decodeSIMDPermute (bits : Z) : assignment :=
  let opcode := bitRange 12 14 bits in
  if case_of opcode [1] then
    Assign instructionID.UZP1
  else if case_of opcode [2] then
    Assign instructionID.TRN1
  else if case_of opcode [3] then
    Assign instructionID.ZIP1
  else if case_of opcode [5] then
    Assign instructionID.UZP2
  else if case_of opcode [6] then
    Assign instructionID.TRN2
  else if case_of opcode [7] then
    Assign instructionID.ZIP2
  else
    Assign instructionID.INVALID.

Definition decodeSIMDExtract (bits : Z) : assignment :=
  if (bitRange 22 23 bits) =? 0 then
    Assign instructionID.EXT
  else
    Assign instructionID.INVALID.

Definition decodeSIMDCopy (bits : Z) : assignment :=
  let Q := testBit 30 bits in
  let op := testBit 29 bits in
  let imm5 := bitRange 16 20 bits in
  let imm4 := bitRange 11 14 bits in
  if (Z.land imm5 15) =? 0 then
    Assign instructionID.INVALID
  else if negb op then
    if case_of imm4 [0] then
      Assign instructionID.DUP_element_vec
    else if case_of imm4 [1] then
      Assign instructionID.DUP_general
    else if case_of imm4 [3] then
      if Q then
        Assign instructionID.INS_general
      else
        Assign instructionID.INVALID
    else if case_of imm4 [5] then
      if Q then
        Assign instructionID.SMOV_64
      else
        Assign instructionID.SMOV_32
    else if case_of imm4 [7] then
      if Q then
        if (Z.land imm5 15) =? 8 then
          Assign instructionID.UMOV_64
        else
          Assign instructionID.INVALID
      else
        Assign instructionID.UMOV_32
    else
      Assign instructionID.INVALID
  else if Q then
    Assign instructionID.INS_element
  else
    Assign instructionID.INVALID.

Definition decodeSIMD2Reg (bits : Z) : assignment :=
  let Q := testBit 30 bits in
  let U := testBit 29 bits in
  let size := bitRange 22 23 bits in
  let opcode := bitRange 12 16 bits in
  if negb U then
    if case_of opcode [0] then
      Assign instructionID.REV64_vec
    else if case_of opcode [1] then
      Assign instructionID.REV16_vec
    else if case_of opcode [2] then
      Assign instructionID.SADDLP_vec
    else if case_of opcode [3] then
      Assign instructionID.SUQADD_vec
    else if case_of opcode [4] then
      Assign instructionID.CLS_vec
    else if case_of opcode [5] then
      Assign instructionID.CNT_vec
    else if case_of opcode [6] then
      Assign instructionID.SADALP_vec
    else if case_of opcode [7] then
      Assign instructionID.SQABS_vec
    else if case_of opcode [8] then
      Assign instructionID.CMGT_vec_zero
    else if case_of opcode [9] then
      Assign instructionID.CMEQ_vec_zero
    else if case_of opcode [10] then
      Assign instructionID.CMLT_vec_zero
    else if case_of opcode [11] then
      Assign instructionID.ABS_vec
    else if case_of opcode [12] then
      if size <? 2 then
        Assign instructionID.INVALID
      else
        Assign instructionID.FCMGT_vec_zero
    else if case_of opcode [13] then
      if size <? 2 then
        Assign instructionID.INVALID
      else
        Assign instructionID.FCMEQ_vec_zero
    else if case_of opcode [14] then
      if size <? 2 then
        Assign instructionID.INVALID
      else
        Assign instructionID.FCMLT_vec_zero
    else if case_of opcode [15] then
      if size <? 2 then
        Assign instructionID.INVALID
      else
        Assign instructionID.FABS_vec
    else if case_of opcode [18] then
      if negb Q then
        Assign instructionID.XTN_vec
      else
        Assign instructionID.XTN2_vec
    else if case_of opcode [20] then
      if negb Q then
        Assign instructionID.SQXTN_vec
      else
        Assign instructionID.SQXTN2_vec
    else if case_of opcode [22] then
      if size <? 2 then
        if negb Q then
          Assign instructionID.FCVTN_vec
        else
          Assign instructionID.FCVTN2_vec
      else
        Assign instructionID.INVALID
    else if case_of opcode [23] then
      if size <? 2 then
        if negb Q then
          Assign instructionID.FCVTL_vec
        else
          Assign instructionID.FCVTL2_vec
      else
        Assign instructionID.INVALID
    else if case_of opcode [24] then
      if size <? 2 then
        Assign instructionID.FRINTN_vec
      else
        Assign instructionID.FRINTP_vec
    else if case_of opcode [25] then
      if size <? 2 then
        Assign instructionID.FRINTM_vec
      else
        Assign instructionID.FRINTZ_vec
    else if case_of opcode [26] then
      if size <? 2 then
        Assign instructionID.FCVTNS_vec
      else
        Assign instructionID.FCVTPS_vec
    else if case_of opcode [27] then
      if size <? 2 then
        Assign instructionID.FCVTMS_vec
      else
        Assign instructionID.FCVTZS_vec_int
    else if case_of opcode [28] then
      if size <? 2 then
        Assign instructionID.FCVTAS_vec
      else
        Assign instructionID.URECPE_vec
    else if case_of opcode [29] then
      if size <? 2 then
        Assign instructionID.SCVTF_vec_int
      else
        Assign instructionID.FRECPE_vec
    else
      Assign instructionID.INVALID
  else
    if case_of opcode [0] then
      Assign instructionID.REV32_vec
    else if case_of opcode [2] then
      Assign instructionID.UADDLP_vec
    else if case_of opcode [3] then
      Assign instructionID.USQADD_vec
    else if case_of opcode [4] then
      Assign instructionID.CLZ_vec
    else if case_of opcode [5] then
      if size =? 0 then
        Assign instructionID.NOT_vec
      else if size =? 1 then
        Assign instructionID.RBIT_vec
      else
        Assign instructionID.INVALID
    else if case_of opcode [6] then
      Assign instructionID.UADALP_vec
    else if case_of opcode [7] then
      Assign instructionID.SQNEG_vec
    else if case_of opcode [8] then
      Assign instructionID.CMGE_vec_zero
    else if case_of opcode [9] then
      Assign instructionID.CMLE_vec_zero
    else if case_of opcode [11] then
      Assign instructionID.NEG_vec
    else if case_of opcode [12] then
      if size <? 2 then
        Assign instructionID.INVALID
      else
        Assign instructionID.FCMGE_vec_zero
    else if case_of opcode [13] then
      if size <? 2 then
        Assign instructionID.INVALID
      else
        Assign instructionID.FCMLE_vec_zero
    else if case_of opcode [15] then
      if size <? 2 then
        Assign instructionID.INVALID
      else
        Assign instructionID.FNEG_vec
    else if case_of opcode [18] then
      if negb Q then
        Assign instructionID.SQXTUN_vec
      else
        Assign instructionID.SQXTUN2_vec
    else if case_of opcode [19] then
      if negb Q then
        Assign instructionID.SHLL_vec
      else
        Assign instructionID.SHLL2_vec
    else if case_of opcode [20] then
      if negb Q then
        Assign instructionID.UQXTN_vec
      else
        Assign instructionID.UQXTN2_vec
    else if case_of opcode [22] then
      if size <? 2 then
        if negb Q then
          Assign instructionID.FCVTXN_vec
        else
          Assign instructionID.FCVTXN2_vec
      else
        Assign instructionID.INVALID
    else if case_of opcode [24] then
      if size <? 2 then
        Assign instructionID.FRINTA_vec
      else
        Assign instructionID.INVALID
    else if case_of opcode [25] then
      if size <? 2 then
        Assign instructionID.FRINTX_vec
      else
        Assign instructionID.FRINTI_vec
    else if case_of opcode [26] then
      if size <? 2 then
        Assign instructionID.FCVTNU_vec
      else
        Assign instructionID.FCVTPU_vec
    else if case_of opcode [27] then
      if size <? 2 then
        Assign instructionID.FCVTMU_vec
      else
        Assign instructionID.FCVTZU_vec_int
    else if case_of opcode [28] then
      if size <? 2 then
        Assign instructionID.FCVTAU_vec
      else
        Assign instructionID.URSQRTE_vec
    else if case_of opcode [29] then
      if size <? 2 then
        Assign instructionID.UCVTF_vec_int
      else
        Assign instructionID.FRSQRTE_vec
    else if case_of opcode [31] then
      if size <? 2 then
        Assign instructionID.INVALID
      else
        Assign instructionID.FSQRT_vec
    else
      Assign instructionID.INVALID.

Definition decodeSIMDAcrossLanes (bits : Z) : assignment :=
  let U := testBit 29 bits in
  let size := bitRange 22 23 bits in
  let opcode := bitRange 12 16 bits in
  if negb U then
    if opcode =? 3 then
      Assign instructionID.SADDLV_vec
    else if opcode =? 10 then
      Assign instructionID.SMAXV_vec
    else if opcode =? 26 then
      Assign instructionID.SMINV_vec
    else if opcode =? 27 then
      Assign instructionID.ADDV_vec
    else
      Assign instructionID.INVALID
  else if opcode =? 3 then
    Assign instructionID.UADDLV_vec
  else if opcode =? 10 then
    Assign instructionID.UMAXV_vec
  else if opcode =? 12 then
    if size <? 2 then
      Assign instructionID.FMAXNMV_vec
    else
      Assign instructionID.FMINNMV_vec
  else if opcode =? 15 then
    if size <? 2 then
      Assign instructionID.FMAXV_vec
    else
      Assign instructionID.FMINV_vec
  else if opcode =? 26 then
    Assign instructionID.UMINV_vec
  else
    Assign instructionID.INVALID.

Definition decodeSIMD3Different (bits : Z) : assignment :=
  let Q := testBit 30 bits in
  let U := testBit 29 bits in
  let opcode := bitRange 12 15 bits in
  if negb U then
    if case_of opcode [0] then
      if negb Q then
        Assign instructionID.SADDL
      else
        Assign instructionID.SADDL2
    else if case_of opcode [1] then
      if negb Q then
        Assign instructionID.SADDW
      else
        Assign instructionID.SADDW2
    else if case_of opcode [2] then
      if negb Q then
        Assign instructionID.SSUBL
      else
        Assign instructionID.SSUBL2
    else if case_of opcode [3] then
      if negb Q then
        Assign instructionID.SSUBW
      else
        Assign instructionID.SSUBW2
    else if case_of opcode [4] then
      if negb Q then
        Assign instructionID.ADDHN
      else
        Assign instructionID.ADDHN2
    else if case_of opcode [5] then
      if negb Q then
        Assign instructionID.SABAL
      else
        Assign instructionID.SABAL2
    else if case_of opcode [6] then
      if negb Q then
        Assign instructionID.SUBHN
      else
        Assign instructionID.SUBHN2
    else if case_of opcode [7] then
      if negb Q then
        Assign instructionID.SABDL
      else
        Assign instructionID.SABDL2
    else if case_of opcode [8] then
      if negb Q then
        Assign instructionID.SMLAL_vec
      else
        Assign instructionID.SMLAL2_vec
    else if case_of opcode [9] then
      if negb Q then
        Assign instructionID.SQDMLAL_vec
      else
        Assign instructionID.SQDMLAL2_vec
    else if case_of opcode [10] then
      if negb Q then
        Assign instructionID.SMLSL_vec
      else
        Assign instructionID.SMLSL2_vec
    else if case_of opcode [11] then
      if negb Q then
        Assign instructionID.SQDMLSL_vec
      else
        Assign instructionID.SQDMLSL2_vec
    else if case_of opcode [12] then
      if negb Q then
        Assign instructionID.SMULL_vec
      else
        Assign instructionID.SMULL2_vec
    else if case_of opcode [13] then
      if negb Q then
        Assign instructionID.SQDMULL_vec
      else
        Assign instructionID.SQDMULL2_vec
    else if case_of opcode [14] then
      if negb Q then
        Assign instructionID.PMULL
      else
        Assign instructionID.PMULL2
    else
      Assign instructionID.INVALID
  else
    if case_of opcode [0] then
      if negb Q then
        Assign instructionID.UADDL
      else
        Assign instructionID.UADDL2
    else if case_of opcode [1] then
      if negb Q then
        Assign instructionID.UADDW
      else
        Assign instructionID.UADDW2
    else if case_of opcode [2] then
      if negb Q then
        Assign instructionID.USUBL
      else
        Assign instructionID.USUBL2
    else if case_of opcode [3] then
      if negb Q then
        Assign instructionID.USUBW
      else
        Assign instructionID.USUBW2
    else if case_of opcode [4] then
      if negb Q then
        Assign instructionID.RADDHN
      else
        Assign instructionID.RADDHN2
    else if case_of opcode [5] then
      if negb Q then
        Assign instructionID.UABAL
      else
        Assign instructionID.UABAL2
    else if case_of opcode [6] then
      if negb Q then
        Assign instructionID.RSUBHN
      else
        Assign instructionID.RSUBHN2
    else if case_of opcode [7] then
      if negb Q then
        Assign instructionID.UABDL
      else
        Assign instructionID.UABDL2
    else if case_of opcode [8] then
      if negb Q then
        Assign instructionID.UMLAL_vec
      else
        Assign instructionID.UMLAL2_vec
    else if case_of opcode [10] then
      if negb Q then
        Assign instructionID.UMLSL_vec
      else
        Assign instructionID.UMLSL2_vec
    else if case_of opcode [12] then
      if negb Q then
        Assign instructionID.UMULL_vec
      else
        Assign instructionID.UMULL2_vec
    else
      Assign instructionID.INVALID.

Definition decodeSIMD3Same (bits : Z) : assignment :=
  let U := testBit 29 bits in
  let size := bitRange 22 23 bits in
  let opcode := bitRange 11 15 bits in
  if negb U then
    if case_of opcode [0] then
      Assign instructionID.SHADD_vec
    else if case_of opcode [1] then
      Assign instructionID.SQADD_vec
    else if case_of opcode [2] then
      Assign instructionID.SRHADD_vec
    else if case_of opcode [3] then
      if size =? 0 then
        Assign instructionID.AND_vec
      else if size =? 1 then
        Assign instructionID.BIC_vec_reg
      else if size =? 2 then
        Assign instructionID.ORR_vec_reg
      else if size =? 3 then
        Assign instructionID.ORN_vec
      else
        Assign instructionID.INVALID
    else if case_of opcode [4] then
      Assign instructionID.SHSUB_vec
    else if case_of opcode [5] then
      Assign instructionID.SQSUB_vec
    else if case_of opcode [6] then
      Assign instructionID.CMGT_vec_reg
    else if case_of opcode [7] then
      Assign instructionID.CMGE_vec_reg
    else if case_of opcode [8] then
      Assign instructionID.SSHL_vec
    else if case_of opcode [9] then
      Assign instructionID.SQSHL_vec_reg
    else if case_of opcode [10] then
      Assign instructionID.SRSHL_vec
    else if case_of opcode [11] then
      Assign instructionID.SQRSHL_vec
    else if case_of opcode [12] then
      Assign instructionID.SMAX_vec
    else if case_of opcode [13] then
      Assign instructionID.SMIN_vec
    else if case_of opcode [14] then
      Assign instructionID.SABD_vec
    else if case_of opcode [15] then
      Assign instructionID.SABA_vec
    else if case_of opcode [16] then
      Assign instructionID.ADD_vec
    else if case_of opcode [17] then
      Assign instructionID.CMTST_vec
    else if case_of opcode [18] then
      Assign instructionID.MLA_vec
    else if case_of opcode [19] then
      Assign instructionID.MUL_vec
    else if case_of opcode [20] then
      Assign instructionID.SMAXP_vec
    else if case_of opcode [21] then
      Assign instructionID.SMINP_vec
    else if case_of opcode [22] then
      Assign instructionID.SQDMULH_vec
    else if case_of opcode [23] then
      Assign instructionID.ADDP_vec
    else if case_of opcode [24] then
      if size <? 2 then
        Assign instructionID.FMAXNM_vec
      else
        Assign instructionID.FMINNM_vec
    else if case_of opcode [25] then
      if size <? 2 then
        Assign instructionID.FMLA_vec
      else
        Assign instructionID.FMLS_vec
    else if case_of opcode [26] then
      if size <? 2 then
        Assign instructionID.FADD_vec
      else
        Assign instructionID.FSUB_vec
    else if case_of opcode [27] then
      if size <? 2 then
        Assign instructionID.FMULX_vec
      else
        Assign instructionID.INVALID
    else if case_of opcode [28] then
      if size <? 2 then
        Assign instructionID.FCMEQ_vec_reg
      else
        Assign instructionID.INVALID
    else if case_of opcode [29] then
      Assign instructionID.INVALID
    else if case_of opcode [30] then
      if size <? 2 then
        Assign instructionID.FMAX_vec
      else
        Assign instructionID.FMIN_vec
    else if case_of opcode [31] then
      if size <? 2 then
        Assign instructionID.FRECPS_vec
      else
        Assign instructionID.FRSQRTS_vec
    else
      Assign instructionID.INVALID
  else
    if case_of opcode [0] then
      Assign instructionID.UHADD_vec
    else if case_of opcode [1] then
      Assign instructionID.UQADD_vec
    else if case_of opcode [2] then
      Assign instructionID.URHADD_vec
    else if case_of opcode [3] then
      if size =? 0 then
        Assign instructionID.EOR_vec
      else if size =? 1 then
        Assign instructionID.BSL_vec
      else if size =? 2 then
        Assign instructionID.BIT_vec
      else if size =? 3 then
        Assign instructionID.BIF_vec
      else
        Assign instructionID.INVALID
    else if case_of opcode [4] then
      Assign instructionID.UHSUB_vec
    else if case_of opcode [5] then
      Assign instructionID.UQSUB_vec
    else if case_of opcode [6] then
      Assign instructionID.CMHI_vec_reg
    else if case_of opcode [7] then
      Assign instructionID.CMHS_vec_reg
    else if case_of opcode [8] then
      Assign instructionID.USHL_vec
    else if case_of opcode [9] then
      Assign instructionID.UQSHL_vec_reg
    else if case_of opcode [10] then
      Assign instructionID.URSHL_vec
    else if case_of opcode [11] then
      Assign instructionID.UQRSHL_vec
    else if case_of opcode [12] then
      Assign instructionID.UMAX_vec
    else if case_of opcode [13] then
      Assign instructionID.UMIN_vec
    else if case_of opcode [14] then
      Assign instructionID.UABD_vec
    else if case_of opcode [15] then
      Assign instructionID.UABA_vec
    else if case_of opcode [16] then
      Assign instructionID.SUB_vec
    else if case_of opcode [17] then
      Assign instructionID.CMEQ_vec_reg
    else if case_of opcode [18] then
      Assign instructionID.MLS_vec
    else if case_of opcode [19] then
      Assign instructionID.PMUL_vec
    else if case_of opcode [20] then
      Assign instructionID.UMAXP_vec
    else if case_of opcode [21] then
      Assign instructionID.UMINP_vec
    else if case_of opcode [22] then
      Assign instructionID.SQRDMULH_vec
    else if case_of opcode [23] then
      Assign instructionID.INVALID
    else if case_of opcode [24] then
      if size <? 2 then
        Assign instructionID.FMAXNMP_vec
      else
        Assign instructionID.FMINNMP_vec
    else if case_of opcode [25] then
      Assign instructionID.INVALID
    else if case_of opcode [26] then
      if size <? 2 then
        Assign instructionID.FADDP_vec
      else
        Assign instructionID.FABD_vec
    else if case_of opcode [27] then
      if size <? 2 then
        Assign instructionID.FMUL_vec
      else
        Assign instructionID.INVALID
    else if case_of opcode [28] then
      if size <? 2 then
        Assign instructionID.FCMGE_vec_reg
      else
        Assign instructionID.FCMGT_vec_reg
    else if case_of opcode [29] then
      if size <? 2 then
        Assign instructionID.FACGE_vec
      else
        Assign instructionID.FACGT_vec
    else if case_of opcode [30] then
      if size <? 2 then
        Assign instructionID.FMAXP_vec
      else
        Assign instructionID.FMINP_vec
    else if case_of opcode [31] then
      if size <? 2 then
        Assign instructionID.FDIV_vec
      else
        Assign instructionID.INVALID
    else
      Assign instructionID.INVALID.

Definition decodeSIMDModifiedImmediate (bits : Z) : assignment :=
  let Q := testBit 30 bits in
  let op := testBit 29 bits in
  let cmode := bitRange 12 15 bits in
  if testBit 11 bits then
    Assign instructionID.INVALID
  else if negb op then
    if case_of cmode [0; 2; 4; 6] then
      Assign instructionID.MOVI_32_shifted_imm
    else if case_of cmode [1; 3; 5; 7] then
      Assign instructionID.ORR_vec_imm_32
    else if case_of cmode [8; 10] then
      Assign instructionID.MOVI_16_shifted_imm
    else if case_of cmode [9; 11] then
      Assign instructionID.ORR_vec_imm_16
    else if case_of cmode [12; 13] then
      Assign instructionID.MOVI_32_shifting_ones
    else if case_of cmode [14] then
      Assign instructionID.MOVI_8_imm
    else if case_of cmode [15] then
      Assign instructionID.FMOV_vec_imm_single
    else
      Assign instructionID.INVALID
  else
    if case_of cmode [0; 2; 4; 6] then
      Assign instructionID.MVNI_32_shifted_imm
    else if case_of cmode [1; 3; 5; 7] then
      Assign instructionID.BIC_vec_imm_32
    else if case_of cmode [8; 10] then
      Assign instructionID.MVNI_16_shifted_imm
    else if case_of cmode [9; 11] then
      Assign instructionID.BIC_vec_imm_16
    else if case_of cmode [12; 13] then
      Assign instructionID.MVNI_32_shifting_ones
    else if case_of cmode [14] then
      if Q then
        Assign instructionID.MOVI_64_vec
      else
        Assign instructionID.MOVI_64_scalar
    else if case_of cmode [15] then
      if Q then
        Assign instructionID.FMOV_vec_imm_double
      else
        Assign instructionID.INVALID
    else
      Assign instructionID.INVALID.

Definition decodeSIMDShiftImmediate (bits : Z) : assignment :=
  let Q := testBit 30 bits in
  let U := testBit 29 bits in
  let opcode := bitRange 11 15 bits in
  if negb U then
    if case_of opcode [0] then
      Assign instructionID.SSHR_vec
    else if case_of opcode [2] then
      Assign instructionID.SSRA_vec
    else if case_of opcode [4] then
      Assign instructionID.SRSHR_vec
    else if case_of opcode [6] then
      Assign instructionID.SRSRA_vec
    else if case_of opcode [10] then
      Assign instructionID.SHL_vec
    else if case_of opcode [14] then
      Assign instructionID.SQSHL_vec_imm
    else if case_of opcode [16] then
      if negb Q then
        Assign instructionID.SHRN_vec
      else
        Assign instructionID.SHRN2_vec
    else if case_of opcode [17] then
      if negb Q then
        Assign instructionID.RSHRN_vec
      else
        Assign instructionID.RSHRN2_vec
    else if case_of opcode [18] then
      if negb Q then
        Assign instructionID.SQSHRN_vec
      else
        Assign instructionID.SQSHRN2_vec
    else if case_of opcode [19] then
      if negb Q then
        Assign instructionID.SQRSHRN_vec
      else
        Assign instructionID.SQRSHRN2_vec
    else if case_of opcode [20] then
      if negb Q then
        Assign instructionID.SSHLL_vec
      else
        Assign instructionID.SSHLL2_vec
    else if case_of opcode [28] then
      Assign instructionID.SCVTF_vec_fixed
    else if case_of opcode [31] then
      Assign instructionID.FCVTZS_vec_fixed
    else
      Assign instructionID.INVALID
  else
    if case_of opcode [0] then
      Assign instructionID.USHR_vec
    else if case_of opcode [2] then
      Assign instructionID.USRA_vec
    else if case_of opcode [4] then
      Assign instructionID.URSHR_vec
    else if case_of opcode [6] then
      Assign instructionID.URSRA_vec
    else if case_of opcode [8] then
      Assign instructionID.SRI_vec
    else if case_of opcode [10] then
      Assign instructionID.SLI_vec
    else if case_of opcode [12] then
      Assign instructionID.SQSHLU_vec
    else if case_of opcode [14] then
      Assign instructionID.UQSHL_vec_imm
    else if case_of opcode [16] then
      if negb Q then
        Assign instructionID.SQSHRUN_vec
      else
        Assign instructionID.SQSHRUN2_vec
    else if case_of opcode [17] then
      if negb Q then
        Assign instructionID.SQRSHRUN_vec
      else
        Assign instructionID.SQRSHRUN2_vec
    else if case_of opcode [18] then
      if negb Q then
        Assign instructionID.UQSHRN_vec
      else
        Assign instructionID.UQSHRN2_vec
    else if case_of opcode [19] then
      if negb Q then
        Assign instructionID.UQRSHRN_vec
      else
        Assign instructionID.UQRSHRN2_vec
    else if case_of opcode [20] then
      if negb Q then
        Assign instructionID.USHLL_vec
      else
        Assign instructionID.USHLL2_vec
    else if case_of opcode [28] then
      Assign instructionID.UCVTF_vec_fixed
    else if case_of opcode [31] then
      Assign instructionID.FCVTZU_vec_fixed
    else
      Assign instructionID.INVALID.

Definition decodeSIMDVectorXIndexed (bits : Z) : assignment :=
  let Q := testBit 30 bits in
  let U := testBit 29 bits in
  let size := bitRange 22 23 bits in
  let opcode := bitRange 12 15 bits in
  if negb U then
    if case_of opcode [1] then
      if size >? 1 then
        Assign instructionID.FMLA_vec_element
      else
        Assign instructionID.INVALID
    else if case_of opcode [2] then
      if negb Q then
        Assign instructionID.SMLAL_vec_element
      else
        Assign instructionID.SMLAL2_vec_element
    else if case_of opcode [3] then
      if negb Q then
        Assign instructionID.SQDMLAL_vec_element
      else
        Assign instructionID.SQDMLAL2_vec_element
    else if case_of opcode [5] then
      if size >? 1 then
        Assign instructionID.FMLS_vec_element
      else
        Assign instructionID.INVALID
    else if case_of opcode [6] then
      if negb Q then
        Assign instructionID.SMLSL_vec_element
      else
        Assign instructionID.SMLSL2_vec_element
    else if case_of opcode [7] then
      if negb Q then
        Assign instructionID.SQDMLSL_vec_element
      else
        Assign instructionID.SQDMLSL2_vec_element
    else if case_of opcode [8] then
      Assign instructionID.MUL_vec_element
    else if case_of opcode [9] then
      if size >? 1 then
        Assign instructionID.FMUL_vec_element
      else
        Assign instructionID.INVALID
    else if case_of opcode [10] then
      if negb Q then
        Assign instructionID.SMULL_vec_element
      else
        Assign instructionID.SMULL2_vec_element
    else if case_of opcode [11] then
      if negb Q then
        Assign instructionID.SQDMULL_vec_element
      else
        Assign instructionID.SQDMULL2_vec_element
    else if case_of opcode [12] then
      Assign instructionID.SQDMULH_vec_element
    else if case_of opcode [13] then
      Assign instructionID.SQRDMULH_vec_element
    else
      Assign instructionID.INVALID
  else
    if case_of opcode [0] then
      Assign instructionID.MLA_vec_element
    else if case_of opcode [2] then
      if negb Q then
        Assign instructionID.UMLAL_vec_element
      else
        Assign instructionID.UMLAL2_vec_element
    else if case_of opcode [4] then
      Assign instructionID.MLS_vec_element
    else if case_of opcode [6] then
      if negb Q then
        Assign instructionID.UMLSL_vec_element
      else
        Assign instructionID.UMLSL2_vec_element
    else if case_of opcode [9] then
      if size >? 1 then
        Assign instructionID.FMULX_vec_element
      else
        Assign instructionID.INVALID
    else if case_of opcode [10] then
      if negb Q then
        Assign instructionID.UMULL_vec_element
      else
        Assign instructionID.UMULL2_vec_element
    else
      Assign instructionID.INVALID.

Definition decodeSIMD (bits : Z) : assignment :=
  let op0 := bitRange 28 31 bits in
  let op1 := bitRange 23 24 bits in
  let op2 := bitRange 19 22 bits in
  let op3 := bitRange 17 18 bits in
  let op4 := bitRange 10 15 bits in
  if (op0 =? 4) && (op1 <? 2) && ((Z.land op2 7) =? 5) && (op3 =? 0) &&
      ((Z.land op4 3) =? 2) then
    decodeCryptographicAES bits
  else if (op0 =? 5) && (op1 <? 2) && (negb (testBit 2 op2)) && ((Z.land op4 35) =? 0) then
    decodeCryptographic3Reg bits
  else if (op0 =? 5) && (op1 <? 2) && ((Z.land op2 7) =? 5) && (op3 =? 0) &&
      ((Z.land op4 3) =? 2) then
    decodeCryptographic2Reg bits
  else if ((Z.land op0 13) =? 5) && (op1 =? 0) && (op2 <? 4) && ((Z.land op4 33) =? 1) then
    decodeSIMDScalarCopy bits
  else if ((Z.land op0 13) =? 5) && (op1 <? 2) && ((Z.land op2 7) =? 4) && (op3 =? 0) &&
      ((Z.land op4 3) =? 2) then
    decodeSIMDScalar2Reg bits
  else if ((Z.land op0 13) =? 5) && (op1 <? 2) && ((Z.land op2 7) =? 6) && (op3 =? 0) &&
      ((Z.land op4 3) =? 2) then
    decodeSIMDScalarPairwise bits
  else if ((Z.land op0 13) =? 5) && (op1 <? 2) && ((Z.land op2 4) =? 4) && ((Z.land op4 3) =? 0) then
    decodeSIMDScalar3Different bits
  else if ((Z.land op0 13) =? 5) && (op1 <? 2) && ((Z.land op2 4) =? 4) && ((Z.land op4 1) =? 1) then
    decodeSIMDScalar3Same bits
  else if ((Z.land op0 13) =? 5) && (op1 =? 2) && ((Z.land op4 1) =? 1) then
    decodeSIMDScalarShiftImmediate bits
  else if ((Z.land op0 13) =? 5) && (op1 >? 1) && ((Z.land op4 1) =? 0) then
    decodeSIMDScalarXIndexed bits
  else if ((Z.land op0 11) =? 0) && (op1 <? 2) && ((Z.land op2 4) =? 0) && ((Z.land op4 35) =? 0) then
    decodeSIMDTableLookup bits
  else if ((Z.land op0 11) =? 0) && (op1 <? 2) && ((Z.land op2 4) =? 0) && ((Z.land op4 35) =? 2) then
    decodeSIMDPermute bits
  else if ((Z.land op0 11) =? 2) && (op1 <? 2) && ((Z.land op2 4) =? 0) && ((Z.land op4 33) =? 0) then
    decodeSIMDExtract bits
  else if ((Z.land op0 9) =? 0) && (op1 =? 0) && ((Z.land op2 12) =? 0) && ((Z.land op4 33) =? 1) then
    decodeSIMDCopy bits
  else if ((Z.land op0 9) =? 0) && (op1 <? 2) && ((Z.land op2 7) =? 4) && (op3 =? 0) &&
      ((Z.land op4 3) =? 2) then
    decodeSIMD2Reg bits
  else if ((Z.land op0 9) =? 0) && (op1 <? 2) && ((Z.land op2 7) =? 6) && (op3 =? 0) &&
      ((Z.land op4 3) =? 2) then
    decodeSIMDAcrossLanes bits
  else if ((Z.land op0 9) =? 0) && (op1 <? 2) && ((Z.land op2 4) =? 4) && ((Z.land op4 3) =? 0) then
    decodeSIMD3Different bits
  else if ((Z.land op0 9) =? 0) && (op1 <? 2) && ((Z.land op2 4) =? 4) && ((Z.land op4 1) =? 1) then
    decodeSIMD3Same bits
  else if ((Z.land op0 9) =? 0) && (op1 =? 2) && (op2 =? 0) && ((Z.land op4 1) =? 1) then
    decodeSIMDModifiedImmediate bits
  else if ((Z.land op0 9) =? 0) && (op1 =? 2) && (op2 !=? 0) && ((Z.land op4 1) =? 1) then
    decodeSIMDShiftImmediate bits
  else if ((Z.land op0 9) =? 0) && (op1 >? 1) && ((Z.land op4 1) =? 0) then
    decodeSIMDVectorXIndexed bits
  else
    Assign instructionID.INVALID.
