(* ===== verification/Decode.v ===== *)
(** * The decoder: [libcpu/src/decode/decode.cpp]

    [decode] is a tree of nested switches over fields of the word, [decode2] a
    linear search of the mask/match table.  [decoder::test] runs both on every
    32-bit word and logs the words they disagree on; [DecodeEquiv] proves that
    there is none. *)
From S2P Require Import Prelude BitUtils Instructions DecodeSystem.
From S2P Require Import DecodeDPImm DecodeDPReg DecodeSystem DecodeFloat DecodeLoadStore DecodeSIMD.

Definition decodeSystemOrBranch (bits : Z) : assignment :=
  let op0 := bitRange 29 31 bits in
  let op1 := bitRange 22 25 bits in
  if case_of op0 [2] then
    if op1 <? 8 then
      if (testBit 4 bits) || (testBit 24 bits) then
        Assign instructionID.INVALID
      else
        Assign instructionID.B_cond
    else
      Assign instructionID.INVALID
  else if case_of op0 [6] then
    if op1 >? 7 then
      let opc := bitRange 21 24 bits in
      let op2 := bitRange 16 20 bits in
      let op3 := bitRange 10 15 bits in
      let Rn := bitRange 5 9 bits in
      let op4 := bitRange 0 4 bits in
      if (op2 !=? 31) || (op3 !=? 0) || (op4 !=? 0) then
        Assign instructionID.INVALID
      else
        if case_of opc [0] then
          Assign instructionID.BR
        else if case_of opc [1] then
          Assign instructionID.BLR
        else if case_of opc [2] then
          Assign instructionID.RET
        else if case_of opc [4] then
          if Rn =? 31 then
            Assign instructionID.ERET
          else
            Assign instructionID.INVALID
        else if case_of opc [5] then
          if Rn =? 31 then
            Assign instructionID.DRPS
          else
            Assign instructionID.INVALID
        else if case_of opc [3; 6; 7; 8; 9; 10; 11; 12; 13; 14; 15] then
          Assign instructionID.INVALID
        else
          Unreachable
    else if op1 <? 4 then
      decodeExceptionGenerating bits
    else if op1 =? 4 then
      decodeSystem bits
    else
      Assign instructionID.INVALID
  else if case_of op0 [0; 4] then
    let isLink := testBit 31 bits in
    if isLink then
      Assign instructionID.BL
    else
      Assign instructionID.B
  else if case_of op0 [1; 5] then
    if op1 <? 8 then
      let is64 := testBit 31 bits in
      let negate := testBit 24 bits in
      if is64 then
        if negate then
          Assign instructionID.CBNZ_64
        else
          Assign instructionID.CBZ_64
      else if negate then
        Assign instructionID.CBNZ_32
      else
        Assign instructionID.CBZ_32
    else
      let negate := testBit 24 bits in
      if negate then
        Assign instructionID.TBNZ
      else
        Assign instructionID.TBZ
  else if case_of op0 [3; 7] then
    Assign instructionID.INVALID
  else
    Unreachable.

Definition decodeFloatOrSIMD (bits : Z) : assignment :=
  let op0 := bitRange 28 31 bits in
  if case_of op0 [1; 3; 9; 11] then
    decodeFloat bits
  else if case_of op0 [8; 10; 12; 13; 14; 15] then
    Assign instructionID.INVALID
  else if case_of op0 [0; 2; 4; 5; 6; 7] then
    decodeSIMD bits
  else
    Unreachable.

(** The [switch] of [decode]. *)
Definition decodeOpcode (bits : Z) : assignment :=
  let opcodeType := bitRange 25 28 bits in
  if case_of opcodeType [0; 1; 2; 3] then
    Assign instructionID.INVALID
  else if case_of opcodeType [8; 9] then
    decodeDPImm bits
  else if case_of opcodeType [10; 11] then
    decodeSystemOrBranch bits
  else if case_of opcodeType [4; 6; 12; 14] then
    decodeLoadStore bits
  else if case_of opcodeType [5; 13] then
    decodeDPReg bits
  else if case_of opcodeType [7; 15] then
    decodeFloatOrSIMD bits
  else
    Unreachable.

(** [decode] sets [inst.id] to [INVALID] before it switches. *)
Definition decode (bits : Z) : DecodedInstruction :=
  {| id := assigned instructionID.INVALID (decodeOpcode bits); inst := bits |}.

(** ** The table decoder *)

(** The body of the loop of [decode2], up to the assignment. *)
Definition entry_matches (info : instructionDecodeInfo) (bits : Z) : bool :=
  (Z.land bits (mask info) =? match_ info) &&
  forallb (fun m => Z.land bits m !=? 0) (bitsMustNotAllBeClear info) &&
  forallb (fun m => Z.land bits m !=? m) (bitsMustNotAllBeSet info).

(** The loop visits the whole table, so the last matching entry wins. *)
Definition search (table : list instructionDecodeInfo) (bits : Z) : instructionID.t :=
  fold_left (fun id info => if entry_matches info bits then inst_id info else id)
    table instructionID.INVALID.

Definition decode2 (bits : Z) : DecodedInstruction :=
  {| id := search gInstructionDecodeTable bits; inst := bits |}.

(** ** The encoder: [libcpu/src/encode.cpp]

    [gEncodeInfo] is the [encoding] column of [instructions.inl], with a 0 in
    front for [INVALID]; [encode] is the bounds-checked lookup.  The index of an
    [instructionID] is its position in the list. *)
Definition gEncodeInfo : list Z := map match_ gInstructionDecodeTable.

Definition encode_index (i : Z) : Z :=
  if i >=? Z.of_nat (length gEncodeInfo) then 0
  else nth (Z.to_nat i) gEncodeInfo 0.
