(* ===== verification/DecodeEquiv.v ===== *)
(** * The two decoders agree

    Both decoders are finite decision procedures on 32 bits.  A decision tree
    records the tests of the switch decoder; [check] walks it together with the
    mask/match table over cubes (words some bits of which are known), splitting a
    cube on a bit only when a test depends on it.  [check_sound] turns a
    successful run into a statement about all words: the trees of the decoder functions
    and the check on them show that the switch decoder and the table decoder return the
    same instruction on every 32-bit word. *)
From S2P Require Import Prelude BitUtils Instructions DecodeSystem DecodeDPImm DecodeDPReg DecodeFloat DecodeLoadStore DecodeSIMD.
From S2P Require Import Decode.

(** ** Trees *)

Inductive cond : Type :=
  | Atom (lo hi : Z) (p : Z -> bool)
  | And (c d : cond)
  | Or (c d : cond)
  | Not (c : cond).

Inductive tree : Type :=
  | Leaf (a : assignment)
  | If (c : cond) (yes no : tree).

Fixpoint evalc (c : cond) (w : Z) : bool :=
  match c with
  | Atom lo hi p => p (bitRange lo hi w)
  | And c d => evalc c w && evalc d w
  | Or c d => evalc c w || evalc d w
  | Not c => negb (evalc c w)
  end.

Fixpoint eval (t : tree) (w : Z) : assignment :=
  match t with
  | Leaf a => a
  | If c yes no => if evalc c w then eval yes w else eval no w
  end.

(** Every [Atom] reads a non-empty field. *)
Fixpoint wfc (c : cond) : bool :=
  match c with
  | Atom lo hi _ => (0 <=? lo) && (lo <=? hi)
  | And c d | Or c d => wfc c && wfc d
  | Not c => wfc c
  end.

(** Sequencing of decoder code, on trees. *)
Fixpoint andThen_leaf (a : assignment) (t : tree) : tree :=
  match t with
  | Leaf b => Leaf (andThen a b)
  | If c yes no => If c (andThen_leaf a yes) (andThen_leaf a no)
  end.
Fixpoint andThen_tree (t u : tree) : tree :=
  match t with
  | Leaf a => andThen_leaf a u
  | If c yes no => If c (andThen_tree yes u) (andThen_tree no u)
  end.

(** ** Reification of decoder functions *)

Class Reified (f : Z -> assignment) := {
  rtree : tree;
  rtree_ok : forall w, eval rtree w = f w;
}.
Arguments rtree f {_}.
Arguments rtree_ok f {_}.

Lemma eval_If c t u w b A B :
  evalc c w = b -> eval t w = A -> eval u w = B ->
  eval (If c t u) w = if b then A else B.
Proof. simpl. by intros -> -> ->. Qed.

Lemma eval_andThen_leaf a t w : eval (andThen_leaf a t) w = andThen a (eval t w).
Proof. induction t; simpl; [done|]. by destruct (evalc c w). Qed.

Lemma eval_andThen t u w A B :
  eval t w = A -> eval u w = B -> eval (andThen_tree t u) w = andThen A B.
Proof.
  intros <- <-. induction t; simpl; [apply eval_andThen_leaf|].
  by destruct (evalc c w).
Qed.

Lemma eval_Leaf a w : eval (Leaf a) w = a.
Proof. done. Qed.

Lemma evalc_And c d w a b :
  evalc c w = a -> evalc d w = b -> evalc (And c d) w = a && b.
Proof. simpl. by intros -> ->. Qed.
Lemma evalc_Or c d w a b :
  evalc c w = a -> evalc d w = b -> evalc (Or c d) w = a || b.
Proof. simpl. by intros -> ->. Qed.
Lemma evalc_Not c w a : evalc c w = a -> evalc (Not c) w = negb a.
Proof. simpl. by intros ->. Qed.
Lemma evalc_Atom lo hi p w : evalc (Atom lo hi p) w = p (bitRange lo hi w).
Proof. done. Qed.

Lemma bitRange_bit i w : 0 <= i -> bitRange i i w = if Z.testbit w i then 1 else 0.
Proof.
  intros Hi. rewrite bitRange_div, Z.sub_diag by lia.
  symmetry. rewrite Z.testbit_odd, Z.shiftr_div_pow2, Zmod_odd by lia. done.
Qed.

Lemma evalc_testBit i w :
  0 <= i -> evalc (Atom i i (fun v => v =? 1)) w = testBit i w.
Proof.
  intros Hi. simpl. rewrite bitRange_bit, testBit_spec by done.
  by destruct (Z.testbit w i).
Qed.

(** Equality of two one-bit fields. *)
Lemma evalc_eqBits i j w :
  0 <= i -> 0 <= j ->
  evalc (Or (And (Atom i i (Z.eqb 1)) (Atom j j (Z.eqb 1)))
            (And (Atom i i (Z.eqb 0)) (Atom j j (Z.eqb 0)))) w
  = (bitRange i i w =? bitRange j j w).
Proof.
  intros Hi Hj. simpl. rewrite !bitRange_bit by done.
  by destruct (Z.testbit w i), (Z.testbit w j).
Qed.

Ltac reify_atom :=
  match goal with
  | |- evalc _ ?w = (bitRange ?i ?i ?w =? bitRange ?j ?j ?w) =>
      apply (evalc_eqBits i j w); lia
  | |- evalc _ ?w = testBit ?i ?w => apply (evalc_testBit i w); lia
  | |- evalc _ ?w = ?c =>
      match c with
      | context [bitRange ?lo ?hi w] =>
          let f := eval pattern (bitRange lo hi w) in c in
          match f with ?p _ => exact (evalc_Atom lo hi p w) end
      end
  end.

Ltac reify_cond :=
  lazymatch goal with
  | |- evalc _ _ = _ && _ => eapply evalc_And; reify_cond
  | |- evalc _ _ = _ || _ => eapply evalc_Or; reify_cond
  | |- evalc _ _ = negb _ => eapply evalc_Not; reify_cond
  | |- _ => reify_atom
  end.

Ltac reify_tree :=
  lazymatch goal with
  | |- eval _ _ = (if _ then _ else _) =>
      eapply eval_If; [reify_cond | reify_tree | reify_tree]
  | |- eval _ _ = andThen _ _ => eapply eval_andThen; reify_tree
  | |- eval _ ?w = ?f ?w => exact (rtree_ok f w)
  | |- eval _ ?w = _ => exact (eval_Leaf _ w)
  end.

(** [reify f]: build the tree of the decoder function [f]. *)
Ltac reify f :=
  unshelve eapply Build_Reified; [| let w := fresh "w" in
    intros w; unfold f; cbv zeta; reify_tree].

(** ** Cubes *)

(** [in_cube k v w]: the bits of [w] under the mask [k] are those of [v]. *)
Definition in_cube (k v w : Z) : Prop := Z.land w k = v.

(** A test on a cube: decided, or dependent on a bit. *)
Inductive tri : Type := Yes | No | Ask (bit : Z).

(** The values of an [n]-bit field with the bits under [k] known to be [v]. *)
Fixpoint completions (n : nat) (k v : Z) : list Z :=
  match n with
  | O => [0]
  | S n =>
      let rest := completions n (Z.div2 k) (Z.div2 v) in
      if Z.odd k then map (fun r => 2 * r + Z.b2z (Z.odd v)) rest
      else map (fun r => 2 * r) rest ++ map (fun r => 2 * r + 1) rest
  end.

Definition tri_atom (lo hi : Z) (p : Z -> bool) (k v : Z) : tri :=
  let kf := bitRange lo hi k in
  let vals := map p (completions (Z.to_nat (hi - lo + 1)) kf (bitRange lo hi v)) in
  if forallb (fun b => b) vals then Yes
  else if forallb negb vals then No
  else Ask (lo + Z.log2 (Z.lxor kf (bitmask (hi - lo + 1)))).

Fixpoint tri_cond (c : cond) (k v : Z) : tri :=
  match c with
  | Atom lo hi p => tri_atom lo hi p k v
  | And c d => match tri_cond c k v with Yes => tri_cond d k v | r => r end
  | Or c d => match tri_cond c k v with No => tri_cond d k v | r => r end
  | Not c => match tri_cond c k v with Yes => No | No => Yes | r => r end
  end.

(** ** Table entries on a cube *)

Fixpoint tri_clear (ms : list Z) (k v : Z) : tri :=
  match ms with
  | [] => Yes
  | m :: ms =>
      if Z.land v m !=? 0 then tri_clear ms k v
      else if Z.ldiff m k =? 0 then No
      else Ask (Z.log2 (Z.ldiff m k))
  end.

Fixpoint tri_set (ms : list Z) (k v : Z) : tri :=
  match ms with
  | [] => Yes
  | m :: ms =>
      if Z.land (Z.ldiff k v) m !=? 0 then tri_set ms k v
      else if Z.ldiff m k =? 0 then No
      else Ask (Z.log2 (Z.ldiff m k))
  end.

Definition tri_entry (e : instructionDecodeInfo) (k v : Z) : tri :=
  if Z.ldiff (match_ e) (mask e) !=? 0 then No
  else if Z.land (Z.lxor v (match_ e)) (Z.land k (mask e)) !=? 0 then No
  else if Z.ldiff (mask e) k !=? 0 then Ask (Z.log2 (Z.ldiff (mask e) k))
  else match tri_clear (bitsMustNotAllBeClear e) k v with
       | Yes => tri_set (bitsMustNotAllBeSet e) k v
       | r => r
       end.

(** The last matching entry, from a table in reverse order. *)
Inductive resolution : Type := Found (i : instructionID.t) | AskFor (bit : Z).

Fixpoint resolve (rtable : list instructionDecodeInfo) (k v : Z) : resolution :=
  match rtable with
  | [] => Found instructionID.INVALID
  | e :: rtable =>
      match tri_entry e k v with
      | Yes => Found (inst_id e)
      | No => resolve rtable k v
      | Ask b => AskFor b
      end
  end.

(** Entries a word whose bit [b] is [x] can still match. *)
Definition compatible (b : Z) (x : bool) (e : instructionDecodeInfo) : bool :=
  negb (Z.testbit (mask e) b) || eqb (Z.testbit (match_ e) b) x.

(** ** The checker *)

(** [check fuel k v t rtable]: on every word of the cube, the tree assigns the
    identifier of the last matching entry. *)
Fixpoint check (fuel : nat) (k v : Z) (t : tree)
    (rtable : list instructionDecodeInfo) : bool :=
  match fuel with
  | O => false
  | S fuel =>
      let split b :=
        check fuel (Z.lor k (2 ^ b)) v t (List.filter (compatible b false) rtable) &&
        check fuel (Z.lor k (2 ^ b)) (Z.lor v (2 ^ b)) t
          (List.filter (compatible b true) rtable) in
      match t with
      | If c yes no =>
          match tri_cond c k v with
          | Yes => check fuel k v yes rtable
          | No => check fuel k v no rtable
          | Ask b => split b
          end
      | Leaf (Assign i) =>
          match resolve rtable k v with
          | Found j => instructionID.eqb i j
          | AskFor b => split b
          end
      | Leaf _ => false
      end
  end.

Fixpoint wf (t : tree) : bool :=
  match t with
  | Leaf _ => true
  | If c yes no => wfc c && wf yes && wf no
  end.

(** ** Soundness *)

(** [bits_at i]: read every integer equation of the context at bit [i]. *)
Ltac bits_at i :=
  repeat match goal with
  | H : @eq Z ?a ?b |- _ =>
      apply (f_equal (fun z => Z.testbit z i)) in H; cbv beta in H;
      autorewrite with testbit in H
  end.
Ltac by_bits :=
  let i := fresh "i" in
  apply Z.bits_inj'; intros i ?; bits_at i; autorewrite with testbit;
  repeat match goal with
  | |- context [Z.testbit ?z i] => destruct (Z.testbit z i)
  | H : context [Z.testbit ?z i] |- _ => destruct (Z.testbit z i)
  end; simpl in *; congruence.

Lemma in_cube_split k v w b :
  in_cube k v w ->
  in_cube (Z.lor k (2 ^ b)) (if Z.testbit w b then Z.lor v (2 ^ b) else v) w.
Proof.
  unfold in_cube. intros <-. rewrite Z.land_lor_distr_r.
  destruct (Z.le_gt_cases 0 b) as [Hb|Hb].
  - destruct (Z.testbit w b) eqn:E; [f_equal|rewrite <-(Z.lor_0_r (Z.land w k)) at 2; f_equal];
      apply Z.bits_inj'; intros i Hi;
      rewrite Z.land_spec, Z.pow2_bits_eqb, ?Z.bits_0 by lia;
      destruct (Z.eqb_spec b i) as [<-|]; by rewrite ?E, ?andb_false_r.
  - rewrite Z.pow_neg_r, Z.land_0_r, !Z.lor_0_r by lia.
    by destruct (Z.testbit w b).
Qed.

Lemma completions_complete n : forall k v f,
  uint (Z.of_nat n) f -> Z.land f k = v -> In f (completions n k v).
Proof.
  induction n as [|n IH]; intros k v f [H0 H1] Hv.
  - change (2 ^ Z.of_nat 0) with 1 in H1. left. lia.
  - assert (2 ^ Z.of_nat (S n) = 2 * 2 ^ Z.of_nat n) as Hp
      by (rewrite Nat2Z.inj_succ, Z.pow_succ_r; lia).
    assert (In (Z.div2 f) (completions n (Z.div2 k) (Z.div2 v))) as Hin.
    { apply IH.
      - unfold uint. rewrite Z.div2_div. split; [apply Z.div_pos; lia|].
        apply Z.div_lt_upper_bound; lia.
      - rewrite <-Hv, !Z.div2_spec. symmetry. apply Z.shiftr_land. }
    pose proof (Z.div2_odd f) as Hf. simpl.
    destruct (Z.odd k) eqn:Ek.
    + apply in_map_iff. exists (Z.div2 f). split; [|done].
      rewrite Hf at 2. do 2 f_equal. rewrite <-Hv, <-!Z.bit0_odd, Z.land_spec in *.
      by rewrite Ek, andb_true_r.
    + apply in_or_app. rewrite Hf. destruct (Z.odd f); simpl Z.b2z; [right|left];
        apply in_map_iff; exists (Z.div2 f); split; (done || lia).
Qed.

Lemma tri_atom_sound lo hi p k v w :
  0 <= lo <= hi -> in_cube k v w ->
  match tri_atom lo hi p k v with
  | Yes => p (bitRange lo hi w) = true
  | No => p (bitRange lo hi w) = false
  | Ask _ => True
  end.
Proof.
  intros Hlo Hc. unfold tri_atom.
  assert (In (p (bitRange lo hi w)) (map p (completions (Z.to_nat (hi - lo + 1))
    (bitRange lo hi k) (bitRange lo hi v)))) as Hin.
  { apply in_map, completions_complete.
    - rewrite Z2Nat.id by lia. by apply bitRange_uint.
    - rewrite <-Hc. apply Z.bits_inj'. intros i Hi.
      rewrite Z.land_spec, !testbit_bitRange, Z.land_spec by lia.
      by destruct (i <=? hi - lo), (Z.testbit w (lo + i)). }
  revert Hin. generalize (map p (completions (Z.to_nat (hi - lo + 1))
    (bitRange lo hi k) (bitRange lo hi v))). intros vals Hin.
  destruct (forallb (fun b => b) vals) eqn:Ey.
  { exact (proj1 (forallb_forall _ _) Ey _ Hin). }
  destruct (forallb negb vals) eqn:En; [|done].
  apply negb_true_iff. exact (proj1 (forallb_forall _ _) En _ Hin).
Qed.

Lemma tri_cond_sound c k v w :
  wfc c = true -> in_cube k v w ->
  match tri_cond c k v with
  | Yes => evalc c w = true
  | No => evalc c w = false
  | Ask _ => True
  end.
Proof.
  intros Hwf Hc. induction c as [lo hi p|c IHc d IHd|c IHc d IHd|c IHc]; simpl in *.
  - apply andb_true_iff in Hwf as [?%Z.leb_le ?%Z.leb_le].
    apply tri_atom_sound; [lia|done].
  - apply andb_true_iff in Hwf as [Hwc Hwd].
    specialize (IHc Hwc). specialize (IHd Hwd).
    destruct (tri_cond c k v); rewrite ?IHc; simpl; done.
  - apply andb_true_iff in Hwf as [Hwc Hwd].
    specialize (IHc Hwc). specialize (IHd Hwd).
    destruct (tri_cond c k v); rewrite ?IHc; simpl; done.
  - specialize (IHc Hwf). destruct (tri_cond c k v); rewrite ?IHc; done.
Qed.

Lemma tri_clear_sound ms k v w :
  in_cube k v w ->
  match tri_clear ms k v with
  | Yes => forallb (fun m => Z.land w m !=? 0) ms = true
  | No => forallb (fun m => Z.land w m !=? 0) ms = false
  | Ask _ => True
  end.
Proof.
  unfold in_cube. intros Hc. induction ms as [|m ms IH]; simpl; [done|].
  destruct (Z.eqb_spec (Z.land v m) 0) as [Hv|Hv]; simpl.
  - destruct (Z.eqb_spec (Z.ldiff m k) 0) as [Hm|]; simpl; [|done].
    assert (Z.land w m = 0) as -> by by_bits. done.
  - destruct (Z.eqb_spec (Z.land w m) 0); simpl; [|done].
    destruct Hv. by_bits.
Qed.

Lemma tri_set_sound ms k v w :
  in_cube k v w ->
  match tri_set ms k v with
  | Yes => forallb (fun m => Z.land w m !=? m) ms = true
  | No => forallb (fun m => Z.land w m !=? m) ms = false
  | Ask _ => True
  end.
Proof.
  unfold in_cube. intros Hc. induction ms as [|m ms IH]; simpl; [done|].
  destruct (Z.eqb_spec (Z.land (Z.ldiff k v) m) 0) as [Hv|Hv]; simpl.
  - destruct (Z.eqb_spec (Z.ldiff m k) 0) as [Hm|]; simpl; [|done].
    assert (Z.land w m = m) as -> by by_bits. by rewrite Z.eqb_refl.
  - destruct (Z.eqb_spec (Z.land w m) m); simpl; [|done].
    destruct Hv. by_bits.
Qed.

Lemma tri_entry_sound e k v w :
  in_cube k v w ->
  match tri_entry e k v with
  | Yes => entry_matches e w = true
  | No => entry_matches e w = false
  | Ask _ => True
  end.
Proof.
  intros Hc. unfold tri_entry, entry_matches.
  pose proof (tri_clear_sound (bitsMustNotAllBeClear e) k v w Hc) as Hcl.
  pose proof (tri_set_sound (bitsMustNotAllBeSet e) k v w Hc) as Hset.
  generalize dependent (mask e). generalize dependent (match_ e). intros m M.
  unfold in_cube in Hc.
  destruct (Z.eqb_spec (Z.ldiff m M) 0) as [Hsub|Hsub]; simpl;
    [|destruct (Z.eqb_spec (Z.land w M) m); [destruct Hsub; by_bits|done]].
  destruct (Z.eqb_spec (Z.land (Z.lxor v m) (Z.land k M)) 0) as [Hx|Hx]; simpl;
    [|destruct (Z.eqb_spec (Z.land w M) m); [destruct Hx; by_bits|done]].
  destruct (Z.eqb_spec (Z.ldiff M k) 0) as [HM|]; simpl; [|done].
  assert (Z.land w M = m) as -> by by_bits. rewrite Z.eqb_refl. simpl.
  destruct (tri_clear _ _ _); rewrite ?Hcl; simpl; done.
Qed.

Lemma search_rev_cons e l w :
  search (rev (e :: l)) w =
  if entry_matches e w then inst_id e else search (rev l) w.
Proof. unfold search. simpl. by rewrite fold_left_app. Qed.

Lemma resolve_sound l k v w :
  in_cube k v w ->
  match resolve l k v with
  | Found j => search (rev l) w = j
  | AskFor _ => True
  end.
Proof.
  intros Hc. induction l as [|e l IH]; [done|].
  simpl resolve. pose proof (tri_entry_sound e k v w Hc) as He.
  destruct (tri_entry e k v); [|destruct (resolve l k v)|]; cbv iota beta; try done;
    by rewrite search_rev_cons, He.
Qed.

Lemma incompatible b e w :
  compatible b (Z.testbit w b) e = false -> entry_matches e w = false.
Proof.
  unfold compatible, entry_matches. intros H.
  apply orb_false_iff in H as [Hm%negb_false_iff Hx].
  destruct (Z.eqb_spec (Z.land w (mask e)) (match_ e)) as [E|]; [|done].
  by rewrite <-E, Z.land_spec, Hm, andb_true_r, eqb_reflx in Hx.
Qed.

Lemma search_filter b l w :
  search (rev (List.filter (compatible b (Z.testbit w b)) l)) w = search (rev l) w.
Proof.
  induction l as [|e l IH]; [done|]. simpl List.filter.
  destruct (compatible b (Z.testbit w b) e) eqn:E.
  - by rewrite !search_rev_cons, IH.
  - by rewrite search_rev_cons, (incompatible b e w E).
Qed.

Lemma check_sound fuel : forall k v t l w,
  check fuel k v t l = true -> wf t = true -> in_cube k v w ->
  eval t w = Assign (search (rev l) w).
Proof.
  induction fuel as [|fuel IH]; intros k v t l w Hchk Hwf Hc; [done|].
  assert (forall b,
    check fuel (Z.lor k (2 ^ b)) v t (List.filter (compatible b false) l) &&
    check fuel (Z.lor k (2 ^ b)) (Z.lor v (2 ^ b)) t
      (List.filter (compatible b true) l) = true ->
    eval t w = Assign (search (rev l) w)) as Hsplit.
  { intros b [Hf Ht]%andb_true_iff. rewrite <-(search_filter b l w).
    pose proof (in_cube_split k v w b Hc) as Hs.
    destruct (Z.testbit w b); eapply IH; eauto. }
  simpl in Hchk. destruct t as [a|c yes no].
  - destruct a as [|i|]; [done| |done].
    pose proof (resolve_sound l k v w Hc) as Hr.
    destruct (resolve l k v) as [j|b]; [|by apply (Hsplit b)].
    apply eqb_true in Hchk as ->. simpl. by rewrite Hr.
  - simpl in Hwf. apply andb_true_iff in Hwf as [[Hwc Hwy]%andb_true_iff Hwn].
    pose proof (tri_cond_sound c k v w Hwc Hc) as Hcond. simpl.
    destruct (tri_cond c k v) as [| |b];
      [rewrite Hcond; by eapply IH|rewrite Hcond; by eapply IH|].
    by apply (Hsplit b).
Qed.

(** The form the decoder theorem uses: a successful check of the whole space. *)
Lemma check_all fuel t table (w : Z) :
  check fuel 0 0 t (rev table) = true -> wf t = true ->
  eval t w = Assign (search table w).
Proof.
  intros Hchk Hwf. rewrite <-(rev_involutive table) at 1.
  eapply check_sound; [done|done|]. unfold in_cube. by rewrite Z.land_0_r.
Qed.

(** * The decision trees of the decoder functions *)

(** [decodeDPImm.cpp] *)
#[export] Instance decodePCRel_tree : Reified decodePCRel := ltac:(reify decodePCRel).
#[export] Instance decodeAddSubImm_tree : Reified decodeAddSubImm := ltac:(reify decodeAddSubImm).
#[export] Instance decodeLogicalImm_tree : Reified decodeLogicalImm := ltac:(reify decodeLogicalImm).
#[export] Instance decodeMoveWide_tree : Reified decodeMoveWide := ltac:(reify decodeMoveWide).
#[export] Instance decodeBitfield_tree : Reified decodeBitfield := ltac:(reify decodeBitfield).
#[export] Instance decodeExtract_tree : Reified decodeExtract := ltac:(reify decodeExtract).
#[export] Instance decodeDPImm_tree : Reified decodeDPImm := ltac:(reify decodeDPImm).

(** [decodeDPReg.cpp] *)
#[export] Instance decodeDP2Source_tree : Reified decodeDP2Source := ltac:(reify decodeDP2Source).
#[export] Instance decodeDP1Source_tree : Reified decodeDP1Source := ltac:(reify decodeDP1Source).
#[export] Instance decodeLogicalReg_tree : Reified decodeLogicalReg := ltac:(reify decodeLogicalReg).
#[export] Instance decodeAddSubShifted_tree : Reified decodeAddSubShifted := ltac:(reify decodeAddSubShifted).
#[export] Instance decodeAddSubExtended_tree : Reified decodeAddSubExtended := ltac:(reify decodeAddSubExtended).
#[export] Instance decodeAddSubCarry_tree : Reified decodeAddSubCarry := ltac:(reify decodeAddSubCarry).
#[export] Instance decodeCondCmpReg_tree : Reified decodeCondCmpReg := ltac:(reify decodeCondCmpReg).
#[export] Instance decodeCondCmpImm_tree : Reified decodeCondCmpImm := ltac:(reify decodeCondCmpImm).
#[export] Instance decodeCondSel_tree : Reified decodeCondSel := ltac:(reify decodeCondSel).
#[export] Instance decodeDP3Source_tree : Reified decodeDP3Source := ltac:(reify decodeDP3Source).
#[export] Instance decodeDPReg_tree : Reified decodeDPReg := ltac:(reify decodeDPReg).

(** [decodeSystem.cpp] *)
#[export] Instance decodeSystem_tree : Reified decodeSystem := ltac:(reify decodeSystem).
#[export] Instance decodeExceptionGenerating_tree : Reified decodeExceptionGenerating := ltac:(reify decodeExceptionGenerating).

(** [decodeFloat.cpp] *)
#[export] Instance decodeConvertFloatAndFixed_tree : Reified decodeConvertFloatAndFixed := ltac:(reify decodeConvertFloatAndFixed).
#[export] Instance decodeConvertFloatAndInt_tree : Reified decodeConvertFloatAndInt := ltac:(reify decodeConvertFloatAndInt).
#[export] Instance decodeFloatDP1Source_tree : Reified decodeFloatDP1Source := ltac:(reify decodeFloatDP1Source).
#[export] Instance decodeFloatCmp_tree : Reified decodeFloatCmp := ltac:(reify decodeFloatCmp).
#[export] Instance decodeFloatImm_tree : Reified decodeFloatImm := ltac:(reify decodeFloatImm).
#[export] Instance decodeFloatCondCmp_tree : Reified decodeFloatCondCmp := ltac:(reify decodeFloatCondCmp).
#[export] Instance decodeFloatDP2Source_tree : Reified decodeFloatDP2Source := ltac:(reify decodeFloatDP2Source).
#[export] Instance decodeFloatCondSel_tree : Reified decodeFloatCondSel := ltac:(reify decodeFloatCondSel).
#[export] Instance decodeFloatDP3Source_tree : Reified decodeFloatDP3Source := ltac:(reify decodeFloatDP3Source).
#[export] Instance decodeFloat_tree : Reified decodeFloat := ltac:(reify decodeFloat).

(** [decodeLoadStore.cpp] *)
#[export] Instance decodeLoadStoreSIMDMultipleStructs_tree : Reified decodeLoadStoreSIMDMultipleStructs := ltac:(reify decodeLoadStoreSIMDMultipleStructs).
#[export] Instance decodeLoadStoreSIMDMultipleStructsPostIndex_tree : Reified decodeLoadStoreSIMDMultipleStructsPostIndex := ltac:(reify decodeLoadStoreSIMDMultipleStructsPostIndex).
#[export] Instance decodeLoadStoreSIMDSingleStruct_tree : Reified decodeLoadStoreSIMDSingleStruct := ltac:(reify decodeLoadStoreSIMDSingleStruct).
#[export] Instance decodeLoadStoreSIMDSingleStructPostIndex_tree : Reified decodeLoadStoreSIMDSingleStructPostIndex := ltac:(reify decodeLoadStoreSIMDSingleStructPostIndex).
#[export] Instance decodeLoadStoreExclusive_tree : Reified decodeLoadStoreExclusive := ltac:(reify decodeLoadStoreExclusive).
#[export] Instance decodeLoadStoreUnprivileged_tree : Reified decodeLoadStoreUnprivileged := ltac:(reify decodeLoadStoreUnprivileged).
#[export] Instance decodeLoadStoreRegUnsignedImm_tree : Reified decodeLoadStoreRegUnsignedImm := ltac:(reify decodeLoadStoreRegUnsignedImm).
#[export] Instance decodeLoadStoreRegImmPostIndex_tree : Reified decodeLoadStoreRegImmPostIndex := ltac:(reify decodeLoadStoreRegImmPostIndex).
#[export] Instance decodeLoadStoreRegImmPreIndex_tree : Reified decodeLoadStoreRegImmPreIndex := ltac:(reify decodeLoadStoreRegImmPreIndex).
#[export] Instance decodeLoadStoreRegUnscaled_tree : Reified decodeLoadStoreRegUnscaled := ltac:(reify decodeLoadStoreRegUnscaled).
#[export] Instance decodeLoadStorePair_tree : Reified decodeLoadStorePair := ltac:(reify decodeLoadStorePair).
#[export] Instance decodeLoadStoreRegOff_tree : Reified decodeLoadStoreRegOff := ltac:(reify decodeLoadStoreRegOff).
#[export] Instance decodeLoadRegLiteral_tree : Reified decodeLoadRegLiteral := ltac:(reify decodeLoadRegLiteral).
#[export] Instance decodeLoadStore_tree : Reified decodeLoadStore := ltac:(reify decodeLoadStore).

(** [decodeSIMD.cpp] *)
#[export] Instance decodeCryptographicAES_tree : Reified decodeCryptographicAES := ltac:(reify decodeCryptographicAES).
#[export] Instance decodeCryptographic3Reg_tree : Reified decodeCryptographic3Reg := ltac:(reify decodeCryptographic3Reg).
#[export] Instance decodeCryptographic2Reg_tree : Reified decodeCryptographic2Reg := ltac:(reify decodeCryptographic2Reg).
#[export] Instance decodeSIMDScalarCopy_tree : Reified decodeSIMDScalarCopy := ltac:(reify decodeSIMDScalarCopy).
#[export] Instance decodeSIMDScalar2Reg_tree : Reified decodeSIMDScalar2Reg := ltac:(reify decodeSIMDScalar2Reg).
#[export] Instance decodeSIMDScalarPairwise_tree : Reified decodeSIMDScalarPairwise := ltac:(reify decodeSIMDScalarPairwise).
#[export] Instance decodeSIMDScalar3Different_tree : Reified decodeSIMDScalar3Different := ltac:(reify decodeSIMDScalar3Different).
#[export] Instance decodeSIMDScalar3Same_tree : Reified decodeSIMDScalar3Same := ltac:(reify decodeSIMDScalar3Same).
#[export] Instance decodeSIMDScalarShiftImmediate_tree : Reified decodeSIMDScalarShiftImmediate := ltac:(reify decodeSIMDScalarShiftImmediate).
#[export] Instance decodeSIMDScalarXIndexed_tree : Reified decodeSIMDScalarXIndexed := ltac:(reify decodeSIMDScalarXIndexed).
#[export] Instance decodeSIMDTableLookup_tree : Reified decodeSIMDTableLookup := ltac:(reify decodeSIMDTableLookup).
#[export] Instance decodeSIMDPermute_tree : Reified decodeSIMDPermute := ltac:(reify decodeSIMDPermute).
#[export] Instance decodeSIMDExtract_tree : Reified decodeSIMDExtract := ltac:(reify decodeSIMDExtract).
#[export] Instance decodeSIMDCopy_tree : Reified decodeSIMDCopy := ltac:(reify decodeSIMDCopy).
#[export] Instance decodeSIMD2Reg_tree : Reified decodeSIMD2Reg := ltac:(reify decodeSIMD2Reg).
#[export] Instance decodeSIMDAcrossLanes_tree : Reified decodeSIMDAcrossLanes := ltac:(reify decodeSIMDAcrossLanes).
#[export] Instance decodeSIMD3Different_tree : Reified decodeSIMD3Different := ltac:(reify decodeSIMD3Different).
#[export] Instance decodeSIMD3Same_tree : Reified decodeSIMD3Same := ltac:(reify decodeSIMD3Same).
#[export] Instance decodeSIMDModifiedImmediate_tree : Reified decodeSIMDModifiedImmediate := ltac:(reify decodeSIMDModifiedImmediate).
#[export] Instance decodeSIMDShiftImmediate_tree : Reified decodeSIMDShiftImmediate := ltac:(reify decodeSIMDShiftImmediate).
#[export] Instance decodeSIMDVectorXIndexed_tree : Reified decodeSIMDVectorXIndexed := ltac:(reify decodeSIMDVectorXIndexed).
#[export] Instance decodeSIMD_tree : Reified decodeSIMD := ltac:(reify decodeSIMD).

(** [decode.cpp] *)
#[export] Instance decodeSystemOrBranch_tree : Reified decodeSystemOrBranch := ltac:(reify decodeSystemOrBranch).
#[export] Instance decodeFloatOrSIMD_tree : Reified decodeFloatOrSIMD := ltac:(reify decodeFloatOrSIMD).
#[export] Instance decodeOpcode_tree : Reified decodeOpcode := ltac:(reify decodeOpcode).

(** * The equivalence *)

(** ** Helper lemmas *)

Lemma decodeOpcode_wf : wf (rtree decodeOpcode) = true.
Proof. vm_compute. reflexivity. Qed.

Lemma decodeOpcode_checked :
  check 400 0 0 (rtree decodeOpcode) (rev gInstructionDecodeTable) = true.
Proof. vm_compute. reflexivity. Qed.

Lemma decodeOpcode_search (bits : Z) :
  decodeOpcode bits = Assign (search gInstructionDecodeTable bits).
Proof.
  rewrite <-(rtree_ok decodeOpcode).
  exact (check_all 400 (rtree decodeOpcode) gInstructionDecodeTable bits
           decodeOpcode_checked decodeOpcode_wf).
Qed.

Lemma decode_search (bits : Z) :
  id (decode bits) = search gInstructionDecodeTable bits.
Proof.
  unfold decode. cbn [id]. rewrite decodeOpcode_search. reflexivity.
Qed.

Lemma search_app_no_match l1 l2 bits :
  Forall (fun e => entry_matches e bits = false) l2 ->
  search (l1 ++ l2) bits = search l1 bits.
Proof.
  intros Hl. unfold search. rewrite fold_left_app.
  generalize (fold_left (fun id info => if entry_matches info bits
    then inst_id info else id) l1 instructionID.INVALID).
  induction Hl as [|e l2 He _ IH]; intros i; simpl; [done|]. by rewrite He.
Qed.

Lemma search_last l1 e l2 bits :
  entry_matches e bits = true ->
  Forall (fun e => entry_matches e bits = false) l2 ->
  search (l1 ++ e :: l2) bits = inst_id e.
Proof.
  intros He Hl. change (e :: l2) with ([e] ++ l2). rewrite app_assoc.
  rewrite search_app_no_match by done. unfold search.
  rewrite fold_left_app. simpl. by rewrite He.
Qed.

(** The search splits the table at the last matching entry, if there is one. *)
Lemma search_cases table bits :
  (Forall (fun e => entry_matches e bits = false) table /\
   search table bits = instructionID.INVALID) \/
  (exists l1 e l2, table = l1 ++ e :: l2 /\ entry_matches e bits = true /\
   Forall (fun e => entry_matches e bits = false) l2 /\
   search table bits = inst_id e).
Proof.
  induction table as [|e table IH] using rev_ind; [by left|].
  destruct (entry_matches e bits) eqn:E.
  - right. exists table, e, []. repeat split; [done|constructor|].
    by rewrite search_last.
  - rewrite search_app_no_match by (by constructor).
    destruct IH as [[H1 H2]|(l1 & e' & l2 & -> & H1 & H2 & H3)].
    + left. split; [|done]. apply Forall_app. by split; [|constructor].
    + right. exists l1, e', (l2 ++ [e]). rewrite <-app_assoc.
      repeat split; [done| |done]. apply Forall_app. by split; [|constructor].
Qed.

Lemma instruction_in_table (i : instructionID.t) :
  In i (map inst_id gInstructionDecodeTable).
Proof.
  rewrite <-(instruction_at_index i). unfold instruction_at.
  destruct (nth_in_or_default (Z.to_nat (instructionID.index i))
    (map inst_id gInstructionDecodeTable) instructionID.INVALID) as [H| ->];
    [exact H|left; reflexivity].
Qed.

(** ** Properties *)

(** C1: the two decoders return the same instruction on every word, which is what
    [decoder::test] checks by enumerating the words. *)
Theorem decode_eq_decode2 (bits : Z) : decode bits = decode2 bits.
Proof.
  unfold decode, decode2. rewrite decodeOpcode_search. reflexivity.
Qed.

(** C12: the switches are exhaustive: on every word some branch assigns [inst.id],
    and no [UNREACHABLE] is executed in any decoder function. *)
Theorem decode_total (bits : Z) :
  exists i, decodeOpcode bits = Assign i.
Proof. eexists. apply decodeOpcode_search. Qed.

(** functional characterisation: [decode] returns an instruction other than
    [INVALID] exactly when the word has that instruction's pattern (mask, match
    and side conditions) and no later pattern of [instructions.inl]. *)
Theorem decode_iff_pattern (bits : Z) (i : instructionID.t) :
  i <> instructionID.INVALID ->
  id (decode bits) = i <->
  exists l1 e l2, gInstructionDecodeTable = l1 ++ e :: l2 /\ inst_id e = i /\
    entry_matches e bits = true /\
    Forall (fun e => entry_matches e bits = false) l2.
Proof.
  intros Hi. rewrite decode_search. split.
  - intros <-. destruct (search_cases gInstructionDecodeTable bits)
      as [[_ H]|(l1 & e & l2 & H1 & H2 & H3 & H4)]; [congruence|].
    by exists l1, e, l2.
  - intros (l1 & e & l2 & -> & <- & He & Hl). by apply search_last.
Qed.

Lemma decode_iff_pattern_witness :
  instructionID.RET <> instructionID.INVALID /\
  (id (decode 0xD65F03C0) = instructionID.RET <->
   exists l1 e l2, gInstructionDecodeTable = l1 ++ e :: l2 /\
     inst_id e = instructionID.RET /\ entry_matches e 0xD65F03C0 = true /\
     Forall (fun e => entry_matches e 0xD65F03C0 = false) l2).
Proof.
  split; [discriminate|].
  apply (decode_iff_pattern 0xD65F03C0 instructionID.RET). discriminate.
Defined.


