(* ===== verification/Core.v ===== *)
(** * Core state and instruction fields: [libcpu/inc/cpu.h], [common/inc/types.h],
    [libcpu/inc/instruction.h]

    The state of one emulated core with one setter per member, the register-file
    accesses the handlers make, and the bit fields of the union [AArch64Inst]. *)
From S2P Require Import Prelude BitUtils.

(** ** The instruction word: one view per [FLD] of [AArch64Inst] *)

Module Inst.
Definition cond (bits : Z) : Z := bitRange 0 3 bits.
Definition cond_comp (bits : Z) : Z := bitRange 12 15 bits.
Definition _0_25 (bits : Z) : Z := bitRange 0 25 bits.
Definition _5_11 (bits : Z) : Z := bitRange 5 11 bits.
Definition _5_18 (bits : Z) : Z := bitRange 5 18 bits.
Definition _5_20 (bits : Z) : Z := bitRange 5 20 bits.
Definition _5_23 (bits : Z) : Z := bitRange 5 23 bits.
Definition _8_11 (bits : Z) : Z := bitRange 8 11 bits.
Definition _10_12 (bits : Z) : Z := bitRange 10 12 bits.
Definition _10_15 (bits : Z) : Z := bitRange 10 15 bits.
Definition _10_21 (bits : Z) : Z := bitRange 10 21 bits.
Definition _12_20 (bits : Z) : Z := bitRange 12 20 bits.
Definition _13_20 (bits : Z) : Z := bitRange 13 20 bits.
Definition _15_21 (bits : Z) : Z := bitRange 15 21 bits.
Definition _16_20 (bits : Z) : Z := bitRange 16 20 bits.
Definition _22_23 (bits : Z) : Z := bitRange 22 23 bits.
Definition o0 (bits : Z) : Z := bitRange 19 19 bits.
Definition op1 (bits : Z) : Z := bitRange 16 18 bits.
Definition CRn (bits : Z) : Z := bitRange 12 15 bits.
Definition CRm (bits : Z) : Z := bitRange 8 11 bits.
Definition op2 (bits : Z) : Z := bitRange 5 7 bits.
Definition option (bits : Z) : Z := bitRange 13 15 bits.
Definition hw (bits : Z) : Z := bitRange 21 22 bits.
Definition opc (bits : Z) : Z := bitRange 29 30 bits.
Definition shift (bits : Z) : Z := bitRange 22 23 bits.
Definition Rt (bits : Z) : Z := bitRange 0 4 bits.
Definition Rd (bits : Z) : Z := bitRange 0 4 bits.
Definition Rn (bits : Z) : Z := bitRange 5 9 bits.
Definition Rm (bits : Z) : Z := bitRange 16 20 bits.
Definition Ra (bits : Z) : Z := bitRange 10 14 bits.
Definition Rt2 (bits : Z) : Z := bitRange 10 14 bits.
Definition Rs (bits : Z) : Z := bitRange 16 20 bits.
Definition immlo (bits : Z) : Z := bitRange 29 30 bits.
Definition immhi (bits : Z) : Z := bitRange 5 23 bits.
Definition imms (bits : Z) : Z := bitRange 10 15 bits.
Definition immr (bits : Z) : Z := bitRange 16 21 bits.
Definition N (bits : Z) : Z := bitRange 22 22 bits.
Definition b40 (bits : Z) : Z := bitRange 19 23 bits.
Definition b5 (bits : Z) : Z := bitRange 31 31 bits.
Definition nzcv (bits : Z) : Z := bitRange 0 3 bits.
End Inst.

(** ** [PSTATE_t]: the condition flags; nothing reads the other members *)

Module PSTATE.
Record t := mk { N : bool; Z : bool; C : bool; V : bool }.
End PSTATE.

(** ** [enum class Condition], in the order of its values *)

Inductive Condition : Set :=
  | EQ | NE | CS | CC | MI | PL | VS | VC | HI | LS | GE | LT | GT | LE | AL | A2.

(** [static_cast<Condition>] of a 4-bit field. *)
Definition toCondition (v : Z) : Condition :=
  nth (Z.to_nat v)
    [EQ; NE; CS; CC; MI; PL; VS; VC; HI; LS; GE; LT; GT; LE; AL; A2] A2.

(** ** [enum SHIFT_TYPE] *)

Inductive SHIFT_TYPE : Set := LSL | LSR | ASR | ROR.

(** [static_cast<SHIFT_TYPE>] of a 2-bit field. *)
Definition toShiftType (v : Z) : SHIFT_TYPE :=
  nth (Z.to_nat v) [LSL; LSR; ASR; ROR] ROR.

(** ** [struct Core]

    A [VReg] is the pair of its two 64-bit views [D[0]], [D[1]].  The host thread
    handle [thread] is not state of the emulated core. *)

Record VReg := mkVReg { D0 : Z; D1 : Z }.

Record Core := mkCore {
  isActive : bool;
  coreNum : Z;
  GPRegs : list Z;
  VRegs : list VReg;
  PC : Z;
  SP : Z;
  PState : PSTATE.t;
  TLSAddr : Z;
  nextPC : Z;
  numInsts : Z;
  exclusiveAccess : bool;
  exclusiveAccessAddr : Z;
  exclusiveData0 : Z;
  exclusiveData1 : Z;
  interrupts : Z;
}.

Definition set_isActive v (c : Core) : Core :=
  mkCore v (c.(coreNum)) (c.(GPRegs)) (c.(VRegs)) (c.(PC)) (c.(SP)) (c.(PState))
    (c.(TLSAddr)) (c.(nextPC)) (c.(numInsts)) (c.(exclusiveAccess))
    (c.(exclusiveAccessAddr)) (c.(exclusiveData0)) (c.(exclusiveData1))
    (c.(interrupts)).
Definition set_GPRegs v (c : Core) : Core :=
  mkCore (c.(isActive)) (c.(coreNum)) v (c.(VRegs)) (c.(PC)) (c.(SP)) (c.(PState))
    (c.(TLSAddr)) (c.(nextPC)) (c.(numInsts)) (c.(exclusiveAccess))
    (c.(exclusiveAccessAddr)) (c.(exclusiveData0)) (c.(exclusiveData1))
    (c.(interrupts)).
Definition set_VRegs v (c : Core) : Core :=
  mkCore (c.(isActive)) (c.(coreNum)) (c.(GPRegs)) v (c.(PC)) (c.(SP)) (c.(PState))
    (c.(TLSAddr)) (c.(nextPC)) (c.(numInsts)) (c.(exclusiveAccess))
    (c.(exclusiveAccessAddr)) (c.(exclusiveData0)) (c.(exclusiveData1))
    (c.(interrupts)).
Definition set_PC v (c : Core) : Core :=
  mkCore (c.(isActive)) (c.(coreNum)) (c.(GPRegs)) (c.(VRegs)) v (c.(SP))
    (c.(PState)) (c.(TLSAddr)) (c.(nextPC)) (c.(numInsts)) (c.(exclusiveAccess))
    (c.(exclusiveAccessAddr)) (c.(exclusiveData0)) (c.(exclusiveData1))
    (c.(interrupts)).
Definition set_SP v (c : Core) : Core :=
  mkCore (c.(isActive)) (c.(coreNum)) (c.(GPRegs)) (c.(VRegs)) (c.(PC)) v
    (c.(PState)) (c.(TLSAddr)) (c.(nextPC)) (c.(numInsts)) (c.(exclusiveAccess))
    (c.(exclusiveAccessAddr)) (c.(exclusiveData0)) (c.(exclusiveData1))
    (c.(interrupts)).
Definition set_PState v (c : Core) : Core :=
  mkCore (c.(isActive)) (c.(coreNum)) (c.(GPRegs)) (c.(VRegs)) (c.(PC)) (c.(SP)) v
    (c.(TLSAddr)) (c.(nextPC)) (c.(numInsts)) (c.(exclusiveAccess))
    (c.(exclusiveAccessAddr)) (c.(exclusiveData0)) (c.(exclusiveData1))
    (c.(interrupts)).
Definition set_TLSAddr v (c : Core) : Core :=
  mkCore (c.(isActive)) (c.(coreNum)) (c.(GPRegs)) (c.(VRegs)) (c.(PC)) (c.(SP))
    (c.(PState)) v (c.(nextPC)) (c.(numInsts)) (c.(exclusiveAccess))
    (c.(exclusiveAccessAddr)) (c.(exclusiveData0)) (c.(exclusiveData1))
    (c.(interrupts)).
Definition set_nextPC v (c : Core) : Core :=
  mkCore (c.(isActive)) (c.(coreNum)) (c.(GPRegs)) (c.(VRegs)) (c.(PC)) (c.(SP))
    (c.(PState)) (c.(TLSAddr)) v (c.(numInsts)) (c.(exclusiveAccess))
    (c.(exclusiveAccessAddr)) (c.(exclusiveData0)) (c.(exclusiveData1))
    (c.(interrupts)).
Definition set_numInsts v (c : Core) : Core :=
  mkCore (c.(isActive)) (c.(coreNum)) (c.(GPRegs)) (c.(VRegs)) (c.(PC)) (c.(SP))
    (c.(PState)) (c.(TLSAddr)) (c.(nextPC)) v (c.(exclusiveAccess))
    (c.(exclusiveAccessAddr)) (c.(exclusiveData0)) (c.(exclusiveData1))
    (c.(interrupts)).
Definition set_exclusiveAccess v (c : Core) : Core :=
  mkCore (c.(isActive)) (c.(coreNum)) (c.(GPRegs)) (c.(VRegs)) (c.(PC)) (c.(SP))
    (c.(PState)) (c.(TLSAddr)) (c.(nextPC)) (c.(numInsts)) v
    (c.(exclusiveAccessAddr)) (c.(exclusiveData0)) (c.(exclusiveData1))
    (c.(interrupts)).
Definition set_exclusiveAccessAddr v (c : Core) : Core :=
  mkCore (c.(isActive)) (c.(coreNum)) (c.(GPRegs)) (c.(VRegs)) (c.(PC)) (c.(SP))
    (c.(PState)) (c.(TLSAddr)) (c.(nextPC)) (c.(numInsts)) (c.(exclusiveAccess)) v
    (c.(exclusiveData0)) (c.(exclusiveData1)) (c.(interrupts)).
Definition set_exclusiveData0 v (c : Core) : Core :=
  mkCore (c.(isActive)) (c.(coreNum)) (c.(GPRegs)) (c.(VRegs)) (c.(PC)) (c.(SP))
    (c.(PState)) (c.(TLSAddr)) (c.(nextPC)) (c.(numInsts)) (c.(exclusiveAccess))
    (c.(exclusiveAccessAddr)) v (c.(exclusiveData1)) (c.(interrupts)).
Definition set_exclusiveData1 v (c : Core) : Core :=
  mkCore (c.(isActive)) (c.(coreNum)) (c.(GPRegs)) (c.(VRegs)) (c.(PC)) (c.(SP))
    (c.(PState)) (c.(TLSAddr)) (c.(nextPC)) (c.(numInsts)) (c.(exclusiveAccess))
    (c.(exclusiveAccessAddr)) (c.(exclusiveData0)) v (c.(interrupts)).
Definition set_interrupts v (c : Core) : Core :=
  mkCore (c.(isActive)) (c.(coreNum)) (c.(GPRegs)) (c.(VRegs)) (c.(PC)) (c.(SP))
    (c.(PState)) (c.(TLSAddr)) (c.(nextPC)) (c.(numInsts)) (c.(exclusiveAccess))
    (c.(exclusiveAccessAddr)) (c.(exclusiveData0)) (c.(exclusiveData1)) v.

(** *** Register files

    Register numbers are 5-bit fields of the instruction, so every access is
    inside the 32-element arrays. *)

Definition getX (c : Core) (r : Z) : Z := nth (Z.to_nat r) (GPRegs c) 0.
Definition setX (r v : Z) (c : Core) : Core :=
  set_GPRegs (<[Z.to_nat r := v]> (GPRegs c)) c.

Definition getV (c : Core) (r : Z) : VReg := nth (Z.to_nat r) (VRegs c) (mkVReg 0 0).
Definition setV (r : Z) (v : VReg) (c : Core) : Core :=
  set_VRegs (<[Z.to_nat r := v]> (VRegs c)) c.
Definition getD0 (c : Core) (r : Z) : Z := D0 (getV c r).
Definition getD1 (c : Core) (r : Z) : Z := D1 (getV c r).
Definition setD0 (r v : Z) (c : Core) : Core :=
  setV r (mkVReg v (D1 (getV c r))) c.
Definition setD1 (r v : Z) (c : Core) : Core :=
  setV r (mkVReg (D0 (getV c r)) v) c.

(** The two idioms of the handlers that treat register 31 as [SP]. *)
Definition getXorSP (c : Core) (r : Z) : Z := if r =? 31 then SP c else getX c r.
Definition setXorSP (r v : Z) (c : Core) : Core :=
  if r =? 31 then set_SP v c else setX r v c.

(** ** Well-formed cores: every member holds a value of its C++ type *)

Definition wf_VReg (v : VReg) : Prop := uint 64 (D0 v) /\ uint 64 (D1 v).

Record wf_Core (c : Core) : Prop := {
  wf_GPRegs_len : length (GPRegs c) = 32%nat;
  wf_GPRegs : Forall (uint 64) (GPRegs c);
  wf_VRegs_len : length (VRegs c) = 32%nat;
  wf_VRegs : Forall wf_VReg (VRegs c);
  wf_PC : uint 64 (PC c);
  wf_SP : uint 64 (SP c);
  wf_TLSAddr : uint 64 (TLSAddr c);
  wf_nextPC : uint 64 (nextPC c);
  wf_numInsts : uint 64 (numInsts c);
  wf_exclusiveAccessAddr : uint 64 (exclusiveAccessAddr c);
  wf_exclusiveData0 : uint 64 (exclusiveData0 c);
  wf_exclusiveData1 : uint 64 (exclusiveData1 c);
  wf_interrupts : uint 64 (interrupts c);
}.

(** ** Lemmas on register access *)

(** A register number: every 5-bit field of an instruction is one. *)
Definition reg (r : Z) : Prop := 0 <= r < 32.

Lemma reg_bitRange a b bits : 0 <= a -> b = a + 4 -> reg (bitRange a b bits).
Proof.
  intros Ha ->. pose proof (bitRange_uint a (a + 4) bits ltac:(lia)) as H.
  unfold uint in H. replace (a + 4 - a + 1) with 5 in H by lia. exact H.
Qed.

Lemma getX_uint c r : wf_Core c -> uint 64 (getX c r).
Proof.
  intros Hc. unfold getX. destruct (nth_in_or_default (Z.to_nat r) (GPRegs c) 0)
    as [H| ->]; [|unfold uint; lia].
  pose proof (wf_GPRegs c Hc) as Hall. rewrite Forall_forall in Hall.
  by apply Hall, list_elem_of_In.
Qed.

Lemma getV_wf c r : wf_Core c -> wf_VReg (getV c r).
Proof.
  intros Hc. unfold getV.
  destruct (nth_in_or_default (Z.to_nat r) (VRegs c) (mkVReg 0 0)) as [H| ->].
  - pose proof (wf_VRegs c Hc) as Hall. rewrite Forall_forall in Hall.
    by apply Hall, list_elem_of_In.
  - split; unfold uint; simpl; lia.
Qed.

Lemma getXorSP_uint c r : wf_Core c -> uint 64 (getXorSP c r).
Proof.
  intros Hc. unfold getXorSP. destruct (r =? 31); [by apply wf_SP|by apply getX_uint].
Qed.

Lemma nth_insert_eq {A} (l : list A) n x d :
  (n < length l)%nat -> nth n (<[n:=x]> l) d = x.
Proof.
  intros H. rewrite nth_lookup, list_lookup_insert_eq by done. done.
Qed.

Lemma nth_insert_ne {A} (l : list A) n m x d :
  n <> m -> nth m (<[n:=x]> l) d = nth m l d.
Proof. intros H. by rewrite !nth_lookup, list_lookup_insert_ne by done. Qed.

Lemma getX_setX_eq c r v : wf_Core c -> reg r -> getX (setX r v c) r = v.
Proof.
  intros Hc Hr. unfold getX, setX. simpl. apply nth_insert_eq.
  rewrite (wf_GPRegs_len c Hc). unfold reg in Hr. lia.
Qed.

Lemma getX_setX_ne c r r' v :
  reg r -> reg r' -> r <> r' -> getX (setX r v c) r' = getX c r'.
Proof.
  intros Hr Hr' Hne. unfold getX, setX. simpl. apply nth_insert_ne.
  unfold reg in *. lia.
Qed.

Lemma reg_Rd inst : reg (Inst.Rd inst).
Proof. by apply reg_bitRange. Qed.
Lemma reg_Rn inst : reg (Inst.Rn inst).
Proof. by apply reg_bitRange. Qed.
Lemma reg_Rm inst : reg (Inst.Rm inst).
Proof. by apply reg_bitRange. Qed.
Lemma reg_Rt2 inst : reg (Inst.Rt2 inst).
Proof. by apply reg_bitRange. Qed.

Lemma getV_setV_ne c r r' v : reg r -> reg r' -> r <> r' -> getV (setV r v c) r' = getV c r'.
Proof.
  intros Hr Hr' Hne. unfold getV, setV. simpl. apply nth_insert_ne.
  unfold reg in *. lia.
Qed.

Lemma getV_setV_eq c r v : wf_Core c -> reg r -> getV (setV r v c) r = v.
Proof.
  intros Hc Hr. unfold getV, setV. simpl. apply nth_insert_eq.
  rewrite (wf_VRegs_len c Hc). unfold reg in Hr. lia.
Qed.

(** ** Preservation of well-formedness by the setters *)

Section Preservation.
Context (c : Core) (Hc : wf_Core c).

Local Ltac wf_tac := destruct Hc; constructor; simpl; auto.

Lemma wf_setX r v : uint 64 v -> wf_Core (setX r v c).
Proof.
  intros Hv. wf_tac; [by rewrite length_insert|]. by apply Forall_insert.
Qed.

Lemma wf_setV r v : wf_VReg v -> wf_Core (setV r v c).
Proof.
  intros Hv. wf_tac; [by rewrite length_insert|]. by apply Forall_insert.
Qed.

Lemma wf_setD0 r v : uint 64 v -> wf_Core (setD0 r v c).
Proof. intros Hv. apply wf_setV. split; [done|]. apply (getV_wf c r Hc). Qed.

Lemma wf_setD1 r v : uint 64 v -> wf_Core (setD1 r v c).
Proof. intros Hv. apply wf_setV. split; [|done]. apply (getV_wf c r Hc). Qed.

Lemma wf_set_SP v : uint 64 v -> wf_Core (set_SP v c).
Proof. intros Hv. wf_tac. Qed.

Lemma wf_set_PC v : uint 64 v -> wf_Core (set_PC v c).
Proof. intros Hv. wf_tac. Qed.

Lemma wf_set_nextPC v : uint 64 v -> wf_Core (set_nextPC v c).
Proof. intros Hv. wf_tac. Qed.

Lemma wf_set_numInsts v : uint 64 v -> wf_Core (set_numInsts v c).
Proof. intros Hv. wf_tac. Qed.

Lemma wf_set_PState v : wf_Core (set_PState v c).
Proof. wf_tac. Qed.

Lemma wf_set_exclusiveAccess v : wf_Core (set_exclusiveAccess v c).
Proof. wf_tac. Qed.

Lemma wf_set_exclusiveAccessAddr v :
  uint 64 v -> wf_Core (set_exclusiveAccessAddr v c).
Proof. intros Hv. wf_tac. Qed.

Lemma wf_set_exclusiveData0 v : uint 64 v -> wf_Core (set_exclusiveData0 v c).
Proof. intros Hv. wf_tac. Qed.

Lemma wf_set_exclusiveData1 v : uint 64 v -> wf_Core (set_exclusiveData1 v c).
Proof. intros Hv. wf_tac. Qed.

Lemma wf_set_interrupts v : uint 64 v -> wf_Core (set_interrupts v c).
Proof. intros Hv. wf_tac. Qed.

Lemma wf_setXorSP r v : uint 64 v -> wf_Core (setXorSP r v c).
Proof.
  intros Hv. unfold setXorSP. destruct (r =? 31); [by apply wf_set_SP|by apply wf_setX].
Qed.
End Preservation.

#[export] Hint Resolve getX_uint getV_wf getXorSP_uint wf_setX wf_setV wf_setD0
  wf_setD1 wf_set_SP wf_set_PC wf_set_nextPC wf_set_numInsts wf_set_PState
  wf_set_exclusiveAccess wf_set_exclusiveAccessAddr wf_set_exclusiveData0
  wf_set_exclusiveData1 wf_set_interrupts wf_setXorSP wf_PC wf_SP wf_nextPC
  wf_TLSAddr wf_numInsts wf_exclusiveData0 wf_exclusiveData1 : emu.

(** A handler on the core alone keeps it well formed. *)
Definition pure_wf (f : Core -> Z -> Core) : Prop :=
  forall c inst, wf_Core c -> wf_Core (f c inst).
