(* ===== verification/InstUtils.v ===== *)
(** * Shared instruction semantics: [libcpu/inc/instutils.h]

    Condition codes, shifts, logical immediates and the adder with flags, used by
    every integer handler of the interpreter. *)
From S2P Require Import Prelude BitUtils Core.

Definition testCondition (core : Core) (cond : Condition) : bool :=
  let state := PState core in
  match cond with
  | EQ => PSTATE.Z state
  | NE => negb (PSTATE.Z state)
  | CS => PSTATE.C state
  | CC => negb (PSTATE.C state)
  | MI => PSTATE.N state
  | PL => negb (PSTATE.N state)
  | VS => PSTATE.V state
  | VC => negb (PSTATE.V state)
  | HI => PSTATE.C state && negb (PSTATE.Z state)
  | LS => negb (PSTATE.C state && negb (PSTATE.Z state))
  | GE => Bool.eqb (PSTATE.N state) (PSTATE.V state)
  | LT => negb (Bool.eqb (PSTATE.N state) (PSTATE.V state))
  | GT => Bool.eqb (PSTATE.N state) (PSTATE.V state) && negb (PSTATE.Z state)
  | LE => negb (Bool.eqb (PSTATE.N state) (PSTATE.V state) && negb (PSTATE.Z state))
  | AL | A2 => true
  end.

Section WithShiftTarget.
Context `{ShiftTarget}.

Definition shift (val : Z) (t : SHIFT_TYPE) (amount bits : Z) : Z :=
  if amount =? 0 then val
  else match t with
  | LSL => shl64 val amount
  | LSR => shr64 val amount
  | ASR =>
      let res := shr64 val amount in
      signExtend_rt res (u64 (bits - amount))
  | ROR => Z.lor (shr64 val amount) (shl64 val (u64 (bits - amount)))
  end.

(** [for (; size > 1; length++, size >>= 1);]: [size] is a 7-bit value, so seven
    rounds exhaust it. *)
Fixpoint immediateLength (fuel : nat) (size length : Z) : Z :=
  match fuel with
  | O => length
  | S fuel =>
      if size >? 1 then immediateLength fuel (Z.shiftr size 1) (length + 1)
      else length
  end.

(** [for (i = 0; i < n; i++) { ret |= welem; welem <<= esize; }] *)
Fixpoint replicateElement (n : nat) (esize welem ret : Z) : Z :=
  match n with
  | O => ret
  | S n => replicateElement n esize (shl64 welem esize) (Z.lor ret welem)
  end.

Definition getLogicalImmediate (inst : Z) : Z :=
  let size := Z.lor (Z.shiftl (Inst.N inst) 6)
                (Z.land (not64 (Inst.imms inst)) (bitmask 6)) in
  let length := immediateLength 7 size 0 in
  let levels := bitmask_rt length in
  let S := Z.land (Inst.imms inst) levels in
  let R := Z.land (Inst.immr inst) levels in
  let esize := shl64 1 length in
  let welem := bitmask_rt (u64 (S + 1)) in
  let welem := Z.lor (shr64 welem R)
                 (Z.land (shl64 welem (u64 (esize - R))) (bitmask_rt esize)) in
  replicateElement (Z.to_nat (64 / esize)) esize welem 0.
End WithShiftTarget.

(** [addWithCarry<is64, updateFlags>]: the sum, and [state] after the call. *)
Definition addWithCarry (is64 updateFlags : bool) (op1 op2 carry : Z)
    (state : PSTATE.t) : Z * PSTATE.t :=
  let result := u64 (op1 + op2 + carry) in
  let result := if is64 then result else Z.land result (bitmask 32) in
  let msb := if is64 then 63 else 31 in
  let state' :=
    if updateFlags then
      let op1MSB := testBit msb op1 in
      let op2MSB := testBit msb op2 in
      let resMSB := testBit msb result in
      let mask := if is64 then bitmask 63 else bitmask 31 in
      let partial := u64 (Z.land op1 mask + Z.land op2 mask + carry) in
      let parMSB := testBit msb partial in
      {| PSTATE.N := resMSB;
         PSTATE.Z := result =? 0;
         PSTATE.V := Bool.eqb op1MSB op2MSB && negb (Bool.eqb op1MSB resMSB);
         PSTATE.C := (op1MSB && op2MSB) || (op1MSB && parMSB) || (op2MSB && parMSB) |}
    else state in
  (result, state').

(** ** The adder *)

(** The width an operation works at. *)
Definition width (is64 : bool) : Z := if is64 then 64 else 32.

Lemma testbit_msb (w z : Z) :
  0 < w -> Z.testbit z (w - 1) = (2 ^ (w - 1) <=? z mod 2 ^ w).
Proof.
  intros Hw. assert (2 ^ w = 2 * 2 ^ (w - 1)) as Hp.
  { rewrite <-Z.pow_succ_r by lia. f_equal. lia. }
  rewrite Z.testbit_odd, Z.shiftr_div_pow2 by lia.
  pose proof (Z.pow_pos_nonneg 2 (w - 1)) as Hpos.
  set (p := 2 ^ (w - 1)) in *. rewrite Hp.
  pose proof (Z.div_mod z (2 * p) ltac:(lia)) as Hd.
  pose proof (Z.mod_pos_bound z (2 * p) ltac:(lia)) as Hm.
  destruct (Z.leb_spec p (z mod (2 * p))).
  - rewrite <-(Z.div_unique z p (2 * (z / (2 * p)) + 1) (z mod (2 * p) - p)) by lia.
    rewrite Z.add_comm, Z.odd_add_mul_2. done.
  - rewrite <-(Z.div_unique z p (2 * (z / (2 * p))) (z mod (2 * p))) by lia.
    rewrite Z.odd_mul. done.
Qed.

(** What the architecture manual's AddWithCarry returns at width [w]. *)
Definition arm_flags (w op1 op2 carry : Z) : PSTATE.t :=
  let result := wrap w (op1 + op2 + carry) in
  let unsigned_sum := wrap w op1 + wrap w op2 + carry in
  let signed_sum := to_signed w op1 + to_signed w op2 + carry in
  {| PSTATE.N := Z.testbit result (w - 1);
     PSTATE.Z := result =? 0;
     PSTATE.C := negb (unsigned_sum =? result);
     PSTATE.V := negb (signed_sum =? to_signed w result) |}.

Lemma wrap_sum3 (w a b c : Z) :
  0 <= w -> wrap w (a + b + c) = wrap w (wrap w a + wrap w b + c).
Proof. intros Hw. unfold wrap. rewrite (Zplus_mod (a + b)), (Zplus_mod a). by rewrite <-Zplus_mod. Qed.

Lemma wrap_half (w z : Z) :
  0 < w ->
  wrap (w - 1) z = wrap w z - (if 2 ^ (w - 1) <=? wrap w z then 2 ^ (w - 1) else 0).
Proof.
  intros Hw. assert (2 ^ w = 2 * 2 ^ (w - 1)) as Hp.
  { rewrite <-Z.pow_succ_r by lia. f_equal. lia. }
  rewrite <-(wrap_wrap_le (w - 1) w) by lia.
  pose proof (wrap_uint w ltac:(lia) z) as Hu. unfold uint in Hu.
  unfold wrap at 1. destruct (Z.leb_spec (2 ^ (w - 1)) (wrap w z)).
  - symmetry. apply Z.mod_unique_pos with 1; lia.
  - rewrite Z.sub_0_r. apply Z.mod_small. lia.
Qed.

Lemma wrap_twice (w z : Z) :
  0 < w -> 0 <= z < 2 * 2 ^ w ->
  wrap w z = z - (if 2 ^ w <=? z then 2 ^ w else 0).
Proof.
  intros Hw Hz. unfold wrap. destruct (Z.leb_spec (2 ^ w) z).
  - symmetry. apply Z.mod_unique_pos with 1; lia.
  - rewrite Z.sub_0_r. apply Z.mod_small. lia.
Qed.

Lemma addWithCarry_result (is64 upd : bool) op1 op2 carry st :
  fst (addWithCarry is64 upd op1 op2 carry st) =
  wrap (width is64) (op1 + op2 + carry).
Proof.
  unfold addWithCarry. cbn [fst]. destruct is64; [done|].
  rewrite bitmask_ones, wrap_land_ones by lia. by apply wrap_wrap_le.
Qed.

(** The flags computed from the top bits and the partial sum are those of the
    manual, whatever lies above bit [w - 1] of the operands. *)
Lemma flags_arith (w op1 op2 carry : Z) :
  0 < w < 64 \/ w = 64 -> carry = 0 \/ carry = 1 ->
  let a := testBit (w - 1) op1 in
  let b := testBit (w - 1) op2 in
  let r := testBit (w - 1) (wrap w (op1 + op2 + carry)) in
  let p := testBit (w - 1) (u64 (Z.land op1 (Z.ones (w - 1)) +
                                 Z.land op2 (Z.ones (w - 1)) + carry)) in
  {| PSTATE.N := r;
     PSTATE.Z := wrap w (op1 + op2 + carry) =? 0;
     PSTATE.V := Bool.eqb a b && negb (Bool.eqb a r);
     PSTATE.C := (a && b) || (a && p) || (b && p) |} = arm_flags w op1 op2 carry.
Proof.
  intros Hw Hc. cbv zeta. unfold arm_flags.
  rewrite !testBit_spec, !wrap_land_ones by lia.
  assert (forall x, Z.testbit x (w - 1) = (2 ^ (w - 1) <=? wrap w x)) as Hmsb
    by (intros; apply testbit_msb; lia).
  rewrite !Hmsb. unfold u64.
  rewrite (wrap_wrap_le w 64), !wrap_wrap by lia.
  unfold to_signed. rewrite !wrap_wrap, !(wrap_sum3 w op1), !wrap_half by lia.
  pose proof (wrap_uint w ltac:(lia) op1) as HA.
  pose proof (wrap_uint w ltac:(lia) op2) as HB. unfold uint in *.
  set (A := wrap w op1) in *. set (B := wrap w op2) in *.
  assert (2 ^ w = 2 * 2 ^ (w - 1)) as Hp.
  { rewrite <-Z.pow_succ_r by lia. f_equal. lia. }
  assert (1 <= 2 ^ (w - 1)) as Hpos
    by (change 1 with (2 ^ 0); apply Z.pow_le_mono_r; lia).
  rewrite (wrap_twice w (A + B + carry)) by lia.
  rewrite (wrap_id w (A - _ + (B - _) + carry)) by
    (unfold uint; repeat case_match; lia).
  set (h := 2 ^ (w - 1)) in *. rewrite Hp in *.
  f_equal; repeat match goal with
  | |- context [?a <=? ?b] => destruct (Z.leb_spec a b)
  | |- context [?a <? ?b] => destruct (Z.ltb_spec a b)
  | |- context [?a =? ?b] => destruct (Z.eqb_spec a b)
  end; simpl; try reflexivity; lia.
Qed.

Lemma width_pos is64 : 0 < width is64 < 64 \/ width is64 = 64.
Proof. destruct is64; simpl; lia. Qed.

Lemma addWithCarry_flags (is64 : bool) op1 op2 carry st :
  carry = 0 \/ carry = 1 ->
  snd (addWithCarry is64 true op1 op2 carry st) =
  arm_flags (width is64) op1 op2 carry.
Proof.
  intros Hc. rewrite <-(flags_arith _ _ _ _ (width_pos is64) Hc). cbv zeta.
  pose proof (addWithCarry_result is64 true op1 op2 carry st) as Hr.
  unfold addWithCarry in Hr |- *. cbn [fst snd] in Hr |- *.
  rewrite Hr, !bitmask_ones. by destruct is64.
Qed.

(** ** Comparison *)

Lemma wrap_not64 (w y : Z) : 0 <= w <= 64 -> wrap w (not64 y) = 2 ^ w - 1 - wrap w y.
Proof.
  intros Hw. assert (wrap w (not64 y) = Z.ldiff (Z.ones w) (wrap w y)) as ->
    by bitwise. rewrite <-Z.sub_nocarry_ldiff.
  - rewrite Z.ones_equiv. lia.
  - bitwise.
Qed.

(** The comparison each condition code stands for, after [CMP x, y]. *)
Definition compares (w : Z) (cond : Condition) (x y : Z) : bool :=
  let ux := wrap w x in let uy := wrap w y in
  let sx := to_signed w x in let sy := to_signed w y in
  match cond with
  | EQ => ux =? uy | NE => ux !=? uy
  | CS => uy <=? ux | CC => ux <? uy
  | MI => to_signed w (sx - sy) <? 0 | PL => 0 <=? to_signed w (sx - sy)
  | VS => to_signed w (sx - sy) !=? (sx - sy) | VC => to_signed w (sx - sy) =? (sx - sy)
  | HI => uy <? ux | LS => ux <=? uy
  | GE => sy <=? sx | LT => sx <? sy
  | GT => sy <? sx | LE => sx <=? sy
  | AL | A2 => true
  end.

Lemma to_signed_eq (w z : Z) :
  0 < w ->
  to_signed w z = wrap w z - (if 2 ^ (w - 1) <=? wrap w z then 2 ^ w else 0).
Proof.
  intros Hw. unfold to_signed.
  destruct (Z.ltb_spec (wrap w z) (2 ^ (w - 1))), (Z.leb_spec (2 ^ (w - 1)) (wrap w z));
    lia.
Qed.

Lemma to_signed_wrap (w z : Z) : 0 <= w -> to_signed w (wrap w z) = to_signed w z.
Proof. intros Hw. unfold to_signed. by rewrite wrap_wrap. Qed.

Lemma wrap_to_signed (w z : Z) : 0 < w -> wrap w (to_signed w z) = wrap w z.
Proof.
  intros Hw. rewrite to_signed_eq by done. destruct (_ <=? _).
  - unfold wrap at 1. replace (wrap w z - 2 ^ w) with (wrap w z + (-1) * 2 ^ w) by lia.
    rewrite Z_mod_plus_full. apply wrap_wrap. lia.
  - rewrite Z.sub_0_r. apply wrap_wrap. lia.
Qed.

Lemma wrap_to_signed_sub (w x y : Z) :
  0 < w -> wrap w (to_signed w x - to_signed w y) = wrap w (x - y).
Proof.
  intros Hw. unfold wrap. rewrite Zminus_mod. fold (wrap w (to_signed w x)).
  fold (wrap w (to_signed w y)). rewrite !wrap_to_signed by done.
  unfold wrap. by rewrite <-Zminus_mod.
Qed.

Lemma wrap_sub_not64 (w x y : Z) :
  0 < w <= 64 -> wrap w (x + not64 y + 1) = wrap w (x - y).
Proof.
  intros Hw. rewrite wrap_sum3, wrap_not64 by lia.
  replace (wrap w x + (2 ^ w - 1 - wrap w y) + 1) with
    ((wrap w x - wrap w y) + 1 * 2 ^ w) by lia.
  unfold wrap at 1. rewrite Z_mod_plus_full. unfold wrap. by rewrite <-Zminus_mod.
Qed.

Lemma to_signed_not64 (w y : Z) :
  0 < w <= 64 -> to_signed w (not64 y) = - to_signed w y - 1.
Proof.
  intros Hw. rewrite !to_signed_eq, wrap_not64 by lia.
  pose proof (wrap_uint w ltac:(lia) y) as Hy. unfold uint in Hy.
  assert (2 ^ w = 2 * 2 ^ (w - 1)) as Hp.
  { rewrite <-Z.pow_succ_r by lia. f_equal. lia. }
  destruct (Z.leb_spec (2 ^ (w - 1)) (2 ^ w - 1 - wrap w y)),
    (Z.leb_spec (2 ^ (w - 1)) (wrap w y)); lia.
Qed.

(** The flags of [x - y], in terms of the operands. *)
Lemma arm_flags_sub (w x y : Z) :
  0 < w <= 64 ->
  arm_flags w x (not64 y) 1 =
  {| PSTATE.N := to_signed w (to_signed w x - to_signed w y) <? 0;
     PSTATE.Z := wrap w x =? wrap w y;
     PSTATE.C := wrap w y <=? wrap w x;
     PSTATE.V := negb (to_signed w (to_signed w x - to_signed w y) =?
                       to_signed w x - to_signed w y) |}.
Proof.
  intros Hw. unfold arm_flags.
  assert (forall z, to_signed w (wrap w z) = to_signed w z) as Htw
    by (intros; apply to_signed_wrap; lia).
  assert (to_signed w (x - y) = to_signed w (to_signed w x - to_signed w y)) as Hts.
  { rewrite <-Htw, <-(Htw (_ - to_signed w y)). f_equal.
    symmetry. apply wrap_to_signed_sub. lia. }
  rewrite testbit_msb by lia. fold (wrap w (wrap w (x + not64 y + 1))).
  rewrite wrap_wrap, wrap_sub_not64, wrap_not64, to_signed_not64, Htw, Hts by lia.
  pose proof (wrap_uint w ltac:(lia) x) as Hx. pose proof (wrap_uint w ltac:(lia) y) as Hy.
  unfold uint in *. set (s := to_signed w x - to_signed w y) in *.
  assert (wrap w (x - y) = wrap w x - wrap w y +
    (if wrap w x <? wrap w y then 2 ^ w else 0)) as Hd.
  { unfold wrap at 1. rewrite Zminus_mod. fold (wrap w x) (wrap w y).
    destruct (Z.ltb_spec (wrap w x) (wrap w y)).
    - symmetry. apply Z.mod_unique_pos with (-1); lia.
    - rewrite Z.add_0_r. apply Z.mod_small. lia. }
  f_equal.
  - rewrite <-Hts, to_signed_eq by lia.
    pose proof (wrap_uint w ltac:(lia) (x - y)) as Hr. unfold uint in Hr.
    destruct (Z.leb_spec (2 ^ (w - 1)) (wrap w (x - y)));
      symmetry; [apply Z.ltb_lt|apply Z.ltb_ge]; lia.
  - rewrite Hd. destruct (Z.ltb_spec (wrap w x) (wrap w y)),
      (Z.eqb_spec (wrap w x) (wrap w y)); try lia; apply Z.eqb_eq || apply Z.eqb_neq; lia.
  - rewrite Hd. destruct (Z.ltb_spec (wrap w x) (wrap w y)), (Z.leb_spec (wrap w y) (wrap w x));
      try lia; apply negb_true_iff || apply negb_false_iff;
      apply Z.eqb_eq || apply Z.eqb_neq; lia.
  - f_equal. replace (to_signed w x + (- to_signed w y - 1) + 1) with s by lia.
    apply Z.eqb_sym.
Qed.

Lemma to_signed_bounds (w z : Z) :
  0 < w -> - 2 ^ (w - 1) <= to_signed w z < 2 ^ (w - 1).
Proof.
  intros Hw. rewrite to_signed_eq by done.
  pose proof (wrap_uint w ltac:(lia) z) as Hz. unfold uint in Hz.
  assert (2 ^ w = 2 * 2 ^ (w - 1)) as Hp.
  { rewrite <-Z.pow_succ_r by lia. f_equal. lia. }
  destruct (Z.leb_spec (2 ^ (w - 1)) (wrap w z)); lia.
Qed.

(** [to_signed] of a difference of signed values is off by at most one [2 ^ w]. *)
Lemma to_signed_sub_cases (w x y : Z) :
  0 < w ->
  let s := to_signed w x - to_signed w y in
  to_signed w s = s /\ - 2 ^ (w - 1) <= s < 2 ^ (w - 1) \/
  to_signed w s = s + 2 ^ w /\ - 2 ^ w <= s < - 2 ^ (w - 1) \/
  to_signed w s = s - 2 ^ w /\ 2 ^ (w - 1) <= s < 2 ^ w.
Proof.
  intros Hw s. pose proof (to_signed_bounds w x Hw). pose proof (to_signed_bounds w y Hw).
  pose proof (to_signed_bounds w s Hw) as Hs.
  assert (2 ^ w = 2 * 2 ^ (w - 1)) as Hp.
  { rewrite <-Z.pow_succ_r by lia. f_equal. lia. }
  pose proof (to_signed_eq w s Hw) as E.
  pose proof (Z.div_mod s (2 ^ w) ltac:(lia)) as Hdm. fold (wrap w s) in Hdm.
  pose proof (wrap_uint w ltac:(lia) s) as Hu. unfold uint in Hu.
  assert (s / 2 ^ w = 0 \/ s / 2 ^ w = -1) as [Hq|Hq].
  { assert (-1 <= s / 2 ^ w) by (apply Z.div_le_lower_bound; lia).
    assert (s / 2 ^ w < 1) by (apply Z.div_lt_upper_bound; lia). lia. }
  all: rewrite Hq in Hdm; destruct (Z.leb_spec (2 ^ (w - 1)) (wrap w s)); lia.
Qed.

(** A conditional instruction after [CMP x, y] takes its condition exactly when the
    comparison the condition code names holds of the operands, at both widths and
    for signed and unsigned comparisons alike. *)
Lemma condition_after_cmp (is64 : bool) (core : Core) (cond : Condition) (x y : Z) :
  testCondition
    (set_PState (snd (addWithCarry is64 true x (not64 y) 1 (PState core))) core) cond =
  compares (width is64) cond x y.
Proof.
  assert (0 < width is64 <= 64) as Hw by (destruct is64; simpl; lia).
  rewrite addWithCarry_flags, arm_flags_sub by tauto || lia.
  pose proof (to_signed_sub_cases (width is64) x y ltac:(lia)) as Hs. cbv zeta in Hs.
  assert ((wrap (width is64) x =? wrap (width is64) y) =
          (to_signed (width is64) x =? to_signed (width is64) y)) as Heq.
  { apply eq_true_iff_eq. rewrite !Z.eqb_eq. split; intros E.
    - rewrite <-(to_signed_wrap _ x), <-(to_signed_wrap _ y), E by lia. done.
    - rewrite <-(wrap_to_signed _ x), <-(wrap_to_signed _ y), E by lia. done. }
  unfold testCondition, compares.
  cbn [PState set_PState PSTATE.N PSTATE.Z PSTATE.C PSTATE.V].
  generalize dependent (to_signed (width is64)
    (to_signed (width is64) x - to_signed (width is64) y)).
  generalize dependent (to_signed (width is64) x). intros sx.
  generalize dependent (to_signed (width is64) y). intros sy Heq d.
  generalize dependent (wrap (width is64) x). intros ux.
  generalize dependent (wrap (width is64) y). intros uy Heq Hs.
  assert (0 < 2 ^ (width is64 - 1)) by (apply Z.pow_pos_nonneg; lia).
  assert (2 ^ width is64 = 2 * 2 ^ (width is64 - 1)) as Hp.
  { rewrite <-Z.pow_succ_r by lia. f_equal. lia. }
  destruct cond; try reflexivity;
  try match goal with |- context [sx] => rewrite ?Heq end; clear Heq;
  repeat match goal with
  | |- context [?a <=? ?b] => destruct (Z.leb_spec a b)
  | |- context [?a <? ?b] => destruct (Z.ltb_spec a b)
  | |- context [?a =? ?b] => destruct (Z.eqb_spec a b)
  end; cbn; try reflexivity; lia.
Qed.

(** C35: at 32 and 64 bits, the result and the four flags [addWithCarry] computes are
    those of the architecture manual's AddWithCarry (unsigned and signed sums
    compared with the truncated result), whatever the upper halves hold. *)
Theorem addWithCarry_correct (is64 : bool) (op1 op2 carry : Z) (st : PSTATE.t) :
  carry = 0 \/ carry = 1 ->
  addWithCarry is64 true op1 op2 carry st =
  (wrap (width is64) (op1 + op2 + carry), arm_flags (width is64) op1 op2 carry).
Proof.
  intros Hc. rewrite (surjective_pairing (addWithCarry _ _ _ _ _ _)).
  by rewrite addWithCarry_result, addWithCarry_flags.
Qed.

Lemma addWithCarry_correct_witness :
  (1 = 0 \/ 1 = 1) /\
  addWithCarry false true 0x7FFFFFFF 0 1 (PSTATE.mk false false false false) =
  (0x80000000, PSTATE.mk true false false true).
Proof.
  split; [by right|].
  rewrite (addWithCarry_correct false 0x7FFFFFFF 0 1) by (by right).
  vm_compute. reflexivity.
Defined.

(** ** Logical immediates *)

Section LogicalImmediate.
Context `{ShiftTarget}.

Lemma immediateLength_log2 (fuel : nat) (size l : Z) :
  1 <= size < 2 ^ Z.of_nat fuel ->
  immediateLength fuel size l = l + Z.log2 size.
Proof.
  revert size l. induction fuel as [|fuel IH]; intros size l Hs; simpl.
  - simpl in Hs. lia.
  - destruct (Z.gtb_spec size 1) as [Hg|Hg].
    + rewrite Nat2Z.inj_succ, Z.pow_succ_r in Hs by lia.
      rewrite IH.
      * rewrite Z.log2_shiftr by lia.
        assert (1 <= Z.log2 size) by (apply Z.log2_le_pow2; lia). lia.
      * rewrite Z.shiftr_div_pow2 by lia. change (2 ^ 1) with 2.
        split; [apply Z.div_le_lower_bound; lia|apply Z.div_lt_upper_bound; lia].
    + assert (size = 1) as -> by lia. simpl. lia.
Qed.

(** [n] rounds of the loop fill [ret] with copies of the element. *)
Lemma testbit_replicate (n : nat) (esize w0 welem ret k i : Z) :
  0 < esize < 64 -> 0 <= i < 64 -> 0 <= k ->
  (forall j, 0 <= j < 64 -> Z.testbit welem j =
     (k * esize <=? j) && (j <? (k + 1) * esize) && Z.testbit w0 (j mod esize)) ->
  (Z.testbit ret i = (i <? k * esize) && Z.testbit w0 (i mod esize)) ->
  Z.testbit (replicateElement n esize welem ret) i =
  (i <? (k + Z.of_nat n) * esize) && Z.testbit w0 (i mod esize).
Proof.
  intros He Hi. revert welem ret k. induction n as [|n IH]; intros welem ret k Hk Hw Hr.
  - simpl. by rewrite Z.add_0_r.
  - simpl replicateElement. rewrite IH with (k := k + 1); [f_equal; f_equal; lia|lia| |].
    + intros j Hj. rewrite shl64_small by lia.
      rewrite testbit_u64, testbit_shiftl by lia.
      destruct (Z.leb_spec 0 (j - esize)) as [Hj'|Hj'].
      * rewrite Hw by lia. replace (j - esize) with (j + (-1) * esize) at 3 by lia.
        rewrite Z.mod_add by lia. decide_ltb; try lia; reflexivity.
      * decide_ltb; try nia; reflexivity.
    + rewrite Z.lor_spec, Hr, Hw by lia. decide_ltb; try nia;
        destruct (Z.testbit w0 (i mod esize)); reflexivity.
Qed.
End LogicalImmediate.

(** [size] of the code: [N:NOT(imms)]; the encoding is reserved when it is below 2. *)
Definition immediateSize (inst : Z) : Z := Inst.N inst * 64 + (63 - Inst.imms inst).

Lemma field_bounds (a b bits : Z) : 0 <= a <= b -> 0 <= bitRange a b bits < 2 ^ (b - a + 1).
Proof. apply bitRange_uint. Qed.

Lemma immediateSize_eq (inst : Z) :
  Z.lor (Z.shiftl (Inst.N inst) 6) (Z.land (not64 (Inst.imms inst)) (bitmask 6)) =
  immediateSize inst.
Proof.
  unfold immediateSize. pose proof (field_bounds 10 15 inst ltac:(lia)) as Hi.
  pose proof (field_bounds 22 22 inst ltac:(lia)) as Hn.
  fold (Inst.imms inst) (Inst.N inst) in *. rewrite bitmask_ones, wrap_land_ones by lia.
  rewrite wrap_not64 by lia. rewrite (wrap_id 6) by (unfold uint; lia).
  change (2 ^ (22 - 22 + 1)) with 2 in Hn. change (2 ^ (15 - 10 + 1)) with 64 in Hi.
  change (2 ^ 6 - 1) with 63.
  assert (Inst.N inst = 0 \/ Inst.N inst = 1) as [->| ->] by lia; [done|].
  change (Z.shiftl 1 6) with 64.
  rewrite <-Z.lxor_lor, <-Z.add_nocarry_lxor; try lia.
  all: apply Z.bits_inj'; intros i Hi0; rewrite Z.land_spec, Z.bits_0;
    change 64 with (2 ^ 6); rewrite Z.pow2_bits_eqb by lia;
    destruct (Z.eqb_spec 6 i) as [<-|]; [|done];
    apply (testbit_uint_high 6); unfold uint; lia.
Qed.

Lemma immediateSize_bounds (inst : Z) : 0 <= immediateSize inst < 128.
Proof.
  unfold immediateSize. pose proof (field_bounds 10 15 inst ltac:(lia)) as Hi.
  pose proof (field_bounds 22 22 inst ltac:(lia)) as Hn.
  fold (Inst.imms inst) (Inst.N inst) in *.
  change (2 ^ (22 - 22 + 1)) with 2 in Hn. change (2 ^ (15 - 10 + 1)) with 64 in Hi. lia.
Qed.

(** [x << n] on the x86-64 target, for the counts the rotation uses. *)
Lemma testbit_shl64_x86 (x n i : Z) :
  0 <= n <= 64 -> 0 <= i < 64 ->
  Z.testbit (shl64 x n) i =
  (n mod 64 <=? i) && Z.testbit x (i - n mod 64).
Proof.
  intros Hn Hi. assert (shl64 x n = u64 (Z.shiftl x (n mod 64))) as ->.
  { unfold shl64. destruct (Z.eq_dec n 64) as [->|]; [done|].
    rewrite (Z.mod_small n) by lia. decide_ltb. done. }
  rewrite testbit_u64, testbit_shiftl by lia. rewrite (proj2 (Z.ltb_lt i 64)) by lia.
  cbn [andb]. f_equal. decide_ltb; lia.
Qed.

(** Bit [i] of the rotated element: the rotation moves bit [i + R] to [i]. *)
Lemma testbit_rotated_ones (S R esize i : Z) :
  0 < esize <= 64 -> 0 <= S < esize -> 0 <= R < esize -> 0 <= i < 64 ->
  Z.testbit (Z.lor (Z.shiftr (Z.ones (S + 1)) R)
    (Z.land (shl64 (Z.ones (S + 1)) (esize - R)) (Z.ones esize))) i =
  (i <? esize) && ((i + R) mod esize <=? S).
Proof.
  intros He HS HR Hi.
  rewrite Z.lor_spec, Z.land_spec, Z.shiftr_spec, testbit_shl64_x86,
    !testbit_ones by lia.
  assert (esize - R = 64 /\ (esize - R) mod 64 = 0 \/
          esize - R < 64 /\ (esize - R) mod 64 = esize - R) as [[Hr ->]|[Hr ->]].
  { destruct (Z.eq_dec (esize - R) 64) as [Hr|]; [left|right].
    - by rewrite Hr.
    - split; [lia|]. apply Z.mod_small. lia. }
  - assert (esize = 64 /\ R = 0) as [-> ->] by lia.
    rewrite Z.add_0_r, Z.sub_0_r, Z.mod_small, !testbit_ones by lia.
    decide_ltb; try lia; done.
  - destruct (Z.ltb_spec i esize).
    + destruct (Z.leb_spec esize (i + R)).
      * rewrite <-(Z.mod_unique_pos (i + R) esize 1 (i + R - esize)) by lia.
        rewrite !testbit_ones by lia. decide_ltb; try lia; done.
      * rewrite (Z.mod_small (i + R)), (testbit_ones esize) by lia.
        decide_ltb; try lia; done.
    + rewrite (testbit_ones esize) by lia.
      decide_ltb; try lia; by rewrite ?andb_false_r.
Qed.

(** C36: [getLogicalImmediate] decodes the bit-mask immediates of the architecture:
    for an encoding that is not reserved, bit [i] of the result is set exactly when
    position [i + immr] falls, modulo the element size, in the run of [imms + 1]
    ones (so the value is periodic and rotated right by [immr]). *)
Theorem getLogicalImmediate_spec (inst i : Z) :
  2 <= immediateSize inst -> 0 <= i < 64 ->
  let esize := 2 ^ Z.log2 (immediateSize inst) in
  Z.testbit (getLogicalImmediate inst) i =
  ((i + Inst.immr inst) mod esize <=? Inst.imms inst mod esize).
Proof.
  intros Hs Hi esize. unfold getLogicalImmediate. cbv zeta.
  rewrite immediateSize_eq.
  pose proof (immediateSize_bounds inst) as Hb.
  rewrite (immediateLength_log2 7) by (simpl; lia).
  rewrite Z.add_0_l.
  assert (1 <= Z.log2 (immediateSize inst) <= 6) as Hl.
  { split; [apply Z.log2_le_pow2; lia|].
    apply Z.lt_succ_r. apply Z.log2_lt_pow2; simpl; lia. }
  set (len := Z.log2 (immediateSize inst)) in *.
  assert (2 <= esize <= 64) as He.
  { subst esize. split; [change 2 with (2 ^ 1) at 1|change 64 with (2 ^ 6)];
      apply Z.pow_le_mono_r; lia. }
  rewrite (bitmask_rt_spec len) by lia. rewrite !Z.land_ones by lia.
  assert (shl64 1 len = esize) as ->.
  { rewrite shl64_small, u64_pow2, Z.shiftl_1_l by lia. done. }
  fold esize. pose proof (Z.mod_pos_bound (Inst.imms inst) esize ltac:(lia)) as HS.
  pose proof (Z.mod_pos_bound (Inst.immr inst) esize ltac:(lia)) as HR.
  rewrite <-(Z.add_mod_idemp_r i) by lia.
  set (S := Inst.imms inst mod esize) in *. set (R := Inst.immr inst mod esize) in *.
  rewrite !u64_id by (unfold uint; lia).
  rewrite !bitmask_rt_spec, shr64_small by lia.
  set (w0 := Z.lor _ _).
  assert (forall j, 0 <= j < 64 -> Z.testbit w0 j =
    (j <? esize) && ((j + R) mod esize <=? S)) as Hw
    by (intros; apply testbit_rotated_ones; lia).
  destruct (Z.eq_dec esize 64) as [E|E].
  - rewrite E. change (Z.to_nat (64 / 64)) with 1%nat. simpl replicateElement.
    rewrite Hw, E, (proj2 (Z.ltb_lt i 64)) by lia. done.
  - assert (Z.of_nat (Z.to_nat (64 / esize)) * esize = 64) as Hn.
    { rewrite Z2Nat.id by (apply Z.div_pos; lia). subst esize.
      change 64 with (2 ^ 6) at 1. rewrite <-Z.pow_sub_r, <-Z.pow_add_r by lia.
      replace (6 - len + len) with 6 by lia. done. }
    rewrite (testbit_replicate _ esize w0 w0 0 0 i); try lia.
    + rewrite Z.add_0_l, Hn. pose proof (Z.mod_pos_bound i esize ltac:(lia)).
      rewrite Hw, Z.add_mod_idemp_l by lia.
      rewrite (proj2 (Z.ltb_lt i 64)), (proj2 (Z.ltb_lt (i mod esize) esize)) by lia. done.
    + intros j Hj. destruct (Z.ltb_spec j esize) as [Hj'|Hj'].
      * rewrite (Z.mod_small j) by lia. rewrite (proj2 (Z.leb_le (0 * esize) j)) by lia.
        rewrite (proj2 (Z.ltb_lt j ((0 + 1) * esize))) by lia. done.
      * rewrite (Hw j) by lia. rewrite (proj2 (Z.ltb_ge j esize)) by lia.
        rewrite (proj2 (Z.ltb_ge j ((0 + 1) * esize))) by lia. by rewrite andb_false_r.
    + rewrite Z.bits_0. rewrite (proj2 (Z.ltb_ge i (0 * esize))) by lia. done.
Qed.

Lemma getLogicalImmediate_spec_witness :
  2 <= immediateSize 0x9200C420 /\
  Z.testbit (getLogicalImmediate 0x9200C420) 63 =
  ((63 + Inst.immr 0x9200C420) mod 8 <=? Inst.imms 0x9200C420 mod 8) /\
  getLogicalImmediate 0x9200C420 = 0x0303030303030303.
Proof.
  assert (2 <= immediateSize 0x9200C420) as Hs by (vm_compute; congruence).
  split; [exact Hs|]. split; [|vm_compute; reflexivity].
  exact (getLogicalImmediate_spec 0x9200C420 63 Hs ltac:(lia)).
Defined.

(** ** Results are 64-bit values *)

Lemma shift_uint `{ShiftTarget} val t amount bits :
  uint 64 val -> uint 64 (shift val t amount bits).
Proof. intros Hv. unfold shift. destruct (amount =? 0), t; auto 6 with emu. Qed.

Lemma replicateElement_uint `{ShiftTarget} n esize welem ret :
  uint 64 welem -> uint 64 ret -> uint 64 (replicateElement n esize welem ret).
Proof.
  revert welem ret. induction n as [|n IH]; intros welem ret Hw Hr; simpl; [done|].
  auto with emu.
Qed.

Lemma getLogicalImmediate_uint `{ShiftTarget} inst : uint 64 (getLogicalImmediate inst).
Proof. unfold getLogicalImmediate. apply replicateElement_uint; auto 7 with emu. Qed.

Lemma addWithCarry_uint is64 upd op1 op2 carry st :
  uint 64 (fst (addWithCarry is64 upd op1 op2 carry st)).
Proof.
  rewrite addWithCarry_result. apply (uint_le (width is64)); destruct is64; simpl;
    try apply wrap_uint; lia.
Qed.

#[export] Hint Resolve shift_uint getLogicalImmediate_uint addWithCarry_uint : emu.
