(* ===== verification/Machine.v ===== *)
(** * The machine an instruction runs on

    Faults and results, the memory interface the interpreter is written against
    (the [mem::] templates of [libcpu/inc/mem.h]), the state of a core with its
    memory, and the monad of the instruction handlers. *)
From S2P Require Import Prelude BitUtils Instructions Core.

(** ** Results

    A C++ function that does not return normally ends in one of these. *)
Inductive fault : Set :=
  | SegFault (addr : Z)   (* [translate] entered [gSegFaultHandler]; what follows
                             dereferences a null page pointer *)
  | HostFault (p : Z)     (* a host access outside the emulated memory block *)
  | Deadlock              (* a lock is taken that its owner never released *)
  | Diverges              (* a loop does not end *)
  | NullDeref             (* a null object pointer is dereferenced *)
  | Undefined             (* behaviour C++ leaves undefined: a dangling iterator or
                             reference, a bad downcast, an index out of range *)
  | Blocked               (* the host thread waits on a condition variable *)
  | ThreadExit.           (* [platform::exitThread] ends the host thread *)

Inductive result (A : Type) : Type :=
  | Ok (a : A)
  | Err (f : fault).
Arguments Ok {A} a.
Arguments Err {A} f.

#[export] Instance result_ret : MRet result := @Ok.
#[export] Instance result_bind : MBind result := fun A B k r =>
  match r with Ok a => k a | Err f => Err f end.

(** ** The memory interface *)

Class GuestMemory (Mem : Type) := {
  (* [read<T>], [inspect<T>] and [fetch] after the breakpoint test; [T] has [n] bytes *)
  mread (n addr : Z) (m : Mem) : result Z;
  (* [write<T>] after the breakpoint test *)
  mwrite (n addr data : Z) (m : Mem) : result Mem;
  (* [writeAtomic<T>]: the status of the compare-exchange *)
  mwriteAtomic (n addr data expected : Z) (m : Mem) : result (bool * Mem);
  (* [writeAtomic128] *)
  mwriteAtomic128 (addr lo hi expectedLo expectedHi : Z) (m : Mem) : result (bool * Mem);
  (* [gMemBreakpoints.count(addr) > 0] *)
  mbreakpoint (addr : Z) (m : Mem) : bool;
}.

(** What a client may rely on. [mem_typed] says every byte is a byte, which all
    accesses preserve; [mem_ok] is the full invariant of the memory, and
    [mapped addr n m] says the [n] bytes at [addr] lie in one allocated page. *)
Class GuestMemoryLaws (Mem : Type) `{GuestMemory Mem} := {
  mem_typed : Mem -> Prop;
  mem_ok : Mem -> Prop;
  mapped : Z -> Z -> Mem -> Prop;
  mem_ok_typed m : mem_ok m -> mem_typed m;
  mread_uint n addr m v :
    mem_typed m -> 0 <= n -> mread n addr m = Ok v -> uint (8 * n) v;
  mwrite_typed n addr v m m' :
    mem_typed m -> mwrite n addr v m = Ok m' -> mem_typed m';
  mwriteAtomic_typed n addr v e m b m' :
    mem_typed m -> mwriteAtomic n addr v e m = Ok (b, m') -> mem_typed m';
  mwriteAtomic128_typed addr lo hi elo ehi m b m' :
    mem_typed m -> mwriteAtomic128 addr lo hi elo ehi m = Ok (b, m') -> mem_typed m';
  mread_mapped n addr m :
    mem_ok m -> mapped addr n m -> exists v, mread n addr m = Ok v;
  mwrite_mapped n addr v m :
    mem_ok m -> mapped addr n m ->
    exists m', mwrite n addr v m = Ok m' /\ mem_ok m' /\
      (forall addr' n', mapped addr' n' m <-> mapped addr' n' m') /\
      (forall addr', mbreakpoint addr' m' = mbreakpoint addr' m);
  mread_mwrite_eq n addr v m m' :
    mem_ok m -> mapped addr n m -> mwrite n addr v m = Ok m' ->
    mread n addr m' = Ok (wrap (8 * n) v);
  mread_mwrite_ne n addr v n' addr' m m' :
    mem_ok m -> mapped addr n m -> mapped addr' n' m ->
    addr' + n' <= addr \/ addr + n <= addr' ->
    mwrite n addr v m = Ok m' -> mread n' addr' m' = mread n' addr' m;
  mwriteAtomic_mapped n addr v e m :
    mem_ok m -> mapped addr n m ->
    exists old, mread n addr m = Ok old /\
      mwriteAtomic n addr v e m =
        (if old =? wrap (8 * n) e
         then m' ← mwrite n addr v m; Ok (true, m')
         else Ok (false, m));
}.

(** ** The machine state and its monad *)

Section Machine.
Context {Mem : Type}.

(** A core, the memory, and [gTimer] of [System.cpp]. *)
Record Machine := mkMachine { core : Core; memory : Mem; gTimer : Z }.

Definition set_core (c : Core) (s : Machine) : Machine :=
  mkMachine c (s.(memory)) (s.(gTimer)).
Definition set_memory (m : Mem) (s : Machine) : Machine :=
  mkMachine (s.(core)) m (s.(gTimer)).
Definition set_gTimer (t : Z) (s : Machine) : Machine :=
  mkMachine (s.(core)) (s.(memory)) t.

Definition M (A : Type) : Type := Machine -> result (A * Machine).

#[global] Instance M_ret : MRet M := fun A a s => Ok (a, s).
#[global] Instance M_bind : MBind M := fun A B k f s =>
  match f s with Ok (a, s') => k a s' | Err e => Err e end.

(** Reading and updating the core. *)
Definition getCore : M Core := fun s => Ok (core s, s).
Definition onCore (f : Core -> Core) : M unit := fun s => Ok (tt, set_core (f (core s)) s).

Definition DEBUG_BREAK_INTERRUPT : Z := Z.shiftl 1 1.

(** [sendInterrupts] of the running core to itself. *)
Definition sendInterrupts (ints : Z) (c : Core) : Core :=
  set_interrupts (Z.lor (interrupts c) ints) c.

Context `{GuestMemory Mem}.

Definition breakpointTest (addr : Z) : M unit := fun s =>
  if mbreakpoint addr (memory s)
  then onCore (sendInterrupts DEBUG_BREAK_INTERRUPT) s
  else Ok (tt, s).

(** A read and an update of the memory, as machine steps. *)
Definition askMemory {A} (f : Mem -> result A) : M A := fun s =>
  match f (memory s) with Ok v => Ok (v, s) | Err e => Err e end.
Definition onMemory {A} (f : Mem -> result (A * Mem)) : M A := fun s =>
  match f (memory s) with Ok (v, m) => Ok (v, set_memory m s) | Err e => Err e end.

Definition mem_fetch (addr : Z) : M Z := askMemory (mread 4 addr).

Definition mem_read (n addr : Z) : M Z :=
  (breakpointTest addr : M unit);; (askMemory (mread n addr) : M Z).

Definition mem_write (n addr data : Z) : M unit :=
  (breakpointTest addr : M unit);;
  (onMemory (fun m => m' ← mwrite n addr data m; Ok (tt, m')) : M unit).

Definition mem_writeAtomic (n addr data expected : Z) : M bool :=
  onMemory (mwriteAtomic n addr data expected).

Definition mem_writeAtomic128 (addr lo hi expectedLo expectedHi : Z) : M bool :=
  onMemory (mwriteAtomic128 addr lo hi expectedLo expectedHi).
End Machine.
Arguments Machine Mem : clear implicits.
Arguments M Mem A : clear implicits.

(** ** The function pointers the kernel installs in [libcpu]
    ([setSVCHandler], [setIllInstHandler]) *)
Class CpuHooks (Mem : Type) := {
  gSVCHandler : Z -> M Mem unit;
  gIllInstHandler : M Mem unit;
}.

(** The type [interptfptr_t] of an instruction handler. *)
Definition interptfptr_t (Mem : Type) : Type := Z -> M Mem unit.

(** A handler that only touches the core. *)
Definition pureHandler {Mem} (f : Core -> Z -> Core) : interptfptr_t Mem :=
  fun inst => onCore (fun c => f c inst).

(** What a [register...Instructions] function passes to [registerInstruction], in
    order. *)
Definition registrations (Mem : Type) : Type :=
  list (instructionID.t * interptfptr_t Mem).

(** [UNIMPLEMENTED_FUNC] decodes the word again and logs its name. *)
Definition UNIMPLEMENTED_FUNC {Mem} : interptfptr_t Mem := pureHandler (fun core _ => core).
