(* ===== verification/Memory.v ===== *)
(** * Guest memory: [libcpu/src/mem.cpp], [libcpu/inc/mem.h]

    A block of host memory is cut into pages; free pages are chained through their
    first eight bytes, and the page table maps guest page numbers to host pointers.
    Host memory is a map from host addresses to bytes, pointers are integers and
    [nullptr] is 0, so that the links stored in free pages are what they are in the
    program: bytes of the same memory the guest reads and writes. *)
From S2P Require Import Prelude BitUtils Core Machine.

(** ** Host memory *)

Abbreviation HostMem := (gmap Z Z).

Definition byte_at (h : HostMem) (p : Z) : Z := default 0 (h !! p).

(** An object of [n] bytes at [p], little-endian as on the x86-64 host. *)
Fixpoint load_le (n : nat) (p : Z) (h : HostMem) : Z :=
  match n with
  | O => 0
  | S n => byte_at h p + 256 * load_le n (p + 1) h
  end.

Fixpoint store_le (n : nat) (p v : Z) (h : HostMem) : HostMem :=
  match n with
  | O => h
  | S n => store_le n (p + 1) (v / 256) (<[p := v mod 256]> h)
  end.

(** [memset(p, v, n)] and [memcpy] of a list of bytes. *)
Fixpoint host_memset (n : nat) (p v : Z) (h : HostMem) : HostMem :=
  match n with
  | O => h
  | S n => host_memset n (p + 1) v (<[p := v]> h)
  end.

Fixpoint host_memcpy_to (p : Z) (data : list Z) (h : HostMem) : HostMem :=
  match data with
  | [] => h
  | b :: data => host_memcpy_to (p + 1) data (<[p := b]> h)
  end.

Fixpoint host_memcpy_from (n : nat) (p : Z) (h : HostMem) : list Z :=
  match n with
  | O => []
  | S n => byte_at h p :: host_memcpy_from n (p + 1) h
  end.

(** ** Constants and address arithmetic of [mem.h] *)

Definition VMEM_SIZE : Z := Z.shiftl 1 38.
Definition PAGE_BITS : Z := 12.
Definition PAGE_SIZE : Z := Z.shiftl 1 PAGE_BITS.
Definition PAGE_OFFSET_MASK : Z := PAGE_SIZE - 1.
Definition NUM_PAGES : Z := Z.shiftr VMEM_SIZE PAGE_BITS.

Inductive Permission : Set :=
  | NONE | READ_ONLY | WRITE_ONLY | READ_WRITE | EXECUTE_ONLY | READ_EXECUTE
  | WRITE_EXECUTE | ALL.

#[export] Instance Permission_eq_dec : EqDecision Permission.
Proof. solve_decision. Defined.

Definition getPageNum (addr : Z) : Z := Z.shiftr addr PAGE_BITS.
Definition isPageAligned (addr : Z) : bool := Z.land addr PAGE_OFFSET_MASK =? 0.
Definition alignToPage (addr : Z) : Z := Z.land addr (not64 PAGE_OFFSET_MASK).

(** ** The globals of [mem.cpp] *)

Record PageTableEntry := mkPTE { pointer : Z; perm : Permission }.

Record MemState := mkMemState {
  gMemBase : Z;
  memBytes : Z;                         (* size of the block [gMemBase] points to *)
  host : HostMem;
  gFreePageList : Z;
  gMainPageTable : gmap Z PageTableEntry;  (* absent entries are zero-initialised *)
  gPageAllocatorLock : bool;
  gMemBreakpoints : gset Z;
}.

Definition set_host h (m : MemState) : MemState :=
  mkMemState (gMemBase m) (memBytes m) h (gFreePageList m) (gMainPageTable m)
    (gPageAllocatorLock m) (gMemBreakpoints m).
Definition set_gFreePageList p (m : MemState) : MemState :=
  mkMemState (gMemBase m) (memBytes m) (host m) p (gMainPageTable m)
    (gPageAllocatorLock m) (gMemBreakpoints m).
Definition set_gMainPageTable t (m : MemState) : MemState :=
  mkMemState (gMemBase m) (memBytes m) (host m) (gFreePageList m) t
    (gPageAllocatorLock m) (gMemBreakpoints m).
Definition set_gPageAllocatorLock b (m : MemState) : MemState :=
  mkMemState (gMemBase m) (memBytes m) (host m) (gFreePageList m) (gMainPageTable m)
    b (gMemBreakpoints m).

(** The globals before [init]. *)
Definition mem_static : MemState := mkMemState 0 0 ∅ 0 ∅ false ∅.

Definition entry (m : MemState) (pageNum : Z) : PageTableEntry :=
  default (mkPTE 0 NONE) (gMainPageTable m !! pageNum).
Definition set_pointer (pageNum p : Z) (m : MemState) : MemState :=
  set_gMainPageTable
    (<[pageNum := mkPTE p (perm (entry m pageNum))]> (gMainPageTable m)) m.
Definition set_perm (pageNum : Z) (q : Permission) (m : MemState) : MemState :=
  set_gMainPageTable
    (<[pageNum := mkPTE (pointer (entry m pageNum)) q]> (gMainPageTable m)) m.

(** Dereferencing a host pointer: only the block is memory of this component. *)
Definition in_block (m : MemState) (p n : Z) : bool :=
  (gMemBase m <=? p) && (p + n <=? gMemBase m + memBytes m).

Definition host_load (n p : Z) (m : MemState) : result Z :=
  if in_block m p n then Ok (load_le (Z.to_nat n) p (host m)) else Err (HostFault p).

Definition host_store (n p v : Z) (m : MemState) : result MemState :=
  if in_block m p n
  then Ok (set_host (store_le (Z.to_nat n) p v (host m)) m)
  else Err (HostFault p).

Definition lock (m : MemState) : result MemState :=
  if gPageAllocatorLock m then Err Deadlock else Ok (set_gPageAllocatorLock true m).
Definition unlock (m : MemState) : MemState := set_gPageAllocatorLock false m.

(** [for (auto i = 0u; i < limit; ...)]: [i] is a [uint32_t], [limit] a 64-bit
    value; [body] returns the next [i].  [limit + 1] rounds are enough for every
    loop that advances without wrapping, and a loop that wraps never ends. *)
Fixpoint whileU32 {S} (fuel : nat) (i limit : Z) (body : Z -> S -> result (Z * S))
    (s : S) : result S :=
  if i <? limit then
    match fuel with
    | O => Err Diverges
    | S fuel => '(i, s) ← body i s; whileU32 fuel (u32 i) limit body s
    end
  else Ok s.

Definition loopFuel (limit : Z) : nat := S (Z.to_nat limit).

(** ** [init]; [allocated] is what [platform::allocate] returned *)

Definition init (allocated memSize : Z) (m : MemState) : result (bool * MemState) :=
  if memSize =? 0 then Ok (false, m)
  else if negb (isPageAligned memSize) then Ok (false, m)
  else if allocated =? 0 then Ok (false, m)
  else
    let m := mkMemState allocated memSize (host m) (gFreePageList m)
               (gMainPageTable m) (gPageAllocatorLock m) (gMemBreakpoints m) in
    let numPages := memSize / PAGE_SIZE in
    let m := set_gFreePageList (gMemBase m) m in
    m ← whileU32 (loopFuel (numPages - 1)) 0 (numPages - 1)
          (fun i m =>
             m ← host_store 8 (gMemBase m + i * PAGE_SIZE)
                   (gMemBase m + (i + 1) * PAGE_SIZE) m;
             Ok (i + 1, m)) m;
    m ← host_store 8 (gMemBase m + (numPages - 1) * PAGE_SIZE) 0 m;
    Ok (true, m).

(** [fini] frees the block; the other globals keep their values.  Freeing a block twice
    is undefined. *)
Definition fini (m : MemState) : result MemState :=
  if gMemBase m =? 0 then Ok m
  else if memBytes m =? 0 then Err Undefined
  else Ok (mkMemState (gMemBase m) 0 ∅ (gFreePageList m) (gMainPageTable m)
             (gPageAllocatorLock m) (gMemBreakpoints m)).

(** ** The page allocator *)

Definition allocatePage (pageNum : Z) (m : MemState) : result (bool * MemState) :=
  if pageNum >=? NUM_PAGES then Ok (false, m)
  else
    m ← lock m;
    if pointer (entry m pageNum) !=? 0 then Ok (true, unlock m)
    else if gFreePageList m =? 0 then Ok (false, m)
    else
      let page := gFreePageList m in
      next ← host_load 8 page m;
      let m := set_gFreePageList next m in
      if in_block m page PAGE_SIZE then
        let m := set_host (host_memset (Z.to_nat PAGE_SIZE) page 0 (host m)) m in
        let m := set_pointer pageNum page m in
        Ok (true, unlock m)
      else Err (HostFault page).

Definition freePage (pageNum : Z) (m : MemState) : result MemState :=
  if pageNum >=? NUM_PAGES then Ok m
  else
    m ← lock m;
    let freed := pointer (entry m pageNum) in
    if freed =? 0 then Ok m
    else
      let m := set_pointer pageNum 0 m in
      let m := set_perm pageNum NONE m in
      m ← host_store 8 freed (gFreePageList m) m;
      let m := set_gFreePageList freed m in
      Ok (unlock m).

Definition protectPage (pageNum : Z) (q : Permission) (m : MemState) : MemState :=
  if pageNum >=? NUM_PAGES then m
  else if pointer (entry m pageNum) =? 0 then m
  else set_perm pageNum q m.

(** [return false] ends the loop: the rest of the rounds see [false]. *)
Definition allocateRegion (beginPageNum numPages : Z) (m : MemState)
    : result (bool * MemState) :=
  let fix loop (fuel : nat) (i : Z) (m : MemState) : result (bool * MemState) :=
    if i <? numPages then
      match fuel with
      | O => Err Diverges
      | S fuel =>
          '(ok, m) ← allocatePage (u64 (beginPageNum + i)) m;
          if (ok : bool) then loop fuel (u32 (i + 1)) m else Ok (false, m)
      end
    else Ok (true, m) in
  loop (loopFuel numPages) 0 m.

Definition freeRegion (beginPageNum numPages : Z) (m : MemState) : result MemState :=
  whileU32 (loopFuel numPages) 0 numPages
    (fun i m => m ← freePage (u64 (beginPageNum + i)) m; Ok (i + 1, m)) m.

Definition protectRegion (beginPageNum numPages : Z) (q : Permission) (m : MemState)
    : result MemState :=
  whileU32 (loopFuel numPages) 0 numPages
    (fun i m => Ok (i + 1, protectPage (u64 (beginPageNum + i)) q m)) m.

(** ** Translation and access *)

Definition isValid (addr : Z) (m : MemState) : bool :=
  let pageNum := getPageNum addr in
  if pageNum >=? NUM_PAGES then false
  else if addr <? PAGE_SIZE then false
  else pointer (entry m pageNum) !=? 0.

Definition getPermission (addr : Z) (m : MemState) : Permission :=
  let pageNum := getPageNum addr in
  if pageNum >=? NUM_PAGES then NONE else perm (entry m (getPageNum addr)).

Definition translate (addr : Z) (m : MemState) : result Z :=
  let pageNum := getPageNum addr in
  let pageOffset := Z.land addr PAGE_OFFSET_MASK in
  if (pageNum >=? NUM_PAGES) || (pointer (entry m pageNum) =? 0)
  then Err (SegFault addr)
  else Ok (pointer (entry m pageNum) + pageOffset).

(** [read<T>], [inspect<T>], [fetch] and [write<T>] for a [T] of [n] bytes. *)
Definition read (n addr : Z) (m : MemState) : result Z :=
  p ← translate addr m; host_load n p m.

Definition write (n addr data : Z) (m : MemState) : result MemState :=
  p ← translate addr m; host_store n p data m.

(** [compare_exchange_strong]; both comparands are values of [T]. *)
Definition writeAtomic (n addr data expected : Z) (m : MemState)
    : result (bool * MemState) :=
  p ← translate addr m;
  old ← host_load n p m;
  if old =? wrap (8 * n) expected
  then m ← host_store n p data m; Ok (true, m)
  else Ok (false, m).

(** [_InterlockedCompareExchange128] faults on a destination that is not 16-byte
    aligned. *)
Definition writeAtomic128 (addr dataLo dataHigh expectedLo expectedHigh : Z)
    (m : MemState) : result (bool * MemState) :=
  p ← translate addr m;
  _ ← (if p mod 16 =? 0 then Ok tt else Err (HostFault p));
  lo ← host_load 8 p m;
  hi ← host_load 8 (p + 8) m;
  if (lo =? expectedLo) && (hi =? expectedHigh)
  then m ← host_store 8 p dataLo m; m ← host_store 8 (p + 8) dataHigh m; Ok (true, m)
  else Ok (false, m).

(** ** Regions *)

(** The test for copying a whole page at once. *)
Definition wholePage (addr i len : Z) : bool :=
  (Z.land (u64 (addr + i)) PAGE_OFFSET_MASK =? 0) && (i + PAGE_SIZE <? len).

Definition data_at (data : list Z) (i : Z) : Z := nth (Z.to_nat i) data 0.

Definition writeRegion (addr : Z) (data : list Z) (m : MemState) : result MemState :=
  let len := Z.of_nat (length data) in
  whileU32 (loopFuel len) 0 len
    (fun i m =>
       if wholePage addr i len then
         p ← translate (u64 (addr + i)) m;
         if in_block m p PAGE_SIZE then
           Ok (i + PAGE_SIZE,
               set_host (host_memcpy_to p
                 (take (Z.to_nat PAGE_SIZE) (drop (Z.to_nat i) data)) (host m)) m)
         else Err (HostFault p)
       else
         m ← write 1 (u64 (addr + i)) (data_at data i) m;
         Ok (i + 1, m)) m.

(** The loop fills [data[0 .. len)] front to back; its state is the part filled. *)
Definition readRegion (addr len : Z) (m : MemState) : result (list Z) :=
  whileU32 (loopFuel len) 0 len
    (fun i data =>
       if wholePage addr i len then
         p ← translate (u64 (addr + i)) m;
         if in_block m p PAGE_SIZE then
           Ok (i + PAGE_SIZE,
               data ++ host_memcpy_from (Z.to_nat PAGE_SIZE) p (host m))
         else Err (HostFault p)
       else
         b ← read 1 (u64 (addr + i)) m;
         Ok (i + 1, data ++ [b])) [].

(** In the last branch [write(addr + i, 0)] deduces [T = int]: four bytes. *)
Definition zeroMem (addr len : Z) (m : MemState) : result MemState :=
  whileU32 (loopFuel len) 0 len
    (fun i m =>
       if wholePage addr i len then
         p ← translate (u64 (addr + i)) m;
         if in_block m p PAGE_SIZE then
           Ok (i + PAGE_SIZE,
               set_host (host_memset (Z.to_nat PAGE_SIZE) p 0 (host m)) m)
         else Err (HostFault p)
       else
         m ← write 4 (u64 (addr + i)) 0 m;
         Ok (i + 1, m)) m.

(** ** The implementation of the interpreter's memory interface *)

#[export] Instance MemState_GuestMemory : GuestMemory MemState := {
  mread := read;
  mwrite := write;
  mwriteAtomic := writeAtomic;
  mwriteAtomic128 := writeAtomic128;
  mbreakpoint addr m := bool_decide (addr ∈ gMemBreakpoints m);
}.
