(* ===== verification/MemoryInv.v ===== *)
(** * The page allocator keeps its invariant, and guest memory its laws

    Lemmas on host memory, the invariant of the page table and the free list, and its
    preservation by every operation; then reads and writes inside one page, which succeed,
    preserve the invariant, and satisfy the laws of [GuestMemoryLaws]. *)
From S2P Require Import Prelude BitUtils Core Machine Memory.

(** * Host memory *)

(** Every byte of the block is a [uint8_t]. *)
Definition bytes_ok (h : HostMem) : Prop := forall p, uint 8 (byte_at h p).

Lemma byte_at_insert h p q v :
  byte_at (<[p:=v]> h) q = if p =? q then v else byte_at h q.
Proof.
  unfold byte_at. destruct (Z.eqb_spec p q) as [->|Hne].
  - by rewrite lookup_insert_eq.
  - by rewrite lookup_insert_ne.
Qed.

Ltac decide_eqb :=
  repeat match goal with
  | |- context [?a =? ?b] => destruct (Z.eqb_spec a b); subst; try lia
  end.

Lemma bytes_ok_insert h p v : bytes_ok h -> uint 8 v -> bytes_ok (<[p:=v]> h).
Proof. intros Hh Hv q. rewrite byte_at_insert. by destruct (p =? q). Qed.

Lemma byte_at_store_le n p v h q :
  byte_at (store_le n p v h) q =
  if (p <=? q) && (q <? p + Z.of_nat n)
  then (v / 256 ^ (q - p)) mod 256 else byte_at h q.
Proof.
  revert p v h. induction n as [|n IH]; intros p v h; cbn [store_le].
  - replace (p + Z.of_nat 0) with p by lia. decide_ltb; cbn [andb]; done || lia.
  - rewrite IH, byte_at_insert.
    destruct (Z.eqb_spec p q) as [<-|Hne].
    + rewrite Z.sub_diag, Z.div_1_r. decide_ltb; try lia; done.
    + destruct (Z.leb_spec (p + 1) q), (Z.leb_spec p q); try lia; cbn [andb]; [|done].
      replace (p + 1 + Z.of_nat n) with (p + Z.of_nat (S n)) by lia.
      destruct (Z.ltb_spec q (p + Z.of_nat (S n))); [|done].
      rewrite Z.div_div by lia. f_equal. f_equal.
      rewrite <-Z.pow_succ_r by lia. f_equal. lia.
Qed.

Lemma byte_at_memset n p v h q :
  byte_at (host_memset n p v h) q =
  if (p <=? q) && (q <? p + Z.of_nat n) then v else byte_at h q.
Proof.
  revert p h. induction n as [|n IH]; intros p h; cbn [host_memset].
  - decide_ltb; cbn [andb]; done || lia.
  - rewrite IH, byte_at_insert. decide_eqb; decide_ltb; try lia; done.
Qed.

Lemma byte_at_memcpy_to p data h q :
  byte_at (host_memcpy_to p data h) q =
  if (p <=? q) && (q <? p + Z.of_nat (length data))
  then nth (Z.to_nat (q - p)) data 0 else byte_at h q.
Proof.
  revert p h. induction data as [|b data IH]; intros p h; cbn [host_memcpy_to length].
  - decide_ltb; cbn [andb]; done || lia.
  - rewrite IH, byte_at_insert. destruct (Z.eqb_spec p q) as [<-|Hne].
    + rewrite Z.sub_diag. decide_ltb; try lia; done.
    + destruct (Z.leb_spec (p + 1) q), (Z.leb_spec p q); try lia; cbn [andb]; [|done].
      replace (Z.to_nat (q - p)) with (S (Z.to_nat (q - (p + 1)))) by lia.
      replace (p + 1 + Z.of_nat (length data)) with
        (p + Z.of_nat (S (length data))) by lia. done.
Qed.

Lemma length_memcpy_from n p h : length (host_memcpy_from n p h) = n.
Proof. revert p. induction n; intros p; simpl; [done|]. by rewrite IHn. Qed.

Lemma nth_memcpy_from n p h i :
  (i < n)%nat -> nth i (host_memcpy_from n p h) 0 = byte_at h (p + Z.of_nat i).
Proof.
  revert p i. induction n as [|n IH]; intros p i Hi; [lia|]. simpl.
  destruct i as [|i]; [by rewrite Z.add_0_r|].
  rewrite IH by lia. f_equal. lia.
Qed.

Lemma bytes_ok_store_le n p v h : bytes_ok h -> bytes_ok (store_le n p v h).
Proof.
  intros Hh q. rewrite byte_at_store_le. destruct (_ && _); [|apply Hh].
  unfold uint. change (2 ^ 8) with 256. apply Z.mod_pos_bound. lia.
Qed.

Lemma bytes_ok_memset n p v h : uint 8 v -> bytes_ok h -> bytes_ok (host_memset n p v h).
Proof. intros Hv Hh q. rewrite byte_at_memset. by destruct (_ && _). Qed.

Lemma bytes_ok_memcpy_to p data h :
  Forall (uint 8) data -> bytes_ok h -> bytes_ok (host_memcpy_to p data h).
Proof.
  intros Hd Hh q. rewrite byte_at_memcpy_to. destruct (_ && _) eqn:E; [|apply Hh].
  apply andb_true_iff in E as [E1%Z.leb_le E2%Z.ltb_lt].
  rewrite Forall_forall in Hd. apply Hd, list_elem_of_In, nth_In. lia.
Qed.

(** ** Loads *)

Lemma load_le_uint n p h : bytes_ok h -> uint (8 * Z.of_nat n) (load_le n p h).
Proof.
  intros Hh. revert p. induction n as [|n IH]; intros p; [unfold uint; simpl; lia|].
  cbn [load_le]. specialize (IH (p + 1)). specialize (Hh p). unfold uint in *.
  change (2 ^ 8) with 256 in Hh.
  replace (8 * Z.of_nat (S n)) with (8 + 8 * Z.of_nat n) by lia.
  rewrite Z.pow_add_r by lia. change (2 ^ 8) with 256. lia.
Qed.

Lemma load_le_ext n p h h' :
  (forall q, p <= q < p + Z.of_nat n -> byte_at h q = byte_at h' q) ->
  load_le n p h = load_le n p h'.
Proof.
  revert p. induction n as [|n IH]; intros p Hq; [done|]. cbn [load_le].
  rewrite (Hq p) by lia. f_equal. f_equal. apply IH. intros q Hr. apply Hq. lia.
Qed.

Lemma load_store_le n p v h :
  load_le n p (store_le n p v h) = v mod 256 ^ Z.of_nat n.
Proof.
  revert p v h. induction n as [|n IH]; intros p v h; [by rewrite Z.mod_1_r|].
  cbn [store_le load_le]. rewrite IH.
  rewrite byte_at_store_le, byte_at_insert, Z.eqb_refl.
  destruct (Z.leb_spec (p + 1) p); [lia|]. cbn [andb].
  replace (256 ^ Z.of_nat (S n)) with (256 * 256 ^ Z.of_nat n).
  - rewrite Z.rem_mul_r by (try apply Z.pow_pos_nonneg; lia). lia.
  - rewrite <-Z.pow_succ_r by lia. f_equal. lia.
Qed.

Lemma load_store_le_wrap n p v h :
  0 <= n -> load_le (Z.to_nat n) p (store_le (Z.to_nat n) p v h) = wrap (8 * n) v.
Proof.
  intros Hn. rewrite load_store_le, Z2Nat.id by lia. unfold wrap.
  by rewrite Z.pow_mul_r by lia.
Qed.

Lemma load_store_le_ne n p v h n' q :
  q + Z.of_nat n' <= p \/ p + Z.of_nat n <= q ->
  load_le n' q (store_le n p v h) = load_le n' q h.
Proof.
  intros Hd. apply load_le_ext. intros r Hr. rewrite byte_at_store_le.
  decide_ltb; try lia; done.
Qed.

Lemma load_memset_ne n p v h n' q :
  q + Z.of_nat n' <= p \/ p + Z.of_nat n <= q ->
  load_le n' q (host_memset n p v h) = load_le n' q h.
Proof.
  intros Hd. apply load_le_ext. intros r Hr. rewrite byte_at_memset.
  decide_ltb; try lia; done.
Qed.

Lemma load_memset_zero n p h n' q :
  p <= q -> q + Z.of_nat n' <= p + Z.of_nat n ->
  load_le n' q (host_memset n p 0 h) = 0.
Proof.
  revert q. induction n' as [|n' IH]; intros q H1 H2; [done|]. cbn [load_le].
  rewrite IH by lia. rewrite byte_at_memset. decide_ltb; try lia; done.
Qed.

Lemma load_le_1 p h : load_le 1 p h = byte_at h p.
Proof. cbn [load_le]. lia. Qed.

(** * The invariant *)

(** ** Address arithmetic *)

Lemma PAGE_SIZE_eq : PAGE_SIZE = 4096.
Proof. reflexivity. Qed.

Lemma NUM_PAGES_eq : NUM_PAGES = 2 ^ 26.
Proof. reflexivity. Qed.

Lemma getPageNum_div addr : getPageNum addr = addr / PAGE_SIZE.
Proof. unfold getPageNum. by rewrite Z.shiftr_div_pow2 by done. Qed.

Lemma pageOffset_mod addr : Z.land addr PAGE_OFFSET_MASK = addr mod PAGE_SIZE.
Proof. change PAGE_OFFSET_MASK with (Z.ones 12). by rewrite Z.land_ones by lia. Qed.

Lemma pageOffset_bounds addr : 0 <= addr mod PAGE_SIZE < PAGE_SIZE.
Proof. apply Z.mod_pos_bound. by rewrite PAGE_SIZE_eq. Qed.

(** ** The invariant *)

Definition is_page (m : MemState) (p : Z) : Prop :=
  gMemBase m <= p /\ p + PAGE_SIZE <= gMemBase m + memBytes m /\
  (p - gMemBase m) mod PAGE_SIZE = 0.

(** Following the links from [p] visits the pages of [l] and ends in [nullptr]. *)
Fixpoint chain (h : HostMem) (p : Z) (l : list Z) : Prop :=
  match l with
  | [] => p = 0
  | q :: l => p = q /\ chain h (load_le 8 q h) l
  end.

Record mem_inv (m : MemState) (free : list Z) : Prop := {
  inv_base : 0 < gMemBase m;
  inv_range : gMemBase m + memBytes m <= 2 ^ 64;
  inv_bytes : bytes_ok (host m);
  inv_chain : chain (host m) (gFreePageList m) free;
  inv_free_pages : Forall (is_page m) free;
  inv_free_nodup : NoDup free;
  inv_mapped n :
    pointer (entry m n) <> 0 ->
    is_page m (pointer (entry m n)) /\ ~ In (pointer (entry m n)) free;
  inv_inj n n' :
    pointer (entry m n) <> 0 -> pointer (entry m n) = pointer (entry m n') -> n = n';
  inv_all p : is_page m p -> In p free \/ exists n, pointer (entry m n) = p;
  inv_unlocked : gPageAllocatorLock m = false;
}.

Definition mem_wf (m : MemState) : Prop := exists free, mem_inv m free.

(** ** Pages *)

Lemma pages_disjoint m p q :
  is_page m p -> is_page m q -> p <> q -> p + PAGE_SIZE <= q \/ q + PAGE_SIZE <= p.
Proof.
  rewrite PAGE_SIZE_eq. intros (_ & _ & Hp) (_ & _ & Hq) Hne. revert Hp Hq.
  rewrite PAGE_SIZE_eq. intros Hp Hq.
  pose proof (Z.div_mod (p - gMemBase m) 4096 ltac:(lia)).
  pose proof (Z.div_mod (q - gMemBase m) 4096 ltac:(lia)). lia.
Qed.

Lemma is_page_nonnull m free p : mem_inv m free -> is_page m p -> 0 < p < 2 ^ 64.
Proof.
  intros Hi (H1 & H2 & _). pose proof (inv_base m free Hi).
  pose proof (inv_range m free Hi). rewrite PAGE_SIZE_eq in H2. lia.
Qed.

Lemma in_block_page m p n :
  is_page m p -> 0 <= n <= PAGE_SIZE -> in_block m p n = true.
Proof.
  intros (H1 & H2 & _) Hn. unfold in_block. apply andb_true_iff.
  split; apply Z.leb_le; lia.
Qed.

Lemma in_block_offset m p o n :
  is_page m p -> 0 <= o -> 0 <= n -> o + n <= PAGE_SIZE -> in_block m (p + o) n = true.
Proof.
  intros (H1 & H2 & _) Ho Hn Hon. unfold in_block. apply andb_true_iff.
  split; apply Z.leb_le; lia.
Qed.

(** The links of the free list survive changes outside the free pages. *)
Lemma chain_frame h h' p l :
  (forall q r, In q l -> q <= r < q + 8 -> byte_at h r = byte_at h' r) ->
  chain h p l -> chain h' p l.
Proof.
  revert p. induction l as [|q l IH]; intros p Hf; [done|]. cbn [chain].
  intros [-> Hc]. split; [done|]. rewrite <-(load_le_ext 8 q h h').
  - apply IH; [|done]. intros q' r Hin. apply Hf. by right.
  - intros r Hr. apply (Hf q); [by left|lia].
Qed.

(** The page table after an update of one entry. *)
Lemma entry_set_pointer m n p n' :
  entry (set_pointer n p m) n' =
  if n =? n' then mkPTE p (perm (entry m n)) else entry m n'.
Proof.
  unfold set_pointer, entry at 1. cbn [set_gMainPageTable gMainPageTable].
  destruct (Z.eqb_spec n n') as [<-|Hne].
  - by rewrite lookup_insert_eq.
  - by rewrite lookup_insert_ne.
Qed.

Lemma entry_set_perm m n q n' :
  entry (set_perm n q m) n' =
  if n =? n' then mkPTE (pointer (entry m n)) q else entry m n'.
Proof.
  unfold set_perm, entry at 1. cbn [set_gMainPageTable gMainPageTable].
  destruct (Z.eqb_spec n n') as [<-|Hne].
  - by rewrite lookup_insert_eq.
  - by rewrite lookup_insert_ne.
Qed.

Lemma pointer_set_perm m n q n' :
  pointer (entry (set_perm n q m) n') = pointer (entry m n').
Proof. rewrite entry_set_perm. destruct (Z.eqb_spec n n') as [->|]; done. Qed.

(** ** [allocatePage] *)

(** The state after a page [p] is taken from the free list for [n]. *)
Definition allocated_state (n p : Z) (m : MemState) : MemState :=
  set_pointer n p
    (set_host (host_memset (Z.to_nat PAGE_SIZE) p 0 (host m))
      (set_gFreePageList (load_le 8 p (host m)) m)).

Lemma lock_unlocked m free :
  mem_inv m free -> lock m = Ok (set_gPageAllocatorLock true m).
Proof. intros Hi. unfold lock. by rewrite (inv_unlocked m free Hi). Qed.

Lemma unlock_locked m : gPageAllocatorLock m = false ->
  unlock (set_gPageAllocatorLock true m) = m.
Proof. destruct m; simpl. by intros ->. Qed.

(** Unmapped page, free page available. *)
Lemma allocatePage_take m p l n :
  mem_inv m (p :: l) -> n < NUM_PAGES -> pointer (entry m n) = 0 ->
  allocatePage n m = Ok (true, allocated_state n p m).
Proof.
  intros Hi Hn Hp. pose proof (inv_chain _ _ Hi) as [Hfl Hch].
  pose proof (Forall_inv (inv_free_pages _ _ Hi)) as Hpage.
  pose proof (is_page_nonnull m _ p Hi Hpage) as Hpos.
  unfold allocatePage. rewrite Z.geb_leb, (proj2 (Z.leb_gt NUM_PAGES n)) by lia.
  rewrite (lock_unlocked m _ Hi). cbn [mbind result_bind].
  change (entry (set_gPageAllocatorLock true m) n) with (entry m n).
  rewrite Hp. cbn [Z.eqb negb].
  change (gFreePageList (set_gPageAllocatorLock true m)) with (gFreePageList m).
  rewrite Hfl, (proj2 (Z.eqb_neq p 0)) by lia.
  unfold host_load.
  change (in_block (set_gPageAllocatorLock true m) p 8) with (in_block m p 8).
  rewrite (in_block_page m p 8) by (done || (rewrite PAGE_SIZE_eq; lia)).
  cbn [mbind result_bind].
  change (in_block (set_gFreePageList _ (set_gPageAllocatorLock true m)) p PAGE_SIZE)
    with (in_block m p PAGE_SIZE).
  rewrite (in_block_page m p PAGE_SIZE) by (done || (rewrite PAGE_SIZE_eq; lia)).
  do 2 f_equal. unfold allocated_state. pose proof (inv_unlocked _ _ Hi) as Hl.
  cbn [host set_gFreePageList set_gPageAllocatorLock].
  change (Z.to_nat 8) with 8%nat.
  generalize (host_memset (Z.to_nat PAGE_SIZE) p 0 (host m)) (load_le 8 p (host m)).
  intros h q. destruct m; cbn in Hl; subst; reflexivity.
Qed.

Lemma allocated_inv m p l n :
  mem_inv m (p :: l) -> pointer (entry m n) = 0 ->
  mem_inv (allocated_state n p m) l.
Proof.
  intros Hi Hp. pose proof (inv_chain _ _ Hi) as [Hfl Hch].
  pose proof (Forall_inv (inv_free_pages _ _ Hi)) as Hpage.
  pose proof (is_page_nonnull m _ p Hi Hpage) as Hpos.
  pose proof (inv_free_nodup _ _ Hi) as Hnd. apply NoDup_cons in Hnd as [Hnotin Hnd].
  rewrite list_elem_of_In in Hnotin.
  assert (forall n', pointer (entry (allocated_state n p m) n') =
            if n =? n' then p else pointer (entry m n')) as Hptr.
  { intros n'. unfold allocated_state. rewrite entry_set_pointer.
    by destruct (n =? n'). }
  constructor.
  - apply (inv_base _ _ Hi).
  - apply (inv_range _ _ Hi).
  - apply bytes_ok_memset; [unfold uint; lia|apply (inv_bytes _ _ Hi)].
  - unfold allocated_state. cbn [set_pointer set_gMainPageTable set_host host
      gFreePageList set_gFreePageList].
    eapply chain_frame; [|exact Hch]. intros q r Hin Hr.
    rewrite byte_at_memset.
    pose proof (inv_free_pages _ _ Hi) as Hall. rewrite Forall_forall in Hall.
    assert (is_page m q) as Hq by (apply Hall, list_elem_of_In; by right).
    assert (p <> q) as Hne by congruence.
    pose proof (pages_disjoint m p q Hpage Hq Hne) as Hd. rewrite PAGE_SIZE_eq in Hd.
    change (Z.of_nat (Z.to_nat PAGE_SIZE)) with 4096. decide_ltb; try lia; done.
  - exact (Forall_inv_tail (inv_free_pages _ _ Hi)).
  - exact Hnd.
  - intros n' Hn'. rewrite Hptr in *. destruct (n =? n'); [done|].
    destruct (inv_mapped _ _ Hi n' Hn') as [H1 H2]. split; [done|].
    intros Hin. apply H2. by right.
  - intros n1 n2. rewrite !Hptr.
    destruct (Z.eqb_spec n n1), (Z.eqb_spec n n2); try congruence; intros H1 H2.
    + exfalso. destruct (inv_mapped _ _ Hi n2) as [_ H3]; [lia|]. apply H3. left. lia.
    + exfalso. destruct (inv_mapped _ _ Hi n1) as [_ H3]; [lia|]. apply H3. left. lia.
    + by apply (inv_inj _ _ Hi).
  - intros q Hq. destruct (Z.eq_dec q p) as [->|Hne].
    + right. exists n. by rewrite Hptr, Z.eqb_refl.
    + destruct (inv_all _ _ Hi q Hq) as [[->|Hin]|[n' Hn']]; [done|by left|].
      right. exists n'. rewrite Hptr. destruct (Z.eqb_spec n n') as [->|]; [|done].
      exfalso. destruct Hq as (Hq & _). pose proof (inv_base _ _ Hi).
      change (gMemBase (allocated_state n' p m)) with (gMemBase m) in Hq. lia.
  - apply (inv_unlocked _ _ Hi).
Qed.

(** Already mapped: nothing changes. *)
Lemma allocatePage_mapped m free n :
  mem_inv m free -> n < NUM_PAGES -> pointer (entry m n) <> 0 ->
  allocatePage n m = Ok (true, m).
Proof.
  intros Hi Hn Hp. unfold allocatePage.
  rewrite Z.geb_leb, (proj2 (Z.leb_gt NUM_PAGES n)) by lia.
  rewrite (lock_unlocked m _ Hi). cbn [mbind result_bind].
  change (entry (set_gPageAllocatorLock true m) n) with (entry m n).
  rewrite (proj2 (Z.eqb_neq _ 0)) by done. cbn [negb].
  by rewrite unlock_locked by apply (inv_unlocked _ _ Hi).
Qed.

(** No free page: the function fails and leaves the lock taken. *)
Lemma allocatePage_exhausted m n :
  mem_inv m [] -> n < NUM_PAGES -> pointer (entry m n) = 0 ->
  allocatePage n m = Ok (false, set_gPageAllocatorLock true m).
Proof.
  intros Hi Hn Hp. unfold allocatePage.
  rewrite Z.geb_leb, (proj2 (Z.leb_gt NUM_PAGES n)) by lia.
  rewrite (lock_unlocked m _ Hi). cbn [mbind result_bind].
  change (entry (set_gPageAllocatorLock true m) n) with (entry m n).
  rewrite Hp. cbn [Z.eqb negb].
  change (gFreePageList (set_gPageAllocatorLock true m)) with (gFreePageList m).
  by rewrite (inv_chain _ _ Hi).
Qed.

(** ** [freePage] *)

Definition freed_state (n : Z) (m : MemState) : MemState :=
  let freed := pointer (entry m n) in
  set_gFreePageList freed
    (set_host (store_le 8 freed (gFreePageList m) (host m))
      (set_perm n NONE (set_pointer n 0 m))).

Lemma freePage_mapped m free n :
  mem_inv m free -> n < NUM_PAGES -> pointer (entry m n) <> 0 ->
  freePage n m = Ok (freed_state n m).
Proof.
  intros Hi Hn Hp. destruct (inv_mapped _ _ Hi n Hp) as [Hpage _].
  unfold freePage. rewrite Z.geb_leb, (proj2 (Z.leb_gt NUM_PAGES n)) by lia.
  rewrite (lock_unlocked m _ Hi). cbn [mbind result_bind].
  change (entry (set_gPageAllocatorLock true m) n) with (entry m n).
  rewrite (proj2 (Z.eqb_neq _ 0)) by done. unfold host_store.
  match goal with |- context [in_block ?m' ?p 8] =>
    change (in_block m' p 8) with (in_block m p 8) end.
  rewrite (in_block_page m _ 8) by (done || (rewrite PAGE_SIZE_eq; lia)).
  cbn [mbind result_bind]. f_equal. unfold freed_state.
  pose proof (inv_unlocked _ _ Hi) as Hl.
  destruct m; cbn in Hl; subst; reflexivity.
Qed.

(** Not mapped: the function returns with the lock taken. *)
Lemma freePage_unmapped m free n :
  mem_inv m free -> n < NUM_PAGES -> pointer (entry m n) = 0 ->
  freePage n m = Ok (set_gPageAllocatorLock true m).
Proof.
  intros Hi Hn Hp. unfold freePage.
  rewrite Z.geb_leb, (proj2 (Z.leb_gt NUM_PAGES n)) by lia.
  rewrite (lock_unlocked m _ Hi). cbn [mbind result_bind].
  change (entry (set_gPageAllocatorLock true m) n) with (entry m n).
  by rewrite Hp.
Qed.

Lemma pointer_freed_state m n n' :
  pointer (entry (freed_state n m) n') =
  if n =? n' then 0 else pointer (entry m n').
Proof.
  unfold freed_state. cbv zeta.
  change (entry (set_gFreePageList ?p (set_host ?h ?m1)) n') with (entry m1 n').
  rewrite pointer_set_perm, entry_set_pointer. by destruct (n =? n').
Qed.

Lemma freed_inv m free n :
  mem_inv m free -> pointer (entry m n) <> 0 ->
  mem_inv (freed_state n m) (pointer (entry m n) :: free).
Proof.
  intros Hi Hp. destruct (inv_mapped _ _ Hi n Hp) as [Hpage Hnotin].
  pose proof (pointer_freed_state m n) as Hptr.
  constructor.
  - apply (inv_base _ _ Hi).
  - apply (inv_range _ _ Hi).
  - apply bytes_ok_store_le, (inv_bytes _ _ Hi).
  - split; [done|]. unfold freed_state. cbn [set_gFreePageList set_host host].
    rewrite load_store_le.
    assert (chain (store_le 8 (pointer (entry m n)) (gFreePageList m) (host m))
              (gFreePageList m) free) as Hc.
    { eapply chain_frame; [|apply (inv_chain _ _ Hi)]. intros q r Hin Hr.
      rewrite byte_at_store_le.
      pose proof (inv_free_pages _ _ Hi) as Hall. rewrite Forall_forall in Hall.
      assert (is_page m q) as Hq by by apply Hall, list_elem_of_In.
      assert (pointer (entry m n) <> q) as Hne by congruence.
      pose proof (pages_disjoint m _ q Hpage Hq Hne) as Hd. rewrite PAGE_SIZE_eq in Hd.
      decide_ltb; try lia; done. }
    rewrite Z.mod_small; [exact Hc|]. change (256 ^ Z.of_nat 8) with (2 ^ 64).
    pose proof (inv_chain _ _ Hi) as Hc'. destruct free as [|q l].
    + simpl in Hc'. lia.
    + destruct Hc' as [Hfl _]. rewrite Hfl.
      pose proof (is_page_nonnull m _ q Hi (Forall_inv (inv_free_pages _ _ Hi))). lia.
  - constructor; [done|]. apply (inv_free_pages _ _ Hi).
  - apply NoDup_cons. split; [by rewrite list_elem_of_In|apply (inv_free_nodup _ _ Hi)].
  - intros n' Hn'. rewrite Hptr in *. destruct (Z.eqb_spec n n') as [|Hne]; [done|].
    destruct (inv_mapped _ _ Hi n' Hn') as [H1 H2]. split; [done|].
    intros [E|Hin]; [|done]. apply Hne. by apply (inv_inj _ _ Hi).
  - intros n1 n2. rewrite !Hptr.
    destruct (Z.eqb_spec n n1), (Z.eqb_spec n n2); try congruence; intros H1 H2.
    by apply (inv_inj _ _ Hi).
  - intros q Hq. destruct (inv_all _ _ Hi q Hq) as [Hin|[n' Hn']].
    + left. by right.
    + destruct (Z.eq_dec n n') as [->|Hne].
      * left. by left.
      * right. exists n'. rewrite Hptr. by rewrite (proj2 (Z.eqb_neq n n')).
  - apply (inv_unlocked _ _ Hi).
Qed.

(** ** Loops over a [uint32_t] counter *)

(** The rule for [whileU32]: an invariant of the rounds, a counter that advances and
    stays within the limit, and enough fuel; the loop then ends and returns. *)
Lemma whileU32_inv {S} (I : Z -> S -> Prop) (limit : Z) (body : Z -> S -> result (Z * S))
    (fuel : nat) (i : Z) (s : S) :
  0 <= i <= limit -> limit < 2 ^ 32 -> limit - i < Z.of_nat fuel -> I i s ->
  (forall i s, 0 <= i < limit -> I i s ->
     exists j s', body i s = Ok (j, s') /\ i < j <= limit /\ I j s') ->
  exists s', whileU32 fuel i limit body s = Ok s' /\ I limit s'.
Proof.
  intros Hi Hlim Hfuel HI Hbody. revert i s Hi Hfuel HI.
  induction fuel as [|fuel IH]; intros i s Hi Hfuel HI; [lia|]. cbn [whileU32].
  destruct (Z.ltb_spec i limit).
  - destruct (Hbody i s) as (j & s' & -> & Hj & HI'); [lia|done|].
    cbn [mbind result_bind]. unfold u32. rewrite (wrap_id 32) by (unfold uint; lia).
    apply IH; [lia|lia|done].
  - exists s. split; [done|]. by replace limit with i by lia.
Qed.

(** ** [init] *)

Definition page_list (base : Z) (n : nat) : list Z :=
  map (fun i => base + Z.of_nat i * PAGE_SIZE) (seq 0 n).

Lemma in_page_list base n p :
  In p (page_list base n) <-> exists i, (i < n)%nat /\ p = base + Z.of_nat i * PAGE_SIZE.
Proof.
  unfold page_list. rewrite in_map_iff. split.
  - intros (i & <- & Hi). apply in_seq in Hi. exists i. split; [lia|done].
  - intros (i & Hi & ->). exists i. split; [done|]. apply in_seq. lia.
Qed.

(** The links [init] writes, from page [k] on. *)
Lemma chain_pages h base n k :
  (forall i, (k <= i < k + n)%nat ->
     load_le 8 (base + Z.of_nat i * PAGE_SIZE) h =
     if Nat.eqb (S i) (k + n) then 0 else base + Z.of_nat (S i) * PAGE_SIZE) ->
  (0 < n)%nat ->
  chain h (base + Z.of_nat k * PAGE_SIZE)
    (map (fun i => base + Z.of_nat i * PAGE_SIZE) (seq k n)).
Proof.
  revert k. induction n as [|n IH]; intros k Hl Hn; [lia|]. cbn [seq map chain].
  split; [done|]. rewrite Hl by lia.
  destruct (Nat.eqb_spec (S k) (k + S n)).
  - assert (n = 0)%nat as -> by lia. done.
  - apply IH; [|lia]. intros i Hi. rewrite Hl by lia.
    by replace (S k + n)%nat with (k + S n)%nat by lia.
Qed.

Section Init.
Context (base memSize : Z).
Context (Hbase : 0 < base) (Hsize : 0 < memSize < 2 ^ 44).
Context (Hrange : base + memSize <= 2 ^ 64) (Haligned : memSize mod PAGE_SIZE = 0).

Let numPages := memSize / PAGE_SIZE.
Let m0 : MemState := mkMemState base memSize ∅ base ∅ false ∅.

Lemma numPages_spec : memSize = numPages * PAGE_SIZE /\ 0 < numPages < 2 ^ 32.
Proof.
  unfold numPages. rewrite PAGE_SIZE_eq in *.
  pose proof (Z.div_mod memSize 4096 ltac:(lia)). lia.
Qed.

(** After [i] rounds, the first [i] pages are linked. *)
Definition linked (i : Z) (m : MemState) : Prop :=
  m = set_host (host m) m0 /\ bytes_ok (host m) /\
  forall j, 0 <= j < i ->
    load_le 8 (base + j * PAGE_SIZE) (host m) = base + (j + 1) * PAGE_SIZE.

Lemma link_page (i next : Z) (m : MemState) :
  linked i m -> 0 <= i < numPages -> 0 <= next < 2 ^ 64 ->
  exists m', host_store 8 (gMemBase m + i * PAGE_SIZE) next m = Ok m' /\
    linked i m' /\ load_le 8 (base + i * PAGE_SIZE) (host m') = next.
Proof.
  intros (Hm & Hb & Hl) Hi Hnext. pose proof numPages_spec as [Hn _].
  rewrite PAGE_SIZE_eq in *.
  exists (set_host (store_le 8 (base + i * 4096) next (host m)) m). split.
  - assert (gMemBase m = base /\ memBytes m = memSize) as [Eb Es]
      by (rewrite Hm; done).
    unfold host_store, in_block. rewrite Eb, Es.
    assert ((base <=? base + i * 4096) && (base + i * 4096 + 8 <=? base + memSize)
            = true) as -> by (apply andb_true_iff; split; apply Z.leb_le; lia).
    done.
  - split; [split; [|split]|].
    + generalize (store_le 8 (base + i * 4096) next (host m)). intros h.
      rewrite Hm. reflexivity.
    + by apply bytes_ok_store_le.
    + intros j Hj. rewrite PAGE_SIZE_eq. cbn [set_host host].
      rewrite load_store_le_ne by lia. by apply Hl.
    + cbn [set_host host]. rewrite load_store_le. by apply Z.mod_small.
Qed.

Lemma init_links :
  exists m, init base memSize mem_static = Ok (true, m) /\
    m = set_host (host m) m0 /\ bytes_ok (host m) /\
    forall j, 0 <= j < numPages ->
      load_le 8 (base + j * PAGE_SIZE) (host m) =
      if j + 1 =? numPages then 0 else base + (j + 1) * PAGE_SIZE.
Proof.
  pose proof numPages_spec as [Hn Hpos].
  unfold init. rewrite (proj2 (Z.eqb_neq memSize 0)) by lia.
  unfold isPageAligned. rewrite pageOffset_mod, Haligned. cbn [Z.eqb negb].
  rewrite (proj2 (Z.eqb_neq base 0)) by lia.
  cbn [mem_static host gFreePageList gMainPageTable gPageAllocatorLock gMemBreakpoints].
  change (set_gFreePageList _ _) with m0. fold numPages.
  destruct (whileU32_inv linked (numPages - 1)
    (fun i m => m ← host_store 8 (gMemBase m + i * PAGE_SIZE)
                 (gMemBase m + (i + 1) * PAGE_SIZE) m; Ok (i + 1, m))
    (loopFuel (numPages - 1)) 0 m0) as (m1 & -> & Hm1).
  - lia.
  - lia.
  - unfold loopFuel. lia.
  - split; [done|split; [|intros; lia]]. intros p. unfold byte_at.
    cbn [m0 host]. rewrite lookup_empty. unfold uint. simpl. lia.
  - intros i m Hi Hl.
    assert (gMemBase m = base) as Eb by (destruct Hl as (Hm & _); rewrite Hm; done).
    destruct (link_page i (gMemBase m + (i + 1) * PAGE_SIZE) m Hl)
      as (m' & -> & Hl' & Hlast); [lia|rewrite Eb, PAGE_SIZE_eq in *; lia|].
    exists (i + 1), m'. cbn [mbind result_bind]. split; [done|]. split; [lia|].
    destruct Hl' as (H1 & H2 & H3). split; [done|split; [done|]].
    intros j Hj. destruct (Z.eq_dec j i) as [->|]; [|apply H3; lia].
    by rewrite Hlast, Eb.
  - cbn [mbind result_bind].
    destruct (link_page (numPages - 1) 0 m1 Hm1) as (m2 & -> & (H1 & H2 & H3) & Hlast);
      [lia|lia|].
    cbn [mbind result_bind]. exists m2.
    split; [done|split; [done|split; [done|]]]. intros j Hj. destruct (Z.eqb_spec (j + 1) numPages).
    + by replace j with (numPages - 1) by lia.
    + apply H3. lia.
Qed.

Lemma init_inv :
  exists m, init base memSize mem_static = Ok (true, m) /\
    mem_inv m (page_list base (Z.to_nat numPages)) /\
    gMainPageTable m = ∅ /\ gMemBase m = base /\ memBytes m = memSize.
Proof.
  destruct init_links as (m & Hm & Heq & Hb & Hl). exists m. split; [done|].
  pose proof numPages_spec as [Hn Hpos]. rewrite PAGE_SIZE_eq in *.
  assert (gMainPageTable m = ∅ /\ gMemBase m = base /\ memBytes m = memSize /\
    gFreePageList m = base /\ gPageAllocatorLock m = false) as (Ht & Hb' & Hs & Hf & Hlk)
    by (rewrite Heq; done).
  assert (forall n, pointer (entry m n) = 0) as Hptr.
  { intros n. unfold entry. by rewrite Ht, lookup_empty. }
  split; [|done]. constructor; try done.
  - by rewrite Hb'.
  - rewrite Hb', Hs. lia.
  - unfold page_list. replace (gFreePageList m) with (base + Z.of_nat 0 * PAGE_SIZE)
      by (rewrite Hf; lia).
    apply chain_pages; [|lia]. intros i Hi. rewrite PAGE_SIZE_eq, Hl by lia.
    destruct (Z.eqb_spec (Z.of_nat i + 1) numPages),
      (Nat.eqb_spec (S i) (0 + Z.to_nat numPages)); lia.
  - apply Forall_forall. intros p Hp. apply list_elem_of_In, in_page_list in Hp
      as (i & Hi & ->). unfold is_page. rewrite Hb', Hs, PAGE_SIZE_eq.
    split; [lia|split; [lia|]].
    replace (base + Z.of_nat i * 4096 - base) with (Z.of_nat i * 4096) by lia.
    apply Z.mod_mul. lia.
  - unfold page_list. apply NoDup_fmap_2_strong; [|apply NoDup_seq].
    intros x y _ _. rewrite PAGE_SIZE_eq. lia.
  - intros n Hp. by rewrite Hptr in Hp.
  - intros n n' Hp. by rewrite Hptr in Hp.
  - intros p (H1 & H2 & H3). left. rewrite Hb', Hs, PAGE_SIZE_eq in *.
    apply in_page_list. exists (Z.to_nat ((p - base) / 4096)).
    pose proof (Z.div_mod (p - base) 4096 ltac:(lia)). rewrite PAGE_SIZE_eq. lia.
Qed.
End Init.

(** The [n] bytes at [addr] lie in one mapped page. *)
Definition mapped_range (addr n : Z) (m : MemState) : Prop :=
  0 <= addr /\ 0 <= n /\ addr / PAGE_SIZE < NUM_PAGES /\
  pointer (entry m (addr / PAGE_SIZE)) <> 0 /\ addr mod PAGE_SIZE + n <= PAGE_SIZE.

(** The host address of a guest address. *)
Definition host_addr (addr : Z) (m : MemState) : Z :=
  pointer (entry m (addr / PAGE_SIZE)) + addr mod PAGE_SIZE.

Lemma translate_mapped addr n m :
  mapped_range addr n m -> translate addr m = Ok (host_addr addr m).
Proof.
  intros (Ha & Hn & Hp & Hptr & Hoff). unfold translate.
  rewrite getPageNum_div, pageOffset_mod, Z.geb_leb,
    (proj2 (Z.leb_gt NUM_PAGES _)) by lia.
  by rewrite (proj2 (Z.eqb_neq _ 0)).
Qed.

Lemma translate_unmapped addr m :
  NUM_PAGES <= addr / PAGE_SIZE \/ pointer (entry m (addr / PAGE_SIZE)) = 0 ->
  translate addr m = Err (SegFault addr).
Proof.
  intros Hu. unfold translate. rewrite getPageNum_div, Z.geb_leb.
  destruct Hu as [Hu| ->]; [by rewrite (proj2 (Z.leb_le NUM_PAGES _))|].
  by rewrite orb_true_r.
Qed.

Lemma mapped_range_shrink addr n n' m :
  0 <= n' <= n -> mapped_range addr n m -> mapped_range addr n' m.
Proof. intros Hn (H1 & H2 & H3 & H4 & H5). unfold mapped_range. repeat split; auto; lia. Qed.

Section Inv.
Context (m : MemState) (free : list Z) (Hi : mem_inv m free).

Lemma host_addr_in_page addr n :
  mapped_range addr n m ->
  let p := pointer (entry m (addr / PAGE_SIZE)) in
  is_page m p /\ ~ In p free /\
  p <= host_addr addr m /\ host_addr addr m + n <= p + PAGE_SIZE.
Proof.
  intros (H1 & H2 & H3 & H4 & H5) p. destruct (inv_mapped _ _ Hi _ H4) as [Hp Hf].
  pose proof (pageOffset_bounds addr). unfold host_addr. fold p.
  split; [done|split; [done|split; lia]].
Qed.

Lemma in_block_mapped addr n :
  mapped_range addr n m -> in_block m (host_addr addr m) n = true.
Proof.
  intros Hm. pose proof Hm as (_ & H2 & _ & _ & H5).
  destruct (host_addr_in_page addr n Hm) as (Hp & _ & _ & _).
  apply in_block_offset; [done| |done|done]. apply pageOffset_bounds.
Qed.

Lemma read_mapped addr n :
  mapped_range addr n m ->
  read n addr m = Ok (load_le (Z.to_nat n) (host_addr addr m) (host m)).
Proof.
  intros Hm. unfold read. rewrite (translate_mapped _ _ _ Hm). cbn [mbind result_bind].
  unfold host_load. by rewrite in_block_mapped.
Qed.

Lemma write_mapped addr n v :
  mapped_range addr n m ->
  write n addr v m =
  Ok (set_host (store_le (Z.to_nat n) (host_addr addr m) v (host m)) m).
Proof.
  intros Hm. unfold write. rewrite (translate_mapped _ _ _ Hm). cbn [mbind result_bind].
  unfold host_store. by rewrite in_block_mapped.
Qed.

(** Host memory may change inside mapped pages without touching the allocator. *)
Lemma set_host_inv h :
  bytes_ok h ->
  (forall r, byte_at h r <> byte_at (host m) r ->
     exists k, pointer (entry m k) <> 0 /\
       pointer (entry m k) <= r < pointer (entry m k) + PAGE_SIZE) ->
  mem_inv (set_host h m) free.
Proof.
  intros Hb Hch. destruct Hi as [I1 I2 I3 I4 I5 I6 I7 I8 I9 I10]. constructor; try done.
  eapply chain_frame; [|exact I4]. intros q r Hin Hr.
  destruct (Z.eq_dec (byte_at h r) (byte_at (host m) r)) as [E|E]; [done|].
  destruct (Hch r E) as (k & Hk & Hk'). destruct (I7 k Hk) as [Hpk Hnf].
  rewrite Forall_forall in I5.
  assert (is_page m q) as Hq by by apply I5, list_elem_of_In.
  assert (pointer (entry m k) <> q) as Hne by congruence.
  pose proof (pages_disjoint m _ q Hpk Hq Hne). rewrite PAGE_SIZE_eq in *. lia.
Qed.

Lemma write_inv addr n v :
  mapped_range addr n m ->
  mem_inv (set_host (store_le (Z.to_nat n) (host_addr addr m) v (host m)) m) free.
Proof.
  intros Hm. destruct (host_addr_in_page addr n Hm) as (Hp & _ & H1 & H2).
  destruct Hm as (_ & Hn & _ & Hptr & _).
  apply set_host_inv; [apply bytes_ok_store_le, (inv_bytes _ _ Hi)|].
  intros r Hr. exists (addr / PAGE_SIZE). split; [done|].
  rewrite byte_at_store_le in Hr.
  destruct (Z.leb_spec (host_addr addr m) r), (Z.ltb_spec r
    (host_addr addr m + Z.of_nat (Z.to_nat n))); try done; lia.
Qed.

(** Distinct guest ranges have distinct host ranges: no aliasing. *)
Lemma host_disjoint addr n addr' n' :
  mapped_range addr n m -> mapped_range addr' n' m ->
  addr' + n' <= addr \/ addr + n <= addr' ->
  host_addr addr' m + n' <= host_addr addr m \/
  host_addr addr m + n <= host_addr addr' m.
Proof.
  intros Hm Hm' Hd.
  destruct (host_addr_in_page addr n Hm) as (Hp & _ & H1 & H2).
  destruct (host_addr_in_page addr' n' Hm') as (Hp' & _ & H1' & H2').
  destruct Hm as (Ha & Hn & Hpn & Hptr & Ho), Hm' as (Ha' & Hn' & Hpn' & Hptr' & Ho').
  destruct (Z.eq_dec (pointer (entry m (addr / PAGE_SIZE)))
              (pointer (entry m (addr' / PAGE_SIZE)))) as [E|E].
  - apply (inv_inj _ _ Hi _ _ Hptr) in E as E'. unfold host_addr. rewrite <-E.
    pose proof (Z.div_mod addr PAGE_SIZE ltac:(by rewrite PAGE_SIZE_eq)).
    pose proof (Z.div_mod addr' PAGE_SIZE ltac:(by rewrite PAGE_SIZE_eq)).
    rewrite PAGE_SIZE_eq in *. lia.
  - pose proof (pages_disjoint m _ _ Hp Hp' E). lia.
Qed.
End Inv.

(** ** Accesses keep bytes bytes, mapped or not *)

Lemma host_store_typed n p v m m' :
  bytes_ok (host m) -> host_store n p v m = Ok m' -> bytes_ok (host m').
Proof.
  intros Hb Hs. unfold host_store in Hs. destruct (in_block m p n); [|done].
  injection Hs as <-. by apply bytes_ok_store_le.
Qed.

Lemma write_typed n addr v m m' :
  bytes_ok (host m) -> write n addr v m = Ok m' -> bytes_ok (host m').
Proof.
  intros Hb Hw. unfold write in Hw. destruct (translate addr m) as [p|]; [|done].
  by apply (host_store_typed n p v m).
Qed.

Lemma writeAtomic_typed n addr v e m b m' :
  bytes_ok (host m) -> writeAtomic n addr v e m = Ok (b, m') -> bytes_ok (host m').
Proof.
  intros Hb Hw. unfold writeAtomic in Hw. destruct (translate addr m) as [p|]; [|done].
  cbn [mbind result_bind] in Hw. destruct (host_load n p m) as [old|]; [|done].
  cbn [mbind result_bind] in Hw. destruct (old =? _); [|by injection Hw as _ <-].
  destruct (host_store n p v m) as [m1|] eqn:E; [|done]. injection Hw as _ <-.
  by apply (host_store_typed n p v m).
Qed.

Lemma writeAtomic128_typed addr lo hi elo ehi m b m' :
  bytes_ok (host m) -> writeAtomic128 addr lo hi elo ehi m = Ok (b, m') ->
  bytes_ok (host m').
Proof.
  intros Hb Hw. unfold writeAtomic128 in Hw. destruct (translate addr m) as [p|]; [|done].
  cbn [mbind result_bind] in Hw. destruct (p mod 16 =? 0); [|done].
  cbn [mbind result_bind] in Hw. destruct (host_load 8 p m) as [x|]; [|done].
  cbn [mbind result_bind] in Hw. destruct (host_load 8 (p + 8) m) as [y|]; [|done].
  cbn [mbind result_bind] in Hw. destruct (_ && _); [|by injection Hw as _ <-].
  destruct (host_store 8 p lo m) as [m1|] eqn:E1; [|done]. cbn [mbind result_bind] in Hw.
  destruct (host_store 8 (p + 8) hi m1) as [m2|] eqn:E2; [|done]. injection Hw as _ <-.
  apply (host_store_typed _ _ _ _ _ (host_store_typed _ _ _ _ _ Hb E1) E2).
Qed.

(** ** The laws *)

#[export] Instance MemState_GuestMemoryLaws : GuestMemoryLaws MemState.
Proof.
  refine {| mem_typed := fun m => bytes_ok (host m); mem_ok := mem_wf;
            mapped := mapped_range; mwrite_typed := write_typed;
            mwriteAtomic_typed := writeAtomic_typed;
            mwriteAtomic128_typed := writeAtomic128_typed |}.
  - intros m [free Hi]. apply (inv_bytes _ _ Hi).
  - intros n addr m v Hb Hn Hr. simpl in Hr. unfold read in Hr.
    destruct (translate addr m) as [p|]; [|done]. cbn [mbind result_bind] in Hr.
    unfold host_load in Hr. destruct (in_block m p n); [|done]. injection Hr as <-.
    pose proof (load_le_uint (Z.to_nat n) p _ Hb) as Hu.
    by rewrite Z2Nat.id in Hu by lia.
  - intros n addr m [free Hi] Hm. eexists. by apply (read_mapped m free Hi).
  - intros n addr v m [free Hi] Hm. eexists. split; [by apply (write_mapped m free Hi)|].
    split; [|done]. exists free. by apply write_inv.
  - intros n addr v m m' [free Hi] Hm Hw. simpl in *.
    rewrite (write_mapped m free Hi) in Hw by done. injection Hw as <-.
    assert (mapped_range addr n
      (set_host (store_le (Z.to_nat n) (host_addr addr m) v (host m)) m)) as Hm' by done.
    pose proof (write_inv m free Hi addr n v Hm) as Hi'.
    rewrite (read_mapped _ free Hi' _ _ Hm').
    change (host_addr addr (set_host _ m)) with (host_addr addr m).
    f_equal. cbn [set_host host]. apply load_store_le_wrap. apply Hm.
  - intros n addr v n' addr' m m' [free Hi] Hm Hm' Hd Hw. simpl in *.
    rewrite (write_mapped m free Hi) in Hw by done. injection Hw as <-.
    pose proof (write_inv m free Hi addr n v Hm) as Hi'.
    assert (mapped_range addr' n'
      (set_host (store_le (Z.to_nat n) (host_addr addr m) v (host m)) m)) as Hm'' by done.
    rewrite (read_mapped _ free Hi' _ _ Hm''), (read_mapped _ free Hi _ _ Hm').
    change (host_addr addr' (set_host _ m)) with (host_addr addr' m).
    f_equal. cbn [set_host host].
    pose proof (host_disjoint m free Hi _ _ _ _ Hm Hm' Hd) as Hd'.
    apply load_store_le_ne. destruct Hm as (_ & ? & _), Hm' as (_ & ? & _). lia.
  - intros n addr v e m [free Hi] Hm. eexists.
    split; [by apply (read_mapped m free Hi)|]. simpl. unfold writeAtomic, write.
    rewrite (translate_mapped _ _ _ Hm). cbn [mbind result_bind].
    unfold host_load. by rewrite (in_block_mapped m free Hi) by done.
Defined.
