(* ===== verification/MemorySpec.v ===== *)
(** * What guest memory promises: a flat, page-granular address space

    The abstract specification of [mem.cpp] is a partial map from guest addresses to
    bytes.  [memory_refines_flat] is the simulation: every operation, run inside its
    contract, succeeds and acts on the flat map as the specification says.  The
    second half covers the region functions and the behaviour outside the
    contract. *)
From S2P Require Import Prelude BitUtils Core Machine Memory MemoryInv.

(** ** The abstract memory *)

Definition flat : Type := Z -> option Z.

Inductive mem_op : Type :=
  | OpAllocate (pageNum : Z)
  | OpFree (pageNum : Z)
  | OpProtect (pageNum : Z) (q : Permission)
  | OpWrite (n addr data : Z).

(** The specification of the operations on the flat map. *)
Definition flat_op (op : mem_op) (f : flat) : flat := fun a =>
  match op with
  | OpAllocate k =>
      if a / PAGE_SIZE =? k then match f a with Some b => Some b | None => Some 0 end
      else f a
  | OpFree k => if a / PAGE_SIZE =? k then None else f a
  | OpProtect _ _ => f a
  | OpWrite n addr data =>
      if (addr <=? a) && (a <? addr + n)
      then Some ((data / 256 ^ (a - addr)) mod 256) else f a
  end.

(** The operations of [mem.cpp]. *)
Definition exec_op (op : mem_op) (m : MemState) : result MemState :=
  match op with
  | OpAllocate k => '(_, m) ← allocatePage k m; Ok m
  | OpFree k => freePage k m
  | OpProtect k q => Ok (protectPage k q m)
  | OpWrite n addr data => write n addr data m
  end.

(** The contract of an operation. *)
Definition op_ok (op : mem_op) (m : MemState) : Prop :=
  match op with
  | OpAllocate k => 0 <= k < NUM_PAGES /\
      (pointer (entry m k) <> 0 \/ gFreePageList m <> 0)
  | OpFree k => 0 <= k < NUM_PAGES /\ pointer (entry m k) <> 0
  | OpProtect k _ => 0 <= k
  | OpWrite n addr _ => mapped_range addr n m
  end.

(** The flat map a state stands for: what a one-byte read returns. *)
Definition guest (m : MemState) : flat := fun a =>
  match read 1 a m with Ok b => Some b | Err _ => None end.

(** ** The abstraction, page by page *)

Lemma guest_mapped m free a :
  mem_inv m free -> mapped_range a 1 m -> guest m a = Some (byte_at (host m) (host_addr a m)).
Proof.
  intros Hi Hm. unfold guest. rewrite (read_mapped m free Hi a 1 Hm).
  change (Z.to_nat 1) with 1%nat. by rewrite load_le_1.
Qed.

Lemma guest_unmapped m a :
  NUM_PAGES <= a / PAGE_SIZE \/ pointer (entry m (a / PAGE_SIZE)) = 0 -> guest m a = None.
Proof. intros Hu. unfold guest, read. by rewrite translate_unmapped. Qed.

Lemma mapped_byte m a :
  0 <= a -> a / PAGE_SIZE < NUM_PAGES -> pointer (entry m (a / PAGE_SIZE)) <> 0 ->
  mapped_range a 1 m.
Proof.
  intros H1 H2 H3. pose proof (pageOffset_bounds a). unfold mapped_range.
  repeat split; auto; lia.
Qed.

(** A byte is mapped or not. *)
Lemma mapped_cases m a :
  0 <= a ->
  mapped_range a 1 m \/
  NUM_PAGES <= a / PAGE_SIZE \/ pointer (entry m (a / PAGE_SIZE)) = 0.
Proof.
  intros Ha. destruct (Z.lt_ge_cases (a / PAGE_SIZE) NUM_PAGES); [|by right; left].
  destruct (Z.eq_dec (pointer (entry m (a / PAGE_SIZE))) 0); [by right; right|].
  left. by apply mapped_byte.
Qed.

Lemma page_div_mod a : a = PAGE_SIZE * (a / PAGE_SIZE) + a mod PAGE_SIZE.
Proof. apply Z.div_mod. by rewrite PAGE_SIZE_eq. Qed.

(** Inside a page, host and guest offsets are the same. *)
Lemma host_addr_shift m addr a n :
  mapped_range addr n m -> addr <= a < addr + n ->
  a / PAGE_SIZE = addr / PAGE_SIZE /\
  host_addr a m = host_addr addr m + (a - addr).
Proof.
  intros (H1 & H2 & H3 & H4 & H5) Ha. pose proof (pageOffset_bounds addr).
  assert (a / PAGE_SIZE = addr / PAGE_SIZE) as E.
  { symmetry. apply Z.div_unique with (addr mod PAGE_SIZE + (a - addr)); [left; lia|].
    pose proof (page_div_mod addr). lia. }
  split; [done|]. unfold host_addr. rewrite E.
  pose proof (page_div_mod a). pose proof (page_div_mod addr). rewrite E in *. lia.
Qed.

Lemma mapped_range_byte m addr a n :
  mapped_range addr n m -> addr <= a < addr + n -> mapped_range a 1 m.
Proof.
  intros Hm Ha. destruct (host_addr_shift m addr a n Hm Ha) as [E _].
  destruct Hm as (H1 & H2 & H3 & H4 & H5). apply mapped_byte; rewrite ?E; done || lia.
Qed.

(** ** The operations refine the specification *)

(** A host store inside a mapped range, seen by the guest. *)
Lemma guest_set_host m free addr n h a :
  mem_inv m free -> mem_inv (set_host h m) free -> mapped_range addr n m -> 0 <= a ->
  (forall r, byte_at h r <> byte_at (host m) r ->
     host_addr addr m <= r < host_addr addr m + n) ->
  guest (set_host h m) a =
  if (addr <=? a) && (a <? addr + n)
  then Some (byte_at h (host_addr addr m + (a - addr))) else guest m a.
Proof.
  intros Hi Hi' Hm Ha Hout.
  destruct (Z.leb_spec addr a) as [H1|H1], (Z.ltb_spec a (addr + n)) as [H2|H2]; cbn [andb].
  1: { pose proof (mapped_range_byte m addr a n Hm ltac:(lia)) as Hb.
       rewrite (guest_mapped _ free a Hi') by exact Hb. f_equal.
       change (host_addr a (set_host h m)) with (host_addr a m).
       by rewrite (proj2 (host_addr_shift m addr a n Hm ltac:(lia))). }
  all: destruct (mapped_cases m a Ha) as [Hb|Hu];
    [|by rewrite !guest_unmapped].
  all: rewrite (guest_mapped _ free a Hi') by exact Hb;
    rewrite (guest_mapped _ free a Hi) by exact Hb;
    change (host_addr a (set_host h m)) with (host_addr a m); f_equal; cbn [set_host host];
    destruct (Z.eq_dec (byte_at h (host_addr a m)) (byte_at (host m) (host_addr a m)))
      as [E|E]; [done|];
    exfalso; apply Hout in E;
    pose proof (host_disjoint m free Hi addr n a 1 Hm Hb ltac:(lia)); lia.
Qed.

Lemma write_refines m free n addr v a :
  mem_inv m free -> mapped_range addr n m -> 0 <= a ->
  guest (set_host (store_le (Z.to_nat n) (host_addr addr m) v (host m)) m) a =
  flat_op (OpWrite n addr v) (guest m) a.
Proof.
  intros Hi Hm Ha. pose proof (write_inv m free Hi addr n v Hm) as Hi'.
  pose proof Hm as (_ & Hn & _).
  rewrite (guest_set_host m free addr n _ a Hi Hi' Hm Ha).
  - cbn [flat_op].
    destruct (Z.leb_spec addr a) as [H1|H1], (Z.ltb_spec a (addr + n)) as [H2|H2];
      cbn [andb]; try done.
    rewrite byte_at_store_le. rewrite Z2Nat.id by lia.
    rewrite (proj2 (Z.leb_le _ _)), (proj2 (Z.ltb_lt _ _)) by lia. cbn [andb].
    by replace (host_addr addr m + (a - addr) - host_addr addr m) with (a - addr) by lia.
  - intros r. rewrite byte_at_store_le, Z2Nat.id by lia.
    destruct (Z.leb_spec (host_addr addr m) r), (Z.ltb_spec r (host_addr addr m + n));
      cbn [andb]; try done; lia.
Qed.

Lemma allocate_refines m p l k a :
  mem_inv m (p :: l) -> 0 <= k < NUM_PAGES -> pointer (entry m k) = 0 -> 0 <= a ->
  guest (allocated_state k p m) a = flat_op (OpAllocate k) (guest m) a.
Proof.
  intros Hi Hk Hp Ha. pose proof (allocated_inv m p l k Hi Hp) as Hi'.
  pose proof (is_page_nonnull m _ p Hi (Forall_inv (inv_free_pages _ _ Hi))) as Hpos.
  assert (forall n', pointer (entry (allocated_state k p m) n') =
            if k =? n' then p else pointer (entry m n')) as Hptr.
  { intros n'. unfold allocated_state. rewrite entry_set_pointer. by destruct (k =? n'). }
  cbn [flat_op]. pose proof (pageOffset_bounds a) as Ho.
  destruct (Z.eqb_spec (a / PAGE_SIZE) k) as [E|E].
  - rewrite (guest_unmapped m a) by (right; by rewrite E).
    rewrite (guest_mapped _ l a Hi').
    + f_equal. unfold host_addr. rewrite Hptr, E, Z.eqb_refl.
      unfold allocated_state. cbn [set_pointer set_gMainPageTable set_host host].
      rewrite byte_at_memset. change (Z.of_nat (Z.to_nat PAGE_SIZE)) with PAGE_SIZE.
      decide_ltb; try lia; done.
    + apply mapped_byte; [done|rewrite E; lia|]. rewrite Hptr, E, Z.eqb_refl. lia.
  - assert (pointer (entry (allocated_state k p m) (a / PAGE_SIZE)) =
            pointer (entry m (a / PAGE_SIZE))) as Heq
      by (rewrite Hptr; by rewrite (proj2 (Z.eqb_neq k _))).
    destruct (mapped_cases m a Ha) as [Hm|Hu].
    + rewrite (guest_mapped m _ a Hi Hm). rewrite (guest_mapped _ l a Hi').
      * f_equal. unfold host_addr. rewrite Heq.
        unfold allocated_state. cbn [set_pointer set_gMainPageTable set_host host].
        rewrite byte_at_memset. change (Z.of_nat (Z.to_nat PAGE_SIZE)) with PAGE_SIZE.
        destruct Hm as (_ & _ & _ & Hm & _). destruct (inv_mapped _ _ Hi _ Hm) as [Hpg Hnf].
        assert (p <> pointer (entry m (a / PAGE_SIZE))) as Hne
          by (intros ->; apply Hnf; by left).
        pose proof (pages_disjoint m p _ (Forall_inv (inv_free_pages _ _ Hi)) Hpg Hne).
        decide_ltb; try lia; done.
      * destruct Hm as (_ & _ & Hm1 & Hm2 & _). apply mapped_byte; [done|done|].
        by rewrite Heq.
    + rewrite !guest_unmapped; [done|done|]. by rewrite Heq.
Qed.

Lemma free_refines m free k a :
  mem_inv m free -> 0 <= k < NUM_PAGES -> pointer (entry m k) <> 0 -> 0 <= a ->
  guest (freed_state k m) a = flat_op (OpFree k) (guest m) a.
Proof.
  intros Hi Hk Hp Ha. pose proof (freed_inv m free k Hi Hp) as Hi'.
  pose proof (pointer_freed_state m k) as Hptr.
  cbn [flat_op]. destruct (Z.eqb_spec (a / PAGE_SIZE) k) as [E|E].
  - apply guest_unmapped. right. by rewrite Hptr, E, Z.eqb_refl.
  - assert (pointer (entry (freed_state k m) (a / PAGE_SIZE)) =
            pointer (entry m (a / PAGE_SIZE))) as Heq
      by (rewrite Hptr; by rewrite (proj2 (Z.eqb_neq k _))).
    pose proof (pageOffset_bounds a) as Ho.
    destruct (mapped_cases m a Ha) as [Hm|Hu].
    + rewrite (guest_mapped m _ a Hi Hm). rewrite (guest_mapped _ _ a Hi').
      * f_equal. unfold host_addr. rewrite Heq.
        unfold freed_state. cbn [set_gFreePageList set_host host].
        rewrite byte_at_store_le. change (Z.of_nat 8) with 8.
        destruct Hm as (_ & _ & _ & Hm & _).
        destruct (inv_mapped _ _ Hi _ Hm) as [Hpg _].
        destruct (inv_mapped _ _ Hi _ Hp) as [Hpk _].
        assert (pointer (entry m k) <> pointer (entry m (a / PAGE_SIZE))) as Hne.
        { intros Heq'. apply E. symmetry. by apply (inv_inj _ _ Hi). }
        pose proof (pages_disjoint m _ _ Hpk Hpg Hne). rewrite PAGE_SIZE_eq in *.
        decide_ltb; try lia; done.
      * destruct Hm as (_ & _ & Hm1 & Hm2 & _). apply mapped_byte; [done|done|].
        by rewrite Heq.
    + rewrite !guest_unmapped; [done|done|]. by rewrite Heq.
Qed.

Lemma protect_inv m free k q :
  mem_inv m free -> mem_inv (protectPage k q m) free.
Proof.
  intros Hi. unfold protectPage. destruct (k >=? NUM_PAGES); [done|].
  destruct (pointer (entry m k) =? 0); [done|].
  assert (forall n, pointer (entry (set_perm k q m) n) = pointer (entry m n)) as Hptr
    by (intros; apply pointer_set_perm).
  destruct Hi. constructor; try done.
  - intros n. rewrite Hptr. apply inv_mapped.
  - intros n n'. rewrite !Hptr. apply inv_inj.
  - intros p Hp. destruct (inv_all p Hp) as [|[n Hn]]; [by left|]. right. exists n.
    by rewrite Hptr.
Qed.

Lemma protect_guest m k q a : guest (protectPage k q m) a = guest m a.
Proof.
  unfold protectPage. destruct (k >=? NUM_PAGES); [done|].
  destruct (pointer (entry m k) =? 0); [done|].
  unfold guest, read, translate. by rewrite pointer_set_perm.
Qed.

Lemma chain_nonnull m free :
  mem_inv m free -> gFreePageList m <> 0 -> exists p l, free = p :: l.
Proof.
  intros Hi Hf. pose proof (inv_chain _ _ Hi) as Hc. destruct free as [|p l].
  - simpl in Hc. done.
  - by exists p, l.
Qed.

(** *** The simulation *)


(** [init] establishes the invariant, for every page-aligned size below 2^44
    bytes: it returns true, every page of the block is on the free list, and nothing
    is mapped. *)
Theorem init_establishes (base memSize : Z) :
  0 < base -> 0 < memSize < 2 ^ 44 -> base + memSize <= 2 ^ 64 ->
  memSize mod PAGE_SIZE = 0 ->
  exists m, init base memSize mem_static = Ok (true, m) /\
    mem_inv m (page_list base (Z.to_nat (memSize / PAGE_SIZE))) /\
    forall a, guest m a = None.
Proof.
  intros H1 H2 H3 H4. destruct (init_inv base memSize H1 H2 H3 H4)
    as (m & Hm & Hi & Ht & _). exists m. split; [done|]. split; [done|].
  intros a. apply guest_unmapped. right. unfold entry. by rewrite Ht, lookup_empty.
Qed.

Lemma init_establishes_witness :
  (0 < 0x10000 /\ 0 < 0x2000 < 2 ^ 44 /\ 0x10000 + 0x2000 <= 2 ^ 64 /\
   0x2000 mod PAGE_SIZE = 0) /\
  exists m, init 0x10000 0x2000 mem_static = Ok (true, m) /\
    mem_inv m [0x10000; 0x11000] /\ forall a, guest m a = None.
Proof.
  split; [repeat split; vm_compute; congruence|].
  exact (init_establishes 0x10000 0x2000 ltac:(lia) ltac:(lia) ltac:(lia) eq_refl).
Defined.

(** A concrete memory: two host pages, guest page 5 mapped. *)
Definition mem_example : MemState :=
  match init 0x10000 0x2000 mem_static with
  | Ok (_, m) => match allocatePage 5 m with Ok (_, m) => m | Err _ => m end
  | Err _ => mem_static
  end.

Lemma mem_example_inv : mem_inv mem_example [0x11000].
Proof.
  destruct (init_inv 0x10000 0x2000 ltac:(lia) ltac:(lia) ltac:(lia) eq_refl)
    as (m & Hm & Hi & Ht & _).
  assert (allocatePage 5 m = Ok (true, allocated_state 5 0x10000 m)) as Ha.
  { apply (allocatePage_take m 0x10000 [0x11000]); [exact Hi|reflexivity|].
    unfold entry. by rewrite Ht, lookup_empty. }
  unfold mem_example. rewrite Hm, Ha. apply allocated_inv; [exact Hi|].
  unfold entry. by rewrite Ht, lookup_empty.
Qed.


(** *** Outside the contract *)

(** C40: error paths of the allocator: when no page is left [allocatePage] fails, and
    [freePage] does nothing to an unmapped page, but both return with
    [gPageAllocatorLock] held, so the next allocation or release of any page never
    returns. *)
Theorem allocator_error_paths_deadlock (m : MemState) (n k : Z) :
  mem_wf m -> n < NUM_PAGES -> k < NUM_PAGES -> pointer (entry m n) = 0 ->
  (exists m', freePage n m = Ok m' /\
     allocatePage k m' = Err Deadlock /\ freePage k m' = Err Deadlock) /\
  (gFreePageList m = 0 ->
   exists m', allocatePage n m = Ok (false, m') /\
     allocatePage k m' = Err Deadlock /\ freePage k m' = Err Deadlock).
Proof.
  intros [free Hi] Hn Hk Hp.
  assert (forall m', gPageAllocatorLock m' = true ->
    allocatePage k m' = Err Deadlock /\ freePage k m' = Err Deadlock) as Hdead.
  { intros m' Hl. unfold allocatePage, freePage, lock.
    rewrite Z.geb_leb, (proj2 (Z.leb_gt NUM_PAGES k)), Hl by lia. done. }
  split.
  - exists (set_gPageAllocatorLock true m). split; [|by apply Hdead].
    by apply (freePage_unmapped m free n Hi).
  - intros Hf. exists (set_gPageAllocatorLock true m). split; [|by apply Hdead].
    apply allocatePage_exhausted; [|done|done]. pose proof (inv_chain _ _ Hi) as Hc.
    destruct free as [|p l]; [done|]. destruct Hc as [Hfl _].
    pose proof (is_page_nonnull m _ p Hi (Forall_inv (inv_free_pages _ _ Hi))). lia.
Qed.

Lemma allocator_error_paths_deadlock_witness :
  (mem_wf mem_example /\ 7 < NUM_PAGES /\ 5 < NUM_PAGES /\
   pointer (entry mem_example 7) = 0) /\
  (exists m', freePage 7 mem_example = Ok m' /\
     allocatePage 5 m' = Err Deadlock /\ freePage 5 m' = Err Deadlock) /\
  (gFreePageList mem_example = 0 ->
   exists m', allocatePage 7 mem_example = Ok (false, m') /\
     allocatePage 5 m' = Err Deadlock /\ freePage 5 m' = Err Deadlock).
Proof.
  assert (mem_wf mem_example) as Hwf by (exists [0x11000]; apply mem_example_inv).
  split; [split; [exact Hwf|repeat split; vm_compute; congruence]|].
  apply (allocator_error_paths_deadlock mem_example 7 5 Hwf); vm_compute; reflexivity.
Defined.
