(* ===== verification/MemoryRegions.v ===== *)
(** * Regions of guest memory, and the life of the memory block

    Copying regions in and out, [zeroMem], accesses that cross a page, [allocateRegion]
    and [fini]. *)
From S2P Require Import Prelude BitUtils Core Machine Memory MemoryInv MemorySpec.

(** * Copying regions *)

(** Every byte of the region is mapped. *)
Definition region_mapped (addr len : Z) (m : MemState) : Prop :=
  0 <= addr /\ addr + len <= 2 ^ 64 /\
  forall a, addr <= a < addr + len -> mapped_range a 1 m.

Lemma wholePage_spec addr i len m :
  region_mapped addr len m -> 0 <= i < len -> wholePage addr i len = true ->
  mapped_range (addr + i) PAGE_SIZE m /\ i + PAGE_SIZE < len /\ u64 (addr + i) = addr + i.
Proof.
  intros (Ha & Hr & Hb) Hi Hw. unfold wholePage in Hw.
  rewrite (u64_id (addr + i)) in Hw by (unfold uint; lia).
  rewrite pageOffset_mod in Hw. apply andb_true_iff in Hw as [Hw1%Z.eqb_eq Hw2%Z.ltb_lt].
  split; [|split; [done|apply u64_id; unfold uint; lia]].
  destruct (Hb (addr + i)) as (H1 & H2 & H3 & H4 & H5); [lia|].
  unfold mapped_range. rewrite Hw1. rewrite PAGE_SIZE_eq in *. repeat split; auto; lia.
Qed.

Lemma region_byte addr i len m :
  region_mapped addr len m -> 0 <= i < len ->
  mapped_range (u64 (addr + i)) 1 m /\ u64 (addr + i) = addr + i.
Proof.
  intros (Ha & Hr & Hb) Hi. rewrite u64_id by (unfold uint; lia).
  split; [|done]. apply Hb. lia.
Qed.

(** ** Reading *)

Lemma nth_app_memcpy (data : list Z) n p h i :
  nth i (data ++ host_memcpy_from n p h) 0 =
  if Nat.ltb i (length data) then nth i data 0
  else if Nat.ltb i (length data + n) then byte_at h (p + Z.of_nat (i - length data)) else 0.
Proof.
  destruct (Nat.ltb_spec i (length data)); [by apply app_nth1|].
  rewrite app_nth2 by lia. destruct (Nat.ltb_spec i (length data + n)).
  - apply nth_memcpy_from. lia.
  - apply nth_overflow. rewrite length_memcpy_from. lia.
Qed.

Lemma readRegion_spec m free addr len :
  mem_inv m free -> region_mapped addr len m -> 0 <= len < 2 ^ 32 ->
  exists data, readRegion addr len m = Ok data /\ Z.of_nat (length data) = len /\
    forall i, 0 <= i < len -> guest m (addr + i) = Some (nth (Z.to_nat i) data 0).
Proof.
  intros Hi Hreg Hlen. unfold readRegion.
  set (I := fun j (data : list Z) => Z.of_nat (length data) = j /\
    forall i, 0 <= i < j -> guest m (addr + i) = Some (nth (Z.to_nat i) data 0)).
  edestruct (whileU32_inv I len) as (data & Hd & HI).
  6: { rewrite Hd. exists data. split; [done|]. exact HI. }
  - lia.
  - lia.
  - unfold loopFuel. lia.
  - split; [done|]. intros i Hi'. lia.
  - intros i data Hii [Hl Hg]. destruct (wholePage addr i len) eqn:Hw.
    + destruct (wholePage_spec addr i len m Hreg Hii Hw) as (Hm & Hlt & ->).
      rewrite (translate_mapped _ _ _ Hm). cbn [mbind result_bind].
      rewrite (in_block_mapped m free Hi _ _ Hm). eexists _, _. split; [done|].
      split; [rewrite PAGE_SIZE_eq in *; lia|]. split.
      * rewrite length_app, length_memcpy_from, Nat2Z.inj_add, Z2Nat.id by
          (rewrite PAGE_SIZE_eq; lia). lia.
      * intros j Hj. rewrite nth_app_memcpy. destruct (Nat.ltb_spec (Z.to_nat j) (length data)).
        { apply Hg. lia. }
        assert (addr + i <= addr + j < addr + i + PAGE_SIZE) as Hjr by lia.
        pose proof (mapped_range_byte m (addr + i) (addr + j) PAGE_SIZE Hm Hjr) as Hmj.
        rewrite (guest_mapped m free _ Hi Hmj).
        rewrite (proj2 (host_addr_shift m _ _ _ Hm Hjr)).
        destruct (Nat.ltb_spec (Z.to_nat j) (length data + Z.to_nat PAGE_SIZE)).
        { do 2 f_equal. lia. }
        exfalso. rewrite PAGE_SIZE_eq in *. lia.
    + destruct (region_byte addr i len m Hreg Hii) as (Hm & Hu).
      rewrite Hu in *. rewrite (read_mapped m free Hi _ _ Hm). cbn [mbind result_bind].
      eexists _, _. split; [done|]. split; [lia|]. split.
      * rewrite length_app. simpl. lia.
      * intros j Hj. destruct (Z.eq_dec j i) as [->|Hne].
        { rewrite app_nth2 by lia. replace (Z.to_nat i - length data)%nat with 0%nat by lia.
          cbn [nth]. rewrite (guest_mapped m free _ Hi Hm).
          change (Z.to_nat 1) with 1%nat. by rewrite load_le_1. }
        rewrite app_nth1 by lia. apply Hg. lia.
Qed.

(** ** Writing *)

Lemma nth_take_drop {A} (l : list A) n k i d :
  (i < n)%nat -> nth i (take n (drop k l)) d = nth (k + i) l d.
Proof. intros Hi. by rewrite !nth_lookup, lookup_take_lt, lookup_drop. Qed.

Lemma region_mapped_set_host addr len h m :
  region_mapped addr len m <-> region_mapped addr len (set_host h m).
Proof. done. Qed.

Lemma write_byte_guest m free addr b a :
  mem_inv m free -> mapped_range addr 1 m -> 0 <= a -> uint 8 b ->
  exists m', write 1 addr b m = Ok m' /\ mem_inv m' free /\
    m' = set_host (host m') m /\
    guest m' a = if a =? addr then Some b else guest m a.
Proof.
  intros Hi Hm Ha Hb. rewrite (write_mapped m free Hi _ _ _ Hm). eexists.
  split; [done|]. split; [by apply write_inv|]. split; [done|].
  rewrite (write_refines m free 1 addr b a Hi Hm Ha). cbn [flat_op].
  destruct (Z.eqb_spec a addr) as [->|Hne].
  - rewrite (proj2 (Z.leb_le addr addr)), (proj2 (Z.ltb_lt addr (addr + 1))) by lia.
    cbn [andb]. rewrite Z.sub_diag. change (256 ^ 0) with 1. rewrite Z.div_1_r.
    by rewrite Z.mod_small.
  - destruct (Z.leb_spec addr a), (Z.ltb_spec a (addr + 1)); cbn [andb]; done || lia.
Qed.

Lemma memcpy_page_guest m free addr data a :
  mem_inv m free -> mapped_range addr PAGE_SIZE m -> 0 <= a ->
  Forall (uint 8) data -> Z.of_nat (length data) = PAGE_SIZE ->
  let m' := set_host (host_memcpy_to (host_addr addr m) data (host m)) m in
  mem_inv m' free /\
  guest m' a = if (addr <=? a) && (a <? addr + PAGE_SIZE)
               then Some (nth (Z.to_nat (a - addr)) data 0) else guest m a.
Proof.
  intros Hi Hm Ha Hd Hlen m'.
  assert (forall r, byte_at (host m') r <> byte_at (host m) r ->
     host_addr addr m <= r < host_addr addr m + PAGE_SIZE) as Hout.
  { intros r. cbn [m' set_host host]. rewrite byte_at_memcpy_to, Hlen.
    destruct (Z.leb_spec (host_addr addr m) r), (Z.ltb_spec r (host_addr addr m + PAGE_SIZE));
      cbn [andb]; try done; lia. }
  assert (mem_inv m' free) as Hi'.
  { apply (set_host_inv m free Hi).
    - apply bytes_ok_memcpy_to; [done|apply (inv_bytes _ _ Hi)].
    - intros r Hr. apply Hout in Hr. exists (addr / PAGE_SIZE).
      destruct (host_addr_in_page m free Hi addr _ Hm) as (_ & _ & H1 & H2).
      destruct Hm as (_ & _ & _ & Hptr & _). split; [done|lia]. }
  split; [done|]. subst m'. rewrite (guest_set_host m free addr PAGE_SIZE _ a) by done.
  destruct (Z.leb_spec addr a), (Z.ltb_spec a (addr + PAGE_SIZE)); cbn [andb]; try done.
  f_equal. rewrite byte_at_memcpy_to, Hlen.
  rewrite (proj2 (Z.leb_le _ _)), (proj2 (Z.ltb_lt _ _)) by lia. cbn [andb].
  do 2 f_equal. lia.
Qed.

Lemma writeRegion_spec m free addr data :
  mem_inv m free -> region_mapped addr (Z.of_nat (length data)) m ->
  Z.of_nat (length data) < 2 ^ 32 -> Forall (uint 8) data ->
  exists m', writeRegion addr data m = Ok m' /\ mem_inv m' free /\
    m' = set_host (host m') m /\
    forall a, 0 <= a -> guest m' a =
      if (addr <=? a) && (a <? addr + Z.of_nat (length data))
      then Some (nth (Z.to_nat (a - addr)) data 0) else guest m a.
Proof.
  intros Hi Hreg Hlen Hd. unfold writeRegion. set (len := Z.of_nat (length data)) in *.
  set (I := fun j (m' : MemState) => mem_inv m' free /\ m' = set_host (host m') m /\
    forall a, 0 <= a -> guest m' a =
      if (addr <=? a) && (a <? addr + j)
      then Some (nth (Z.to_nat (a - addr)) data 0) else guest m a).
  edestruct (whileU32_inv I len) as (m' & Hm' & HI).
  6: { rewrite Hm'. exists m'. split; [done|]. exact HI. }
  - lia.
  - lia.
  - unfold loopFuel. lia.
  - split; [done|]. split; [by destruct m|]. intros a Ha.
    destruct (Z.leb_spec addr a), (Z.ltb_spec a (addr + 0)); cbn [andb]; done || lia.
  - intros i m1 Hii (Hi1 & Heq & Hg).
    assert (region_mapped addr len m1) as Hreg1 by (rewrite Heq; exact Hreg).
    destruct (wholePage addr i len) eqn:Hw.
    + destruct (wholePage_spec addr i len m1 Hreg1 Hii Hw) as (Hm & Hlt & ->).
      rewrite (translate_mapped _ _ _ Hm). cbn [mbind result_bind].
      rewrite (in_block_mapped m1 free Hi1 _ _ Hm). eexists _, _. split; [done|].
      split; [rewrite PAGE_SIZE_eq in *; lia|].
      set (part := take _ _).
      assert (Z.of_nat (length part) = PAGE_SIZE) as Hpl.
      { subst part. rewrite length_take, length_drop. rewrite PAGE_SIZE_eq in *. lia. }
      assert (Forall (uint 8) part) as Hpd by (subst part; by apply Forall_take, Forall_drop).
      destruct (memcpy_page_guest m1 free (addr + i) part 0 Hi1 Hm ltac:(lia) Hpd Hpl)
        as [Hi2 _].
      split; [exact Hi2|]. split; [by rewrite Heq|]. intros a Ha.
      destruct (memcpy_page_guest m1 free (addr + i) part a Hi1 Hm Ha Hpd Hpl) as [_ ->].
      rewrite (Hg a Ha). destruct (Z.leb_spec (addr + i) a), (Z.ltb_spec a (addr + i + PAGE_SIZE));
        destruct (Z.leb_spec addr a), (Z.ltb_spec a (addr + (i + PAGE_SIZE))),
          (Z.ltb_spec a (addr + i)); cbn [andb]; try lia; try done.
      f_equal. subst part. rewrite nth_take_drop by (rewrite PAGE_SIZE_eq in *; lia).
      f_equal. lia.
    + destruct (region_byte addr i len m1 Hreg1 Hii) as (Hm & Hu).
      assert (uint 8 (data_at data i)) as Hb.
      { unfold data_at. rewrite Forall_forall in Hd. apply Hd, list_elem_of_In, nth_In. lia. }
      destruct (write_byte_guest m1 free _ _ 0 Hi1 Hm ltac:(lia) Hb)
        as (m2 & Hw2 & Hi2 & Heq2 & _).
      rewrite Hw2. cbn [mbind result_bind]. eexists _, _. split; [done|]. split; [lia|].
      split; [done|]. split; [rewrite Heq2, Heq; done|]. intros a Ha.
      destruct (write_byte_guest m1 free _ _ a Hi1 Hm Ha Hb) as (m2' & Hw2' & _ & _ & Hg2).
      rewrite Hw2 in Hw2'. injection Hw2' as <-. rewrite Hg2, Hg, Hu by done.
      unfold data_at. destruct (Z.eqb_spec a (addr + i)) as [->|Hne].
      * rewrite (proj2 (Z.leb_le _ _)), (proj2 (Z.ltb_lt _ _)) by lia. cbn [andb].
        do 3 f_equal. lia.
      * destruct (Z.leb_spec addr a), (Z.ltb_spec a (addr + (i + 1))),
          (Z.ltb_spec a (addr + i)); cbn [andb]; done || lia.
Qed.

(** ** Properties *)

(** round trip: reading back a region just written returns the data, for any
    address, alignment and length below 2^32 whose pages are mapped, whichever parts
    were copied page by page; both loops end, and the allocator's invariant holds. *)
Theorem readRegion_writeRegion (m : MemState) (addr : Z) (data : list Z) :
  mem_wf m -> region_mapped addr (Z.of_nat (length data)) m ->
  Z.of_nat (length data) < 2 ^ 32 -> Forall (uint 8) data ->
  exists m', writeRegion addr data m = Ok m' /\ mem_wf m' /\
    readRegion addr (Z.of_nat (length data)) m' = Ok data.
Proof.
  intros [free Hi] Hreg Hlen Hd.
  destruct (writeRegion_spec m free addr data Hi Hreg Hlen Hd) as (m' & Hw & Hi' & Heq & Hg).
  exists m'. split; [done|]. split; [by exists free|].
  assert (region_mapped addr (Z.of_nat (length data)) m') as Hreg'
    by (rewrite Heq; exact Hreg).
  destruct (readRegion_spec m' free addr _ Hi' Hreg' ltac:(lia)) as (data' & Hr & Hl & Hn).
  rewrite Hr. f_equal. apply (nth_ext _ _ 0 0); [lia|]. intros i Hi0.
  specialize (Hn (Z.of_nat i) ltac:(lia)). rewrite Nat2Z.id in Hn.
  destruct Hreg as (Ha & _). rewrite Hg in Hn by lia.
  rewrite (proj2 (Z.leb_le _ _)), (proj2 (Z.ltb_lt _ _)) in Hn by lia. cbn [andb] in Hn.
  replace (Z.to_nat (addr + Z.of_nat i - addr)) with i in Hn by lia. congruence.
Qed.

Lemma region_example : region_mapped 0x5010 3 mem_example.
Proof.
  split; [lia|]. split; [lia|]. intros a Ha.
  assert (a = 0x5010 \/ a = 0x5011 \/ a = 0x5012) as [->|[->| ->]] by lia;
    repeat split; vm_compute; congruence.
Qed.

Lemma readRegion_writeRegion_witness :
  (mem_wf mem_example /\ region_mapped 0x5010 3 mem_example) /\
  exists m', writeRegion 0x5010 [1; 2; 255] mem_example = Ok m' /\ mem_wf m' /\
    readRegion 0x5010 3 m' = Ok [1; 2; 255].
Proof.
  assert (mem_wf mem_example) as Hwf by (exists [0x11000]; apply mem_example_inv).
  split; [split; [exact Hwf|exact region_example]|].
  apply (readRegion_writeRegion mem_example 0x5010 [1; 2; 255] Hwf region_example);
    [reflexivity|]. repeat constructor; unfold uint; lia.
Defined.

(** [zeroMem] of one byte clears four: [write(addr + i, 0)] stores an [int], so
    the three bytes after the region are lost. *)
Theorem zeroMem_overrun (m : MemState) (addr : Z) :
  mem_wf m -> mapped_range addr 4 m -> addr + 4 <= 2 ^ 64 ->
  exists m', zeroMem addr 1 m = Ok m' /\ mem_wf m' /\
    forall a, 0 <= a -> guest m' a =
      if (addr <=? a) && (a <? addr + 4) then Some 0 else guest m a.
Proof.
  intros [free Hi] Hm Hr. pose proof Hm as (Ha & _).
  exists (set_host (store_le 4 (host_addr addr m) 0 (host m)) m). split; [|split].
  - unfold zeroMem, loopFuel. cbn [whileU32 Z.to_nat Pos.to_nat].
    change (0 <? 1) with true. cbn iota.
    assert (wholePage addr 0 1 = false) as ->
      by (unfold wholePage; rewrite PAGE_SIZE_eq; apply andb_false_r).
    rewrite Z.add_0_r, u64_id by (unfold uint; lia).
    rewrite (write_mapped m free Hi _ _ _ Hm). reflexivity.
  - exists free. apply (write_inv m free Hi addr 4 0 Hm).
  - intros a Ha'. etransitivity; [apply (write_refines m free 4 addr 0 a Hi Hm Ha')|].
    cbn [flat_op]. destruct (_ && _); [|done]. by rewrite Zdiv_0_l.
Qed.

Lemma zeroMem_overrun_witness :
  (mem_wf mem_example /\ mapped_range 0x5FF0 4 mem_example /\ 0x5FF0 + 4 <= 2 ^ 64) /\
  exists m', zeroMem 0x5FF0 1 mem_example = Ok m' /\ mem_wf m' /\
    forall a, 0 <= a -> guest m' a =
      if (0x5FF0 <=? a) && (a <? 0x5FF0 + 4) then Some 0 else guest mem_example a.
Proof.
  assert (mem_wf mem_example) as Hwf by (exists [0x11000]; apply mem_example_inv).
  assert (mapped_range 0x5FF0 4 mem_example) as Hm by (repeat split; vm_compute; congruence).
  split; [split; [exact Hwf|split; [exact Hm|lia]]|].
  exact (zeroMem_overrun mem_example 0x5FF0 Hwf Hm ltac:(lia)).
Defined.

(** an access that crosses a page boundary continues in the host page that
    happens to follow, whatever the page table says: here an eight-byte guest write
    at the end of page 5 overwrites the link stored in a free page, and the next
    allocation takes a pointer outside the memory block. *)
Example cross_page_write_corrupts_free_list :
  gFreePageList mem_example = 0x11000 /\
  mapped_range 0x5FFC 4 mem_example /\ guest mem_example 0x6000 = None /\
  match write 8 0x5FFC 0x123456789ABCDEF0 mem_example with
  | Ok m1 =>
      match allocatePage 7 m1 with
      | Ok (true, m2) =>
          gFreePageList m2 = 0x12345678 /\
          allocatePage 8 m2 = Err (HostFault 0x12345678)
      | _ => False
      end
  | Err _ => False
  end.
Proof.
  split; [vm_compute; reflexivity|]. split; [repeat split; vm_compute; congruence|].
  split; [vm_compute; reflexivity|]. vm_compute. split; reflexivity.
Qed.

(** * Allocating regions, and [fini] *)

(** ** [allocateRegion] *)

(** The pages of a region that are not mapped yet. *)
Fixpoint missing (n : nat) (b : Z) (m : MemState) : nat :=
  match n with
  | O => 0
  | S n => (if pointer (entry m b) =? 0 then 1 else 0) + missing n (b + 1) m
  end.

Lemma missing_congr n b m m' :
  (forall k, b <= k -> pointer (entry m' k) = pointer (entry m k)) -> missing n b m' = missing n b m.
Proof.
  revert b. induction n as [|n IH]; intros b Hp; [done|]. cbn [missing].
  rewrite Hp by lia. f_equal. apply IH. intros k Hk. apply Hp. lia.
Qed.

(** What a region that could be allocated looks like. *)
Record region_allocated (n : nat) (b : Z) (m : MemState) (free : list Z) (m' : MemState) (free' : list Z)
    : Prop := {
  rg_inv : mem_inv m' free';
  rg_free : (length free' + missing n b m = length free)%nat;
  rg_mapped k : b <= k < b + Z.of_nat n -> pointer (entry m' k) <> 0;
  rg_others k : pointer (entry m k) <> 0 \/ ~ (b <= k < b + Z.of_nat n) ->
    pointer (entry m' k) = pointer (entry m k);
  rg_guest a : 0 <= a -> guest m' a =
    if (b <=? a / PAGE_SIZE) && (a / PAGE_SIZE <? b + Z.of_nat n)
    then Some (default 0 (guest m a)) else guest m a;
}.

Lemma pointer_allocated_state n p m k :
  pointer (entry (allocated_state n p m) k) = if k =? n then p else pointer (entry m k).
Proof. unfold allocated_state. rewrite entry_set_pointer, (Z.eqb_sym n k). by destruct (k =? n). Qed.

Lemma missing_allocated n b p m : missing n (b + 1) (allocated_state b p m) = missing n (b + 1) m.
Proof.
  apply missing_congr. intros k Hk. rewrite pointer_allocated_state.
  by rewrite (proj2 (Z.eqb_neq k b)) by lia.
Qed.

(** One page more at the front: taken from the free list, or there already. *)
Lemma region_take n b m p free m' free' : pointer (entry m b) = 0 -> p <> 0 ->
  (forall a, 0 <= a -> guest (allocated_state b p m) a =
     if a / PAGE_SIZE =? b then Some (default 0 (guest m a)) else guest m a) ->
  region_allocated n (b + 1) (allocated_state b p m) free m' free' ->
  region_allocated (S n) b m (p :: free) m' free'.
Proof.
  intros Ep Hp Hg [R1 R2 R3 R4 R5]. rewrite missing_allocated in R2.
  assert (pointer (entry m' b) = p) as Epb.
  { rewrite R4; rewrite pointer_allocated_state, Z.eqb_refl; [done|by left]. }
  constructor; [done| | | |].
  - cbn [missing length]. rewrite Ep. cbn. lia.
  - intros k Hk. destruct (Z.eq_dec k b) as [->|]; [by rewrite Epb|]. apply R3. lia.
  - intros k Hk. destruct (Z.eq_dec k b) as [->|Hne]; [destruct Hk; [done|lia]|].
    assert (pointer (entry (allocated_state b p m) k) = pointer (entry m k)) as Ek
      by (rewrite pointer_allocated_state; by rewrite (proj2 (Z.eqb_neq k b))).
    rewrite <-Ek. apply R4. rewrite Ek. destruct Hk; [by left|right; lia].
  - intros a Ha. rewrite R5, Hg by done.
    destruct (Z.eqb_spec (a / PAGE_SIZE) b), (Z.leb_spec (b + 1) (a / PAGE_SIZE)),
      (Z.leb_spec b (a / PAGE_SIZE)), (Z.ltb_spec (a / PAGE_SIZE) (b + 1 + Z.of_nat n)),
      (Z.ltb_spec (a / PAGE_SIZE) (b + Z.of_nat (S n))); cbn [andb]; done || lia.
Qed.

Lemma region_keep n b m free m' free' : pointer (entry m b) <> 0 ->
  (forall a, a / PAGE_SIZE = b -> 0 <= a -> guest m a = Some (default 0 (guest m a))) ->
  region_allocated n (b + 1) m free m' free' -> region_allocated (S n) b m free m' free'.
Proof.
  intros Ep Hg [R1 R2 R3 R4 R5]. constructor; [done| | | |].
  - cbn [missing]. rewrite (proj2 (Z.eqb_neq _ 0) Ep). exact R2.
  - intros k Hk. destruct (Z.eq_dec k b) as [->|]; [rewrite R4; [done|by left]|]. apply R3. lia.
  - intros k Hk. apply R4. destruct Hk; [by left|right; lia].
  - intros a Ha. rewrite R5 by done.
    destruct (Z.eq_dec (a / PAGE_SIZE) b) as [E|].
    { rewrite !E, (proj2 (Z.leb_gt (b + 1) b)), Z.leb_refl by lia. cbn [andb].
      rewrite (proj2 (Z.ltb_lt b _)) by lia. by apply Hg. }
    destruct (Z.leb_spec (b + 1) (a / PAGE_SIZE)), (Z.leb_spec b (a / PAGE_SIZE)),
      (Z.ltb_spec (a / PAGE_SIZE) (b + 1 + Z.of_nat n)),
      (Z.ltb_spec (a / PAGE_SIZE) (b + Z.of_nat (S n))); cbn [andb]; done || lia.
Qed.

Section Region.
Context (beginPageNum numPages : Z).
Context (Hb : 0 <= beginPageNum) (Hn : 0 <= numPages) (Hmax : beginPageNum + numPages <= NUM_PAGES).

(** The loop of [allocateRegion]. *)
Definition allocateLoop : nat -> Z -> MemState -> result (bool * MemState) :=
  fix loop (fuel : nat) (i : Z) (m : MemState) : result (bool * MemState) :=
    if i <? numPages then
      match fuel with
      | O => Err Diverges
      | S fuel =>
          '(ok, m) ← allocatePage (u64 (beginPageNum + i)) m;
          if (ok : bool) then loop fuel (u32 (i + 1)) m else Ok (false, m)
      end
    else Ok (true, m).

Lemma allocateLoop_S fuel i m : 0 <= i < numPages ->
  allocateLoop (S fuel) i m =
    ('(ok, m) ← allocatePage (beginPageNum + i) m;
     if (ok : bool) then allocateLoop fuel (i + 1) m else Ok (false, m)).
Proof using Hb Hmax.
  intros Hi. rewrite NUM_PAGES_eq in Hmax. cbn [allocateLoop].
  rewrite (proj2 (Z.ltb_lt i numPages)) by lia. unfold u32, u64.
  by rewrite !wrap_id by (unfold uint; lia).
Qed.

Lemma allocateLoop_end fuel m : allocateLoop fuel numPages m = Ok (true, m).
Proof. destruct fuel; cbn; by rewrite Z.ltb_irrefl. Qed.

(** The rounds from page [i] on. *)
Lemma allocateLoop_spec n : forall fuel i m free,
  (n < fuel)%nat -> 0 <= i -> i + Z.of_nat n = numPages -> mem_inv m free ->
  if Nat.leb (missing n (beginPageNum + i) m) (length free) then
    exists m' free', allocateLoop fuel i m = Ok (true, m') /\
      region_allocated n (beginPageNum + i) m free m' free'
  else exists m', allocateLoop fuel i m = Ok (false, m') /\ gPageAllocatorLock m' = true.
Proof using Hb Hmax.
  induction n as [|n IH]; intros fuel i m free Hf Hi He Hinv.
  { exists m, free. replace i with numPages by lia. split; [apply allocateLoop_end|].
    constructor; [done|cbn; lia|lia|done|]. intros a _. destruct (Z.leb_spec (beginPageNum + numPages) (a / PAGE_SIZE)),
      (Z.ltb_spec (a / PAGE_SIZE) (beginPageNum + numPages + Z.of_nat 0)); cbn [andb]; done || lia. }
  destruct fuel as [|fuel]; [lia|]. rewrite allocateLoop_S by lia. cbn [missing].
  replace (beginPageNum + i + 1) with (beginPageNum + (i + 1)) by lia.
  assert (beginPageNum + i < NUM_PAGES) as Hbn by lia.
  destruct (Z.eqb_spec (pointer (entry m (beginPageNum + i))) 0) as [Ep|Ep].
  - destruct free as [|p free].
    { rewrite (allocatePage_exhausted m _ Hinv Hbn Ep). by eexists. }
    rewrite (allocatePage_take m p free _ Hinv Hbn Ep). cbn [mbind result_bind].
    pose proof (is_page_nonnull m _ p Hinv (Forall_inv (inv_free_pages _ _ Hinv))) as Hp.
    specialize (IH fuel (i + 1) _ free ltac:(lia) ltac:(lia) ltac:(lia)
      (allocated_inv m p free _ Hinv Ep)).
    rewrite Z.add_assoc in IH. rewrite missing_allocated in IH. rewrite Z.add_assoc.
    cbn [length Nat.add Nat.leb]. destruct (Nat.leb _ _); [|done].
    destruct IH as (m' & free' & E & R). exists m', free'. split; [done|].
    apply region_take; [done|lia| |done]. intros a Ha.
    rewrite (allocate_refines m p free) by (done || lia). cbn [flat_op].
    destruct (Z.eqb_spec (a / PAGE_SIZE) (beginPageNum + i)) as [Ea|]; [|done].
    by rewrite (guest_unmapped m a) by (right; by rewrite Ea).
  - rewrite (allocatePage_mapped m free _ Hinv Hbn Ep). cbn [mbind result_bind Nat.add].
    specialize (IH fuel (i + 1) m free ltac:(lia) ltac:(lia) ltac:(lia) Hinv).
    destruct (Nat.leb _ _); [|done].
    destruct IH as (m' & free' & E & R). exists m', free'. split; [done|].
    apply region_keep; [done| |by rewrite <-Z.add_assoc]. intros a Ea Ha.
    by rewrite (guest_mapped m free) by (done || (apply mapped_byte; rewrite ?Ea; done || lia)).
Qed.
End Region.

(** C17: the loop of [allocateRegion] ends for every region of the address space, and the
    result is exact: true when the free list has a page for every page of the region
    that is not mapped, and then the whole region is mapped, what was mapped stays
    where it was and the allocator's invariant holds; false otherwise, with the
    allocator's lock left taken. *)
Theorem allocateRegion_returns (m : MemState) (free : list Z) (beginPageNum numPages : Z) :
  mem_inv m free -> 0 <= beginPageNum -> 0 <= numPages -> beginPageNum + numPages <= NUM_PAGES ->
  if Nat.leb (missing (Z.to_nat numPages) beginPageNum m) (length free) then
    exists m' free', allocateRegion beginPageNum numPages m = Ok (true, m') /\
      region_allocated (Z.to_nat numPages) beginPageNum m free m' free'
  else exists m', allocateRegion beginPageNum numPages m = Ok (false, m') /\ gPageAllocatorLock m' = true.
Proof.
  intros Hi Hb Hn Hmax.
  pose proof (allocateLoop_spec beginPageNum numPages Hb Hmax (Z.to_nat numPages) (loopFuel numPages)
    0 m free ltac:(unfold loopFuel; lia) ltac:(lia) ltac:(lia) Hi) as Hl.
  rewrite Z.add_0_r in Hl. exact Hl.
Qed.

(** Two more pages where one is free, and one more. *)
Lemma allocateRegion_returns_witness :
  mem_inv mem_example [0x11000] /\ missing 2 4 mem_example = 1%nat /\
  (exists m', allocateRegion 4 2 mem_example = Ok (true, m') /\ pointer (entry m' 4) <> 0) /\
  missing 3 4 mem_example = 2%nat /\
  exists m', allocateRegion 4 3 mem_example = Ok (false, m').
Proof.
  pose proof (allocateRegion_returns mem_example [0x11000] 4 2 mem_example_inv
    ltac:(lia) ltac:(lia) ltac:(vm_compute; congruence)) as H2.
  pose proof (allocateRegion_returns mem_example [0x11000] 4 3 mem_example_inv
    ltac:(lia) ltac:(lia) ltac:(vm_compute; congruence)) as H3.
  assert (missing 2 4 mem_example = 1%nat) as E2 by (vm_compute; reflexivity).
  assert (missing 3 4 mem_example = 2%nat) as E3 by (vm_compute; reflexivity).
  change (Z.to_nat 2) with 2%nat in H2. change (Z.to_nat 3) with 3%nat in H3.
  rewrite E2 in H2. rewrite E3 in H3. cbn in H2, H3.
  destruct H2 as (m' & free' & E & R). destruct H3 as (m3 & E4 & _).
  split; [exact mem_example_inv|]. split; [exact E2|]. split; [|split; [exact E3|by exists m3]].
  exists m'. split; [exact E|]. apply (rg_mapped _ _ _ _ _ _ R). lia.
Defined.

(** ** [fini] and a second [init] *)

Lemma whileU32_preserves {S} (P : S -> Prop) limit (body : Z -> S -> result (Z * S)) fuel :
  (forall i s j s', P s -> body i s = Ok (j, s') -> P s') ->
  forall i s s', P s -> whileU32 fuel i limit body s = Ok s' -> P s'.
Proof.
  intros Hbody. induction fuel as [|fuel IH]; intros i s s' Hs; cbn [whileU32].
  - destruct (i <? limit); [done|]. by intros [= <-].
  - destruct (i <? limit); [|by intros [= <-]].
    destruct (body i s) as [[j s1]|] eqn:E; [|done]. cbn [mbind result_bind].
    apply IH. by apply (Hbody i s j s1).
Qed.

(** The block of [m] is at [a], its page table and lock are those of [m0]. *)
Definition block_at (a size : Z) (m0 m : MemState) : Prop :=
  gMemBase m = a /\ memBytes m = size /\ gMainPageTable m = gMainPageTable m0 /\
  gPageAllocatorLock m = gPageAllocatorLock m0.

Lemma host_store_block a size m0 n p v m m' :
  block_at a size m0 m -> host_store n p v m = Ok m' -> block_at a size m0 m'.
Proof. unfold host_store. destruct (in_block m p n); [|done]. by intros ? [= <-]. Qed.

Lemma init_block a size m m' : init a size m = Ok (true, m') -> block_at a size m m'.
Proof.
  unfold init. destruct (size =? 0); [done|]. destruct (negb _); [done|]. destruct (a =? 0); [done|].
  cbv zeta. destruct (whileU32 _ _ _ _ _) as [m1|] eqn:E1; [|done]. cbn [mbind result_bind].
  destruct (host_store _ _ _ m1) as [m2|] eqn:E2; [|done]. intros [= <-].
  apply (host_store_block a size m) with (2 := E2).
  revert E1. apply (whileU32_preserves (block_at a size m)); [|by repeat split].
  intros i s j s' Hs. destruct (host_store _ _ _ s) as [s1|] eqn:Es; [|done]. intros [= <- <-].
  by apply (host_store_block a size m) with (2 := Es).
Qed.

(** restarting the memory leaves the page table behind: a page mapped before [fini]
    counts as mapped after the next [init], so [allocatePage] gives it no memory, and
    every access to it goes to the block that was freed. *)
Theorem fini_keeps_page_table (m m1 m2 : MemState) (free : list Z) (a size n : Z) :
  mem_inv m free -> 0 <= n < NUM_PAGES -> pointer (entry m n) <> 0 ->
  fini m = Ok m1 -> init a size m1 = Ok (true, m2) ->
  a + size <= gMemBase m \/ gMemBase m + memBytes m <= a ->
  allocatePage n m2 = Ok (true, m2) /\
  forall k o v, 0 < k -> 0 <= o -> o + k <= PAGE_SIZE ->
    exists p, write k (n * PAGE_SIZE + o) v m2 = Err (HostFault p) /\
      gMemBase m <= p < gMemBase m + memBytes m.
Proof.
  intros Hi Hn Hp Hf Hinit Hapart. destruct (init_block _ _ _ _ Hinit) as (B1 & B2 & B3 & B4).
  pose proof (inv_base _ _ Hi). destruct (inv_mapped _ _ Hi n Hp) as [(P1 & P2 & P3) _].
  assert (gMainPageTable m1 = gMainPageTable m /\ gPageAllocatorLock m1 = false) as [T1 T2].
  { revert Hf. unfold fini. rewrite (proj2 (Z.eqb_neq (gMemBase m) 0)) by lia.
    destruct (memBytes m =? 0); [done|]. intros [= <-]. split; [done|]. apply (inv_unlocked _ _ Hi). }
  assert (entry m2 n = entry m n) as En by (unfold entry; by rewrite B3, T1).
  rewrite T2 in B4. split.
  - unfold allocatePage, lock. rewrite Z.geb_leb, (proj2 (Z.leb_gt NUM_PAGES n)) by lia.
    rewrite B4. cbn [mbind result_bind]. change (entry (set_gPageAllocatorLock true m2) n) with (entry m2 n).
    rewrite En, (proj2 (Z.eqb_neq _ 0) Hp). cbn [negb]. by rewrite unlock_locked.
  - intros k o v Hk Ho Hko. rewrite PAGE_SIZE_eq in *.
    assert (mapped_range (n * PAGE_SIZE + o) k m2) as Hm.
    { unfold mapped_range. rewrite PAGE_SIZE_eq.
      rewrite Z.div_add_l, Z.div_small, Z.add_0_r by lia. rewrite En.
      rewrite Z.add_comm, Z.mod_add, Z.mod_small by lia. split_and!; lia || done. }
    rewrite PAGE_SIZE_eq in Hm. pose proof (translate_mapped _ _ _ Hm) as Et.
    exists (host_addr (n * 4096 + o) m2). unfold write. rewrite Et. cbn [mbind result_bind].
    unfold host_addr. rewrite PAGE_SIZE_eq.
    rewrite Z.div_add_l, Z.div_small, Z.add_0_r by lia. rewrite En.
    rewrite (Z.add_comm (n * 4096)), Z.mod_add, Z.mod_small by lia.
    split; [|lia]. unfold host_store, in_block. rewrite B1, B2.
    destruct (Z.leb_spec a (pointer (entry m n) + o)),
      (Z.leb_spec (pointer (entry m n) + o + k) (a + size)); cbn; done || lia.
Qed.

Lemma fini_keeps_page_table_witness :
  exists m1 m2, fini mem_example = Ok m1 /\ init 0x40000 0x2000 m1 = Ok (true, m2) /\
    allocatePage 5 m2 = Ok (true, m2) /\ exists p, write 4 0x5010 7 m2 = Err (HostFault p).
Proof.
  destruct (fini mem_example) as [m1|] eqn:E1; [|by vm_compute in E1].
  destruct (init 0x40000 0x2000 m1) as [[[] m2]|] eqn:E2;
    [|injection E1 as <-; by vm_compute in E2|injection E1 as <-; by vm_compute in E2].
  exists m1, m2. split; [done|]. split; [exact E2|].
  destruct (fini_keeps_page_table mem_example m1 m2 [0x11000] 0x40000 0x2000 5 mem_example_inv)
    as [Ha Hw]; try done.
  - by right.
  - split; [exact Ha|]. destruct (Hw 4 0x10 7) as (p & E & _); [done|done|done|]. by exists p.
Defined.
