(* ===== verification/Float.v ===== *)
(** * Floating-point values: [common/inc/types.h], [common/inc/floatutils.h] and the
    host arithmetic

    A [halfFloat], [singleFloat] or [doubleFloat] is the bit pattern of its union, an
    integer; the bit-fields [mantissa], [exponent], [sign] and [isQuiet] read and
    write its bits, and [valueOf] is the number [val] denotes, in the Standard
    Library's specification of IEEE 754 arithmetic.  The operators and library
    functions of C++ on [float] and [double] are that specification's operations,
    rounding to nearest even; what the target does where C++ says nothing (the
    payload of a NaN result, the cast of an unrepresentable value to an integer) are
    the fields of [HostFloat]. *)
From Stdlib Require Import SpecFloat.
From S2P Require Import Prelude BitUtils.

(** ** The three unions *)

Inductive floatFormat : Set := halfFloat | singleFloat | doubleFloat.

Definition mantBits (f : floatFormat) : Z :=
  match f with halfFloat => 10 | singleFloat => 23 | doubleFloat => 52 end.
Definition expBits (f : floatFormat) : Z :=
  match f with halfFloat => 5 | singleFloat => 8 | doubleFloat => 11 end.
Definition maxExp (f : floatFormat) : Z :=
  match f with halfFloat => 0x1F | singleFloat => 0xFF | doubleFloat => 0x7FF end.
Definition floatWidth (f : floatFormat) : Z :=
  match f with halfFloat => 16 | singleFloat => 32 | doubleFloat => 64 end.

(** [n] bits of [b] from bit [lo], read and written: a bit-field member. *)
Definition bitField (lo n b : Z) : Z := wrap n (Z.shiftr b lo).
Definition setBitField (lo n v b : Z) : Z :=
  Z.lor (Z.ldiff b (Z.shiftl (Z.ones n) lo)) (Z.shiftl (wrap n v) lo).

Section Members.
Context (f : floatFormat).

Definition mantissa (b : Z) : Z := bitField 0 (mantBits f) b.
Definition exponent (b : Z) : Z := bitField (mantBits f) (expBits f) b.
Definition sign (b : Z) : Z := bitField (floatWidth f - 1) 1 b.
Definition isQuietBit (b : Z) : Z := bitField (mantBits f - 1) 1 b.

Definition set_mantissa (v b : Z) : Z := setBitField 0 (mantBits f) v b.
Definition set_exponent (v b : Z) : Z := setBitField (mantBits f) (expBits f) v b.
Definition set_sign (v b : Z) : Z := setBitField (floatWidth f - 1) 1 v b.
Definition set_isQuiet (v b : Z) : Z := setBitField (mantBits f - 1) 1 v b.

(** ** [floatutils.h] *)

Definition isPositive (b : Z) : bool := negb (sign b !=? 0).
Definition isNegative (b : Z) : bool := negb (isPositive b).
Definition isZero (b : Z) : bool := (mantissa b =? 0) && (exponent b =? 0).
Definition isPositiveZero (b : Z) : bool := isPositive b && isZero b.
Definition isNegativeZero (b : Z) : bool := isNegative b && isZero b.
Definition isInfinity (b : Z) : bool := (mantissa b =? 0) && (exponent b =? maxExp f).
Definition isPositiveInfinity (b : Z) : bool := isPositive b && isInfinity b.
Definition isNegativeInfinity (b : Z) : bool := isNegative b && isInfinity b.
Definition isNaN (b : Z) : bool := (mantissa b !=? 0) && (exponent b =? maxExp f).
Definition isQuiet (b : Z) : bool := isQuietBit b !=? 0.
Definition isSignalingNaN (b : Z) : bool := isNaN b && negb (isQuiet b).
Definition isQuietNaN (b : Z) : bool := isNaN b && isQuiet b.

Definition generateSNaN : Z :=
  set_isQuiet 0 (set_exponent (maxExp f) (set_mantissa 0 0)).
Definition generateQNaN : Z :=
  set_isQuiet 1 (set_exponent (maxExp f) (set_mantissa 0 0)).

(** ** Values *)

Definition prec : Z := mantBits f + 1.
Definition emax : Z := 2 ^ (expBits f - 1).

(** The number a bit pattern denotes. *)
Definition valueOf (b : Z) : spec_float :=
  let s := sign b !=? 0 in
  if exponent b =? maxExp f then
    if mantissa b =? 0 then S754_infinity s else S754_nan
  else if exponent b =? 0 then
    match mantissa b with
    | Zpos m => S754_finite s m (emin prec emax)
    | _ => S754_zero s
    end
  else
    S754_finite s (Z.to_pos (mantissa b + 2 ^ mantBits f))
      (exponent b - 1 + emin prec emax).

(** The bit pattern with the given fields. *)
Definition pack (s : bool) (e m : Z) : Z :=
  Z.b2z s * 2 ^ (floatWidth f - 1) + e * 2 ^ mantBits f + m.

(** The bit pattern of a number; a NaN has several, and gets the default one. *)
Definition bitsOf (x : spec_float) : Z :=
  match x with
  | S754_zero s => pack s 0 0
  | S754_infinity s => pack s (maxExp f) 0
  | S754_nan => generateQNaN
  | S754_finite s m e =>
      if Zpos m <? 2 ^ mantBits f then pack s 0 (Zpos m)
      else pack s (e - emin prec emax + 1) (Zpos m - 2 ^ mantBits f)
  end.
End Members.

(** ** Host arithmetic *)

Class HostFloat := {
  (* the bits of a NaN result of [x op y] *)
  nan_result : floatFormat -> Z -> Z -> Z;
  (* [static_cast] of a value that the integer type (signedness, width) cannot
     represent *)
  cast_overflow : bool -> Z -> spec_float -> Z;
}.

(** [binary_normalize] on the format: the nearest value to [m * 2^e]. *)
Definition roundTo (f : floatFormat) (m e : Z) : spec_float :=
  binary_normalize (prec f) (emax f) m e false.

(** The magnitude of [m * 2^e], split in quotient and remainder by [2^-e] when [e]
    is negative. *)
Definition splitInt (m e : Z) : Z * Z * Z :=
  if 0 <=? e then (m * 2 ^ e, 0, 1)
  else (m / 2 ^ (- e), m mod 2 ^ (- e), 2 ^ (- e)).

(** [ceil], [floor], [trunc], [round]: [up q r d] tells whether the magnitude
    [q + r/d] of a number is rounded away from zero; a zero result keeps the sign. *)
Definition roundIntegral (f : floatFormat) (up : bool -> Z -> Z -> bool) (x : spec_float)
    : spec_float :=
  match x with
  | S754_finite s m e =>
      let '(q, r, d) := splitInt (Zpos m) e in
      if r =? 0 then x
      else
        let n := if up s r d then q + 1 else q in
        if n =? 0 then S754_zero s
        else roundTo f (if s then - n else n) 0
  | _ => x
  end.

Definition host_ceil f := roundIntegral f (fun s _ _ => negb s).
Definition host_floor f := roundIntegral f (fun s _ _ => s).
Definition host_trunc f := roundIntegral f (fun _ _ _ => false).
Definition host_round f := roundIntegral f (fun _ r d => d <=? 2 * r).

(** [remainder(x, 1.0)]: [x - n] for the integer [n] nearest to [x], the even one of
    two; a zero result has the sign of [x]. *)
Definition host_remainder1 (f : floatFormat) (x : spec_float) : spec_float :=
  match x with
  | S754_finite s m e =>
      let '(q, r, d) := splitInt (Zpos m) e in
      if r =? 0 then S754_zero s
      else
        let up := (d <? 2 * r) || ((d =? 2 * r) && Z.odd q) in
        let rest := if up then r - d else r in
        roundTo f (if s then - rest else rest) e
  | S754_infinity _ => S754_nan
  | _ => x
  end.

(** The conversion from one format to another. *)
Definition convertTo (f : floatFormat) (x : spec_float) : spec_float :=
  match x with
  | S754_finite s m e => roundTo f (if s then Zneg m else Zpos m) e
  | _ => x
  end.

Section Host.
Context `{HostFloat} (f : floatFormat).

(** The bits of a result of [x op y]. *)
Definition hostResult (x y : Z) (r : spec_float) : Z :=
  match r with S754_nan => nan_result f x y | _ => bitsOf f r end.

Definition host_add (x y : Z) : Z :=
  hostResult x y (SFadd (prec f) (emax f) (valueOf f x) (valueOf f y)).
Definition host_sub (x y : Z) : Z :=
  hostResult x y (SFsub (prec f) (emax f) (valueOf f x) (valueOf f y)).
Definition host_mul (x y : Z) : Z :=
  hostResult x y (SFmul (prec f) (emax f) (valueOf f x) (valueOf f y)).
Definition host_div (x y : Z) : Z :=
  hostResult x y (SFdiv (prec f) (emax f) (valueOf f x) (valueOf f y)).
Definition host_sqrt (x : Z) : Z :=
  hostResult x x (SFsqrt (prec f) (emax f) (valueOf f x)).

(** [-x] flips the sign bit; [x < y] and [x == y] compare values. *)
Definition host_neg (x : Z) : Z := Z.lxor x (2 ^ (floatWidth f - 1)).
Definition host_lt (x y : Z) : bool := SFltb (valueOf f x) (valueOf f y).
Definition host_eqb (x y : Z) : bool := SFeqb (valueOf f x) (valueOf f y).

(** [std::numeric_limits<T>::infinity()] *)
Definition infinity : Z := pack f false (maxExp f) 0.

(** [static_cast] to an integer type, as the 64-bit pattern of the result. *)
Definition castToInt (isSigned : bool) (bits : Z) (x : spec_float) : Z :=
  match x with
  | S754_zero _ => 0
  | S754_finite s m e =>
      let '(q, _, _) := splitInt (Zpos m) e in
      let v := if s then - q else q in
      let lo := if isSigned then - 2 ^ (bits - 1) else 0 in
      let hi := if isSigned then 2 ^ (bits - 1) else 2 ^ bits in
      if (lo <=? v) && (v <? hi) then u64 v else u64 (cast_overflow isSigned bits x)
  | _ => u64 (cast_overflow isSigned bits x)
  end.
End Host.

(** An x86-64 host: an SSE operation returns its first NaN operand, made quiet, and
    the negative default NaN when no operand is one; [cvttsd2si] returns the integer
    indefinite value, and a cast to [uint32_t] truncates the 64-bit conversion. *)
#[export] Instance x86_float : HostFloat | 10 := {
  nan_result f x y :=
    if isNaN f x then set_isQuiet f 1 x
    else if isNaN f y then set_isQuiet f 1 y
    else set_sign f 1 (generateQNaN f);
  cast_overflow isSigned bits x :=
    if isSigned then - 2 ^ (bits - 1)
    else if bits =? 64 then 2 ^ 63
    else match x with
         | S754_finite s m e =>
             let '(q, _, _) := splitInt (Zpos m) e in
             if q <? 2 ^ 63 then wrap bits (if s then - q else q) else 0
         | _ => 0
         end;
}.
