(* ===== verification/InterpBranch.v ===== *)
(** * Branches and system instructions: [libcpu/src/interpreter/Branch.cpp] and
    [System.cpp] *)
From S2P Require Import Prelude BitUtils Instructions Core InstUtils Machine.

(** * Branches: [Branch.cpp] *)

Definition condBranch (core : Core) (inst : Z) : Core :=
  let cond := toCondition (Inst.cond inst) in
  let off := signExtend 21 (Z.shiftl (Inst._5_23 inst) 2) in
  if testCondition core cond then set_nextPC (u64 (PC core + off)) core else core.

Definition uncondBranchRegGeneric (link : bool) (core : Core) (inst : Z) : Core :=
  let addr := getX core (Inst.Rn inst) in
  let core := if link then setX 30 (u64 (PC core + 4)) core else core in
  set_nextPC addr core.

Definition uncondBranchImmGeneric (link : bool) (core : Core) (inst : Z) : Core :=
  let off := signExtend 28 (Z.shiftl (Inst._0_25 inst) 2) in
  let core := if link then setX 30 (u64 (PC core + 4)) core else core in
  set_nextPC (u64 (PC core + off)) core.

Definition compareBranchGeneric (is64 negate : bool) (core : Core) (inst : Z) : Core :=
  let off := signExtend 21 (Z.shiftl (Inst._5_23 inst) 2) in
  let operand := getX core (Inst.Rt inst) in
  let operand := if is64 then operand else Z.land operand (bitmask 32) in
  let cond := operand =? 0 in
  let cond := if negate then negb cond else cond in
  if cond then set_nextPC (u64 (PC core + off)) core else core.

Definition testBitBranchGeneric `{ShiftTarget} (negate : bool) (core : Core) (inst : Z)
    : Core :=
  let off := signExtend 16 (Z.shiftl (Inst._5_18 inst) 2) in
  let operand := getX core (Inst.Rt inst) in
  let bit := Z.lor (Inst.b40 inst) (Z.shiftl (Inst.b5 inst) 5) in
  let cond := testBit_rt operand bit in
  let cond := if negate then negb cond else cond in
  if cond then set_nextPC (u64 (PC core + off)) core else core.

(** ** The instantiations *)

Definition uncondBranchRegNoLink : Core -> Z -> Core := uncondBranchRegGeneric false.
Definition uncondBranchRegLink : Core -> Z -> Core := uncondBranchRegGeneric true.
Definition uncondBranchImmNoLink : Core -> Z -> Core := uncondBranchImmGeneric false.
Definition uncondBranchImmLink : Core -> Z -> Core := uncondBranchImmGeneric true.
Definition cbz32 : Core -> Z -> Core := compareBranchGeneric false false.
Definition cbnz32 : Core -> Z -> Core := compareBranchGeneric false true.
Definition cbz64 : Core -> Z -> Core := compareBranchGeneric true false.
Definition cbnz64 : Core -> Z -> Core := compareBranchGeneric true true.
Definition tbz `{ShiftTarget} : Core -> Z -> Core := testBitBranchGeneric true.
Definition tbnz `{ShiftTarget} : Core -> Z -> Core := testBitBranchGeneric false.

Section Registration.
Context {Mem : Type} `{ShiftTarget}.

Definition registerBranchInstructions : registrations Mem :=
  [ (instructionID.B_cond, pureHandler condBranch);
    (instructionID.BR, pureHandler uncondBranchRegNoLink);
    (instructionID.BLR, pureHandler uncondBranchRegLink);
    (instructionID.RET, pureHandler uncondBranchRegNoLink);
    (instructionID.ERET, UNIMPLEMENTED_FUNC);
    (instructionID.DRPS, UNIMPLEMENTED_FUNC);
    (instructionID.B, pureHandler uncondBranchImmNoLink);
    (instructionID.BL, pureHandler uncondBranchImmLink);
    (instructionID.CBZ_32, pureHandler cbz32);
    (instructionID.CBNZ_32, pureHandler cbnz32);
    (instructionID.CBZ_64, pureHandler cbz64);
    (instructionID.CBNZ_64, pureHandler cbnz64);
    (instructionID.TBZ, pureHandler tbz);
    (instructionID.TBNZ, pureHandler tbnz) ].
End Registration.

(** * System instructions: [System.cpp] *)

(** The tests on the five fields that name a system register. *)
Definition isSysReg (inst o0 op1 CRn CRm op2 : Z) : bool :=
  (Inst.o0 inst =? o0) && (Inst.op1 inst =? op1) && (Inst.CRn inst =? CRn) &&
  (Inst.CRm inst =? CRm) && (Inst.op2 inst =? op2).

Section WithMachine.
Context {Mem : Type} `{GuestMemory Mem} `{CpuHooks Mem}.

Definition svc : interptfptr_t Mem := fun inst => gSVCHandler (Inst._5_20 inst).

Definition mrs : interptfptr_t Mem := fun inst s =>
  let c := s.(core) in
  let set v := set_core (setX (Inst.Rd inst) v c) s in
  if isSysReg inst 1 3 13 0 2 then Ok (tt, set (TLSAddr c))          (* TPIDR_EL0 *)
  else if isSysReg inst 1 3 13 0 3 then Ok (tt, set (TLSAddr c))     (* TPIDRRO_EL0 *)
  else if isSysReg inst 1 3 14 0 1 then                              (* CNTPCT_EL0 *)
    Ok (tt, set_gTimer (u64 (s.(gTimer) + 1)) (set (s.(gTimer))))
  else if isSysReg inst 1 3 4 4 0 then Ok (tt, set 0)                (* FPCR *)
  else if isSysReg inst 1 3 4 4 1 then Ok (tt, set 0)                (* FPSR *)
  else if isSysReg inst 1 3 0 0 7 then Ok (tt, set 0x10)             (* DCZID_EL0 *)
  else Ok (tt, set 0).

(** [msrImm] and [msrReg] only log, on every branch. *)
Definition msrImm (core : Core) (inst : Z) : Core := core.
Definition msrReg (core : Core) (inst : Z) : Core := core.

Definition clrex (core : Core) (inst : Z) : Core := set_exclusiveAccess false core.

(** A fence orders memory accesses of host threads; it changes no state. *)
Definition dmb (core : Core) (inst : Z) : Core := core.

(** Cache maintenance is a no-op; every other operation only logs. *)
Definition sys (core : Core) (inst : Z) : Core := core.

Definition nop (core : Core) (inst : Z) : Core := core.

(** ** Registration *)

Definition registerSystemInstructions : registrations Mem :=
  [ (instructionID.SVC, svc);
    (instructionID.HVC, UNIMPLEMENTED_FUNC);
    (instructionID.SMC, UNIMPLEMENTED_FUNC);
    (instructionID.BRK, UNIMPLEMENTED_FUNC);
    (instructionID.HLT, UNIMPLEMENTED_FUNC);
    (instructionID.DCPS1, UNIMPLEMENTED_FUNC);
    (instructionID.DCPS2, UNIMPLEMENTED_FUNC);
    (instructionID.DCPS3, UNIMPLEMENTED_FUNC);
    (instructionID.MSR_imm, pureHandler msrImm);
    (instructionID.MSR_reg, pureHandler msrReg);
    (instructionID.HINT, pureHandler nop);
    (instructionID.NOP, pureHandler nop);
    (instructionID.YIELD, pureHandler nop);
    (instructionID.WFE, pureHandler nop);
    (instructionID.WFI, pureHandler nop);
    (instructionID.SEV, pureHandler nop);
    (instructionID.SEVL, pureHandler nop);
    (instructionID.CLREX, pureHandler clrex);
    (instructionID.DSB, UNIMPLEMENTED_FUNC);
    (instructionID.DMB, pureHandler dmb);
    (instructionID.ISB, pureHandler nop);
    (instructionID.SYS, pureHandler sys);
    (instructionID.SYSL, UNIMPLEMENTED_FUNC);
    (instructionID.MRS, mrs) ].
End WithMachine.
