(* ===== verification/InterpDPImm.v ===== *)
(** * Data processing, immediate: [libcpu/src/interpreter/DataProcessingImm.cpp] *)
From S2P Require Import Prelude BitUtils Instructions Core InstUtils Machine.

Definition addSubImmGeneric (is64 isSub updatesFlags : bool) (core : Core) (inst : Z)
    : Core :=
  let shift := testBit 22 inst in
  let imm := u64 (Z.shiftl (Inst._10_21 inst) (if shift then 12 else 0)) in
  let operand1 := getXorSP core (Inst.Rn inst) in
  let operand2 := if isSub then not64 imm else imm in
  let '(result, state) :=
    addWithCarry is64 updatesFlags operand1 operand2 (if isSub then 1 else 0)
      (PState core) in
  let core := set_PState state core in
  let result := if is64 then result else Z.land result (bitmask 32) in
  if Inst.Rd inst =? 31 then
    if updatesFlags then core else set_SP result core
  else setX (Inst.Rd inst) result core.

Definition moveWideImmGeneric (is64 : bool) (core : Core) (inst : Z) : Core :=
  let shift := Inst.hw inst * 16 in
  let imm := u64 (Z.shiftl (Inst._5_20 inst) shift) in
  let imm :=
    if Inst.opc inst =? 0 then not64 imm
    else if Inst.opc inst =? 3 then
      let old := getX core (Inst.Rd inst) in
      let mask := not64 (u64 (Z.shiftl 0xFFFF shift)) in
      let old := Z.land old mask in
      Z.lor old imm
    else imm in
  let imm := if is64 then imm else Z.land imm (bitmask 32) in
  setX (Inst.Rd inst) imm core.

Definition PCRelativeGeneric (isPage : bool) (core : Core) (inst : Z) : Core :=
  let imm := Z.lor (Z.shiftl (Inst.immhi inst) 2) (Inst.immlo inst) in
  let imm := signExtend 21 imm in
  let base := PC core in
  let '(imm, base) :=
    if isPage then (u64 (Z.shiftl imm 12), Z.land base 0xFFFFFFFFFFFFF000)
    else (imm, base) in
  setX (Inst.Rd inst) (u64 (base + imm)) core.

Section WithShiftTarget.
Context `{ShiftTarget}.

Definition logicalGeneric (is64 updatesFlags : bool) (core : Core) (inst : Z)
    (func : Z -> Z -> Z) : Core :=
  let imm := getLogicalImmediate inst in
  let op1 := getX core (Inst.Rn inst) in
  let res := func op1 imm in
  let res := if is64 then res else Z.land res (bitmask 32) in
  let core :=
    if Inst.Rd inst =? 31 then
      if updatesFlags then core else set_SP res core
    else setX (Inst.Rd inst) res core in
  if updatesFlags then
    set_PState {| PSTATE.N := testBit (if is64 then 63 else 31) res;
                  PSTATE.Z := res =? 0;
                  PSTATE.C := false;
                  PSTATE.V := false |} core
  else core.

Definition bitfieldMoveGeneric (is64 writeZeros isSigned : bool) (core : Core)
    (inst : Z) : Core :=
  let size := if is64 then 64 else 32 in
  let imms := Inst.imms inst in
  let immr := Inst.immr inst in
  let data := getX core (Inst.Rn inst) in
  let data := if is64 then data else Z.land data (bitmask 32) in
  let originalSignBit := testBit_rt data imms in
  let finalPos := u64 (Z.rem (imms + size - immr) size) in
  let sourceMask := bitmask_rt (imms + 1) in
  let sourceMask := if imms =? 63 then 0xFFFFFFFFFFFFFFFF else sourceMask in
  let data := Z.land data sourceMask in
  let data := Z.lor (shr64 data immr) (shl64 data (size - immr)) in
  let shiftedMask :=
    if finalPos >? imms then shl64 sourceMask (finalPos - imms)
    else shr64 sourceMask (imms - finalPos) in
  let data := Z.land data shiftedMask in
  let data :=
    if writeZeros then
      if isSigned then
        if originalSignBit then signExtend_rt data finalPos else data
      else data
    else
      let oldData := getX core (Inst.Rd inst) in
      let rotatedMask := Z.lor (shr64 sourceMask immr) (shl64 sourceMask (size - immr)) in
      let oldData := Z.land oldData (not64 rotatedMask) in
      Z.lor data oldData in
  let data := if is64 then data else Z.land data (bitmask 32) in
  setX (Inst.Rd inst) data core.

Definition extractGeneric (is64 : bool) (core : Core) (inst : Z) : Core :=
  let operand1 := getX core (Inst.Rn inst) in
  let operand2 := getX core (Inst.Rm inst) in
  let '(operand1, operand2) :=
    if is64 then (operand1, operand2)
    else (Z.land operand1 (bitmask 32), Z.land operand2 (bitmask 32)) in
  let result := Z.lor (shr64 operand2 (Inst.imms inst))
                  (shl64 operand1 ((if is64 then 64 else 32) - Inst.imms inst)) in
  let result := if is64 then result else Z.land result (bitmask 32) in
  setX (Inst.Rd inst) result core.

(** ** The instantiations *)

Definition add32Imm : Core -> Z -> Core := addSubImmGeneric false false false.
Definition adds32Imm : Core -> Z -> Core := addSubImmGeneric false false true.
Definition sub32Imm : Core -> Z -> Core := addSubImmGeneric false true false.
Definition subs32Imm : Core -> Z -> Core := addSubImmGeneric false true true.
Definition add64Imm : Core -> Z -> Core := addSubImmGeneric true false false.
Definition adds64Imm : Core -> Z -> Core := addSubImmGeneric true false true.
Definition sub64Imm : Core -> Z -> Core := addSubImmGeneric true true false.
Definition subs64Imm : Core -> Z -> Core := addSubImmGeneric true true true.
Definition mov32 : Core -> Z -> Core := moveWideImmGeneric false.
Definition mov64 : Core -> Z -> Core := moveWideImmGeneric true.
Definition adr : Core -> Z -> Core := PCRelativeGeneric false.
Definition adrp : Core -> Z -> Core := PCRelativeGeneric true.
Definition and32Imm : Core -> Z -> Core := fun core inst =>
  logicalGeneric false false core inst Z.land.
Definition orr32Imm : Core -> Z -> Core := fun core inst =>
  logicalGeneric false false core inst Z.lor.
Definition eor32Imm : Core -> Z -> Core := fun core inst =>
  logicalGeneric false false core inst Z.lxor.
Definition ands32Imm : Core -> Z -> Core := fun core inst =>
  logicalGeneric false true core inst Z.land.
Definition and64Imm : Core -> Z -> Core := fun core inst =>
  logicalGeneric true false core inst Z.land.
Definition orr64Imm : Core -> Z -> Core := fun core inst =>
  logicalGeneric true false core inst Z.lor.
Definition eor64Imm : Core -> Z -> Core := fun core inst =>
  logicalGeneric true false core inst Z.lxor.
Definition ands64Imm : Core -> Z -> Core := fun core inst =>
  logicalGeneric true true core inst Z.land.
Definition sbfm32 : Core -> Z -> Core := bitfieldMoveGeneric false true true.
Definition bfm32 : Core -> Z -> Core := bitfieldMoveGeneric false false false.
Definition ubfm32 : Core -> Z -> Core := bitfieldMoveGeneric false true false.
Definition sbfm64 : Core -> Z -> Core := bitfieldMoveGeneric true true true.
Definition bfm64 : Core -> Z -> Core := bitfieldMoveGeneric true false false.
Definition ubfm64 : Core -> Z -> Core := bitfieldMoveGeneric true true false.
Definition extr32 : Core -> Z -> Core := extractGeneric false.
Definition extr64 : Core -> Z -> Core := extractGeneric true.

(** ** Registration *)

Context {Mem : Type}.

Definition registerDPImmInstructions : registrations Mem :=
  [ (instructionID.ADR, pureHandler adr);
    (instructionID.ADRP, pureHandler adrp);
    (instructionID.ADD_32_imm, pureHandler add32Imm);
    (instructionID.ADDS_32_imm, pureHandler adds32Imm);
    (instructionID.SUB_32_imm, pureHandler sub32Imm);
    (instructionID.SUBS_32_imm, pureHandler subs32Imm);
    (instructionID.ADD_64_imm, pureHandler add64Imm);
    (instructionID.ADDS_64_imm, pureHandler adds64Imm);
    (instructionID.SUB_64_imm, pureHandler sub64Imm);
    (instructionID.SUBS_64_imm, pureHandler subs64Imm);
    (instructionID.AND_32_imm, pureHandler and32Imm);
    (instructionID.ORR_32_imm, pureHandler orr32Imm);
    (instructionID.EOR_32_imm, pureHandler eor32Imm);
    (instructionID.ANDS_32_imm, pureHandler ands32Imm);
    (instructionID.AND_64_imm, pureHandler and64Imm);
    (instructionID.ORR_64_imm, pureHandler orr64Imm);
    (instructionID.EOR_64_imm, pureHandler eor64Imm);
    (instructionID.ANDS_64_imm, pureHandler ands64Imm);
    (instructionID.MOVN_32, pureHandler mov32);
    (instructionID.MOVZ_32, pureHandler mov32);
    (instructionID.MOVK_32, pureHandler mov32);
    (instructionID.MOVN_64, pureHandler mov64);
    (instructionID.MOVZ_64, pureHandler mov64);
    (instructionID.MOVK_64, pureHandler mov64);
    (instructionID.SBFM_32, pureHandler sbfm32);
    (instructionID.BFM_32, pureHandler bfm32);
    (instructionID.UBFM_32, pureHandler ubfm32);
    (instructionID.SBFM_64, pureHandler sbfm64);
    (instructionID.BFM_64, pureHandler bfm64);
    (instructionID.UBFM_64, pureHandler ubfm64);
    (instructionID.EXTR_32, pureHandler extr32);
    (instructionID.EXTR_64, pureHandler extr64) ].
End WithShiftTarget.
