(* ===== verification/InterpDPReg.v ===== *)
(** * Data processing, register: [libcpu/src/interpreter/DataProcessingReg.cpp] *)
From S2P Require Import Prelude BitUtils Instructions Core InstUtils Machine.

(** The flags a logical instruction leaves. *)
Definition logicalFlags (is64 : bool) (result : Z) : PSTATE.t :=
  {| PSTATE.N := testBit (if is64 then 63 else 31) result;
     PSTATE.Z := result =? 0;
     PSTATE.C := false;
     PSTATE.V := false |}.

Section WithShiftTarget.
Context `{ShiftTarget}.

Definition logicalShiftedRegGeneric (is64 negate updatesFlags : bool) (core : Core)
    (inst : Z) (func : Z -> Z -> Z) : Core :=
  let shiftType := toShiftType (Inst.shift inst) in
  let operand1 := getX core (Inst.Rn inst) in
  let operand2 := getX core (Inst.Rm inst) in
  let operand2 := shift operand2 shiftType (Inst._10_15 inst) (if is64 then 64 else 32) in
  let operand2 := if negate then not64 operand2 else operand2 in
  let result := func operand1 operand2 in
  let result := if is64 then result else Z.land result (bitmask 32) in
  let core := setX (Inst.Rd inst) result core in
  if updatesFlags then set_PState (logicalFlags is64 result) core else core.

Definition addSubShiftedRegGeneric (is64 isSub updatesFlags : bool) (core : Core)
    (inst : Z) : Core :=
  let shiftType := toShiftType (Inst.shift inst) in
  let operand1 := getX core (Inst.Rn inst) in
  let operand2 := getX core (Inst.Rm inst) in
  let operand2 := shift operand2 shiftType (Inst._10_15 inst) (if is64 then 64 else 32) in
  let operand2 := if isSub then not64 operand2 else operand2 in
  let '(result, state) :=
    addWithCarry is64 updatesFlags operand1 operand2 (if isSub then 1 else 0)
      (PState core) in
  let core := set_PState state core in
  let result := if is64 then result else Z.land result (bitmask 32) in
  setX (Inst.Rd inst) result core.

(** The [switch] over [inst.option]: size and signedness of the extension. *)
Definition extendOption (option : Z) : Z * bool :=
  if case_of option [0] then (8, false)
  else if case_of option [1] then (16, false)
  else if case_of option [2] then (32, false)
  else if case_of option [3] then (64, false)
  else if case_of option [4] then (8, true)
  else if case_of option [5] then (16, true)
  else if case_of option [6] then (32, true)
  else if case_of option [7] then (64, true)
  else (0, false).

Definition addSubExtendedRegGeneric (is64 isSub updatesFlags : bool) (core : Core)
    (inst : Z) : Core :=
  let operand1 :=
    if Inst.Rn inst =? 31 then SP core else getX core (Inst.Rn inst) in
  let shift := Inst._10_12 inst in
  let '(size, isSigned) := extendOption (Inst.option inst) in
  let operand2 := getX core (Inst.Rm inst) in
  let operand2 := Z.land operand2 (bitmask_rt size) in
  let operand2 := if isSigned then signExtend_rt operand2 size else operand2 in
  let operand2 := shl64 operand2 shift in
  let operand2 := if isSub then not64 operand2 else operand2 in
  let '(result, state) :=
    addWithCarry is64 updatesFlags operand1 operand2 (if isSub then 1 else 0)
      (PState core) in
  let core := set_PState state core in
  let result := if is64 then result else Z.land result (bitmask 32) in
  if Inst.Rd inst =? 31 then
    if updatesFlags then core else set_SP result core
  else setX (Inst.Rd inst) result core.

Definition addSubCarryGeneric (is64 isSub updatesFlags : bool) (core : Core)
    (inst : Z) : Core :=
  let operand1 := getX core (Inst.Rn inst) in
  let operand2 := getX core (Inst.Rm inst) in
  let operand2 := if isSub then not64 operand2 else operand2 in
  let '(result, state) :=
    addWithCarry is64 updatesFlags operand1 operand2
      (if PSTATE.C (PState core) then 1 else 0) (PState core) in
  let core := set_PState state core in
  let result := if is64 then result else Z.land result (bitmask 32) in
  setX (Inst.Rd inst) result core.

(** One line [op = ((op << n) & hi) | ((op >> n) & lo)] of the reversals. *)
Definition swapLine (n hi lo op : Z) : Z :=
  Z.lor (Z.land (u64 (Z.shiftl op n)) hi) (Z.land (Z.shiftr op n) lo).

Definition reverseBits (is64 : bool) (core : Core) (inst : Z) : Core :=
  let op := getX core (Inst.Rn inst) in
  let op := swapLine 1 0xAAAAAAAAAAAAAAAA 0x5555555555555555 op in
  let op := swapLine 2 0xCCCCCCCCCCCCCCCC 0x3333333333333333 op in
  let op := swapLine 4 0xF0F0F0F0F0F0F0F0 0x0F0F0F0F0F0F0F0F op in
  let op := swapLine 8 0xFF00FF00FF00FF00 0x00FF00FF00FF00FF op in
  let op := swapLine 16 0xFFFF0000FFFF0000 0x0000FFFF0000FFFF op in
  let op := if is64 then swapLine 32 0xFFFFFFFF00000000 0x00000000FFFFFFFF op
            else Z.land op (bitmask 32) in
  setX (Inst.Rd inst) op core.

Definition reverseBytes (is64 : bool) (core : Core) (inst : Z) : Core :=
  let op := getX core (Inst.Rn inst) in
  let op := swapLine 8 0xFF00FF00FF00FF00 0x00FF00FF00FF00FF op in
  let op := swapLine 16 0xFFFF0000FFFF0000 0x0000FFFF0000FFFF op in
  let op := if is64 then swapLine 32 0xFFFFFFFF00000000 0x00000000FFFFFFFF op
            else Z.land op (bitmask 32) in
  setX (Inst.Rd inst) op core.

Definition reverse16 (is64 : bool) (core : Core) (inst : Z) : Core :=
  let op := getX core (Inst.Rn inst) in
  let op := swapLine 16 0xFFFF0000FFFF0000 0x0000FFFF0000FFFF op in
  let op := if is64 then swapLine 32 0xFFFFFFFF00000000 0x00000000FFFFFFFF op
            else Z.land op (bitmask 32) in
  setX (Inst.Rd inst) op core.

Definition reverse32 (core : Core) (inst : Z) : Core :=
  let op := getX core (Inst.Rn inst) in
  let op := swapLine 32 0xFFFFFFFF00000000 0x00000000FFFFFFFF op in
  setX (Inst.Rd inst) op core.

(** [while ((index >= 0) && test(op, index)) { res++; index--; }]; the fuel is the
    number of bits, and the loop stops below bit 0. *)
Fixpoint countLoop (fuel : nat) (set : bool) (op index res : Z) : Z :=
  match fuel with
  | O => res
  | S fuel =>
      if (index >=? 0) && Bool.eqb (testBit_rt op index) set
      then countLoop fuel set op (index - 1) (res + 1) else res
  end.

Definition countLeadingClearBits (is64 : bool) (core : Core) (inst : Z) : Core :=
  let op := getX core (Inst.Rn inst) in
  let index := if is64 then 63 else 31 in
  setX (Inst.Rd inst) (countLoop 65 false op index 0) core.

Definition countLeadingSetBits (is64 : bool) (core : Core) (inst : Z) : Core :=
  let op := getX core (Inst.Rn inst) in
  let index := if is64 then 63 else 31 in
  setX (Inst.Rd inst) (countLoop 65 true op index 0) core.

Definition unsignedDivide (is64 : bool) (core : Core) (inst : Z) : Core :=
  let op1 := getX core (Inst.Rn inst) in
  let op2 := getX core (Inst.Rm inst) in
  let '(op1, op2) :=
    if is64 then (op1, op2) else (Z.land op1 (bitmask 32), Z.land op2 (bitmask 32)) in
  let result := if op2 =? 0 then 0 else op1 / op2 in
  let result := if is64 then result else Z.land result (bitmask 32) in
  setX (Inst.Rd inst) result core.

(** C++ division of [int64_t] truncates toward zero. *)
Definition signedDivide (is64 : bool) (core : Core) (inst : Z) : Core :=
  let op1 := getX core (Inst.Rn inst) in
  let op2 := getX core (Inst.Rm inst) in
  let '(op1, op2) :=
    if is64 then (op1, op2)
    else (signExtend 32 (Z.land op1 (bitmask 32)),
          signExtend 32 (Z.land op2 (bitmask 32))) in
  let result :=
    if op2 =? 0 then 0
    else if is64 && (op1 =? 0x8000000000000000) && (op2 =? 0xFFFFFFFFFFFFFFFF) then op1
    else
      let op1_s := to_signed 64 op1 in
      let op2_s := to_signed 64 op2 in
      u64 (Z.quot op1_s op2_s) in
  let result := if is64 then result else Z.land result (bitmask 32) in
  setX (Inst.Rd inst) result core.

Definition shiftGeneric (is64 : bool) (core : Core) (inst : Z) : Core :=
  let shiftType := toShiftType (bitRange 10 11 inst) in
  let shiftAmount := getX core (Inst.Rm inst) mod (if is64 then 64 else 32) in
  let operand := getX core (Inst.Rn inst) in
  let operand := if is64 then operand else Z.land operand (bitmask 32) in
  let res := shift operand shiftType shiftAmount (if is64 then 64 else 32) in
  let res := if is64 then res else Z.land res (bitmask 32) in
  setX (Inst.Rd inst) res core.
End WithShiftTarget.

Definition multiply (is64 isSub : bool) (core : Core) (inst : Z) : Core :=
  let op1 := getX core (Inst.Rn inst) in
  let op2 := getX core (Inst.Rm inst) in
  let op3 := getX core (Inst.Ra inst) in
  let product := u64 (op1 * op2) in
  let res := if isSub then u64 (op3 - product) else u64 (op3 + product) in
  let res := if is64 then res else Z.land res (bitmask 32) in
  setX (Inst.Rd inst) res core.

Definition uMultiplyLong (isSub : bool) (core : Core) (inst : Z) : Core :=
  let op1 := Z.land (getX core (Inst.Rn inst)) (bitmask 32) in
  let op2 := Z.land (getX core (Inst.Rm inst)) (bitmask 32) in
  let op3 := getX core (Inst.Ra inst) in
  let product := u64 (op1 * op2) in
  let res := if isSub then u64 (op3 - product) else u64 (op3 + product) in
  setX (Inst.Rd inst) res core.

(** The [int64_t] sum may overflow in C++ (undefined); two's complement wrap-around is
    what the target computes. *)
Definition sMultiplyLong (isSub : bool) (core : Core) (inst : Z) : Core :=
  let op1 := Z.land (getX core (Inst.Rn inst)) (bitmask 32) in
  let op2 := Z.land (getX core (Inst.Rm inst)) (bitmask 32) in
  let op3 := getX core (Inst.Ra inst) in
  let op1_s64 := to_signed 32 op1 in
  let op2_s64 := to_signed 32 op2 in
  let op3_s64 := to_signed 64 op3 in
  let product := op1_s64 * op2_s64 in
  let res := if isSub then op3_s64 - product else op3_s64 + product in
  setX (Inst.Rd inst) (u64 res) core.

Definition mulhGeneric (isSigned : bool) (core : Core) (inst : Z) : Core :=
  let op1 := getX core (Inst.Rn inst) in
  let op2 := getX core (Inst.Rm inst) in
  let op1hi := Z.shiftr op1 32 in
  let op1lo := Z.land op1 0xFFFFFFFF in
  let op2hi := Z.shiftr op2 32 in
  let op2lo := Z.land op2 0xFFFFFFFF in
  let bd := u64 (op1lo * op2lo) in
  let bc := u64 (op1lo * op2hi) in
  let ad := u64 (op1hi * op2lo) in
  let ac := u64 (op1hi * op2hi) in
  let cy := u32 (Z.shiftr (u64 (Z.land ad 0xFFFFFFFF + Z.land bc 0xFFFFFFFF +
                                Z.shiftr bd 32)) 32) in
  let result := u64 (ac + Z.shiftr ad 32 + Z.shiftr bc 32 + cy) in
  let result :=
    if isSigned then
      let result := if testBit 63 op1 then u64 (result - op2) else result in
      if testBit 63 op2 then u64 (result - op1) else result
    else result in
  setX (Inst.Rd inst) result core.

(** [state.V = testBit<0>(inst.bits); ...] when the condition fails. *)
Definition immediateFlags (inst : Z) : PSTATE.t :=
  {| PSTATE.V := testBit 0 inst;
     PSTATE.C := testBit 1 inst;
     PSTATE.Z := testBit 2 inst;
     PSTATE.N := testBit 3 inst |}.

Definition condCompareRegGeneric (is64 negate : bool) (core : Core) (inst : Z) : Core :=
  let cond := toCondition (Inst.cond_comp inst) in
  let operand1 := getX core (Inst.Rn inst) in
  let operand2 := getX core (Inst.Rm inst) in
  if testCondition core cond then
    let operand2 := if negate then not64 operand2 else operand2 in
    set_PState (snd (addWithCarry is64 true operand1 operand2 (if negate then 1 else 0)
                       (PState core))) core
  else set_PState (immediateFlags inst) core.

Definition condCompareImmGeneric (is64 negate : bool) (core : Core) (inst : Z) : Core :=
  let cond := toCondition (Inst.cond_comp inst) in
  let operand1 := getX core (Inst.Rn inst) in
  let operand2 := Inst._16_20 inst in
  if testCondition core cond then
    let operand2 := if negate then not64 operand2 else operand2 in
    set_PState (snd (addWithCarry is64 true operand1 operand2 (if negate then 1 else 0)
                       (PState core))) core
  else set_PState (immediateFlags inst) core.

Definition condSelGeneric (is64 invert increment : bool) (core : Core) (inst : Z) : Core :=
  let cond := toCondition (Inst.cond_comp inst) in
  let op1 := getX core (Inst.Rn inst) in
  let op2 := getX core (Inst.Rm inst) in
  let res :=
    if testCondition core cond then op1
    else
      let res := if invert then not64 op2 else op2 in
      if increment then u64 (res + 1) else res in
  let res := if is64 then res else Z.land res (bitmask 32) in
  setX (Inst.Rd inst) res core.

Section Instances.
Context `{ShiftTarget}.

(** ** The instantiations *)

Definition and32Shifted : Core -> Z -> Core := fun core inst =>
  logicalShiftedRegGeneric false false false core inst Z.land.
Definition bic32Shifted : Core -> Z -> Core := fun core inst =>
  logicalShiftedRegGeneric false true false core inst Z.land.
Definition orr32Shifted : Core -> Z -> Core := fun core inst =>
  logicalShiftedRegGeneric false false false core inst Z.lor.
Definition orn32Shifted : Core -> Z -> Core := fun core inst =>
  logicalShiftedRegGeneric false true false core inst Z.lor.
Definition eor32Shifted : Core -> Z -> Core := fun core inst =>
  logicalShiftedRegGeneric false false false core inst Z.lxor.
Definition eon32Shifted : Core -> Z -> Core := fun core inst =>
  logicalShiftedRegGeneric false true false core inst Z.lxor.
Definition ands32Shifted : Core -> Z -> Core := fun core inst =>
  logicalShiftedRegGeneric false false true core inst Z.land.
Definition bics32Shifted : Core -> Z -> Core := fun core inst =>
  logicalShiftedRegGeneric false true true core inst Z.land.
Definition and64Shifted : Core -> Z -> Core := fun core inst =>
  logicalShiftedRegGeneric true false false core inst Z.land.
Definition bic64Shifted : Core -> Z -> Core := fun core inst =>
  logicalShiftedRegGeneric true true false core inst Z.land.
Definition orr64Shifted : Core -> Z -> Core := fun core inst =>
  logicalShiftedRegGeneric true false false core inst Z.lor.
Definition orn64Shifted : Core -> Z -> Core := fun core inst =>
  logicalShiftedRegGeneric true true false core inst Z.lor.
Definition eor64Shifted : Core -> Z -> Core := fun core inst =>
  logicalShiftedRegGeneric true false false core inst Z.lxor.
Definition eon64Shifted : Core -> Z -> Core := fun core inst =>
  logicalShiftedRegGeneric true true false core inst Z.lxor.
Definition ands64Shifted : Core -> Z -> Core := fun core inst =>
  logicalShiftedRegGeneric true false true core inst Z.land.
Definition bics64Shifted : Core -> Z -> Core := fun core inst =>
  logicalShiftedRegGeneric true true true core inst Z.land.
Definition add32Shifted : Core -> Z -> Core :=
  addSubShiftedRegGeneric false false false.
Definition adds32Shifted : Core -> Z -> Core :=
  addSubShiftedRegGeneric false false true.
Definition sub32Shifted : Core -> Z -> Core := addSubShiftedRegGeneric false true false.
Definition subs32Shifted : Core -> Z -> Core := addSubShiftedRegGeneric false true true.
Definition add64Shifted : Core -> Z -> Core := addSubShiftedRegGeneric true false false.
Definition adds64Shifted : Core -> Z -> Core := addSubShiftedRegGeneric true false true.
Definition sub64Shifted : Core -> Z -> Core := addSubShiftedRegGeneric true true false.
Definition subs64Shifted : Core -> Z -> Core := addSubShiftedRegGeneric true true true.
Definition add32Extended : Core -> Z -> Core :=
  addSubExtendedRegGeneric false false false.
Definition adds32Extended : Core -> Z -> Core :=
  addSubExtendedRegGeneric false false true.
Definition sub32Extended : Core -> Z -> Core :=
  addSubExtendedRegGeneric false true false.
Definition subs32Extended : Core -> Z -> Core :=
  addSubExtendedRegGeneric false true true.
Definition add64Extended : Core -> Z -> Core :=
  addSubExtendedRegGeneric true false false.
Definition adds64Extended : Core -> Z -> Core :=
  addSubExtendedRegGeneric true false true.
Definition sub64Extended : Core -> Z -> Core :=
  addSubExtendedRegGeneric true true false.
Definition subs64Extended : Core -> Z -> Core :=
  addSubExtendedRegGeneric true true true.
Definition adc32 : Core -> Z -> Core := addSubCarryGeneric false false false.
Definition adcs32 : Core -> Z -> Core := addSubCarryGeneric false false true.
Definition sbc32 : Core -> Z -> Core := addSubCarryGeneric false true false.
Definition sbcs32 : Core -> Z -> Core := addSubCarryGeneric false true true.
Definition adc64 : Core -> Z -> Core := addSubCarryGeneric true false false.
Definition adcs64 : Core -> Z -> Core := addSubCarryGeneric true false true.
Definition sbc64 : Core -> Z -> Core := addSubCarryGeneric true true false.
Definition sbcs64 : Core -> Z -> Core := addSubCarryGeneric true true true.
Definition rbit32 : Core -> Z -> Core := reverseBits false.
Definition rbit64 : Core -> Z -> Core := reverseBits true.
Definition rev32 : Core -> Z -> Core := reverseBytes false.
Definition rev64 : Core -> Z -> Core := reverseBytes true.
Definition rev16_32 : Core -> Z -> Core := reverse16 false.
Definition rev16_64 : Core -> Z -> Core := reverse16 true.
Definition rev32_64 : Core -> Z -> Core := reverse32.
Definition clz32 : Core -> Z -> Core := countLeadingClearBits false.
Definition clz64 : Core -> Z -> Core := countLeadingClearBits true.
Definition cls32 : Core -> Z -> Core := countLeadingSetBits false.
Definition cls64 : Core -> Z -> Core := countLeadingSetBits true.
Definition udiv32 : Core -> Z -> Core := unsignedDivide false.
Definition udiv64 : Core -> Z -> Core := unsignedDivide true.
Definition sdiv32 : Core -> Z -> Core := signedDivide false.
Definition sdiv64 : Core -> Z -> Core := signedDivide true.
Definition lslv32 : Core -> Z -> Core := shiftGeneric false.
Definition lsrv32 : Core -> Z -> Core := shiftGeneric false.
Definition asrv32 : Core -> Z -> Core := shiftGeneric false.
Definition rorv32 : Core -> Z -> Core := shiftGeneric false.
Definition lslv64 : Core -> Z -> Core := shiftGeneric true.
Definition lsrv64 : Core -> Z -> Core := shiftGeneric true.
Definition asrv64 : Core -> Z -> Core := shiftGeneric true.
Definition rorv64 : Core -> Z -> Core := shiftGeneric true.
Definition madd32 : Core -> Z -> Core := multiply false false.
Definition msub32 : Core -> Z -> Core := multiply false true.
Definition madd64 : Core -> Z -> Core := multiply true false.
Definition msub64 : Core -> Z -> Core := multiply true true.
Definition umaddl : Core -> Z -> Core := uMultiplyLong false.
Definition umsubl : Core -> Z -> Core := uMultiplyLong true.
Definition smaddl : Core -> Z -> Core := sMultiplyLong false.
Definition smsubl : Core -> Z -> Core := sMultiplyLong true.
Definition umulh : Core -> Z -> Core := mulhGeneric false.
Definition smulh : Core -> Z -> Core := mulhGeneric true.
Definition ccmp32Reg : Core -> Z -> Core := condCompareRegGeneric false true.
Definition ccmn32Reg : Core -> Z -> Core := condCompareRegGeneric false false.
Definition ccmp64Reg : Core -> Z -> Core := condCompareRegGeneric true true.
Definition ccmn64Reg : Core -> Z -> Core := condCompareRegGeneric true false.
Definition ccmp32Imm : Core -> Z -> Core := condCompareImmGeneric false true.
Definition ccmn32Imm : Core -> Z -> Core := condCompareImmGeneric false false.
Definition ccmp64Imm : Core -> Z -> Core := condCompareImmGeneric true true.
Definition ccmn64Imm : Core -> Z -> Core := condCompareImmGeneric true false.
Definition csel32 : Core -> Z -> Core := condSelGeneric false false false.
Definition csinc32 : Core -> Z -> Core := condSelGeneric false false true.
Definition csinv32 : Core -> Z -> Core := condSelGeneric false true false.
Definition csneg32 : Core -> Z -> Core := condSelGeneric false true true.
Definition csel64 : Core -> Z -> Core := condSelGeneric true false false.
Definition csinc64 : Core -> Z -> Core := condSelGeneric true false true.
Definition csinv64 : Core -> Z -> Core := condSelGeneric true true false.
Definition csneg64 : Core -> Z -> Core := condSelGeneric true true true.

(** ** Registration *)

Context {Mem : Type}.

Definition registerDPRegInstructions : registrations Mem :=
  [ (instructionID.UDIV_32, pureHandler udiv32);
    (instructionID.SDIV_32, pureHandler sdiv32);
    (instructionID.LSLV_32, pureHandler lslv32);
    (instructionID.LSRV_32, pureHandler lsrv32);
    (instructionID.ASRV_32, pureHandler asrv32);
    (instructionID.RORV_32, pureHandler rorv32);
    (instructionID.UDIV_64, pureHandler udiv64);
    (instructionID.SDIV_64, pureHandler sdiv64);
    (instructionID.LSLV_64, pureHandler lslv64);
    (instructionID.LSRV_64, pureHandler lsrv64);
    (instructionID.ASRV_64, pureHandler asrv64);
    (instructionID.RORV_64, pureHandler rorv64);
    (instructionID.CRC32B, UNIMPLEMENTED_FUNC);
    (instructionID.CRC32H, UNIMPLEMENTED_FUNC);
    (instructionID.CRC32W, UNIMPLEMENTED_FUNC);
    (instructionID.CRC32X, UNIMPLEMENTED_FUNC);
    (instructionID.CRC32CB, UNIMPLEMENTED_FUNC);
    (instructionID.CRC32CH, UNIMPLEMENTED_FUNC);
    (instructionID.CRC32CW, UNIMPLEMENTED_FUNC);
    (instructionID.CRC32CX, UNIMPLEMENTED_FUNC);
    (instructionID.RBIT_32, pureHandler rbit32);
    (instructionID.REV16_32, pureHandler rev16_32);
    (instructionID.REV_32, pureHandler rev32);
    (instructionID.CLZ_32, pureHandler clz32);
    (instructionID.CLS_32, pureHandler cls32);
    (instructionID.RBIT_64, pureHandler rbit64);
    (instructionID.REV16_64, pureHandler rev16_64);
    (instructionID.REV32_64, pureHandler rev32_64);
    (instructionID.REV_64, pureHandler rev64);
    (instructionID.CLZ_64, pureHandler clz64);
    (instructionID.CLS_64, pureHandler cls64);
    (instructionID.AND_32_shifted, pureHandler and32Shifted);
    (instructionID.BIC_32_shifted, pureHandler bic32Shifted);
    (instructionID.ORR_32_shifted, pureHandler orr32Shifted);
    (instructionID.ORN_32_shifted, pureHandler orn32Shifted);
    (instructionID.EOR_32_shifted, pureHandler eor32Shifted);
    (instructionID.EON_32_shifted, pureHandler eon32Shifted);
    (instructionID.ANDS_32_shifted, pureHandler ands32Shifted);
    (instructionID.BICS_32_shifted, pureHandler bics32Shifted);
    (instructionID.AND_64_shifted, pureHandler and64Shifted);
    (instructionID.BIC_64_shifted, pureHandler bic64Shifted);
    (instructionID.ORR_64_shifted, pureHandler orr64Shifted);
    (instructionID.ORN_64_shifted, pureHandler orn64Shifted);
    (instructionID.EOR_64_shifted, pureHandler eor64Shifted);
    (instructionID.EON_64_shifted, pureHandler eon64Shifted);
    (instructionID.ANDS_64_shifted, pureHandler ands64Shifted);
    (instructionID.BICS_64_shifted, pureHandler bics64Shifted);
    (instructionID.ADD_32_shifted, pureHandler add32Shifted);
    (instructionID.ADDS_32_shifted, pureHandler adds32Shifted);
    (instructionID.SUB_32_shifted, pureHandler sub32Shifted);
    (instructionID.SUBS_32_shifted, pureHandler subs32Shifted);
    (instructionID.ADD_64_shifted, pureHandler add64Shifted);
    (instructionID.ADDS_64_shifted, pureHandler adds64Shifted);
    (instructionID.SUB_64_shifted, pureHandler sub64Shifted);
    (instructionID.SUBS_64_shifted, pureHandler subs64Shifted);
    (instructionID.ADD_32_extended, pureHandler add32Extended);
    (instructionID.ADDS_32_extended, pureHandler adds32Extended);
    (instructionID.SUB_32_extended, pureHandler sub32Extended);
    (instructionID.SUBS_32_extended, pureHandler subs32Extended);
    (instructionID.ADD_64_extended, pureHandler add64Extended);
    (instructionID.ADDS_64_extended, pureHandler adds64Extended);
    (instructionID.SUB_64_extended, pureHandler sub64Extended);
    (instructionID.SUBS_64_extended, pureHandler subs64Extended);
    (instructionID.ADC_32, pureHandler adc32);
    (instructionID.ADCS_32, pureHandler adcs32);
    (instructionID.SBC_32, pureHandler sbc32);
    (instructionID.SBCS_32, pureHandler sbcs32);
    (instructionID.ADC_64, pureHandler adc64);
    (instructionID.ADCS_64, pureHandler adcs64);
    (instructionID.SBC_64, pureHandler sbc64);
    (instructionID.SBCS_64, pureHandler sbcs64);
    (instructionID.CCMN_32_reg, pureHandler ccmn32Reg);
    (instructionID.CCMP_32_reg, pureHandler ccmp32Reg);
    (instructionID.CCMN_64_reg, pureHandler ccmn64Reg);
    (instructionID.CCMP_64_reg, pureHandler ccmp64Reg);
    (instructionID.CCMN_32_imm, pureHandler ccmn32Imm);
    (instructionID.CCMP_32_imm, pureHandler ccmp32Imm);
    (instructionID.CCMN_64_imm, pureHandler ccmn64Imm);
    (instructionID.CCMP_64_imm, pureHandler ccmp64Imm);
    (instructionID.CSEL_32, pureHandler csel32);
    (instructionID.CSINC_32, pureHandler csinc32);
    (instructionID.CSINV_32, pureHandler csinv32);
    (instructionID.CSNEG_32, pureHandler csneg32);
    (instructionID.CSEL_64, pureHandler csel64);
    (instructionID.CSINC_64, pureHandler csinc64);
    (instructionID.CSINV_64, pureHandler csinv64);
    (instructionID.CSNEG_64, pureHandler csneg64);
    (instructionID.MADD_32, pureHandler madd32);
    (instructionID.MSUB_32, pureHandler msub32);
    (instructionID.MADD_64, pureHandler madd64);
    (instructionID.MSUB_64, pureHandler msub64);
    (instructionID.SMADDL, pureHandler smaddl);
    (instructionID.SMSUBL, pureHandler smsubl);
    (instructionID.SMULH, pureHandler smulh);
    (instructionID.UMADDL, pureHandler umaddl);
    (instructionID.UMSUBL, pureHandler umsubl);
    (instructionID.UMULH, pureHandler umulh) ].
End Instances.
