(* ===== verification/InterpLoadStore.v ===== *)
(** * Loads and stores: [libcpu/src/interpreter/LoadStore.cpp]

    The template parameter [T] is its size in bytes, the flag sets are the bit masks
    of the source.  The handlers run in the machine monad: an access may fault, and
    what was written before the fault stays written. *)
From S2P Require Import Prelude BitUtils Instructions Core InstUtils Machine.

(** [enum StoreFlags] *)
Definition StoreWriteBack : Z := Z.shiftl 1 0.
Definition StoreImmSigned : Z := Z.shiftl 1 1.
Definition StorePostIndex : Z := Z.shiftl 1 2.
Definition StoreFloat : Z := Z.shiftl 1 3.
Definition Store128BitFloat : Z := Z.shiftl 1 4.
Definition StoreRelease : Z := Z.shiftl 1 5.
Definition StoreExclusive : Z := Z.shiftl 1 6.

(** [enum LoadFlags] *)
Definition LoadWriteBack : Z := Z.shiftl 1 0.
Definition LoadImmSigned : Z := Z.shiftl 1 1.
Definition LoadPostIndex : Z := Z.shiftl 1 2.
Definition LoadExtendResult : Z := Z.shiftl 1 3.
Definition LoadExtendTo64 : Z := Z.shiftl 1 4.
Definition LoadFloat : Z := Z.shiftl 1 5.
Definition Load128BitFloat : Z := Z.shiftl 1 6.
Definition LoadAcquire : Z := Z.shiftl 1 7.
Definition LoadExclusive : Z := Z.shiftl 1 8.

(** [imm] of the register-immediate forms. *)
Definition immOffset (immSigned unscaled : bool) (numBits inst : Z) : Z :=
  if immSigned then signExtend 9 (Inst._12_20 inst)
  else if negb unscaled then u64 (Z.shiftl (Inst._10_21 inst) numBits)
  else 0.

(** [bitmask<(1 << numBits) * 8, uint64_t>()] *)
Definition sizeMask (numBits : Z) : Z := bitmask (Z.shiftl 1 numBits * 8).

Section WithMachine.
Context {Mem : Type} `{GuestMemory Mem}.

Let Mu : Type := M Mem unit.

(** [core->Rn = addr] or [core->SP = addr], with the post-index increment. *)
Definition writeBack (wb post : bool) (inst addr imm : Z) : M Mem unit :=
  if wb then
    let addr := if post then u64 (addr + imm) else addr in
    onCore (setXorSP (Inst.Rn inst) addr)
  else mret tt.

Definition storeRegImmGeneric (T flags : Z) : interptfptr_t Mem := fun inst =>
  let numBits := if has flags Store128BitFloat then 4 else constLog2 T in
  let imm := immOffset (has flags StoreImmSigned)
               (has flags StoreExclusive || has flags StoreRelease) numBits inst in
  core ← getCore;
  let addr := getXorSP core (Inst.Rn inst) in
  let addr := if has flags StorePostIndex then addr else u64 (addr + imm) in
  let data := if has flags StoreFloat then getD0 core (Inst.Rt inst)
              else getX core (Inst.Rt inst) in
  let mask := if has flags Store128BitFloat then bitmask 64 else sizeMask numBits in
  let data := Z.land data mask in
  (if has flags StoreExclusive then
     exclusiveStatus ← mem_writeAtomic T addr (wrap (8 * T) data)
                         (wrap (8 * T) (exclusiveData0 core));
     onCore (setX (Inst.Rs inst) (if exclusiveStatus : bool then 0 else 1))
   else mem_write T addr (wrap (8 * T) data) : Mu);;
  (if has flags Store128BitFloat then
     core ← getCore;
     mem_write T (u64 (addr + 8)) (wrap (8 * T) (getD1 core (Inst.Rt inst)))
   else mret tt : Mu);;
  (writeBack (has flags StoreWriteBack) (has flags StorePostIndex) inst addr imm : Mu).

Definition loadRegImmGeneric (T flags : Z) : interptfptr_t Mem := fun inst =>
  let numBits := if has flags Load128BitFloat then 4 else constLog2 T in
  let imm := immOffset (has flags LoadImmSigned)
               (has flags LoadExclusive || has flags LoadAcquire) numBits inst in
  core ← getCore;
  let addr := getXorSP core (Inst.Rn inst) in
  let addr := if has flags LoadPostIndex then addr else u64 (addr + imm) in
  data ← mem_read T addr;
  let data :=
    if has flags LoadExtendResult then
      let data := signExtend (Z.shiftl 1 numBits * 8) data in
      if has flags LoadExtendTo64 then data else Z.land data (bitmask 32)
    else data in
  (if has flags LoadFloat then
     onCore (setD0 (Inst.Rt inst) data);;
     (if has flags Load128BitFloat then
        data ← mem_read T (u64 (addr + 8));
        onCore (setD1 (Inst.Rt inst) data)
      else mret tt : Mu)
   else onCore (setX (Inst.Rt inst) data) : Mu);;
  (writeBack (has flags LoadWriteBack) (has flags LoadPostIndex) inst addr imm : Mu);;
  (if has flags LoadExclusive then
     (* [addr] was incremented by a post-index write-back *)
     let addr := if has flags LoadWriteBack && has flags LoadPostIndex
                 then u64 (addr + imm) else addr in
     onCore (fun core =>
       let core := set_exclusiveAccess true core in
       let core := set_exclusiveAccessAddr addr core in
       if has flags LoadFloat then
         if has flags Load128BitFloat then
           set_exclusiveData1 (getD1 core (Inst.Rt inst))
             (set_exclusiveData0 (getD0 core (Inst.Rt inst)) core)
         else set_exclusiveData1 0 (set_exclusiveData0 (getD0 core (Inst.Rt inst)) core)
       else set_exclusiveData1 0 (set_exclusiveData0 (getX core (Inst.Rt inst)) core))
   else mret tt : Mu).

(** [imm] of the pair forms. *)
Definition pairOffset (exclusive : bool) (numBits inst : Z) : Z :=
  let imm := if exclusive then 0 else Inst._15_21 inst in
  u64 (Z.shiftl (signExtend 7 imm) numBits).

Definition storePairGeneric (T flags : Z) : interptfptr_t Mem := fun inst =>
  let numBits := if has flags Store128BitFloat then 4 else constLog2 T in
  let imm := pairOffset (has flags StoreExclusive) numBits inst in
  core ← getCore;
  let addr := getXorSP core (Inst.Rn inst) in
  let addr := if has flags StorePostIndex then addr else u64 (addr + imm) in
  (if has flags StoreFloat then
     if has flags Store128BitFloat then
       (mem_write 8 addr (getD0 core (Inst.Rt inst)) : Mu);;
       (mem_write 8 (u64 (addr + 8)) (getD1 core (Inst.Rt inst)) : Mu);;
       (mem_write 8 (u64 (addr + 16)) (getD0 core (Inst.Rt2 inst)) : Mu);;
       (mem_write 8 (u64 (addr + 24)) (getD1 core (Inst.Rt2 inst)) : Mu)
     else
       let data1 := getD0 core (Inst.Rt inst) in
       let data2 := getD0 core (Inst.Rt2 inst) in
       (mem_write T addr (wrap (8 * T) data1) : Mu);;
       (mem_write T (u64 (addr + T)) (wrap (8 * T) data2) : Mu)
   else if has flags StoreExclusive then
     if T =? 4 then
       let data := Z.lor (getX core (Inst.Rt inst))
                     (u64 (Z.shiftl (getX core (Inst.Rt2 inst)) 32)) in
       exclusiveStatus ← mem_writeAtomic 8 addr data (exclusiveData0 core);
       onCore (setX (Inst.Rs inst) (if exclusiveStatus : bool then 0 else 1))
     else
       let data1 := getX core (Inst.Rt inst) in
       let data2 := getX core (Inst.Rt2 inst) in
       exclusiveStatus ← mem_writeAtomic128 addr data1 data2
                           (exclusiveData0 core) (exclusiveData1 core);
       onCore (setX (Inst.Rs inst) (if exclusiveStatus : bool then 0 else 1))
   else
     let data1 := getX core (Inst.Rt inst) in
     let data2 := getX core (Inst.Rt2 inst) in
     (mem_write T addr (wrap (8 * T) data1) : Mu);;
     (mem_write T (u64 (addr + T)) (wrap (8 * T) data2) : Mu) : Mu);;
  (writeBack (has flags StoreWriteBack) (has flags StorePostIndex) inst addr imm : Mu).

Definition loadPairGeneric (T flags : Z) : interptfptr_t Mem := fun inst =>
  let numBits := if has flags Load128BitFloat then 4 else constLog2 T in
  let imm := pairOffset (has flags LoadExclusive) numBits inst in
  core ← getCore;
  let addr := getXorSP core (Inst.Rn inst) in
  let addr := if has flags LoadPostIndex then addr else u64 (addr + imm) in
  (if has flags LoadFloat then
     if has flags Load128BitFloat then
       v ← mem_read T addr;
       (onCore (setD0 (Inst.Rt inst) v) : Mu);;
       v ← mem_read T (u64 (addr + 8));
       (onCore (setD1 (Inst.Rt inst) v) : Mu);;
       v ← mem_read T (u64 (addr + 16));
       (onCore (setD0 (Inst.Rt2 inst) v) : Mu);;
       v ← mem_read T (u64 (addr + 24));
       (onCore (setD1 (Inst.Rt2 inst) v) : Mu)
     else
       data1 ← mem_read T addr;
       data2 ← mem_read T (u64 (addr + T));
       (onCore (setD0 (Inst.Rt inst) data1) : Mu);;
       (onCore (setD0 (Inst.Rt2 inst) data2) : Mu)
   else
     data1 ← mem_read T addr;
     data2 ← mem_read T (u64 (addr + T));
     (onCore (setX (Inst.Rt inst) data1) : Mu);;
     (onCore (setX (Inst.Rt2 inst) data2) : Mu);;
     (if has flags LoadExclusive then
        onCore (fun core =>
          let core := set_exclusiveAccess true core in
          let core := set_exclusiveAccessAddr addr core in
          if T =? 4 then
            set_exclusiveData1 0
              (set_exclusiveData0 (Z.lor data1 (u64 (Z.shiftl data2 32))) core)
          else set_exclusiveData1 data2 (set_exclusiveData0 data1 core))
      else mret tt : Mu) : Mu);;
  (writeBack (has flags LoadWriteBack) (has flags LoadPostIndex) inst addr imm : Mu).

(** The offset register of the register-offset forms, extended and shifted. *)
Definition regOffset (numBits inst : Z) (core : Core) : Z :=
  let offset64 := testBit 13 inst in
  let offsetSigned := testBit 15 inst in
  let S := testBit 12 inst in
  let shift := if S then numBits else 0 in
  let imm := getX core (Inst.Rm inst) in
  let imm :=
    if offset64 then imm
    else
      let imm := Z.land imm (bitmask 32) in
      if offsetSigned then signExtend 32 imm else imm in
  u64 (Z.shiftl imm shift).

Definition storeRegOffGeneric (T flags : Z) : interptfptr_t Mem := fun inst =>
  let numBits := constLog2 T in
  core ← getCore;
  let imm := regOffset numBits inst core in
  let addr := u64 (getXorSP core (Inst.Rn inst) + imm) in
  let data :=
    if has flags StoreFloat then Z.land (getD0 core (Inst.Rt inst)) (sizeMask numBits)
    else Z.land (getX core (Inst.Rt inst)) (sizeMask numBits) in
  (mem_write T addr (wrap (8 * T) data) : Mu);;
  (if has flags Store128BitFloat then
     core ← getCore;
     let data := Z.land (getD1 core (Inst.Rt inst)) (sizeMask numBits) in
     mem_write T (u64 (addr + 8)) (wrap (8 * T) data)
   else mret tt : Mu).

Definition loadRegOffGeneric (T flags : Z) : interptfptr_t Mem := fun inst =>
  let numBits := constLog2 T in
  core ← getCore;
  let imm := regOffset numBits inst core in
  let addr := u64 (getXorSP core (Inst.Rn inst) + imm) in
  data ← mem_read T addr;
  let data :=
    if has flags LoadExtendResult then
      let data := signExtend (Z.shiftl 1 numBits * 8) data in
      if has flags LoadExtendTo64 then data else Z.land data (bitmask 32)
    else data in
  (if has flags LoadFloat then
     (onCore (setD0 (Inst.Rt inst) data) : Mu);;
     (if has flags Load128BitFloat then
        v ← mem_read T (u64 (addr + 8));
        onCore (setD1 (Inst.Rt inst) v)
      else onCore (setD1 (Inst.Rt inst) 0) : Mu)
   else onCore (setX (Inst.Rt inst) data) : Mu).

Definition loadRegLiteralGeneric (T flags : Z) : interptfptr_t Mem := fun inst =>
  let off := signExtend 21 (Z.shiftl (Inst._5_23 inst) 2) in
  core ← getCore;
  let addr := u64 (PC core + off) in
  data ← mem_read T addr;
  let data := if has flags LoadExtendResult then signExtend 32 data else data in
  (if has flags LoadFloat then
     (onCore (setD0 (Inst.Rt inst) data) : Mu);;
     (if has flags Load128BitFloat then
        data ← mem_read T (u64 (addr + 8));
        onCore (setD1 (Inst.Rt inst) data)
      else mret tt : Mu)
   else onCore (setX (Inst.Rt inst) data) : Mu).

(** ** The instantiations *)

Definition strbImm : interptfptr_t Mem := storeRegImmGeneric 1 0.
Definition strhImm : interptfptr_t Mem := storeRegImmGeneric 2 0.
Definition str32Imm : interptfptr_t Mem := storeRegImmGeneric 4 0.
Definition str64Imm : interptfptr_t Mem := storeRegImmGeneric 8 0.
Definition str8ImmFloat : interptfptr_t Mem := storeRegImmGeneric 1 StoreFloat.
Definition str16ImmFloat : interptfptr_t Mem := storeRegImmGeneric 2 StoreFloat.
Definition str32ImmFloat : interptfptr_t Mem := storeRegImmGeneric 4 StoreFloat.
Definition str64ImmFloat : interptfptr_t Mem := storeRegImmGeneric 8 StoreFloat.
Definition str128Imm : interptfptr_t Mem :=
  storeRegImmGeneric 8 (Z.lor StoreFloat Store128BitFloat).
Definition strbPost : interptfptr_t Mem :=
  storeRegImmGeneric 1 (Z.lor (Z.lor StoreWriteBack StorePostIndex) StoreImmSigned).
Definition strhPost : interptfptr_t Mem :=
  storeRegImmGeneric 2 (Z.lor (Z.lor StoreWriteBack StorePostIndex) StoreImmSigned).
Definition str32Post : interptfptr_t Mem :=
  storeRegImmGeneric 4 (Z.lor (Z.lor StoreWriteBack StorePostIndex) StoreImmSigned).
Definition str64Post : interptfptr_t Mem :=
  storeRegImmGeneric 8 (Z.lor (Z.lor StoreWriteBack StorePostIndex) StoreImmSigned).
Definition str8PostFloat : interptfptr_t Mem :=
  storeRegImmGeneric 1 (Z.lor (Z.lor (Z.lor StoreWriteBack StorePostIndex) StoreFloat) StoreImmSigned).
Definition str16PostFloat : interptfptr_t Mem :=
  storeRegImmGeneric 2 (Z.lor (Z.lor (Z.lor StoreWriteBack StorePostIndex) StoreFloat) StoreImmSigned).
Definition str32PostFloat : interptfptr_t Mem :=
  storeRegImmGeneric 4 (Z.lor (Z.lor (Z.lor StoreWriteBack StorePostIndex) StoreFloat) StoreImmSigned).
Definition str64PostFloat : interptfptr_t Mem :=
  storeRegImmGeneric 8 (Z.lor (Z.lor (Z.lor StoreWriteBack StorePostIndex) StoreFloat) StoreImmSigned).
Definition str128Post : interptfptr_t Mem :=
  storeRegImmGeneric 8 (Z.lor (Z.lor (Z.lor (Z.lor StoreWriteBack StorePostIndex) StoreFloat) Store128BitFloat) StoreImmSigned).
Definition strbPre : interptfptr_t Mem :=
  storeRegImmGeneric 1 (Z.lor StoreWriteBack StoreImmSigned).
Definition strhPre : interptfptr_t Mem :=
  storeRegImmGeneric 2 (Z.lor StoreWriteBack StoreImmSigned).
Definition str32Pre : interptfptr_t Mem :=
  storeRegImmGeneric 4 (Z.lor StoreWriteBack StoreImmSigned).
Definition str64Pre : interptfptr_t Mem :=
  storeRegImmGeneric 8 (Z.lor StoreWriteBack StoreImmSigned).
Definition str8PreFloat : interptfptr_t Mem :=
  storeRegImmGeneric 1 (Z.lor (Z.lor StoreWriteBack StoreFloat) StoreImmSigned).
Definition str16PreFloat : interptfptr_t Mem :=
  storeRegImmGeneric 2 (Z.lor (Z.lor StoreWriteBack StoreFloat) StoreImmSigned).
Definition str32PreFloat : interptfptr_t Mem :=
  storeRegImmGeneric 4 (Z.lor (Z.lor StoreWriteBack StoreFloat) StoreImmSigned).
Definition str64PreFloat : interptfptr_t Mem :=
  storeRegImmGeneric 8 (Z.lor (Z.lor StoreWriteBack StoreFloat) StoreImmSigned).
Definition str128Pre : interptfptr_t Mem :=
  storeRegImmGeneric 8 (Z.lor (Z.lor (Z.lor StoreWriteBack StoreFloat) Store128BitFloat) StoreImmSigned).
Definition sturb : interptfptr_t Mem := storeRegImmGeneric 1 StoreImmSigned.
Definition sturh : interptfptr_t Mem := storeRegImmGeneric 2 StoreImmSigned.
Definition stur32 : interptfptr_t Mem := storeRegImmGeneric 4 StoreImmSigned.
Definition stur64 : interptfptr_t Mem := storeRegImmGeneric 8 StoreImmSigned.
Definition stur8Float : interptfptr_t Mem :=
  storeRegImmGeneric 1 (Z.lor StoreImmSigned StoreFloat).
Definition stur16Float : interptfptr_t Mem :=
  storeRegImmGeneric 2 (Z.lor StoreImmSigned StoreFloat).
Definition stur32Float : interptfptr_t Mem :=
  storeRegImmGeneric 4 (Z.lor StoreImmSigned StoreFloat).
Definition stur64Float : interptfptr_t Mem :=
  storeRegImmGeneric 8 (Z.lor StoreImmSigned StoreFloat).
Definition stur128 : interptfptr_t Mem :=
  storeRegImmGeneric 8 (Z.lor (Z.lor StoreImmSigned StoreFloat) Store128BitFloat).
Definition stxrbImm : interptfptr_t Mem := storeRegImmGeneric 1 StoreExclusive.
Definition stlxrbImm : interptfptr_t Mem :=
  storeRegImmGeneric 1 (Z.lor StoreRelease StoreExclusive).
Definition stlrbImm : interptfptr_t Mem := storeRegImmGeneric 1 StoreRelease.
Definition stxrhImm : interptfptr_t Mem := storeRegImmGeneric 2 StoreExclusive.
Definition stlxrhImm : interptfptr_t Mem :=
  storeRegImmGeneric 2 (Z.lor StoreRelease StoreExclusive).
Definition stlrhImm : interptfptr_t Mem := storeRegImmGeneric 2 StoreRelease.
Definition stxr32Imm : interptfptr_t Mem := storeRegImmGeneric 4 StoreExclusive.
Definition stlxr32Imm : interptfptr_t Mem :=
  storeRegImmGeneric 4 (Z.lor StoreRelease StoreExclusive).
Definition stlr32Imm : interptfptr_t Mem := storeRegImmGeneric 4 StoreRelease.
Definition stxr64Imm : interptfptr_t Mem := storeRegImmGeneric 8 StoreExclusive.
Definition stlxr64Imm : interptfptr_t Mem :=
  storeRegImmGeneric 8 (Z.lor StoreRelease StoreExclusive).
Definition stlr64Imm : interptfptr_t Mem := storeRegImmGeneric 8 StoreRelease.
Definition ldrbImm : interptfptr_t Mem := loadRegImmGeneric 1 0.
Definition ldrsb32Imm : interptfptr_t Mem := loadRegImmGeneric 1 LoadExtendResult.
Definition ldrsb64Imm : interptfptr_t Mem :=
  loadRegImmGeneric 1 (Z.lor LoadExtendResult LoadExtendTo64).
Definition ldrhImm : interptfptr_t Mem := loadRegImmGeneric 2 0.
Definition ldrsh32Imm : interptfptr_t Mem := loadRegImmGeneric 2 LoadExtendResult.
Definition ldrsh64Imm : interptfptr_t Mem :=
  loadRegImmGeneric 2 (Z.lor LoadExtendResult LoadExtendTo64).
Definition ldr32Imm : interptfptr_t Mem := loadRegImmGeneric 4 0.
Definition ldrswImm : interptfptr_t Mem :=
  loadRegImmGeneric 4 (Z.lor LoadExtendResult LoadExtendTo64).
Definition ldr64Imm : interptfptr_t Mem := loadRegImmGeneric 8 0.
Definition ldr8ImmFloat : interptfptr_t Mem := loadRegImmGeneric 1 LoadFloat.
Definition ldr16ImmFloat : interptfptr_t Mem := loadRegImmGeneric 2 LoadFloat.
Definition ldr32ImmFloat : interptfptr_t Mem := loadRegImmGeneric 4 LoadFloat.
Definition ldr64ImmFloat : interptfptr_t Mem := loadRegImmGeneric 8 LoadFloat.
Definition ldr128Imm : interptfptr_t Mem :=
  loadRegImmGeneric 8 (Z.lor LoadFloat Load128BitFloat).
Definition ldrbPost : interptfptr_t Mem :=
  loadRegImmGeneric 1 (Z.lor (Z.lor LoadWriteBack LoadPostIndex) LoadImmSigned).
Definition ldrsb32Post : interptfptr_t Mem :=
  loadRegImmGeneric 1 (Z.lor (Z.lor (Z.lor LoadWriteBack LoadPostIndex) LoadExtendResult) LoadImmSigned).
Definition ldrsb64Post : interptfptr_t Mem :=
  loadRegImmGeneric 1 (Z.lor (Z.lor (Z.lor (Z.lor LoadWriteBack LoadPostIndex) LoadExtendResult) LoadExtendTo64) LoadImmSigned).
Definition ldrhPost : interptfptr_t Mem :=
  loadRegImmGeneric 2 (Z.lor (Z.lor LoadWriteBack LoadPostIndex) LoadImmSigned).
Definition ldrsh32Post : interptfptr_t Mem :=
  loadRegImmGeneric 2 (Z.lor (Z.lor (Z.lor LoadWriteBack LoadPostIndex) LoadExtendResult) LoadImmSigned).
Definition ldrsh64Post : interptfptr_t Mem :=
  loadRegImmGeneric 2 (Z.lor (Z.lor (Z.lor (Z.lor LoadWriteBack LoadPostIndex) LoadExtendResult) LoadExtendTo64) LoadImmSigned).
Definition ldr32Post : interptfptr_t Mem :=
  loadRegImmGeneric 4 (Z.lor (Z.lor LoadWriteBack LoadPostIndex) LoadImmSigned).
Definition ldrswPost : interptfptr_t Mem :=
  loadRegImmGeneric 4 (Z.lor (Z.lor (Z.lor (Z.lor LoadWriteBack LoadPostIndex) LoadExtendResult) LoadExtendTo64) LoadImmSigned).
Definition ldr64Post : interptfptr_t Mem :=
  loadRegImmGeneric 8 (Z.lor (Z.lor LoadWriteBack LoadPostIndex) LoadImmSigned).
Definition ldr8PostFloat : interptfptr_t Mem :=
  loadRegImmGeneric 1 (Z.lor (Z.lor (Z.lor LoadWriteBack LoadPostIndex) LoadFloat) LoadImmSigned).
Definition ldr16PostFloat : interptfptr_t Mem :=
  loadRegImmGeneric 2 (Z.lor (Z.lor (Z.lor LoadWriteBack LoadPostIndex) LoadFloat) LoadImmSigned).
Definition ldr32PostFloat : interptfptr_t Mem :=
  loadRegImmGeneric 4 (Z.lor (Z.lor (Z.lor LoadWriteBack LoadPostIndex) LoadFloat) LoadImmSigned).
Definition ldr64PostFloat : interptfptr_t Mem :=
  loadRegImmGeneric 8 (Z.lor (Z.lor (Z.lor LoadWriteBack LoadPostIndex) LoadFloat) LoadImmSigned).
Definition ldr128Post : interptfptr_t Mem :=
  loadRegImmGeneric 8 (Z.lor (Z.lor (Z.lor (Z.lor LoadWriteBack LoadPostIndex) LoadFloat) Load128BitFloat) LoadImmSigned).
Definition ldrbPre : interptfptr_t Mem :=
  loadRegImmGeneric 1 (Z.lor LoadWriteBack LoadImmSigned).
Definition ldrsb32Pre : interptfptr_t Mem :=
  loadRegImmGeneric 1 (Z.lor (Z.lor LoadWriteBack LoadExtendResult) LoadImmSigned).
Definition ldrsb64Pre : interptfptr_t Mem :=
  loadRegImmGeneric 1 (Z.lor (Z.lor (Z.lor LoadWriteBack LoadExtendResult) LoadExtendTo64) LoadImmSigned).
Definition ldrhPre : interptfptr_t Mem :=
  loadRegImmGeneric 2 (Z.lor LoadWriteBack LoadImmSigned).
Definition ldrsh32Pre : interptfptr_t Mem :=
  loadRegImmGeneric 2 (Z.lor (Z.lor LoadWriteBack LoadExtendResult) LoadImmSigned).
Definition ldrsh64Pre : interptfptr_t Mem :=
  loadRegImmGeneric 2 (Z.lor (Z.lor (Z.lor LoadWriteBack LoadExtendResult) LoadExtendTo64) LoadImmSigned).
Definition ldr32Pre : interptfptr_t Mem :=
  loadRegImmGeneric 4 (Z.lor LoadWriteBack LoadImmSigned).
Definition ldrswPre : interptfptr_t Mem :=
  loadRegImmGeneric 4 (Z.lor (Z.lor (Z.lor LoadWriteBack LoadExtendResult) LoadExtendTo64) LoadImmSigned).
Definition ldr64Pre : interptfptr_t Mem :=
  loadRegImmGeneric 8 (Z.lor LoadWriteBack LoadImmSigned).
Definition ldr8PreFloat : interptfptr_t Mem :=
  loadRegImmGeneric 1 (Z.lor (Z.lor LoadWriteBack LoadFloat) LoadImmSigned).
Definition ldr16PreFloat : interptfptr_t Mem :=
  loadRegImmGeneric 2 (Z.lor (Z.lor LoadWriteBack LoadFloat) LoadImmSigned).
Definition ldr32PreFloat : interptfptr_t Mem :=
  loadRegImmGeneric 4 (Z.lor (Z.lor LoadWriteBack LoadFloat) LoadImmSigned).
Definition ldr64PreFloat : interptfptr_t Mem :=
  loadRegImmGeneric 8 (Z.lor (Z.lor LoadWriteBack LoadFloat) LoadImmSigned).
Definition ldr128Pre : interptfptr_t Mem :=
  loadRegImmGeneric 8 (Z.lor (Z.lor (Z.lor LoadWriteBack LoadFloat) Load128BitFloat) LoadImmSigned).
Definition ldurb : interptfptr_t Mem := loadRegImmGeneric 1 LoadImmSigned.
Definition ldursb32 : interptfptr_t Mem :=
  loadRegImmGeneric 1 (Z.lor LoadImmSigned LoadExtendResult).
Definition ldursb64 : interptfptr_t Mem :=
  loadRegImmGeneric 1 (Z.lor (Z.lor LoadImmSigned LoadExtendResult) LoadExtendTo64).
Definition ldurh : interptfptr_t Mem := loadRegImmGeneric 2 LoadImmSigned.
Definition ldursh32 : interptfptr_t Mem :=
  loadRegImmGeneric 2 (Z.lor LoadImmSigned LoadExtendResult).
Definition ldursh64 : interptfptr_t Mem :=
  loadRegImmGeneric 2 (Z.lor (Z.lor LoadImmSigned LoadExtendResult) LoadExtendTo64).
Definition ldur32 : interptfptr_t Mem := loadRegImmGeneric 4 LoadImmSigned.
Definition ldursw : interptfptr_t Mem :=
  loadRegImmGeneric 4 (Z.lor (Z.lor LoadImmSigned LoadExtendResult) LoadExtendTo64).
Definition ldur64 : interptfptr_t Mem := loadRegImmGeneric 8 LoadImmSigned.
Definition ldur8Float : interptfptr_t Mem :=
  loadRegImmGeneric 1 (Z.lor LoadImmSigned LoadFloat).
Definition ldur16Float : interptfptr_t Mem :=
  loadRegImmGeneric 2 (Z.lor LoadImmSigned LoadFloat).
Definition ldur32Float : interptfptr_t Mem :=
  loadRegImmGeneric 4 (Z.lor LoadImmSigned LoadFloat).
Definition ldur64Float : interptfptr_t Mem :=
  loadRegImmGeneric 8 (Z.lor LoadImmSigned LoadFloat).
Definition ldur128 : interptfptr_t Mem :=
  loadRegImmGeneric 8 (Z.lor (Z.lor LoadImmSigned LoadFloat) Load128BitFloat).
Definition ldxrbImm : interptfptr_t Mem := loadRegImmGeneric 1 LoadExclusive.
Definition ldaxrbImm : interptfptr_t Mem :=
  loadRegImmGeneric 1 (Z.lor LoadAcquire LoadExclusive).
Definition ldarbImm : interptfptr_t Mem := loadRegImmGeneric 1 LoadAcquire.
Definition ldxrhImm : interptfptr_t Mem := loadRegImmGeneric 2 LoadExclusive.
Definition ldaxrhImm : interptfptr_t Mem :=
  loadRegImmGeneric 2 (Z.lor LoadAcquire LoadExclusive).
Definition ldarhImm : interptfptr_t Mem := loadRegImmGeneric 2 LoadAcquire.
Definition ldxr32Imm : interptfptr_t Mem := loadRegImmGeneric 4 LoadExclusive.
Definition ldaxr32Imm : interptfptr_t Mem :=
  loadRegImmGeneric 4 (Z.lor LoadAcquire LoadExclusive).
Definition ldar32Imm : interptfptr_t Mem := loadRegImmGeneric 4 LoadAcquire.
Definition ldxr64Imm : interptfptr_t Mem := loadRegImmGeneric 8 LoadExclusive.
Definition ldaxr64Imm : interptfptr_t Mem :=
  loadRegImmGeneric 8 (Z.lor LoadAcquire LoadExclusive).
Definition ldar64Imm : interptfptr_t Mem := loadRegImmGeneric 8 LoadAcquire.
Definition stnp32 : interptfptr_t Mem := storePairGeneric 4 0.
Definition stnp64 : interptfptr_t Mem := storePairGeneric 8 0.
Definition stp32Off : interptfptr_t Mem := storePairGeneric 4 0.
Definition stp64Off : interptfptr_t Mem := storePairGeneric 8 0.
Definition stp32Post : interptfptr_t Mem :=
  storePairGeneric 4 (Z.lor StoreWriteBack StorePostIndex).
Definition stp64Post : interptfptr_t Mem :=
  storePairGeneric 8 (Z.lor StoreWriteBack StorePostIndex).
Definition stp32Pre : interptfptr_t Mem := storePairGeneric 4 StoreWriteBack.
Definition stp64Pre : interptfptr_t Mem := storePairGeneric 8 StoreWriteBack.
Definition stnp32Float : interptfptr_t Mem := storePairGeneric 4 StoreFloat.
Definition stnp64Float : interptfptr_t Mem := storePairGeneric 8 StoreFloat.
Definition stnp128Float : interptfptr_t Mem :=
  storePairGeneric 8 (Z.lor StoreFloat Store128BitFloat).
Definition stp32OffFloat : interptfptr_t Mem := storePairGeneric 4 StoreFloat.
Definition stp64OffFloat : interptfptr_t Mem := storePairGeneric 8 StoreFloat.
Definition stp128OffFloat : interptfptr_t Mem :=
  storePairGeneric 8 (Z.lor StoreFloat Store128BitFloat).
Definition stp32PostFloat : interptfptr_t Mem :=
  storePairGeneric 4 (Z.lor (Z.lor StoreWriteBack StorePostIndex) StoreFloat).
Definition stp64PostFloat : interptfptr_t Mem :=
  storePairGeneric 8 (Z.lor (Z.lor StoreWriteBack StorePostIndex) StoreFloat).
Definition stp128PostFloat : interptfptr_t Mem :=
  storePairGeneric 8 (Z.lor (Z.lor (Z.lor StoreWriteBack StorePostIndex) StoreFloat) Store128BitFloat).
Definition stp32PreFloat : interptfptr_t Mem :=
  storePairGeneric 4 (Z.lor StoreWriteBack StoreFloat).
Definition stp64PreFloat : interptfptr_t Mem :=
  storePairGeneric 8 (Z.lor StoreWriteBack StoreFloat).
Definition stp128PreFloat : interptfptr_t Mem :=
  storePairGeneric 8 (Z.lor (Z.lor StoreWriteBack StoreFloat) Store128BitFloat).
Definition stxp32 : interptfptr_t Mem := storePairGeneric 4 StoreExclusive.
Definition stlxp32 : interptfptr_t Mem :=
  storePairGeneric 4 (Z.lor StoreExclusive StoreRelease).
Definition stxp64 : interptfptr_t Mem := storePairGeneric 8 StoreExclusive.
Definition stlxp64 : interptfptr_t Mem :=
  storePairGeneric 8 (Z.lor StoreExclusive StoreRelease).
Definition ldnp32 : interptfptr_t Mem := loadPairGeneric 4 0.
Definition ldnp64 : interptfptr_t Mem := loadPairGeneric 8 0.
Definition ldp32Off : interptfptr_t Mem := loadPairGeneric 4 0.
Definition ldp64Off : interptfptr_t Mem := loadPairGeneric 8 0.
Definition ldp32Post : interptfptr_t Mem :=
  loadPairGeneric 4 (Z.lor LoadWriteBack LoadPostIndex).
Definition ldp64Post : interptfptr_t Mem :=
  loadPairGeneric 8 (Z.lor LoadWriteBack LoadPostIndex).
Definition ldp32Pre : interptfptr_t Mem := loadPairGeneric 4 LoadWriteBack.
Definition ldp64Pre : interptfptr_t Mem := loadPairGeneric 8 LoadWriteBack.
Definition ldnp32Float : interptfptr_t Mem := loadPairGeneric 4 LoadFloat.
Definition ldnp64Float : interptfptr_t Mem := loadPairGeneric 8 LoadFloat.
Definition ldnp128Float : interptfptr_t Mem :=
  loadPairGeneric 8 (Z.lor LoadFloat Load128BitFloat).
Definition ldp32OffFloat : interptfptr_t Mem := loadPairGeneric 4 LoadFloat.
Definition ldp64OffFloat : interptfptr_t Mem := loadPairGeneric 8 LoadFloat.
Definition ldp128OffFloat : interptfptr_t Mem :=
  loadPairGeneric 8 (Z.lor LoadFloat Load128BitFloat).
Definition ldp32PostFloat : interptfptr_t Mem :=
  loadPairGeneric 4 (Z.lor (Z.lor LoadWriteBack LoadPostIndex) LoadFloat).
Definition ldp64PostFloat : interptfptr_t Mem :=
  loadPairGeneric 8 (Z.lor (Z.lor LoadWriteBack LoadPostIndex) LoadFloat).
Definition ldp128PostFloat : interptfptr_t Mem :=
  loadPairGeneric 8 (Z.lor (Z.lor (Z.lor LoadWriteBack LoadPostIndex) LoadFloat) Load128BitFloat).
Definition ldp32PreFloat : interptfptr_t Mem :=
  loadPairGeneric 4 (Z.lor LoadWriteBack LoadFloat).
Definition ldp64PreFloat : interptfptr_t Mem :=
  loadPairGeneric 8 (Z.lor LoadWriteBack LoadFloat).
Definition ldp128PreFloat : interptfptr_t Mem :=
  loadPairGeneric 8 (Z.lor (Z.lor LoadWriteBack LoadFloat) Load128BitFloat).
Definition ldxp32 : interptfptr_t Mem := loadPairGeneric 4 LoadExclusive.
Definition ldaxp32 : interptfptr_t Mem :=
  loadPairGeneric 4 (Z.lor LoadExclusive LoadAcquire).
Definition ldxp64 : interptfptr_t Mem := loadPairGeneric 8 LoadExclusive.
Definition ldaxp64 : interptfptr_t Mem :=
  loadPairGeneric 8 (Z.lor LoadExclusive LoadAcquire).
Definition strbRegoff : interptfptr_t Mem := storeRegOffGeneric 1 0.
Definition strhRegoff : interptfptr_t Mem := storeRegOffGeneric 2 0.
Definition str32Regoff : interptfptr_t Mem := storeRegOffGeneric 4 0.
Definition str64Regoff : interptfptr_t Mem := storeRegOffGeneric 8 0.
Definition strbRegoffFloat : interptfptr_t Mem := storeRegOffGeneric 1 StoreFloat.
Definition strhRegoffFloat : interptfptr_t Mem := storeRegOffGeneric 2 StoreFloat.
Definition str32RegoffFloat : interptfptr_t Mem := storeRegOffGeneric 4 StoreFloat.
Definition str64RegoffFloat : interptfptr_t Mem := storeRegOffGeneric 8 StoreFloat.
Definition str128RegoffFloat : interptfptr_t Mem :=
  storeRegOffGeneric 8 (Z.lor StoreFloat Store128BitFloat).
Definition ldrbRegoff : interptfptr_t Mem := loadRegOffGeneric 1 0.
Definition ldrsb32Regoff : interptfptr_t Mem := loadRegOffGeneric 1 LoadExtendResult.
Definition ldrsb64Regoff : interptfptr_t Mem :=
  loadRegOffGeneric 1 (Z.lor LoadExtendResult LoadExtendTo64).
Definition ldrhRegoff : interptfptr_t Mem := loadRegOffGeneric 2 0.
Definition ldrsh32Regoff : interptfptr_t Mem := loadRegOffGeneric 2 LoadExtendResult.
Definition ldrsh64Regoff : interptfptr_t Mem :=
  loadRegOffGeneric 2 (Z.lor LoadExtendResult LoadExtendTo64).
Definition ldr32Regoff : interptfptr_t Mem := loadRegOffGeneric 4 0.
Definition ldrswRegoff : interptfptr_t Mem :=
  loadRegOffGeneric 4 (Z.lor LoadExtendResult LoadExtendTo64).
Definition ldr64Regoff : interptfptr_t Mem := loadRegOffGeneric 8 0.
Definition ldrbRegoffFloat : interptfptr_t Mem := loadRegOffGeneric 1 LoadFloat.
Definition ldrhRegoffFloat : interptfptr_t Mem := loadRegOffGeneric 2 LoadFloat.
Definition ldr32RegoffFloat : interptfptr_t Mem := loadRegOffGeneric 4 LoadFloat.
Definition ldr64RegoffFloat : interptfptr_t Mem := loadRegOffGeneric 8 LoadFloat.
Definition ldr128RegoffFloat : interptfptr_t Mem :=
  loadRegOffGeneric 8 (Z.lor LoadFloat Load128BitFloat).
Definition ldr32Literal : interptfptr_t Mem := loadRegLiteralGeneric 4 0.
Definition ldr64Literal : interptfptr_t Mem := loadRegLiteralGeneric 8 0.
Definition ldrswLiteral : interptfptr_t Mem := loadRegLiteralGeneric 4 LoadExtendResult.
Definition ldr32LiteralFloat : interptfptr_t Mem := loadRegLiteralGeneric 4 LoadFloat.
Definition ldr64LiteralFloat : interptfptr_t Mem := loadRegLiteralGeneric 8 LoadFloat.
Definition ldr128Literal : interptfptr_t Mem :=
  loadRegLiteralGeneric 8 (Z.lor LoadFloat Load128BitFloat).

(** ** Registration *)

Definition registerLoadStoreInstructions : registrations Mem :=
  [ (instructionID.STXRB, stxrbImm);
    (instructionID.STLXRB, stlxrbImm);
    (instructionID.LDXRB, ldxrbImm);
    (instructionID.LDAXRB, ldaxrbImm);
    (instructionID.STLRB, stlrbImm);
    (instructionID.LDARB, ldarbImm);
    (instructionID.STXRH, stxrhImm);
    (instructionID.STLXRH, stlxrhImm);
    (instructionID.LDXRH, ldxrhImm);
    (instructionID.LDAXRH, ldaxrhImm);
    (instructionID.STLRH, stlrhImm);
    (instructionID.LDARH, ldarhImm);
    (instructionID.STXR32, stxr32Imm);
    (instructionID.STLXR32, stlxr32Imm);
    (instructionID.STXP32, stxp32);
    (instructionID.STLXP32, stlxp32);
    (instructionID.LDXR32, ldxr32Imm);
    (instructionID.LDAXR32, ldaxr32Imm);
    (instructionID.LDXP32, ldxp32);
    (instructionID.LDAXP32, ldaxp32);
    (instructionID.STLR32, stlr32Imm);
    (instructionID.LDAR32, ldar32Imm);
    (instructionID.STXR64, stxr64Imm);
    (instructionID.STLXR64, stlxr64Imm);
    (instructionID.STXP64, stxp64);
    (instructionID.STLXP64, stlxp64);
    (instructionID.LDXR64, ldxr64Imm);
    (instructionID.LDAXR64, ldaxr64Imm);
    (instructionID.LDXP64, ldxp64);
    (instructionID.LDAXP64, ldaxp64);
    (instructionID.STLR64, stlr64Imm);
    (instructionID.LDAR64, ldar64Imm);
    (instructionID.LDR32_literal, ldr32Literal);
    (instructionID.LDR32_literal_float, ldr32LiteralFloat);
    (instructionID.LDR64_literal, ldr64Literal);
    (instructionID.LDR64_literal_float, ldr64LiteralFloat);
    (instructionID.LDRSW_literal, ldrswLiteral);
    (instructionID.LDR128_literal, ldr128Literal);
    (instructionID.PRFM_literal, pureHandler (fun core _ => core));
    (instructionID.STNP32, stnp32);
    (instructionID.LDNP32, ldnp32);
    (instructionID.STNP32_float, stnp32Float);
    (instructionID.LDNP32_float, ldnp32Float);
    (instructionID.STNP64, stnp64);
    (instructionID.LDNP64, ldnp64);
    (instructionID.STNP64_float, stnp64Float);
    (instructionID.LDNP64_float, ldnp64Float);
    (instructionID.STNP128, stnp128Float);
    (instructionID.LDNP128, ldnp128Float);
    (instructionID.STP32_post, stp32Post);
    (instructionID.LDP32_post, ldp32Post);
    (instructionID.STP32_post_float, stp32PostFloat);
    (instructionID.LDP32_post_float, ldp32PostFloat);
    (instructionID.LDPSW_post, UNIMPLEMENTED_FUNC);
    (instructionID.STP64_post, stp64Post);
    (instructionID.LDP64_post, ldp64Post);
    (instructionID.STP64_post_float, stp64PostFloat);
    (instructionID.LDP64_post_float, ldp64PostFloat);
    (instructionID.STP128_post, stp128PostFloat);
    (instructionID.LDP128_post, ldp128PostFloat);
    (instructionID.STP32_offset, stp32Off);
    (instructionID.LDP32_offset, ldp32Off);
    (instructionID.STP32_offset_float, stp32OffFloat);
    (instructionID.LDP32_offset_float, ldp32OffFloat);
    (instructionID.LDPSW_offset, UNIMPLEMENTED_FUNC);
    (instructionID.STP64_offset, stp64Off);
    (instructionID.LDP64_offset, ldp64Off);
    (instructionID.STP64_offset_float, stp64OffFloat);
    (instructionID.LDP64_offset_float, ldp64OffFloat);
    (instructionID.STP128_offset, stp128OffFloat);
    (instructionID.LDP128_offset, ldp128OffFloat);
    (instructionID.STP32_pre, stp32Pre);
    (instructionID.LDP32_pre, ldp32Pre);
    (instructionID.STP32_pre_float, stp32PreFloat);
    (instructionID.LDP32_pre_float, ldp32PreFloat);
    (instructionID.LDPSW_pre, UNIMPLEMENTED_FUNC);
    (instructionID.STP64_pre, stp64Pre);
    (instructionID.LDP64_pre, ldp64Pre);
    (instructionID.STP64_pre_float, stp64PreFloat);
    (instructionID.LDP64_pre_float, ldp64PreFloat);
    (instructionID.STP128_pre, stp128PreFloat);
    (instructionID.LDP128_pre, ldp128PreFloat);
    (instructionID.STURB, sturb);
    (instructionID.LDURB, ldurb);
    (instructionID.LDURSB64, ldursb64);
    (instructionID.LDURSB32, ldursb32);
    (instructionID.STUR8_float, stur8Float);
    (instructionID.LDUR8_float, ldur8Float);
    (instructionID.STUR128, stur128);
    (instructionID.LDUR128, ldur128);
    (instructionID.STURH, sturh);
    (instructionID.LDURH, ldurh);
    (instructionID.LDURSH64, ldursh64);
    (instructionID.LDURSH32, ldursh32);
    (instructionID.STUR16_float, stur16Float);
    (instructionID.LDUR16_float, ldur16Float);
    (instructionID.STUR32, stur32);
    (instructionID.LDUR32, ldur32);
    (instructionID.LDURSW, ldursw);
    (instructionID.STUR32_float, stur32Float);
    (instructionID.LDUR32_float, ldur32Float);
    (instructionID.STUR64, stur64);
    (instructionID.LDUR64, ldur64);
    (instructionID.PRFM_unscaled, pureHandler (fun core _ => core));
    (instructionID.STUR64_float, stur64Float);
    (instructionID.LDUR64_float, ldur64Float);
    (instructionID.STRB_post, strbPost);
    (instructionID.LDRB_post, ldrbPost);
    (instructionID.LDRSB64_post, ldrsb64Post);
    (instructionID.LDRSB32_post, ldrsb32Post);
    (instructionID.STR8_post_float, str8PostFloat);
    (instructionID.LDR8_post_float, ldr8PostFloat);
    (instructionID.STR128_post, str128Post);
    (instructionID.LDR128_post, ldr128Post);
    (instructionID.STRH_post, strhPost);
    (instructionID.LDRH_post, ldrhPost);
    (instructionID.LDRSH64_post, ldrsh64Post);
    (instructionID.LDRSH32_post, ldrsh32Post);
    (instructionID.STR16_post_float, str16PostFloat);
    (instructionID.LDR16_post_float, ldr16PostFloat);
    (instructionID.STR32_post, str32Post);
    (instructionID.LDR32_post, ldr32Post);
    (instructionID.LDRSW_post, ldrswPost);
    (instructionID.STR32_post_float, str32PostFloat);
    (instructionID.LDR32_post_float, ldr32PostFloat);
    (instructionID.STR64_post, str64Post);
    (instructionID.LDR64_post, ldr64Post);
    (instructionID.STR64_post_float, str64PostFloat);
    (instructionID.LDR64_post_float, ldr64PostFloat);
    (instructionID.STTRB, UNIMPLEMENTED_FUNC);
    (instructionID.LDTRB, UNIMPLEMENTED_FUNC);
    (instructionID.LDTRSB64, UNIMPLEMENTED_FUNC);
    (instructionID.LDTRSB32, UNIMPLEMENTED_FUNC);
    (instructionID.STTRH, UNIMPLEMENTED_FUNC);
    (instructionID.LDTRH, UNIMPLEMENTED_FUNC);
    (instructionID.LDTRSH64, UNIMPLEMENTED_FUNC);
    (instructionID.LDTRSH32, UNIMPLEMENTED_FUNC);
    (instructionID.STTR32, UNIMPLEMENTED_FUNC);
    (instructionID.LDTR32, UNIMPLEMENTED_FUNC);
    (instructionID.LDTRSW, UNIMPLEMENTED_FUNC);
    (instructionID.STTR64, UNIMPLEMENTED_FUNC);
    (instructionID.LDTR64, UNIMPLEMENTED_FUNC);
    (instructionID.STRB_pre, strbPre);
    (instructionID.LDRB_pre, ldrbPre);
    (instructionID.LDRSB64_pre, ldrsb64Pre);
    (instructionID.LDRSB32_pre, ldrsb32Pre);
    (instructionID.STR8_pre_float, str8PreFloat);
    (instructionID.LDR8_pre_float, ldr8PreFloat);
    (instructionID.STR128_pre, str128Pre);
    (instructionID.LDR128_pre, ldr128Pre);
    (instructionID.STRH_pre, strhPre);
    (instructionID.LDRH_pre, ldrhPre);
    (instructionID.LDRSH64_pre, ldrsh64Pre);
    (instructionID.LDRSH32_pre, ldrsh32Pre);
    (instructionID.STR16_pre_float, str16PreFloat);
    (instructionID.LDR16_pre_float, ldr16PreFloat);
    (instructionID.STR32_pre, str32Pre);
    (instructionID.LDR32_pre, ldr32Pre);
    (instructionID.LDRSW_pre, ldrswPre);
    (instructionID.STR32_pre_float, str32PreFloat);
    (instructionID.LDR32_pre_float, ldr32PreFloat);
    (instructionID.STR64_pre, str64Pre);
    (instructionID.LDR64_pre, ldr64Pre);
    (instructionID.STR64_pre_float, str64PreFloat);
    (instructionID.LDR64_pre_float, ldr64PreFloat);
    (instructionID.STRB_reg, strbRegoff);
    (instructionID.LDRB_reg, ldrbRegoff);
    (instructionID.LDRSB64_reg, ldrsb64Regoff);
    (instructionID.LDRSB32_reg, ldrsb32Regoff);
    (instructionID.STR8_reg_float, strbRegoffFloat);
    (instructionID.LDR8_reg_float, ldrbRegoffFloat);
    (instructionID.STR128_reg, str128RegoffFloat);
    (instructionID.LDR128_reg, ldr128RegoffFloat);
    (instructionID.STRH_reg, strhRegoff);
    (instructionID.LDRH_reg, ldrhRegoff);
    (instructionID.LDRSH64_reg, ldrsh64Regoff);
    (instructionID.LDRSH32_reg, ldrsh32Regoff);
    (instructionID.STR16_reg_float, strhRegoffFloat);
    (instructionID.LDR16_reg_float, ldrhRegoffFloat);
    (instructionID.STR32_reg, str32Regoff);
    (instructionID.LDR32_reg, ldr32Regoff);
    (instructionID.LDRSW_reg, ldrswRegoff);
    (instructionID.STR32_reg_float, str32RegoffFloat);
    (instructionID.LDR32_reg_float, ldr32RegoffFloat);
    (instructionID.STR64_reg, str64Regoff);
    (instructionID.LDR64_reg, ldr64Regoff);
    (instructionID.PRFM_reg, pureHandler (fun core _ => core));
    (instructionID.STR64_reg_float, str64RegoffFloat);
    (instructionID.LDR64_reg_float, ldr64RegoffFloat);
    (instructionID.STRB_imm, strbImm);
    (instructionID.LDRB_imm, ldrbImm);
    (instructionID.LDRSB64_imm, ldrsb64Imm);
    (instructionID.LDRSB32_imm, ldrsb32Imm);
    (instructionID.STR8_imm_float, str8ImmFloat);
    (instructionID.LDR8_imm_float, ldr8ImmFloat);
    (instructionID.STR128_imm, str128Imm);
    (instructionID.LDR128_imm, ldr128Imm);
    (instructionID.STRH_imm, strhImm);
    (instructionID.LDRH_imm, ldrhImm);
    (instructionID.LDRSH64_imm, ldrsh64Imm);
    (instructionID.LDRSH32_imm, ldrsh32Imm);
    (instructionID.STR16_imm_float, str16ImmFloat);
    (instructionID.LDR16_imm_float, ldr16ImmFloat);
    (instructionID.STR32_imm, str32Imm);
    (instructionID.LDR32_imm, ldr32Imm);
    (instructionID.LDRSW_imm, ldrswImm);
    (instructionID.STR32_imm_float, str32ImmFloat);
    (instructionID.LDR32_imm_float, ldr32ImmFloat);
    (instructionID.STR64_imm, str64Imm);
    (instructionID.LDR64_imm, ldr64Imm);
    (instructionID.PRFM_imm, pureHandler (fun core _ => core));
    (instructionID.STR64_imm_float, str64ImmFloat);
    (instructionID.LDR64_imm_float, ldr64ImmFloat) ].
End WithMachine.
