(* ===== verification/InterpFloat.v ===== *)
(** * Scalar floating point: [libcpu/src/interpreter/float.cpp]

    A register of the handlers' [auto reg] is the bit pattern of its union; every
    handler works on the core alone. *)
From Stdlib Require Import SpecFloat.
From S2P Require Import Prelude BitUtils Instructions Core InstUtils Machine Float.

(** [enum FloatFlags] *)
Definition FloatHalfWidthSource : Z := Z.shiftl 1 0.
Definition FloatSingleWidthSource : Z := Z.shiftl 1 1.
Definition FloatDoubleWidthSource : Z := Z.shiftl 1 2.
Definition FloatHalfWidthDest : Z := Z.shiftl 1 3.
Definition FloatSingleWidthDest : Z := Z.shiftl 1 4.
Definition FloatDoubleWidthDest : Z := Z.shiftl 1 5.
Definition FloatUseZero : Z := Z.shiftl 1 6.
Definition FloatGenerateExceptions : Z := Z.shiftl 1 7.
Definition FloatNegate : Z := Z.shiftl 1 8.
Definition FloatCompareQNaNs : Z := Z.shiftl 1 9.
Definition FloatIsSub : Z := Z.shiftl 1 10.
Definition FloatAbsolute : Z := Z.shiftl 1 11.
Definition FloatExact : Z := Z.shiftl 1 12.
Definition FloatUseFPCR : Z := Z.shiftl 1 13.
Definition FloatConditional : Z := Z.shiftl 1 14.

(** [enum ConvertFlags] *)
Definition ConvertNoFlags : Z := 0.
Definition Convert64Bit : Z := Z.shiftl 1 0.
Definition ConvertDouble : Z := Z.shiftl 1 1.
Definition ConvertSigned : Z := Z.shiftl 1 2.

(** [enum IntMovFlags] *)
Definition IntMovNoFlags : Z := 0.
Definition IntMovFloat : Z := Z.shiftl 1 0.
Definition IntMovDouble : Z := Z.shiftl 1 1.
Definition IntMovUpper : Z := Z.shiftl 1 2.
Definition IntMovToInt : Z := Z.shiftl 1 3.

Inductive RoundingMode : Set :=
  | RoundEven | RoundPosInf | RoundNegInf | RoundZero | RoundAway | RoundOdd.

(** ** Register views

    [core->VRegs[reg].floatD], [.floatS] and [.floatH] share the low bits of [D[0]];
    a store through one leaves the rest of the register alone. *)
Definition formatOf (isDouble : bool) : floatFormat :=
  if isDouble then doubleFloat else singleFloat.

Definition getReg (f : floatFormat) (core : Core) (reg : Z) : Z :=
  bitField 0 (floatWidth f) (getD0 core reg).
Definition setReg (f : floatFormat) (reg v : Z) (core : Core) : Core :=
  setD0 reg (setBitField 0 (floatWidth f) v (getD0 core reg)) core.

(** [getZero()] and [-getZero()] *)
Definition getZero : Z := 0.
Definition negZero (f : floatFormat) : Z := pack f true 0 0.

(** ** Moves *)

Definition fmovImmToSingle (core : Core) (inst : Z) : Core :=
  let data := Inst._13_20 inst in
  let reg := getReg singleFloat core (Inst.Rd inst) in
  let reg := set_sign singleFloat (if testBit 7 data then 1 else 0) reg in
  let reg := set_exponent singleFloat
               (Z.lor (if testBit 6 data then 0x7C else 0x80) (bitRange 4 5 data)) reg in
  let reg := set_mantissa singleFloat (Z.shiftl (bitRange 0 3 data) 19) reg in
  setReg singleFloat (Inst.Rd inst) reg core.

Definition fmovImmToDouble (core : Core) (inst : Z) : Core :=
  let data := Inst._13_20 inst in
  let reg := getReg doubleFloat core (Inst.Rd inst) in
  let reg := set_sign doubleFloat (if testBit 7 data then 1 else 0) reg in
  let reg := set_exponent doubleFloat
               (Z.lor (if testBit 6 data then 0x3FC else 0x400) (bitRange 4 5 data)) reg in
  let reg := set_mantissa doubleFloat (Z.shiftl (bitRange 0 3 data) 48) reg in
  setReg doubleFloat (Inst.Rd inst) reg core.

Definition floatMoveGeneric (flags : Z) (core : Core) (inst : Z) : Core :=
  let f := formatOf (has flags FloatDoubleWidthSource) in
  let reg := getReg f core (Inst.Rn inst) in
  let reg :=
    if has flags FloatNegate then set_sign f (if sign f reg !=? 0 then 0 else 1) reg
    else if has flags FloatAbsolute then set_sign f 0 reg
    else reg in
  setReg f (Inst.Rd inst) reg core.

(** ** Rounding to an integral value *)

Definition roundFloat (f : floatFormat) (x : spec_float) (roundingMode : RoundingMode)
    : spec_float :=
  match roundingMode with
  | RoundEven => SFsub (prec f) (emax f) x (host_remainder1 f x)
  | RoundPosInf => host_ceil f x
  | RoundNegInf => host_floor f x
  | RoundZero => host_trunc f x
  | RoundAway => host_round f x
  | RoundOdd => S754_zero false
  end.

Definition floatRoundGeneric (flags : Z) (mode : RoundingMode) (core : Core) (inst : Z)
    : Core :=
  let f := formatOf (has flags FloatDoubleWidthSource) in
  let reg := getReg f core (Inst.Rn inst) in
  if isNaN f reg || isInfinity f reg || isZero f reg then
    setReg f (Inst.Rd inst) reg core
  else
    let roundingMode := if has flags FloatUseFPCR then RoundNegInf else mode in
    (* [FloatExact] only logs *)
    setReg f (Inst.Rd inst) (bitsOf f (roundFloat f (valueOf f reg) roundingMode)) core.

(** ** Conversion between formats *)

Definition floatConvertGeneric (flags : Z) (core : Core) (inst : Z) : Core :=
  let source (f : floatFormat) (bias shift : Z) :=
    let reg := getReg f core (Inst.Rn inst) in
    (sign f reg, u64 (exponent f reg - bias), Z.shiftl (mantissa f reg) shift) in
  let '(sign_, exponent_, mantissa_) :=
    if has flags FloatHalfWidthSource then source halfFloat 15 42
    else if has flags FloatSingleWidthSource then source singleFloat 127 29
    else source doubleFloat 1023 0 in
  let dest (f : floatFormat) (bias shift : Z) :=
    let reg := getReg f core (Inst.Rd inst) in
    let reg := set_sign f sign_ reg in
    let reg := set_exponent f (u64 (exponent_ + bias)) reg in
    let reg := set_mantissa f (Z.shiftr mantissa_ shift) reg in
    setReg f (Inst.Rd inst) reg core in
  if has flags FloatHalfWidthDest then dest halfFloat 15 42
  else if has flags FloatSingleWidthDest then dest singleFloat 127 29
  else dest doubleFloat 1023 0.

(** ** Conditional select and comparison *)

Definition floatCondSelectGeneric (flags : Z) (core : Core) (inst : Z) : Core :=
  let cond := toCondition (Inst.cond_comp inst) in
  let f := formatOf (has flags FloatDoubleWidthSource) in
  setReg f (Inst.Rd inst)
    (if testCondition core cond then getReg f core (Inst.Rn inst)
     else getReg f core (Inst.Rm inst)) core.

Definition floatCompareGeneric (flags : Z) (core : Core) (inst : Z) : Core :=
  let cond := toCondition (Inst.cond_comp inst) in
  let f := formatOf (has flags FloatDoubleWidthSource) in
  let reg1 := getReg f core (Inst.Rn inst) in
  let reg2 := getReg f core (Inst.Rm inst) in
  let reg2 := if has flags FloatUseZero then 0 else reg2 in
  let setFlags (n z c v : bool) :=
    set_PState {| PSTATE.N := n; PSTATE.Z := z; PSTATE.C := c; PSTATE.V := v |} core in
  if has flags FloatConditional && negb (testCondition core cond) then
    setFlags (testBit 3 inst) (testBit 2 inst) (testBit 1 inst) (testBit 0 inst)
  else
    let raiseException :=
      if has flags FloatGenerateExceptions then isNaN f reg1 || isNaN f reg2
      else isSignalingNaN f reg1 || isSignalingNaN f reg2 in
    if raiseException then setFlags false false true true
    else
      let bitsSigned := to_signed (floatWidth f) in
      if bitsSigned reg1 =? bitsSigned reg2 then setFlags false true true false
      else if bitsSigned reg1 <? bitsSigned reg2 then setFlags true false false false
      else setFlags false false true false.

(** ** Conversion from an integer *)

(** [while (val >= limit) { val >>= 1; bias++; }] *)
Fixpoint shrinkLoop (fuel : nat) (limit val bias : Z) : Z * Z :=
  match fuel with
  | O => (val, bias)
  | S fuel =>
      if val >=? limit then shrinkLoop fuel limit (Z.shiftr val 1) (u64 (bias + 1))
      else (val, bias)
  end.

(** [while (!testBit<bit>(val)) { val <<= 1; bias++; }] *)
Fixpoint growLoop (fuel : nat) (bit val bias : Z) : Z * Z :=
  match fuel with
  | O => (val, bias)
  | S fuel =>
      if negb (testBit bit val)
      then growLoop fuel bit (u64 (Z.shiftl val 1)) (u64 (bias + 1))
      else (val, bias)
  end.

Definition floatConvIntToFloatGeneric (flags : Z) (core : Core) (inst : Z) : Core :=
  let val := getX core (Inst.Rn inst) in
  let is64 := has flags Convert64Bit in
  let isDouble := has flags ConvertDouble in
  let f := formatOf isDouble in
  let val := if is64 then val else Z.land val (bitmask 32) in
  let reg := getReg f core (Inst.Rd inst) in
  let '(reg, val) :=
    if has flags ConvertSigned && testBit (if is64 then 63 else 31) val
    then (set_sign f 1 reg, u64 (not64 val + 1))
    else (reg, val) in
  let limit := Z.shiftl 1 (if isDouble then 53 else 24) in
  let bit := if isDouble then 52 else 23 in
  let base := (if isDouble then 1023 else 127) + bit in
  let '(exponent_, mantissa_) :=
    if val !=? 0 then
      if val >=? limit then
        let '(val, bias) := shrinkLoop 64 limit val 0 in (u64 (base + bias), val)
      else
        let '(val, bias) := growLoop 64 bit val 0 in (u64 (base - bias), val)
    else (0, 0) in
  let reg := set_exponent f exponent_ reg in
  let reg := set_mantissa f mantissa_ reg in
  setReg f (Inst.Rd inst) reg core.

(** ** Moves between register files *)

Definition floatIntMovGeneric (flags : Z) (core : Core) (inst : Z) : Core :=
  if has flags IntMovToInt then
    if has flags IntMovFloat then
      setX (Inst.Rd inst) (getReg singleFloat core (Inst.Rn inst)) core
    else if has flags IntMovDouble then
      setX (Inst.Rd inst) (getReg doubleFloat core (Inst.Rn inst)) core
    else setX (Inst.Rd inst) (getD1 core (Inst.Rn inst)) core
  else
    if has flags IntMovFloat then
      setReg singleFloat (Inst.Rd inst) (u32 (getX core (Inst.Rn inst))) core
    else if has flags IntMovDouble then
      setReg doubleFloat (Inst.Rd inst) (getX core (Inst.Rn inst)) core
    else setD1 (Inst.Rd inst) (getX core (Inst.Rn inst)) core.

(** ** Host arithmetic *)

Section WithHost.
Context `{HostFloat}.

Definition floatSqrtGeneric (flags : Z) (core : Core) (inst : Z) : Core :=
  let f := formatOf (has flags FloatDoubleWidthSource) in
  let reg := getReg f core (Inst.Rn inst) in
  let reg :=
    if isNaN f reg then reg
    else if isZero f reg then reg
    else if isPositiveInfinity f reg then reg
    else if isNegative f reg then generateQNaN f
    else host_sqrt f reg in
  setReg f (Inst.Rd inst) reg core.

Definition floatMulGeneric (flags : Z) (core : Core) (inst : Z) : Core :=
  let f := formatOf (has flags FloatDoubleWidthSource) in
  let reg1 := getReg f core (Inst.Rn inst) in
  let reg2 := getReg f core (Inst.Rm inst) in
  let sameSign := sign f reg1 =? sign f reg2 in
  let result :=
    if (isInfinity f reg1 && isZero f reg2) || (isZero f reg1 && isInfinity f reg2) then
      generateQNaN f
    else if isInfinity f reg1 || isInfinity f reg2 then
      if negb sameSign then host_neg f (infinity f) else infinity f
    else if isZero f reg1 || isZero f reg2 then
      if sameSign then getZero else negZero f
    else host_mul f reg1 reg2 in
  let result := if has flags FloatNegate then host_neg f result else result in
  setReg f (Inst.Rd inst) result core.

Definition floatDivGeneric (flags : Z) (core : Core) (inst : Z) : Core :=
  let f := formatOf (has flags FloatDoubleWidthSource) in
  let reg1 := getReg f core (Inst.Rn inst) in
  let reg2 := getReg f core (Inst.Rm inst) in
  let sameSign := sign f reg1 =? sign f reg2 in
  let result :=
    if (isInfinity f reg1 && isInfinity f reg2) || (isZero f reg1 && isZero f reg2) then
      generateQNaN f
    else if isZero f reg2 then
      if sameSign then getZero else negZero f
    else if isInfinity f reg1 then
      if negb sameSign then host_neg f (infinity f) else infinity f
    else if isZero f reg1 || isInfinity f reg2 then
      if sameSign then getZero else negZero f
    else host_div f reg1 reg2 in
  setReg f (Inst.Rd inst) result core.

Definition floatMaxGeneric (flags : Z) (core : Core) (inst : Z) : Core :=
  let f := formatOf (has flags FloatDoubleWidthSource) in
  let reg1 := getReg f core (Inst.Rn inst) in
  let reg2 := getReg f core (Inst.Rm inst) in
  let '(reg1, reg2) :=
    if has flags FloatCompareQNaNs then
      if isQuietNaN f reg1 && negb (isQuietNaN f reg2)
      then (host_neg f (infinity f), reg2)
      else if negb (isQuietNaN f reg1) && isQuietNaN f reg2
      then (reg1, host_neg f (infinity f))
      else (reg1, reg2)
    else (reg1, reg2) in
  let result := if host_lt f reg2 reg1 then reg1 else reg2 in
  let result :=
    if host_eqb f result 0 && (isPositive f reg1 || isPositive f reg2)
    then getZero else result in
  setReg f (Inst.Rd inst) result core.

Definition floatMinGeneric (flags : Z) (core : Core) (inst : Z) : Core :=
  let f := formatOf (has flags FloatDoubleWidthSource) in
  let reg1 := getReg f core (Inst.Rn inst) in
  let reg2 := getReg f core (Inst.Rm inst) in
  let '(reg1, reg2) :=
    if has flags FloatCompareQNaNs then
      if isQuietNaN f reg1 && negb (isQuietNaN f reg2) then (infinity f, reg2)
      else if negb (isQuietNaN f reg1) && isQuietNaN f reg2 then (reg1, infinity f)
      else (reg1, reg2)
    else (reg1, reg2) in
  let result := if host_lt f reg1 reg2 then reg1 else reg2 in
  let result :=
    if host_eqb f result 0 && (isNegative f reg1 || isNegative f reg2)
    then negZero f else result in
  setReg f (Inst.Rd inst) result core.

Definition floatAddGeneric (flags : Z) (core : Core) (inst : Z) : Core :=
  let f := formatOf (has flags FloatDoubleWidthSource) in
  let reg1 := getReg f core (Inst.Rn inst) in
  let reg2 := getReg f core (Inst.Rm inst) in
  let sameSign := sign f reg1 =? sign f reg2 in
  let result :=
    if isInfinity f reg1 && isInfinity f reg2 && negb sameSign then generateQNaN f
    else if isInfinity f reg1 && isInfinity f reg2 then reg1
    else if isZero f reg1 && isZero f reg2 && sameSign then reg1
    else host_add f reg1 reg2 in
  setReg f (Inst.Rd inst) result core.

Definition floatSubGeneric (flags : Z) (core : Core) (inst : Z) : Core :=
  let f := formatOf (has flags FloatDoubleWidthSource) in
  let reg1 := getReg f core (Inst.Rn inst) in
  let reg2 := getReg f core (Inst.Rm inst) in
  let sameSign := sign f reg1 =? sign f reg2 in
  let result :=
    if isInfinity f reg1 && isInfinity f reg2 && sameSign then generateQNaN f
    else if isPositiveInfinity f reg1 && isNegativeInfinity f reg2 then reg1
    else if isNegativeInfinity f reg1 && isPositiveInfinity f reg2 then reg1
    else if isZero f reg1 && isZero f reg2 && negb sameSign then reg1
    else host_sub f reg1 reg2 in
  setReg f (Inst.Rd inst) result core.

(** The branches for an infinite addend or product assign [reg1.val], which nothing
    reads afterwards: [result] keeps the value it had before them. *)
Definition floatMulAddGeneric (flags : Z) (core : Core) (inst : Z) : Core :=
  let f := formatOf (has flags FloatDoubleWidthSource) in
  let reg1 := getReg f core (Inst.Rn inst) in
  let reg2 := getReg f core (Inst.Rm inst) in
  let reg3 := getReg f core (Inst.Ra inst) in
  let reg1 :=
    if has flags FloatIsSub then set_sign f (if sign f reg1 !=? 0 then 0 else 1) reg1
    else reg1 in
  let inf1 := isInfinity f reg1 in
  let zero1 := isZero f reg1 in
  let sign1 := isNegative f reg1 in
  let inf2 := isInfinity f reg2 in
  let zero2 := isZero f reg2 in
  let sign2 := isNegative f reg2 in
  let inf3 := isInfinity f reg3 in
  let zero3 := isZero f reg3 in
  let sign3 := isNegative f reg3 in
  let infp := inf1 || inf2 in
  let zerop := zero1 || zero2 in
  let signp := xorb sign1 sign2 in
  let result := getZero in
  let result :=
    if isQuietNaN f reg3 && ((inf1 && zero2) || (zero1 && inf2)) then generateQNaN f
    else result in
  let result :=
    if (inf1 && zero2) || (zero1 && inf2) || (inf3 && infp && xorb sign3 signp) then
      generateQNaN f
    else if (inf3 && negb sign3) || (infp && negb signp) then result
    else if (inf3 && sign3) || (infp && signp) then result
    else if zero3 && zerop && Bool.eqb sign3 signp then
      if sign f reg3 !=? 0 then negZero f else getZero
    else host_add f reg3 (host_mul f reg1 reg2) in
  let result := if has flags FloatNegate then host_neg f result else result in
  setReg f (Inst.Rd inst) result core.

(** [temp] is a [double]; [remainder] and the subtraction are done on doubles. *)
Definition floatConvertToIntGeneric (flags : Z) (mode : RoundingMode) (core : Core)
    (inst : Z) : Core :=
  let f := formatOf (has flags ConvertDouble) in
  let val := valueOf f (getReg f core (Inst.Rn inst)) in
  let temp :=
    match mode with
    | RoundEven =>
        let val := convertTo doubleFloat val in
        SFsub (prec doubleFloat) (emax doubleFloat) val (host_remainder1 doubleFloat val)
    | RoundPosInf => convertTo doubleFloat (host_ceil f val)
    | RoundNegInf => convertTo doubleFloat (host_floor f val)
    | RoundZero => convertTo doubleFloat (host_trunc f val)
    | RoundAway => convertTo doubleFloat (host_round f val)
    | RoundOdd => S754_zero false
    end in
  let data :=
    castToInt (has flags ConvertSigned) (if has flags Convert64Bit then 64 else 32)
      temp in
  setX (Inst.Rd inst) data core.

(** ** The instantiations *)

Definition fmovRegToSingle : Core -> Z -> Core := floatMoveGeneric FloatSingleWidthSource.
Definition fabsSingle : Core -> Z -> Core :=
  floatMoveGeneric (Z.lor FloatSingleWidthSource FloatAbsolute).
Definition fnegSingle : Core -> Z -> Core :=
  floatMoveGeneric (Z.lor FloatSingleWidthSource FloatNegate).
Definition fmovRegToDouble : Core -> Z -> Core := floatMoveGeneric FloatDoubleWidthSource.
Definition fabsDouble : Core -> Z -> Core :=
  floatMoveGeneric (Z.lor FloatDoubleWidthSource FloatAbsolute).
Definition fnegDouble : Core -> Z -> Core :=
  floatMoveGeneric (Z.lor FloatDoubleWidthSource FloatNegate).
Definition frintnSingle : Core -> Z -> Core :=
  floatRoundGeneric FloatSingleWidthSource RoundEven.
Definition frintpSingle : Core -> Z -> Core :=
  floatRoundGeneric FloatSingleWidthSource RoundPosInf.
Definition frintmSingle : Core -> Z -> Core :=
  floatRoundGeneric FloatSingleWidthSource RoundNegInf.
Definition frintzSingle : Core -> Z -> Core :=
  floatRoundGeneric FloatSingleWidthSource RoundZero.
Definition frintaSingle : Core -> Z -> Core :=
  floatRoundGeneric FloatSingleWidthSource RoundAway.
Definition frintxSingle : Core -> Z -> Core :=
  floatRoundGeneric (Z.lor (Z.lor FloatSingleWidthSource FloatExact) FloatUseFPCR) RoundNegInf.
Definition frintiSingle : Core -> Z -> Core :=
  floatRoundGeneric (Z.lor FloatSingleWidthSource FloatUseFPCR) RoundNegInf.
Definition frintnDouble : Core -> Z -> Core :=
  floatRoundGeneric FloatDoubleWidthSource RoundEven.
Definition frintpDouble : Core -> Z -> Core :=
  floatRoundGeneric FloatDoubleWidthSource RoundPosInf.
Definition frintmDouble : Core -> Z -> Core :=
  floatRoundGeneric FloatDoubleWidthSource RoundNegInf.
Definition frintzDouble : Core -> Z -> Core :=
  floatRoundGeneric FloatDoubleWidthSource RoundZero.
Definition frintaDouble : Core -> Z -> Core :=
  floatRoundGeneric FloatDoubleWidthSource RoundAway.
Definition frintxDouble : Core -> Z -> Core :=
  floatRoundGeneric (Z.lor (Z.lor FloatDoubleWidthSource FloatExact) FloatUseFPCR) RoundNegInf.
Definition frintiDouble : Core -> Z -> Core :=
  floatRoundGeneric (Z.lor FloatDoubleWidthSource FloatUseFPCR) RoundNegInf.
Definition fsqrtSingle : Core -> Z -> Core := floatSqrtGeneric FloatSingleWidthSource.
Definition fsqrtDouble : Core -> Z -> Core := floatSqrtGeneric FloatDoubleWidthSource.
Definition fcvtSingleToDouble : Core -> Z -> Core :=
  floatConvertGeneric (Z.lor FloatSingleWidthSource FloatDoubleWidthDest).
Definition fcvtSingleToHalf : Core -> Z -> Core :=
  floatConvertGeneric (Z.lor FloatSingleWidthSource FloatHalfWidthDest).
Definition fcvtDoubleToSingle : Core -> Z -> Core :=
  floatConvertGeneric (Z.lor FloatDoubleWidthSource FloatSingleWidthDest).
Definition fcvtDoubleToHalf : Core -> Z -> Core :=
  floatConvertGeneric (Z.lor FloatDoubleWidthSource FloatHalfWidthDest).
Definition fcvtHalfToSingle : Core -> Z -> Core :=
  floatConvertGeneric (Z.lor FloatHalfWidthSource FloatSingleWidthDest).
Definition fcvtHalfToDouble : Core -> Z -> Core :=
  floatConvertGeneric (Z.lor FloatDoubleWidthSource FloatDoubleWidthDest).
Definition fmulSingle : Core -> Z -> Core := floatMulGeneric FloatSingleWidthSource.
Definition fnmulSingle : Core -> Z -> Core :=
  floatMulGeneric (Z.lor FloatSingleWidthSource FloatNegate).
Definition fmulDouble : Core -> Z -> Core := floatMulGeneric FloatDoubleWidthSource.
Definition fnmulDouble : Core -> Z -> Core :=
  floatMulGeneric (Z.lor FloatDoubleWidthSource FloatNegate).
Definition fdivSingle : Core -> Z -> Core := floatDivGeneric FloatSingleWidthSource.
Definition fdivDouble : Core -> Z -> Core := floatDivGeneric FloatDoubleWidthSource.
Definition fmaxSingle : Core -> Z -> Core := floatMaxGeneric FloatSingleWidthSource.
Definition fmaxnmSingle : Core -> Z -> Core :=
  floatMaxGeneric (Z.lor FloatSingleWidthSource FloatCompareQNaNs).
Definition fmaxDouble : Core -> Z -> Core := floatMaxGeneric FloatDoubleWidthSource.
Definition fmaxnmDouble : Core -> Z -> Core :=
  floatMaxGeneric (Z.lor FloatDoubleWidthSource FloatCompareQNaNs).
Definition fminSingle : Core -> Z -> Core := floatMinGeneric FloatSingleWidthSource.
Definition fminnmSingle : Core -> Z -> Core :=
  floatMinGeneric (Z.lor FloatSingleWidthSource FloatCompareQNaNs).
Definition fminDouble : Core -> Z -> Core := floatMinGeneric FloatDoubleWidthSource.
Definition fminnmDouble : Core -> Z -> Core :=
  floatMinGeneric (Z.lor FloatDoubleWidthSource FloatCompareQNaNs).
Definition faddSingle : Core -> Z -> Core := floatAddGeneric FloatSingleWidthSource.
Definition faddDouble : Core -> Z -> Core := floatAddGeneric FloatDoubleWidthSource.
Definition fsubSingle : Core -> Z -> Core := floatSubGeneric FloatSingleWidthSource.
Definition fsubDouble : Core -> Z -> Core := floatSubGeneric FloatDoubleWidthSource.
Definition fmaddSingle : Core -> Z -> Core := floatMulAddGeneric FloatSingleWidthSource.
Definition fmsubSingle : Core -> Z -> Core :=
  floatMulAddGeneric (Z.lor FloatSingleWidthSource FloatIsSub).
Definition fnmaddSingle : Core -> Z -> Core :=
  floatMulAddGeneric (Z.lor FloatSingleWidthSource FloatNegate).
Definition fnmsubSingle : Core -> Z -> Core :=
  floatMulAddGeneric (Z.lor (Z.lor FloatSingleWidthSource FloatNegate) FloatIsSub).
Definition fmaddDouble : Core -> Z -> Core := floatMulAddGeneric FloatDoubleWidthSource.
Definition fmsubDouble : Core -> Z -> Core :=
  floatMulAddGeneric (Z.lor FloatDoubleWidthSource FloatIsSub).
Definition fnmaddDouble : Core -> Z -> Core :=
  floatMulAddGeneric (Z.lor FloatDoubleWidthSource FloatNegate).
Definition fnmsubDouble : Core -> Z -> Core :=
  floatMulAddGeneric (Z.lor (Z.lor FloatDoubleWidthSource FloatNegate) FloatIsSub).
Definition fcselSingle : Core -> Z -> Core :=
  floatCondSelectGeneric FloatSingleWidthSource.
Definition fcselDouble : Core -> Z -> Core :=
  floatCondSelectGeneric FloatDoubleWidthSource.
Definition fcmpSingle : Core -> Z -> Core := floatCompareGeneric FloatSingleWidthSource.
Definition fcmpZeroSingle : Core -> Z -> Core :=
  floatCompareGeneric (Z.lor FloatSingleWidthSource FloatUseZero).
Definition fcmpeSingle : Core -> Z -> Core :=
  floatCompareGeneric (Z.lor FloatSingleWidthSource FloatGenerateExceptions).
Definition fcmpeZeroSingle : Core -> Z -> Core :=
  floatCompareGeneric (Z.lor (Z.lor FloatSingleWidthSource FloatUseZero) FloatGenerateExceptions).
Definition fccmpSingle : Core -> Z -> Core :=
  floatCompareGeneric (Z.lor FloatSingleWidthSource FloatConditional).
Definition fccmpeSingle : Core -> Z -> Core :=
  floatCompareGeneric (Z.lor (Z.lor FloatSingleWidthSource FloatGenerateExceptions) FloatConditional).
Definition fcmpDouble : Core -> Z -> Core := floatCompareGeneric FloatDoubleWidthSource.
Definition fcmpZeroDouble : Core -> Z -> Core :=
  floatCompareGeneric (Z.lor FloatDoubleWidthSource FloatUseZero).
Definition fcmpeDouble : Core -> Z -> Core :=
  floatCompareGeneric (Z.lor FloatDoubleWidthSource FloatGenerateExceptions).
Definition fcmpeZeroDouble : Core -> Z -> Core :=
  floatCompareGeneric (Z.lor (Z.lor FloatDoubleWidthSource FloatUseZero) FloatGenerateExceptions).
Definition fccmpDouble : Core -> Z -> Core :=
  floatCompareGeneric (Z.lor FloatDoubleWidthSource FloatConditional).
Definition fccmpeDouble : Core -> Z -> Core :=
  floatCompareGeneric (Z.lor (Z.lor FloatDoubleWidthSource FloatGenerateExceptions) FloatConditional).
Definition ucvtf32ToSingle : Core -> Z -> Core :=
  floatConvIntToFloatGeneric ConvertNoFlags.
Definition scvtf32ToSingle : Core -> Z -> Core :=
  floatConvIntToFloatGeneric ConvertSigned.
Definition ucvtf32ToDouble : Core -> Z -> Core :=
  floatConvIntToFloatGeneric ConvertDouble.
Definition scvtf32ToDouble : Core -> Z -> Core :=
  floatConvIntToFloatGeneric (Z.lor ConvertDouble ConvertSigned).
Definition ucvtf64ToSingle : Core -> Z -> Core := floatConvIntToFloatGeneric Convert64Bit.
Definition scvtf64ToSingle : Core -> Z -> Core :=
  floatConvIntToFloatGeneric (Z.lor Convert64Bit ConvertSigned).
Definition ucvtf64ToDouble : Core -> Z -> Core :=
  floatConvIntToFloatGeneric (Z.lor ConvertDouble Convert64Bit).
Definition scvtf64ToDouble : Core -> Z -> Core :=
  floatConvIntToFloatGeneric (Z.lor (Z.lor ConvertDouble Convert64Bit) ConvertSigned).
Definition fmovSingleTo32 : Core -> Z -> Core :=
  floatIntMovGeneric (Z.lor IntMovFloat IntMovToInt).
Definition fmov32ToSingle : Core -> Z -> Core := floatIntMovGeneric IntMovFloat.
Definition fmovDoubleto64 : Core -> Z -> Core :=
  floatIntMovGeneric (Z.lor IntMovDouble IntMovToInt).
Definition fmov64ToDouble : Core -> Z -> Core := floatIntMovGeneric IntMovDouble.
Definition fmovUpperTo64 : Core -> Z -> Core :=
  floatIntMovGeneric (Z.lor IntMovUpper IntMovToInt).
Definition fmov64ToUpper : Core -> Z -> Core := floatIntMovGeneric IntMovUpper.
Definition fcvtnsSingleTo32Int : Core -> Z -> Core :=
  floatConvertToIntGeneric ConvertSigned RoundEven.
Definition fcvtnuSingleTo32Int : Core -> Z -> Core :=
  floatConvertToIntGeneric ConvertNoFlags RoundEven.
Definition fcvtasSingleTo32Int : Core -> Z -> Core :=
  floatConvertToIntGeneric ConvertSigned RoundAway.
Definition fcvtauSingleTo32Int : Core -> Z -> Core :=
  floatConvertToIntGeneric ConvertNoFlags RoundAway.
Definition fcvtpsSingleTo32Int : Core -> Z -> Core :=
  floatConvertToIntGeneric ConvertSigned RoundPosInf.
Definition fcvtpuSingleTo32Int : Core -> Z -> Core :=
  floatConvertToIntGeneric ConvertNoFlags RoundPosInf.
Definition fcvtmsSingleTo32Int : Core -> Z -> Core :=
  floatConvertToIntGeneric ConvertSigned RoundNegInf.
Definition fcvtmuSingleTo32Int : Core -> Z -> Core :=
  floatConvertToIntGeneric ConvertNoFlags RoundNegInf.
Definition fcvtzsSingleTo32Int : Core -> Z -> Core :=
  floatConvertToIntGeneric ConvertSigned RoundZero.
Definition fcvtzuSingleTo32Int : Core -> Z -> Core :=
  floatConvertToIntGeneric ConvertNoFlags RoundZero.
Definition fcvtnsDoubleTo32Int : Core -> Z -> Core :=
  floatConvertToIntGeneric (Z.lor ConvertDouble ConvertSigned) RoundEven.
Definition fcvtnuDoubleTo32Int : Core -> Z -> Core :=
  floatConvertToIntGeneric ConvertDouble RoundEven.
Definition fcvtasDoubleTo32Int : Core -> Z -> Core :=
  floatConvertToIntGeneric (Z.lor ConvertDouble ConvertSigned) RoundAway.
Definition fcvtauDoubleTo32Int : Core -> Z -> Core :=
  floatConvertToIntGeneric ConvertDouble RoundAway.
Definition fcvtpsDoubleTo32Int : Core -> Z -> Core :=
  floatConvertToIntGeneric (Z.lor ConvertDouble ConvertSigned) RoundPosInf.
Definition fcvtpuDoubleTo32Int : Core -> Z -> Core :=
  floatConvertToIntGeneric ConvertDouble RoundPosInf.
Definition fcvtmsDoubleTo32Int : Core -> Z -> Core :=
  floatConvertToIntGeneric (Z.lor ConvertDouble ConvertSigned) RoundNegInf.
Definition fcvtmuDoubleTo32Int : Core -> Z -> Core :=
  floatConvertToIntGeneric ConvertDouble RoundNegInf.
Definition fcvtzsDoubleTo32Int : Core -> Z -> Core :=
  floatConvertToIntGeneric (Z.lor ConvertDouble ConvertSigned) RoundZero.
Definition fcvtzuDoubleTo32Int : Core -> Z -> Core :=
  floatConvertToIntGeneric ConvertDouble RoundZero.
Definition fcvtnsSingleTo64Int : Core -> Z -> Core :=
  floatConvertToIntGeneric (Z.lor Convert64Bit ConvertSigned) RoundEven.
Definition fcvtnuSingleTo64Int : Core -> Z -> Core :=
  floatConvertToIntGeneric Convert64Bit RoundEven.
Definition fcvtasSingleTo64Int : Core -> Z -> Core :=
  floatConvertToIntGeneric (Z.lor Convert64Bit ConvertSigned) RoundAway.
Definition fcvtauSingleTo64Int : Core -> Z -> Core :=
  floatConvertToIntGeneric Convert64Bit RoundAway.
Definition fcvtpsSingleTo64Int : Core -> Z -> Core :=
  floatConvertToIntGeneric (Z.lor Convert64Bit ConvertSigned) RoundPosInf.
Definition fcvtpuSingleTo64Int : Core -> Z -> Core :=
  floatConvertToIntGeneric Convert64Bit RoundPosInf.
Definition fcvtmsSingleTo64Int : Core -> Z -> Core :=
  floatConvertToIntGeneric (Z.lor Convert64Bit ConvertSigned) RoundNegInf.
Definition fcvtmuSingleTo64Int : Core -> Z -> Core :=
  floatConvertToIntGeneric Convert64Bit RoundNegInf.
Definition fcvtzsSingleTo64Int : Core -> Z -> Core :=
  floatConvertToIntGeneric (Z.lor Convert64Bit ConvertSigned) RoundZero.
Definition fcvtzuSingleTo64Int : Core -> Z -> Core :=
  floatConvertToIntGeneric Convert64Bit RoundZero.
Definition fcvtnsDoubleTo64Int : Core -> Z -> Core :=
  floatConvertToIntGeneric (Z.lor (Z.lor Convert64Bit ConvertDouble) ConvertSigned) RoundEven.
Definition fcvtnuDoubleTo64Int : Core -> Z -> Core :=
  floatConvertToIntGeneric (Z.lor Convert64Bit ConvertDouble) RoundEven.
Definition fcvtasDoubleTo64Int : Core -> Z -> Core :=
  floatConvertToIntGeneric (Z.lor (Z.lor Convert64Bit ConvertDouble) ConvertSigned) RoundAway.
Definition fcvtauDoubleTo64Int : Core -> Z -> Core :=
  floatConvertToIntGeneric (Z.lor Convert64Bit ConvertDouble) RoundAway.
Definition fcvtpsDoubleTo64Int : Core -> Z -> Core :=
  floatConvertToIntGeneric (Z.lor (Z.lor Convert64Bit ConvertDouble) ConvertSigned) RoundPosInf.
Definition fcvtpuDoubleTo64Int : Core -> Z -> Core :=
  floatConvertToIntGeneric (Z.lor Convert64Bit ConvertDouble) RoundPosInf.
Definition fcvtmsDoubleTo64Int : Core -> Z -> Core :=
  floatConvertToIntGeneric (Z.lor (Z.lor Convert64Bit ConvertDouble) ConvertSigned) RoundNegInf.
Definition fcvtmuDoubleTo64Int : Core -> Z -> Core :=
  floatConvertToIntGeneric (Z.lor Convert64Bit ConvertDouble) RoundNegInf.
Definition fcvtzsDoubleTo64Int : Core -> Z -> Core :=
  floatConvertToIntGeneric (Z.lor (Z.lor Convert64Bit ConvertDouble) ConvertSigned) RoundZero.
Definition fcvtzuDoubleTo64Int : Core -> Z -> Core :=
  floatConvertToIntGeneric (Z.lor Convert64Bit ConvertDouble) RoundZero.

(** ** Registration *)

Context {Mem : Type}.

Definition registerFloatInstructions : registrations Mem :=
  [ (instructionID.SCVTF_32_single_fixed, UNIMPLEMENTED_FUNC);
    (instructionID.UCVTF_32_single_fixed, UNIMPLEMENTED_FUNC);
    (instructionID.FCVTZS_single_32_fixed, UNIMPLEMENTED_FUNC);
    (instructionID.FCVTZU_single_32_fixed, UNIMPLEMENTED_FUNC);
    (instructionID.SCVTF_32_double_fixed, UNIMPLEMENTED_FUNC);
    (instructionID.UCVTF_32_double_fixed, UNIMPLEMENTED_FUNC);
    (instructionID.FCVTZS_double_32_fixed, UNIMPLEMENTED_FUNC);
    (instructionID.FCVTZU_double_32_fixed, UNIMPLEMENTED_FUNC);
    (instructionID.SCVTF_64_single_fixed, UNIMPLEMENTED_FUNC);
    (instructionID.UCVTF_64_single_fixed, UNIMPLEMENTED_FUNC);
    (instructionID.FCVTZS_single_64_fixed, UNIMPLEMENTED_FUNC);
    (instructionID.FCVTZU_single_64_fixed, UNIMPLEMENTED_FUNC);
    (instructionID.SCVTF_64_double_fixed, UNIMPLEMENTED_FUNC);
    (instructionID.UCVTF_64_double_fixed, UNIMPLEMENTED_FUNC);
    (instructionID.FCVTZS_double_64_fixed, UNIMPLEMENTED_FUNC);
    (instructionID.FCVTZU_double_64_fixed, UNIMPLEMENTED_FUNC);
    (instructionID.FCVTNS_single_32_int, pureHandler fcvtnsSingleTo32Int);
    (instructionID.FCVTNU_single_32_int, pureHandler fcvtnuSingleTo32Int);
    (instructionID.SCVTF_32_single_int, pureHandler scvtf32ToSingle);
    (instructionID.UCVTF_32_single_int, pureHandler ucvtf32ToSingle);
    (instructionID.FCVTAS_single_32_int, pureHandler fcvtasSingleTo32Int);
    (instructionID.FCVTAU_single_32_int, pureHandler fcvtauSingleTo32Int);
    (instructionID.FMOV_single_32, pureHandler fmovSingleTo32);
    (instructionID.FMOV_32_single, pureHandler fmov32ToSingle);
    (instructionID.FCVTPS_single_32_int, pureHandler fcvtpsSingleTo32Int);
    (instructionID.FCVTPU_single_32_int, pureHandler fcvtpuSingleTo32Int);
    (instructionID.FCVTMS_single_32_int, pureHandler fcvtmsSingleTo32Int);
    (instructionID.FCVTMU_single_32_int, pureHandler fcvtmuSingleTo32Int);
    (instructionID.FCVTZS_single_32_int, pureHandler fcvtzsSingleTo32Int);
    (instructionID.FCVTZU_single_32_int, pureHandler fcvtzuSingleTo32Int);
    (instructionID.FCVTNS_double_32_int, pureHandler fcvtnsDoubleTo32Int);
    (instructionID.FCVTNU_double_32_int, pureHandler fcvtnuDoubleTo32Int);
    (instructionID.SCVTF_32_double_int, pureHandler scvtf32ToDouble);
    (instructionID.UCVTF_32_double_int, pureHandler ucvtf32ToDouble);
    (instructionID.FCVTAS_double_32_int, pureHandler fcvtasDoubleTo32Int);
    (instructionID.FCVTAU_double_32_int, pureHandler fcvtauDoubleTo32Int);
    (instructionID.FCVTPS_double_32_int, pureHandler fcvtpsDoubleTo32Int);
    (instructionID.FCVTPU_double_32_int, pureHandler fcvtpuDoubleTo32Int);
    (instructionID.FCVTMS_double_32_int, pureHandler fcvtmsDoubleTo32Int);
    (instructionID.FCVTMU_double_32_int, pureHandler fcvtmuDoubleTo32Int);
    (instructionID.FCVTZS_double_32_int, pureHandler fcvtzsDoubleTo32Int);
    (instructionID.FCVTZU_double_32_int, pureHandler fcvtzuDoubleTo32Int);
    (instructionID.FCVTNS_single_64_int, pureHandler fcvtnsSingleTo64Int);
    (instructionID.FCVTNU_single_64_int, pureHandler fcvtnuSingleTo64Int);
    (instructionID.SCVTF_64_single_int, pureHandler scvtf64ToSingle);
    (instructionID.UCVTF_64_single_int, pureHandler ucvtf64ToSingle);
    (instructionID.FCVTAS_single_64_int, pureHandler fcvtasSingleTo64Int);
    (instructionID.FCVTAU_single_64_int, pureHandler fcvtauSingleTo64Int);
    (instructionID.FCVTPS_single_64_int, pureHandler fcvtpsSingleTo64Int);
    (instructionID.FCVTPU_single_64_int, pureHandler fcvtpuSingleTo64Int);
    (instructionID.FCVTMS_single_64_int, pureHandler fcvtmsSingleTo64Int);
    (instructionID.FCVTMU_single_64_int, pureHandler fcvtmuSingleTo64Int);
    (instructionID.FCVTZS_single_64_int, pureHandler fcvtzsSingleTo64Int);
    (instructionID.FCVTZU_single_64_int, pureHandler fcvtzuSingleTo64Int);
    (instructionID.FCVTNS_double_64_int, pureHandler fcvtnsDoubleTo64Int);
    (instructionID.FCVTNU_double_64_int, pureHandler fcvtnuDoubleTo64Int);
    (instructionID.SCVTF_64_double_int, pureHandler scvtf64ToDouble);
    (instructionID.UCVTF_64_double_int, pureHandler ucvtf64ToDouble);
    (instructionID.FCVTAS_double_64_int, pureHandler fcvtasDoubleTo64Int);
    (instructionID.FCVTAU_double_64_int, pureHandler fcvtauDoubleTo64Int);
    (instructionID.FMOV_double_64, pureHandler fmovDoubleto64);
    (instructionID.FMOV_64_double, pureHandler fmov64ToDouble);
    (instructionID.FCVTPS_double_64_int, pureHandler fcvtpsDoubleTo64Int);
    (instructionID.FCVTPU_double_64_int, pureHandler fcvtpuDoubleTo64Int);
    (instructionID.FCVTMS_double_64_int, pureHandler fcvtmsDoubleTo64Int);
    (instructionID.FCVTMU_double_64_int, pureHandler fcvtmuDoubleTo64Int);
    (instructionID.FCVTZS_double_64_int, pureHandler fcvtzsDoubleTo64Int);
    (instructionID.FCVTZU_double_64_int, pureHandler fcvtzuDoubleTo64Int);
    (instructionID.FMOV_top128_64, pureHandler fmovUpperTo64);
    (instructionID.FMOV_64_top128, pureHandler fmov64ToUpper);
    (instructionID.FMOV_reg_single, pureHandler fmovRegToSingle);
    (instructionID.FABS_single, pureHandler fabsSingle);
    (instructionID.FNEG_single, pureHandler fnegSingle);
    (instructionID.FSQRT_single, pureHandler fsqrtSingle);
    (instructionID.FCVT_single_double, pureHandler fcvtSingleToDouble);
    (instructionID.FCVT_single_half, pureHandler fcvtSingleToHalf);
    (instructionID.FRINTN_single, pureHandler frintnSingle);
    (instructionID.FRINTP_single, pureHandler frintpSingle);
    (instructionID.FRINTM_single, pureHandler frintmSingle);
    (instructionID.FRINTZ_single, pureHandler frintzSingle);
    (instructionID.FRINTA_single, pureHandler frintaSingle);
    (instructionID.FRINTX_single, pureHandler frintxSingle);
    (instructionID.FRINTI_single, pureHandler frintiSingle);
    (instructionID.FMOV_reg_double, pureHandler fmovRegToDouble);
    (instructionID.FABS_double, pureHandler fabsDouble);
    (instructionID.FNEG_double, pureHandler fnegDouble);
    (instructionID.FSQRT_double, pureHandler fsqrtDouble);
    (instructionID.FCVT_double_single, pureHandler fcvtDoubleToSingle);
    (instructionID.FCVT_double_half, pureHandler fcvtDoubleToHalf);
    (instructionID.FRINTN_double, pureHandler frintnDouble);
    (instructionID.FRINTP_double, pureHandler frintpDouble);
    (instructionID.FRINTM_double, pureHandler frintmDouble);
    (instructionID.FRINTZ_double, pureHandler frintzDouble);
    (instructionID.FRINTA_double, pureHandler frintaDouble);
    (instructionID.FRINTX_double, pureHandler frintxDouble);
    (instructionID.FRINTI_double, pureHandler frintiDouble);
    (instructionID.FCVT_half_single, pureHandler fcvtHalfToSingle);
    (instructionID.FCVT_half_double, pureHandler fcvtHalfToDouble);
    (instructionID.FCMP_single, pureHandler fcmpSingle);
    (instructionID.FCMP_single_zero, pureHandler fcmpZeroSingle);
    (instructionID.FCMPE_single, pureHandler fcmpeSingle);
    (instructionID.FCMPE_single_zero, pureHandler fcmpeZeroSingle);
    (instructionID.FCMP_double, pureHandler fcmpDouble);
    (instructionID.FCMP_double_zero, pureHandler fcmpZeroDouble);
    (instructionID.FCMPE_double, pureHandler fcmpeDouble);
    (instructionID.FCMPE_double_zero, pureHandler fcmpeZeroDouble);
    (instructionID.FMOV_imm_single, pureHandler fmovImmToSingle);
    (instructionID.FMOV_imm_double, pureHandler fmovImmToDouble);
    (instructionID.FCCMP_single, pureHandler fccmpSingle);
    (instructionID.FCCMPE_single, pureHandler fccmpeSingle);
    (instructionID.FCCMP_double, pureHandler fccmpDouble);
    (instructionID.FCCMPE_double, pureHandler fccmpeDouble);
    (instructionID.FMUL_single, pureHandler fmulSingle);
    (instructionID.FDIV_single, pureHandler fdivSingle);
    (instructionID.FADD_single, pureHandler faddSingle);
    (instructionID.FSUB_single, pureHandler fsubSingle);
    (instructionID.FMAX_single, pureHandler fmaxSingle);
    (instructionID.FMIN_single, pureHandler fminSingle);
    (instructionID.FMAXNM_single, pureHandler fmaxnmSingle);
    (instructionID.FMINNM_single, pureHandler fminnmSingle);
    (instructionID.FNMUL_single, pureHandler fnmulSingle);
    (instructionID.FMUL_double, pureHandler fmulDouble);
    (instructionID.FDIV_double, pureHandler fdivDouble);
    (instructionID.FADD_double, pureHandler faddDouble);
    (instructionID.FSUB_double, pureHandler fsubDouble);
    (instructionID.FMAX_double, pureHandler fmaxDouble);
    (instructionID.FMIN_double, pureHandler fminDouble);
    (instructionID.FMAXNM_double, pureHandler fmaxnmDouble);
    (instructionID.FMINNM_double, pureHandler fminnmDouble);
    (instructionID.FNMUL_double, pureHandler fnmulDouble);
    (instructionID.FCSEL_single, pureHandler fcselSingle);
    (instructionID.FCSEL_double, pureHandler fcselDouble);
    (instructionID.FMADD_single, pureHandler fmaddSingle);
    (instructionID.FMSUB_single, pureHandler fmsubSingle);
    (instructionID.FNMADD_single, pureHandler fnmaddSingle);
    (instructionID.FNMSUB_single, pureHandler fnmsubSingle);
    (instructionID.FMADD_double, pureHandler fmaddDouble);
    (instructionID.FMSUB_double, pureHandler fmsubDouble);
    (instructionID.FNMADD_double, pureHandler fnmaddDouble);
    (instructionID.FNMSUB_double, pureHandler fnmsubDouble) ].
End WithHost.
