(* ===== verification/InterpSIMD.v ===== *)
(** * SIMD: [libcpu/src/interpreter/simd.cpp]

    The arrays [B], [H], [S] and [D] of a [VReg] are its lanes of 8, 16, 32 and 64
    bits; the loops over lanes store into the destination one lane at a time, so a
    destination that is also a source is read back as it changes. *)
From Stdlib Require Import SpecFloat.
From S2P Require Import Prelude BitUtils Instructions Core InstUtils Machine Float InterpFloat.

Inductive ElementSize : Set := ELEM_SIZE_8 | ELEM_SIZE_16 | ELEM_SIZE_32 | ELEM_SIZE_64.

Definition replicate64 (imm : Z) (size : ElementSize) : Z :=
  match size with
  | ELEM_SIZE_8 => u64 (imm * 0x0101010101010101)
  | ELEM_SIZE_16 => u64 (imm * 0x0001000100010001)
  | ELEM_SIZE_32 => u64 (imm * 0x0000000100000001)
  | ELEM_SIZE_64 => imm
  end.

(** ** Lanes *)

Definition lanesPerD (esize : Z) : Z := 64 / esize.

(** Lane [i] of [esize] bits of register [r], and its assignment. *)
Definition getLane (esize : Z) (core : Core) (r i : Z) : Z :=
  let n := lanesPerD esize in
  if i <? n then bitField (i * esize) esize (getD0 core r)
  else bitField ((i - n) * esize) esize (getD1 core r).
Definition setLane (esize r i v : Z) (core : Core) : Core :=
  let n := lanesPerD esize in
  if i <? n then setD0 r (setBitField (i * esize) esize v (getD0 core r)) core
  else setD1 r (setBitField ((i - n) * esize) esize v (getD1 core r)) core.

(** [for (int i = 0; i < n; i++) body(i)] *)
Fixpoint forLanes (n : nat) (body : Z -> Core -> Core) (core : Core) : Core :=
  match n with
  | O => core
  | S n => body (Z.of_nat n) (forLanes n body core)
  end.

(** [size] of [dupGeneral] and [insGeneral]: the lowest bit set in the field. *)
Definition sizeOfImm5 (imm5 : Z) : Z :=
  if Z.land imm5 1 !=? 0 then 0
  else if Z.land imm5 2 !=? 0 then 1
  else if Z.land imm5 4 !=? 0 then 2
  else if Z.land imm5 8 !=? 0 then 3
  else 0.

(** [numElem] of the loops, from bit 30. *)
Definition numElements (inst esize : Z) : Z :=
  (if negb (testBit 30 inst) then 128 / 2 else 128) / esize.

Definition dupGeneral (core : Core) (inst : Z) : Core :=
  let size := sizeOfImm5 (Inst._16_20 inst) in
  let esize := Z.shiftl 8 size in
  let numElem := numElements inst esize in
  let data := getX core (Inst.Rn inst) in
  forLanes (Z.to_nat numElem)
    (fun i core => setLane esize (Inst.Rd inst) i (wrap esize data) core) core.

Definition insGeneral (core : Core) (inst : Z) : Core :=
  let size := sizeOfImm5 (Inst._16_20 inst) in
  let index := Z.shiftr (Inst._16_20 inst) (size + 1) in
  let data := getX core (Inst.Rn inst) in
  let esize := Z.shiftl 8 size in
  setLane esize (Inst.Rd inst) index (wrap esize data) core.

(** ** Immediates *)

(** The 8-bit immediate [abcdefgh] of the modified-immediate forms. *)
Definition simdImm8 (inst : Z) : Z :=
  Z.lor (bitRange 5 9 inst) (Z.shiftl (bitRange 16 18 inst) 5).

Definition fmovVectorImmSingle (core : Core) (inst : Z) : Core :=
  let imm8 := simdImm8 inst in
  let imm := Z.lor (Z.lor (if testBit 7 imm8 then 0x80000000 else 0)
                          (if testBit 6 imm8 then 0x3E000000 else 0x40000000))
                   (Z.shiftl (bitRange 0 5 imm8) 19) in
  let rd := Inst.Rd inst in
  let core := setLane 32 rd 0 imm core in
  let core := setLane 32 rd 1 imm core in
  if testBit 30 inst then setLane 32 rd 3 imm (setLane 32 rd 2 imm core)
  else setLane 32 rd 3 0 (setLane 32 rd 2 0 core).

(** [enum MoviFlags] *)
Definition MoviShifted : Z := Z.shiftl 1 0.
Definition MoviShiftingOnes : Z := Z.shiftl 1 1.

(** The expansion of the immediate, before [replicate64]. *)
Definition moviImm (size : ElementSize) (flags inst : Z) : Z :=
  let imm := simdImm8 inst in
  if has flags MoviShifted then
    u64 (Z.shiftl imm (bitRange 13 14 inst * 8))
  else if has flags MoviShiftingOnes then
    let shift := bitRange 12 12 inst in
    Z.lor (u64 (Z.shiftl imm ((shift + 1) * 8))) (bitmask ((shift + 1) * 8))
  else
    match size with
    | ELEM_SIZE_64 =>
        let byte i mask := if testBit i imm then mask else 0 in
        Z.lor (Z.lor (Z.lor (Z.lor (Z.lor (Z.lor (Z.lor
          (byte 0 0x00000000000000FF) (byte 1 0x000000000000FF00))
          (byte 2 0x0000000000FF0000)) (byte 3 0x00000000FF000000))
          (byte 4 0x000000FF00000000)) (byte 5 0x0000FF0000000000))
          (byte 6 0x00FF000000000000)) (byte 7 0xFF00000000000000)
    | _ => imm
    end.

Definition moviGeneral (size : ElementSize) (flags : Z) (core : Core) (inst : Z) : Core :=
  let imm := replicate64 (moviImm size flags inst) size in
  if testBit 30 inst then setD1 (Inst.Rd inst) imm (setD0 (Inst.Rd inst) imm core)
  else setD1 (Inst.Rd inst) 0 (setD0 (Inst.Rd inst) imm core).

(** ** Register operations *)

Definition orrRegisterVector (core : Core) (inst : Z) : Core :=
  let rd := Inst.Rd inst in
  let core := setD0 rd (Z.lor (getD0 core (Inst.Rn inst)) (getD0 core (Inst.Rm inst))) core in
  if testBit 30 inst
  then setD1 rd (Z.lor (getD1 core (Inst.Rn inst)) (getD1 core (Inst.Rm inst))) core
  else setD1 rd 0 core.

(** The casts of an integer to [double] and to [float]. *)
Definition castToFloat (f : floatFormat) (v : Z) : Z := bitsOf f (roundTo f v 0).

Definition ucvtfScalarInt (core : Core) (inst : Z) : Core :=
  if testBit 22 inst then
    setReg doubleFloat (Inst.Rd inst)
      (castToFloat doubleFloat (getD0 core (Inst.Rn inst))) core
  else
    setReg singleFloat (Inst.Rd inst)
      (castToFloat singleFloat (getLane 32 core (Inst.Rn inst) 0)) core.

Definition scvtfScalarInt (core : Core) (inst : Z) : Core :=
  if testBit 22 inst then
    setReg doubleFloat (Inst.Rd inst)
      (castToFloat doubleFloat (to_signed 64 (getD0 core (Inst.Rn inst)))) core
  else
    setReg singleFloat (Inst.Rd inst)
      (castToFloat singleFloat (to_signed 32 (getLane 32 core (Inst.Rn inst) 0))) core.

(** Loop bodies that combine lane [i] of the two sources. *)
Definition laneWise (esize inst : Z) (op : Z -> Z -> Z) (core : Core) : Core :=
  forLanes (Z.to_nat (numElements inst esize))
    (fun i core =>
       setLane esize (Inst.Rd inst) i
         (wrap esize (op (getLane esize core (Inst.Rn inst) i)
                         (getLane esize core (Inst.Rm inst) i))) core) core.

Definition addVector (core : Core) (inst : Z) : Core :=
  laneWise (Z.shiftl 8 (Inst._22_23 inst)) inst Z.add core.

Definition andVector (core : Core) (inst : Z) : Core :=
  let rd := Inst.Rd inst in
  let core := setD0 rd (Z.land (getD0 core (Inst.Rn inst)) (getD0 core (Inst.Rm inst))) core in
  if testBit 30 inst
  then setD1 rd (Z.land (getD1 core (Inst.Rn inst)) (getD1 core (Inst.Rm inst))) core
  else core.

Definition cmeqVecGeneric (isZero : bool) (core : Core) (inst : Z) : Core :=
  let esize := Z.shiftl 8 (Inst._22_23 inst) in
  laneWise esize inst
    (fun x y => if x =? (if isZero then 0 else y) then bitmask esize else 0) core.

Definition addpVec (core : Core) (inst : Z) : Core :=
  let esize := Z.shiftl 8 (Inst._22_23 inst) in
  let numElem := numElements inst esize in
  let rd := Inst.Rd inst in
  let pair core r i :=
    wrap esize (getLane esize core r (2 * i) + getLane esize core r (2 * i + 1)) in
  forLanes (Z.to_nat (numElem / 2))
    (fun i core =>
       let core := setLane esize rd i (pair core (Inst.Rn inst) i) core in
       setLane esize rd (i + numElem / 2) (pair core (Inst.Rm inst) i) core) core.

Section WithTarget.
Context `{ShiftTarget}.

Definition movGeneral (is64 isSigned : bool) (core : Core) (inst : Z) : Core :=
  let rn := Inst.Rn inst in
  let '(size, data) :=
    if testBit 16 inst then (8, getLane 8 core rn (bitRange 17 20 inst))
    else if testBit 17 inst then (16, getLane 16 core rn (bitRange 18 20 inst))
    else if testBit 18 inst then (32, getLane 32 core rn (bitRange 19 20 inst))
    else (64, getLane 64 core rn (bitRange 20 20 inst)) in
  let data := if isSigned then signExtend_rt data size else data in
  let data := if is64 then data else Z.land data (bitmask 32) in
  setX (Inst.Rd inst) data core.
(** ** The instantiations *)

Definition movi8 : Core -> Z -> Core := moviGeneral ELEM_SIZE_8 0.
Definition movi16ShiftedImm : Core -> Z -> Core := moviGeneral ELEM_SIZE_16 MoviShifted.
Definition movi32ShiftedImm : Core -> Z -> Core := moviGeneral ELEM_SIZE_32 MoviShifted.
Definition movi32ShiftingOnes : Core -> Z -> Core :=
  moviGeneral ELEM_SIZE_32 MoviShiftingOnes.
Definition movi64Scalar : Core -> Z -> Core := moviGeneral ELEM_SIZE_64 0.
Definition movi64Vector : Core -> Z -> Core := moviGeneral ELEM_SIZE_64 0.
Definition umov32 : Core -> Z -> Core := movGeneral false false.
Definition umov64 : Core -> Z -> Core := movGeneral true false.
Definition smov32 : Core -> Z -> Core := movGeneral false true.
Definition smov64 : Core -> Z -> Core := movGeneral true true.
Definition cmeqVecReg : Core -> Z -> Core := cmeqVecGeneric false.
Definition cmeqVecZero : Core -> Z -> Core := cmeqVecGeneric true.

(** ** Registration *)

Context {Mem : Type}.

Definition registerSIMDInstructions : registrations Mem :=
  [ (instructionID.DUP_general, pureHandler dupGeneral);
    (instructionID.INS_general, pureHandler insGeneral);
    (instructionID.MOVI_8_imm, pureHandler movi8);
    (instructionID.MOVI_16_shifted_imm, pureHandler movi16ShiftedImm);
    (instructionID.MOVI_32_shifted_imm, pureHandler movi32ShiftedImm);
    (instructionID.MOVI_32_shifting_ones, pureHandler movi32ShiftingOnes);
    (instructionID.MOVI_64_scalar, pureHandler movi64Scalar);
    (instructionID.MOVI_64_vec, pureHandler movi64Vector);
    (instructionID.FMOV_vec_imm_single, pureHandler fmovVectorImmSingle);
    (instructionID.ORR_vec_reg, pureHandler orrRegisterVector);
    (instructionID.UCVTF_scalar_int, pureHandler ucvtfScalarInt);
    (instructionID.SCVTF_scalar_int, pureHandler scvtfScalarInt);
    (instructionID.UMOV_32, pureHandler umov32);
    (instructionID.UMOV_64, pureHandler umov64);
    (instructionID.SMOV_32, pureHandler smov32);
    (instructionID.SMOV_64, pureHandler smov64);
    (instructionID.ADD_vec, pureHandler addVector);
    (instructionID.AND_vec, pureHandler andVector);
    (instructionID.CMEQ_vec_reg, pureHandler cmeqVecReg);
    (instructionID.CMEQ_vec_zero, pureHandler cmeqVecZero);
    (instructionID.ADDP_vec, pureHandler addpVec) ].
End WithTarget.
