(* ===== verification/Interp.v ===== *)
(** * The interpreter loop: [libcpu/src/interpreter/interpreter.cpp]

    The handler table and [step]. *)
From S2P Require Import Prelude BitUtils Instructions DecodeSystem Decode Core InstUtils.
From S2P Require Import Machine InterpBranch InterpDPImm InterpDPReg InterpLoadStore Float InterpFloat InterpSIMD.

Section Interpreter.
Context {Mem : Type} `{GuestMemory Mem} `{CpuHooks Mem}.
Context `{ShiftTarget} `{HostFloat}.

Definition invalidInstructionHandler : interptfptr_t Mem := fun _ => gIllInstHandler.

(** The calls of [init], in order. *)
Definition init_registrations : registrations Mem :=
  registerBranchInstructions ++ registerSystemInstructions ++
  registerDPImmInstructions ++ registerDPRegInstructions ++
  registerFloatInstructions ++ registerLoadStoreInstructions ++
  registerSIMDInstructions ++
  [(instructionID.INVALID, invalidInstructionHandler)].

(** [gInstructionMap] after [init]: filled with [UNIMPLEMENTED_FUNC], then one
    assignment per registration, so the last one of an instruction stays. *)
Definition lookup_handler (regs : registrations Mem) (id : instructionID.t)
    : interptfptr_t Mem :=
  fold_left (fun f r => if instructionID.eqb (fst r) id then snd r else f)
    regs UNIMPLEMENTED_FUNC.

Definition getInstructionFunc (id : instructionID.t) : interptfptr_t Mem :=
  lookup_handler init_registrations id.

(** The part of [step] after the handler returned. *)
Definition finishStep (c : Core) : Core :=
  let c := setX 31 0 c in
  let c := if PC c =? nextPC c then sendInterrupts DEBUG_BREAK_INTERRUPT c else c in
  let c := set_PC (nextPC c) c in
  set_numInsts (u64 (numInsts c + 1)) c.

Definition step : M Mem unit :=
  core ← getCore;
  bits ← mem_fetch (PC core);
  (onCore (fun c => set_nextPC (u64 (PC c + 4)) c) : M Mem unit);;
  let inst := decode bits in
  (getInstructionFunc (id inst) (DecodeSystem.inst inst) : M Mem unit);;
  (onCore finishStep : M Mem unit).
End Interpreter.
