(* ===== verification/InterpWf.v ===== *)
(** * Instruction handlers keep the core well formed

    Every member of the core holds a value of its C++ type after every handler, on
    every instruction word and whatever the operands: first the floating-point and SIMD
    handlers, then the others; [step_wf] lifts this to [step]. *)
From Stdlib Require Import SpecFloat.
From S2P Require Import Prelude BitUtils Instructions DecodeSystem Decode Core InstUtils Machine Float.
From S2P Require Import InterpBranch InterpDPImm InterpDPReg InterpLoadStore InterpFloat InterpSIMD Interp.

(** ** Bit-fields *)

Lemma bitField_uint lo n b : 0 <= n -> uint n (bitField lo n b).
Proof. intros Hn. by apply wrap_uint. Qed.

Lemma testbit_setBitField lo n v b i :
  0 <= lo -> 0 <= n -> 0 <= i ->
  Z.testbit (setBitField lo n v b) i =
    if (lo <=? i) && (i <? lo + n) then Z.testbit v (i - lo) else Z.testbit b i.
Proof.
  intros Hlo Hn Hi. unfold setBitField.
  repeat (autorewrite with testbit; decide_ltb); simpl;
    by rewrite ?andb_true_r, ?andb_false_r, ?orb_false_r.
Qed.

Lemma setBitField_uint lo n v b w :
  0 <= lo -> 0 <= n -> lo + n <= w -> uint w b -> uint w (setBitField lo n v b).
Proof.
  intros Hlo Hn Hw Hb. apply uint_bits; [lia| |].
  - unfold setBitField. apply Z.lor_nonneg. split.
    + apply Z.ldiff_nonneg. left. apply Hb.
    + apply Z.shiftl_nonneg. apply wrap_uint. lia.
  - intros i Hi. rewrite testbit_setBitField by lia. decide_ltb; simpl; use_uint; done.
Qed.

(** The C++ rule of a bit-field: a read gives back the bits just written, and the
    other members keep theirs. *)
Lemma bitField_setBitField lo n v b :
  0 <= lo -> 0 <= n -> bitField lo n (setBitField lo n v b) = wrap n v.
Proof.
  intros Hlo Hn. unfold bitField. apply Z.bits_inj'. intros i Hi.
  rewrite !testbit_wrap, Z.shiftr_spec, testbit_setBitField by lia.
  destruct (Z.ltb_spec i n); simpl; [|done]. decide_ltb. simpl. f_equal. lia.
Qed.

Lemma bitField_setBitField_ne lo n lo' n' v b :
  0 <= lo -> 0 <= n -> 0 <= lo' -> 0 <= n' -> lo + n <= lo' \/ lo' + n' <= lo ->
  bitField lo n (setBitField lo' n' v b) = bitField lo n b.
Proof.
  intros Hlo Hn Hlo' Hn' Hd. unfold bitField. apply Z.bits_inj'. intros i Hi.
  rewrite !testbit_wrap, !Z.shiftr_spec, testbit_setBitField by lia.
  destruct (Z.ltb_spec i n); simpl; [|done]. decide_ltb; simpl; try done; lia.
Qed.

#[export] Hint Resolve bitField_uint : emu.

(** ** Registers and lanes *)

Lemma floatWidth_bounds f : 0 < floatWidth f <= 64.
Proof. destruct f; simpl; lia. Qed.

Lemma getD0_wf c r : wf_Core c -> uint 64 (getD0 c r).
Proof. intros Hc. apply (getV_wf c r Hc). Qed.
Lemma getD1_wf c r : wf_Core c -> uint 64 (getD1 c r).
Proof. intros Hc. apply (getV_wf c r Hc). Qed.

Lemma getReg_uint f c r : uint 64 (getReg f c r).
Proof.
  pose proof (floatWidth_bounds f). unfold getReg.
  apply uint_le with (floatWidth f); [apply bitField_uint|]; lia.
Qed.

Lemma setReg_wf f r v c : wf_Core c -> wf_Core (setReg f r v c).
Proof.
  intros Hc. pose proof (floatWidth_bounds f). apply wf_setD0; [done|].
  apply setBitField_uint; [lia..|]. by apply getD0_wf.
Qed.

(** A lane number of a 128-bit register. *)
Definition lane_size (esize : Z) : Prop :=
  esize = 8 \/ esize = 16 \/ esize = 32 \/ esize = 64.
Definition lane (esize i : Z) : Prop := lane_size esize /\ 0 <= i < 128 / esize.

Lemma setLane_wf esize r i v c :
  lane esize i -> wf_Core c -> wf_Core (setLane esize r i v c).
Proof.
  intros [He Hi] Hc. unfold setLane, lanesPerD.
  assert (64 / esize * esize = 64 /\ 128 / esize = 2 * (64 / esize) /\ 0 < esize)
    as (H64 & H128 & H0) by (destruct He as [->|[->|[->| ->]]]; by vm_compute).
  destruct (Z.ltb_spec i (64 / esize)).
  - apply wf_setD0; [done|]. apply setBitField_uint; [nia|lia|nia|]. by apply getD0_wf.
  - apply wf_setD1; [done|]. apply setBitField_uint; [nia|lia|nia|]. by apply getD1_wf.
Qed.

Lemma getLane_uint esize c r i : lane_size esize -> uint esize (getLane esize c r i).
Proof.
  intros He. unfold getLane. assert (0 <= esize) by (destruct He as [->|[->|[->| ->]]]; lia).
  destruct (_ <? _); by apply bitField_uint.
Qed.

Lemma forLanes_inv (P : Core -> Prop) n body c :
  P c -> (forall i c, 0 <= i < Z.of_nat n -> P c -> P (body i c)) -> P (forLanes n body c).
Proof.
  intros Hc. induction n as [|n IH]; intros Hb; simpl; [done|].
  apply Hb; [lia|]. apply IH. intros i c' Hi. apply Hb. lia.
Qed.

Lemma bitRange_bound a b bits n :
  0 <= a <= b -> 2 ^ (b - a + 1) = n -> 0 <= bitRange a b bits < n.
Proof. intros Hab <-. apply bitRange_uint. lia. Qed.

Lemma size_cases inst : lane_size (Z.shiftl 8 (Inst._22_23 inst)).
Proof.
  pose proof (bitRange_bound 22 23 inst 4 ltac:(lia) eq_refl) as H.
  unfold Inst._22_23. set (s := bitRange 22 23 inst) in *.
  assert (s = 0 \/ s = 1 \/ s = 2 \/ s = 3) as [->|[->|[->| ->]]] by lia;
    vm_compute; auto.
Qed.

Lemma sizeOfImm5_cases imm5 : lane_size (Z.shiftl 8 (sizeOfImm5 imm5)).
Proof.
  unfold sizeOfImm5. repeat destruct (negb _); vm_compute; auto.
Qed.

Lemma numElements_bound inst esize :
  lane_size esize -> 0 <= numElements inst esize <= 128 / esize.
Proof.
  intros He. unfold numElements.
  destruct He as [->|[->|[->| ->]]]; destruct (negb _); by vm_compute.
Qed.

#[export] Hint Resolve getD0_wf getD1_wf getReg_uint setReg_wf : emu.

(** ** The handlers *)

(** [fp_wf]: a handler that ends in a store to one register view. *)
Ltac fp_wf := intros c inst Hc; cbv zeta; repeat case_match; auto with emu.

Lemma floatMoveGeneric_wf flags : pure_wf (floatMoveGeneric flags).
Proof. unfold floatMoveGeneric. fp_wf. Qed.
Lemma fmovImmToSingle_wf : pure_wf fmovImmToSingle.
Proof. unfold fmovImmToSingle. fp_wf. Qed.
Lemma fmovImmToDouble_wf : pure_wf fmovImmToDouble.
Proof. unfold fmovImmToDouble. fp_wf. Qed.
Lemma floatRoundGeneric_wf flags mode : pure_wf (floatRoundGeneric flags mode).
Proof. unfold floatRoundGeneric. fp_wf. Qed.
Lemma floatConvertGeneric_wf flags : pure_wf (floatConvertGeneric flags).
Proof. unfold floatConvertGeneric. fp_wf. Qed.
Lemma floatCondSelectGeneric_wf flags : pure_wf (floatCondSelectGeneric flags).
Proof. unfold floatCondSelectGeneric. fp_wf. Qed.
Lemma floatCompareGeneric_wf flags : pure_wf (floatCompareGeneric flags).
Proof. unfold floatCompareGeneric. fp_wf. Qed.
Lemma floatConvIntToFloatGeneric_wf flags : pure_wf (floatConvIntToFloatGeneric flags).
Proof. unfold floatConvIntToFloatGeneric. fp_wf. Qed.
Lemma floatIntMovGeneric_wf flags : pure_wf (floatIntMovGeneric flags).
Proof. unfold floatIntMovGeneric. fp_wf; apply wf_setX || apply wf_setD1; auto with emu. Qed.

Section HostHandlers.
Context `{HostFloat}.

Lemma castToInt_uint s bits x : uint 64 (castToInt s bits x).
Proof. unfold castToInt. repeat case_match; auto with emu; unfold uint; lia. Qed.

Lemma floatSqrtGeneric_wf flags : pure_wf (floatSqrtGeneric flags).
Proof. unfold floatSqrtGeneric. intros c inst Hc. auto with emu. Qed.
Lemma floatMulGeneric_wf flags : pure_wf (floatMulGeneric flags).
Proof. unfold floatMulGeneric. intros c inst Hc. auto with emu. Qed.
Lemma floatDivGeneric_wf flags : pure_wf (floatDivGeneric flags).
Proof. unfold floatDivGeneric. intros c inst Hc. auto with emu. Qed.
Lemma floatMaxGeneric_wf flags : pure_wf (floatMaxGeneric flags).
Proof. unfold floatMaxGeneric. intros c inst Hc. case_match. auto with emu. Qed.
Lemma floatMinGeneric_wf flags : pure_wf (floatMinGeneric flags).
Proof. unfold floatMinGeneric. intros c inst Hc. case_match. auto with emu. Qed.
Lemma floatAddGeneric_wf flags : pure_wf (floatAddGeneric flags).
Proof. unfold floatAddGeneric. intros c inst Hc. auto with emu. Qed.
Lemma floatSubGeneric_wf flags : pure_wf (floatSubGeneric flags).
Proof. unfold floatSubGeneric. intros c inst Hc. auto with emu. Qed.
Lemma floatMulAddGeneric_wf flags : pure_wf (floatMulAddGeneric flags).
Proof. unfold floatMulAddGeneric. intros c inst Hc. cbv zeta. auto with emu. Qed.
Lemma floatConvertToIntGeneric_wf flags mode : pure_wf (floatConvertToIntGeneric flags mode).
Proof.
  unfold floatConvertToIntGeneric. intros c inst Hc. cbv zeta.
  apply wf_setX; [done|]. apply castToInt_uint.
Qed.
End HostHandlers.

(** *** SIMD *)

Lemma laneWise_wf esize inst op c :
  lane_size esize -> wf_Core c -> wf_Core (laneWise esize inst op c).
Proof.
  intros He Hc. unfold laneWise. apply (forLanes_inv wf_Core); [done|]. intros i c' Hi Hc'.
  apply setLane_wf; [|done]. split; [done|].
  pose proof (numElements_bound inst esize He). lia.
Qed.

Lemma dupGeneral_wf : pure_wf dupGeneral.
Proof.
  intros c inst Hc. pose proof (sizeOfImm5_cases (Inst._16_20 inst)) as He.
  unfold dupGeneral. cbv zeta. apply (forLanes_inv wf_Core); [done|].
  intros i c' Hi Hc'. apply setLane_wf; [|done].
  split; [done|]. pose proof (numElements_bound inst _ He). lia.
Qed.

Lemma div_bound v d n : 0 <= v < 32 -> 0 < d -> 32 <= d * n -> 0 <= v / d < n.
Proof.
  intros Hv Hd Hn. split; [apply Z.div_pos; lia|apply Z.div_lt_upper_bound; lia].
Qed.

Lemma insGeneral_wf : pure_wf insGeneral.
Proof.
  intros c inst Hc. unfold insGeneral. cbv zeta. apply setLane_wf; [|done].
  split; [apply sizeOfImm5_cases|].
  pose proof (bitRange_bound 16 20 inst 32 ltac:(lia) eq_refl) as Hi.
  unfold Inst._16_20. set (v := bitRange 16 20 inst) in *.
  rewrite Z.shiftr_div_pow2 by (unfold sizeOfImm5; repeat destruct (negb _); lia).
  unfold sizeOfImm5. apply div_bound; [done|..];
    repeat destruct (negb _); vm_compute; congruence.
Qed.

Lemma fmovVectorImmSingle_wf : pure_wf fmovVectorImmSingle.
Proof.
  intros c inst Hc. unfold fmovVectorImmSingle. cbv zeta.
  assert (forall i, 0 <= i < 4 -> lane 32 i) as Hl
    by (intros i Hi; split; [unfold lane_size; lia|done]).
  case_match; repeat (apply setLane_wf; [apply Hl; lia|]); done.
Qed.

Lemma orrRegisterVector_wf : pure_wf orrRegisterVector.
Proof. unfold orrRegisterVector. intros c inst Hc. cbv zeta. case_match; auto 10 with emu. Qed.
Lemma andVector_wf : pure_wf andVector.
Proof. unfold andVector. intros c inst Hc. cbv zeta. case_match; auto 10 with emu. Qed.
Lemma ucvtfScalarInt_wf : pure_wf ucvtfScalarInt.
Proof. unfold ucvtfScalarInt. fp_wf. Qed.
Lemma scvtfScalarInt_wf : pure_wf scvtfScalarInt.
Proof. unfold scvtfScalarInt. fp_wf. Qed.
Lemma addVector_wf : pure_wf addVector.
Proof. intros c inst. apply laneWise_wf, size_cases. Qed.
Lemma cmeqVecGeneric_wf z : pure_wf (cmeqVecGeneric z).
Proof. intros c inst. apply laneWise_wf, size_cases. Qed.

Lemma addpVec_wf : pure_wf addpVec.
Proof.
  intros c inst Hc. unfold addpVec. cbv zeta. set (esize := Z.shiftl 8 _).
  assert (lane_size esize) as He by apply size_cases.
  pose proof (numElements_bound inst esize He) as Hn.
  set (n := numElements inst esize) in *.
  assert (0 <= n / 2 /\ 2 * (n / 2) <= n) as Hh by (split; [apply Z.div_pos; lia|apply Z.mul_div_le; lia]).
  apply (forLanes_inv wf_Core); [done|]. intros i c' Hi Hc'.
  repeat (apply setLane_wf; [split; [done|lia]|]). done.
Qed.

Lemma replicate64_uint imm size : uint 64 imm -> uint 64 (replicate64 imm size).
Proof. destruct size; simpl; auto with emu. Qed.

Lemma simdImm8_uint inst : uint 64 (simdImm8 inst).
Proof.
  pose proof (bitRange_bound 5 9 inst 32 ltac:(lia) eq_refl).
  pose proof (bitRange_bound 16 18 inst 8 ltac:(lia) eq_refl).
  unfold simdImm8. apply uint_lor; [lia|unfold uint; lia|].
  rewrite Z.shiftl_mul_pow2 by lia. unfold uint. lia.
Qed.

Lemma moviImm_uint size flags inst : uint 64 (moviImm size flags inst).
Proof.
  unfold moviImm. cbv zeta. case_match; [auto with emu|]. case_match.
  - pose proof (bitRange_bound 12 12 inst 2 ltac:(lia) eq_refl) as Hs.
    set (s := bitRange 12 12 inst) in *. apply uint_lor; [lia|auto with emu|].
    assert (s = 0 \/ s = 1) as [->| ->] by lia; by vm_compute.
  - destruct size; try apply simdImm8_uint.
    repeat (apply uint_lor; [lia| |]); apply uint_if; unfold uint; lia.
Qed.

Lemma moviGeneral_wf size flags : pure_wf (moviGeneral size flags).
Proof.
  intros c inst Hc. unfold moviGeneral. cbv zeta.
  pose proof (replicate64_uint _ size (moviImm_uint size flags inst)).
  case_match; auto 10 with emu.
Qed.

Lemma movGeneral_wf `{ShiftTarget} is64 isSigned : pure_wf (movGeneral is64 isSigned).
Proof.
  intros c inst Hc. unfold movGeneral. cbv zeta. case_match eqn:E.
  assert (uint 64 z0) as Hd.
  { assert (forall e i, lane_size e -> e <= 64 -> uint 64 (getLane e c (Inst.Rn inst) i)) as Hl.
    { intros e i He Hle. apply uint_le with e; [by apply getLane_uint|].
      destruct He as [->|[->|[->| ->]]]; lia. }
    repeat case_match; injection E as <- <-; apply Hl; unfold lane_size; lia. }
  apply wf_setX; [done|].
  destruct isSigned, is64; auto 10 with emu.
Qed.

(** [wf_tac]: unfold a handler, split its tests, and close with the setters' lemmas. *)
Ltac wf_step :=
  match goal with
  | |- wf_Core (if ?b then _ else _) => destruct b
  | |- wf_Core (let '(_, _) := addWithCarry ?a ?u ?x ?y ?k ?s in _) =>
      pose proof (addWithCarry_uint a u x y k s);
      destruct (addWithCarry a u x y k s); cbn [fst] in *
  | |- wf_Core (let '(_, _) := (if ?b then _ else _) in _) => destruct b
  | |- wf_Core (let '(_, _) := extendOption _ in _) => destruct (extendOption _)
  | |- wf_Core (let '(_, _) := (_, _) in _) => cbn iota
  end.
Ltac wf_tac := intros c inst Hc; cbv zeta; repeat wf_step; auto 40 with emu.

Lemma swapLine_uint n hi lo op :
  0 <= n -> uint 64 hi -> uint 64 lo -> uint 64 op -> uint 64 (swapLine n hi lo op).
Proof.
  intros Hn Hh Hl Ho. unfold swapLine. apply uint_lor; [lia|auto with emu|].
  apply uint_land_both; [lia| |done]. by apply uint_shiftr.
Qed.

Lemma countLoop_bounds `{ShiftTarget} fuel set op index res :
  0 <= res -> res <= countLoop fuel set op index res <= res + Z.of_nat fuel.
Proof.
  revert index res. induction fuel as [|fuel IH]; intros index res Hr; simpl; [lia|].
  destruct (_ && _); [|lia]. specialize (IH (index - 1) (res + 1)). lia.
Qed.

Lemma countLoop_uint `{ShiftTarget} set op index :
  uint 64 (countLoop 65 set op index 0).
Proof.
  pose proof (countLoop_bounds 65 set op index 0). unfold uint. lia.
Qed.

Lemma uint_div (a b : Z) : uint 64 a -> uint 64 b -> uint 64 (a / b).
Proof.
  unfold uint. intros Ha Hb. destruct (Z.eq_dec b 0) as [->|]; [rewrite Z.div_0_r; lia|].
  split; [apply Z.div_pos; lia|]. apply Z.div_lt_upper_bound; nia.
Qed.

Lemma wf_if (b : bool) (x y : Core) : wf_Core x -> wf_Core y -> wf_Core (if b then x else y).
Proof. by destruct b. Qed.

#[export] Hint Resolve swapLine_uint countLoop_uint uint_div wf_if : emu.

Lemma condBranch_wf : pure_wf condBranch.
Proof. unfold condBranch. wf_tac. Qed.
Lemma uncondBranchRegGeneric_wf l : pure_wf (uncondBranchRegGeneric l).
Proof. unfold uncondBranchRegGeneric. destruct l; wf_tac. Qed.
Lemma uncondBranchImmGeneric_wf l : pure_wf (uncondBranchImmGeneric l).
Proof. unfold uncondBranchImmGeneric. destruct l; wf_tac. Qed.
Lemma compareBranchGeneric_wf a b : pure_wf (compareBranchGeneric a b).
Proof. unfold compareBranchGeneric. wf_tac. Qed.
Lemma addSubImmGeneric_wf a b u : pure_wf (addSubImmGeneric a b u).
Proof. unfold addSubImmGeneric. wf_tac. Qed.
Lemma moveWideImmGeneric_wf a : pure_wf (moveWideImmGeneric a).
Proof. unfold moveWideImmGeneric. wf_tac. Qed.
Lemma PCRelativeGeneric_wf a : pure_wf (PCRelativeGeneric a).
Proof. unfold PCRelativeGeneric. wf_tac. Qed.
Lemma bitfieldMoveGeneric_wf `{ShiftTarget} a b d : pure_wf (bitfieldMoveGeneric a b d).
Proof. unfold bitfieldMoveGeneric. wf_tac. Qed.
Lemma extractGeneric_wf `{ShiftTarget} a : pure_wf (extractGeneric a).
Proof. unfold extractGeneric. wf_tac. Qed.
Lemma addSubShiftedRegGeneric_wf `{ShiftTarget} a b d : pure_wf (addSubShiftedRegGeneric a b d).
Proof. unfold addSubShiftedRegGeneric. wf_tac. Qed.
Lemma addSubExtendedRegGeneric_wf `{ShiftTarget} a b d : pure_wf (addSubExtendedRegGeneric a b d).
Proof. unfold addSubExtendedRegGeneric. wf_tac. Qed.
Lemma addSubCarryGeneric_wf a b d : pure_wf (addSubCarryGeneric a b d).
Proof. unfold addSubCarryGeneric. wf_tac. Qed.
Lemma reverseBits_wf a : pure_wf (reverseBits a).
Proof. unfold reverseBits. wf_tac. Qed.
Lemma reverseBytes_wf a : pure_wf (reverseBytes a).
Proof. unfold reverseBytes. wf_tac. Qed.
Lemma reverse16_wf a : pure_wf (reverse16 a).
Proof. unfold reverse16. wf_tac. Qed.
Lemma reverse32_wf : pure_wf reverse32.
Proof. unfold reverse32. wf_tac. Qed.
Lemma unsignedDivide_wf a : pure_wf (unsignedDivide a).
Proof. unfold unsignedDivide. wf_tac. Qed.
Lemma signedDivide_wf a : pure_wf (signedDivide a).
Proof. unfold signedDivide. wf_tac. Qed.
Lemma shiftGeneric_wf `{ShiftTarget} a : pure_wf (shiftGeneric a).
Proof. unfold shiftGeneric. wf_tac. Qed.
Lemma multiply_wf a b : pure_wf (multiply a b).
Proof. unfold multiply. wf_tac. Qed.
Lemma uMultiplyLong_wf a : pure_wf (uMultiplyLong a).
Proof. unfold uMultiplyLong. wf_tac. Qed.
Lemma sMultiplyLong_wf a : pure_wf (sMultiplyLong a).
Proof. unfold sMultiplyLong. wf_tac. Qed.
Lemma mulhGeneric_wf a : pure_wf (mulhGeneric a).
Proof. unfold mulhGeneric. wf_tac. Qed.
Lemma condCompareRegGeneric_wf a b : pure_wf (condCompareRegGeneric a b).
Proof. unfold condCompareRegGeneric. wf_tac. Qed.
Lemma condCompareImmGeneric_wf a b : pure_wf (condCompareImmGeneric a b).
Proof. unfold condCompareImmGeneric. wf_tac. Qed.
Lemma condSelGeneric_wf a b d : pure_wf (condSelGeneric a b d).
Proof. unfold condSelGeneric. wf_tac. Qed.
Lemma testBitBranchGeneric_wf `{ShiftTarget} a : pure_wf (testBitBranchGeneric a).
Proof. unfold testBitBranchGeneric. wf_tac. Qed.
Lemma countLeadingClearBits_wf `{ShiftTarget} a : pure_wf (countLeadingClearBits a).
Proof. unfold countLeadingClearBits. wf_tac. Qed.
Lemma countLeadingSetBits_wf `{ShiftTarget} a : pure_wf (countLeadingSetBits a).
Proof. unfold countLeadingSetBits. wf_tac. Qed.
Lemma logicalGeneric_wf `{ShiftTarget} a b func :
  (forall x y, uint 64 x -> uint 64 y -> uint 64 (func x y)) ->
  pure_wf (fun c inst => logicalGeneric a b c inst func).
Proof. intros Hf. unfold logicalGeneric. wf_tac. Qed.
Lemma logicalShiftedRegGeneric_wf `{ShiftTarget} a b d func :
  (forall x y, uint 64 x -> uint 64 y -> uint 64 (func x y)) ->
  pure_wf (fun c inst => logicalShiftedRegGeneric a b d c inst func).
Proof. intros Hf. unfold logicalShiftedRegGeneric. wf_tac. Qed.

(** ** Machine steps *)

Section Safe.
Context {Mem : Type} `{GuestMemoryLaws Mem}.

(** Every part of the machine holds values of its types. *)
Definition good (s : Machine Mem) : Prop :=
  wf_Core (s.(core)) /\ mem_typed (s.(memory)) /\ uint 64 (s.(gTimer)).

(** [p] preserves [good], and its result satisfies [Q]. *)
Definition safe {A} (Q : A -> Prop) (p : M Mem A) : Prop :=
  forall s a s', good s -> p s = Ok (a, s') -> good s' /\ Q a.

Definition safe_handler (h : interptfptr_t Mem) : Prop :=
  forall inst, safe (fun _ => True) (h inst).

Lemma safe_ret {A} (Q : A -> Prop) a : Q a -> safe Q (mret a).
Proof. intros Ha s a' s' Hs E. by injection E as <- <-. Qed.

Lemma safe_bind {A B} (Q : A -> Prop) (R : B -> Prop) (p : M Mem A) (k : A -> M Mem B) :
  safe Q p -> (forall a, Q a -> safe R (k a)) -> safe R (p ≫= k).
Proof.
  intros Hp Hk s b s' Hs E. unfold mbind, M_bind in E.
  destruct (p s) as [[a s1]|] eqn:Ep; [|done].
  destruct (Hp s a s1 Hs Ep) as [Hs1 Ha]. by apply (Hk a Ha s1).
Qed.

Lemma safe_onCore f : (forall c, wf_Core c -> wf_Core (f c)) ->
  safe (fun _ => True) (onCore f).
Proof.
  intros Hf s [] s' (H1 & H2 & H3) E. injection E as <-.
  split; [|done]. split; [by apply Hf|done].
Qed.

Lemma safe_getCore : safe wf_Core (@getCore Mem).
Proof. intros s a s' Hs E. injection E as <- <-. split; [done|apply Hs]. Qed.

Lemma safe_breakpointTest addr : safe (fun _ => True) (breakpointTest addr).
Proof.
  intros s [] s' Hs E. unfold breakpointTest in E. destruct (mbreakpoint _ _).
  - eapply (safe_onCore (sendInterrupts DEBUG_BREAK_INTERRUPT)); [|exact Hs|exact E].
    intros c Hc. unfold sendInterrupts. apply wf_set_interrupts; [done|].
    apply uint_lor; [lia|apply (wf_interrupts c Hc)|]. split; by vm_compute.
  - by injection E as <-.
Qed.

Lemma safe_askMemory n addr :
  0 <= n <= 8 -> safe (uint 64) (askMemory (mread n addr)).
Proof.
  intros Hn s a s' Hs E. unfold askMemory in E.
  destruct (mread n addr _) as [v|] eqn:Er; [|done]. injection E as <- <-.
  split; [done|]. apply (uint_le (8 * n)); [|lia].
  apply (mread_uint n addr (memory s)); [apply Hs|lia|done].
Qed.

Lemma safe_mem_read n addr : 0 <= n <= 8 -> safe (uint 64) (mem_read n addr).
Proof.
  intros Hn. eapply safe_bind; [apply safe_breakpointTest|]. intros _ _.
  by apply safe_askMemory.
Qed.

Lemma safe_mem_write n addr v : safe (fun _ => True) (mem_write n addr v).
Proof.
  eapply safe_bind; [apply safe_breakpointTest|]. intros _ _ s [] s' (H1 & H2 & H3) E.
  unfold onMemory in E. destruct (mwrite n addr v _) as [m|] eqn:Ew; [|done].
  injection E as <-. split; [|done]. split; [done|]. split; [|done].
  by apply (mwrite_typed n addr v (memory s)).
Qed.

Lemma safe_onMemory {A} (f : Mem -> result (A * Mem)) :
  (forall m a m', mem_typed m -> f m = Ok (a, m') -> mem_typed m') ->
  safe (fun _ => True) (onMemory f).
Proof.
  intros Hf s a s' (H1 & H2 & H3) E. unfold onMemory in E.
  destruct (f (memory s)) as [[x m]|] eqn:Ef; [|done]. injection E as _ <-.
  split; [|done]. split; [done|]. split; [|done]. by apply (Hf (memory s) x).
Qed.

Lemma safe_mem_writeAtomic n addr v e : safe (fun _ => True) (mem_writeAtomic n addr v e).
Proof.
  apply safe_onMemory. intros m b m' Hm E. by apply (mwriteAtomic_typed n addr v e m b).
Qed.

Lemma safe_mem_writeAtomic128 addr lo hi elo ehi :
  safe (fun _ => True) (mem_writeAtomic128 addr lo hi elo ehi).
Proof.
  apply safe_onMemory. intros m b m' Hm E.
  by apply (mwriteAtomic128_typed addr lo hi elo ehi m b).
Qed.

Lemma safe_if {A} (Q : A -> Prop) (b : bool) (p q : M Mem A) :
  safe Q p -> safe Q q -> safe Q (if b then p else q).
Proof. by destruct b. Qed.

Lemma safe_pure f : pure_wf f -> safe_handler (pureHandler f).
Proof. intros Hf inst. apply safe_onCore. intros c Hc. by apply Hf. Qed.
End Safe.

(** [safe_tac]: follow the structure of a handler of the machine monad. *)
Ltac safe_step :=
  match goal with
  | |- safe _ (mret _) => apply safe_ret; [done || auto 30 with emu]
  | |- safe _ (if _ then _ else _) => apply safe_if
  | |- safe _ (onCore _) =>
      apply safe_onCore; intros; cbv zeta; repeat wf_step; auto 40 with emu
  | |- safe _ (mem_write _ _ _) => apply safe_mem_write
  | |- safe _ (mem_writeAtomic _ _ _ _) => apply safe_mem_writeAtomic
  | |- safe _ (mem_writeAtomic128 _ _ _ _ _) => apply safe_mem_writeAtomic128
  | |- safe _ (mem_read _ _ ≫= _) =>
      eapply safe_bind; [apply safe_mem_read; lia|intros ? ?]
  | |- safe _ (getCore ≫= _) => eapply safe_bind; [apply safe_getCore|intros ? ?]
  | |- safe _ (mbind _ _) => apply (safe_bind (fun _ => True)); [|intros ? _]
  end.
Ltac safe_tac := intros inst; cbv zeta; repeat safe_step.

Section LoadStore.
Context {Mem : Type} `{GuestMemoryLaws Mem} (T flags : Z) (HT : 0 <= T <= 8).

Lemma immOffset_uint a b n inst : uint 64 (immOffset a b n inst).
Proof. unfold immOffset, Inst._12_20. destruct a; [|destruct b]; auto 10 with emu. Qed.

Lemma pairOffset_uint e n inst : uint 64 (pairOffset e n inst).
Proof. unfold pairOffset. auto with emu. Qed.

Lemma safe_writeBack wb post inst addr imm :
  uint 64 addr -> safe (fun _ => True) (@writeBack Mem wb post inst addr imm).
Proof. intros Ha. unfold writeBack. cbv zeta. repeat safe_step. Qed.

Lemma getD0_uint c r : wf_Core c -> uint 64 (getD0 c r).
Proof. intros Hc. apply (getV_wf c r Hc). Qed.
Lemma getD1_uint c r : wf_Core c -> uint 64 (getD1 c r).
Proof. intros Hc. apply (getV_wf c r Hc). Qed.
End LoadStore.

#[export] Hint Resolve immOffset_uint pairOffset_uint safe_writeBack getD0_uint getD1_uint : emu.

Section LoadStoreSafe.
Context {Mem : Type} `{GuestMemoryLaws Mem}.

Lemma storeRegImmGeneric_safe T flags :
  0 <= T <= 8 -> safe_handler (@storeRegImmGeneric Mem _ T flags).
Proof.
  intros HT. unfold storeRegImmGeneric. safe_tac. apply safe_writeBack.
  auto 20 with emu.
Qed.

Lemma loadRegImmGeneric_safe T flags :
  0 <= T <= 8 -> safe_handler (@loadRegImmGeneric Mem _ T flags).
Proof.
  intros HT. unfold loadRegImmGeneric. safe_tac. all: try (apply safe_writeBack).
  all: auto 20 with emu.
Qed.

Lemma storePairGeneric_safe T flags :
  0 <= T <= 8 -> safe_handler (@storePairGeneric Mem _ T flags).
Proof.
  intros HT. unfold storePairGeneric. safe_tac. all: try (apply safe_writeBack).
  all: auto 20 with emu.
Qed.

Lemma loadPairGeneric_safe T flags :
  0 <= T <= 8 -> safe_handler (@loadPairGeneric Mem _ T flags).
Proof.
  intros HT. unfold loadPairGeneric. safe_tac. all: try (apply safe_writeBack).
  all: auto 20 with emu.
Qed.

Lemma storeRegOffGeneric_safe T flags :
  0 <= T <= 8 -> safe_handler (@storeRegOffGeneric Mem _ T flags).
Proof. intros HT. unfold storeRegOffGeneric. safe_tac. Qed.

Lemma loadRegOffGeneric_safe T flags :
  0 <= T <= 8 -> safe_handler (@loadRegOffGeneric Mem _ T flags).
Proof. intros HT. unfold loadRegOffGeneric. safe_tac. Qed.

Lemma loadRegLiteralGeneric_safe T flags :
  0 <= T <= 8 -> safe_handler (@loadRegLiteralGeneric Mem _ T flags).
Proof. intros HT. unfold loadRegLiteralGeneric. safe_tac. Qed.

Lemma mrs_safe : safe_handler (@mrs Mem).
Proof.
  intros inst s [] s' (H1 & H2 & H3) E. split; [|done]. unfold mrs in E. cbv zeta in E.
  repeat match type of E with
  | (if ?b then _ else _) = _ => destruct b
  end; injection E as <-; (split; [|split]); cbn; auto 10 with emu.
Qed.
End LoadStoreSafe.

(** ** The registered handlers and [step] *)

Lemma land_uint x y : uint 64 x -> uint 64 y -> uint 64 (Z.land x y).
Proof. by apply uint_land_both. Qed.
Lemma lor_uint x y : uint 64 x -> uint 64 y -> uint 64 (Z.lor x y).
Proof. by apply uint_lor. Qed.
Lemma lxor_uint x y : uint 64 x -> uint 64 y -> uint 64 (Z.lxor x y).
Proof. by apply uint_lxor. Qed.
Lemma identity_wf : pure_wf (fun core _ => core).
Proof. by intros c inst Hc. Qed.
Lemma clrex_wf : pure_wf clrex.
Proof. unfold clrex. wf_tac. Qed.

(** Hints for the handlers; constants are opaque, so a handler matches its own lemma
    only. *)
Create HintDb handlers discriminated.
#[export] Hint Constants Opaque : handlers.
#[export] Hint Resolve condBranch_wf uncondBranchRegGeneric_wf uncondBranchImmGeneric_wf
  compareBranchGeneric_wf testBitBranchGeneric_wf addSubImmGeneric_wf
  moveWideImmGeneric_wf PCRelativeGeneric_wf bitfieldMoveGeneric_wf extractGeneric_wf
  addSubShiftedRegGeneric_wf addSubExtendedRegGeneric_wf addSubCarryGeneric_wf
  reverseBits_wf reverseBytes_wf reverse16_wf reverse32_wf countLeadingClearBits_wf
  countLeadingSetBits_wf unsignedDivide_wf signedDivide_wf shiftGeneric_wf multiply_wf
  uMultiplyLong_wf sMultiplyLong_wf mulhGeneric_wf condCompareRegGeneric_wf
  condCompareImmGeneric_wf condSelGeneric_wf logicalGeneric_wf
  logicalShiftedRegGeneric_wf land_uint lor_uint lxor_uint identity_wf clrex_wf :
  handlers.
#[export] Hint Resolve floatMoveGeneric_wf fmovImmToSingle_wf fmovImmToDouble_wf
  floatRoundGeneric_wf floatConvertGeneric_wf floatCondSelectGeneric_wf
  floatCompareGeneric_wf floatConvIntToFloatGeneric_wf floatIntMovGeneric_wf
  floatSqrtGeneric_wf floatMulGeneric_wf floatDivGeneric_wf floatMaxGeneric_wf
  floatMinGeneric_wf floatAddGeneric_wf floatSubGeneric_wf floatMulAddGeneric_wf
  floatConvertToIntGeneric_wf dupGeneral_wf insGeneral_wf fmovVectorImmSingle_wf
  orrRegisterVector_wf andVector_wf ucvtfScalarInt_wf scvtfScalarInt_wf addVector_wf
  cmeqVecGeneric_wf addpVec_wf moviGeneral_wf movGeneral_wf : handlers.
#[export] Hint Resolve storeRegImmGeneric_safe loadRegImmGeneric_safe
  storePairGeneric_safe loadPairGeneric_safe storeRegOffGeneric_safe
  loadRegOffGeneric_safe loadRegLiteralGeneric_safe mrs_safe safe_pure : handlers.
#[export] Hint Extern 1 (0 <= _ <= 8) => lia : handlers.

(** [each_reg]: every entry of a registration list, from the lemma of its generic
    handler. *)
Ltac head_of t := lazymatch t with ?f _ => head_of f | ?f => f end.
Ltac by_handlers := solve [auto with handlers nocore | apply identity_wf].
Ltac handler_safe :=
  cbn [snd];
  first
  [ by_handlers
  | match goal with
    | |- safe_handler (pureHandler ?f) =>
        apply safe_pure; first [by_handlers | let h := head_of f in unfold h; by_handlers]
    | |- safe_handler ?f =>
        let h := head_of f in unfold h; first [by_handlers | apply safe_pure; by_handlers]
    end ].
Ltac each_reg := repeat (apply Forall_cons_2; [handler_safe|]); try apply Forall_nil_2.

Section Step.
Context {Mem : Type} `{GuestMemoryLaws Mem} `{CpuHooks Mem}.
Context `{ShiftTarget} `{HostFloat}.

Definition safe_regs (regs : registrations Mem) : Prop :=
  Forall (fun r => safe_handler (snd r)) regs.

Lemma branch_safe : safe_regs registerBranchInstructions.
Proof. unfold registerBranchInstructions. each_reg. Qed.

Lemma dpimm_safe : safe_regs registerDPImmInstructions.
Proof. unfold registerDPImmInstructions. each_reg. Qed.

Lemma dpreg_safe : safe_regs registerDPRegInstructions.
Proof. unfold registerDPRegInstructions. each_reg. Qed.

Lemma loadstore_safe : safe_regs registerLoadStoreInstructions.
Proof. unfold registerLoadStoreInstructions. each_reg. Qed.

Lemma float_safe : safe_regs registerFloatInstructions.
Proof. unfold registerFloatInstructions. each_reg. Qed.

Lemma simd_safe : safe_regs registerSIMDInstructions.
Proof. unfold registerSIMDInstructions. each_reg. Qed.

Lemma system_safe :
  (forall n, safe (fun _ => True) (gSVCHandler n)) ->
  safe_regs registerSystemInstructions.
Proof.
  intros Hsvc. unfold registerSystemInstructions.
  apply Forall_cons_2; [intros inst; apply Hsvc|]. each_reg.
Qed.

Lemma lookup_safe regs id : safe_regs regs -> safe_handler (lookup_handler regs id).
Proof.
  unfold lookup_handler. intros Hr.
  assert (safe_handler (@UNIMPLEMENTED_FUNC Mem)) as Hd
    by (apply safe_pure, identity_wf).
  revert Hd. generalize (@UNIMPLEMENTED_FUNC Mem). induction Hr as [|r regs Hx _ IH];
    intros d Hd; simpl; [done|]. apply IH. by destruct (instructionID.eqb _ _).
Qed.

(** What the handlers the kernel installs must satisfy. *)
Definition environment_safe : Prop :=
  (forall n, safe (fun _ => True) (gSVCHandler n)) /\
  safe (fun _ => True) gIllInstHandler.

Lemma handlers_safe id : environment_safe -> safe_handler (getInstructionFunc id).
Proof.
  intros (Hsvc & Hill). apply lookup_safe. unfold init_registrations, safe_regs.
  rewrite !Forall_app. repeat split; try done.
  - apply branch_safe.
  - by apply system_safe.
  - apply dpimm_safe.
  - apply dpreg_safe.
  - apply float_safe.
  - apply loadstore_safe.
  - apply simd_safe.
  - apply Forall_singleton. intros inst. apply Hill.
Qed.

Lemma finishStep_wf c : wf_Core c -> wf_Core (finishStep c).
Proof.
  intros Hc. unfold finishStep. cbv zeta.
  assert (wf_Core (setX 31 0 c)) as H31 by auto with emu.
  set (c1 := setX 31 0 c) in *.
  assert (wf_Core (if PC c1 =? nextPC c1 then sendInterrupts DEBUG_BREAK_INTERRUPT c1
                   else c1)) as H1'.
  { apply wf_if; [|done]. unfold sendInterrupts. apply wf_set_interrupts; [done|].
    apply uint_lor; [lia|by apply wf_interrupts|split; by vm_compute]. }
  auto 10 with emu.
Qed.

Lemma finishStep_zero c : wf_Core c -> getX (finishStep c) 31 = 0.
Proof.
  intros Hc. pose proof (getX_setX_eq c 31 0 Hc ltac:(unfold reg; lia)) as Hz.
  unfold finishStep. cbv zeta. by destruct (_ =? _).
Qed.

Lemma step_safe :
  environment_safe -> safe (fun _ => True) step.
Proof.
  intros He. unfold step, mem_fetch. cbv zeta.
  eapply safe_bind; [apply safe_getCore|intros c Hc].
  eapply safe_bind; [apply safe_askMemory; lia|intros bits Hb].
  eapply safe_bind; [apply safe_onCore; auto with emu|intros _ _].
  eapply safe_bind; [by apply handlers_safe|intros _ _].
  apply safe_onCore, finishStep_wf.
Qed.
End Step.
