(* ===== verification/DPSpec.v ===== *)
(** * Data processing: what the handlers compute

    Bit-field, move-wide and extract instructions of [DataProcessingImm.cpp] in terms of
    fields of integers; reversals, leading zeros, multiplication, division, variable shifts,
    selects and compares of [DataProcessingReg.cpp], against their arithmetic definitions. *)
From S2P Require Import Prelude BitUtils Instructions Core InstUtils Machine InterpDPImm InterpDPReg.

Lemma imms_bounds inst : 0 <= Inst.imms inst < 64.
Proof. apply (field_bounds 10 15). lia. Qed.
Lemma immr_bounds inst : 0 <= Inst.immr inst < 64.
Proof. apply (field_bounds 16 21). lia. Qed.

(** ** UBFM *)

(** The bit-field move of the architecture: [imms >= immr] extracts a field to bit 0,
    [imms < immr] inserts the low bits at [w - immr]. *)
Definition arm_ubfm (w immr imms src : Z) : Z :=
  if immr <=? imms then Z.shiftr src immr mod 2 ^ (imms - immr + 1)
  else Z.shiftl (src mod 2 ^ (imms + 1)) (w - immr).

Lemma testbit_arm_ubfm w immr imms src i :
  0 <= immr < w -> 0 <= imms < w -> 0 <= i ->
  Z.testbit (arm_ubfm w immr imms src) i =
  if immr <=? imms then (i <=? imms - immr) && Z.testbit src (i + immr)
  else (w - immr <=? i) && (i - (w - immr) <=? imms) && Z.testbit src (i - (w - immr)).
Proof.
  intros Hr Hs Hi. unfold arm_ubfm. destruct (Z.leb_spec immr imms).
  - fold (wrap (imms - immr + 1) (Z.shiftr src immr)).
    rewrite testbit_wrap, Z.shiftr_spec by lia. f_equal. lia.
  - rewrite testbit_shiftl by lia. destruct (Z.leb_spec (w - immr) i).
    + rewrite (proj2 (Z.leb_le 0 _)) by lia. cbn [andb].
      fold (wrap (imms + 1) src). rewrite testbit_wrap by lia. f_equal. lia.
    + by rewrite (proj2 (Z.leb_gt 0 _)) by lia.
Qed.

(** The masks and rotation of [bitfieldMoveGeneric], bit by bit. *)
Section Rotation.
Context (w immr imms : Z) (Hw : w = 32 \/ w = 64).
Context (Hr : 0 <= immr < w) (Hs : 0 <= imms < w).

Lemma sourceMask_eq :
  (if imms =? 63 then 0xFFFFFFFFFFFFFFFF else bitmask_rt (imms + 1)) = Z.ones (imms + 1).
Proof.
  destruct (Z.eqb_spec imms 63) as [->|]; [done|]. apply bitmask_rt_spec. lia.
Qed.

Lemma finalPos_eq :
  u64 (Z.rem (imms + w - immr) w) =
  if immr <=? imms then imms - immr else imms + w - immr.
Proof.
  rewrite Z.rem_mod_nonneg by lia. destruct (Z.leb_spec immr imms).
  - rewrite <-(Z.mod_unique_pos (imms + w - immr) w 1 (imms - immr)) by lia.
    apply u64_id. unfold uint. lia.
  - rewrite Z.mod_small by lia. apply u64_id. unfold uint. lia.
Qed.

Lemma testbit_shiftedMask i :
  0 <= i < 64 ->
  let finalPos := if immr <=? imms then imms - immr else imms + w - immr in
  Z.testbit (if finalPos >? imms then shl64 (Z.ones (imms + 1)) (finalPos - imms)
             else shr64 (Z.ones (imms + 1)) (imms - finalPos)) i =
  if immr <=? imms then (i <=? imms - immr)
  else (w - immr <=? i) && (i - (w - immr) <=? imms).
Proof.
  intros Hi. cbv zeta. destruct (Z.leb_spec immr imms).
  - rewrite Z.gtb_ltb, (proj2 (Z.ltb_ge imms (imms - immr))) by lia.
    rewrite shr64_small, Z.shiftr_spec, testbit_ones by lia.
    destruct (Z.ltb_spec (i + (imms - (imms - immr))) (imms + 1)),
      (Z.leb_spec i (imms - immr)); lia || done.
  - rewrite Z.gtb_ltb, (proj2 (Z.ltb_lt imms _)), shl64_small by lia.
    rewrite testbit_u64, testbit_shiftl by lia.
    rewrite (proj2 (Z.ltb_lt i 64)) by lia. cbn [andb].
    replace (imms + w - immr - imms) with (w - immr) by lia.
    destruct (Z.leb_spec 0 (i - (w - immr))), (Z.leb_spec (w - immr) i);
      cbn [andb]; try lia.
    rewrite testbit_ones by lia.
    destruct (Z.ltb_spec (i - (w - immr)) (imms + 1)), (Z.leb_spec (i - (w - immr)) imms);
      lia || done.
Qed.

Lemma testbit_rotated src i :
  0 <= i < 64 -> uint w src ->
  Z.testbit (Z.lor (shr64 (Z.land src (Z.ones (imms + 1))) immr)
               (shl64 (Z.land src (Z.ones (imms + 1))) (w - immr))) i =
  (i + immr <=? imms) && Z.testbit src (i + immr) ||
  ((w - immr) mod 64 <=? i) && (i - (w - immr) mod 64 <=? imms) &&
    Z.testbit src (i - (w - immr) mod 64).
Proof.
  intros Hi Hsrc. rewrite Z.lor_spec, shr64_small, Z.shiftr_spec, testbit_shl64_x86 by lia.
  rewrite !Z.land_spec. rewrite (testbit_ones _ (i + immr)) by lia. f_equal.
  - rewrite andb_comm. f_equal.
    destruct (Z.ltb_spec (i + immr) (imms + 1)), (Z.leb_spec (i + immr) imms); lia || done.
  - destruct (Z.leb_spec ((w - immr) mod 64) i); cbn [andb]; [|done].
    rewrite testbit_ones by lia. rewrite andb_comm. f_equal.
    destruct (Z.ltb_spec (i - (w - immr) mod 64) (imms + 1)),
      (Z.leb_spec (i - (w - immr) mod 64) imms); lia || done.
Qed.

(** Source field, rotated and masked. *)
Lemma bitfield_core src :
  uint w src ->
  let sourceMask := Z.ones (imms + 1) in
  let data := Z.land src sourceMask in
  let finalPos := if immr <=? imms then imms - immr else imms + w - immr in
  Z.land (Z.lor (shr64 data immr) (shl64 data (w - immr)))
    (if finalPos >? imms then shl64 sourceMask (finalPos - imms)
     else shr64 sourceMask (imms - finalPos)) = arm_ubfm w immr imms src.
Proof.
  intros Hsrc. cbv zeta. apply Z.bits_inj'. intros i Hi.
  rewrite Z.land_spec, testbit_arm_ubfm by lia.
  destruct (Z.lt_ge_cases i 64) as [Hi64|Hi64].
  - rewrite testbit_rotated, testbit_shiftedMask by (lia || done).
    assert ((w - immr) mod 64 = w - immr \/
            w - immr = 64 /\ (w - immr) mod 64 = 0) as [E|[E E']].
    { destruct (Z.eq_dec (w - immr) 64) as [->|]; [by right|left].
      apply Z.mod_small. lia. }
    + rewrite E. destruct (Z.leb_spec immr imms).
      * destruct (Z.leb_spec i (imms - immr)); [|by rewrite andb_false_r].
        rewrite (proj2 (Z.leb_le (i + immr) imms)), (proj2 (Z.leb_gt (w - immr) i)) by lia.
        cbn [andb orb]. by rewrite andb_true_r, orb_false_r.
      * rewrite (proj2 (Z.leb_gt (i + immr) imms)) by lia. cbn [andb orb].
        destruct (Z.leb_spec (w - immr) i); cbn [andb]; [|done].
        destruct (Z.leb_spec (i - (w - immr)) imms); cbn [andb]; [|done].
        by rewrite andb_true_r.
    + assert (w = 64 /\ immr = 0) as [Ew ->] by lia. rewrite E', !Z.sub_0_r, Z.add_0_r.
      rewrite (proj2 (Z.leb_le 0 i)), (proj2 (Z.leb_le 0 imms)) by lia.
      cbn [andb]. rewrite orb_diag.
      destruct (Z.leb_spec i imms); cbn [andb]; by rewrite ?andb_true_r.
  - assert (forall x, uint 64 x -> Z.testbit x i = false) as Hz
      by (intros x Hx; apply (testbit_uint_high 64); done || lia).
    assert (uint 64 src) as Hsrc' by (apply (uint_le w); [done|lia]).
    rewrite (Hz (Z.lor _ _)).
    2: { apply uint_lor; [lia|apply shr64_uint|apply shl64_uint].
         apply uint_land_both; [lia|done|]. rewrite <-bitmask_ones.
         apply bitmask_uint. lia. }
    cbn [andb]. destruct (Z.leb_spec immr imms).
    + rewrite (proj2 (Z.leb_gt _ _)) by lia. done.
    + rewrite (proj2 (Z.leb_gt (i - (w - immr)) imms)) by lia. by rewrite andb_false_r.
Qed.
End Rotation.

Lemma arm_ubfm_uint w immr imms src :
  0 <= immr < w -> 0 <= imms < w -> 0 <= src -> uint w (arm_ubfm w immr imms src).
Proof.
  intros Hr Hs Hsrc. apply uint_bits; [lia| |].
  - unfold arm_ubfm. destruct (Z.leb_spec immr imms).
    + apply Z.mod_pos_bound. apply Z.pow_pos_nonneg; lia.
    + apply Z.shiftl_nonneg, Z.mod_pos_bound, Z.pow_pos_nonneg; lia.
  - intros i Hi. rewrite testbit_arm_ubfm by lia. destruct (Z.leb_spec immr imms).
    + by rewrite (proj2 (Z.leb_gt i _)) by lia.
    + rewrite (proj2 (Z.leb_gt (i - (w - immr)) imms)) by lia. by rewrite andb_false_r.
Qed.

(** The register operand at the width of the operation. *)
Lemma operand_wrap (is64 : bool) (z : Z) :
  uint 64 z -> (if is64 then z else Z.land z (bitmask 32)) = wrap (width is64) z.
Proof.
  intros Hz. destruct is64; simpl width.
  - symmetry. by apply wrap_id.
  - rewrite bitmask_ones. by apply wrap_land_ones.
Qed.

Lemma size_width (is64 : bool) : (if is64 then 64 else 32) = width is64.
Proof. by destruct is64. Qed.

Section Width.
Context (is64 : bool) (core : Core) (inst : Z) (Hc : wf_Core core).
Context (Hr : Inst.immr inst < width is64) (Hs : Inst.imms inst < width is64).

(** The handler up to the choice of what happens to the other bits. *)
Lemma bitfieldMove_eq (writeZeros isSigned : bool) :
  let src := wrap (width is64) (getX core (Inst.Rn inst)) in
  let field := arm_ubfm (width is64) (Inst.immr inst) (Inst.imms inst) src in
  let finalPos := if Inst.immr inst <=? Inst.imms inst
                  then Inst.imms inst - Inst.immr inst
                  else Inst.imms inst + width is64 - Inst.immr inst in
  bitfieldMoveGeneric is64 writeZeros isSigned core inst =
  setX (Inst.Rd inst) (wrap (width is64)
    (if writeZeros then
       if isSigned && Z.testbit src (Inst.imms inst) then signExtend_rt field finalPos
       else field
     else
       let rotatedMask :=
         Z.lor (shr64 (Z.ones (Inst.imms inst + 1)) (Inst.immr inst))
           (shl64 (Z.ones (Inst.imms inst + 1)) (width is64 - Inst.immr inst)) in
       Z.lor field (Z.land (getX core (Inst.Rd inst)) (not64 rotatedMask)))) core.
Proof.
  cbv zeta. pose proof (immr_bounds inst). pose proof (imms_bounds inst).
  assert (width is64 = 32 \/ width is64 = 64) as Hw by (destruct is64; simpl; lia).
  unfold bitfieldMoveGeneric. cbv zeta. rewrite size_width.
  rewrite finalPos_eq, (sourceMask_eq (width is64)) by lia.
  pose proof (getX_uint core (Inst.Rn inst) Hc) as Hn.
  pose proof (getX_uint core (Inst.Rd inst) Hc) as Hd.
  rewrite (operand_wrap is64 _ Hn).
  rewrite testBit_rt_spec by lia.
  rewrite bitfield_core by (try lia; apply wrap_uint; lia).
  assert (uint 64 (arm_ubfm (width is64) (Inst.immr inst) (Inst.imms inst)
    (wrap (width is64) (getX core (Inst.Rn inst))))) as Hf.
  { apply (uint_le (width is64)); [|lia]. apply arm_ubfm_uint; try lia.
    apply wrap_uint. lia. }
  rewrite operand_wrap; [by destruct writeZeros, isSigned|].
  assert (forall n, 0 <= n <= 64 -> uint 64 (Z.ones n)) as Ho
    by (intros; rewrite <-bitmask_ones; by apply bitmask_uint).
  destruct writeZeros.
  - destruct isSigned; [|done]. destruct (Z.testbit _ _); auto with emu.
  - auto 10 with emu.
Qed.

Lemma ubfm_field :
  bitfieldMoveGeneric is64 true false core inst =
  setX (Inst.Rd inst)
    (arm_ubfm (width is64) (Inst.immr inst) (Inst.imms inst)
       (wrap (width is64) (getX core (Inst.Rn inst)))) core.
Proof.
  rewrite bitfieldMove_eq. cbn [andb]. f_equal. apply wrap_id.
  pose proof (immr_bounds inst). pose proof (imms_bounds inst).
  apply arm_ubfm_uint; try lia. apply wrap_uint. destruct is64; simpl; lia.
Qed.
End Width.

(** C37: UBFM (and so LSL, LSR, UBFX, UXTB, ... with an immediate) at both widths and
    for every pair of positions of that width: the handler writes the architecture's
    field to the destination register, zeros elsewhere, and changes nothing else. *)
Theorem ubfm_spec (is64 : bool) (core : Core) (inst : Z) :
  wf_Core core ->
  Inst.immr inst < width is64 -> Inst.imms inst < width is64 ->
  bitfieldMoveGeneric is64 true false core inst =
  setX (Inst.Rd inst)
    (arm_ubfm (width is64) (Inst.immr inst) (Inst.imms inst)
       (wrap (width is64) (getX core (Inst.Rn inst)))) core.
Proof. apply ubfm_field. Qed.

(** A core for the examples: [X1] holds [x1], every other register is zero. *)
Definition example_core (x1 : Z) : Core :=
  setX 1 x1 (mkCore true 0 (repeat 0 32) (repeat (mkVReg 0 0) 32) 0x5000 0
    (PSTATE.mk false false false false) 0 0x5004 0 false 0 0 0 0).

Lemma example_core_wf x1 : uint 64 x1 -> wf_Core (example_core x1).
Proof.
  intros Hx. apply wf_setX; [|done]. constructor; simpl; try done.
  all: try (repeat constructor; unfold uint; simpl; lia). all: unfold uint; lia.
Qed.

(** [lsr x0, x1, #4] *)
Lemma ubfm_spec_witness :
  (wf_Core (example_core 0xABCD) /\ Inst.immr 0xD344FC20 < width true /\
   Inst.imms 0xD344FC20 < width true) /\
  bitfieldMoveGeneric true true false (example_core 0xABCD) 0xD344FC20 =
  setX 0 0xABC (example_core 0xABCD).
Proof.
  assert (wf_Core (example_core 0xABCD)) as Hc by (apply example_core_wf; unfold uint; lia).
  split; [split; [exact Hc|split; vm_compute; reflexivity]|].
  rewrite (ubfm_spec true (example_core 0xABCD) 0xD344FC20 Hc) by (vm_compute; reflexivity).
  vm_compute. reflexivity.
Defined.

(** ** SBFM *)

(** Extraction by the architecture's SBFM ([imms >= immr]): the field, sign extended
    from its top bit. *)
Definition arm_sbfm (w immr imms src : Z) : Z :=
  wrap w (to_signed (imms - immr + 1) (Z.shiftr src immr)).

Lemma arm_sbfm_eq w immr imms src :
  0 <= immr <= imms -> imms < w <= 64 -> 0 <= src ->
  arm_sbfm w immr imms src =
  wrap w (signExtend (imms - immr + 1) (arm_ubfm w immr imms src)).
Proof.
  intros Hr Hs Hsrc. unfold arm_sbfm, arm_ubfm.
  rewrite (proj2 (Z.leb_le immr imms)) by lia.
  fold (wrap (imms - immr + 1) (Z.shiftr src immr)).
  rewrite signExtend_to_signed by (try apply wrap_uint; lia).
  rewrite to_signed_wrap by lia. symmetry. apply wrap_wrap_le. lia.
Qed.

Lemma testbit_field_top w immr imms src i :
  0 <= immr <= imms -> imms < w -> 0 <= i <= imms - immr ->
  Z.testbit (arm_ubfm w immr imms src) i = Z.testbit src (i + immr).
Proof.
  intros Hr Hs Hi. rewrite testbit_arm_ubfm by lia.
  rewrite (proj2 (Z.leb_le immr imms)), (proj2 (Z.leb_le i _)) by lia. done.
Qed.

(** Extending from one bit below the top is right when that bit agrees. *)
Lemma signExtend_one_less (n val : Z) :
  0 < n < 64 -> uint (n + 1) val ->
  Z.testbit val n = true -> Z.testbit val (n - 1) = true ->
  signExtend n val = signExtend (n + 1) val.
Proof.
  intros Hn Hv H1 H2. assert (uint 64 val) as Hv' by (apply (uint_le (n + 1)); [done|lia]).
  apply Z.bits_inj'. intros i Hi. rewrite !testbit_signExtend by (done || lia).
  rewrite H2. replace (n + 1 - 1) with n by lia. rewrite H1.
  destruct (Z.eq_dec i n) as [->|]; [by rewrite H1|].
  f_equal. f_equal. f_equal. destruct (Z.leb_spec n i), (Z.leb_spec (n + 1) i); lia || done.
Qed.

(** SBFM used as an extraction (ASR, SBFX, SXTB, SXTH, SXTW): the result is the
    sign-extended field of the architecture except when the sign bit is set and the
    bit below it is clear; the handler then zero-extends. *)
Theorem sbfm_extract_spec (is64 : bool) (core : Core) (inst : Z) :
  wf_Core core -> Inst.immr inst < Inst.imms inst < width is64 ->
  let src := wrap (width is64) (getX core (Inst.Rn inst)) in
  bitfieldMoveGeneric is64 true true core inst =
  setX (Inst.Rd inst)
    (if Z.testbit src (Inst.imms inst) && negb (Z.testbit src (Inst.imms inst - 1))
     then arm_ubfm (width is64) (Inst.immr inst) (Inst.imms inst) src
     else arm_sbfm (width is64) (Inst.immr inst) (Inst.imms inst) src) core.
Proof.
  intros Hc Hs src. pose proof (immr_bounds inst). pose proof (imms_bounds inst).
  assert (0 < width is64 <= 64) as Hw by (destruct is64; simpl; lia).
  rewrite bitfieldMove_eq by (done || lia). cbv zeta. fold src.
  rewrite (proj2 (Z.leb_le (Inst.immr inst) _)) by lia. cbn [andb].
  assert (uint (width is64) src) as Hsrc by (apply wrap_uint; lia).
  pose proof (arm_ubfm_uint (width is64) (Inst.immr inst) (Inst.imms inst) src
    ltac:(lia) ltac:(lia) ltac:(apply Hsrc)) as Hf.
  set (n := Inst.imms inst - Inst.immr inst) in *.
  assert (uint (n + 1) (arm_ubfm (width is64) (Inst.immr inst) (Inst.imms inst) src)) as Hf'.
  { unfold arm_ubfm. rewrite (proj2 (Z.leb_le (Inst.immr inst) _)) by lia.
    apply (wrap_uint (n + 1)). lia. }
  rewrite arm_sbfm_eq by (try lia; apply Hsrc). fold n.
  set (field := arm_ubfm _ _ _ _) in *. f_equal.
  assert (Z.testbit field n = Z.testbit src (Inst.imms inst)) as Htop.
  { subst field. rewrite testbit_field_top by lia. f_equal. lia. }
  assert (Z.testbit field (n - 1) = Z.testbit src (Inst.imms inst - 1)) as Hbelow.
  { subst field. rewrite testbit_field_top by lia. f_equal. lia. }
  rewrite <-Htop, <-Hbelow.
  rewrite signExtend_rt_eq by lia.
  destruct (Z.testbit field n) eqn:E1; cbn [andb].
  - destruct (Z.testbit field (n - 1)) eqn:E2; cbn [negb].
    + by rewrite (signExtend_one_less n) by (done || lia).
    + unfold signExtend. rewrite testBit_spec, E2 by lia. by apply wrap_id.
  - unfold signExtend at 1. rewrite testBit_spec by lia.
    replace (n + 1 - 1) with n by lia. by rewrite E1.
Qed.

(** [sxtb x0, w1]: right on [0xF0], wrong on [0x80]. *)
Lemma sbfm_extract_spec_witness :
  (wf_Core (example_core 0x80) /\
   Inst.immr 0x93401C20 < Inst.imms 0x93401C20 < width true) /\
  bitfieldMoveGeneric true true true (example_core 0x80) 0x93401C20 =
    setX 0 0x80 (example_core 0x80) /\
  bitfieldMoveGeneric true true true (example_core 0xF0) 0x93401C20 =
    setX 0 0xFFFFFFFFFFFFFFF0 (example_core 0xF0).
Proof.
  assert (forall x, uint 64 x -> wf_Core (example_core x)) as Hc
    by apply example_core_wf.
  assert (Inst.immr 0x93401C20 < Inst.imms 0x93401C20 < width true) as Hs
    by (split; vm_compute; reflexivity).
  split; [split; [apply Hc; unfold uint; lia|exact Hs]|]. split.
  - rewrite (sbfm_extract_spec true _ _ (Hc 0x80 ltac:(unfold uint; lia)) Hs).
    vm_compute. reflexivity.
  - rewrite (sbfm_extract_spec true _ _ (Hc 0xF0 ltac:(unfold uint; lia)) Hs).
    vm_compute. reflexivity.
Defined.

(** ** BFM *)

(** BFM used as BFI ([imms < immr]): the low [imms + 1] bits of the source replace
    that many bits of the destination at [w - immr]; the others are kept. *)
Theorem bfi_spec (is64 : bool) (core : Core) (inst : Z) :
  wf_Core core -> Inst.imms inst < Inst.immr inst < width is64 ->
  let w := width is64 in
  let lsb := w - Inst.immr inst in
  let src := getX core (Inst.Rn inst) in
  let old := getX core (Inst.Rd inst) in
  bitfieldMoveGeneric is64 false false core inst =
  setX (Inst.Rd inst)
    (wrap w (Z.lor (Z.ldiff old (Z.shiftl (Z.ones (Inst.imms inst + 1)) lsb))
               (Z.shiftl (wrap (Inst.imms inst + 1) src) lsb))) core.
Proof.
  intros Hc Hs w lsb src old. pose proof (immr_bounds inst). pose proof (imms_bounds inst).
  assert (0 < w <= 64) as Hw by (subst w; destruct is64; simpl; lia).
  rewrite bitfieldMove_eq by (done || lia). cbv zeta. fold w lsb src old. f_equal.
  assert (uint 64 old) as Hold by by apply getX_uint.
  unfold arm_ubfm. rewrite (proj2 (Z.leb_gt (Inst.immr inst) _)) by lia. fold lsb.
  fold (wrap (Inst.imms inst + 1) (wrap w src)). rewrite wrap_wrap_le by lia.
  rewrite shr64_small, shl64_small by lia. bitwise as i Hi.
  all: rewrite ?(testbit_uint_high 64 old) by (done || lia); cbn [andb orb];
    rewrite ?andb_false_r, ?andb_true_r, ?orb_false_r; try done;
    rewrite ?testbit_ones by lia; repeat (decide_ltb; try lia);
    cbn [andb orb negb]; rewrite ?andb_false_r, ?andb_true_r, ?orb_false_r; try done;
    apply orb_comm.
Qed.

(** [bfi x0, x1, #8, #8] *)
Lemma bfi_spec_witness :
  (wf_Core (example_core 0x12) /\ Inst.imms 0xB3781C21 < Inst.immr 0xB3781C21 < width true) /\
  bitfieldMoveGeneric true false false (example_core 0x1234) 0xB3781C21 =
    setX 1 0x3434 (example_core 0x1234).
Proof.
  assert (forall x, uint 64 x -> wf_Core (example_core x)) as Hc by apply example_core_wf.
  assert (Inst.imms 0xB3781C21 < Inst.immr 0xB3781C21 < width true) as Hs
    by (split; vm_compute; reflexivity).
  split; [split; [apply Hc; unfold uint; lia|exact Hs]|].
  rewrite (bfi_spec true _ _ (Hc 0x1234 ltac:(unfold uint; lia)) Hs).
  vm_compute. reflexivity.
Defined.

(** As BFXIL ([imms >= immr > 0]) the rotated mask wraps around and clears the top
    [immr] bits of the destination: [bfxil x0, x1, #8, #8] of [x0 = -1]. *)
Example bfxil_clears_top_bits :
  getX (bitfieldMoveGeneric true false false
          (setX 0 0xFFFFFFFFFFFFFFFF (example_core 0x1234)) 0xB3483C20) 0 =
  0x00FFFFFFFFFFFF12.
Proof. vm_compute. reflexivity. Qed.

(** ** Move wide *)

(** [word] is a move-wide instruction for the [k]-th halfword of [v]. *)
Definition move_word (opc rd k v word : Z) : Prop :=
  Inst.opc word = opc /\ Inst.Rd word = rd /\ Inst.hw word = k /\
  Inst._5_20 word = Z.shiftr v (16 * k) mod 2 ^ 16.

Lemma setX_setX r v v' c : setX r v (setX r v' c) = setX r v c.
Proof.
  unfold setX. cbn [set_GPRegs GPRegs]. by rewrite list_insert_insert_eq.
Qed.

(** One halfword inserted at [16 k]. *)
Definition insert_halfword (k v old : Z) : Z :=
  Z.lor (Z.ldiff old (Z.shiftl 0xFFFF (16 * k)))
    (Z.shiftl (Z.shiftr v (16 * k) mod 2 ^ 16) (16 * k)).

Lemma movk_step core rd k v word :
  wf_Core core -> 0 <= k < 4 -> move_word 3 rd k v word ->
  mov64 core word = setX rd (insert_halfword k v (getX core rd)) core.
Proof.
  intros Hc Hk (Ho & Hrd & Hhw & Him). unfold mov64, moveWideImmGeneric. cbv zeta.
  rewrite Ho, Hrd, Hhw, Him. cbn [Z.eqb Pos.eqb]. f_equal. unfold insert_halfword.
  pose proof (getX_uint core rd Hc) as Hu. replace (k * 16) with (16 * k) by lia.
  change 0xFFFF with (Z.ones 16). fold (wrap 16 (Z.shiftr v (16 * k))).
  apply Z.bits_inj'. intros i Hi.
  rewrite !Z.lor_spec, Z.land_spec, Z.ldiff_spec, testbit_not64, !testbit_u64,
    !testbit_shiftl by lia.
  destruct (Z.ltb_spec i 64) as [Hl|Hl]; cbn [andb]; [done|].
  rewrite (testbit_uint_high 64 _ i Hu) by lia. cbn [andb].
  rewrite (proj2 (Z.leb_le 0 (i - 16 * k))) by lia. cbn [andb orb].
  rewrite testbit_wrap by lia. by rewrite (proj2 (Z.ltb_ge (i - 16 * k) 16)) by lia.
Qed.

(** MOVZ and three MOVK build any 64-bit constant in any register but the zero
    register, and change nothing else. *)
Theorem mov_constant (core : Core) (rd v w0 w1 w2 w3 : Z) :
  wf_Core core -> 0 <= rd < 31 -> uint 64 v ->
  move_word 2 rd 0 v w0 -> move_word 3 rd 1 v w1 ->
  move_word 3 rd 2 v w2 -> move_word 3 rd 3 v w3 ->
  mov64 (mov64 (mov64 (mov64 core w0) w1) w2) w3 = setX rd v core.
Proof.
  intros Hc Hrd Hv H0 H1 H2 H3.
  assert (reg rd) as Hreg by (unfold reg; lia).
  assert (mov64 core w0 = setX rd (v mod 2 ^ 16) core) as ->.
  { destruct H0 as (Ho & Hr & Hhw & Him). unfold mov64, moveWideImmGeneric. cbv zeta.
    rewrite Ho, Hr, Hhw, Him. cbn [Z.eqb Pos.eqb]. rewrite Z.mul_0_l, Z.mul_0_r,
      Z.shiftr_0_r, Z.shiftl_0_r. rewrite u64_id; [done|].
    apply (uint_le 16); [apply (wrap_uint 16); lia|lia]. }
  assert (wf_Core (setX rd (v mod 2 ^ 16) core)) as Hc0.
  { apply wf_setX; [done|]. apply (uint_le 16); [apply (wrap_uint 16); lia|lia]. }
  rewrite (movk_step _ rd 1 v w1) by (done || lia). rewrite getX_setX_eq, setX_setX by done.
  set (v1 := insert_halfword 1 v _).
  assert (forall k old, 0 <= k < 4 -> uint 64 old -> uint 64 (insert_halfword k v old)) as Hins.
  { intros k old Hk Hold. apply uint_bits; [lia| |].
    - apply Z.lor_nonneg. split.
      + apply Z.ldiff_nonneg. left. apply Hold.
      + apply Z.shiftl_nonneg, Z.mod_pos_bound. lia.
    - intros i Hi. unfold insert_halfword. fold (wrap 16 (Z.shiftr v (16 * k))).
      rewrite Z.lor_spec, Z.ldiff_spec, !testbit_shiftl by lia.
      rewrite (testbit_uint_high 64 old i Hold) by lia. cbn [andb orb].
      rewrite testbit_wrap by lia. rewrite (proj2 (Z.ltb_ge (i - 16 * k) 16)) by lia.
      by rewrite andb_false_r. }
  assert (uint 64 v1) as Hv1.
  { apply Hins; [lia|]. apply (uint_le 16); [apply (wrap_uint 16); lia|lia]. }
  rewrite (movk_step _ rd 2 v w2) by (try apply wf_setX; done || lia).
  rewrite getX_setX_eq, setX_setX by done. set (v2 := insert_halfword 2 v v1).
  assert (uint 64 v2) as Hv2 by (apply Hins; [lia|done]).
  rewrite (movk_step _ rd 3 v w3) by (try apply wf_setX; done || lia).
  rewrite getX_setX_eq, setX_setX by done. f_equal.
  apply Z.bits_inj'. intros i Hi. unfold v2, v1, insert_halfword. change 0xFFFF with (Z.ones 16).
  fold (wrap 16 v) (wrap 16 (Z.shiftr v (16 * 1))) (wrap 16 (Z.shiftr v (16 * 2)))
    (wrap 16 (Z.shiftr v (16 * 3))).
  rewrite !Z.lor_spec, !Z.ldiff_spec, !Z.lor_spec, !Z.ldiff_spec, !Z.lor_spec, !Z.ldiff_spec.
  rewrite !testbit_shiftl, testbit_wrap by lia.
  destruct (Z.lt_ge_cases i 64) as [Hl|Hl].
  - assert (i < 16 \/ 16 <= i < 32 \/ 32 <= i < 48 \/ 48 <= i) as Hcases by lia.
    destruct Hcases as [Hi'|[Hi'|[Hi'|Hi']]];
      repeat (rewrite ?testbit_ones, ?testbit_wrap, ?Z.shiftr_spec by lia;
              decide_ltb; try lia; cbn [andb orb negb]);
      rewrite ?orb_false_r, ?andb_true_r; try done; f_equal; lia.
  - rewrite (testbit_uint_high 64 v i) by (done || lia). rewrite andb_false_r.
    repeat (rewrite ?testbit_ones, ?testbit_wrap by lia; decide_ltb; try lia;
            cbn [andb orb negb]); done.
Qed.

(** [mov x0, #0x123456789ABCDEF0] *)
Lemma mov_constant_witness :
  (wf_Core (example_core 0) /\ uint 64 0x123456789ABCDEF0) /\
  mov64 (mov64 (mov64 (mov64 (example_core 0) 0xD29BDE00) 0xF2B35780) 0xF2CACF00) 0xF2E24680 =
    setX 0 0x123456789ABCDEF0 (example_core 0).
Proof.
  assert (wf_Core (example_core 0)) as Hc by (apply example_core_wf; unfold uint; lia).
  assert (uint 64 0x123456789ABCDEF0) as Hv by (unfold uint; lia).
  split; [by split|].
  apply (mov_constant (example_core 0) 0 0x123456789ABCDEF0); try done; by vm_compute.
Defined.

(** ** Reversals

    One line of the reversals exchanges bit [i] with bit [i xor 2^k]. *)

(** [hi] selects the positions whose bit [k] is set, [lo] the others. *)
Definition swap_masks (k hi lo : Z) : bool :=
  forallb (fun j => Bool.eqb (Z.testbit hi j) (Z.testbit j k) &&
                    Bool.eqb (Z.testbit lo j) (negb (Z.testbit j k)))
    (map Z.of_nat (seq 0 64)).

Lemma in_positions i : 0 <= i < 64 -> In i (map Z.of_nat (seq 0 64)).
Proof.
  intros Hi. apply in_map_iff. exists (Z.to_nat i). split; [lia|]. apply in_seq. lia.
Qed.

Lemma lxor_pow2 i k :
  0 <= k -> 0 <= i ->
  Z.lxor i (2 ^ k) = if Z.testbit i k then i - 2 ^ k else i + 2 ^ k.
Proof.
  intros Hk Hi. destruct (Z.testbit i k) eqn:E.
  - assert (Z.land (2 ^ k) i = 2 ^ k) as Hl.
    { apply Z.bits_inj'. intros j Hj. rewrite Z.land_spec, Z.pow2_bits_eqb by lia.
      destruct (Z.eqb_spec k j) as [<-|]; [by rewrite E|done]. }
    assert (Z.lxor i (2 ^ k) = Z.ldiff i (2 ^ k)) as ->.
    { apply Z.bits_inj'. intros j Hj. rewrite Z.lxor_spec, Z.ldiff_spec, Z.pow2_bits_eqb by lia.
      destruct (Z.eqb_spec k j) as [<-|]; [by rewrite E|].
      by rewrite xorb_false_r, andb_true_r. }
    symmetry. apply Z.sub_nocarry_ldiff.
    apply Z.bits_inj'. intros j Hj. rewrite Z.ldiff_spec, Z.pow2_bits_eqb, Z.bits_0 by lia.
    destruct (Z.eqb_spec k j) as [<-|]; [by rewrite E|done].
  - symmetry. apply Z.add_nocarry_lxor. apply Z.bits_inj'. intros j Hj.
    rewrite Z.land_spec, Z.pow2_bits_eqb, Z.bits_0 by lia.
    destruct (Z.eqb_spec k j) as [<-|]; [by rewrite E|apply andb_false_r].
Qed.

Lemma testbit_swapLine k hi lo op i :
  swap_masks k hi lo = true -> 0 <= k < 6 -> 0 <= i < 64 -> uint 64 op ->
  Z.testbit (swapLine (2 ^ k) hi lo op) i = Z.testbit op (Z.lxor i (2 ^ k)).
Proof.
  intros Hm Hk Hi Hop. unfold swap_masks in Hm. rewrite forallb_forall in Hm.
  specialize (Hm i (in_positions i Hi)). apply andb_true_iff in Hm as [Hh Hl].
  apply Bool.eqb_prop in Hh, Hl.
  pose proof (Z.pow_pos_nonneg 2 k ltac:(lia) ltac:(lia)).
  unfold swapLine. rewrite Z.lor_spec, !Z.land_spec, Hh, Hl.
  rewrite Z.shiftr_spec, testbit_u64, testbit_shiftl by lia.
  rewrite (proj2 (Z.ltb_lt i 64)) by lia. rewrite lxor_pow2 by lia.
  destruct (Z.testbit i k) eqn:E; cbn [andb orb negb].
  - rewrite andb_true_r, andb_false_r, orb_false_r.
    destruct (Z.leb_spec 0 (i - 2 ^ k)); [done|].
    rewrite (testbit_uint_high k i) in E; [done| |lia|lia]. unfold uint. lia.
  - by rewrite andb_false_r, andb_true_r.
Qed.

Lemma lxor_bounds i k : 0 <= i < 64 -> 0 <= k < 6 -> 0 <= Z.lxor i (2 ^ k) < 64.
Proof.
  intros Hi Hk. apply (uint_lxor 6); [lia|unfold uint; simpl; lia|].
  unfold uint. split; [lia|]. apply Z.pow_lt_mono_r; lia.
Qed.

Lemma swapLine_uint64 k hi lo op :
  uint 64 hi -> uint 64 lo -> uint 64 op -> 0 <= k -> uint 64 (swapLine (2 ^ k) hi lo op).
Proof.
  intros Hh Hl Ho Hk. unfold swapLine. apply uint_lor; [lia|auto with emu|].
  apply uint_land_both; [lia| |done]. apply uint_shiftr; [lia|done|].
  apply Z.pow_nonneg. lia.
Qed.

(** [swaps ks]: the lines for the exponents [ks], the last one applied first. *)
Fixpoint swaps (lines : list (Z * Z * Z)) (op : Z) : Z :=
  match lines with
  | [] => op
  | (k, hi, lo) :: lines => swapLine (2 ^ k) hi lo (swaps lines op)
  end.

Definition lines_ok (lines : list (Z * Z * Z)) : bool :=
  forallb (fun '(k, hi, lo) => swap_masks k hi lo && (0 <=? k) && (k <? 6) &&
    (0 <=? hi) && (hi <? 2 ^ 64) && (0 <=? lo) && (lo <? 2 ^ 64)) lines.

Lemma testbit_swaps lines op i :
  lines_ok lines = true -> uint 64 op -> 0 <= i < 64 ->
  uint 64 (swaps lines op) /\
  Z.testbit (swaps lines op) i =
  Z.testbit op (fold_left (fun i '(k, _, _) => Z.lxor i (2 ^ k)) lines i).
Proof.
  intros Hok Hop. revert i. induction lines as [|[[k hi] lo] lines IH]; intros i Hi; [done|].
  cbn [lines_ok forallb] in Hok. apply andb_true_iff in Hok as [Hk Hok].
  apply andb_true_iff in Hk as [Hk H6%Z.ltb_lt].
  apply andb_true_iff in Hk as [Hk H5%Z.leb_le].
  apply andb_true_iff in Hk as [Hk H4%Z.ltb_lt].
  apply andb_true_iff in Hk as [Hk H3%Z.leb_le].
  apply andb_true_iff in Hk as [Hk H2%Z.ltb_lt].
  apply andb_true_iff in Hk as [H0 H1%Z.leb_le].
  destruct (IH Hok _ (lxor_bounds i k Hi ltac:(lia))) as [Hu Ht]. cbn [swaps fold_left].
  split; [apply swapLine_uint64; unfold uint; done || lia|].
  by rewrite testbit_swapLine.
Qed.

(** The three masks of each line. *)
Definition line1 := (0, 0xAAAAAAAAAAAAAAAA, 0x5555555555555555).
Definition line2 := (1, 0xCCCCCCCCCCCCCCCC, 0x3333333333333333).
Definition line4 := (2, 0xF0F0F0F0F0F0F0F0, 0x0F0F0F0F0F0F0F0F).
Definition line8 := (3, 0xFF00FF00FF00FF00, 0x00FF00FF00FF00FF).
Definition line16 := (4, 0xFFFF0000FFFF0000, 0x0000FFFF0000FFFF).
Definition line32 := (5, 0xFFFFFFFF00000000, 0x00000000FFFFFFFF).

(** A permutation of bit positions checked on each of them. *)
Lemma permutation_check (n : nat) (f g : Z -> Z) i :
  forallb (fun j => f j =? g j) (map Z.of_nat (seq 0 n)) = true ->
  0 <= i < Z.of_nat n -> f i = g i.
Proof.
  intros H Hi. rewrite forallb_forall in H. apply Z.eqb_eq, H, in_map_iff.
  exists (Z.to_nat i). split; [lia|]. apply in_seq. lia.
Qed.

(** The destination of a reversal holds bit [perm i] of the source at bit [i]. *)
Definition permutes (is64 : bool) (core : Core) (inst : Z) (core' : Core)
    (perm : Z -> Z) : Prop :=
  exists v, core' = setX (Inst.Rd inst) v core /\ uint (width is64) v /\
    forall i, 0 <= i < width is64 ->
      Z.testbit v i = Z.testbit (getX core (Inst.Rn inst)) (perm i).

Lemma permutes_intro (is64 : bool) core inst lines last perm :
  wf_Core core -> lines_ok lines = true -> lines_ok (last :: lines) = true ->
  (forall i, 0 <= i < width is64 ->
     fold_left (fun i '(k, _, _) => Z.lxor i (2 ^ k))
       (if is64 then last :: lines else lines) i = perm i) ->
  permutes is64 core inst
    (setX (Inst.Rd inst)
       (if is64 then swaps (last :: lines) (getX core (Inst.Rn inst))
        else Z.land (swaps lines (getX core (Inst.Rn inst))) (bitmask 32)) core) perm.
Proof.
  intros Hc H1 H2 Hp. pose proof (getX_uint core (Inst.Rn inst) Hc) as Hu.
  eexists. split; [done|]. destruct is64; simpl width in *.
  - split; [by apply (testbit_swaps _ _ 0)|]. intros i Hi.
    destruct (testbit_swaps (last :: lines) _ i H2 Hu Hi) as [_ ->]. by rewrite Hp.
  - rewrite bitmask_ones, wrap_land_ones by lia. split; [by apply wrap_uint|].
    intros i Hi. rewrite testbit_wrap by lia. rewrite (proj2 (Z.ltb_lt i 32)) by lia.
    destruct (testbit_swaps lines _ i H1 Hu ltac:(lia)) as [_ ->]. by rewrite Hp.
Qed.

(** The handlers as compositions of lines. *)
Ltac lines_tac :=
  cbn [swaps line1 line2 line4 line8 line16 line32];
  change (2 ^ 0) with 1; change (2 ^ 1) with 2; change (2 ^ 2) with 4;
  change (2 ^ 3) with 8; change (2 ^ 4) with 16; change (2 ^ 5) with 32;
  reflexivity.

Lemma reverseBits_swaps is64 core inst :
  reverseBits is64 core inst =
  let op := getX core (Inst.Rn inst) in
  setX (Inst.Rd inst)
    (if is64 then swaps [line32; line16; line8; line4; line2; line1] op
     else Z.land (swaps [line16; line8; line4; line2; line1] op) (bitmask 32)) core.
Proof. unfold reverseBits. cbv zeta. lines_tac. Qed.

Lemma reverseBytes_swaps is64 core inst :
  reverseBytes is64 core inst =
  let op := getX core (Inst.Rn inst) in
  setX (Inst.Rd inst)
    (if is64 then swaps [line32; line16; line8] op
     else Z.land (swaps [line16; line8] op) (bitmask 32)) core.
Proof. unfold reverseBytes. cbv zeta. lines_tac. Qed.

(** RBIT reverses the bits and REV the bytes of the register, at both widths. *)
Theorem rbit_rev_spec (is64 : bool) (core : Core) (inst : Z) :
  wf_Core core ->
  permutes is64 core inst (reverseBits is64 core inst) (fun i => width is64 - 1 - i) /\
  permutes is64 core inst (reverseBytes is64 core inst)
    (fun i => 8 * (width is64 / 8 - 1 - i / 8) + i mod 8).
Proof.
  intros Hc. rewrite reverseBits_swaps, reverseBytes_swaps. split.
  - apply (permutes_intro is64 core inst [line16; line8; line4; line2; line1] line32);
      [done|by vm_compute|by vm_compute|].
    intros i Hi. destruct is64.
    + apply (permutation_check 64 _ (fun i => 64 - 1 - i)); [by vm_compute|exact Hi].
    + apply (permutation_check 32 _ (fun i => 32 - 1 - i)); [by vm_compute|exact Hi].
  - apply (permutes_intro is64 core inst [line16; line8] line32);
      [done|by vm_compute|by vm_compute|].
    intros i Hi. destruct is64.
    + apply (permutation_check 64 _ (fun i => 8 * (64 / 8 - 1 - i / 8) + i mod 8));
        [by vm_compute|exact Hi].
    + apply (permutation_check 32 _ (fun i => 8 * (32 / 8 - 1 - i / 8) + i mod 8));
        [by vm_compute|exact Hi].
Qed.

(** [rbit x0, x1] and [rev x0, x1] *)
Lemma rbit_rev_spec_witness :
  wf_Core (example_core 0x0123456789ABCDEF) /\
  permutes true (example_core 0x0123456789ABCDEF) 0xDAC00020
    (reverseBits true (example_core 0x0123456789ABCDEF) 0xDAC00020) (fun i => 64 - 1 - i) /\
  permutes true (example_core 0x0123456789ABCDEF) 0xDAC00C20
    (reverseBytes true (example_core 0x0123456789ABCDEF) 0xDAC00C20)
    (fun i => 8 * (64 / 8 - 1 - i / 8) + i mod 8).
Proof.
  assert (wf_Core (example_core 0x0123456789ABCDEF)) as Hc
    by (apply example_core_wf; unfold uint; lia).
  split; [exact Hc|]. split.
  - exact (proj1 (rbit_rev_spec true _ 0xDAC00020 Hc)).
  - exact (proj2 (rbit_rev_spec true _ 0xDAC00C20 Hc)).
Defined.

(** REV16 reverses halfwords instead of the bytes of each halfword, REV32 words instead
    of the bytes of each word. *)
Lemma rev16_rev32_permutation (is64 : bool) (core : Core) (inst : Z) :
  wf_Core core ->
  permutes is64 core inst (reverse16 is64 core inst)
    (fun i => 16 * (width is64 / 16 - 1 - i / 16) + i mod 16) /\
  permutes true core inst (reverse32 core inst)
    (fun i => 32 * (1 - i / 32) + i mod 32).
Proof.
  intros Hc. split.
  - apply (permutes_intro is64 core inst [line16] line32);
      [done|by vm_compute|by vm_compute|].
    intros i Hi. destruct is64.
    + apply (permutation_check 64 _ (fun i => 16 * (64 / 16 - 1 - i / 16) + i mod 16));
        [by vm_compute|exact Hi].
    + apply (permutation_check 32 _ (fun i => 16 * (32 / 16 - 1 - i / 16) + i mod 16));
        [by vm_compute|exact Hi].
  - apply (permutes_intro true core inst [] line32); [done|by vm_compute|by vm_compute|].
    intros i Hi. apply (permutation_check 64 _ (fun i => 32 * (1 - i / 32) + i mod 32));
      [by vm_compute|exact Hi].
Qed.

(** ** Leading zeros *)

Lemma wrap_top_clear op i :
  0 <= i -> Z.testbit op i = false -> wrap (i + 1) op = wrap i op.
Proof.
  intros Hi Hb. apply Z.bits_inj'. intros j Hj. rewrite !testbit_wrap by lia.
  destruct (Z.ltb_spec j (i + 1)), (Z.ltb_spec j i); cbn [andb]; try done; try lia.
  by replace j with i by lia.
Qed.

Lemma wrap_top_set op i :
  0 <= i -> Z.testbit op i = true -> wrap (i + 1) op <> 0 /\ Z.log2 (wrap (i + 1) op) = i.
Proof.
  intros Hi Hb. pose proof (wrap_uint (i + 1) ltac:(lia) op) as Hu. unfold uint in Hu.
  assert (Z.testbit (wrap (i + 1) op) i = true) as Ht
    by (rewrite testbit_wrap, (proj2 (Z.ltb_lt i (i + 1))) by lia; done).
  assert (wrap (i + 1) op <> 0) as Hne by (intros E; by rewrite E, Z.bits_0 in Ht).
  split; [done|]. assert (2 ^ i <= wrap (i + 1) op).
  { destruct (Z.lt_ge_cases (wrap (i + 1) op) (2 ^ i)) as [Hlt|]; [|done].
    rewrite (testbit_uint_high i) in Ht; [done|unfold uint; lia|lia|lia]. }
  apply Z.log2_unique; [lia|]. replace (Z.succ i) with (i + 1) by lia. lia.
Qed.

Lemma countLoop_clear `{ShiftTarget} fuel op index res :
  -1 <= index < 64 -> index + 1 < Z.of_nat fuel ->
  countLoop fuel false op index res =
  res + (if wrap (index + 1) op =? 0 then index + 1
         else index - Z.log2 (wrap (index + 1) op)).
Proof.
  revert index res. induction fuel as [|fuel IH]; intros index res Hi Hf; [lia|].
  cbn [countLoop]. destruct (Z.eq_dec index (-1)) as [->|Hne].
  - simpl. unfold wrap. rewrite Z.mod_1_r. simpl. lia.
  - rewrite Z.geb_leb, (proj2 (Z.leb_le 0 index)), testBit_rt_spec by lia. cbn [andb].
    destruct (Z.testbit op index) eqn:E; cbn [Bool.eqb].
    + destruct (wrap_top_set op index ltac:(lia) E) as [Hw ->].
      rewrite (proj2 (Z.eqb_neq _ 0)) by done. lia.
    + rewrite IH by lia. rewrite (wrap_top_clear op index) by (lia || done).
      replace (index - 1 + 1) with index by lia. destruct (_ =? 0); lia.
Qed.

(** The number of leading zeros of a [w]-bit value. *)
Definition leading_zeros (w x : Z) : Z := if x =? 0 then w else w - 1 - Z.log2 x.

(** CLZ counts the leading zeros of the register at the width of the operation;
    the loop ends for every operand, zero included. *)
Theorem clz_spec `{ShiftTarget} (is64 : bool) (core : Core) (inst : Z) :
  countLeadingClearBits is64 core inst =
  setX (Inst.Rd inst)
    (leading_zeros (width is64) (wrap (width is64) (getX core (Inst.Rn inst)))) core.
Proof.
  unfold countLeadingClearBits, leading_zeros. cbv zeta. f_equal.
  destruct is64; simpl width; rewrite countLoop_clear by (simpl; lia); 
    [change (63 + 1) with 64|change (31 + 1) with 32];
    destruct (_ =? 0); lia.
Qed.

(** CLS counts ones from the top: of zero it returns 0, where the architecture counts
    63 further sign bits. *)
Example cls_of_zero :
  getX (countLeadingSetBits true (example_core 0) 0xDAC01420) 0 = 0.
Proof. vm_compute. reflexivity. Qed.

(** ** High halves of products *)

Lemma high_product (a b : Z) :
  uint 64 a -> uint 64 b ->
  let op1hi := Z.shiftr a 32 in let op1lo := Z.land a 0xFFFFFFFF in
  let op2hi := Z.shiftr b 32 in let op2lo := Z.land b 0xFFFFFFFF in
  let bd := u64 (op1lo * op2lo) in let bc := u64 (op1lo * op2hi) in
  let ad := u64 (op1hi * op2lo) in let ac := u64 (op1hi * op2hi) in
  let cy := u32 (Z.shiftr (u64 (Z.land ad 0xFFFFFFFF + Z.land bc 0xFFFFFFFF +
                                Z.shiftr bd 32)) 32) in
  u64 (ac + Z.shiftr ad 32 + Z.shiftr bc 32 + cy) = a * b / 2 ^ 64.
Proof.
  unfold uint. intros Ha Hb. cbv zeta. change 0xFFFFFFFF with (Z.ones 32).
  rewrite !Z.land_ones, !Z.shiftr_div_pow2 by lia.
  pose proof (Z.div_mod a (2 ^ 32) ltac:(lia)) as Ea.
  pose proof (Z.div_mod b (2 ^ 32) ltac:(lia)) as Eb.
  pose proof (Z.mod_pos_bound a (2 ^ 32) ltac:(lia)) as Hal.
  pose proof (Z.mod_pos_bound b (2 ^ 32) ltac:(lia)) as Hbl.
  assert (0 <= a / 2 ^ 32 < 2 ^ 32) as Hah
    by (split; [apply Z.div_pos|apply Z.div_lt_upper_bound]; lia).
  assert (0 <= b / 2 ^ 32 < 2 ^ 32) as Hbh
    by (split; [apply Z.div_pos|apply Z.div_lt_upper_bound]; lia).
  set (ah := a / 2 ^ 32) in *. set (al := a mod 2 ^ 32) in *.
  set (bh := b / 2 ^ 32) in *. set (bl := b mod 2 ^ 32) in *.
  assert (forall x y, 0 <= x < 2 ^ 32 -> 0 <= y < 2 ^ 32 ->
    0 <= x * y <= (2 ^ 32 - 1) * (2 ^ 32 - 1)) as Hp by (intros; nia).
  pose proof (Hp al bl Hal Hbl). pose proof (Hp al bh Hal Hbh).
  pose proof (Hp ah bl Hah Hbl). pose proof (Hp ah bh Hah Hbh).
  assert (a * b = ah * bh * 2 ^ 64 + (ah * bl + al * bh) * 2 ^ 32 + al * bl) as Eab
    by (rewrite Ea, Eb; ring).
  rewrite (u64_id (al * bl)), (u64_id (al * bh)), (u64_id (ah * bl)), (u64_id (ah * bh))
    by (unfold uint; lia).
  generalize dependent (al * bl). generalize dependent (al * bh).
  generalize dependent (ah * bl). generalize dependent (ah * bh).
  intros ac Hac ad Had bc Hbc bd Hbd Eab.
  pose proof (Z.div_mod ad (2 ^ 32) ltac:(lia)). pose proof (Z.mod_pos_bound ad (2 ^ 32) ltac:(lia)).
  pose proof (Z.div_mod bc (2 ^ 32) ltac:(lia)). pose proof (Z.mod_pos_bound bc (2 ^ 32) ltac:(lia)).
  pose proof (Z.div_mod bd (2 ^ 32) ltac:(lia)). pose proof (Z.mod_pos_bound bd (2 ^ 32) ltac:(lia)).
  set (s := ad mod 2 ^ 32 + bc mod 2 ^ 32 + bd / 2 ^ 32).
  assert (0 <= s < 3 * 2 ^ 32) as Hs by (subst s; lia).
  rewrite (u64_id s) by (unfold uint; lia).
  pose proof (Z.div_mod s (2 ^ 32) ltac:(lia)). pose proof (Z.mod_pos_bound s (2 ^ 32) ltac:(lia)).
  unfold u32. rewrite (wrap_id 32) by (unfold uint; lia).
  set (r := ac + ad / 2 ^ 32 + bc / 2 ^ 32 + s / 2 ^ 32).
  assert (a * b = 2 ^ 64 * r + (2 ^ 32 * (s mod 2 ^ 32) + bd mod 2 ^ 32)) as E
    by (subst r s; lia).
  assert (0 <= 2 ^ 32 * (s mod 2 ^ 32) + bd mod 2 ^ 32 < 2 ^ 64) as Hrem by lia.
  rewrite <-(Z.div_unique_pos (a * b) (2 ^ 64) r _ Hrem E).
  apply u64_id. unfold uint. split; [subst r; lia|]. nia.
Qed.

(** UMULH and SMULH return the high 64 bits of the 128-bit product, unsigned and
    signed, although the code only multiplies 32-bit halves. *)
Theorem mulh_spec (core : Core) (inst : Z) :
  wf_Core core ->
  let a := getX core (Inst.Rn inst) in
  let b := getX core (Inst.Rm inst) in
  mulhGeneric false core inst = setX (Inst.Rd inst) (a * b / 2 ^ 64) core /\
  mulhGeneric true core inst =
    setX (Inst.Rd inst) (u64 (to_signed 64 a * to_signed 64 b / 2 ^ 64)) core.
Proof.
  intros Hc a b. pose proof (getX_uint core (Inst.Rn inst) Hc) as Ha.
  pose proof (getX_uint core (Inst.Rm inst) Hc) as Hb. fold a in Ha. fold b in Hb.
  unfold mulhGeneric. cbv zeta. fold a b. rewrite high_product by done.
  split; [done|]. f_equal. rewrite !testBit_spec by lia.
  change 63 with (64 - 1). rewrite !testbit_msb by lia. fold (wrap 64 a) (wrap 64 b).
  rewrite !to_signed_eq by lia. rewrite (wrap_id 64 a), (wrap_id 64 b) by done.
  unfold uint in *. change (64 - 1) with 63.
  assert (forall x k, u64 (x - k * 2 ^ 64) = u64 x) as Hk.
  { intros x k. unfold u64, wrap. replace (x - k * 2 ^ 64) with (x + (- k) * 2 ^ 64) by lia.
    apply Z_mod_plus_full. }
  assert (0 <= a * b / 2 ^ 64 < 2 ^ 64) as Hab.
  { split; [apply Z.div_pos; nia|apply Z.div_lt_upper_bound; nia]. }
  destruct (Z.leb_spec (2 ^ 63) a), (Z.leb_spec (2 ^ 63) b).
  - replace ((a - 2 ^ 64) * (b - 2 ^ 64)) with (a * b + (2 ^ 64 - a - b) * 2 ^ 64) by ring.
    rewrite Z.div_add by lia. unfold u64 at 1 2. rewrite <-(Z.add_opp_r _ a), wrap_add_l by lia.
    rewrite Z.add_opp_r. fold (u64 (a * b / 2 ^ 64 - b - a)).
    rewrite <-(Hk (a * b / 2 ^ 64 + _) 1). f_equal. lia.
  - replace ((a - 2 ^ 64) * (b - 0)) with (a * b + (- b) * 2 ^ 64) by ring.
    rewrite Z.div_add by lia. f_equal.
  - replace ((a - 0) * (b - 2 ^ 64)) with (a * b + (- a) * 2 ^ 64) by ring.
    rewrite Z.div_add by lia. f_equal.
  - rewrite !Z.sub_0_r. symmetry. by apply u64_id.
Qed.

(** [smulh x0, x1, x1] of -2 *)
Lemma mulh_spec_witness :
  wf_Core (example_core 0xFFFFFFFFFFFFFFFE) /\
  mulhGeneric true (example_core 0xFFFFFFFFFFFFFFFE) 0x9B417C20 =
    setX 0 0 (example_core 0xFFFFFFFFFFFFFFFE).
Proof.
  assert (wf_Core (example_core 0xFFFFFFFFFFFFFFFE)) as Hc
    by (apply example_core_wf; unfold uint; lia).
  split; [exact Hc|].
  rewrite (proj2 (mulh_spec (example_core 0xFFFFFFFFFFFFFFFE) 0x9B417C20 Hc)).
  vm_compute. reflexivity.
Defined.

(** ** Division *)

(** Sign extension of the 32-bit operands, read back as [int64_t]. *)
Lemma signed_operand (is64 : bool) (x : Z) :
  uint 64 x ->
  let y := if is64 then x else signExtend 32 (Z.land x (bitmask 32)) in
  uint 64 y /\ to_signed 64 y = to_signed (width is64) x.
Proof.
  intros Hx. cbv zeta. destruct is64; simpl width; [done|].
  rewrite bitmask_ones, wrap_land_ones by lia.
  rewrite signExtend_to_signed by (try apply wrap_uint; lia).
  split; [apply u64_uint|]. rewrite to_signed_wrap by lia.
  pose proof (to_signed_bounds 32 x ltac:(lia)) as Hb.
  rewrite to_signed_wrap by lia. unfold u64. rewrite to_signed_eq by lia.
  unfold wrap. destruct (Z.lt_ge_cases (to_signed 32 x) 0) as [Hn|Hn].
  - rewrite <-(Z.mod_unique_pos (to_signed 32 x) (2 ^ 64) (-1) (to_signed 32 x + 2 ^ 64))
      by lia. change (2 ^ (32 - 1)) with (2 ^ 31) in Hb.
    rewrite (proj2 (Z.leb_le _ _)) by lia. lia.
  - change (2 ^ (32 - 1)) with (2 ^ 31) in Hb. rewrite Z.mod_small by lia.
    rewrite (proj2 (Z.leb_gt _ _)) by lia. lia.
Qed.

(** The quotients of the architecture: zero for a zero divisor, truncated toward zero,
    wrapped to the width (which makes the most negative number divided by -1 itself). *)
Definition arm_udiv (w x y : Z) : Z := wrap w x / wrap w y.
Definition arm_sdiv (w x y : Z) : Z :=
  if to_signed w y =? 0 then 0 else wrap w (Z.quot (to_signed w x) (to_signed w y)).

Lemma to_signed_zero w y : 0 < w -> uint w y -> (to_signed w y =? 0) = (y =? 0).
Proof.
  intros Hw [H0 H1]. rewrite to_signed_eq by done. rewrite wrap_id by done.
  apply eq_true_iff_eq. rewrite !Z.eqb_eq. destruct (Z.leb_spec (2 ^ (w - 1)) y); lia.
Qed.

Lemma quot_minus_one (x : Z) : Z.quot x (-1) = - x.
Proof. change (-1) with (- (1)). by rewrite Z.quot_opp_r, Z.quot_1_r. Qed.

(** UDIV and SDIV at both widths: every case of the architecture, division by
    zero and the overflowing [MIN / -1] included. *)
Theorem div_spec (is64 : bool) (core : Core) (inst : Z) :
  wf_Core core ->
  let x := getX core (Inst.Rn inst) in
  let y := getX core (Inst.Rm inst) in
  unsignedDivide is64 core inst = setX (Inst.Rd inst) (arm_udiv (width is64) x y) core /\
  signedDivide is64 core inst = setX (Inst.Rd inst) (arm_sdiv (width is64) x y) core.
Proof.
  intros Hc x y. pose proof (getX_uint core (Inst.Rn inst) Hc) as Hx. fold x in Hx.
  pose proof (getX_uint core (Inst.Rm inst) Hc) as Hy. fold y in Hy. split.
  - unfold unsignedDivide, arm_udiv. cbv zeta. fold x y. destruct is64; simpl width.
    + rewrite (wrap_id 64 x), (wrap_id 64 y) by done. f_equal.
      destruct (Z.eqb_spec y 0) as [->|]; [by rewrite Z.div_0_r|done].
    + rewrite !bitmask_ones, !wrap_land_ones by lia. f_equal.
      pose proof (wrap_uint 32 ltac:(lia) x) as Hx'. pose proof (wrap_uint 32 ltac:(lia) y) as Hy'.
      destruct (Z.eqb_spec (wrap 32 y) 0) as [->|]; [by rewrite Z.div_0_r|].
      apply wrap_id. unfold uint in *. split; [apply Z.div_pos; lia|].
      apply Z.div_lt_upper_bound; nia.
  - unfold signedDivide, arm_sdiv. cbv zeta. fold x y.
    destruct (signed_operand is64 x Hx) as [Hx' Ex]. destruct (signed_operand is64 y Hy) as [Hy' Ey].
    destruct is64; simpl width in *.
    + f_equal. rewrite <-(to_signed_zero 64 y) by (done || lia).
      destruct (Z.eqb_spec (to_signed 64 y) 0); [done|]. cbn [andb].
      destruct (Z.eqb_spec x 0x8000000000000000) as [->|]; [|done]. cbn [andb].
      destruct (Z.eqb_spec y 0xFFFFFFFFFFFFFFFF) as [->|]; [|done].
      change (to_signed 64 0xFFFFFFFFFFFFFFFF) with (-1). by rewrite quot_minus_one.
    + cbn [andb]. rewrite !bitmask_ones, wrap_land_ones in * by lia.
      rewrite !wrap_land_ones in * by lia. f_equal.
      rewrite <-(to_signed_zero 64) by (done || lia). rewrite Ey, Ex.
      destruct (_ =? 0); [done|]. apply wrap_wrap_le. lia.
Qed.

(** [sdiv x0, x1, x1] of the most negative number, and by zero *)
Lemma div_spec_witness :
  wf_Core (example_core 0x8000000000000000) /\
  signedDivide true (example_core 0x8000000000000000) 0x9AC10C20 =
    setX 0 1 (example_core 0x8000000000000000) /\
  unsignedDivide true (example_core 0x8000000000000000) 0x9AC20820 =
    setX 0 0 (example_core 0x8000000000000000).
Proof.
  assert (wf_Core (example_core 0x8000000000000000)) as Hc
    by (apply example_core_wf; unfold uint; lia).
  split; [exact Hc|]. split.
  - rewrite (proj2 (div_spec true _ 0x9AC10C20 Hc)). vm_compute. reflexivity.
  - rewrite (proj1 (div_spec true _ 0x9AC20820 Hc)). vm_compute. reflexivity.
Defined.

(** ** Shifts *)

(** The four shifts of the architecture on a [w]-bit value. *)
Definition arm_shift (w : Z) (t : SHIFT_TYPE) (x n : Z) : Z :=
  match t with
  | LSL => wrap w (Z.shiftl x n)
  | LSR => Z.shiftr x n
  | ASR => wrap w (Z.shiftr (to_signed w x) n)
  | ROR => wrap w (Z.lor (Z.shiftr x n) (Z.shiftl x (w - n)))
  end.

Lemma shift_spec (w : Z) (t : SHIFT_TYPE) (x n : Z) :
  w = 32 \/ w = 64 -> uint w x -> 0 <= n < w ->
  wrap w (shift x t n w) = arm_shift w t x n.
Proof.
  intros Hw Hx Hn. assert (uint 64 x) as Hx64 by (apply (uint_le w); [done|lia]).
  unfold shift. destruct (Z.eqb_spec n 0) as [->|Hn0].
  - rewrite wrap_id by done. destruct t; cbn [arm_shift].
    + by rewrite Z.shiftl_0_r, wrap_id.
    + by rewrite Z.shiftr_0_r.
    + by rewrite Z.shiftr_0_r, wrap_to_signed, wrap_id by (done || lia).
    + rewrite Z.sub_0_r, Z.shiftr_0_r. apply Z.bits_inj'. intros i Hi.
      rewrite testbit_wrap, Z.lor_spec, testbit_shiftl by lia.
      destruct (Z.ltb_spec i w); cbn [andb].
      * rewrite (proj2 (Z.leb_gt 0 (i - w))) by lia. by rewrite orb_false_r.
      * apply (testbit_uint_high w); done || lia.
  - destruct t; cbn [arm_shift].
    + rewrite shl64_small by lia. apply wrap_wrap_le. lia.
    + rewrite shr64_small by lia. apply wrap_id, uint_shiftr; lia || done.
    + rewrite shr64_small by lia. rewrite u64_id by (unfold uint; lia).
      rewrite signExtend_rt_eq by lia.
      assert (uint (w - n) (Z.shiftr x n)) as Hs.
      { unfold uint in *. rewrite Z.shiftr_div_pow2 by lia.
        split; [apply Z.div_pos; lia|]. apply Z.div_lt_upper_bound; [lia|].
        rewrite <-Z.pow_add_r by lia. replace (n + (w - n)) with w by lia. lia. }
      rewrite signExtend_to_signed by (done || lia).
      unfold u64. rewrite wrap_wrap_le by lia. f_equal.
      rewrite !to_signed_eq by lia. rewrite (wrap_id w x), (wrap_id (w - n)) by (done || lia).
      rewrite !Z.shiftr_div_pow2 by lia. unfold uint in *.
      assert (2 ^ (w - 1) = 2 ^ (w - n - 1) * 2 ^ n) as E1
        by (rewrite <-Z.pow_add_r by lia; f_equal; lia).
      assert (2 ^ w = 2 ^ (w - n) * 2 ^ n) as E2
        by (rewrite <-Z.pow_add_r by lia; f_equal; lia).
      assert (0 < 2 ^ n) by (apply Z.pow_pos_nonneg; lia).
      destruct (Z.leb_spec (2 ^ (w - 1)) x) as [Hl|Hl].
      * rewrite (proj2 (Z.leb_le _ (x / 2 ^ n))).
        2: { apply Z.div_le_lower_bound; lia. }
        replace (x - 2 ^ w) with (x + (- 2 ^ (w - n)) * 2 ^ n) by lia.
        rewrite Z.div_add by lia. lia.
      * rewrite (proj2 (Z.leb_gt _ (x / 2 ^ n))).
        2: { apply Z.div_lt_upper_bound; lia. }
        by rewrite !Z.sub_0_r.
    + rewrite shr64_small by lia. rewrite u64_id by (unfold uint; lia).
      rewrite shl64_small by lia. bitwise.
Qed.

(** LSLV, LSRV, ASRV and RORV: the shift amount is taken modulo the width, and the
    result is the architecture's shift of the register at that width. *)
Theorem shiftv_spec (is64 : bool) (core : Core) (inst : Z) :
  wf_Core core ->
  let w := width is64 in
  shiftGeneric is64 core inst =
  setX (Inst.Rd inst)
    (arm_shift w (toShiftType (bitRange 10 11 inst)) (wrap w (getX core (Inst.Rn inst)))
       (getX core (Inst.Rm inst) mod w)) core.
Proof.
  intros Hc w. pose proof (getX_uint core (Inst.Rn inst) Hc) as Hx.
  assert (w = 32 \/ w = 64) as Hw by (subst w; destruct is64; simpl; lia).
  unfold shiftGeneric. cbv zeta. rewrite size_width. fold w.
  pose proof (Z.mod_pos_bound (getX core (Inst.Rm inst)) w ltac:(lia)) as Hn.
  rewrite (operand_wrap is64 _ Hx). fold w.
  assert (uint w (wrap w (getX core (Inst.Rn inst)))) as Hxw by (apply wrap_uint; lia).
  rewrite operand_wrap.
  - fold w. by rewrite shift_spec.
  - apply shift_uint, (uint_le w); [done|lia].
Qed.

(** [asrv w0, w1, w1] of 0x80000004 *)
Lemma shiftv_spec_witness :
  wf_Core (example_core 0x80000004) /\
  shiftGeneric false (example_core 0x80000004) 0x1AC12820 =
    setX 0 0xF8000000 (example_core 0x80000004).
Proof.
  assert (wf_Core (example_core 0x80000004)) as Hc
    by (apply example_core_wf; unfold uint; lia).
  split; [exact Hc|].
  rewrite (shiftv_spec false _ 0x1AC12820 Hc). vm_compute. reflexivity.
Defined.

(** ** Addition and subtraction *)

Lemma to_signed_ext w x y : wrap w x = wrap w y -> to_signed w x = to_signed w y.
Proof. intros E. unfold to_signed. by rewrite E. Qed.

Lemma arm_flags_ext w x x' y y' c :
  0 <= w -> wrap w x = wrap w x' -> wrap w y = wrap w y' ->
  arm_flags w x y c = arm_flags w x' y' c.
Proof.
  intros Hw Hx Hy. unfold arm_flags.
  rewrite (wrap_sum3 w x y), (wrap_sum3 w x' y'), Hx, Hy by done.
  by rewrite (to_signed_ext w x x'), (to_signed_ext w y y').
Qed.

(** The second operand of the architecture: the register, at the width, shifted. *)
Definition arm_operand2 (w : Z) (core : Core) (inst : Z) : Z :=
  arm_shift w (toShiftType (Inst.shift inst)) (wrap w (getX core (Inst.Rm inst)))
    (Inst._10_15 inst).

(** When the code's shift of the whole register is right: at 64 bits, and at 32 bits
    for a register whose upper half is clear. *)
Definition operand2_ok (is64 : bool) (core : Core) (inst : Z) : Prop :=
  0 <= Inst._10_15 inst < width is64 /\ uint (width is64) (getX core (Inst.Rm inst)).

Lemma operand2_spec (is64 : bool) (core : Core) (inst : Z) :
  operand2_ok is64 core inst ->
  wrap (width is64)
    (shift (getX core (Inst.Rm inst)) (toShiftType (Inst.shift inst)) (Inst._10_15 inst)
       (if is64 then 64 else 32)) = arm_operand2 (width is64) core inst.
Proof.
  intros [Hn Hm]. rewrite size_width. unfold arm_operand2. rewrite (wrap_id _ _ Hm).
  apply shift_spec; [destruct is64; simpl; lia|done|lia].
Qed.

(** ADD, ADDS, SUB and SUBS (shifted register): sum or difference at the width,
    and the flags of the architecture when the instruction sets them. *)
Theorem add_sub_shifted_spec (is64 isSub updatesFlags : bool) (core : Core) (inst : Z) :
  operand2_ok is64 core inst ->
  let w := width is64 in
  let x := getX core (Inst.Rn inst) in
  let y := arm_operand2 w core inst in
  addSubShiftedRegGeneric is64 isSub updatesFlags core inst =
  setX (Inst.Rd inst) (if isSub then wrap w (x - y) else wrap w (x + y))
    (set_PState
       (if updatesFlags then
          if isSub then arm_flags w x (not64 y) 1 else arm_flags w x y 0
        else PState core) core).
Proof.
  intros Hok w x y. pose proof (operand2_spec is64 core inst Hok) as Hy.
  fold w y in Hy. unfold addSubShiftedRegGeneric. cbv zeta. fold x.
  set (op2 := shift _ _ _ _) in *.
  assert (0 < w <= 64) as Hw by (subst w; destruct is64; simpl; lia).
  rewrite (surjective_pairing (addWithCarry _ _ _ _ _ _)).
  rewrite addWithCarry_result. fold w.
  assert (wrap w y = wrap w op2) as Hyo by (rewrite <-Hy; apply wrap_wrap; lia).
  assert (forall z, (if is64 then wrap w z else Z.land (wrap w z) (bitmask 32)) =
                    wrap w z) as Hz.
  { intros z. subst w. destruct is64; [done|]. simpl width.
    rewrite bitmask_ones, wrap_land_ones by lia. by apply wrap_wrap. }
  rewrite Hz. f_equal.
  - destruct isSub.
    + rewrite wrap_sub_not64 by lia. unfold wrap in *. by rewrite Zminus_mod, <-Hyo, <-Zminus_mod.
    + rewrite Z.add_0_r. unfold wrap in *. by rewrite Zplus_mod, <-Hyo, <-Zplus_mod.
  - f_equal. destruct updatesFlags; [|done]. rewrite addWithCarry_flags by (destruct isSub; lia).
    fold w. destruct isSub; apply arm_flags_ext; try done; try lia.
    by rewrite !wrap_not64, Hyo by lia.
Qed.

(** [subs x0, x1, x1, lsl #1] of 3 *)
Lemma add_sub_shifted_spec_witness :
  operand2_ok true (example_core 3) 0xEB010420 /\
  addSubShiftedRegGeneric true true true (example_core 3) 0xEB010420 =
    setX 0 0xFFFFFFFFFFFFFFFD
      (set_PState (PSTATE.mk true false false false) (example_core 3)).
Proof.
  assert (operand2_ok true (example_core 3) 0xEB010420) as Hok
    by (repeat split; vm_compute; congruence).
  split; [exact Hok|].
  rewrite (add_sub_shifted_spec true true true _ _ Hok). vm_compute. reflexivity.
Defined.

(** With a dirty upper half, a 32-bit right shift lets it in:
    [add w0, wzr, w1, lsr #4] of 2^32. *)
Example shifted_upper_half_leaks :
  getX (addSubShiftedRegGeneric false false false (example_core 0x100000000) 0x0B4113E0) 0 =
  0x10000000.
Proof. vm_compute. reflexivity. Qed.
