(* ===== verification/StepSpec.v ===== *)
(** * The interpreter as a whole: dispatch, typing and short programs

    What [step] guarantees for every instruction, and what it does on programs whose
    meaning combines the decoder, the handlers, the flags and the memory. *)
From S2P Require Import Prelude BitUtils Instructions DecodeSystem Decode DecodeEquiv Core InstUtils.
From S2P Require Import Machine InterpBranch InterpDPImm InterpDPReg InterpLoadStore.
From S2P Require Import Float InterpFloat InterpSIMD Interp InterpWf.
From S2P Require Import Memory MemorySpec MemoryInv DPSpec.

(** ** Decoding a word with some bits known *)

Lemma decode_cube k v i w :
  resolve (rev gInstructionDecodeTable) k v = Found i ->
  Z.land w k = v -> id (decode w) = i.
Proof.
  intros Hr Hw. rewrite decode_search.
  pose proof (resolve_sound (rev gInstructionDecodeTable) k v w Hw) as Hs.
  rewrite Hr, rev_involutive in Hs. done.
Qed.

(** A field all of whose bits are known. *)
Lemma field_cube a b k v w :
  0 <= a <= b -> bitRange a b k = Z.ones (b - a + 1) ->
  Z.land w k = v -> bitRange a b w = bitRange a b v.
Proof.
  intros Hab Hk <-. apply Z.bits_inj'. intros i Hi.
  assert (Z.testbit (bitRange a b k) i = (i <? b - a + 1)) as Hb
    by (rewrite Hk, testbit_ones by lia; done).
  rewrite testbit_bitRange in Hb by lia. rewrite !testbit_bitRange, Z.land_spec by lia.
  destruct (Z.leb_spec i (b - a)); simpl in *; [|done].
  rewrite Hb. decide_ltb. by rewrite andb_true_r.
Qed.

(** ** The handler table *)

Section Table.
Context {Mem : Type} `{GuestMemory Mem} `{CpuHooks Mem} `{ShiftTarget} `{HostFloat}.

Lemma lookup_handler_app (l1 l2 : registrations Mem) i d :
  ~ In i (map fst l2) ->
  fold_left (fun f r => if instructionID.eqb (fst r) i then snd r else f) (l1 ++ l2) d =
  fold_left (fun f r => if instructionID.eqb (fst r) i then snd r else f) l1 d.
Proof.
  intros Hn. rewrite fold_left_app.
  generalize (fold_left (fun f r => if instructionID.eqb (fst r) i then snd r else f) l1 d).
  induction l2 as [|r l2 IH]; intros h; simpl; [done|].
  destruct (instructionID.eqb (fst r) i) eqn:E.
  - apply eqb_true in E. destruct Hn. by left.
  - apply IH. intros Hin. apply Hn. by right.
Qed.

Lemma lookup_handler_in (l : registrations Mem) i h :
  NoDup (map fst l) -> In (i, h) l -> lookup_handler l i = h.
Proof.
  intros Hnd Hin. apply in_split in Hin as (l1 & l2 & ->).
  unfold lookup_handler. change ((i, h) :: l2) with ([(i, h)] ++ l2).
  rewrite app_assoc, lookup_handler_app.
  - rewrite fold_left_app. simpl. by rewrite (proj2 (eqb_true i i) eq_refl).
  - rewrite map_app in Hnd. apply NoDup_app in Hnd as (_ & _ & Hnd). simpl in Hnd.
    apply NoDup_cons in Hnd as [Hnd _]. by rewrite <-list_elem_of_In.
Qed.

Definition noDupIds (l : list instructionID.t) : bool :=
  (fix go (l : list instructionID.t) : bool :=
     match l with
     | [] => true
     | i :: l => negb (existsb (instructionID.eqb i) l) && go l
     end) l.

Lemma noDupIds_sound l : noDupIds l = true -> NoDup l.
Proof.
  induction l as [|i l IH]; simpl; [constructor|].
  intros [Hn Hl]%andb_true_iff. constructor; [|by apply IH].
  intros Hin%list_elem_of_In. apply negb_true_iff in Hn.
  assert (existsb (instructionID.eqb i) l = true) as E; [|congruence].
  apply existsb_exists. exists i. split; [done|]. by apply eqb_true.
Qed.

Lemma init_registrations_NoDup :
  NoDup (map fst (init_registrations : registrations Mem)).
Proof. apply noDupIds_sound. vm_compute. reflexivity. Qed.

(** after [init] every instruction runs the handler its register function names
    for it (no registration overwrites another), and an instruction that none names
    runs [UNIMPLEMENTED_FUNC]. *)
Theorem dispatch_registered (i : instructionID.t) :
  (forall h, In (i, h) init_registrations -> getInstructionFunc i = h) /\
  (~ In i (map fst init_registrations) -> getInstructionFunc i = UNIMPLEMENTED_FUNC).
Proof.
  split.
  - intros h. apply lookup_handler_in, init_registrations_NoDup.
  - intros Hn. unfold getInstructionFunc, lookup_handler.
    rewrite <-(app_nil_l init_registrations). by rewrite lookup_handler_app.
Qed.
End Table.

(** ** Executing a known instruction *)

Section Step.
Context {Mem : Type} `{GuestMemory Mem} `{CpuHooks Mem} `{ShiftTarget} `{HostFloat}.

(** The core a handler sees, and the machine after the step of a handler that works
    on the core alone. *)
Definition fetched (c : Core) : Core := set_nextPC (u64 (PC c + 4)) c.
Definition stepped (c : Core) (s : Machine Mem) : Machine Mem := set_core (finishStep c) s.

Lemma step_pure (s : Machine Mem) w f :
  mread 4 (PC (s.(core))) (s.(memory)) = Ok w ->
  getInstructionFunc (id (decode w)) = pureHandler f ->
  step s = Ok (tt, stepped (f (fetched (s.(core))) w) s).
Proof.
  intros Hw Hf. unfold step, mbind, M_bind, getCore, mem_fetch, askMemory, onCore.
  cbn [core memory]. rewrite Hw. cbv zeta. cbn [core memory set_core].
  rewrite Hf. reflexivity.
Qed.

Lemma PC_finishStep c : PC (finishStep c) = nextPC c.
Proof. unfold finishStep. cbv zeta. by destruct (_ =? _). Qed.

Lemma PState_finishStep c : PState (finishStep c) = PState c.
Proof. unfold finishStep. cbv zeta. by destruct (_ =? _). Qed.

Lemma getX_finishStep c r : reg r -> r <> 31 -> getX (finishStep c) r = getX c r.
Proof.
  intros Hr Hne. assert (getX (setX 31 0 c) r = getX c r) as <-
    by (apply getX_setX_ne; unfold reg in *; lia).
  unfold finishStep. cbv zeta. by destruct (_ =? _).
Qed.

(** an instruction the interpreter does not implement is skipped: the step only
    moves [PC] to the next instruction, so the guest program goes on with the
    registers, flags and memory the instruction should have changed. *)
Theorem unimplemented_skips (s : Machine Mem) (w : Z) :
  wf_Core (s.(core)) -> mread 4 (PC (s.(core))) (s.(memory)) = Ok w ->
  getInstructionFunc (id (decode w)) = (UNIMPLEMENTED_FUNC : interptfptr_t Mem) ->
  exists s', step s = Ok (tt, s') /\ PC (s'.(core)) = u64 (PC (s.(core)) + 4) /\
    s'.(memory) = s.(memory) /\ PState (s'.(core)) = PState (s.(core)) /\
    forall r, 0 <= r < 31 -> getX (s'.(core)) r = getX (s.(core)) r.
Proof.
  intros Hc Hw Hn. eexists. split; [apply (step_pure s w (fun core _ => core) Hw)|].
  - exact Hn.
  - cbn [stepped core set_core memory]. rewrite PC_finishStep, PState_finishStep.
    repeat split; try done. intros r Hr. rewrite getX_finishStep by (unfold reg; lia). done.
Qed.

(** a branch to itself ([B .]) leaves the core where it is and raises the debugger
    interrupt, which stops the run loop at the next [checkInterrupts]. *)
Theorem branch_to_self_breaks (s : Machine Mem) :
  wf_Core (s.(core)) -> mread 4 (PC (s.(core))) (s.(memory)) = Ok 0x14000000 ->
  exists s', step s = Ok (tt, s') /\ PC (s'.(core)) = PC (s.(core)) /\
    s'.(memory) = s.(memory) /\ Z.testbit (interrupts (s'.(core))) 1 = true.
Proof.
  intros Hc Hw. eexists. split.
  - apply (step_pure s 0x14000000 uncondBranchImmNoLink Hw). reflexivity.
  - assert (u64 (PC (s.(core)) + 0) = PC (s.(core))) as Hpc
      by (rewrite Z.add_0_r; apply u64_id, Hc).
    unfold stepped, uncondBranchImmNoLink, uncondBranchImmGeneric. cbv zeta.
    replace (signExtend 28 _) with 0 by (vm_compute; reflexivity).
    cbn [core memory set_core PC fetched]. rewrite PC_finishStep.
    unfold finishStep. cbn -[Z.add Z.lor Z.testbit u64]. rewrite Hpc, Z.eqb_refl.
    repeat split; try done. cbn -[Z.add Z.lor Z.testbit u64].
    rewrite Z.lor_spec. unfold DEBUG_BREAK_INTERRUPT. by rewrite orb_true_r.
Qed.

(** *** Compare and branch *)

(** Executing [n] instructions. *)
Fixpoint stepN (n : nat) : M Mem unit :=
  match n with
  | O => mret tt
  | S n => (step : M Mem unit);; stepN n
  end.

(** The words of [CMP Xn, Xm] and [CMP Wn, Wm], and of [B.cond]. *)
Definition is_cmp (is64 : bool) (w : Z) : Prop :=
  Z.land w 0xFFE0FC1F = if is64 then 0xEB00001F else 0x6B00001F.
Definition is_bcond (w : Z) : Prop := Z.land w 0xFF000010 = 0x54000000.

Lemma decode_cmp is64 w : is_cmp is64 w ->
  id (decode w) = if is64 then instructionID.SUBS_64_shifted else instructionID.SUBS_32_shifted.
Proof. destruct is64; intros Hw; eapply decode_cube, Hw; vm_compute; reflexivity. Qed.

Lemma decode_bcond w : is_bcond w -> id (decode w) = instructionID.B_cond.
Proof. intros Hw. eapply decode_cube, Hw. vm_compute. reflexivity. Qed.

Lemma cmp_fields is64 w : is_cmp is64 w ->
  Inst.Rd w = 31 /\ Inst.shift w = 0 /\ Inst._10_15 w = 0.
Proof.
  intros Hw. unfold Inst.Rd, Inst.shift, Inst._10_15.
  rewrite (field_cube 0 4 0xFFE0FC1F _ w ltac:(lia) eq_refl Hw),
    (field_cube 22 23 0xFFE0FC1F _ w ltac:(lia) eq_refl Hw),
    (field_cube 10 15 0xFFE0FC1F _ w ltac:(lia) eq_refl Hw).
  by destruct is64.
Qed.

Definition cmp_handler (is64 : bool) : Core -> Z -> Core :=
  if is64 then subs64Shifted else subs32Shifted.

Lemma cmp_handler_registered is64 w : is_cmp is64 w ->
  getInstructionFunc (id (decode w)) =
  (pureHandler (cmp_handler is64) : interptfptr_t Mem).
Proof. intros Hw. rewrite (decode_cmp is64 w Hw). by destruct is64. Qed.

Lemma bcond_registered w : is_bcond w ->
  getInstructionFunc (id (decode w)) = (pureHandler condBranch : interptfptr_t Mem).
Proof. intros Hw. by rewrite (decode_bcond w Hw). Qed.

(** [CMP] only sets the flags, to those of the subtraction. *)
Lemma cmp_effect is64 c w : is_cmp is64 w ->
  cmp_handler is64 c w =
  setX 31 (wrap (width is64) (getX c (Inst.Rn w) + not64 (getX c (Inst.Rm w)) + 1))
    (set_PState (snd (addWithCarry is64 true (getX c (Inst.Rn w))
                        (not64 (getX c (Inst.Rm w))) 1 (PState c))) c).
Proof.
  intros Hw. destruct (cmp_fields is64 w Hw) as (Hd & Hs & Ha).
  assert (cmp_handler is64 = addSubShiftedRegGeneric is64 true true) as -> by by destruct is64.
  unfold addSubShiftedRegGeneric. cbv zeta. rewrite Hd, Hs, Ha.
  change (shift (getX c (Inst.Rm w)) (toShiftType 0) 0 (if is64 then 64 else 32))
    with (getX c (Inst.Rm w)).
  pose proof (addWithCarry_result is64 true (getX c (Inst.Rn w))
                (not64 (getX c (Inst.Rm w))) 1 (PState c)) as Hr.
  destruct (addWithCarry _ _ _ _ _ _) as [r st]. cbn [fst snd] in *. subst r. f_equal.
  destruct is64; [done|]. simpl width. rewrite bitmask_ones, wrap_land_ones by lia.
  by apply wrap_wrap.
Qed.

(** C6: compare and branch: after [CMP x, y] at [PC] and [B.cond] behind it, two steps
    take the machine to the branch target exactly when the comparison the condition
    names holds of the two registers, signed or unsigned, at 32 or 64 bits, and else
    to the instruction that follows; memory and registers are unchanged. *)
Theorem compare_and_branch (s : Machine Mem) (is64 : bool) (cmp bcond : Z) :
  wf_Core (s.(core)) -> is_cmp is64 cmp -> is_bcond bcond ->
  mread 4 (PC (s.(core))) (s.(memory)) = Ok cmp ->
  mread 4 (u64 (PC (s.(core)) + 4)) (s.(memory)) = Ok bcond ->
  let x := getX (s.(core)) (Inst.Rn cmp) in
  let y := getX (s.(core)) (Inst.Rm cmp) in
  exists s', stepN 2 s = Ok (tt, s') /\ s'.(memory) = s.(memory) /\
    (forall r, 0 <= r < 31 -> getX (s'.(core)) r = getX (s.(core)) r) /\
    PC (s'.(core)) =
      if compares (width is64) (toCondition (Inst.cond bcond)) x y
      then u64 (PC (s.(core)) + 4 + signExtend 21 (Z.shiftl (Inst._5_23 bcond) 2))
      else u64 (PC (s.(core)) + 8).
Proof.
  intros Hc Hcmp Hb Hf1 Hf2 x y.
  pose proof (step_pure s cmp _ Hf1 (cmp_handler_registered is64 cmp Hcmp)) as Hs1.
  set (s1 := stepped _ s) in Hs1.
  assert (core s1 = finishStep (cmp_handler is64 (fetched (core s)) cmp)) as Hc1 by done.
  rewrite cmp_effect in Hc1 by done.
  assert (PC (core s1) = u64 (PC (core s) + 4)) as Hpc
    by (rewrite Hc1, PC_finishStep; done).
  assert (mread 4 (PC (core s1)) (memory s1) = Ok bcond) as Hf2' by by rewrite Hpc.
  pose proof (step_pure s1 bcond _ Hf2' (bcond_registered bcond Hb)) as Hs2.
  set (s2 := stepped _ s1) in Hs2.
  assert (core s2 = finishStep (condBranch (fetched (core s1)) bcond)) as Hc2 by done.
  assert (forall cond, testCondition (fetched (core s1)) cond =
                       compares (width is64) cond x y) as Ht.
  { intros cond. rewrite <-(condition_after_cmp is64 (core s) cond x y).
    unfold testCondition. cbn [fetched PState set_nextPC]. by rewrite Hc1, PState_finishStep. }
  exists s2. split; [|split; [done|split]].
  - unfold stepN, mbind, M_bind. rewrite Hs1, Hs2. reflexivity.
  - intros r Hr. rewrite Hc2, getX_finishStep by (unfold reg; lia).
    assert (getX (condBranch (fetched (core s1)) bcond) r = getX (core s1) r) as ->
      by (unfold condBranch; by destruct (testCondition _ _)).
    rewrite Hc1, getX_finishStep, getX_setX_ne by (unfold reg; lia). done.
  - rewrite Hc2, PC_finishStep. unfold condBranch. cbv zeta. rewrite Ht.
    destruct (compares _ _ _ _).
    + cbn [nextPC set_nextPC fetched PC]. rewrite Hpc. unfold u64.
      by rewrite wrap_add_l by lia.
    + cbn [nextPC set_nextPC fetched PC]. rewrite Hpc. unfold u64.
      rewrite wrap_add_l by lia. f_equal. lia.
Qed.
End Step.

(** ** Typing *)

Section Typing.
Context {Mem : Type} `{GuestMemoryLaws Mem} `{CpuHooks Mem} `{ShiftTarget} `{HostFloat}.

Lemma step_zero (s s' : Machine Mem) :
  environment_safe -> good s -> step s = Ok (tt, s') -> getX (s'.(core)) 31 = 0.
Proof.
  intros He Hs. unfold step, mbind, M_bind, getCore, mem_fetch, askMemory, onCore.
  cbn [core memory set_core].
  destruct (mread 4 (PC (core s)) (memory s)) as [w|] eqn:Ew; [|done]. cbv zeta.
  set (s1 := set_core _ _).
  assert (good s1) as Hs1.
  { destruct Hs as (Hc & Hm & Ht). split; [|by split].
    apply wf_set_nextPC; auto with emu. }
  destruct (getInstructionFunc _ _ s1) as [[[] s2]|] eqn:E2; [|done].
  pose proof (handlers_safe _ He _ s1 tt s2 Hs1 E2) as [(Hc2 & _) _].
  intros [= <-]. cbn [core set_core]. by apply finishStep_zero.
Qed.

End Typing.

(** ** Examples: programs in the memory of [mem.cpp] *)

(** Hooks that return at once. *)
#[local] Instance quiet_hooks : CpuHooks MemState := {
  gSVCHandler _ := mret tt;
  gIllInstHandler := mret tt;
}.

(** [w1] and [w2] at the start of the mapped guest page, with [X1 = x1]. *)
Definition program (w1 w2 x1 : Z) : Machine MemState :=
  let m := match write 4 0x5000 w1 mem_example with Ok m => m | Err _ => mem_example end in
  let m := match write 4 0x5004 w2 m with Ok m => m | Err _ => m end in
  mkMachine (example_core x1) m 0.

Definition reads (m : MemState) (addr w : Z) : bool :=
  match mread 4 addr m with Ok v => v =? w | Err _ => false end.

Lemma reads_ok m addr w : reads m addr w = true -> mread 4 addr m = Ok w.
Proof. unfold reads. destruct (mread 4 addr m); [|done]. by intros ->%Z.eqb_eq. Qed.

(** [cmp x1, x2; b.hi #16] *)
Lemma compare_and_branch_witness :
  (wf_Core (example_core 5) /\ is_cmp true 0xEB02003F /\ is_bcond 0x54000088 /\
   mread 4 0x5000 ((program 0xEB02003F 0x54000088 5).(memory)) = Ok 0xEB02003F /\
   mread 4 0x5004 ((program 0xEB02003F 0x54000088 5).(memory)) = Ok 0x54000088) /\
  exists s', stepN 2 (program 0xEB02003F 0x54000088 5) = Ok (tt, s') /\
    PC (s'.(core)) = 0x5014.
Proof.
  assert (wf_Core (example_core 5)) as Hc by (apply example_core_wf; unfold uint; lia).
  assert (mread 4 0x5000 ((program 0xEB02003F 0x54000088 5).(memory)) = Ok 0xEB02003F)
    as H1 by (apply reads_ok; vm_compute; reflexivity).
  assert (mread 4 0x5004 ((program 0xEB02003F 0x54000088 5).(memory)) = Ok 0x54000088)
    as H2 by (apply reads_ok; vm_compute; reflexivity).
  split; [exact (conj Hc (conj eq_refl (conj eq_refl (conj H1 H2))))|].
  destruct (compare_and_branch (program 0xEB02003F 0x54000088 5) true 0xEB02003F 0x54000088
    Hc eq_refl eq_refl H1 H2) as (s' & Hs & _ & _ & Hpc).
  exists s'. split; [exact Hs|]. rewrite Hpc. vm_compute. reflexivity.
Defined.

(** [eret] is registered with [UNIMPLEMENTED_FUNC]. *)
Lemma unimplemented_skips_witness :
  (wf_Core (example_core 5) /\
   mread 4 0x5000 ((program 0xD69F03E0 0 5).(memory)) = Ok 0xD69F03E0 /\
   getInstructionFunc (id (decode 0xD69F03E0)) = (UNIMPLEMENTED_FUNC : interptfptr_t MemState)) /\
  exists s', step (program 0xD69F03E0 0 5) = Ok (tt, s') /\ PC (s'.(core)) = 0x5004.
Proof.
  assert (wf_Core (example_core 5)) as Hc by (apply example_core_wf; unfold uint; lia).
  assert (mread 4 0x5000 ((program 0xD69F03E0 0 5).(memory)) = Ok 0xD69F03E0)
    as H1 by (apply reads_ok; vm_compute; reflexivity).
  assert (getInstructionFunc (id (decode 0xD69F03E0)) =
          (UNIMPLEMENTED_FUNC : interptfptr_t MemState)) as H2 by reflexivity.
  split; [exact (conj Hc (conj H1 H2))|].
  destruct (unimplemented_skips (program 0xD69F03E0 0 5) 0xD69F03E0 Hc H1 H2)
    as (s' & Hs & Hpc & _).
  exists s'. split; [exact Hs|]. rewrite Hpc. vm_compute. reflexivity.
Defined.

Lemma branch_to_self_breaks_witness :
  (wf_Core (example_core 5) /\
   mread 4 0x5000 ((program 0x14000000 0 5).(memory)) = Ok 0x14000000) /\
  exists s', step (program 0x14000000 0 5) = Ok (tt, s') /\ PC (s'.(core)) = 0x5000 /\
    Z.testbit (interrupts (s'.(core))) 1 = true.
Proof.
  assert (wf_Core (example_core 5)) as Hc by (apply example_core_wf; unfold uint; lia).
  assert (mread 4 0x5000 ((program 0x14000000 0 5).(memory)) = Ok 0x14000000)
    as H1 by (apply reads_ok; vm_compute; reflexivity).
  split; [split; assumption|].
  destruct (branch_to_self_breaks (program 0x14000000 0 5) Hc H1)
    as (s' & Hs & Hpc & _ & Hi).
  exists s'. split; [exact Hs|]. split; [rewrite Hpc; reflexivity|exact Hi].
Defined.

Lemma quiet_environment : environment_safe (Mem := MemState).
Proof. split; [intros n|]; by apply safe_ret. Qed.

Lemma program_good w1 w2 x1 : uint 64 x1 -> good (program w1 w2 x1).
Proof.
  intros Hx. split; [by apply example_core_wf|split; [|unfold uint; simpl; lia]].
  assert (mem_typed mem_example) as Hm
    by (apply mem_ok_typed; exists [0x11000]; apply mem_example_inv).
  unfold program. cbn [memory].
  destruct (write 4 0x5000 w1 mem_example) as [m1|] eqn:E1.
  - pose proof (mwrite_typed 4 0x5000 w1 mem_example m1 Hm E1) as Hm1.
    destruct (write 4 0x5004 w2 m1) as [m2|] eqn:E2; [|exact Hm1].
    exact (mwrite_typed 4 0x5004 w2 m1 m2 Hm1 E2).
  - destruct (write 4 0x5004 w2 mem_example) as [m2|] eqn:E2; [|exact Hm].
    exact (mwrite_typed 4 0x5004 w2 mem_example m2 Hm E2).
Qed.

