(* ===== verification/LoadStoreSpec.v ===== *)
(** * What the loads and stores do, against the memory interface

    Stated for any memory with the laws of [GuestMemoryLaws]: a load sees the store
    before it, a push and a pop restore the registers and the stack pointer, and when
    an exclusive store succeeds. *)
From S2P Require Import Prelude BitUtils Instructions Core InstUtils Machine.
From S2P Require Import InterpBranch InterpLoadStore Memory MemoryInv MemorySpec DPSpec.

(** ** One access *)

Section Access.
Context {Mem : Type} `{GuestMemoryLaws Mem}.

(** The machine after the breakpoint test of an access. *)
Definition touch (addr : Z) (s : Machine Mem) : Machine Mem :=
  if mbreakpoint addr (s.(memory))
  then set_core (sendInterrupts DEBUG_BREAK_INTERRUPT (s.(core))) s else s.

Lemma touch_memory addr s : (touch addr s).(memory) = s.(memory).
Proof. unfold touch. by destruct (mbreakpoint _ _). Qed.

(** The breakpoint test only touches the pending interrupts. *)
Lemma touch_field {A} (f : Core -> A) addr s :
  (forall c, f (sendInterrupts DEBUG_BREAK_INTERRUPT c) = f c) ->
  f ((touch addr s).(core)) = f (s.(core)).
Proof. intros Hf. unfold touch. destruct (mbreakpoint _ _); [apply Hf|done]. Qed.

Lemma touch_getX addr s r : getX ((touch addr s).(core)) r = getX (s.(core)) r.
Proof. by apply (touch_field (fun c => getX c r)). Qed.
Lemma touch_getXorSP addr s r :
  getXorSP ((touch addr s).(core)) r = getXorSP (s.(core)) r.
Proof. by apply (touch_field (fun c => getXorSP c r)). Qed.
Lemma touch_SP addr s : SP ((touch addr s).(core)) = SP (s.(core)).
Proof. by apply (touch_field SP). Qed.
Lemma touch_exclusiveData0 addr s :
  exclusiveData0 ((touch addr s).(core)) = exclusiveData0 (s.(core)).
Proof. by apply (touch_field exclusiveData0). Qed.
Lemma touch_wf addr s : wf_Core (s.(core)) -> wf_Core ((touch addr s).(core)).
Proof.
  intros Hc. unfold touch. destruct (mbreakpoint _ _); [|done].
  apply wf_set_interrupts; [done|]. apply uint_lor; [lia|by apply wf_interrupts|].
  split; by vm_compute.
Qed.

Lemma mem_read_eq n addr s v :
  mread n addr (s.(memory)) = Ok v -> mem_read n addr s = Ok (v, touch addr s).
Proof.
  intros Hr. unfold mem_read, mbind, M_bind, breakpointTest, touch, askMemory, onCore.
  destruct (mbreakpoint _ _); cbn [memory set_core]; by rewrite Hr.
Qed.

Lemma mem_write_eq n addr v s m' :
  mwrite n addr v (s.(memory)) = Ok m' ->
  mem_write n addr v s = Ok (tt, set_memory m' (touch addr s)).
Proof.
  intros Hw. unfold mem_write, mbind, M_bind, breakpointTest, touch, onMemory, onCore.
  destruct (mbreakpoint _ _); cbn [memory set_core]; unfold result_bind; by rewrite Hw.
Qed.
End Access.

Create Rewrite HintDb touch.
#[export] Hint Rewrite @touch_memory @touch_getX @touch_getXorSP @touch_SP
  @touch_exclusiveData0 : touch.

(** [eval_flags]: decide the flags of an instantiated template. *)
Ltac eval_flags :=
  repeat match goal with
  | |- context [has ?a ?b] =>
      let v := eval vm_compute in (has a b) in change (has a b) with v
  end; cbn [orb andb negb].

(** The sizes of an access. *)
Definition access_size (T : Z) : Prop := T = 1 \/ T = 2 \/ T = 4 \/ T = 8.

Lemma sizeMask_wrap T v : access_size T ->
  wrap (8 * T) (Z.land v (sizeMask (constLog2 T))) = wrap (8 * T) v.
Proof.
  intros HT. assert (sizeMask (constLog2 T) = Z.ones (8 * T) /\ 0 <= 8 * T) as [-> H0]
    by (destruct HT as [->|[->|[->| ->]]]; by vm_compute).
  rewrite wrap_land_ones by done. by apply wrap_wrap.
Qed.

(** ** A load after a store *)

Section LoadStore.
Context {Mem : Type} `{GuestMemoryLaws Mem}.

(** The address of the unsigned-offset forms. *)
Definition offsetAddr (T : Z) (c : Core) (w : Z) : Z :=
  u64 (getXorSP c (Inst.Rn w) + immOffset false false (constLog2 T) w).

Lemma storeReg_effect T w (s : Machine Mem) m' :
  access_size T ->
  mwrite T (offsetAddr T (s.(core)) w) (wrap (8 * T) (getX (s.(core)) (Inst.Rt w)))
    (s.(memory)) = Ok m' ->
  storeRegImmGeneric T 0 w s =
    Ok (tt, set_memory m' (touch (offsetAddr T (s.(core)) w) s)).
Proof.
  intros HT Hw. unfold storeRegImmGeneric, mbind, M_bind, getCore. eval_flags.
  cbv beta iota zeta. rewrite sizeMask_wrap by done.
  fold (offsetAddr T (core s) w). rewrite (mem_write_eq _ _ _ _ _ Hw). reflexivity.
Qed.

(** The value a load leaves in its register. *)
Definition loadedValue (T flags v : Z) : Z :=
  if has flags LoadExtendResult then
    if has flags LoadExtendTo64 then u64 (to_signed (8 * T) v)
    else u32 (to_signed (8 * T) v)
  else v.

(** The integer loads: plain, and sign-extending to 32 and to 64 bits. *)
Definition integer_load (flags : Z) : Prop :=
  flags = 0 \/ flags = LoadExtendResult \/ flags = Z.lor LoadExtendResult LoadExtendTo64.

Lemma loadReg_effect T flags w (s : Machine Mem) v :
  access_size T -> integer_load flags -> uint (8 * T) v ->
  mread T (offsetAddr T (s.(core)) w) (s.(memory)) = Ok v ->
  let s1 := touch (offsetAddr T (s.(core)) w) s in
  loadRegImmGeneric T flags w s =
    Ok (tt, set_core (setX (Inst.Rt w) (loadedValue T flags v) (s1.(core))) s1).
Proof.
  intros HT Hf Hv Hr s1.
  assert (Z.shiftl 1 (constLog2 T) * 8 = 8 * T /\ 0 < 8 * T <= 64) as [Hsz H8]
    by (destruct HT as [->|[->|[->| ->]]]; by vm_compute).
  unfold loadRegImmGeneric, mbind, M_bind, getCore, loadedValue.
  destruct Hf as [->|[->| ->]]; eval_flags; cbv beta iota zeta;
    fold (offsetAddr T (core s) w); rewrite (mem_read_eq _ _ _ _ Hr), ?Hsz.
  - reflexivity.
  - rewrite signExtend_to_signed, bitmask_ones, wrap_land_ones by (done || lia).
    unfold u32, u64. rewrite wrap_wrap_le by lia. reflexivity.
  - rewrite signExtend_to_signed by done. reflexivity.
Qed.

(** C14: a load sees the store before it, at every size and with every extension: after
    [STR*] of a register, [LDR*] at the same address gives the low bytes of the
    register, zero-extended or sign-extended as the load says. *)
Theorem load_after_store (T flags w1 w2 : Z) (s : Machine Mem) :
  access_size T -> integer_load flags -> wf_Core (s.(core)) -> mem_ok (s.(memory)) ->
  Inst.Rn w2 = Inst.Rn w1 -> Inst._10_21 w2 = Inst._10_21 w1 ->
  mapped (offsetAddr T (s.(core)) w1) T (s.(memory)) ->
  exists s1 s2, storeRegImmGeneric T 0 w1 s = Ok (tt, s1) /\
    loadRegImmGeneric T flags w2 s1 = Ok (tt, s2) /\
    mem_ok (s2.(memory)) /\
    getX (s2.(core)) (Inst.Rt w2) =
      loadedValue T flags (wrap (8 * T) (getX (s.(core)) (Inst.Rt w1))).
Proof.
  intros HT Hf Hc Hm Hn Hi Ha. set (a := offsetAddr T (core s) w1) in *.
  destruct (mwrite_mapped T a (wrap (8 * T) (getX (core s) (Inst.Rt w1))) (memory s) Hm Ha)
    as (m' & Hw & Hm' & _).
  pose proof (mread_mwrite_eq _ _ _ _ _ Hm Ha Hw) as Hr.
  assert (0 <= 8 * T) as H8 by (destruct HT as [->|[->|[->| ->]]]; lia).
  rewrite wrap_wrap in Hr by done.
  pose proof (storeReg_effect T w1 s m' HT Hw) as Hs1. fold a in Hs1.
  set (s1 := set_memory m' (touch a s)) in *.
  assert (offsetAddr T (core s1) w2 = a) as Ha2.
  { unfold offsetAddr, a, s1, immOffset. cbn [core set_memory negb].
    by rewrite touch_getXorSP, Hn, Hi. }
  rewrite <-Ha2 in Hr.
  pose proof (loadReg_effect T flags w2 s1 _ HT Hf (wrap_uint _ H8 _) Hr) as Hs2.
  cbv zeta in Hs2. rewrite Ha2 in Hs2.
  do 2 eexists. split; [exact Hs1|]. split; [exact Hs2|]. cbn [core memory set_core]. split.
  - rewrite touch_memory. exact Hm'.
  - apply getX_setX_eq; [|apply reg_bitRange; lia].
    apply touch_wf. cbn [s1 core set_memory]. by apply touch_wf.
Qed.
End LoadStore.

(** ** Push and pop *)

Section Pairs.
Context {Mem : Type} `{GuestMemoryLaws Mem}.

Definition pushAddr (s : Machine Mem) (w : Z) : Z :=
  u64 (getXorSP (s.(core)) (Inst.Rn w) + pairOffset false 3 w).

Lemma stp64Pre_effect w (s : Machine Mem) m1 m2 :
  wf_Core (s.(core)) ->
  let a := pushAddr s w in
  mwrite 8 a (getX (s.(core)) (Inst.Rt w)) (s.(memory)) = Ok m1 ->
  mwrite 8 (u64 (a + 8)) (getX (s.(core)) (Inst.Rt2 w)) m1 = Ok m2 ->
  let t := set_memory m2 (touch (u64 (a + 8)) (set_memory m1 (touch a s))) in
  stp64Pre w s = Ok (tt, set_core (setXorSP (Inst.Rn w) a (t.(core))) t).
Proof.
  intros Hc a H1 H2 t. unfold stp64Pre, storePairGeneric, mbind, M_bind, getCore. eval_flags.
  cbv beta iota zeta. change (constLog2 8) with 3. fold (pushAddr s w). fold a.
  change (8 * 8) with 64. rewrite !wrap_id by auto with emu.
  rewrite (mem_write_eq _ _ _ _ _ H1).
  rewrite (mem_write_eq 8 _ _ (set_memory m1 (touch a s)) m2)
    by (cbn [memory set_memory]; exact H2). reflexivity.
Qed.

Lemma ldp64Post_effect w (s : Machine Mem) v1 v2 :
  let a := getXorSP (s.(core)) (Inst.Rn w) in
  mread 8 a (s.(memory)) = Ok v1 -> mread 8 (u64 (a + 8)) (s.(memory)) = Ok v2 ->
  let t := touch (u64 (a + 8)) (touch a s) in
  ldp64Post w s =
    Ok (tt, set_core (setXorSP (Inst.Rn w) (u64 (a + pairOffset false 3 w))
              (setX (Inst.Rt2 w) v2 (setX (Inst.Rt w) v1 (t.(core))))) t).
Proof.
  intros a H1 H2 t. unfold ldp64Post, loadPairGeneric, mbind, M_bind, getCore. eval_flags.
  cbv beta iota zeta. change (constLog2 8) with 3. fold a.
  rewrite (mem_read_eq _ _ _ _ H1).
  rewrite (mem_read_eq 8 (u64 (a + 8)) (touch a s) v2) by (rewrite touch_memory; exact H2).
  reflexivity.
Qed.

Lemma getX_set_SP v c r : getX (set_SP v c) r = getX c r.
Proof. done. Qed.

(** [stp64Pre] through [SP] and the [ldp64Post] that undoes its offset. *)
Definition push_pop_words (w1 w2 : Z) : Prop :=
  Inst.Rn w1 = 31 /\ Inst.Rn w2 = 31 /\ Inst.Rt w2 = Inst.Rt w1 /\
  Inst.Rt2 w2 = Inst.Rt2 w1 /\ Inst.Rt w1 <> Inst.Rt2 w1 /\
  u64 (pairOffset false 3 w1 + pairOffset false 3 w2) = 0.

(** C13: push and pop: a pre-indexed [STP] through [SP] followed, after any code that
    restores [SP] and leaves the two stacked words alone, by the matching
    post-indexed [LDP] brings back both registers and the stack pointer. *)
Theorem push_pop (s : Machine Mem) (w1 w2 : Z) :
  wf_Core (s.(core)) -> mem_ok (s.(memory)) -> push_pop_words w1 w2 ->
  let a := pushAddr s w1 in
  a + 16 <= 2 ^ 64 -> mapped a 8 (s.(memory)) -> mapped (a + 8) 8 (s.(memory)) ->
  exists s1, stp64Pre w1 s = Ok (tt, s1) /\ SP (s1.(core)) = a /\ mem_ok (s1.(memory)) /\
    forall s2, wf_Core (s2.(core)) -> SP (s2.(core)) = a ->
      mread 8 a (s2.(memory)) = mread 8 a (s1.(memory)) ->
      mread 8 (a + 8) (s2.(memory)) = mread 8 (a + 8) (s1.(memory)) ->
      exists s3, ldp64Post w2 s2 = Ok (tt, s3) /\ s3.(memory) = s2.(memory) /\
        SP (s3.(core)) = SP (s.(core)) /\
        getX (s3.(core)) (Inst.Rt w1) = getX (s.(core)) (Inst.Rt w1) /\
        getX (s3.(core)) (Inst.Rt2 w1) = getX (s.(core)) (Inst.Rt2 w1).
Proof.
  intros Hc Hm (Hn1 & Hn2 & Ht & Ht2 & Hne & Hoff) a Ha Ha1 Ha2.
  assert (uint 64 a) as Hua by apply u64_uint.
  assert (u64 (a + 8) = a + 8) as Ha8 by (apply u64_id; unfold uint in *; lia).
  assert (a = u64 (SP (core s) + pairOffset false 3 w1)) as Hadef
    by (unfold a, pushAddr, getXorSP; by rewrite Hn1).
  set (x1 := getX (core s) (Inst.Rt w1)). set (x2 := getX (core s) (Inst.Rt2 w1)).
  assert (uint 64 x1 /\ uint 64 x2) as [Hx1 Hx2] by (split; by apply getX_uint).
  destruct (mwrite_mapped 8 a x1 (memory s) Hm Ha1) as (m1 & Hw1 & Hm1 & Hmap & _).
  destruct (mwrite_mapped 8 (a + 8) x2 m1 Hm1 (proj1 (Hmap _ _) Ha2))
    as (m2 & Hw2 & Hm2 & _).
  pose proof Hw2 as Hw2'. rewrite <-Ha8 in Hw2'.
  pose proof (stp64Pre_effect w1 s m1 m2 Hc Hw1 Hw2') as Hs1. cbv zeta in Hs1. fold a in Hs1.
  eexists. split; [exact Hs1|]. cbn [core memory set_core set_memory].
  split; [unfold setXorSP; by rewrite Hn1|]. split; [exact Hm2|].
  assert (mread 8 a m2 = Ok x1) as Hr1.
  { rewrite (mread_mwrite_ne 8 (a + 8) x2 8 a m1 m2) by (done || lia || by apply Hmap).
    rewrite (mread_mwrite_eq 8 a x1 (memory s) m1) by done. f_equal. by apply wrap_id. }
  assert (mread 8 (a + 8) m2 = Ok x2) as Hr2.
  { rewrite (mread_mwrite_eq 8 (a + 8) x2 m1 m2) by (done || by apply Hmap).
    f_equal. by apply wrap_id. }
  intros s2 Hc2 Hsp E1 E2.
  assert (getXorSP (core s2) (Inst.Rn w2) = a) as Hbase
    by (unfold getXorSP; rewrite Hn2; exact Hsp).
  rewrite Hr1 in E1. rewrite Hr2, <-Ha8 in E2.
  pose proof (ldp64Post_effect w2 s2 x1 x2) as Hs3. cbv zeta in Hs3. rewrite Hbase in Hs3.
  eexists. split; [exact (Hs3 E1 E2)|].
  assert (wf_Core (core (touch (u64 (a + 8)) (touch a s2)))) as Hct by by do 2 apply touch_wf.
  cbn [core memory set_core]. unfold setXorSP.
  rewrite Hn2, Ht, Ht2. cbn [Z.eqb Pos.eqb]. split; [by rewrite !touch_memory|].
  assert (reg (Inst.Rt w1) /\ reg (Inst.Rt2 w1)) as [Hreg1 Hreg2]
    by (split; apply reg_bitRange; lia).
  repeat split.
  - cbn [SP set_SP]. rewrite Hadef. unfold u64. rewrite wrap_add_l, <-Z.add_assoc by lia.
    rewrite <-wrap_add_r by lia. fold (u64 (pairOffset false 3 w1 + pairOffset false 3 w2)).
    rewrite Hoff, Z.add_0_r. apply wrap_id, Hc.
  - rewrite getX_set_SP, getX_setX_ne by congruence. by apply getX_setX_eq.
  - rewrite getX_set_SP. apply getX_setX_eq; [|done]. by apply wf_setX.
Qed.
End Pairs.

(** ** Exclusive accesses *)

Section Exclusive.
Context {Mem : Type} `{GuestMemoryLaws Mem}.

(** The address of the exclusive forms, which have no offset. *)
Definition exclusiveAddr (s : Machine Mem) (w : Z) : Z :=
  u64 (getXorSP (s.(core)) (Inst.Rn w) + 0).

Lemma load_exclusive_effect T w (s : Machine Mem) v :
  access_size T -> wf_Core (s.(core)) ->
  mread T (exclusiveAddr s w) (s.(memory)) = Ok v ->
  exists s1, loadRegImmGeneric T LoadExclusive w s = Ok (tt, s1) /\
    s1.(memory) = s.(memory) /\ getX (s1.(core)) (Inst.Rt w) = v /\
    exclusiveData0 (s1.(core)) = v.
Proof.
  intros HT Hc Hr. unfold loadRegImmGeneric, mbind, M_bind, getCore. eval_flags.
  cbv beta iota zeta. cbn [immOffset negb]. fold (exclusiveAddr s w).
  rewrite (mem_read_eq _ _ _ _ Hr).
  eexists. split; [reflexivity|]. cbn [core memory set_core onCore].
  rewrite touch_memory. split; [done|].
  assert (getX (setX (Inst.Rt w) v (core (touch (exclusiveAddr s w) s))) (Inst.Rt w) = v) as Hx
    by (apply getX_setX_eq; [by apply touch_wf|apply reg_bitRange; lia]).
  split; exact Hx.
Qed.

Lemma store_exclusive_effect T w (s : Machine Mem) :
  access_size T -> wf_Core (s.(core)) -> uint (8 * T) (exclusiveData0 (s.(core))) ->
  mem_ok (s.(memory)) -> mapped (exclusiveAddr s w) T (s.(memory)) ->
  exists cur s', mread T (exclusiveAddr s w) (s.(memory)) = Ok cur /\
    storeRegImmGeneric T StoreExclusive w s = Ok (tt, s') /\
    if cur =? exclusiveData0 (s.(core))
    then getX (s'.(core)) (Inst.Rs w) = 0 /\ mem_ok (s'.(memory)) /\
         mread T (exclusiveAddr s w) (s'.(memory)) =
           Ok (wrap (8 * T) (getX (s.(core)) (Inst.Rt w)))
    else getX (s'.(core)) (Inst.Rs w) = 1 /\ s'.(memory) = s.(memory).
Proof.
  intros HT Hc Hd Hm Ha.
  assert (0 <= 8 * T) as H8 by (destruct HT as [->|[->|[->| ->]]]; lia).
  set (a := exclusiveAddr s w) in *. set (x := getX (core s) (Inst.Rt w)).
  destruct (mwriteAtomic_mapped T a (wrap (8 * T) x)
    (wrap (8 * T) (exclusiveData0 (core s))) (memory s) Hm Ha) as (cur & Hr & Hw).
  rewrite wrap_wrap, (wrap_id _ _ Hd) in Hw by done. exists cur.
  assert (forall status m', mwriteAtomic T a (wrap (8 * T) x) (exclusiveData0 (core s))
                              (memory s) = Ok (status, m') ->
    storeRegImmGeneric T StoreExclusive w s =
    Ok (tt, set_core (setX (Inst.Rs w) (if status : bool then 0 else 1) (core s))
              (set_memory m' s))) as Heff.
  { intros status m' E. unfold storeRegImmGeneric, mbind, M_bind, getCore. eval_flags.
    cbv beta iota zeta. cbn [immOffset negb]. fold (exclusiveAddr s w). fold a.
    rewrite sizeMask_wrap, (wrap_id _ _ Hd) by done. unfold mem_writeAtomic, onMemory.
    fold x. rewrite E. reflexivity. }
  assert (forall v m', getX (core (set_core (setX (Inst.Rs w) v (core s))
                                     (set_memory m' s))) (Inst.Rs w) = v) as Hrs
    by (intros v m'; apply getX_setX_eq; [done|apply reg_bitRange; lia]).
  destruct (Z.eqb_spec cur (exclusiveData0 (core s))).
  - destruct (mwrite_mapped T a (wrap (8 * T) x) (memory s) Hm Ha) as (m' & Hw' & Hm' & _).
    rewrite Hw' in Hw. eexists. split; [done|]. split; [by apply Heff|].
    split; [apply Hrs|]. split; [exact Hm'|]. cbn [memory set_core set_memory].
    rewrite (mread_mwrite_eq _ _ _ _ _ Hm Ha Hw'). by rewrite wrap_wrap.
  - eexists. split; [done|]. split; [by apply Heff|]. split; [apply Hrs|done].
Qed.

(** exclusive access: after an exclusive load of a value, and whatever the program
    and the other cores did since (a [CLREX], other addresses, a store and its undo),
    the next exclusive store succeeds exactly when its address holds the loaded value
    again; it then stores, and otherwise it reports 1 and leaves memory alone.  The
    monitor ([exclusiveAccess], [exclusiveAccessAddr]) plays no part. *)
Theorem exclusive_pair (T w1 w2 : Z) (s : Machine Mem) :
  access_size T -> wf_Core (s.(core)) -> mem_ok (s.(memory)) ->
  mapped (exclusiveAddr s w1) T (s.(memory)) ->
  exists old s1, mread T (exclusiveAddr s w1) (s.(memory)) = Ok old /\
    loadRegImmGeneric T LoadExclusive w1 s = Ok (tt, s1) /\
    getX (s1.(core)) (Inst.Rt w1) = old /\
    forall s2, wf_Core (s2.(core)) -> mem_ok (s2.(memory)) ->
      exclusiveData0 (s2.(core)) = exclusiveData0 (s1.(core)) ->
      mapped (exclusiveAddr s2 w2) T (s2.(memory)) ->
      exists cur s3, mread T (exclusiveAddr s2 w2) (s2.(memory)) = Ok cur /\
        storeRegImmGeneric T StoreExclusive w2 s2 = Ok (tt, s3) /\
        if cur =? old
        then getX (s3.(core)) (Inst.Rs w2) = 0 /\ mem_ok (s3.(memory)) /\
             mread T (exclusiveAddr s2 w2) (s3.(memory)) =
               Ok (wrap (8 * T) (getX (s2.(core)) (Inst.Rt w2)))
        else getX (s3.(core)) (Inst.Rs w2) = 1 /\ s3.(memory) = s2.(memory).
Proof.
  intros HT Hc Hm Ha. destruct (mread_mapped T _ _ Hm Ha) as [old Hr].
  destruct (load_exclusive_effect T w1 s old HT Hc Hr) as (s1 & Hs1 & _ & Hx & He).
  exists old, s1. split; [done|]. split; [done|]. split; [done|].
  intros s2 Hc2 Hm2 Hd Ha2. rewrite He in Hd.
  assert (uint (8 * T) (exclusiveData0 (core s2))) as Hu.
  { rewrite Hd. apply (mread_uint T _ _ _ (mem_ok_typed _ Hm)
      ltac:(destruct HT as [->|[->|[->| ->]]]; lia) Hr). }
  rewrite <-Hd. exact (store_exclusive_effect T w2 s2 HT Hc2 Hu Hm2 Ha2).
Qed.
End Exclusive.

(** ** Examples in the memory of [mem.cpp] *)

Definition memory_machine (c : Core) : Machine MemState := mkMachine c mem_example 0.

Lemma memory_machine_ok : mem_ok mem_example.
Proof. exists [0x11000]. apply mem_example_inv. Qed.

(** [strb w1, [x1, #4]; ldrsb x0, [x1, #4]] *)
Lemma load_after_store_witness :
  (access_size 1 /\ integer_load (Z.lor LoadExtendResult LoadExtendTo64) /\
   wf_Core (example_core 0x50F0) /\ mem_ok mem_example /\
   mapped (offsetAddr 1 (example_core 0x50F0) 0x39001021) 1 mem_example) /\
  exists s1 s2,
    storeRegImmGeneric 1 0 0x39001021 (memory_machine (example_core 0x50F0)) = Ok (tt, s1) /\
    loadRegImmGeneric 1 (Z.lor LoadExtendResult LoadExtendTo64) 0x39801020 s1 = Ok (tt, s2) /\
    mem_ok (s2.(memory)) /\ getX (s2.(core)) 0 = 0xFFFFFFFFFFFFFFF0.
Proof.
  assert (access_size 1) as HT by by left.
  assert (integer_load (Z.lor LoadExtendResult LoadExtendTo64)) as Hf by by right; right.
  assert (wf_Core (example_core 0x50F0)) as Hc by (apply example_core_wf; unfold uint; lia).
  assert (mapped (offsetAddr 1 (example_core 0x50F0) 0x39001021) 1 mem_example) as Ha
    by (repeat split; vm_compute; congruence).
  split; [exact (conj HT (conj Hf (conj Hc (conj memory_machine_ok Ha))))|].
  exact (load_after_store 1 (Z.lor LoadExtendResult LoadExtendTo64) 0x39001021 0x39801020
    (memory_machine (example_core 0x50F0)) HT Hf Hc memory_machine_ok eq_refl eq_refl Ha).
Defined.

(** [stp x29, x30, [sp, #-16]!; ...; ldp x29, x30, [sp], #16] *)
Lemma push_pop_witness :
  (push_pop_words 0xA9BF7BFD 0xA8C17BFD /\
   pushAddr (memory_machine (set_SP 0x5100 (example_core 1))) 0xA9BF7BFD = 0x50F0 /\
   mapped 0x50F0 8 mem_example /\ mapped 0x50F8 8 mem_example) /\
  exists s1, stp64Pre 0xA9BF7BFD (memory_machine (set_SP 0x5100 (example_core 1))) =
      Ok (tt, s1) /\ SP (s1.(core)) = 0x50F0.
Proof.
  assert (wf_Core (set_SP 0x5100 (example_core 1))) as Hc
    by (apply wf_set_SP; [apply example_core_wf|]; unfold uint; lia).
  assert (push_pop_words 0xA9BF7BFD 0xA8C17BFD) as Hw
    by (repeat split; vm_compute; congruence).
  assert (mapped 0x50F0 8 mem_example) as H1 by (repeat split; vm_compute; congruence).
  assert (mapped 0x50F8 8 mem_example) as H2 by (repeat split; vm_compute; congruence).
  split; [exact (conj Hw (conj eq_refl (conj H1 H2)))|].
  destruct (push_pop (memory_machine (set_SP 0x5100 (example_core 1))) 0xA9BF7BFD 0xA8C17BFD
    Hc memory_machine_ok Hw ltac:(vm_compute; discriminate) H1 H2) as (s1 & Hs & Hsp & _).
  exists s1. split; [exact Hs|exact Hsp].
Defined.

(** [ldxr x0, [x1]] in fresh memory, which reads 0 *)
Lemma exclusive_pair_witness :
  (access_size 8 /\ wf_Core (example_core 0x5010) /\ mem_ok mem_example /\
   mapped (exclusiveAddr (memory_machine (example_core 0x5010)) 0xC85F7C20) 8 mem_example) /\
  exists old s1,
    mread 8 (exclusiveAddr (memory_machine (example_core 0x5010)) 0xC85F7C20) mem_example = Ok old /\
    loadRegImmGeneric 8 LoadExclusive 0xC85F7C20 (memory_machine (example_core 0x5010)) =
      Ok (tt, s1) /\ getX (s1.(core)) 0 = old.
Proof.
  assert (access_size 8) as HT by by right; right; right.
  assert (wf_Core (example_core 0x5010)) as Hc by (apply example_core_wf; unfold uint; lia).
  assert (mapped (exclusiveAddr (memory_machine (example_core 0x5010)) 0xC85F7C20) 8
    mem_example) as Ha by (repeat split; vm_compute; congruence).
  split; [exact (conj HT (conj Hc (conj memory_machine_ok Ha)))|].
  destruct (exclusive_pair 8 0xC85F7C20 0xC8027C23 (memory_machine (example_core 0x5010))
    HT Hc memory_machine_ok Ha) as (old & s1 & Hr & Hs & Hx & _).
  exists old, s1. split; [exact Hr|]. split; [exact Hs|exact Hx].
Defined.
