(* ===== verification/FloatSpec.v ===== *)
(** * What the floating-point handlers compute

    Compared with the IEEE 754 operations of the Standard Library's specification. *)
From Stdlib Require Import SpecFloat.
From S2P Require Import Prelude BitUtils Core InstUtils Float InterpFloat InterpWf DPSpec.

(** ** Bit patterns and values *)

Section Pack.
Context (f : floatFormat).

(** The fields of a pattern are in the range of their width. *)
Lemma mantissa_range b : 0 <= mantissa f b < 2 ^ mantBits f.
Proof. apply bitField_uint. destruct f; simpl; lia. Qed.
Lemma exponent_range b : 0 <= exponent f b <= maxExp f.
Proof.
  assert (2 ^ expBits f = maxExp f + 1 /\ 0 <= expBits f) as [E H0] by by destruct f.
  pose proof (bitField_uint (mantBits f) (expBits f) b H0) as H. unfold uint in H.
  unfold exponent. lia.
Qed.
Lemma sign_cases b : sign f b = 0 \/ sign f b = 1.
Proof.
  pose proof (bitField_uint (floatWidth f - 1) 1 b ltac:(lia)) as H.
  change (uint 1 (sign f b)) in H. unfold uint in H. change (2 ^ 1) with 2 in H. lia.
Qed.

(** A pattern is packed from its fields. *)
Lemma pack_fields b :
  uint (floatWidth f) b -> pack f (sign f b !=? 0) (exponent f b) (mantissa f b) = b.
Proof.
  intros [H0 H1]. unfold pack, sign, exponent, mantissa, bitField, wrap.
  rewrite !Z.shiftr_div_pow2 by (destruct f; simpl; lia).
  assert (0 <= b / 2 ^ (floatWidth f - 1) < 2) as Hs.
  { split; [apply Z.div_pos; [lia|destruct f; simpl; lia]|].
    apply Z.div_lt_upper_bound; destruct f; simpl in *; lia. }
  assert (b / 2 ^ (floatWidth f - 1) = b / 2 ^ mantBits f / 2 ^ expBits f) as Hq
    by (rewrite Z.div_div by (destruct f; simpl; lia); f_equal; by destruct f).
  rewrite (Z.mod_small _ (2 ^ 1)) by (change (2 ^ 1) with 2; lia).
  assert (Z.b2z (b / 2 ^ (floatWidth f - 1) !=? 0) = b / 2 ^ (floatWidth f - 1)) as ->
    by (destruct (Z.eqb_spec (b / 2 ^ (floatWidth f - 1)) 0); simpl; lia).
  rewrite Hq. change (2 ^ 0) with 1. rewrite Z.div_1_r.
  pose proof (Z.div_mod b (2 ^ mantBits f) ltac:(destruct f; simpl; lia)).
  pose proof (Z.div_mod (b / 2 ^ mantBits f) (2 ^ expBits f) ltac:(destruct f; simpl; lia)).
  assert (2 ^ (floatWidth f - 1) = 2 ^ mantBits f * 2 ^ expBits f) as -> by by destruct f.
  nia.
Qed.

(** [valueOf] loses only the payload of a NaN. *)
Lemma bitsOf_valueOf b :
  uint (floatWidth f) b -> isNaN f b = false -> bitsOf f (valueOf f b) = b.
Proof.
  intros Hb Hn. rewrite <-(pack_fields b Hb) at 2.
  pose proof (mantissa_range b) as Hm. pose proof (exponent_range b) as He.
  unfold valueOf, isNaN in *. set (s := sign f b !=? 0).
  destruct (Z.eqb_spec (exponent f b) (maxExp f)) as [E|E].
  - destruct (Z.eqb_spec (mantissa f b) 0) as [M|M]; [|done].
    simpl. by rewrite E, M.
  - destruct (Z.eqb_spec (exponent f b) 0) as [E0|E0].
    + rewrite E0. destruct (mantissa f b) as [|m|m] eqn:M; [done| |lia]. simpl.
      destruct (Z.ltb_spec (Zpos m) (2 ^ mantBits f)); [done|lia].
    + simpl. rewrite Z2Pos.id by lia.
      destruct (Z.ltb_spec (mantissa f b + 2 ^ mantBits f) (2 ^ mantBits f)); [lia|].
      f_equal; lia.
Qed.

(** The predicates of [floatutils.h] classify the value. *)
Lemma isInfinity_spec b :
  isInfinity f b = match valueOf f b with S754_infinity _ => true | _ => false end.
Proof.
  unfold isInfinity, valueOf. destruct (exponent f b =? maxExp f).
  - rewrite andb_true_r. by destruct (mantissa f b =? 0).
  - rewrite andb_false_r. destruct (exponent f b =? 0); [by destruct (mantissa f b)|done].
Qed.

Lemma isZero_spec b :
  isZero f b = match valueOf f b with S754_zero _ => true | _ => false end.
Proof.
  pose proof (mantissa_range b). assert (0 < maxExp f) by (destruct f; simpl; lia).
  unfold isZero, valueOf. destruct (Z.eqb_spec (exponent f b) (maxExp f)) as [->|].
  - destruct (Z.eqb_spec (maxExp f) 0); [lia|]. rewrite andb_false_r.
    by destruct (mantissa f b =? 0).
  - destruct (exponent f b =? 0); [|by rewrite andb_false_r].
    rewrite andb_true_r. destruct (mantissa f b); [done..|lia].
Qed.

Lemma isNaN_spec b :
  isNaN f b = match valueOf f b with S754_nan => true | _ => false end.
Proof.
  unfold isNaN, valueOf. destruct (exponent f b =? maxExp f).
  - rewrite andb_true_r. by destruct (mantissa f b =? 0).
  - rewrite andb_false_r. destruct (exponent f b =? 0); [by destruct (mantissa f b)|done].
Qed.

(** The sign of a value, and of its pattern. *)
Definition signOf (x : spec_float) : bool :=
  match x with
  | S754_zero s | S754_infinity s | S754_finite s _ _ => s
  | S754_nan => false
  end.

Lemma sign_spec b :
  isNaN f b = false -> signOf (valueOf f b) = (sign f b !=? 0).
Proof.
  rewrite isNaN_spec. unfold valueOf.
  destruct (exponent f b =? maxExp f); [by destruct (mantissa f b =? 0)|].
  destruct (exponent f b =? 0); [by destruct (mantissa f b)|done].
Qed.

Lemma sameSign_spec x y :
  isNaN f x = false -> isNaN f y = false ->
  (sign f x =? sign f y) = Bool.eqb (signOf (valueOf f x)) (signOf (valueOf f y)).
Proof.
  intros Hx Hy. rewrite !sign_spec by done.
  destruct (sign_cases x) as [-> | ->], (sign_cases y) as [-> | ->]; done.
Qed.
End Pack.

(** ** Addition, subtraction, multiplication and division *)

Section Arithmetic.
Context `{HostFloat}.

(** The result of IEEE 754 arithmetic under the default-NaN rule: an invalid operation
    gives the positive quiet NaN. *)
Definition ieee (f : floatFormat) (r : spec_float) : Z := bitsOf f r.

(** A result whose operands are no NaNs is the host's only if the operation is valid. *)
Lemma hostResult_ieee f x y r : r <> S754_nan -> hostResult f x y r = ieee f r.
Proof. by destruct r. Qed.

(** Rounding a magnitude gives a number. *)
Lemma shr_1_nonneg mrs : 0 <= shr_m mrs -> 0 <= shr_m (shr_1 mrs).
Proof. destruct mrs as [m r s]. by destruct m as [|[p|p|]|p]. Qed.

Lemma iter_pos_nonneg n : forall mrs,
  0 <= shr_m mrs -> 0 <= shr_m (SpecFloat.iter_pos shr_1 n mrs).
Proof.
  induction n as [n IH|n IH|]; intros mrs Hm; simpl; auto using shr_1_nonneg.
Qed.

Lemma shr_fexp_nonneg p e m x l :
  0 <= m -> 0 <= shr_m (fst (shr_fexp p e m x l)).
Proof.
  intros Hm. unfold shr_fexp, shr.
  assert (0 <= shr_m (shr_record_of_loc m l)) as H1 by by destruct l as [|[]].
  destruct (_ - x); simpl; auto using iter_pos_nonneg.
Qed.

Lemma binary_round_aux_number p e s m x l :
  0 <= m -> binary_round_aux p e s m x l <> S754_nan.
Proof.
  intros Hm. unfold binary_round_aux.
  pose proof (shr_fexp_nonneg p e m x l Hm) as H1.
  destruct (shr_fexp p e m x l) as [mrs e1]. simpl in H1.
  assert (0 <= round_nearest_even (shr_m mrs) (loc_of_shr_record mrs)) as H2.
  { unfold round_nearest_even. destruct (loc_of_shr_record mrs) as [|[]];
      try destruct (Z.even _); lia. }
  pose proof (shr_fexp_nonneg p e _ e1 loc_Exact H2) as H3.
  destruct (shr_fexp p e _ e1 loc_Exact) as [mrs2 e2]. simpl in H3.
  destruct (shr_m mrs2); [done| |lia]. by destruct (e2 <=? e - p).
Qed.

Lemma binary_normalize_number p e m x b : binary_normalize p e m x b <> S754_nan.
Proof.
  unfold binary_normalize, binary_round. destruct m; [done|..];
    destruct (shl_align _ _ _); by apply binary_round_aux_number.
Qed.

Context (f : floatFormat) (x y : Z).
Context (Hx : uint (floatWidth f) x) (Hy : uint (floatWidth f) y).
Context (Nx : isNaN f x = false) (Ny : isNaN f y = false).

(** [by_values]: decide the classification tests on the values of the operands. *)
Ltac by_values :=
  rewrite ?isInfinity_spec, ?isZero_spec, ?(sameSign_spec f x y Nx Ny);
  pose proof (bitsOf_valueOf f x Hx Nx) as Ex; pose proof (bitsOf_valueOf f y Hy Ny) as Ey;
  rewrite isNaN_spec in Nx, Ny;
  destruct (valueOf f x) as [sx|sx| |sx mx ex] eqn:Vx; try discriminate Nx;
  destruct (valueOf f y) as [sy|sy| |sy my ey] eqn:Vy; try discriminate Ny;
  cbn [signOf andb orb negb].

(** [by_sign]: the cases whose result is known from the signs. *)
Ltac by_sign :=
  try (repeat match goal with s : bool |- _ => destruct s end;
       cbn [SFadd SFsub SFmul SFdiv Bool.eqb xorb negb andb orb hostResult]; unfold ieee;
       first [congruence | reflexivity]).

Lemma add_ieee :
  (if isInfinity f x && isInfinity f y && negb (sign f x =? sign f y) then generateQNaN f
   else if isInfinity f x && isInfinity f y then x
   else if isZero f x && isZero f y && (sign f x =? sign f y) then x
   else host_add f x y) =
  ieee f (SFadd (prec f) (emax f) (valueOf f x) (valueOf f y)).
Proof.
  unfold host_add. by_values; rewrite ?Vx, ?Vy; by_sign.
  all: cbn [SFadd]; apply hostResult_ieee; try done. apply binary_normalize_number.
Qed.

Lemma sub_ieee :
  (if isInfinity f x && isInfinity f y && (sign f x =? sign f y) then generateQNaN f
   else if isPositiveInfinity f x && isNegativeInfinity f y then x
   else if isNegativeInfinity f x && isPositiveInfinity f y then x
   else if isZero f x && isZero f y && negb (sign f x =? sign f y) then x
   else host_sub f x y) =
  ieee f (SFsub (prec f) (emax f) (valueOf f x) (valueOf f y)).
Proof.
  unfold host_sub, isPositiveInfinity, isNegativeInfinity, isNegative, isPositive.
  rewrite <-!sign_spec by done.
  by_values; rewrite ?Vx, ?Vy; by_sign.
  all: cbn [SFsub]; rewrite ?andb_false_r; apply hostResult_ieee; try done.
  apply binary_normalize_number.
Qed.

(** [-x] on an infinity and a zero, and the zero of a sign. *)
Lemma neg_infinity : host_neg f (infinity f) = bitsOf f (S754_infinity true).
Proof. by destruct f. Qed.

Lemma mul_ieee :
  (if (isInfinity f x && isZero f y) || (isZero f x && isInfinity f y) then generateQNaN f
   else if isInfinity f x || isInfinity f y then
     if negb (sign f x =? sign f y) then host_neg f (infinity f) else infinity f
   else if isZero f x || isZero f y then
     if sign f x =? sign f y then getZero else negZero f
   else host_mul f x y) =
  ieee f (SFmul (prec f) (emax f) (valueOf f x) (valueOf f y)).
Proof.
  rewrite neg_infinity. unfold host_mul. by_values; rewrite ?Vx, ?Vy; by_sign.
  all: cbn [SFmul]; apply hostResult_ieee. by apply binary_round_aux_number.
Qed.

(** The quotient of two finite numbers. *)
Lemma SFdiv_core_nonneg p e m1 e1 m2 e2 :
  0 <= fst (fst (SFdiv_core_binary p e (Zpos m1) e1 (Zpos m2) e2)).
Proof.
  unfold SFdiv_core_binary. set (s := _ - _ - _).
  set (m' := match s with Z0 => _ | _ => _ end).
  assert (0 <= m') as Hm.
  { unfold m'. destruct s; [lia| |lia]. by apply Z.shiftl_nonneg. }
  destruct (Z.div_eucl m' (Zpos m2)) as [q r] eqn:E. simpl.
  assert (q = m' / Zpos m2) as -> by (unfold Z.div; by rewrite E).
  by apply Z.div_pos.
Qed.

Lemma div_ieee :
  (if (isInfinity f x && isInfinity f y) || (isZero f x && isZero f y) then generateQNaN f
   else if isZero f y then if sign f x =? sign f y then getZero else negZero f
   else if isInfinity f x then
     if negb (sign f x =? sign f y) then host_neg f (infinity f) else infinity f
   else if isZero f x || isInfinity f y then
     if sign f x =? sign f y then getZero else negZero f
   else host_div f x y) =
  if isZero f y && negb (isZero f x)
  then bitsOf f (S754_zero (xorb (signOf (valueOf f x)) (signOf (valueOf f y))))
  else ieee f (SFdiv (prec f) (emax f) (valueOf f x) (valueOf f y)).
Proof.
  rewrite neg_infinity. unfold host_div. by_values; rewrite ?Vx, ?Vy; by_sign.
  all: cbn [SFdiv negb]; apply hostResult_ieee.
  pose proof (SFdiv_core_nonneg (prec f) (emax f) mx ex my ey).
  destruct (SFdiv_core_binary _ _ _ _ _ _) as [[q e] l].
  by apply binary_round_aux_number.
Qed.
End Arithmetic.

Section ArithmeticHandlers.
Context `{HostFloat}.

(** The format a handler works in and the operands it reads. *)
Definition handlerFormat (flags : Z) : floatFormat :=
  formatOf (has flags FloatDoubleWidthSource).
Definition operandsNumeric (flags : Z) (core : Core) (inst : Z) : Prop :=
  let f := handlerFormat flags in
  isNaN f (getReg f core (Inst.Rn inst)) = false /\
  isNaN f (getReg f core (Inst.Rm inst)) = false.

Lemma getReg_width f core r : uint (floatWidth f) (getReg f core r).
Proof. apply bitField_uint. pose proof (floatWidth_bounds f). lia. Qed.

(** C18: FADD, FSUB, FMUL and FNMUL are the IEEE 754 operations on every pair of numbers,
    infinities, zeros, subnormals and overflow included: the special cases the code
    tests first give the results of the general rule, and an invalid operation gives
    the default NaN. *)
Theorem float_arithmetic_ieee (flags : Z) (core : Core) (inst : Z) :
  operandsNumeric flags core inst ->
  let f := handlerFormat flags in
  let p := prec f in let em := emax f in
  let x := valueOf f (getReg f core (Inst.Rn inst)) in
  let y := valueOf f (getReg f core (Inst.Rm inst)) in
  floatAddGeneric flags core inst =
    setReg f (Inst.Rd inst) (bitsOf f (SFadd p em x y)) core /\
  floatSubGeneric flags core inst =
    setReg f (Inst.Rd inst) (bitsOf f (SFsub p em x y)) core /\
  floatMulGeneric flags core inst =
    setReg f (Inst.Rd inst)
      (let r := bitsOf f (SFmul p em x y) in
       if has flags FloatNegate then host_neg f r else r) core.
Proof.
  intros [Nx Ny] f p em x y. fold f in Nx, Ny.
  unfold floatAddGeneric, floatSubGeneric, floatMulGeneric.
  change (formatOf (has flags FloatDoubleWidthSource)) with f. cbv zeta.
  pose proof (getReg_width f core (Inst.Rn inst)) as Hx.
  pose proof (getReg_width f core (Inst.Rm inst)) as Hy.
  rewrite add_ieee, sub_ieee, mul_ieee by done. done.
Qed.

(** FDIV is the IEEE 754 quotient, except that a number divided by zero gives a zero
    of the sign of the quotient instead of an infinity. *)
Theorem float_division (flags : Z) (core : Core) (inst : Z) :
  operandsNumeric flags core inst ->
  let f := handlerFormat flags in
  let bx := getReg f core (Inst.Rn inst) in
  let by_ := getReg f core (Inst.Rm inst) in
  let x := valueOf f bx in let y := valueOf f by_ in
  floatDivGeneric flags core inst =
    setReg f (Inst.Rd inst)
      (if isZero f by_ && negb (isZero f bx)
       then bitsOf f (S754_zero (xorb (signOf x) (signOf y)))
       else bitsOf f (SFdiv (prec f) (emax f) x y)) core.
Proof.
  intros [Nx Ny] f bx by_ x y. fold f in Nx, Ny. unfold floatDivGeneric.
  change (formatOf (has flags FloatDoubleWidthSource)) with f. cbv zeta.
  pose proof (getReg_width f core (Inst.Rn inst)) as Hx.
  pose proof (getReg_width f core (Inst.Rm inst)) as Hy.
  by rewrite div_ieee.
Qed.
End ArithmeticHandlers.

(** [S1 = x] and [S2 = y] *)
Definition float_core (x y : Z) : Core := setD0 2 y (setD0 1 x (example_core 0)).

(** [fadd s0, s1, s2] of 1.0 and 2^-24, halfway to the next number, rounds to even *)
Lemma float_arithmetic_ieee_witness :
  operandsNumeric FloatSingleWidthSource (float_core 0x3F800000 0x33800000) 0x1E222820 /\
  floatAddGeneric FloatSingleWidthSource (float_core 0x3F800000 0x33800000) 0x1E222820 =
    setReg singleFloat 0 0x3F800000 (float_core 0x3F800000 0x33800000).
Proof.
  assert (operandsNumeric FloatSingleWidthSource (float_core 0x3F800000 0x33800000) 0x1E222820)
    as Hn by (split; vm_compute; reflexivity).
  split; [exact Hn|].
  rewrite (proj1 (float_arithmetic_ieee _ _ _ Hn)). vm_compute. reflexivity.
Defined.

(** [fdiv s0, s1, s2] of 1.0 and 0.0 *)
Lemma float_division_witness :
  operandsNumeric FloatSingleWidthSource (float_core 0x3F800000 0) 0x1E221820 /\
  floatDivGeneric FloatSingleWidthSource (float_core 0x3F800000 0) 0x1E221820 =
    setReg singleFloat 0 0 (float_core 0x3F800000 0).
Proof.
  assert (operandsNumeric FloatSingleWidthSource (float_core 0x3F800000 0) 0x1E221820)
    as Hn by (split; vm_compute; reflexivity).
  split; [exact Hn|]. rewrite (float_division _ _ _ Hn). vm_compute. reflexivity.
Defined.
