(* ===== verification/FloatSIMDSpec.v ===== *)
(** * Conversions and SIMD: what the handlers compute

    Conversions between integers and floating-point values, and the lane-wise and
    permuting SIMD instructions, against their definitions on numbers and lanes. *)
From Stdlib Require Import SpecFloat.
From S2P Require Import Prelude BitUtils Core InstUtils Float InterpFloat InterpSIMD InterpWf DPSpec.
From S2P Require Import FloatSpec.

(** ** Order of values and of bit patterns *)

Section Order.
Context (f : floatFormat).

(** Exponent and mantissa together: the magnitude of a pattern as an integer. *)
Definition magnitude (b : Z) : Z := exponent f b * 2 ^ mantBits f + mantissa f b.

(** A value, from the effective exponent [se] and the significand of its pattern. *)
Inductive value_of_magnitude (s : bool) (g : Z) : spec_float -> Prop :=
  | vm_zero : g = 0 -> value_of_magnitude s g (S754_zero s)
  | vm_infinity : g = maxExp f * 2 ^ mantBits f -> value_of_magnitude s g (S754_infinity s)
  | vm_finite se m :
      1 <= se < maxExp f -> g = (se - 1) * 2 ^ mantBits f + Zpos m ->
      Zpos m < 2 * 2 ^ mantBits f -> (se = 1 \/ 2 ^ mantBits f <= Zpos m) ->
      value_of_magnitude s g (S754_finite s m (se - 1 + emin (prec f) (emax f))).

Lemma mantBits_pow : 0 < 2 ^ mantBits f.
Proof. by destruct f. Qed.
Lemma maxExp_large : 1 < maxExp f.
Proof. by destruct f. Qed.

Lemma valueOf_magnitude b :
  isNaN f b = false -> value_of_magnitude (sign f b !=? 0) (magnitude b) (valueOf f b).
Proof.
  intros Hn. pose proof (mantissa_range f b) as Hm. pose proof (exponent_range f b) as He.
  pose proof mantBits_pow. pose proof maxExp_large.
  unfold isNaN, valueOf, magnitude in *.
  destruct (Z.eqb_spec (exponent f b) (maxExp f)) as [E|E].
  { destruct (Z.eqb_spec (mantissa f b) 0) as [M|M]; [|done].
    apply vm_infinity. rewrite E, M. lia. }
  destruct (Z.eqb_spec (exponent f b) 0) as [E0|E0].
  - rewrite E0. destruct (mantissa f b) as [|m|m] eqn:M; [by apply vm_zero| |lia].
    replace (emin (prec f) (emax f)) with (1 - 1 + emin (prec f) (emax f)) by lia.
    apply vm_finite; lia.
  - apply vm_finite; rewrite ?Z2Pos.id by lia; lia.
Qed.

(** IEEE 754 comparison of two numbers, on their patterns. *)
Definition compareMagnitudes (sx sy : bool) (gx gy : Z) : comparison :=
  match sx, sy with
  | false, false => gx ?= gy
  | true, true => gy ?= gx
  | true, false => if (gx =? 0) && (gy =? 0) then Eq else Lt
  | false, true => if (gx =? 0) && (gy =? 0) then Eq else Gt
  end.

Lemma finite_compare se1 m1 se2 m2 :
  1 <= se1 -> 1 <= se2 ->
  Zpos m1 < 2 * 2 ^ mantBits f -> (se1 = 1 \/ 2 ^ mantBits f <= Zpos m1) ->
  Zpos m2 < 2 * 2 ^ mantBits f -> (se2 = 1 \/ 2 ^ mantBits f <= Zpos m2) ->
  match se1 - 1 + emin (prec f) (emax f) ?= se2 - 1 + emin (prec f) (emax f) with
  | Lt => Lt | Gt => Gt | Eq => Pos.compare_cont Eq m1 m2
  end = ((se1 - 1) * 2 ^ mantBits f + Zpos m1 ?= (se2 - 1) * 2 ^ mantBits f + Zpos m2).
Proof.
  intros H1 H2 Hm1 Hl1 Hm2 Hl2. pose proof mantBits_pow as Hp.
  set (P := 2 ^ mantBits f) in *.
  destruct (Z.compare_spec (se1 - 1 + emin (prec f) (emax f))
    (se2 - 1 + emin (prec f) (emax f))) as [E|E|E]; symmetry.
  - assert (se1 = se2) as -> by lia. rewrite Z.add_compare_mono_l. reflexivity.
  - apply Z.compare_lt_iff. assert (se1 + 1 <= se2) by lia.
    assert ((se1 - 1) * P + 2 * P <= se2 * P) by nia. lia.
  - apply Z.compare_gt_iff. assert (se2 + 1 <= se1) by lia.
    assert ((se2 - 1) * P + 2 * P <= se1 * P) by nia. lia.
Qed.

Lemma SFcompare_magnitude sx sy gx gy vx vy :
  value_of_magnitude sx gx vx -> value_of_magnitude sy gy vy ->
  SFcompare vx vy = Some (compareMagnitudes sx sy gx gy).
Proof.
  pose proof mantBits_pow. pose proof maxExp_large.
  assert (forall se m, 1 <= se < maxExp f -> Zpos m < 2 * 2 ^ mantBits f ->
    0 < (se - 1) * 2 ^ mantBits f + Zpos m < maxExp f * 2 ^ mantBits f) as Hfin by nia.
  intros [Ex|Ex|se1 m1 Hs1 Ex Hm1 Hl1] [Ey|Ey|se2 m2 Hs2 Ey Hm2 Hl2];
    unfold compareMagnitudes.
  9: { pose proof (Hfin _ _ Hs1 Hm1) as Hf1. pose proof (Hfin _ _ Hs2 Hm2) as Hf2.
       pose proof (finite_compare se1 m1 se2 m2 ltac:(lia) ltac:(lia) Hm1 Hl1 Hm2 Hl2) as E.
       rewrite <-Ex, <-Ey in *. cbn [SFcompare]. f_equal.
       assert ((gx =? 0) = false) as -> by lia.
       destruct sx, sy; [|done..|exact E].
       rewrite (Z.compare_antisym gx gy), <-E. by destruct (_ ?= _). }
  all: try (pose proof (Hfin _ _ Hs1 Hm1)); try (pose proof (Hfin _ _ Hs2 Hm2)).
  all: cbn [SFcompare]; f_equal; destruct sx, sy; symmetry;
    try (apply Z.compare_lt_iff; nia); try (apply Z.compare_gt_iff; nia);
    try (apply Z.compare_eq_iff; nia);
    destruct (Z.eqb_spec gx 0), (Z.eqb_spec gy 0); try done; nia.
Qed.

Lemma pack_magnitude b :
  uint (floatWidth f) b ->
  to_signed (floatWidth f) b =
    magnitude b - (if sign f b !=? 0 then 2 ^ (floatWidth f - 1) else 0) /\
  0 <= magnitude b < 2 ^ (floatWidth f - 1).
Proof.
  intros Hb. pose proof (pack_fields f b Hb) as E. unfold pack in E.
  rewrite <-Z.add_assoc in E. fold (magnitude b) in E.
  pose proof (mantissa_range f b) as Hm. pose proof (exponent_range f b) as He.
  assert (2 ^ (floatWidth f - 1) = (maxExp f + 1) * 2 ^ mantBits f) as Hw by by destruct f.
  assert (0 <= magnitude b < 2 ^ (floatWidth f - 1)) as Hg by (unfold magnitude; nia).
  split; [|exact Hg]. assert (0 < floatWidth f) as H0 by by destruct f.
  rewrite to_signed_eq, wrap_id by done.
  assert (2 ^ floatWidth f = 2 * 2 ^ (floatWidth f - 1)) as H2 by by destruct f.
  destruct (sign f b !=? 0); simpl in E;
    destruct (Z.leb_spec (2 ^ (floatWidth f - 1)) b); lia.
Qed.

(** The order of the patterns read as signed integers, which the code uses. *)
Lemma signed_compare x y :
  uint (floatWidth f) x -> uint (floatWidth f) y ->
  (to_signed (floatWidth f) x ?= to_signed (floatWidth f) y) =
  match sign f x !=? 0, sign f y !=? 0 with
  | true, false => Lt
  | false, true => Gt
  | _, _ => magnitude x ?= magnitude y
  end.
Proof.
  intros Hx Hy. destruct (pack_magnitude x Hx) as [-> Gx].
  destruct (pack_magnitude y Hy) as [-> Gy].
  destruct (sign f x !=? 0), (sign f y !=? 0).
  - destruct (Z.compare_spec (magnitude x) (magnitude y));
      [apply Z.compare_eq_iff|apply Z.compare_lt_iff|apply Z.compare_gt_iff]; lia.
  - apply Z.compare_lt_iff. lia.
  - apply Z.compare_gt_iff. lia.
  - by rewrite !Z.sub_0_r.
Qed.
End Order.

(** ** FCMP *)

(** The flags of the architecture for the result of a comparison of numbers. *)
Definition compareFlags (c : comparison) : PSTATE.t :=
  match c with
  | Eq => PSTATE.mk false true true false
  | Lt => PSTATE.mk true false false false
  | Gt => PSTATE.mk false false true false
  end.

(** FCMP and FCMPE with a register or zero, and FCCMP and FCCMPE with their condition
    true, on numbers: the flags are those
    of the IEEE 754 comparison, except that the comparison of two negative numbers is
    inverted, and that -0 counts as less than +0. *)
Theorem float_compare (flags : Z) (core : Core) (inst : Z) :
  let f := handlerFormat flags in
  let x := getReg f core (Inst.Rn inst) in
  let y := if has flags FloatUseZero then 0 else getReg f core (Inst.Rm inst) in
  isNaN f x = false -> isNaN f y = false ->
  (has flags FloatConditional = true ->
   testCondition core (toCondition (Inst.cond_comp inst)) = true) ->
  exists c, SFcompare (valueOf f x) (valueOf f y) = Some c /\
    floatCompareGeneric flags core inst =
    set_PState (compareFlags
      (if isZero f x && isZero f y then sign f y ?= sign f x
       else if (sign f x !=? 0) && (sign f y !=? 0) then CompOpp c else c)) core.
Proof.
  intros f x y Nx Ny Hcond.
  pose proof (getReg_width f core (Inst.Rn inst) : uint (floatWidth f) x) as Hx.
  assert (uint (floatWidth f) y) as Hy.
  { unfold y. destruct (has flags FloatUseZero); [|apply getReg_width].
    unfold uint. by destruct f. }
  pose proof (SFcompare_magnitude f _ _ _ _ _ _ (valueOf_magnitude f x Nx)
                (valueOf_magnitude f y Ny)) as Hc.
  eexists. split; [exact Hc|].
  assert (floatCompareGeneric flags core inst =
    set_PState (compareFlags (to_signed (floatWidth f) x ?= to_signed (floatWidth f) y)) core)
    as ->.
  { unfold floatCompareGeneric. change (formatOf (has flags FloatDoubleWidthSource)) with f.
    cbv zeta. fold x. fold y. unfold isSignalingNaN. rewrite Nx, Ny.
    assert (has flags FloatConditional &&
      negb (testCondition core (toCondition (Inst.cond_comp inst))) = false) as ->
      by (destruct (has flags FloatConditional); [by rewrite Hcond|done]).
    cbn [andb orb]. destruct (has flags FloatGenerateExceptions); unfold compareFlags;
      destruct (Z.compare_spec (to_signed (floatWidth f) x) (to_signed (floatWidth f) y))
        as [E|E|E];
      destruct (Z.eqb_spec (to_signed (floatWidth f) x) (to_signed (floatWidth f) y));
      try lia; try done;
      destruct (Z.ltb_spec (to_signed (floatWidth f) x) (to_signed (floatWidth f) y));
      try lia; done. }
  do 2 f_equal. rewrite signed_compare by done. unfold compareMagnitudes.
  assert (forall b, isZero f b = (magnitude f b =? 0)) as Hzero.
  { intros b. pose proof (mantissa_range f b). pose proof (exponent_range f b).
    pose proof (mantBits_pow f). unfold isZero, magnitude.
    destruct (Z.eqb_spec (mantissa f b) 0), (Z.eqb_spec (exponent f b) 0);
      destruct (Z.eqb_spec (exponent f b * 2 ^ mantBits f + mantissa f b) 0);
      try done; nia. }
  rewrite !Hzero. destruct (sign_cases f x) as [-> | ->], (sign_cases f y) as [-> | ->];
    cbn [negb Z.eqb Pos.eqb andb Z.compare Pos.compare Pos.compare_cont];
    destruct (Z.eqb_spec (magnitude f x) 0) as [Ex|], (Z.eqb_spec (magnitude f y) 0) as [Ey|];
    cbn [andb]; try done; try (by rewrite Ex, Ey); by rewrite <-Z.compare_antisym.
Qed.

(** [fcmp s1, s2] of -1.0 and -2.0: the code sets "less than" *)
Lemma float_compare_witness :
  (isNaN singleFloat (getReg singleFloat (float_core 0xBF800000 0xC0000000) 1) = false /\
   isNaN singleFloat (getReg singleFloat (float_core 0xBF800000 0xC0000000) 2) = false) /\
  floatCompareGeneric FloatSingleWidthSource (float_core 0xBF800000 0xC0000000) 0x1E222020 =
    set_PState (PSTATE.mk true false false false) (float_core 0xBF800000 0xC0000000).
Proof.
  split; [split; vm_compute; reflexivity|].
  destruct (float_compare FloatSingleWidthSource (float_core 0xBF800000 0xC0000000) 0x1E222020
    eq_refl eq_refl ltac:(discriminate)) as (c & Hc & E).
  vm_compute in Hc. injection Hc as <-. rewrite E. vm_compute. reflexivity.
Defined.

(** ** Conversion from an integer *)

Lemma div2_div_pow val k : 0 <= k -> val / 2 / 2 ^ k = val / 2 ^ (k + 1).
Proof.
  intros Hk. rewrite Z.div_div, (Z.add_1_r k), Z.pow_succ_r by lia. done.
Qed.

Lemma shrinkLoop_spec b : 0 <= b -> forall fuel val bias,
  2 ^ b <= val < 2 ^ (b + 1 + Z.of_nat fuel) -> 0 <= bias -> bias + Z.of_nat fuel < 2 ^ 64 ->
  exists k, 0 <= k <= Z.of_nat fuel /\
    shrinkLoop fuel (2 ^ (b + 1)) val bias = (val / 2 ^ k, bias + k) /\
    2 ^ b <= val / 2 ^ k < 2 ^ (b + 1).
Proof.
  intros Hb. induction fuel as [|fuel IH]; intros val bias Hv H0 Hk; cbn [shrinkLoop].
  { exists 0. change (2 ^ 0) with 1. rewrite Z.div_1_r, Z.add_0_r.
    change (Z.of_nat 0) with 0 in *. rewrite Z.add_0_r in Hv. done. }
  destruct (Z.geb_spec val (2 ^ (b + 1))) as [Hge|Hlt].
  - rewrite Z.shiftr_div_pow2 by lia. change (2 ^ 1) with 2.
    assert (u64 (bias + 1) = bias + 1) as -> by (apply u64_id; unfold uint; lia).
    destruct (IH (val / 2) (bias + 1)) as (k & Hk' & -> & Hr); [|lia..|].
    { rewrite Z.pow_add_r in Hge by lia. change (2 ^ 1) with 2 in Hge.
      split; [apply Z.div_le_lower_bound; lia|apply Z.div_lt_upper_bound; [lia|]].
      rewrite <-Z.pow_succ_r by lia.
      replace (Z.succ (b + 1 + Z.of_nat fuel)) with (b + 1 + Z.of_nat (S fuel)) by lia. lia. }
    exists (k + 1). rewrite <-div2_div_pow by lia. repeat split; try lia. f_equal. lia.
  - exists 0. change (2 ^ 0) with 1. rewrite Z.div_1_r, Z.add_0_r. repeat split; lia.
Qed.

Lemma growLoop_spec b : 0 <= b < 63 -> forall fuel val bias,
  0 < val < 2 ^ (b + 1) -> 2 ^ b <= val * 2 ^ Z.of_nat fuel ->
  0 <= bias -> bias + Z.of_nat fuel < 2 ^ 64 ->
  exists k, 0 <= k <= Z.of_nat fuel /\
    growLoop fuel b val bias = (val * 2 ^ k, bias + k) /\
    2 ^ b <= val * 2 ^ k < 2 ^ (b + 1).
Proof.
  intros Hb. induction fuel as [|fuel IH]; intros val bias Hv Hf H0 Hk; cbn [growLoop].
  { exists 0. change (2 ^ Z.of_nat 0) with 1 in Hf. change (2 ^ 0) with 1.
    rewrite Z.mul_1_r, Z.add_0_r in *. repeat split; lia. }
  assert (testBit b val = (2 ^ b <=? val)) as Ht.
  { rewrite testBit_spec, Z.testbit_odd, Z.shiftr_div_pow2 by lia.
    rewrite Z.pow_add_r in Hv by lia. change (2 ^ 1) with 2 in Hv.
    destruct (Z.leb_spec (2 ^ b) val).
    - assert (val / 2 ^ b = 1) as -> by (symmetry; apply Z.div_unique with (val - 2 ^ b); lia).
      done.
    - by rewrite Z.div_small by lia. }
  rewrite Ht. destruct (Z.leb_spec (2 ^ b) val) as [Hge|Hlt]; cbn [negb].
  - exists 0. change (2 ^ 0) with 1. rewrite Z.mul_1_r, Z.add_0_r. repeat split; lia.
  - rewrite Z.shiftl_mul_pow2 by lia. change (2 ^ 1) with 2.
    assert (2 ^ (b + 1) = 2 * 2 ^ b) as Hp by (rewrite Z.pow_add_r by lia; lia).
    assert (2 ^ (b + 1) <= 2 ^ 63) by (apply Z.pow_le_mono_r; lia).
    assert (u64 (val * 2) = val * 2) as -> by (apply u64_id; unfold uint; lia).
    assert (u64 (bias + 1) = bias + 1) as -> by (apply u64_id; unfold uint; lia).
    rewrite Nat2Z.inj_succ, Z.pow_succ_r in Hf by lia.
    destruct (IH (val * 2) (bias + 1)) as (k & Hk' & -> & Hr); [lia..|].
    exists (k + 1). rewrite Z.pow_add_r by lia. change (2 ^ 1) with 2.
    replace (val * (2 ^ k * 2)) with (val * 2 * 2 ^ k) by lia.
    repeat split; try lia. f_equal. lia.
Qed.

Lemma getD0_setD0_eq c r v : wf_Core c -> reg r -> getD0 (setD0 r v c) r = v.
Proof.
  intros Hc Hr. unfold getD0, setD0, getV, setV. cbn [VRegs set_VRegs].
  rewrite nth_insert_eq; [done|]. rewrite (wf_VRegs_len c Hc). unfold reg in Hr. lia.
Qed.

Lemma getReg_setReg f c r v :
  wf_Core c -> reg r -> uint (floatWidth f) v -> getReg f (setReg f r v c) r = v.
Proof.
  intros Hc Hr Hv. unfold getReg, setReg. rewrite getD0_setD0_eq by done.
  pose proof (floatWidth_bounds f). rewrite bitField_setBitField by lia. by apply wrap_id.
Qed.

Lemma widths f :
  0 < mantBits f /\ 0 < expBits f /\ floatWidth f = mantBits f + expBits f + 1.
Proof. by destruct f. Qed.

(** Writing exponent and mantissa over a pattern. *)
Section Fields.
Context (f : floatFormat) (e m r : Z) (Hr : uint (floatWidth f) r).
Let r' := set_mantissa f m (set_exponent f e r).

Lemma fields_uint : uint (floatWidth f) r'.
Proof.
  pose proof (widths f). unfold r', set_mantissa, set_exponent.
  repeat (apply setBitField_uint; [lia..|]). done.
Qed.

Lemma fields_mantissa : mantissa f r' = wrap (mantBits f) m.
Proof. pose proof (widths f). apply bitField_setBitField; lia. Qed.

Lemma fields_exponent : exponent f r' = wrap (expBits f) e.
Proof.
  pose proof (widths f). unfold r', exponent, set_mantissa.
  rewrite bitField_setBitField_ne by lia. apply bitField_setBitField; lia.
Qed.

Lemma fields_sign : sign f r' = sign f r.
Proof.
  pose proof (widths f). unfold r', sign, set_mantissa, set_exponent.
  by rewrite !bitField_setBitField_ne by lia.
Qed.

(** A significand with its top bit, and an exponent in the range of the format. *)
Lemma fields_value q :
  2 ^ mantBits f <= m < 2 ^ (mantBits f + 1) -> 0 < e < maxExp f ->
  q = e - 1 + emin (prec f) (emax f) ->
  valueOf f r' = S754_finite (sign f r !=? 0) (Z.to_pos m) q.
Proof.
  intros Hm He ->. pose proof (widths f). unfold valueOf.
  rewrite fields_mantissa, fields_exponent, fields_sign.
  rewrite Z.pow_add_r in Hm by lia. change (2 ^ 1) with 2 in Hm.
  assert (wrap (mantBits f) m = m - 2 ^ mantBits f) as ->
    by (unfold wrap; symmetry; apply Z.mod_unique with 1; lia).
  assert (wrap (expBits f) e = e) as ->.
  { apply wrap_id. unfold uint. assert (2 ^ expBits f = maxExp f + 1) by by destruct f. lia. }
  destruct (Z.eqb_spec e (maxExp f)); [lia|]. destruct (Z.eqb_spec e 0); [lia|].
  do 2 f_equal. lia.
Qed.
End Fields.

(** The operand of a conversion, its sign, and the magnitude the code converts: of a
    negative operand, the 64-bit two's complement. *)
Definition intOperand (flags : Z) (core : Core) (inst : Z) : Z :=
  wrap (width (has flags Convert64Bit)) (getX core (Inst.Rn inst)).
Definition intNegative (flags v : Z) : bool :=
  has flags ConvertSigned && testBit (width (has flags Convert64Bit) - 1) v.
Definition intMagnitude (flags v : Z) : Z := if intNegative flags v then 2 ^ 64 - v else v.

(** The exponent and mantissa the code stores for a magnitude. *)
Definition encodedMagnitude (f : floatFormat) (g : Z) : Z * Z :=
  let bit := mantBits f in
  let base := emax f - 1 + bit in
  if g !=? 0 then
    if g >=? 2 ^ (bit + 1) then
      let '(val, bias) := shrinkLoop 64 (2 ^ (bit + 1)) g 0 in (u64 (base + bias), val)
    else
      let '(val, bias) := growLoop 64 bit g 0 in (u64 (base - bias), val)
  else (0, 0).

Lemma encodedMagnitude_spec f g :
  f <> halfFloat -> 0 < g < 2 ^ 64 ->
  exists m e, encodedMagnitude f g = (e - emin (prec f) (emax f) + 1, m) /\
    0 < e - emin (prec f) (emax f) + 1 < maxExp f /\
    2 ^ mantBits f <= m < 2 ^ (mantBits f + 1) /\
    m = (if 0 <=? e then g / 2 ^ e else g * 2 ^ (- e)).
Proof.
  intros Hf Hg. pose proof (widths f) as (Hm0 & _).
  assert (mantBits f < 63 /\ emax f - 1 + mantBits f = 1 - emin (prec f) (emax f) /\
    64 < 1 - emin (prec f) (emax f) /\ 1 - emin (prec f) (emax f) + 64 < maxExp f)
    as (Hb & Hbase & Hlo & Hhi) by by destruct f.
  unfold encodedMagnitude. rewrite Hbase. set (em := emin (prec f) (emax f)) in *.
  assert (maxExp f < 2 ^ 64) as Hmax by by destruct f.
  assert ((g !=? 0) = true) as -> by (apply negb_true_iff; lia).
  destruct (Z.geb_spec g (2 ^ (mantBits f + 1))) as [Hge|Hlt].
  - destruct (shrinkLoop_spec (mantBits f) ltac:(lia) 64 g 0) as (k & Hk & -> & Hr); [|lia..|].
    { rewrite Z.pow_add_r in Hge by lia. change (2 ^ 1) with 2 in Hge.
      pose proof (mantBits_pow f). split; [lia|]. apply Z.lt_le_trans with (2 ^ 64); [lia|].
      apply Z.pow_le_mono_r; lia. }
    rewrite u64_id by (unfold uint; lia).
    exists (g / 2 ^ k), k. rewrite (proj2 (Z.leb_le 0 k)) by lia.
    repeat split; try lia. f_equal. lia.
  - destruct (growLoop_spec (mantBits f) ltac:(lia) 64 g 0) as (k & Hk & -> & Hr);
      [lia| |lia..|].
    { apply Z.le_trans with (1 * 2 ^ 64); [|apply Z.mul_le_mono_nonneg_r; lia].
      rewrite Z.mul_1_l. apply Z.pow_le_mono_r; lia. }
    rewrite u64_id by (unfold uint; lia).
    exists (g * 2 ^ k), (- k). repeat split; try lia; [f_equal; lia|].
    destruct (Z.leb_spec 0 (- k)); [|by rewrite Z.opp_involutive].
    assert (k = 0) as -> by lia. change (2 ^ 0) with 1. change (2 ^ (- 0)) with 1.
    by rewrite Z.div_1_r, Z.mul_1_r.
Qed.

Lemma neg_64 v : 0 < v < 2 ^ 64 -> u64 (not64 v + 1) = 2 ^ 64 - v.
Proof.
  intros Hv. unfold u64, not64. unfold u64. rewrite wrap_add_l by lia. unfold wrap, Z.lnot.
  symmetry. apply Z.mod_unique with (-1); lia.
Qed.

Lemma intNegative_nonzero flags v : intNegative flags v = true -> v <> 0.
Proof.
  unfold intNegative. intros [_ En]%andb_true_iff ->.
  rewrite testBit_spec, Z.bits_0 in En; [done|].
  destruct (has flags Convert64Bit); cbn [width]; lia.
Qed.

(** The handler: the operand's magnitude, encoded over the destination's pattern. *)
Lemma floatConvIntToFloat_eq flags core inst :
  wf_Core core ->
  let f := formatOf (has flags ConvertDouble) in
  let v := intOperand flags core inst in
  let old := getReg f core (Inst.Rd inst) in
  let old := if intNegative flags v then set_sign f 1 old else old in
  let '(e, m) := encodedMagnitude f (intMagnitude flags v) in
  floatConvIntToFloatGeneric flags core inst =
    setReg f (Inst.Rd inst) (set_mantissa f m (set_exponent f e old)) core.
Proof.
  intros Hc f v old old'. unfold floatConvIntToFloatGeneric. cbv zeta.
  assert ((if has flags Convert64Bit then getX core (Inst.Rn inst)
           else Z.land (getX core (Inst.Rn inst)) (bitmask 32)) = v) as ->.
  { unfold v, intOperand. destruct (has flags Convert64Bit); cbn [width].
    - symmetry. apply wrap_id. by apply getX_uint.
    - by rewrite bitmask_ones, wrap_land_ones. }
  assert (uint (width (has flags Convert64Bit)) v) as Hv
    by (apply wrap_uint; by destruct (has flags Convert64Bit)).
  assert ((if has flags Convert64Bit then 63 else 31) = width (has flags Convert64Bit) - 1)
    as -> by by destruct (has flags Convert64Bit).
  fold (intNegative flags v). fold f. fold old.
  assert ((if intNegative flags v then (set_sign f 1 old, u64 (not64 v + 1)) else (old, v))
    = (old', intMagnitude flags v)) as ->.
  { unfold old', intMagnitude. destruct (intNegative flags v) eqn:En; [|done].
    f_equal. apply neg_64. apply uint_le with (w' := 64) in Hv;
      [|destruct (has flags Convert64Bit); cbn [width]; lia].
    unfold uint in Hv. pose proof (intNegative_nonzero flags v En). lia. }
  unfold encodedMagnitude. unfold f. destruct (has flags ConvertDouble); cbn [formatOf];
    change (Z.shiftl 1 53) with (2 ^ (mantBits doubleFloat + 1));
    change (Z.shiftl 1 24) with (2 ^ (mantBits singleFloat + 1));
    change (1023 + 52) with (emax doubleFloat - 1 + mantBits doubleFloat);
    change (127 + 23) with (emax singleFloat - 1 + mantBits singleFloat);
    change 52 with (mantBits doubleFloat); change 23 with (mantBits singleFloat);
    repeat case_match; simplify_eq; reflexivity.
Qed.

(** SCVTF and UCVTF from a general register: the result is the magnitude truncated
    to the precision of the format (exact when it fits), with the sign bit of the
    operand or the one the destination register happens to have.  The magnitude is
    the absolute value of an unsigned or 64-bit operand; a negative 32-bit operand
    is converted as [2^64 - v], [v] being its unsigned reading. *)
Theorem int_to_float_truncates (flags : Z) (core : Core) (inst : Z) :
  wf_Core core ->
  let f := formatOf (has flags ConvertDouble) in
  let v := intOperand flags core inst in
  let g := intMagnitude flags v in
  let s := intNegative flags v || (sign f (getReg f core (Inst.Rd inst)) !=? 0) in
  let r := valueOf f
    (getReg f (floatConvIntToFloatGeneric flags core inst) (Inst.Rd inst)) in
  if g =? 0 then r = S754_zero s
  else exists m e, r = S754_finite s m e /\
    2 ^ mantBits f <= Zpos m < 2 ^ (mantBits f + 1) /\
    Zpos m = (if 0 <=? e then g / 2 ^ e else g * 2 ^ (- e)).
Proof.
  intros Hc f v g s r. pose proof (floatConvIntToFloat_eq flags core inst Hc) as E.
  cbv zeta in E. fold f in E. fold v in E. fold g in E.
  set (old := if intNegative flags v then _ else _) in E.
  assert (f <> halfFloat) as Hf by (unfold f; by destruct (has flags ConvertDouble)).
  assert (uint (width (has flags Convert64Bit)) v) as Hv
    by (apply wrap_uint; by destruct (has flags Convert64Bit)).
  apply uint_le with (w' := 64) in Hv; [|destruct (has flags Convert64Bit); cbn [width]; lia].
  assert (uint (floatWidth f) old) as Hold.
  { unfold old. pose proof (floatWidth_bounds f).
    destruct (intNegative flags v); [apply setBitField_uint; [lia..|]|]; apply getReg_width. }
  assert ((sign f old !=? 0) = s) as Hs.
  { unfold s, old. destruct (intNegative flags v); [|done].
    unfold sign, set_sign. pose proof (floatWidth_bounds f).
    rewrite bitField_setBitField by lia. done. }
  assert (reg (Inst.Rd inst)) as Hrd by (apply reg_bitRange; lia).
  assert (forall e m, floatConvIntToFloatGeneric flags core inst =
      setReg f (Inst.Rd inst) (set_mantissa f m (set_exponent f e old)) core ->
      r = valueOf f (set_mantissa f m (set_exponent f e old))) as Hr.
  { intros e m Ee. unfold r. rewrite Ee, getReg_setReg; [done..|]. by apply fields_uint. }
  destruct (Z.eqb_spec g 0) as [G|G].
  - rewrite G in E. cbn in E. rewrite (Hr 0 0 E). unfold valueOf.
    rewrite fields_mantissa, fields_exponent, fields_sign, Hs. by destruct f.
  - assert (0 < g < 2 ^ 64) as Hg.
    { unfold g, intMagnitude, uint in *.
      pose proof (intNegative_nonzero flags v). destruct (intNegative flags v); lia. }
    destruct (encodedMagnitude_spec f g Hf Hg) as (m & e & Hem & He & Hm & Hval).
    rewrite Hem in E. rewrite (Hr _ _ E). pose proof (mantBits_pow f).
    exists (Z.to_pos m), e. rewrite Z2Pos.id by lia. rewrite <-Hs.
    split; [|done]. apply fields_value; [done|done|done|lia].
Qed.

(** [scvtf s0, x1] of -3, over a cleared register *)
Lemma int_to_float_truncates_witness :
  wf_Core (example_core 0xFFFFFFFFFFFFFFFD) /\
  exists m e, valueOf singleFloat
      (getReg singleFloat (floatConvIntToFloatGeneric (Z.lor Convert64Bit ConvertSigned)
         (example_core 0xFFFFFFFFFFFFFFFD) 0x9E220020) 0) = S754_finite true m e /\
    2 ^ 23 <= Zpos m < 2 ^ 24 /\ Zpos m = (if 0 <=? e then 3 / 2 ^ e else 3 * 2 ^ (- e)).
Proof.
  assert (wf_Core (example_core 0xFFFFFFFFFFFFFFFD)) as Hc
    by (apply example_core_wf; unfold uint; lia).
  split; [exact Hc|].
  exact (int_to_float_truncates (Z.lor Convert64Bit ConvertSigned)
    (example_core 0xFFFFFFFFFFFFFFFD) 0x9E220020 Hc).
Defined.

(** A 32-bit -1 becomes -18446744069414584320.0, and a positive number converted into a
    register that held a negative one becomes negative. *)
Example scvtf_w_of_minus_one :
  getReg doubleFloat (floatConvIntToFloatGeneric (Z.lor ConvertDouble ConvertSigned)
    (example_core 0xFFFFFFFF) 0x1E620020) 0 = 0xC3EFFFFFFFE00000.
Proof. vm_compute. reflexivity. Qed.
Example ucvtf_keeps_sign :
  getReg singleFloat (floatConvIntToFloatGeneric ConvertNoFlags
    (setD0 0 0x80000000 (example_core 1)) 0x1E230020) 0 = 0xBF800000.
Proof. vm_compute. reflexivity. Qed.

(** ** Lanes as an array *)

Lemma getD1_setD1_eq c r v : wf_Core c -> reg r -> getD1 (setD1 r v c) r = v.
Proof.
  intros Hc Hr. unfold getD1, setD1, getV, setV. cbn [VRegs set_VRegs].
  rewrite nth_insert_eq; [done|]. rewrite (wf_VRegs_len c Hc). unfold reg in Hr. lia.
Qed.

Section Lanes.
Context (esize : Z) (He : lane_size esize).

Lemma lanes_fit i : lane esize i ->
  0 < esize /\ 0 < lanesPerD esize /\ 0 <= i < 2 * lanesPerD esize.
Proof.
  intros [_ Hi]. unfold lanesPerD. destruct He as [->|[->|[->| ->]]]; split; try lia;
    (split; [by vm_compute|]); exact Hi.
Qed.

Lemma getLane_setLane_eq c r i v :
  wf_Core c -> reg r -> lane esize i ->
  getLane esize (setLane esize r i v c) r i = wrap esize v.
Proof.
  intros Hc Hr Hi. destruct (lanes_fit i Hi) as (H0 & Hn & Hi').
  unfold getLane, setLane. destruct (Z.ltb_spec i (lanesPerD esize)).
  - rewrite getD0_setD0_eq by done. apply bitField_setBitField; lia.
  - rewrite getD1_setD1_eq by done. apply bitField_setBitField; nia.
Qed.

Lemma getLane_setLane_ne c r r' i j v :
  wf_Core c -> reg r -> reg r' -> lane esize i -> lane esize j -> r <> r' \/ i <> j ->
  getLane esize (setLane esize r i v c) r' j = getLane esize c r' j.
Proof.
  intros Hc Hr Hr' Hi Hj Hne.
  destruct (lanes_fit i Hi) as (H0 & Hn & Hi'). destruct (lanes_fit j Hj) as (_ & _ & Hj').
  unfold getLane, setLane, getD0, getD1, setD0, setD1. set (n := lanesPerD esize) in *.
  destruct (Z.eq_dec r r') as [<-|Hrr].
  - destruct (Z.ltb_spec i n), (Z.ltb_spec j n); rewrite getV_setV_eq by done;
      cbn [D0 D1]; try done; apply bitField_setBitField_ne; nia.
  - by destruct (i <? n); rewrite getV_setV_ne.
Qed.
End Lanes.

(** ** Lane-wise operations *)

Section LaneWise.
Context (esize : Z) (He : lane_size esize) (inst : Z) (op : Z -> Z -> Z).

Lemma regs_ok : reg (Inst.Rd inst) /\ reg (Inst.Rn inst) /\ reg (Inst.Rm inst).
Proof. repeat split; apply reg_bitRange; lia. Qed.

Let body := fun i core =>
  setLane esize (Inst.Rd inst) i
    (wrap esize (op (getLane esize core (Inst.Rn inst) i)
                    (getLane esize core (Inst.Rm inst) i))) core.

(** After [n] rounds the first [n] lanes of the destination hold the results and
    nothing else has changed. *)
Lemma laneWise_rounds (c : Core) (n : nat) :
  wf_Core c -> Z.of_nat n <= 128 / esize ->
  wf_Core (forLanes n body c) /\
  forall r j, reg r -> lane esize j ->
    getLane esize (forLanes n body c) r j =
    if (r =? Inst.Rd inst) && (j <? Z.of_nat n)
    then wrap esize (op (getLane esize c (Inst.Rn inst) j) (getLane esize c (Inst.Rm inst) j))
    else getLane esize c r j.
Proof.
  intros Hc. destruct regs_ok as (Hd & Hn & Hm).
  induction n as [|n IH]; intros Hb; cbn [forLanes].
  { split; [done|]. intros r j _ [_ Hj]. change (Z.of_nat 0) with 0.
    rewrite (proj2 (Z.ltb_ge j 0)) by lia. by rewrite andb_false_r. }
  destruct IH as [Hw IH]; [lia|]. set (c' := forLanes n body c) in *.
  assert (lane esize (Z.of_nat n)) as Hl by (split; [done|lia]).
  unfold body. rewrite !IH by done.
  rewrite (proj2 (Z.ltb_ge (Z.of_nat n) (Z.of_nat n))), !andb_false_r by lia.
  split; [by apply setLane_wf|]. intros r j Hr Hj.
  destruct (Z.eqb_spec r (Inst.Rd inst)) as [->|Hne]; cbn [andb].
  - destruct (Z.eq_dec j (Z.of_nat n)) as [->|Hjn].
    + rewrite getLane_setLane_eq by done. rewrite (proj2 (Z.ltb_lt _ _)) by lia.
      apply wrap_wrap. destruct He as [->|[->|[->| ->]]]; lia.
    + rewrite getLane_setLane_ne, IH, Z.eqb_refl by (done || by right; congruence).
      cbn [andb]. destruct (Z.ltb_spec j (Z.of_nat n)), (Z.ltb_spec j (Z.of_nat (S n)));
        done || lia.
  - rewrite getLane_setLane_ne, IH by (done || by left; congruence).
    by rewrite (proj2 (Z.eqb_neq _ _) Hne).
Qed.

Lemma laneWise_lane (c : Core) r j :
  wf_Core c -> reg r -> lane esize j ->
  getLane esize (laneWise esize inst op c) r j =
  if (r =? Inst.Rd inst) && (j <? numElements inst esize)
  then wrap esize (op (getLane esize c (Inst.Rn inst) j) (getLane esize c (Inst.Rm inst) j))
  else getLane esize c r j.
Proof.
  intros Hc Hr Hj. pose proof (numElements_bound inst esize He) as Hn.
  destruct (laneWise_rounds c (Z.to_nat (numElements inst esize)) Hc ltac:(lia)) as [_ H].
  rewrite (Z2Nat.id (numElements inst esize)) in H by lia. exact (H r j Hr Hj).
Qed.
End LaneWise.

(** C39: ADD (vector) and CMEQ: every lane of the destination is the lane-wise sum, or
    the mask of the comparison, of the sources' lanes as they were before the
    instruction, also when the destination is one of the sources; the other lanes
    and registers keep their values (the upper half too, in the 64-bit forms). *)
Theorem lane_wise_spec (core : Core) (inst r j : Z) (isZero : bool) :
  wf_Core core -> reg r -> lane (Z.shiftl 8 (Inst._22_23 inst)) j ->
  let esize := Z.shiftl 8 (Inst._22_23 inst) in
  let x := getLane esize core (Inst.Rn inst) j in
  let y := getLane esize core (Inst.Rm inst) j in
  let written := (r =? Inst.Rd inst) && (j <? numElements inst esize) in
  getLane esize (addVector core inst) r j =
    (if written then wrap esize (x + y) else getLane esize core r j) /\
  getLane esize (cmeqVecGeneric isZero core inst) r j =
    (if written then if x =? (if isZero then 0 else y) then 2 ^ esize - 1 else 0
     else getLane esize core r j).
Proof.
  intros Hc Hr Hj esize x y written. pose proof (size_cases inst : lane_size esize) as He.
  unfold addVector, cmeqVecGeneric. fold esize.
  rewrite !laneWise_lane by done. split; [done|].
  fold x y written. destruct written; [|done].
  assert (bitmask esize = 2 ^ esize - 1 /\ 0 < esize) as [-> H0]
    by (destruct He as [->|[->|[->| ->]]]; by vm_compute).
  assert (0 < 2 ^ esize) by (apply Z.pow_pos_nonneg; lia).
  destruct (_ =? _); apply wrap_id; unfold uint; lia.
Qed.

(** [add v1.8b, v1.8b, v1.8b]: lane 3 of the register doubled in place *)
Lemma lane_wise_spec_witness :
  (wf_Core (setD0 1 0xFF020304050607FF (example_core 0)) /\ reg 1 /\
   lane (Z.shiftl 8 (Inst._22_23 0x0E218421)) 0) /\
  getLane 8 (addVector (setD0 1 0xFF020304050607FF (example_core 0)) 0x0E218421) 1 0 = 0xFE.
Proof.
  assert (wf_Core (setD0 1 0xFF020304050607FF (example_core 0))) as Hc
    by (apply wf_setD0; [apply example_core_wf|]; unfold uint; lia).
  assert (reg 1) as Hr by (unfold reg; lia).
  assert (lane (Z.shiftl 8 (Inst._22_23 0x0E218421)) 0) as Hl
    by (split; [vm_compute; auto|split; by vm_compute]).
  split; [exact (conj Hc (conj Hr Hl))|].
  change 8 with (Z.shiftl 8 (Inst._22_23 0x0E218421)) at 1.
  rewrite (proj1 (lane_wise_spec _ 0x0E218421 1 0 true Hc Hr Hl)). vm_compute. reflexivity.
Defined.

(** ADDP writes lanes of both halves of its result in the same round, so a second
    source that is also the destination is read after it was overwritten: with
    [v1 = 1, 2, .., 8] and [v2 = 0], lane 4 of [addp v1.8b, v2.8b, v1.8b] is 0 + 2,
    where the same instruction into [v0] gives 1 + 2. *)
Example addp_reads_overwritten_lanes :
  getLane 8 (addpVec (setD0 2 0 (setD0 1 0x0807060504030201 (example_core 0))) 0x0E21BC41) 1 4
  = 2 /\
  getLane 8 (addpVec (setD0 2 0 (setD0 1 0x0807060504030201 (example_core 0))) 0x0E21BC40) 0 4
  = 3.
Proof. split; vm_compute; reflexivity. Qed.
