(* ===== verification/Disasm.v ===== *)
(** * The disassembler: [libcpu/src/disassembler/disassembler.cpp], [inc/disassembler.h]

    [init] fills two tables by including the X-macro lists [instructions.inl] and
    [instruction_aliases.inl] once more: for each instruction its mnemonic and the fields
    its operands are printed from.  [disassemble] looks up a decoded word and prints the
    fields one after the other into a [std::stringstream]. *)
From Stdlib Require Import Numbers.DecimalString Numbers.HexadecimalString.
From stdpp Require Import strings.
From S2P Require Import Prelude BitUtils Instructions DecodeSystem Core InstUtils Machine Memory.
#[global] Open Scope Z_scope.

Module disassembler.

(** [enum class RegType] *)
Module RegType.
Inductive t : Set := X | W | B | H | S | D | Q.
End RegType.

(** [enum FieldType] *)
Inductive FieldType : Set :=
  | NONE
  | cond_branch
  | cond_comp
  | Wt | Xt | Bt | Ht | St | Dt | Qt
  | Wt2 | Xt2 | Bt2 | Ht2 | St2 | Dt2 | Qt2
  | Wn | Xn | Bn | Hn | Sn | Dn | Qn
  | Wn_WSP | Xn_SP
  | Wm | Xm | Bm | Hm | Sm | Dm | Qm
  | Wa | Xa | Ba | Ha | Sa | Da | Qa
  | Wd | Xd | Bd | Hd | Sd | Dd | Qd
  | Wd_WSP | Xd_SP
  | Ws
  | imm_tbz
  | imm_exceptions
  | imm_hint
  | imm_clrex
  | imm_adr
  | imm_adrp
  | imm_addsub
  | imm_logical
  | imm_mov
  | imm_bitfield
  | imm_extract
  | imm_compare
  | imm_shift
  | label_cond_branch
  | label_branch
  | label_tbz
  | label_loadstore
  | prefetch_op
  | barrier_type
  | shifted_reg
  | W_extended_reg
  | X_extended_reg
  | cond_comp_flags
  | loadstore_no_off
  | loadstore_post_off
  | loadstore_pre_off
  | loadstore_unscaled_off
  | loadstore_unsigned_off_8
  | loadstore_unsigned_off_16
  | loadstore_unsigned_off_32
  | loadstore_unsigned_off_64
  | loadstore_unsigned_off_128
  | loadstore_post_off_pair_32
  | loadstore_post_off_pair_64
  | loadstore_post_off_pair_128
  | loadstore_pre_off_pair_32
  | loadstore_pre_off_pair_64
  | loadstore_pre_off_pair_128
  | loadstore_off_pair_32
  | loadstore_off_pair_64
  | loadstore_off_pair_128
  | loadstore_reg
  | float_zero_imm
  | TODO.

(** [struct InstructionInfo]; its [id] is the value of the enumerator. *)
Record InstructionInfo := mkInfo {
  info_id : Z;
  name : string;
  regs : list FieldType;
  mask : Z;
  condition : Z;
  rawName : string;
}.

(** [struct Disassembly] *)
Record Disassembly := mkDisassembly { dis_name : string; args : string }.

(** ** The tables *)

(** The rows the macros [INST] and [ALIAS] push. *)
Definition INST (x : instructionID.t) (name : string) (regs : list FieldType)
    (raw : string) : InstructionInfo :=
  mkInfo (instructionID.index x) name regs 0 0 raw.
Definition ALIAS (name : string) (regs : list FieldType) (mask condition : Z)
    : InstructionInfo :=
  mkInfo (instructionID.index instructionID.INVALID) name regs mask condition EmptyString.

(** *** [instructions.inl] *)

(** Branch *)
Definition info_branch : list InstructionInfo :=
  [ INST instructionID.B_cond "B" [cond_branch; label_cond_branch] "B_cond";
    INST instructionID.BR "BR" [Xn] "BR";
    INST instructionID.BLR "BLR" [Xn] "BLR";
    INST instructionID.RET "RET" [Xn] "RET";
    INST instructionID.ERET "ERET" [] "ERET";
    INST instructionID.DRPS "DRPS" [] "DRPS";
    INST instructionID.B "B" [label_branch] "B";
    INST instructionID.BL "BL" [label_branch] "BL";
    INST instructionID.CBZ_32 "CBZ" [Wt; label_cond_branch] "CBZ_32";
    INST instructionID.CBNZ_32 "CBNZ" [Wt; label_cond_branch] "CBNZ_32";
    INST instructionID.CBZ_64 "CBZ" [Xt; label_cond_branch] "CBZ_64";
    INST instructionID.CBNZ_64 "CBNZ" [Xt; label_cond_branch] "CBNZ_64";
    INST instructionID.TBZ "TBZ" [Xt; imm_tbz; label_tbz] "TBZ";
    INST instructionID.TBNZ "TBNZ" [Xt; imm_tbz; label_tbz] "TBNZ" ].

(** Exception Generating *)
Definition info_exception_generating : list InstructionInfo :=
  [ INST instructionID.SVC "SVC" [imm_exceptions] "SVC";
    INST instructionID.HVC "HVC" [imm_exceptions] "HVC";
    INST instructionID.SMC "SMC" [imm_exceptions] "SMC";
    INST instructionID.BRK "BRK" [imm_exceptions] "BRK";
    INST instructionID.HLT "HLT" [imm_exceptions] "HLT";
    INST instructionID.DCPS1 "DCPS1" [imm_exceptions] "DCPS1";
    INST instructionID.DCPS2 "DCPS2" [imm_exceptions] "DCPS2";
    INST instructionID.DCPS3 "DCPS3" [imm_exceptions] "DCPS3" ].

(** System *)
Definition info_system : list InstructionInfo :=
  [ INST instructionID.MSR_imm "MSR" [TODO] "MSR_imm";
    INST instructionID.MSR_reg "MSR" [TODO] "MSR_reg";
    INST instructionID.HINT "HINT" [imm_hint] "HINT";
    INST instructionID.NOP "NOP" [] "NOP";
    INST instructionID.YIELD "YIELD" [] "YIELD";
    INST instructionID.WFE "WFE" [] "WFE";
    INST instructionID.WFI "WFI" [] "WFI";
    INST instructionID.SEV "SEV" [] "SEV";
    INST instructionID.SEVL "SEVL" [] "SEVL";
    INST instructionID.CLREX "CLREX" [imm_clrex] "CLREX";
    INST instructionID.DSB "DSB" [barrier_type] "DSB";
    INST instructionID.DMB "DMB" [barrier_type] "DMB";
    INST instructionID.ISB "ISB" [barrier_type] "ISB";
    INST instructionID.SYS "SYS" [TODO] "SYS";
    INST instructionID.SYSL "SYSL" [TODO] "SYSL";
    INST instructionID.MRS "MRS" [TODO] "MRS" ].

(** PC-rel. addressing *)
Definition info_pc_rel_addressing : list InstructionInfo :=
  [ INST instructionID.ADR "ADR" [Xd; imm_adr] "ADR";
    INST instructionID.ADRP "ADRP" [Xd; imm_adrp] "ADRP" ].

(** Add/subtract (immediate) *)
Definition info_add_subtract_immediate : list InstructionInfo :=
  [ INST instructionID.ADD_32_imm "ADD" [Wd_WSP; Wn_WSP; imm_addsub] "ADD_32_imm";
    INST instructionID.ADDS_32_imm "ADDS" [Wd; Wn_WSP; imm_addsub] "ADDS_32_imm";
    INST instructionID.SUB_32_imm "SUB" [Wd_WSP; Wn_WSP; imm_addsub] "SUB_32_imm";
    INST instructionID.SUBS_32_imm "SUBS" [Wd; Wn_WSP; imm_addsub] "SUBS_32_imm";
    INST instructionID.ADD_64_imm "ADD" [Xd_SP; Xn_SP; imm_addsub] "ADD_64_imm";
    INST instructionID.ADDS_64_imm "ADDS" [Xd; Xn_SP; imm_addsub] "ADDS_64_imm";
    INST instructionID.SUB_64_imm "SUB" [Xd_SP; Xn_SP; imm_addsub] "SUB_64_imm";
    INST instructionID.SUBS_64_imm "SUBS" [Xd_SP; Xn_SP; imm_addsub] "SUBS_64_imm" ].

(** Logical (immediate) *)
Definition info_logical_immediate : list InstructionInfo :=
  [ INST instructionID.AND_32_imm "AND" [Wd_WSP; Wn; imm_logical] "AND_32_imm";
    INST instructionID.ORR_32_imm "ORR" [Wd_WSP; Wn; imm_logical] "ORR_32_imm";
    INST instructionID.EOR_32_imm "EOR" [Wd_WSP; Wn; imm_logical] "EOR_32_imm";
    INST instructionID.ANDS_32_imm "ANDS" [Wd; Wn; imm_logical] "ANDS_32_imm";
    INST instructionID.AND_64_imm "AND" [Xd_SP; Xn; imm_logical] "AND_64_imm";
    INST instructionID.ORR_64_imm "ORR" [Xd_SP; Xn; imm_logical] "ORR_64_imm";
    INST instructionID.EOR_64_imm "EOR" [Xd_SP; Xn; imm_logical] "EOR_64_imm";
    INST instructionID.ANDS_64_imm "ANDS" [Xd; Xn; imm_logical] "ANDS_64_imm" ].

(** Move wide (immediate) *)
Definition info_move_wide_immediate : list InstructionInfo :=
  [ INST instructionID.MOVN_32 "MOVN" [Wd; imm_mov] "MOVN_32";
    INST instructionID.MOVZ_32 "MOVZ" [Wd; imm_mov] "MOVZ_32";
    INST instructionID.MOVK_32 "MOVK" [Wd; imm_mov] "MOVK_32";
    INST instructionID.MOVN_64 "MOVN" [Xd; imm_mov] "MOVN_64";
    INST instructionID.MOVZ_64 "MOVZ" [Xd; imm_mov] "MOVZ_64";
    INST instructionID.MOVK_64 "MOVK" [Xd; imm_mov] "MOVK_64" ].

(** Bitfield *)
Definition info_bitfield : list InstructionInfo :=
  [ INST instructionID.SBFM_32 "SBFM" [Wd; Wn; imm_bitfield] "SBFM_32";
    INST instructionID.BFM_32 "BFM" [Wd; Wn; imm_bitfield] "BFM_32";
    INST instructionID.UBFM_32 "UBFM" [Wd; Wn; imm_bitfield] "UBFM_32";
    INST instructionID.SBFM_64 "SBFM" [Xd; Xn; imm_bitfield] "SBFM_64";
    INST instructionID.BFM_64 "BFM" [Xd; Xn; imm_bitfield] "BFM_64";
    INST instructionID.UBFM_64 "UBFM" [Xd; Xn; imm_bitfield] "UBFM_64" ].

(** Extract *)
Definition info_extract : list InstructionInfo :=
  [ INST instructionID.EXTR_32 "EXTR" [Wd; Wn; Wm; imm_extract] "EXTR_32";
    INST instructionID.EXTR_64 "EXTR" [Xd; Xn; Xm; imm_extract] "EXTR_64" ].

(** Data-processing (2 source) *)
Definition info_data_processing_2_source : list InstructionInfo :=
  [ INST instructionID.UDIV_32 "UDIV" [Wd; Wn; Wm] "UDIV_32";
    INST instructionID.SDIV_32 "SDIV" [Wd; Wn; Wm] "SDIV_32";
    INST instructionID.LSLV_32 "LSL" [Wd; Wn; Wm] "LSLV_32";
    INST instructionID.LSRV_32 "LSR" [Wd; Wn; Wm] "LSRV_32";
    INST instructionID.ASRV_32 "ASR" [Wd; Wn; Wm] "ASRV_32";
    INST instructionID.RORV_32 "ROR" [Wd; Wn; Wm] "RORV_32";
    INST instructionID.UDIV_64 "UDIV" [Xd; Xn; Xm] "UDIV_64";
    INST instructionID.SDIV_64 "SDIV" [Xd; Xn; Xm] "SDIV_64";
    INST instructionID.LSLV_64 "LSL" [Xd; Xn; Xm] "LSLV_64";
    INST instructionID.LSRV_64 "LSR" [Xd; Xn; Xm] "LSRV_64";
    INST instructionID.ASRV_64 "ASR" [Xd; Xn; Xm] "ASRV_64";
    INST instructionID.RORV_64 "ROR" [Xd; Xn; Xm] "RORV_64";
    INST instructionID.CRC32B "CRC32B" [Wd; Wn; Wm] "CRC32B";
    INST instructionID.CRC32H "CRC32H" [Wd; Wn; Wm] "CRC32H";
    INST instructionID.CRC32W "CRC32W" [Wd; Wn; Wm] "CRC32W";
    INST instructionID.CRC32X "CRC32X" [Wd; Wn; Xm] "CRC32X";
    INST instructionID.CRC32CB "CRC32CB" [Wd; Wn; Wm] "CRC32CB";
    INST instructionID.CRC32CH "CRC32CH" [Wd; Wn; Wm] "CRC32CH";
    INST instructionID.CRC32CW "CRC32CW" [Wd; Wn; Wm] "CRC32CW";
    INST instructionID.CRC32CX "CRC32CX" [Wd; Wn; Xm] "CRC32CX" ].

(** Data-processing (1 source) *)
Definition info_data_processing_1_source : list InstructionInfo :=
  [ INST instructionID.RBIT_32 "RBIT" [Wd; Wn] "RBIT_32";
    INST instructionID.REV16_32 "REV16" [Wd; Wn] "REV16_32";
    INST instructionID.REV_32 "REV" [Wd; Wn] "REV_32";
    INST instructionID.CLZ_32 "CLZ" [Wd; Wn] "CLZ_32";
    INST instructionID.CLS_32 "CLS" [Wd; Wn] "CLS_32";
    INST instructionID.RBIT_64 "RBIT" [Xd; Xn] "RBIT_64";
    INST instructionID.REV16_64 "REV16" [Xd; Xn] "REV16_64";
    INST instructionID.REV32_64 "REV32" [Xd; Xn] "REV32_64";
    INST instructionID.REV_64 "REV" [Xd; Xn] "REV_64";
    INST instructionID.CLZ_64 "CLZ" [Xd; Xn] "CLZ_64";
    INST instructionID.CLS_64 "CLS" [Xd; Xn] "CLS_64" ].

(** Logical (shifted register) *)
Definition info_logical_shifted_register : list InstructionInfo :=
  [ INST instructionID.AND_32_shifted "AND" [Wd; Wn; Wm; shifted_reg] "AND_32_shifted";
    INST instructionID.BIC_32_shifted "BIC" [Wd; Wn; Wm; shifted_reg] "BIC_32_shifted";
    INST instructionID.ORR_32_shifted "ORR" [Wd; Wn; Wm; shifted_reg] "ORR_32_shifted";
    INST instructionID.ORN_32_shifted "ORN" [Wd; Wn; Wm; shifted_reg] "ORN_32_shifted";
    INST instructionID.EOR_32_shifted "EOR" [Wd; Wn; Wm; shifted_reg] "EOR_32_shifted";
    INST instructionID.EON_32_shifted "EON" [Wd; Wn; Wm; shifted_reg] "EON_32_shifted";
    INST instructionID.ANDS_32_shifted "ANDS" [Wd; Wn; Wm; shifted_reg] "ANDS_32_shifted";
    INST instructionID.BICS_32_shifted "BICS" [Wd; Wn; Wm; shifted_reg] "BICS_32_shifted";
    INST instructionID.AND_64_shifted "AND" [Xd; Xn; Xm; shifted_reg] "AND_64_shifted";
    INST instructionID.BIC_64_shifted "BIC" [Xd; Xn; Xm; shifted_reg] "BIC_64_shifted";
    INST instructionID.ORR_64_shifted "ORR" [Xd; Xn; Xm; shifted_reg] "ORR_64_shifted";
    INST instructionID.ORN_64_shifted "ORN" [Xd; Xn; Xm; shifted_reg] "ORN_64_shifted";
    INST instructionID.EOR_64_shifted "EOR" [Xd; Xn; Xm; shifted_reg] "EOR_64_shifted";
    INST instructionID.EON_64_shifted "EON" [Xd; Xn; Xm; shifted_reg] "EON_64_shifted";
    INST instructionID.ANDS_64_shifted "ANDS" [Xd; Xn; Xm; shifted_reg] "ANDS_64_shifted";
    INST instructionID.BICS_64_shifted "BICS" [Xd; Xn; Xm; shifted_reg] "BICS_64_shifted" ].

(** Add/subtract (shifted register) *)
Definition info_add_subtract_shifted_register : list InstructionInfo :=
  [ INST instructionID.ADD_32_shifted "ADD" [Wd; Wn; Wm; shifted_reg] "ADD_32_shifted";
    INST instructionID.ADDS_32_shifted "ADDS" [Wd; Wn; Wm; shifted_reg] "ADDS_32_shifted";
    INST instructionID.SUB_32_shifted "SUB" [Wd; Wn; Wm; shifted_reg] "SUB_32_shifted";
    INST instructionID.SUBS_32_shifted "SUBS" [Wd; Wn; Wm; shifted_reg] "SUBS_32_shifted";
    INST instructionID.ADD_64_shifted "ADD" [Xd; Xn; Xm; shifted_reg] "ADD_64_shifted";
    INST instructionID.ADDS_64_shifted "ADDS" [Xd; Xn; Xm; shifted_reg] "ADDS_64_shifted";
    INST instructionID.SUB_64_shifted "SUB" [Xd; Xn; Xm; shifted_reg] "SUB_64_shifted";
    INST instructionID.SUBS_64_shifted "SUBS" [Xd; Xn; Xm; shifted_reg] "SUBS_64_shifted" ].

(** Add/subtract (extended register) *)
Definition info_add_subtract_extended_register : list InstructionInfo :=
  [ INST instructionID.ADD_32_extended "ADD" [Wd_WSP; Wn_WSP; W_extended_reg] "ADD_32_extended";
    INST instructionID.ADDS_32_extended "ADDS" [Wd; Wn_WSP; W_extended_reg] "ADDS_32_extended";
    INST instructionID.SUB_32_extended "SUB" [Wd_WSP; Wn_WSP; W_extended_reg] "SUB_32_extended";
    INST instructionID.SUBS_32_extended "SUBS" [Wd; Wn_WSP; W_extended_reg] "SUBS_32_extended";
    INST instructionID.ADD_64_extended "ADD" [Xd_SP; Xn_SP; X_extended_reg] "ADD_64_extended";
    INST instructionID.ADDS_64_extended "ADDS" [Xd; Xn_SP; X_extended_reg] "ADDS_64_extended";
    INST instructionID.SUB_64_extended "SUB" [Xd_SP; Xn_SP; X_extended_reg] "SUB_64_extended";
    INST instructionID.SUBS_64_extended "SUBS" [Xd; Xn_SP; X_extended_reg] "SUBS_64_extended" ].

(** Add/subtract (with carry) *)
Definition info_add_subtract_with_carry : list InstructionInfo :=
  [ INST instructionID.ADC_32 "ADC" [Wd; Wn; Wm] "ADC_32";
    INST instructionID.ADCS_32 "ADCS" [Wd; Wn; Wm] "ADCS_32";
    INST instructionID.SBC_32 "SBC" [Wd; Wn; Wm] "SBC_32";
    INST instructionID.SBCS_32 "SBCS" [Wd; Wn; Wm] "SBCS_32";
    INST instructionID.ADC_64 "ADC" [Xd; Xn; Xm] "ADC_64";
    INST instructionID.ADCS_64 "ADCS" [Xd; Xn; Xm] "ADCS_64";
    INST instructionID.SBC_64 "SBC" [Xd; Xn; Xm] "SBC_64";
    INST instructionID.SBCS_64 "SBCS" [Xd; Xn; Xm] "SBCS_64" ].

(** Conditional compare (register) *)
Definition info_conditional_compare_register : list InstructionInfo :=
  [ INST instructionID.CCMN_32_reg "CCMN" [Wn; Wm; cond_comp_flags; cond_comp] "CCMN_32_reg";
    INST instructionID.CCMP_32_reg "CCMP" [Wn; Wm; cond_comp_flags; cond_comp] "CCMP_32_reg";
    INST instructionID.CCMN_64_reg "CCMN" [Xn; Xm; cond_comp_flags; cond_comp] "CCMN_64_reg";
    INST instructionID.CCMP_64_reg "CCMP" [Xn; Xm; cond_comp_flags; cond_comp] "CCMP_64_reg" ].

(** Conditional compare (immediate) *)
Definition info_conditional_compare_immediate : list InstructionInfo :=
  [ INST instructionID.CCMN_32_imm "CCMN" [Wn; imm_compare; cond_comp_flags; cond_comp] "CCMN_32_imm";
    INST instructionID.CCMP_32_imm "CCMP" [Wn; imm_compare; cond_comp_flags; cond_comp] "CCMP_32_imm";
    INST instructionID.CCMN_64_imm "CCMN" [Xn; imm_compare; cond_comp_flags; cond_comp] "CCMN_64_imm";
    INST instructionID.CCMP_64_imm "CCMP" [Xn; imm_compare; cond_comp_flags; cond_comp] "CCMP_64_imm" ].

(** Conditional select *)
Definition info_conditional_select : list InstructionInfo :=
  [ INST instructionID.CSEL_32 "CSEL" [Wd; Wn; Wm; cond_comp] "CSEL_32";
    INST instructionID.CSINC_32 "CSINC" [Wd; Wn; Wm; cond_comp] "CSINC_32";
    INST instructionID.CSINV_32 "CSINV" [Wd; Wn; Wm; cond_comp] "CSINV_32";
    INST instructionID.CSNEG_32 "CSNEG" [Wd; Wn; Wm; cond_comp] "CSNEG_32";
    INST instructionID.CSEL_64 "CSEL" [Xd; Xn; Xm; cond_comp] "CSEL_64";
    INST instructionID.CSINC_64 "CSINC" [Xd; Xn; Xm; cond_comp] "CSINC_64";
    INST instructionID.CSINV_64 "CSINV" [Xd; Xn; Xm; cond_comp] "CSINV_64";
    INST instructionID.CSNEG_64 "CSNEG" [Xd; Xn; Xm; cond_comp] "CSNEG_64" ].

(** Data-processing (3 source) *)
Definition info_data_processing_3_source : list InstructionInfo :=
  [ INST instructionID.MADD_32 "MADD" [Wd; Wn; Wm; Wa] "MADD_32";
    INST instructionID.MSUB_32 "MSUB" [Wd; Wn; Wm; Wa] "MSUB_32";
    INST instructionID.MADD_64 "MADD" [Xd; Xn; Xm; Xa] "MADD_64";
    INST instructionID.MSUB_64 "MSUB" [Xd; Xn; Xm; Xa] "MSUB_64";
    INST instructionID.SMADDL "SMADDL" [Xd; Wn; Wm; Xa] "SMADDL";
    INST instructionID.SMSUBL "SMSUBL" [Xd; Wn; Wm; Xa] "SMSUBL";
    INST instructionID.SMULH "SMULH" [Xd; Xn; Xm] "SMULH";
    INST instructionID.UMADDL "UMADDL" [Xd; Wn; Wm; Xa] "UMADDL";
    INST instructionID.UMSUBL "UMSUBL" [Xd; Wn; Wm; Xa] "UMSUBL";
    INST instructionID.UMULH "UMULH" [Xd; Xn; Xm] "UMULH" ].

(** Advanced SIMD load/store multiple structures *)
Definition info_advanced_simd_load_store_multiple_structures : list InstructionInfo :=
  [ INST instructionID.ST1_multi_1reg "ST1" [TODO] "ST1_multi_1reg";
    INST instructionID.ST1_multi_2reg "ST1" [TODO] "ST1_multi_2reg";
    INST instructionID.ST1_multi_3reg "ST1" [TODO] "ST1_multi_3reg";
    INST instructionID.ST1_multi_4reg "ST1" [TODO] "ST1_multi_4reg";
    INST instructionID.ST2_multi "ST2" [TODO] "ST2_multi";
    INST instructionID.ST3_multi "ST3" [TODO] "ST3_multi";
    INST instructionID.ST4_multi "ST4" [TODO] "ST4_multi";
    INST instructionID.LD1_multi_1reg "LD1" [TODO] "LD1_multi_1reg";
    INST instructionID.LD1_multi_2reg "LD1" [TODO] "LD1_multi_2reg";
    INST instructionID.LD1_multi_3reg "LD1" [TODO] "LD1_multi_3reg";
    INST instructionID.LD1_multi_4reg "LD1" [TODO] "LD1_multi_4reg";
    INST instructionID.LD2_multi "LD2" [TODO] "LD2_multi";
    INST instructionID.LD3_multi "LD3" [TODO] "LD3_multi";
    INST instructionID.LD4_multi "LD4" [TODO] "LD4_multi" ].

(** Advanced SIMD load/store multiple structures (post-indexed) *)
Definition info_advanced_simd_load_store_multiple_structures_post_indexed : list InstructionInfo :=
  [ INST instructionID.ST1_multi_reg_1reg "ST1" [TODO] "ST1_multi_reg_1reg";
    INST instructionID.ST1_multi_reg_2reg "ST1" [TODO] "ST1_multi_reg_2reg";
    INST instructionID.ST1_multi_reg_3reg "ST1" [TODO] "ST1_multi_reg_3reg";
    INST instructionID.ST1_multi_reg_4reg "ST1" [TODO] "ST1_multi_reg_4reg";
    INST instructionID.ST2_multi_reg "ST2" [TODO] "ST2_multi_reg";
    INST instructionID.ST3_multi_reg "ST3" [TODO] "ST3_multi_reg";
    INST instructionID.ST4_multi_reg "ST4" [TODO] "ST4_multi_reg";
    INST instructionID.ST1_multi_offset_1reg "ST1" [TODO] "ST1_multi_offset_1reg";
    INST instructionID.ST1_multi_offset_2reg "ST1" [TODO] "ST1_multi_offset_2reg";
    INST instructionID.ST1_multi_offset_3reg "ST1" [TODO] "ST1_multi_offset_3reg";
    INST instructionID.ST1_multi_offset_4reg "ST1" [TODO] "ST1_multi_offset_4reg";
    INST instructionID.ST2_multi_offset "ST2" [TODO] "ST2_multi_offset";
    INST instructionID.ST3_multi_offset "ST3" [TODO] "ST3_multi_offset";
    INST instructionID.ST4_multi_offset "ST4" [TODO] "ST4_multi_offset";
    INST instructionID.LD1_multi_reg_1reg "LD1" [TODO] "LD1_multi_reg_1reg";
    INST instructionID.LD1_multi_reg_2reg "LD1" [TODO] "LD1_multi_reg_2reg";
    INST instructionID.LD1_multi_reg_3reg "LD1" [TODO] "LD1_multi_reg_3reg";
    INST instructionID.LD1_multi_reg_4reg "LD1" [TODO] "LD1_multi_reg_4reg";
    INST instructionID.LD2_multi_reg "LD2" [TODO] "LD2_multi_reg";
    INST instructionID.LD3_multi_reg "LD3" [TODO] "LD3_multi_reg";
    INST instructionID.LD4_multi_reg "LD4" [TODO] "LD4_multi_reg";
    INST instructionID.LD1_multi_offset_1reg "LD1" [TODO] "LD1_multi_offset_1reg";
    INST instructionID.LD1_multi_offset_2reg "LD1" [TODO] "LD1_multi_offset_2reg";
    INST instructionID.LD1_multi_offset_3reg "LD1" [TODO] "LD1_multi_offset_3reg";
    INST instructionID.LD1_multi_offset_4reg "LD1" [TODO] "LD1_multi_offset_4reg";
    INST instructionID.LD2_multi_offset "LD2" [TODO] "LD2_multi_offset";
    INST instructionID.LD3_multi_offset "LD3" [TODO] "LD3_multi_offset";
    INST instructionID.LD4_multi_offset "LD4" [TODO] "LD4_multi_offset" ].

(** Advanced SIMD load/store single structure *)
Definition info_advanced_simd_load_store_single_structure : list InstructionInfo :=
  [ INST instructionID.ST1_single_8 "ST1" [TODO] "ST1_single_8";
    INST instructionID.ST1_single_16 "ST1" [TODO] "ST1_single_16";
    INST instructionID.ST1_single_32 "ST1" [TODO] "ST1_single_32";
    INST instructionID.ST1_single_64 "ST1" [TODO] "ST1_single_64";
    INST instructionID.ST2_single_8 "ST2" [TODO] "ST2_single_8";
    INST instructionID.ST2_single_16 "ST2" [TODO] "ST2_single_16";
    INST instructionID.ST2_single_32 "ST2" [TODO] "ST2_single_32";
    INST instructionID.ST2_single_64 "ST2" [TODO] "ST2_single_64";
    INST instructionID.ST3_single_8 "ST3" [TODO] "ST3_single_8";
    INST instructionID.ST3_single_16 "ST3" [TODO] "ST3_single_16";
    INST instructionID.ST3_single_32 "ST3" [TODO] "ST3_single_32";
    INST instructionID.ST3_single_64 "ST3" [TODO] "ST3_single_64";
    INST instructionID.ST4_single_8 "ST4" [TODO] "ST4_single_8";
    INST instructionID.ST4_single_16 "ST4" [TODO] "ST4_single_16";
    INST instructionID.ST4_single_32 "ST4" [TODO] "ST4_single_32";
    INST instructionID.ST4_single_64 "ST4" [TODO] "ST4_single_64";
    INST instructionID.LD1_single_8 "LD1" [TODO] "LD1_single_8";
    INST instructionID.LD1_single_16 "LD1" [TODO] "LD1_single_16";
    INST instructionID.LD1_single_32 "LD1" [TODO] "LD1_single_32";
    INST instructionID.LD1_single_64 "LD1" [TODO] "LD1_single_64";
    INST instructionID.LD2_single_8 "LD2" [TODO] "LD2_single_8";
    INST instructionID.LD2_single_16 "LD2" [TODO] "LD2_single_16";
    INST instructionID.LD2_single_32 "LD2" [TODO] "LD2_single_32";
    INST instructionID.LD2_single_64 "LD2" [TODO] "LD2_single_64";
    INST instructionID.LD3_single_8 "LD3" [TODO] "LD3_single_8";
    INST instructionID.LD3_single_16 "LD3" [TODO] "LD3_single_16";
    INST instructionID.LD3_single_32 "LD3" [TODO] "LD3_single_32";
    INST instructionID.LD3_single_64 "LD3" [TODO] "LD3_single_64";
    INST instructionID.LD4_single_8 "LD4" [TODO] "LD4_single_8";
    INST instructionID.LD4_single_16 "LD4" [TODO] "LD4_single_16";
    INST instructionID.LD4_single_32 "LD4" [TODO] "LD4_single_32";
    INST instructionID.LD4_single_64 "LD4" [TODO] "LD4_single_64";
    INST instructionID.LD1R "LD1R" [TODO] "LD1R";
    INST instructionID.LD2R "LD2R" [TODO] "LD2R";
    INST instructionID.LD3R "LD3R" [TODO] "LD3R";
    INST instructionID.LD4R "LD4R" [TODO] "LD4R" ].

(** Advanced SIMD load/store single structure (post-indexed) *)
Definition info_advanced_simd_load_store_single_structure_post_indexed : list InstructionInfo :=
  [ INST instructionID.ST1_single_8_reg "ST1" [TODO] "ST1_single_8_reg";
    INST instructionID.ST1_single_16_reg "ST1" [TODO] "ST1_single_16_reg";
    INST instructionID.ST1_single_32_reg "ST1" [TODO] "ST1_single_32_reg";
    INST instructionID.ST1_single_64_reg "ST1" [TODO] "ST1_single_64_reg";
    INST instructionID.ST2_single_8_reg "ST2" [TODO] "ST2_single_8_reg";
    INST instructionID.ST2_single_16_reg "ST2" [TODO] "ST2_single_16_reg";
    INST instructionID.ST2_single_32_reg "ST2" [TODO] "ST2_single_32_reg";
    INST instructionID.ST2_single_64_reg "ST2" [TODO] "ST2_single_64_reg";
    INST instructionID.ST3_single_8_reg "ST3" [TODO] "ST3_single_8_reg";
    INST instructionID.ST3_single_16_reg "ST3" [TODO] "ST3_single_16_reg";
    INST instructionID.ST3_single_32_reg "ST3" [TODO] "ST3_single_32_reg";
    INST instructionID.ST3_single_64_reg "ST3" [TODO] "ST3_single_64_reg";
    INST instructionID.ST4_single_8_reg "ST4" [TODO] "ST4_single_8_reg";
    INST instructionID.ST4_single_16_reg "ST4" [TODO] "ST4_single_16_reg";
    INST instructionID.ST4_single_32_reg "ST4" [TODO] "ST4_single_32_reg";
    INST instructionID.ST4_single_64_reg "ST4" [TODO] "ST4_single_64_reg";
    INST instructionID.ST1_single_8_imm "ST1" [TODO] "ST1_single_8_imm";
    INST instructionID.ST1_single_16_imm "ST1" [TODO] "ST1_single_16_imm";
    INST instructionID.ST1_single_32_imm "ST1" [TODO] "ST1_single_32_imm";
    INST instructionID.ST1_single_64_imm "ST1" [TODO] "ST1_single_64_imm";
    INST instructionID.ST2_single_8_imm "ST2" [TODO] "ST2_single_8_imm";
    INST instructionID.ST2_single_16_imm "ST2" [TODO] "ST2_single_16_imm";
    INST instructionID.ST2_single_32_imm "ST2" [TODO] "ST2_single_32_imm";
    INST instructionID.ST2_single_64_imm "ST2" [TODO] "ST2_single_64_imm";
    INST instructionID.ST3_single_8_imm "ST3" [TODO] "ST3_single_8_imm";
    INST instructionID.ST3_single_16_imm "ST3" [TODO] "ST3_single_16_imm";
    INST instructionID.ST3_single_32_imm "ST3" [TODO] "ST3_single_32_imm";
    INST instructionID.ST3_single_64_imm "ST3" [TODO] "ST3_single_64_imm";
    INST instructionID.ST4_single_8_imm "ST4" [TODO] "ST4_single_8_imm";
    INST instructionID.ST4_single_16_imm "ST4" [TODO] "ST4_single_16_imm";
    INST instructionID.ST4_single_32_imm "ST4" [TODO] "ST4_single_32_imm";
    INST instructionID.ST4_single_64_imm "ST4" [TODO] "ST4_single_64_imm";
    INST instructionID.LD1_single_8_reg "LD1" [TODO] "LD1_single_8_reg";
    INST instructionID.LD1_single_16_reg "LD1" [TODO] "LD1_single_16_reg";
    INST instructionID.LD1_single_32_reg "LD1" [TODO] "LD1_single_32_reg";
    INST instructionID.LD1_single_64_reg "LD1" [TODO] "LD1_single_64_reg";
    INST instructionID.LD2_single_8_reg "LD2" [TODO] "LD2_single_8_reg";
    INST instructionID.LD2_single_16_reg "LD2" [TODO] "LD2_single_16_reg";
    INST instructionID.LD2_single_32_reg "LD2" [TODO] "LD2_single_32_reg";
    INST instructionID.LD2_single_64_reg "LD2" [TODO] "LD2_single_64_reg";
    INST instructionID.LD3_single_8_reg "LD3" [TODO] "LD3_single_8_reg";
    INST instructionID.LD3_single_16_reg "LD3" [TODO] "LD3_single_16_reg";
    INST instructionID.LD3_single_32_reg "LD3" [TODO] "LD3_single_32_reg";
    INST instructionID.LD3_single_64_reg "LD3" [TODO] "LD3_single_64_reg";
    INST instructionID.LD4_single_8_reg "LD4" [TODO] "LD4_single_8_reg";
    INST instructionID.LD4_single_16_reg "LD4" [TODO] "LD4_single_16_reg";
    INST instructionID.LD4_single_32_reg "LD4" [TODO] "LD4_single_32_reg";
    INST instructionID.LD4_single_64_reg "LD4" [TODO] "LD4_single_64_reg";
    INST instructionID.LD1R_reg "LD1R" [TODO] "LD1R_reg";
    INST instructionID.LD2R_reg "LD2R" [TODO] "LD2R_reg";
    INST instructionID.LD3R_reg "LD3R" [TODO] "LD3R_reg";
    INST instructionID.LD4R_reg "LD4R" [TODO] "LD4R_reg";
    INST instructionID.LD1_single_8_imm "LD1" [TODO] "LD1_single_8_imm";
    INST instructionID.LD1_single_16_imm "LD1" [TODO] "LD1_single_16_imm";
    INST instructionID.LD1_single_32_imm "LD1" [TODO] "LD1_single_32_imm";
    INST instructionID.LD1_single_64_imm "LD1" [TODO] "LD1_single_64_imm";
    INST instructionID.LD2_single_8_imm "LD2" [TODO] "LD2_single_8_imm";
    INST instructionID.LD2_single_16_imm "LD2" [TODO] "LD2_single_16_imm";
    INST instructionID.LD2_single_32_imm "LD2" [TODO] "LD2_single_32_imm";
    INST instructionID.LD2_single_64_imm "LD2" [TODO] "LD2_single_64_imm";
    INST instructionID.LD3_single_8_imm "LD3" [TODO] "LD3_single_8_imm";
    INST instructionID.LD3_single_16_imm "LD3" [TODO] "LD3_single_16_imm";
    INST instructionID.LD3_single_32_imm "LD3" [TODO] "LD3_single_32_imm";
    INST instructionID.LD3_single_64_imm "LD3" [TODO] "LD3_single_64_imm";
    INST instructionID.LD4_single_8_imm "LD4" [TODO] "LD4_single_8_imm";
    INST instructionID.LD4_single_16_imm "LD4" [TODO] "LD4_single_16_imm";
    INST instructionID.LD4_single_32_imm "LD4" [TODO] "LD4_single_32_imm";
    INST instructionID.LD4_single_64_imm "LD4" [TODO] "LD4_single_64_imm";
    INST instructionID.LD1R_imm "LD1R" [TODO] "LD1R_imm";
    INST instructionID.LD2R_imm "LD2R" [TODO] "LD2R_imm";
    INST instructionID.LD3R_imm "LD3R" [TODO] "LD3R_imm";
    INST instructionID.LD4R_imm "LD4R" [TODO] "LD4R_imm" ].

(** Load/store exclusive *)
Definition info_load_store_exclusive : list InstructionInfo :=
  [ INST instructionID.STXRB "STXRB" [Ws; Wt; loadstore_no_off] "STXRB";
    INST instructionID.STLXRB "STLXRB" [Ws; Wt; loadstore_no_off] "STLXRB";
    INST instructionID.LDXRB "LDXRB" [Wt; loadstore_no_off] "LDXRB";
    INST instructionID.LDAXRB "LDAXRB" [Wt; loadstore_no_off] "LDAXRB";
    INST instructionID.STLRB "STLRB" [Wt; loadstore_no_off] "STLRB";
    INST instructionID.LDARB "LDARB" [Wt; loadstore_no_off] "LDARB";
    INST instructionID.STXRH "STXRH" [Ws; Wt; loadstore_no_off] "STXRH";
    INST instructionID.STLXRH "STLXRH" [Ws; Wt; loadstore_no_off] "STLXRH";
    INST instructionID.LDXRH "LDXRH" [Wt; loadstore_no_off] "LDXRH";
    INST instructionID.LDAXRH "LDAXRH" [Wt; loadstore_no_off] "LDAXRH";
    INST instructionID.STLRH "STLRH" [Wt; loadstore_no_off] "STLRH";
    INST instructionID.LDARH "LDARH" [Wt; loadstore_no_off] "LDARH";
    INST instructionID.STXR32 "STXR" [Ws; Wt; loadstore_no_off] "STXR32";
    INST instructionID.STLXR32 "STLXR" [Ws; Wt; loadstore_no_off] "STLXR32";
    INST instructionID.STXP32 "STXP" [Ws; Wt; Wt2; loadstore_no_off] "STXP32";
    INST instructionID.STLXP32 "STLXP" [Ws; Wt; Wt2; loadstore_no_off] "STLXP32";
    INST instructionID.LDXR32 "LDXR" [Wt; loadstore_no_off] "LDXR32";
    INST instructionID.LDAXR32 "LDAXR" [Wt; loadstore_no_off] "LDAXR32";
    INST instructionID.LDXP32 "LDXP" [Wt; Wt2; loadstore_no_off] "LDXP32";
    INST instructionID.LDAXP32 "LDAXP" [Wt; Wt2; loadstore_no_off] "LDAXP32";
    INST instructionID.STLR32 "STLR" [Ws; Wt; loadstore_no_off] "STLR32";
    INST instructionID.LDAR32 "LDAR" [Wt; loadstore_no_off] "LDAR32";
    INST instructionID.STXR64 "STXR" [Ws; Xt; loadstore_no_off] "STXR64";
    INST instructionID.STLXR64 "STLXR" [Ws; Xt; loadstore_no_off] "STLXR64";
    INST instructionID.STXP64 "STXP" [Ws; Xt; Xt2; loadstore_no_off] "STXP64";
    INST instructionID.STLXP64 "STLXP" [Ws; Xt; Xt2; loadstore_no_off] "STLXP64";
    INST instructionID.LDXR64 "LDXR" [Xt; loadstore_no_off] "LDXR64";
    INST instructionID.LDAXR64 "LDAXR" [Xt; loadstore_no_off] "LDAXR64";
    INST instructionID.LDXP64 "LDXP" [Xt; Xt2; loadstore_no_off] "LDXP64";
    INST instructionID.LDAXP64 "LDAXP" [Xt; Xt2; loadstore_no_off] "LDAXP64";
    INST instructionID.STLR64 "STLR" [Ws; Xt; loadstore_no_off] "STLR64";
    INST instructionID.LDAR64 "LDAR" [Xt; loadstore_no_off] "LDAR64" ].

(** Load register (literal) *)
Definition info_load_register_literal : list InstructionInfo :=
  [ INST instructionID.LDR32_literal "LDR" [Wt; label_loadstore] "LDR32_literal";
    INST instructionID.LDR32_literal_float "LDR" [St; label_loadstore] "LDR32_literal_float";
    INST instructionID.LDR64_literal "LDR" [Xt; label_loadstore] "LDR64_literal";
    INST instructionID.LDR64_literal_float "LDR" [Dt; label_loadstore] "LDR64_literal_float";
    INST instructionID.LDRSW_literal "LDRSW" [Xt; label_loadstore] "LDRSW_literal";
    INST instructionID.LDR128_literal "LDR" [Qt; label_loadstore] "LDR128_literal";
    INST instructionID.PRFM_literal "PRFM" [prefetch_op; label_loadstore] "PRFM_literal" ].

(** Load/store no-allocate pair (offset) *)
Definition info_load_store_no_allocate_pair_offset : list InstructionInfo :=
  [ INST instructionID.STNP32 "STNP" [Wt; Wt2; loadstore_off_pair_32] "STNP32";
    INST instructionID.LDNP32 "LDNP" [Wt; Wt2; loadstore_off_pair_32] "LDNP32";
    INST instructionID.STNP32_float "STNP" [St; St2; loadstore_off_pair_32] "STNP32_float";
    INST instructionID.LDNP32_float "LDNP" [St; St2; loadstore_off_pair_32] "LDNP32_float";
    INST instructionID.STNP64_float "STNP" [Dt; Dt2; loadstore_off_pair_64] "STNP64_float";
    INST instructionID.LDNP64_float "LDNP" [Dt; Dt2; loadstore_off_pair_64] "LDNP64_float";
    INST instructionID.STNP64 "STNP" [Xt; Xt2; loadstore_off_pair_64] "STNP64";
    INST instructionID.LDNP64 "LDNP" [Xt; Xt2; loadstore_off_pair_64] "LDNP64";
    INST instructionID.STNP128 "STNP" [Qt; Qt2; loadstore_off_pair_128] "STNP128";
    INST instructionID.LDNP128 "LDNP" [Qt; Qt2; loadstore_off_pair_128] "LDNP128" ].

(** Load/store register pair (post-indexed) *)
Definition info_load_store_register_pair_post_indexed : list InstructionInfo :=
  [ INST instructionID.STP32_post "STP" [Wt; Wt2; loadstore_post_off_pair_32] "STP32_post";
    INST instructionID.LDP32_post "LDP" [Wt; Wt2; loadstore_post_off_pair_32] "LDP32_post";
    INST instructionID.STP32_post_float "STP" [St; St2; loadstore_post_off_pair_32] "STP32_post_float";
    INST instructionID.LDP32_post_float "LDP" [St; St2; loadstore_post_off_pair_32] "LDP32_post_float";
    INST instructionID.LDPSW_post "LDPSW" [Xt; Xt2; loadstore_post_off_pair_64] "LDPSW_post";
    INST instructionID.STP64_post_float "STP" [Dt; Dt2; loadstore_post_off_pair_64] "STP64_post_float";
    INST instructionID.LDP64_post_float "LDP" [Dt; Dt2; loadstore_post_off_pair_64] "LDP64_post_float";
    INST instructionID.STP64_post "STP" [Xt; Xt2; loadstore_post_off_pair_64] "STP64_post";
    INST instructionID.LDP64_post "LDP" [Xt; Xt2; loadstore_post_off_pair_64] "LDP64_post";
    INST instructionID.STP128_post "STP" [Qt; Qt2; loadstore_post_off_pair_128] "STP128_post";
    INST instructionID.LDP128_post "LDP" [Qt; Qt2; loadstore_post_off_pair_128] "LDP128_post" ].

(** Load/store register pair (offset) *)
Definition info_load_store_register_pair_offset : list InstructionInfo :=
  [ INST instructionID.STP32_offset "STP" [Wt; Wt2; loadstore_off_pair_32] "STP32_offset";
    INST instructionID.LDP32_offset "LDP" [Wt; Wt2; loadstore_off_pair_32] "LDP32_offset";
    INST instructionID.STP32_offset_float "STP" [St; St2; loadstore_off_pair_32] "STP32_offset_float";
    INST instructionID.LDP32_offset_float "LDP" [St; St2; loadstore_off_pair_32] "LDP32_offset_float";
    INST instructionID.LDPSW_offset "LDPSW" [Xt; Xt2; loadstore_off_pair_32] "LDPSW_offset";
    INST instructionID.STP64_offset_float "STP" [Dt; Dt2; loadstore_off_pair_64] "STP64_offset_float";
    INST instructionID.LDP64_offset_float "LDP" [Dt; Dt2; loadstore_off_pair_64] "LDP64_offset_float";
    INST instructionID.STP64_offset "STP" [Xt; Xt2; loadstore_off_pair_64] "STP64_offset";
    INST instructionID.LDP64_offset "LDP" [Xt; Xt2; loadstore_off_pair_64] "LDP64_offset";
    INST instructionID.STP128_offset "STP" [Qt; Qt2; loadstore_off_pair_128] "STP128_offset";
    INST instructionID.LDP128_offset "LDP" [Qt; Qt2; loadstore_off_pair_128] "LDP128_offset" ].

(** Load/store register pair (pre-indexed) *)
Definition info_load_store_register_pair_pre_indexed : list InstructionInfo :=
  [ INST instructionID.STP32_pre "STP" [Wt; Wt2; loadstore_pre_off_pair_32] "STP32_pre";
    INST instructionID.LDP32_pre "LDP" [Wt; Wt2; loadstore_pre_off_pair_32] "LDP32_pre";
    INST instructionID.STP32_pre_float "STP" [St; St2; loadstore_pre_off_pair_32] "STP32_pre_float";
    INST instructionID.LDP32_pre_float "LDP" [St; St2; loadstore_pre_off_pair_32] "LDP32_pre_float";
    INST instructionID.LDPSW_pre "LDPSW" [Xt; Xt2; loadstore_pre_off_pair_64] "LDPSW_pre";
    INST instructionID.STP64_pre_float "STP" [Dt; Dt2; loadstore_pre_off_pair_64] "STP64_pre_float";
    INST instructionID.LDP64_pre_float "LDP" [Dt; Dt2; loadstore_pre_off_pair_64] "LDP64_pre_float";
    INST instructionID.STP64_pre "STP" [Xt; Xt2; loadstore_pre_off_pair_64] "STP64_pre";
    INST instructionID.LDP64_pre "LDP" [Xt; Xt2; loadstore_pre_off_pair_64] "LDP64_pre";
    INST instructionID.STP128_pre "STP" [Qt; Qt2; loadstore_pre_off_pair_128] "STP128_pre";
    INST instructionID.LDP128_pre "LDP" [Qt; Qt2; loadstore_pre_off_pair_128] "LDP128_pre" ].

(** Load/store register (unscaled immediate) *)
Definition info_load_store_register_unscaled_immediate : list InstructionInfo :=
  [ INST instructionID.STURB "STURB" [Wt; loadstore_unscaled_off] "STURB";
    INST instructionID.LDURB "LDURB" [Wt; loadstore_unscaled_off] "LDURB";
    INST instructionID.LDURSB64 "LDURSB" [Xt; loadstore_unscaled_off] "LDURSB64";
    INST instructionID.LDURSB32 "LDURSB" [Wt; loadstore_unscaled_off] "LDURSB32";
    INST instructionID.STUR8_float "STUR" [Bt; loadstore_unscaled_off] "STUR8_float";
    INST instructionID.LDUR8_float "LDUR" [Bt; loadstore_unscaled_off] "LDUR8_float";
    INST instructionID.STUR128 "STUR" [Qt; loadstore_unscaled_off] "STUR128";
    INST instructionID.LDUR128 "LDUR" [Qt; loadstore_unscaled_off] "LDUR128";
    INST instructionID.STURH "STURH" [Wt; loadstore_unscaled_off] "STURH";
    INST instructionID.LDURH "LDURH" [Wt; loadstore_unscaled_off] "LDURH";
    INST instructionID.LDURSH64 "LDURSH" [Xt; loadstore_unscaled_off] "LDURSH64";
    INST instructionID.LDURSH32 "LDURSH" [Wt; loadstore_unscaled_off] "LDURSH32";
    INST instructionID.STUR16_float "STUR" [Ht; loadstore_unscaled_off] "STUR16_float";
    INST instructionID.LDUR16_float "LDUR" [Ht; loadstore_unscaled_off] "LDUR16_float";
    INST instructionID.STUR32 "STUR" [Wt; loadstore_unscaled_off] "STUR32";
    INST instructionID.LDUR32 "LDUR" [Wt; loadstore_unscaled_off] "LDUR32";
    INST instructionID.LDURSW "LDURSW" [Xt; loadstore_unscaled_off] "LDURSW";
    INST instructionID.STUR32_float "STUR" [St; loadstore_unscaled_off] "STUR32_float";
    INST instructionID.LDUR32_float "LDUR" [St; loadstore_unscaled_off] "LDUR32_float";
    INST instructionID.STUR64 "STUR" [Xt; loadstore_unscaled_off] "STUR64";
    INST instructionID.LDUR64 "LDUR" [Xt; loadstore_unscaled_off] "LDUR64";
    INST instructionID.PRFM_unscaled "PRFM" [prefetch_op; loadstore_unscaled_off] "PRFM_unscaled";
    INST instructionID.STUR64_float "STUR" [Dt; loadstore_unscaled_off] "STUR64_float";
    INST instructionID.LDUR64_float "LDUR" [Dt; loadstore_unscaled_off] "LDUR64_float" ].

(** Load/store register (immediate post-indexed) *)
Definition info_load_store_register_immediate_post_indexed : list InstructionInfo :=
  [ INST instructionID.STRB_post "STRB" [Wt; loadstore_post_off] "STRB_post";
    INST instructionID.LDRB_post "LDRB" [Wt; loadstore_post_off] "LDRB_post";
    INST instructionID.LDRSB64_post "LDRSB" [Xt; loadstore_post_off] "LDRSB64_post";
    INST instructionID.LDRSB32_post "LDRSB" [Wt; loadstore_post_off] "LDRSB32_post";
    INST instructionID.STR8_post_float "STR" [Bt; loadstore_post_off] "STR8_post_float";
    INST instructionID.LDR8_post_float "LDR" [Bt; loadstore_post_off] "LDR8_post_float";
    INST instructionID.STR128_post "STR" [Qt; loadstore_post_off] "STR128_post";
    INST instructionID.LDR128_post "LDR" [Qt; loadstore_post_off] "LDR128_post";
    INST instructionID.STRH_post "STRH" [Wt; loadstore_post_off] "STRH_post";
    INST instructionID.LDRH_post "LDRH" [Wt; loadstore_post_off] "LDRH_post";
    INST instructionID.LDRSH64_post "LDRSH" [Xt; loadstore_post_off] "LDRSH64_post";
    INST instructionID.LDRSH32_post "LDRSH" [Wt; loadstore_post_off] "LDRSH32_post";
    INST instructionID.STR16_post_float "STR" [Ht; loadstore_post_off] "STR16_post_float";
    INST instructionID.LDR16_post_float "LDR" [Ht; loadstore_post_off] "LDR16_post_float";
    INST instructionID.STR32_post "STR" [Wt; loadstore_post_off] "STR32_post";
    INST instructionID.LDR32_post "LDR" [Wt; loadstore_post_off] "LDR32_post";
    INST instructionID.LDRSW_post "LDRSW" [Xt; loadstore_post_off] "LDRSW_post";
    INST instructionID.STR32_post_float "STR" [St; loadstore_post_off] "STR32_post_float";
    INST instructionID.LDR32_post_float "LDR" [St; loadstore_post_off] "LDR32_post_float";
    INST instructionID.STR64_post "STR" [Xt; loadstore_post_off] "STR64_post";
    INST instructionID.LDR64_post "LDR" [Xt; loadstore_post_off] "LDR64_post";
    INST instructionID.STR64_post_float "STR" [Dt; loadstore_post_off] "STR64_post_float";
    INST instructionID.LDR64_post_float "LDR" [Dt; loadstore_post_off] "LDR64_post_float" ].

(** Load/store register (unprivileged) *)
Definition info_load_store_register_unprivileged : list InstructionInfo :=
  [ INST instructionID.STTRB "STTRB" [Wt; loadstore_unscaled_off] "STTRB";
    INST instructionID.LDTRB "LDTRB" [Wt; loadstore_unscaled_off] "LDTRB";
    INST instructionID.LDTRSB64 "LDTRSB" [Xt; loadstore_unscaled_off] "LDTRSB64";
    INST instructionID.LDTRSB32 "LDTRSB" [Wt; loadstore_unscaled_off] "LDTRSB32";
    INST instructionID.STTRH "STTRH" [Wt; loadstore_unscaled_off] "STTRH";
    INST instructionID.LDTRH "LDTRH" [Wt; loadstore_unscaled_off] "LDTRH";
    INST instructionID.LDTRSH64 "LDTRSH" [Xt; loadstore_unscaled_off] "LDTRSH64";
    INST instructionID.LDTRSH32 "LDTRSH" [Wt; loadstore_unscaled_off] "LDTRSH32";
    INST instructionID.STTR32 "STTR" [Wt; loadstore_unscaled_off] "STTR32";
    INST instructionID.LDTR32 "LDTR" [Wt; loadstore_unscaled_off] "LDTR32";
    INST instructionID.LDTRSW "LDTRSW" [Xt; loadstore_unscaled_off] "LDTRSW";
    INST instructionID.STTR64 "STTR" [Xt; loadstore_unscaled_off] "STTR64";
    INST instructionID.LDTR64 "LDTR" [Xt; loadstore_unscaled_off] "LDTR64" ].

(** Load/store register (immediate pre-indexed) *)
Definition info_load_store_register_immediate_pre_indexed : list InstructionInfo :=
  [ INST instructionID.STRB_pre "STRB" [Wt; loadstore_pre_off] "STRB_pre";
    INST instructionID.LDRB_pre "LDRB" [Wt; loadstore_pre_off] "LDRB_pre";
    INST instructionID.LDRSB64_pre "LDRSB" [Xt; loadstore_pre_off] "LDRSB64_pre";
    INST instructionID.LDRSB32_pre "LDRSB" [Wt; loadstore_pre_off] "LDRSB32_pre";
    INST instructionID.STR8_pre_float "STR" [Bt; loadstore_pre_off] "STR8_pre_float";
    INST instructionID.LDR8_pre_float "LDR" [Bt; loadstore_pre_off] "LDR8_pre_float";
    INST instructionID.STR128_pre "STR" [Qt; loadstore_pre_off] "STR128_pre";
    INST instructionID.LDR128_pre "LDR" [Qt; loadstore_pre_off] "LDR128_pre";
    INST instructionID.STRH_pre "STRH" [Wt; loadstore_pre_off] "STRH_pre";
    INST instructionID.LDRH_pre "LDRH" [Wt; loadstore_pre_off] "LDRH_pre";
    INST instructionID.LDRSH64_pre "LDRSH" [Xt; loadstore_pre_off] "LDRSH64_pre";
    INST instructionID.LDRSH32_pre "LDRSH" [Wt; loadstore_pre_off] "LDRSH32_pre";
    INST instructionID.STR16_pre_float "STR" [Ht; loadstore_pre_off] "STR16_pre_float";
    INST instructionID.LDR16_pre_float "LDR" [Ht; loadstore_pre_off] "LDR16_pre_float";
    INST instructionID.STR32_pre "STR" [Wt; loadstore_pre_off] "STR32_pre";
    INST instructionID.LDR32_pre "LDR" [Wt; loadstore_pre_off] "LDR32_pre";
    INST instructionID.LDRSW_pre "LDRSW" [Xt; loadstore_pre_off] "LDRSW_pre";
    INST instructionID.STR32_pre_float "STR" [St; loadstore_pre_off] "STR32_pre_float";
    INST instructionID.LDR32_pre_float "LDR" [St; loadstore_pre_off] "LDR32_pre_float";
    INST instructionID.STR64_pre "STR" [Xt; loadstore_pre_off] "STR64_pre";
    INST instructionID.LDR64_pre "LDR" [Xt; loadstore_pre_off] "LDR64_pre";
    INST instructionID.STR64_pre_float "STR" [Dt; loadstore_pre_off] "STR64_pre_float";
    INST instructionID.LDR64_pre_float "LDR" [Dt; loadstore_pre_off] "LDR64_pre_float" ].

(** Load/store register (register offset) *)
Definition info_load_store_register_register_offset : list InstructionInfo :=
  [ INST instructionID.STRB_reg "STRB" [Wt; loadstore_reg] "STRB_reg";
    INST instructionID.LDRB_reg "LDRB" [Wt; loadstore_reg] "LDRB_reg";
    INST instructionID.LDRSB64_reg "LDRSB" [Xt; loadstore_reg] "LDRSB64_reg";
    INST instructionID.LDRSB32_reg "LDRSB" [Wt; loadstore_reg] "LDRSB32_reg";
    INST instructionID.STR8_reg_float "STR" [Bt; loadstore_reg] "STR8_reg_float";
    INST instructionID.LDR8_reg_float "LDR" [Bt; loadstore_reg] "LDR8_reg_float";
    INST instructionID.STR128_reg "STR" [Qt; loadstore_reg] "STR128_reg";
    INST instructionID.LDR128_reg "LDR" [Qt; loadstore_reg] "LDR128_reg";
    INST instructionID.STRH_reg "STRH" [Wt; loadstore_reg] "STRH_reg";
    INST instructionID.LDRH_reg "LDRH" [Wt; loadstore_reg] "LDRH_reg";
    INST instructionID.LDRSH64_reg "LDRSH" [Xt; loadstore_reg] "LDRSH64_reg";
    INST instructionID.LDRSH32_reg "LDRSH" [Wt; loadstore_reg] "LDRSH32_reg";
    INST instructionID.STR16_reg_float "STR" [Ht; loadstore_reg] "STR16_reg_float";
    INST instructionID.LDR16_reg_float "LDR" [Ht; loadstore_reg] "LDR16_reg_float";
    INST instructionID.STR32_reg "STR" [Wt; loadstore_reg] "STR32_reg";
    INST instructionID.LDR32_reg "LDR" [Wt; loadstore_reg] "LDR32_reg";
    INST instructionID.LDRSW_reg "LDRSW" [Xt; loadstore_reg] "LDRSW_reg";
    INST instructionID.STR32_reg_float "STR" [St; loadstore_reg] "STR32_reg_float";
    INST instructionID.LDR32_reg_float "LDR" [St; loadstore_reg] "LDR32_reg_float";
    INST instructionID.STR64_reg "STR" [Xt; loadstore_reg] "STR64_reg";
    INST instructionID.LDR64_reg "LDR" [Xt; loadstore_reg] "LDR64_reg";
    INST instructionID.PRFM_reg "PRFM" [prefetch_op; loadstore_reg] "PRFM_reg";
    INST instructionID.STR64_reg_float "STR" [Dt; loadstore_reg] "STR64_reg_float";
    INST instructionID.LDR64_reg_float "LDR" [Dt; loadstore_reg] "LDR64_reg_float" ].

(** Load/store register (unsigned immediate) *)
Definition info_load_store_register_unsigned_immediate : list InstructionInfo :=
  [ INST instructionID.STRB_imm "STRB" [Wt; loadstore_unsigned_off_8] "STRB_imm";
    INST instructionID.LDRB_imm "LDRB" [Wt; loadstore_unsigned_off_8] "LDRB_imm";
    INST instructionID.LDRSB64_imm "LDRSB" [Xt; loadstore_unsigned_off_8] "LDRSB64_imm";
    INST instructionID.LDRSB32_imm "LDRSB" [Wt; loadstore_unsigned_off_8] "LDRSB32_imm";
    INST instructionID.STR8_imm_float "STR" [Bt; loadstore_unsigned_off_8] "STR8_imm_float";
    INST instructionID.LDR8_imm_float "LDR" [Bt; loadstore_unsigned_off_8] "LDR8_imm_float";
    INST instructionID.STR128_imm "STR" [Qt; loadstore_unsigned_off_128] "STR128_imm";
    INST instructionID.LDR128_imm "LDR" [Qt; loadstore_unsigned_off_128] "LDR128_imm";
    INST instructionID.STRH_imm "STRH" [Wt; loadstore_unsigned_off_16] "STRH_imm";
    INST instructionID.LDRH_imm "LDRH" [Wt; loadstore_unsigned_off_16] "LDRH_imm";
    INST instructionID.LDRSH64_imm "LDRSH" [Xt; loadstore_unsigned_off_16] "LDRSH64_imm";
    INST instructionID.LDRSH32_imm "LDRSH" [Wt; loadstore_unsigned_off_16] "LDRSH32_imm";
    INST instructionID.STR16_imm_float "STR" [Ht; loadstore_unsigned_off_16] "STR16_imm_float";
    INST instructionID.LDR16_imm_float "LDR" [Ht; loadstore_unsigned_off_16] "LDR16_imm_float";
    INST instructionID.STR32_imm "STR" [Wt; loadstore_unsigned_off_32] "STR32_imm";
    INST instructionID.LDR32_imm "LDR" [Wt; loadstore_unsigned_off_32] "LDR32_imm";
    INST instructionID.LDRSW_imm "LDRSW" [Xt; loadstore_unsigned_off_32] "LDRSW_imm";
    INST instructionID.STR32_imm_float "STR" [St; loadstore_unsigned_off_32] "STR32_imm_float";
    INST instructionID.LDR32_imm_float "LDR" [St; loadstore_unsigned_off_32] "LDR32_imm_float";
    INST instructionID.STR64_imm "STR" [Xt; loadstore_unsigned_off_64] "STR64_imm";
    INST instructionID.LDR64_imm "LDR" [Xt; loadstore_unsigned_off_64] "LDR64_imm";
    INST instructionID.PRFM_imm "PRFM" [prefetch_op; loadstore_unsigned_off_64] "PRFM_imm";
    INST instructionID.STR64_imm_float "STR" [Dt; loadstore_unsigned_off_64] "STR64_imm_float";
    INST instructionID.LDR64_imm_float "LDR" [Dt; loadstore_unsigned_off_64] "LDR64_imm_float" ].

(** Conversion between floating-point and fixed-point *)
Definition info_conversion_between_floating_point_and_fixed_point : list InstructionInfo :=
  [ INST instructionID.SCVTF_32_single_fixed "SCVTF" [TODO] "SCVTF_32_single_fixed";
    INST instructionID.UCVTF_32_single_fixed "UCVTF" [TODO] "UCVTF_32_single_fixed";
    INST instructionID.FCVTZS_single_32_fixed "FCVTZS" [TODO] "FCVTZS_single_32_fixed";
    INST instructionID.FCVTZU_single_32_fixed "FCVTZU" [TODO] "FCVTZU_single_32_fixed";
    INST instructionID.SCVTF_32_double_fixed "SCVTF" [TODO] "SCVTF_32_double_fixed";
    INST instructionID.UCVTF_32_double_fixed "UCVTF" [TODO] "UCVTF_32_double_fixed";
    INST instructionID.FCVTZS_double_32_fixed "FCVTZS" [TODO] "FCVTZS_double_32_fixed";
    INST instructionID.FCVTZU_double_32_fixed "FCVTZU" [TODO] "FCVTZU_double_32_fixed";
    INST instructionID.SCVTF_64_single_fixed "SCVTF" [TODO] "SCVTF_64_single_fixed";
    INST instructionID.UCVTF_64_single_fixed "UCVTF" [TODO] "UCVTF_64_single_fixed";
    INST instructionID.FCVTZS_single_64_fixed "FCVTZS" [TODO] "FCVTZS_single_64_fixed";
    INST instructionID.FCVTZU_single_64_fixed "FCVTZU" [TODO] "FCVTZU_single_64_fixed";
    INST instructionID.SCVTF_64_double_fixed "SCVTF" [TODO] "SCVTF_64_double_fixed";
    INST instructionID.UCVTF_64_double_fixed "UCVTF" [TODO] "UCVTF_64_double_fixed";
    INST instructionID.FCVTZS_double_64_fixed "FCVTZS" [TODO] "FCVTZS_double_64_fixed";
    INST instructionID.FCVTZU_double_64_fixed "FCVTZU" [TODO] "FCVTZU_double_64_fixed" ].

(** Conversion between floating-point and integer *)
Definition info_conversion_between_floating_point_and_integer : list InstructionInfo :=
  [ INST instructionID.FCVTNS_single_32_int "FCVTNS" [Wd; Sn] "FCVTNS_single_32_int";
    INST instructionID.FCVTNU_single_32_int "FCVTNU" [Wd; Sn] "FCVTNU_single_32_int";
    INST instructionID.SCVTF_32_single_int "SCVTF" [Sd; Wn] "SCVTF_32_single_int";
    INST instructionID.UCVTF_32_single_int "UCVTF" [Sd; Wn] "UCVTF_32_single_int";
    INST instructionID.FCVTAS_single_32_int "FCVTAS" [Wd; Sn] "FCVTAS_single_32_int";
    INST instructionID.FCVTAU_single_32_int "FCVTAU" [Wd; Sn] "FCVTAU_single_32_int";
    INST instructionID.FMOV_single_32 "FMOV" [Wd; Sn] "FMOV_single_32";
    INST instructionID.FMOV_32_single "FMOV" [Sd; Wn] "FMOV_32_single";
    INST instructionID.FCVTPS_single_32_int "FCVTPS" [Wd; Sn] "FCVTPS_single_32_int";
    INST instructionID.FCVTPU_single_32_int "FCVTPU" [Wd; Sn] "FCVTPU_single_32_int";
    INST instructionID.FCVTMS_single_32_int "FCVTMS" [Wd; Sn] "FCVTMS_single_32_int";
    INST instructionID.FCVTMU_single_32_int "FCVTMU" [Wd; Sn] "FCVTMU_single_32_int";
    INST instructionID.FCVTZS_single_32_int "FCVTZS" [Wd; Sn] "FCVTZS_single_32_int";
    INST instructionID.FCVTZU_single_32_int "FCVTZU" [Wd; Sn] "FCVTZU_single_32_int";
    INST instructionID.FCVTNS_double_32_int "FCVTNS" [Wd; Dn] "FCVTNS_double_32_int";
    INST instructionID.FCVTNU_double_32_int "FCVTNU" [Wd; Dn] "FCVTNU_double_32_int";
    INST instructionID.SCVTF_32_double_int "SCVTF" [Dd; Wn] "SCVTF_32_double_int";
    INST instructionID.UCVTF_32_double_int "UCVTF" [Dd; Wn] "UCVTF_32_double_int";
    INST instructionID.FCVTAS_double_32_int "FCVTAS" [Wd; Dn] "FCVTAS_double_32_int";
    INST instructionID.FCVTAU_double_32_int "FCVTAU" [Wd; Dn] "FCVTAU_double_32_int";
    INST instructionID.FCVTPS_double_32_int "FCVTPS" [Wd; Dn] "FCVTPS_double_32_int";
    INST instructionID.FCVTPU_double_32_int "FCVTPU" [Wd; Dn] "FCVTPU_double_32_int";
    INST instructionID.FCVTMS_double_32_int "FCVTMS" [Wd; Dn] "FCVTMS_double_32_int";
    INST instructionID.FCVTMU_double_32_int "FCVTMU" [Wd; Dn] "FCVTMU_double_32_int";
    INST instructionID.FCVTZS_double_32_int "FCVTZS" [Wd; Dn] "FCVTZS_double_32_int";
    INST instructionID.FCVTZU_double_32_int "FCVTZU" [Wd; Dn] "FCVTZU_double_32_int";
    INST instructionID.FCVTNS_single_64_int "FCVTNS" [Xd; Sn] "FCVTNS_single_64_int";
    INST instructionID.FCVTNU_single_64_int "FCVTNU" [Xd; Sn] "FCVTNU_single_64_int";
    INST instructionID.SCVTF_64_single_int "SCVTF" [Sd; Xn] "SCVTF_64_single_int";
    INST instructionID.UCVTF_64_single_int "UCVTF" [Sd; Xn] "UCVTF_64_single_int";
    INST instructionID.FCVTAS_single_64_int "FCVTAS" [Xd; Sn] "FCVTAS_single_64_int";
    INST instructionID.FCVTAU_single_64_int "FCVTAU" [Xd; Sn] "FCVTAU_single_64_int";
    INST instructionID.FCVTPS_single_64_int "FCVTPS" [Xd; Sn] "FCVTPS_single_64_int";
    INST instructionID.FCVTPU_single_64_int "FCVTPU" [Xd; Sn] "FCVTPU_single_64_int";
    INST instructionID.FCVTMS_single_64_int "FCVTMS" [Xd; Sn] "FCVTMS_single_64_int";
    INST instructionID.FCVTMU_single_64_int "FCVTMU" [Xd; Sn] "FCVTMU_single_64_int";
    INST instructionID.FCVTZS_single_64_int "FCVTZS" [Xd; Sn] "FCVTZS_single_64_int";
    INST instructionID.FCVTZU_single_64_int "FCVTZU" [Xd; Sn] "FCVTZU_single_64_int";
    INST instructionID.FCVTNS_double_64_int "FCVTNS" [Xd; Dn] "FCVTNS_double_64_int";
    INST instructionID.FCVTNU_double_64_int "FCVTNU" [Xd; Dn] "FCVTNU_double_64_int";
    INST instructionID.SCVTF_64_double_int "SCVTF" [Dd; Xn] "SCVTF_64_double_int";
    INST instructionID.UCVTF_64_double_int "UCVTF" [Dd; Xn] "UCVTF_64_double_int";
    INST instructionID.FCVTAS_double_64_int "FCVTAS" [Xd; Dn] "FCVTAS_double_64_int";
    INST instructionID.FCVTAU_double_64_int "FCVTAU" [Xd; Dn] "FCVTAU_double_64_int";
    INST instructionID.FMOV_double_64 "FMOV" [Xd; Dn] "FMOV_double_64";
    INST instructionID.FMOV_64_double "FMOV" [Dd; Xn] "FMOV_64_double";
    INST instructionID.FCVTPS_double_64_int "FCVTPS" [Xd; Dn] "FCVTPS_double_64_int";
    INST instructionID.FCVTPU_double_64_int "FCVTPU" [Xd; Dn] "FCVTPU_double_64_int";
    INST instructionID.FCVTMS_double_64_int "FCVTMS" [Xd; Dn] "FCVTMS_double_64_int";
    INST instructionID.FCVTMU_double_64_int "FCVTMU" [Xd; Dn] "FCVTMU_double_64_int";
    INST instructionID.FCVTZS_double_64_int "FCVTZS" [Xd; Dn] "FCVTZS_double_64_int";
    INST instructionID.FCVTZU_double_64_int "FCVTZU" [Xd; Dn] "FCVTZU_double_64_int";
    INST instructionID.FMOV_top128_64 "FMOV" [TODO] "FMOV_top128_64";
    INST instructionID.FMOV_64_top128 "FMOV" [TODO] "FMOV_64_top128" ].

(** Floating-point data-processing (1 source) *)
Definition info_floating_point_data_processing_1_source : list InstructionInfo :=
  [ INST instructionID.FMOV_reg_single "FMOV" [Sd; Sn] "FMOV_reg_single";
    INST instructionID.FABS_single "FABS" [Sd; Sn] "FABS_single";
    INST instructionID.FNEG_single "FNEG" [Sd; Sn] "FNEG_single";
    INST instructionID.FSQRT_single "FSQRT" [Sd; Sn] "FSQRT_single";
    INST instructionID.FCVT_single_double "FCVT" [Dd; Sn] "FCVT_single_double";
    INST instructionID.FCVT_single_half "FCVT" [Hd; Sn] "FCVT_single_half";
    INST instructionID.FRINTN_single "FRINTN" [Sd; Sn] "FRINTN_single";
    INST instructionID.FRINTP_single "FRINTP" [Sd; Sn] "FRINTP_single";
    INST instructionID.FRINTM_single "FRINTM" [Sd; Sn] "FRINTM_single";
    INST instructionID.FRINTZ_single "FRINTZ" [Sd; Sn] "FRINTZ_single";
    INST instructionID.FRINTA_single "FRINTA" [Sd; Sn] "FRINTA_single";
    INST instructionID.FRINTX_single "FRINTX" [Sd; Sn] "FRINTX_single";
    INST instructionID.FRINTI_single "FRINTI" [Sd; Sn] "FRINTI_single";
    INST instructionID.FMOV_reg_double "FMOV" [Dd; Dn] "FMOV_reg_double";
    INST instructionID.FABS_double "FABS" [Dd; Dn] "FABS_double";
    INST instructionID.FNEG_double "FNEG" [Dd; Dn] "FNEG_double";
    INST instructionID.FSQRT_double "FSQRT" [Dd; Dn] "FSQRT_double";
    INST instructionID.FCVT_double_single "FCVT" [Sd; Dn] "FCVT_double_single";
    INST instructionID.FCVT_double_half "FCVT" [Hd; Dn] "FCVT_double_half";
    INST instructionID.FRINTN_double "FRINTN" [Dd; Dn] "FRINTN_double";
    INST instructionID.FRINTP_double "FRINTP" [Dd; Dn] "FRINTP_double";
    INST instructionID.FRINTM_double "FRINTM" [Dd; Dn] "FRINTM_double";
    INST instructionID.FRINTZ_double "FRINTZ" [Dd; Dn] "FRINTZ_double";
    INST instructionID.FRINTA_double "FRINTA" [Dd; Dn] "FRINTA_double";
    INST instructionID.FRINTX_double "FRINTX" [Dd; Dn] "FRINTX_double";
    INST instructionID.FRINTI_double "FRINTI" [Dd; Dn] "FRINTI_double";
    INST instructionID.FCVT_half_single "FCVT" [Sd; Hn] "FCVT_half_single";
    INST instructionID.FCVT_half_double "FCVT" [Dd; Hn] "FCVT_half_double" ].

(** Floating-point compare *)
Definition info_floating_point_compare : list InstructionInfo :=
  [ INST instructionID.FCMP_single "FCMP" [Sn; Sm] "FCMP_single";
    INST instructionID.FCMP_single_zero "FCMP" [Sn; float_zero_imm] "FCMP_single_zero";
    INST instructionID.FCMPE_single "FCMPE" [Sn; Sm] "FCMPE_single";
    INST instructionID.FCMPE_single_zero "FCMPE" [Sn; float_zero_imm] "FCMPE_single_zero";
    INST instructionID.FCMP_double "FCMP" [Dn; Dm] "FCMP_double";
    INST instructionID.FCMP_double_zero "FCMP" [Dn; float_zero_imm] "FCMP_double_zero";
    INST instructionID.FCMPE_double "FCMPE" [Dn; Dm] "FCMPE_double";
    INST instructionID.FCMPE_double_zero "FCMPE" [Dn; float_zero_imm] "FCMPE_double_zero" ].

(** Floating-point immediate *)
Definition info_floating_point_immediate : list InstructionInfo :=
  [ INST instructionID.FMOV_imm_single "FMOV" [TODO] "FMOV_imm_single";
    INST instructionID.FMOV_imm_double "FMOV" [TODO] "FMOV_imm_double" ].

(** Floating-point conditional compare *)
Definition info_floating_point_conditional_compare : list InstructionInfo :=
  [ INST instructionID.FCCMP_single "FCCMP" [Sn; Sm; cond_comp_flags; cond_comp] "FCCMP_single";
    INST instructionID.FCCMPE_single "FCCMPE" [Sn; Sm; cond_comp_flags; cond_comp] "FCCMPE_single";
    INST instructionID.FCCMP_double "FCCMP" [Dn; Dm; cond_comp_flags; cond_comp] "FCCMP_double";
    INST instructionID.FCCMPE_double "FCCMPE" [Dn; Dm; cond_comp_flags; cond_comp] "FCCMPE_double" ].

(** Floating-point data-processing (2 source) *)
Definition info_floating_point_data_processing_2_source : list InstructionInfo :=
  [ INST instructionID.FMUL_single "FMUL" [Sd; Sn; Sm] "FMUL_single";
    INST instructionID.FDIV_single "FDIV" [Sd; Sn; Sm] "FDIV_single";
    INST instructionID.FADD_single "FADD" [Sd; Sn; Sm] "FADD_single";
    INST instructionID.FSUB_single "FSUB" [Sd; Sn; Sm] "FSUB_single";
    INST instructionID.FMAX_single "FMAX" [Sd; Sn; Sm] "FMAX_single";
    INST instructionID.FMIN_single "FMIN" [Sd; Sn; Sm] "FMIN_single";
    INST instructionID.FMAXNM_single "FMAXNM" [Sd; Sn; Sm] "FMAXNM_single";
    INST instructionID.FMINNM_single "FMINNM" [Sd; Sn; Sm] "FMINNM_single";
    INST instructionID.FNMUL_single "FNMUL" [Sd; Sn; Sm] "FNMUL_single";
    INST instructionID.FMUL_double "FMUL" [Dd; Dn; Dm] "FMUL_double";
    INST instructionID.FDIV_double "FDIV" [Dd; Dn; Dm] "FDIV_double";
    INST instructionID.FADD_double "FADD" [Dd; Dn; Dm] "FADD_double";
    INST instructionID.FSUB_double "FSUB" [Dd; Dn; Dm] "FSUB_double";
    INST instructionID.FMAX_double "FMAX" [Dd; Dn; Dm] "FMAX_double";
    INST instructionID.FMIN_double "FMIN" [Dd; Dn; Dm] "FMIN_double";
    INST instructionID.FMAXNM_double "FMANNM" [Dd; Dn; Dm] "FMAXNM_double";
    INST instructionID.FMINNM_double "FMINNM" [Dd; Dn; Dm] "FMINNM_double";
    INST instructionID.FNMUL_double "FNMUL" [Dd; Dn; Dm] "FNMUL_double" ].

(** Floating-point conditional select *)
Definition info_floating_point_conditional_select : list InstructionInfo :=
  [ INST instructionID.FCSEL_single "FCSEL" [Sd; Sn; Sm; cond_comp] "FCSEL_single";
    INST instructionID.FCSEL_double "FCSEL" [Dd; Dn; Dm; cond_comp] "FCSEL_double" ].

(** Floating-point data-processing (3 source) *)
Definition info_floating_point_data_processing_3_source : list InstructionInfo :=
  [ INST instructionID.FMADD_single "FMADD" [Sd; Sn; Sm; Sa] "FMADD_single";
    INST instructionID.FMSUB_single "FMSUB" [Sd; Sn; Sm; Sa] "FMSUB_single";
    INST instructionID.FNMADD_single "FNMADD" [Sd; Sn; Sm; Sa] "FNMADD_single";
    INST instructionID.FNMSUB_single "FNMSUB" [Sd; Sn; Sm; Sa] "FNMSUB_single";
    INST instructionID.FMADD_double "FMADD" [Dd; Dn; Dm; Da] "FMADD_double";
    INST instructionID.FMSUB_double "FMSUB" [Dd; Dn; Dm; Da] "FMSUB_double";
    INST instructionID.FNMADD_double "FNMADD" [Dd; Dn; Dm; Da] "FNMADD_double";
    INST instructionID.FNMSUB_double "FNMSUB" [Dd; Dn; Dm; Da] "FNMSUB_double" ].

(** Cryptographic AES *)
Definition info_cryptographic_aes : list InstructionInfo :=
  [ INST instructionID.AESE "AESE" [TODO] "AESE";
    INST instructionID.AESD "AESD" [TODO] "AESD";
    INST instructionID.AESMC "AESMC" [TODO] "AESMC";
    INST instructionID.AESIMC "AESIMC" [TODO] "AESIMC" ].

(** Cryptographic three-register SHA *)
Definition info_cryptographic_three_register_sha : list InstructionInfo :=
  [ INST instructionID.SHA1C "SHA1C" [TODO] "SHA1C";
    INST instructionID.SHA1P "SHA1P" [TODO] "SHA1P";
    INST instructionID.SHA1M "SHA1M" [TODO] "SHA1M";
    INST instructionID.SHA1SU0 "SHA1SU0" [TODO] "SHA1SU0";
    INST instructionID.SHA256H "SHA256H" [TODO] "SHA256H";
    INST instructionID.SHA256H2 "SHA256H2" [TODO] "SHA256H2";
    INST instructionID.SHA256SU1 "SHA256SU1" [TODO] "SHA256SU1" ].

(** Cryptographic two-register SHA *)
Definition info_cryptographic_two_register_sha : list InstructionInfo :=
  [ INST instructionID.SHA1H "SHA1H" [TODO] "SHA1H";
    INST instructionID.SHA1SU1 "SHA1SU1" [TODO] "SHA1SU1";
    INST instructionID.SHA256SU0 "SHA256SU0" [TODO] "SHA256SU0" ].

(** Advanced SIMD scalar copy *)
Definition info_advanced_simd_scalar_copy : list InstructionInfo :=
  [ INST instructionID.DUP_element_scalar "DUP" [TODO] "DUP_element_scalar" ].

(** Advanced SIMD scalar two-register miscellaneous *)
Definition info_advanced_simd_scalar_two_register_miscellaneous : list InstructionInfo :=
  [ INST instructionID.SUQADD_scalar "SUQADD" [TODO] "SUQADD_scalar";
    INST instructionID.SQABS_scalar "SQABS" [TODO] "SQABS_scalar";
    INST instructionID.CMGT_scalar_zero "CMGT" [TODO] "CMGT_scalar_zero";
    INST instructionID.CMEQ_scalar_zero "CMEQ" [TODO] "CMEQ_scalar_zero";
    INST instructionID.CMLT_scalar_zero "CMLT" [TODO] "CMLT_scalar_zero";
    INST instructionID.ABS_scalar "ABS" [TODO] "ABS_scalar";
    INST instructionID.SQXTN_scalar "SQXTN" [TODO] "SQXTN_scalar";
    INST instructionID.FCVTNS_scalar "FCVTNS" [TODO] "FCVTNS_scalar";
    INST instructionID.FCVTMS_scalar "FCVTMS" [TODO] "FCVTMS_scalar";
    INST instructionID.FCVTAS_scalar "FCVTAS" [TODO] "FCVTAS_scalar";
    INST instructionID.SCVTF_scalar_int "SCVTF" [TODO] "SCVTF_scalar_int";
    INST instructionID.FCMGT_scalar_zero "FCMGT" [TODO] "FCMGT_scalar_zero";
    INST instructionID.FCMEQ_scalar_zero "FCMEQ" [TODO] "FCMEQ_scalar_zero";
    INST instructionID.FCMLT_scalar_zero "FCMLT" [TODO] "FCMLT_scalar_zero";
    INST instructionID.FCVTPS_scalar "FCVTPS" [TODO] "FCVTPS_scalar";
    INST instructionID.FCVTZS_scalar_int "FCVTZS" [TODO] "FCVTZS_scalar_int";
    INST instructionID.FRECPE_scalar "FRECPE" [TODO] "FRECPE_scalar";
    INST instructionID.FRECPX_scalar "FRECPX" [TODO] "FRECPX_scalar";
    INST instructionID.USQADD_scalar "USQADD" [TODO] "USQADD_scalar";
    INST instructionID.SQNEG_scalar "SQNEG" [TODO] "SQNEG_scalar";
    INST instructionID.CMGE_scalar_zero "CMGE" [TODO] "CMGE_scalar_zero";
    INST instructionID.CMLE_scalar_zero "CMLE" [TODO] "CMLE_scalar_zero";
    INST instructionID.NEG_scalar "NEG" [TODO] "NEG_scalar";
    INST instructionID.SQXTUN_scalar "SQXTUN" [TODO] "SQXTUN_scalar";
    INST instructionID.UQXTN_scalar "UQXTN" [TODO] "UQXTN_scalar";
    INST instructionID.FCVTXN_scalar "FCVTXN" [TODO] "FCVTXN_scalar";
    INST instructionID.FCVTNU_scalar "FCVTNU" [TODO] "FCVTNU_scalar";
    INST instructionID.FCVTMU_scalar "FCVTMU" [TODO] "FCVTMU_scalar";
    INST instructionID.FCVTAU_scalar "FCVTAU" [TODO] "FCVTAU_scalar";
    INST instructionID.UCVTF_scalar_int "UCVTF" [TODO] "UCVTF_scalar_int";
    INST instructionID.FCMGE_scalar_zero "FCMGE" [TODO] "FCMGE_scalar_zero";
    INST instructionID.FCMLE_scalar_zero "FCMLE" [TODO] "FCMLE_scalar_zero";
    INST instructionID.FCVTPU_scalar "FCVTPU" [TODO] "FCVTPU_scalar";
    INST instructionID.FCVTZU_scalar_int "FCVTZU" [TODO] "FCVTZU_scalar_int";
    INST instructionID.FRSQRTE_scalar "FRSQRTE" [TODO] "FRSQRTE_scalar" ].

(** Advanced SIMD scalar pairwise *)
Definition info_advanced_simd_scalar_pairwise : list InstructionInfo :=
  [ INST instructionID.ADDP_scalar "ADDP" [TODO] "ADDP_scalar";
    INST instructionID.FMAXNMP_scalar "FMAXNMP" [TODO] "FMAXNMP_scalar";
    INST instructionID.FADDP_scalar "FADDP" [TODO] "FADDP_scalar";
    INST instructionID.FMAXP_scalar "FMAXP" [TODO] "FMAXP_scalar";
    INST instructionID.FMINNMP_scalar "FMINNMP" [TODO] "FMINNMP_scalar";
    INST instructionID.FMINP_scalar "FMINP" [TODO] "FMINP_scalar" ].

(** Advanced SIMD scalar three different *)
Definition info_advanced_simd_scalar_three_different : list InstructionInfo :=
  [ INST instructionID.SQDMLAL_scalar "SQDMLAL" [TODO] "SQDMLAL_scalar";
    INST instructionID.SQDMLSL_scalar "SQDMLSL" [TODO] "SQDMLSL_scalar";
    INST instructionID.SQDMULL_scalar "SQDMULL" [TODO] "SQDMULL_scalar" ].

(** Advanced SIMD scalar three same *)
Definition info_advanced_simd_scalar_three_same : list InstructionInfo :=
  [ INST instructionID.SQADD_scalar "SQADD" [TODO] "SQADD_scalar";
    INST instructionID.SQSUB_scalar "SQSUB" [TODO] "SQSUB_scalar";
    INST instructionID.CMGT_scalar_reg "CMGT" [TODO] "CMGT_scalar_reg";
    INST instructionID.CMGE_scalar_reg "CMGE" [TODO] "CMGE_scalar_reg";
    INST instructionID.SSHL_scalar "SSHL" [TODO] "SSHL_scalar";
    INST instructionID.SQSHL_scalar_reg "SQSHL" [TODO] "SQSHL_scalar_reg";
    INST instructionID.SRSHL_scalar "SRSHL" [TODO] "SRSHL_scalar";
    INST instructionID.SQRSHL_scalar "SQRSHL" [TODO] "SQRSHL_scalar";
    INST instructionID.ADD_scalar "ADD" [TODO] "ADD_scalar";
    INST instructionID.CMTST_scalar "CMTST" [TODO] "CMTST_scalar";
    INST instructionID.SQDMULH_scalar "SQDMULH" [TODO] "SQDMULH_scalar";
    INST instructionID.FMULX_scalar "FMULX" [TODO] "FMULX_scalar";
    INST instructionID.FCMEQ_scalar_reg "FCMEQ" [TODO] "FCMEQ_scalar_reg";
    INST instructionID.FRECPS_scalar "FRECPS" [TODO] "FRECPS_scalar";
    INST instructionID.FRSQRTS_scalar "FRSQRTS" [TODO] "FRSQRTS_scalar";
    INST instructionID.UQADD_scalar "UQADD" [TODO] "UQADD_scalar";
    INST instructionID.UQSUB_scalar "UQSUB" [TODO] "UQSUB_scalar";
    INST instructionID.CMHI_scalar_reg "CMHI" [TODO] "CMHI_scalar_reg";
    INST instructionID.CMHS_scalar_reg "CMHS" [TODO] "CMHS_scalar_reg";
    INST instructionID.USHL_scalar "USHL" [TODO] "USHL_scalar";
    INST instructionID.UQSHL_scalar_reg "UQSHL" [TODO] "UQSHL_scalar_reg";
    INST instructionID.URSHL_scalar "URSHL" [TODO] "URSHL_scalar";
    INST instructionID.UQRSHL_scalar "UQRSHL" [TODO] "UQRSHL_scalar";
    INST instructionID.SUB_scalar "SUB" [TODO] "SUB_scalar";
    INST instructionID.CMEQ_scalar_reg "CMEQ" [TODO] "CMEQ_scalar_reg";
    INST instructionID.SQRDMULH_scalar "SQRDMULH" [TODO] "SQRDMULH_scalar";
    INST instructionID.FCMGE_scalar_reg "FCMGE" [TODO] "FCMGE_scalar_reg";
    INST instructionID.FACGE_scalar "FACGE" [TODO] "FACGE_scalar";
    INST instructionID.FABD_scalar "FABD" [TODO] "FABD_scalar";
    INST instructionID.FCMGT_scalar_reg "FCMGT" [TODO] "FCMGT_scalar_reg";
    INST instructionID.FACGT_scalar "FACGT" [TODO] "FACGT_scalar" ].

(** Advanced SIMD scalar shift by immediate *)
Definition info_advanced_simd_scalar_shift_by_immediate : list InstructionInfo :=
  [ INST instructionID.SSHR_scalar "SSHR" [TODO] "SSHR_scalar";
    INST instructionID.SSRA_scalar "SSRA" [TODO] "SSRA_scalar";
    INST instructionID.SRSHR_scalar "SRSHR" [TODO] "SRSHR_scalar";
    INST instructionID.SRSRA_scalar "SRSRA" [TODO] "SRSRA_scalar";
    INST instructionID.SHL_scalar "SHL" [TODO] "SHL_scalar";
    INST instructionID.SQSHL_scalar_imm "SQSHL" [TODO] "SQSHL_scalar_imm";
    INST instructionID.SQSHRN_scalar "SQSHRN" [TODO] "SQSHRN_scalar";
    INST instructionID.SQRSHRN_scalar "SQRSHRN" [TODO] "SQRSHRN_scalar";
    INST instructionID.SCVTF_scalar_fixed "SCVTF" [TODO] "SCVTF_scalar_fixed";
    INST instructionID.FCVTZS_scalar_fixed "FCVTZS" [TODO] "FCVTZS_scalar_fixed";
    INST instructionID.USHR_scalar "USHR" [TODO] "USHR_scalar";
    INST instructionID.USRA_scalar "USRA" [TODO] "USRA_scalar";
    INST instructionID.URSHR_scalar "URSHR" [TODO] "URSHR_scalar";
    INST instructionID.URSRA_scalar "URSRA" [TODO] "URSRA_scalar";
    INST instructionID.SRI_scalar "SRI" [TODO] "SRI_scalar";
    INST instructionID.SLI_scalar "SLI" [TODO] "SLI_scalar";
    INST instructionID.SQSHLU_scalar "SQSHLU" [TODO] "SQSHLU_scalar";
    INST instructionID.UQSHL_scalar_imm "UQSHL" [TODO] "UQSHL_scalar_imm";
    INST instructionID.SQSHRUN_scalar "SQSHRUN" [TODO] "SQSHRUN_scalar";
    INST instructionID.SQRSHRUN_scalar "SQRSHRUN" [TODO] "SQRSHRUN_scalar";
    INST instructionID.UQSHRN_scalar "UQSHRN" [TODO] "UQSHRN_scalar";
    INST instructionID.UQRSHRN_scalar "UQRSHRN" [TODO] "UQRSHRN_scalar";
    INST instructionID.UCVTF_scalar_fixed "UCVTF" [TODO] "UCVTF_scalar_fixed";
    INST instructionID.FCVTZU_scalar_fixed "FCVTZU" [TODO] "FCVTZU_scalar_fixed" ].

(** Advanced SIMD scalar x indexed element *)
Definition info_advanced_simd_scalar_x_indexed_element : list InstructionInfo :=
  [ INST instructionID.SQDMLAL_scalar_element "SQDMLAL" [TODO] "SQDMLAL_scalar_element";
    INST instructionID.SQDMLSL_scalar_element "SQDMLSL" [TODO] "SQDMLSL_scalar_element";
    INST instructionID.SQDMULL_scalar_element "SQDMULL" [TODO] "SQDMULL_scalar_element";
    INST instructionID.SQDMULH_scalar_element "SQDMULH" [TODO] "SQDMULH_scalar_element";
    INST instructionID.SQRDMULH_scalar_element "SQRDMULH" [TODO] "SQRDMULH_scalar_element";
    INST instructionID.FMLA_scalar_element "FMLA" [TODO] "FMLA_scalar_element";
    INST instructionID.FMLS_scalar_element "FMLS" [TODO] "FMLS_scalar_element";
    INST instructionID.FMUL_scalar_element "FMUL" [TODO] "FMUL_scalar_element";
    INST instructionID.FMULX_scalar_element "FMULX" [TODO] "FMULX_scalar_element" ].

(** Advanced SIMD table lookup *)
Definition info_advanced_simd_table_lookup : list InstructionInfo :=
  [ INST instructionID.TBL_one_reg "TBL" [TODO] "TBL_one_reg";
    INST instructionID.TBX_one_reg "TBX" [TODO] "TBX_one_reg";
    INST instructionID.TBL_two_reg "TBL" [TODO] "TBL_two_reg";
    INST instructionID.TBX_two_reg "TBX" [TODO] "TBX_two_reg";
    INST instructionID.TBL_three_reg "TBL" [TODO] "TBL_three_reg";
    INST instructionID.TBX_three_reg "TBX" [TODO] "TBX_three_reg";
    INST instructionID.TBL_four_reg "TBL" [TODO] "TBL_four_reg";
    INST instructionID.TBX_four_reg "TBX" [TODO] "TBX_four_reg" ].

(** Advanced SIMD permute *)
Definition info_advanced_simd_permute : list InstructionInfo :=
  [ INST instructionID.UZP1 "UZP1" [TODO] "UZP1";
    INST instructionID.TRN1 "TRN1" [TODO] "TRN1";
    INST instructionID.ZIP1 "ZIP1" [TODO] "ZIP1";
    INST instructionID.UZP2 "UZP2" [TODO] "UZP2";
    INST instructionID.TRN2 "TRN2" [TODO] "TRN2";
    INST instructionID.ZIP2 "ZIP2" [TODO] "ZIP2" ].

(** Advanced SIMD extract *)
Definition info_advanced_simd_extract : list InstructionInfo :=
  [ INST instructionID.EXT "EXT" [TODO] "EXT" ].

(** Advanced SIMD copy *)
Definition info_advanced_simd_copy : list InstructionInfo :=
  [ INST instructionID.DUP_element_vec "DUP" [TODO] "DUP_element_vec";
    INST instructionID.DUP_general "DUP" [TODO] "DUP_general";
    INST instructionID.SMOV_32 "SMOV" [TODO] "SMOV_32";
    INST instructionID.UMOV_32 "UMOV" [TODO] "UMOV_32";
    INST instructionID.INS_general "INS" [TODO] "INS_general";
    INST instructionID.SMOV_64 "SMOV" [TODO] "SMOV_64";
    INST instructionID.UMOV_64 "UMOV" [TODO] "UMOV_64";
    INST instructionID.INS_element "INS" [TODO] "INS_element" ].

(** Advanced SIMD two-register miscellaneous *)
Definition info_advanced_simd_two_register_miscellaneous : list InstructionInfo :=
  [ INST instructionID.REV64_vec "REV64" [TODO] "REV64_vec";
    INST instructionID.REV16_vec "REV16" [TODO] "REV16_vec";
    INST instructionID.SADDLP_vec "SADDLP" [TODO] "SADDLP_vec";
    INST instructionID.SUQADD_vec "SUQADD" [TODO] "SUQADD_vec";
    INST instructionID.CLS_vec "CLS" [TODO] "CLS_vec";
    INST instructionID.CNT_vec "CNT" [TODO] "CNT_vec";
    INST instructionID.SADALP_vec "SADALP" [TODO] "SADALP_vec";
    INST instructionID.SQABS_vec "SQABS" [TODO] "SQABS_vec";
    INST instructionID.CMGT_vec_zero "CMGT" [TODO] "CMGT_vec_zero";
    INST instructionID.CMEQ_vec_zero "CMEQ" [TODO] "CMEQ_vec_zero";
    INST instructionID.CMLT_vec_zero "CMLT" [TODO] "CMLT_vec_zero";
    INST instructionID.ABS_vec "ABS" [TODO] "ABS_vec";
    INST instructionID.XTN_vec "XTN" [TODO] "XTN_vec";
    INST instructionID.XTN2_vec "XTN2" [TODO] "XTN2_vec";
    INST instructionID.SQXTN_vec "SQXTN" [TODO] "SQXTN_vec";
    INST instructionID.SQXTN2_vec "SQXTN2" [TODO] "SQXTN2_vec";
    INST instructionID.FCVTN_vec "FCVTN" [TODO] "FCVTN_vec";
    INST instructionID.FCVTN2_vec "FCVTN2" [TODO] "FCVTN2_vec";
    INST instructionID.FCVTL_vec "FCVTL" [TODO] "FCVTL_vec";
    INST instructionID.FCVTL2_vec "FCVTL2" [TODO] "FCVTL2_vec";
    INST instructionID.FRINTN_vec "FRINTN" [TODO] "FRINTN_vec";
    INST instructionID.FRINTM_vec "FRINTM" [TODO] "FRINTM_vec";
    INST instructionID.FCVTNS_vec "FCVTNS" [TODO] "FCVTNS_vec";
    INST instructionID.FCVTMS_vec "FCVTMS" [TODO] "FCVTMS_vec";
    INST instructionID.FCVTAS_vec "FCVTAS" [TODO] "FCVTAS_vec";
    INST instructionID.SCVTF_vec_int "SCVTF" [TODO] "SCVTF_vec_int";
    INST instructionID.FCMGT_vec_zero "FCMGT" [TODO] "FCMGT_vec_zero";
    INST instructionID.FCMEQ_vec_zero "FCMEQ" [TODO] "FCMEQ_vec_zero";
    INST instructionID.FCMLT_vec_zero "FCMLT" [TODO] "FCMLT_vec_zero";
    INST instructionID.FABS_vec "FABS" [TODO] "FABS_vec";
    INST instructionID.FRINTP_vec "FRINTP" [TODO] "FRINTP_vec";
    INST instructionID.FRINTZ_vec "FRINTZ" [TODO] "FRINTZ_vec";
    INST instructionID.FCVTPS_vec "FCVTPS" [TODO] "FCVTPS_vec";
    INST instructionID.FCVTZS_vec_int "FCVTZS" [TODO] "FCVTZS_vec_int";
    INST instructionID.URECPE_vec "URECPE" [TODO] "URECPE_vec";
    INST instructionID.FRECPE_vec "FRECPE" [TODO] "FRECPE_vec";
    INST instructionID.REV32_vec "REV32" [TODO] "REV32_vec";
    INST instructionID.UADDLP_vec "UADDLP" [TODO] "UADDLP_vec";
    INST instructionID.USQADD_vec "USQADD" [TODO] "USQADD_vec";
    INST instructionID.CLZ_vec "CLZ" [TODO] "CLZ_vec";
    INST instructionID.UADALP_vec "UADALP" [TODO] "UADALP_vec";
    INST instructionID.SQNEG_vec "SQNEG" [TODO] "SQNEG_vec";
    INST instructionID.CMGE_vec_zero "CMGE" [TODO] "CMGE_vec_zero";
    INST instructionID.CMLE_vec_zero "CMLE" [TODO] "CMLE_vec_zero";
    INST instructionID.NEG_vec "NEG" [TODO] "NEG_vec";
    INST instructionID.SQXTUN_vec "SQXTUN" [TODO] "SQXTUN_vec";
    INST instructionID.SQXTUN2_vec "SQXTUN2" [TODO] "SQXTUN2_vec";
    INST instructionID.SHLL_vec "SHLL" [TODO] "SHLL_vec";
    INST instructionID.SHLL2_vec "SHLL2" [TODO] "SHLL2_vec";
    INST instructionID.UQXTN_vec "UQXTN" [TODO] "UQXTN_vec";
    INST instructionID.UQXTN2_vec "UQXTN2" [TODO] "UQXTN2_vec";
    INST instructionID.FCVTXN_vec "FCVTXN" [TODO] "FCVTXN_vec";
    INST instructionID.FCVTXN2_vec "FCVTXN2" [TODO] "FCVTXN2_vec";
    INST instructionID.FRINTA_vec "FRINTA" [TODO] "FRINTA_vec";
    INST instructionID.FRINTX_vec "FRINTX" [TODO] "FRINTX_vec";
    INST instructionID.FCVTNU_vec "FCVTNU" [TODO] "FCVTNU_vec";
    INST instructionID.FCVTMU_vec "FCVTMU" [TODO] "FCVTMU_vec";
    INST instructionID.FCVTAU_vec "FCVTAU" [TODO] "FCVTAU_vec";
    INST instructionID.UCVTF_vec_int "UCVTF" [TODO] "UCVTF_vec_int";
    INST instructionID.NOT_vec "NOT" [TODO] "NOT_vec";
    INST instructionID.RBIT_vec "RBIT" [TODO] "RBIT_vec";
    INST instructionID.FCMGE_vec_zero "FCMGE" [TODO] "FCMGE_vec_zero";
    INST instructionID.FCMLE_vec_zero "FCMLE" [TODO] "FCMLE_vec_zero";
    INST instructionID.FNEG_vec "FNEG" [TODO] "FNEG_vec";
    INST instructionID.FRINTI_vec "FRINTI" [TODO] "FRINTI_vec";
    INST instructionID.FCVTPU_vec "FCVTPU" [TODO] "FCVTPU_vec";
    INST instructionID.FCVTZU_vec_int "FCVTZU" [TODO] "FCVTZU_vec_int";
    INST instructionID.URSQRTE_vec "URSQRTE" [TODO] "URSQRTE_vec";
    INST instructionID.FRSQRTE_vec "FRSQRTE" [TODO] "FRSQRTE_vec";
    INST instructionID.FSQRT_vec "FSQRT" [TODO] "FSQRT_vec" ].

(** Advanced SIMD across lanes *)
Definition info_advanced_simd_across_lanes : list InstructionInfo :=
  [ INST instructionID.SADDLV_vec "SADDLV" [TODO] "SADDLV_vec";
    INST instructionID.SMAXV_vec "SMAXV" [TODO] "SMAXV_vec";
    INST instructionID.SMINV_vec "SMINV" [TODO] "SMINV_vec";
    INST instructionID.ADDV_vec "ADDV" [TODO] "ADDV_vec";
    INST instructionID.UADDLV_vec "UADDLV" [TODO] "UADDLV_vec";
    INST instructionID.UMAXV_vec "UMAXV" [TODO] "UMAXV_vec";
    INST instructionID.UMINV_vec "UMINV" [TODO] "UMINV_vec";
    INST instructionID.FMAXNMV_vec "FMAXNMV" [TODO] "FMAXNMV_vec";
    INST instructionID.FMAXV_vec "FMAXV" [TODO] "FMAXV_vec";
    INST instructionID.FMINNMV_vec "FMINNMV" [TODO] "FMINNMV_vec";
    INST instructionID.FMINV_vec "FMINV" [TODO] "FMINV_vec" ].

(** Advanced SIMD three different *)
Definition info_advanced_simd_three_different : list InstructionInfo :=
  [ INST instructionID.SADDL "SADDL" [TODO] "SADDL";
    INST instructionID.SADDL2 "SADDL2" [TODO] "SADDL2";
    INST instructionID.SADDW "SADDW" [TODO] "SADDW";
    INST instructionID.SADDW2 "SADDW2" [TODO] "SADDW2";
    INST instructionID.SSUBL "SSUBL" [TODO] "SSUBL";
    INST instructionID.SSUBL2 "SSUBL2" [TODO] "SSUBL2";
    INST instructionID.SSUBW "SSUBW" [TODO] "SSUBW";
    INST instructionID.SSUBW2 "SSUBW2" [TODO] "SSUBW2";
    INST instructionID.ADDHN "ADDHN" [TODO] "ADDHN";
    INST instructionID.ADDHN2 "ADDHN2" [TODO] "ADDHN2";
    INST instructionID.SABAL "SABAL" [TODO] "SABAL";
    INST instructionID.SABAL2 "SABAL2" [TODO] "SABAL2";
    INST instructionID.SUBHN "SUBHN" [TODO] "SUBHN";
    INST instructionID.SUBHN2 "SUBHN2" [TODO] "SUBHN2";
    INST instructionID.SABDL "SABDL" [TODO] "SABDL";
    INST instructionID.SABDL2 "SABDL2" [TODO] "SABDL2";
    INST instructionID.SMLAL_vec "SMLAL" [TODO] "SMLAL_vec";
    INST instructionID.SMLAL2_vec "SMLAL2" [TODO] "SMLAL2_vec";
    INST instructionID.SQDMLAL_vec "SQDMLAL" [TODO] "SQDMLAL_vec";
    INST instructionID.SQDMLAL2_vec "SQDMLAL2" [TODO] "SQDMLAL2_vec";
    INST instructionID.SMLSL_vec "SMLSL" [TODO] "SMLSL_vec";
    INST instructionID.SMLSL2_vec "SMLSL2" [TODO] "SMLSL2_vec";
    INST instructionID.SQDMLSL_vec "SQDMLSL" [TODO] "SQDMLSL_vec";
    INST instructionID.SQDMLSL2_vec "SQDMLSL2" [TODO] "SQDMLSL2_vec";
    INST instructionID.SMULL_vec "SMULL" [TODO] "SMULL_vec";
    INST instructionID.SMULL2_vec "SMULL2" [TODO] "SMULL2_vec";
    INST instructionID.SQDMULL_vec "SQDMULL" [TODO] "SQDMULL_vec";
    INST instructionID.SQDMULL2_vec "SQDMULL2" [TODO] "SQDMULL2_vec";
    INST instructionID.PMULL "PMULL" [TODO] "PMULL";
    INST instructionID.PMULL2 "PMULL2" [TODO] "PMULL2";
    INST instructionID.UADDL "UADDL" [TODO] "UADDL";
    INST instructionID.UADDL2 "UADDL2" [TODO] "UADDL2";
    INST instructionID.UADDW "UADDW" [TODO] "UADDW";
    INST instructionID.UADDW2 "UADDW2" [TODO] "UADDW2";
    INST instructionID.USUBL "USUBL" [TODO] "USUBL";
    INST instructionID.USUBL2 "USUBL2" [TODO] "USUBL2";
    INST instructionID.USUBW "USUBW" [TODO] "USUBW";
    INST instructionID.USUBW2 "USUBW2" [TODO] "USUBW2";
    INST instructionID.RADDHN "RADDHN" [TODO] "RADDHN";
    INST instructionID.RADDHN2 "RADDHN2" [TODO] "RADDHN2";
    INST instructionID.UABAL "UABAL" [TODO] "UABAL";
    INST instructionID.UABAL2 "UABAL2" [TODO] "UABAL2";
    INST instructionID.RSUBHN "RSUBHN" [TODO] "RSUBHN";
    INST instructionID.RSUBHN2 "RSUBHN2" [TODO] "RSUBHN2";
    INST instructionID.UABDL "UABDL" [TODO] "UABDL";
    INST instructionID.UABDL2 "UABDL2" [TODO] "UABDL2";
    INST instructionID.UMLAL_vec "UMLAL" [TODO] "UMLAL_vec";
    INST instructionID.UMLAL2_vec "UMLAL2" [TODO] "UMLAL2_vec";
    INST instructionID.UMLSL_vec "UMLSL" [TODO] "UMLSL_vec";
    INST instructionID.UMLSL2_vec "UMLSL2" [TODO] "UMLSL2_vec";
    INST instructionID.UMULL_vec "UMULL" [TODO] "UMULL_vec";
    INST instructionID.UMULL2_vec "UMULL2" [TODO] "UMULL2_vec" ].

(** Advanced SIMD three same *)
Definition info_advanced_simd_three_same : list InstructionInfo :=
  [ INST instructionID.SHADD_vec "SHADD" [TODO] "SHADD_vec";
    INST instructionID.SQADD_vec "SQADD" [TODO] "SQADD_vec";
    INST instructionID.SRHADD_vec "SRHADD" [TODO] "SRHADD_vec";
    INST instructionID.SHSUB_vec "SHSUB" [TODO] "SHSUB_vec";
    INST instructionID.SQSUB_vec "SQSUB" [TODO] "SQSUB_vec";
    INST instructionID.CMGT_vec_reg "CMGT" [TODO] "CMGT_vec_reg";
    INST instructionID.CMGE_vec_reg "CMGE" [TODO] "CMGE_vec_reg";
    INST instructionID.SSHL_vec "SSHL" [TODO] "SSHL_vec";
    INST instructionID.SQSHL_vec_reg "SQSHL" [TODO] "SQSHL_vec_reg";
    INST instructionID.SRSHL_vec "SRSHL" [TODO] "SRSHL_vec";
    INST instructionID.SQRSHL_vec "SQRSHL" [TODO] "SQRSHL_vec";
    INST instructionID.SMAX_vec "SMAX" [TODO] "SMAX_vec";
    INST instructionID.SMIN_vec "SMIN" [TODO] "SMIN_vec";
    INST instructionID.SABD_vec "SABD" [TODO] "SABD_vec";
    INST instructionID.SABA_vec "SABA" [TODO] "SABA_vec";
    INST instructionID.ADD_vec "ADD" [TODO] "ADD_vec";
    INST instructionID.CMTST_vec "CMTST" [TODO] "CMTST_vec";
    INST instructionID.MLA_vec "MLA" [TODO] "MLA_vec";
    INST instructionID.MUL_vec "MUL" [TODO] "MUL_vec";
    INST instructionID.SMAXP_vec "SMAXP" [TODO] "SMAXP_vec";
    INST instructionID.SMINP_vec "SMINP" [TODO] "SMINP_vec";
    INST instructionID.SQDMULH_vec "SQDMULH" [TODO] "SQDMULH_vec";
    INST instructionID.ADDP_vec "ADDP" [TODO] "ADDP_vec";
    INST instructionID.FMAXNM_vec "FMAXNM" [TODO] "FMAXNM_vec";
    INST instructionID.FMLA_vec "FMLA" [TODO] "FMLA_vec";
    INST instructionID.FADD_vec "FADD" [TODO] "FADD_vec";
    INST instructionID.FMULX_vec "FMULX" [TODO] "FMULX_vec";
    INST instructionID.FCMEQ_vec_reg "FCMEQ" [TODO] "FCMEQ_vec_reg";
    INST instructionID.FMAX_vec "FMAX" [TODO] "FMAX_vec";
    INST instructionID.FRECPS_vec "FRECPS" [TODO] "FRECPS_vec";
    INST instructionID.AND_vec "AND" [TODO] "AND_vec";
    INST instructionID.BIC_vec_reg "BIC" [TODO] "BIC_vec_reg";
    INST instructionID.FMINNM_vec "FMINNM" [TODO] "FMINNM_vec";
    INST instructionID.FMLS_vec "FMLS" [TODO] "FMLS_vec";
    INST instructionID.FSUB_vec "FSUB" [TODO] "FSUB_vec";
    INST instructionID.FMIN_vec "FMIN" [TODO] "FMIN_vec";
    INST instructionID.FRSQRTS_vec "FRSQRTS" [TODO] "FRSQRTS_vec";
    INST instructionID.ORR_vec_reg "ORR" [TODO] "ORR_vec_reg";
    INST instructionID.ORN_vec "ORN" [TODO] "ORN_vec";
    INST instructionID.UHADD_vec "UHADD" [TODO] "UHADD_vec";
    INST instructionID.UQADD_vec "UQADD" [TODO] "UQADD_vec";
    INST instructionID.URHADD_vec "URHADD" [TODO] "URHADD_vec";
    INST instructionID.UHSUB_vec "UHSUB" [TODO] "UHSUB_vec";
    INST instructionID.UQSUB_vec "UQSUB" [TODO] "UQSUB_vec";
    INST instructionID.CMHI_vec_reg "CMHI" [TODO] "CMHI_vec_reg";
    INST instructionID.CMHS_vec_reg "CMHS" [TODO] "CMHS_vec_reg";
    INST instructionID.USHL_vec "USHL" [TODO] "USHL_vec";
    INST instructionID.UQSHL_vec_reg "UQSHL" [TODO] "UQSHL_vec_reg";
    INST instructionID.URSHL_vec "URSHL" [TODO] "URSHL_vec";
    INST instructionID.UQRSHL_vec "UQRSHL" [TODO] "UQRSHL_vec";
    INST instructionID.UMAX_vec "UMAX" [TODO] "UMAX_vec";
    INST instructionID.UMIN_vec "UMIN" [TODO] "UMIN_vec";
    INST instructionID.UABD_vec "UABD" [TODO] "UABD_vec";
    INST instructionID.UABA_vec "UABA" [TODO] "UABA_vec";
    INST instructionID.SUB_vec "SUB" [TODO] "SUB_vec";
    INST instructionID.CMEQ_vec_reg "CMEQ" [TODO] "CMEQ_vec_reg";
    INST instructionID.MLS_vec "MLS" [TODO] "MLS_vec";
    INST instructionID.PMUL_vec "PMUL" [TODO] "PMUL_vec";
    INST instructionID.UMAXP_vec "UMAXP" [TODO] "UMAXP_vec";
    INST instructionID.UMINP_vec "UMINP" [TODO] "UMINP_vec";
    INST instructionID.SQRDMULH_vec "SQRDMULH" [TODO] "SQRDMULH_vec";
    INST instructionID.FMAXNMP_vec "FMAXNMP" [TODO] "FMAXNMP_vec";
    INST instructionID.FADDP_vec "FADDP" [TODO] "FADDP_vec";
    INST instructionID.FMUL_vec "FMUL" [TODO] "FMUL_vec";
    INST instructionID.FCMGE_vec_reg "FCMGE" [TODO] "FCMGE_vec_reg";
    INST instructionID.FACGE_vec "FACGE" [TODO] "FACGE_vec";
    INST instructionID.FMAXP_vec "FMAXP" [TODO] "FMAXP_vec";
    INST instructionID.FDIV_vec "FDIV" [TODO] "FDIV_vec";
    INST instructionID.EOR_vec "EOR" [TODO] "EOR_vec";
    INST instructionID.BSL_vec "BSL" [TODO] "BSL_vec";
    INST instructionID.FMINNMP_vec "FMINNMP" [TODO] "FMINNMP_vec";
    INST instructionID.FABD_vec "FABD" [TODO] "FABD_vec";
    INST instructionID.FCMGT_vec_reg "FCMGT" [TODO] "FCMGT_vec_reg";
    INST instructionID.FACGT_vec "FACGT" [TODO] "FACGT_vec";
    INST instructionID.FMINP_vec "FMINP" [TODO] "FMINP_vec";
    INST instructionID.BIT_vec "BIT" [TODO] "BIT_vec";
    INST instructionID.BIF_vec "BIF" [TODO] "BIF_vec" ].

(** Advanced SIMD modified immediate *)
Definition info_advanced_simd_modified_immediate : list InstructionInfo :=
  [ INST instructionID.MOVI_32_shifted_imm "MOVI" [TODO] "MOVI_32_shifted_imm";
    INST instructionID.ORR_vec_imm_32 "ORR" [TODO] "ORR_vec_imm_32";
    INST instructionID.MOVI_16_shifted_imm "MOVI" [TODO] "MOVI_16_shifted_imm";
    INST instructionID.ORR_vec_imm_16 "ORR" [TODO] "ORR_vec_imm_16";
    INST instructionID.MOVI_32_shifting_ones "MOVI" [TODO] "MOVI_32_shifting_ones";
    INST instructionID.MOVI_8_imm "MOVI" [TODO] "MOVI_8_imm";
    INST instructionID.FMOV_vec_imm_single "FMOV" [TODO] "FMOV_vec_imm_single";
    INST instructionID.MVNI_32_shifted_imm "MVNI" [TODO] "MVNI_32_shifted_imm";
    INST instructionID.BIC_vec_imm_32 "BIC" [TODO] "BIC_vec_imm_32";
    INST instructionID.MVNI_16_shifted_imm "MVNI" [TODO] "MVNI_16_shifted_imm";
    INST instructionID.BIC_vec_imm_16 "BIC" [TODO] "BIC_vec_imm_16";
    INST instructionID.MVNI_32_shifting_ones "MVNI" [TODO] "MVNI_32_shifting_ones";
    INST instructionID.MOVI_64_scalar "MOVI" [TODO] "MOVI_64_scalar";
    INST instructionID.MOVI_64_vec "MOVI" [TODO] "MOVI_64_vec";
    INST instructionID.FMOV_vec_imm_double "FMOV" [TODO] "FMOV_vec_imm_double" ].

(** Advanced SIMD shift by immediate *)
Definition info_advanced_simd_shift_by_immediate : list InstructionInfo :=
  [ INST instructionID.SSHR_vec "SSHR" [TODO] "SSHR_vec";
    INST instructionID.SSRA_vec "SSRA" [TODO] "SSRA_vec";
    INST instructionID.SRSHR_vec "SRSHR" [TODO] "SRSHR_vec";
    INST instructionID.SRSRA_vec "SRSRA" [TODO] "SRSRA_vec";
    INST instructionID.SHL_vec "SHL" [TODO] "SHL_vec";
    INST instructionID.SQSHL_vec_imm "SQSHL" [TODO] "SQSHL_vec_imm";
    INST instructionID.SHRN_vec "SHRN" [TODO] "SHRN_vec";
    INST instructionID.SHRN2_vec "SHRN2" [TODO] "SHRN2_vec";
    INST instructionID.RSHRN_vec "RSHRN" [TODO] "RSHRN_vec";
    INST instructionID.RSHRN2_vec "RSHRN2" [TODO] "RSHRN2_vec";
    INST instructionID.SQSHRN_vec "SQSHRN" [TODO] "SQSHRN_vec";
    INST instructionID.SQSHRN2_vec "SQSHRN2" [TODO] "SQSHRN2_vec";
    INST instructionID.SQRSHRN_vec "SQRSHRN" [TODO] "SQRSHRN_vec";
    INST instructionID.SQRSHRN2_vec "SQRSHRN2" [TODO] "SQRSHRN2_vec";
    INST instructionID.SSHLL_vec "SSHLL" [TODO] "SSHLL_vec";
    INST instructionID.SSHLL2_vec "SSHLL2" [TODO] "SSHLL2_vec";
    INST instructionID.SCVTF_vec_fixed "SCVTF" [TODO] "SCVTF_vec_fixed";
    INST instructionID.FCVTZS_vec_fixed "FCVTZS" [TODO] "FCVTZS_vec_fixed";
    INST instructionID.USHR_vec "USHR" [TODO] "USHR_vec";
    INST instructionID.USRA_vec "USRA" [TODO] "USRA_vec";
    INST instructionID.URSHR_vec "URSHR" [TODO] "URSHR_vec";
    INST instructionID.URSRA_vec "URSRA" [TODO] "URSRA_vec";
    INST instructionID.SRI_vec "SRI" [TODO] "SRI_vec";
    INST instructionID.SLI_vec "SLI" [TODO] "SLI_vec";
    INST instructionID.SQSHLU_vec "SQSHLU" [TODO] "SQSHLU_vec";
    INST instructionID.UQSHL_vec_imm "UQSHL_imm" [TODO] "UQSHL_vec_imm";
    INST instructionID.SQSHRUN_vec "SQSHRUN" [TODO] "SQSHRUN_vec";
    INST instructionID.SQSHRUN2_vec "SQSHRUN2" [TODO] "SQSHRUN2_vec";
    INST instructionID.SQRSHRUN_vec "SQRSHRUN" [TODO] "SQRSHRUN_vec";
    INST instructionID.SQRSHRUN2_vec "SQRSHRUN2" [TODO] "SQRSHRUN2_vec";
    INST instructionID.UQSHRN_vec "UQSHRN" [TODO] "UQSHRN_vec";
    INST instructionID.UQSHRN2_vec "UQSHRN2" [TODO] "UQSHRN2_vec";
    INST instructionID.UQRSHRN_vec "UQRSHRN" [TODO] "UQRSHRN_vec";
    INST instructionID.UQRSHRN2_vec "UQRSHRN2" [TODO] "UQRSHRN2_vec";
    INST instructionID.USHLL_vec "USHLL" [TODO] "USHLL_vec";
    INST instructionID.USHLL2_vec "USHLL2" [TODO] "USHLL2_vec";
    INST instructionID.UCVTF_vec_fixed "UCVTF" [TODO] "UCVTF_vec_fixed";
    INST instructionID.FCVTZU_vec_fixed "FCVTZU" [TODO] "FCVTZU_vec_fixed" ].

(** Advanced SIMD vector x indexed element *)
Definition info_advanced_simd_vector_x_indexed_element : list InstructionInfo :=
  [ INST instructionID.SMLAL_vec_element "SMLAL" [TODO] "SMLAL_vec_element";
    INST instructionID.SMLAL2_vec_element "SMLAL2" [TODO] "SMLAL2_vec_element";
    INST instructionID.SQDMLAL_vec_element "SQDMLAL" [TODO] "SQDMLAL_vec_element";
    INST instructionID.SQDMLAL2_vec_element "SQDMLAL2" [TODO] "SQDMLAL2_vec_element";
    INST instructionID.SMLSL_vec_element "SMLSL" [TODO] "SMLSL_vec_element";
    INST instructionID.SMLSL2_vec_element "SMLSL2" [TODO] "SMLSL2_vec_element";
    INST instructionID.SQDMLSL_vec_element "SQDMLSL" [TODO] "SQDMLSL_vec_element";
    INST instructionID.SQDMLSL2_vec_element "SQDMLSL2" [TODO] "SQDMLSL2_vec_element";
    INST instructionID.MUL_vec_element "MUL" [TODO] "MUL_vec_element";
    INST instructionID.SMULL_vec_element "SMULL" [TODO] "SMULL_vec_element";
    INST instructionID.SMULL2_vec_element "SMULL2" [TODO] "SMULL2_vec_element";
    INST instructionID.SQDMULL_vec_element "SQDMULL" [TODO] "SQDMULL_vec_element";
    INST instructionID.SQDMULL2_vec_element "SQDMULL2" [TODO] "SQDMULL2_vec_element";
    INST instructionID.SQDMULH_vec_element "SQDMULH" [TODO] "SQDMULH_vec_element";
    INST instructionID.SQRDMULH_vec_element "SQRDMULH" [TODO] "SQRDMULH_vec_element";
    INST instructionID.FMLA_vec_element "FMLA" [TODO] "FMLA_vec_element";
    INST instructionID.FMLS_vec_element "FMLS" [TODO] "FMLS_vec_element";
    INST instructionID.FMUL_vec_element "FMUL" [TODO] "FMUL_vec_element";
    INST instructionID.MLA_vec_element "MLA" [TODO] "MLA_vec_element";
    INST instructionID.UMLAL_vec_element "UMLAL" [TODO] "UMLAL_vec_element";
    INST instructionID.UMLAL2_vec_element "UMLAL2" [TODO] "UMLAL2_vec_element";
    INST instructionID.MLS_vec_element "MLS" [TODO] "MLS_vec_element";
    INST instructionID.UMLSL_vec_element "UMLSL" [TODO] "UMLSL_vec_element";
    INST instructionID.UMLSL2_vec_element "UMLSL2" [TODO] "UMLSL2_vec_element";
    INST instructionID.UMULL_vec_element "UMULL" [TODO] "UMULL_vec_element";
    INST instructionID.UMULL2_vec_element "UMULL2" [TODO] "UMULL2_vec_element";
    INST instructionID.FMULX_vec_element "FMULX" [TODO] "FMULX_vec_element" ].

(** The whole list. *)
Definition instructions : list InstructionInfo :=
  info_branch ++
  info_exception_generating ++
  info_system ++
  info_pc_rel_addressing ++
  info_add_subtract_immediate ++
  info_logical_immediate ++
  info_move_wide_immediate ++
  info_bitfield ++
  info_extract ++
  info_data_processing_2_source ++
  info_data_processing_1_source ++
  info_logical_shifted_register ++
  info_add_subtract_shifted_register ++
  info_add_subtract_extended_register ++
  info_add_subtract_with_carry ++
  info_conditional_compare_register ++
  info_conditional_compare_immediate ++
  info_conditional_select ++
  info_data_processing_3_source ++
  info_advanced_simd_load_store_multiple_structures ++
  info_advanced_simd_load_store_multiple_structures_post_indexed ++
  info_advanced_simd_load_store_single_structure ++
  info_advanced_simd_load_store_single_structure_post_indexed ++
  info_load_store_exclusive ++
  info_load_register_literal ++
  info_load_store_no_allocate_pair_offset ++
  info_load_store_register_pair_post_indexed ++
  info_load_store_register_pair_offset ++
  info_load_store_register_pair_pre_indexed ++
  info_load_store_register_unscaled_immediate ++
  info_load_store_register_immediate_post_indexed ++
  info_load_store_register_unprivileged ++
  info_load_store_register_immediate_pre_indexed ++
  info_load_store_register_register_offset ++
  info_load_store_register_unsigned_immediate ++
  info_conversion_between_floating_point_and_fixed_point ++
  info_conversion_between_floating_point_and_integer ++
  info_floating_point_data_processing_1_source ++
  info_floating_point_compare ++
  info_floating_point_immediate ++
  info_floating_point_conditional_compare ++
  info_floating_point_data_processing_2_source ++
  info_floating_point_conditional_select ++
  info_floating_point_data_processing_3_source ++
  info_cryptographic_aes ++
  info_cryptographic_three_register_sha ++
  info_cryptographic_two_register_sha ++
  info_advanced_simd_scalar_copy ++
  info_advanced_simd_scalar_two_register_miscellaneous ++
  info_advanced_simd_scalar_pairwise ++
  info_advanced_simd_scalar_three_different ++
  info_advanced_simd_scalar_three_same ++
  info_advanced_simd_scalar_shift_by_immediate ++
  info_advanced_simd_scalar_x_indexed_element ++
  info_advanced_simd_table_lookup ++
  info_advanced_simd_permute ++
  info_advanced_simd_extract ++
  info_advanced_simd_copy ++
  info_advanced_simd_two_register_miscellaneous ++
  info_advanced_simd_across_lanes ++
  info_advanced_simd_three_different ++
  info_advanced_simd_three_same ++
  info_advanced_simd_modified_immediate ++
  info_advanced_simd_shift_by_immediate ++
  info_advanced_simd_vector_x_indexed_element.

(** *** [instruction_aliases.inl] *)

Definition instruction_aliases : list InstructionInfo :=
  [ ALIAS (* ASR_32_imm *) "ASR" [Wd; Wn; imm_shift] 0xFFC0FC00 0x13007C00;
    ALIAS (* ASR_64_imm *) "ASR" [Xd; Xn; imm_shift] 0xFFC0FC00 0x9340FC00;
    ALIAS (* CMN_32_extended *) "CMN" [Wn_WSP; W_extended_reg] 0xFFE0001F 0x2B20001F;
    ALIAS (* CMN_64_extended *) "CMN" [Xn_SP; X_extended_reg] 0xFFE0001F 0xAB20001F;
    ALIAS (* CMN_32_imm *) "CMN" [Wn_WSP; imm_addsub] 0xFF00001F 0x3100001F;
    ALIAS (* CMN_64_imm *) "CMN" [Xn_SP; imm_addsub] 0xFF00001F 0xB100001F;
    ALIAS (* CMN_32_shifted *) "CMN" [Wn; shifted_reg] 0xFF20001F 0x2B00001F;
    ALIAS (* CMN_64_shifted *) "CMN" [Xn; shifted_reg] 0xFF20001F 0xAB00001F;
    ALIAS (* CMP_32_extended *) "CMP" [Wn_WSP; W_extended_reg] 0xFFE0001F 0x6B20001F;
    ALIAS (* CMP_64_extended *) "CMP" [Xn_SP; X_extended_reg] 0xFFE0001F 0xEB20001F;
    ALIAS (* CMP_32_imm *) "CMP" [Wn_WSP; imm_addsub] 0xFF00001F 0x7100001F;
    ALIAS (* CMP_64_imm *) "CMP" [Xn_SP; imm_addsub] 0xFF00001F 0xF100001F;
    ALIAS (* CMP_32_shifted *) "CMP" [Wn; Wm; shifted_reg] 0xFF20001F 0x6B00001F;
    ALIAS (* CMP_64_shifted *) "CMP" [Xn; Xm; shifted_reg] 0xFF20001F 0xEB00001F;
    ALIAS (* LSR_32_imm *) "LSR" [Wd; Wn; imm_shift] 0xFFC0FC00 0x53007C00;
    ALIAS (* LSR_64_imm *) "LSR" [Xd; Xn; imm_shift] 0xFFC0FC00 0xD340FC00;
    ALIAS (* MNEG_32 *) "MNEG" [Wd; Wn; Wm] 0xFFE0FC00 0x1B00FC00;
    ALIAS (* MNEG_64 *) "MNEG" [Xd; Xn; Xm] 0xFFE0FC00 0x9B00FC00;
    ALIAS (* MOV_32_toSP *) "MOV" [Wd_WSP; Wn_WSP] 0xFFFFFC1F 0x1100001F;
    ALIAS (* MOV_64_toSP *) "MOV" [Xd_SP; Xn_SP] 0xFFFFFC1F 0x9100001F;
    ALIAS (* MOV_32_fromSP *) "MOV" [Wd_WSP; Wn_WSP] 0xFFFFFFE0 0x110003E0;
    ALIAS (* MOV_64_fromSP *) "MOV" [Xd_SP; Xn_SP] 0xFFFFFFE0 0x910003E0;
    ALIAS (* MOV_32_reg *) "MOV" [Wd; Wm] 0xFFE0FFE0 0x2A0003E0;
    ALIAS (* MOV_64_reg *) "MOV" [Xd; Xm] 0xFFE0FFE0 0xAA0003E0;
    ALIAS (* MUL_32 *) "MUL" [Wd; Wn; Wm] 0xFFE0FC00 0x1B007C00;
    ALIAS (* MUL_64 *) "MUL" [Xd; Xn; Xm] 0xFFE0FC00 0x9B007C00;
    ALIAS (* MVN_32 *) "MVN" [Wd; Wm; shifted_reg] 0xFF2003E0 0x2A2003E0;
    ALIAS (* MVN_64 *) "MVN" [Xd; Xm; shifted_reg] 0xFF2003E0 0xAA2003E0;
    ALIAS (* NEG_32 *) "NEG" [Wd; Wm; shifted_reg] 0xFF2003E0 0x4B0003E0;
    ALIAS (* NEG_64 *) "NEG" [Xd; Xm; shifted_reg] 0xFF2003E0 0xCB0003E0;
    ALIAS (* NEGS_32 *) "NEGS" [Wd; Wm; shifted_reg] 0xFF2003E0 0x6B0003E0;
    ALIAS (* NEGS_64 *) "NEGS" [Xd; Xm; shifted_reg] 0xFF2003E0 0xEB0003E0;
    ALIAS (* NGC_32 *) "NGC" [Wd; Wm] 0xFFE0FFE0 0x5A0003E0;
    ALIAS (* NGC_64 *) "NGC" [Xd; Xm] 0xFFE0FFE0 0xDA0003E0;
    ALIAS (* NGCS_32 *) "NGCS" [Wd; Wm] 0xFFE0FFE0 0x7A0003E0;
    ALIAS (* NGCS_64 *) "NGCS" [Xd; Xm] 0xFFE0FFE0 0xFA0003E0;
    ALIAS (* SMNEGL *) "SMNEGL" [Xd; Wn; Wm] 0xFFE0FC00 0x9B20FC00;
    ALIAS (* SMULL *) "SMULL" [Xd; Wn; Wm] 0xFFE0FC00 0x9B207C00;
    ALIAS (* SXTB_32 *) "SXTB" [Wd; Wn] 0xFFFFFC00 0x13001C00;
    ALIAS (* SXTB_64 *) "SXTB" [Xd; Wn] 0xFFFFFC00 0x93401C00;
    ALIAS (* SXTH_32 *) "SXTH" [Wd; Wn] 0xFFFFFC00 0x13003C00;
    ALIAS (* SXTH_64 *) "SXTH" [Xd; Wn] 0xFFFFFC00 0x93403C00;
    ALIAS (* SXTW *) "SXTW" [Xd; Wn] 0xFFFFFC00 0x93407C00;
    ALIAS (* TST_32_imm *) "TST" [Wn; imm_logical] 0xFF80001F 0x7200001F;
    ALIAS (* TST_64_imm *) "TST" [Xn; imm_logical] 0xFF80001F 0xF200001F;
    ALIAS (* TST_32_shifted *) "TST" [Wn; Wm; shifted_reg] 0xFF20001F 0x6A00001F;
    ALIAS (* TST_64_shifted *) "TST" [Xn; Xm; shifted_reg] 0xFF20001F 0xEA00001F;
    ALIAS (* UMNEGL *) "UMNEGL" [Xd; Wn; Wm] 0xFFE0FC00 0x9BA0FC00;
    ALIAS (* UMULL *) "UMULL" [Wd; Wn; Wm] 0xFFE0FC00 0x9BA07C00;
    ALIAS (* UXTB *) "UXTB" [Wd; Wn] 0xFFFFFC00 0x53001C00;
    ALIAS (* UXTH *) "UXTH" [Wd; Wn] 0xFFFFFC00 0x53003C00 ].

(** [instructionID::NUM_INSTRUCTIONS] *)
Definition NUM_INSTRUCTIONS : Z := Z.of_nat (length gInstructionDecodeTable).

(** The two static vectors. *)
Record Tables := mkTables {
  infoTable : list InstructionInfo;
  aliasTable : list InstructionInfo;
}.
Definition noTables : Tables := mkTables [] [].

Definition init (t : Tables) : bool * Tables :=
  (true,
   mkTables
     (infoTable t ++ [INST instructionID.INVALID "INVALID" [] "INVALID"] ++ instructions ++
      [mkInfo NUM_INSTRUCTIONS "NUM_INSTRUCTIONS" [] 0 0 "NUM_INSTRUCTIONS"])
     (aliasTable t ++ instruction_aliases)).

(** ** Names *)

Definition disassembleCondition (cond : Condition) : string :=
  match cond with
  | EQ => "EQ"
  | NE => "NE"
  | CS => "CS"
  | CC => "CC"
  | MI => "MI"
  | PL => "PL"
  | VS => "VS"
  | VC => "VC"
  | HI => "HI"
  | LS => "LS"
  | GE => "GE"
  | LT => "LT"
  | GT => "GT"
  | LE => "LE"
  | AL | A2 => "AL"
  end%string.

(** [UNREACHABLE] logs; the functions below then return the empty string. *)
Definition disassembleShiftType (shift : Z) : string :=
  match shift with
  | 0 => "LSL"
  | 1 => "LSR"
  | 2 => "ASR"
  | 3 => "ROR"
  | _ => EmptyString
  end%string.

Definition disassembleExtendType (extend : Z) : string :=
  match extend with
  | 0 => "UXTB"
  | 1 => "UXTH"
  | 2 => "UXTW"
  | 3 => "UXTX"
  | 4 => "SXTB"
  | 5 => "SXTH"
  | 6 => "SXTW"
  | 7 => "SXTX"
  | _ => EmptyString
  end%string.

(** [std::to_string] of an unsigned value, and its hexadecimal digits. *)
Definition to_string (v : Z) : string := DecimalString.NilZero.string_of_uint (N.to_uint (Z.to_N v)).
Definition hex_string (v : Z) : string :=
  HexadecimalString.NilZero.string_of_uint (N.to_hex_uint (Z.to_N v)).

Definition disassemblePrefetchOp (op : Z) : string := "#" +:+ to_string op.

Definition disassembleBarrierType (type : Z) : string :=
  match type with
  | 0 => "#0"
  | 1 => "OSHLD"
  | 2 => "OSHST"
  | 3 => "OSH"
  | 4 => "#4"
  | 5 => "NSHLD"
  | 6 => "NSHST"
  | 7 => "NSH"
  | 8 => "#8"
  | 9 => "ISHLD"
  | 10 => "ISHST"
  | 11 => "ISH"
  | 12 => "#12"
  | 13 => "LD"
  | 14 => "ST"
  | 15 => "SY"
  | _ => EmptyString
  end%string.

Definition disassembleReg (type : RegType.t) (useSP : bool) (regNum : Z) : string :=
  match type with
  | RegType.X =>
      if regNum =? 31 then
        if useSP then "SP"%string else "XZR"%string
      else "X" +:+ to_string regNum
  | RegType.W =>
      if regNum =? 31 then
        if useSP then "WSP"%string else "WZR"%string
      else "W" +:+ to_string regNum
  | RegType.B => "B" +:+ to_string regNum
  | RegType.H => "H" +:+ to_string regNum
  | RegType.S => "S" +:+ to_string regNum
  | RegType.D => "D" +:+ to_string regNum
  | RegType.Q => "Q" +:+ to_string regNum
  end.

(** The delimiter, and [insertComma] after the call. *)
Definition insertDelimiter (insertComma : bool) : string * bool :=
  if insertComma then (", "%string, true) else (EmptyString, true).

(** ** [std::stringstream]

    The text and the base of the integers: [std::hex] stays in force until the end.  An
    [int64_t] is the pattern of its 64 bits, which is what is printed in hexadecimal. *)
Record stringstream := mkStream { text : string; hexFlag : bool }.

Definition put (s : string) (ss : stringstream) : stringstream :=
  mkStream (text ss +:+ s) (hexFlag ss).
Definition hex (ss : stringstream) : stringstream := mkStream (text ss) true.
Definition putUnsigned (v : Z) (ss : stringstream) : stringstream :=
  put (if hexFlag ss then hex_string v else to_string v) ss.
Definition putSigned (v : Z) (ss : stringstream) : stringstream :=
  put (if hexFlag ss then hex_string v
       else let v := to_signed 64 v in
         if v <? 0 then "-" +:+ to_string (- v) else to_string v) ss.

(** The locals of the loop: [dis.name], [ss] and [insertComma]. *)
Record Printer := mkPrinter {
  pname : string;
  ss : stringstream;
  insertComma : bool;
}.

Definition addName (s : string) (p : Printer) : Printer :=
  mkPrinter (pname p +:+ s) (ss p) (insertComma p).
(** [ss << insertDelimiter(insertComma) << s1 << ... << sn] *)
Definition out (fs : list (stringstream -> stringstream)) (p : Printer) : Printer :=
  let '(d, c) := insertDelimiter (insertComma p) in
  mkPrinter (pname p) (fold_left (fun s f => f s) fs (put d (ss p))) c.

(** ** Looking up an instruction *)

(** The [for] loop over [aliasTable]. *)
Fixpoint findAlias (aliases : list InstructionInfo) (bits : Z) : option InstructionInfo :=
  match aliases with
  | [] => None
  | alias :: aliases =>
      if Z.land bits (mask alias) =? condition alias then Some alias
      else findAlias aliases bits
  end.

(** An index beyond the table (before [init]) is undefined behaviour. *)
Definition infoAt (t : Tables) (id : instructionID.t) : option InstructionInfo :=
  infoTable t !! Z.to_nat (instructionID.index id).

Definition getInstruction (t : Tables) (dInst : DecodedInstruction) : option InstructionInfo :=
  match findAlias (aliasTable t) (DecodeSystem.inst dInst) with
  | Some alias => Some alias
  | None => infoAt t (id dInst)
  end.

Definition getBaseInstructionName (t : Tables) (id : instructionID.t) : option string :=
  rawName <$> infoAt t id.

(** ** [disassemble] *)

Section WithShiftTarget.
Context `{ShiftTarget}.

(** [ss << insertDelimiter(insertComma) << disassembleReg(type, useSP, regNum)] *)
Definition outReg (type : RegType.t) (useSP : bool) (regNum : Z) : Printer -> Printer :=
  out [put (disassembleReg type useSP regNum)].

(** The offsets of the load/store operands, as [int64_t] patterns. *)
Definition imm9 (inst : Z) : Z := signExtend 9 (Inst._12_20 inst).
Definition imm12 (scale inst : Z) : Z := u64 (Z.shiftl (Inst._10_21 inst) scale).
Definition imm7 (scale inst : Z) : Z := u64 (Z.shiftl (signExtend 7 (Inst._15_21 inst)) scale).

(** ["[Xn], #0x" imm], ["[Xn, #0x" imm "]!"] and ["[Xn, #0x" imm "]"] *)
Definition outPost (inst imm : Z) : Printer -> Printer :=
  out [put "["; put (disassembleReg RegType.X true (Inst.Rn inst)); put "], #0x"; hex; putSigned imm].
Definition outPre (inst imm : Z) : Printer -> Printer :=
  out [put "["; put (disassembleReg RegType.X true (Inst.Rn inst)); put ", #0x"; hex; putSigned imm;
       put "]!"].
Definition outOffset (inst imm : Z) : Printer -> Printer :=
  out [put "["; put (disassembleReg RegType.X true (Inst.Rn inst)); put ", #0x"; hex; putSigned imm;
       put "]"].

(** The label of a branch or literal: an offset of [size] bits, in words. *)
Definition outLabel (size field addr : Z) : Printer -> Printer :=
  out [hex; putUnsigned (u64 (addr + u64 (Z.shiftl (signExtend size field) 2)))].

(** The body of the loop: the [switch] on the field, in three parts: addresses and the
    [default] label, registers, and the rest. *)
Definition printLoadStore (inst : Z) (reg : FieldType) : Printer -> Printer :=
  match reg with
  | loadstore_no_off => out [put "["; put (disassembleReg RegType.X true (Inst.Rn inst)); put "]"]
  | loadstore_post_off => outPost inst (imm9 inst)
  | loadstore_pre_off => outPre inst (imm9 inst)
  | loadstore_unscaled_off => outOffset inst (imm9 inst)
  | loadstore_unsigned_off_8 => outOffset inst (imm12 0 inst)
  | loadstore_unsigned_off_16 => outOffset inst (imm12 1 inst)
  | loadstore_unsigned_off_32 => outOffset inst (imm12 2 inst)
  | loadstore_unsigned_off_64 => outOffset inst (imm12 3 inst)
  | loadstore_unsigned_off_128 => outOffset inst (imm12 4 inst)
  | loadstore_post_off_pair_32 => outPost inst (imm7 2 inst)
  | loadstore_post_off_pair_64 => outPost inst (imm7 3 inst)
  | loadstore_post_off_pair_128 => outPost inst (imm7 3 inst)
  | loadstore_pre_off_pair_32 => outPre inst (imm7 2 inst)
  | loadstore_pre_off_pair_64 => outPre inst (imm7 3 inst)
  | loadstore_pre_off_pair_128 => outPre inst (imm7 4 inst)
  | loadstore_off_pair_32 => outOffset inst (imm7 2 inst)
  | loadstore_off_pair_64 => outOffset inst (imm7 3 inst)
  | loadstore_off_pair_128 => outOffset inst (imm7 4 inst)
  | float_zero_imm => out [put "#0.0"]
  | loadstore_reg =>
      out [put "["; put (disassembleReg RegType.X true (Inst.Rn inst)); put ", ";
           put (if testBit 13 inst then disassembleReg RegType.X false (Inst.Rm inst)
                else disassembleReg RegType.W false (Inst.Rm inst));
           put ", ";
           put match Inst.option inst with
               | 2 => "UXTW"
               | 3 => "LSL"
               | 6 => "SXTW"
               | 7 => "SXTX"
               | _ => "UNKNOWN"
               end;
           put ", "; putSigned (if testBit 12 inst then 2 else 0); put "]"]
  | _ => out [put "TODO_ARG"]
  end.

Definition printRegister (dInst : DecodedInstruction) (reg : FieldType) : Printer -> Printer :=
  let inst := DecodeSystem.inst dInst in
  match reg with
  | Wt => outReg RegType.W false (Inst.Rt inst)
  | Xt => outReg RegType.X false (Inst.Rt inst)
  | Bt => outReg RegType.B false (Inst.Rt inst)
  | Ht => outReg RegType.H false (Inst.Rt inst)
  | St => outReg RegType.S false (Inst.Rt inst)
  | Dt => outReg RegType.D false (Inst.Rt inst)
  | Qt => outReg RegType.Q false (Inst.Rt inst)
  | Wt2 => outReg RegType.W false (Inst.Rt2 inst)
  | Xt2 => outReg RegType.X false (Inst.Rt2 inst)
  | Bt2 => outReg RegType.B false (Inst.Rt2 inst)
  | Ht2 => outReg RegType.H false (Inst.Rt2 inst)
  | St2 => outReg RegType.S false (Inst.Rt2 inst)
  | Dt2 => outReg RegType.D false (Inst.Rt2 inst)
  | Qt2 => outReg RegType.Q false (Inst.Rt2 inst)
  | Wn => outReg RegType.W false (Inst.Rn inst)
  | Xn => fun p =>
      if negb (instructionID.eqb (id dInst) instructionID.RET) || negb (Inst.Rn inst =? 30) then
        outReg RegType.X false (Inst.Rn inst) p
      else p
  | Bn => outReg RegType.B false (Inst.Rn inst)
  | Hn => outReg RegType.H false (Inst.Rn inst)
  | Sn => outReg RegType.S false (Inst.Rn inst)
  | Dn => outReg RegType.D false (Inst.Rn inst)
  | Qn => outReg RegType.Q false (Inst.Rn inst)
  | Wn_WSP => outReg RegType.W true (Inst.Rn inst)
  | Xn_SP => outReg RegType.X true (Inst.Rn inst)
  | Wm => outReg RegType.W false (Inst.Rm inst)
  | Xm => outReg RegType.X false (Inst.Rm inst)
  | Bm => outReg RegType.B false (Inst.Rm inst)
  | Hm => outReg RegType.H false (Inst.Rm inst)
  | Sm => outReg RegType.S false (Inst.Rm inst)
  | Dm => outReg RegType.D false (Inst.Rm inst)
  | Qm => outReg RegType.Q false (Inst.Rm inst)
  | Wa => outReg RegType.W false (Inst.Ra inst)
  | Xa => outReg RegType.X false (Inst.Ra inst)
  | Ba => outReg RegType.B false (Inst.Ra inst)
  | Ha => outReg RegType.H false (Inst.Ra inst)
  | Sa => outReg RegType.S false (Inst.Ra inst)
  | Da => outReg RegType.D false (Inst.Ra inst)
  | Qa => outReg RegType.Q false (Inst.Ra inst)
  | Wd => outReg RegType.W false (Inst.Rd inst)
  | Xd => outReg RegType.X false (Inst.Rd inst)
  | Bd => outReg RegType.B false (Inst.Rd inst)
  | Hd => outReg RegType.H false (Inst.Rd inst)
  | Sd => outReg RegType.S false (Inst.Rd inst)
  | Dd => outReg RegType.D false (Inst.Rd inst)
  | Qd => outReg RegType.Q false (Inst.Rd inst)
  | Wd_WSP => outReg RegType.W true (Inst.Rd inst)
  | Xd_SP => outReg RegType.X true (Inst.Rd inst)
  | Ws => outReg RegType.W false (Inst.Rs inst)
  | _ => printLoadStore inst reg
  end.

Definition printField (dInst : DecodedInstruction) (addr : Z) (reg : FieldType)
    : Printer -> Printer :=
  let inst := DecodeSystem.inst dInst in
  match reg with
  | cond_branch => fun p =>
      addName (disassembleCondition (toCondition (Inst.cond inst))) (addName "." p)
  | cond_comp => out [put (disassembleCondition (toCondition (Inst.cond_comp inst)))]
  | imm_tbz => out [put "#"; put (to_string (Inst.b40 inst))]
  | imm_exceptions => out [put "#"; put (to_string (Inst._5_20 inst))]
  | imm_hint => out [put "#"; put (to_string (Inst._5_11 inst))]
  | imm_clrex => out [put "#"; put (to_string (Inst._8_11 inst))]
  | imm_adr =>
      let off := signExtend 21 (Z.lor (Z.shiftl (Inst.immhi inst) 2) (Inst.immlo inst)) in
      out [hex; putUnsigned (u64 (addr + off))]
  | imm_adrp =>
      let off := u64 (Z.shiftl
        (signExtend 21 (Z.lor (Z.shiftl (Inst.immhi inst) 2) (Inst.immlo inst))) 12) in
      out [hex; putUnsigned (Z.land (u64 (addr + off)) 0xFFFFFFFFFFFFF000)]
  | imm_addsub =>
      let shift := testBit 22 inst in
      let imm := u64 (Z.shiftl (Inst._10_21 inst) (if shift then 12 else 0)) in
      out [put "#0x"; hex; putUnsigned imm]
  | imm_logical => out [put "#0x"; hex; putUnsigned (getLogicalImmediate inst)]
  | imm_mov =>
      let shift := Inst.hw inst * 16 in
      let imm := u64 (Z.shiftl (Inst._5_20 inst) shift) in
      out [put "#0x"; hex; putUnsigned imm]
  | imm_shift => out [put "#0x"; hex; putUnsigned (Inst.immr inst)]
  | imm_bitfield =>
      out [put "#0x"; hex; putUnsigned (Inst.immr inst); put ", #0x"; hex;
           putUnsigned (Inst.imms inst)]
  | imm_extract => out [put "#0x"; hex; putUnsigned (Inst.imms inst)]
  | imm_compare => out [put "#0x"; hex; putUnsigned (Inst._16_20 inst)]
  | label_loadstore | label_cond_branch => outLabel 19 (Inst._5_23 inst) addr
  | label_branch => outLabel 26 (Inst._0_25 inst) addr
  | label_tbz => outLabel 14 (Inst._5_18 inst) addr
  | prefetch_op => out [put (disassemblePrefetchOp (Inst.Rt inst))]
  | barrier_type => out [put (disassembleBarrierType (Inst.CRm inst))]
  | shifted_reg => fun p =>
      if negb (Inst._10_15 inst =? 0) then
        out [put (disassembleShiftType (Inst.shift inst)); put " #";
             put (to_string (Inst._10_15 inst))] p
      else p
  | W_extended_reg =>
      out [put (disassembleReg RegType.W false (Inst.Rm inst)); put " ";
           put (disassembleExtendType (Inst.option inst)); put " #";
           put (to_string (Inst._10_12 inst))]
  | X_extended_reg =>
      let type := if (Inst.option inst =? 3) || (Inst.option inst =? 7) then RegType.X
                  else RegType.W in
      out [put (disassembleReg type false (Inst.Rm inst)); put " ";
           put (disassembleExtendType (Inst.option inst)); put " #";
           put (to_string (Inst._10_12 inst))]
  | cond_comp_flags => out [put "#"; put (to_string (Inst.nzcv inst))]
  | _ => printRegister dInst reg
  end.

(** The result and [dis] after the call; [None] is the undefined behaviour of [infoAt]. *)
Definition disassemble (t : Tables) (m : MemState) (dInst : DecodedInstruction)
    (dis : Disassembly) (addr : Z) : option (bool * Disassembly) :=
  if negb (isValid addr m) then Some (false, dis)
  else if instructionID.eqb (id dInst) instructionID.INVALID then Some (false, dis)
  else
    info ← getInstruction t dInst;
    let p := mkPrinter (name info) (mkStream EmptyString false) false in
    let p := fold_left (fun p reg => printField dInst addr reg p) (regs info) p in
    Some (true, mkDisassembly (pname p) (text (ss p))).
End WithShiftTarget.

End disassembler.
