(* ===== verification/DisasmSpec.v ===== *)
(** * What the disassembler prints

    The loop over the fields, with its sticky stream state and its delimiter flag, against
    a list of operands that are joined; the label of a branch against where the interpreter
    goes; the aliases against the instructions they stand for; and which words can be told
    apart by what is printed for them. *)
From Stdlib Require Import Ascii Numbers.DecimalString Numbers.HexadecimalString.
From Stdlib Require Numbers.DecimalN Numbers.HexadecimalN.
From stdpp Require Import strings.
From S2P Require Import Prelude BitUtils Instructions DecodeSystem Decode DecodeEquiv Core InstUtils Machine.
From S2P Require Import Memory Disasm Float InterpBranch InterpDPImm InterpDPReg InterpLoadStore Interp InterpWf DPSpec StepSpec.
#[global] Open Scope Z_scope.
Import disassembler.

(** ** Text *)

(** The characters of a text. *)
Fixpoint lacks (c : ascii) (s : string) : bool :=
  match s with
  | EmptyString => true
  | String a s => negb (Ascii.eqb a c) && lacks c s
  end.

#[local] Arguments String.append : simpl nomatch.

Lemma app_nil_string s : s +:+ EmptyString = s.
Proof. induction s; simpl; congruence. Qed.

Lemma app_assoc_string a b c : (a +:+ b) +:+ c = a +:+ (b +:+ c).
Proof. induction a; simpl; congruence. Qed.

Lemma lacks_app c a b : lacks c (a +:+ b) = lacks c a && lacks c b.
Proof. induction a as [|x a IH]; simpl; [done|]. by rewrite IH, andb_assoc. Qed.

(** A text up to the first occurrence of a character. *)
Lemma split_at c a b s t :
  lacks c a = true -> lacks c b = true ->
  a +:+ String c s = b +:+ String c t -> a = b /\ s = t.
Proof.
  revert b. induction a as [|x a IH]; intros [|y b] Ha Hb E; simpl in *.
  - by injection E.
  - injection E as E1 E2. subst y. by rewrite Ascii.eqb_refl in Hb.
  - injection E as E1 E2. subst x. by rewrite Ascii.eqb_refl in Ha.
  - injection E as -> E2. apply andb_true_iff in Ha as [_ Ha], Hb as [_ Hb].
    destruct (IH b Ha Hb E2) as [-> ->]. done.
Qed.

(** The same where the end of the text stands for the character. *)
Lemma split_at_end c a b s :
  lacks c a = true -> lacks c b = true -> a <> b +:+ String c s.
Proof.
  revert b. induction a as [|x a IH]; intros [|y b] Ha Hb E; simpl in *; try discriminate.
  - injection E as E1 E2. subst x. by rewrite Ascii.eqb_refl in Ha.
  - injection E as -> E2. apply andb_true_iff in Ha as [_ Ha], Hb as [_ Hb].
    by apply (IH b).
Qed.

Lemma app_inj_l a s t : a +:+ s = a +:+ t -> s = t.
Proof. induction a; simpl; [done|]. intros E. injection E. done. Qed.

Lemma concat_app ps rs :
  ps <> [] -> rs <> [] ->
  String.concat ", " (ps ++ rs) = String.concat ", " ps +:+ ", " +:+ String.concat ", " rs.
Proof.
  intros Hp Hr. induction ps as [|x ps IH]; [done|].
  destruct ps as [|y ps]; [by destruct rs|].
  change (x +:+ ", " +:+ String.concat ", " ((y :: ps) ++ rs) =
          (x +:+ ", " +:+ String.concat ", " (y :: ps)) +:+ ", " +:+ String.concat ", " rs).
  rewrite IH by done. by rewrite !app_assoc_string.
Qed.

(** Operands without commas can be read off the joined text. *)
Definition operand (s : string) : Prop := lacks "," s = true /\ s <> EmptyString.

Lemma concat_inj ps qs :
  Forall operand ps -> Forall operand qs ->
  String.concat ", " ps = String.concat ", " qs -> ps = qs.
Proof.
  intros Hp. revert qs. induction Hp as [|x ps [Hx Hx0] Hps IH]; intros qs Hq E.
  - destruct Hq as [|y [|z qs] [_ Hy0] _]; simpl in E; [done|by destruct y|by destruct y].
  - destruct Hq as [|y qs [Hy Hy0] Hqs]; [by destruct ps, x|].
    destruct ps as [|x' ps], qs as [|y' qs].
    + simpl in E. by subst y.
    + by apply (split_at_end ",") in E.
    + symmetry in E. by apply (split_at_end ",") in E.
    + change (x +:+ String "," (" " +:+ String.concat ", " (x' :: ps)) =
              y +:+ String "," (" " +:+ String.concat ", " (y' :: qs))) in E.
      apply split_at in E as [-> E]; [|done..]. apply app_inj_l in E.
      f_equal. by apply IH.
Qed.

(** *** Digits *)

Lemma hex_string_inj a b : 0 <= a -> 0 <= b -> hex_string a = hex_string b -> a = b.
Proof.
  intros Ha Hb E. apply Z2N.inj; [done..|].
  apply (f_equal HexadecimalString.NilZero.uint_of_string) in E.
  revert E. unfold hex_string.
  assert (forall n, HexadecimalString.NilZero.uint_of_string
    (HexadecimalString.NilZero.string_of_uint (N.to_hex_uint n)) = Some (N.to_hex_uint n)) as H.
  { intros n. apply HexadecimalString.NilZero.usu. intros E.
    apply (f_equal N.of_hex_uint) in E as E'. rewrite HexadecimalN.Unsigned.of_to in E'.
    simpl in E'. by subst n. }
  rewrite !H. intros [= E]. by apply HexadecimalN.Unsigned.to_uint_inj.
Qed.

Lemma to_string_inj a b : 0 <= a -> 0 <= b -> to_string a = to_string b -> a = b.
Proof.
  intros Ha Hb E. apply Z2N.inj; [done..|].
  apply (f_equal DecimalString.NilZero.uint_of_string) in E.
  revert E. unfold to_string.
  assert (forall n, DecimalString.NilZero.uint_of_string
    (DecimalString.NilZero.string_of_uint (N.to_uint n)) = Some (N.to_uint n)) as H.
  { intros n. apply DecimalString.NilZero.usu. intros E.
    apply (f_equal N.of_uint) in E as E'. rewrite DecimalN.Unsigned.of_to in E'.
    simpl in E'. by subst n. }
  rewrite !H. intros [= E]. by apply DecimalN.Unsigned.to_uint_inj.
Qed.

(** The characters the operands are composed with. *)
Definition punctuation (c : ascii) : Prop :=
  c = ","%char \/ c = " "%char \/ c = "]"%char.

Lemma hex_string_lacks c a : punctuation c -> lacks c (hex_string a) = true.
Proof.
  intros Hc. unfold hex_string, HexadecimalString.NilZero.string_of_uint.
  assert (forall d, lacks c (HexadecimalString.NilEmpty.string_of_uint d) = true) as H.
  { induction d; simpl; rewrite ?IHd; by destruct Hc as [->|[->| ->]]. }
  destruct (N.to_hex_uint _); [|apply H..].
  by destruct Hc as [->|[->| ->]].
Qed.

Lemma to_string_lacks c a : punctuation c -> lacks c (to_string a) = true.
Proof.
  intros Hc. unfold to_string, DecimalString.NilZero.string_of_uint.
  assert (forall d, lacks c (DecimalString.NilEmpty.string_of_uint d) = true) as H.
  { induction d; simpl; rewrite ?IHd; by destruct Hc as [->|[->| ->]]. }
  destruct (N.to_uint _); [|apply H..].
  by destruct Hc as [->|[->| ->]].
Qed.

(** ** The operands of a field *)

Section WithShiftTarget.
Context `{ShiftTarget}.

(** What a field adds to the name, and the operands it adds. *)
Definition nameSuffix (inst : Z) (f : FieldType) : string :=
  match f with
  | cond_branch => "." +:+ disassembleCondition (toCondition (Inst.cond inst))
  | _ => EmptyString
  end.

Definition hexImm (v : Z) : string := "#0x" +:+ hex_string v.
Definition decImm (v : Z) : string := "#" +:+ to_string v.
Definition base (inst : Z) : string := "[" +:+ disassembleReg RegType.X true (Inst.Rn inst).

Definition post (inst imm : Z) : list string := [base inst +:+ "]"; hexImm imm].
Definition pre (inst imm : Z) : list string := [base inst; hexImm imm +:+ "]!"].
Definition offset (inst imm : Z) : list string := [base inst; hexImm imm +:+ "]"].

Definition adrOffset (inst : Z) : Z :=
  signExtend 21 (Z.lor (Z.shiftl (Inst.immhi inst) 2) (Inst.immlo inst)).
Definition label (size field addr : Z) : Z :=
  u64 (addr + u64 (Z.shiftl (signExtend size field) 2)).

Definition extended (inst : Z) (type : RegType.t) : list string :=
  [disassembleReg type false (Inst.Rm inst) +:+ " " +:+
   disassembleExtendType (Inst.option inst) +:+ " " +:+ decImm (Inst._10_12 inst)].

Definition indexExtend (option : Z) : string :=
  match option with
  | 2 => "UXTW" | 3 => "LSL" | 6 => "SXTW" | 7 => "SXTX" | _ => "UNKNOWN"
  end.

Definition isRegister (f : FieldType) : option (RegType.t * bool * (Z -> Z)) :=
  match f with
  | Wt => Some (RegType.W, false, Inst.Rt) | Xt => Some (RegType.X, false, Inst.Rt)
  | Bt => Some (RegType.B, false, Inst.Rt) | Ht => Some (RegType.H, false, Inst.Rt)
  | St => Some (RegType.S, false, Inst.Rt) | Dt => Some (RegType.D, false, Inst.Rt)
  | Qt => Some (RegType.Q, false, Inst.Rt)
  | Wt2 => Some (RegType.W, false, Inst.Rt2) | Xt2 => Some (RegType.X, false, Inst.Rt2)
  | Bt2 => Some (RegType.B, false, Inst.Rt2) | Ht2 => Some (RegType.H, false, Inst.Rt2)
  | St2 => Some (RegType.S, false, Inst.Rt2) | Dt2 => Some (RegType.D, false, Inst.Rt2)
  | Qt2 => Some (RegType.Q, false, Inst.Rt2)
  | Wn => Some (RegType.W, false, Inst.Rn) | Bn => Some (RegType.B, false, Inst.Rn)
  | Hn => Some (RegType.H, false, Inst.Rn) | Sn => Some (RegType.S, false, Inst.Rn)
  | Dn => Some (RegType.D, false, Inst.Rn) | Qn => Some (RegType.Q, false, Inst.Rn)
  | Wn_WSP => Some (RegType.W, true, Inst.Rn) | Xn_SP => Some (RegType.X, true, Inst.Rn)
  | Wm => Some (RegType.W, false, Inst.Rm) | Xm => Some (RegType.X, false, Inst.Rm)
  | Bm => Some (RegType.B, false, Inst.Rm) | Hm => Some (RegType.H, false, Inst.Rm)
  | Sm => Some (RegType.S, false, Inst.Rm) | Dm => Some (RegType.D, false, Inst.Rm)
  | Qm => Some (RegType.Q, false, Inst.Rm)
  | Wa => Some (RegType.W, false, Inst.Ra) | Xa => Some (RegType.X, false, Inst.Ra)
  | Ba => Some (RegType.B, false, Inst.Ra) | Ha => Some (RegType.H, false, Inst.Ra)
  | Sa => Some (RegType.S, false, Inst.Ra) | Da => Some (RegType.D, false, Inst.Ra)
  | Qa => Some (RegType.Q, false, Inst.Ra)
  | Wd => Some (RegType.W, false, Inst.Rd) | Xd => Some (RegType.X, false, Inst.Rd)
  | Bd => Some (RegType.B, false, Inst.Rd) | Hd => Some (RegType.H, false, Inst.Rd)
  | Sd => Some (RegType.S, false, Inst.Rd) | Dd => Some (RegType.D, false, Inst.Rd)
  | Qd => Some (RegType.Q, false, Inst.Rd)
  | Wd_WSP => Some (RegType.W, true, Inst.Rd) | Xd_SP => Some (RegType.X, true, Inst.Rd)
  | Ws => Some (RegType.W, false, Inst.Rs)
  | _ => None
  end.

(** The operands, each on its own. *)
Definition operands (ret : bool) (addr inst : Z) (f : FieldType) : list string :=
  match isRegister f with
  | Some (type, sp, field) => [disassembleReg type sp (field inst)]
  | None =>
  match f with
  | cond_branch => []
  | Xn => if ret && (Inst.Rn inst =? 30) then []
          else [disassembleReg RegType.X false (Inst.Rn inst)]
  | cond_comp => [disassembleCondition (toCondition (Inst.cond_comp inst))]
  | imm_tbz => [decImm (Inst.b40 inst)]
  | imm_exceptions => [decImm (Inst._5_20 inst)]
  | imm_hint => [decImm (Inst._5_11 inst)]
  | imm_clrex => [decImm (Inst._8_11 inst)]
  | imm_adr => [hex_string (u64 (addr + adrOffset inst))]
  | imm_adrp =>
      [hex_string (Z.land (u64 (addr + u64 (Z.shiftl (adrOffset inst) 12))) 0xFFFFFFFFFFFFF000)]
  | imm_addsub => [hexImm (u64 (Z.shiftl (Inst._10_21 inst) (if testBit 22 inst then 12 else 0)))]
  | imm_logical => [hexImm (getLogicalImmediate inst)]
  | imm_mov => [hexImm (u64 (Z.shiftl (Inst._5_20 inst) (Inst.hw inst * 16)))]
  | imm_shift => [hexImm (Inst.immr inst)]
  | imm_bitfield => [hexImm (Inst.immr inst); hexImm (Inst.imms inst)]
  | imm_extract => [hexImm (Inst.imms inst)]
  | imm_compare => [hexImm (Inst._16_20 inst)]
  | label_loadstore | label_cond_branch => [hex_string (label 19 (Inst._5_23 inst) addr)]
  | label_branch => [hex_string (label 26 (Inst._0_25 inst) addr)]
  | label_tbz => [hex_string (label 14 (Inst._5_18 inst) addr)]
  | prefetch_op => [decImm (Inst.Rt inst)]
  | barrier_type => [disassembleBarrierType (Inst.CRm inst)]
  | shifted_reg =>
      if Inst._10_15 inst =? 0 then []
      else [disassembleShiftType (Inst.shift inst) +:+ " " +:+ decImm (Inst._10_15 inst)]
  | W_extended_reg => extended inst RegType.W
  | X_extended_reg =>
      extended inst (if (Inst.option inst =? 3) || (Inst.option inst =? 7) then RegType.X
                     else RegType.W)
  | cond_comp_flags => [decImm (Inst.nzcv inst)]
  | loadstore_no_off => [base inst +:+ "]"]
  | loadstore_post_off => post inst (imm9 inst)
  | loadstore_pre_off => pre inst (imm9 inst)
  | loadstore_unscaled_off => offset inst (imm9 inst)
  | loadstore_unsigned_off_8 => offset inst (imm12 0 inst)
  | loadstore_unsigned_off_16 => offset inst (imm12 1 inst)
  | loadstore_unsigned_off_32 => offset inst (imm12 2 inst)
  | loadstore_unsigned_off_64 => offset inst (imm12 3 inst)
  | loadstore_unsigned_off_128 => offset inst (imm12 4 inst)
  | loadstore_post_off_pair_32 => post inst (imm7 2 inst)
  | loadstore_post_off_pair_64 | loadstore_post_off_pair_128 => post inst (imm7 3 inst)
  | loadstore_pre_off_pair_32 => pre inst (imm7 2 inst)
  | loadstore_pre_off_pair_64 => pre inst (imm7 3 inst)
  | loadstore_pre_off_pair_128 => pre inst (imm7 4 inst)
  | loadstore_off_pair_32 => offset inst (imm7 2 inst)
  | loadstore_off_pair_64 => offset inst (imm7 3 inst)
  | loadstore_off_pair_128 => offset inst (imm7 4 inst)
  | float_zero_imm => ["#0.0"%string]
  | loadstore_reg =>
      [base inst;
       disassembleReg (if testBit 13 inst then RegType.X else RegType.W) false (Inst.Rm inst);
       indexExtend (Inst.option inst);
       if testBit 12 inst then "2]"%string else "0]"%string]
  | _ => ["TODO_ARG"%string]
  end
  end.

Definition isRET (d : DecodedInstruction) : bool := instructionID.eqb (id d) instructionID.RET.

Definition allOperands (d : DecodedInstruction) (addr : Z) (fs : list FieldType) : list string :=
  flat_map (operands (isRET d) addr (DecodeSystem.inst d)) fs.
Definition allSuffixes (d : DecodedInstruction) (fs : list FieldType) : string :=
  String.concat EmptyString (map (nameSuffix (DecodeSystem.inst d)) fs).

(** The state of the loop after the fields that gave the operands [ps]. *)
Definition prints (nm : string) (ps : list string) (p : Printer) : Prop :=
  pname p = nm /\ text (ss p) = String.concat ", " ps /\
  insertComma p = match ps with [] => false | _ => true end.

(** Writing to the stream only appends, whatever base is in force. *)
Definition appends (f : stringstream -> stringstream) : Prop :=
  forall s, f s = mkStream (text s +:+ text (f (mkStream EmptyString (hexFlag s))))
                           (hexFlag (f (mkStream EmptyString (hexFlag s)))).

Lemma appends_put s : appends (put s).
Proof. done. Qed.
Lemma appends_hex : appends hex.
Proof. intros s. unfold hex. simpl. by rewrite app_nil_string. Qed.
Lemma appends_putUnsigned v : appends (putUnsigned v).
Proof. done. Qed.
Lemma appends_putSigned v : appends (putSigned v).
Proof. done. Qed.
#[local] Hint Resolve appends_put appends_hex appends_putUnsigned appends_putSigned : emu.

Lemma appends_all fs s :
  Forall appends fs ->
  text (fold_left (fun s f => f s) fs s) =
  text s +:+ text (fold_left (fun s f => f s) fs (mkStream EmptyString (hexFlag s))).
Proof.
  intros Hf. revert s. induction Hf as [|f fs Hf _ IH]; intros s; simpl.
  - by rewrite app_nil_string.
  - rewrite (IH (f s)), (IH (f (mkStream _ _))), (Hf s). simpl.
    by rewrite app_assoc_string.
Qed.

(** One [ss << insertDelimiter(insertComma) << ...]. *)
Lemma out_prints fs p nm ps rs :
  Forall appends fs -> rs <> [] ->
  (forall h, text (fold_left (fun s f => f s) fs (mkStream EmptyString h)) =
             String.concat ", " rs) ->
  prints nm ps p -> prints nm (ps ++ rs) (out fs p).
Proof.
  intros Hf Hr Ht (Hn & Htx & Hc). unfold out, insertDelimiter.
  rewrite Hc. destruct ps as [|x ps]; unfold prints; cbn [pname ss insertComma];
    rewrite appends_all, Ht by done; unfold put; cbn [text hexFlag]; rewrite Htx.
  - rewrite app_nil_string. simpl. by destruct rs.
  - rewrite (concat_app (x :: ps) rs) by done. by rewrite app_assoc_string.
Qed.

Lemma prints_register nm ps p type sp r :
  prints nm ps p -> prints nm (ps ++ [disassembleReg type sp r]) (outReg type sp r p).
Proof. apply out_prints; [repeat constructor|done|done]. Qed.

(** The stream is only appended to, and by the text of the operands. *)
Ltac appends := repeat (apply Forall_cons_2; [auto with emu|]); apply Forall_nil_2.
Ltac out_prints := apply out_prints; [appends|done| |done];
  intros ?; unfold post, pre, offset, base, hexImm, decImm, extended;
  cbn [fold_left put hex putUnsigned putSigned text hexFlag String.concat String.append];
  rewrite ?app_assoc_string; reflexivity.

Lemma printField_prints d addr f nm ps p :
  prints nm ps p ->
  prints (nm +:+ nameSuffix (DecodeSystem.inst d) f)
         (ps ++ operands (isRET d) addr (DecodeSystem.inst d) f) (printField d addr f p).
Proof.
  intros Hp. unfold operands. destruct (isRegister f) as [[[type sp] field]|] eqn:E.
  - destruct f; try discriminate E; injection E as <- <- <-; cbn [nameSuffix printField printRegister printLoadStore];
      rewrite app_nil_string; by apply prints_register.
  - destruct f; try discriminate E; clear E; cbn [nameSuffix printField printRegister printLoadStore];
      rewrite ?app_nil_string; try out_prints.
    + destruct Hp as (Hn & Ht & Hc). rewrite app_nil_r. split_and!; [|done..].
      cbn [pname addName]. by rewrite Hn, app_assoc_string.
    + unfold isRET. destruct (instructionID.eqb _ _), (Inst.Rn _ =? 30); simpl;
        rewrite ?app_nil_r; by try apply prints_register.
    + destruct (Inst._10_15 _ =? 0); cbn [negb]; [by rewrite app_nil_r|by out_prints].
    + apply out_prints; [appends|done| |done]. intros h; unfold base, indexExtend;
        cbn [fold_left put putSigned text hexFlag String.concat String.append];
        rewrite ?app_assoc_string. by destruct h, (testBit 13 _), (testBit 12 _).
Qed.

(** The whole loop. *)
Lemma printFields_prints d addr fs nm ps p :
  prints nm ps p ->
  prints (nm +:+ allSuffixes d fs) (ps ++ allOperands d addr fs)
         (fold_left (fun p reg => printField d addr reg p) fs p).
Proof.
  unfold allSuffixes, allOperands. revert nm ps p.
  induction fs as [|f fs IH]; intros nm ps p Hp; simpl.
  - by rewrite app_nil_string, app_nil_r.
  - apply (printField_prints d addr f), IH in Hp. revert Hp.
    rewrite <-app_assoc, app_assoc_string. by destruct fs; simpl; rewrite ?app_nil_string.
Qed.

(** The result: the name with its condition, then the operands of the fields. *)
Lemma disassemble_eq t m d dis addr :
  disassemble t m d dis addr =
  if negb (isValid addr m) || instructionID.eqb (id d) instructionID.INVALID
  then Some (false, dis)
  else info ← getInstruction t d;
       Some (true, mkDisassembly (name info +:+ allSuffixes d (regs info))
                                 (String.concat ", " (allOperands d addr (regs info)))).
Proof.
  unfold disassemble. destruct (isValid addr m); [|done]. destruct (instructionID.eqb _ _); [done|].
  destruct (getInstruction t d) as [info|]; [|done]. simpl.
  destruct (printFields_prints d addr (regs info) (name info) []
    (mkPrinter (name info) (mkStream EmptyString false) false)) as (-> & -> & _); done.
Qed.
End WithShiftTarget.

(** ** The tables after [init] *)

Definition T : Tables := snd (init noTables).

Definition allIds : list instructionID.t := map inst_id gInstructionDecodeTable.

Lemma allIds_forallb (P : instructionID.t -> bool) :
  forallb P allIds = true -> forall i, P i = true.
Proof. intros H i. exact (proj1 (forallb_forall _ _) H i (instruction_in_table i)). Qed.

Lemma infoAt_init i :
  exists row, infoAt T i = Some row /\ info_id row = instructionID.index i.
Proof.
  assert (match infoAt T i with
          | Some row => info_id row =? instructionID.index i | None => false end = true) as H.
  { revert i. apply allIds_forallb. vm_compute. reflexivity. }
  destruct (infoAt T i) as [row|]; [|done]. exists row. by apply Z.eqb_eq in H.
Qed.

(** C33: after [init], [disassemble] returns for every instruction, at every address and
    whatever the word: for an address that is not mapped or an invalid instruction it
    returns false and leaves [dis] alone; otherwise it prints the name of the row with its
    condition and the operands of the fields, each on its own, in the order of the table and
    separated by commas: neither the base left in the stream nor the state of the
    delimiter shows. *)
Theorem disassemble_prints `{ShiftTarget} (m : MemState) d dis addr :
  exists info, getInstruction T d = Some info /\
    disassemble T m d dis addr =
    Some (if negb (isValid addr m) || instructionID.eqb (id d) instructionID.INVALID
          then (false, dis)
          else (true, mkDisassembly (name info +:+ allSuffixes d (regs info))
                        (String.concat ", " (allOperands d addr (regs info))))).
Proof.
  assert (exists info, getInstruction T d = Some info) as [info Hr].
  { unfold getInstruction. destruct (findAlias _ _) as [a|]; [by exists a|].
    destruct (infoAt_init (id d)) as (row & Hr & _). by exists row. }
  exists info. split; [exact Hr|]. rewrite disassemble_eq, Hr. by destruct (_ || _).
Qed.

(** The instruction each alias is another name for, in the order of the list. *)
Definition alias_instructions : list instructionID.t :=
  [ instructionID.SBFM_32; instructionID.SBFM_64; instructionID.ADDS_32_extended;
    instructionID.ADDS_64_extended; instructionID.ADDS_32_imm;
    instructionID.ADDS_64_imm; instructionID.ADDS_32_shifted;
    instructionID.ADDS_64_shifted; instructionID.SUBS_32_extended;
    instructionID.SUBS_64_extended; instructionID.SUBS_32_imm;
    instructionID.SUBS_64_imm; instructionID.SUBS_32_shifted;
    instructionID.SUBS_64_shifted; instructionID.UBFM_32; instructionID.UBFM_64;
    instructionID.MSUB_32; instructionID.MSUB_64; instructionID.ADD_32_imm;
    instructionID.ADD_64_imm; instructionID.ADD_32_imm; instructionID.ADD_64_imm;
    instructionID.ORR_32_shifted; instructionID.ORR_64_shifted; instructionID.MADD_32;
    instructionID.MADD_64; instructionID.ORN_32_shifted; instructionID.ORN_64_shifted;
    instructionID.SUB_32_shifted; instructionID.SUB_64_shifted;
    instructionID.SUBS_32_shifted; instructionID.SUBS_64_shifted; instructionID.SBC_32;
    instructionID.SBC_64; instructionID.SBCS_32; instructionID.SBCS_64;
    instructionID.SMSUBL; instructionID.SMADDL; instructionID.SBFM_32;
    instructionID.SBFM_64; instructionID.SBFM_32; instructionID.SBFM_64;
    instructionID.SBFM_64; instructionID.ANDS_32_imm; instructionID.ANDS_64_imm;
    instructionID.ANDS_32_shifted; instructionID.ANDS_64_shifted; instructionID.UMSUBL;
    instructionID.UMADDL; instructionID.UBFM_32; instructionID.UBFM_32 ].

(** The instructions of the words of a cube. *)
Fixpoint outcomes (fuel : nat) (k v : Z) : list instructionID.t :=
  match fuel with
  | O => allIds
  | S fuel =>
      match resolve (rev gInstructionDecodeTable) k v with
      | Found i => [i]
      | AskFor b =>
          outcomes fuel (Z.lor k (2 ^ b)) v ++
          outcomes fuel (Z.lor k (2 ^ b)) (Z.lor v (2 ^ b))
      end
  end.

Lemma outcomes_sound fuel k v w : in_cube k v w -> In (id (decode w)) (outcomes fuel k v).
Proof.
  revert k v. induction fuel as [|fuel IH]; intros k v Hc; cbn [outcomes].
  - exact (instruction_in_table (id (decode w))).
  - pose proof (resolve_sound (rev gInstructionDecodeTable) k v w Hc) as Hs.
    rewrite rev_involutive in Hs. rewrite decode_search in *.
    destruct (resolve _ k v) as [i|b]; [by left|].
    apply in_or_app. pose proof (in_cube_split k v w b Hc) as Hc'.
    destruct (Z.testbit w b); [right|left]; by apply IH.
Qed.

Lemma alias_instruction a i w :
  In (a, i) (combine instruction_aliases alias_instructions) ->
  Z.land w (mask a) = condition a ->
  id (decode w) = i \/ id (decode w) = instructionID.INVALID.
Proof.
  intros Hin Hw. pose proof (outcomes_sound 5 _ _ w Hw) as Ho.
  assert (forallb (fun '(a, i) => forallb (fun j => instructionID.eqb j i ||
      instructionID.eqb j instructionID.INVALID) (outcomes 5 (mask a) (condition a)))
    (combine instruction_aliases alias_instructions) = true) as H by (vm_compute; reflexivity).
  pose proof (proj1 (forallb_forall _ _) H _ Hin) as Hj. cbv beta iota in Hj.
  apply (proj1 (forallb_forall _ _) Hj) in Ho.
  apply orb_true_iff in Ho as [Ho%eqb_true|Ho%eqb_true]; [by left|by right].
Qed.

Lemma findAlias_some l bits a :
  findAlias l bits = Some a -> In a l /\ Z.land bits (mask a) = condition a.
Proof.
  induction l as [|b l IH]; simpl; [done|].
  destruct (Z.eqb_spec (Z.land bits (mask b)) (condition b)).
  - intros [= ->]. auto.
  - intros [? ?]%IH. auto.
Qed.

(** [disassemble] prints a word under its own row of the list or under an alias of its
    own instruction, never under the name of another: each pattern of
    [instruction_aliases.inl] lies within the words the decoder assigns to one instruction. *)
Lemma row_is_own w info :
  id (decode w) <> instructionID.INVALID -> getInstruction T (decode w) = Some info ->
  infoAt T (id (decode w)) = Some info \/
  In (info, id (decode w)) (combine instruction_aliases alias_instructions).
Proof.
  intros Hi. unfold getInstruction.
  destruct (findAlias (aliasTable T) (DecodeSystem.inst (decode w))) as [a|] eqn:E; [|by left].
  intros [= <-]. right. apply findAlias_some in E as [Hin Hw].
  assert (exists i, In (a, i) (combine instruction_aliases alias_instructions)) as [i Hai].
  { assert (map fst (combine instruction_aliases alias_instructions) = aliasTable T) as E
      by (vm_compute; reflexivity).
    rewrite <-E in Hin. apply in_map_iff in Hin as ([a' i] & <- & ?). by exists i. }
  destruct (alias_instruction a i w Hai Hw) as [<-|]; done.
Qed.

(** ** Labels *)

Section Labels.
Context `{CpuHooks MemState} `{ShiftTarget} `{HostFloat}.

Definition branches_to_label : list instructionID.t :=
  [ instructionID.B_cond; instructionID.B; instructionID.BL;
    instructionID.CBZ_32; instructionID.CBNZ_32; instructionID.CBZ_64; instructionID.CBNZ_64;
    instructionID.TBZ; instructionID.TBNZ ].

(** When the architecture takes the branch. *)
Definition takes (c : Core) (w : Z) (i : instructionID.t) : bool :=
  let x := getX c (Inst.Rt w) in
  let bit := Z.testbit x (32 * Inst.b5 w + Inst.b40 w) in
  match i with
  | instructionID.B_cond => testCondition c (toCondition (Inst.cond w))
  | instructionID.CBZ_32 => x mod 2 ^ 32 =? 0
  | instructionID.CBNZ_32 => negb (x mod 2 ^ 32 =? 0)
  | instructionID.CBZ_64 => x =? 0
  | instructionID.CBNZ_64 => negb (x =? 0)
  | instructionID.TBZ => negb bit
  | instructionID.TBNZ => bit
  | _ => true
  end.

Definition branchLabel (w : Z) (i : instructionID.t) (addr : Z) : Z :=
  match i with
  | instructionID.B | instructionID.BL => label 26 (Inst._0_25 w) addr
  | instructionID.TBZ | instructionID.TBNZ => label 14 (Inst._5_18 w) addr
  | _ => label 19 (Inst._5_23 w) addr
  end.

(** The interpreter extends the sign after scaling, the disassembler before. *)
Lemma label_eq size f addr :
  0 < size <= 60 -> uint size f ->
  label size f addr = u64 (addr + signExtend (size + 2) (Z.shiftl f 2)).
Proof.
  intros Hs Hf. unfold label, u64. rewrite wrap_add_r by lia.
  rewrite !signExtend_to_signed; [|lia| |lia|done].
  2:{ unfold uint in *. rewrite Z.shiftl_mul_pow2, Z.pow_add_r by lia. lia. }
  unfold u64. rewrite wrap_add_r by lia.
  assert (to_signed (size + 2) (Z.shiftl f 2) = 4 * to_signed size f) as ->.
  { unfold to_signed, wrap. rewrite Z.shiftl_mul_pow2 by lia.
    assert (2 ^ (size + 2) = 4 * 2 ^ size) as Hp by (rewrite Z.pow_add_r; lia).
    assert (2 ^ (size + 2 - 1) = 4 * 2 ^ (size - 1)) as Hq
      by (replace (size + 2 - 1) with (size - 1 + 2) by lia; rewrite Z.pow_add_r; lia).
    unfold uint in Hf. rewrite !Z.mod_small by lia.
    destruct (Z.ltb_spec f (2 ^ (size - 1))), (Z.ltb_spec (f * 2 ^ 2) (2 ^ (size + 2 - 1))); lia. }
  unfold wrap. rewrite <-(Zplus_mod_idemp_r (Z.shiftl _ 2)).
  rewrite Z.shiftl_mul_pow2, Zmult_mod_idemp_l, Zplus_mod_idemp_r by lia.
  f_equal. lia.
Qed.

Lemma bit_number w :
  Z.lor (Inst.b40 w) (Z.shiftl (Inst.b5 w) 5) = 32 * Inst.b5 w + Inst.b40 w /\
  0 <= 32 * Inst.b5 w + Inst.b40 w < 64.
Proof.
  pose proof (bitRange_uint 19 23 w ltac:(lia)) as Ha.
  pose proof (bitRange_uint 31 31 w ltac:(lia)) as Hb.
  unfold Inst.b40, Inst.b5. change (23 - 19 + 1) with 5 in Ha. change (31 - 31 + 1) with 1 in Hb.
  revert Ha Hb. generalize (bitRange 19 23 w), (bitRange 31 31 w). intros a b Ha Hb.
  split; [|unfold uint in *; lia].
  rewrite <-Z.lxor_lor; [rewrite <-Z.add_nocarry_lxor|].
  - rewrite Z.shiftl_mul_pow2 by lia. lia.
  - bitwise.
  - bitwise.
Qed.

(** The handlers of the branches. *)
Lemma branch_handler (c : Core) w i :
  In i branches_to_label ->
  exists h, getInstructionFunc i = (pureHandler h : interptfptr_t MemState) /\
    nextPC (h (fetched c) w) = if takes c w i then branchLabel w i (PC c) else u64 (PC c + 4).
Proof.
  pose proof (bitRange_uint 5 23 w ltac:(lia)) as H19.
  pose proof (bitRange_uint 0 25 w ltac:(lia)) as H26.
  pose proof (bitRange_uint 5 18 w ltac:(lia)) as H14.
  destruct (bit_number w) as [Hbit Hb].
  intros [<-|[<-|[<-|[<-|[<-|[<-|[<-|[<-|[<-|[]]]]]]]]]]; eexists; (split; [reflexivity|]);
    unfold branchLabel; rewrite label_eq by (done || lia);
    [ unfold condBranch, takes | unfold uncondBranchImmNoLink, uncondBranchImmGeneric, takes
    | unfold uncondBranchImmLink, uncondBranchImmGeneric, takes
    | unfold cbz32, compareBranchGeneric, takes | unfold cbnz32, compareBranchGeneric, takes
    | unfold cbz64, compareBranchGeneric, takes | unfold cbnz64, compareBranchGeneric, takes
    | unfold tbz, testBitBranchGeneric, takes; rewrite Hbit, testBit_rt_spec by done
    | unfold tbnz, testBitBranchGeneric, takes; rewrite Hbit, testBit_rt_spec by done ];
    cbv zeta; rewrite ?bitmask_ones, ?Z.land_ones by lia; change (getX (fetched c)) with (getX c);
    change (testCondition (fetched c)) with (testCondition c);
    try reflexivity.
  all: by match goal with |- context [if ?b then _ else _] => destruct b end.
Qed.

Definition branchFields (i : instructionID.t) : list FieldType :=
  match i with
  | instructionID.B_cond => [cond_branch; label_cond_branch]
  | instructionID.B | instructionID.BL => [label_branch]
  | instructionID.CBZ_32 | instructionID.CBNZ_32 => [Wt; label_cond_branch]
  | instructionID.CBZ_64 | instructionID.CBNZ_64 => [Xt; label_cond_branch]
  | _ => [Xt; imm_tbz; label_tbz]
  end.

Lemma branch_row i info :
  In i branches_to_label -> infoAt T i = Some info -> regs info = branchFields i.
Proof.
  assert (map (fun i => regs <$> infoAt T i) branches_to_label =
          map (fun i => Some (branchFields i)) branches_to_label) as H' by (vm_compute; reflexivity).
  intros Hi E. pose proof (ext_in_map H' i Hi) as Hr. cbv beta in Hr.
  rewrite E in Hr. by injection Hr.
Qed.

(** The last operand of a branch. *)
Lemma branch_operands w info addr :
  In (id (decode w)) branches_to_label -> getInstruction T (decode w) = Some info ->
  exists ops, allOperands (decode w) addr (regs info) =
              ops ++ [hex_string (branchLabel w (id (decode w)) addr)].
Proof.
  intros Hi Hr. apply row_is_own in Hr; [|intros E; rewrite E in Hi; simpl in Hi; intuition discriminate].
  destruct Hr as [Hr|Hr].
  2:{ apply in_combine_r in Hr. exfalso. revert Hr Hi. generalize (id (decode w)).
      assert (forallb (fun i => forallb (fun j => negb (instructionID.eqb i j)) branches_to_label)
        alias_instructions = true) as Hd by (vm_compute; reflexivity).
      intros i Ha Hb. pose proof (proj1 (forallb_forall _ _) Hd i Ha) as Hd'.
      pose proof (proj1 (forallb_forall _ _) Hd' i Hb) as Hn. cbv beta in Hn.
      by rewrite (proj2 (eqb_true i i) eq_refl) in Hn. }
  rewrite (branch_row _ info Hi Hr). unfold allOperands.
  destruct Hi as [<-|[<-|[<-|[<-|[<-|[<-|[<-|[<-|[<-|[]]]]]]]]]].
  - by eexists [].
  - by eexists [].
  - by eexists [].
  - by eexists [_].
  - by eexists [_].
  - by eexists [_].
  - by eexists [_].
  - by eexists [_; _].
  - by eexists [_; _].
Qed.

(** C22: the label printed for a branch is where the interpreter goes: when the word at [PC]
    is a branch to a label, the last operand is the hexadecimal form of an address, and the
    step leads to this address if the branch is taken, to the next word otherwise. *)
Theorem label_is_branch_target (s : Machine MemState) w dis dis' :
  mread 4 (PC (s.(core))) (s.(memory)) = Ok w -> In (id (decode w)) branches_to_label ->
  disassemble T (s.(memory)) (decode w) dis (PC (s.(core))) = Some (true, dis') ->
  exists s' ops target, step s = Ok (tt, s') /\ uint 64 target /\
    args dis' = String.concat ", " (ops ++ [hex_string target]) /\
    PC (s'.(core)) = if takes (s.(core)) w (id (decode w)) then target
                     else u64 (PC (s.(core)) + 4).
Proof.
  intros Hf Hi Hd. destruct (branch_handler (s.(core)) w _ Hi) as (h & Hh & Hn).
  rewrite disassemble_eq in Hd. destruct (_ || _) eqn:Hv; [done|].
  destruct (getInstruction T (decode w)) as [info|] eqn:Hr; [|done]. injection Hd as <-.
  destruct (branch_operands w info (PC (s.(core))) Hi Hr) as (ops & Ho).
  exists (stepped (h (fetched (s.(core))) w) s), ops,
    (branchLabel w (id (decode w)) (PC (s.(core)))).
  split_and!; [by apply step_pure| |by rewrite <-Ho|].
  - unfold branchLabel, label. by destruct (id (decode w)); apply u64_uint.
  - unfold stepped. cbn [core set_core]. by rewrite PC_finishStep.
Qed.
End Labels.

(** ** Which words can be told apart *)

(** The bits of the word a field shows. *)
Definition fieldBits (f : FieldType) : list (Z * Z) :=
  match f with
  | cond_branch | cond_comp_flags => [(0, 3)]
  | cond_comp => [(12, 15)]
  | Wt | Xt | Bt | Ht | St | Dt | Qt | Wd | Xd | Bd | Hd | Sd | Dd | Qd | Wd_WSP | Xd_SP
  | prefetch_op => [(0, 4)]
  | Wt2 | Xt2 | Bt2 | Ht2 | St2 | Dt2 | Qt2 | Wa | Xa | Ba | Ha | Sa | Da | Qa => [(10, 14)]
  | Wn | Xn | Bn | Hn | Sn | Dn | Qn | Wn_WSP | Xn_SP | loadstore_no_off => [(5, 9)]
  | Wm | Xm | Bm | Hm | Sm | Dm | Qm | Ws | imm_compare => [(16, 20)]
  | imm_tbz => [(19, 23)]
  | imm_exceptions => [(5, 20)]
  | imm_hint => [(5, 11)]
  | imm_clrex | barrier_type => [(8, 11)]
  | imm_adr | imm_adrp => [(5, 23); (29, 30)]
  | imm_addsub => [(10, 21); (22, 22)]
  | imm_mov => [(5, 20); (21, 22)]
  | imm_shift => [(16, 21)]
  | imm_bitfield => [(16, 21); (10, 15)]
  | imm_extract => [(10, 15)]
  | label_loadstore | label_cond_branch => [(5, 23)]
  | label_branch => [(0, 25)]
  | label_tbz => [(5, 18)]
  | shifted_reg => [(10, 15); (22, 23)]
  | W_extended_reg | X_extended_reg => [(16, 20); (13, 15); (10, 12)]
  | loadstore_post_off | loadstore_pre_off | loadstore_unscaled_off => [(5, 9); (12, 20)]
  | loadstore_unsigned_off_8 | loadstore_unsigned_off_16 | loadstore_unsigned_off_32
  | loadstore_unsigned_off_64 | loadstore_unsigned_off_128 => [(5, 9); (10, 21)]
  | loadstore_post_off_pair_32 | loadstore_post_off_pair_64 | loadstore_post_off_pair_128
  | loadstore_pre_off_pair_32 | loadstore_pre_off_pair_64 | loadstore_pre_off_pair_128
  | loadstore_off_pair_32 | loadstore_off_pair_64 | loadstore_off_pair_128 => [(5, 9); (15, 21)]
  | loadstore_reg => [(5, 9); (16, 20); (13, 15); (12, 12)]
  | imm_logical | float_zero_imm | NONE | TODO => []
  end.

(** Encodings that share their text with another: conditions 14 and 15 are both [AL]; an
    immediate 0 and a shift by 0 are printed alike whatever the position of the immediate and
    the kind of the shift; reserved extensions of an index are all [UNKNOWN]. *)
Definition canonicalField (w : Z) (f : FieldType) : bool :=
  match f with
  | cond_branch => negb (Inst.cond w =? 15)
  | cond_comp => negb (Inst.cond_comp w =? 15)
  | imm_addsub => negb (Inst._10_21 w =? 0) || negb (testBit 22 w)
  | imm_mov => negb (Inst._5_20 w =? 0) || (Inst.hw w =? 0)
  | shifted_reg => negb (Inst._10_15 w =? 0) || (Inst.shift w =? 0)
  | loadstore_reg => testBit 14 w
  | _ => true
  end.

Definition canonical (info : InstructionInfo) (w : Z) : bool :=
  forallb (canonicalField w) (regs info).

(** The instruction of a row, and the bits that its pattern and that of the alias fix. *)
Definition isRow (info a : InstructionInfo) : bool :=
  (mask a =? mask info) && (condition a =? condition info).
Definition rowInstruction (info : InstructionInfo) : instructionID.t :=
  if info_id info =? 0 then
    match List.find (fun ai => isRow info (fst ai)) (combine instruction_aliases alias_instructions) with
    | Some (_, i) => i
    | None => instructionID.INVALID
    end
  else instruction_at (info_id info).

Definition pattern (i : instructionID.t) : instructionDecodeInfo :=
  nth (Z.to_nat (instructionID.index i)) gInstructionDecodeTable
    (Instructions.INST instructionID.INVALID 0 0 [] []).
Definition pinned (info : InstructionInfo) : Z :=
  Z.lor (mask info) (Instructions.mask (pattern (rowInstruction info))).

(** The operand of [RET] is left out for [X30], a shift by 0 always. *)
Definition isOptional (ret : bool) (f : FieldType) : bool :=
  match f with Xn => ret | shifted_reg => true | _ => false end.
Definition isCond (f : FieldType) : bool := match f with cond_branch => true | _ => false end.

(** Only the last operand is one that may be left out. *)
Fixpoint wellPlaced (ret : bool) (fs : list FieldType) : bool :=
  match fs with
  | [] => true
  | f :: fs => (negb (isOptional ret f) || match fs with [] => true | _ => false end) &&
               wellPlaced ret fs
  end.

Definition bitsMask (ab : Z * Z) : Z := Z.shiftl (Z.ones (snd ab - fst ab + 1)) (fst ab).
Definition covered (info : InstructionInfo) : Z :=
  foldr Z.lor (pinned info) (map bitsMask (flat_map fieldBits (regs info))).

(** Every bit of the word is fixed by the row or shown; only the first field goes to the
    name. *)
Definition identified (info : InstructionInfo) : bool :=
  (covered info =? 0xFFFFFFFF) &&
  wellPlaced (instructionID.eqb (rowInstruction info) instructionID.RET) (regs info) &&
  forallb (fun f => negb (isCond f)) (tail (regs info)).

(** *** Operands determine their bits *)

Lemma small_inj (n : Z) (f : Z -> string) :
  forallb (fun a => forallb (fun b => negb (String.eqb (f a) (f b)) || (a =? b)) (seqZ 0 n))
    (seqZ 0 n) = true ->
  forall a b, 0 <= a < n -> 0 <= b < n -> f a = f b -> a = b.
Proof.
  intros Hall a b Ha Hb E.
  assert (forall x, 0 <= x < n -> In x (seqZ 0 n)) as Hin
    by (intros x Hx; apply list_elem_of_In, elem_of_seqZ; lia).
  pose proof (proj1 (forallb_forall _ _) Hall a (Hin a Ha)) as Hb'.
  pose proof (proj1 (forallb_forall _ _) Hb' b (Hin b Hb)) as H'. cbv beta in H'.
  rewrite E, String.eqb_refl in H'. by apply Z.eqb_eq in H'.
Qed.

Lemma reg_inj type sp a b :
  uint 5 a -> uint 5 b -> disassembleReg type sp a = disassembleReg type sp b -> a = b.
Proof.
  intros Ha Hb. apply (small_inj 32); [|done..]. destruct type, sp; vm_compute; reflexivity.
Qed.

Lemma extend_inj a b :
  uint 3 a -> uint 3 b -> disassembleExtendType a = disassembleExtendType b -> a = b.
Proof. intros Ha Hb. by apply (small_inj 8 disassembleExtendType). Qed.

Lemma shift_inj a b :
  uint 2 a -> uint 2 b -> disassembleShiftType a = disassembleShiftType b -> a = b.
Proof. intros Ha Hb. by apply (small_inj 4 disassembleShiftType). Qed.

Lemma barrier_inj a b :
  uint 4 a -> uint 4 b -> disassembleBarrierType a = disassembleBarrierType b -> a = b.
Proof. intros Ha Hb. by apply (small_inj 16 disassembleBarrierType). Qed.

Lemma condition_inj a b :
  uint 4 a -> uint 4 b -> a <> 15 -> b <> 15 ->
  disassembleCondition (toCondition a) = disassembleCondition (toCondition b) -> a = b.
Proof.
  intros Ha Hb Na Nb. apply (small_inj 15 (fun a => disassembleCondition (toCondition a)));
    [vm_compute; reflexivity|unfold uint in *; lia..].
Qed.

Lemma hexImm_inj a b : 0 <= a -> 0 <= b -> hexImm a = hexImm b -> a = b.
Proof. intros Ha Hb E. apply app_inj_l in E. by apply hex_string_inj. Qed.
Lemma decImm_inj a b : 0 <= a -> 0 <= b -> decImm a = decImm b -> a = b.
Proof. intros Ha Hb E. apply app_inj_l in E. by apply to_string_inj. Qed.

Lemma reg_lacks c type sp r : punctuation c -> lacks c (disassembleReg type sp r) = true.
Proof.
  intros Hc. pose proof (to_string_lacks c r Hc) as Hr. unfold disassembleReg.
  destruct type, (r =? 31), sp; simpl; rewrite ?Hr; by destruct Hc as [->|[->| ->]].
Qed.
Lemma extend_lacks c a : punctuation c -> lacks c (disassembleExtendType a) = true.
Proof.
  intros Hc. unfold disassembleExtendType.
  repeat case_match; simpl; by destruct Hc as [->|[->| ->]].
Qed.
Lemma shift_lacks c a : punctuation c -> lacks c (disassembleShiftType a) = true.
Proof.
  intros Hc. unfold disassembleShiftType.
  repeat case_match; simpl; by destruct Hc as [->|[->| ->]].
Qed.
Lemma hexImm_lacks c a : punctuation c -> lacks c (hexImm a) = true.
Proof.
  intros Hc. unfold hexImm. rewrite lacks_app, hex_string_lacks by done.
  by destruct Hc as [->|[->| ->]].
Qed.
Lemma decImm_lacks c a : punctuation c -> lacks c (decImm a) = true.
Proof.
  intros Hc. unfold decImm. rewrite lacks_app, to_string_lacks by done.
  by destruct Hc as [->|[->| ->]].
Qed.

(** A sign-extended field, scaled and added to an address. *)
Lemma offset_inj n k a f g :
  0 < n -> 0 <= k -> n + k <= 64 -> uint n f -> uint n g ->
  u64 (a + u64 (Z.shiftl (signExtend n f) k)) = u64 (a + u64 (Z.shiftl (signExtend n g) k)) ->
  f = g.
Proof.
  intros Hn Hk Hnk Hf Hg. rewrite !signExtend_to_signed by (done || lia).
  rewrite !Z.shiftl_mul_pow2 by lia. unfold u64.
  rewrite !wrap_mul_l, !wrap_add_r by lia.
  assert (forall x, uint n x -> - 2 ^ (n - 1) <= to_signed n x < 2 ^ (n - 1) /\
                               wrap n (to_signed n x) = x) as Hs.
  { intros x Hx. split; [apply to_signed_bounds; lia|].
    rewrite wrap_to_signed by lia. by apply wrap_id. }
  destruct (Hs f Hf) as [Bf Ef], (Hs g Hg) as [Bg Eg]. rewrite <-Ef, <-Eg at 2. clear Hs Ef Eg.
  revert Bf Bg. generalize (to_signed n f), (to_signed n g). intros sf sg Bf Bg.
  assert (2 ^ n = 2 * 2 ^ (n - 1)) as Hp by (rewrite <-Z.pow_succ_r by lia; f_equal; lia).
  assert (2 ^ n <= 2 ^ (64 - k)) as Hle by (apply Z.pow_le_mono_r; lia).
  assert (2 ^ 64 = 2 ^ k * 2 ^ (64 - k)) as H64
    by (rewrite <-Z.pow_add_r by lia; f_equal; lia).
  assert (0 < 2 ^ k) by (apply Z.pow_pos_nonneg; lia).
  unfold wrap. intros E. apply Z.cong_iff_0 in E.
  replace (a + sf * 2 ^ k - (a + sg * 2 ^ k)) with ((sf - sg) * 2 ^ k) in E by ring.
  apply Z.mod_divide in E as [q Hq]; [|lia].
  rewrite H64 in Hq. assert (sf - sg = q * 2 ^ (64 - k)) as Hd
    by (apply (Z.mul_reg_r _ _ (2 ^ k)); [lia|]; rewrite Hq; ring).
  assert (q = 0) by nia. f_equal. lia.
Qed.

Lemma imm9_inj v w : imm9 v = imm9 w -> Inst._12_20 v = Inst._12_20 w.
Proof.
  intros E. apply (offset_inj 9 0 0); [lia..|by apply (bitRange_uint 12 20)|by apply (bitRange_uint 12 20)|].
  unfold imm9 in E. by rewrite E.
Qed.

Lemma imm7_inj k v w :
  0 <= k <= 4 -> imm7 k v = imm7 k w -> Inst._15_21 v = Inst._15_21 w.
Proof.
  intros Hk E. apply (offset_inj 7 k 0); [lia..|by apply (bitRange_uint 15 21)|by apply (bitRange_uint 15 21)|].
  unfold imm7 in E. by rewrite E.
Qed.

Lemma imm12_eq k w : 0 <= k <= 12 -> imm12 k w = Inst._10_21 w * 2 ^ k.
Proof.
  intros Hk. pose proof (bitRange_uint 10 21 w ltac:(lia)) as Hw.
  unfold imm12. rewrite Z.shiftl_mul_pow2 by lia. apply u64_id. unfold uint in *.
  assert (2 ^ k <= 2 ^ 12) by (apply Z.pow_le_mono_r; lia).
  assert (0 < 2 ^ k) by (apply Z.pow_pos_nonneg; lia).
  change (21 - 10 + 1) with 12 in Hw. unfold Inst._10_21. nia.
Qed.

Lemma imm12_inj k v w :
  0 <= k <= 4 -> imm12 k v = imm12 k w -> Inst._10_21 v = Inst._10_21 w.
Proof.
  intros Hk. rewrite !imm12_eq by lia. intros E. apply Z.mul_reg_r in E; [done|].
  apply Z.pow_nonzero; lia.
Qed.

Lemma adr_field w :
  Z.lor (Z.shiftl (Inst.immhi w) 2) (Inst.immlo w) = 4 * Inst.immhi w + Inst.immlo w /\
  uint 19 (Inst.immhi w) /\ uint 2 (Inst.immlo w).
Proof.
  pose proof (bitRange_uint 5 23 w ltac:(lia)) as Ha.
  pose proof (bitRange_uint 29 30 w ltac:(lia)) as Hb.
  split; [|done]. unfold Inst.immhi, Inst.immlo.
  change (23 - 5 + 1) with 19 in Ha. change (30 - 29 + 1) with 2 in Hb.
  revert Ha Hb. generalize (bitRange 5 23 w), (bitRange 29 30 w). intros a b Ha Hb.
  rewrite <-Z.lxor_lor; [rewrite <-Z.add_nocarry_lxor|].
  - rewrite Z.shiftl_mul_pow2 by lia. lia.
  - bitwise.
  - bitwise.
Qed.

(** [ADR] and [ADRP]. *)
Lemma adr_inj k addr v w :
  0 <= k <= 12 ->
  u64 (addr + u64 (Z.shiftl (adrOffset v) k)) = u64 (addr + u64 (Z.shiftl (adrOffset w) k)) ->
  Inst.immhi v = Inst.immhi w /\ Inst.immlo v = Inst.immlo w.
Proof.
  intros Hk E. destruct (adr_field v) as (Ev & Hv & Lv), (adr_field w) as (Ew & Hw & Lw).
  unfold adrOffset in E. rewrite Ev, Ew in E. apply offset_inj in E; unfold uint in *; lia.
Qed.

(** Clearing the offset in the page loses nothing: both addresses have the same one. *)
Lemma adrp_page a s t :
  let x := u64 (a + u64 (Z.shiftl s 12)) in let y := u64 (a + u64 (Z.shiftl t 12)) in
  Z.land x 0xFFFFFFFFFFFFF000 = Z.land y 0xFFFFFFFFFFFFF000 -> x = y.
Proof.
  intros x y E.
  assert (forall z, uint 64 z -> Z.land z 0xFFFFFFFFFFFFF000 = Z.shiftl (Z.shiftr z 12) 12) as Hl.
  { intros z Hz. change 0xFFFFFFFFFFFFF000 with (Z.shiftl (Z.ones 52) 12). bitwise. }
  assert (forall s, u64 (a + u64 (Z.shiftl s 12)) mod 2 ^ 12 = a mod 2 ^ 12) as Hm.
  { intros z. change (wrap 12 (wrap 64 (a + wrap 64 (Z.shiftl z 12))) = wrap 12 a).
    rewrite wrap_wrap_le, <-(wrap_add_r 12), wrap_wrap_le by lia.
    rewrite wrap_add_r, Z.shiftl_mul_pow2 by lia. apply Z_mod_plus_full. }
  rewrite !Hl in E by apply u64_uint. pose proof (Hm s) as Hx. pose proof (Hm t) as Hy.
  fold x in Hx. fold y in Hy. rewrite !Z.shiftl_mul_pow2, !Z.shiftr_div_pow2 in E by lia.
  rewrite (Z.div_mod x (2 ^ 12)), (Z.div_mod y (2 ^ 12)) by done. lia.
Qed.

Section Injective.
Context `{ShiftTarget}.

(** The words agree on a range of bits. *)
Definition agree (v w : Z) (ab : Z * Z) : Prop :=
  bitRange (fst ab) (snd ab) v = bitRange (fst ab) (snd ab) w.

Lemma base_inj v w s t :
  base v +:+ String "]" s = base w +:+ String "]" t -> Inst.Rn v = Inst.Rn w.
Proof.
  unfold base. rewrite !app_assoc_string. intros E%app_inj_l.
  apply split_at in E as [E _]; [|apply reg_lacks; unfold punctuation; tauto..].
  by apply reg_inj in E; [|apply (bitRange_uint 5 9)..].
Qed.

Lemma base_inj_open v w : base v = base w -> Inst.Rn v = Inst.Rn w.
Proof. intros E. apply (base_inj v w EmptyString EmptyString). by rewrite E. Qed.

Lemma hexImm_inj_suffix a b s t :
  0 <= a -> 0 <= b -> hexImm a +:+ String "]" s = hexImm b +:+ String "]" t -> a = b.
Proof.
  intros Ha Hb E. apply split_at in E as [E _]; [|apply hexImm_lacks; unfold punctuation; tauto..].
  by apply hexImm_inj.
Qed.

Lemma imm9_nonneg w : 0 <= imm9 w.
Proof.
  assert (uint 64 (imm9 w)) as []; [|done]. apply signExtend_uint, (uint_le 9 64); [|lia].
  by apply (bitRange_uint 12 20).
Qed.
Lemma imm12_nonneg k w : 0 <= imm12 k w.
Proof. apply u64_uint. Qed.
Lemma imm7_nonneg k w : 0 <= imm7 k w.
Proof. apply u64_uint. Qed.
#[local] Hint Resolve imm9_nonneg imm12_nonneg imm7_nonneg : emu.

Lemma cons_inj (x y : string) l m : x :: l = y :: m -> x = y /\ l = m.
Proof. by intros [= -> ->]. Qed.

(** Base and offset, in the three forms of address. *)
Definition sameAddress (v w a b : Z) : Prop :=
  post v a = post w b \/ pre v a = pre w b \/ offset v a = offset w b.

Lemma address_inj v w a b :
  0 <= a -> 0 <= b -> sameAddress v w a b -> Inst.Rn v = Inst.Rn w /\ a = b.
Proof.
  intros Ha Hb [E|[E|E]]; apply cons_inj in E as [E1 [E2 _]%cons_inj].
  - split; [by apply (base_inj v w EmptyString EmptyString)|by apply hexImm_inj].
  - split; [by apply base_inj_open|by apply hexImm_inj_suffix in E2].
  - split; [by apply base_inj_open|by apply hexImm_inj_suffix in E2].
Qed.

Lemma extended_inj v w s t :
  extended v s = extended w t ->
  (Inst.option v = Inst.option w -> s = t) ->
  Inst.Rm v = Inst.Rm w /\ Inst.option v = Inst.option w /\ Inst._10_12 v = Inst._10_12 w.
Proof.
  intros E Hst. apply cons_inj in E as [E _].
  apply split_at in E as [E1 E]; [|apply reg_lacks; unfold punctuation; tauto..].
  apply split_at in E as [E2 E]; [|apply extend_lacks; unfold punctuation; tauto..].
  apply extend_inj in E2; [|apply (bitRange_uint 13 15); lia..]. rewrite (Hst E2) in E1.
  apply reg_inj in E1; [|apply (bitRange_uint 16 20); lia..].
  apply decImm_inj in E; [done|apply (bitRange_uint 10 12); lia..].
Qed.

Lemma testBit_field i v w :
  0 <= i -> bitRange i i v = bitRange i i w <-> testBit i v = testBit i w.
Proof.
  intros Hi. rewrite !bitRange_bit, !testBit_spec by done.
  by destruct (Z.testbit v i), (Z.testbit w i).
Qed.

Lemma addsub_inj v w :
  let value w := u64 (Z.shiftl (Inst._10_21 w) (if testBit 22 w then 12 else 0)) in
  canonicalField v imm_addsub = true -> canonicalField w imm_addsub = true ->
  value v = value w -> Inst._10_21 v = Inst._10_21 w /\ testBit 22 v = testBit 22 w.
Proof.
  intros value Hv Hw E. unfold canonicalField in Hv, Hw.
  pose proof (bitRange_uint 10 21 v ltac:(lia)) as Bv.
  pose proof (bitRange_uint 10 21 w ltac:(lia)) as Bw.
  change (21 - 10 + 1) with 12 in Bv, Bw. fold (Inst._10_21 v) in Bv. fold (Inst._10_21 w) in Bw.
  assert (forall w, value w = imm12 (if testBit 22 w then 12 else 0) w) as Hm by done.
  assert (forall b : bool, 0 <= (if b then 12 else 0) <= 12) as Hk by (intros []; lia).
  rewrite !Hm, (imm12_eq _ v), (imm12_eq _ w) in E by apply Hk.
  clear Hm value.
  unfold uint in *.
  destruct (testBit 22 v), (testBit 22 w), (Z.eqb_spec (Inst._10_21 v) 0),
    (Z.eqb_spec (Inst._10_21 w) 0); try discriminate; cbv iota in E; split; (done || lia).
Qed.

Lemma mov_inj v w :
  let value w := u64 (Z.shiftl (Inst._5_20 w) (Inst.hw w * 16)) in
  canonicalField v imm_mov = true -> canonicalField w imm_mov = true ->
  value v = value w -> Inst._5_20 v = Inst._5_20 w /\ Inst.hw v = Inst.hw w.
Proof.
  intros value Hv Hw E. unfold canonicalField in Hv, Hw.
  pose proof (bitRange_uint 5 20 v ltac:(lia)) as Bv.
  pose proof (bitRange_uint 5 20 w ltac:(lia)) as Bw.
  pose proof (bitRange_uint 21 22 v ltac:(lia)) as Cv.
  pose proof (bitRange_uint 21 22 w ltac:(lia)) as Cw.
  change (20 - 5 + 1) with 16 in Bv, Bw. change (22 - 21 + 1) with 2 in Cv, Cw.
  unfold value in E. clear value. unfold Inst._5_20, Inst.hw in *.
  revert E Hv Hw Bv Bw Cv Cw. generalize (bitRange 5 20 v), (bitRange 5 20 w).
  generalize (bitRange 21 22 v), (bitRange 21 22 w). intros h h' a b E Hv Hw Bv Bw Cv Cw.
  unfold uint in *. rewrite !Z.shiftl_mul_pow2 in E by lia.
  assert (h = 0 \/ h = 1 \/ h = 2 \/ h = 3) as Hh by lia.
  assert (h' = 0 \/ h' = 1 \/ h' = 2 \/ h' = 3) as Hh' by lia.
  destruct (Z.eqb_spec a 0), (Z.eqb_spec b 0); simpl in Hv, Hw;
    destruct Hh as [->|[->|[-> | ->]]], Hh' as [->|[->|[-> | ->]]]; try discriminate;
    rewrite !u64_id in E by (unfold uint; lia); split; (done || lia).
Qed.

Lemma field_nonneg a b w : 0 <= a <= b -> 0 <= bitRange a b w.
Proof. intros Hab. apply (bitRange_uint a b w Hab). Qed.

Lemma register_field f type sp field :
  isRegister f = Some (type, sp, field) ->
  exists a, 0 <= a /\ fieldBits f = [(a, a + 4)] /\ field = bitRange a (a + 4).
Proof.
  destruct f; intros E; try discriminate E; injection E as <- <- <-;
    first [by exists 0 | by exists 5 | by exists 10 | by exists 16].
Qed.

(** The bits of a field, from equations on the fields of [Inst]. *)
Ltac agrees := cbn [fieldBits]; repeat apply Forall_cons_2; try apply Forall_nil_2;
  unfold agree; cbn [fst snd]; (assumption || idtac).
(** A field printed as one number. *)
Ltac number inj := intros [E _]%cons_inj _; apply inj in E; [agrees|apply field_nonneg; lia..].
(** A label of [n] bits. *)
Ltac label_field n lo hi := intros [E _]%cons_inj _; apply hex_string_inj in E; [|apply u64_uint..];
  apply (offset_inj n 2) in E; [agrees|lia..|by apply (bitRange_uint lo hi)|by apply (bitRange_uint lo hi)].
(** An address with an offset. *)
Ltac address inj := intros Ho _;
  lazymatch type of Ho with ?form ?v ?a = _ ?w ?b =>
    assert (sameAddress v w a b) as Ha by (unfold sameAddress; tauto);
    apply address_inj in Ha; [|auto with emu..];
    destruct Ha as [Hn Hi]; apply inj in Hi; [agrees|lia..]
  end.

(** The index of a load or store. *)
Lemma indexed_inj v w :
  testBit 14 v = true -> testBit 14 w = true ->
  indexExtend (Inst.option v) = indexExtend (Inst.option w) ->
  Inst.option v = Inst.option w /\ testBit 13 v = testBit 13 w.
Proof.
  assert (forall z, uint 3 (Inst.option z) /\ Z.testbit (Inst.option z) 0 = testBit 13 z /\
                    Z.testbit (Inst.option z) 1 = testBit 14 z) as Hf.
  { intros z. split; [by apply (bitRange_uint 13 15)|].
    unfold Inst.option. by rewrite !testBit_spec, !testbit_bitRange by lia. }
  destruct (Hf v) as (Bv & <- & <-), (Hf w) as (Bw & <- & <-). clear Hf.
  revert Bv Bw. generalize (Inst.option v), (Inst.option w). intros a b Ba Bb Ha Hb E.
  assert (a = b) as ->; [|done].
  unfold uint in *. assert (forall z, 0 <= z < 2 ^ 3 -> Z.testbit z 1 = true ->
                              z = 2 \/ z = 3 \/ z = 6 \/ z = 7) as Hz.
  { intros z Hz Ht. assert (z = 0 \/ z = 1 \/ z = 2 \/ z = 3 \/ z = 4 \/ z = 5 \/ z = 6 \/ z = 7)
      as Hc by lia.
    repeat destruct Hc as [->|Hc]; subst; (discriminate Ht || tauto). }
  destruct (Hz a Ba Ha) as [->|[->|[-> | ->]]], (Hz b Bb Hb) as [->|[->|[-> | ->]]];
    (discriminate E || done).
Qed.

(** A shift amount with its kind; nothing for 0. *)
Lemma shifted_inj v w :
  canonicalField v shifted_reg = true -> canonicalField w shifted_reg = true ->
  operands false 0 v shifted_reg = operands false 0 w shifted_reg ->
  Inst._10_15 v = Inst._10_15 w /\ Inst.shift v = Inst.shift w.
Proof.
  unfold canonicalField. cbn [operands isRegister]. intros Hv Hw.
  destruct (Z.eqb_spec (Inst._10_15 v) 0), (Z.eqb_spec (Inst._10_15 w) 0); try discriminate.
  - intros _. apply Z.eqb_eq in Hv, Hw. split; congruence.
  - intros [E _]%cons_inj.
    apply split_at in E as [E1 E2]; [|apply shift_lacks; unfold punctuation; tauto..].
    apply shift_inj in E1; [|by apply (bitRange_uint 22 23)..].
    apply decImm_inj in E2; [done|apply field_nonneg; lia..].
Qed.

(** The operand that [RET] may leave out. *)
Lemma optional_inj ret v w :
  operands ret 0 v Xn = operands ret 0 w Xn -> Inst.Rn v = Inst.Rn w.
Proof.
  cbn [operands isRegister].
  destruct (ret && (Inst.Rn v =? 30)) eqn:Ev, (ret && (Inst.Rn w =? 30)) eqn:Ew; try discriminate.
  - intros _. apply andb_true_iff in Ev as [_ Ev%Z.eqb_eq], Ew as [_ Ew%Z.eqb_eq]. congruence.
  - intros [E _]%cons_inj. by apply reg_inj in E; [|apply (bitRange_uint 5 9)..].
Qed.

Lemma field_inj ret addr v w f :
  canonicalField v f = true -> canonicalField w f = true ->
  operands ret addr v f = operands ret addr w f -> nameSuffix v f = nameSuffix w f ->
  Forall (agree v w) (fieldBits f).
Proof.
  intros Hv Hw. unfold operands. destruct (isRegister f) as [[[type sp] field]|] eqn:Er.
  - intros [E _]%cons_inj _. destruct (register_field f type sp field Er) as (a & Ha & -> & ->).
    constructor; [|constructor]. apply reg_inj in E; [done|..];
      apply (uint_le (a + 4 - a + 1) 5); try lia; apply bitRange_uint; lia.
  - destruct f; try discriminate Er; clear Er;
      try (intros _ _; apply Forall_nil_2);
      try solve [number decImm_inj | number hexImm_inj | label_field 19 5 23 | label_field 26 0 25
                | label_field 14 5 18 | address imm9_inj | address imm12_inj | address imm7_inj].
    + intros _ E%app_inj_l. apply condition_inj in E; [agrees|by apply (bitRange_uint 0 3)..| |];
        apply Z.eqb_neq, negb_true_iff; assumption.
    + intros [E _]%cons_inj _. apply condition_inj in E; [agrees|by apply (bitRange_uint 12 15)..| |];
        apply Z.eqb_neq, negb_true_iff; assumption.
    + intros E%optional_inj _. agrees.
    + intros [E _]%cons_inj _. apply hex_string_inj in E; [|apply u64_uint..].
      destruct (adr_inj 0 addr v w) as [Eh El]; [lia| |agrees].
      rewrite !Z.shiftl_0_r. unfold u64. by rewrite !wrap_add_r.
    + intros [E _]%cons_inj _. apply hex_string_inj in E; [|apply Z.land_nonneg; right; lia..].
      apply adrp_page, adr_inj in E as [Eh El]; [agrees|lia].
    + intros [E _]%cons_inj _. apply hexImm_inj in E; [|apply u64_uint..].
      apply addsub_inj in E as [E1 E2%testBit_field]; [agrees|done..].
    + intros [E _]%cons_inj _. apply hexImm_inj in E; [|apply u64_uint..].
      apply mov_inj in E as [E1 E2]; [agrees|done..].
    + intros [E1 [E2 _]%cons_inj]%cons_inj _.
      apply hexImm_inj in E1; [|apply field_nonneg; lia..].
      apply hexImm_inj in E2; [|apply field_nonneg; lia..]. agrees.
    + intros [E _]%cons_inj _. apply barrier_inj in E; [agrees|by apply (bitRange_uint 8 11)..].
    + intros E _. destruct (shifted_inj v w Hv Hw E) as [E1 E2]. agrees.
    + intros E _. apply extended_inj in E as (E1 & E2 & E3); [agrees|done].
    + intros E _. apply extended_inj in E as (E1 & E2 & E3); [agrees|by intros ->].
    + intros [E _]%cons_inj _. apply (base_inj v w EmptyString EmptyString) in E. agrees.
    + intros [E1 [E2 [E3 [E4 _]%cons_inj]%cons_inj]%cons_inj]%cons_inj _.
      destruct (indexed_inj v w Hv Hw E3) as [Eo Eb]. rewrite Eb in E2.
      apply base_inj_open in E1. apply reg_inj in E2; [|by apply (bitRange_uint 16 20)..].
      assert (bitRange 12 12 v = bitRange 12 12 w)
        by (apply testBit_field; [lia|]; by destruct (testBit 12 v), (testBit 12 w)).
      agrees.
Qed.

(** *** Operands can be told apart *)

Lemma comma_punctuation : punctuation ",".
Proof. by left. Qed.

Lemma operand_app a s : operand a -> lacks "," s = true -> operand (a +:+ s).
Proof.
  intros [Ha Hne] Hs. split; [by rewrite lacks_app, Ha, Hs|]. by destruct a.
Qed.
Lemma operand_close a : operand a -> operand (a +:+ "]").
Proof. intros Ha. by apply operand_app. Qed.
Lemma operand_close_pre a : operand a -> operand (a +:+ "]!").
Proof. intros Ha. by apply operand_app. Qed.
Lemma operand_hex v : operand (hex_string v).
Proof.
  split; [apply hex_string_lacks, comma_punctuation|].
  unfold hex_string. by destruct (N.to_hex_uint _).
Qed.
Lemma operand_hexImm v : operand (hexImm v).
Proof. split; [apply hexImm_lacks, comma_punctuation|done]. Qed.
Lemma operand_decImm v : operand (decImm v).
Proof. split; [apply decImm_lacks, comma_punctuation|done]. Qed.
Lemma operand_reg type sp r : operand (disassembleReg type sp r).
Proof.
  split; [apply reg_lacks, comma_punctuation|].
  unfold disassembleReg. by destruct type, (r =? 31), sp.
Qed.
Lemma operand_base w : operand (base w).
Proof.
  unfold base. split; [|done]. rewrite lacks_app.
  by rewrite (reg_lacks _ _ _ _ comma_punctuation).
Qed.
Lemma operand_extended w type : Forall operand (extended w type).
Proof.
  apply Forall_cons_2; [|constructor]. apply operand_app; [apply operand_reg|].
  rewrite !lacks_app, (extend_lacks _ _ comma_punctuation),
    (decImm_lacks _ _ comma_punctuation). done.
Qed.
Lemma operand_address w imm :
  Forall operand (post w imm) /\ Forall operand (pre w imm) /\ Forall operand (offset w imm).
Proof.
  split_and!; repeat apply Forall_cons_2; try apply Forall_nil_2;
    auto using operand_base, operand_hexImm, operand_close, operand_close_pre.
Qed.

Lemma small_operand n (f : Z -> string) a :
  forallb (fun a => lacks "," (f a) && negb (String.eqb (f a) EmptyString)) (seqZ 0 n) = true ->
  0 <= a < n -> operand (f a).
Proof.
  intros Hall Ha. assert (In a (seqZ 0 n)) as Hin by (apply list_elem_of_In, elem_of_seqZ; lia).
  apply (proj1 (forallb_forall _ _) Hall) in Hin as [Hl Hn]%andb_true_iff. split; [done|].
  intros E. by rewrite E in Hn.
Qed.

(** The operands are not empty and have no commas. *)
Lemma operands_operand ret addr w f : Forall operand (operands ret addr w f).
Proof.
  unfold operands. destruct (isRegister f) as [[[type sp] field]|] eqn:E.
  { apply Forall_cons_2; [apply operand_reg|constructor]. }
  destruct f; try discriminate E; clear E;
    try (repeat apply Forall_cons_2; try apply Forall_nil_2;
         auto using operand_hex, operand_hexImm, operand_decImm, operand_base, operand_close; done);
    try apply operand_extended; try apply operand_address.
  - apply Forall_cons_2; [|constructor].
    apply (small_operand 16 (fun a => disassembleCondition (toCondition a)));
      [vm_compute; reflexivity|by apply (bitRange_uint 12 15)].
  - destruct (_ && _); [constructor|]. apply Forall_cons_2; [apply operand_reg|constructor].
  - apply Forall_cons_2; [|constructor]. apply (small_operand 16 disassembleBarrierType);
      [vm_compute; reflexivity|by apply (bitRange_uint 8 11)].
  - destruct (_ =? 0); [constructor|]. apply Forall_cons_2; [|constructor].
    apply operand_app; [|by rewrite lacks_app, (decImm_lacks _ _ comma_punctuation)].
    apply (small_operand 4 disassembleShiftType); [vm_compute; reflexivity|].
    by apply (bitRange_uint 22 23).
  - repeat apply Forall_cons_2; try apply Forall_nil_2;
      [apply operand_base|apply operand_reg|unfold indexExtend|]; repeat case_match; done.
Qed.

Lemma same_length ret addr v w f :
  isOptional ret f = false -> length (operands ret addr v f) = length (operands ret addr w f).
Proof.
  unfold operands. destruct (isRegister f) as [[[type sp] field]|]; [done|].
  destruct f; try done. simpl. by intros ->.
Qed.

Lemma operands_each ret addr v w fs :
  wellPlaced ret fs = true ->
  flat_map (operands ret addr v) fs = flat_map (operands ret addr w) fs ->
  Forall (fun f => operands ret addr v f = operands ret addr w f) fs.
Proof.
  induction fs as [|f fs IH]; [constructor|]. cbn [wellPlaced flat_map].
  intros [Hf Hfs]%andb_true_iff E. apply orb_true_iff in Hf as [Hf%negb_true_iff|Hf].
  - apply app_inj_1 in E as [Ef E]; [|by apply same_length]. constructor; auto.
  - destruct fs; [|done]. simpl in E. rewrite !app_nil_r in E. by repeat constructor.
Qed.

Lemma no_suffix z fs :
  forallb (fun f => negb (isCond f)) fs = true ->
  Forall (fun f => nameSuffix z f = EmptyString) fs.
Proof.
  intros Hg. apply Forall_forall. intros f Hf%list_elem_of_In.
  apply (proj1 (forallb_forall _ _) Hg) in Hf. by destruct f.
Qed.

Lemma no_suffixes d fs :
  forallb (fun f => negb (isCond f)) fs = true -> allSuffixes d fs = EmptyString.
Proof.
  intros Hg. unfold allSuffixes. pose proof (no_suffix (DecodeSystem.inst d) fs Hg) as Hn.
  clear Hg. induction Hn as [|f fs Hf _ IH]; [done|]. simpl in *. rewrite Hf.
  destruct fs; [done|]. simpl in *. by rewrite IH.
Qed.

Lemma suffixes_head v w fs :
  forallb (fun f => negb (isCond f)) (tail fs) = true ->
  String.concat EmptyString (map (nameSuffix v) fs) =
  String.concat EmptyString (map (nameSuffix w) fs) ->
  Forall (fun f => nameSuffix v f = nameSuffix w f) fs.
Proof.
  destruct fs as [|f fs]; [constructor|]. cbn [tail]. intros Hc E.
  pose proof (no_suffix v fs Hc) as Hv. pose proof (no_suffix w fs Hc) as Hw.
  assert (forall z, Forall (fun f => nameSuffix z f = EmptyString) fs ->
    String.concat EmptyString (map (nameSuffix z) (f :: fs)) = nameSuffix z f) as Hh.
  { intros z Hz. simpl. clear -Hz. revert f. induction Hz as [|g gs Hg _ IH]; intros f; [done|].
    simpl. simpl in IH. rewrite (IH g), Hg. apply app_nil_string. }
  rewrite !Hh in E by done. constructor; [done|].
  rewrite Forall_forall in *. intros g Hg. by rewrite Hv, Hw.
Qed.
End Injective.

(** *** The words of a row *)

Lemma base_row i info :
  i <> instructionID.INVALID -> infoAt T i = Some info ->
  mask info = 0 /\ condition info = 0 /\ rowInstruction info = i.
Proof.
  intros Hi E.
  assert (match infoAt T i with
          | Some row => (mask row =? 0) && (condition row =? 0) | None => false end = true) as Hm.
  { clear Hi E. revert i. apply allIds_forallb. vm_compute. reflexivity. }
  destruct (infoAt_init i) as (row & E' & Hrow). rewrite E in E', Hm. injection E' as <-.
  apply andb_true_iff in Hm as [Hm%Z.eqb_eq Hc%Z.eqb_eq]. split_and!; [done..|].
  unfold rowInstruction. rewrite Hrow.
  destruct (Z.eqb_spec (instructionID.index i) 0) as [Hz|_]; [|apply instruction_at_index].
  destruct Hi. by apply (index_inj i instructionID.INVALID).
Qed.

Lemma alias_row a i :
  In (a, i) (combine instruction_aliases alias_instructions) -> rowInstruction a = i.
Proof.
  intros Hin. assert (forallb (fun '(a, i) => instructionID.eqb (rowInstruction a) i)
    (combine instruction_aliases alias_instructions) = true) as H by (vm_compute; reflexivity).
  apply (proj1 (forallb_forall _ _) H) in Hin. by apply eqb_true.
Qed.

Lemma pattern_in_table e : In e gInstructionDecodeTable -> pattern (inst_id e) = e.
Proof.
  intros Hin. assert (map (fun e => pattern (inst_id e)) gInstructionDecodeTable =
                      map (fun e => e) gInstructionDecodeTable) as H by (vm_compute; reflexivity).
  exact (ext_in_map H e Hin).
Qed.

Lemma decode_pattern w :
  id (decode w) <> instructionID.INVALID ->
  Z.land w (Instructions.mask (pattern (id (decode w)))) = match_ (pattern (id (decode w))).
Proof.
  intros Hi. rewrite decode_search in *.
  destruct (search_cases gInstructionDecodeTable w) as [[_ E]|(l1 & e & l2 & Ht & Hm & _ & Hs)];
    [congruence|].
  rewrite Hs, pattern_in_table by (rewrite Ht; apply in_or_app; right; by left).
  unfold entry_matches in Hm. apply andb_true_iff in Hm as [[Hm%Z.eqb_eq _]%andb_true_iff _].
  done.
Qed.

(** A word of a row is of its instruction and has its pattern. *)
Lemma row_fixes z info :
  id (decode z) <> instructionID.INVALID -> getInstruction T (decode z) = Some info ->
  rowInstruction info = id (decode z) /\ Z.land z (mask info) = condition info.
Proof.
  intros Hz Ez. split.
  - destruct (row_is_own z info Hz Ez) as [Hb|Ha]; [|by apply alias_row].
    by apply base_row in Hb as (_ & _ & ?).
  - revert Ez. unfold getInstruction.
    destruct (findAlias (aliasTable T) (DecodeSystem.inst (decode z))) as [a|] eqn:Ef.
    + intros [= <-]. by apply findAlias_some in Ef as [_ Ef].
    + intros Ez. apply base_row in Ez as (-> & -> & _); [|done]. apply Z.land_0_r.
Qed.

(** Words of the same row agree on the bits it fixes. *)
Lemma row_words v w info :
  id (decode v) <> instructionID.INVALID -> id (decode w) <> instructionID.INVALID ->
  getInstruction T (decode v) = Some info -> getInstruction T (decode w) = Some info ->
  id (decode v) = rowInstruction info /\ id (decode w) = rowInstruction info /\
  Z.land v (pinned info) = Z.land w (pinned info).
Proof.
  intros Hv Hw Ev Ew.
  destruct (row_fixes v info Hv Ev) as [Rv Mv], (row_fixes w info Hw Ew) as [Rw Mw].
  split_and!; [done..|].
  unfold pinned. rewrite !Z.land_lor_distr_r. f_equal; [congruence|].
  rewrite Rv at 1. rewrite decode_pattern by done. rewrite <-Rv, Rw. symmetry.
  by apply decode_pattern.
Qed.

(** Agreement on ranges of bits is agreement under their masks. *)
Lemma agree_mask v w ab :
  0 <= fst ab <= snd ab -> agree v w ab -> Z.land v (bitsMask ab) = Z.land w (bitsMask ab).
Proof.
  destruct ab as [a b]. unfold agree, bitsMask. cbn [fst snd]. intros Hab E.
  apply Z.bits_inj'. intros i Hi. rewrite !Z.land_spec, testbit_shiftl by done.
  destruct (Z.leb_spec 0 (i - a)); [|by rewrite !andb_false_r]. cbn [andb].
  rewrite testbit_ones by lia. destruct (Z.ltb_spec (i - a) (b - a + 1)); [|by rewrite !andb_false_r].
  apply (f_equal (fun z => Z.testbit z (i - a))) in E. rewrite !testbit_bitRange in E by lia.
  replace (i - a <=? b - a) with true in E by (symmetry; apply Z.leb_le; lia). simpl in E.
  replace (a + (i - a)) with i in E by lia. by rewrite E.
Qed.

Lemma fieldBits_ranges f : Forall (fun ab => 0 <= fst ab <= snd ab) (fieldBits f).
Proof. destruct f; repeat apply Forall_cons_2; try apply Forall_nil_2; simpl; lia. Qed.

Lemma covered_agree v w info :
  Z.land v (pinned info) = Z.land w (pinned info) ->
  Forall (fun f => Forall (agree v w) (fieldBits f)) (regs info) ->
  Z.land v (covered info) = Z.land w (covered info).
Proof.
  intros Hp Hf. unfold covered.
  assert (Forall (fun ab => Z.land v (bitsMask ab) = Z.land w (bitsMask ab))
    (flat_map fieldBits (regs info))) as Hm.
  { apply Forall_forall. intros ab (f & Hin & Hab)%list_elem_of_In%in_flat_map.
    rewrite Forall_forall in Hf. pose proof (Hf f (proj2 (list_elem_of_In _ _) Hin)) as Ha.
    rewrite Forall_forall in Ha. pose proof (fieldBits_ranges f) as Hr. rewrite Forall_forall in Hr.
    apply list_elem_of_In in Hab. apply agree_mask; [by apply Hr|by apply Ha]. }
  induction Hm as [|ab l Hab _ IH]; [done|]. simpl. rewrite !Z.land_lor_distr_r. congruence.
Qed.

Section Text.
Context `{ShiftTarget}.

(** C21: the text tells the words apart: two words that are printed by the same row of the
    tables, at the same address and with the same name and operands, are equal, provided
    that the row fixes or shows every bit, and that neither word has a second spelling. *)
Theorem text_determines_word (m : MemState) v w info d d' r addr :
  uint 32 v -> uint 32 w ->
  getInstruction T (decode v) = Some info -> getInstruction T (decode w) = Some info ->
  identified info = true -> canonical info v = true -> canonical info w = true ->
  disassemble T m (decode v) d addr = Some (true, r) ->
  disassemble T m (decode w) d' addr = Some (true, r) ->
  v = w.
Proof.
  intros Bv Bw Ev Ew [[Hc%Z.eqb_eq Hp]%andb_true_iff Ht]%andb_true_iff Cv Cw.
  rewrite !disassemble_eq, Ev, Ew.
  destruct (_ || _) eqn:Iv; [done|]. apply orb_false_iff in Iv as [_ Iv].
  destruct (_ || _) eqn:Iw; [done|]. apply orb_false_iff in Iw as [_ Iw].
  assert (forall i, instructionID.eqb i instructionID.INVALID = false -> i <> instructionID.INVALID)
    as Hne by (intros i Hi ->; discriminate Hi).
  destruct (row_words v w info (Hne _ Iv) (Hne _ Iw) Ev Ew) as (Rv & Rw & Hpin).
  intros [= <-] [= Hs Ho]. symmetry in Hs, Ho.
  apply app_inj_l, suffixes_head in Hs; [|done].
  apply concat_inj in Ho;
    [|apply Forall_flat_map; apply Forall_forall; intros; apply operands_operand..].
  unfold allOperands, isRET in Ho. rewrite Rv, Rw in Ho. apply operands_each in Ho; [|done].
  assert (forall z, uint 32 z -> Z.land z (covered info) = z) as Hz.
  { intros z Hz. rewrite Hc. change 0xFFFFFFFF with (Z.ones 32).
    rewrite Z.land_ones by lia. by apply wrap_id. }
  rewrite <-(Hz v Bv), <-(Hz w Bw). apply covered_agree; [done|].
  unfold canonical in Cv, Cw. rewrite Forall_forall in *. intros f Hf.
  apply (field_inj (instructionID.eqb (rowInstruction info) instructionID.RET) addr).
  - apply (proj1 (forallb_forall _ _) Cv). by apply list_elem_of_In.
  - apply (proj1 (forallb_forall _ _) Cw). by apply list_elem_of_In.
  - by apply Ho.
  - by apply Hs.
Qed.

(** The rows that do not show every bit, those with operands left as [TODO] aside: the bit
    tests (the high bit of the number is missing), the logical immediates (printed by value),
    instructions with bits the decoder ignores, and [CMN] of a shifted register, whose aliases
    have one operand. *)
Definition hides (info : InstructionInfo) : bool :=
  negb (identified info) && forallb (fun f => match f with TODO => false | _ => true end) (regs info).

Lemma rows_that_hide :
  map rawName (List.filter hides (infoTable T)) =
    ["TBZ"; "TBNZ"; "AND_32_imm"; "ORR_32_imm"; "EOR_32_imm"; "ANDS_32_imm";
     "AND_64_imm"; "ORR_64_imm"; "EOR_64_imm"; "ANDS_64_imm"; "SMULH"; "UMULH";
     "STXRB"; "STLXRB"; "LDXRB"; "LDAXRB"; "STLRB"; "LDARB"; "STXRH"; "STLXRH";
     "LDXRH"; "LDAXRH"; "STLRH"; "LDARH"; "STXR32"; "STLXR32"; "LDXR32";
     "LDAXR32"; "LDXP32"; "LDAXP32"; "STLR32"; "LDAR32"; "STXR64"; "STLXR64";
     "LDXR64"; "LDAXR64"; "LDXP64"; "LDAXP64"; "STLR64"; "LDAR64";
     "FCMP_single_zero"; "FCMPE_single_zero"; "FCMP_double_zero";
     "FCMPE_double_zero"]%string /\
  map name (List.filter hides (aliasTable T)) = ["CMN"; "CMN"; "TST"; "TST"]%string.
Proof. split; vm_compute; reflexivity. Qed.
End Text.

(** ** What an alias means *)

Section Moves.
Context `{CpuHooks MemState} `{ShiftTarget} `{HostFloat}.

(** The register a name stands for: [WZR] and [XZR] are 0, a [W] register is the low half. *)
Definition regValue (type : RegType.t) (sp : bool) (c : Core) (n : Z) : Z :=
  let v := if n =? 31 then if sp then SP c else 0 else getX c n in
  match type with RegType.W => v mod 2 ^ 32 | _ => v end.

Definition movType (is64 : bool) : RegType.t := if is64 then RegType.X else RegType.W.
Definition movSource (sp : bool) (w : Z) : Z := if sp then Inst.Rn w else Inst.Rm w.
Definition movFields (is64 sp : bool) : list FieldType :=
  match is64, sp with
  | true, true => [Xd_SP; Xn_SP] | false, true => [Wd_WSP; Wn_WSP]
  | true, false => [Xd; Xm] | false, false => [Wd; Wm]
  end.
Definition movHandler (is64 sp : bool) : Core -> Z -> Core :=
  match is64, sp with
  | true, true => add64Imm | false, true => add32Imm
  | true, false => orr64Shifted | false, false => orr32Shifted
  end.
Definition movInstruction (is64 sp : bool) : instructionID.t :=
  match is64, sp with
  | true, true => instructionID.ADD_64_imm | false, true => instructionID.ADD_32_imm
  | true, false => instructionID.ORR_64_shifted | false, false => instructionID.ORR_32_shifted
  end.
Definition movWord (sp : bool) (w : Z) : Prop :=
  if sp then bitRange 10 22 w = 0
  else Inst.Rn w = 31 /\ Inst._10_15 w = 0 /\ Inst.shift w = 0.

(** The six rows. *)
Lemma mov_rows a i w :
  In (a, i) (combine instruction_aliases alias_instructions) -> name a = "MOV"%string ->
  Z.land w (mask a) = condition a ->
  exists is64 sp, regs a = movFields is64 sp /\ i = movInstruction is64 sp /\ movWord sp w.
Proof.
  intros Hin Hn Hw.
  assert (In (a, i) (List.filter (fun ai => String.eqb (name (fst ai)) "MOV")
    (combine instruction_aliases alias_instructions))) as Hf
    by (apply filter_In; split; [done|]; cbn [fst]; by rewrite Hn, String.eqb_refl).
  assert (List.filter (fun ai => String.eqb (name (fst ai)) "MOV")
    (combine instruction_aliases alias_instructions) =
    [ (ALIAS "MOV" [Wd_WSP; Wn_WSP] 0xFFFFFC1F 0x1100001F, instructionID.ADD_32_imm);
      (ALIAS "MOV" [Xd_SP; Xn_SP] 0xFFFFFC1F 0x9100001F, instructionID.ADD_64_imm);
      (ALIAS "MOV" [Wd_WSP; Wn_WSP] 0xFFFFFFE0 0x110003E0, instructionID.ADD_32_imm);
      (ALIAS "MOV" [Xd_SP; Xn_SP] 0xFFFFFFE0 0x910003E0, instructionID.ADD_64_imm);
      (ALIAS "MOV" [Wd; Wm] 0xFFE0FFE0 0x2A0003E0, instructionID.ORR_32_shifted);
      (ALIAS "MOV" [Xd; Xm] 0xFFE0FFE0 0xAA0003E0, instructionID.ORR_64_shifted) ]) as El
    by (vm_compute; reflexivity).
  rewrite El in Hf. clear El Hin Hn.
  destruct Hf as [E|[E|[E|[E|[E|[E|[]]]]]]]; injection E as <- <-;
    cbn [ALIAS mask condition regs] in *;
    [exists false, true|exists true, true|exists false, true|exists true, true
    |exists false, false|exists true, false]; (split; [done|]); (split; [done|]);
    unfold movWord, Inst.Rn, Inst._10_15, Inst.shift; repeat split;
    (etransitivity; [eapply field_cube, Hw; [lia|reflexivity]|reflexivity]).
Qed.

(** What the handlers do on these words. *)
Definition moved (is64 sp : bool) (c : Core) (w : Z) : Core :=
  let v := regValue (movType is64) sp c (movSource sp w) in
  if sp then setXorSP (Inst.Rd w) v c else setX (Inst.Rd w) v c.

Lemma movHandler_moves is64 sp c w :
  wf_Core c -> getX c 31 = 0 -> movWord sp w -> movHandler is64 sp c w = moved is64 sp c w.
Proof.
  intros Hc H31 Hw.
  assert (forall v, uint 64 v -> (if is64 then v else Z.land v (bitmask 32)) =
                                 match movType is64 with RegType.W => v mod 2 ^ 32 | _ => v end) as Hv.
  { intros v Hv. destruct is64; [done|]. simpl. rewrite bitmask_ones. by apply Z.land_ones. }
  unfold moved, regValue. destruct sp.
  - assert (movHandler is64 true = addSubImmGeneric is64 false false) as -> by by destruct is64.
    assert (u64 (Z.shiftl (Inst._10_21 w) (if testBit 22 w then 12 else 0)) = 0) as Hi.
    { assert (Inst._10_21 w = 0) as ->; [|by destruct (testBit 22 w)].
      apply Z.bits_inj'. intros i Hi. rewrite Z.bits_0. unfold Inst._10_21.
      rewrite testbit_bitRange by lia. destruct (Z.leb_spec i (21 - 10)); [|done].
      apply (f_equal (fun z => Z.testbit z i)) in Hw. rewrite testbit_bitRange, Z.bits_0 in Hw by lia.
      by replace (i <=? 22 - 10) with true in Hw by (symmetry; apply Z.leb_le; lia). }
    unfold addSubImmGeneric. cbv zeta. rewrite Hi.
    pose proof (addWithCarry_result is64 false (getXorSP c (Inst.Rn w)) 0 0 (PState c)) as Hr.
    assert (snd (addWithCarry is64 false (getXorSP c (Inst.Rn w)) 0 0 (PState c)) = PState c) as Hs
      by done.
    destruct (addWithCarry _ _ _ _ _ _) as [r st]. cbn [fst snd] in *. subst st.
    assert (set_PState (PState c) c = c) as -> by by destruct c. unfold setXorSP.
    assert ((if is64 then r else Z.land r (bitmask 32)) =
            match movType is64 with RegType.W => getXorSP c (Inst.Rn w) mod 2 ^ 32
            | _ => getXorSP c (Inst.Rn w) end) as ->; [|by destruct (_ =? 31)].
    rewrite !Z.add_0_r in Hr. subst r. pose proof (getXorSP_uint c (Inst.Rn w) Hc) as Hu.
    destruct is64; simpl; [by apply wrap_id|].
    rewrite bitmask_ones, wrap_land_ones by lia. by apply wrap_wrap.
  - destruct Hw as (Hn & Ha & Hs).
    assert (movHandler is64 false = fun core inst =>
      logicalShiftedRegGeneric is64 false false core inst Z.lor) as -> by by destruct is64.
    unfold logicalShiftedRegGeneric, shift. cbv zeta. rewrite Hn, Ha, H31. cbn [Z.eqb Z.lor].
    rewrite Hv by by apply getX_uint. unfold movSource.
    destruct (Z.eqb_spec (Inst.Rm w) 31) as [E|]; [rewrite E, H31|]; done.
Qed.

Lemma mov_registered is64 sp :
  getInstructionFunc (movInstruction is64 sp) =
  (pureHandler (movHandler is64 sp) : interptfptr_t MemState).
Proof. by destruct is64, sp. Qed.

(** The rows of the list: the only name that gets a suffix is [B]. *)
Lemma base_name i info d :
  infoAt T i = Some info ->
  name info +:+ allSuffixes d (regs info) = "B" +:+ allSuffixes d (regs info) \/
  name info <> "MOV"%string /\ forallb (fun f => negb (isCond f)) (regs info) = true.
Proof.
  intros E. assert (match infoAt T i with
    | Some row => String.eqb (name row) "B" ||
        (negb (String.eqb (name row) "MOV") && forallb (fun f => negb (isCond f)) (regs row))
    | None => false end = true) as H'.
  { clear E. revert i. apply allIds_forallb. vm_compute. reflexivity. }
  rewrite E in H'. apply orb_true_iff in H' as [H'%String.eqb_eq|[Hm Hc]%andb_true_iff].
  - left. by rewrite H'.
  - right. split; [|done]. intros En. by rewrite En in Hm.
Qed.

(** A word printed as [MOV] is one of these. *)
Lemma printed_mov m w d d' addr :
  disassemble T m (decode w) d addr = Some (true, d') -> dis_name d' = "MOV"%string ->
  exists is64 sp, id (decode w) = movInstruction is64 sp /\ movWord sp w /\
    args d' = disassembleReg (movType is64) sp (Inst.Rd w) +:+ ", " +:+
              disassembleReg (movType is64) sp (movSource sp w).
Proof.
  rewrite disassemble_eq. destruct (_ || _) eqn:Hv; [done|].
  apply orb_false_iff in Hv as [_ Hv].
  destruct (getInstruction T (decode w)) as [info|] eqn:Hr; [|done].
  intros [= <-]. cbn [dis_name args]. intros Hn.
  assert (id (decode w) <> instructionID.INVALID) as Hi by (intros E; by rewrite E in Hv).
  destruct (row_fixes w info Hi Hr) as [_ Hw]. destruct (row_is_own w info Hi Hr) as [Hb|Ha].
  - destruct (base_name _ info (decode w) Hb) as [E|[E Hc]].
    + by rewrite E in Hn.
    + rewrite no_suffixes, app_nil_string in Hn by done. congruence.
  - assert (forallb (fun a => forallb (fun f => negb (isCond f)) (regs a)) instruction_aliases = true)
      as Hc by (vm_compute; reflexivity).
    pose proof (proj1 (forallb_forall _ _) Hc info (in_combine_l _ _ _ _ Ha)) as Hc'.
    cbv beta in Hc'. rewrite no_suffixes, app_nil_string in Hn by done.
    destruct (mov_rows info (id (decode w)) w Ha Hn Hw) as (is64 & sp & Hf & Hid & Hm).
    exists is64, sp. split_and!; [done..|]. rewrite Hf. by destruct is64, sp.
Qed.

Lemma SP_finishStep c : SP (finishStep c) = SP c.
Proof. unfold finishStep. cbv zeta. by destruct (_ =? _). Qed.

Lemma moved_effect is64 sp c w :
  wf_Core (fetched c) ->
  let dst := Inst.Rd w in
  let c' := finishStep (moved is64 sp (fetched c) w) in
  (dst <> 31 \/ sp = true ->
   regValue RegType.X sp c' dst = regValue (movType is64) sp c (movSource sp w)) /\
  (forall r, 0 <= r < 31 -> r <> dst -> getX c' r = getX c r) /\
  (dst <> 31 \/ sp = false -> SP c' = SP c) /\
  PState c' = PState c.
Proof.
  intros Hc dst c'. assert (reg dst) as Hd by apply reg_Rd. unfold c', moved.
  change (regValue (movType is64) sp (fetched c) (movSource sp w))
    with (regValue (movType is64) sp c (movSource sp w)).
  generalize (regValue (movType is64) sp c (movSource sp w)) as v. clear c'. intros v.
  fold dst. rewrite SP_finishStep, PState_finishStep. unfold regValue, setXorSP.
  destruct (Z.eqb_spec dst 31) as [E|Hne].
  - rewrite SP_finishStep. split_and!; try (by destruct sp).
    + intros [|]; [done|]. by subst sp.
    + intros r Hr Hn. rewrite getX_finishStep by (unfold reg; lia).
      destruct sp; [done|]. rewrite getX_setX_ne; [done|unfold reg in *; lia..].
    + intros [|]; [done|]. by subst sp.
  - assert ((if sp then setX dst v (fetched c) else setX dst v (fetched c)) =
            setX dst v (fetched c)) as -> by by destruct sp.
    split_and!; try done.
    + intros _. rewrite getX_finishStep by done. by apply getX_setX_eq.
    + intros r Hr Hn. rewrite getX_finishStep by (unfold reg; lia).
      rewrite getX_setX_ne; [done|unfold reg in *; lia..].
Qed.

(** C32: the name [MOV] is kept: a word printed as [MOV dst, src] copies the value of [src] to
    [dst], a [W] register filling the upper half with zeros, [SP], [XZR] and [WZR] as
    named; no other register, no flag and no memory changes. *)
Theorem mov_copies (s : Machine MemState) w d d' :
  wf_Core (s.(core)) -> getX (s.(core)) 31 = 0 ->
  mread 4 (PC (s.(core))) (s.(memory)) = Ok w ->
  disassemble T (s.(memory)) (decode w) d (PC (s.(core))) = Some (true, d') ->
  dis_name d' = "MOV"%string ->
  exists type sp dst src s',
    args d' = disassembleReg type sp dst +:+ ", " +:+ disassembleReg type sp src /\
    step s = Ok (tt, s') /\
    (dst <> 31 \/ sp = true ->
     regValue RegType.X sp (s'.(core)) dst = regValue type sp (s.(core)) src) /\
    (forall r, 0 <= r < 31 -> r <> dst -> getX (s'.(core)) r = getX (s.(core)) r) /\
    (dst <> 31 \/ sp = false -> SP (s'.(core)) = SP (s.(core))) /\
    PState (s'.(core)) = PState (s.(core)) /\ s'.(memory) = s.(memory).
Proof.
  intros Hc H31 Hf Hd Hn. destruct (printed_mov _ _ _ _ _ Hd Hn) as (is64 & sp & Hid & Hm & Ha).
  assert (getInstructionFunc (id (decode w)) =
          (pureHandler (movHandler is64 sp) : interptfptr_t MemState)) as Hh
    by (rewrite Hid; apply mov_registered).
  pose proof (step_pure s w _ Hf Hh) as Hs.
  rewrite movHandler_moves in Hs by (done || by apply wf_set_nextPC, u64_uint).
  exists (movType is64), sp, (Inst.Rd w), (movSource sp w), (stepped (moved is64 sp (fetched (s.(core))) w) s).
  split; [done|]. split; [done|]. unfold stepped. cbn [core set_core memory].
  destruct (moved_effect is64 sp (s.(core)) w) as (E1 & E2 & E3 & E4); [|done].
  by apply wf_set_nextPC, u64_uint.
Qed.
End Moves.

(** ** Words at the start of the mapped page *)

#[local] Existing Instance quiet_hooks.

Definition nothing : Disassembly := mkDisassembly EmptyString EmptyString.
Definition shownAs (w : Z) : option (bool * Disassembly) :=
  disassemble T (memory (program w 0 5)) (decode w) nothing 0x5000.

(** [b.hi #16] *)
Lemma label_is_branch_target_witness :
  (mread 4 0x5000 ((program 0x54000088 0 5).(memory)) = Ok 0x54000088 /\
   In (id (decode 0x54000088)) branches_to_label /\
   shownAs 0x54000088 = Some (true, mkDisassembly "B.HI" "5010")) /\
  exists s', step (program 0x54000088 0 5) = Ok (tt, s') /\ PC (s'.(core)) = 0x5004.
Proof.
  assert (mread 4 0x5000 ((program 0x54000088 0 5).(memory)) = Ok 0x54000088) as H1
    by (apply reads_ok; vm_compute; reflexivity).
  assert (In (id (decode 0x54000088)) branches_to_label) as H2 by (vm_compute; left; reflexivity).
  assert (shownAs 0x54000088 = Some (true, mkDisassembly "B.HI" "5010")) as H3
    by (vm_compute; reflexivity).
  split; [exact (conj H1 (conj H2 H3))|].
  destruct (label_is_branch_target (program 0x54000088 0 5) 0x54000088 nothing
    (mkDisassembly "B.HI" "5010") H1 H2 H3)
    as (s' & ops & target & Hs & _ & _ & Hpc).
  exists s'. split; [exact Hs|]. rewrite Hpc. vm_compute. reflexivity.
Defined.

(** A load with write-back. *)
Lemma text_determines_word_witness :
  (exists info, getInstruction T (decode 0xF85F8420) = Some info /\ identified info = true /\
   canonical info 0xF85F8420 = true) /\
  (shownAs 0xF85F8420 = Some (true, mkDisassembly "LDR" "X0, [X1], #0xfffffffffffffff8") /\
   forall w, uint 32 w -> getInstruction T (decode w) = getInstruction T (decode 0xF85F8420) ->
     disassemble T (memory (program 0xF85F8420 0 5)) (decode w) nothing 0x5000 =
     shownAs 0xF85F8420 ->
     w = 0xF85F8420).
Proof.
  destruct (getInstruction T (decode 0xF85F8420)) as [info|] eqn:E; [|vm_compute in E; discriminate E].
  assert (identified info = true /\ regs info = [Xt; loadstore_post_off]) as [Hi Hr]
    by (vm_compute in E; injection E as <-; split; vm_compute; reflexivity).
  assert (forall w, canonical info w = true) as Hc
    by (intros w; unfold canonical; rewrite Hr; reflexivity).
  split; [exists info; split; [reflexivity|split; [exact Hi|apply Hc]]|].
  assert (shownAs 0xF85F8420 = Some (true, mkDisassembly "LDR" "X0, [X1], #0xfffffffffffffff8")) as Hs
    by (vm_compute; reflexivity).
  split; [exact Hs|]. intros w Hw Ew Ed. rewrite Hs in Ed.
  apply (text_determines_word (memory (program 0xF85F8420 0 5)) w 0xF85F8420 info
    nothing nothing _ 0x5000 Hw ltac:(unfold uint; lia) Ew E Hi (Hc w) (Hc _) Ed Hs).
Defined.

(** [mov x3, x1] *)
Lemma mov_copies_witness :
  (wf_Core (example_core 5) /\
   mread 4 0x5000 ((program 0xAA0103E3 0 5).(memory)) = Ok 0xAA0103E3 /\
   shownAs 0xAA0103E3 = Some (true, mkDisassembly "MOV" "X3, X1")) /\
  exists s', step (program 0xAA0103E3 0 5) = Ok (tt, s') /\ PState (s'.(core)) = PState (example_core 5).
Proof.
  assert (wf_Core (example_core 5)) as Hc by (apply example_core_wf; unfold uint; lia).
  assert (mread 4 0x5000 ((program 0xAA0103E3 0 5).(memory)) = Ok 0xAA0103E3) as H1
    by (apply reads_ok; vm_compute; reflexivity).
  assert (shownAs 0xAA0103E3 = Some (true, mkDisassembly "MOV" "X3, X1")) as H2
    by (vm_compute; reflexivity).
  split; [exact (conj Hc (conj H1 H2))|].
  destruct (mov_copies (program 0xAA0103E3 0 5) 0xAA0103E3 nothing (mkDisassembly "MOV" "X3, X1") Hc eq_refl H1 H2 eq_refl)
    as (_ & _ & _ & _ & s' & _ & Hs & _ & _ & _ & Hp & _).
  exists s'. split; [exact Hs|exact Hp].
Defined.

(** ** What is printed and what is done *)

(** [cmn x0, x1] and [cmn x0, x2]: the aliases have one operand. *)
Lemma cmn_hides_register :
  shownAs 0xAB01001F = Some (true, mkDisassembly "CMN" "X0") /\
  shownAs 0xAB02001F = shownAs 0xAB01001F.
Proof. split; vm_compute; reflexivity. Qed.

(** Bits 1 and 33 of [x0]: only [b40] is printed. *)
Lemma tbz_hides_bit :
  shownAs 0x36080040 = Some (true, mkDisassembly "TBZ" "X0, #1, 5008") /\
  shownAs 0xB6080040 = shownAs 0x36080040.
Proof. split; vm_compute; reflexivity. Qed.

(** A 32-bit logical immediate is printed with 64 bits. *)
Lemma logical_immediate_too_wide :
  shownAs 0x12000400 = Some (true, mkDisassembly "AND" "W0, W0, #0x300000003").
Proof. vm_compute. reflexivity. Qed.

(** [UMULL] writes an [X] register. *)
Lemma umull_wrong_register :
  shownAs 0x9BA27C20 = Some (true, mkDisassembly "UMULL" "W0, W1, W2").
Proof. vm_compute. reflexivity. Qed.

(** A post-indexed pair of [Q] registers: 32 is added, 16 is printed. *)
Lemma pair_128_wrong_offset :
  shownAs 0xACC10420 = Some (true, mkDisassembly "LDP" "Q0, Q1, [X1], #0x10") /\
  pairOffset false 4 0xACC10420 = 32.
Proof. split; vm_compute; reflexivity. Qed.

(** The shift of an index is 2 for every size. *)
Lemma index_wrong_shift :
  shownAs 0xF8627820 = Some (true, mkDisassembly "LDR" "X0, [X1, X2, LSL, 2]").
Proof. vm_compute. reflexivity. Qed.
