(* ===== verification/JitAsm.v ===== *)
(** * The assembler of the JIT compiler: [libcpu/src/jit/jit.h]

    Host instructions as data, and the class [AArch64EmuAssembler]: the code emitted
    so far, and the cache that keeps guest registers in host registers.  The assembler
    library [asmjit] is third-party code; all that is used of it here is that a call of
    one of its mnemonics appends that instruction to the code. *)
From S2P Require Import Prelude BitUtils Instructions Core.

(** ** Host instructions *)

Module Gp.
Inductive t : Set :=
  | rax | rcx | rdx | rbx | rsp | rbp | rsi | rdi
  | r8 | r9 | r10 | r11 | r12 | r13 | r14 | r15.
End Gp.
#[export] Instance Gp_eq_dec : EqDecision Gp.t.
Proof. solve_decision. Defined.

(** [asmjit::X86Gp]: a register with the size it is accessed in, in bytes. *)
Record X86Gp := mkGp { gpReg : Gp.t; gpSize : Z }.

(** [asmjit::X86Mem] with a base register; the size is 0 where none is given. *)
Record X86Mem := mkMem { memBase : Gp.t; memOffset : Z; memSize : Z }.

(** [JitCode]: the address of host code; 0 is the null pointer. *)
Definition JitCode : Set := Z.

(** What [imm_ptr] and [reinterpret_cast<uint64_t>] are applied to. *)
Inductive HostPtr : Set :=
  | interFunc (id : instructionID.t)     (* [interpreter::getInstructionFunc(id)] *)
  | memWriteFn (n : Z)                   (* [mem::write<T>], [T] of [n] bytes *)
  | memReadFn (n : Z)                    (* [mem::read<T>] *)
  | signExtendFn (bits : Z)              (* [signExtend<bits, uint64_t>] *)
  | svcHandlerFn                         (* [gSVCHandler] *)
  | blockFinale                          (* [gBlockFinale] *)
  | blockCode (c : JitCode)              (* the code of another block *)
  | verifyPreInstFn | verifyPostInstFn
  | verifyInfo                           (* [&gVerifyInfo] *)
  | fallbackCounter (id : instructionID.t). (* [&gFallbacks[id]] *)

Inductive Operand : Set :=
  | OReg (r : X86Gp)
  | OMem (m : X86Mem)
  | OImm (v : Z)
  | OPtr (p : HostPtr)
  | OLabel (l : nat).

(** The mnemonics the compiler uses. *)
Inductive Mnemonic : Set :=
  | Mov | Add | Sub | And | Or | Xor | Cmp | Test | Shl | Shr | Neg | Inc
  | Sete | Setge | Nop | Push | Pop | Jmp | Jpe | Call | Ret.

Inductive HostInst : Set :=
  | Ins (m : Mnemonic) (ops : list Operand)
  | Bind (l : nat).

(** ** Marks of [HostReg] *)

Definition NO_LRU_VALUE : Z := 0xFFFFFFFFFFFFFFFF.
Definition NO_OFFSET : Z := 0x7FFFFFFF.

(** ** The members of [Core] the generated code accesses

    Where they lie in the struct is up to the compiler. *)
Inductive CoreField : Set :=
  | fGPRegs (i : Z)
  | fVRegs (i k : Z)                     (* [VRegs[i].D[k]] *)
  | fPC | fSP | fNextPC | fNumInsts
  | fN | fZ | fC | fV.

#[export] Instance CoreField_eq_dec : EqDecision CoreField.
Proof. solve_decision. Defined.

Definition coreFields : list CoreField :=
  map (fun i => fGPRegs (Z.of_nat i)) (seq 0 32) ++
  map (fun i => fVRegs (Z.of_nat i) 0) (seq 0 32) ++
  map (fun i => fVRegs (Z.of_nat i) 1) (seq 0 32) ++
  [fPC; fSP; fNextPC; fNumInsts; fN; fZ; fC; fV].

Definition fieldSize (f : CoreField) : Z :=
  match f with fN | fZ | fC | fV => 1 | _ => 8 end.

Class CoreLayout := { offsetof : CoreField -> Z }.

(** Members do not overlap. *)
Class CoreLayoutLaws `{CoreLayout} : Prop := {
  offsetof_range f : f ∈ coreFields -> 0 <= offsetof f /\ offsetof f + fieldSize f <= NO_OFFSET;
  offsetof_disjoint f g : f ∈ coreFields -> g ∈ coreFields -> f <> g ->
    offsetof f + fieldSize f <= offsetof g \/ offsetof g + fieldSize g <= offsetof f;
}.

Definition stateReg : Gp.t := Gp.r15.

(** TODO of the source: the Windows calling convention. *)
Definition argReg0 : X86Gp := mkGp Gp.rcx 8.
Definition argReg1 : X86Gp := mkGp Gp.rdx 8.
Definition argReg2 : X86Gp := mkGp Gp.r8 8.

Definition mGpRegs : list Gp.t :=
  [Gp.rbx; Gp.rdi; Gp.rsi; Gp.rbp; Gp.r10; Gp.r11; Gp.r12; Gp.r13; Gp.r14].

(** ** The state of the assembler *)

Inductive RegType : Set := NONE | GP.
#[export] Instance RegType_eq_dec : EqDecision RegType.
Proof. solve_decision. Defined.

Record HostReg := mkHostReg {
  mType : RegType;
  mRegID : Z;
  useCount : Z;
  lru : Z;
  mOffset : Z;
  mModified : bool;
  mLoaded : bool;
}.

Definition set_useCount v r :=
  mkHostReg (mType r) (mRegID r) v (lru r) (mOffset r) (mModified r) (mLoaded r).
Definition set_lru v r :=
  mkHostReg (mType r) (mRegID r) (useCount r) v (mOffset r) (mModified r) (mLoaded r).
Definition set_mOffset v r :=
  mkHostReg (mType r) (mRegID r) (useCount r) (lru r) v (mModified r) (mLoaded r).
Definition set_mLoaded v r :=
  mkHostReg (mType r) (mRegID r) (useCount r) (lru r) (mOffset r) (mModified r) v.

(** [HostReg(type, id)] *)
Definition newHostReg (type : RegType) (id : Z) : HostReg :=
  mkHostReg type id 0 NO_LRU_VALUE NO_OFFSET false false.

Record Asm := mkAsm {
  code : list HostInst;
  mRegs : list HostReg;
  lruCounter : Z;
  currentPC : Z;
  labels : nat;                          (* labels [newLabel] has given out *)
}.
Definition set_code v a := mkAsm v (mRegs a) (lruCounter a) (currentPC a) (labels a).
Definition set_mRegs v a := mkAsm (code a) v (lruCounter a) (currentPC a) (labels a).
Definition set_lruCounter v a := mkAsm (code a) (mRegs a) v (currentPC a) (labels a).
Definition set_currentPC v a := mkAsm (code a) (mRegs a) (lruCounter a) v (labels a).
Definition set_labels v a := mkAsm (code a) (mRegs a) (lruCounter a) (currentPC a) v.

(** The constructor of [AArch64EmuAssembler]. *)
Definition newAsm : Asm :=
  mkAsm [] (map (fun i => newHostReg GP (Z.of_nat i)) (seq 0 9)) 0 0 0.

(** ** The monad of the compiler: [emu_abort] and a failed [emu_assert] end the process *)

Definition J (A : Type) : Type := Asm -> option (A * Asm).
#[export] Instance J_ret : MRet J := fun A x a => Some (x, a).
#[export] Instance J_bind : MBind J := fun A B k f a =>
  match f a with Some (x, a) => k x a | None => None end.

Definition emu_abort {A} : J A := fun _ => None.
Definition emu_assert (b : bool) : J unit := if b then mret tt else emu_abort.
Definition getAsm : J Asm := fun a => Some (a, a).
Definition modAsm (f : Asm -> Asm) : J unit := fun a => Some (tt, f a).

(** A mnemonic of [asmjit] with operands; [newLabel] and [bind]. *)
Definition emit (m : Mnemonic) (ops : list Operand) : J unit :=
  modAsm (fun a => set_code (code a ++ [Ins m ops]) a).
Definition newLabel : J nat :=
  a ← getAsm; modAsm (set_labels (S (labels a)));; mret (labels a).
Definition bind_label (l : nat) : J unit := modAsm (fun a => set_code (code a ++ [Bind l]) a).

(** ** The register cache *)

Definition getReg (i : nat) : J HostReg := fun a =>
  match mRegs a !! i with Some r => Some (r, a) | None => None end.
Definition updReg (i : nat) (f : HostReg -> HostReg) : J unit :=
  modAsm (fun a => set_mRegs (alter f i (mRegs a)) a).

Definition incUse : HostReg -> HostReg := fun r => set_useCount (u32 (useCount r + 1)) r.
Definition decUse : HostReg -> HostReg := fun r => set_useCount (u32 (useCount r - 1)) r.

(** [asmjit::X86Gp] of a host register. *)
Definition gpOf (id : Z) (size : Z) : X86Gp := mkGp (nth (Z.to_nat id) mGpRegs Gp.rax) size.

Definition envict (i : nat) : J unit :=
  reg ← getReg i;
  emu_assert (useCount reg =? 0);;
  emu_assert (mOffset reg !=? NO_OFFSET);;
  emu_assert (bool_decide (mType reg = GP));;
  (if mModified reg then
     emu_assert (mLoaded reg);;
     emit Mov [OMem (mkMem stateReg (mOffset reg) 8); OReg (gpOf (mRegID reg) 8)]
   else mret tt);;
  updReg i (fun reg => mkHostReg (mType reg) (mRegID reg) 0 NO_LRU_VALUE NO_OFFSET false false).

(** The loop of [allocReg]: the first free register, or the one used longest ago. *)
Fixpoint allocScan (type : RegType) (i : nat) (regs : list HostReg) (lruReg : option nat)
    (lruValue : Z) : nat + option nat :=
  match regs with
  | [] => inr lruReg
  | reg :: regs =>
      if bool_decide (mType reg <> type) then allocScan type (S i) regs lruReg lruValue
      else if useCount reg =? 0 then
        if mOffset reg =? NO_OFFSET then inl i
        else if (lru reg !=? NO_LRU_VALUE) && (lru reg <? lruValue)
        then allocScan type (S i) regs (Some i) (lru reg)
        else allocScan type (S i) regs lruReg lruValue
      else allocScan type (S i) regs lruReg lruValue
  end.

Definition allocReg (type : RegType) : J nat :=
  a ← getAsm;
  match allocScan type 0 (mRegs a) None NO_LRU_VALUE with
  | inl i => updReg i incUse;; mret i
  | inr (Some i) => envict i;; updReg i incUse;; mret i
  | inr None => emu_abort
  end.

(** [for (auto& reg : mRegs)] of [envictAll], from register [i] on. *)
Fixpoint envictFrom (i n : nat) : J unit :=
  match n with
  | O => mret tt
  | S n =>
      reg ← getReg i;
      (if mOffset reg !=? NO_OFFSET then envict i else mret tt);;
      envictFrom (S i) n
  end.
Definition envictAll : J unit := envictFrom 0 9.

(** *** [Register] and [GpRegister]

    A handle counts as a use of its register from its construction to its destruction;
    [release] is the destructor, at the end of the scope of the handle. *)
Record GpRegister := mkGpRegister { mReg : nat; mSize : Z; mWrittenOnUse : bool }.

Definition release (r : GpRegister) : J unit := updReg (mReg r) decUse.

Definition markWritten (r : GpRegister) : J unit :=
  a ← getAsm;
  updReg (mReg r) (set_lru (lruCounter a));;
  modAsm (set_lruCounter (u64 (lruCounter a + 1)));;
  if mWrittenOnUse r then
    updReg (mReg r) (fun reg => mkHostReg (mType reg) (mRegID reg) (useCount reg) (lru reg)
                                  (mOffset reg) true true)
  else mret tt.

(** [r8], [r32]: a second handle, of another size. *)
Definition withSize (size : Z) (r : GpRegister) : J GpRegister :=
  updReg (mReg r) incUse;; mret (mkGpRegister (mReg r) size (mWrittenOnUse r)).

(** [operator asmjit::X86Gp] *)
Definition toGp (r : GpRegister) : J X86Gp :=
  markWritten r;;
  reg ← getReg (mReg r);
  if mSize r =? 1 then mret (gpOf (mRegID reg) 1)
  else if mSize r =? 2 then mret (gpOf (mRegID reg) 2)
  else if mSize r =? 4 then mret (gpOf (mRegID reg) 4)
  else emu_assert (mSize r =? 8);; mret (gpOf (mRegID reg) 8).

(** ** Statements [a.mnemonic(args)]

    A handle as an argument is converted to its register.  [H8] and [H32] are arguments
    [h.r8()] and [h.r32()], whose temporary handles die at the end of the statement.
    C++ leaves the order in which arguments are evaluated open; here it is theirs. *)
Inductive Arg : Set :=
  | H (r : GpRegister)
  | H8 (r : GpRegister)
  | H32 (r : GpRegister)
  | R (r : X86Gp)
  | M (m : X86Mem)
  | I (v : Z)
  | P (p : HostPtr)
  | L (l : nat).

(** The operand, and the temporaries to be destroyed. *)
Definition evalArg (x : Arg) : J (Operand * list GpRegister) :=
  match x with
  | H r => g ← toGp r; mret (OReg g, [])
  | H8 r => t ← withSize 1 r; g ← toGp t; mret (OReg g, [t])
  | H32 r => t ← withSize 4 r; g ← toGp t; mret (OReg g, [t])
  | R r => mret (OReg r, [])
  | M m => mret (OMem m, [])
  | I v => mret (OImm v, [])
  | P p => mret (OPtr p, [])
  | L l => mret (OLabel l, [])
  end.

Fixpoint evalArgs (xs : list Arg) : J (list Operand * list GpRegister) :=
  match xs with
  | [] => mret ([], [])
  | x :: xs =>
      '(o, ts) ← evalArg x;
      '(os, ts') ← evalArgs xs;
      mret (o :: os, ts ++ ts')
  end.

Fixpoint releaseAll (ts : list GpRegister) : J unit :=
  match ts with [] => mret tt | t :: ts => release t;; releaseAll ts end.

Definition ins (m : Mnemonic) (xs : list Arg) : J unit :=
  '(os, ts) ← evalArgs xs; emit m os;; releaseAll ts.

(** ** Handles *)

Definition allocGpTemp (size : Z) : J GpRegister :=
  i ← allocReg GP; mret (mkGpRegister i size false).

(** [allocGpTemp(GpRegister& other)] *)
Definition allocGpTempCopy (other : GpRegister) : J GpRegister :=
  reg ← allocGpTemp (mSize other);
  ins Mov [H reg; H other];;
  mret reg.

(** [allocGpTemp(size, imm)] *)
Definition allocGpTempImm (size imm : Z) : J GpRegister :=
  reg ← allocGpTemp size;
  ins Mov [H reg; I imm];;
  mret reg.

Fixpoint findFrom (offset : Z) (i : nat) (regs : list HostReg) : option nat :=
  match regs with
  | [] => None
  | reg :: regs => if mOffset reg =? offset then Some i else findFrom offset (S i) regs
  end.
Definition findReg (offset : Z) (a : Asm) : option nat := findFrom offset 0 (mRegs a).

Definition loadGpRegister (ref : X86Mem) (loadReg markWrittenOnUse : bool) : J GpRegister :=
  a ← getAsm;
  i ← match findReg (memOffset ref) a with
      | Some i =>
          reg ← getReg i;
          emu_assert (bool_decide (mType reg = GP));;
          updReg i incUse;;
          mret i
      | None =>
          i ← allocReg GP;
          updReg i (set_mOffset (memOffset ref));;
          mret i
      end;
  reg ← getReg i;
  (if loadReg && negb (mLoaded reg) then
     emit Mov [OReg (gpOf (mRegID reg) 8); OMem ref];;
     updReg i (set_mLoaded true)
   else mret tt);;
  a ← getAsm;
  updReg i (set_lru (lruCounter a));;
  modAsm (set_lruCounter (u64 (lruCounter a + 1)));;
  mret (mkGpRegister i 8 markWrittenOnUse).

Definition loadGpRegisterRead (ref : X86Mem) : J GpRegister := loadGpRegister ref true false.
Definition loadGpRegisterWrite (ref : X86Mem) : J GpRegister := loadGpRegister ref false true.
Definition loadGpRegisterReadWrite (ref : X86Mem) : J GpRegister := loadGpRegister ref true true.

(** ** Members of the core *)

Section Members.
Context `{CoreLayout}.

Definition qword (f : CoreField) : X86Mem := mkMem stateReg (offsetof f) 8.
Definition byte_ptr (f : CoreField) : X86Mem := mkMem stateReg (offsetof f) 1.

Definition corePCMem : X86Mem := qword fPC.
Definition coreSPMem : X86Mem := qword fSP.
Definition coreNextPCMem : X86Mem := qword fNextPC.
Definition coreGPRegs (i : Z) : X86Mem := qword (fGPRegs i).
Definition coreVRegs (i k : Z) : X86Mem := qword (fVRegs i k).
Definition coreNflagMem : X86Mem := byte_ptr fN.
Definition coreZflagMem : X86Mem := byte_ptr fZ.
Definition coreCflagMem : X86Mem := byte_ptr fC.
Definition coreVflagMem : X86Mem := byte_ptr fV.

(** [write64ImmToMem]: the two halves of an 8-byte member. *)
Definition write64ImmToMem (m : X86Mem) (data : Z) : J unit :=
  let lower := mkMem (memBase m) (memOffset m) 4 in
  let upper := mkMem (memBase m) (memOffset m + 4) 4 in
  ins Mov [M lower; I (u32 data)];;
  ins Mov [M upper; I (u32 (Z.shiftr data 32))].

(** The guest condition, as 0 or 1 in a byte register. *)
Definition insertTestCondition (cond : Condition) (reg : X86Gp) : J unit :=
  match cond with
  | EQ => ins Mov [R reg; M coreZflagMem]
  | NE => ins Mov [R reg; M coreZflagMem];; ins Test [R reg; R reg];; ins Sete [R reg]
  | CS => ins Mov [R reg; M coreCflagMem]
  | CC => ins Mov [R reg; M coreCflagMem];; ins Test [R reg; R reg];; ins Sete [R reg]
  | MI => ins Mov [R reg; M coreNflagMem]
  | PL => ins Mov [R reg; M coreNflagMem];; ins Test [R reg; R reg];; ins Sete [R reg]
  | VS => ins Mov [R reg; M coreVflagMem]
  | VC => ins Mov [R reg; M coreVflagMem];; ins Test [R reg; R reg];; ins Sete [R reg]
  | HI =>
      ins Mov [R reg; M coreZflagMem];; ins Test [R reg; I 0xFF];; ins Sete [R reg];;
      ins And [R reg; M coreCflagMem]
  | LS =>
      ins Mov [R reg; M coreCflagMem];; ins Test [R reg; I 0xFF];; ins Sete [R reg];;
      ins Or [R reg; M coreZflagMem]
  | GE =>
      ins Mov [R reg; M coreVflagMem];; ins Cmp [R reg; M coreNflagMem];; ins Sete [R reg]
  | LT =>
      ins Mov [R reg; M coreVflagMem];; ins Cmp [R reg; M coreNflagMem];; ins Sete [R reg];;
      ins Test [R reg; R reg];; ins Sete [R reg]
  | GT =>
      ins Mov [R reg; M coreVflagMem];; ins Cmp [R reg; M coreNflagMem];; ins Sete [R reg];;
      ins Test [R reg; R reg];; ins Sete [R reg];;
      ins Or [R reg; M coreZflagMem];;
      ins Test [R reg; R reg];; ins Sete [R reg]
  | LE =>
      ins Mov [R reg; M coreVflagMem];; ins Cmp [R reg; M coreNflagMem];; ins Sete [R reg];;
      ins Test [R reg; R reg];; ins Sete [R reg];;
      ins Or [R reg; M coreZflagMem]
  | AL | A2 => ins Mov [R reg; I 1]
  end.
End Members.
