(* ===== verification/JitInsts.v ===== *)
(** * The instructions of the JIT compiler: [libcpu/src/jit/jitBranch.cpp],
    [jitSystem.cpp], [jitDataProcessingImm.cpp], [jitDataProcessingReg.cpp],
    [jitFloat.cpp], [jitLoadStore.cpp], and [FALLBACK] of [jit.cpp]

    One function for each instruction emits its code; most instructions are registered
    with [FALLBACK], which emits a call of the interpreter's handler. *)
From S2P Require Import Prelude BitUtils Instructions DecodeSystem Decode Core InstUtils JitAsm.

(** [jitfptr_t] *)
Definition jitfptr_t : Type := Z -> J unit.

Section Fallback.
Context `{CoreLayout}.

Definition FALLBACK : jitfptr_t := fun inst =>
  let dInst := decode inst in
  envictAll;;
  a ← getAsm;
  write64ImmToMem corePCMem (currentPC a);;
  write64ImmToMem coreNextPCMem (u64 (currentPC a + 4));;
  ins Mov [R argReg0; R (mkGp stateReg 8)];;
  ins Mov [R argReg1; I inst];;
  ins Call [P (interFunc (id dInst))];;
  temp ← allocGpTemp 8;
  ins Mov [H temp; P (fallbackCounter (id dInst))];;
  base ← toGp temp;
  ins Inc [M (mkMem (gpReg base) 0 0)];;
  release temp.

(** [inline void nop] *)
Definition nop : jitfptr_t := fun _ => mret tt.

(** [a.mov(dst, src)] with [src] or [dst] a handle that lives as long as the statement. *)
Definition movFromLoaded (dst : Arg) (src : J GpRegister) : J unit :=
  h ← src; ins Mov [dst; H h];; release h.
Definition movToLoaded (dst : J GpRegister) (src : Arg) : J unit :=
  h ← dst; ins Mov [H h; src];; release h.
End Fallback.

(** * Branches: [jitBranch.cpp] *)

Module JitBranch.
Section Branches.
Context `{CoreLayout} (gBlockMap : gmap Z JitCode).

Definition insertEndOfBlock (addr : Z) : J unit :=
  write64ImmToMem coreNextPCMem addr;;
  envictAll;;
  match gBlockMap !! addr with
  | Some c => ins Jmp [P (blockCode c)]
  | None => ins Jmp [P blockFinale]
  end.

Definition condBranch : jitfptr_t := fun inst =>
  let cond := toCondition (Inst.cond inst) in
  let off := signExtend 21 (Z.shiftl (Inst._5_23 inst) 2) in
  endLabel ← newLabel;
  testReg ← allocGpTemp 1;
  reg ← toGp testReg;
  insertTestCondition cond reg;;
  ins Test [H testReg; H testReg];;
  envictAll;;
  ins Jpe [L endLabel];;
  a ← getAsm;
  insertEndOfBlock (u64 (currentPC a + off));;
  bind_label endLabel;;
  write64ImmToMem coreNextPCMem (u64 (currentPC a + 4));;
  release testReg.

Definition uncondBranchRegGeneric (link : bool) : jitfptr_t := fun inst =>
  a ← getAsm;
  (if link then
     movToLoaded (loadGpRegisterWrite (coreGPRegs 30)) (I (u64 (currentPC a + 4)))
   else mret tt);;
  movFromLoaded (M coreNextPCMem) (loadGpRegisterRead (coreGPRegs (Inst.Rn inst)));;
  envictAll;;
  ins Jmp [P blockFinale].

Definition uncondBranchRegNoLink : jitfptr_t := uncondBranchRegGeneric false.
Definition uncondBranchRegLink : jitfptr_t := uncondBranchRegGeneric true.

Definition uncondBranchImmGeneric (link : bool) : jitfptr_t := fun inst =>
  let off := signExtend 28 (Z.shiftl (Inst._0_25 inst) 2) in
  a ← getAsm;
  (if link then
     linkReg ← loadGpRegisterWrite (coreGPRegs 30);
     ins Mov [H linkReg; I (u64 (currentPC a + 4))];;
     release linkReg
   else mret tt);;
  insertEndOfBlock (u64 (currentPC a + off)).

Definition uncondBranchImmNoLink : jitfptr_t := uncondBranchImmGeneric false.
Definition uncondBranchImmLink : jitfptr_t := uncondBranchImmGeneric true.

Definition registerBranchInstructions : list (instructionID.t * jitfptr_t) :=
  [ (instructionID.B_cond, condBranch); (instructionID.BR, uncondBranchRegNoLink);
    (instructionID.BLR, uncondBranchRegLink); (instructionID.RET, uncondBranchRegNoLink);
    (instructionID.ERET, FALLBACK); (instructionID.DRPS, FALLBACK);
    (instructionID.B, uncondBranchImmNoLink); (instructionID.BL, uncondBranchImmLink);
    (instructionID.CBZ_32, FALLBACK); (instructionID.CBNZ_32, FALLBACK);
    (instructionID.CBZ_64, FALLBACK); (instructionID.CBNZ_64, FALLBACK);
    (instructionID.TBZ, FALLBACK); (instructionID.TBNZ, FALLBACK) ].
End Branches.
End JitBranch.

(** * System instructions: [jitSystem.cpp] *)

Module JitSystem.
Section System.
Context `{CoreLayout}.

Definition svc : jitfptr_t := fun inst =>
  ins Mov [R argReg0; I (Inst._5_20 inst)];;
  envictAll;;
  ins Call [P svcHandlerFn].

Definition registerSystemInstructions : list (instructionID.t * jitfptr_t) :=
  [ (instructionID.SVC, svc); (instructionID.HVC, FALLBACK); (instructionID.SMC, FALLBACK);
    (instructionID.BRK, FALLBACK); (instructionID.HLT, FALLBACK);
    (instructionID.DCPS1, FALLBACK); (instructionID.DCPS2, FALLBACK);
    (instructionID.DCPS3, FALLBACK); (instructionID.MSR_imm, FALLBACK);
    (instructionID.MSR_reg, FALLBACK); (instructionID.HINT, nop); (instructionID.NOP, nop);
    (instructionID.YIELD, nop); (instructionID.WFE, nop); (instructionID.WFI, nop);
    (instructionID.SEV, nop); (instructionID.SEVL, nop); (instructionID.CLREX, FALLBACK);
    (instructionID.DSB, FALLBACK); (instructionID.DMB, FALLBACK); (instructionID.ISB, nop);
    (instructionID.SYS, FALLBACK); (instructionID.SYSL, FALLBACK);
    (instructionID.MRS, FALLBACK) ].
End System.
End JitSystem.

(** * Data processing, immediate: [jitDataProcessingImm.cpp] *)

Module JitDPImm.
Section DPImm.
Context `{CoreLayout}.

(** The flags of [addSubImmGeneric], in its last block. *)
Definition addSubImmFlags (is64 : bool) (operand2 carry : Z) (operand1 temp : GpRegister)
    : J unit :=
  let msb := if is64 then 63 else 31 in
  op1ForFlags ← allocGpTempCopy operand1;
  op2ForFlags ← allocGpTempImm 8 operand2;
  ins Test [H temp; H temp];;
  ins Sete [M coreZflagMem];;
  ins Shr [H temp; I msb];;
  ins Shr [H op1ForFlags; I msb];;
  ins Shr [H op2ForFlags; I msb];;
  ins And [H temp; I 1];;
  ins And [H op1ForFlags; I 1];;
  ins And [H op2ForFlags; I 1];;
  ins Mov [M coreNflagMem; H8 temp];;
  mask ← allocGpTempImm 8 (bitmask msb);
  partial ← allocGpTempCopy operand1;
  scratch ← allocGpTempImm 8 operand2;
  ins And [H partial; H mask];;
  ins And [H scratch; H mask];;
  ins Add [H partial; H scratch];;
  ins Add [H partial; I carry];;
  ins Shr [H partial; I msb];;
  ins And [H partial; I 1];;
  ins Mov [H scratch; H partial];;
  ins Add [H scratch; H op1ForFlags];;
  ins Add [H scratch; H op2ForFlags];;
  ins Cmp [H scratch; I 2];;
  ins Setge [M coreCflagMem];;
  ins Cmp [H op1ForFlags; H op2ForFlags];;
  ins Sete [H scratch];;
  ins Xor [H op1ForFlags; H temp];;
  ins And [H scratch; H op1ForFlags];;
  ins Mov [M coreVflagMem; H8 scratch];;
  release scratch;; release partial;; release mask;; release op2ForFlags;;
  release op1ForFlags.

Definition addSubImmGeneric (is64 isSub updatesFlags : bool) : jitfptr_t := fun inst =>
  let shift := testBit 22 inst in
  let imm := u64 (Z.shiftl (Inst._10_21 inst) (if shift then 12 else 0)) in
  let operand2 := if isSub then not64 imm else imm in
  let carry := if isSub then 1 else 0 in
  let operand2WithCarry := u64 (operand2 + carry) in
  let operand2WithCarry :=
    if is64 then operand2WithCarry else Z.land operand2WithCarry (bitmask 32) in
  operand1 ← (if Inst.Rn inst =? 31 then loadGpRegisterRead coreSPMem
              else loadGpRegisterRead (coreGPRegs (Inst.Rn inst)));
  result ← (if Inst.Rd inst =? 31 then
              if negb updatesFlags then loadGpRegisterWrite coreSPMem else allocGpTemp 8
            else loadGpRegisterWrite (coreGPRegs (Inst.Rd inst)));
  temp ← allocGpTempCopy operand1;
  (if is64 then
     ins Add [H temp; I operand2WithCarry];;
     ins Mov [H result; H temp]
   else
     ins Add [H32 temp; I operand2WithCarry];;
     ins Mov [H32 result; H32 temp]);;
  (if updatesFlags then addSubImmFlags is64 operand2 carry operand1 temp else mret tt);;
  release temp;; release result;; release operand1.

Definition add32Imm : jitfptr_t := addSubImmGeneric false false false.
Definition adds32Imm : jitfptr_t := addSubImmGeneric false false true.
Definition sub32Imm : jitfptr_t := addSubImmGeneric false true false.
Definition subs32Imm : jitfptr_t := addSubImmGeneric false true true.
Definition add64Imm : jitfptr_t := addSubImmGeneric true false false.
Definition adds64Imm : jitfptr_t := addSubImmGeneric true false true.
Definition sub64Imm : jitfptr_t := addSubImmGeneric true true false.
Definition subs64Imm : jitfptr_t := addSubImmGeneric true true true.

Definition moveWideImmGeneric (is64 : bool) : jitfptr_t := fun inst =>
  let shift := Inst.hw inst * 16 in
  let imm := u64 (Z.shiftl (Inst._5_20 inst) shift) in
  dst ← loadGpRegisterReadWrite (coreGPRegs (Inst.Rd inst));
  (if Inst.opc inst =? 0 then
     if is64 then ins Mov [H dst; I (not64 imm)] else ins Mov [H32 dst; I (not64 imm)]
   else if Inst.opc inst =? 3 then
     let mask := not64 (u64 (Z.shiftl 0xFFFF shift)) in
     let mask := if is64 then mask else Z.land mask (bitmask 32) in
     tempReg ← allocGpTempImm 8 mask;
     ins And [H dst; H tempReg];;
     ins Mov [H tempReg; I imm];;
     ins Or [H dst; H tempReg];;
     release tempReg
   else
     if is64 then ins Mov [H dst; I imm] else ins Mov [H32 dst; I imm]);;
  release dst.

Definition mov32 : jitfptr_t := moveWideImmGeneric false.
Definition mov64 : jitfptr_t := moveWideImmGeneric true.

Definition PCRelativeGeneric (isPage : bool) : jitfptr_t := fun inst =>
  let imm := Z.lor (Z.shiftl (Inst.immhi inst) 2) (Inst.immlo inst) in
  let imm := signExtend 21 imm in
  a ← getAsm;
  let base := currentPC a in
  let imm := if isPage then u64 (Z.shiftl imm 12) else imm in
  let base := if isPage then Z.land base 0xFFFFFFFFFFFFF000 else base in
  dst ← loadGpRegisterWrite (coreGPRegs (Inst.Rd inst));
  ins Mov [H dst; I (u64 (base + imm))];;
  release dst.

Definition adr : jitfptr_t := PCRelativeGeneric false.
Definition adrp : jitfptr_t := PCRelativeGeneric true.

Definition registerDPImmInstructions : list (instructionID.t * jitfptr_t) :=
  [ (instructionID.ADR, adr); (instructionID.ADRP, adrp);
    (instructionID.ADD_32_imm, add32Imm); (instructionID.ADDS_32_imm, adds32Imm);
    (instructionID.SUB_32_imm, sub32Imm); (instructionID.SUBS_32_imm, subs32Imm);
    (instructionID.ADD_64_imm, add64Imm); (instructionID.ADDS_64_imm, adds64Imm);
    (instructionID.SUB_64_imm, sub64Imm); (instructionID.SUBS_64_imm, subs64Imm);
    (instructionID.AND_32_imm, FALLBACK); (instructionID.ORR_32_imm, FALLBACK);
    (instructionID.EOR_32_imm, FALLBACK); (instructionID.ANDS_32_imm, FALLBACK);
    (instructionID.AND_64_imm, FALLBACK); (instructionID.ORR_64_imm, FALLBACK);
    (instructionID.EOR_64_imm, FALLBACK); (instructionID.ANDS_64_imm, FALLBACK);
    (instructionID.MOVN_32, mov32); (instructionID.MOVZ_32, mov32);
    (instructionID.MOVK_32, mov32); (instructionID.MOVN_64, mov64);
    (instructionID.MOVZ_64, mov64); (instructionID.MOVK_64, mov64);
    (instructionID.SBFM_32, FALLBACK); (instructionID.BFM_32, FALLBACK);
    (instructionID.UBFM_32, FALLBACK); (instructionID.SBFM_64, FALLBACK);
    (instructionID.BFM_64, FALLBACK); (instructionID.UBFM_64, FALLBACK);
    (instructionID.EXTR_32, FALLBACK); (instructionID.EXTR_64, FALLBACK) ].
End DPImm.
End JitDPImm.

(** * Data processing, register: [jitDataProcessingReg.cpp] *)

Module JitDPReg.
Section DPReg.
Context `{CoreLayout}.

(** The [switch] on the shift type, on the copy of the second operand. *)
Definition shiftOperand (shiftType : SHIFT_TYPE) (temp2 : GpRegister) (amount : Z) : J unit :=
  match shiftType with
  | LSL => ins Shl [H temp2; I amount]
  | LSR => ins Shr [H temp2; I amount]
  | ASR | ROR => mret tt
  end.

Definition logicalShiftedRegGeneric (is64 negate updatesFlags : bool) : jitfptr_t := fun inst =>
  let shiftType := toShiftType (Inst.shift inst) in
  operand1 ← loadGpRegisterRead (coreGPRegs (Inst.Rn inst));
  operand2 ← loadGpRegisterRead (coreGPRegs (Inst.Rm inst));
  temp1 ← allocGpTempCopy operand1;
  temp2 ← allocGpTempCopy operand2;
  (if Inst._10_15 inst !=? 0 then shiftOperand shiftType temp2 (Inst._10_15 inst) else mret tt);;
  (if negate then ins Neg [H temp2] else mret tt);;
  (let op := bitRange 29 30 inst in
   if (op =? 0) || (op =? 3) then ins And [H temp1; H temp2]
   else if op =? 1 then ins Or [H temp1; H temp2]
   else if op =? 2 then ins Xor [H temp1; H temp2]
   else mret tt);;
  result ← loadGpRegisterWrite (coreGPRegs (Inst.Rd inst));
  (if is64 then ins Mov [H result; H temp1] else ins Mov [H32 result; H32 temp1]);;
  (if updatesFlags then
     ins Test [H temp1; H temp1];;
     ins Sete [M coreZflagMem];;
     ins Shr [H temp1; I (if is64 then 63 else 31)];;
     ins And [H temp1; I 1];;
     ins Mov [M coreNflagMem; H8 temp1];;
     ins Mov [M coreCflagMem; I 0];;
     ins Mov [M coreVflagMem; I 0]
   else mret tt);;
  release result;; release temp2;; release temp1;; release operand2;; release operand1.

Definition and32Shifted : jitfptr_t := logicalShiftedRegGeneric false false false.
Definition bic32Shifted : jitfptr_t := logicalShiftedRegGeneric false true false.
Definition orr32Shifted : jitfptr_t := logicalShiftedRegGeneric false false false.
Definition orn32Shifted : jitfptr_t := logicalShiftedRegGeneric false true false.
Definition eor32Shifted : jitfptr_t := logicalShiftedRegGeneric false false false.
Definition eon32Shifted : jitfptr_t := logicalShiftedRegGeneric false true false.
Definition ands32Shifted : jitfptr_t := logicalShiftedRegGeneric false false true.
Definition bics32Shifted : jitfptr_t := logicalShiftedRegGeneric false true true.
Definition and64Shifted : jitfptr_t := logicalShiftedRegGeneric true false false.
Definition bic64Shifted : jitfptr_t := logicalShiftedRegGeneric true true false.
Definition orr64Shifted : jitfptr_t := logicalShiftedRegGeneric true false false.
Definition orn64Shifted : jitfptr_t := logicalShiftedRegGeneric true true false.
Definition eor64Shifted : jitfptr_t := logicalShiftedRegGeneric true false false.
Definition eon64Shifted : jitfptr_t := logicalShiftedRegGeneric true true false.
Definition ands64Shifted : jitfptr_t := logicalShiftedRegGeneric true false true.
Definition bics64Shifted : jitfptr_t := logicalShiftedRegGeneric true true true.

(** The flags of [addSubShiftedRegGeneric], in its last block. *)
Definition addSubShiftedFlags (is64 : bool) (temp temp1 temp2 : GpRegister) : J unit :=
  let msb := if is64 then 63 else 31 in
  ins Test [H temp; H temp];;
  ins Sete [M coreZflagMem];;
  ins Shr [H temp; I msb];;
  ins Shr [H temp1; I msb];;
  ins Shr [H temp2; I msb];;
  ins And [H temp; I 1];;
  ins And [H temp1; I 1];;
  ins And [H temp2; I 1];;
  ins Mov [M coreNflagMem; H8 temp];;
  scratch ← allocGpTemp 8;
  ins Mov [H scratch; H temp];;
  ins Add [H scratch; H temp1];;
  ins Add [H scratch; H temp2];;
  ins Cmp [H scratch; I 2];;
  ins Setge [M coreCflagMem];;
  ins Cmp [H temp1; H temp2];;
  ins Sete [H scratch];;
  ins Xor [H temp1; H temp];;
  ins And [H scratch; H temp1];;
  ins Mov [M coreVflagMem; H8 scratch];;
  release scratch.

Definition addSubShiftedRegGeneric (is64 isSub updatesFlags : bool) : jitfptr_t := fun inst =>
  let shiftType := toShiftType (Inst.shift inst) in
  operand1 ← loadGpRegisterRead (coreGPRegs (Inst.Rn inst));
  operand2 ← loadGpRegisterRead (coreGPRegs (Inst.Rm inst));
  temp1 ← allocGpTempCopy operand1;
  temp2 ← allocGpTempCopy operand2;
  shiftOperand shiftType temp2 (Inst._10_15 inst);;
  (if isSub then ins Neg [H temp2];; ins Inc [H temp2] else mret tt);;
  temp ← allocGpTemp 8;
  result ← loadGpRegisterWrite (coreGPRegs (Inst.Rd inst));
  (if is64 then
     ins Mov [H temp; H temp1];;
     ins Add [H temp; H temp2];;
     ins Mov [H result; H temp]
   else
     ins Mov [H32 temp; H32 temp1];;
     ins Add [H32 temp; H32 temp2];;
     ins Mov [H32 result; H32 temp]);;
  (if updatesFlags then addSubShiftedFlags is64 temp temp1 temp2 else mret tt);;
  release result;; release temp;; release temp2;; release temp1;; release operand2;;
  release operand1.

Definition add32Shifted : jitfptr_t := addSubShiftedRegGeneric false false false.
Definition adds32Shifted : jitfptr_t := addSubShiftedRegGeneric false false true.
Definition sub32Shifted : jitfptr_t := addSubShiftedRegGeneric false true false.
Definition subs32Shifted : jitfptr_t := addSubShiftedRegGeneric false true true.
Definition add64Shifted : jitfptr_t := addSubShiftedRegGeneric true false false.
Definition adds64Shifted : jitfptr_t := addSubShiftedRegGeneric true false true.
Definition sub64Shifted : jitfptr_t := addSubShiftedRegGeneric true true false.
Definition subs64Shifted : jitfptr_t := addSubShiftedRegGeneric true true true.

Definition registerDPRegInstructions : list (instructionID.t * jitfptr_t) :=
  [ (instructionID.UDIV_32, FALLBACK); (instructionID.SDIV_32, FALLBACK);
    (instructionID.LSLV_32, FALLBACK); (instructionID.LSRV_32, FALLBACK);
    (instructionID.ASRV_32, FALLBACK); (instructionID.RORV_32, FALLBACK);
    (instructionID.UDIV_64, FALLBACK); (instructionID.SDIV_64, FALLBACK);
    (instructionID.LSLV_64, FALLBACK); (instructionID.LSRV_64, FALLBACK);
    (instructionID.ASRV_64, FALLBACK); (instructionID.RORV_64, FALLBACK);
    (instructionID.CRC32B, FALLBACK); (instructionID.CRC32H, FALLBACK);
    (instructionID.CRC32W, FALLBACK); (instructionID.CRC32X, FALLBACK);
    (instructionID.CRC32CB, FALLBACK); (instructionID.CRC32CH, FALLBACK);
    (instructionID.CRC32CW, FALLBACK); (instructionID.CRC32CX, FALLBACK);
    (instructionID.RBIT_32, FALLBACK); (instructionID.REV16_32, FALLBACK);
    (instructionID.REV_32, FALLBACK); (instructionID.CLZ_32, FALLBACK);
    (instructionID.CLS_32, FALLBACK); (instructionID.RBIT_64, FALLBACK);
    (instructionID.REV16_64, FALLBACK); (instructionID.REV32_64, FALLBACK);
    (instructionID.REV_64, FALLBACK); (instructionID.CLZ_64, FALLBACK);
    (instructionID.CLS_64, FALLBACK); (instructionID.AND_32_shifted, FALLBACK);
    (instructionID.BIC_32_shifted, FALLBACK); (instructionID.ORR_32_shifted, orr32Shifted);
    (instructionID.ORN_32_shifted, FALLBACK); (instructionID.EOR_32_shifted, FALLBACK);
    (instructionID.EON_32_shifted, FALLBACK); (instructionID.ANDS_32_shifted, FALLBACK);
    (instructionID.BICS_32_shifted, FALLBACK); (instructionID.AND_64_shifted, FALLBACK);
    (instructionID.BIC_64_shifted, FALLBACK); (instructionID.ORR_64_shifted, FALLBACK);
    (instructionID.ORN_64_shifted, FALLBACK); (instructionID.EOR_64_shifted, FALLBACK);
    (instructionID.EON_64_shifted, FALLBACK); (instructionID.ANDS_64_shifted, FALLBACK);
    (instructionID.BICS_64_shifted, FALLBACK); (instructionID.ADD_32_shifted, add32Shifted);
    (instructionID.ADDS_32_shifted, FALLBACK); (instructionID.SUB_32_shifted, FALLBACK);
    (instructionID.SUBS_32_shifted, FALLBACK); (instructionID.ADD_64_shifted, FALLBACK);
    (instructionID.ADDS_64_shifted, FALLBACK); (instructionID.SUB_64_shifted, FALLBACK);
    (instructionID.SUBS_64_shifted, FALLBACK); (instructionID.ADD_32_extended, FALLBACK);
    (instructionID.ADDS_32_extended, FALLBACK); (instructionID.SUB_32_extended, FALLBACK);
    (instructionID.SUBS_32_extended, FALLBACK); (instructionID.ADD_64_extended, FALLBACK);
    (instructionID.ADDS_64_extended, FALLBACK); (instructionID.SUB_64_extended, FALLBACK);
    (instructionID.SUBS_64_extended, FALLBACK); (instructionID.ADC_32, FALLBACK);
    (instructionID.ADCS_32, FALLBACK); (instructionID.SBC_32, FALLBACK);
    (instructionID.SBCS_32, FALLBACK); (instructionID.ADC_64, FALLBACK);
    (instructionID.ADCS_64, FALLBACK); (instructionID.SBC_64, FALLBACK);
    (instructionID.SBCS_64, FALLBACK); (instructionID.CCMN_32_reg, FALLBACK);
    (instructionID.CCMP_32_reg, FALLBACK); (instructionID.CCMN_64_reg, FALLBACK);
    (instructionID.CCMP_64_reg, FALLBACK); (instructionID.CCMN_32_imm, FALLBACK);
    (instructionID.CCMP_32_imm, FALLBACK); (instructionID.CCMN_64_imm, FALLBACK);
    (instructionID.CCMP_64_imm, FALLBACK); (instructionID.CSEL_32, FALLBACK);
    (instructionID.CSINC_32, FALLBACK); (instructionID.CSINV_32, FALLBACK);
    (instructionID.CSNEG_32, FALLBACK); (instructionID.CSEL_64, FALLBACK);
    (instructionID.CSINC_64, FALLBACK); (instructionID.CSINV_64, FALLBACK);
    (instructionID.CSNEG_64, FALLBACK); (instructionID.MADD_32, FALLBACK);
    (instructionID.MSUB_32, FALLBACK); (instructionID.MADD_64, FALLBACK);
    (instructionID.MSUB_64, FALLBACK); (instructionID.SMADDL, FALLBACK);
    (instructionID.SMSUBL, FALLBACK); (instructionID.SMULH, FALLBACK);
    (instructionID.UMADDL, FALLBACK); (instructionID.UMSUBL, FALLBACK);
    (instructionID.UMULH, FALLBACK) ].
End DPReg.
End JitDPReg.

(** * Floating point: [jitFloat.cpp] *)

Module JitFloat.
Section Float.
Context `{CoreLayout}.

Definition registerFloatInstructions : list (instructionID.t * jitfptr_t) :=
  [ (instructionID.SCVTF_32_single_fixed, FALLBACK);
    (instructionID.UCVTF_32_single_fixed, FALLBACK);
    (instructionID.FCVTZS_single_32_fixed, FALLBACK);
    (instructionID.FCVTZU_single_32_fixed, FALLBACK);
    (instructionID.SCVTF_32_double_fixed, FALLBACK);
    (instructionID.UCVTF_32_double_fixed, FALLBACK);
    (instructionID.FCVTZS_double_32_fixed, FALLBACK);
    (instructionID.FCVTZU_double_32_fixed, FALLBACK);
    (instructionID.SCVTF_64_single_fixed, FALLBACK);
    (instructionID.UCVTF_64_single_fixed, FALLBACK);
    (instructionID.FCVTZS_single_64_fixed, FALLBACK);
    (instructionID.FCVTZU_single_64_fixed, FALLBACK);
    (instructionID.SCVTF_64_double_fixed, FALLBACK);
    (instructionID.UCVTF_64_double_fixed, FALLBACK);
    (instructionID.FCVTZS_double_64_fixed, FALLBACK);
    (instructionID.FCVTZU_double_64_fixed, FALLBACK);
    (instructionID.FCVTNS_single_32_int, FALLBACK);
    (instructionID.FCVTNU_single_32_int, FALLBACK);
    (instructionID.SCVTF_32_single_int, FALLBACK);
    (instructionID.UCVTF_32_single_int, FALLBACK);
    (instructionID.FCVTAS_single_32_int, FALLBACK);
    (instructionID.FCVTAU_single_32_int, FALLBACK); (instructionID.FMOV_single_32, FALLBACK);
    (instructionID.FMOV_32_single, FALLBACK); (instructionID.FCVTPS_single_32_int, FALLBACK);
    (instructionID.FCVTPU_single_32_int, FALLBACK);
    (instructionID.FCVTMS_single_32_int, FALLBACK);
    (instructionID.FCVTMU_single_32_int, FALLBACK);
    (instructionID.FCVTZS_single_32_int, FALLBACK);
    (instructionID.FCVTZU_single_32_int, FALLBACK);
    (instructionID.FCVTNS_double_32_int, FALLBACK);
    (instructionID.FCVTNU_double_32_int, FALLBACK);
    (instructionID.SCVTF_32_double_int, FALLBACK);
    (instructionID.UCVTF_32_double_int, FALLBACK);
    (instructionID.FCVTAS_double_32_int, FALLBACK);
    (instructionID.FCVTAU_double_32_int, FALLBACK);
    (instructionID.FCVTPS_double_32_int, FALLBACK);
    (instructionID.FCVTPU_double_32_int, FALLBACK);
    (instructionID.FCVTMS_double_32_int, FALLBACK);
    (instructionID.FCVTMU_double_32_int, FALLBACK);
    (instructionID.FCVTZS_double_32_int, FALLBACK);
    (instructionID.FCVTZU_double_32_int, FALLBACK);
    (instructionID.FCVTNS_single_64_int, FALLBACK);
    (instructionID.FCVTNU_single_64_int, FALLBACK);
    (instructionID.SCVTF_64_single_int, FALLBACK);
    (instructionID.UCVTF_64_single_int, FALLBACK);
    (instructionID.FCVTAS_single_64_int, FALLBACK);
    (instructionID.FCVTAU_single_64_int, FALLBACK);
    (instructionID.FCVTPS_single_64_int, FALLBACK);
    (instructionID.FCVTPU_single_64_int, FALLBACK);
    (instructionID.FCVTMS_single_64_int, FALLBACK);
    (instructionID.FCVTMU_single_64_int, FALLBACK);
    (instructionID.FCVTZS_single_64_int, FALLBACK);
    (instructionID.FCVTZU_single_64_int, FALLBACK);
    (instructionID.FCVTNS_double_64_int, FALLBACK);
    (instructionID.FCVTNU_double_64_int, FALLBACK);
    (instructionID.SCVTF_64_double_int, FALLBACK);
    (instructionID.UCVTF_64_double_int, FALLBACK);
    (instructionID.FCVTAS_double_64_int, FALLBACK);
    (instructionID.FCVTAU_double_64_int, FALLBACK); (instructionID.FMOV_double_64, FALLBACK);
    (instructionID.FMOV_64_double, FALLBACK); (instructionID.FCVTPS_double_64_int, FALLBACK);
    (instructionID.FCVTPU_double_64_int, FALLBACK);
    (instructionID.FCVTMS_double_64_int, FALLBACK);
    (instructionID.FCVTMU_double_64_int, FALLBACK);
    (instructionID.FCVTZS_double_64_int, FALLBACK);
    (instructionID.FCVTZU_double_64_int, FALLBACK); (instructionID.FMOV_top128_64, FALLBACK);
    (instructionID.FMOV_64_top128, FALLBACK); (instructionID.FMOV_reg_single, FALLBACK);
    (instructionID.FABS_single, FALLBACK); (instructionID.FNEG_single, FALLBACK);
    (instructionID.FSQRT_single, FALLBACK); (instructionID.FCVT_single_double, FALLBACK);
    (instructionID.FCVT_single_half, FALLBACK); (instructionID.FRINTN_single, FALLBACK);
    (instructionID.FRINTP_single, FALLBACK); (instructionID.FRINTM_single, FALLBACK);
    (instructionID.FRINTZ_single, FALLBACK); (instructionID.FRINTA_single, FALLBACK);
    (instructionID.FRINTX_single, FALLBACK); (instructionID.FRINTI_single, FALLBACK);
    (instructionID.FMOV_reg_double, FALLBACK); (instructionID.FABS_double, FALLBACK);
    (instructionID.FNEG_double, FALLBACK); (instructionID.FSQRT_double, FALLBACK);
    (instructionID.FCVT_double_single, FALLBACK); (instructionID.FCVT_double_half, FALLBACK);
    (instructionID.FRINTN_double, FALLBACK); (instructionID.FRINTP_double, FALLBACK);
    (instructionID.FRINTM_double, FALLBACK); (instructionID.FRINTZ_double, FALLBACK);
    (instructionID.FRINTA_double, FALLBACK); (instructionID.FRINTX_double, FALLBACK);
    (instructionID.FRINTI_double, FALLBACK); (instructionID.FCVT_half_single, FALLBACK);
    (instructionID.FCVT_half_double, FALLBACK); (instructionID.FCMP_single, FALLBACK);
    (instructionID.FCMP_single_zero, FALLBACK); (instructionID.FCMPE_single, FALLBACK);
    (instructionID.FCMPE_single_zero, FALLBACK); (instructionID.FCMP_double, FALLBACK);
    (instructionID.FCMP_double_zero, FALLBACK); (instructionID.FCMPE_double, FALLBACK);
    (instructionID.FCMPE_double_zero, FALLBACK); (instructionID.FMOV_imm_single, FALLBACK);
    (instructionID.FMOV_imm_double, FALLBACK); (instructionID.FCCMP_single, FALLBACK);
    (instructionID.FCCMPE_single, FALLBACK); (instructionID.FCCMP_double, FALLBACK);
    (instructionID.FCCMPE_double, FALLBACK); (instructionID.FMUL_single, FALLBACK);
    (instructionID.FDIV_single, FALLBACK); (instructionID.FADD_single, FALLBACK);
    (instructionID.FSUB_single, FALLBACK); (instructionID.FMAX_single, FALLBACK);
    (instructionID.FMIN_single, FALLBACK); (instructionID.FMAXNM_single, FALLBACK);
    (instructionID.FMINNM_single, FALLBACK); (instructionID.FNMUL_single, FALLBACK);
    (instructionID.FMUL_double, FALLBACK); (instructionID.FDIV_double, FALLBACK);
    (instructionID.FADD_double, FALLBACK); (instructionID.FSUB_double, FALLBACK);
    (instructionID.FMAX_double, FALLBACK); (instructionID.FMIN_double, FALLBACK);
    (instructionID.FMAXNM_double, FALLBACK); (instructionID.FMINNM_double, FALLBACK);
    (instructionID.FNMUL_double, FALLBACK); (instructionID.FCSEL_single, FALLBACK);
    (instructionID.FCSEL_double, FALLBACK); (instructionID.FMADD_single, FALLBACK);
    (instructionID.FMSUB_single, FALLBACK); (instructionID.FNMADD_single, FALLBACK);
    (instructionID.FNMSUB_single, FALLBACK); (instructionID.FMADD_double, FALLBACK);
    (instructionID.FMSUB_double, FALLBACK); (instructionID.FNMADD_double, FALLBACK);
    (instructionID.FNMSUB_double, FALLBACK) ].
End Float.
End JitFloat.

(** * Loads and stores: [jitLoadStore.cpp] *)

Module JitLoadStore.
Section LoadStore.
Context `{CoreLayout}.

(** [enum StoreFlags], [enum LoadFlags] *)
Definition StoreWriteBack : Z := Z.shiftl 1 0.
Definition StoreImmSigned : Z := Z.shiftl 1 1.
Definition StorePostIndex : Z := Z.shiftl 1 2.
Definition StoreFloat : Z := Z.shiftl 1 3.
Definition Store128BitFloat : Z := Z.shiftl 1 4.
Definition StoreRelease : Z := Z.shiftl 1 5.
Definition LoadWriteBack : Z := Z.shiftl 1 0.
Definition LoadImmSigned : Z := Z.shiftl 1 1.
Definition LoadPostIndex : Z := Z.shiftl 1 2.
Definition LoadExtendResult : Z := Z.shiftl 1 3.
Definition LoadExtendTo64 : Z := Z.shiftl 1 4.
Definition LoadFloat : Z := Z.shiftl 1 5.
Definition Load128BitFloat : Z := Z.shiftl 1 6.
Definition LoadAcquire : Z := Z.shiftl 1 7.

Definition raxReg : X86Gp := mkGp Gp.rax 8.

(** The immediate of the [RegImm] templates and of the [Pair] templates. *)
Definition regImmOffset (immSigned : bool) (n inst : Z) : Z :=
  if immSigned then signExtend 9 (bitRange 12 20 inst)
  else u64 (Z.shiftl (bitRange 10 21 inst) (constLog2 n)).
Definition pairOffset (n inst : Z) : Z :=
  u64 (Z.shiftl (signExtend 7 (Inst._15_21 inst)) (constLog2 n)).

(** [bitmask<(1 << numBits) * 8, uint64_t>()] *)
Definition dataMask (n : Z) : Z := bitmask (Z.shiftl 1 (constLog2 n) * 8).

(** The base address into the first argument register. *)
Definition movBase (inst : Z) : J unit :=
  if Inst.Rn inst =? 31 then movFromLoaded (R argReg0) (loadGpRegisterRead coreSPMem)
  else movFromLoaded (R argReg0) (loadGpRegisterRead (coreGPRegs (Inst.Rn inst))).

(** The last block of each template. *)
Definition writeBackAddr (writeBack postIndex : bool) (inst imm : Z) (addrReg : GpRegister)
    : J unit :=
  if writeBack then
    (if postIndex then ins Add [H addrReg; I imm] else mret tt);;
    (if Inst.Rn inst =? 31 then movToLoaded (loadGpRegisterWrite coreSPMem) (H addrReg)
     else movToLoaded (loadGpRegisterWrite (coreGPRegs (Inst.Rn inst))) (H addrReg))
  else mret tt.

Definition storeRegImmGeneric (n flags : Z) : jitfptr_t := fun inst =>
  if has flags StoreWriteBack && (Inst.Rt inst =? Inst.Rn inst) && (Inst.Rn inst !=? 31)
  then mret tt
  else
    let imm := regImmOffset (has flags StoreImmSigned) n inst in
    movBase inst;;
    (if negb (has flags StorePostIndex) then ins Add [R argReg0; I imm] else mret tt);;
    (if has flags StoreFloat
     then movFromLoaded (R argReg1) (loadGpRegisterRead (coreVRegs (Inst.Rt inst) 0))
     else movFromLoaded (R argReg1) (loadGpRegisterRead (coreGPRegs (Inst.Rt inst))));;
    ins And [R argReg1; I (dataMask n)];;
    addrReg ← allocGpTemp 8;
    ins Mov [H addrReg; R argReg0];;
    ins Call [P (memWriteFn n)];;
    (if has flags Store128BitFloat then
       movFromLoaded (R argReg1) (loadGpRegisterRead (coreVRegs (Inst.Rt inst) 1));;
       ins Mov [R argReg0; H addrReg];;
       ins Add [R argReg0; I 8];;
       ins Call [P (memWriteFn n)]
     else mret tt);;
    writeBackAddr (has flags StoreWriteBack) (has flags StorePostIndex) inst imm addrReg;;
    release addrReg.

Definition strbImm : jitfptr_t := storeRegImmGeneric 1 0.
Definition strhImm : jitfptr_t := storeRegImmGeneric 2 0.
Definition str32Imm : jitfptr_t := storeRegImmGeneric 4 0.
Definition str64Imm : jitfptr_t := storeRegImmGeneric 8 0.
Definition str8ImmFloat : jitfptr_t := storeRegImmGeneric 1 StoreFloat.
Definition str16ImmFloat : jitfptr_t := storeRegImmGeneric 2 StoreFloat.
Definition str32ImmFloat : jitfptr_t := storeRegImmGeneric 4 StoreFloat.
Definition str64ImmFloat : jitfptr_t := storeRegImmGeneric 8 StoreFloat.
Definition str128Imm : jitfptr_t := storeRegImmGeneric 8 (Z.lor StoreFloat Store128BitFloat).
Definition strbPost : jitfptr_t := storeRegImmGeneric 1 (Z.lor StoreWriteBack StorePostIndex).
Definition strhPost : jitfptr_t := storeRegImmGeneric 2 (Z.lor StoreWriteBack StorePostIndex).
Definition str32Post : jitfptr_t := storeRegImmGeneric 4 (Z.lor StoreWriteBack StorePostIndex).
Definition str64Post : jitfptr_t := storeRegImmGeneric 8 (Z.lor StoreWriteBack StorePostIndex).
Definition str8PostFloat : jitfptr_t :=
  storeRegImmGeneric 1 (Z.lor (Z.lor StoreWriteBack StorePostIndex) StoreFloat).
Definition str16PostFloat : jitfptr_t :=
  storeRegImmGeneric 2 (Z.lor (Z.lor StoreWriteBack StorePostIndex) StoreFloat).
Definition str32PostFloat : jitfptr_t :=
  storeRegImmGeneric 4 (Z.lor (Z.lor StoreWriteBack StorePostIndex) StoreFloat).
Definition str64PostFloat : jitfptr_t :=
  storeRegImmGeneric 8 (Z.lor (Z.lor StoreWriteBack StorePostIndex) StoreFloat).
Definition str128Post : jitfptr_t :=
  storeRegImmGeneric 8 (Z.lor (Z.lor (Z.lor StoreWriteBack StorePostIndex) StoreFloat) Store128BitFloat).
Definition strbPre : jitfptr_t := storeRegImmGeneric 1 StoreWriteBack.
Definition strhPre : jitfptr_t := storeRegImmGeneric 2 StoreWriteBack.
Definition str32Pre : jitfptr_t := storeRegImmGeneric 4 StoreWriteBack.
Definition str64Pre : jitfptr_t := storeRegImmGeneric 8 StoreWriteBack.
Definition str8PreFloat : jitfptr_t := storeRegImmGeneric 1 (Z.lor StoreWriteBack StoreFloat).
Definition str16PreFloat : jitfptr_t := storeRegImmGeneric 2 (Z.lor StoreWriteBack StoreFloat).
Definition str32PreFloat : jitfptr_t := storeRegImmGeneric 4 (Z.lor StoreWriteBack StoreFloat).
Definition str64PreFloat : jitfptr_t := storeRegImmGeneric 8 (Z.lor StoreWriteBack StoreFloat).
Definition str128Pre : jitfptr_t :=
  storeRegImmGeneric 8 (Z.lor (Z.lor StoreWriteBack StoreFloat) Store128BitFloat).
Definition sturb : jitfptr_t := storeRegImmGeneric 1 StoreImmSigned.
Definition sturh : jitfptr_t := storeRegImmGeneric 2 StoreImmSigned.
Definition stur32 : jitfptr_t := storeRegImmGeneric 4 StoreImmSigned.
Definition stur64 : jitfptr_t := storeRegImmGeneric 8 StoreImmSigned.
Definition stur8Float : jitfptr_t := storeRegImmGeneric 1 (Z.lor StoreImmSigned StoreFloat).
Definition stur16Float : jitfptr_t := storeRegImmGeneric 2 (Z.lor StoreImmSigned StoreFloat).
Definition stur32Float : jitfptr_t := storeRegImmGeneric 4 (Z.lor StoreImmSigned StoreFloat).
Definition stur64Float : jitfptr_t := storeRegImmGeneric 8 (Z.lor StoreImmSigned StoreFloat).
Definition stur128 : jitfptr_t :=
  storeRegImmGeneric 8 (Z.lor (Z.lor StoreImmSigned StoreFloat) Store128BitFloat).

Definition loadRegImmGeneric (n flags : Z) : jitfptr_t := fun inst =>
  if has flags LoadWriteBack && (Inst.Rt inst =? Inst.Rn inst) && (Inst.Rn inst !=? 31)
  then mret tt
  else
    let imm := regImmOffset (has flags LoadImmSigned) n inst in
    movBase inst;;
    (if negb (has flags LoadPostIndex) then ins Add [R argReg0; I imm] else mret tt);;
    addrReg ← allocGpTemp 8;
    ins Mov [H addrReg; R argReg0];;
    ins Call [P (memReadFn n)];;
    (if has flags LoadExtendResult then
       ins Mov [R argReg0; R raxReg];;
       ins Call [P (signExtendFn (Z.shiftl 1 (constLog2 n) * 8))];;
       (if negb (has flags LoadExtendTo64) then ins And [R raxReg; I (bitmask 32)] else mret tt)
     else mret tt);;
    (if has flags LoadFloat then
       movToLoaded (loadGpRegisterWrite (coreVRegs (Inst.Rt inst) 0)) (R raxReg);;
       (if has flags Load128BitFloat then
          ins Mov [R argReg0; H addrReg];;
          ins Add [R argReg0; I 8];;
          ins Call [P (memReadFn n)];;
          movToLoaded (loadGpRegisterWrite (coreVRegs (Inst.Rt inst) 1)) (R raxReg)
        else mret tt)
     else movToLoaded (loadGpRegisterWrite (coreGPRegs (Inst.Rt inst))) (R raxReg));;
    writeBackAddr (has flags LoadWriteBack) (has flags LoadPostIndex) inst imm addrReg;;
    release addrReg.

Definition ldrbImm : jitfptr_t := loadRegImmGeneric 1 0.
Definition ldrsb32Imm : jitfptr_t := loadRegImmGeneric 1 LoadExtendResult.
Definition ldrsb64Imm : jitfptr_t :=
  loadRegImmGeneric 1 (Z.lor LoadExtendResult LoadExtendTo64).
Definition ldrhImm : jitfptr_t := loadRegImmGeneric 2 0.
Definition ldrsh32Imm : jitfptr_t := loadRegImmGeneric 2 LoadExtendResult.
Definition ldrsh64Imm : jitfptr_t :=
  loadRegImmGeneric 2 (Z.lor LoadExtendResult LoadExtendTo64).
Definition ldr32Imm : jitfptr_t := loadRegImmGeneric 4 0.
Definition ldrswImm : jitfptr_t := loadRegImmGeneric 4 (Z.lor LoadExtendResult LoadExtendTo64).
Definition ldr64Imm : jitfptr_t := loadRegImmGeneric 8 0.
Definition ldr8ImmFloat : jitfptr_t := loadRegImmGeneric 1 LoadFloat.
Definition ldr16ImmFloat : jitfptr_t := loadRegImmGeneric 2 LoadFloat.
Definition ldr32ImmFloat : jitfptr_t := loadRegImmGeneric 4 LoadFloat.
Definition ldr64ImmFloat : jitfptr_t := loadRegImmGeneric 8 LoadFloat.
Definition ldr128Imm : jitfptr_t := loadRegImmGeneric 1 (Z.lor LoadFloat Load128BitFloat).
Definition ldrbPost : jitfptr_t := loadRegImmGeneric 1 (Z.lor LoadWriteBack LoadPostIndex).
Definition ldrsb32Post : jitfptr_t :=
  loadRegImmGeneric 1 (Z.lor (Z.lor LoadWriteBack LoadPostIndex) LoadExtendResult).
Definition ldrsb64Post : jitfptr_t :=
  loadRegImmGeneric 1 (Z.lor (Z.lor (Z.lor LoadWriteBack LoadPostIndex) LoadExtendResult) LoadExtendTo64).
Definition ldrhPost : jitfptr_t := loadRegImmGeneric 2 (Z.lor LoadWriteBack LoadPostIndex).
Definition ldrsh32Post : jitfptr_t :=
  loadRegImmGeneric 2 (Z.lor (Z.lor LoadWriteBack LoadPostIndex) LoadExtendResult).
Definition ldrsh64Post : jitfptr_t :=
  loadRegImmGeneric 2 (Z.lor (Z.lor (Z.lor LoadWriteBack LoadPostIndex) LoadExtendResult) LoadExtendTo64).
Definition ldr32Post : jitfptr_t := loadRegImmGeneric 4 (Z.lor LoadWriteBack LoadPostIndex).
Definition ldrswPost : jitfptr_t :=
  loadRegImmGeneric 4 (Z.lor (Z.lor (Z.lor LoadWriteBack LoadPostIndex) LoadExtendResult) LoadExtendTo64).
Definition ldr64Post : jitfptr_t := loadRegImmGeneric 8 (Z.lor LoadWriteBack LoadPostIndex).
Definition ldr8PostFloat : jitfptr_t :=
  loadRegImmGeneric 1 (Z.lor (Z.lor LoadWriteBack LoadPostIndex) LoadFloat).
Definition ldr16PostFloat : jitfptr_t :=
  loadRegImmGeneric 2 (Z.lor (Z.lor LoadWriteBack LoadPostIndex) LoadFloat).
Definition ldr32PostFloat : jitfptr_t :=
  loadRegImmGeneric 4 (Z.lor (Z.lor LoadWriteBack LoadPostIndex) LoadFloat).
Definition ldr64PostFloat : jitfptr_t :=
  loadRegImmGeneric 8 (Z.lor (Z.lor LoadWriteBack LoadPostIndex) LoadFloat).
Definition ldr128Post : jitfptr_t :=
  loadRegImmGeneric 1 (Z.lor (Z.lor (Z.lor LoadWriteBack LoadPostIndex) LoadFloat) Load128BitFloat).
Definition ldrbPre : jitfptr_t := loadRegImmGeneric 1 LoadWriteBack.
Definition ldrsb32Pre : jitfptr_t :=
  loadRegImmGeneric 1 (Z.lor LoadWriteBack LoadExtendResult).
Definition ldrsb64Pre : jitfptr_t :=
  loadRegImmGeneric 1 (Z.lor (Z.lor LoadWriteBack LoadExtendResult) LoadExtendTo64).
Definition ldrhPre : jitfptr_t := loadRegImmGeneric 2 LoadWriteBack.
Definition ldrsh32Pre : jitfptr_t :=
  loadRegImmGeneric 2 (Z.lor LoadWriteBack LoadExtendResult).
Definition ldrsh64Pre : jitfptr_t :=
  loadRegImmGeneric 2 (Z.lor (Z.lor LoadWriteBack LoadExtendResult) LoadExtendTo64).
Definition ldr32Pre : jitfptr_t := loadRegImmGeneric 4 LoadWriteBack.
Definition ldrswPre : jitfptr_t :=
  loadRegImmGeneric 4 (Z.lor (Z.lor LoadWriteBack LoadExtendResult) LoadExtendTo64).
Definition ldr64Pre : jitfptr_t := loadRegImmGeneric 8 LoadWriteBack.
Definition ldr8PreFloat : jitfptr_t := loadRegImmGeneric 1 (Z.lor LoadWriteBack LoadFloat).
Definition ldr16PreFloat : jitfptr_t := loadRegImmGeneric 2 (Z.lor LoadWriteBack LoadFloat).
Definition ldr32PreFloat : jitfptr_t := loadRegImmGeneric 4 (Z.lor LoadWriteBack LoadFloat).
Definition ldr64PreFloat : jitfptr_t := loadRegImmGeneric 8 (Z.lor LoadWriteBack LoadFloat).
Definition ldr128Pre : jitfptr_t :=
  loadRegImmGeneric 1 (Z.lor (Z.lor LoadWriteBack LoadFloat) Load128BitFloat).
Definition ldurb : jitfptr_t := loadRegImmGeneric 1 LoadImmSigned.
Definition ldursb32 : jitfptr_t := loadRegImmGeneric 1 (Z.lor LoadImmSigned LoadExtendResult).
Definition ldursb64 : jitfptr_t :=
  loadRegImmGeneric 1 (Z.lor (Z.lor LoadImmSigned LoadExtendResult) LoadExtendTo64).
Definition ldurh : jitfptr_t := loadRegImmGeneric 2 LoadImmSigned.
Definition ldursh32 : jitfptr_t := loadRegImmGeneric 2 (Z.lor LoadImmSigned LoadExtendResult).
Definition ldursh64 : jitfptr_t :=
  loadRegImmGeneric 2 (Z.lor (Z.lor LoadImmSigned LoadExtendResult) LoadExtendTo64).
Definition ldur32 : jitfptr_t := loadRegImmGeneric 4 LoadImmSigned.
Definition ldursw : jitfptr_t :=
  loadRegImmGeneric 4 (Z.lor (Z.lor LoadImmSigned LoadExtendResult) LoadExtendTo64).
Definition ldur64 : jitfptr_t := loadRegImmGeneric 8 LoadImmSigned.
Definition ldur8Float : jitfptr_t := loadRegImmGeneric 1 (Z.lor LoadImmSigned LoadFloat).
Definition ldur16Float : jitfptr_t := loadRegImmGeneric 2 (Z.lor LoadImmSigned LoadFloat).
Definition ldur32Float : jitfptr_t := loadRegImmGeneric 4 (Z.lor LoadImmSigned LoadFloat).
Definition ldur64Float : jitfptr_t := loadRegImmGeneric 8 (Z.lor LoadImmSigned LoadFloat).
Definition ldur128 : jitfptr_t :=
  loadRegImmGeneric 1 (Z.lor (Z.lor LoadImmSigned LoadFloat) Load128BitFloat).

Definition storePairGeneric (n flags : Z) : jitfptr_t := fun inst =>
  if has flags StoreWriteBack &&
     ((Inst.Rt inst =? Inst.Rn inst) || (Inst.Rt2 inst =? Inst.Rn inst)) &&
     (Inst.Rn inst !=? 31)
  then mret tt
  else
    let imm := pairOffset n inst in
    movBase inst;;
    (if negb (has flags StorePostIndex) then ins Add [R argReg0; I imm] else mret tt);;
    addrReg ← allocGpTemp 8;
    movFromLoaded (R argReg1) (loadGpRegisterRead (coreGPRegs (Inst.Rt inst)));;
    ins And [R argReg1; I (dataMask n)];;
    ins Mov [H addrReg; R argReg0];;
    ins Call [P (memWriteFn n)];;
    ins Mov [R argReg0; H addrReg];;
    ins Add [R argReg0; I n];;
    movFromLoaded (R argReg1) (loadGpRegisterRead (coreGPRegs (Inst.Rt2 inst)));;
    ins And [R argReg1; I (dataMask n)];;
    ins Call [P (memWriteFn n)];;
    writeBackAddr (has flags StoreWriteBack) (has flags StorePostIndex) inst imm addrReg;;
    release addrReg.

Definition stnp32 : jitfptr_t := storePairGeneric 4 0.
Definition stnp64 : jitfptr_t := storePairGeneric 8 0.
Definition stp32Off : jitfptr_t := storePairGeneric 4 0.
Definition stp64Off : jitfptr_t := storePairGeneric 8 0.
Definition stp32Post : jitfptr_t := storePairGeneric 4 (Z.lor StoreWriteBack StorePostIndex).
Definition stp64Post : jitfptr_t := storePairGeneric 8 (Z.lor StoreWriteBack StorePostIndex).
Definition stp32Pre : jitfptr_t := storePairGeneric 4 StoreWriteBack.
Definition stp64Pre : jitfptr_t := storePairGeneric 8 StoreWriteBack.

Definition loadPairGeneric (n flags : Z) : jitfptr_t := fun inst =>
  if has flags StoreWriteBack &&
     ((Inst.Rt inst =? Inst.Rn inst) || (Inst.Rt2 inst =? Inst.Rn inst)) &&
     (Inst.Rn inst !=? 31)
  then mret tt
  else if Inst.Rt inst =? Inst.Rt2 inst then mret tt
  else
    let imm := pairOffset n inst in
    movBase inst;;
    (if negb (has flags LoadPostIndex) then ins Add [R argReg0; I imm] else mret tt);;
    addrReg ← allocGpTemp 8;
    ins Mov [H addrReg; R argReg0];;
    ins Call [P (memReadFn n)];;
    movToLoaded (loadGpRegisterWrite (coreGPRegs (Inst.Rt inst))) (R raxReg);;
    ins Mov [R argReg0; H addrReg];;
    ins Add [R argReg0; I n];;
    ins Call [P (memReadFn n)];;
    movToLoaded (loadGpRegisterWrite (coreGPRegs (Inst.Rt2 inst))) (R raxReg);;
    writeBackAddr (has flags LoadWriteBack) (has flags LoadPostIndex) inst imm addrReg;;
    release addrReg.

Definition ldnp32 : jitfptr_t := loadPairGeneric 4 0.
Definition ldnp64 : jitfptr_t := loadPairGeneric 8 0.
Definition ldp32Off : jitfptr_t := loadPairGeneric 4 0.
Definition ldp64Off : jitfptr_t := loadPairGeneric 8 0.
Definition ldp32Post : jitfptr_t := loadPairGeneric 4 (Z.lor LoadWriteBack LoadPostIndex).
Definition ldp64Post : jitfptr_t := loadPairGeneric 8 (Z.lor LoadWriteBack LoadPostIndex).
Definition ldp32Pre : jitfptr_t := loadPairGeneric 4 LoadWriteBack.
Definition ldp64Pre : jitfptr_t := loadPairGeneric 8 LoadWriteBack.

Definition registerLoadStoreInstructions : list (instructionID.t * jitfptr_t) :=
  [ (instructionID.STXRB, FALLBACK); (instructionID.STLXRB, FALLBACK);
    (instructionID.LDXRB, FALLBACK); (instructionID.LDAXRB, FALLBACK);
    (instructionID.STLRB, FALLBACK); (instructionID.LDARB, FALLBACK);
    (instructionID.STXRH, FALLBACK); (instructionID.STLXRH, FALLBACK);
    (instructionID.LDXRH, FALLBACK); (instructionID.LDAXRH, FALLBACK);
    (instructionID.STLRH, FALLBACK); (instructionID.LDARH, FALLBACK);
    (instructionID.STXR32, FALLBACK); (instructionID.STLXR32, FALLBACK);
    (instructionID.STXP32, FALLBACK); (instructionID.STLXP32, FALLBACK);
    (instructionID.LDXR32, FALLBACK); (instructionID.LDAXR32, FALLBACK);
    (instructionID.LDXP32, FALLBACK); (instructionID.LDAXP32, FALLBACK);
    (instructionID.STLR32, FALLBACK); (instructionID.LDAR32, FALLBACK);
    (instructionID.STXR64, FALLBACK); (instructionID.STLXR64, FALLBACK);
    (instructionID.STXP64, FALLBACK); (instructionID.STLXP64, FALLBACK);
    (instructionID.LDXR64, FALLBACK); (instructionID.LDAXR64, FALLBACK);
    (instructionID.LDXP64, FALLBACK); (instructionID.LDAXP64, FALLBACK);
    (instructionID.STLR64, FALLBACK); (instructionID.LDAR64, FALLBACK);
    (instructionID.LDR32_literal, FALLBACK); (instructionID.LDR32_literal_float, FALLBACK);
    (instructionID.LDR64_literal, FALLBACK); (instructionID.LDR64_literal_float, FALLBACK);
    (instructionID.LDRSW_literal, FALLBACK); (instructionID.LDR128_literal, FALLBACK);
    (instructionID.PRFM_literal, FALLBACK); (instructionID.STNP32, FALLBACK);
    (instructionID.LDNP32, FALLBACK); (instructionID.STNP32_float, FALLBACK);
    (instructionID.LDNP32_float, FALLBACK); (instructionID.STNP64, FALLBACK);
    (instructionID.LDNP64, FALLBACK); (instructionID.STNP64_float, FALLBACK);
    (instructionID.LDNP64_float, FALLBACK); (instructionID.STNP128, FALLBACK);
    (instructionID.LDNP128, FALLBACK); (instructionID.STP32_post, FALLBACK);
    (instructionID.LDP32_post, FALLBACK); (instructionID.STP32_post_float, FALLBACK);
    (instructionID.LDP32_post_float, FALLBACK); (instructionID.LDPSW_post, FALLBACK);
    (instructionID.STP64_post, FALLBACK); (instructionID.LDP64_post, ldp64Post);
    (instructionID.STP64_post_float, FALLBACK); (instructionID.LDP64_post_float, FALLBACK);
    (instructionID.STP128_post, FALLBACK); (instructionID.LDP128_post, FALLBACK);
    (instructionID.STP32_offset, FALLBACK); (instructionID.LDP32_offset, FALLBACK);
    (instructionID.STP32_offset_float, FALLBACK);
    (instructionID.LDP32_offset_float, FALLBACK); (instructionID.LDPSW_offset, FALLBACK);
    (instructionID.STP64_offset, FALLBACK); (instructionID.LDP64_offset, FALLBACK);
    (instructionID.STP64_offset_float, FALLBACK);
    (instructionID.LDP64_offset_float, FALLBACK); (instructionID.STP128_offset, FALLBACK);
    (instructionID.LDP128_offset, FALLBACK); (instructionID.STP32_pre, FALLBACK);
    (instructionID.LDP32_pre, FALLBACK); (instructionID.STP32_pre_float, FALLBACK);
    (instructionID.LDP32_pre_float, FALLBACK); (instructionID.LDPSW_pre, FALLBACK);
    (instructionID.STP64_pre, stp64Pre); (instructionID.LDP64_pre, FALLBACK);
    (instructionID.STP64_pre_float, FALLBACK); (instructionID.LDP64_pre_float, FALLBACK);
    (instructionID.STP128_pre, FALLBACK); (instructionID.LDP128_pre, FALLBACK);
    (instructionID.STURB, FALLBACK); (instructionID.LDURB, FALLBACK);
    (instructionID.LDURSB64, FALLBACK); (instructionID.LDURSB32, FALLBACK);
    (instructionID.STUR8_float, FALLBACK); (instructionID.LDUR8_float, FALLBACK);
    (instructionID.STUR128, FALLBACK); (instructionID.LDUR128, FALLBACK);
    (instructionID.STURH, FALLBACK); (instructionID.LDURH, FALLBACK);
    (instructionID.LDURSH64, FALLBACK); (instructionID.LDURSH32, FALLBACK);
    (instructionID.STUR16_float, FALLBACK); (instructionID.LDUR16_float, FALLBACK);
    (instructionID.STUR32, FALLBACK); (instructionID.LDUR32, FALLBACK);
    (instructionID.LDURSW, FALLBACK); (instructionID.STUR32_float, FALLBACK);
    (instructionID.LDUR32_float, FALLBACK); (instructionID.STUR64, FALLBACK);
    (instructionID.LDUR64, FALLBACK); (instructionID.PRFM_unscaled, FALLBACK);
    (instructionID.STUR64_float, FALLBACK); (instructionID.LDUR64_float, FALLBACK);
    (instructionID.STRB_post, FALLBACK); (instructionID.LDRB_post, FALLBACK);
    (instructionID.LDRSB64_post, FALLBACK); (instructionID.LDRSB32_post, FALLBACK);
    (instructionID.STR8_post_float, FALLBACK); (instructionID.LDR8_post_float, FALLBACK);
    (instructionID.STR128_post, FALLBACK); (instructionID.LDR128_post, FALLBACK);
    (instructionID.STRH_post, FALLBACK); (instructionID.LDRH_post, FALLBACK);
    (instructionID.LDRSH64_post, FALLBACK); (instructionID.LDRSH32_post, FALLBACK);
    (instructionID.STR16_post_float, FALLBACK); (instructionID.LDR16_post_float, FALLBACK);
    (instructionID.STR32_post, FALLBACK); (instructionID.LDR32_post, FALLBACK);
    (instructionID.LDRSW_post, FALLBACK); (instructionID.STR32_post_float, FALLBACK);
    (instructionID.LDR32_post_float, FALLBACK); (instructionID.STR64_post, FALLBACK);
    (instructionID.LDR64_post, FALLBACK); (instructionID.STR64_post_float, FALLBACK);
    (instructionID.LDR64_post_float, FALLBACK); (instructionID.STTRB, FALLBACK);
    (instructionID.LDTRB, FALLBACK); (instructionID.LDTRSB64, FALLBACK);
    (instructionID.LDTRSB32, FALLBACK); (instructionID.STTRH, FALLBACK);
    (instructionID.LDTRH, FALLBACK); (instructionID.LDTRSH64, FALLBACK);
    (instructionID.LDTRSH32, FALLBACK); (instructionID.STTR32, FALLBACK);
    (instructionID.LDTR32, FALLBACK); (instructionID.LDTRSW, FALLBACK);
    (instructionID.STTR64, FALLBACK); (instructionID.LDTR64, FALLBACK);
    (instructionID.STRB_pre, FALLBACK); (instructionID.LDRB_pre, FALLBACK);
    (instructionID.LDRSB64_pre, FALLBACK); (instructionID.LDRSB32_pre, FALLBACK);
    (instructionID.STR8_pre_float, FALLBACK); (instructionID.LDR8_pre_float, FALLBACK);
    (instructionID.STR128_pre, FALLBACK); (instructionID.LDR128_pre, FALLBACK);
    (instructionID.STRH_pre, FALLBACK); (instructionID.LDRH_pre, FALLBACK);
    (instructionID.LDRSH64_pre, FALLBACK); (instructionID.LDRSH32_pre, FALLBACK);
    (instructionID.STR16_pre_float, FALLBACK); (instructionID.LDR16_pre_float, FALLBACK);
    (instructionID.STR32_pre, FALLBACK); (instructionID.LDR32_pre, FALLBACK);
    (instructionID.LDRSW_pre, FALLBACK); (instructionID.STR32_pre_float, FALLBACK);
    (instructionID.LDR32_pre_float, FALLBACK); (instructionID.STR64_pre, FALLBACK);
    (instructionID.LDR64_pre, FALLBACK); (instructionID.STR64_pre_float, FALLBACK);
    (instructionID.LDR64_pre_float, FALLBACK); (instructionID.STRB_reg, FALLBACK);
    (instructionID.LDRB_reg, FALLBACK); (instructionID.LDRSB64_reg, FALLBACK);
    (instructionID.LDRSB32_reg, FALLBACK); (instructionID.STR8_reg_float, FALLBACK);
    (instructionID.LDR8_reg_float, FALLBACK); (instructionID.STR128_reg, FALLBACK);
    (instructionID.LDR128_reg, FALLBACK); (instructionID.STRH_reg, FALLBACK);
    (instructionID.LDRH_reg, FALLBACK); (instructionID.LDRSH64_reg, FALLBACK);
    (instructionID.LDRSH32_reg, FALLBACK); (instructionID.STR16_reg_float, FALLBACK);
    (instructionID.LDR16_reg_float, FALLBACK); (instructionID.STR32_reg, FALLBACK);
    (instructionID.LDR32_reg, FALLBACK); (instructionID.LDRSW_reg, FALLBACK);
    (instructionID.STR32_reg_float, FALLBACK); (instructionID.LDR32_reg_float, FALLBACK);
    (instructionID.STR64_reg, FALLBACK); (instructionID.LDR64_reg, FALLBACK);
    (instructionID.PRFM_reg, FALLBACK); (instructionID.STR64_reg_float, FALLBACK);
    (instructionID.LDR64_reg_float, FALLBACK); (instructionID.STRB_imm, FALLBACK);
    (instructionID.LDRB_imm, FALLBACK); (instructionID.LDRSB64_imm, FALLBACK);
    (instructionID.LDRSB32_imm, FALLBACK); (instructionID.STR8_imm_float, FALLBACK);
    (instructionID.LDR8_imm_float, FALLBACK); (instructionID.STR128_imm, FALLBACK);
    (instructionID.LDR128_imm, FALLBACK); (instructionID.STRH_imm, FALLBACK);
    (instructionID.LDRH_imm, FALLBACK); (instructionID.LDRSH64_imm, FALLBACK);
    (instructionID.LDRSH32_imm, FALLBACK); (instructionID.STR16_imm_float, FALLBACK);
    (instructionID.LDR16_imm_float, FALLBACK); (instructionID.STR32_imm, str32Imm);
    (instructionID.LDR32_imm, ldr32Imm); (instructionID.LDRSW_imm, FALLBACK);
    (instructionID.STR32_imm_float, FALLBACK); (instructionID.LDR32_imm_float, FALLBACK);
    (instructionID.STR64_imm, str64Imm); (instructionID.LDR64_imm, ldr64Imm);
    (instructionID.PRFM_imm, FALLBACK); (instructionID.STR64_imm_float, FALLBACK);
    (instructionID.LDR64_imm_float, FALLBACK) ].
End LoadStore.
End JitLoadStore.
