(* ===== verification/Jit.v ===== *)
(** * The JIT compiler: [libcpu/src/jit/jit.cpp], [jitVerify.cpp], [meta/meta.cpp]

    The table of instructions, the blocks, the code generated for a block, the cache of
    blocks, the runs of the generated code, and its check against the interpreter.  The
    memory instructions are fetched from and the [asmjit] runtime that makes code
    executable are parameters. *)
From S2P Require Import Prelude BitUtils Instructions DecodeSystem Decode Core InstUtils.
From S2P Require Import Machine Memory Float Interp JitAsm JitInsts.

(** [cpu::meta::isBranch] *)
Definition isBranch (id : instructionID.t) : bool :=
  existsb (instructionID.eqb id)
    [instructionID.B_cond; instructionID.BR; instructionID.BLR; instructionID.RET;
     instructionID.ERET; instructionID.DRPS; instructionID.B; instructionID.BL;
     instructionID.CBZ_32; instructionID.CBNZ_32; instructionID.CBZ_64; instructionID.CBNZ_64;
     instructionID.TBZ; instructionID.TBNZ].

(** [doVerify]: neither exception-generating nor system instructions. *)
Definition idLe (i j : instructionID.t) : bool := instructionID.index i <=? instructionID.index j.
Definition doVerify (id : instructionID.t) : bool :=
  negb ((idLe instructionID.SVC id && idLe id instructionID.DCPS3) ||
        (idLe instructionID.MSR_imm id && idLe id instructionID.MRS)).
Definition isLoadStore (id : instructionID.t) : bool :=
  idLe instructionID.STXRB id && idLe id instructionID.LDR64_imm_float.

(** ** [JitBlock] *)

Record JitBlock := mkJitBlock { funcEntry : JitCode; start : Z; end_ : Z }.
Definition newJitBlock (start_ : Z) : JitBlock := mkJitBlock 0 start_ start_.
Definition set_funcEntry v b := mkJitBlock v (start b) (end_ b).
Definition set_end v b := mkJitBlock (funcEntry b) (start b) v.

(** [gRunTime], an [asmjit::Runtime]: [add] makes code executable; it reports an error
    and gives the address of the code, which is null if there is an error. *)
Class AsmRuntime := {
  Runtime : Type;
  rtAdd : Runtime -> list HostInst -> Z * JitCode * Runtime;
}.

Section Jit.
Context `{CoreLayout}.

(** ** The instructions *)

(** The calls of [init], in order. *)
Definition init_registrations (gBlockMap : gmap Z JitCode)
    : list (instructionID.t * jitfptr_t) :=
  JitBranch.registerBranchInstructions gBlockMap ++ JitSystem.registerSystemInstructions ++
  JitDPImm.registerDPImmInstructions ++ JitDPReg.registerDPRegInstructions ++
  JitFloat.registerFloatInstructions ++ JitLoadStore.registerLoadStoreInstructions.

(** [gInstructionMap] after [init]: null where nothing is registered. *)
Definition gInstructionMap (gBlockMap : gmap Z JitCode) (id : instructionID.t)
    : option jitfptr_t :=
  fold_left (fun f r => if instructionID.eqb (fst r) id then Some (snd r) else f)
    (init_registrations gBlockMap) None.

(** The frame [init] generates: [gBlockEntry] calls the code of a block, which leaves
    through [gBlockFinale]. *)
Definition stackSize : Z := 0x28.
Definition savedRegs : list Gp.t :=
  [Gp.rbp; Gp.rbx; Gp.rdi; Gp.rsi; Gp.r12; Gp.r13; Gp.r14; Gp.r15].
Definition entryCode : list HostInst :=
  map (fun r => Ins Push [OReg (mkGp r 8)]) savedRegs ++
  [Ins Sub [OReg (mkGp Gp.rsp 8); OImm stackSize];
   Ins Mov [OReg (mkGp stateReg 8); OReg argReg0];
   Ins Jmp [OReg argReg1]].
Definition exitCode : list HostInst :=
  [Ins Add [OReg (mkGp Gp.rsp 8); OImm stackSize]] ++
  map (fun r => Ins Pop [OReg (mkGp r 8)]) (rev savedRegs) ++
  [Ins Ret []].

(** ** Generating a block *)

(** The call of a function of [jitVerify.cpp] in the generated code. *)
Definition callVerify (f : HostPtr) (bits : Z) : J unit :=
  ins Mov [R argReg0; R (mkGp stateReg 8)];;
  ins Mov [R argReg1; P verifyInfo];;
  ins Mov [R argReg2; I bits];;
  ins Call [P f].

(** The code of the instruction [bits]: the loop body of [generate]. *)
Definition generateInst (gVerify : bool) (gBlockMap : gmap Z JitCode) (bits : Z) : J unit :=
  emit Nop [];;
  let inst_ := decode bits in
  let fptr := if instructionID.eqb (id inst_) instructionID.INVALID then None
              else gInstructionMap gBlockMap (id inst_) in
  write64ImmToMem (coreGPRegs 31) 0;;
  let verifing := gVerify && doVerify (id inst_) in
  (if verifing then
     a ← getAsm;
     write64ImmToMem corePCMem (currentPC a);;
     write64ImmToMem coreNextPCMem (u64 (currentPC a + 4));;
     callVerify verifyPreInstFn bits
   else mret tt);;
  match fptr with
  | Some f => f (inst inst_)
  | None => FALLBACK (inst inst_)
  end;;
  (if verifing then envictAll;; callVerify verifyPostInstFn bits else mret tt);;
  modAsm (fun a => set_currentPC (u64 (currentPC a + 4)) a).

Fixpoint emitNops (n : nat) : J unit :=
  match n with O => mret tt | S n => emit Nop [];; emitNops n end.

Fixpoint generateInsts (gVerify : bool) (gBlockMap : gmap Z JitCode) (words : list Z) : J unit :=
  match words with
  | [] => mret tt
  | bits :: words => generateInst gVerify gBlockMap bits;; generateInsts gVerify gBlockMap words
  end.

(** The code of a block of the given words. *)
Definition generateCode (gVerify : bool) (gBlockMap : gmap Z JitCode) (block : JitBlock)
    (words : list Z) : J unit :=
  modAsm (set_currentPC (start block));;
  emitNops 12;;
  let size := Z.shiftr (u64 (end_ block - start block)) 2 in
  let instCounter := mkMem stateReg (offsetof fNumInsts) 0 in
  reg ← allocGpTemp 8;
  ins Mov [H reg; M instCounter];;
  ins Add [H reg; I size];;
  ins Mov [M instCounter; H reg];;
  generateInsts gVerify gBlockMap words;;
  envictAll;;
  ins Jmp [P blockFinale];;
  release reg.

(** ** Blocks *)

Section Blocks.
Context {Mem : Type} `{GuestMemory Mem} `{AsmRuntime}.

(** The words at [addr], [addr + 4], ... below [end_]. *)
Fixpoint fetchWords (fuel : nat) (m : Mem) (addr end_ : Z) : result (list Z) :=
  if addr <? end_ then
    match fuel with
    | O => Err Diverges
    | S fuel =>
        bits ← mread 4 addr m;
        words ← fetchWords fuel m (u64 (addr + 4)) end_;
        mret (bits :: words)
    end
  else mret [].

(** The loop of [findBlockEnd]. *)
Fixpoint findBlockLoop (fuel : nat) (m : Mem) (block : JitBlock) (currentAddr : Z)
    : result JitBlock :=
  match fuel with
  | O => Err Diverges
  | S fuel =>
      bits ← mread 4 currentAddr m;
      let nextAddr := u64 (currentAddr + 4) in
      let block := if isBranch (id (decode bits)) then set_end nextAddr block else block in
      if (end_ block =? start block) && (Z.shiftr (u64 (nextAddr - start block)) 2 <? 3000)
      then findBlockLoop fuel m block nextAddr
      else mret block
  end.
Definition findBlockEnd (m : Mem) (block : JitBlock) : result JitBlock :=
  findBlockLoop 3000 m block (start block).

(** What [jit.cpp] keeps, and the runtime. *)
Record JitState := mkJitState { gBlockMap : gmap Z JitCode; gRunTime : Runtime }.

(** [generate]; a failed [emu_assert] or [emu_abort] is [None].  The words are fetched
    first: nothing the compiler does to a word changes the guest's memory. *)
Definition generate (gVerify : bool) (m : Mem) (js : JitState) (block : JitBlock)
    : result (option (JitBlock * JitState)) :=
  words ← fetchWords (Z.to_nat (end_ block - start block)) m (start block) (end_ block);
  mret match generateCode gVerify (gBlockMap js) block words newAsm with
       | None => None
       | Some (_, a) =>
           let '(err, entry, rt) := rtAdd (gRunTime js) (code a) in
           Some (set_funcEntry entry block, mkJitState (gBlockMap js) rt)
       end.

(** [get] *)
Definition get (gVerify : bool) (m : Mem) (js : JitState) (addr : Z)
    : result (option (JitCode * JitState)) :=
  match gBlockMap js !! addr with
  | Some c => mret (Some (c, js))
  | None =>
      block ← findBlockEnd m (newJitBlock addr);
      r ← generate gVerify m js block;
      mret match r with
           | None => None
           | Some (block, js) =>
               Some (funcEntry block,
                     mkJitState (<[addr := funcEntry block]> (gBlockMap js)) (gRunTime js))
           end
  end.
End Blocks.
End Jit.

(** ** Running the generated code

    The instructions of the host processor that the compiler emits, the calls the
    generated code makes into the emulator, [executeCode] and [step].

    The host is an x86-64 processor with the calling convention of Windows; [execInst]
    follows its documentation.  What the documentation leaves open, and the addresses of
    things, are the parameters of [HostCpu]. *)

Class HostCpu := {
  coreAddr : Z;                          (* the address of the [Core] *)
  ptrValue : HostPtr -> Z;
  (* the flags ZF, SF = OF, PF after an instruction whose flags the generated code does
     not use, or after a call *)
  flagsAfter : HostInst -> (Gp.t -> Z) -> bool * bool * bool;
  (* the volatile registers after a call, and what a result narrower than [rax] leaves
     in the rest of it *)
  volatileAfter : HostPtr -> (Gp.t -> Z) -> Gp.t -> Z;
  upperAfter : HostPtr -> (Gp.t -> Z) -> Z;
}.

(** ** The members of the core as memory *)

Definition fieldGet (f : CoreField) (c : Core) : Z :=
  match f with
  | fGPRegs i => getX c i
  | fVRegs i k => if k =? 0 then getD0 c i else getD1 c i
  | fPC => PC c
  | fSP => SP c
  | fNextPC => nextPC c
  | fNumInsts => numInsts c
  | fN => Z.b2z (PSTATE.N (PState c))
  | fZ => Z.b2z (PSTATE.Z (PState c))
  | fC => Z.b2z (PSTATE.C (PState c))
  | fV => Z.b2z (PSTATE.V (PState c))
  end.

Definition fieldSet (f : CoreField) (v : Z) (c : Core) : Core :=
  let p := PState c in
  match f with
  | fGPRegs i => setX i v c
  | fVRegs i k => if k =? 0 then setD0 i v c else setD1 i v c
  | fPC => set_PC v c
  | fSP => set_SP v c
  | fNextPC => set_nextPC v c
  | fNumInsts => set_numInsts v c
  | fN => set_PState (PSTATE.mk (v !=? 0) (PSTATE.Z p) (PSTATE.C p) (PSTATE.V p)) c
  | fZ => set_PState (PSTATE.mk (PSTATE.N p) (v !=? 0) (PSTATE.C p) (PSTATE.V p)) c
  | fC => set_PState (PSTATE.mk (PSTATE.N p) (PSTATE.Z p) (v !=? 0) (PSTATE.V p)) c
  | fV => set_PState (PSTATE.mk (PSTATE.N p) (PSTATE.Z p) (PSTATE.C p) (v !=? 0)) c
  end.

Section Host.
Context {Mem : Type} `{GuestMemory Mem} `{CpuHooks Mem}.
Context `{ShiftTarget} `{HostFloat} `{CoreLayout} `{HostCpu}.

(** The member at an offset. *)
Definition fieldAt (off : Z) : option CoreField :=
  find (fun f => offsetof f =? off) coreFields.

(** An access of [sz] bytes at an offset: a whole member, or one half of an 8-byte one. *)
Definition coreLoad (sz off : Z) (c : Core) : option Z :=
  f ← fieldAt off;
  if sz =? fieldSize f then Some (fieldGet f c) else None.

Definition coreStore (sz off v : Z) (c : Core) : option Core :=
  match fieldAt off with
  | Some f =>
      if sz =? fieldSize f then Some (fieldSet f v c)
      else if (sz =? 4) && (fieldSize f =? 8)
      then Some (fieldSet f (Z.lor (Z.shiftl (Z.shiftr (fieldGet f c) 32) 32) (u32 v)) c)
      else None
  | None =>
      f ← fieldAt (off - 4);
      if (sz =? 4) && (fieldSize f =? 8)
      then Some (fieldSet f (Z.lor (Z.shiftl (u32 v) 32) (u32 (fieldGet f c))) c)
      else None
  end.

(** ** The state of the host *)

Record HostState := mkHost {
  hregs : Gp.t -> Z;
  zf : bool;                             (* ZF *)
  gef : bool;                            (* SF = OF *)
  pf : bool;                             (* PF *)
  hstack : Z -> Z;                       (* the stack, in words of 8 bytes *)
  machine : Machine Mem;
}.
Definition set_hregs v h := mkHost v (zf h) (gef h) (pf h) (hstack h) (machine h).
Definition set_flags v h :=
  mkHost (hregs h) (fst (fst v)) (snd (fst v)) (snd v) (hstack h) (machine h).
Definition set_hstack v h := mkHost (hregs h) (zf h) (gef h) (pf h) v (machine h).
Definition set_machine v h := mkHost (hregs h) (zf h) (gef h) (pf h) (hstack h) v.
Definition hcore (h : HostState) : Core := core (machine h).
Definition set_hcore (c : Core) (h : HostState) : HostState :=
  set_machine (set_core c (machine h)) h.

Definition updReg_ (r : Gp.t) (v : Z) (f : Gp.t -> Z) : Gp.t -> Z :=
  fun r' => if decide (r' = r) then v else f r'.

(** Writing 4 bytes of a register clears its upper half; writing 1 or 2 keeps the rest. *)
Definition setReg (sz : Z) (r : Gp.t) (v : Z) (h : HostState) : HostState :=
  let v := if sz =? 8 then u64 v
           else if sz =? 4 then u32 v
           else Z.lor (Z.shiftl (Z.shiftr (hregs h r) (8 * sz)) (8 * sz)) (wrap (8 * sz) v) in
  set_hregs (updReg_ r v (hregs h)) h.

(** ** Operands *)

(** The size of an instruction is that of its first register, or of its memory. *)
Fixpoint opSize (ops : list Operand) : Z :=
  match ops with
  | [] => 0
  | OReg r :: _ => gpSize r
  | OMem m :: ops => let s := opSize ops in if s =? 0 then memSize m else s
  | _ :: ops => opSize ops
  end.

(** Immediates: [mov] takes any, shifts take a byte, the others a sign-extended 32-bit
    value; [and] of 8 bytes with a 32-bit mask is the [and] of 4 bytes. *)
Definition immOk (m : Mnemonic) (sz v : Z) : bool :=
  match m with
  | Mov => true
  | Shl | Shr => (0 <=? v) && (v <? 256)
  | _ => (sz !=? 8) || (u64 (to_signed 32 v) =? u64 v) ||
         match m with And => v =? u32 v | _ => false end
  end.

Definition readOp (sz : Z) (o : Operand) (h : HostState) : option Z :=
  match o with
  | OReg r => Some (wrap (8 * sz) (hregs h (gpReg r)))
  | OMem m => if hregs h (memBase m) =? coreAddr then coreLoad sz (memOffset m) (hcore h) else None
  | OImm v => Some (wrap (8 * sz) v)
  | OPtr p => Some (wrap (8 * sz) (ptrValue p))
  | OLabel _ => None
  end.

Definition writeOp (sz : Z) (o : Operand) (v : Z) (h : HostState) : option HostState :=
  match o with
  | OReg r => Some (setReg sz (gpReg r) v h)
  | OMem m =>
      if hregs h (memBase m) =? coreAddr then
        c ← coreStore sz (memOffset m) v (hcore h); Some (set_hcore c h)
      else None
  | _ => None
  end.

(** ** Instructions *)

(** PF: the number of ones in the low byte is even. *)
Definition evenParity (v : Z) : bool :=
  negb (fold_left (fun b i => xorb b (Z.testbit v i)) [0; 1; 2; 3; 4; 5; 6; 7] false).

(** What an instruction with two operands computes from them. *)
Definition arith (m : Mnemonic) (sz a b : Z) : option Z :=
  match m with
  | Mov => Some b
  | Add => Some (wrap (8 * sz) (a + b))
  | Sub => Some (wrap (8 * sz) (a - b))
  | And => Some (Z.land a b)
  | Or => Some (Z.lor a b)
  | Xor => Some (Z.lxor a b)
  | Shl => Some (wrap (8 * sz) (Z.shiftl a (b mod (if sz =? 8 then 64 else 32))))
  | Shr => Some (Z.shiftr a (b mod (if sz =? 8 then 64 else 32)))
  | _ => None
  end.

(** The flags of [cmp] and [test]. *)
Definition compareFlags (m : Mnemonic) (sz a b : Z) : option (bool * bool * bool) :=
  match m with
  | Cmp => Some (a =? b, to_signed (8 * sz) b <=? to_signed (8 * sz) a,
                 evenParity (wrap (8 * sz) (a - b)))
  | Test => Some (Z.land a b =? 0, 0 <=? to_signed (8 * sz) (Z.land a b),
                  evenParity (Z.land a b))
  | _ => None
  end.

Definition execBinary (m : Mnemonic) (d s : Operand) (h : HostState) : option HostState :=
  let sz := opSize [d; s] in
  if match s with OImm v => negb (immOk m sz v) | _ => false end then None else
  b ← readOp sz s h;
  match m with
  | Mov => writeOp sz d b h
  | _ =>
      a ← readOp sz d h;
      match compareFlags m sz a b with
      | Some f => Some (set_flags f h)
      | None =>
          v ← arith m sz a b;
          h' ← writeOp sz d v h;
          Some (set_flags (flagsAfter (Ins m [d; s]) (hregs h)) h')
      end
  end.

Definition execUnary (m : Mnemonic) (d : Operand) (h : HostState) : option HostState :=
  let sz := opSize [d] in
  let flags h' := set_flags (flagsAfter (Ins m [d]) (hregs h)) h' in
  match m, d with
  | Sete, _ => writeOp 1 d (Z.b2z (zf h)) h
  | Setge, _ => writeOp 1 d (Z.b2z (gef h)) h
  | Neg, OReg _ =>
      a ← readOp sz d h; h' ← writeOp sz d (wrap (8 * sz) (- a)) h; Some (flags h')
  | Inc, OReg _ =>
      a ← readOp sz d h; h' ← writeOp sz d (wrap (8 * sz) (a + 1)) h; Some (flags h')
  | Inc, OMem mem =>
      (* a counter outside the core, which is not state of the model *)
      if hregs h (memBase mem) =? coreAddr then None else Some (flags h)
  | Push, OReg r =>
      let sp := u64 (hregs h Gp.rsp - 8) in
      Some (set_hregs (updReg_ Gp.rsp sp (hregs h))
              (set_hstack (fun a => if a =? sp then hregs h (gpReg r) else hstack h a) h))
  | Pop, OReg r =>
      let sp := hregs h Gp.rsp in
      Some (set_hregs (updReg_ (gpReg r) (hstack h sp)
                         (updReg_ Gp.rsp (u64 (sp + 8)) (hregs h))) h)
  | _, _ => None
  end.

Definition execInst (m : Mnemonic) (ops : list Operand) (h : HostState) : option HostState :=
  match ops with
  | [] => match m with Nop => Some h | _ => None end
  | [d] => execUnary m d h
  | [d; s] => execBinary m d s h
  | _ => None
  end.

(** ** Calls *)

Definition isVolatile (r : Gp.t) : bool :=
  match r with
  | Gp.rax | Gp.rcx | Gp.rdx | Gp.r8 | Gp.r9 | Gp.r10 | Gp.r11 => true
  | _ => false
  end.

Definition afterCall (p : HostPtr) (h : HostState) : HostState :=
  set_flags (flagsAfter (Ins Call [OPtr p]) (hregs h))
    (set_hregs (fun r => if isVolatile r then u64 (volatileAfter p (hregs h) r) else hregs h r) h).

Definition returning (p : HostPtr) (bits v : Z) (h : HostState) : HostState :=
  setReg 8 Gp.rax (Z.lor (Z.shiftl (upperAfter p (hregs h)) bits) v) (afterCall p h).

(** The generated code calls with the arguments in [rcx] and [rdx].  [gVerify] is never
    set, so the functions of [jitVerify.cpp] are not called. *)
Definition callFn (p : HostPtr) (h : HostState) : result HostState :=
  let arg0 := hregs h Gp.rcx in
  let arg1 := hregs h Gp.rdx in
  match p with
  | interFunc id =>
      if arg0 =? coreAddr then
        '(_, s) ← getInstructionFunc id (u32 arg1) (machine h);
        Ok (afterCall p (set_machine s h))
      else Err Undefined
  | memWriteFn n =>
      '(_, s) ← mem_write n arg0 (wrap (8 * n) arg1) (machine h);
      Ok (afterCall p (set_machine s h))
  | memReadFn n =>
      '(v, s) ← mem_read n arg0 (machine h);
      Ok (returning p (8 * n) v (set_machine s h))
  | signExtendFn bits => Ok (returning p 64 (signExtend bits arg0) h)
  | svcHandlerFn =>
      '(_, s) ← gSVCHandler arg0 (machine h);
      Ok (afterCall p (set_machine s h))
  | _ => Err Undefined
  end.

(** ** Code *)

Inductive Exit : Set :=
  | Fell                                 (* the end of the code *)
  | Left (p : HostPtr)                   (* a jump to other code *)
  | LeftTo (addr : Z)
  | Returned.

(** The code from an instruction on; after a jump forward, up to its label, nothing is
    executed ([skip]). *)
Fixpoint run (code : list HostInst) (skip : option nat) (h : HostState)
    : result (Exit * HostState) :=
  match code with
  | [] => match skip with None => Ok (Fell, h) | Some _ => Err Undefined end
  | Bind l :: code =>
      match skip with
      | Some l' => if Nat.eqb l l' then run code None h else run code skip h
      | None => run code None h
      end
  | Ins m ops :: code =>
      match skip with
      | Some _ => run code skip h
      | None =>
          match m, ops with
          | Jmp, [OPtr p] => Ok (Left p, h)
          | Jmp, [OReg r] => Ok (LeftTo (hregs h (gpReg r)), h)
          | Ret, [] => Ok (Returned, h)
          | Jpe, [OLabel l] => run code (if pf h then Some l else None) h
          | Call, [OPtr p] => h ← callFn p h; run code None h
          | _, _ =>
              match execInst m ops h with
              | Some h => run code None h
              | None => Err Undefined
              end
          end
      end
  end.

(** ** [executeCode] and [step] *)

Section Step.
Context `{AsmRuntime} (rtCode : Runtime -> JitCode -> option (list HostInst)).

(** The code at an address, which may go on with that of further blocks, up to its jump
    to [gBlockFinale]; [fuel] bounds the number of blocks. *)
Fixpoint runBlocks (fuel : nat) (rt : Runtime) (c : JitCode) (h : HostState) : result HostState :=
  match fuel with
  | O => Err Diverges
  | S fuel =>
      match rtCode rt c with
      | None => Err (HostFault c)
      | Some l =>
          '(e, h) ← run l None h;
          match e with
          | Left blockFinale => Ok h
          | Left (blockCode c) => runBlocks fuel rt c h
          | _ => Err Undefined
          end
      end
  end.

(** [executeCode]: the frame around the block, called with the core and the code. *)
Definition executeCode (fuel : nat) (rt : Runtime) (func : JitCode) (h : HostState)
    : result HostState :=
  let h := setReg 8 Gp.rdx func (setReg 8 Gp.rcx coreAddr h) in
  '(e, h) ← run entryCode None h;
  match e with
  | LeftTo c =>
      h ← runBlocks fuel rt c h;
      '(e, h) ← run exitCode None h;
      match e with Returned => Ok h | _ => Err Undefined end
  | _ => Err Undefined
  end.

(** [step]: [None] where the compiler ends the process. *)
Definition step (gVerify : bool) (js : JitState) (h : HostState)
    : result (option (JitState * HostState)) :=
  r ← get gVerify (memory (machine h)) js (PC (hcore h));
  match r with
  | None => mret None
  | Some (func, js) =>
      h ← executeCode (S (size (gBlockMap js))) (gRunTime js) func h;
      mret (Some (js, set_hcore (set_PC (nextPC (hcore h)) (hcore h)) h))
  end.
End Step.

(** ** [jitVerify.cpp] *)

(** [gVerifyInfo] and [gMemoryLock]. *)
Record VerifyInfo := mkVerifyInfo { savedState : Core; gMemoryLock : bool }.

Definition verifyPreInst (c : Core) (info : VerifyInfo) (inst : Z) : result VerifyInfo :=
  if isLoadStore (id (decode inst)) then
    if gMemoryLock info then Err Deadlock else Ok (mkVerifyInfo c true)
  else Ok (mkVerifyInfo c (gMemoryLock info)).

(** The members that differ, each of which is logged as an error. *)
Definition verifyMismatches (c saved : Core) : list CoreField :=
  List.filter (fun f => fieldGet f c !=? fieldGet f saved)
    ([fNextPC; fSP] ++ map (fun i => fGPRegs (Z.of_nat i)) (seq 0 32) ++ [fN; fZ; fC; fV]).

(** The interpreter runs the instruction on the saved core, and on the memory. *)
Definition verifyPostInst (info : VerifyInfo) (inst : Z) : Machine Mem ->
    result (list CoreField * VerifyInfo * Machine Mem) := fun s =>
  let c := core s in
  let saved := set_nextPC (u64 (PC (savedState info) + 4)) (savedState info) in
  '(_, s') ← getInstructionFunc (id (decode inst)) inst (set_core saved s);
  let saved := setX 31 0 (core s') in
  let lock := if isLoadStore (id (decode inst)) then false else gMemoryLock info in
  Ok (verifyMismatches c saved, mkVerifyInfo saved lock, set_core c s').
End Host.
Arguments HostState Mem : clear implicits.
