(* ===== verification/JitAllocSpec.v ===== *)
(** * The register cache of the JIT compiler never runs out

    An invariant of the assembler in terms of the handles that are alive, what each
    operation of the cache does to it, and the consequence for whole blocks. *)
From S2P Require Import Prelude BitUtils Instructions DecodeSystem Decode Core InstUtils Machine.
From S2P Require Import JitAsm JitInsts Jit.

(** ** Runs of the compiler *)

(** [f] does not abort in [a], and [Q] holds of what it returns. *)
Definition cok {A} (f : J A) (a : Asm) (Q : A -> Asm -> Prop) : Prop :=
  exists x a', f a = Some (x, a') /\ Q x a'.

Lemma cok_ret {A} (x : A) a (Q : A -> Asm -> Prop) : Q x a -> cok (mret x) a Q.
Proof. intros HQ. by exists x, a. Qed.

Lemma cok_bind {A B} (f : J A) (k : A -> J B) a Q :
  cok f a (fun x a' => cok (k x) a' Q) -> cok (f ≫= k) a Q.
Proof.
  intros (x & a' & Hf & y & b & Hk & HQ). exists y, b. split; [|done].
  unfold mbind, J_bind. by rewrite Hf.
Qed.

Lemma cok_conseq {A} (f : J A) a (P Q : A -> Asm -> Prop) :
  cok f a P -> (forall x a', P x a' -> Q x a') -> cok f a Q.
Proof. intros (x & a' & Hf & HP) HPQ. exists x, a'. auto. Qed.

Lemma cok_assert b a (Q : unit -> Asm -> Prop) : b = true -> Q tt a -> cok (emu_assert b) a Q.
Proof. intros -> HQ. by apply cok_ret. Qed.

Lemma cok_mod f a (Q : unit -> Asm -> Prop) : Q tt (f a) -> cok (modAsm f) a Q.
Proof. intros HQ. by exists tt, (f a). Qed.

Lemma cok_get a (Q : Asm -> Asm -> Prop) : Q a a -> cok getAsm a Q.
Proof. intros HQ. by exists a, a. Qed.

Lemma cok_getReg i r a (Q : HostReg -> Asm -> Prop) :
  mRegs a !! i = Some r -> Q r a -> cok (getReg i) a Q.
Proof. intros Hr HQ. exists r, a. unfold getReg. by rewrite Hr. Qed.

Lemma J_bind_some {A B} (f : J A) (k : A -> J B) a x a' :
  f a = Some (x, a') -> (f ≫= k) a = k x a'.
Proof. intros Hf. unfold mbind, J_bind. by rewrite Hf. Qed.

(** ** The invariant *)

(** A handle that is alive: its register, and the offset of the guest register the
    register holds ([NO_OFFSET] for a temporary). *)
Abbreviation Handle := (nat * Z)%type.

Definition uses (i : nat) (L : list Handle) : nat := count_occ Nat.eq_dec (map fst L) i.

Record reg_ok (i : nat) (r : HostReg) : Prop := {
  ro_type : mType r = GP;
  ro_id : mRegID r = Z.of_nat i;
  ro_lru : 0 <= lru r <= NO_LRU_VALUE;
  ro_cached : mOffset r <> NO_OFFSET -> lru r <> NO_LRU_VALUE;
  ro_free : mOffset r = NO_OFFSET -> mModified r = false /\ mLoaded r = false;
  ro_mod : mModified r = true -> mLoaded r = true;
}.

(** The assembler when the handles [L] are alive; [n] bounds the clock of the cache. *)
Record holds (a : Asm) (L : list Handle) (n : Z) : Prop := {
  ho_len : length (mRegs a) = 9%nat;
  ho_reg i r : mRegs a !! i = Some r -> reg_ok i r;
  ho_use i r : mRegs a !! i = Some r -> useCount r = Z.of_nat (uses i L);
  ho_inj i j r s : mRegs a !! i = Some r -> mRegs a !! j = Some s ->
    mOffset r = mOffset s -> mOffset r <> NO_OFFSET -> i = j;
  ho_own i o : (i, o) ∈ L -> exists r, mRegs a !! i = Some r /\ mOffset r = o;
  ho_lru : 0 <= lruCounter a <= n;
  ho_small : (length L <= 20)%nat;
}.

Lemma uses_le i L : (uses i L <= length L)%nat.
Proof. unfold uses. rewrite <-(length_map fst L). apply count_occ_bound. Qed.

Lemma uses_perm i L L' : Permutation L L' -> uses i L = uses i L'.
Proof.
  intros HP. unfold uses. apply (Permutation_count_occ Nat.eq_dec). by apply Permutation_map.
Qed.

Lemma uses_cons i j o L : uses i ((j, o) :: L) = ((if decide (i = j) then 1 else 0) + uses i L)%nat.
Proof.
  unfold uses. simpl. destruct (Nat.eq_dec j i), (decide (i = j)); congruence || lia.
Qed.

Lemma uses_pos i o L : (i, o) ∈ L -> (0 < uses i L)%nat.
Proof.
  intros Hin. unfold uses. apply count_occ_In, in_map_iff. exists (i, o).
  split; [done|]. by apply list_elem_of_In.
Qed.

Lemma holds_perm a L L' n : Permutation L L' -> holds a L n -> holds a L' n.
Proof.
  intros HP [H1 H2 H3 H4 H5 H6 H7]. constructor; try done.
  - intros i r Hr. rewrite (H3 i r Hr). by rewrite (uses_perm i L L').
  - intros i o Hin. apply H5. by rewrite HP.
  - by rewrite <-HP.
Qed.

Lemma holds_le a L n n' : holds a L n -> n <= n' -> holds a L n'.
Proof. intros [] Hn. constructor; try done. lia. Qed.

Lemma holds_lookup a L n i : holds a L n -> (i < 9)%nat -> exists r, mRegs a !! i = Some r.
Proof. intros HL Hi. apply lookup_lt_is_Some. by rewrite (ho_len _ _ _ HL). Qed.

Lemma holds_index a L n i r : holds a L n -> mRegs a !! i = Some r -> (i < 9)%nat.
Proof. intros HL Hr. rewrite <-(ho_len _ _ _ HL). by eapply lookup_lt_Some. Qed.

(** The invariant looks at the registers and the clock only. *)
Lemma holds_code a L n c : holds a L n -> holds (set_code c a) L n.
Proof. by intros []. Qed.
Lemma holds_labels a L n c : holds a L n -> holds (set_labels c a) L n.
Proof. by intros []. Qed.
Lemma holds_currentPC a L n c : holds a L n -> holds (set_currentPC c a) L n.
Proof. by intros []. Qed.

(** ** Changes of one register *)

(** The invariant after register [i] became [r'], for new handles [L'] and clock [n']. *)
Lemma holds_alter a L n i r (f : HostReg -> HostReg) L' n' c :
  holds a L n -> mRegs a !! i = Some r ->
  reg_ok i (f r) ->
  useCount (f r) = Z.of_nat (uses i L') ->
  (forall j, j <> i -> uses j L' = uses j L) ->
  (mOffset (f r) <> NO_OFFSET ->
     forall j s, j <> i -> mRegs a !! j = Some s -> mOffset s <> mOffset (f r)) ->
  (forall j o, (j, o) ∈ L' -> if decide (j = i) then mOffset (f r) = o else (j, o) ∈ L) ->
  0 <= c <= n' -> (length L' <= 20)%nat ->
  holds (set_lruCounter c (set_mRegs (alter f i (mRegs a)) a)) L' n'.
Proof.
  intros HL Hr Hok Huse Hother Hinj Hown Hc Hs.
  assert (forall j s, alter f i (mRegs a) !! j = Some s ->
            j = i /\ s = f r \/ j <> i /\ mRegs a !! j = Some s) as Hcase.
  { intros j s Hj. destruct (decide (j = i)) as [->|Hne].
    - left. split; [done|]. rewrite list_lookup_alter_eq, Hr in Hj. by injection Hj.
    - right. split; [done|]. by rewrite list_lookup_alter_ne in Hj by done. }
  constructor; simpl; try done.
  - rewrite length_alter. apply (ho_len _ _ _ HL).
  - intros j s [[-> ->]|[Hne Hj]]%Hcase; [done|]. by apply (ho_reg _ _ _ HL).
  - intros j s [[-> ->]|[Hne Hj]]%Hcase; [done|]. rewrite Hother by done.
    by apply (ho_use _ _ _ HL).
  - intros j k s t [[-> ->]|[Hj1 Hj2]]%Hcase [[-> ->]|[Hk1 Hk2]]%Hcase Ho Hn; try done.
    + exfalso. by eapply (Hinj Hn k t).
    + exfalso. rewrite Ho in Hn. by eapply (Hinj Hn j s).
    + by eapply (ho_inj _ _ _ HL).
  - intros j o Hin%Hown. case_decide as E.
    + subst j. exists (f r). by rewrite list_lookup_alter_eq, Hr.
    + apply (ho_own _ _ _ HL) in Hin as (s & Hs' & Ho). exists s.
      by rewrite list_lookup_alter_ne.
Qed.

(** Without a change of the clock. *)
Lemma holds_alter' a L n i r (f : HostReg -> HostReg) L' :
  holds a L n -> mRegs a !! i = Some r ->
  reg_ok i (f r) ->
  useCount (f r) = Z.of_nat (uses i L') ->
  (forall j, j <> i -> uses j L' = uses j L) ->
  (mOffset (f r) <> NO_OFFSET ->
     forall j s, j <> i -> mRegs a !! j = Some s -> mOffset s <> mOffset (f r)) ->
  (forall j o, (j, o) ∈ L' -> if decide (j = i) then mOffset (f r) = o else (j, o) ∈ L) ->
  (length L' <= 20)%nat ->
  holds (set_mRegs (alter f i (mRegs a)) a) L' n.
Proof.
  intros HL Hr H1 H2 H3 H4 H5 H6.
  pose proof (holds_alter a L n i r f L' n (lruCounter a) HL Hr H1 H2 H3 H4 H5
                (ho_lru _ _ _ HL) H6) as [].
  constructor; done.
Qed.

(** The offset of another register differs from that of [i]. *)
Lemma holds_offset_ne a L n i j r s :
  holds a L n -> mRegs a !! i = Some r -> mRegs a !! j = Some s -> j <> i ->
  mOffset r <> NO_OFFSET -> mOffset s <> mOffset r.
Proof. intros HL Hr Hs Hne Hn E. apply Hne. symmetry. by apply (ho_inj _ _ _ HL i j r s). Qed.

Lemma incUse_count a L n i r o :
  holds a L n -> mRegs a !! i = Some r -> (length L < 20)%nat ->
  useCount (incUse r) = Z.of_nat (uses i ((i, o) :: L)).
Proof.
  intros HL Hr Hs. rewrite uses_cons, decide_True by done. unfold incUse. cbn [set_useCount useCount].
  rewrite (ho_use _ _ _ HL i r Hr). pose proof (uses_le i L).
  unfold u32. rewrite wrap_id; [lia|unfold uint; lia].
Qed.

(** A new handle of a register that already is what the handle says. *)
Lemma holds_incUse a L n i r :
  holds a L n -> mRegs a !! i = Some r -> (length L < 20)%nat ->
  holds (set_mRegs (alter incUse i (mRegs a)) a) ((i, mOffset r) :: L) n.
Proof.
  intros HL Hr Hs. eapply holds_alter'; try done.
  - by destruct (ho_reg _ _ _ HL i r Hr).
  - by eapply incUse_count.
  - intros j Hj. by rewrite uses_cons, decide_False.
  - intros Hn j s Hne Hj. by eapply (holds_offset_ne a L n i j r s).
  - intros j o [E|Hin]%elem_of_cons.
    + injection E as -> ->. by rewrite decide_True.
    + case_decide as E; [|done]. subst j.
      destruct (ho_own _ _ _ HL i o Hin) as (r' & Hr' & Ho). simpl. congruence.
Qed.

(** The end of a handle. *)
Lemma holds_decUse a L n i o :
  holds a ((i, o) :: L) n ->
  holds (set_mRegs (alter decUse i (mRegs a)) a) L n.
Proof.
  intros HL. destruct (ho_own _ _ _ HL i o) as (r & Hr & Ho); [by left|].
  pose proof (ho_use _ _ _ HL i r Hr) as Hu. pose proof (ho_small _ _ _ HL) as Hs. simpl in Hs.
  rewrite uses_cons, decide_True in Hu by done. pose proof (uses_le i L).
  eapply holds_alter'; try done.
  - by destruct (ho_reg _ _ _ HL i r Hr).
  - unfold decUse. cbn [set_useCount useCount]. rewrite Hu. unfold u32.
    rewrite wrap_id; [lia|unfold uint; lia].
  - intros j Hj. by rewrite uses_cons, decide_False.
  - intros Hn j s Hne Hj. by eapply (holds_offset_ne a _ n i j r s).
  - intros j o' Hin. case_decide as E; [|by right]. subst j.
    destruct (ho_own _ _ _ HL i o') as (r' & Hr' & Ho'); [by right|]. simpl. congruence.
  - lia.
Qed.

Lemma release_ok a L n h o :
  holds a ((mReg h, o) :: L) n -> cok (release h) a (fun _ a' => holds a' L n).
Proof. intros HL. apply cok_mod. by eapply holds_decUse. Qed.

(** ** Eviction and allocation *)

Definition cleared (r : HostReg) : HostReg :=
  mkHostReg (mType r) (mRegID r) 0 NO_LRU_VALUE NO_OFFSET false false.
Definition evictCode (r : HostReg) : list HostInst :=
  if mModified r
  then [Ins Mov [OMem (mkMem stateReg (mOffset r) 8); OReg (gpOf (mRegID r) 8)]]
  else [].

(** The assembler after the eviction of register [i], which was [r]. *)
Definition evicted (i : nat) (r : HostReg) (a : Asm) : Asm :=
  set_mRegs (alter cleared i (mRegs a)) (set_code (code a ++ evictCode r) a).

Lemma envict_run a L n i r :
  holds a L n -> mRegs a !! i = Some r -> uses i L = 0%nat -> mOffset r <> NO_OFFSET ->
  envict i a = Some (tt, evicted i r a).
Proof.
  intros HL Hr Hu Ho. unfold envict, mbind, J_bind, getReg. rewrite Hr.
  rewrite (ho_use _ _ _ HL i r Hr), Hu. simpl emu_assert. unfold mret, J_ret at 1.
  destruct (Z.eqb_spec (mOffset r) NO_OFFSET) as [|_]; [done|]. simpl.
  pose proof (ho_reg _ _ _ HL i r Hr) as Hok. rewrite bool_decide_true by apply Hok. simpl.
  unfold evicted, evictCode. destruct (mModified r) eqn:E.
  - rewrite (ro_mod _ _ Hok E). done.
  - simpl. rewrite app_nil_r. by destruct a.
Qed.

Lemma reg_ok_cleared i r : reg_ok i r -> reg_ok i (cleared r).
Proof. intros [H1 H2 H3 H4 H5 H6]. by constructor; simpl; try done; lia || auto. Qed.

Lemma holds_evicted a L n i r :
  holds a L n -> mRegs a !! i = Some r -> uses i L = 0%nat -> holds (evicted i r a) L n.
Proof.
  intros HL Hr Hu. unfold evicted. eapply (holds_alter' (set_code _ a)); try done.
  - by apply holds_code.
  - by apply reg_ok_cleared, (ho_reg _ _ _ HL).
  - simpl. by rewrite Hu.
  - intros j o Hin. case_decide; [|done]. subst j. apply uses_pos in Hin. lia.
  - apply (ho_small _ _ _ HL).
Qed.

Lemma allocScan_spec i regs lr lv :
  match allocScan GP i regs lr lv with
  | inl k => exists j r, k = (i + j)%nat /\ regs !! j = Some r /\ useCount r = 0 /\
               mOffset r = NO_OFFSET
  | inr (Some k) => lr = Some k \/
      exists j r, k = (i + j)%nat /\ regs !! j = Some r /\ useCount r = 0 /\
        mOffset r <> NO_OFFSET
  | inr None => lr = None /\
      forall j r, regs !! j = Some r -> mType r = GP -> useCount r = 0 ->
        mOffset r <> NO_OFFSET /\ (lru r = NO_LRU_VALUE \/ lv <= lru r)
  end.
Proof.
  revert i lr lv. induction regs as [|r regs IH]; intros i lr lv.
  { simpl. destruct lr; [by left|done]. }
  assert (forall lr lv,
    match allocScan GP (S i) regs lr lv with
    | inl k => exists j s, k = (i + j)%nat /\ (r :: regs) !! j = Some s /\ useCount s = 0 /\
                 mOffset s = NO_OFFSET
    | inr (Some k) => lr = Some k \/
        exists j s, k = (i + j)%nat /\ (r :: regs) !! j = Some s /\ useCount s = 0 /\
          mOffset s <> NO_OFFSET
    | inr None => lr = None /\
        forall j s, regs !! j = Some s -> mType s = GP -> useCount s = 0 ->
          mOffset s <> NO_OFFSET /\ (lru s = NO_LRU_VALUE \/ lv <= lru s)
    end) as IH'.
  { intros lr' lv'. specialize (IH (S i) lr' lv').
    destruct (allocScan GP (S i) regs lr' lv') as [k|[k|]]; try done.
    - destruct IH as (j & s & -> & Hj & H). exists (S j), s. split; [lia|done].
    - destruct IH as [->|(j & s & -> & Hj & H)]; [by left|right].
      exists (S j), s. split; [lia|done]. }
  clear IH. cbn [allocScan]. case_bool_decide as Ht.
  { specialize (IH' lr lv). destruct (allocScan GP (S i) regs lr lv) as [|[|]]; try done.
    destruct IH' as [-> IH']. split; [done|]. intros [|j] s Hj; [by injection Hj as <-|eauto]. }
  destruct (Z.eqb_spec (useCount r) 0) as [Hu|Hu].
  2: { specialize (IH' lr lv). destruct (allocScan GP (S i) regs lr lv) as [|[|]]; try done.
    destruct IH' as [-> IH']. split; [done|]. intros [|j] s Hj; [by injection Hj as <-|eauto]. }
  destruct (Z.eqb_spec (mOffset r) NO_OFFSET) as [Ho|Ho].
  { exists 0%nat, r. split; [lia|done]. }
  destruct ((lru r !=? NO_LRU_VALUE) && (lru r <? lv)) eqn:E.
  - specialize (IH' (Some i) (lru r)).
    destruct (allocScan GP (S i) regs (Some i) (lru r)) as [|[k|]]; try done.
    + destruct IH' as [[= ->]|IH']; right; [|done]. exists 0%nat, r. split; [lia|done].
    + by destruct IH'.
  - specialize (IH' lr lv). destruct (allocScan GP (S i) regs lr lv) as [|[|]]; try done.
    destruct IH' as [-> IH']. split; [done|]. intros [|j] s Hj; [|eauto].
    injection Hj as <-. intros _ _. split; [done|]. lia.
Qed.

(** Nine registers, fewer than nine handles: one register is in nobody's hands. *)
Lemma unused_register L : (length L < 9)%nat -> exists i, (i < 9)%nat /\ uses i L = 0%nat.
Proof.
  intros Hs. destruct (decide (Forall (fun i => i ∈ map fst L) (seq 0 9))) as [Hall|Hn].
  - exfalso. assert (length (seq 0 9) <= length (map fst L))%nat as Hle.
    { apply NoDup_incl_length; [apply NoDup_ListNoDup, NoDup_seq|]. intros i Hi.
      rewrite Forall_forall in Hall. apply list_elem_of_In, Hall. by apply list_elem_of_In. }
    rewrite length_seq, length_map in Hle. lia.
  - apply not_Forall_Exists in Hn; [|apply _]. apply Exists_exists in Hn as (i & Hi & Hn).
    exists i. apply elem_of_seq in Hi. split; [lia|]. unfold uses.
    apply count_occ_not_In. intros Hin. apply Hn. by apply list_elem_of_In.
Qed.

(** The assembler before [allocReg] takes register [i], and after. *)
Definition emptied (i : nat) (r : HostReg) (a : Asm) : Asm :=
  if mOffset r =? NO_OFFSET then a else evicted i r a.
Definition taken (i : nat) (a : Asm) : Asm := set_mRegs (alter incUse i (mRegs a)) a.

Lemma emptied_lookup a i r : mRegs a !! i = Some r ->
  exists r', mRegs (emptied i r a) !! i = Some r' /\ mOffset r' = NO_OFFSET /\
    (r' = r \/ r' = cleared r).
Proof.
  intros Hr. unfold emptied. destruct (Z.eqb_spec (mOffset r) NO_OFFSET).
  - exists r. auto.
  - exists (cleared r). simpl. rewrite list_lookup_alter_eq, Hr. auto.
Qed.

Lemma emptied_lookup_ne a i r j : j <> i -> mRegs (emptied i r a) !! j = mRegs a !! j.
Proof.
  intros Hne. unfold emptied. destruct (_ =? _); [done|]. simpl. by rewrite list_lookup_alter_ne.
Qed.

Lemma holds_emptied a L n i r :
  holds a L n -> mRegs a !! i = Some r -> uses i L = 0%nat -> holds (emptied i r a) L n.
Proof.
  intros HL Hr Hu. unfold emptied. destruct (_ =? _); [done|]. by apply holds_evicted.
Qed.

(** While fewer than nine handles are alive, [allocReg] finds a register that none of
    them is for, writing back the guest register it held. *)
Lemma allocReg_spec a L n : holds a L n -> (length L < 9)%nat ->
  exists i r, mRegs a !! i = Some r /\ uses i L = 0%nat /\
    allocReg GP a = Some (i, taken i (emptied i r a)) /\
    holds (taken i (emptied i r a)) ((i, NO_OFFSET) :: L) n.
Proof.
  intros HL Hs.
  assert (forall i r, mRegs a !! i = Some r -> uses i L = 0%nat ->
            holds (taken i (emptied i r a)) ((i, NO_OFFSET) :: L) n) as Htake.
  { intros i r Hr Hu. destruct (emptied_lookup a i r Hr) as (r' & Hr' & Ho & _).
    rewrite <-Ho. apply holds_incUse; [by apply holds_emptied|done|lia]. }
  pose proof (allocScan_spec 0 (mRegs a) None NO_LRU_VALUE) as Hscan.
  unfold allocReg, mbind, J_bind, getAsm.
  destruct (allocScan GP 0 (mRegs a) None NO_LRU_VALUE) as [k|[k|]].
  - destruct Hscan as (j & r & -> & Hr & Hu & Ho). rewrite Nat.add_0_l.
    assert (uses j L = 0%nat) as Hu' by (rewrite (ho_use _ _ _ HL j r Hr) in Hu; lia).
    exists j, r. split; [done|]. split; [done|]. split; [|by apply Htake].
    unfold emptied. by rewrite (proj2 (Z.eqb_eq _ _) Ho).
  - destruct Hscan as [|(j & r & -> & Hr & Hu & Ho)]; [done|]. rewrite Nat.add_0_l.
    assert (uses j L = 0%nat) as Hu' by (rewrite (ho_use _ _ _ HL j r Hr) in Hu; lia).
    exists j, r. split; [done|]. split; [done|]. split; [|by apply Htake].
    rewrite (envict_run a L n j r) by done. unfold emptied.
    by rewrite (proj2 (Z.eqb_neq _ _) Ho).
  - exfalso. destruct Hscan as [_ Hscan]. destruct (unused_register L Hs) as (i & Hi & Hu).
    destruct (holds_lookup _ _ _ _ HL Hi) as [r Hr].
    pose proof (ho_reg _ _ _ HL i r Hr) as Hok.
    destruct (Hscan i r Hr (ro_type _ _ Hok)) as [Ho Hl].
    { rewrite (ho_use _ _ _ HL i r Hr). lia. }
    pose proof (ro_cached _ _ Hok Ho). pose proof (ro_lru _ _ Hok). lia.
Qed.

Lemma allocGpTemp_ok a L n sz : holds a L n -> (length L < 9)%nat ->
  cok (allocGpTemp sz) a (fun h a' => mSize h = sz /\ mWrittenOnUse h = false /\
    holds a' ((mReg h, NO_OFFSET) :: L) n).
Proof.
  intros HL Hs. destruct (allocReg_spec a L n HL Hs) as (i & r & _ & _ & Hf & HL').
  apply cok_bind. exists i, (taken i (emptied i r a)). split; [done|]. by apply cok_ret.
Qed.

(** *** [loadGpRegister] *)

Lemma findFrom_spec off i regs :
  match findFrom off i regs with
  | Some k => exists j r, k = (i + j)%nat /\ regs !! j = Some r /\ mOffset r = off
  | None => forall j r, regs !! j = Some r -> mOffset r <> off
  end.
Proof.
  revert i. induction regs as [|r regs IH]; intros i; cbn [findFrom]; [done|].
  destruct (Z.eqb_spec (mOffset r) off) as [E|E].
  - exists 0%nat, r. split; [lia|done].
  - specialize (IH (S i)). destruct (findFrom off (S i) regs) as [k|].
    + destruct IH as (j & s & -> & Hj & Ho). exists (S j), s. split; [lia|done].
    + intros [|j] s Hj; [by injection Hj as <-|by eapply IH].
Qed.

(** What [loadGpRegister] makes of the register it picks. *)
Definition loadedReg (off clock : Z) (loadReg : bool) (r : HostReg) : HostReg :=
  mkHostReg (mType r) (mRegID r) (u32 (useCount r + 1)) clock off (mModified r)
    (mLoaded r || loadReg).
Definition loadCode (ref : X86Mem) (loadReg : bool) (r : HostReg) : list HostInst :=
  if loadReg && negb (mLoaded r)
  then [Ins Mov [OReg (gpOf (mRegID r) 8); OMem ref]] else [].
Definition loadedAsm (ref : X86Mem) (loadReg : bool) (i : nat) (r : HostReg) (a : Asm) : Asm :=
  set_lruCounter (u64 (lruCounter a + 1))
    (set_mRegs (alter (loadedReg (memOffset ref) (lruCounter a) loadReg) i (mRegs a))
       (set_code (code a ++ loadCode ref loadReg r) a)).

(** The register [i] is ready for the guest register at [off] in [e]: it holds it
    already, or it has been emptied. *)
Definition readyFor (off : Z) (a : Asm) (L : list Handle) (i : nat) (r : HostReg) (e : Asm) : Prop :=
  mRegs e !! i = Some r /\
  (e = a /\ mOffset r = off \/
   mOffset r = NO_OFFSET /\ uses i L = 0%nat /\
   (exists s, mRegs a !! i = Some s /\ e = emptied i s a) /\
   (forall j s, mRegs a !! j = Some s -> mOffset s <> off)).

Lemma readyFor_other off a L i r e j s :
  readyFor off a L i r e -> j <> i -> mRegs e !! j = Some s -> mRegs a !! j = Some s.
Proof.
  intros [_ [[-> _]|(_ & _ & (t & Ht & ->) & _)]] Hne Hj; [done|].
  by rewrite emptied_lookup_ne in Hj.
Qed.

Lemma emptied_code_lru i r a : lruCounter (emptied i r a) = lruCounter a.
Proof. unfold emptied. by destruct (_ =? _). Qed.

Lemma alter_alter {A} (f g : A -> A) i (l : list A) :
  alter f i (alter g i l) = alter (fun x => f (g x)) i l.
Proof. apply list_alter_alter_eq. Qed.

Lemma alter_ext_at {A} (f g : A -> A) i (l : list A) x :
  l !! i = Some x -> f x = g x -> alter f i l = alter g i l.
Proof. intros Hl E. apply list_alter_ext; [|done]. intros y Hy. congruence. Qed.

(** The end of [loadGpRegister], once the register is chosen and counted. *)
Lemma load_tail e i r ref lr w a1 (f : HostReg -> HostReg) :
  mRegs e !! i = Some r ->
  a1 = set_mRegs (alter f i (mRegs e)) e ->
  (forall x, x = r -> f x = mkHostReg (mType x) (mRegID x) (u32 (useCount x + 1)) (lru x)
     (memOffset ref) (mModified x) (mLoaded x)) ->
  (reg ← getReg i;
   (if lr && negb (mLoaded reg) then
      emit Mov [OReg (gpOf (mRegID reg) 8); OMem ref];;
      updReg i (set_mLoaded true)
    else mret tt);;
   a ← getAsm;
   updReg i (set_lru (lruCounter a));;
   modAsm (set_lruCounter (u64 (lruCounter a + 1)));;
   mret (mkGpRegister i 8 w)) a1 = Some (mkGpRegister i 8 w, loadedAsm ref lr i r e).
Proof.
  intros Hr -> Hf. unfold mbind, J_bind, getReg, mret, J_ret.
  cbn [mRegs set_mRegs]. rewrite list_lookup_alter_eq, Hr. cbn [fmap option_fmap option_map].
  rewrite Hf by done. cbn [mLoaded mRegID mType]. unfold loadedAsm, loadCode.
  destruct (lr && negb (mLoaded r)) eqn:E; cbn -[alter u64 u32]; unfold getAsm, set_mRegs, set_code,
    set_lruCounter; cbn -[alter u64 u32]; do 3 f_equal; rewrite ?alter_alter, ?app_nil_r;
    try done.
  all: apply (alter_ext_at _ _ i (mRegs e) r Hr); rewrite Hf by done; unfold loadedReg, set_lru,
    set_mLoaded; simpl; f_equal; destruct lr, (mLoaded r); simpl in *; congruence.
Qed.

Lemma holds_loaded a e L n i r ref lr :
  holds e L n -> readyFor (memOffset ref) a L i r e -> (length L < 9)%nat ->
  memOffset ref <> NO_OFFSET -> n < NO_LRU_VALUE ->
  holds (loadedAsm ref lr i r e) ((i, memOffset ref) :: L) (n + 1).
Proof.
  intros HL (Hr & Hcase) Hs Ho Hn. pose proof (ho_lru _ _ _ HL) as Hlru.
  unfold NO_LRU_VALUE in Hn. unfold loadedAsm. assert (u64 (lruCounter e + 1) = lruCounter e + 1) as ->.
  { apply wrap_id. unfold uint. lia. }
  pose proof (ho_reg _ _ _ HL i r Hr) as Hok.
  eapply (holds_alter (set_code _ e) L n i r); try done.
  - by apply holds_code.
  - destruct Hok as [O1 O2 O3 O4 O5 O6]. unfold loadedReg.
    constructor; cbn [mType mRegID lru mOffset mModified mLoaded]; try done.
    + unfold NO_LRU_VALUE. lia.
    + intros _. unfold NO_LRU_VALUE. lia.
    + intros Hm. by rewrite (O6 Hm).
  - apply (incUse_count e L n i r (memOffset ref) HL Hr). lia.
  - intros j Hj. by rewrite uses_cons, decide_False.
  - intros _ j s Hne Hj. destruct Hcase as [[-> E]|(_ & _ & (t & Ht & ->) & Hno)].
    + cbn [loadedReg mOffset]. rewrite <-E in *. by apply (holds_offset_ne a L n i j r s).
    + cbn [mRegs set_code] in Hj. rewrite emptied_lookup_ne in Hj by done. by apply (Hno j).
  - intros j o [E|Hin]%elem_of_cons.
    + injection E as -> ->. by rewrite decide_True.
    + case_decide as E; [|done]. subst j. cbn [loadedReg mOffset].
      destruct Hcase as [[-> <-]|(_ & Hu & _)].
      * destruct (ho_own _ _ _ HL i o Hin) as (s & Hs' & <-). congruence.
      * apply uses_pos in Hin. lia.
  - simpl. lia.
  - simpl. lia.
Qed.

Lemma loadGpRegister_spec a L n ref lr w :
  holds a L n -> (length L < 9)%nat -> memOffset ref <> NO_OFFSET -> n < NO_LRU_VALUE ->
  exists e i r, holds e L n /\ readyFor (memOffset ref) a L i r e /\
    loadGpRegister ref lr w a = Some (mkGpRegister i 8 w, loadedAsm ref lr i r e) /\
    holds (loadedAsm ref lr i r e) ((i, memOffset ref) :: L) (n + 1).
Proof.
  intros HL Hs Ho Hn. unfold loadGpRegister.
  pose proof (findFrom_spec (memOffset ref) 0 (mRegs a)) as Hfind.
  rewrite (J_bind_some getAsm _ a a a) by done. unfold findReg.
  destruct (findFrom (memOffset ref) 0 (mRegs a)) as [k|].
  - destruct Hfind as (i & r & -> & Hr & Hoff). rewrite Nat.add_0_l.
    assert (readyFor (memOffset ref) a L i r a) as Hready by (split; [done|by left]).
    exists a, i, r. split; [done|]. split; [done|]. split; [|by eapply holds_loaded].
    pose proof (ho_reg _ _ _ HL i r Hr) as Hok.
    rewrite (J_bind_some _ _ a i (taken i a)).
    + eapply (load_tail a i r ref lr w _ incUse); [done..|]. intros x ->.
      unfold incUse, set_useCount. by rewrite Hoff.
    + rewrite (J_bind_some _ _ a r a) by (unfold getReg; by rewrite Hr).
      by rewrite bool_decide_true by apply Hok.
  - destruct (allocReg_spec a L n HL Hs) as (i & r & Hr & Hu & Hf & _).
    destruct (emptied_lookup a i r Hr) as (r' & Hr' & Ho' & _).
    assert (readyFor (memOffset ref) a L i r' (emptied i r a)) as Hready.
    { split; [done|]. right. split; [done|]. split; [done|]. split; [by exists r|]. done. }
    exists (emptied i r a), i, r'. split; [by apply holds_emptied|]. split; [done|].
    split; [|eapply holds_loaded; [by apply holds_emptied|done..]].
    rewrite (J_bind_some _ _ a i
      (set_mRegs (alter (fun x => set_mOffset (memOffset ref) (incUse x)) i
         (mRegs (emptied i r a))) (emptied i r a))).
    + by eapply (load_tail (emptied i r a) i r' ref lr w).
    + rewrite (J_bind_some _ _ _ _ _ Hf). unfold taken, updReg, modAsm, mbind, J_bind, mret, J_ret,
        set_mRegs. cbn -[alter]. by rewrite alter_alter.
Qed.

Lemma loadGpRegister_ok a L n ref lr w :
  holds a L n -> (length L < 9)%nat -> memOffset ref <> NO_OFFSET -> n < NO_LRU_VALUE ->
  cok (loadGpRegister ref lr w) a (fun h a' => mSize h = 8 /\ mWrittenOnUse h = w /\
    holds a' ((mReg h, memOffset ref) :: L) (n + 1)).
Proof.
  intros HL Hs Ho Hn.
  destruct (loadGpRegister_spec a L n ref lr w HL Hs Ho Hn) as (e & i & r & _ & _ & Hf & HL').
  eexists _, _. split; [exact Hf|]. by split.
Qed.

(** ** Statements

    [sameRegs W a a']: from [a] to [a'] only the registers [W] have been marked as
    modified, uses and clock aside. *)
Definition sameRegs (W : list nat) (a a' : Asm) : Prop :=
  currentPC a' = currentPC a /\ labels a' = labels a /\
  forall i r', mRegs a' !! i = Some r' ->
    exists r, mRegs a !! i = Some r /\ mOffset r' = mOffset r /\
      mModified r' = mModified r || bool_decide (i ∈ W) /\
      mLoaded r' = mLoaded r || bool_decide (i ∈ W).

Lemma sameRegs_refl a : sameRegs [] a a.
Proof.
  split; [done|]. split; [done|]. intros i r Hr. exists r.
  by rewrite bool_decide_false, !orb_false_r by (apply not_elem_of_nil).
Qed.

Lemma sameRegs_trans W1 W2 a b c :
  sameRegs W1 a b -> sameRegs W2 b c -> sameRegs (W1 ++ W2) a c.
Proof.
  intros (P1 & Q1 & R1) (P2 & Q2 & R2). split; [congruence|]. split; [congruence|].
  intros i r'' (r' & Hr' & Ho' & Hm' & Hl')%R2.
  destruct (R1 i r' Hr') as (r & Hr & Ho & Hm & Hl). exists r.
  split; [done|]. split; [congruence|]. rewrite Hm', Hl', Hm, Hl.
  rewrite <-!orb_assoc. rewrite <-bool_decide_or.
  by rewrite (bool_decide_ext (i ∈ W1 ++ W2) (i ∈ W1 \/ i ∈ W2)) by (by rewrite elem_of_app).
Qed.

Lemma sameRegs_alter W a c (f : HostReg -> HostReg) i :
  (forall r, mOffset (f r) = mOffset r /\
     mModified (f r) = mModified r || bool_decide (i ∈ W) /\
     mLoaded (f r) = mLoaded r || bool_decide (i ∈ W)) ->
  (forall j, j ∈ W -> j = i) ->
  sameRegs W a (set_lruCounter c (set_mRegs (alter f i (mRegs a)) a)).
Proof.
  intros Hf HW. split; [done|]. split; [done|]. intros j r' Hj. cbn [mRegs set_mRegs set_lruCounter] in Hj.
  destruct (decide (j = i)) as [->|Hne].
  - rewrite list_lookup_alter_eq in Hj. destruct (mRegs a !! i) as [r|]; [|done].
    injection Hj as <-. by exists r.
  - rewrite list_lookup_alter_ne in Hj by done. exists r'.
    by rewrite bool_decide_false, !orb_false_r by (intros ?%HW; done).
Qed.

Lemma sameRegs_taken i a : sameRegs [] a (taken i a).
Proof.
  apply (sameRegs_alter [] a (lruCounter a)); [|by intros j ?%elem_of_nil].
  intros r. by rewrite bool_decide_false, !orb_false_r by (apply not_elem_of_nil).
Qed.

Lemma sameRegs_release h a : sameRegs [] a (set_mRegs (alter decUse (mReg h) (mRegs a)) a).
Proof.
  apply (sameRegs_alter [] a (lruCounter a)); [|by intros j ?%elem_of_nil].
  intros r. by rewrite bool_decide_false, !orb_false_r by (apply not_elem_of_nil).
Qed.

(** The handles statements may use while [L] are alive. *)
Definition handle_ok (L : list Handle) (h : GpRegister) : Prop :=
  (mSize h = 1 \/ mSize h = 2 \/ mSize h = 4 \/ mSize h = 8) /\
  exists o, (mReg h, o) ∈ L /\ (mWrittenOnUse h = true -> o <> NO_OFFSET).

Definition written (h : GpRegister) : list nat := if mWrittenOnUse h then [mReg h] else [].

(** The register of a handle. *)
Definition gp (i : nat) : Gp.t := nth i mGpRegs Gp.rax.
Definition opOfHandle (size : Z) (h : GpRegister) : Operand := OReg (mkGp (gp (mReg h)) size).

Definition marked (h : GpRegister) (a : Asm) : Asm :=
  set_lruCounter (u64 (lruCounter a + 1))
    (set_mRegs (alter (fun r => mkHostReg (mType r) (mRegID r) (useCount r) (lruCounter a)
                                  (mOffset r) (mModified r || mWrittenOnUse h)
                                  (mLoaded r || mWrittenOnUse h)) (mReg h) (mRegs a)) a).

Lemma toGp_spec a L n h :
  holds a L n -> handle_ok L h -> n < NO_LRU_VALUE ->
  toGp h a = Some (mkGp (gp (mReg h)) (mSize h), marked h a) /\
  holds (marked h a) L (n + 1) /\ sameRegs (written h) a (marked h a).
Proof.
  intros HL (Hsz & o & Hin & Hw) Hn. pose proof (ho_lru _ _ _ HL) as Hlru.
  destruct (ho_own _ _ _ HL _ _ Hin) as (r & Hr & Ho). pose proof (ho_reg _ _ _ HL _ _ Hr) as Hok.
  split_and!.
  - assert (markWritten h a = Some (tt, marked h a)) as Hm.
    { unfold markWritten, marked, mbind, J_bind, getAsm, updReg, modAsm, mret, J_ret.
      destruct (mWrittenOnUse h) eqn:E; unfold set_mRegs, set_lruCounter; cbn -[alter u64];
        rewrite ?alter_alter; do 3 f_equal; apply (alter_ext_at _ _ _ _ _ Hr); cbn;
        by rewrite ?orb_true_r, ?orb_false_r. }
    unfold toGp. rewrite (J_bind_some _ _ _ _ _ Hm).
    rewrite (J_bind_some (getReg (mReg h)) _ (marked h a)
      (mkHostReg (mType r) (mRegID r) (useCount r) (lruCounter a) (mOffset r)
        (mModified r || mWrittenOnUse h) (mLoaded r || mWrittenOnUse h)) (marked h a)).
    2: { unfold getReg, marked. cbn [mRegs set_mRegs set_lruCounter].
         by rewrite list_lookup_alter_eq, Hr. }
    cbn [mRegID]. rewrite (ro_id _ _ Hok). unfold gpOf. rewrite Nat2Z.id.
    by destruct Hsz as [->|[->|[->| ->]]].
  - unfold NO_LRU_VALUE in Hn. unfold marked.
    assert (u64 (lruCounter a + 1) = lruCounter a + 1) as ->.
    { apply wrap_id. unfold uint. lia. }
    eapply holds_alter; try done.
    + destruct Hok as [O1 O2 O3 O4 O5 O6]. constructor; cbn; try done.
      * unfold NO_LRU_VALUE. lia.
      * intros _. unfold NO_LRU_VALUE. lia.
      * intros E. destruct (mWrittenOnUse h); [exfalso; apply Hw; congruence|].
        by rewrite !orb_false_r; apply O5.
      * destruct (mWrittenOnUse h); [by rewrite !orb_true_r|]. rewrite !orb_false_r. exact O6.
    + apply (ho_use _ _ _ HL _ _ Hr).
    + intros Hn' j s Hne Hj. by apply (holds_offset_ne a L n (mReg h) j r s).
    + intros j o' Hin'. case_decide as E; [|done]. subst j.
      destruct (ho_own _ _ _ HL _ _ Hin') as (r' & Hr' & Ho'). cbn. congruence.
    + lia.
    + apply (ho_small _ _ _ HL).
  - apply sameRegs_alter.
    + intros r0. cbn. unfold written. destruct (mWrittenOnUse h).
      * by rewrite bool_decide_true by (by left).
      * by rewrite bool_decide_false by (apply not_elem_of_nil).
    + intros j. unfold written. destruct (mWrittenOnUse h); [|by intros ?%elem_of_nil].
      by intros ?%list_elem_of_singleton.
Qed.

(** *** Arguments and statements *)

Definition argHandle (x : Arg) : option GpRegister :=
  match x with H r | H8 r | H32 r => Some r | _ => None end.
Definition arg_ok (L : list Handle) (x : Arg) : Prop :=
  match argHandle x with Some h => handle_ok L h | None => True end.
Definition writtenArg (x : Arg) : list nat :=
  match argHandle x with Some h => written h | None => [] end.
Definition opOf (x : Arg) : Operand :=
  match x with
  | H r => opOfHandle (mSize r) r
  | H8 r => opOfHandle 1 r
  | H32 r => opOfHandle 4 r
  | R r => OReg r
  | M m => OMem m
  | I v => OImm v
  | P p => OPtr p
  | L l => OLabel l
  end.
Definition tempsOf (x : Arg) : list GpRegister :=
  match x with
  | H8 r => [mkGpRegister (mReg r) 1 (mWrittenOnUse r)]
  | H32 r => [mkGpRegister (mReg r) 4 (mWrittenOnUse r)]
  | _ => []
  end.

(** The handles of the temporaries of statements. *)
Definition tempHandles (a : Asm) (ts : list GpRegister) : list Handle :=
  map (fun t => (mReg t, match mRegs a !! mReg t with Some r => mOffset r | None => 0 end)) ts.

Lemma evalArg_spec a L n x :
  holds a L n -> arg_ok L x -> n < NO_LRU_VALUE -> (length L < 20)%nat ->
  exists a', evalArg x a = Some ((opOf x, tempsOf x), a') /\
    holds a' (tempHandles a (tempsOf x) ++ L) (n + 1) /\
    sameRegs (writtenArg x) a a' /\ code a' = code a.
Proof.
  intros HL Hx Hn Hs.
  assert (forall r sz, handle_ok L r -> sz = 1 \/ sz = 4 ->
    exists a', (t ← withSize sz r; g ← toGp t; mret (OReg g, [t])) a =
        Some ((opOfHandle sz r, [mkGpRegister (mReg r) sz (mWrittenOnUse r)]), a') /\
      holds a' (tempHandles a [mkGpRegister (mReg r) sz (mWrittenOnUse r)] ++ L) (n + 1) /\
      sameRegs (written r) a a' /\ code a' = code a) as Hsized.
  { intros r sz (_ & o & Hin & Hw) Hsz.
    destruct (ho_own _ _ _ HL _ _ Hin) as (reg & Hreg & Ho).
    set (t := mkGpRegister (mReg r) sz (mWrittenOnUse r)).
    assert (holds (taken (mReg r) a) ((mReg r, o) :: L) n) as HL1.
    { rewrite <-Ho. by apply holds_incUse. }
    destruct (toGp_spec _ _ _ t HL1) as (Hf & HL2 & Hsame); [|done|].
    { split; [unfold t; simpl; lia|]. exists o. split; [by left|done]. }
    exists (marked t (taken (mReg r) a)). split_and!.
    - unfold withSize. rewrite (J_bind_some _ _ a t (taken (mReg r) a)) by done.
      by rewrite (J_bind_some _ _ _ _ _ Hf).
    - unfold tempHandles. cbn [map app t mReg]. by rewrite Hreg, Ho.
    - eapply (sameRegs_trans [] (written r)); [apply sameRegs_taken|]. done.
    - done. }
  assert (forall r, handle_ok L r ->
    exists a', (g ← toGp r; mret (OReg g, ([] : list GpRegister))) a =
        Some ((opOfHandle (mSize r) r, []), a') /\
      holds a' L (n + 1) /\ sameRegs (written r) a a' /\ code a' = code a) as Hplain.
  { intros r Hok. destruct (toGp_spec _ _ _ r HL Hok Hn) as (Hf & HL1 & Hsame).
    exists (marked r a). split_and!; try done. by rewrite (J_bind_some _ _ _ _ _ Hf). }
  assert (exists a', Some (opOf x, tempsOf x, a) = Some (opOf x, tempsOf x, a') /\
    holds a' L (n + 1) /\ sameRegs [] a a' /\ code a' = code a) as Hnone.
  { exists a. split_and!; try done; [|apply sameRegs_refl]. eapply holds_le; [done|lia]. }
  destruct x; simpl in Hx; try exact Hnone.
  - by apply Hplain.
  - apply Hsized; [done|lia].
  - apply Hsized; [done|lia].
Qed.

Lemma handle_ok_mono L L' h : (forall x, x ∈ L -> x ∈ L') -> handle_ok L h -> handle_ok L' h.
Proof. intros HL (Hs & o & Hin & Hw). split; [done|]. exists o. auto. Qed.

Lemma arg_ok_mono L L' x : (forall y, y ∈ L -> y ∈ L') -> arg_ok L x -> arg_ok L' x.
Proof. intros HL. unfold arg_ok. destruct (argHandle x); [|done]. by apply handle_ok_mono. Qed.

Lemma evalArgs_spec a L n xs :
  holds a L n -> Forall (arg_ok L) xs -> n + Z.of_nat (length xs) <= NO_LRU_VALUE ->
  (length L + length xs <= 20)%nat ->
  exists a' ts hs, evalArgs xs a = Some ((map opOf xs, ts), a') /\
    holds a' (hs ++ L) (n + Z.of_nat (length xs)) /\ map mReg ts = map fst (rev hs) /\
    (length hs <= length xs)%nat /\
    sameRegs (concat (map writtenArg xs)) a a' /\ code a' = code a.
Proof.
  revert a L n. induction xs as [|x xs IH]; intros a L n HL Hxs Hn Hs.
  { exists a, [], []. split_and!; try done; [|apply sameRegs_refl]. simpl. by rewrite Z.add_0_r. }
  apply Forall_cons in Hxs as [Hx Hxs]. simpl length in *.
  destruct (evalArg_spec a L n x HL Hx) as (b & Hf & HLb & Hsame & Hcode); [lia|lia|].
  assert (length (tempHandles a (tempsOf x)) <= 1)%nat as Hlen.
  { unfold tempHandles. rewrite length_map. destruct x; simpl; lia. }
  destruct (IH b (tempHandles a (tempsOf x) ++ L) (n + 1) HLb)
    as (c & ts & hs & Hf' & HLc & Hts & Hhs & Hsame' & Hcode').
  { eapply Forall_impl; [exact Hxs|]. intros y. apply arg_ok_mono. intros z Hz.
    apply elem_of_app. by right. }
  { lia. }
  { rewrite length_app. lia. }
  exists c, (tempsOf x ++ ts), (hs ++ tempHandles a (tempsOf x)). split_and!.
  - cbn [evalArgs map]. rewrite (J_bind_some _ _ _ _ _ Hf). by rewrite (J_bind_some _ _ _ _ _ Hf').
  - rewrite <-app_assoc. replace (n + Z.of_nat (S (length xs))) with (n + 1 + Z.of_nat (length xs)) by lia.
    done.
  - rewrite map_app, Hts, rev_app_distr, map_app. f_equal. unfold tempHandles.
    destruct x; done.
  - rewrite length_app. lia.
  - by eapply sameRegs_trans.
  - congruence.
Qed.

Lemma releaseAll_spec a L n ts hs :
  holds a (hs ++ L) n -> map mReg ts = map fst hs ->
  exists a', releaseAll ts a = Some (tt, a') /\ holds a' L n /\ sameRegs [] a a' /\
    code a' = code a.
Proof.
  revert a hs. induction ts as [|t ts IH]; intros a hs HL Hts.
  { destruct hs; [|done]. exists a. split_and!; try done. apply sameRegs_refl. }
  destruct hs as [|[i o] hs]; [done|]. simpl in Hts. injection Hts as <- Hts.
  assert (holds (set_mRegs (alter decUse (mReg t) (mRegs a)) a) (hs ++ L) n) as HL1
    by (by eapply holds_decUse).
  destruct (IH _ hs HL1 Hts) as (c & Hf & HLc & Hsame & Hcode). exists c. split_and!.
  - cbn [releaseAll]. by rewrite (J_bind_some (release t) _ a tt
      (set_mRegs (alter decUse (mReg t) (mRegs a)) a)).
  - done.
  - apply (sameRegs_trans [] [] _ _ _ (sameRegs_release t a) Hsame).
  - done.
Qed.

(** A statement appends its instruction and marks the handles that write. *)
Lemma ins_spec a L n m xs :
  holds a L n -> Forall (arg_ok L) xs -> n + Z.of_nat (length xs) <= NO_LRU_VALUE ->
  (length L + length xs <= 20)%nat ->
  exists a', ins m xs a = Some (tt, a') /\ holds a' L (n + Z.of_nat (length xs)) /\
    sameRegs (concat (map writtenArg xs)) a a' /\ code a' = code a ++ [Ins m (map opOf xs)].
Proof.
  intros HL Hxs Hn Hs.
  destruct (evalArgs_spec a L n xs HL Hxs Hn Hs) as (b & ts & hs & Hf & HLb & Hts & _ & Hsame & Hcode).
  destruct (releaseAll_spec (set_code (code b ++ [Ins m (map opOf xs)]) b) L
    (n + Z.of_nat (length xs)) ts (rev hs)) as (c & Hf' & HLc & Hsame' & Hcode').
  { apply holds_code. eapply holds_perm; [|exact HLb]. apply Permutation_app_tail, Permutation_rev. }
  { done. }
  exists c. split_and!.
  - unfold ins. rewrite (J_bind_some _ _ _ _ _ Hf). cbn beta iota.
    by rewrite (J_bind_some (emit m (map opOf xs)) _ b tt
      (set_code (code b ++ [Ins m (map opOf xs)]) b)).
  - done.
  - rewrite <-(app_nil_r (concat _)). by eapply sameRegs_trans.
  - rewrite Hcode'. cbn [code set_code]. by rewrite Hcode.
Qed.

Lemma ins_ok a L n m xs :
  holds a L n -> Forall (arg_ok L) xs -> n + Z.of_nat (length xs) <= NO_LRU_VALUE ->
  (length L + length xs <= 20)%nat ->
  cok (ins m xs) a (fun _ a' => holds a' L (n + Z.of_nat (length xs))).
Proof.
  intros HL Hxs Hn Hs. destruct (ins_spec a L n m xs HL Hxs Hn Hs) as (a' & Hf & HL' & _).
  by exists tt, a'.
Qed.

(** *** [envictAll] *)

Definition temporary (L : list Handle) : Prop := forall i o, (i, o) ∈ L -> o = NO_OFFSET.
Definition noCache (a : Asm) : Prop := forall i r, mRegs a !! i = Some r -> mOffset r = NO_OFFSET.

Fixpoint emptiedFrom (i n : nat) (a : Asm) : Asm :=
  match n with
  | O => a
  | S n => emptiedFrom (S i) n match mRegs a !! i with Some r => emptied i r a | None => a end
  end.

Lemma uses_cached a L n i r :
  holds a L n -> temporary L -> mRegs a !! i = Some r -> mOffset r <> NO_OFFSET ->
  uses i L = 0%nat.
Proof.
  intros HL Ht Hr Ho. unfold uses. apply count_occ_not_In. intros Hin.
  apply in_map_iff in Hin as ([j o] & Hj & Hin). simpl in Hj. subst j.
  apply list_elem_of_In in Hin. destruct (ho_own _ _ _ HL _ _ Hin) as (r' & Hr' & Ho').
  rewrite (Ht _ _ Hin) in Ho'. congruence.
Qed.

Lemma holds_emptied' a L n i r :
  holds a L n -> temporary L -> mRegs a !! i = Some r -> holds (emptied i r a) L n.
Proof.
  intros HL Ht Hr. unfold emptied. destruct (Z.eqb_spec (mOffset r) NO_OFFSET); [done|].
  apply holds_evicted; [done..|]. by eapply uses_cached.
Qed.

Lemma envictFrom_spec k : forall i a L n,
  holds a L n -> temporary L -> (i + k = 9)%nat ->
  envictFrom i k a = Some (tt, emptiedFrom i k a) /\ holds (emptiedFrom i k a) L n /\
  ((forall j r, (j < i)%nat -> mRegs a !! j = Some r -> mOffset r = NO_OFFSET) ->
   noCache (emptiedFrom i k a)).
Proof.
  induction k as [|k IH]; intros i a L n HL Ht Hi; cbn [envictFrom emptiedFrom].
  { split_and!; [done|done|]. intros Hn j r Hj. apply (Hn j r); [|done].
    pose proof (holds_index _ _ _ _ _ HL Hj). lia. }
  destruct (holds_lookup a L n i HL) as [r Hr]; [lia|]. rewrite Hr.
  assert (holds (emptied i r a) L n) as HL' by (by eapply holds_emptied').
  destruct (IH (S i) (emptied i r a) L n HL' Ht) as (Hf & HL'' & Hno); [lia|].
  split_and!; [|done|].
  - rewrite (J_bind_some (getReg i) _ a r a) by (unfold getReg; by rewrite Hr).
    rewrite (J_bind_some _ _ a tt (emptied i r a)); [done|].
    unfold emptied. destruct (Z.eqb_spec (mOffset r) NO_OFFSET) as [E|E]; [done|]. simpl.
    apply (envict_run a L n i r HL Hr); [exact (uses_cached a L n i r HL Ht Hr E)|done].
  - intros Hn. apply Hno. intros j s Hj Hs. destruct (decide (j = i)) as [->|Hne].
    + destruct (emptied_lookup a i r Hr) as (r' & Hr' & Ho & _). congruence.
    + rewrite emptied_lookup_ne in Hs by done. apply (Hn j s); [lia|done].
Qed.

Lemma envictAll_spec a L n :
  holds a L n -> temporary L ->
  envictAll a = Some (tt, emptiedFrom 0 9 a) /\ holds (emptiedFrom 0 9 a) L n /\
  noCache (emptiedFrom 0 9 a).
Proof.
  intros HL Ht. destruct (envictFrom_spec 9 0 a L n HL Ht eq_refl) as (H1 & H2 & H3).
  split_and!; [done|done|]. apply H3. lia.
Qed.

Lemma envictAll_ok a L n :
  holds a L n -> temporary L -> cok envictAll a (fun _ a' => holds a' L n /\ noCache a').
Proof.
  intros HL Ht. destruct (envictAll_spec a L n HL Ht) as (Hf & HL' & Hno).
  by exists tt, (emptiedFrom 0 9 a).
Qed.

(** ** Instructions

    [jsteps] runs the compiler symbolically: it keeps [holds] with the handles that are
    alive, one statement at a time. *)

Lemma coreFields_GPRegs i : reg i -> fGPRegs i ∈ coreFields.
Proof.
  intros Hi. unfold reg in Hi. apply elem_of_app. left. apply list_elem_of_fmap.
  exists (Z.to_nat i). rewrite Z2Nat.id by lia. split; [done|]. apply elem_of_seq. lia.
Qed.

Lemma coreFields_VRegs i k : reg i -> k = 0 \/ k = 1 -> fVRegs i k ∈ coreFields.
Proof.
  intros Hi Hk. unfold reg in Hi. unfold coreFields. rewrite !elem_of_app, !list_elem_of_fmap.
  destruct Hk as [-> | ->]; [right; left|right; right; left];
    exists (Z.to_nat i); rewrite Z2Nat.id by lia; (split; [done|]); apply elem_of_seq; lia.
Qed.

Lemma coreFields_other f :
  f ∈ [fPC; fSP; fNextPC; fNumInsts; fN; fZ; fC; fV] -> f ∈ coreFields.
Proof. intros Hf. unfold coreFields. rewrite !elem_of_app. auto. Qed.

Ltac solve_reg :=
  first [apply reg_Rd|apply reg_Rn|apply reg_Rm|apply reg_Rt2|unfold reg; lia].
Ltac in_list := repeat first [apply list_elem_of_here | apply list_elem_of_further].
Ltac solve_field :=
  first [apply coreFields_GPRegs; solve_reg
        |apply coreFields_VRegs; [solve_reg|lia]
        |apply coreFields_other; in_list].

(** The function at the head of an application. *)
Ltac head_of t := lazymatch t with ?f _ => head_of f | _ => t end.

Section Handlers.
Context `{CoreLayoutLaws}.

Lemma offsetof_ne f : f ∈ coreFields -> offsetof f <> NO_OFFSET.
Proof.
  intros Hf. pose proof (offsetof_range f Hf). assert (0 < fieldSize f) by (destruct f; simpl; lia).
  lia.
Qed.

Lemma newLabel_ok a L n : holds a L n -> cok newLabel a (fun _ a' => holds a' L n).
Proof. intros HL. eexists _, _. split; [done|]. by apply holds_labels. Qed.
Lemma bind_label_ok l a L n : holds a L n -> cok (bind_label l) a (fun _ a' => holds a' L n).
Proof. intros HL. apply cok_mod. by apply holds_code. Qed.
Lemma emit_ok m ops a L n : holds a L n -> cok (emit m ops) a (fun _ a' => holds a' L n).
Proof. intros HL. apply cok_mod. by apply holds_code. Qed.

Lemma toGp_ok a L n h : holds a L n -> handle_ok L h -> n < NO_LRU_VALUE ->
  cok (toGp h) a (fun _ a' => holds a' L (n + 1)).
Proof. intros HL Hh Hn. destruct (toGp_spec a L n h HL Hh Hn) as (Hf & HL' & _). by eexists _, _. Qed.

(** A function of the compiler releases every handle it makes. *)
Definition balanced (f : J unit) : Prop :=
  forall a L n, holds a L n -> temporary L -> (length L <= 1)%nat -> n + 200 <= NO_LRU_VALUE ->
    cok f a (fun _ a' => holds a' L (n + 200)).

Ltac solve_offset := apply offsetof_ne; solve_field.
Ltac solve_handle :=
  split; [lia|eexists; split; [in_list|intros; first [solve_offset|congruence]]].
Ltac solve_arg := first [exact Logic.I|solve_handle].
Ltac solve_args := repeat (apply Forall_cons; split; [solve_arg|]); apply Forall_nil; exact Logic.I.

Ltac jstep :=
  match goal with
  | |- cok (mret _) _ _ => apply cok_ret
  | |- cok (_ ≫= _) _ _ => apply cok_bind
  | HL : holds ?a ?L ?n |- cok getAsm ?a _ => apply cok_get
  | HL : holds ?a ?L ?n |- cok (ins ?m ?xs) ?a _ =>
      eapply cok_conseq;
        [apply (ins_ok a L n m xs HL); [solve_args|cbn [length]; lia|cbn [length]; lia]|];
      let a' := fresh "a" in let HL' := fresh "HL" in
      intros [] a' HL'; cbn [length] in HL'; clear HL; cbv beta
  | HL : holds ?a ?L ?n |- cok (allocGpTemp ?sz) ?a _ =>
      eapply cok_conseq; [apply (allocGpTemp_ok a L n sz HL); cbn [length]; lia|];
      let h := fresh "h" in let a' := fresh "a" in let HL' := fresh "HL" in
      intros h a' (? & ? & HL'); clear HL; cbv beta
  | HL : holds ?a ?L ?n |- cok (loadGpRegister ?ref ?lr ?w) ?a _ =>
      eapply cok_conseq;
        [apply (loadGpRegister_ok a L n ref lr w HL);
           [cbn [length]; lia|cbn [memOffset coreGPRegs coreVRegs coreSPMem qword]; solve_offset|lia]|];
      let h := fresh "h" in let a' := fresh "a" in let HL' := fresh "HL" in
      intros h a' (? & ? & HL'); clear HL; cbv beta;
      cbn [memOffset coreGPRegs coreVRegs coreSPMem qword] in HL'
  | HL : holds ?a _ _ |- cok (release _) ?a _ =>
      eapply cok_conseq; [eapply release_ok; exact HL|];
      let a' := fresh "a" in let HL' := fresh "HL" in
      intros [] a' HL'; cbv beta in HL'; clear HL; cbv beta
  | HL : holds ?a ?L ?n |- cok envictAll ?a _ =>
      eapply cok_conseq;
        [apply (envictAll_ok a L n HL); unfold temporary in *; intros ? ? Hin;
         repeat apply elem_of_cons in Hin as [Hin|Hin]; [congruence..|]; eauto|];
      let a' := fresh "a" in let HL' := fresh "HL" in
      intros [] a' [HL' _]; clear HL; cbv beta
  | HL : holds ?a ?L ?n |- cok (toGp ?h) ?a _ =>
      eapply cok_conseq; [apply (toGp_ok a L n h HL); [solve_handle|lia]|];
      let a' := fresh "a" in let HL' := fresh "HL" in
      intros ? a' HL'; cbv beta in HL'; clear HL; cbv beta
  | HL : holds ?a _ _ |- cok newLabel ?a _ =>
      eapply cok_conseq; [eapply newLabel_ok; exact HL|];
      let a' := fresh "a" in let HL' := fresh "HL" in
      intros ? a' HL'; cbv beta in HL'; clear HL; cbv beta
  | HL : holds ?a _ _ |- cok (bind_label _) ?a _ =>
      eapply cok_conseq; [eapply bind_label_ok; exact HL|];
      let a' := fresh "a" in let HL' := fresh "HL" in
      intros ? a' HL'; cbv beta in HL'; clear HL; cbv beta
  | |- cok (if ?b then _ else _) _ _ => destruct b eqn:?
  | |- cok (match ?b with _ => _ end) _ _ => destruct b eqn:?
  end.
Ltac jsteps := repeat jstep; try (eapply holds_le; [eassumption|lia]).

Ltac junfold :=
  unfold movFromLoaded, movToLoaded, loadGpRegisterRead, loadGpRegisterWrite,
    loadGpRegisterReadWrite, write64ImmToMem, allocGpTempCopy, allocGpTempImm.

Ltac balance := intros a L n HL Ht Hs Hn; junfold; jsteps.

Lemma addSubImmGeneric_ok is64 isSub upd inst :
  balanced (JitDPImm.addSubImmGeneric is64 isSub upd inst).
Proof. unfold JitDPImm.addSubImmGeneric, JitDPImm.addSubImmFlags. balance. Qed.

Lemma moveWideImmGeneric_ok is64 inst : balanced (JitDPImm.moveWideImmGeneric is64 inst).
Proof. unfold JitDPImm.moveWideImmGeneric. balance. Qed.

Lemma PCRelativeGeneric_ok isPage inst : balanced (JitDPImm.PCRelativeGeneric isPage inst).
Proof. unfold JitDPImm.PCRelativeGeneric. balance. Qed.

Lemma logicalShiftedRegGeneric_ok is64 neg upd inst :
  balanced (JitDPReg.logicalShiftedRegGeneric is64 neg upd inst).
Proof. unfold JitDPReg.logicalShiftedRegGeneric, JitDPReg.shiftOperand. balance. Qed.

Lemma addSubShiftedRegGeneric_ok is64 isSub upd inst :
  balanced (JitDPReg.addSubShiftedRegGeneric is64 isSub upd inst).
Proof.
  unfold JitDPReg.addSubShiftedRegGeneric, JitDPReg.shiftOperand, JitDPReg.addSubShiftedFlags.
  balance.
Qed.

Lemma svc_ok inst : balanced (JitSystem.svc inst).
Proof. unfold JitSystem.svc. balance. Qed.

Lemma nop_ok inst : balanced (nop inst).
Proof. unfold nop. balance. Qed.

Lemma FALLBACK_ok inst : balanced (FALLBACK inst).
Proof. unfold FALLBACK. balance. Qed.

Lemma condBranch_ok gBlockMap inst : balanced (JitBranch.condBranch gBlockMap inst).
Proof.
  unfold JitBranch.condBranch, JitBranch.insertEndOfBlock, insertTestCondition. balance.
Qed.

Lemma uncondBranchRegGeneric_ok link inst : balanced (JitBranch.uncondBranchRegGeneric link inst).
Proof. unfold JitBranch.uncondBranchRegGeneric. balance. Qed.

Lemma uncondBranchImmGeneric_ok gBlockMap link inst :
  balanced (JitBranch.uncondBranchImmGeneric gBlockMap link inst).
Proof. unfold JitBranch.uncondBranchImmGeneric, JitBranch.insertEndOfBlock. balance. Qed.

Lemma storeRegImmGeneric_ok size flags inst : balanced (JitLoadStore.storeRegImmGeneric size flags inst).
Proof.
  unfold JitLoadStore.storeRegImmGeneric, JitLoadStore.movBase, JitLoadStore.writeBackAddr. balance.
Qed.

Lemma loadRegImmGeneric_ok size flags inst : balanced (JitLoadStore.loadRegImmGeneric size flags inst).
Proof.
  unfold JitLoadStore.loadRegImmGeneric, JitLoadStore.movBase, JitLoadStore.writeBackAddr. balance.
Qed.

Lemma storePairGeneric_ok size flags inst : balanced (JitLoadStore.storePairGeneric size flags inst).
Proof.
  unfold JitLoadStore.storePairGeneric, JitLoadStore.movBase, JitLoadStore.writeBackAddr. balance.
Qed.

Lemma loadPairGeneric_ok size flags inst : balanced (JitLoadStore.loadPairGeneric size flags inst).
Proof.
  unfold JitLoadStore.loadPairGeneric, JitLoadStore.movBase, JitLoadStore.writeBackAddr. balance.
Qed.

(** ** Blocks *)

Ltac balanced_handler :=
  lazymatch goal with
  | |- balanced (FALLBACK _) => apply FALLBACK_ok
  | |- balanced (nop _) => apply nop_ok
  | |- balanced (JitSystem.svc _) => apply svc_ok
  | |- balanced (JitBranch.condBranch _ _) => apply condBranch_ok
  | |- balanced (JitBranch.uncondBranchRegGeneric _ _) => apply uncondBranchRegGeneric_ok
  | |- balanced (JitBranch.uncondBranchImmGeneric _ _ _) => apply uncondBranchImmGeneric_ok
  | |- balanced (JitDPImm.addSubImmGeneric _ _ _ _) => apply addSubImmGeneric_ok
  | |- balanced (JitDPImm.moveWideImmGeneric _ _) => apply moveWideImmGeneric_ok
  | |- balanced (JitDPImm.PCRelativeGeneric _ _) => apply PCRelativeGeneric_ok
  | |- balanced (JitDPReg.logicalShiftedRegGeneric _ _ _ _) => apply logicalShiftedRegGeneric_ok
  | |- balanced (JitDPReg.addSubShiftedRegGeneric _ _ _ _) => apply addSubShiftedRegGeneric_ok
  | |- balanced (JitLoadStore.storeRegImmGeneric _ _ _) => apply storeRegImmGeneric_ok
  | |- balanced (JitLoadStore.loadRegImmGeneric _ _ _) => apply loadRegImmGeneric_ok
  | |- balanced (JitLoadStore.storePairGeneric _ _ _) => apply storePairGeneric_ok
  | |- balanced (JitLoadStore.loadPairGeneric _ _ _) => apply loadPairGeneric_ok
  | |- balanced ?t => let f := head_of t in unfold f; balanced_handler
  end.

(** A property of all registered functions is one of all functions in the table. *)
Lemma registered_all (P : J unit -> Prop) gBlockMap id :
  Forall (fun r => forall inst, P (snd r inst)) (init_registrations gBlockMap) ->
  forall f inst, gInstructionMap gBlockMap id = Some f -> P (f inst).
Proof.
  unfold gInstructionMap. generalize (init_registrations gBlockMap).
  assert (forall l g, Forall (fun r : instructionID.t * jitfptr_t => forall inst, P (snd r inst)) l ->
    (forall f, g = Some f -> forall inst, P (f inst)) ->
    forall f, fold_left (fun f r => if instructionID.eqb (fst r) id then Some (snd r) else f) l g = Some f ->
    forall inst, P (f inst)) as Hfold.
  { induction l as [|r l IH]; intros g Hl Hg h; simpl; [apply Hg|].
    apply Forall_cons in Hl as [Hr Hl]. apply IH; [done|]. intros h'.
    destruct (instructionID.eqb _ _); [|apply Hg]. by intros [= <-]. }
  intros l Hall f inst Hf. by eapply (Hfold l None Hall).
Qed.

Lemma gInstructionMap_balanced gBlockMap id f inst :
  gInstructionMap gBlockMap id = Some f -> balanced (f inst).
Proof.
  revert f inst. apply registered_all. unfold init_registrations.
  repeat (apply Forall_app; split).
  all: repeat (apply Forall_cons; split; [intros i; cbn [snd]; balanced_handler|]).
  all: apply Forall_nil; exact Logic.I.
Qed.

(** A run of [k] clock ticks at most that gives back what it takes. *)
Definition runs_within (k : Z) (f : J unit) : Prop :=
  forall a L n, holds a L n -> temporary L -> (length L <= 1)%nat -> n + k <= NO_LRU_VALUE ->
    cok f a (fun _ a' => holds a' L (n + k)).

Lemma runs_seq k k' (f : J unit) (g : unit -> J unit) :
  0 <= k' -> runs_within k f -> runs_within k' (g tt) -> runs_within (k + k') (f ≫= g).
Proof.
  intros Hk Hf Hg a L n HL Ht Hs Hn. apply cok_bind.
  eapply cok_conseq; [apply (Hf a L n); try done; lia|]. intros [] b HLb. cbv beta in HLb.
  rewrite Z.add_assoc. apply Hg; try done. lia.
Qed.

Lemma runs_le k k' (f : J unit) : k <= k' -> runs_within k f -> runs_within k' f.
Proof.
  intros Hk Hf a L n HL Ht Hs Hn. eapply cok_conseq; [apply (Hf a L n); try done; lia|].
  intros [] b HLb. eapply holds_le; [exact HLb|lia].
Qed.

Ltac runs := intros a L n HL Ht Hs Hn; junfold; jsteps.

Lemma generateInst_runs gVerify gBlockMap bits :
  runs_within 300 (generateInst gVerify gBlockMap bits).
Proof.
  unfold generateInst. apply (runs_seq 0 300); [lia| |].
  { intros a L n HL Ht Hs Hn. rewrite Z.add_0_r. by apply emit_ok. }
  cbv zeta. apply (runs_seq 10 290); [lia|runs|].
  apply (runs_seq 30 260); [lia| |].
  { destruct (gVerify && _); unfold callVerify; runs. }
  apply (runs_seq 200 60); [lia| |].
  { destruct (if instructionID.eqb _ _ then None else _) as [f|] eqn:E.
    - intros a L n HL Ht Hs Hn. destruct (instructionID.eqb _ _); [done|].
      by apply (gInstructionMap_balanced gBlockMap _ f _ E a L n).
    - intros a L n HL Ht Hs Hn. by apply FALLBACK_ok. }
  apply (runs_seq 30 30); [lia| |].
  { destruct (gVerify && _); unfold callVerify; runs. }
  intros a L n HL Ht Hs Hn. apply cok_mod. apply holds_currentPC.
  eapply holds_le; [exact HL|lia].
Qed.

Lemma generateInsts_runs gVerify gBlockMap words :
  runs_within (300 * Z.of_nat (length words)) (generateInsts gVerify gBlockMap words).
Proof.
  induction words as [|bits words IH]; cbn [generateInsts].
  - intros a L n HL Ht Hs Hn. apply cok_ret. by rewrite Z.add_0_r.
  - replace (300 * Z.of_nat (length (bits :: words)))
      with (300 + 300 * Z.of_nat (length words)) by (simpl; lia).
    apply runs_seq; [lia|apply generateInst_runs|done].
Qed.

Lemma emitNops_runs k : runs_within 0 (emitNops k).
Proof.
  induction k as [|k IH]; cbn [emitNops].
  - intros a L n HL Ht Hs Hn. apply cok_ret. by rewrite Z.add_0_r.
  - apply (runs_seq 0 0); [lia| |done].
    intros a L n HL Ht Hs Hn. rewrite Z.add_0_r. by apply emit_ok.
Qed.

Lemma holds_newAsm : holds newAsm [] 0.
Proof.
  assert (forall i r, mRegs newAsm !! i = Some r -> r = newHostReg GP (Z.of_nat i)) as Hr.
  { intros i r Hi. change (mRegs newAsm) with (map (fun i => newHostReg GP (Z.of_nat i)) (seq 0 9)) in Hi.
    rewrite list_lookup_fmap_Some in Hi. destruct Hi as (j & -> & Hj).
    apply lookup_seq in Hj as [-> _]. done. }
  constructor.
  - done.
  - intros i r ->%Hr. constructor; simpl; try done.
  - by intros i r ->%Hr.
  - intros i j r s ->%Hr ->%Hr. done.
  - intros i o Hin. by apply elem_of_nil in Hin.
  - simpl. lia.
  - simpl. lia.
Qed.

(** The compiler turns every block of words into code: it never runs out of registers
    and no assertion of the cache fails. *)
Lemma generateCode_total gVerify gBlockMap block words :
  300 * Z.of_nat (length words) + 100 <= NO_LRU_VALUE ->
  exists a, generateCode gVerify gBlockMap block words newAsm = Some (tt, a).
Proof.
  intros Hlen. enough (cok (generateCode gVerify gBlockMap block words) newAsm (fun _ _ => True))
    as ([] & a & Hf & _) by (by exists a).
  unfold generateCode. apply cok_bind, cok_mod. apply cok_bind.
  eapply cok_conseq; [apply (emitNops_runs 12 _ [] 0); [apply holds_currentPC, holds_newAsm
    |intros ? ? Hin; by apply elem_of_nil in Hin|simpl; lia|unfold NO_LRU_VALUE; lia]|].
  intros [] a HL. cbv beta zeta in *.
  do 4 (apply cok_bind; jstep). apply cok_bind.
  match goal with HL : holds ?a ?L ?n |- _ =>
    eapply cok_conseq; [apply (generateInsts_runs gVerify gBlockMap words a L n HL)|]
  end.
  { intros i o Hin. apply list_elem_of_singleton in Hin. congruence. }
  { done. }
  { lia. }
  intros [] b HLb. cbv beta in HLb.
  apply cok_bind. eapply cok_conseq; [eapply envictAll_ok; [exact HLb|]|].
  { intros i o Hin. apply list_elem_of_singleton in Hin. congruence. }
  intros [] c [HLc _]. cbv beta.
  apply cok_bind. eapply cok_conseq; [apply (ins_ok _ _ _ _ _ HLc); [solve_args|cbn; lia|cbn; lia]|].
  intros [] d HLd. cbv beta in HLd. eapply cok_conseq; [eapply release_ok; exact HLd|]. done.
Qed.
End Handlers.
