(* ===== verification/JitSpec.v ===== *)
(** * Blocks of the JIT compiler

    Where a block ends, that every block becomes code, and that linked blocks always come
    back to the run loop. *)
From S2P Require Import Prelude BitUtils Instructions DecodeSystem Decode Core InstUtils.
From S2P Require Import Machine Memory Float Interp StepSpec JitAsm JitInsts Jit JitAllocSpec.

(** ** The end of a block *)

Section BlockEnd.
Context {Mem : Type} `{GuestMemory Mem}.

Definition isBranchWord (w : Z) : bool := isBranch (id (decode w)).

(** The words the loop reads, from a block's start. *)
Definition wordAt (m : Mem) (start : Z) (k : nat) : result Z :=
  mread 4 (u64 (start + 4 * Z.of_nat k)) m.

Lemma next_addr start k :
  u64 (u64 (start + 4 * Z.of_nat k) + 4) = u64 (start + 4 * Z.of_nat (S k)).
Proof. unfold u64. rewrite wrap_add_l. f_equal. lia. Qed.

Lemma next_count start k : (k <= 3000)%nat ->
  Z.shiftr (u64 (u64 (start + 4 * Z.of_nat k) - start)) 2 = Z.of_nat k.
Proof.
  intros Hk. unfold u64. unfold Z.sub. rewrite wrap_add_l.
  replace (start + 4 * Z.of_nat k + - start) with (4 * Z.of_nat k) by lia.
  rewrite wrap_id by (unfold uint; lia). rewrite Z.shiftr_div_pow2 by lia.
  change (2 ^ 2) with 4. rewrite Z.mul_comm, Z.div_mul; lia.
Qed.

(** The first [k] words can be fetched, and none is a branch. *)
Definition straight (m : Mem) (start : Z) (k : nat) : Prop :=
  forall j, (j < k)%nat -> exists w, wordAt m start j = Ok w /\ isBranchWord w = false.

Lemma straight_S m start k w :
  straight m start k -> wordAt m start k = Ok w -> isBranchWord w = false ->
  straight m start (S k).
Proof.
  intros Hst Hw Hb j Hj. destruct (decide (j = k)) as [->|Hne]; [by exists w|]. apply Hst. lia.
Qed.

(** What [findBlockEnd] may say of the block at [start]. *)
Definition blockEnd (m : Mem) (start : Z) (r : result JitBlock) : Prop :=
  match r with
  | Ok b =>
      (exists k w, (k < 3000)%nat /\ straight m start k /\ wordAt m start k = Ok w /\
         isBranchWord w = true /\ b = mkJitBlock 0 start (u64 (start + 4 * Z.of_nat (S k)))) \/
      straight m start 3000 /\ b = newJitBlock start
  | Err e => exists k, (k < 3000)%nat /\ straight m start k /\ wordAt m start k = Err e
  end.

Lemma findBlockLoop_spec m start fuel k :
  uint 64 start -> (k + fuel = 3000)%nat -> (0 < fuel)%nat -> straight m start k ->
  blockEnd m start (findBlockLoop fuel m (newJitBlock start) (u64 (start + 4 * Z.of_nat k))).
Proof.
  intros Hs. revert k. induction fuel as [|fuel IH]; intros k Hk Hf Hst; [lia|].
  cbn [findBlockLoop]. fold (wordAt m start k).
  destruct (wordAt m start k) as [w|e] eqn:Hw; cbn [mbind result_bind].
  2: { exists k. split; [lia|done]. }
  fold (isBranchWord w). rewrite next_addr.
  destruct (isBranchWord w) eqn:Hb.
  - cbn [end_ set_end newJitBlock funcEntry Jit.start].
    assert ((u64 (start + 4 * Z.of_nat (S k)) =? start) = false) as ->.
    { apply Z.eqb_neq. intros E. pose proof (next_count start (S k)) as Hc.
      rewrite E, Z.sub_diag in Hc. change (Z.shiftr (u64 0) 2) with 0 in Hc. lia. }
    left. exists k, w. split_and!; [lia|done..].
  - cbn [end_ Jit.start newJitBlock]. rewrite next_count, Z.eqb_refl by lia. cbn [andb].
    assert (straight m start (S k)) as Hst' by (by eapply straight_S).
    destruct (Z.ltb_spec (Z.of_nat (S k)) 3000).
    + apply IH; [lia|lia|done].
    + right. split; [|done]. by replace 3000%nat with (S k) by lia.
Qed.

Lemma findBlockEnd_spec' m start :
  uint 64 start -> blockEnd m start (findBlockEnd m (newJitBlock start)).
Proof.
  intros Hs. unfold findBlockEnd. cbn [Jit.start newJitBlock].
  pose proof (findBlockLoop_spec m start 3000 0 Hs) as Hloop.
  rewrite Z.add_0_r, u64_id in Hloop by done. apply Hloop; [lia|lia|]. intros j Hj. lia.
Qed.

(** [findBlockEnd] always comes to an end, and finds the first branch: the block is
    what can be fetched from its start up to and including that branch.  When the first
    3000 words hold no branch the block it reports is empty. *)
Theorem findBlockEnd_spec m start :
  uint 64 start -> blockEnd m start (findBlockEnd m (newJitBlock start)).
Proof. apply findBlockEnd_spec'. Qed.
End BlockEnd.

(** ** Every block becomes code *)

Section Total.
Context {Mem : Type} `{GuestMemory Mem} `{CoreLayoutLaws} `{AsmRuntime}.

(** The loop over the words of a block visits each once. *)
Lemma fetchWords_spec n fuel m addr :
  0 <= addr -> addr + 4 * Z.of_nat n < 2 ^ 64 -> (n <= fuel)%nat ->
  match fetchWords fuel m addr (addr + 4 * Z.of_nat n) with
  | Ok words => length words = n /\
      forall j, (j < n)%nat -> exists w, words !! j = Some w /\ wordAt m addr j = Ok w
  | Err e => exists j, (j < n)%nat /\ wordAt m addr j = Err e
  end.
Proof.
  revert fuel addr. induction n as [|n IH]; intros fuel addr Ha Hb Hf.
  - assert ((addr <? addr + 4 * Z.of_nat 0) = false) as E by (apply Z.ltb_ge; lia).
    destruct fuel; cbn [fetchWords]; rewrite E; (split; [done|intros j Hj; lia]).
  - destruct fuel as [|fuel]; [lia|]. cbn [fetchWords].
    assert ((addr <? addr + 4 * Z.of_nat (S n)) = true) as -> by (apply Z.ltb_lt; lia).
    assert (forall j, wordAt m (addr + 4) j = wordAt m addr (S j)) as Hshift.
    { intros j. unfold wordAt. do 2 f_equal. lia. }
    assert (wordAt m addr 0 = mread 4 addr m) as H0'.
    { unfold wordAt. rewrite Z.add_0_r, u64_id by (unfold uint; lia). done. }
    destruct (mread 4 addr m) as [w|e] eqn:Em; cbn [mbind result_bind].
    2: { exists 0%nat. split; [lia|done]. }
    rewrite u64_id by (unfold uint; lia).
    specialize (IH fuel (addr + 4)). rewrite <-Z.add_assoc in IH.
    replace (4 + 4 * Z.of_nat n) with (4 * Z.of_nat (S n)) in IH by lia.
    destruct (fetchWords fuel m (addr + 4) (addr + 4 * Z.of_nat (S n))) as [ws|e];
      cbn [mbind result_bind mret result_ret].
    + destruct IH as [Hl Hws]; [lia..|]. split; [simpl; lia|]. intros [|j] Hj.
      * by exists w.
      * rewrite <-Hshift. apply Hws. lia.
    + destruct IH as (j & Hj & He); [lia..|]. exists (S j). rewrite <-Hshift. split; [lia|done].
Qed.

(** The words of the block [findBlockEnd] found: at most 3000, or it is empty. *)
Lemma block_words m b start :
  uint 64 start -> findBlockEnd m (newJitBlock start) = Ok b ->
  match fetchWords (Z.to_nat (end_ b - Jit.start b)) m (Jit.start b) (end_ b) with
  | Ok words => (length words <= 3000)%nat
  | Err e => exists a, mread 4 a m = Err e
  end.
Proof.
  intros Hs Hb. pose proof (findBlockEnd_spec' m start Hs) as Hend. rewrite Hb in Hend.
  assert (forall fuel e, e <= start -> fetchWords fuel m start e = Ok []) as Hempty.
  { intros fuel e He. destruct fuel; cbn [fetchWords];
      by rewrite (proj2 (Z.ltb_ge start e)) by lia. }
  destruct Hend as [(k & w & Hk & _ & _ & _ & ->)|[_ ->]]; cbn [Jit.start end_ newJitBlock].
  2: { rewrite Hempty by lia. simpl. lia. }
  unfold uint in Hs.
  destruct (decide (start + 4 * Z.of_nat (S k) < 2 ^ 64)) as [Hw|Hw].
  - rewrite u64_id by (unfold uint; lia).
    pose proof (fetchWords_spec (S k) (Z.to_nat (start + 4 * Z.of_nat (S k) - start)) m start) as Hf.
    destruct (fetchWords _ m start _) as [ws|e].
    + destruct Hf as [-> _]; lia.
    + destruct Hf as (j & _ & Hj); [lia..|]. by eexists.
  - rewrite Hempty; [simpl; lia|]. unfold u64, wrap.
    rewrite <-(Z.mod_unique_pos (start + 4 * Z.of_nat (S k)) (2 ^ 64) 1
                 (start + 4 * Z.of_nat (S k) - 2 ^ 64)) by lia. lia.
Qed.

(** C10: The compiler never ends the process: whatever the memory holds and whatever has
    been compiled before, [get] gives code, or a word of the block cannot be fetched.
    The register cache has a register whenever one is asked for, no assertion fails, and
    every loop ends. *)
Theorem get_total gVerify m js addr :
  uint 64 addr ->
  match get gVerify m js addr with
  | Ok (Some _) => True
  | Ok None => False
  | Err e => exists a, mread 4 a m = Err e
  end.
Proof.
  intros Ha. unfold get. destruct (gBlockMap js !! addr) as [c|]; [done|].
  pose proof (findBlockEnd_spec' m addr Ha) as Hend.
  destruct (findBlockEnd m (newJitBlock addr)) as [b|e] eqn:Hb; cbn [mbind result_bind].
  2: { destruct Hend as (k & _ & _ & Hk). by eexists. }
  pose proof (block_words m b addr Ha Hb) as Hw. unfold generate.
  destruct (fetchWords _ m (Jit.start b) (end_ b)) as [words|e]; cbn [mbind result_bind mret result_ret];
    [|done].
  destruct (generateCode_total gVerify (gBlockMap js) b words) as [a ->].
  { unfold NO_LRU_VALUE. lia. }
  by destruct (rtAdd _ _) as [[err entry] rt].
Qed.
End Total.

(** ** Links between blocks

    The only jumps to other blocks are those of [insertEndOfBlock], to blocks that have
    been compiled before. *)

Definition linkOk (S : JitCode -> Prop) (i : HostInst) : Prop :=
  match i with Ins Jmp [OPtr (blockCode c)] => S c | _ => True end.

(** [f] emits no jump to a block outside [S]. *)
Definition linksIn {A} (S : JitCode -> Prop) (f : J A) : Prop :=
  forall a x a', f a = Some (x, a') -> Forall (linkOk S) (code a) -> Forall (linkOk S) (code a').

Section Links.
Context (S : JitCode -> Prop).

Lemma links_ret {A} (x : A) : linksIn S (mret x).
Proof. by intros a y a' [= <- <-]. Qed.

Lemma links_bind {A B} (f : J A) (k : A -> J B) :
  linksIn S f -> (forall x, linksIn S (k x)) -> linksIn S (f ≫= k).
Proof.
  intros Hf Hk a y a'. unfold mbind, J_bind. destruct (f a) as [[x b]|] eqn:E; [|done].
  intros Hy Hc. by apply (Hk x b y a' Hy), (Hf a x b E).
Qed.

Lemma links_abort {A} : linksIn S (emu_abort : J A).
Proof. by intros a x a'. Qed.

Lemma links_assert b : linksIn S (emu_assert b).
Proof. destruct b; [apply links_ret|apply links_abort]. Qed.

Lemma links_get : linksIn S getAsm.
Proof. by intros a y a' [= <- <-]. Qed.

Lemma links_mod f : (forall a, code (f a) = code a) -> linksIn S (modAsm f).
Proof. intros Hf a y a' [= <- <-]. by rewrite Hf. Qed.

Lemma links_getReg i : linksIn S (getReg i).
Proof. intros a y a'. unfold getReg. destruct (mRegs a !! i); [|done]. by intros [= <- <-]. Qed.

Lemma links_updReg i f : linksIn S (updReg i f).
Proof. by apply links_mod. Qed.

Lemma links_emit m ops : linkOk S (Ins m ops) -> linksIn S (emit m ops).
Proof.
  intros Hok a y a' [= <- <-] Hc. cbn [code set_code]. apply Forall_app. split; [done|].
  by apply Forall_singleton.
Qed.

Lemma links_bind_label l : linksIn S (bind_label l).
Proof.
  intros a y a' [= <- <-] Hc. cbn [code set_code]. apply Forall_app. split; [done|].
  by apply Forall_singleton.
Qed.
End Links.
Create HintDb links.
#[local] Hint Resolve links_ret links_abort links_assert links_get links_getReg links_updReg
  links_bind_label : links.

(** [links] takes a function of the compiler apart. *)
Ltac links :=
  cbv zeta; repeat first
    [progress auto with links
    |match goal with
     | |- linksIn _ (_ ≫= _) => apply links_bind; [|intros ?]
     | |- linksIn _ (modAsm _) => apply links_mod; intros ?; reflexivity
     | |- linksIn _ (if ?b then _ else _) => destruct b
     | |- linksIn _ (match ?x with _ => _ end) => destruct x
     | |- linksIn _ (let '(_, _) := ?x in _) => destruct x
     end].

Section LinksOf.
Context (S : JitCode -> Prop) `{CoreLayout}.

Lemma links_envict i : linksIn S (envict i).
Proof. unfold envict. links. by apply links_emit. Qed.
#[local] Hint Resolve links_envict : links.

Lemma links_envictFrom n i : linksIn S (envictFrom i n).
Proof. revert i. induction n as [|n IH]; intros i; cbn [envictFrom]; links. Qed.

Lemma links_envictAll : linksIn S envictAll.
Proof. apply links_envictFrom. Qed.

Lemma links_allocReg t : linksIn S (allocReg t).
Proof. unfold allocReg. links. Qed.

Lemma links_toGp r : linksIn S (toGp r).
Proof. unfold toGp, markWritten. links. Qed.

Lemma links_release r : linksIn S (release r).
Proof. apply links_updReg. Qed.
#[local] Hint Resolve links_envictAll links_allocReg links_toGp links_release : links.

Lemma links_evalArgs xs : linksIn S (evalArgs xs).
Proof.
  induction xs as [|x xs IH]; cbn [evalArgs]; [links|]. apply links_bind; [|intros [o ts]; links].
  unfold evalArg, withSize. links.
Qed.

Lemma links_releaseAll ts : linksIn S (releaseAll ts).
Proof. induction ts; cbn [releaseAll]; links. Qed.
#[local] Hint Resolve links_evalArgs links_releaseAll : links.

Lemma links_ins m xs : m <> Jmp -> linksIn S (ins m xs).
Proof. intros Hm. unfold ins. links. apply links_emit. by destruct m. Qed.

Lemma links_jmp p : linkOk S (Ins Jmp [OPtr p]) -> linksIn S (ins Jmp [P p]).
Proof.
  intros Hp a y a'. unfold ins. cbn. unfold mbind, J_bind, mret, J_ret. cbn.
  by apply (links_emit S Jmp [OPtr p] Hp a y a').
Qed.

Lemma links_loadGpRegister ref lr w : linksIn S (loadGpRegister ref lr w).
Proof. unfold loadGpRegister. links. by apply links_emit. Qed.
#[local] Hint Resolve links_loadGpRegister : links.

Lemma links_newLabel : linksIn S newLabel.
Proof. unfold newLabel. links. Qed.
#[local] Hint Resolve links_newLabel : links.
#[local] Hint Extern 1 (linksIn _ (ins _ _)) => (apply links_ins; discriminate) : links.

Ltac links_unfold :=
  unfold allocGpTemp, movFromLoaded, movToLoaded, loadGpRegisterRead, loadGpRegisterWrite,
    loadGpRegisterReadWrite, write64ImmToMem, allocGpTempCopy, allocGpTempImm, callVerify.
Ltac linked := links_unfold; repeat (links; links_unfold).

Lemma links_FALLBACK inst : linksIn S (FALLBACK inst).
Proof. unfold FALLBACK. linked. Qed.

Lemma links_svc inst : linksIn S (JitSystem.svc inst).
Proof. unfold JitSystem.svc. linked. Qed.

Lemma links_blockFinale : linksIn S (ins Jmp [P blockFinale]).
Proof. by apply links_jmp. Qed.
#[local] Hint Resolve links_FALLBACK links_svc links_blockFinale : links.

(** Every function of the compiler links to compiled blocks only. *)
Context (gBlockMap : gmap Z JitCode) (HS : forall addr c, gBlockMap !! addr = Some c -> S c).

Lemma links_insertEndOfBlock addr : linksIn S (JitBranch.insertEndOfBlock gBlockMap addr).
Proof.
  unfold JitBranch.insertEndOfBlock. pose proof (HS addr) as Hc.
  destruct (gBlockMap !! addr) as [c|]; linked. by apply links_jmp, Hc.
Qed.
#[local] Hint Resolve links_insertEndOfBlock : links.

Lemma links_condBranch inst : linksIn S (JitBranch.condBranch gBlockMap inst).
Proof. unfold JitBranch.condBranch, insertTestCondition. linked. Qed.

Lemma links_uncondBranchReg link inst : linksIn S (JitBranch.uncondBranchRegGeneric link inst).
Proof. unfold JitBranch.uncondBranchRegGeneric. linked. Qed.

Lemma links_uncondBranchImm link inst :
  linksIn S (JitBranch.uncondBranchImmGeneric gBlockMap link inst).
Proof. unfold JitBranch.uncondBranchImmGeneric. linked. Qed.

Lemma links_addSubImm is64 isSub upd inst :
  linksIn S (JitDPImm.addSubImmGeneric is64 isSub upd inst).
Proof. unfold JitDPImm.addSubImmGeneric, JitDPImm.addSubImmFlags. linked. Qed.

Lemma links_moveWide is64 inst : linksIn S (JitDPImm.moveWideImmGeneric is64 inst).
Proof. unfold JitDPImm.moveWideImmGeneric. linked. Qed.

Lemma links_PCRelative isPage inst : linksIn S (JitDPImm.PCRelativeGeneric isPage inst).
Proof. unfold JitDPImm.PCRelativeGeneric. linked. Qed.

Lemma links_logicalShifted is64 neg upd inst :
  linksIn S (JitDPReg.logicalShiftedRegGeneric is64 neg upd inst).
Proof. unfold JitDPReg.logicalShiftedRegGeneric, JitDPReg.shiftOperand. linked. Qed.

Lemma links_addSubShifted is64 isSub upd inst :
  linksIn S (JitDPReg.addSubShiftedRegGeneric is64 isSub upd inst).
Proof.
  unfold JitDPReg.addSubShiftedRegGeneric, JitDPReg.shiftOperand, JitDPReg.addSubShiftedFlags.
  linked.
Qed.

Lemma links_storeRegImm size flags inst : linksIn S (JitLoadStore.storeRegImmGeneric size flags inst).
Proof.
  unfold JitLoadStore.storeRegImmGeneric, JitLoadStore.movBase, JitLoadStore.writeBackAddr. linked.
Qed.

Lemma links_loadRegImm size flags inst : linksIn S (JitLoadStore.loadRegImmGeneric size flags inst).
Proof.
  unfold JitLoadStore.loadRegImmGeneric, JitLoadStore.movBase, JitLoadStore.writeBackAddr. linked.
Qed.

Lemma links_storePair size flags inst : linksIn S (JitLoadStore.storePairGeneric size flags inst).
Proof.
  unfold JitLoadStore.storePairGeneric, JitLoadStore.movBase, JitLoadStore.writeBackAddr. linked.
Qed.

Lemma links_loadPair size flags inst : linksIn S (JitLoadStore.loadPairGeneric size flags inst).
Proof.
  unfold JitLoadStore.loadPairGeneric, JitLoadStore.movBase, JitLoadStore.writeBackAddr. linked.
Qed.

Ltac linked_handler :=
  lazymatch goal with
  | |- linksIn _ (FALLBACK _) => apply links_FALLBACK
  | |- linksIn _ (nop _) => apply links_ret
  | |- linksIn _ (JitSystem.svc _) => apply links_svc
  | |- linksIn _ (JitBranch.condBranch _ _) => apply links_condBranch
  | |- linksIn _ (JitBranch.uncondBranchRegGeneric _ _) => apply links_uncondBranchReg
  | |- linksIn _ (JitBranch.uncondBranchImmGeneric _ _ _) => apply links_uncondBranchImm
  | |- linksIn _ (JitDPImm.addSubImmGeneric _ _ _ _) => apply links_addSubImm
  | |- linksIn _ (JitDPImm.moveWideImmGeneric _ _) => apply links_moveWide
  | |- linksIn _ (JitDPImm.PCRelativeGeneric _ _) => apply links_PCRelative
  | |- linksIn _ (JitDPReg.logicalShiftedRegGeneric _ _ _ _) => apply links_logicalShifted
  | |- linksIn _ (JitDPReg.addSubShiftedRegGeneric _ _ _ _) => apply links_addSubShifted
  | |- linksIn _ (JitLoadStore.storeRegImmGeneric _ _ _) => apply links_storeRegImm
  | |- linksIn _ (JitLoadStore.loadRegImmGeneric _ _ _) => apply links_loadRegImm
  | |- linksIn _ (JitLoadStore.storePairGeneric _ _ _) => apply links_storePair
  | |- linksIn _ (JitLoadStore.loadPairGeneric _ _ _) => apply links_loadPair
  | |- linksIn _ ?t => let f := head_of t in unfold f; linked_handler
  end.

Lemma links_instruction id f inst : gInstructionMap gBlockMap id = Some f -> linksIn S (f inst).
Proof.
  revert f inst. apply registered_all. unfold init_registrations.
  repeat (apply Forall_app; split).
  all: repeat (apply Forall_cons; split; [intros i; cbn [snd]; linked_handler|]).
  all: apply Forall_nil; exact Logic.I.
Qed.

Lemma links_generateInst gVerify bits : linksIn S (generateInst gVerify gBlockMap bits).
Proof.
  unfold generateInst. cbv zeta. apply links_bind; [by apply links_emit|intros _].
  apply links_bind; [linked|intros _]. apply links_bind; [linked|intros _].
  apply links_bind; [|intros _; linked].
  destruct (instructionID.eqb _ _); [apply links_FALLBACK|].
  destruct (gInstructionMap _ _) as [f|] eqn:E; [by eapply links_instruction|apply links_FALLBACK].
Qed.

Lemma links_generateCode gVerify block words :
  linksIn S (generateCode gVerify gBlockMap block words).
Proof.
  assert (linksIn S (generateInsts gVerify gBlockMap words)) as Hinsts.
  { induction words; cbn [generateInsts]; [links|].
    apply links_bind; [apply links_generateInst|done]. }
  assert (forall n, linksIn S (emitNops n)) as Hnops.
  { intros n. induction n; cbn [emitNops]; links. by apply links_emit. }
  unfold generateCode. linked.
Qed.
End LinksOf.

(** ** Linked blocks come to an end *)

(** The runtime of [asmjit], as documented: [add] reports no error and puts the code at a
    fresh address, or reports an error, gives null and changes nothing. *)
Class AsmRuntimeLaws `{AsmRuntime} (rtCode : Runtime -> JitCode -> option (list HostInst)) := {
  rtCode_null rt : rtCode rt 0 = None;
  rtAdd_spec rt l :
    let '(err, c, rt') := rtAdd rt l in
    (err <> 0 /\ c = 0 /\ rt' = rt) \/
    (err = 0 /\ c <> 0 /\ uint 64 c /\ rtCode rt c = None /\ rtCode rt' c = Some l /\
     forall c', c' <> c -> rtCode rt' c' = rtCode rt c');
}.

Section Chains.
Context {Mem : Type} `{GuestMemory Mem} `{CpuHooks Mem}.
Context `{ShiftTarget} `{HostFloat} `{CoreLayout} `{HostCpu}.
Context `{AsmRuntime} (rtCode : Runtime -> JitCode -> option (list HostInst)).
Context `{!AsmRuntimeLaws rtCode}.

(** The states of the compiler: at first nothing is compiled, and the code [init] put
    into the runtime links to nothing; then blocks are compiled, in any order. *)
Inductive jit_reachable : JitState -> Prop :=
  | reach_init rt :
      (forall c l, rtCode rt c = Some l -> Forall (linkOk (fun _ => False)) l) ->
      jit_reachable (mkJitState ∅ rt)
  | reach_get js gVerify m addr c js' :
      jit_reachable js -> get gVerify m js addr = Ok (Some (c, js')) -> jit_reachable js'.

(** Blocks in an order in which each is linked to earlier ones. *)
Record ordered (js : JitState) (rank : JitCode -> nat) : Prop := {
  or_bound c : (rank c <= size (gBlockMap js))%nat;
  or_links c l : rtCode (gRunTime js) c = Some l ->
    Forall (linkOk (fun c' => (rank c' < rank c)%nat /\
                              (c' = 0 \/ is_Some (rtCode (gRunTime js) c')))) l;
  or_map addr c : gBlockMap js !! addr = Some c -> c = 0 \/ is_Some (rtCode (gRunTime js) c);
}.

Lemma linkOk_impl (S T : JitCode -> Prop) l :
  (forall c, S c -> T c) -> Forall (linkOk S) l -> Forall (linkOk T) l.
Proof.
  intros HST Hl. eapply Forall_impl; [exact Hl|]. intros [m ops|]; [|done]. destruct m; try done.
  destruct ops as [|[] []]; try done. destruct p; try done. apply HST.
Qed.

Lemma reachable_ordered js : jit_reachable js -> exists rank, ordered js rank.
Proof.
  induction 1 as [rt Hrt|js gVerify m addr c js' _ [rank Hord] Hget].
  { exists (fun _ => 0%nat). constructor; simpl; [lia| |].
    - intros c l Hl. by eapply linkOk_impl, Hrt.
    - intros a c. by rewrite lookup_empty. }
  unfold get in Hget. destruct (gBlockMap js !! addr) as [c0|] eqn:Haddr.
  { injection Hget as <- <-. by exists rank. }
  destruct (findBlockEnd m (newJitBlock addr)) as [b|]; [|done]. cbn [mbind result_bind] in Hget.
  unfold generate in Hget. destruct (fetchWords _ m _ _) as [words|]; [|done].
  cbn [mbind result_bind mret result_ret] in Hget.
  destruct (generateCode gVerify (gBlockMap js) b words newAsm) as [[[] a]|] eqn:Hgen; [|done].
  pose proof (rtAdd_spec (gRunTime js) (code a)) as Hadd.
  destruct (rtAdd (gRunTime js) (code a)) as [[err entry] rt']. injection Hget as <- <-.
  cbn [gBlockMap gRunTime set_funcEntry funcEntry].
  destruct Hadd as [(_ & -> & ->)|(_ & Hnz & _ & Hfresh & Hnew & Hold)].
  - exists rank. destruct Hord as [O1 O2 O3]. constructor; cbn [gBlockMap gRunTime].
    + intros c. rewrite map_size_insert_None by done. specialize (O1 c). lia.
    + done.
    + intros a' c Hc. apply lookup_insert_Some in Hc as [[_ <-]|[_ Hc]]; [by left|by eapply O3].
  - assert (Forall (linkOk (fun c' => exists a, gBlockMap js !! a = Some c')) (code a)) as Hlinks.
    { refine (links_generateCode _ (gBlockMap js) _ gVerify b words newAsm tt a Hgen _);
        [intros a' c Hc; by exists a'|by apply Forall_nil]. }
    destruct Hord as [O1 O2 O3].
    assert (forall c, c = 0 \/ is_Some (rtCode (gRunTime js) c) -> c <> entry) as Hne.
    { intros c [->|[l Hl]]; [done|]. intros ->. by rewrite Hfresh in Hl. }
    exists (fun c => if decide (c = entry) then Datatypes.S (size (gBlockMap js)) else rank c).
    constructor; cbn [gBlockMap gRunTime].
    + intros c. rewrite map_size_insert_None by done. specialize (O1 c). case_decide; lia.
    + intros c l Hl. destruct (decide (c = entry)) as [->|Hc].
      * rewrite Hnew in Hl. injection Hl as <-. eapply linkOk_impl; [|exact Hlinks].
        intros c' [a' Ha']. apply O3 in Ha'. pose proof (Hne _ Ha') as Hn.
        rewrite decide_False, Hold by done. specialize (O1 c'). split; [lia|done].
      * rewrite Hold in Hl by done. eapply linkOk_impl; [|by apply O2].
        intros c' [Hr Hc']. pose proof (Hne _ Hc') as Hn.
        by rewrite decide_False, Hold by done.
    + intros a' c Hc. apply lookup_insert_Some in Hc as [[_ <-]|[_ Hc]]; [right; by eexists|].
      apply O3 in Hc as Hc'. by rewrite Hold by (by apply Hne).
Qed.

(** A run that leaves for another block does so through one of the links. *)
Lemma run_left S l skip (h : HostState Mem) c h' :
  Forall (linkOk S) l -> run l skip h = Ok (Left (blockCode c), h') -> S c.
Proof.
  revert skip h. induction l as [|i l IH]; intros skip h Hl; cbn [run].
  { by destruct skip. }
  apply Forall_cons in Hl as [Hi Hl]. destruct i as [m ops|lb].
  2: { destruct skip as [l'|]; [|by apply IH]. destruct (Nat.eqb lb l'); by apply IH. }
  destruct skip as [l'|]; [by apply IH|].
  assert (forall r : option (HostState Mem),
    match r with Some h => run l None h | None => Err Undefined end = Ok (Left (blockCode c), h') ->
    S c) as Hexec.
  { intros [h1|]; [|done]. by apply IH. }
  destruct m; try exact (Hexec _).
  all: destruct ops as [|[] ops]; try exact (Hexec _); try done.
  all: destruct ops; try exact (Hexec _).
  all: try (destruct (callFn _ h) as [h1|]; [|done]; cbn [mbind result_bind]).
  all: first [by apply IH|by intros [= -> ->]].
Qed.

(** The code at [c] may leave for the block [c']. *)
Definition jumpsTo (rt : Runtime) (c c' : JitCode) : Prop :=
  exists l (h h' : HostState Mem), rtCode rt c = Some l /\ run l None h = Ok (Left (blockCode c'), h').

Lemma jumpsTo_rank js rank c c' :
  ordered js rank -> jumpsTo (gRunTime js) c c' -> (rank c' < rank c)%nat.
Proof.
  intros Hord (l & h & h' & Hl & Hrun).
  by pose proof (run_left _ _ _ _ _ _ (or_links _ _ Hord c l Hl) Hrun) as [Hr _].
Qed.

(** C11: In every state of the compiler, running a block ends with as many blocks as have
    been compiled, and one more: a block jumps to blocks that were compiled before it
    only, so no chain of jumps is longer than the number of compiled blocks, linked blocks
    never form a loop, and control comes back to [step], where interrupts are seen. *)
Theorem linked_blocks_return js :
  jit_reachable js ->
  (forall n c c', nsteps (jumpsTo (gRunTime js)) n c c' -> (n <= size (gBlockMap js))%nat) /\
  (forall fuel c (h : HostState Mem), (Datatypes.S (size (gBlockMap js)) <= fuel)%nat ->
    runBlocks rtCode fuel (gRunTime js) c h =
    runBlocks rtCode (Datatypes.S (size (gBlockMap js))) (gRunTime js) c h).
Proof.
  intros [rank Hord]%reachable_ordered. split.
  { intros n c c' Hn. enough (n <= rank c)%nat by (pose proof (or_bound _ _ Hord c); lia).
    induction Hn as [|n c c1 c' Hj _ IH]; [lia|]. apply (jumpsTo_rank _ _ _ _ Hord) in Hj. lia. }
  intros fuel c h Hfuel.
  assert (forall n1 n2 c (h : HostState Mem), (rank c < n1)%nat -> (rank c < n2)%nat ->
    runBlocks rtCode n1 (gRunTime js) c h = runBlocks rtCode n2 (gRunTime js) c h) as Hsame.
  { induction n1 as [|n1 IH]; intros n2 c0 h0 H1' H2'; [lia|]. destruct n2 as [|n2]; [lia|].
    cbn [runBlocks]. destruct (rtCode (gRunTime js) c0) as [l|] eqn:Hl; [|done].
    destruct (run l None h0) as [[e h1]|] eqn:Hrun; [|done]. cbn [mbind result_bind].
    destruct e as [|p| |]; try done. destruct p; try done.
    assert (jumpsTo (gRunTime js) c0 c1) as Hr%(jumpsTo_rank _ _ _ _ Hord) by (by exists l, h0, h1).
    apply IH; lia. }
  pose proof (or_bound _ _ Hord c). apply Hsame; lia.
Qed.
End Chains.

(** ** Examples *)

Module JitExample.

(** A struct with the members one behind the other. *)
#[export] Instance layout : CoreLayout := {
  offsetof f :=
    match f with
    | fGPRegs i => 32 + 8 * i
    | fVRegs i k => 288 + 16 * i + 8 * k
    | fPC => 800 | fSP => 808
    | fN => 816 | fZ => 817 | fC => 818 | fV => 819
    | fNextPC => 832 | fNumInsts => 840
    end;
}.

Definition inRange (f : CoreField) : bool :=
  (0 <=? offsetof f) && (offsetof f + fieldSize f <=? NO_OFFSET).
Definition apart (f g : CoreField) : bool :=
  bool_decide (f = g) || (offsetof f + fieldSize f <=? offsetof g) || (offsetof g + fieldSize g <=? offsetof f).

#[export] Instance layout_laws : CoreLayoutLaws.
Proof.
  constructor.
  - assert (forallb inRange coreFields = true) as Hall by (vm_compute; reflexivity).
    rewrite forallb_forall in Hall. intros f Hf%list_elem_of_In%Hall.
    apply andb_true_iff in Hf as [H1%Z.leb_le H2%Z.leb_le]. by split.
  - assert (forallb (fun f => forallb (apart f) coreFields) coreFields = true) as Hall
      by (vm_compute; reflexivity).
    rewrite forallb_forall in Hall. intros f g Hf%list_elem_of_In%Hall Hg%list_elem_of_In Hne.
    rewrite forallb_forall in Hf. apply Hf in Hg. unfold apart in Hg.
    rewrite bool_decide_eq_false_2 in Hg by exact Hne. cbn [orb] in Hg.
    apply orb_true_iff in Hg as [Hg%Z.leb_le|Hg%Z.leb_le]; [by left|by right].
Qed.

#[export] Instance cpu : HostCpu := {
  coreAddr := 0x1000;
  ptrValue _ := 0;
  flagsAfter _ _ := (false, false, false);
  volatileAfter _ _ _ := 0;
  upperAfter _ _ := 0;
}.

(** A runtime with room for a thousand blocks. *)
#[export] Instance runtime : AsmRuntime := {
  Runtime := list (list HostInst);
  rtAdd rt l := if (length rt <? 1000)%nat then (0, Z.of_nat (S (length rt)), rt ++ [l]) else (1, 0, rt);
}.

Definition rtCode (rt : Runtime) (c : JitCode) : option (list HostInst) :=
  if 0 <? c then (rt : list (list HostInst)) !! Z.to_nat (c - 1) else None.

#[export] Instance runtime_laws : AsmRuntimeLaws rtCode.
Proof.
  constructor; [done|]. intros rt l. unfold rtAdd, rtCode. cbn [runtime].
  destruct (Nat.ltb_spec (length rt) 1000) as [Hl|Hl]; [right|by left].
  assert (Z.to_nat (Z.of_nat (S (length rt)) - 1) = length rt) as E by lia.
  rewrite (proj2 (Z.ltb_lt 0 (Z.of_nat (S (length rt))))) by lia. rewrite E.
  split_and!; [done|lia|unfold uint; lia|by apply lookup_ge_None_2|by apply list_lookup_middle|].
  intros c Hc. destruct (Z.ltb_spec 0 c); [|done].
  destruct (decide (Z.to_nat (c - 1) < length rt)%nat); [by apply lookup_app_l|].
  rewrite !lookup_ge_None_2; [done|lia|]. rewrite length_app. cbn [length]. lia.
Qed.

#[export] Instance hooks : CpuHooks MemState := {
  gSVCHandler _ := mret tt;
  gIllInstHandler := mret tt;
}.

(** [add x1, x1, #1; b #16] *)
Definition image : MemState := memory (program 0x91000421 0x14000004 5).
Definition empty : JitState := mkJitState ∅ [].
End JitExample.

Section Examples.
Import JitExample.

Lemma findBlockEnd_spec_witness :
  uint 64 0x5000 /\
  match findBlockEnd image (newJitBlock 0x5000) with Ok b => end_ b =? 0x5008 | Err _ => false end = true /\
  blockEnd image 0x5000 (findBlockEnd image (newJitBlock 0x5000)).
Proof.
  assert (uint 64 0x5000) as Ha by (unfold uint; lia).
  split; [exact Ha|]. split; [vm_compute; reflexivity|]. exact (findBlockEnd_spec image 0x5000 Ha).
Defined.

Definition isOk {A} (r : result A) : bool := match r with Ok _ => true | Err _ => false end.

Lemma get_total_witness :
  uint 64 0x5000 /\ exists c js', get false image empty 0x5000 = Ok (Some (c, js')).
Proof.
  assert (uint 64 0x5000) as Ha by (unfold uint; lia). split; [exact Ha|].
  pose proof (get_total false image empty 0x5000 Ha) as Ht.
  assert (isOk (get false image empty 0x5000) = true) as Hok by (vm_compute; reflexivity).
  destruct (get false image empty 0x5000) as [[[c js']|]|e].
  - by exists c, js'.
  - destruct Ht.
  - discriminate Hok.
Defined.

Lemma empty_reachable : jit_reachable JitExample.rtCode empty.
Proof.
  apply reach_init. intros c l. unfold JitExample.rtCode. destruct (0 <? c); [|discriminate].
  by rewrite lookup_nil.
Qed.

Lemma linked_blocks_return_witness :
  exists js, jit_reachable JitExample.rtCode js /\ size (gBlockMap js) = 1%nat /\
  forall n c c', nsteps (jumpsTo (Mem := MemState) JitExample.rtCode (gRunTime js)) n c c' -> (n <= 1)%nat.
Proof.
  assert (match get false image empty 0x5000 with
          | Ok (Some (_, js)) => (size (gBlockMap js) =? 1)%nat | _ => false end = true) as Hok
    by (vm_compute; reflexivity).
  destruct (get false image empty 0x5000) as [[[c js]|]|e] eqn:E; [|discriminate Hok..].
  apply Nat.eqb_eq in Hok.
  assert (jit_reachable JitExample.rtCode js) as Hr by exact (reach_get _ _ _ _ _ _ _ empty_reachable E).
  exists js. split; [exact Hr|]. split; [exact Hok|]. intros n c0 c' Hn.
  pose proof (proj1 (linked_blocks_return JitExample.rtCode js Hr) n c0 c' Hn) as Hle.
  rewrite Hok in Hle. exact Hle.
Defined.
End Examples.
