(* ===== verification/JitRepr.v ===== *)
(** * When the host represents a guest

    The state of the host and of the compiler's register cache together represent a guest
    machine ([coh], [St]): rules for the operations of the cache, for the operands of the
    emitted instructions, and for what an instruction of the host computes. *)
From S2P Require Import Prelude BitUtils Instructions DecodeSystem Decode Core InstUtils.
From S2P Require Import Machine Memory Float Interp JitAsm JitInsts Jit JitAllocSpec.

(** ** The members of a core *)

Lemma coreFields_reg f i : f ∈ coreFields -> f = fGPRegs i -> reg i.
Proof.
  intros Hf ->. unfold coreFields in Hf. rewrite !elem_of_app, !list_elem_of_fmap in Hf.
  destruct Hf as [(j & [= ->] & Hj)|[(j & [=] & _)|[(j & [=] & _)|Hf]]].
  - apply elem_of_seq in Hj. unfold reg. lia.
  - repeat (apply elem_of_cons in Hf as [Hf|Hf]; [discriminate|]). by apply elem_of_nil in Hf.
Qed.

Lemma coreFields_vreg f i k : f ∈ coreFields -> f = fVRegs i k -> reg i /\ (k = 0 \/ k = 1).
Proof.
  intros Hf ->. unfold coreFields in Hf. rewrite !elem_of_app, !list_elem_of_fmap in Hf.
  destruct Hf as [(j & [=] & _)|[(j & [= -> ->] & Hj)|[(j & [= -> ->] & Hj)|Hf]]].
  - apply elem_of_seq in Hj. unfold reg. lia.
  - apply elem_of_seq in Hj. unfold reg. lia.
  - repeat (apply elem_of_cons in Hf as [Hf|Hf]; [discriminate|]). by apply elem_of_nil in Hf.
Qed.

(** What a write of member [f] leaves in it. *)
Definition fieldValue (f : CoreField) (v : Z) : Z :=
  if fieldSize f =? 1 then Z.b2z (v !=? 0) else v.

Lemma fieldGet_fieldSet f v c : f ∈ coreFields -> wf_Core c ->
  fieldGet f (fieldSet f v c) = fieldValue f v.
Proof.
  intros Hf Hc. destruct f; try done; unfold fieldGet, fieldSet, fieldValue; cbn [fieldSize].
  - rewrite getX_setX_eq; [done..|]. by eapply coreFields_reg.
  - destruct (coreFields_vreg _ _ _ Hf eq_refl) as [Hr [-> | ->]]; cbn [Z.eqb];
      unfold getD0, getD1, setD0, setD1; by rewrite getV_setV_eq.
Qed.

Lemma fieldGet_fieldSet_ne f f' v c : f ∈ coreFields -> f' ∈ coreFields -> f' <> f ->
  wf_Core c -> fieldGet f' (fieldSet f v c) = fieldGet f' c.
Proof.
  intros Hf Hf' Hne Hc. destruct f as [i|i k| | | | | | | |], f' as [i'|i' k'| | | | | | | |];
    try done; unfold fieldGet, fieldSet; try (destruct (k =? 0); done).
  - apply getX_setX_ne; [exact (coreFields_reg _ _ Hf eq_refl)
      |exact (coreFields_reg _ _ Hf' eq_refl)|congruence].
  - destruct (coreFields_vreg _ _ _ Hf eq_refl) as [Hr Hk].
    destruct (coreFields_vreg _ _ _ Hf' eq_refl) as [Hr' Hk'].
    unfold getD0, getD1, setD0, setD1. destruct (decide (i = i')) as [<-|Hi].
    + destruct Hk as [-> | ->], Hk' as [-> | ->]; try done; cbn [Z.eqb]; by rewrite getV_setV_eq.
    + destruct Hk as [-> | ->], Hk' as [-> | ->]; cbn [Z.eqb]; by rewrite getV_setV_ne.
Qed.

(** The members the generated code does not access. *)
Definition others (c : Core) :=
  (isActive c, coreNum c, TLSAddr c, exclusiveAccess c, exclusiveAccessAddr c,
   exclusiveData0 c, exclusiveData1 c, interrupts c).

Lemma others_fieldSet f v c : others (fieldSet f v c) = others c.
Proof. destruct f; try done; unfold fieldSet; by destruct (k =? 0). Qed.

Definition field_uint (f : CoreField) (v : Z) : Prop := fieldSize f = 8 -> uint 64 v.

Lemma wf_fieldSet f v c : wf_Core c -> field_uint f v -> wf_Core (fieldSet f v c).
Proof.
  intros Hc Hv. unfold field_uint in Hv. destruct f; unfold fieldSet; cbn [fieldSize] in Hv;
    auto with emu; try (destruct (k =? 0)); auto using wf_setX, wf_setD0, wf_setD1, wf_set_PC,
    wf_set_SP, wf_set_nextPC, wf_set_numInsts, wf_set_PState.
Qed.

Lemma fieldGet_uint f c : wf_Core c -> uint 64 (fieldGet f c).
Proof.
  intros Hc. destruct f; unfold fieldGet, getD0, getD1;
    try (destruct (k =? 0)); try apply (getV_wf c i Hc); try apply getX_uint; try apply Hc;
    try done; unfold uint; match goal with |- context [Z.b2z ?b] => destruct b end; simpl; lia.
Qed.

(** Members determine the core. *)
Lemma core_ext c c' : wf_Core c -> wf_Core c' -> others c = others c' ->
  (forall f, f ∈ coreFields -> fieldGet f c = fieldGet f c') -> c = c'.
Proof.
  intros Hc Hc' Ho Hf.
  assert (GPRegs c = GPRegs c') as HG.
  { apply (list_eq_same_length _ _ 32); [apply Hc'|apply Hc|].
    intros i x y Hi Hx Hy. specialize (Hf (fGPRegs (Z.of_nat i))).
    unfold fieldGet, getX in Hf. rewrite Nat2Z.id in Hf.
    rewrite (nth_lookup_Some _ _ _ _ Hx), (nth_lookup_Some _ _ _ _ Hy) in Hf. apply Hf.
    apply coreFields_GPRegs. unfold reg. lia. }
  assert (VRegs c = VRegs c') as HV.
  { apply (list_eq_same_length _ _ 32); [apply Hc'|apply Hc|].
    intros i x y Hi Hx Hy.
    assert (forall k, k = 0 \/ k = 1 ->
      fieldGet (fVRegs (Z.of_nat i) k) c = fieldGet (fVRegs (Z.of_nat i) k) c') as Hk.
    { intros k Hk. apply Hf, coreFields_VRegs; [unfold reg; lia|done]. }
    pose proof (Hk 0 ltac:(by left)) as H0. pose proof (Hk 1 ltac:(by right)) as H1.
    unfold fieldGet, getD0, getD1, getV in H0, H1. cbn [Z.eqb] in H0, H1. rewrite Nat2Z.id in H0, H1.
    rewrite (nth_lookup_Some _ _ _ _ Hx), (nth_lookup_Some _ _ _ _ Hy) in H0, H1.
    destruct x, y; simpl in *; congruence. }
  assert (forall f, f ∈ [fPC; fSP; fNextPC; fNumInsts; fN; fZ; fC; fV] -> fieldGet f c = fieldGet f c')
    as Hf' by (intros f Hin; by apply Hf, coreFields_other).
  assert (forall b b', Z.b2z b = Z.b2z b' -> b = b') as Hb by (intros [] []; done).
  destruct c as [? ? ? ? ? ? [] ? ? ? ? ? ? ? ?], c' as [? ? ? ? ? ? [] ? ? ? ? ? ? ? ?].
  unfold others in Ho. simpl in *. injection Ho as ????????.
  pose proof (Hf' fPC ltac:(set_solver)). pose proof (Hf' fSP ltac:(set_solver)).
  pose proof (Hf' fNextPC ltac:(set_solver)). pose proof (Hf' fNumInsts ltac:(set_solver)).
  pose proof (Hb _ _ (Hf' fN ltac:(set_solver))). pose proof (Hb _ _ (Hf' fZ ltac:(set_solver))).
  pose proof (Hb _ _ (Hf' fC ltac:(set_solver))). pose proof (Hb _ _ (Hf' fV ltac:(set_solver))).
  simpl in *. congruence.
Qed.

Lemma fieldSet_fieldSet f v w c : f ∈ coreFields -> wf_Core c ->
  fieldSet f v (fieldSet f w c) = fieldSet f v c.
Proof.
  intros Hf Hc. destruct f; try done; unfold fieldSet.
  - unfold setX, set_GPRegs. simpl. by rewrite list_insert_insert_eq.
  - destruct (coreFields_vreg _ _ _ Hf eq_refl) as [Hr [-> | ->]]; cbn [Z.eqb];
      unfold setD0, setD1; rewrite getV_setV_eq by done; unfold setV, set_VRegs; simpl;
      by rewrite list_insert_insert_eq.
Qed.

(** ** Accesses of the core as memory *)

Section Access.
Context `{CoreLayoutLaws}.

Lemma fieldSize_cases f : fieldSize f = 1 \/ fieldSize f = 8.
Proof. destruct f; auto. Qed.

Lemma offsetof_inj f g : f ∈ coreFields -> g ∈ coreFields -> offsetof f = offsetof g -> f = g.
Proof.
  intros Hf Hg E. destruct (decide (f = g)) as [|Hne]; [done|]. exfalso.
  destruct (offsetof_disjoint f g Hf Hg Hne); destruct (fieldSize_cases f), (fieldSize_cases g); lia.
Qed.

Lemma fieldAt_offsetof f : f ∈ coreFields -> fieldAt (offsetof f) = Some f.
Proof.
  intros Hf. unfold fieldAt. destruct (find _ coreFields) as [g|] eqn:E.
  - apply find_some in E as [Hg Ho%Z.eqb_eq]. f_equal.
    apply offsetof_inj; [by apply list_elem_of_In|done|done].
  - apply list_elem_of_In in Hf. pose proof (find_none _ _ E f Hf) as Hn. simpl in Hn. lia.
Qed.

Lemma fieldAt_upper f : f ∈ coreFields -> fieldSize f = 8 -> fieldAt (offsetof f + 4) = None.
Proof.
  intros Hf Hs. unfold fieldAt. destruct (find _ coreFields) as [g|] eqn:E; [|done].
  apply find_some in E as [Hg%list_elem_of_In Ho%Z.eqb_eq].
  destruct (decide (g = f)) as [->|Hne]; [lia|].
  destruct (offsetof_disjoint g f Hg Hf Hne); destruct (fieldSize_cases g); lia.
Qed.

Lemma coreLoad_field f c : f ∈ coreFields ->
  coreLoad (fieldSize f) (offsetof f) c = Some (fieldGet f c).
Proof. intros Hf. unfold coreLoad. rewrite fieldAt_offsetof by done. simpl. by rewrite Z.eqb_refl. Qed.

Lemma coreStore_field f v c : f ∈ coreFields ->
  coreStore (fieldSize f) (offsetof f) v c = Some (fieldSet f v c).
Proof. intros Hf. unfold coreStore. rewrite fieldAt_offsetof by done. by rewrite Z.eqb_refl. Qed.

Lemma halves_value old v : uint 64 v ->
  Z.lor (Z.shiftl (u32 (Z.shiftr v 32)) 32)
    (u32 (Z.lor (Z.shiftl (Z.shiftr old 32) 32) (u32 v))) = v.
Proof.
  intros Hv. apply Z.bits_inj'. intros i Hi. unfold u32.
  rewrite Z.lor_spec, testbit_shiftl by lia. destruct (Z.ltb_spec i 32).
  - rewrite (proj2 (Z.leb_gt 0 (i - 32))) by lia. cbn [andb orb].
    rewrite testbit_wrap, Z.lor_spec, testbit_shiftl, testbit_wrap by lia.
    rewrite (proj2 (Z.leb_gt 0 (i - 32))), (proj2 (Z.ltb_lt i 32)) by lia. done.
  - rewrite (proj2 (Z.leb_le 0 (i - 32))) by lia. cbn [andb].
    rewrite testbit_wrap, Z.shiftr_spec, testbit_wrap by lia.
    rewrite (proj2 (Z.ltb_ge i 32)) by lia. rewrite orb_false_r.
    replace (i - 32 + 32) with i by lia.
    destruct (Z.ltb_spec (i - 32) 32); [done|]. symmetry. apply (testbit_uint_high 64); [done|lia..].
Qed.

(** The two halves [write64ImmToMem] writes make the whole. *)
Lemma coreStore_halves f v c : f ∈ coreFields -> fieldSize f = 8 -> wf_Core c -> uint 64 v ->
  exists c1, coreStore 4 (offsetof f) (u32 v) c = Some c1 /\
    coreStore 4 (offsetof f + 4) (u32 (Z.shiftr v 32)) c1 = Some (fieldSet f v c).
Proof.
  intros Hf Hs Hc Hv. eexists. split.
  - unfold coreStore. rewrite fieldAt_offsetof, Hs by done. reflexivity.
  - unfold coreStore. rewrite fieldAt_upper by done.
    replace (offsetof f + 4 - 4) with (offsetof f) by lia. rewrite fieldAt_offsetof by done.
    cbn [mbind option_bind]. rewrite Hs. cbn [Z.eqb andb]. f_equal.
    rewrite fieldGet_fieldSet by done. unfold fieldValue. rewrite Hs. cbn [Z.eqb].
    rewrite fieldSet_fieldSet by done. f_equal.
    replace (u32 (u32 v)) with (u32 v) by (unfold u32; by rewrite wrap_wrap).
    replace (u32 (u32 (Z.shiftr v 32))) with (u32 (Z.shiftr v 32)) by (unfold u32; by rewrite wrap_wrap).
    by apply halves_value.
Qed.
End Access.

(** ** Runs of straight code *)

Lemma gp_inj i j : (i < 9)%nat -> (j < 9)%nat -> gp i = gp j -> i = j.
Proof.
  intros Hi Hj. unfold gp, mGpRegs.
  do 9 (destruct i as [|i]; [do 9 (destruct j as [|j]; [try done; try discriminate|]); lia|]). lia.
Qed.

Lemma gp_ne_state i : (i < 9)%nat -> gp i <> stateReg.
Proof. intros Hi. do 9 (destruct i as [|i]; [done|]). lia. Qed.

Section Refine.
Context {Mem : Type} `{GuestMemory Mem} `{CpuHooks Mem} `{ShiftTarget} `{HostFloat}.
Context `{CoreLayoutLaws} `{HostCpu}.

Implicit Types (h : HostState Mem) (s : Machine Mem) (a : Asm).

(** From [a] to [a'] the compiler emitted code that takes the host from [h] to [h']. *)
Definition ext a a' h h' : Prop :=
  currentPC a' = currentPC a /\
  exists l, code a' = code a ++ l /\ forall rest, run (l ++ rest) None h = run rest None h'.

Definition wp {A} (f : J A) a h (Q : A -> Asm -> HostState Mem -> Prop) : Prop :=
  exists x a' h', f a = Some (x, a') /\ ext a a' h h' /\ Q x a' h'.

Lemma ext_refl a h : ext a a h h.
Proof. split; [done|]. exists []. split; [by rewrite app_nil_r|done]. Qed.

Lemma ext_same a a' h : currentPC a' = currentPC a -> code a' = code a -> ext a a' h h.
Proof. intros Hp Hc. split; [done|]. exists []. split; [by rewrite app_nil_r|done]. Qed.

Lemma ext_trans a b c h h' h'' : ext a b h h' -> ext b c h' h'' -> ext a c h h''.
Proof.
  intros (Hp & l & Hl & Hr) (Hp' & l' & Hl' & Hr'). split; [congruence|]. exists (l ++ l'). split.
  - by rewrite Hl', Hl, app_assoc.
  - intros rest. by rewrite <-app_assoc, Hr, Hr'.
Qed.

Lemma wp_ret {A} (x : A) a h Q : Q x a h -> wp (mret x) a h Q.
Proof. intros HQ. exists x, a, h. split_and!; [done|apply ext_refl|done]. Qed.

Lemma wp_bind {A B} (f : J A) (k : A -> J B) a h Q :
  wp f a h (fun x a' h' => wp (k x) a' h' Q) -> wp (f ≫= k) a h Q.
Proof.
  intros (x & a' & h' & Hf & Hx & y & b & h'' & Hk & Hx' & HQ). exists y, b, h''.
  split_and!; [|by eapply ext_trans|done]. unfold mbind, J_bind. by rewrite Hf.
Qed.

Lemma wp_conseq {A} (f : J A) a h (P Q : A -> Asm -> HostState Mem -> Prop) :
  wp f a h P -> (forall x a' h', P x a' h' -> Q x a' h') -> wp f a h Q.
Proof. intros (x & a' & h' & Hf & Hx & HP) HPQ. exists x, a', h'. auto. Qed.

Lemma wp_pc {A} (f : J A) a h (P : A -> Asm -> HostState Mem -> Prop) :
  wp f a h P -> wp f a h (fun x a' h' => currentPC a' = currentPC a /\ P x a' h').
Proof. intros (x & a' & h' & Hf & Hx & HP). exists x, a', h'. split_and!; try done. apply Hx. Qed.

Lemma wp_get a h (Q : Asm -> Asm -> HostState Mem -> Prop) : Q a a h -> wp getAsm a h Q.
Proof. intros HQ. exists a, a, h. split_and!; [done|apply ext_refl|done]. Qed.

(** ** The representation of a guest machine *)

(** The members that are kept in host registers. *)
Definition cacheable (f : CoreField) : Prop :=
  f ∈ coreFields /\ fieldSize f = 8 /\ f <> fPC /\ f <> fNextPC /\ f <> fNumInsts.

(** The host [h] with the cache of [a] represents the guest [s], up to the members [X]. *)
Record coh (X : list CoreField) a h s : Prop := {
  co_base : hregs h stateReg = coreAddr;
  co_valid i r : mRegs a !! i = Some r -> mOffset r <> NO_OFFSET ->
    exists f, cacheable f /\ mOffset r = offsetof f;
  co_field f : f ∈ coreFields -> f ∉ X ->
    (forall i r, mRegs a !! i = Some r -> mModified r = true -> mOffset r <> offsetof f) ->
    fieldGet f (hcore h) = fieldGet f (core s);
  co_reg i r f : mRegs a !! i = Some r -> mLoaded r = true -> f ∈ coreFields ->
    mOffset r = offsetof f -> hregs h (gp i) = fieldGet f (core s);
  co_others : others (hcore h) = others (core s);
  co_mem : memory (machine h) = memory s;
  co_timer : gTimer (machine h) = gTimer s;
  co_wf : wf_Core (hcore h);
  co_wfs : wf_Core (core s);
  co_uint r : uint 64 (hregs h r);
}.

(** The state in the middle of an instruction: the handles [L] are alive; the temporaries
    [V] have known values, the handles [G] hold the guest registers they are for, and [F]
    are the flags, if known. *)
Record St (X : list CoreField) (L : list Handle) (V : list (nat * Z)) (G : list (nat * CoreField))
    (F : option (bool * bool * bool)) (n : Z) a h s : Prop := {
  st_holds : holds a L n;
  st_coh : coh X a h s;
  st_V i v : (i, v) ∈ V -> (i, NO_OFFSET) ∈ L /\ hregs h (gp i) = v;
  st_nodup : NoDup (map fst V);
  st_G i f : (i, f) ∈ G -> f ∈ coreFields /\ (i, offsetof f) ∈ L /\
    exists r, mRegs a !! i = Some r /\ mLoaded r = true;
  st_F z g p : F = Some (z, g, p) -> zf h = z /\ gef h = g /\ pf h = p;
}.

(** Forgetting. *)
Lemma St_weaken X L V G F n n' V' G' F' a h s :
  St X L V G F n a h s -> V' ⊆ V -> NoDup (map fst V') -> G' ⊆ G -> F' = F \/ F' = None -> n <= n' ->
  St X L V' G' F' n' a h s.
Proof.
  intros [S1 S2 S3 S4 S5 S6] HV Hnd HG HF Hn. constructor; auto.
  - by eapply holds_le.
  - intros z g p E. apply S6. by destruct HF as [<-| ->].
Qed.

Lemma St_forget X L V G F n n' a h s :
  St X L V G F n a h s -> n <= n' -> St X L [] [] None n' a h s.
Proof.
  intros HS Hn. eapply St_weaken; [exact HS|set_solver|constructor|set_solver|by right|done].
Qed.

(** ** Eviction *)

Lemma run_exec m ops h h' rest :
  match m with Jmp | Jpe | Call | Ret => False | _ => True end ->
  execInst m ops h = Some h' -> run ([Ins m ops] ++ rest) None h = run rest None h'.
Proof.
  intros Hm He. cbn [app run]. destruct m; try done; rewrite He; try done; try (by destruct ops as [|[] []]).
Qed.

Lemma gpOf_holds a L n i r size : holds a L n -> mRegs a !! i = Some r ->
  gpOf (mRegID r) size = mkGp (gp i) size.
Proof.
  intros HL Hr. unfold gpOf, gp. by rewrite (ro_id _ _ (ho_reg _ _ _ HL i r Hr)), Nat2Z.id.
Qed.

Lemma coh_base_load X a h s f : coh X a h s -> f ∈ coreFields -> fieldSize f = 8 ->
  readOp 8 (OMem (qword f)) h = Some (fieldGet f (hcore h)).
Proof.
  intros HC Hf Hs. unfold readOp. cbn [memBase memOffset qword].
  rewrite (co_base _ _ _ _ HC), Z.eqb_refl, <-Hs. by apply coreLoad_field.
Qed.

Lemma coh_base_store X a h s f v off : coh X a h s -> f ∈ coreFields -> off = offsetof f ->
  writeOp (fieldSize f) (OMem (mkMem stateReg off (fieldSize f))) v h =
  Some (set_hcore (fieldSet f v (hcore h)) h).
Proof.
  intros HC Hf ->. unfold writeOp. cbn [memBase memOffset].
  rewrite (co_base _ _ _ _ HC), Z.eqb_refl. by rewrite coreStore_field.
Qed.

(** Writing a host register that holds nothing else. *)
Lemma hregs_setReg8 r v h r' : uint 64 v ->
  hregs (setReg 8 r v h) r' = if decide (r' = r) then v else hregs h r'.
Proof. intros Hv. unfold setReg, updReg_. simpl. by rewrite u64_id. Qed.

(** Two cached registers are for different members. *)
Lemma cached_inj a L n i j r r' f :
  holds a L n -> mRegs a !! i = Some r -> mRegs a !! j = Some r' -> f ∈ coreFields ->
  mOffset r = offsetof f -> mOffset r' = offsetof f -> i = j.
Proof.
  intros HL Hr Hr' Hf E E'. apply (ho_inj _ _ _ HL i j r r' Hr Hr'); [congruence|].
  rewrite E. by apply offsetof_ne.
Qed.

(** Taking a register out of the cache writes its member back. *)
Lemma emptied_coh X L n i r a h s :
  holds a L n -> coh X a h s -> mRegs a !! i = Some r -> uses i L = 0%nat ->
  exists h', ext a (emptied i r a) h h' /\ coh X (emptied i r a) h' s /\
    hregs h' = hregs h /\ zf h' = zf h /\ gef h' = gef h /\ pf h' = pf h.
Proof.
  intros HL HC Hr Hu. unfold emptied. destruct (Z.eqb_spec (mOffset r) NO_OFFSET) as [Ho|Ho].
  { exists h. split; [apply ext_refl|]. by split_and!. }
  destruct (co_valid _ _ _ _ HC i r Hr Ho) as (f & (Hf & Hs8 & _) & Hoff).
  assert (forall j r', mRegs (evicted i r a) !! j = Some r' ->
    j = i /\ r' = cleared r \/ j <> i /\ mRegs a !! j = Some r') as Hcase.
  { intros j r' Hj. cbn [evicted mRegs set_mRegs set_code] in Hj. destruct (decide (j = i)) as [->|Hne].
    - left. rewrite list_lookup_alter_eq, Hr in Hj. by injection Hj as <-.
    - right. by rewrite list_lookup_alter_ne in Hj. }
  pose proof (ho_reg _ _ _ HL i r Hr) as Hok.
  set (h' := if mModified r then set_hcore (fieldSet f (hregs h (gp i)) (hcore h)) h else h).
  assert (hregs h' = hregs h /\ zf h' = zf h /\ gef h' = gef h /\ pf h' = pf h) as (E1 & E2 & E3 & E4)
    by (unfold h'; by destruct (mModified r)).
  assert (field_uint f (hregs h (gp i))) as Huint by (intros _; apply (co_uint _ _ _ _ HC)).
  exists h'. split_and!; try done.
  - split; [done|]. exists (evictCode r). split; [done|]. intros rest. unfold evictCode, h'.
    destruct (mModified r); [|done]. apply run_exec; [done|]. cbn [execInst].
    rewrite (gpOf_holds a L n i r 8 HL Hr). unfold execBinary. cbn [opSize gpSize Z.eqb].
    cbn [readOp gpReg mbind option_bind]. rewrite <-Hs8.
    rewrite (coh_base_store X a h s f _ (mOffset r) HC Hf Hoff). rewrite Hs8. do 3 f_equal.
    apply wrap_id, (co_uint _ _ _ _ HC).
  - destruct HC as [C1 C2 C3 C4 C5 C6 C7 C8 C9 C10]. constructor.
    + by rewrite E1.
    + intros j r' [[-> ->]|[Hne Hj]]%Hcase Hn; [done|]. by eapply C2.
    + intros g Hg HX Hn. destruct (decide (g = f)) as [->|Hgf].
      * unfold h'. destruct (mModified r) eqn:Em.
        -- unfold hcore. cbn [set_hcore set_machine machine core set_core].
           rewrite fieldGet_fieldSet by done. unfold fieldValue. rewrite Hs8. cbn [Z.eqb].
           apply (C4 i r f Hr); [by apply (ro_mod _ _ Hok)|done|done].
        -- apply C3; [done|done|]. intros j r' Hj Hm Hoj.
           assert (j = i) as -> by (by apply (cached_inj a L n j i r' r f HL)). congruence.
      * assert (fieldGet g (hcore h') = fieldGet g (hcore h)) as ->.
        { unfold h'. destruct (mModified r); [|done]. unfold hcore at 1.
          cbn [set_hcore set_machine machine core set_core]. by apply fieldGet_fieldSet_ne. }
        apply C3; [done|done|]. intros j r' Hj Hm Hoj.
        destruct (decide (j = i)) as [->|Hne].
        -- assert (r' = r) as -> by congruence. apply Hgf. apply offsetof_inj; congruence.
        -- apply (Hn j r'); [|done|done]. cbn [evicted mRegs set_mRegs set_code].
           by rewrite list_lookup_alter_ne.
    + intros j r' g [[-> ->]|[Hne Hj]]%Hcase Hl Hg Hoj; [done|]. rewrite E1. by eapply C4.
    + unfold h'. destruct (mModified r); [|done]. unfold hcore.
      cbn [set_hcore set_machine machine core set_core]. by rewrite others_fieldSet.
    + unfold h'. by destruct (mModified r).
    + unfold h'. by destruct (mModified r).
    + unfold h'. destruct (mModified r); [|done]. unfold hcore.
      cbn [set_hcore set_machine machine core set_core]. by apply wf_fieldSet.
    + done.
    + intros r'. by rewrite E1.
Qed.

Lemma uses_ne i j o L : uses i L = 0%nat -> (j, o) ∈ L -> j <> i.
Proof. intros Hu Hin ->. apply uses_pos in Hin. lia. Qed.

(** Evicting a register nobody uses keeps the state. *)
Lemma emptied_St X L V G F n i r a h s :
  St X L V G F n a h s -> mRegs a !! i = Some r -> uses i L = 0%nat ->
  exists h', ext a (emptied i r a) h h' /\ St X L V G F n (emptied i r a) h' s /\ hregs h' = hregs h.
Proof.
  intros [S1 S2 S3 S4 S5 S6] Hr Hu.
  destruct (emptied_coh X L n i r a h s S1 S2 Hr Hu) as (h' & Hx & HC & E1 & E2 & E3 & E4).
  exists h'. split; [done|]. split; [|done]. constructor; try done.
  - by apply holds_emptied.
  - intros j v Hin. rewrite E1. by apply S3.
  - intros j f Hin. destruct (S5 j f Hin) as (Hf & HL & r' & Hr' & Hl). split_and!; [done|done|].
    exists r'. rewrite emptied_lookup_ne; [done|]. by eapply uses_ne.
  - intros z g p E. rewrite E2, E3, E4. by apply S6.
Qed.

(** Marks of the clock and of uses do not matter to the state. *)
Lemma coh_same X a a' h s : coh X a h s ->
  (forall i r', mRegs a' !! i = Some r' -> exists r, mRegs a !! i = Some r /\
     mOffset r' = mOffset r /\ mModified r' = mModified r /\ mLoaded r' = mLoaded r) ->
  (forall i r, mRegs a !! i = Some r -> is_Some (mRegs a' !! i)) ->
  coh X a' h s.
Proof.
  intros [C1 C2 C3 C4 C5 C6 C7 C8 C9 C10] Hsame Hdom. constructor; try done.
  - intros i r' (r & Hr & Ho & _ & _)%Hsame Hn. rewrite Ho in *. by eapply C2.
  - intros f Hf HX Hn. apply C3; [done|done|]. intros i r Hr Hm.
    destruct (Hdom i r Hr) as [r' Hr']. destruct (Hsame i r' Hr') as (r0 & Hr0 & Ho & Hm' & _).
    assert (r0 = r) as -> by congruence. rewrite <-Ho. apply (Hn i r' Hr'). congruence.
  - intros i r' f Hr' Hl Hf Hoff. destruct (Hsame i r' Hr') as (r & Hr & Ho & _ & Hl').
    apply (C4 i r); congruence.
Qed.

Lemma sameRegs_nil a a' i r' : sameRegs [] a a' -> mRegs a' !! i = Some r' ->
  exists r, mRegs a !! i = Some r /\ mOffset r' = mOffset r /\ mModified r' = mModified r /\
    mLoaded r' = mLoaded r.
Proof.
  intros (_ & _ & HR) (r & Hr & Ho & Hm & Hl)%HR. exists r.
  rewrite bool_decide_false, orb_false_r in Hm, Hl by (apply not_elem_of_nil). done.
Qed.

Lemma holds_same_dom a a' L L' n n' i r :
  holds a L n -> holds a' L' n' -> mRegs a !! i = Some r -> is_Some (mRegs a' !! i).
Proof.
  intros HL HL' Hr. apply lookup_lt_is_Some. rewrite (ho_len _ _ _ HL').
  by apply (holds_index _ _ _ _ _ HL Hr).
Qed.

Lemma St_same X L L' V G F n n' a a' h s :
  St X L V G F n a h s -> holds a' L' n' -> sameRegs [] a a' ->
  (forall i v, (i, v) ∈ V -> (i, NO_OFFSET) ∈ L') ->
  (forall i f, (i, f) ∈ G -> (i, offsetof f) ∈ L') ->
  St X L' V G F n' a' h s.
Proof.
  intros [S1 S2 S3 S4 S5 S6] HL' Hsame HV HG. constructor; try done.
  - eapply coh_same; [exact S2|intros i r' Hr'; by eapply sameRegs_nil|].
    intros i r Hr. exact (holds_same_dom _ _ _ _ _ _ _ _ S1 HL' Hr).
  - intros i v Hin. split; [by eapply HV|by apply S3].
  - intros i f Hin. destruct (S5 i f Hin) as (Hf & _ & r & Hr & Hl). split_and!; [done|by apply HG|].
    destruct (holds_same_dom _ _ _ _ _ _ _ _ S1 HL' Hr) as [r' Hr'].
    destruct (sameRegs_nil _ _ _ _ Hsame Hr') as (r0 & Hr0 & _ & _ & Hl').
    exists r'. split; [done|]. congruence.
Qed.

Lemma wp_allocGpTemp X L V G F n a h s sz :
  St X L V G F n a h s -> (length L < 9)%nat ->
  wp (allocGpTemp sz) a h (fun t a' h' => mSize t = sz /\ mWrittenOnUse t = false /\
    exists v, uint 64 v /\ St X ((mReg t, NO_OFFSET) :: L) ((mReg t, v) :: V) G F n a' h' s).
Proof.
  intros HS Hl. destruct (allocReg_spec a L n (st_holds _ _ _ _ _ _ _ _ _ HS) Hl)
    as (i & r & Hr & Hu & Hf & HL').
  destruct (emptied_St X L V G F n i r a h s HS Hr Hu) as (h' & Hx & HS' & Eh).
  exists (mkGpRegister i sz false), (taken i (emptied i r a)), h'. split_and!.
  - unfold allocGpTemp. by rewrite (J_bind_some _ _ _ _ _ Hf).
  - eapply ext_trans; [exact Hx|]. by apply ext_same.
  - done.
  - done.
  - exists (hregs h' (gp i)). cbn [mReg]. split; [apply (co_uint _ _ _ _ (st_coh _ _ _ _ _ _ _ _ _ HS'))|].
    assert (St X ((i, NO_OFFSET) :: L) V G F n (taken i (emptied i r a)) h' s) as HS''.
    { eapply St_same; [exact HS'|exact HL'|apply sameRegs_taken| |].
      - intros j v Hin. right. by apply (st_V _ _ _ _ _ _ _ _ _ HS' j v).
      - intros j f Hin. right. by apply (st_G _ _ _ _ _ _ _ _ _ HS' j f). }
    destruct HS'' as [T1 T2 T3 T4 T5 T6]. constructor; try done.
    + intros j v [E|Hin]%elem_of_cons; [injection E as -> ->; split; [by left|done]|by apply T3].
    + cbn [map fst]. apply NoDup_cons. split; [|done]. intros Hin.
      apply list_elem_of_fmap in Hin as ([j v] & -> & Hin).
      destruct (st_V _ _ _ _ _ _ _ _ _ HS' j v Hin) as [Hin' _].
      by apply (uses_ne _ _ _ _ Hu Hin').
Qed.

Lemma wp_release X L F n a h s t o :
  St X ((mReg t, o) :: L) [] [] F n a h s ->
  wp (release t) a h (fun _ a' h' => St X L [] [] F n a' h' s).
Proof.
  intros HS. exists tt, (set_mRegs (alter decUse (mReg t) (mRegs a)) a), h.
  split_and!; [done|by apply ext_same|]. eapply St_same; [exact HS| |apply sameRegs_release| |].
  - eapply holds_decUse, (st_holds _ _ _ _ _ _ _ _ _ HS).
  - by intros i v ?%elem_of_nil.
  - by intros i f ?%elem_of_nil.
Qed.

(** *** Loading a guest register *)

Lemma wp_load X L V G F n a h s f lr w :
  St X L V G F n a h s -> (length L < 9)%nat -> n < NO_LRU_VALUE -> cacheable f -> f ∉ X ->
  wp (loadGpRegister (qword f) lr w) a h (fun t a' h' => mSize t = 8 /\ mWrittenOnUse t = w /\
    St X ((mReg t, offsetof f) :: L) V (if lr then (mReg t, f) :: G else G) F (n + 1) a' h' s).
Proof.
  intros HS Hl Hn Hc HX. pose proof Hc as (Hf & Hs8 & _).
  destruct (loadGpRegister_spec a L n (qword f) lr w (st_holds _ _ _ _ _ _ _ _ _ HS) Hl
              (offsetof_ne f Hf) Hn) as (e & i & r & HLe & Hready & Hload & HL').
  cbn [memOffset qword] in *.
  assert (exists h1, ext a e h h1 /\ St X L V G F n e h1 s) as (h1 & Hx1 & HS1).
  { destruct Hready as [_ [[-> _]|(_ & Hu & (r0 & Hr0 & ->) & _)]].
    - exists h. split; [apply ext_refl|done].
    - destruct (emptied_St X L V G F n i r0 a h s HS Hr0 Hu) as (h1 & ? & ? & _). by exists h1. }
  destruct Hready as [Hr Hcase].
  assert (i < 9)%nat as Hi by (by apply (holds_index _ _ _ _ _ HLe Hr)).
  pose proof (ho_reg _ _ _ HLe i r Hr) as Hok.
  pose proof HS1 as [T1 T2 T3 T4 T5 T6].
  (* nobody else has the register, unless it already holds [f] *)
  assert (forall j r', mRegs e !! j = Some r' -> mOffset r' = offsetof f -> j = i /\ mOffset r = offsetof f)
    as Honly.
  { intros j r' Hj Ho. destruct Hcase as [[-> Hoff]|(Hno & _ & (r0 & Hr0 & ->) & Hnone)].
    - split; [|done]. by apply (cached_inj a L n j i r' r f HLe).
    - exfalso. destruct (decide (j = i)) as [->|Hne].
      + assert (r' = r) as -> by congruence. rewrite Hno in Ho. by apply (offsetof_ne f Hf).
      + rewrite emptied_lookup_ne in Hj by done. by apply (Hnone j r'). }
  set (h2 := if lr && negb (mLoaded r) then setReg 8 (gp i) (fieldGet f (hcore h1)) h1 else h1).
  assert (lr && negb (mLoaded r) = true -> fieldGet f (hcore h1) = fieldGet f (core s)) as Hval.
  { intros Hb. apply (co_field _ _ _ _ T2); [done|done|]. intros j r' Hj Hm Ho.
    destruct (Honly j r' Hj Ho) as [-> _]. assert (r' = r) as -> by congruence.
    apply (ro_mod _ _ Hok) in Hm. rewrite Hm in Hb. by rewrite andb_false_r in Hb. }
  exists (mkGpRegister i 8 w), (loadedAsm (qword f) lr i r e), h2. split_and!; try done.
  { eapply ext_trans; [exact Hx1|]. split; [done|]. exists (loadCode (qword f) lr r). split; [done|]. intros rest.
    unfold loadCode, h2. destruct (lr && negb (mLoaded r)); [|done]. apply run_exec; [done|].
    cbn [execInst]. rewrite (gpOf_holds e L n i r 8 HLe Hr). unfold execBinary.
    cbn [opSize gpSize Z.eqb]. by rewrite (coh_base_load X e h1 s f T2 Hf Hs8). }
  cbn [mReg].
  assert (hcore h2 = hcore h1 /\ zf h2 = zf h1 /\ gef h2 = gef h1 /\ pf h2 = pf h1 /\
    memory (machine h2) = memory (machine h1) /\ gTimer (machine h2) = gTimer (machine h1))
    as (E1 & E2 & E3 & E4 & E5 & E6) by (unfold h2; destruct (lr && negb (mLoaded r)); done).
  assert (forall r', r' <> gp i -> hregs h2 r' = hregs h1 r') as Hother.
  { intros r' Hne. unfold h2. destruct (lr && negb (mLoaded r)); [|done].
    rewrite hregs_setReg8 by (apply fieldGet_uint, (co_wf _ _ _ _ T2)). by rewrite decide_False. }
  assert (forall j r', mRegs (loadedAsm (qword f) lr i r e) !! j = Some r' ->
    j = i /\ r' = loadedReg (offsetof f) (lruCounter e) lr r \/ j <> i /\ mRegs e !! j = Some r') as Hregs.
  { intros j r' Hj. cbn [loadedAsm mRegs set_mRegs set_code set_lruCounter memOffset qword] in Hj.
    destruct (decide (j = i)) as [->|Hne].
    - left. rewrite list_lookup_alter_eq, Hr in Hj. by injection Hj as <-.
    - right. by rewrite list_lookup_alter_ne in Hj. }
  constructor.
  - done.
  - destruct T2 as [C1 C2 C3 C4 C5 C6 C7 C8 C9 C10]. constructor.
    + rewrite Hother; [done|]. intros E. by apply (gp_ne_state i Hi).
    + intros j r' [[-> ->]|[_ Hj]]%Hregs Hno; [by exists f|by eapply C2].
    + intros g Hg HgX Hmod. rewrite E1. apply C3; [done|done|]. intros j r' Hj Hm Ho.
      destruct (decide (j = i)) as [->|Hne].
      * assert (r' = r) as -> by congruence. apply (Hmod i (loadedReg (offsetof f) (lruCounter e) lr r)).
        -- cbn [loadedAsm mRegs set_mRegs set_code set_lruCounter memOffset qword].
           by rewrite list_lookup_alter_eq, Hr.
        -- done.
        -- cbn [loadedReg mOffset]. destruct Hcase as [[_ Hoff]|(Hno & _)]; [congruence|].
           destruct (ro_free _ _ Hok Hno). congruence.
      * apply (Hmod j r'); [|done|done].
        cbn [loadedAsm mRegs set_mRegs set_code set_lruCounter memOffset qword].
        by rewrite list_lookup_alter_ne.
    + intros j r' g [[-> ->]|[Hne Hj]]%Hregs Hl' Hg Ho.
      * cbn [loadedReg mOffset mLoaded] in *. assert (g = f) as -> by (symmetry; by apply offsetof_inj).
        destruct (mLoaded r) eqn:El.
        -- unfold h2. rewrite ?El, andb_false_r. apply (C4 i r f Hr El Hf).
           destruct Hcase as [[_ Hoff]|(Hno & _)]; [done|]. destruct (ro_free _ _ Hok Hno). congruence.
        -- simpl in Hl'. subst lr. unfold h2. rewrite ?El. cbn [andb negb].
           rewrite hregs_setReg8 by (by apply fieldGet_uint). rewrite decide_True by done.
           apply Hval. by rewrite ?El.
      * rewrite Hother; [by eapply C4|]. intros E. apply Hne.
        apply gp_inj; [by apply (holds_index _ _ _ _ _ HLe Hj)|done|done].
    + by rewrite E1.
    + by rewrite E5.
    + by rewrite E6.
    + by rewrite E1.
    + done.
    + intros r'. destruct (decide (r' = gp i)) as [->|Hne]; [|by rewrite Hother].
      unfold h2. destruct (lr && negb (mLoaded r)); [|done].
      rewrite hregs_setReg8 by (by apply fieldGet_uint). rewrite decide_True by done. by apply fieldGet_uint.
  - intros j v Hin. destruct (T3 j v Hin) as [HjL Hv]. split; [by right|]. rewrite Hother; [done|].
    intros E. destruct (ho_own _ _ _ HLe _ _ HjL) as (rj & Hrj & Hoj).
    assert (j = i) as -> by (apply gp_inj; [by apply (holds_index _ _ _ _ _ HLe Hrj)|done|done]).
    destruct Hcase as [[_ Hoff]|(_ & Hu & _)].
    + assert (rj = r) as -> by congruence. rewrite Hoff in Hoj. by apply (offsetof_ne f Hf).
    + by apply (uses_ne _ _ _ _ Hu HjL).
  - done.
  - assert (forall j g, (j, g) ∈ G -> g ∈ coreFields /\ (j, offsetof g) ∈ (i, offsetof f) :: L /\
      exists r', mRegs (loadedAsm (qword f) lr i r e) !! j = Some r' /\ mLoaded r' = true) as Hold.
    { intros j g Hin. destruct (T5 j g Hin) as (Hg & HjL & rj & Hrj & Hlj).
      split_and!; [done|by right|].
      cbn [loadedAsm mRegs set_mRegs set_code set_lruCounter memOffset qword].
      destruct (decide (j = i)) as [->|Hne].
      - rewrite list_lookup_alter_eq, Hr. eexists. split; [done|]. cbn [loadedReg mLoaded].
        assert (rj = r) as -> by congruence. by rewrite Hlj.
      - rewrite list_lookup_alter_ne by done. by exists rj. }
    intros j g Hin. destruct lr; [|by apply Hold].
    apply elem_of_cons in Hin as [E|Hin]; [|by apply Hold]. injection E as -> ->.
    split_and!; [done|by left|]. cbn [loadedAsm mRegs set_mRegs set_code set_lruCounter memOffset qword].
    rewrite list_lookup_alter_eq, Hr. eexists. split; [done|]. cbn [loadedReg mLoaded]. apply orb_true_r.
  - intros z g p E. rewrite E2, E3, E4. by apply T6.
Qed.

(** ** Statements *)

(** The register of handle [t] holds [v]. *)
Definition denotes (V : list (nat * Z)) (G : list (nat * CoreField)) s (t : GpRegister) (v : Z) : Prop :=
  (mReg t, v) ∈ V \/ exists f, (mReg t, f) ∈ G /\ v = fieldGet f (core s).

Lemma denotes_val X L V G F n a h s t v :
  St X L V G F n a h s -> denotes V G s t v ->
  hregs h (gp (mReg t)) = v /\ uint 64 v /\ (mReg t < 9)%nat /\
  exists o, (mReg t, o) ∈ L.
Proof.
  intros [S1 S2 S3 S4 S5 S6] Hd.
  assert (hregs h (gp (mReg t)) = v /\ exists o, (mReg t, o) ∈ L) as (Hv & o & HL).
  { destruct Hd as [Hin|(f & Hin & ->)].
    - destruct (S3 _ _ Hin). split; [done|]. by eexists.
    - destruct (S5 _ _ Hin) as (Hf & HL & r & Hr & Hl). split; [|by eexists].
      destruct (ho_own _ _ _ S1 _ _ HL) as (r' & Hr' & Ho). assert (r' = r) as -> by congruence.
      by apply (co_reg _ _ _ _ S2 _ r f). }
  split_and!; [done|subst v; apply (co_uint _ _ _ _ S2)| |by eexists].
  destruct (ho_own _ _ _ S1 _ _ HL) as (r & Hr & _). by apply (holds_index _ _ _ _ _ S1 Hr).
Qed.

(** A source operand of [sz] bytes and its value. *)
Inductive reads (X : list CoreField) (V : list (nat * Z)) (G : list (nat * CoreField)) s
    (m : Mnemonic) (sz : Z) : Arg -> Z -> Prop :=
  | reads_handle t v : denotes V G s t v -> mWrittenOnUse t = false -> mSize t = sz ->
      reads X V G s m sz (H t) (wrap (8 * sz) v)
  | reads_handle32 t v : denotes V G s t v -> mWrittenOnUse t = false -> mSize t = 8 -> sz = 4 ->
      reads X V G s m sz (H32 t) (wrap (8 * sz) v)
  | reads_handle8 t v : denotes V G s t v -> mWrittenOnUse t = false -> mSize t = 8 -> sz = 1 ->
      reads X V G s m sz (H8 t) (wrap (8 * sz) v)
  | reads_raw t v : denotes V G s t v ->
      reads X V G s m sz (R (mkGp (gp (mReg t)) sz)) (wrap (8 * sz) v)
  | reads_mem f mm : f ∈ coreFields -> ~ cacheable f -> f ∉ X -> fieldSize f = sz ->
      memBase mm = stateReg -> memOffset mm = offsetof f ->
      reads X V G s m sz (M mm) (fieldGet f (core s))
  | reads_imm v : immOk m sz v = true -> reads X V G s m sz (I v) (wrap (8 * sz) v)
  | reads_ptr p : reads X V G s m sz (P p) (wrap (8 * sz) (ptrValue p)).

(** A member that is not kept in host registers is up to date in the core. *)
Lemma coh_direct X a h s f : coh X a h s -> f ∈ coreFields -> ~ cacheable f -> f ∉ X ->
  fieldGet f (hcore h) = fieldGet f (core s).
Proof.
  intros HC Hf Hc HX. apply (co_field _ _ _ _ HC); [done|done|]. intros i r Hr _ Ho.
  destruct (co_valid _ _ _ _ HC i r Hr) as (g & Hg & Ho'); [rewrite Ho; by apply offsetof_ne|].
  apply Hc. assert (g = f) as -> by (apply offsetof_inj; [apply Hg|done|congruence]). done.
Qed.

Lemma reads_readOp X L V G F n a h s m sz x b :
  St X L V G F n a h s -> reads X V G s m sz x b -> sz = 1 \/ sz = 4 \/ sz = 8 ->
  readOp sz (opOf x) h = Some b /\
  match opOf x with OImm v => negb (immOk m sz v) = false | _ => True end /\
  arg_ok L x /\ writtenArg x = [].
Proof.
  intros HS Hr Hsz.
  destruct Hr as [t v Hd Hw Hs|t v Hd Hw Ht Hs|t v Hd Hw Ht Hs|t v Hd|f mm Hf Hc HX Hs Hb Ho|v Hi|p].
  7: by split_and!.
  6: { split_and!; try done. cbn [opOf]. by rewrite Hi. }
  5: { split_and!; try done. cbn [opOf readOp]. pose proof (st_coh _ _ _ _ _ _ _ _ _ HS) as HC.
    rewrite Hb, Ho, (co_base _ _ _ _ HC), Z.eqb_refl. subst sz.
    by rewrite coreLoad_field, (coh_direct _ _ _ _ f HC) by done. }
  4: { destruct (denotes_val _ _ _ _ _ _ _ _ _ t v HS Hd) as (<- & _). by split_and!. }
  all: destruct (denotes_val _ _ _ _ _ _ _ _ _ t v HS Hd) as (<- & _ & _ & o & Ho).
  all: assert (handle_ok L t) as Hok by (split; [lia|]; exists o; by rewrite Hw).
  all: subst; split_and!; try done.
  all: unfold writtenArg, written; cbn [argHandle]; by rewrite Hw.
Qed.

(** A register destination of [sz] bytes. *)
Inductive dest (sz : Z) (t : GpRegister) : Arg -> Prop :=
  | dest_handle : mSize t = sz -> dest sz t (H t)
  | dest_handle32 : mSize t = 8 -> sz = 4 -> dest sz t (H32 t)
  | dest_raw : dest sz t (R (mkGp (gp (mReg t)) sz)).

(** What a register holds after a write of [sz] bytes. *)
Definition regValue (sz old v : Z) : Z :=
  if sz =? 8 then u64 v
  else if sz =? 4 then u32 v
  else Z.lor (Z.shiftl (Z.shiftr old (8 * sz)) (8 * sz)) (wrap (8 * sz) v).

Lemma regValue_uint sz old v : sz = 1 \/ sz = 4 \/ sz = 8 -> uint 64 old -> uint 64 (regValue sz old v).
Proof.
  intros Hsz Ho. unfold regValue. destruct Hsz as [->|[->| ->]]; cbn [Z.eqb Pos.eqb].
  - apply uint_lor; [lia| |].
    + apply uint_bits; [lia| |].
      * apply Z.shiftl_nonneg, Z.shiftr_nonneg, Ho.
      * intros i Hi. rewrite testbit_shiftl, Z.shiftr_spec by lia.
        rewrite (testbit_uint_high 64) by (try done; lia). apply andb_false_r.
    + apply (uint_le 8); [|lia]. by apply wrap_uint.
  - apply (uint_le 32); [by apply wrap_uint|lia].
  - by apply wrap_uint.
Qed.

(** The value a binary instruction leaves in its register. *)
Definition alu (m : Mnemonic) (sz a b : Z) : Z :=
  regValue sz a (default 0 (arith m sz (wrap (8 * sz) a) b)).
Definition isAlu (m : Mnemonic) : Prop :=
  match m with Mov | Add | Sub | And | Or | Xor | Shl | Shr => True | _ => False end.

(** [h'] is [h] but for one register and the flags. *)
Definition regChange (i : nat) (v : Z) h h' : Prop :=
  hregs h' = updReg_ (gp i) v (hregs h) /\ machine h' = machine h.

Lemma setReg_change sz i v h h' : hregs h' = hregs (setReg sz (gp i) v h) -> machine h' = machine h ->
  regChange i (regValue sz (hregs h (gp i)) v) h h'.
Proof. intros E E'. split; [by rewrite E|done]. Qed.

Lemma exec_alu X L V G F n a h s m sz i x b :
  St X L V G F n a h s -> isAlu m -> sz = 1 \/ sz = 4 \/ sz = 8 -> reads X V G s m sz x b ->
  exists h', execInst m [OReg (mkGp (gp i) sz); opOf x] h = Some h' /\
    regChange i (alu m sz (hregs h (gp i)) b) h h'.
Proof.
  intros HS Hm Hsz Hr.
  destruct (reads_readOp _ _ _ _ _ _ _ _ _ _ _ _ _ HS Hr Hsz) as (Hread & Himm & _).
  cbn [execInst]. unfold execBinary. cbn [opSize gpSize].
  assert ((match opOf x with OImm v => negb (immOk m sz v) | _ => false end) = false) as ->
    by (destruct (opOf x); done).
  rewrite Hread. cbn [mbind option_bind readOp gpReg].
  unfold alu. destruct m; try done; cbn [compareFlags arith mbind option_bind writeOp gpReg default];
    eexists; (split; [reflexivity|]); by apply setReg_change.
Qed.

(** *** The state after a statement *)

Lemma known_update (V1 V2 : list (nat * Z)) i v v' j w :
  NoDup (map fst (V1 ++ (i, v) :: V2)) -> (j, w) ∈ V1 ++ (i, v') :: V2 ->
  j = i /\ w = v' \/ j <> i /\ (j, w) ∈ V1 ++ (i, v) :: V2.
Proof.
  rewrite map_app. cbn [map fst]. intros Hnd Hin.
  apply NoDup_app in Hnd as (_ & Hdis & Hnd). apply NoDup_cons in Hnd as [Hni _].
  rewrite elem_of_app, elem_of_cons in Hin |- *.
  destruct Hin as [Hin|[[= -> ->]|Hin]]; [|by left|]; right.
  - split; [|by left]. intros ->. apply (Hdis i); [by apply (list_elem_of_fmap_2 fst) in Hin|by left].
  - split; [|by right; right]. intros ->. by apply Hni, (list_elem_of_fmap_2 fst V2 (i, w)).
Qed.

(** A temporary gets a new value. *)
Lemma St_reg_temp X L V1 V2 G F n n' a a' h h' s i v v' :
  St X L (V1 ++ (i, v) :: V2) G F n a h s -> holds a' L n' -> sameRegs [] a a' ->
  uint 64 v' -> regChange i v' h h' -> St X L (V1 ++ (i, v') :: V2) G None n' a' h' s.
Proof.
  intros HS HL' Hsame Hv' [Hregs Hmach].
  assert (St X L (V1 ++ (i, v) :: V2) G F n' a' h s) as [S1 S2 S3 S4 S5 S6].
  { eapply St_same; [exact HS|done|done| |].
    - intros j w Hin. by apply (st_V _ _ _ _ _ _ _ _ _ HS j w).
    - intros j f Hin. by apply (st_G _ _ _ _ _ _ _ _ _ HS j f). }
  destruct (S3 i v) as [HiL _]; [apply elem_of_app; right; by left|].
  destruct (ho_own _ _ _ S1 _ _ HiL) as (ri & Hri & Hoi).
  assert (i < 9)%nat as Hi by (by apply (holds_index _ _ _ _ _ S1 Hri)).
  assert (forall j r, mRegs a' !! j = Some r -> j <> i -> hregs h' (gp j) = hregs h (gp j)) as Hother.
  { intros j r Hj Hne. rewrite Hregs. unfold updReg_. rewrite decide_False; [done|].
    intros E. apply Hne. apply gp_inj; [by apply (holds_index _ _ _ _ _ S1 Hj)|done|done]. }
  pose proof (ho_reg _ _ _ S1 i ri Hri) as Hok.
  constructor.
  - done.
  - destruct S2 as [C1 C2 C3 C4 C5 C6 C7 C8 C9 C10]. unfold hcore in *. constructor;
      unfold hcore; rewrite ?Hmach; try done.
    + rewrite Hregs. unfold updReg_. rewrite decide_False; [done|]. intros E.
      by apply (gp_ne_state i Hi).
    + intros j r f Hj Hl Hf Ho. destruct (decide (j = i)) as [->|Hne].
      * assert (r = ri) as -> by congruence. destruct (ro_free _ _ Hok Hoi). congruence.
      * rewrite (Hother j r Hj Hne). by eapply C4.
    + intros r. rewrite Hregs. unfold updReg_. by case_decide.
  - intros j w Hin. destruct (known_update V1 V2 i v v' j w S4 Hin) as [[-> ->]|[Hne Hin']].
    + split; [done|]. rewrite Hregs. unfold updReg_. by rewrite decide_True.
    + destruct (S3 j w Hin') as [HjL Hw]. split; [done|].
      destruct (ho_own _ _ _ S1 _ _ HjL) as (rj & Hrj & _). by rewrite (Hother j rj Hrj).
  - rewrite map_app in *. done.
  - done.
  - done.
Qed.

(** The host register of a guest register gets a new value, to be written back later. *)
Lemma St_reg_guest X L V G F n n' a a' h h' s t f v' :
  St X L V G F n a h s -> holds a' L n' -> sameRegs [mReg t] a a' ->
  (mReg t, offsetof f) ∈ L -> cacheable f ->
  uint 64 v' -> regChange (mReg t) v' h h' ->
  St X L V ((mReg t, f) :: G) None n' a' h' (set_core (fieldSet f v' (core s)) s).
Proof.
  intros [S1 S2 S3 S4 S5 S6] HL' Hsame HiL Hc Hv' [Hregs Hmach]. set (i := mReg t) in *.
  pose proof Hc as (Hf & Hs8 & _ & _). destruct Hsame as (_ & _ & Hsame).
  destruct (ho_own _ _ _ HL' _ _ HiL) as (ri' & Hri' & Hoi').
  destruct (Hsame i ri' Hri') as (ri & Hri & Hoi & Hmi & Hli).
  rewrite bool_decide_true, orb_true_r in Hmi, Hli by (by left).
  assert (i < 9)%nat as Hi by (by apply (holds_index _ _ _ _ _ HL' Hri')).
  assert (forall j r', mRegs a' !! j = Some r' -> j <> i -> exists r, mRegs a !! j = Some r /\
    mOffset r' = mOffset r /\ mModified r' = mModified r /\ mLoaded r' = mLoaded r /\
    hregs h' (gp j) = hregs h (gp j)) as Hother.
  { intros j r' Hj Hne. destruct (Hsame j r' Hj) as (r & Hr & Ho & Hm & Hl). exists r.
    rewrite bool_decide_false, orb_false_r in Hm, Hl by (by intros ?%list_elem_of_singleton).
    split_and!; try done. rewrite Hregs. unfold updReg_. rewrite decide_False; [done|].
    intros E. apply Hne. apply gp_inj; [by apply (holds_index _ _ _ _ _ HL' Hj)|done|done]. }
  assert (hregs h' (gp i) = v') as Hnew.
  { rewrite Hregs. unfold updReg_. by rewrite decide_True. }
  constructor.
  - done.
  - destruct S2 as [C1 C2 C3 C4 C5 C6 C7 C8 C9 C10]. unfold hcore in *. constructor;
      unfold hcore; rewrite ?Hmach; try done; cbn [core memory gTimer set_core].
    + rewrite Hregs. unfold updReg_. rewrite decide_False; [done|]. intros E.
      by apply (gp_ne_state i Hi).
    + intros j r' Hj Hno. destruct (decide (j = i)) as [->|Hne].
      * exists f. split; [done|]. congruence.
      * destruct (Hother j r' Hj Hne) as (r & Hr & Ho & _). rewrite Ho in *. by eapply C2.
    + intros g Hg HX Hn. destruct (decide (g = f)) as [->|Hgf].
      * exfalso. by apply (Hn i ri').
      * rewrite fieldGet_fieldSet_ne by done. apply C3; [done|done|]. intros j r Hj Hm Ho.
        destruct (holds_same_dom _ _ _ _ _ _ _ _ S1 HL' Hj) as [r' Hr'].
        destruct (decide (j = i)) as [->|Hne].
        -- apply Hgf. assert (r = ri) as -> by congruence. apply offsetof_inj; congruence.
        -- destruct (Hother j r' Hr' Hne) as (r0 & Hr0 & Ho' & Hm' & _).
           assert (r0 = r) as -> by congruence. apply (Hn j r'); congruence.
    + intros j r' g Hj Hl Hg Ho. destruct (decide (j = i)) as [->|Hne].
      * assert (g = f) as -> by (apply offsetof_inj; congruence). rewrite Hnew.
        rewrite fieldGet_fieldSet by done. unfold fieldValue. by rewrite Hs8.
      * destruct (Hother j r' Hj Hne) as (r & Hr & Ho' & _ & Hl' & ->).
        rewrite fieldGet_fieldSet_ne; [apply (C4 j r); congruence|done|done| |done].
        intros ->. apply Hne. by apply (cached_inj a' L n' j i r' ri' f HL').
    + by rewrite others_fieldSet.
    + apply wf_fieldSet; [done|by intros _].
    + intros r. rewrite Hregs. unfold updReg_. by case_decide.
  - intros j w Hin. destruct (S3 j w Hin) as [HjL Hw]. split; [done|].
    destruct (ho_own _ _ _ HL' _ _ HjL) as (rj & Hrj & Hoj).
    destruct (decide (j = i)) as [->|Hne].
    + exfalso. apply (offsetof_ne f Hf). congruence.
    + by destruct (Hother j rj Hrj Hne) as (_ & _ & _ & _ & _ & ->).
  - done.
  - assert (forall j g, (j, g) ∈ G -> g ∈ coreFields /\ (j, offsetof g) ∈ L /\
      exists r, mRegs a' !! j = Some r /\ mLoaded r = true) as Hold.
    { intros j g Hin. destruct (S5 j g Hin) as (Hg & HjL & r & Hr & Hl). split_and!; try done.
      destruct (holds_same_dom _ _ _ _ _ _ _ _ S1 HL' Hr) as [r' Hr']. exists r'. split; [done|].
      destruct (decide (j = i)) as [->|Hne]; [congruence|].
      destruct (Hother j r' Hr' Hne) as (r0 & Hr0 & _ & _ & Hl' & _). congruence. }
    intros j g [[= -> ->]|Hin]%elem_of_cons; [|by apply Hold]. split_and!; [done..|].
    exists ri'. by split.
  - done.
Qed.
End Refine.
