(* ===== verification/JitRefine.v ===== *)
(** * The compiled instructions do what the interpreter does

    Rules for the statements of the compiler, the functions of the instructions against the
    interpreter's handlers, and whole blocks: the words they may hold
    ([coveredWords]), and the code of such a block ([generateCode_leaves]). *)
From S2P Require Import Prelude BitUtils Instructions DecodeSystem Decode Core InstUtils.
From S2P Require Import Machine Memory Float InterpBranch InterpDPImm InterpDPReg Interp InterpWf JitAsm JitInsts Jit JitAllocSpec JitRepr.

Section Rules.
Context {Mem : Type} `{GuestMemory Mem} `{CpuHooks Mem} `{ShiftTarget} `{HostFloat}.
Context `{CoreLayoutLaws} `{HostCpu}.

Implicit Types (h : HostState Mem) (s : Machine Mem) (a : Asm).

(** ** Statements *)

Definition noJump (m : Mnemonic) : Prop :=
  match m with Jmp | Jpe | Call | Ret => False | _ => True end.

Lemma wp_ins a h L n m xs h' : holds a L n -> Forall (arg_ok L) xs ->
  n + Z.of_nat (length xs) <= NO_LRU_VALUE -> (length L + length xs <= 20)%nat -> noJump m ->
  execInst m (map opOf xs) h = Some h' ->
  wp (ins m xs) a h (fun _ a' h'' => h'' = h' /\ holds a' L (n + Z.of_nat (length xs)) /\
    sameRegs (concat (map writtenArg xs)) a a').
Proof.
  intros HL Hxs Hn Hs Hm He. destruct (ins_spec a L n m xs HL Hxs Hn Hs) as (a' & Hf & HL' & Hsame & Hcode).
  exists tt, a', h'. split_and!; try done. split; [apply Hsame|].
  exists [Ins m (map opOf xs)]. split; [done|].
  intros rest. by apply run_exec.
Qed.

(** A change of the core by a statement. *)
Definition setField (f : CoreField) (v : Z) s : Machine Mem := set_core (fieldSet f v (core s)) s.

(** *** A register is computed *)

Lemma wp_alu_temp X L V1 V2 G F n a h s m sz t v d x b :
  St X L (V1 ++ (mReg t, v) :: V2) G F n a h s -> isAlu m -> sz = 1 \/ sz = 4 \/ sz = 8 ->
  dest sz t d -> mWrittenOnUse t = false ->
  reads X (V1 ++ (mReg t, v) :: V2) G s m sz x b ->
  n + 2 <= NO_LRU_VALUE -> (length L <= 18)%nat ->
  wp (ins m [d; x]) a h (fun _ a' h' =>
    St X L (V1 ++ (mReg t, alu m sz v b) :: V2) G None (n + 2) a' h' s).
Proof.
  intros HS Hm Hsz Hd Hw Hr Hn Hl. pose proof (st_holds _ _ _ _ _ _ _ _ _ HS) as HL.
  destruct (reads_readOp _ _ _ _ _ _ _ _ _ _ _ _ _ HS Hr Hsz) as (_ & _ & Hok & Hwx).
  destruct (st_V _ _ _ _ _ _ _ _ _ HS (mReg t) v) as [HiL Hv]; [apply elem_of_app; right; by left|].
  destruct (exec_alu _ _ _ _ _ _ _ _ _ m sz (mReg t) x b HS Hm Hsz Hr) as (h1 & He & Hch).
  assert (opOf d = OReg (mkGp (gp (mReg t)) sz) /\ arg_ok L d /\ writtenArg d = []) as (Eo & Hdok & Hdw).
  { destruct Hd as [Hs|Hs ->|]; cbn [opOf]; rewrite ?Hs; unfold arg_ok, writtenArg, written;
      cbn [argHandle]; rewrite ?Hw; split_and!; try done.
    all: split; [lia|exists NO_OFFSET; by rewrite Hw]. }
  eapply wp_conseq.
  - apply (wp_ins a h L n m [d; x] h1 HL).
    + by repeat constructor.
    + cbn [length]. lia.
    + cbn [length]. lia.
    + by destruct m.
    + cbn [map]. by rewrite Eo.
  - cbn [map concat]. rewrite Hdw, Hwx. intros [] a' h' (-> & HL' & Hsame). cbn [length] in HL'.
    eapply St_reg_temp; [exact HS|exact HL'|exact Hsame| |].
    + apply regValue_uint; [done|]. rewrite <-Hv. apply (co_uint _ _ _ _ (st_coh _ _ _ _ _ _ _ _ _ HS)).
    + by rewrite <-Hv.
Qed.

(** A guest register is computed in its host register. *)
Lemma wp_alu_guest X L V G F n a h s m sz t f old d x b :
  St X L V G F n a h s -> isAlu m -> sz = 4 \/ sz = 8 -> dest sz t d -> argHandle d = Some t ->
  mWrittenOnUse t = true -> (mReg t, offsetof f) ∈ L -> cacheable f ->
  m = Mov \/ (mReg t, f) ∈ G /\ old = fieldGet f (core s) ->
  reads X V G s m sz x b -> n + 2 <= NO_LRU_VALUE -> (length L <= 18)%nat ->
  wp (ins m [d; x]) a h (fun _ a' h' =>
    St X L V ((mReg t, f) :: G) None (n + 2) a' h' (setField f (alu m sz old b) s)).
Proof.
  intros HS Hm Hsz Hd Hdh Hw HiL Hc Hold Hr Hn Hl. pose proof (st_holds _ _ _ _ _ _ _ _ _ HS) as HL.
  assert (sz = 1 \/ sz = 4 \/ sz = 8) as Hsz' by lia.
  destruct (reads_readOp _ _ _ _ _ _ _ _ _ _ _ _ _ HS Hr Hsz') as (_ & _ & Hok & Hwx).
  destruct (exec_alu _ _ _ _ _ _ _ _ _ m sz (mReg t) x b HS Hm Hsz' Hr) as (h1 & He & Hch).
  assert (opOf d = OReg (mkGp (gp (mReg t)) sz) /\ arg_ok L d /\ writtenArg d = [mReg t]) as (Eo & Hdok & Hdw).
  { destruct Hd as [Hs|Hs ->|]; try done; cbn [opOf]; rewrite ?Hs; unfold arg_ok, writtenArg, written;
      cbn [argHandle]; rewrite ?Hw; split_and!; try done.
    all: split; [lia|exists (offsetof f); split; [done|intros _; apply offsetof_ne, Hc]]. }
  assert (alu m sz (hregs h (gp (mReg t))) b = alu m sz old b) as Ealu.
  { destruct Hold as [->|[HG ->]].
    - unfold alu, arith, regValue. by destruct Hsz as [-> | ->].
    - f_equal. by apply (denotes_val _ _ _ _ _ _ _ _ _ t _ HS); right; exists f. }
  eapply wp_conseq.
  - apply (wp_ins a h L n m [d; x] h1 HL).
    + by repeat constructor.
    + cbn [length]. lia.
    + cbn [length]. lia.
    + by destruct m.
    + cbn [map]. by rewrite Eo.
  - cbn [map concat]. rewrite Hdw, Hwx. intros [] a' h' (-> & HL' & Hsame). cbn [length] in HL'.
    rewrite Ealu in Hch. eapply St_reg_guest; [exact HS|exact HL'|exact Hsame|exact HiL|exact Hc| |exact Hch].
    unfold alu, regValue. destruct Hsz as [-> | ->]; cbn [Z.eqb Pos.eqb].
    + apply (uint_le 32); [by apply wrap_uint|lia].
    + by apply wrap_uint.
Qed.

(** *** Flags *)

Lemma St_same' X L V G F n n' a a' h s :
  St X L V G F n a h s -> holds a' L n' -> sameRegs [] a a' -> St X L V G F n' a' h s.
Proof.
  intros HS HL Hsame. eapply St_same; [exact HS|done|done| |].
  - intros i v Hin. by apply (st_V _ _ _ _ _ _ _ _ _ HS i v).
  - intros i f Hin. by apply (st_G _ _ _ _ _ _ _ _ _ HS i f).
Qed.

Lemma St_setF X L V G F F' n a h s :
  St X L V G F' n a h s -> (forall z g p, F = Some (z, g, p) -> zf h = z /\ gef h = g /\ pf h = p) ->
  St X L V G F n a h s.
Proof. intros [] HF. by constructor. Qed.

Lemma St_set_flags X L V G F n a h s f :
  St X L V G F n a h s -> St X L V G (Some f) n a (set_flags f h) s.
Proof.
  intros [S1 S2 S3 S4 S5 S6]. constructor; try done.
  - destruct S2. by constructor.
  - by intros z g p [= ->].
Qed.

Lemma wp_compare X L V G F n a h s m sz t v d x b fl :
  St X L V G F n a h s -> sz = 1 \/ sz = 4 \/ sz = 8 -> dest sz t d -> mWrittenOnUse t = false ->
  denotes V G s t v -> reads X V G s m sz x b -> compareFlags m sz (wrap (8 * sz) v) b = Some fl ->
  n + 2 <= NO_LRU_VALUE -> (length L <= 18)%nat ->
  wp (ins m [d; x]) a h (fun _ a' h' => St X L V G (Some fl) (n + 2) a' h' s).
Proof.
  intros HS Hsz Hd Hw Hv Hr Hfl Hn Hl. pose proof (st_holds _ _ _ _ _ _ _ _ _ HS) as HL.
  destruct (reads_readOp _ _ _ _ _ _ _ _ _ _ _ _ _ HS Hr Hsz) as (Hread & Himm & Hok & Hwx).
  destruct (denotes_val _ _ _ _ _ _ _ _ _ t v HS Hv) as (Ev & _ & _ & o & Ho).
  assert (opOf d = OReg (mkGp (gp (mReg t)) sz) /\ arg_ok L d /\ writtenArg d = []) as (Eo & Hdok & Hdw).
  { destruct Hd as [Hs|Hs ->|]; cbn [opOf]; rewrite ?Hs; unfold arg_ok, writtenArg, written;
      cbn [argHandle]; rewrite ?Hw; split_and!; try done.
    all: split; [lia|exists o; by rewrite Hw]. }
  eapply wp_conseq.
  - apply (wp_ins a h L n m [d; x] (set_flags fl h) HL).
    + by repeat constructor.
    + cbn [length]. lia.
    + cbn [length]. lia.
    + by destruct m.
    + cbn [map]. rewrite Eo. cbn [execInst]. unfold execBinary. cbn [opSize gpSize].
      assert ((match opOf x with OImm v => negb (immOk m sz v) | _ => false end) = false) as ->
        by (destruct (opOf x); done).
      rewrite Hread. cbn [mbind option_bind readOp gpReg]. rewrite Ev, Hfl. by destruct m.
  - cbn [map concat]. rewrite Hdw, Hwx. intros [] a' h' (-> & HL' & Hsame). cbn [length] in HL'.
    eapply St_same'; [by eapply St_set_flags|exact HL'|done].
Qed.

(** The flag [sete] or [setge] copies. *)
Definition setFlag (m : Mnemonic) (fl : bool * bool * bool) : option bool :=
  match m with Sete => Some (fl.1.1) | Setge => Some (fl.1.2) | _ => None end.

Lemma wp_set_temp X L V1 V2 G n a h s m t v d fl b sz :
  St X L (V1 ++ (mReg t, v) :: V2) G (Some fl) n a h s -> setFlag m fl = Some b ->
  dest sz t d -> sz = 1 \/ sz = 8 -> mWrittenOnUse t = false -> n + 1 <= NO_LRU_VALUE -> (length L <= 18)%nat ->
  wp (ins m [d]) a h (fun _ a' h' =>
    St X L (V1 ++ (mReg t, regValue 1 v (Z.b2z b)) :: V2) G (Some fl) (n + 1) a' h' s).
Proof.
  intros HS Hb Hd Hsz Hw Hn Hl. pose proof (st_holds _ _ _ _ _ _ _ _ _ HS) as HL.
  destruct (st_V _ _ _ _ _ _ _ _ _ HS (mReg t) v) as [HiL Hv]; [apply elem_of_app; right; by left|].
  destruct fl as [[z g] p]. destruct (st_F _ _ _ _ _ _ _ _ _ HS z g p eq_refl) as (Fz & Fg & Fp).
  assert (opOf d = OReg (mkGp (gp (mReg t)) sz) /\ arg_ok L d /\ writtenArg d = []) as (Eo & Hdok & Hdw).
  { destruct Hd as [Hs|Hs ->|]; cbn [opOf]; rewrite ?Hs; unfold arg_ok, writtenArg, written;
      cbn [argHandle]; rewrite ?Hw; split_and!; try done.
    all: split; [lia|exists NO_OFFSET; by rewrite Hw]. }
  eapply wp_conseq.
  - apply (wp_ins a h L n m [d] (setReg 1 (gp (mReg t)) (Z.b2z b) h) HL).
    + by repeat constructor.
    + cbn [length]. lia.
    + cbn [length]. lia.
    + by destruct m.
    + cbn [map]. rewrite Eo. destruct m; try done; injection Hb as <-; cbn [execInst execUnary fst snd];
        by rewrite ?Fz, ?Fg.
  - cbn [map concat]. rewrite Hdw. intros [] a' h' (-> & HL' & Hsame). cbn [length] in HL'.
    eapply St_setF.
    + eapply St_reg_temp; [exact HS|exact HL'|exact Hsame| |].
      * apply regValue_uint; [by left|]. rewrite <-Hv.
        apply (co_uint _ _ _ _ (st_coh _ _ _ _ _ _ _ _ _ HS)).
      * rewrite <-Hv. by apply setReg_change.
    + intros z' g' p' [= <- <- <-]. done.
Qed.

(** *** A member of the core is written *)

Lemma St_store X X' L V G F n a h s f v :
  St X L V G F n a h s -> f ∈ coreFields -> field_uint f v ->
  ~ cacheable f \/ fieldSet f v (core s) = core s -> X ⊆ f :: X' ->
  St X' L V G F n a (set_hcore (fieldSet f v (hcore h)) h) (setField f v s).
Proof.
  intros [S1 S2 S3 S4 S5 S6] Hf Hu Hc HX. constructor; try done.
  destruct S2 as [C1 C2 C3 C4 C5 C6 C7 C8 C9 C10]. unfold hcore, setField in *.
  constructor; unfold hcore; cbn [machine core memory gTimer set_core set_hcore set_machine hregs]; try done.
  - intros g Hg HgX Hn. destruct (decide (g = f)) as [->|Hgf].
    + by rewrite !fieldGet_fieldSet.
    + rewrite !fieldGet_fieldSet_ne by done. apply C3; [done| |done].
      intros Hin. apply HX, elem_of_cons in Hin as [|]; done.
  - intros i r g Hr Hl Hg Ho. rewrite (C4 i r g Hr Hl Hg Ho). destruct Hc as [Hc|E]; [|by rewrite E].
    rewrite fieldGet_fieldSet_ne; [done|done|done| |done]. intros ->. apply Hc.
    destruct (C2 i r Hr) as (g & Hg' & Ho'); [rewrite Ho; by apply offsetof_ne|].
    assert (g = f) as -> by (apply offsetof_inj; [apply Hg'|done|congruence]). done.
  - by rewrite !others_fieldSet.
  - by apply wf_fieldSet.
  - by apply wf_fieldSet.
Qed.

(** [sete] and [setge] on a flag. *)
Lemma wp_set_flag X L V G n a h s m f fl b :
  St X L V G (Some fl) n a h s -> setFlag m fl = Some b ->
  f ∈ coreFields -> fieldSize f = 1 -> f ∉ X -> n + 1 <= NO_LRU_VALUE -> (length L <= 18)%nat ->
  wp (ins m [JitAsm.M (byte_ptr f)]) a h (fun _ a' h' =>
    St X L V G (Some fl) (n + 1) a' h' (setField f (Z.b2z b) s)).
Proof.
  intros HS Hb Hf Hs HX Hn Hl. pose proof (st_holds _ _ _ _ _ _ _ _ _ HS) as HL.
  pose proof (st_coh _ _ _ _ _ _ _ _ _ HS) as HC.
  destruct fl as [[z g] p]. destruct (st_F _ _ _ _ _ _ _ _ _ HS z g p eq_refl) as (Fz & Fg & Fp).
  eapply wp_conseq.
  - apply (wp_ins a h L n m [JitAsm.M (byte_ptr f)] (set_hcore (fieldSet f (Z.b2z b) (hcore h)) h) HL).
    + by repeat constructor.
    + cbn [length]. lia.
    + cbn [length]. lia.
    + by destruct m.
    + cbn [map opOf]. pose proof (coh_base_store X a h s f (Z.b2z b) _ HC Hf eq_refl) as Hst.
      rewrite Hs in Hst. destruct m; try done; injection Hb as <-; cbn [execInst execUnary fst snd] in *;
        by rewrite ?Fz, ?Fg.
  - cbn [map concat]. intros [] a' h' (-> & HL' & Hsame). cbn [length] in HL'.
    eapply St_same'; [|exact HL'|exact Hsame]. eapply St_store; [exact HS|done| | |intros g' Hg; by right].
    + intros E. lia.
    + left. intros (_ & E & _). lia.
Qed.

Lemma wp_store X X' L V G F n a h s f mm x b :
  St X L V G F n a h s -> f ∈ coreFields -> ~ cacheable f -> 
  memBase mm = stateReg -> memOffset mm = offsetof f -> opSize [OMem mm; opOf x] = fieldSize f ->
  reads X V G s Mov (fieldSize f) x b -> field_uint f b -> X ⊆ f :: X' ->
  n + 2 <= NO_LRU_VALUE -> (length L <= 18)%nat ->
  wp (ins Mov [JitAsm.M mm; x]) a h (fun _ a' h' => St X' L V G F (n + 2) a' h' (setField f b s)).
Proof.
  intros HS Hf Hc Hbase Hoff Hsize Hr Hu HX Hn Hl. pose proof (st_holds _ _ _ _ _ _ _ _ _ HS) as HL.
  pose proof (st_coh _ _ _ _ _ _ _ _ _ HS) as HC.
  assert (fieldSize f = 1 \/ fieldSize f = 4 \/ fieldSize f = 8) as Hsz by (destruct f; auto).
  destruct (reads_readOp _ _ _ _ _ _ _ _ _ _ _ _ _ HS Hr Hsz) as (Hread & Himm & Hok & Hwx).
  eapply wp_conseq.
  - apply (wp_ins a h L n Mov [JitAsm.M mm; x] (set_hcore (fieldSet f b (hcore h)) h) HL).
    + repeat constructor; done.
    + cbn [length]. lia.
    + cbn [length]. lia.
    + done.
    + cbn [map execInst]. unfold execBinary. cbn [opOf]. rewrite Hsize.
      assert ((match opOf x with OImm v => negb (immOk Mov (fieldSize f) v) | _ => false end) = false) as ->
        by (destruct (opOf x); done).
      rewrite Hread. cbn [mbind option_bind writeOp].
      by rewrite Hbase, Hoff, (co_base _ _ _ _ HC), Z.eqb_refl, coreStore_field.
  - cbn [map concat]. rewrite Hwx. intros [] a' h' (-> & HL' & Hsame). cbn [length] in HL'.
    eapply St_same'; [|exact HL'|exact Hsame]. eapply St_store; [exact HS|done|done|by left|done].
Qed.

Lemma wp_write64 X X' L V G F n a h s f v :
  St X L V G F n a h s -> f ∈ coreFields -> fieldSize f = 8 -> uint 64 v ->
  ~ cacheable f \/ fieldSet f v (core s) = core s -> X ⊆ f :: X' ->
  n + 4 <= NO_LRU_VALUE -> (length L <= 18)%nat ->
  wp (write64ImmToMem (qword f) v) a h (fun _ a' h' =>
    St X' L V G F (n + 4) a' h' (setField f v s) /\ sameRegs [] a a').
Proof.
  intros HS Hf Hs Hv Hc HX Hn Hl. pose proof (st_holds _ _ _ _ _ _ _ _ _ HS) as HL.
  pose proof (st_coh _ _ _ _ _ _ _ _ _ HS) as HC.
  destruct (coreStore_halves f v (hcore h) Hf Hs (co_wf _ _ _ _ HC) Hv) as (c1 & E1 & E2).
  assert (forall h0 off v c, hregs h0 stateReg = coreAddr -> coreStore 4 off (u32 v) (hcore h0) = Some c ->
    execInst Mov (map opOf [JitAsm.M (mkMem stateReg off 4); I (u32 v)]) h0 = Some (set_hcore c h0)) as Hexec.
  { intros h0 off w c Hb0 Hc0. cbn [map opOf execInst]. unfold execBinary. cbn [opSize memSize Z.eqb immOk negb].
    cbn [readOp mbind option_bind writeOp memBase memOffset]. rewrite Hb0, Z.eqb_refl.
    change (8 * 4) with 32. unfold u32 in *. rewrite wrap_wrap, Hc0 by lia. done. }
  unfold write64ImmToMem. cbn [memBase memOffset qword]. apply wp_bind. eapply wp_conseq.
  - apply (wp_ins a h L n Mov _ (set_hcore c1 h) HL).
    + by repeat constructor.
    + cbn [length]. lia.
    + cbn [length]. lia.
    + done.
    + apply Hexec; [apply HC|done].
  - cbn [map concat length]. intros [] a1 h1 (-> & HL1 & Hsame1). eapply wp_conseq.
    + apply (wp_ins a1 _ L _ Mov _ (set_hcore (fieldSet f v (hcore h)) h) HL1).
      * by repeat constructor.
      * cbn [length]. lia.
      * cbn [length]. lia.
      * done.
      * rewrite (Hexec (set_hcore c1 h) (offsetof f + 4) (Z.shiftr v 32) (fieldSet f v (hcore h)));
          [done|apply HC|done].
    + cbn [map concat length]. intros [] a2 h2 (-> & HL2 & Hsame2).
      split; [|exact (sameRegs_trans [] [] _ _ _ Hsame1 Hsame2)].
      eapply St_same'; [|eapply holds_le; [exact HL2|lia]|exact (sameRegs_trans [] [] _ _ _ Hsame1 Hsame2)].
      eapply St_store; [exact HS|done|by intros _|done|done].
Qed.

(** *** Eviction of the whole cache *)

Lemma emptiedFrom_St X L V G F n k : forall i a h s,
  St X L V G F n a h s -> temporary L -> (i + k = 9)%nat ->
  exists h', ext a (emptiedFrom i k a) h h' /\ St X L V G F n (emptiedFrom i k a) h' s /\
    hregs h' = hregs h.
Proof.
  induction k as [|k IH]; intros i a h s HS Ht Hi; cbn [emptiedFrom].
  { exists h. split_and!; [apply ext_refl|done|done]. }
  pose proof (st_holds _ _ _ _ _ _ _ _ _ HS) as HL.
  destruct (holds_lookup a L n i HL) as [r Hr]; [lia|]. rewrite Hr.
  assert (exists h1, ext a (emptied i r a) h h1 /\ St X L V G F n (emptied i r a) h1 s /\ hregs h1 = hregs h)
    as (h1 & Hx1 & HS1 & E1).
  { destruct (decide (mOffset r = NO_OFFSET)) as [Ho|Ho].
    - unfold emptied. rewrite (proj2 (Z.eqb_eq _ _) Ho). exists h. split_and!; [apply ext_refl|done|done].
    - eapply emptied_St; [exact HS|done|]. by apply (uses_cached a L n i r). }
  destruct (IH (S i) _ _ s HS1 Ht) as (h2 & Hx2 & HS2 & E2); [lia|].
  exists h2. split_and!; [by eapply ext_trans|done|congruence].
Qed.

Lemma wp_envictAll X L V G F n a h s :
  St X L V G F n a h s -> temporary L ->
  wp envictAll a h (fun _ a' h' => St X L V G F n a' h' s /\ noCache a' /\ hregs h' = hregs h).
Proof.
  intros HS Ht. destruct (envictAll_spec a L n (st_holds _ _ _ _ _ _ _ _ _ HS) Ht) as (Hf & _ & Hno).
  destruct (emptiedFrom_St X L V G F n 9 0 a h s HS Ht eq_refl) as (h' & Hx & HS' & E).
  by exists tt, (emptiedFrom 0 9 a), h'.
Qed.

Lemma noCache_same a a' : noCache a -> sameRegs [] a a' -> noCache a'.
Proof.
  intros Hno Hsame i r Hr. destruct (sameRegs_nil _ _ _ _ Hsame Hr) as (r0 & Hr0 & -> & _). by eapply Hno.
Qed.

(** With an empty cache the host holds the guest machine itself. *)
Lemma coh_machine a h s : coh [] a h s -> noCache a -> machine h = s.
Proof.
  intros [C1 C2 C3 C4 C5 C6 C7 C8 C9 C10] Hno. unfold hcore in *.
  assert (core (machine h) = core s) as E.
  { apply core_ext; [done..|]. intros f Hf. apply C3; [done|apply not_elem_of_nil|].
    intros i r Hr _ Ho. apply (offsetof_ne f Hf). rewrite <-Ho. by eapply Hno. }
  destruct (machine h), s; simpl in *; congruence.
Qed.

(** *** Registers of the calling convention *)

Lemma arg_ne_gp r i : r = Gp.rcx \/ r = Gp.rdx -> (i < 9)%nat -> gp i <> r.
Proof. intros Hr Hi. destruct Hr as [-> | ->]; do 9 (destruct i as [|i]; [done|]); lia. Qed.

Lemma wp_mov_arg X L V G F n a h s r x b :
  St X L V G F n a h s -> r = Gp.rcx \/ r = Gp.rdx ->
  argHandle x = None -> readOp 8 (opOf x) h = Some b -> uint 64 b ->
  n + 2 <= NO_LRU_VALUE -> (length L <= 18)%nat ->
  wp (ins Mov [R (mkGp r 8); x]) a h (fun _ a' h' => St X L V G F (n + 2) a' h' s /\
    sameRegs [] a a' /\ hregs h' = updReg_ r b (hregs h)).
Proof.
  intros HS Hr Hx Hread Hb Hn Hl. pose proof (st_holds _ _ _ _ _ _ _ _ _ HS) as HL.
  assert (arg_ok L x /\ writtenArg x = []) as [Hok Hw] by (unfold arg_ok, writtenArg; by rewrite Hx).
  eapply wp_conseq.
  - apply (wp_ins a h L n Mov [R (mkGp r 8); x] (setReg 8 r b h) HL).
    + by repeat constructor.
    + cbn [length]. lia.
    + cbn [length]. lia.
    + done.
    + cbn [map opOf execInst]. unfold execBinary. cbn [opSize gpSize].
      assert ((match opOf x with OImm v => negb (immOk Mov 8 v) | _ => false end) = false) as ->
        by (destruct (opOf x); done).
      rewrite Hread. done.
  - cbn [map concat]. rewrite Hw. intros [] a' h' (-> & HL' & Hsame). cbn [length] in HL'.
    assert (forall r', r' <> r -> hregs (setReg 8 r b h) r' = hregs h r') as Hother.
    { intros r' Hne. rewrite hregs_setReg8 by done. by rewrite decide_False. }
    split_and!; [|done|].
    2: { unfold setReg. cbn [Z.eqb Pos.eqb set_hregs hregs]. by rewrite u64_id. }
    eapply St_same'; [|exact HL'|exact Hsame]. destruct HS as [S1 S2 S3 S4 S5 S6]. constructor; try done.
    + destruct S2 as [C1 C2 C3 C4 C5 C6 C7 C8 C9 C10]. constructor; try done.
      * rewrite Hother; [done|]. by destruct Hr as [-> | ->].
      * intros i r' f Hr' Hl' Hf Ho. rewrite Hother; [by eapply C4|].
        apply arg_ne_gp; [done|by apply (holds_index _ _ _ _ _ S1 Hr')].
      * intros r'. rewrite hregs_setReg8 by done. by case_decide.
    + intros i v Hin. destruct (S3 i v Hin) as [HiL Hv]. split; [done|]. rewrite Hother; [done|].
      destruct (ho_own _ _ _ S1 _ _ HiL) as (ri & Hri & _).
      apply arg_ne_gp; [done|by apply (holds_index _ _ _ _ _ S1 Hri)].
Qed.

Lemma wp_toGp X L V G F n a h s t :
  St X L V G F n a h s -> handle_ok L t -> mWrittenOnUse t = false -> n + 1 <= NO_LRU_VALUE ->
  wp (toGp t) a h (fun g a' h' => g = mkGp (gp (mReg t)) (mSize t) /\ h' = h /\ St X L V G F (n + 1) a' h s).
Proof.
  intros HS Hok Hw Hn.
  destruct (toGp_spec a L n t (st_holds _ _ _ _ _ _ _ _ _ HS) Hok) as (Hf & HL' & Hsame); [lia|].
  unfold written in Hsame. rewrite Hw in Hsame. eexists _, _, h. split; [exact Hf|].
  split_and!; [apply ext_same; [apply Hsame|done]|done|done|]. by eapply St_same'.
Qed.

(** ** The interpreter's handler, called from the generated code *)

(** The counters of the fallbacks are not in the core. *)
Definition countersElsewhere : Prop :=
  forall id, wrap 64 (ptrValue (fallbackCounter id)) <> coreAddr.

(** The interpreter's handler for the instruction at [pc]. *)
Definition interpHandler (pc bits : Z) : Machine.M Mem unit := fun s =>
  getInstructionFunc (id (decode bits)) bits
    (setField fNextPC (u64 (pc + 4)) (setField fPC pc s)).

Lemma wp_call_handler L n a h s s' id bits :
  St [] L [] [] None n a h s -> noCache a -> uint 32 bits ->
  hregs h Gp.rcx = coreAddr -> hregs h Gp.rdx = bits ->
  getInstructionFunc id bits s = Ok (tt, s') -> wf_Core (core s') ->
  n + 1 <= NO_LRU_VALUE -> (length L <= 18)%nat ->
  wp (ins Call [P (interFunc id)]) a h (fun _ a' h' =>
    St [] L [] [] None (n + 1) a' h' s' /\ noCache a').
Proof.
  intros HS Hno Hb Hcx Hdx Hh Hwf Hn Hl. pose proof (st_holds _ _ _ _ _ _ _ _ _ HS) as HL.
  pose proof (coh_machine a h s (st_coh _ _ _ _ _ _ _ _ _ HS) Hno) as Em.
  destruct (ins_spec a L n Call [P (interFunc id)] HL) as (a' & Hf & HL' & Hsame & Hcode).
  { by repeat constructor. }
  { cbn [length]. lia. }
  { cbn [length]. lia. }
  cbn [map concat length opOf] in *. change (Z.of_nat 1) with 1 in HL'.
  assert (noCache a') as Hno' by (by eapply noCache_same).
  set (h' := afterCall (interFunc id) (set_machine s' h)).
  exists tt, a', h'. split_and!; [done| | |done].
  - split; [apply Hsame|]. exists [Ins Call [OPtr (interFunc id)]]. split; [done|]. intros rest. cbn [app run].
    unfold callFn. rewrite Hcx, Hdx, Z.eqb_refl. assert (u32 bits = bits) as -> by (by apply wrap_id).
    by rewrite Em, Hh.
  - constructor; try done.
    + destruct (st_coh _ _ _ _ _ _ _ _ _ HS) as [C1 C2 C3 C4 C5 C6 C7 C8 C9 C10].
      constructor; try done.
      * intros i r Hr Ho. by apply Hno' in Hr.
      * intros i r g Hr _ Hg Ho. exfalso. apply (offsetof_ne g Hg). rewrite <-Ho. by eapply Hno'.
      * intros r. unfold h', afterCall. cbn [set_flags set_hregs hregs]. destruct (isVolatile r); [|apply C10].
        by apply wrap_uint.
    + intros i v Hin. by apply elem_of_nil in Hin.
    + constructor.
    + intros i f Hin. by apply elem_of_nil in Hin.
Qed.

(** ** Statements, automatically *)

Lemma uncacheable f : f ∈ coreFields ->
  fieldSize f = 1 \/ f = fPC \/ f = fNextPC \/ f = fNumInsts -> ~ cacheable f.
Proof. intros Hf Hc (_ & Hs & H1' & H2' & H3'). destruct Hc as [|[->|[->| ->]]]; congruence || lia. Qed.

Lemma cacheable_GPRegs i : reg i -> cacheable (fGPRegs i).
Proof. intros Hi. split; [by apply coreFields_GPRegs|done]. Qed.
Lemma cacheable_SP : cacheable fSP.
Proof. split; [solve_field|done]. Qed.
Ltac solve_cacheable :=
  first [assumption | apply cacheable_SP | apply cacheable_GPRegs; solve_reg].
Ltac wunfold :=
  unfold movFromLoaded, movToLoaded, loadGpRegisterRead, loadGpRegisterWrite,
    loadGpRegisterReadWrite, allocGpTempCopy, allocGpTempImm, coreGPRegs, coreSPMem, corePCMem,
    coreNextPCMem, coreNflagMem, coreZflagMem, coreCflagMem, coreVflagMem.

(** The values known before and after that of a register. *)
Ltac split_known i V :=
  lazymatch V with
  | (i, ?v) :: ?V2 => constr:((@nil (nat * Z), v, V2))
  | ?p :: ?V' => let r := split_known i V' in
      lazymatch r with (?V1, ?v, ?V2) => constr:((p :: V1, v, V2)) end
  end.
Ltac handle_of d := lazymatch d with H ?t => t | H32 ?t => t | H8 ?t => t | R (mkGp (gp (mReg ?t)) _) => t end.
Ltac size_of d :=
  lazymatch d with H ?t => lazymatch goal with E : mSize t = ?z |- _ => z end
  | H32 _ => constr:(4) | H8 _ => constr:(1) | R (mkGp _ ?z) => z end.

Ltac solve_denotes :=
  first [solve [left; in_list] | solve [right; eexists; split; [first [eassumption|in_list]|reflexivity]]].
Ltac solve_uncacheable := apply uncacheable; [solve_field|cbn [fieldSize]; tauto].
Ltac solve_notin :=
  try assumption;
  repeat first [apply not_elem_of_nil|apply not_elem_of_cons; split; [first [discriminate|congruence]|]].
Ltac solve_reads :=
  lazymatch goal with
  | |- reads _ _ _ _ _ _ (H _) _ => eapply reads_handle; [solve_denotes|assumption|assumption]
  | |- reads _ _ _ _ _ _ (H32 _) _ => eapply reads_handle32; [solve_denotes|assumption|assumption|reflexivity]
  | |- reads _ _ _ _ _ _ (H8 _) _ => eapply reads_handle8; [solve_denotes|assumption|assumption|reflexivity]
  | |- reads _ _ _ _ _ _ (R _) _ => eapply reads_raw; solve_denotes
  | |- reads _ _ _ _ _ _ (I _) _ => apply reads_imm; first [reflexivity|assumption]
  | |- reads _ _ _ _ _ _ (P _) _ => apply reads_ptr
  | |- reads _ _ _ _ _ _ (JitAsm.M (byte_ptr ?f)) _ =>
      apply (reads_mem _ _ _ _ _ _ f);
        [solve_field|solve_uncacheable|solve_notin|reflexivity|reflexivity|reflexivity]
  end.
Ltac solve_dest :=
  lazymatch goal with
  | |- dest _ _ (H _) => apply dest_handle; assumption
  | |- dest _ _ (H32 _) => apply dest_handle32; [assumption|reflexivity]
  | |- dest _ _ (R _) => apply dest_raw
  end.
Ltac solve_size := first [left; reflexivity|right; left; reflexivity|right; right; reflexivity|right; reflexivity].

Ltac wgoal :=
  lazymatch goal with
  | |- wp (mret _) _ _ _ => apply wp_ret
  | |- wp (_ ≫= _) _ _ _ => apply wp_bind
  | |- wp getAsm _ _ _ => apply wp_get
  | E : mSize ?x = _ |- wp (allocGpTemp (mSize ?x)) _ _ _ => rewrite E
  | HS : St ?X ?L ?V ?G ?F ?n ?a ?h ?s |- wp (allocGpTemp ?sz) ?a ?h _ =>
      eapply wp_conseq; [apply (wp_allocGpTemp X L V G F n a h s sz HS); cbn [length]; lia|];
      let t := fresh "t" in let a' := fresh "a" in let h' := fresh "h" in let v := fresh "v" in
      let HS' := fresh "HS" in
      intros t a' h' (? & ? & v & ? & HS'); clear HS; cbv beta
  | HS : St ?X ?L ?V ?G ?F ?n ?a ?h ?s |- wp (loadGpRegister (qword ?f) ?lr ?w) ?a ?h _ =>
      eapply wp_conseq;
        [apply (wp_load X L V G F n a h s f lr w HS); [cbn [length]; lia|lia|solve_cacheable|solve_notin]|];
      let t := fresh "t" in let a' := fresh "a" in let h' := fresh "h" in let HS' := fresh "HS" in
      intros t a' h' (? & ? & HS'); clear HS; cbv beta iota in HS'; cbv beta
  | HS : St _ _ _ _ _ _ ?a ?h _ |- wp (release ?t) ?a ?h _ =>
      eapply wp_conseq; [eapply wp_release; eapply St_forget; [exact HS|apply Z.le_refl]|];
      let a' := fresh "a" in let h' := fresh "h" in let HS' := fresh "HS" in
      intros [] a' h' HS'; clear HS; cbv beta
  end.

(** A statement that computes a temporary, a guest register, or flags. *)
Ltac walu :=
  lazymatch goal with
  | HS : St ?X ?L ?V ?G ?F ?n ?a ?h ?s |- wp (ins ?m [?d; ?x]) ?a ?h _ =>
      let t := handle_of d in let sz := size_of d in
      first
        [ let r := split_known (mReg t) V in
          lazymatch r with (?V1, ?v, ?V2) =>
            eapply wp_conseq;
              [eapply (wp_alu_temp X L V1 V2 G F n a h s m sz t v d x _ HS);
                 [exact Logic.I|solve_size|solve_dest|assumption|cbn [app]; solve_reads|lia|cbn [length]; lia]
              |let a' := fresh "a" in let h' := fresh "h" in let HS' := fresh "HS" in
               intros [] a' h' HS'; clear HS; cbn [app] in HS'; cbv beta] end
        | lazymatch goal with Hw : mWrittenOnUse t = true |- _ =>
            lazymatch L with context [(mReg t, offsetof ?f)] =>
              eapply wp_conseq;
                [eapply (wp_alu_guest X L V G F n a h s m sz t f (fieldGet f (core s)) d x _ HS);
                   [exact Logic.I|solve_size|solve_dest|reflexivity|exact Hw|in_list|solve_cacheable
                   |first [left; reflexivity|solve [right; split; [in_list|reflexivity]]]
                   |solve_reads|lia|cbn [length]; lia]
                |let a' := fresh "a" in let h' := fresh "h" in let HS' := fresh "HS" in
                 intros [] a' h' HS'; clear HS; cbv beta] end end ]
  end.
Ltac wcompare :=
  lazymatch goal with
  | HS : St ?X ?L ?V ?G ?F ?n ?a ?h ?s |- wp (ins ?m [?d; ?x]) ?a ?h _ =>
      let t := handle_of d in let sz := size_of d in
      eapply wp_conseq;
        [eapply (wp_compare X L V G F n a h s m sz t _ d x _ _ HS);
           [solve_size|solve_dest|assumption|solve_denotes|solve_reads|reflexivity|lia|cbn [length]; lia]
        |let a' := fresh "a" in let h' := fresh "h" in let HS' := fresh "HS" in
         intros [] a' h' HS'; clear HS; cbv beta]
  end.
Ltac wflag :=
  lazymatch goal with
  | HS : St ?X ?L ?V ?G (Some ?fl) ?n ?a ?h ?s |- wp (ins ?m [JitAsm.M (byte_ptr ?f)]) ?a ?h _ =>
      eapply wp_conseq;
        [eapply (wp_set_flag X L V G n a h s m f fl _ HS);
           [reflexivity|solve_field|reflexivity|solve_notin|lia|cbn [length]; lia]
        |let a' := fresh "a" in let h' := fresh "h" in let HS' := fresh "HS" in
         intros [] a' h' HS'; clear HS; cbv beta]
  | HS : St ?X ?L ?V ?G (Some ?fl) ?n ?a ?h ?s |- wp (ins ?m [?d]) ?a ?h _ =>
      let t := handle_of d in let sz := size_of d in
      let r := split_known (mReg t) V in
      lazymatch r with (?V1, ?v, ?V2) =>
        eapply wp_conseq;
          [eapply (wp_set_temp X L V1 V2 G n a h s m t v d fl _ sz HS);
             [reflexivity|solve_dest|solve_size|assumption|lia|cbn [length]; lia]
          |let a' := fresh "a" in let h' := fresh "h" in let HS' := fresh "HS" in
           intros [] a' h' HS'; clear HS; cbn [app] in HS'; cbv beta] end
  end.
(** A statement that stores to a member. *)
Ltac wstore :=
  lazymatch goal with
  | HS : St ?X ?L ?V ?G ?F ?n ?a ?h ?s |- wp (ins Mov [JitAsm.M ?mm; ?x]) ?a ?h _ =>
      lazymatch mm with context [offsetof ?f] => idtac | byte_ptr ?f => idtac | qword ?f => idtac end;
      let f := lazymatch mm with context [offsetof ?f] => f | byte_ptr ?f => f | qword ?f => f end in
      eapply wp_conseq;
        [eapply (wp_store X X L V G F n a h s f mm x _ HS);
           [solve_field|solve_uncacheable|reflexivity|reflexivity
           |cbn [opOf opOfHandle opSize gpSize]; first [reflexivity|lia]
           |cbn [fieldSize]; solve_reads
           |first [solve [let E := fresh in intros E; discriminate E] | intros _; by apply wrap_uint]
           |let g := fresh in let Hg := fresh in intros g Hg; by right
           |lia|cbn [length]; lia]
        |let a' := fresh "a" in let h' := fresh "h" in let HS' := fresh "HS" in
         intros [] a' h' HS'; clear HS; cbv beta]
  end.
Ltac wsteps := repeat first [wgoal|wstore|wflag|walu|wcompare].

Lemma alu_mov8 v w : alu Mov 8 v w = u64 w.
Proof. done. Qed.

(** ** [FALLBACK] *)

(** A handler of the compiler does what the interpreter's handler does: its code takes a
    host that represents the guest to one that represents the guest after the
    instruction.  In the core, the program counter is stale before and after, and the
    zero register after. *)
Definition zeroed s : Machine Mem := setField (fGPRegs 31) 0 s.

Definition implements (f : J unit) (bits : Z) : Prop :=
  forall L n a h s s', St [fPC; fNextPC] L [] [] None n a h s ->
    temporary L -> (length L <= 1)%nat -> n + 200 <= NO_LRU_VALUE -> uint 64 (currentPC a) ->
    getX (core s) 31 = 0 -> interpHandler (currentPC a) bits s = Ok (tt, s') -> wf_Core (core s') ->
    wp f a h (fun _ a' h' =>
      St [fPC; fNextPC; fGPRegs 31] L [] [] None (n + 200) a' h' (zeroed s')).

Lemma St_zeroed L n a h s :
  St [] L [] [] None n a h s -> noCache a -> St [fGPRegs 31] L [] [] None n a h (zeroed s).
Proof.
  intros [S1 S2 S3 S4 S5 S6] Hno. constructor; try done.
  destruct S2 as [C1 C2 C3 C4 C5 C6 C7 C8 C9 C10].
  assert (fGPRegs 31 ∈ coreFields) as H31 by (by apply coreFields_GPRegs).
  constructor; try done; unfold zeroed, setField; cbn [core memory gTimer set_core].
  - intros f Hf HX Hn. rewrite fieldGet_fieldSet_ne; [|done|done| |done].
    + apply C3; [done|apply not_elem_of_nil|done].
    + intros ->. apply HX, list_elem_of_here.
  - intros i r f Hr _ Hf Ho. exfalso. apply (offsetof_ne f Hf). rewrite <-Ho. by eapply Hno.
  - by apply wf_fieldSet.
Qed.

Lemma FALLBACK_spec L n a h s s' bits :
  countersElsewhere -> uint 32 bits -> St [fPC; fNextPC] L [] [] None n a h s ->
  temporary L -> (length L <= 1)%nat -> n + 200 <= NO_LRU_VALUE -> uint 64 (currentPC a) ->
  interpHandler (currentPC a) bits s = Ok (tt, s') -> wf_Core (core s') ->
  wp (FALLBACK bits) a h (fun _ a' h' => St [fGPRegs 31] L [] [] None (n + 200) a' h' (zeroed s')).
Proof.
  intros Hctr Hbits HS Ht Hl Hn Hpc Hint Hwf. unfold FALLBACK.
  change (inst (decode bits)) with bits.
  wgoal. eapply wp_conseq; [apply wp_pc, (wp_envictAll _ _ _ _ _ _ _ _ _ HS Ht)|].
  intros [] a1 h1 (Epc & HS1 & Hno1 & _). clear HS. rewrite <-Epc in *. clear Epc.
  wgoal. apply wp_get. unfold interpHandler in Hint.
  set (s1 := setField fPC (currentPC a1) s) in *.
  set (s2 := setField fNextPC (u64 (currentPC a1 + 4)) s1) in *.
  wgoal. eapply wp_conseq.
  { apply (wp_write64 _ [fNextPC] _ _ _ _ _ _ _ _ fPC (currentPC a1) HS1); [solve_field|done|done| |done|lia|lia].
    left. solve_uncacheable. }
  intros [] a2 h2 [HS2 Hsame2]. cbv beta.
  wgoal. eapply wp_conseq.
  { apply (wp_write64 _ [] _ _ _ _ _ _ _ _ fNextPC (u64 (currentPC a1 + 4)) HS2); [solve_field|done| | |done|lia|lia].
    - by apply wrap_uint.
    - left. solve_uncacheable. }
  intros [] a3 h3 [HS3 Hsame3]. cbv beta.
  pose proof (noCache_same _ _ (noCache_same _ _ Hno1 Hsame2) Hsame3) as Hno3.
  wgoal. eapply wp_conseq.
  { apply (wp_mov_arg _ _ _ _ _ _ _ _ _ Gp.rcx _ coreAddr HS3); try done; try lia; [by left| |].
    - cbn [opOf readOp gpReg]. rewrite (co_base _ _ _ _ (st_coh _ _ _ _ _ _ _ _ _ HS3)).
      f_equal. apply wrap_id. rewrite <-(co_base _ _ _ _ (st_coh _ _ _ _ _ _ _ _ _ HS3)).
      apply (co_uint _ _ _ _ (st_coh _ _ _ _ _ _ _ _ _ HS3)).
    - rewrite <-(co_base _ _ _ _ (st_coh _ _ _ _ _ _ _ _ _ HS3)).
      apply (co_uint _ _ _ _ (st_coh _ _ _ _ _ _ _ _ _ HS3)). }
  intros [] a4 h4 (HS4 & Hsame4 & E4). cbv beta.
  wgoal. eapply wp_conseq.
  { apply (wp_mov_arg _ _ _ _ _ _ _ _ _ Gp.rdx _ bits HS4); try done; try lia; [by right| |].
    - cbn [opOf readOp]. f_equal. apply wrap_id. apply (uint_le 32); [done|lia].
    - apply (uint_le 32); [done|lia]. }
  intros [] a5 h5 (HS5 & Hsame5 & E5). cbv beta.
  pose proof (noCache_same _ _ (noCache_same _ _ Hno3 Hsame4) Hsame5) as Hno5.
  wgoal. eapply wp_conseq.
  { apply (wp_call_handler _ _ _ _ _ s' (id (decode bits)) bits HS5 Hno5); try done; try lia.
    - by rewrite E5, E4.
    - by rewrite E5. }
  intros [] a6 h6 (HS6 & Hno6). cbv beta. apply St_zeroed in HS6; [|done].
  wgoal. wgoal. wgoal. walu. wgoal. eapply wp_conseq.
  { eapply wp_toGp; [eassumption| |done|lia]. split; [lia|]. exists NO_OFFSET. split; [in_list|congruence]. }
  intros g a8 h8 (-> & -> & HS8). clear HS0. cbv beta. wgoal.
  destruct (st_V _ _ _ _ _ _ _ _ _ HS8 (mReg t) _ (list_elem_of_here _ _)) as [_ Ev].
  eapply wp_conseq.
  { apply (wp_ins a8 h7 _ _ Inc _
      (set_flags (flagsAfter (Ins Inc [OMem (mkMem (gp (mReg t)) 0 0)]) (hregs h7)) h7)
      (st_holds _ _ _ _ _ _ _ _ _ HS8)); [by repeat constructor|cbn [length]; lia|cbn [length]; lia|done|].
    cbn [map opOf execInst execUnary memBase gpReg]. rewrite Ev.
    assert (alu Mov 8 v (wrap (8 * 8) (ptrValue (fallbackCounter (id (decode bits))))) <> coreAddr) as Hne.
    { rewrite alu_mov8. unfold u64. change (8 * 8) with 64. rewrite wrap_wrap by lia. apply Hctr. }
    rewrite (proj2 (Z.eqb_neq _ _) Hne).
    done. }
  intros [] a9 h9 (-> & HL9 & Hsame9). cbv beta.
  eapply wp_conseq; [eapply wp_release; eapply St_forget|].
  - eapply St_same'; [eapply St_set_flags; exact HS8|exact HL9|exact Hsame9].
  - apply Z.le_refl.
  - intros [] a10 h10 HS10. cbv beta. eapply St_forget; [exact HS10|]. cbn [length]. lia.
Qed.

Lemma St_moreX X X' L V G F n a h s :
  St X L V G F n a h s -> X ⊆ X' -> St X' L V G F n a h s.
Proof.
  intros [S1 S2 S3 S4 S5 S6] HX. constructor; try done.
  destruct S2 as [C1 C2 C3 C4 C5 C6 C7 C8 C9 C10]. constructor; try done.
  intros f Hf Hn. apply C3; [done|]. intros Hin. by apply Hn, HX.
Qed.

Lemma FALLBACK_implements bits :
  countersElsewhere -> uint 32 bits -> implements (FALLBACK bits) bits.
Proof.
  intros Hctr Hbits L n a h s s' HS Ht Hl Hn Hpc H31 Hint Hwf.
  eapply wp_conseq; [by eapply FALLBACK_spec|]. intros [] a' h' HS'.
  eapply St_moreX; [exact HS'|]. intros f ->%list_elem_of_singleton. in_list.
Qed.

(** ** Instructions with code of their own *)

Lemma setField_setField f v w s : f ∈ coreFields -> wf_Core (core s) ->
  setField f v (setField f w s) = setField f v s.
Proof. intros Hf Hs. unfold setField. cbn [core set_core]. by rewrite fieldSet_fieldSet. Qed.

(** A stale member may be anything. *)
Lemma St_stale X L V G F n a h s f v :
  St X L V G F n a h s -> f ∈ coreFields -> f ∈ X -> ~ cacheable f -> field_uint f v ->
  St X L V G F n a h (setField f v s).
Proof.
  intros [S1 S2 S3 S4 S5 S6] Hf HX Hc Hu. constructor; try done.
  destruct S2 as [C1 C2 C3 C4 C5 C6 C7 C8 C9 C10]. unfold setField.
  constructor; cbn [core memory gTimer set_core]; try done.
  - intros g Hg HgX Hn. rewrite fieldGet_fieldSet_ne; [by apply C3|done|done| |done]. by intros ->.
  - intros i r g Hr Hl Hg Ho. rewrite (C4 i r g Hr Hl Hg Ho).
    rewrite fieldGet_fieldSet_ne; [done|done|done| |done]. intros ->. apply Hc.
    destruct (C2 i r Hr) as (g & Hg' & Ho'); [rewrite Ho; by apply offsetof_ne|].
    assert (g = f) as -> by (apply offsetof_inj; [apply Hg'|done|congruence]). done.
  - by rewrite others_fieldSet.
  - by apply wf_fieldSet.
Qed.

Lemma fieldSet_same f c : f ∈ coreFields -> wf_Core c -> fieldSet f (fieldGet f c) c = c.
Proof.
  intros Hf Hc. apply core_ext.
  - apply wf_fieldSet; [done|]. intros _. by apply fieldGet_uint.
  - done.
  - apply others_fieldSet.
  - intros g Hg. destruct (decide (g = f)) as [->|Hne]; [|by apply fieldGet_fieldSet_ne].
    rewrite fieldGet_fieldSet by done. unfold fieldValue.
    destruct (fieldSize_cases f) as [E|E]; rewrite E; [|done].
    destruct f; try done; cbn [fieldGet]; match goal with |- context [Z.b2z ?b] => by destruct b end.
Qed.

Lemma zeroed_id s : wf_Core (core s) -> getX (core s) 31 = 0 -> zeroed s = s.
Proof.
  intros Hs H31. unfold zeroed, setField.
  assert (fieldSet (fGPRegs 31) 0 (core s) = core s) as ->.
  { rewrite <-H31 at 1. apply (fieldSet_same (fGPRegs 31)); [by apply coreFields_GPRegs|done]. }
  by destruct s.
Qed.

(** To show of the compiler's function for a handler that only changes the core. *)
Lemma implements_pure f g bits :
  getInstructionFunc (id (decode bits)) = pureHandler (Mem := Mem) g ->
  (forall L n a h s, St [fPC; fNextPC] L [] [] None n a h s ->
    temporary L -> (length L <= 1)%nat -> n + 200 <= NO_LRU_VALUE -> uint 64 (currentPC a) ->
    getX (core s) 31 = 0 ->
    wp f a h (fun _ a' h' => exists c, St [fPC; fNextPC] L [] [] None (n + 200) a' h' (set_core c s) /\
      getX c 31 = 0 /\
      g (set_nextPC (u64 (currentPC a + 4)) (set_PC (currentPC a) (core s))) bits =
        set_nextPC (u64 (currentPC a + 4)) (set_PC (currentPC a) c))) ->
  implements f bits.
Proof.
  intros Hg Hf L n a h s s' HS Ht Hl Hn Hpc H31 Hint Hwf.
  eapply wp_conseq; [by apply (Hf L n a h s)|]. intros [] a' h' (c & HS' & H31' & Hc).
  unfold interpHandler in Hint. rewrite Hg in Hint. cbn in Hint. injection Hint as <-.
  unfold setField in *. cbn [core set_core fieldSet] in *.
  assert (set_core (g (set_nextPC (u64 (currentPC a + 4)) (set_PC (currentPC a) (core s))) bits)
            (set_core (set_nextPC (u64 (currentPC a + 4)) (set_PC (currentPC a) (core s)))
              (set_core (set_PC (currentPC a) (core s)) s)) =
          setField fNextPC (u64 (currentPC a + 4)) (setField fPC (currentPC a) (set_core c s))) as E.
  { rewrite Hc. done. }
  rewrite E. rewrite zeroed_id.
  - apply (St_moreX [fPC; fNextPC]);
      [|intros g' Hg'; apply (elem_of_app [fPC; fNextPC] [fGPRegs 31]); by left].
    apply St_stale; [apply St_stale; [exact HS'|solve_field|in_list|solve_uncacheable|by intros _]
      |solve_field|in_list|solve_uncacheable|intros _; by apply wrap_uint].
  - rewrite <-E. exact Hwf.
  - done.
Qed.

Lemma nop_implements bits :
  getInstructionFunc (id (decode bits)) = pureHandler (Mem := Mem) InterpBranch.nop ->
  implements (nop bits) bits.
Proof.
  intros Hg. apply (implements_pure _ _ _ Hg). intros L n a h s HS Ht Hl Hn Hpc H31.
  apply wp_ret. exists (core s). split; [|done]. destruct s. eapply St_forget; [exact HS|lia].
Qed.

(** *** Wide moves and addresses *)

Ltac wdone :=
  lazymatch goal with HS : St _ _ _ _ _ _ ?a ?h _ |- exists c, St _ _ _ _ _ _ ?a ?h _ /\ _ =>
    eexists; split; [eapply St_forget; [exact HS|cbn [length]; lia]|] end.

Lemma u64_u64 v : u64 (wrap (8 * 8) v) = u64 v.
Proof. unfold u64. change (8 * 8) with 64. by rewrite wrap_wrap. Qed.

Lemma zero_setX i v c : reg i -> i <> 31 -> getX c 31 = 0 -> getX (setX i v c) 31 = 0.
Proof. intros Hi Hne H31. rewrite getX_setX_ne; [done|done|by unfold reg|done]. Qed.

Lemma PCRelativeGeneric_implements isPage bits :
  getInstructionFunc (id (decode bits)) = pureHandler (Mem := Mem) (InterpDPImm.PCRelativeGeneric isPage) ->
  Inst.Rd bits <> 31 -> implements (JitDPImm.PCRelativeGeneric isPage bits) bits.
Proof.
  intros Hg Hrd. apply (implements_pure _ _ _ Hg). intros L n a h s HS Ht Hl Hn Hpc H31.
  unfold JitDPImm.PCRelativeGeneric. wunfold. cbv zeta. wsteps. wdone.
  cbn [fieldSet]. split; [apply zero_setX; [solve_reg|done|done]|].
  unfold InterpDPImm.PCRelativeGeneric. rewrite alu_mov8, u64_u64, (u64_id (u64 _)) by (by apply wrap_uint).
  destruct isPage; done.
Qed.

Lemma alu_mov4 v w : alu Mov 4 v (wrap (8 * 4) w) = Z.land w (bitmask 32).
Proof.
  change (alu Mov 4 v (wrap (8 * 4) w)) with (u32 (wrap 32 w)). unfold u32.
  rewrite wrap_wrap by lia. by rewrite bitmask_ones, wrap_land_ones.
Qed.

Lemma alu_and8 v w : uint 64 v -> uint 64 w -> alu And 8 v w = Z.land v w.
Proof.
  intros Hv Hw. change (alu And 8 v w) with (u64 (Z.land (wrap 64 v) w)). rewrite (wrap_id 64 v) by done.
  apply u64_id. apply uint_land; [lia|done|apply Hw].
Qed.
Lemma alu_or8 v w : uint 64 v -> uint 64 w -> alu Or 8 v w = Z.lor v w.
Proof.
  intros Hv Hw. change (alu Or 8 v w) with (u64 (Z.lor (wrap 64 v) w)). rewrite (wrap_id 64 v) by done.
  apply u64_id. by apply uint_lor.
Qed.
Lemma wrap8_id v : uint 64 v -> wrap (8 * 8) v = v.
Proof. intros Hv. by apply wrap_id. Qed.

(** [movk]: the mask keeps the other bits. *)
Lemma movk_value (is64 : bool) v1 v2 old mask imm :
  uint 64 old -> uint 64 mask -> uint (width is64) imm ->
  alu Or 8 (alu And 8 old (wrap (8 * 8) (alu Mov 8 v1 (wrap (8 * 8)
     (if is64 then mask else Z.land mask (bitmask 32)))))) (wrap (8 * 8) (alu Mov 8 v2 (wrap (8 * 8) imm))) =
  (let r := Z.lor (Z.land old mask) imm in if is64 then r else Z.land r (bitmask 32)).
Proof.
  intros Ho Hm Hi.
  assert (uint 64 imm) as Hi64 by (apply (uint_le (width is64)); [done|destruct is64; cbn; lia]).
  assert (uint 64 (if is64 then mask else Z.land mask (bitmask 32))) as Hmask.
  { destruct is64; [done|]. apply uint_land; [lia|done|done]. }
  rewrite !alu_mov8, !u64_u64, (u64_id imm), (u64_id (if is64 then _ else _)) by done.
  rewrite alu_and8 by done. assert (uint 64 (Z.land old (if is64 then mask else Z.land mask (bitmask 32)))).
  { apply uint_land; [lia|done|apply Hmask]. }
  rewrite alu_or8 by done. destruct is64; [done|]. cbv zeta.
  rewrite Z.land_lor_distr_l, Z.land_assoc. f_equal.
  rewrite bitmask_ones, wrap_land_ones by lia. symmetry. by apply wrap_id.
Qed.

Lemma moveWideImmGeneric_implements (is64 : bool) bits :
  getInstructionFunc (id (decode bits)) = pureHandler (Mem := Mem) (InterpDPImm.moveWideImmGeneric is64) ->
  Inst.Rd bits <> 31 -> is64 = true \/ Inst.hw bits <= 1 ->
  implements (JitDPImm.moveWideImmGeneric is64 bits) bits.
Proof.
  intros Hg Hrd Hhw. apply (implements_pure _ _ _ Hg). intros L n a h s HS Ht Hl Hn Hpc H31.
  assert (wf_Core (core s)) as Hwf by apply (co_wfs _ _ _ _ (st_coh _ _ _ _ _ _ _ _ _ HS)).
  assert (forall v, getX (setX (Inst.Rd bits) v (core s)) 31 = 0) as Hz.
  { intros v. apply zero_setX; [solve_reg|done|done]. }
  unfold JitDPImm.moveWideImmGeneric, InterpDPImm.moveWideImmGeneric. wunfold. cbv zeta.
  set (imm := u64 (Inst._5_20 bits ≪ (Inst.hw bits * 16))).
  set (mask := not64 (u64 (65535 ≪ (Inst.hw bits * 16)))).
  assert (uint 64 imm) as Himm by (by apply wrap_uint).
  wgoal. wgoal. wgoal.
  destruct (Inst.opc bits =? 0) eqn:E0; [|destruct (Inst.opc bits =? 3) eqn:E3].
  - destruct is64; wsteps; wdone; cbn [fieldSet]; (split; [apply Hz|]).
    + by rewrite alu_mov8, u64_u64, (u64_id (not64 _)) by apply not64_uint.
    + by rewrite alu_mov4.
  - wsteps. wdone.
    assert (uint (width is64) imm) as Hi.
    { destruct is64; [done|]. destruct Hhw as [|Hhw]; [done|]. unfold imm. cbn [width].
      pose proof (bitRange_uint 5 20 bits ltac:(lia)) as Hu. fold (Inst._5_20 bits) in Hu.
      assert (0 <= Inst.hw bits) by (apply (bitRange_uint 21 22); lia).
      assert (Inst.hw bits = 0 \/ Inst.hw bits = 1) as [-> | ->] by lia.
      - change (0 * 16) with 0. rewrite Z.shiftl_0_r, u64_id by (apply (uint_le 16); [done|lia]).
        apply (uint_le 16); [done|lia].
      - change (1 * 16) with 16. unfold uint in *. rewrite Z.shiftl_mul_pow2 by lia.
        rewrite u64_id by (unfold uint; lia). lia. }
    assert (fGPRegs (Inst.Rd bits) ∈ coreFields) as Hf by solve_field.
    assert (forall c v, getX (set_nextPC v c) = getX c) as Hx by done.
    unfold setField. cbn [core set_core]. rewrite fieldSet_fieldSet by done.
    rewrite fieldGet_fieldSet by done. unfold fieldValue. cbn [fieldSize Z.eqb Pos.eqb].
    rewrite (movk_value is64) by first [done|apply not64_uint|by apply fieldGet_uint].
    split; [apply Hz|]. destruct is64; done.
  - destruct is64; wsteps; wdone; cbn [fieldSet]; (split; [apply Hz|]).
    + by rewrite alu_mov8, u64_u64, (u64_id imm).
    + by rewrite alu_mov4.
Qed.

(** *** Addition of an immediate *)

Lemma alu_add8 v w : alu Add 8 v w = u64 (v + w).
Proof.
  change (alu Add 8 v w) with (u64 (wrap 64 (wrap 64 v + w))).
  unfold u64. rewrite wrap_wrap, wrap_add_l by lia. done.
Qed.
Lemma alu_add4 v w : alu Add 4 v w = u32 (v + w).
Proof.
  change (alu Add 4 v w) with (u32 (wrap 32 (wrap 32 v + w))).
  unfold u32. rewrite wrap_wrap, wrap_add_l by lia. done.
Qed.
Lemma u32_u64 v : u32 (u64 v) = u32 v.
Proof. unfold u32, u64. by rewrite wrap_wrap_le by lia. Qed.
Lemma u64_u32 v : u64 (u32 v) = u32 v.
Proof. apply u64_id. apply (uint_le 32); [by apply wrap_uint|lia]. Qed.
Lemma land32 v : Z.land v (bitmask 32) = u32 v.
Proof. rewrite bitmask_ones. by apply wrap_land_ones. Qed.

(** The sum in the temporary: a value of the width. *)
Definition addResult (is64 : bool) (op1 op2 carry : Z) : Z :=
  let r := u64 (op1 + op2 + carry) in if is64 then r else Z.land r (bitmask 32).

Lemma addResult_uint is64 op1 op2 carry : uint 64 (addResult is64 op1 op2 carry).
Proof.
  unfold addResult. destruct is64; [by apply wrap_uint|]. rewrite land32.
  apply (uint_le 32); [by apply wrap_uint|lia].
Qed.

Lemma add_temp8 v op1 op2 carry :
  alu Add 8 (alu Mov 8 v (wrap (8 * 8) op1)) (wrap (8 * 8) (u64 (op2 + carry))) =
  addResult true op1 op2 carry.
Proof.
  rewrite alu_add8, alu_mov8, u64_u64. change (wrap (8 * 8) (u64 (op2 + carry))) with (u64 (u64 (op2 + carry))).
  unfold addResult, u64. rewrite wrap_wrap, wrap_add_l, wrap_add_r by lia. f_equal. lia.
Qed.

Lemma add_temp4 v op1 op2 carry :
  alu Add 4 (alu Mov 8 v (wrap (8 * 8) op1)) (wrap (8 * 4) (Z.land (u64 (op2 + carry)) (bitmask 32))) =
  addResult false op1 op2 carry.
Proof.
  rewrite alu_add4, alu_mov8, u64_u64, land32. unfold addResult. rewrite land32.
  change (wrap (8 * 4) (u32 (u64 (op2 + carry)))) with (u32 (u32 (u64 (op2 + carry)))).
  rewrite !u32_u64. unfold u32, u64. rewrite wrap_wrap by lia.
  rewrite wrap_add_r by lia. rewrite <-(wrap_wrap_le 32 64 (wrap 64 op1 + _)) by lia.
  rewrite wrap_add_l by lia. rewrite wrap_wrap_le by lia. f_equal. lia.
Qed.

Lemma mov_result (is64 : bool) x v : uint (width is64) v ->
  (if is64 then alu Mov 8 x (wrap (8 * 8) v) else alu Mov 4 x (wrap (8 * 4) v)) = v.
Proof.
  intros Hv. destruct is64; cbn [width] in Hv.
  - by rewrite alu_mov8, u64_u64, u64_id.
  - rewrite alu_mov4, land32. by apply wrap_id.
Qed.

(** The immediate and what follows from it. *)
Definition addImm (bits : Z) : Z := u64 (Z.shiftl (Inst._10_21 bits) (if testBit 22 bits then 12 else 0)).

Lemma addImm_small bits : 0 <= addImm bits < 2 ^ 24.
Proof.
  unfold addImm. pose proof (bitRange_uint 10 21 bits ltac:(lia)) as Hu. fold (Inst._10_21 bits) in Hu.
  unfold uint in Hu. rewrite Z.shiftl_mul_pow2 by (destruct (testBit 22 bits); lia).
  rewrite u64_id by (unfold uint; destruct (testBit 22 bits); lia). destruct (testBit 22 bits); lia.
Qed.

Lemma to_signed_small k : - 2 ^ 31 <= k < 2 ^ 31 -> to_signed 32 (u64 k) = k.
Proof.
  intros Hk. unfold to_signed, u64. rewrite wrap_wrap_le by lia.
  destruct (decide (0 <= k)).
  - rewrite wrap_id by (unfold uint; lia). by rewrite (proj2 (Z.ltb_lt k _)) by lia.
  - assert (wrap 32 k = k + 2 ^ 32) as ->.
    { unfold wrap. symmetry. apply (Z.mod_unique_pos _ _ (-1)); lia. }
    rewrite (proj2 (Z.ltb_ge (k + 2 ^ 32) _)) by lia. lia.
Qed.

Lemma immOk_add (is64 isSub : bool) bits :
  let imm := addImm bits in
  let v := u64 ((if isSub then not64 imm else imm) + (if isSub then 1 else 0)) in
  immOk Add (if is64 then 8 else 4) (if is64 then v else Z.land v (bitmask 32)) = true.
Proof.
  cbv zeta. pose proof (addImm_small bits) as Hi. set (imm := addImm bits) in *. destruct is64; [|done].
  unfold immOk. apply orb_true_iff. left. apply orb_true_iff. right. apply Z.eqb_eq.
  assert (exists k, - 2 ^ 31 <= k < 2 ^ 31 /\
    u64 ((if isSub then not64 imm else imm) + (if isSub then 1 else 0)) = u64 k) as (k & Hk & ->).
  { destruct isSub.
    - exists (- imm). split; [lia|]. unfold not64, u64. rewrite wrap_add_l by lia. f_equal.
      unfold Z.lnot. lia.
    - exists imm. split; [lia|]. by rewrite Z.add_0_r. }
  rewrite to_signed_small by done. unfold u64. by rewrite wrap_wrap by lia.
Qed.

(** The two registers of an [add] with an immediate: 31 names the stack pointer. *)
Definition fieldXorSP (r : Z) : CoreField := if r =? 31 then fSP else fGPRegs r.

Lemma fieldXorSP_cacheable r : reg r -> cacheable (fieldXorSP r).
Proof. intros Hr. unfold fieldXorSP. destruct (r =? 31); [apply cacheable_SP|by apply cacheable_GPRegs]. Qed.
Lemma fieldXorSP_get r c : fieldGet (fieldXorSP r) c = getXorSP c r.
Proof. unfold fieldXorSP, getXorSP. by destruct (r =? 31). Qed.
Lemma loadXorSP r : (if r =? 31 then loadGpRegisterRead coreSPMem else loadGpRegisterRead (coreGPRegs r)) =
  loadGpRegister (qword (fieldXorSP r)) true false.
Proof. unfold fieldXorSP. by destruct (r =? 31). Qed.

Lemma writeXorSP r : (if r =? 31 then loadGpRegisterWrite coreSPMem else loadGpRegisterWrite (coreGPRegs r)) =
  loadGpRegister (qword (fieldXorSP r)) false true.
Proof. unfold fieldXorSP. by destruct (r =? 31). Qed.

Lemma set_PState_same c : set_PState (PState c) c = c.
Proof. by destruct c. Qed.

Lemma addResult_width is64 op1 op2 carry : uint (width is64) (addResult is64 op1 op2 carry).
Proof.
  unfold addResult. destruct is64; [by apply wrap_uint|]. rewrite land32. by apply wrap_uint.
Qed.

Lemma interp_addSub (is64 isSub : bool) c bits :
  InterpDPImm.addSubImmGeneric is64 isSub false c bits =
  fieldSet (fieldXorSP (Inst.Rd bits))
    (addResult is64 (getXorSP c (Inst.Rn bits))
       (if isSub then not64 (addImm bits) else addImm bits) (if isSub then 1 else 0)) c.
Proof.
  unfold InterpDPImm.addSubImmGeneric, addWithCarry. cbv zeta. rewrite set_PState_same. fold (addImm bits).
  set (op2 := if isSub then not64 (addImm bits) else addImm bits). set (carry := if isSub then 1 else 0).
  assert ((if is64 then (if is64 then u64 (getXorSP c (Inst.Rn bits) + op2 + carry)
            else Z.land (u64 (getXorSP c (Inst.Rn bits) + op2 + carry)) (bitmask 32))
           else Z.land (if is64 then u64 (getXorSP c (Inst.Rn bits) + op2 + carry)
            else Z.land (u64 (getXorSP c (Inst.Rn bits) + op2 + carry)) (bitmask 32)) (bitmask 32)) =
          addResult is64 (getXorSP c (Inst.Rn bits)) op2 carry) as ->.
  { unfold addResult. destruct is64; [done|]. rewrite !land32. unfold u32. by rewrite wrap_wrap by lia. }
  unfold fieldXorSP. by destruct (Inst.Rd bits =? 31).
Qed.

(** Writing the counters commutes with the rest. *)
Lemma fieldXorSP_PC r v n p c :
  fieldSet (fieldXorSP r) v (set_nextPC n (set_PC p c)) = set_nextPC n (set_PC p (fieldSet (fieldXorSP r) v c)).
Proof. unfold fieldXorSP. by destruct (r =? 31). Qed.

Lemma addSubImmGeneric_implements (is64 isSub : bool) bits :
  getInstructionFunc (id (decode bits)) = pureHandler (Mem := Mem) (InterpDPImm.addSubImmGeneric is64 isSub false) ->
  implements (JitDPImm.addSubImmGeneric is64 isSub false bits) bits.
Proof.
  intros Hg. apply (implements_pure _ _ _ Hg). intros L n a h s HS Ht Hl Hn Hpc H31.
  assert (wf_Core (core s)) as Hwf by apply (co_wfs _ _ _ _ (st_coh _ _ _ _ _ _ _ _ _ HS)).
  pose proof (immOk_add is64 isSub bits) as Himm. cbv zeta in Himm.
  unfold JitDPImm.addSubImmGeneric. cbn [negb]. rewrite loadXorSP, writeXorSP. wunfold. cbv zeta.
  fold (addImm bits).
  pose proof (fieldXorSP_cacheable _ (reg_Rn bits)) as Hcn.
  pose proof (fieldXorSP_cacheable _ (reg_Rd bits)) as Hcd.
  assert ((fieldXorSP (Inst.Rn bits) ∉ [fPC; fNextPC]) /\ (fieldXorSP (Inst.Rd bits) ∉ [fPC; fNextPC])) as [Hn1 Hn2].
  { destruct Hcn as (_ & _ & ? & ? & _), Hcd as (_ & _ & ? & ? & _). split; solve_notin. }
  assert (forall v, getX (fieldSet (fieldXorSP (Inst.Rd bits)) v (core s)) 31 = 0) as Hz.
  { intros v. unfold fieldXorSP. destruct (Z.eqb_spec (Inst.Rd bits) 31); [done|].
    by apply zero_setX; [solve_reg| |]. }
  set (op2 := if isSub then not64 (addImm bits) else addImm bits) in *.
  set (carry := if isSub then 1 else 0) in *.
  set (r := addResult is64 (fieldGet (fieldXorSP (Inst.Rn bits)) (core s)) op2 carry).
  assert (uint (width is64) r) as Hr by apply addResult_width.
  destruct is64; wsteps; wdone; (split; [apply Hz|]).
  - rewrite add_temp8. pose proof (mov_result true (fieldGet (fieldXorSP (Inst.Rd bits)) (core s)) r Hr) as E.
    cbv iota in E. fold r. rewrite E. rewrite interp_addSub. unfold r. by rewrite fieldXorSP_get, fieldXorSP_PC.
  - rewrite add_temp4. pose proof (mov_result false (fieldGet (fieldXorSP (Inst.Rd bits)) (core s)) r Hr) as E.
    cbv iota in E. fold r. rewrite E. rewrite interp_addSub. unfold r. by rewrite fieldXorSP_get, fieldXorSP_PC.
Qed.

(** *** Addition of an immediate, with flags *)

(** The flags as the interpreter's adder computes them. *)
Definition addFlags (is64 : bool) (op1 op2 carry : Z) : PSTATE.t :=
  snd (addWithCarry is64 true op1 op2 carry (PSTATE.mk false false false false)).

(** Values of temporaries. *)
Lemma val_mov w v : uint 64 w -> alu Mov 8 v (wrap (8 * 8) w) = w.
Proof. intros Hw. rewrite alu_mov8, u64_u64. by apply u64_id. Qed.
Lemma val_and v w : uint 64 v -> uint 64 w -> alu And 8 v (wrap (8 * 8) w) = Z.land v w.
Proof. intros Hv Hw. rewrite wrap8_id by done. by apply alu_and8. Qed.
Lemma val_add v w : alu Add 8 v (wrap (8 * 8) w) = u64 (v + w).
Proof. rewrite alu_add8. unfold u64. change (8 * 8) with 64. by rewrite wrap_add_r by lia. Qed.
Lemma val_xor v w : uint 64 v -> uint 64 w -> alu Xor 8 v (wrap (8 * 8) w) = Z.lxor v w.
Proof.
  intros Hv Hw. rewrite wrap8_id by done.
  change (alu Xor 8 v w) with (u64 (Z.lxor (wrap 64 v) w)). rewrite (wrap_id 64 v) by done.
  apply u64_id. by apply uint_lxor.
Qed.

(** [shr] by the index of the top bit and [and] with 1 leave that bit. *)
Lemma val_bit v k : uint 64 v -> k = 31 \/ k = 63 ->
  alu And 8 (alu Shr 8 v (wrap (8 * 8) k)) (wrap (8 * 8) 1) = Z.b2z (testBit k v).
Proof.
  intros Hv Hk.
  assert (alu Shr 8 v (wrap (8 * 8) k) = Z.shiftr v k) as ->.
  { change (alu Shr 8 v (wrap (8 * 8) k)) with (u64 (Z.shiftr (wrap 64 v) (wrap 64 k mod 64))).
    rewrite (wrap_id 64 v) by done. assert (wrap 64 k mod 64 = k) as -> by (destruct Hk as [-> | ->]; done).
    apply u64_id. apply uint_shiftr; [lia|done|lia]. }
  rewrite val_and by (done || (apply uint_shiftr; [lia|done|lia])).
  change 1 with (Z.ones 1). rewrite Z.land_ones by lia. rewrite testBit_spec by lia.
  rewrite <-Z.bit0_mod, Z.shiftr_spec by lia. f_equal.
Qed.

Lemma fieldGet_flags f v g s : fieldSize f = 8 -> fieldSize g = 1 ->
  fieldGet f (core (setField g v s)) = fieldGet f (core s).
Proof. intros Hf Hg. by destruct f, g. Qed.

(** The four flags, one after the other. *)
Lemma flags_written bz bn bc bv P s :
  (bz !=? 0) = PSTATE.Z P -> (bn !=? 0) = PSTATE.N P -> (bc !=? 0) = PSTATE.C P ->
  (bv !=? 0) = PSTATE.V P ->
  setField fV bv (setField fC bc (setField fN bn (setField fZ bz s))) = set_core (set_PState P (core s)) s.
Proof.
  intros Hz Hn Hc Hv. unfold setField. cbn [core set_core fieldSet]. rewrite Hz, Hn, Hc, Hv.
  by destruct P.
Qed.
Lemma b2z_nonzero b : (Z.b2z b !=? 0) = b.
Proof. by destruct b. Qed.

(** The flags in terms of the top bits: of the operands, the result, and the sum of
    the rest. *)
Definition topBits (r o1 o2 p : bool) (z : bool) : PSTATE.t :=
  {| PSTATE.N := r; PSTATE.Z := z; PSTATE.V := Bool.eqb o1 o2 && negb (Bool.eqb o1 r);
     PSTATE.C := (o1 && o2) || (o1 && p) || (o2 && p) |}.

Lemma addFlags_top (is64 : bool) op1 op2 carry :
  let msb := if is64 then 63 else 31 in
  addFlags is64 op1 op2 carry =
  topBits (testBit msb (addResult is64 op1 op2 carry)) (testBit msb op1) (testBit msb op2)
    (testBit msb (u64 (Z.land op1 (bitmask msb) + Z.land op2 (bitmask msb) + carry)))
    (addResult is64 op1 op2 carry =? 0).
Proof. by destruct is64. Qed.

Lemma u64_add_l v w : u64 (u64 v + w) = u64 (v + w).
Proof. unfold u64. by rewrite wrap_add_l by lia. Qed.

Ltac finish_flags :=
  lazymatch goal with HS : St _ _ _ _ _ _ ?a ?h ?s1 |- St _ _ _ _ _ _ ?a ?h ?s2 =>
    assert (s1 = s2) as <-; [|eapply St_forget; [exact HS|lia]]; clear HS end;
  rewrite ?fieldGet_flags by first [reflexivity|assumption];
  rewrite addFlags_top; cbv zeta iota;
  lazymatch goal with r := addResult _ ?o1 ?op2 ?cy |- context [testBit ?k ?o1] =>
    fold o1; fold r;
    assert (uint 64 (bitmask k)) by (by apply bitmask_uint);
    rewrite !(val_mov o1), !(val_mov op2), !(val_mov (bitmask k)) by assumption;
    rewrite !(val_and o1), !(val_and op2) by assumption;
    rewrite !val_add, !u64_add_l;
    rewrite !val_bit by first [assumption|apply u64_uint|by left|by right];
    generalize (testBit k (u64 (Z.land o1 (bitmask k) + Z.land op2 (bitmask k) + cy)));
    generalize (testBit k o1); generalize (testBit k op2); generalize (testBit k r);
    rewrite !wrap8_id, Z.land_diag by assumption;
    intros br b2 b1 bp;
    apply flags_written; cbn [topBits PSTATE.Z PSTATE.N PSTATE.C PSTATE.V fst snd];
      [apply b2z_nonzero|by destruct br|by destruct b1, b2, bp|by destruct b1, b2, bp, br]
  end.

Lemma addSubImmFlags_spec X L V G F n a h s (is64 isSub : bool) op1 op2 operand1 temp f1 :
  St X L ((mReg temp, addResult is64 op1 op2 (if isSub then 1 else 0)) :: V) G F n a h s ->
  op1 = fieldGet f1 (core s) ->
  mSize operand1 = 8 -> mWrittenOnUse operand1 = false -> (mReg operand1, f1) ∈ G -> cacheable f1 ->
  mSize temp = 8 -> mWrittenOnUse temp = false -> uint 64 op2 -> X = [fPC; fNextPC] ->
  (length L <= 4)%nat -> n + 80 <= NO_LRU_VALUE ->
  wp (JitDPImm.addSubImmFlags is64 op2 (if isSub then 1 else 0) operand1 temp) a h
    (fun _ a' h' => St X L [] [] None (n + 80) a' h'
       (set_core (set_PState (addFlags is64 op1 op2 (if isSub then 1 else 0)) (core s)) s)).
Proof.
  intros HS -> Ho1 Ho2 HG Hc1 Ht1 Ht2 Hop2 -> HL Hn.
  assert (wf_Core (core s)) as Hwf by apply (co_wfs _ _ _ _ (st_coh _ _ _ _ _ _ _ _ _ HS)).
  set (op1 := fieldGet f1 (core s)) in *. set (carry := if isSub then 1 else 0) in *.
  assert (uint 64 op1) as Hop1 by (by apply fieldGet_uint).
  assert (fieldSize f1 = 8) as Hs8 by apply Hc1.
  pose proof (addResult_uint is64 op1 op2 carry) as Hr. set (r := addResult is64 op1 op2 carry) in *.
  assert (immOk Add 8 carry = true) as Hcarry by (unfold carry; by destruct isSub).
  unfold JitDPImm.addSubImmFlags. wunfold. cbv zeta.
  destruct is64; wsteps; finish_flags.
Qed.

Lemma interp_adds (is64 isSub : bool) c bits :
  InterpDPImm.addSubImmGeneric is64 isSub true c bits =
  let op1 := getXorSP c (Inst.Rn bits) in
  let op2 := if isSub then not64 (addImm bits) else addImm bits in
  let carry := if isSub then 1 else 0 in
  let c' := set_PState (addFlags is64 op1 op2 carry) c in
  if Inst.Rd bits =? 31 then c' else setX (Inst.Rd bits) (addResult is64 op1 op2 carry) c'.
Proof.
  unfold InterpDPImm.addSubImmGeneric, addWithCarry. cbv zeta. fold (addImm bits).
  set (op2 := if isSub then not64 (addImm bits) else addImm bits). set (carry := if isSub then 1 else 0).
  set (op1 := getXorSP c (Inst.Rn bits)).
  assert ((if is64 then (if is64 then u64 (op1 + op2 + carry)
            else Z.land (u64 (op1 + op2 + carry)) (bitmask 32))
           else Z.land (if is64 then u64 (op1 + op2 + carry)
            else Z.land (u64 (op1 + op2 + carry)) (bitmask 32)) (bitmask 32)) =
          addResult is64 op1 op2 carry) as ->.
  { unfold addResult. destruct is64; [done|]. rewrite !land32. unfold u32. by rewrite wrap_wrap by lia. }
  done.
Qed.

(** The flags are right when the result does not replace the first operand before they
    are computed. *)
Definition flagsSafe (bits : Z) : Prop :=
  Inst.Rd bits = 31 \/ Inst.Rn bits = 31 \/ Inst.Rd bits <> Inst.Rn bits.

Lemma addSubImmGeneric_flags_implements (is64 isSub : bool) bits :
  getInstructionFunc (id (decode bits)) = pureHandler (Mem := Mem) (InterpDPImm.addSubImmGeneric is64 isSub true) ->
  flagsSafe bits -> implements (JitDPImm.addSubImmGeneric is64 isSub true bits) bits.
Proof.
  intros Hg Hsafe. apply (implements_pure _ _ _ Hg). intros L n a h s HS Ht Hl Hn Hpc H31.
  assert (wf_Core (core s)) as Hwf by apply (co_wfs _ _ _ _ (st_coh _ _ _ _ _ _ _ _ _ HS)).
  pose proof (immOk_add is64 isSub bits) as Himm. cbv zeta in Himm.
  unfold JitDPImm.addSubImmGeneric. cbn [negb]. rewrite loadXorSP. wunfold. cbv zeta.
  fold (addImm bits).
  pose proof (fieldXorSP_cacheable _ (reg_Rn bits)) as Hcn.
  assert (fieldXorSP (Inst.Rn bits) ∉ [fPC; fNextPC]) as Hn1.
  { destruct Hcn as (_ & _ & ? & ? & _). solve_notin. }
  set (f1 := fieldXorSP (Inst.Rn bits)) in *.
  set (op2 := if isSub then not64 (addImm bits) else addImm bits) in *.
  set (carry := if isSub then 1 else 0) in *.
  assert (uint 64 op2) as Hop2 by (unfold op2; destruct isSub; [apply not64_uint|by apply wrap_uint]).
  set (r := addResult is64 (fieldGet f1 (core s)) op2 carry).
  assert (uint (width is64) r) as Hr by apply addResult_width.
  destruct (Z.eqb_spec (Inst.Rd bits) 31) as [Hd|Hd].
  - (* the result is dropped *)
    destruct is64; wsteps.
    all: lazymatch goal with HS : St _ _ _ _ _ _ ?a ?h _ |- wp (JitDPImm.addSubImmFlags _ _ _ _ _) ?a ?h _ =>
      rewrite ?add_temp8, ?add_temp4 in HS; fold r in HS;
      eapply wp_conseq; [eapply (addSubImmFlags_spec _ _ _ _ _ _ _ _ _ _ isSub _ _ _ _ f1 HS eq_refl);
        [assumption|assumption|in_list|assumption|assumption|assumption|assumption|reflexivity
        |cbn [length]; lia|lia]|];
      intros [] ? ? HS'; clear HS; cbv beta in HS' end.
    all: wsteps; wdone; (split; [done|]).
    all: rewrite interp_adds; cbv zeta; rewrite (proj2 (Z.eqb_eq _ _) Hd).
    all: fold op2 carry; unfold f1; by rewrite fieldXorSP_get.
  - assert (f1 <> fGPRegs (Inst.Rd bits)) as Hne.
    { unfold f1, fieldXorSP. destruct (Z.eqb_spec (Inst.Rn bits) 31) as [|Hrn]; [done|].
      destruct Hsafe as [|[|Hs]]; [done|done|]. intros [= E]. by apply Hs. }
    assert (forall v, fieldGet f1 (core (setField (fGPRegs (Inst.Rd bits)) v s)) = fieldGet f1 (core s)) as Hsame.
    { intros v. unfold setField. cbn [core set_core]. apply fieldGet_fieldSet_ne; [solve_field|apply Hcn|done|done]. }
    destruct is64; wsteps.
    all: lazymatch goal with HS : St _ _ _ _ _ _ ?a ?h _ |- wp (JitDPImm.addSubImmFlags _ _ _ _ _) ?a ?h _ =>
      rewrite ?add_temp8, ?add_temp4 in HS; fold r in HS;
      eapply wp_conseq; [eapply (addSubImmFlags_spec _ _ _ _ _ _ _ _ _ _ isSub _ _ _ _ f1 HS);
        [symmetry; apply Hsame|assumption|assumption|in_list|assumption|assumption|assumption|assumption|reflexivity
        |cbn [length]; lia|lia]|];
      intros [] ? ? HS'; clear HS; cbv beta in HS' end.
    all: wsteps; wdone; (split; [by apply zero_setX; [solve_reg| |]|]).
    all: rewrite interp_adds; cbv zeta; rewrite (proj2 (Z.eqb_neq _ _) Hd).
    all: fold op2 carry.
    + pose proof (mov_result true (fieldGet (fGPRegs (Inst.Rd bits)) (core s)) r Hr) as E. cbv iota in E.
      rewrite E. unfold r, f1. by rewrite fieldXorSP_get.
    + pose proof (mov_result false (fieldGet (fGPRegs (Inst.Rd bits)) (core s)) r Hr) as E. cbv iota in E.
      rewrite E. unfold r, f1. by rewrite fieldXorSP_get.
Qed.

(** *** Shifted registers *)

(** The shifts the compiler handles: those to the left and the logical ones to the right,
    or by nothing at all. *)
Definition shiftHandled (bits : Z) : Prop :=
  toShiftType (Inst.shift bits) = LSL \/ toShiftType (Inst.shift bits) = LSR \/ Inst._10_15 bits = 0.

Lemma amount_small bits : 0 <= Inst._10_15 bits < 64.
Proof. pose proof (bitRange_uint 10 15 bits ltac:(lia)) as Hu. unfold uint in Hu. exact Hu. Qed.

Lemma immOk_shift bits m : m = Shl \/ m = Shr -> immOk m 8 (Inst._10_15 bits) = true.
Proof.
  intros Hm. pose proof (amount_small bits). destruct Hm as [-> | ->]; cbn [immOk];
    apply andb_true_iff; split; [apply Z.leb_le|apply Z.ltb_lt|apply Z.leb_le|apply Z.ltb_lt]; lia.
Qed.

Lemma val_shl v k : uint 64 v -> 0 <= k < 64 -> alu Shl 8 v (wrap (8 * 8) k) = shl64 v k.
Proof.
  intros Hv Hk. rewrite shl64_small by lia.
  change (alu Shl 8 v (wrap (8 * 8) k)) with (u64 (wrap 64 (Z.shiftl (wrap 64 v) (wrap 64 k mod 64)))).
  rewrite (wrap_id 64 v), (wrap_id 64 k) by (done || (unfold uint; lia)). rewrite Z.mod_small by lia.
  unfold u64. by rewrite wrap_wrap by lia.
Qed.
Lemma val_shr v k : uint 64 v -> 0 <= k < 64 -> alu Shr 8 v (wrap (8 * 8) k) = shr64 v k.
Proof.
  intros Hv Hk. rewrite shr64_small by lia.
  change (alu Shr 8 v (wrap (8 * 8) k)) with (u64 (Z.shiftr (wrap 64 v) (wrap 64 k mod 64))).
  rewrite (wrap_id 64 v), (wrap_id 64 k) by (done || (unfold uint; lia)). rewrite Z.mod_small by lia.
  apply u64_id. apply uint_shiftr; [lia|done|lia].
Qed.
Lemma val_or v w : uint 64 v -> uint 64 w -> alu Or 8 v (wrap (8 * 8) w) = Z.lor v w.
Proof. intros Hv Hw. rewrite wrap8_id by done. by apply alu_or8. Qed.

(** The operand as both shift it. *)
Lemma shiftOperand_spec X L V G F n a h s temp2 v bits w :
  St X L ((mReg temp2, v) :: V) G F n a h s -> uint 64 v -> shiftHandled bits ->
  mSize temp2 = 8 -> mWrittenOnUse temp2 = false -> (length L <= 8)%nat -> n + 2 <= NO_LRU_VALUE ->
  wp (JitDPReg.shiftOperand (toShiftType (Inst.shift bits)) temp2 (Inst._10_15 bits)) a h
    (fun _ a' h' => St X L ((mReg temp2, shift v (toShiftType (Inst.shift bits)) (Inst._10_15 bits) w) :: V)
       G None (n + 2) a' h' s).
Proof.
  intros HS Hv Hsh Ht1 Ht2 Hl Hn. pose proof (amount_small bits) as Ha.
  pose proof (immOk_shift bits Shl (or_introl eq_refl)) as I1.
  pose proof (immOk_shift bits Shr (or_intror eq_refl)) as I2.
  unfold JitDPReg.shiftOperand, shift.
  assert (forall z, Inst._10_15 bits = 0 -> Z.shiftl z (Inst._10_15 bits) = z /\ Z.shiftr z (Inst._10_15 bits) = z) as H0'.
  { intros z ->. split; [apply Z.shiftl_0_r|apply Z.shiftr_0_r]. }
  destruct (toShiftType (Inst.shift bits)) eqn:E.
  - walu. rewrite val_shl in HS0 by done. destruct (Z.eqb_spec (Inst._10_15 bits) 0) as [Z0|]; [|exact HS0].
    rewrite shl64_small in HS0 by lia. rewrite (proj1 (H0' v Z0)), u64_id in HS0 by done. exact HS0.
  - walu. rewrite val_shr in HS0 by done. destruct (Z.eqb_spec (Inst._10_15 bits) 0) as [Z0|]; [|exact HS0].
    rewrite shr64_small in HS0 by lia. by rewrite (proj2 (H0' v Z0)) in HS0.
  - destruct Hsh as [|[|Z0]]; [congruence..|]. rewrite (proj2 (Z.eqb_eq _ _) Z0). apply wp_ret.
    eapply St_weaken; [exact HS|done|apply (st_nodup _ _ _ _ _ _ _ _ _ HS)|done|by right|lia].
  - destruct Hsh as [|[|Z0]]; [congruence..|]. rewrite (proj2 (Z.eqb_eq _ _) Z0). apply wp_ret.
    eapply St_weaken; [exact HS|done|apply (st_nodup _ _ _ _ _ _ _ _ _ HS)|done|by right|lia].
Qed.

Lemma shiftOperand_if_spec X L V G F n a h s temp2 v bits w :
  St X L ((mReg temp2, v) :: V) G F n a h s -> uint 64 v -> shiftHandled bits ->
  mSize temp2 = 8 -> mWrittenOnUse temp2 = false -> (length L <= 8)%nat -> n + 2 <= NO_LRU_VALUE ->
  wp (if Inst._10_15 bits !=? 0
      then JitDPReg.shiftOperand (toShiftType (Inst.shift bits)) temp2 (Inst._10_15 bits)
      else mret tt) a h
    (fun _ a' h' => St X L ((mReg temp2, shift v (toShiftType (Inst.shift bits)) (Inst._10_15 bits) w) :: V)
       G None (n + 2) a' h' s).
Proof.
  intros HS Hv Hsh Ht1 Ht2 Hl Hn. destruct (Z.eqb_spec (Inst._10_15 bits) 0) as [Z0|]; cbn [negb].
  - apply wp_ret. unfold shift. rewrite Z0. cbn [Z.eqb].
    eapply St_weaken; [exact HS|done|apply (st_nodup _ _ _ _ _ _ _ _ _ HS)|done|by right|lia].
  - by eapply shiftOperand_spec.
Qed.

Lemma copies_spec X L G F n a h s t1 t2 v1 v2 w1 w2 :
  St X L [(mReg t2, alu Mov 8 w2 (wrap (8 * 8) v2)); (mReg t1, alu Mov 8 w1 (wrap (8 * 8) v1))] G F n a h s ->
  uint 64 v1 -> uint 64 v2 -> St X L [(mReg t2, v2); (mReg t1, v1)] G F n a h s.
Proof. intros HS H1' H2'. by rewrite !val_mov in HS. Qed.

Lemma orr32Shifted_implements bits :
  getInstructionFunc (id (decode bits)) = pureHandler (Mem := Mem) InterpDPReg.orr32Shifted ->
  Inst.Rd bits <> 31 -> bitRange 29 30 bits = 1 -> shiftHandled bits ->
  implements (JitDPReg.orr32Shifted bits) bits.
Proof.
  intros Hg Hrd Hop Hsh. apply (implements_pure _ _ _ Hg). intros L n a h s HS Ht Hl Hn Hpc H31.
  assert (wf_Core (core s)) as Hwf by apply (co_wfs _ _ _ _ (st_coh _ _ _ _ _ _ _ _ _ HS)).
  unfold JitDPReg.orr32Shifted, JitDPReg.logicalShiftedRegGeneric. wunfold. cbv zeta. rewrite Hop.
  set (op1 := fieldGet (fGPRegs (Inst.Rn bits)) (core s)).
  set (op2 := fieldGet (fGPRegs (Inst.Rm bits)) (core s)).
  assert (uint 64 op1 /\ uint 64 op2) as [Hop1 Hop2] by (split; by apply fieldGet_uint).
  set (sh := shift op2 (toShiftType (Inst.shift bits)) (Inst._10_15 bits) 32).
  assert (uint 64 sh) as Hsh64 by (by apply shift_uint).
  wsteps. lazymatch goal with HS : St _ _ _ _ _ _ ?a ?h _ |- wp _ ?a ?h _ =>
    apply copies_spec in HS; [|done|done];
    eapply wp_conseq; [eapply (shiftOperand_if_spec _ _ _ _ _ _ _ _ _ _ _ _ 32 HS); try done; cbn [length]; lia|];
    intros [] ? ? HS'; clear HS; cbv beta in HS'; fold sh in HS' end. cbn [Z.eqb Pos.eqb orb].
  wsteps. wdone. cbn [fieldSet]. split; [apply zero_setX; [solve_reg|done|done]|].
  unfold InterpDPReg.orr32Shifted, InterpDPReg.logicalShiftedRegGeneric. cbv zeta.
  rewrite alu_mov4, val_or by done. done.
Qed.

(** The sum of two registers at 32 bits. *)
Lemma add32Shifted_implements bits :
  getInstructionFunc (id (decode bits)) = pureHandler (Mem := Mem) InterpDPReg.add32Shifted ->
  Inst.Rd bits <> 31 -> shiftHandled bits -> implements (JitDPReg.add32Shifted bits) bits.
Proof.
  intros Hg Hrd Hsh. apply (implements_pure _ _ _ Hg). intros L n a h s HS Ht Hl Hn Hpc H31.
  assert (wf_Core (core s)) as Hwf by apply (co_wfs _ _ _ _ (st_coh _ _ _ _ _ _ _ _ _ HS)).
  unfold JitDPReg.add32Shifted, JitDPReg.addSubShiftedRegGeneric. wunfold. cbv zeta.
  set (op1 := fieldGet (fGPRegs (Inst.Rn bits)) (core s)).
  set (op2 := fieldGet (fGPRegs (Inst.Rm bits)) (core s)).
  assert (uint 64 op1 /\ uint 64 op2) as [Hop1 Hop2] by (split; by apply fieldGet_uint).
  set (sh := shift op2 (toShiftType (Inst.shift bits)) (Inst._10_15 bits) 32).
  assert (uint 64 sh) as Hsh64 by (by apply shift_uint).
  wsteps. lazymatch goal with HS : St _ _ _ _ _ _ ?a ?h _ |- wp _ ?a ?h _ =>
    apply copies_spec in HS; [|done|done];
    eapply wp_conseq; [eapply (shiftOperand_spec _ _ _ _ _ _ _ _ _ _ _ _ 32 HS); try done; cbn [length]; lia|];
    intros [] ? ? HS'; clear HS; cbv beta in HS'; fold sh in HS' end.
  wsteps. wdone. cbn [fieldSet]. split; [apply zero_setX; [solve_reg|done|done]|].
  unfold InterpDPReg.add32Shifted, InterpDPReg.addSubShiftedRegGeneric, addWithCarry. cbv zeta.
  rewrite set_PState_same, !alu_mov4, alu_add4, !land32.
  change (fieldGet (fGPRegs (Inst.Rn bits)) (core s)) with op1.
  change (shift (fieldGet (fGPRegs (Inst.Rm bits)) (core s)) (toShiftType (Inst.shift bits)) (Inst._10_15 bits) 32)
    with sh.
  assert (u32 (u32 (u32 op1 + wrap (8 * 4) sh)) = u32 (u32 (u64 (op1 + sh + 0)))) as ->; [|done].
  rewrite Z.add_0_r, u32_u64. unfold u32. change (8 * 4) with 32.
  by rewrite !wrap_wrap, wrap_add_l, wrap_add_r by lia.
Qed.

(** ** Branches *)

(** The guest condition, as 0 or 1. *)
Lemma wrap_alu1 m v w : wrap 8 (alu m 1 v w) = wrap 8 (default 0 (arith m 1 (wrap 8 v) w)).
Proof.
  change (wrap 8 (alu m 1 v w)) with
    (wrap 8 (Z.lor (Z.shiftl (Z.shiftr v 8) 8) (wrap 8 (default 0 (arith m 1 (wrap 8 v) w))))).
  apply Z.bits_inj'. intros i Hi. rewrite !testbit_wrap, Z.lor_spec, testbit_shiftl, testbit_wrap by lia.
  destruct (Z.ltb_spec i 8); [|done]. by rewrite (proj2 (Z.leb_gt 0 (i - 8))) by lia.
Qed.
Lemma wrap_set1 v b : wrap 8 (regValue 1 v (Z.b2z b)) = Z.b2z b.
Proof.
  change (regValue 1 v (Z.b2z b)) with (alu Mov 1 v (Z.b2z b)). rewrite wrap_alu1. by destruct b.
Qed.

Lemma insertTestCondition_spec L G F n a h s t v cond :
  St [fPC; fNextPC] L [(mReg t, v)] G F n a h s -> mSize t = 1 -> mWrittenOnUse t = false ->
  (length L <= 4)%nat -> n + 20 <= NO_LRU_VALUE ->
  wp (insertTestCondition cond (mkGp (gp (mReg t)) 1)) a h (fun _ a' h' => exists w F',
    St [fPC; fNextPC] L [(mReg t, w)] G F' (n + 20) a' h' s /\
    wrap 8 w = Z.b2z (testCondition (core s) cond)).
Proof.
  intros HS Ht1 Ht2 Hl Hn. unfold insertTestCondition. wunfold.
  set (fz := PSTATE.Z (PState (core s))). set (fn := PSTATE.N (PState (core s))).
  set (fc := PSTATE.C (PState (core s))). set (fv := PSTATE.V (PState (core s))).
  destruct cond; wsteps.
  all: lazymatch goal with HS : St _ _ _ _ _ _ ?a ?h _ |- exists w F', St _ _ _ _ _ _ ?a ?h _ /\ _ =>
    eexists _, _; split;
      [eapply St_weaken; [exact HS|done|apply (st_nodup _ _ _ _ _ _ _ _ _ HS)|done|by left|lia]|] end.
  all: unfold testCondition; cbn [fieldGet]; fold fz fn fc fv.
  all: repeat first [rewrite wrap_set1|rewrite wrap_alu1|progress change (8 * 1) with 8
    |progress cbn [arith default fst snd from_option]].
  all: generalize fz fn fc fv; by intros [] [] [] [].
Qed.

(** *** Jumps out of a block *)

(** The code of [f] ends with a jump to [p], the host then being [h']. *)
Definition leaves (f : J unit) a h (Q : HostPtr -> HostState Mem -> Prop) : Prop :=
  exists a' l p h', f a = Some (tt, a') /\ code a' = code a ++ l /\
    (forall rest, run (l ++ rest) None h = Ok (Left p, h')) /\ Q p h'.

Lemma leaves_bind {A} (f : J A) (k : A -> J unit) a h P Q :
  wp f a h P -> (forall x a' h', P x a' h' -> leaves (k x) a' h' Q) -> leaves (f ≫= k) a h Q.
Proof.
  intros (x & b & h1 & Hf & (Hpc & l & Hl & Hr) & HP) Hk.
  destruct (Hk x b h1 HP) as (c & l' & p & h2 & Hf' & Hl' & Hr' & HQ).
  exists c, (l ++ l'), p, h2. split_and!; [| | |done].
  - by rewrite (J_bind_some _ _ _ _ _ Hf).
  - by rewrite Hl', Hl, app_assoc.
  - intros rest. rewrite <-app_assoc, Hr. apply Hr'.
Qed.

(** What only adds code does not matter after the jump. *)
Definition appends (f : J unit) a : Prop :=
  exists a' l, f a = Some (tt, a') /\ code a' = code a ++ l.

Lemma leaves_then (f : J unit) (k : unit -> J unit) a h Q :
  leaves f a h Q -> (forall a', f a = Some (tt, a') -> appends (k tt) a') -> leaves (f ≫= k) a h Q.
Proof.
  intros (b & l & p & h' & Hf & Hl & Hr & HQ) Hk.
  destruct (Hk b Hf) as (c & l' & Hf' & Hl'). exists c, (l ++ l'), p, h'.
  split_and!; [by rewrite (J_bind_some _ _ _ _ _ Hf)|by rewrite Hl', Hl, app_assoc| |done].
  intros rest. by rewrite <-app_assoc.
Qed.

Lemma wp_jmp L n a h p : holds a L n -> n + 1 <= NO_LRU_VALUE -> (length L <= 18)%nat ->
  exists a', ins Jmp [P p] a = Some (tt, a') /\ holds a' L (n + 1) /\ sameRegs [] a a' /\
    code a' = code a ++ [Ins Jmp [OPtr p]] /\
    forall rest, run ([Ins Jmp [OPtr p]] ++ rest) None h = Ok (Left p, h).
Proof.
  intros HL Hn Hl. destruct (ins_spec a L n Jmp [P p] HL) as (a' & Hf & HL' & Hsame & Hcode).
  - by repeat constructor.
  - cbn [length]. lia.
  - cbn [length]. lia.
  - by exists a'.
Qed.

(** The same guest, but for the program counter and the zero register. *)
Definition sameGuest s s' : Prop := forall v, setField fPC v (zeroed s) = setField fPC v (zeroed s').

(** A host about to run a block. *)
Record entered h : Prop := {
  en_base : hregs h stateReg = coreAddr;
  en_uint r : uint 64 (hregs h r);
  en_wf : wf_Core (hcore h);
}.

(** The host is about to run a block, in the guest [s]. *)
Definition agree h s : Prop := entered h /\ sameGuest (machine h) s.

Lemma coh_agree a h s : coh [fPC; fGPRegs 31] a h s -> noCache a -> agree h s.
Proof.
  intros Hcoh Hno. split; [by destruct Hcoh|]. intros v. revert Hcoh.
  intros [C1 C2 C3 C4 C5 C6 C7 C8 C9 C10]. unfold hcore in *.
  assert (fGPRegs 31 ∈ coreFields) as H31 by (by apply coreFields_GPRegs).
  assert (fPC ∈ coreFields) as HPC by solve_field.
  assert (fieldSet fPC v (fieldSet (fGPRegs 31) 0 (core (machine h))) =
          fieldSet fPC v (fieldSet (fGPRegs 31) 0 (core s))) as E.
  { assert (fieldSet fPC 0 (fieldSet (fGPRegs 31) 0 (core (machine h))) =
            fieldSet fPC 0 (fieldSet (fGPRegs 31) 0 (core s))) as E0.
    2: { apply (f_equal (fieldSet fPC v)) in E0. exact E0. }
    assert (wf_Core (fieldSet (fGPRegs 31) 0 (core (machine h))) /\ wf_Core (fieldSet (fGPRegs 31) 0 (core s)))
      as [W1 W2] by (split; by apply wf_fieldSet).
    apply core_ext; [by apply wf_fieldSet|by apply wf_fieldSet|exact C5|].
    intros f Hf. destruct (decide (f = fPC)) as [->|Hp]; [by rewrite !fieldGet_fieldSet|].
    rewrite !(fieldGet_fieldSet_ne fPC) by done.
    destruct (decide (f = fGPRegs 31)) as [->|H31']; [by rewrite !fieldGet_fieldSet|].
    rewrite !(fieldGet_fieldSet_ne (fGPRegs 31)) by done. apply C3; [done|solve_notin|].
    intros i r Hr _ Ho. apply (offsetof_ne f Hf). rewrite <-Ho. by eapply Hno. }
  unfold setField, zeroed, setField. cbn [core set_core] in *. rewrite E.
  unfold set_core. cbn [memory gTimer]. by rewrite C6, C7.
Qed.

Lemma St_agree L n a h s : St [fPC] L [] [] None n a h s -> noCache a -> agree h s.
Proof.
  intros HS Hno. apply (coh_agree a); [|done]. apply st_coh with L [] [] None n.
  eapply St_moreX; [exact HS|]. intros f ->%list_elem_of_singleton. in_list.
Qed.

(** Where a block may go when it ends in [s]: back to the run loop, or to the compiled
    block at the next instruction. *)
Definition exitOk (gBlockMap : gmap Z JitCode) s (p : HostPtr) : Prop :=
  p = blockFinale \/ exists c, gBlockMap !! nextPC (core s) = Some c /\ p = blockCode c.

Lemma insertEndOfBlock_leaves gBlockMap addr L V G F n a h s :
  St [fPC; fNextPC] L V G F n a h s -> temporary L -> (length L <= 4)%nat -> n + 10 <= NO_LRU_VALUE ->
  uint 64 addr ->
  leaves (JitBranch.insertEndOfBlock gBlockMap addr) a h (fun p h' =>
    exitOk gBlockMap (setField fNextPC addr s) p /\ agree h' (setField fNextPC addr s)).
Proof.
  intros HS Ht Hl Hn Ha. unfold JitBranch.insertEndOfBlock, coreNextPCMem.
  eapply leaves_bind.
  { apply (wp_write64 _ [fPC] _ _ _ _ _ _ _ _ fNextPC addr HS); [solve_field|done|done| | |lia|lia].
    - left. solve_uncacheable.
    - intros f [->|Hf]%elem_of_cons; [by apply list_elem_of_further, list_elem_of_here|].
      apply list_elem_of_singleton in Hf as ->. apply list_elem_of_here. }
  intros [] a1 h1 [HS1 _]. eapply leaves_bind; [by apply (wp_envictAll _ _ _ _ _ _ _ _ _ HS1)|].
  intros [] a2 h2 (HS2 & Hno & _).
  assert (exists p, match gBlockMap !! addr with
    | Some c => ins Jmp [P (blockCode c)] | None => ins Jmp [P blockFinale] end = ins Jmp [P p] /\
    exitOk gBlockMap (setField fNextPC addr s) p) as (p & -> & Hp).
  { destruct (gBlockMap !! addr) as [c|] eqn:E; eexists; (split; [reflexivity|]); [right|by left].
    by exists c. }
  destruct (wp_jmp _ _ a2 h2 p (st_holds _ _ _ _ _ _ _ _ _ HS2)) as (a3 & Hf & HL3 & Hsame & Hcode & Hrun);
    [lia|lia|].
  exists a3, [Ins Jmp [OPtr p]], p, h2. split_and!; try done.
  eapply St_agree; [|exact Hno]. eapply St_forget; [exact HS2|apply Z.le_refl].
Qed.

(** A handler that ends a block: it jumps out, or runs on with the next instruction known. *)
Definition finishes (gBlockMap : gmap Z JitCode) (f : J unit) (bits : Z) : Prop :=
  forall L n a h s s', St [fPC; fNextPC] L [] [] None n a h s ->
    temporary L -> (length L <= 1)%nat -> n + 200 <= NO_LRU_VALUE -> uint 64 (currentPC a) ->
    getX (core s) 31 = 0 -> interpHandler (currentPC a) bits s = Ok (tt, s') -> wf_Core (core s') ->
    leaves f a h (fun p h' => exitOk gBlockMap s' p /\ agree h' s') \/
    wp f a h (fun _ a' h' => St [fPC; fGPRegs 31] L [] [] None (n + 200) a' h' (zeroed s')).

Lemma FALLBACK_finishes gBlockMap bits :
  countersElsewhere -> uint 32 bits -> finishes gBlockMap (FALLBACK bits) bits.
Proof.
  intros Hctr Hbits L n a h s s' HS Ht Hl Hn Hpc H31 Hint Hwf. right.
  eapply wp_conseq; [by eapply FALLBACK_spec|]. intros [] a' h' HS'.
  eapply St_moreX; [exact HS'|]. intros f ->%list_elem_of_singleton. in_list.
Qed.

Lemma agree_same s1 s2 : (forall v, setField fPC v (zeroed s1) = setField fPC v (zeroed s2)) ->
  forall h, agree h s1 -> agree h s2.
Proof. intros E h [He Hs]. split; [exact He|]. intros v. by rewrite Hs. Qed.

Lemma leaves_conseq f a h (P Q : HostPtr -> HostState Mem -> Prop) :
  leaves f a h P -> (forall p h', P p h' -> Q p h') -> leaves f a h Q.
Proof.
  intros (b & l & p & h' & Hf & Hl & Hr & HP) HPQ. exists b, l, p, h'. split_and!; auto.
Qed.

Lemma leaves_get (k : Asm -> J unit) a h Q : leaves (k a) a h Q -> leaves (getAsm ≫= k) a h Q.
Proof. done. Qed.

(** The link register, if it is written. *)
Definition linked (link : bool) (v : Z) s : Machine Mem :=
  if link then setField (fGPRegs 30) v s else s.

Lemma wp_link L n a h s (link : bool) v :
  St [fPC; fNextPC] L [] [] None n a h s -> (length L <= 1)%nat -> n + 10 <= NO_LRU_VALUE -> uint 64 v ->
  wp (if link then
        h ← loadGpRegister (qword (fGPRegs 30)) false true; ins Mov [H h; I v];; release h
      else mret tt) a h
    (fun _ a' h' => St [fPC; fNextPC] L [] [] None (n + 10) a' h' (linked link v s)).
Proof.
  intros HS Hl Hn Hv. destruct link; wsteps.
  - rewrite alu_mov8, u64_u64, u64_id in HS0 by done. eapply St_forget; [exact HS0|lia].
  - eapply St_forget; [exact HS|lia].
Qed.

Lemma uncondBranchImm_finishes gBlockMap (link : bool) bits :
  getInstructionFunc (id (decode bits)) = pureHandler (Mem := Mem) (InterpBranch.uncondBranchImmGeneric link) ->
  finishes gBlockMap (JitBranch.uncondBranchImmGeneric gBlockMap link bits) bits.
Proof.
  intros Hg L n a h s s' HS Ht Hl Hn Hpc H31 Hint Hwf. left.
  unfold interpHandler in Hint. rewrite Hg in Hint. injection Hint as <-.
  unfold JitBranch.uncondBranchImmGeneric. wunfold. cbv zeta. apply leaves_get.
  eapply leaves_bind; [apply (wp_link _ _ _ _ _ link (u64 (currentPC a + 4)) HS); [done|lia|by apply wrap_uint]|].
  intros [] a1 h1 HS1. cbv beta in HS1.
  eapply leaves_conseq; [eapply (insertEndOfBlock_leaves _ _ _ _ _ _ _ _ _ _ HS1);
    [done|lia|lia|by apply wrap_uint]|].
  intros p h' [Hexit Hagree]. split.
  - destruct link; exact Hexit.
  - eapply agree_same; [|exact Hagree]. intros v. by destruct link.
Qed.

(** A branch with link to the address in the link register itself is not as the
    interpreter has it. *)
Lemma uncondBranchReg_finishes gBlockMap (link : bool) bits :
  getInstructionFunc (id (decode bits)) = pureHandler (Mem := Mem) (InterpBranch.uncondBranchRegGeneric link) ->
  link = false \/ Inst.Rn bits <> 30 ->
  finishes gBlockMap (JitBranch.uncondBranchRegGeneric link bits) bits.
Proof.
  intros Hg Hrn L n a h s s' HS Ht Hl Hn Hpc H31 Hint Hwf. left.
  assert (wf_Core (core s)) as Hwfs by apply (co_wfs _ _ _ _ (st_coh _ _ _ _ _ _ _ _ _ HS)).
  unfold interpHandler in Hint. rewrite Hg in Hint. injection Hint as <-.
  unfold JitBranch.uncondBranchRegGeneric. wunfold. cbv zeta. apply leaves_get.
  eapply leaves_bind; [apply (wp_link _ _ _ _ _ link (u64 (currentPC a + 4)) HS); [done|lia|by apply wrap_uint]|].
  intros [] a1 h1 HS1. cbv beta in HS1. clear HS.
  set (s1 := linked link (u64 (currentPC a + 4)) s) in *.
  assert (getX (core s1) (Inst.Rn bits) = getX (core s) (Inst.Rn bits)) as Etarget.
  { unfold s1, linked. destruct link; [|done]. destruct Hrn as [|Hrn]; [done|].
    unfold setField. cbn [core set_core fieldSet]. apply getX_setX_ne; [by unfold reg|solve_reg|done]. }
  set (addr := getX (core s) (Inst.Rn bits)) in *.
  assert (uint 64 addr) as Haddr by (apply getX_uint; apply Hwfs).
  eapply leaves_bind.
  { assert (wp (h ← loadGpRegister (qword (fGPRegs (Inst.Rn bits))) true false;
      ins Mov [JitAsm.M (qword fNextPC); H h];; release h) a1 h1 (fun _ a' h' =>
        St [fPC] L [] [] None (n + 20) a' h' (setField fNextPC addr s1))) as Hwp; [|exact Hwp].
    wgoal. wgoal. wgoal. eapply wp_conseq.
    { lazymatch goal with HS : St ?X ?L ?V ?G ?F ?n ?a ?h ?s |- wp (ins Mov [JitAsm.M ?mm; ?x]) ?a ?h _ =>
        eapply (wp_store X [fPC] L V G F n a h s fNextPC mm x addr HS) end.
      - solve_field.
      - solve_uncacheable.
      - done.
      - done.
      - cbn [opOf opOfHandle opSize gpSize]. by rewrite H.
      - cbn [fieldSize]. rewrite <-(wrap8_id addr Haddr). rewrite <-Etarget. solve_reads.
      - by intros _.
      - intros f [->|Hf]%elem_of_cons; [by apply list_elem_of_further, list_elem_of_here|].
        apply list_elem_of_singleton in Hf as ->. apply list_elem_of_here.
      - lia.
      - cbn [length]. lia. }
    intros [] a3 h3 HS3. cbv beta in HS3. wgoal. eapply St_forget; [eassumption|lia]. }
  intros [] a2 h2 HS2. cbv beta in HS2.
  eapply leaves_bind; [by apply (wp_envictAll _ _ _ _ _ _ _ _ _ HS2)|].
  intros [] a3 h3 (HS3 & Hno & _).
  destruct (wp_jmp _ _ a3 h3 blockFinale (st_holds _ _ _ _ _ _ _ _ _ HS3)) as (a4 & Hf & HL4 & Hsame & Hcode & Hrun);
    [lia|lia|].
  exists a4, [Ins Jmp [OPtr blockFinale]], blockFinale, h3. split_and!; try done; [by left|].
  eapply agree_same; [|eapply St_agree; [exact HS3|exact Hno]].
  intros v. unfold s1. by destruct link.
Qed.

(** *** The conditional branch *)

(** What the compiler does only adds code. *)
Definition grows {A} (f : J A) : Prop :=
  forall a x a', f a = Some (x, a') -> exists l, code a' = code a ++ l.

Lemma grows_bind {A B} (f : J A) (k : A -> J B) :
  grows f -> (forall x, grows (k x)) -> grows (f ≫= k).
Proof.
  intros Hf Hk a y c. unfold mbind, J_bind. destruct (f a) as [[x b]|] eqn:E; [|done]. intros Hy.
  destruct (Hf a x b E) as [l Hl], (Hk x b y c Hy) as [l' Hl']. exists (l ++ l').
  by rewrite Hl', Hl, app_assoc.
Qed.
Lemma grows_mod f : (forall a, code (f a) = code a) -> grows (modAsm f).
Proof. intros Hf a x a' [= <- <-]. exists []. by rewrite Hf, app_nil_r. Qed.
Lemma grows_emit m ops : grows (emit m ops).
Proof. intros a x a' [= <- <-]. by eexists. Qed.
Lemma grows_same {A} (f : J A) : (forall a x a', f a = Some (x, a') -> a' = a) -> grows f.
Proof. intros Hf a x a' ->%Hf. exists []. by rewrite app_nil_r. Qed.
Lemma grows_ret {A} (x : A) : grows (mret x).
Proof. apply grows_same. by intros a y a' [= _ <-]. Qed.
Lemma grows_assert b : grows (emu_assert b).
Proof. destruct b; [apply grows_ret|]. by intros a x a'. Qed.
Lemma grows_getReg i : grows (getReg i).
Proof. apply grows_same. intros a y a'. unfold getReg. destruct (mRegs a !! i); [|done]. by intros [= _ <-]. Qed.

Lemma grows_getAsm : grows getAsm.
Proof. apply grows_same. by intros a y a' [= _ <-]. Qed.

Ltac grow :=
  repeat first
    [apply grows_emit|apply grows_ret|apply grows_assert|apply grows_getReg|apply grows_getAsm
    |apply grows_mod; intros ?; reflexivity|apply grows_bind; [|intros ?]
    |match goal with |- grows (if ?b then _ else _) => destruct b end
    |match goal with |- grows (let '(_, _) := ?p in _) => destruct p end].

Lemma grows_envictFrom k : forall i, grows (envictFrom i k).
Proof.
  induction k as [|k IH]; intros i; cbn [envictFrom]; [grow|].
  apply grows_bind; [apply grows_getReg|]. intros r. apply grows_bind; [|by intros _].
  destruct (_ !=? _); [unfold envict; grow|grow].
Qed.
Lemma grows_release t : grows (release t).
Proof. by apply grows_mod. Qed.
Lemma grows_ins m xs : grows (ins m xs).
Proof.
  assert (forall xs, grows (evalArgs xs)) as Hargs.
  { intros ys. induction ys as [|y ys IH]; cbn [evalArgs]; [grow|]. apply grows_bind; [|intros [o ts]].
    - unfold evalArg, withSize. destruct y; grow.
    - apply grows_bind; [exact IH|]. intros [os ts']. grow. }
  unfold ins. apply grows_bind; [apply Hargs|]. intros [os ts]. apply grows_bind; [apply grows_emit|intros _].
  induction ts as [|t ts IH]; cbn [releaseAll]; [grow|]. by apply grows_bind; [apply grows_release|].
Qed.
Lemma grows_write64 m v : grows (write64ImmToMem m v).
Proof. apply grows_bind; [apply grows_ins|]. intros _. apply grows_ins. Qed.

Lemma grows_appends (f : J unit) a Q : grows f -> cok f a Q -> appends f a.
Proof. intros Hg ([] & a' & Hf & _). destruct (Hg a tt a' Hf) as [l Hl]. by exists a', l. Qed.

(** The jump of the end of a block, when the cache is empty. *)
Lemma emptiedFrom_noCache k : forall i a, noCache a -> emptiedFrom i k a = a.
Proof.
  induction k as [|k IH]; intros i a Hno; cbn [emptiedFrom]; [done|].
  destruct (mRegs a !! i) as [r|] eqn:E; [|by apply IH].
  unfold emptied. rewrite (proj2 (Z.eqb_eq _ _) (Hno i r E)). by apply IH.
Qed.

Definition noBind (l : list HostInst) : Prop := Forall (fun i => match i with Bind _ => False | _ => True end) l.

Lemma insertEndOfBlock_code gBlockMap addr L a n :
  holds a L n -> temporary L -> noCache a -> (length L <= 4)%nat -> n + 10 <= NO_LRU_VALUE ->
  exists a' l, JitBranch.insertEndOfBlock gBlockMap addr a = Some (tt, a') /\
    holds a' L (n + 5) /\ sameRegs [] a a' /\ code a' = code a ++ l /\ noBind l.
Proof.
  intros HL Ht Hno Hl Hn. unfold JitBranch.insertEndOfBlock, coreNextPCMem, write64ImmToMem.
  destruct (ins_spec a L n Mov [JitAsm.M (mkMem stateReg (offsetof fNextPC) 4); I (u32 addr)] HL)
    as (a1 & Hf1 & HL1 & Hs1 & Hc1); [by repeat constructor|cbn [length]; lia|cbn [length]; lia|].
  cbn [length] in HL1.
  destruct (ins_spec a1 L _ Mov [JitAsm.M (mkMem stateReg (offsetof fNextPC + 4) 4); I (u32 (addr ≫ 32))] HL1)
    as (a2 & Hf2 & HL2 & Hs2 & Hc2); [by repeat constructor|cbn [length]; lia|cbn [length]; lia|].
  cbn [length] in HL2.
  assert (noCache a2) as Hno2 by exact (noCache_same _ _ (noCache_same _ _ Hno Hs1) Hs2).
  destruct (envictAll_spec a2 L _ HL2 Ht) as (Hf3 & _ & _). rewrite emptiedFrom_noCache in Hf3 by done.
  assert (exists p, match gBlockMap !! addr with
    | Some c => ins Jmp [P (blockCode c)] | None => ins Jmp [P blockFinale] end = ins Jmp [P p]) as (p & ->).
  { destruct (gBlockMap !! addr); by eexists. }
  destruct (ins_spec a2 L _ Jmp [P p] HL2) as (a4 & Hf4 & HL4 & Hs4 & Hc4);
    [by repeat constructor|cbn [length]; lia|cbn [length]; lia|]. cbn [length] in HL4.
  eexists a4, _. split_and!.
  - cbn [memBase memOffset qword].
    rewrite (J_bind_some _ _ a tt a2) by (by rewrite (J_bind_some _ _ _ _ _ Hf1)).
    by rewrite (J_bind_some _ _ _ _ _ Hf3).
  - eapply holds_le; [exact HL4|lia].
  - exact (sameRegs_trans [] [] _ _ _ (sameRegs_trans [] [] _ _ _ Hs1 Hs2) Hs4).
  - rewrite Hc4, Hc2, Hc1, <-!app_assoc. reflexivity.
  - by repeat constructor.
Qed.

Lemma run_skip l b rest h : noBind b -> run (b ++ rest) (Some l) h = run rest (Some l) h.
Proof.
  intros Hb. induction Hb as [|i b Hi _ IH]; [done|]. cbn [app run]. by destruct i.
Qed.

Lemma wp_newLabel X L V G F n a h s : St X L V G F n a h s ->
  wp newLabel a h (fun l a' h' => St X L V G F n a' h' s).
Proof.
  intros HS. exists (labels a), (set_labels (S (labels a)) a), h. split; [done|].
  split; [by apply ext_same|]. destruct HS as [S1 S2 S3 S4 S5 S6].
  constructor; try done; [by apply holds_labels|].
  destruct S2 as [C1 C2 C3 C4 C5 C6 C7 C8 C9 C10]. by constructor.
Qed.

Lemma wp_track {A} (f : J A) a h pc (Q : A -> Asm -> HostState Mem -> Prop) :
  currentPC a = pc -> wp f a h (fun x a' h' => currentPC a' = pc -> Q x a' h') -> wp f a h Q.
Proof.
  intros Epc (x & a' & h' & Hf & Hx & HQ). exists x, a', h'. split_and!; [done|done|]. apply HQ.
  rewrite <-Epc. apply Hx.
Qed.

(** Evaluating the condition leaves an empty cache and the parity flag. *)
Definition condTest (bits : Z) : J (nat * GpRegister) :=
  endLabel ← newLabel;
  testReg ← allocGpTemp 1;
  reg ← toGp testReg;
  insertTestCondition (toCondition (Inst.cond bits)) reg;;
  ins Test [H testReg; H testReg];;
  envictAll;;
  mret (endLabel, testReg).

Lemma condTest_spec L n a h s bits :
  St [fPC; fNextPC] L [] [] None n a h s -> temporary L -> (length L <= 1)%nat -> n + 100 <= NO_LRU_VALUE ->
  wp (condTest bits) a h (fun x a' h' => noCache a' /\
    St [fPC; fNextPC] ((mReg x.2, NO_OFFSET) :: L) [] [] None (n + 30) a' h' s /\
    pf h' = negb (testCondition (core s) (toCondition (Inst.cond bits)))).
Proof.
  intros HS Ht Hl Hn. unfold condTest.
  wgoal. eapply wp_conseq; [by eapply wp_newLabel|]. intros l a1 h1 HS1. clear HS. cbv beta in *.
  wgoal. wgoal. wgoal. eapply wp_conseq.
  { eapply wp_toGp; [eassumption| |done|lia]. split; [lia|]. exists NO_OFFSET. split; [in_list|congruence]. }
  intros g a2 h2 (-> & -> & HS2). cbv beta in HS2. clear HS. rewrite H.
  wgoal. eapply wp_conseq; [eapply (insertTestCondition_spec _ _ _ _ _ _ _ _ _ _ HS2); [done|done|cbn [length]; lia|lia]|].
  intros [] a3 h3 (w & F' & HS3 & Hw). clear HS2. cbv beta.
  wgoal. wcompare. wgoal. eapply wp_conseq; [eapply wp_envictAll; [eassumption|]|].
  { intros i o [[= -> ->]|Hin]%elem_of_cons; [done|]. by apply (Ht i o). }
  intros [] a5 h5 (HS5 & Hno & _). cbv beta. wgoal. split_and!.
  - done.
  - eapply St_forget; [exact HS5|lia].
  - destruct (st_F _ _ _ _ _ _ _ _ _ HS5 _ _ _ eq_refl) as (_ & _ & ->).
    change (8 * 1) with 8. rewrite Hw. by destruct (testCondition _ _).
Qed.

Lemma condBranch_assoc gBlockMap bits a :
  JitBranch.condBranch gBlockMap bits a =
  ('(endLabel, testReg) ← condTest bits;
   ins Jpe [JitAsm.L endLabel];;
   a ← getAsm;
   JitBranch.insertEndOfBlock gBlockMap
     (u64 (currentPC a + signExtend 21 (Z.shiftl (Inst._5_23 bits) 2)));;
   bind_label endLabel;;
   write64ImmToMem coreNextPCMem (u64 (currentPC a + 4));;
   release testReg) a.
Proof.
  unfold JitBranch.condBranch, condTest, mbind, J_bind, mret, J_ret.
  destruct (newLabel a) as [[l a1]|]; [|done]. destruct (allocGpTemp 1 a1) as [[t a2]|]; [|done].
  destruct (toGp t a2) as [[g a3]|]; [|done]. destruct (insertTestCondition _ g a3) as [[[] a4]|]; [|done].
  destruct (ins Test _ a4) as [[[] a5]|]; [|done]. by destruct (envictAll a5) as [[[] a6]|].
Qed.

Lemma condBranch_finishes gBlockMap bits :
  getInstructionFunc (id (decode bits)) = pureHandler (Mem := Mem) InterpBranch.condBranch ->
  finishes gBlockMap (JitBranch.condBranch gBlockMap bits) bits.
Proof.
  intros Hg L n a h s s' HS Ht Hl Hn Hpc H31 Hint Hwf.
  unfold interpHandler in Hint. rewrite Hg in Hint. injection Hint as <-.
  assert (wf_Core (core s)) as Hwfs by apply (co_wfs _ _ _ _ (st_coh _ _ _ _ _ _ _ _ _ HS)).
  destruct (condTest_spec L n a h s bits HS Ht Hl) as ([l t] & a1 & h1 & Hf1 & Hx1 & Hno & HS1 & Hpf); [lia|].
  cbn [snd] in HS1. set (cond := testCondition (core s) (toCondition (Inst.cond bits))) in *.
  assert (temporary ((mReg t, NO_OFFSET) :: L)) as Ht1.
  { intros i o [[= -> ->]|Hin]%elem_of_cons; [done|]. by apply (Ht i o). }
  set (L1 := (mReg t, NO_OFFSET) :: L) in *. assert (length L1 <= 2)%nat as Hl1 by (cbn [length L1]; lia).
  destruct (ins_spec a1 L1 _ Jpe [JitAsm.L l] (st_holds _ _ _ _ _ _ _ _ _ HS1)) as (a2 & Hf2 & HL2 & Hs2 & Hc2);
    [by repeat constructor|cbn [length]; lia|cbn [length]; lia|]. cbn [map concat length opOf] in *.
  assert (currentPC a2 = currentPC a) as Epc.
  { destruct Hs2 as [-> _], Hx1 as [-> _]. done. }
  set (off := signExtend 21 (Inst._5_23 bits ≪ 2)).
  destruct (insertEndOfBlock_code gBlockMap (u64 (currentPC a2 + off)) L1 a2 _ HL2 Ht1
    (noCache_same _ _ Hno Hs2)) as (a3 & b & Hf3 & HL3 & Hs3 & Hc3 & Hb); [lia|lia|].
  set (a4 := set_code (code a3 ++ [Bind l]) a3).
  set (k := write64ImmToMem coreNextPCMem (u64 (currentPC a2 + 4));; release t).
  assert (JitBranch.condBranch gBlockMap bits a = k a4) as Ek.
  { rewrite condBranch_assoc. rewrite (J_bind_some _ _ _ _ _ Hf1). cbn beta iota.
    rewrite (J_bind_some _ _ _ _ _ Hf2). rewrite (J_bind_some getAsm _ a2 a2 a2) by done.
    by rewrite (J_bind_some _ _ _ _ _ Hf3). }
  assert (St [fPC; fNextPC] L1 [] [] None (n + 30 + 1) a2 h1 s) as HS2 by (by eapply St_same').
  assert (St [fPC; fNextPC] L1 [] [] None (n + 30 + 1 + 5) a4 h1 s) as HS4.
  { eapply St_same'; [exact HS2|by apply holds_code|exact Hs3]. }
  (* what follows the label *)
  assert (wp k a4 h1 (fun _ a' h' =>
    St [fPC] L [] [] None (n + 200) a' h' (setField fNextPC (u64 (currentPC a2 + 4)) s))) as Hk.
  { unfold k, coreNextPCMem. wgoal. eapply wp_conseq.
    { apply (wp_write64 _ [fPC] _ _ _ _ _ _ _ _ fNextPC (u64 (currentPC a2 + 4)) HS4);
        [solve_field|done|by apply wrap_uint|left; solve_uncacheable| |lia|lia].
      intros f [->|Hf]%elem_of_cons; [by apply list_elem_of_further, list_elem_of_here|].
      apply list_elem_of_singleton in Hf as ->. apply list_elem_of_here. }
    intros [] a5 h5 [HS5 _]. wgoal. eapply St_forget; [eassumption|lia]. }
  destruct Hk as ([] & a5 & h5 & Hf5 & (Hpc5 & l5 & Hc5 & Hr5) & HS5).
  destruct Hx1 as (_ & l1 & Hc1 & Hr1).
  assert (code a5 = code a ++ l1 ++ [Ins Jpe [OLabel l]] ++ b ++ [Bind l] ++ l5) as Hcode.
  { rewrite Hc5. unfold a4. cbn [code set_code]. by rewrite Hc3, Hc2, Hc1, <-!app_assoc. }
  rewrite Epc in *. unfold InterpBranch.condBranch. cbn [core set_core setField].
  change (testCondition (set_nextPC _ (set_PC _ (core s))) ?c) with (testCondition (core s) c).
  fold cond. destruct cond eqn:Econd; cbn [negb] in Hpf.
  - left. destruct (insertEndOfBlock_leaves gBlockMap (u64 (currentPC a + off)) L1 [] [] None _ a2 h1 s HS2 Ht1)
      as (a3' & b' & p & h' & Hf3' & Hc3' & Hr3 & Hexit & Hagree); [lia|lia|by apply wrap_uint|].
    assert (a3' = a3) as -> by congruence.
    assert (b' = b) as ->.
    { rewrite Hc3 in Hc3'. by apply app_inv_head in Hc3'. }
    exists a5, (l1 ++ [Ins Jpe [OLabel l]] ++ b ++ [Bind l] ++ l5), p, h'. split_and!; [by rewrite Ek|done| | |].
    + intros rest. rewrite <-!app_assoc, Hr1. cbn [app run]. rewrite Hpf. apply Hr3.
    + exact Hexit.
    + eapply agree_same; [|exact Hagree]. done.
  - right. exists tt, a5, h5. split_and!; [by rewrite Ek| |].
    + split; [rewrite Hpc5; unfold a4; cbn [currentPC set_code]; by rewrite (proj1 Hs3)|]. exists (l1 ++ [Ins Jpe [OLabel l]] ++ b ++ [Bind l] ++ l5). split; [done|].
      intros rest. rewrite <-!app_assoc, Hr1. cbn [app run]. rewrite Hpf, run_skip by done.
      cbn [run]. by rewrite Nat.eqb_refl, Hr5.
    + apply (St_stale _ _ _ _ _ _ _ _ _ fPC (currentPC a)) in HS5;
        [|solve_field|apply list_elem_of_here|solve_uncacheable|by intros _].
      rewrite zeroed_id; [|exact (co_wfs _ _ _ _ (st_coh _ _ _ _ _ _ _ _ _ HS5))|done].
      eapply (St_moreX [fPC]); [exact HS5|intros f ->%list_elem_of_singleton; in_list].
Qed.

(** ** Whole blocks *)

(** The interpreter on the words of a block, from [pc] on: each word but the last goes
    on with the next. *)
Inductive interpRun : Z -> list Z -> Machine Mem -> Machine Mem -> Prop :=
  | run_last pc bits s s1 : interpHandler pc bits s = Ok (tt, s1) ->
      interpRun pc [bits] s (zeroed s1)
  | run_next pc bits words s s1 s2 : interpHandler pc bits s = Ok (tt, s1) ->
      nextPC (core s1) = u64 (pc + 4) -> interpRun (u64 (pc + 4)) words (zeroed s1) s2 ->
      interpRun pc (bits :: words) s s2.

(** The function [generateInst] calls. *)
Definition handlerOf (gBlockMap : gmap Z JitCode) (bits : Z) : J unit :=
  match (if instructionID.eqb (id (decode bits)) instructionID.INVALID then None
         else gInstructionMap gBlockMap (id (decode bits))) with
  | Some f => f bits
  | None => FALLBACK bits
  end.

Lemma wp_emit_nop X L V G F n a h s : St X L V G F n a h s ->
  wp (emit Nop []) a h (fun _ a' h' => St X L V G F n a' h' s).
Proof.
  intros HS. exists tt, (set_code (code a ++ [Ins Nop []]) a), h. split; [done|]. split.
  - split; [done|]. by exists [Ins Nop []].
  - eapply St_same'; [exact HS|apply holds_code; exact (st_holds _ _ _ _ _ _ _ _ _ HS)|].
    exact (sameRegs_refl a).
Qed.

Lemma St_currentPC X L V G F n a h s c : St X L V G F n a h s -> St X L V G F n (set_currentPC c a) h s.
Proof.
  intros [S1 S2 S3 S4 S5 S6]. constructor; try done; [by apply holds_currentPC|].
  destruct S2 as [C1 C2 C3 C4 C5 C6 C7 C8 C9 C10]. by constructor.
Qed.

(** Between two instructions the program counters and the zero register are stale. *)
Definition boundary L n a h s : Prop :=
  St [fPC; fNextPC; fGPRegs 31] L [] [] None n a h s /\ getX (core s) 31 = 0.

(** The beginning of [generateInst]. *)
Lemma wp_prologue L n a h s : boundary L n a h s -> (length L <= 1)%nat -> n + 4 <= NO_LRU_VALUE ->
  wp (emit Nop [];; write64ImmToMem (coreGPRegs 31) 0) a h (fun _ a' h' =>
    St [fPC; fNextPC] L [] [] None (n + 4) a' h' s).
Proof.
  intros [HS H31] Hl Hn. wgoal. eapply wp_conseq; [by eapply wp_emit_nop|]. intros [] a1 h1 HS1. cbv beta in HS1.
  pose proof (co_wfs _ _ _ _ (st_coh _ _ _ _ _ _ _ _ _ HS)) as Hwf.
  pose proof (zeroed_id s Hwf H31) as Ez. unfold zeroed in Ez.
  eapply wp_conseq.
  { apply (wp_write64 _ [fPC; fNextPC] _ _ _ _ _ _ _ _ (fGPRegs 31) 0 HS1);
      [by apply coreFields_GPRegs|done|done| | |lia|lia].
    - right. rewrite <-H31 at 1. apply (fieldSet_same (fGPRegs 31)); [by apply coreFields_GPRegs|done].
    - intros f Hf. apply (elem_of_app [fPC; fNextPC] [fGPRegs 31]) in Hf as [Hf|Hf]; [by right|].
      apply list_elem_of_singleton in Hf as ->. by left. }
  intros [] a2 h2 [HS2 _]. by rewrite Ez in HS2.
Qed.

(** A machine the interpreter reached is well formed. *)
Lemma interpHandler_good `{!GuestMemoryLaws Mem} pc bits s s' :
  environment_safe -> good s -> uint 64 pc -> interpHandler pc bits s = Ok (tt, s') -> good s'.
Proof.
  intros He (Hc & Hm & Ht) Hpc Hint.
  refine (proj1 (handlers_safe (id (decode bits)) He bits
    (setField fNextPC (u64 (pc + 4)) (setField fPC pc s)) tt s' _ Hint)).
  split; [|done]. cbn [core setField set_core fieldSet].
  apply wf_set_nextPC; [by apply wf_set_PC|by apply wrap_uint].
Qed.

Lemma good_zeroed `{!GuestMemoryLaws Mem} s : good s -> good (zeroed s).
Proof. intros (Hc & Hm & Ht). split; [|done]. by apply wf_setX. Qed.

Lemma zeroed_zero s : wf_Core (core s) -> getX (core (zeroed s)) 31 = 0.
Proof. intros Hc. by apply getX_setX_eq. Qed.

(** An instruction in the middle of a block. *)
Lemma generateInst_step gBlockMap L n a h s s' bits :
  boundary L n a h s -> temporary L -> (length L <= 1)%nat -> n + 300 <= NO_LRU_VALUE ->
  uint 64 (currentPC a) -> implements (handlerOf gBlockMap bits) bits ->
  interpHandler (currentPC a) bits s = Ok (tt, s') -> wf_Core (core s') ->
  exists a' h' l, generateInst false gBlockMap bits a = Some (tt, a') /\
    code a' = code a ++ l /\ (forall rest, run (l ++ rest) None h = run rest None h') /\
    currentPC a' = u64 (currentPC a + 4) /\ boundary L (n + 300) a' h' (zeroed s').
Proof.
  intros Hb Ht Hl Hn Hpc Himp Hint Hwf.
  destruct (wp_prologue L n a h s Hb Hl) as ([] & a1 & h1 & Hf1 & (Hp1 & l1 & Hc1 & Hr1) & HS1); [lia|].
  destruct (Himp L (n + 4) a1 h1 s s' HS1 Ht Hl) as ([] & a2 & h2 & Hf2 & (Hp2 & l2 & Hc2 & Hr2) & HS2);
    [lia|by rewrite Hp1|apply Hb|by rewrite Hp1|done|].
  exists (set_currentPC (u64 (currentPC a2 + 4)) a2), h2, (l1 ++ l2). split_and!.
  - unfold generateInst. cbv zeta. cbn [andb]. unfold mbind, J_bind in Hf1 |- *.
    destruct (emit Nop [] a) as [[[] b]|]; [|done]. rewrite Hf1. cbn [mret J_ret].
    unfold handlerOf in Hf2. change (DecodeSystem.inst (decode bits)) with bits. unfold mret, J_ret.
    by rewrite Hf2.
  - cbn [code set_currentPC]. by rewrite Hc2, Hc1, app_assoc.
  - intros rest. by rewrite <-app_assoc, Hr1, Hr2.
  - cbn [currentPC set_currentPC]. by rewrite Hp2, Hp1.
  - split; [|by apply zeroed_zero]. apply St_currentPC. eapply St_forget; [exact HS2|lia].
Qed.

(** The end of [generateCode]. *)
Definition epilogue (reg : GpRegister) : J unit :=
  envictAll;; ins Jmp [P blockFinale];; release reg.

Lemma agree_zeroed h s' : wf_Core (core s') -> agree h s' -> agree h (zeroed s').
Proof.
  intros Hwf [He Ha]. split; [exact He|]. intros v. rewrite Ha. unfold zeroed. rewrite setField_setField; [done| |done].
  by apply coreFields_GPRegs.
Qed.

Lemma epilogue_leaves reg n a h s :
  St [fPC; fGPRegs 31] [(mReg reg, NO_OFFSET)] [] [] None n a h s -> n + 10 <= NO_LRU_VALUE ->
  leaves (epilogue reg) a h (fun p h' => p = blockFinale /\ agree h' s).
Proof.
  intros HS Hn. unfold epilogue.
  assert (temporary [(mReg reg, NO_OFFSET)]) as Ht by (by intros i o [= -> ->]%list_elem_of_singleton).
  eapply leaves_bind; [by apply (wp_envictAll _ _ _ _ _ _ _ _ _ HS)|]. intros [] a1 h1 (HS1 & Hno & _).
  destruct (wp_jmp _ _ a1 h1 blockFinale (st_holds _ _ _ _ _ _ _ _ _ HS1)) as (a2 & Hf & HL2 & _ & Hcode & Hrun);
    [lia|cbn [length]; lia|].
  eexists _, _, _, _. split_and!; [by rewrite (J_bind_some _ _ _ _ _ Hf)|exact Hcode|exact Hrun|done|].
  by apply (coh_agree a1); [apply HS1|].
Qed.

Lemma grows_epilogue reg : grows (epilogue reg).
Proof.
  unfold epilogue. apply grows_bind; [apply grows_envictFrom|]. intros _.
  apply grows_bind; [apply grows_ins|]. intros _. apply grows_release.
Qed.

Lemma epilogue_ok reg a n : holds a [(mReg reg, NO_OFFSET)] n -> n + 10 <= NO_LRU_VALUE ->
  cok (epilogue reg) a (fun _ _ => True).
Proof.
  intros HL Hn. apply cok_bind. eapply cok_conseq.
  { eapply envictAll_ok; [exact HL|]. by intros i o [= -> ->]%list_elem_of_singleton. }
  intros [] b [HLb _]. apply cok_bind. eapply cok_conseq.
  { apply (ins_ok _ _ _ _ _ HLb); [by repeat constructor|cbn [length]; lia|cbn [length]; lia]. }
  intros [] c HLc. eapply cok_conseq; [eapply release_ok; exact HLc|done].
Qed.

(** The last instruction of a block, and what follows it. *)
Lemma generateInst_last gBlockMap reg n a h s s' bits :
  boundary [(mReg reg, NO_OFFSET)] n a h s -> n + 400 <= NO_LRU_VALUE ->
  uint 64 (currentPC a) -> finishes gBlockMap (handlerOf gBlockMap bits) bits ->
  interpHandler (currentPC a) bits s = Ok (tt, s') -> wf_Core (core s') ->
  leaves (generateInst false gBlockMap bits;; epilogue reg) a h (fun p h' =>
    exitOk gBlockMap s' p /\ agree h' (zeroed s')).
Proof.
  intros Hb Hn Hpc Hfin Hint Hwf. set (L := [(mReg reg, NO_OFFSET)]) in *.
  assert (temporary L) as Ht by (by intros i o [= -> ->]%list_elem_of_singleton).
  destruct (generateInst_runs false gBlockMap bits a L n (st_holds _ _ _ _ _ _ _ _ _ (proj1 Hb)) Ht)
    as ([] & c & Hfc & HLc); [by cbn|lia|].
  destruct (wp_prologue L n a h s Hb) as ([] & a1 & h1 & Hf1 & (Hp1 & l1 & Hc1 & Hr1) & HS1); [by cbn|lia|].
  assert (forall b, handlerOf gBlockMap bits a1 = Some (tt, b) -> 
    generateInst false gBlockMap bits a = Some (tt, set_currentPC (u64 (currentPC b + 4)) b)) as Hgen.
  { intros b Hb'. unfold generateInst. cbv zeta. cbn [andb]. unfold mbind, J_bind in Hf1 |- *.
    destruct (emit Nop [] a) as [[[] b0]|]; [|done]. rewrite Hf1.
    unfold handlerOf in Hb'. change (DecodeSystem.inst (decode bits)) with bits. unfold mret, J_ret.
    by rewrite Hb'. }
  destruct (Hfin L (n + 4) a1 h1 s s' HS1 Ht) as [Hleaves|Hwp];
    [by cbn|lia|by rewrite Hp1|apply Hb|by rewrite Hp1|done| |].
  - destruct Hleaves as (a2 & l2 & p & h2 & Hf2 & Hc2 & Hr2 & Hexit & Hagree).
    pose proof (Hgen a2 Hf2) as Hg. rewrite Hg in Hfc. injection Hfc as <-.
    destruct (epilogue_ok reg _ _ HLc) as ([] & d & Hfd & _); [lia|].
    destruct (grows_epilogue reg _ _ _ Hfd) as [l3 Hl3].
    exists d, (l1 ++ l2 ++ l3), p, h2. split_and!.
    + by rewrite (J_bind_some _ _ _ _ _ Hg).
    + rewrite Hl3. cbn [code set_currentPC]. by rewrite Hc2, Hc1, <-!app_assoc.
    + intros rest. by rewrite <-!app_assoc, Hr1.
    + done.
    + by apply agree_zeroed.
  - destruct Hwp as ([] & a2 & h2 & Hf2 & (_ & l2 & Hc2 & Hr2) & HS2).
    pose proof (Hgen a2 Hf2) as Hg.
    apply St_currentPC with (c := u64 (currentPC a2 + 4)) in HS2.
    destruct (epilogue_leaves reg _ _ _ _ HS2) as (d & l3 & p & h3 & Hf3 & Hc3 & Hr3 & -> & Hagree); [lia|].
    exists d, (l1 ++ l2 ++ l3), blockFinale, h3. split_and!.
    + by rewrite (J_bind_some _ _ _ _ _ Hg).
    + rewrite Hc3. cbn [code set_currentPC]. by rewrite Hc2, Hc1, <-!app_assoc.
    + intros rest. by rewrite <-!app_assoc, Hr1, Hr2.
    + by left.
    + done.
Qed.

(** A block the theorem covers: all words but the last as the interpreter has them, the
    last one too, or leaving as the interpreter does. *)
Fixpoint covered (gBlockMap : gmap Z JitCode) (words : list Z) : Prop :=
  match words with
  | [] => False
  | [bits] => finishes gBlockMap (handlerOf gBlockMap bits) bits
  | bits :: words => implements (handlerOf gBlockMap bits) bits /\ covered gBlockMap words
  end.

Lemma generateInsts_leaves `{!GuestMemoryLaws Mem} gBlockMap reg words : forall n a h s s',
  environment_safe -> covered gBlockMap words -> boundary [(mReg reg, NO_OFFSET)] n a h s -> good s ->
  uint 64 (currentPC a) -> n + 300 * Z.of_nat (length words) + 100 <= NO_LRU_VALUE ->
  interpRun (currentPC a) words s s' ->
  leaves (generateInsts false gBlockMap words;; epilogue reg) a h (fun p h' =>
    exitOk gBlockMap s' p /\ agree h' s').
Proof.
  induction words as [|bits words IH]; intros n a h s s' He Hcov Hb Hgood Hpc Hn Hrun; [by inversion Hrun|].
  assert (forall k, ((generateInst false gBlockMap bits;; generateInsts false gBlockMap words);; k : J unit) a =
    (generateInst false gBlockMap bits;; (generateInsts false gBlockMap words;; k)) a) as Hassoc.
  { intros k. unfold mbind, J_bind. by destruct (generateInst false gBlockMap bits a) as [[[] b]|]. }
  cbn [length] in Hn.
  inversion Hrun as [? ? ? s1 Hint|? ? ? ? s1 ? Hint Hnext Hrest]; subst.
  - pose proof (interpHandler_good _ _ _ _ He Hgood Hpc Hint) as (Hwf & _).
    destruct (generateInst_last gBlockMap reg n a h s s1 bits Hb) as (d & l & p & h' & Hf & Hc & Hr & HQ);
      [cbn in Hn; lia|done|done|done|done|].
    exists d, l, p, h'. split_and!; [|done|done|apply HQ|apply HQ].
    cbn [generateInsts]. rewrite Hassoc. exact Hf.
  - destruct words as [|w words]; [by inversion Hrest|]. destruct Hcov as [Himp Hcov].
    pose proof (interpHandler_good _ _ _ _ He Hgood Hpc Hint) as Hgood1.
    destruct (generateInst_step gBlockMap _ n a h s s1 bits Hb) as (a1 & h1 & l1 & Hf1 & Hc1 & Hr1 & Hp1 & Hb1);
      [by intros i o [= -> ->]%list_elem_of_singleton|by cbn|lia|done|done|done|apply Hgood1|].
    rewrite <-Hp1 in Hrest.
    destruct (IH (n + 300) a1 h1 (zeroed s1) s' He Hcov Hb1 (good_zeroed _ Hgood1))
      as (d & l2 & p & h2 & Hf2 & Hc2 & Hr2 & HQ); [rewrite Hp1; by apply wrap_uint|lia|done|].
    exists d, (l1 ++ l2), p, h2. split_and!; [| | |apply HQ|apply HQ].
    + cbn [generateInsts] in *. rewrite Hassoc. rewrite (J_bind_some _ _ _ _ _ Hf1). exact Hf2.
    + by rewrite Hc2, Hc1, app_assoc.
    + intros rest. by rewrite <-app_assoc, Hr1.
Qed.

Lemma wp_emitNops X L V G F n k : forall a h s, St X L V G F n a h s ->
  wp (emitNops k) a h (fun _ a' h' => St X L V G F n a' h' s).
Proof.
  induction k as [|k IH]; intros a h s HS; cbn [emitNops]; [by apply wp_ret|].
  wgoal. eapply wp_conseq; [by eapply wp_emit_nop|]. intros [] a1 h1 HS1. by apply IH.
Qed.

Lemma St_newAsm h c : entered h -> St [fGPRegs 31] [] [] [] None 0 (set_currentPC c newAsm) h (zeroed (machine h)).
Proof.
  intros [Hb Hu Hw].
  assert (noCache newAsm) as Hno.
  { intros i r Hi.
    change (mRegs newAsm) with (map (fun i => newHostReg GP (Z.of_nat i)) (seq 0 9)) in Hi.
    by apply list_lookup_fmap_Some in Hi as (j & -> & _). }
  apply St_currentPC, St_zeroed; [|exact Hno].
  constructor; try done.
  - apply holds_newAsm.
  - constructor; try done.
    + intros i r Hi Ho. by apply Hno in Hi.
    + intros i r f Hi _ Hf Ho. exfalso. apply (offsetof_ne f Hf). rewrite <-Ho. by eapply Hno.
  - intros i v Hin. by apply elem_of_nil in Hin.
  - constructor.
  - intros i f Hin. by apply elem_of_nil in Hin.
Qed.

(** The guest when a block of [k] words begins: its instructions are counted. *)
Definition counted (k : nat) s : Machine Mem :=
  setField fNumInsts (u64 (numInsts (core s) + Z.of_nat k)) (zeroed s).

Lemma generateCode_leaves `{!GuestMemoryLaws Mem} gBlockMap block words h s' :
  environment_safe -> covered gBlockMap words -> entered h -> good (machine h) ->
  uint 64 (start block) -> Z.shiftr (u64 (end_ block - start block)) 2 = Z.of_nat (length words) ->
  (length words <= 3000)%nat -> interpRun (start block) words (counted (length words) (machine h)) s' ->
  leaves (generateCode false gBlockMap block words) newAsm h (fun p h' =>
    exitOk gBlockMap s' p /\ agree h' s').
Proof.
  intros He Hcov Hent Hgood Hs Hsize Hlen Hrun. unfold generateCode. cbv zeta. rewrite Hsize.
  pose proof (St_newAsm h (start block) Hent) as HS.
  assert (leaves (emitNops 12;; reg ← allocGpTemp 8;
     ins Mov [H reg; JitAsm.M (mkMem stateReg (offsetof fNumInsts) 0)];;
     ins Add [H reg; I (Z.of_nat (length words))];;
     ins Mov [JitAsm.M (mkMem stateReg (offsetof fNumInsts) 0); H reg];;
     generateInsts false gBlockMap words;; epilogue reg) (set_currentPC (start block) newAsm) h (fun p h' =>
       exitOk gBlockMap s' p /\ agree h' s')) as Hl; [|exact Hl].
  eapply leaves_bind; [apply wp_pc; by eapply wp_emitNops|]. intros [] a1 h1 [Hp1 HS1]. cbv beta in HS1.
  eapply leaves_bind; [apply wp_pc; eapply (wp_allocGpTemp _ _ _ _ _ _ _ _ _ 8 HS1); cbn; lia|].
  intros t a2 h2 (Hp2 & Ht1 & Ht2 & v & Hv & HS2).
  eapply leaves_bind; [apply wp_pc|].
  { eapply (wp_alu_temp _ _ [] [] _ _ _ _ _ _ Mov 8 t v (H t) (JitAsm.M (mkMem stateReg (offsetof fNumInsts) 0)) _ HS2);
      [exact Logic.I|lia|by apply dest_handle|done| |unfold NO_LRU_VALUE; lia|cbn; lia].
    apply (reads_mem _ _ _ _ _ _ fNumInsts); [solve_field|solve_uncacheable|solve_notin|done..]. }
  intros [] a3 h3 [Hp3 HS3]. cbn [app] in HS3.
  assert (immOk Add 8 (Z.of_nat (length words)) = true) as Hok.
  { unfold immOk. apply orb_true_iff. left. apply orb_true_iff. right. apply Z.eqb_eq.
    rewrite <-(u64_id (Z.of_nat (length words))) at 1 by (unfold uint; lia).
    by rewrite to_signed_small by lia. }
  eapply leaves_bind; [apply wp_pc|].
  { eapply (wp_alu_temp _ _ [] [] _ _ _ _ _ _ Add 8 t _ (H t) (I (Z.of_nat (length words))) _ HS3);
      [exact Logic.I|lia|by apply dest_handle|done|by apply reads_imm|unfold NO_LRU_VALUE; lia|cbn; lia]. }
  intros [] a4 h4 [Hp4 HS4]. cbn [app] in HS4.
  assert (uint 64 (numInsts (core (machine h)))) as Hni by (apply wf_numInsts, Hgood).
  assert (alu Add 8 (alu Mov 8 v (fieldGet fNumInsts (core (zeroed (machine h)))))
    (wrap (8 * 8) (Z.of_nat (length words))) = u64 (numInsts (core (machine h)) + Z.of_nat (length words))) as Ev.
  { rewrite val_add, alu_mov8. cbn [fieldGet]. by rewrite u64_add_l. }
  rewrite Ev in HS4.
  eapply leaves_bind; [apply wp_pc|].
  { eapply (wp_store _ [fGPRegs 31] _ _ _ _ _ _ _ _ fNumInsts _ (H t)
      (u64 (numInsts (core (machine h)) + Z.of_nat (length words))) HS4);
      [solve_field|solve_uncacheable|done|done|cbn [opOf opOfHandle opSize gpSize]; by rewrite Ht1| | |
       intros f Hf; by right|unfold NO_LRU_VALUE; lia|cbn; lia].
    - set (x := u64 (numInsts (core (machine h)) + Z.of_nat (length words))).
      pose proof (reads_handle [fGPRegs 31] [(mReg t, x)] [] (zeroed (machine h)) Mov 8 t x) as Hr.
      rewrite (wrap8_id x) in Hr by (by apply wrap_uint). apply Hr; [left; in_list|done|done].
    - intros _. by apply wrap_uint. }
  intros [] a5 h5 [Hp5 HS5]. cbv beta in HS5.
  assert (currentPC a5 = start block) as Hpc by (by rewrite Hp5, Hp4, Hp3, Hp2, Hp1).
  eapply (generateInsts_leaves gBlockMap t words (0 + 2 + 2 + 2) a5 h5 (counted (length words) (machine h)) s' He Hcov).
  - split; [|apply (zeroed_zero (machine h)), Hgood]. eapply St_moreX; [eapply St_forget; [exact HS5|apply Z.le_refl]|].
    intros f ->%list_elem_of_singleton. in_list.
  - pose proof (good_zeroed _ Hgood) as (Hc & Hm & Htm). split; [|done].
    apply wf_set_numInsts; [done|by apply wrap_uint].
  - by rewrite Hpc.
  - unfold NO_LRU_VALUE. lia.
  - rewrite Hpc. exact Hrun.
Qed.

(** ** Which words are covered *)

(** The instructions that have code of their own. *)
Definition nativeIDs : list instructionID.t :=
  [instructionID.B_cond; instructionID.BR; instructionID.BLR; instructionID.RET; instructionID.B;
   instructionID.BL; instructionID.SVC; instructionID.HINT; instructionID.NOP; instructionID.YIELD;
   instructionID.WFE; instructionID.WFI; instructionID.SEV; instructionID.SEVL; instructionID.ISB;
   instructionID.ADR; instructionID.ADRP; instructionID.ADD_32_imm; instructionID.ADDS_32_imm;
   instructionID.SUB_32_imm; instructionID.SUBS_32_imm; instructionID.ADD_64_imm;
   instructionID.ADDS_64_imm; instructionID.SUB_64_imm; instructionID.SUBS_64_imm;
   instructionID.MOVN_32; instructionID.MOVZ_32; instructionID.MOVK_32; instructionID.MOVN_64;
   instructionID.MOVZ_64; instructionID.MOVK_64; instructionID.ORR_32_shifted;
   instructionID.ADD_32_shifted; instructionID.LDP64_post; instructionID.STP64_pre;
   instructionID.STR32_imm; instructionID.LDR32_imm; instructionID.STR64_imm; instructionID.LDR64_imm].

Definition fallsBack (i : instructionID.t) : bool := negb (existsb (instructionID.eqb i) nativeIDs).

Ltac native_table :=
  lazymatch goal with |- Forall _ ?l => let h := head_of l in unfold h end;
  repeat lazymatch goal with
  | |- Forall _ [] => apply Forall_nil; exact Logic.I
  | |- Forall _ ((_, FALLBACK) :: _) => apply Forall_cons; split; [exact (fun _ => eq_refl)|]
  | |- Forall _ (_ :: _) => apply Forall_cons; split; [intros Hf; vm_compute in Hf; discriminate Hf|]
  end.

Lemma registered_native gBlockMap :
  Forall (fun r => fallsBack (fst r) = true -> snd r = FALLBACK) (init_registrations gBlockMap).
Proof.
  unfold init_registrations.
  apply Forall_app; split; [native_table|].
  apply Forall_app; split; [native_table|].
  apply Forall_app; split; [native_table|].
  apply Forall_app; split; [native_table|].
  apply Forall_app; split; native_table.
Qed.

(** A property of the functions registered for an instruction is one of its function. *)
Lemma registered_at (P : jitfptr_t -> Prop) i l : forall g,
  Forall (fun r => fst r = i -> P (snd r)) l -> (forall f, g = Some f -> P f) ->
  forall f, fold_left (fun f r => if instructionID.eqb (fst r) i then Some (snd r) else f) l g = Some f -> P f.
Proof.
  induction l as [|r l IH]; intros g Hl Hg f; simpl; [apply Hg|].
  apply Forall_cons in Hl as [Hr Hl]. apply (IH _ Hl). intros h.
  destruct (instructionID.eqb (fst r) i) eqn:E; [|apply Hg]. apply eqb_true in E.
  intros [= <-]. exact (Hr E).
Qed.

Lemma handlerOf_fallsBack gBlockMap bits :
  fallsBack (id (decode bits)) = true -> handlerOf gBlockMap bits = FALLBACK bits.
Proof.
  intros Hf. unfold handlerOf. destruct (instructionID.eqb _ _); [reflexivity|].
  destruct (gInstructionMap gBlockMap (id (decode bits))) as [f|] eqn:E; [|reflexivity].
  assert (f = FALLBACK) as ->; [|reflexivity].
  refine (registered_at (fun f => f = FALLBACK) (id (decode bits)) (init_registrations gBlockMap) None _ _ f E);
    [|discriminate].
  eapply Forall_impl; [apply registered_native|]. intros r Hr Ei. apply Hr. rewrite Ei. exact Hf.
Qed.

(** *** The function of an instruction *)

Definition isAddSubImm (i : instructionID.t) : bool :=
  existsb (instructionID.eqb i)
    [instructionID.ADD_32_imm; instructionID.SUB_32_imm; instructionID.ADD_64_imm; instructionID.SUB_64_imm].
Definition isAddSubImmFlags (i : instructionID.t) : bool :=
  existsb (instructionID.eqb i)
    [instructionID.ADDS_32_imm; instructionID.SUBS_32_imm; instructionID.ADDS_64_imm; instructionID.SUBS_64_imm].
Definition isMove32 (i : instructionID.t) : bool :=
  existsb (instructionID.eqb i) [instructionID.MOVN_32; instructionID.MOVZ_32; instructionID.MOVK_32].
Definition isMove64 (i : instructionID.t) : bool :=
  existsb (instructionID.eqb i) [instructionID.MOVN_64; instructionID.MOVZ_64; instructionID.MOVK_64].
Definition isAddress (i : instructionID.t) : bool :=
  existsb (instructionID.eqb i) [instructionID.ADR; instructionID.ADRP].
Definition isNop (i : instructionID.t) : bool :=
  existsb (instructionID.eqb i)
    [instructionID.HINT; instructionID.NOP; instructionID.YIELD; instructionID.WFE; instructionID.WFI;
     instructionID.SEV; instructionID.SEVL; instructionID.ISB].

Definition flagsSafeb (bits : Z) : bool :=
  (Inst.Rd bits =? 31) || (Inst.Rn bits =? 31) || (Inst.Rd bits !=? Inst.Rn bits).
Definition shiftHandledb (bits : Z) : bool := (Inst.shift bits <=? 1) || (Inst._10_15 bits =? 0).

(** The words whose code does what the interpreter does, in the middle of a block. *)
Definition plainWord (bits : Z) : bool :=
  let i := id (decode bits) in
  fallsBack i || isNop i || isAddSubImm i || (isAddSubImmFlags i && flagsSafeb bits) ||
  (isAddress i && (Inst.Rd bits !=? 31)) ||
  (isMove32 i && (Inst.Rd bits !=? 31) && (Inst.hw bits <=? 1)) ||
  (isMove64 i && (Inst.Rd bits !=? 31)) ||
  (instructionID.eqb i instructionID.ORR_32_shifted && (Inst.Rd bits !=? 31) &&
   (bitRange 29 30 bits =? 1) && shiftHandledb bits) ||
  (instructionID.eqb i instructionID.ADD_32_shifted && (Inst.Rd bits !=? 31) && shiftHandledb bits).

(** The words whose code leaves a block as the interpreter does. *)
Definition endWord (bits : Z) : bool :=
  let i := id (decode bits) in
  fallsBack i ||
  existsb (instructionID.eqb i)
    [instructionID.B_cond; instructionID.BR; instructionID.RET; instructionID.B; instructionID.BL] ||
  (instructionID.eqb i instructionID.BLR && (Inst.Rn bits !=? 30)).

Fixpoint coveredWords (words : list Z) : bool :=
  match words with
  | [] => false
  | [bits] => endWord bits
  | bits :: words => plainWord bits && coveredWords words
  end.

Lemma existsb_eqb i l : existsb (instructionID.eqb i) l = true -> i ∈ l.
Proof.
  intros (j & Hj & E%eqb_true)%existsb_exists. apply list_elem_of_In. by rewrite E.
Qed.

Lemma handlerOf_at gBlockMap bits i f :
  id (decode bits) = i -> instructionID.eqb i instructionID.INVALID = false ->
  gInstructionMap gBlockMap i = Some f -> handlerOf gBlockMap bits = f bits.
Proof. intros E Hi Hf. unfold handlerOf. rewrite E, Hi, Hf. reflexivity. Qed.

(** The two tables at the instruction [E] names. *)
Ltac at_id E :=
  erewrite handlerOf_at; [|exact E|reflexivity|reflexivity].
Ltac each_id Hi :=
  apply existsb_eqb in Hi;
  repeat (apply elem_of_cons in Hi as [Hi|Hi]); [..|by apply elem_of_nil in Hi].

Lemma nops_implement gBlockMap bits :
  isNop (id (decode bits)) = true -> implements (handlerOf gBlockMap bits) bits.
Proof. intros Hi. each_id Hi. all: at_id Hi; apply nop_implements; rewrite Hi; reflexivity. Qed.

Lemma addSubImm_implements gBlockMap bits :
  isAddSubImm (id (decode bits)) = true -> implements (handlerOf gBlockMap bits) bits.
Proof. intros Hi. each_id Hi. all: at_id Hi; apply addSubImmGeneric_implements; rewrite Hi; reflexivity. Qed.

Lemma flagsSafeb_spec bits : flagsSafeb bits = true -> flagsSafe bits.
Proof.
  unfold flagsSafeb, flagsSafe. intros [[Hf|Hf]%orb_true_iff|Hf]%orb_true_iff.
  - left. by apply Z.eqb_eq.
  - right. left. by apply Z.eqb_eq.
  - right. right. by apply Z.eqb_neq, negb_true_iff.
Qed.

Lemma shiftHandledb_spec bits : shiftHandledb bits = true -> shiftHandled bits.
Proof.
  unfold shiftHandledb, shiftHandled. intros [Hs|Hs]%orb_true_iff; [|right; right; by apply Z.eqb_eq].
  apply Z.leb_le in Hs. pose proof (bitRange_uint 22 23 bits ltac:(lia)) as [Hu _].
  assert (Inst.shift bits = 0 \/ Inst.shift bits = 1) as [-> | ->] by (unfold Inst.shift in *; lia).
  - by left.
  - right. by left.
Qed.

Lemma addSubImmFlags_implements gBlockMap bits :
  isAddSubImmFlags (id (decode bits)) = true -> flagsSafeb bits = true ->
  implements (handlerOf gBlockMap bits) bits.
Proof.
  intros Hi Hs%flagsSafeb_spec. each_id Hi.
  all: at_id Hi; apply addSubImmGeneric_flags_implements; [rewrite Hi; reflexivity|exact Hs].
Qed.

Lemma address_implements gBlockMap bits :
  isAddress (id (decode bits)) = true -> Inst.Rd bits <> 31 -> implements (handlerOf gBlockMap bits) bits.
Proof.
  intros Hi Hd. each_id Hi. all: at_id Hi; apply PCRelativeGeneric_implements; [rewrite Hi; reflexivity|exact Hd].
Qed.

Lemma move32_implements gBlockMap bits :
  isMove32 (id (decode bits)) = true -> Inst.Rd bits <> 31 -> Inst.hw bits <= 1 ->
  implements (handlerOf gBlockMap bits) bits.
Proof.
  intros Hi Hd Hh. each_id Hi.
  all: at_id Hi; apply moveWideImmGeneric_implements; [rewrite Hi; reflexivity|exact Hd|right; exact Hh].
Qed.

Lemma move64_implements gBlockMap bits :
  isMove64 (id (decode bits)) = true -> Inst.Rd bits <> 31 -> implements (handlerOf gBlockMap bits) bits.
Proof.
  intros Hi Hd. each_id Hi.
  all: at_id Hi; apply moveWideImmGeneric_implements; [rewrite Hi; reflexivity|exact Hd|left; reflexivity].
Qed.

Lemma neb_ne x y : x !=? y = true -> x <> y.
Proof. intros E. by apply Z.eqb_neq, negb_true_iff. Qed.

Lemma plainWord_implements gBlockMap bits :
  countersElsewhere -> uint 32 bits -> plainWord bits = true -> implements (handlerOf gBlockMap bits) bits.
Proof.
  intros Hctr Hb Hp. unfold plainWord in Hp. cbv zeta in Hp.
  rewrite !orb_true_iff, !andb_true_iff in Hp.
  destruct Hp as [[[[[[[[Hi|Hi]|Hi]|[Hi Hs]]|[Hi Hd%neb_ne]]|[[Hi Hd%neb_ne] Hh%Z.leb_le]]|[Hi Hd%neb_ne]]|
    [[[Hi%eqb_true Hd%neb_ne] Hop%Z.eqb_eq] Hs%shiftHandledb_spec]]|[[Hi%eqb_true Hd%neb_ne] Hs%shiftHandledb_spec]].
  - rewrite handlerOf_fallsBack by exact Hi. apply FALLBACK_implements; [exact Hctr|exact Hb].
  - apply nops_implement. exact Hi.
  - apply addSubImm_implements. exact Hi.
  - apply addSubImmFlags_implements; [exact Hi|exact Hs].
  - apply address_implements; [exact Hi|exact Hd].
  - apply move32_implements; [exact Hi|exact Hd|exact Hh].
  - apply move64_implements; [exact Hi|exact Hd].
  - at_id Hi. apply orr32Shifted_implements; [rewrite Hi; reflexivity|exact Hd|exact Hop|exact Hs].
  - at_id Hi. apply add32Shifted_implements; [rewrite Hi; reflexivity|exact Hd|exact Hs].
Qed.

Lemma endWord_finishes gBlockMap bits :
  countersElsewhere -> uint 32 bits -> endWord bits = true ->
  finishes gBlockMap (handlerOf gBlockMap bits) bits.
Proof.
  intros Hctr Hb Hp. unfold endWord in Hp. cbv zeta in Hp. rewrite !orb_true_iff, andb_true_iff in Hp.
  destruct Hp as [[Hi|Hi]|[Hi%eqb_true Hn%neb_ne]].
  - rewrite handlerOf_fallsBack by exact Hi. apply FALLBACK_finishes; [exact Hctr|exact Hb].
  - each_id Hi; at_id Hi.
    + apply condBranch_finishes. rewrite Hi. reflexivity.
    + apply uncondBranchReg_finishes; [rewrite Hi; reflexivity|by left].
    + apply uncondBranchReg_finishes; [rewrite Hi; reflexivity|by left].
    + apply uncondBranchImm_finishes. rewrite Hi. reflexivity.
    + apply uncondBranchImm_finishes. rewrite Hi. reflexivity.
  - at_id Hi. apply uncondBranchReg_finishes; [rewrite Hi; reflexivity|right; exact Hn].
Qed.

Lemma coveredWords_covered gBlockMap words :
  countersElsewhere -> Forall (uint 32) words -> coveredWords words = true -> covered gBlockMap words.
Proof.
  intros Hctr. induction words as [|bits words IH]; intros Hw Hc; [discriminate Hc|].
  apply Forall_cons in Hw as [Hb Hw]. destruct words as [|w words].
  - apply endWord_finishes; [exact Hctr|exact Hb|exact Hc].
  - cbn [coveredWords] in Hc. apply andb_true_iff in Hc as [Hp Hc]. split.
    + apply plainWord_implements; [exact Hctr|exact Hb|exact Hp].
    + apply IH; [exact Hw|exact Hc].
Qed.
End Rules.
