(* ===== verification/JitRun.v ===== *)
(** * The compiler runs the program the interpreter runs

    [step] of the compiler, as a whole: the block at the program counter is found,
    compiled, put into the runtime, entered, left for linked blocks and left for good; the
    guest is then in the state in which the interpreter leaves those blocks. *)
From S2P Require Import Prelude BitUtils Instructions DecodeSystem Decode Core InstUtils.
From S2P Require Import Machine Memory MemoryInv Float Interp InterpWf StepSpec JitAsm JitInsts Jit JitAllocSpec JitSpec JitRepr JitRefine.

Section Run.
Context {Mem : Type} `{!GuestMemory Mem} `{!CpuHooks Mem} `{!ShiftTarget} `{!HostFloat}.
Context `{!CoreLayout} `{!CoreLayoutLaws} `{!HostCpu} `{!AsmRuntime}.

Implicit Types (h : HostState Mem) (s : Machine Mem) (blocks : gmap Z (list Z)).

(** ** Blocks in the interpreter *)

(** The interpreter on the words of a block at [pc]. *)
Fixpoint interpWords (pc : Z) (words : list Z) s : result (Machine Mem) :=
  match words with
  | [] => Err Undefined
  | bits :: rest =>
      '(_, s1) ← interpHandler pc bits s;
      match rest with
      | [] => Ok (zeroed s1)
      | _ => if nextPC (core s1) =? u64 (pc + 4)
             then interpWords (u64 (pc + 4)) rest (zeroed s1) else Err Undefined
      end
  end.

Lemma interpWords_run words : forall pc s s', interpWords pc words s = Ok s' -> interpRun pc words s s'.
Proof.
  induction words as [|bits words IH]; intros pc s s' Hw; [discriminate Hw|]. cbn [interpWords] in Hw.
  destruct (interpHandler pc bits s) as [[[] s1]|] eqn:E; [|discriminate Hw]. cbn [mbind result_bind] in Hw.
  destruct words as [|w words]; [injection Hw as <-; by constructor|].
  destruct (Z.eqb_spec (nextPC (core s1)) (u64 (pc + 4))) as [Hn|]; [|discriminate Hw].
  eapply run_next; [exact E|exact Hn|by apply IH].
Qed.

(** The block at the program counter, from the words it was compiled from; its
    instructions are counted first. *)
Definition interpBlock blocks s : result (Machine Mem) :=
  match blocks !! PC (core s) with
  | None => Err Undefined
  | Some words =>
      s' ← interpWords (PC (core s)) words (counted (length words) s);
      Ok (setField fPC (nextPC (core s')) s')
  end.

(** [n] blocks in turn. *)
Fixpoint interpBlocks (n : nat) blocks s : result (Machine Mem) :=
  match n with
  | O => Ok s
  | S n => s' ← interpBlock blocks s; interpBlocks n blocks s'
  end.

(** The interpreter comes through every block it reaches. *)
Definition comesThrough blocks s : Prop :=
  forall n s1, interpBlocks n blocks s = Ok s1 -> is_Some (blocks !! PC (core s1)) ->
    exists s2, interpBlock blocks s1 = Ok s2.

Lemma comesThrough_next blocks s s1 :
  comesThrough blocks s -> interpBlock blocks s = Ok s1 -> comesThrough blocks s1.
Proof. intros Hc Hs1 n s2 Hn. apply (Hc (S n)). cbn [interpBlocks]. by rewrite Hs1. Qed.

(** The words of the block at [addr]. *)
Definition fetchBlock (m : Mem) (addr : Z) : result (list Z) :=
  b ← findBlockEnd m (newJitBlock addr);
  fetchWords (Z.to_nat (end_ b - start b)) m (start b) (end_ b).

(** The blocks after [get] of [addr]. *)
Definition blocksAfter (m : Mem) (js : JitState) blocks (addr : Z) : result (gmap Z (list Z)) :=
  match gBlockMap js !! addr with
  | Some _ => Ok blocks
  | None => words ← fetchBlock m addr; Ok (<[addr := words]> blocks)
  end.

(** *** What a block depends on *)

Lemma counted_same k s s1 : sameGuest s s1 -> forall v,
  setField fPC v (counted k s) = setField fPC v (counted k s1).
Proof.
  intros Hs v. assert (numInsts (core s) = numInsts (core s1)) as E.
  { change (numInsts (core (setField fPC 0 (zeroed s))) = numInsts (core (setField fPC 0 (zeroed s1)))).
    by rewrite (Hs 0). }
  unfold counted. rewrite E. set (x := u64 _).
  change (setField fPC v (setField fNumInsts x (zeroed s))) with (setField fNumInsts x (setField fPC v (zeroed s))).
  by rewrite (Hs v).
Qed.

Lemma interpWords_same pc words s s1 : (forall v, setField fPC v s = setField fPC v s1) ->
  interpWords pc words s = interpWords pc words s1.
Proof.
  intros Hs. destruct words as [|bits words]; [reflexivity|]. cbn [interpWords].
  unfold interpHandler. by rewrite (Hs pc).
Qed.

Lemma sameGuest_refl s : sameGuest s s.
Proof. by intros v. Qed.

(** ** The words of a block *)

Lemma fetchWords_uint `{!GuestMemoryLaws Mem} m end_ fuel : forall addr words,
  mem_typed m -> fetchWords fuel m addr end_ = Ok words -> Forall (uint 32) words.
Proof.
  induction fuel as [|fuel IH]; intros addr words Hm Hf; cbn [fetchWords] in Hf.
  { destruct (addr <? end_); [discriminate Hf|]. injection Hf as <-. by apply Forall_nil. }
  destruct (addr <? end_); [|injection Hf as <-; by apply Forall_nil].
  destruct (mread 4 addr m) as [w|] eqn:Ew; [|discriminate Hf]. cbn [mbind result_bind] in Hf.
  destruct (fetchWords fuel m _ end_) as [ws|] eqn:Ef; [|discriminate Hf]. injection Hf as <-.
  apply Forall_cons; split; [|by eapply IH]. by eapply (mread_uint 4).
Qed.

Lemma blockEnd_words m b addr words :
  uint 64 addr -> blockEnd m addr (Ok b) ->
  fetchWords (Z.to_nat (end_ b - start b)) m (start b) (end_ b) = Ok words -> words <> [] ->
  start b = addr /\ Z.shiftr (u64 (end_ b - start b)) 2 = Z.of_nat (length words).
Proof.
  intros Ha Hend Hf Hne. destruct Hend as [(k & w & Hk & _ & _ & _ & ->)|[_ ->]].
  2: { change (fetchWords (Z.to_nat (addr - addr)) m addr addr = Ok words) in Hf.
       rewrite Z.sub_diag in Hf. change (Z.to_nat 0) with O in Hf. cbn [fetchWords] in Hf.
       rewrite (proj2 (Z.ltb_ge addr addr)) in Hf by lia. injection Hf as <-. by destruct Hne. }
  cbn [start end_] in *. split; [done|]. unfold uint in Ha.
  destruct (decide (addr + 4 * Z.of_nat (S k) < 2 ^ 64)) as [Hw|Hw].
  - rewrite (u64_id (addr + _)) in * by (unfold uint; lia).
    pose proof (fetchWords_spec (S k) (Z.to_nat (addr + 4 * Z.of_nat (S k) - addr)) m addr) as Hspec.
    rewrite Hf in Hspec. destruct Hspec as [-> _]; [lia..|].
    pose proof (next_count addr (S k)) as Hc. rewrite (u64_id (addr + _)) in Hc by (unfold uint; lia).
    apply Hc. lia.
  - exfalso. apply Hne. assert (u64 (addr + 4 * Z.of_nat (S k)) <= addr) as Hle.
    { unfold u64, wrap. rewrite <-(Z.mod_unique_pos (addr + 4 * Z.of_nat (S k)) (2 ^ 64) 1
        (addr + 4 * Z.of_nat (S k) - 2 ^ 64)) by lia. lia. }
    destruct (Z.to_nat (u64 (addr + 4 * Z.of_nat (S k)) - addr)); cbn [fetchWords] in Hf;
      rewrite (proj2 (Z.ltb_ge addr _)) in Hf by lia; by injection Hf.
Qed.

Lemma fetchBlock_end m addr words :
  fetchBlock m addr = Ok words ->
  exists b, findBlockEnd m (newJitBlock addr) = Ok b /\
    fetchWords (Z.to_nat (end_ b - start b)) m (start b) (end_ b) = Ok words.
Proof.
  unfold fetchBlock. generalize (findBlockEnd m (newJitBlock addr)). intros [b|e] Hf; [|discriminate Hf].
  by exists b.
Qed.

Lemma fetchBlock_spec m addr words :
  uint 64 addr -> fetchBlock m addr = Ok words -> words <> [] ->
  exists b, findBlockEnd m (newJitBlock addr) = Ok b /\ start b = addr /\
    fetchWords (Z.to_nat (end_ b - start b)) m (start b) (end_ b) = Ok words /\
    Z.shiftr (u64 (end_ b - start b)) 2 = Z.of_nat (length words) /\ (length words <= 3000)%nat.
Proof.
  intros Ha Hf Hne. apply fetchBlock_end in Hf as (b & Hb & Hf).
  pose proof (findBlockEnd_spec' m addr Ha) as Hend. rewrite Hb in Hend.
  pose proof (block_words m b addr Ha Hb) as Hlen. rewrite Hf in Hlen.
  destruct (blockEnd_words m b addr words Ha Hend Hf Hne) as [Hs Hc].
  exists b. exact (conj Hb (conj Hs (conj Hf (conj Hc Hlen)))).
Qed.

(** ** The code of a block *)

Context (rtCode : Runtime -> JitCode -> option (list HostInst)) `{!AsmRuntimeLaws rtCode}.
Context `{!GuestMemoryLaws Mem}.

(** The code at [c] takes the guest through the block [words] at [addr], and goes on, if
    not back to the run loop, with a block that has been compiled. *)
Definition runs (js : JitState) (addr : Z) (words : list Z) (c : JitCode) : Prop :=
  exists l, rtCode (gRunTime js) c = Some l /\
  forall h s', entered h -> good (machine h) ->
    interpWords addr words (counted (length words) (machine h)) = Ok s' ->
    exists p h', run l None h = Ok (Left p, h') /\ exitOk (gBlockMap js) s' p /\ agree h' s'.

(** The compiler's table holds code for the blocks, and for no other. *)
Record faithful (js : JitState) blocks : Prop := {
  fa_dom addr : is_Some (gBlockMap js !! addr) <-> is_Some (blocks !! addr);
  fa_runs addr words c : blocks !! addr = Some words -> gBlockMap js !! addr = Some c ->
    words <> [] /\ uint 64 addr /\ uint 64 c /\ runs js addr words c;
}.

Lemma faithful_init rt : faithful (mkJitState ∅ rt) ∅.
Proof.
  constructor; cbn [gBlockMap].
  - intros addr. rewrite !lookup_empty. split; intros [? [=]].
  - intros addr words c. by rewrite lookup_empty.
Qed.

Lemma exitOk_mono (m1 m2 : gmap Z JitCode) s p : m1 ⊆ m2 -> exitOk m1 s p -> exitOk m2 s p.
Proof.
  intros Hm [->|(c & Hc & ->)]; [by left|]. right. exists c. split; [|done]. by eapply lookup_weaken.
Qed.

Lemma runs_mono js js' addr words c : gBlockMap js ⊆ gBlockMap js' ->
  (forall c l, rtCode (gRunTime js) c = Some l -> rtCode (gRunTime js') c = Some l) ->
  runs js addr words c -> runs js' addr words c.
Proof.
  intros Hm Hrt (l & Hl & Hrun). exists l. split; [by apply Hrt|]. intros h s' He Hg Hint.
  destruct (Hrun h s' He Hg Hint) as (p & h' & Hr & Hexit & Ha). exists p, h'.
  split_and!; [done| |done]. by eapply exitOk_mono.
Qed.

(** A block the compiler has compiled does what the interpreter does. *)
Lemma generate_runs js js' b words a c :
  environment_safe (Mem := Mem) -> countersElsewhere -> uint 64 (start b) ->
  Forall (uint 32) words -> coveredWords words = true ->
  Z.shiftr (u64 (end_ b - start b)) 2 = Z.of_nat (length words) -> (length words <= 3000)%nat ->
  generateCode false (gBlockMap js) b words newAsm = Some (tt, a) ->
  gBlockMap js ⊆ gBlockMap js' -> rtCode (gRunTime js') c = Some (code a) ->
  runs js' (start b) words c.
Proof.
  intros He Hctr Hs Hw Hcov Hsize Hlen Hgen Hsub Hc. exists (code a). split; [exact Hc|].
  intros h s' Hent Hgood Hint%interpWords_run.
  destruct (generateCode_leaves (gBlockMap js) b words h s' He
    (coveredWords_covered _ _ Hctr Hw Hcov) Hent Hgood Hs Hsize Hlen Hint)
    as (a' & l & p & h' & Hf & Hcode & Hrun & Hexit & Hagree).
  assert (a' = a) as -> by congruence. exists p, h'.
  assert (code a = l) as -> by exact Hcode. specialize (Hrun []). rewrite app_nil_r in Hrun.
  split_and!; [done| |done]. by eapply exitOk_mono.
Qed.

(** [get], when the runtime has room. *)
Lemma get_faithful js blocks blocks' (m : Mem) addr :
  environment_safe (Mem := Mem) -> countersElsewhere -> mem_typed m -> uint 64 addr ->
  (forall l, fst (fst (rtAdd (gRunTime js) l)) = 0) ->
  faithful js blocks -> blocksAfter m js blocks addr = Ok blocks' ->
  (forall words, blocks' !! addr = Some words -> coveredWords words = true) ->
  exists c js', get false m js addr = Ok (Some (c, js')) /\ faithful js' blocks' /\
    gBlockMap js' !! addr = Some c.
Proof.
  intros He Hctr Hm Ha Hroom [F1 F2] Hafter Hcov. unfold blocksAfter in Hafter. unfold get.
  destruct (gBlockMap js !! addr) as [c|] eqn:Haddr.
  { injection Hafter as <-. exists c, js. split; [reflexivity|]. split; [by constructor|exact Haddr]. }
  destruct (fetchBlock m addr) as [words|] eqn:Hf; [|discriminate Hafter]. injection Hafter as <-.
  specialize (Hcov words (lookup_insert_eq _ _ _)).
  assert (words <> []) as Hne by (by intros ->).
  destruct (fetchBlock_spec m addr words Ha Hf Hne) as (b & Hb & Hs & Hfetch & Hsize & Hlen).
  destruct (generateCode_total false (gBlockMap js) b words) as [a Hgen]; [unfold NO_LRU_VALUE; lia|].
  rewrite Hb. cbn [mbind result_bind]. unfold generate. rewrite Hfetch.
  cbn [mbind result_bind mret result_ret]. rewrite Hgen.
  pose proof (rtAdd_spec (gRunTime js) (code a)) as Hadd. specialize (Hroom (code a)).
  destruct (rtAdd (gRunTime js) (code a)) as [[err c] rt']. cbn [fst] in Hroom. subst err.
  destruct Hadd as [(Herr & _)|(_ & Hnz & Hc & Hfresh & Hnew & Hold)]; [by destruct Herr|].
  eexists c, _. split; [reflexivity|]. cbn [gBlockMap gRunTime set_funcEntry funcEntry].
  split; [|apply lookup_insert_eq].
  assert (forall c0 l, rtCode (gRunTime js) c0 = Some l -> rtCode rt' c0 = Some l) as Hkeep.
  { intros c0 l Hl. rewrite Hold; [exact Hl|]. intros ->. by rewrite Hfresh in Hl. }
  constructor; cbn [gBlockMap].
  - intros x. destruct (decide (x = addr)) as [->|Hx]; [by rewrite !lookup_insert_eq|].
    rewrite !lookup_insert_ne by done. apply F1.
  - intros x ws cx Hx Hcx. destruct (decide (x = addr)) as [->|Hne'].
    + rewrite lookup_insert_eq in Hx. rewrite lookup_insert_eq in Hcx. injection Hx as <-. injection Hcx as <-.
      split_and!; [done..|].
      assert (Forall (uint 32) words) as Hw by (eapply fetchWords_uint; [exact Hm|exact Hfetch]).
      rewrite <-Hs. eapply (generate_runs js _ b words a); try done; [by rewrite Hs|].
      cbn [gBlockMap]. rewrite Hs. by apply insert_subseteq.
    + rewrite lookup_insert_ne in Hx by done. rewrite lookup_insert_ne in Hcx by done.
      destruct (F2 x ws cx Hx Hcx) as (H1' & H2' & H3' & Hr). split_and!; [done..|].
      eapply runs_mono; [by apply insert_subseteq|exact Hkeep|exact Hr].
Qed.

(** ** Linked blocks *)

(** The guest between two blocks: all but the program counter of the host's. *)
Record between h s : Prop := {
  bt_entered : entered h;
  bt_good : good s;
  bt_same : sameGuest (machine h) s;
}.

Lemma sameGuest_parts s s1 : sameGuest s s1 ->
  memory s = memory s1 /\ gTimer s = gTimer s1 /\ nextPC (core s) = nextPC (core s1).
Proof.
  intros Hs. specialize (Hs 0). split_and!.
  - change (memory (setField fPC 0 (zeroed s)) = memory (setField fPC 0 (zeroed s1))). by rewrite Hs.
  - change (gTimer (setField fPC 0 (zeroed s)) = gTimer (setField fPC 0 (zeroed s1))). by rewrite Hs.
  - change (nextPC (core (setField fPC 0 (zeroed s))) = nextPC (core (setField fPC 0 (zeroed s1)))).
    by rewrite Hs.
Qed.

Lemma between_good h s : between h s -> good (machine h).
Proof.
  intros [[_ _ Hw] (_ & Hm & Ht) Hs]. destruct (sameGuest_parts _ _ Hs) as (Em & Et & _).
  split; [exact Hw|]. rewrite Em, Et. by split.
Qed.

(** The interpreter keeps the guest well formed. *)
Lemma interpWords_good words : forall pc s s',
  environment_safe (Mem := Mem) -> good s -> uint 64 pc -> interpWords pc words s = Ok s' -> good s'.
Proof.
  induction words as [|bits words IH]; intros pc s s' He Hg Hpc Hw; [discriminate Hw|].
  cbn [interpWords] in Hw. destruct (interpHandler pc bits s) as [[[] s1]|] eqn:E; [|discriminate Hw].
  cbn [mbind result_bind] in Hw. pose proof (interpHandler_good pc bits s s1 He Hg Hpc E) as Hg1%good_zeroed.
  destruct words as [|w words]; [by injection Hw as <-|].
  destruct (nextPC (core s1) =? u64 (pc + 4)); [|discriminate Hw].
  eapply IH; [exact He|exact Hg1|by apply wrap_uint|exact Hw].
Qed.

Lemma good_counted k s : good s -> good (counted k s).
Proof.
  intros (Hc & Hm & Ht)%good_zeroed. split; [|by split]. apply wf_set_numInsts; [exact Hc|by apply wrap_uint].
Qed.

Lemma good_setPC v s : uint 64 v -> good s -> good (setField fPC v s).
Proof. intros Hv (Hc & Hm & Ht). split; [|by split]. by apply wf_set_PC. Qed.

Lemma sameGuest_setPC s s1 v : sameGuest s s1 -> sameGuest s (setField fPC v s1).
Proof. intros Hs w. rewrite (Hs w). reflexivity. Qed.

(** One block. *)
Lemma runs_block js blocks h s c :
  environment_safe (Mem := Mem) -> faithful js blocks -> between h s ->
  gBlockMap js !! PC (core s) = Some c -> (is_Some (blocks !! PC (core s)) -> exists s2, interpBlock blocks s = Ok s2) ->
  exists l p h' s', rtCode (gRunTime js) c = Some l /\ run l None h = Ok (Left p, h') /\
    interpBlock blocks s = Ok s' /\ exitOk (gBlockMap js) s' p /\ between h' s' /\ PC (core s') = nextPC (core s').
Proof.
  intros He [F1 F2] Hb Hc Hgo. destruct (proj1 (F1 (PC (core s)))) as [words Hw]; [by exists c|].
  destruct (F2 _ _ _ Hw Hc) as (_ & Hpc & _ & l & Hl & Hrun). destruct Hgo as [s' Hs']; [by exists words|].
  pose proof Hs' as Hi. unfold interpBlock in Hi. rewrite Hw in Hi.
  destruct (interpWords (PC (core s)) words (counted (length words) s)) as [s1|] eqn:E; [|discriminate Hi].
  cbn [mbind result_bind] in Hi. injection Hi as Hi.
  pose proof (between_good _ _ Hb) as Hg. destruct Hb as [Hent Hgs Hsame].
  rewrite <-(interpWords_same (PC (core s)) words (counted (length words) (machine h))) in E
    by (by apply counted_same).
  destruct (Hrun h s1 Hent Hg E) as (p & h' & Hr & Hexit & Hent' & Hsame').
  pose proof (interpWords_good _ _ _ _ He (good_counted _ _ Hg) Hpc E) as Hg1.
  exists l, p, h', s'. split_and!; [done..| | |]; subst s'.
  - exact Hexit.
  - constructor; [exact Hent'| |by apply sameGuest_setPC]. apply good_setPC; [|exact Hg1]. apply wf_nextPC, Hg1.
  - reflexivity.
Qed.

Lemma chain js rank blocks : environment_safe (Mem := Mem) -> faithful js blocks -> ordered rtCode js rank ->
  forall fuel h s c, between h s -> gBlockMap js !! PC (core s) = Some c -> (rank c < fuel)%nat ->
  comesThrough blocks s ->
  exists n h' s', (0 < n)%nat /\ interpBlocks n blocks s = Ok s' /\
    runBlocks rtCode fuel (gRunTime js) c h = Ok h' /\ between h' s' /\ PC (core s') = nextPC (core s').
Proof.
  intros He Hf Hord. induction fuel as [|fuel IH]; intros h s c Hb Hc Hfuel Hgo; [lia|].
  destruct (runs_block js blocks h s c He Hf Hb Hc (Hgo O s eq_refl))
    as (l & p & h' & s' & Hl & Hrun & Hs' & Hexit & Hb' & Hpc).
  cbn [runBlocks]. rewrite Hl, Hrun. cbn [mbind result_bind].
  destruct Hexit as [->|(c' & Hc' & ->)].
  - exists 1%nat, h', s'. split; [lia|]. cbn [interpBlocks]. rewrite Hs'. by split_and!.
  - assert (rank c' < rank c)%nat as Hr.
    { eapply (jumpsTo_rank (Mem := Mem)); [exact Hord|]. by exists l, h, h'. }
    rewrite <-Hpc in Hc'.
    destruct (IH h' s' c' Hb' Hc') as (n & h2 & s2 & Hn & Hs2 & Hr2 & Hb2 & Hpc2);
      [lia|by eapply comesThrough_next|].
    exists (S n), h2, s2. split; [lia|]. cbn [interpBlocks]. rewrite Hs'. by split_and!.
Qed.

(** ** The frame *)

(** The host but for its stack pointer, its stack and its flags. *)
Definition sameHost h h' : Prop :=
  machine h' = machine h /\ (forall r, r <> Gp.rsp -> hregs h' r = hregs h r) /\
  ((forall r, uint 64 (hregs h r)) -> forall r, uint 64 (hregs h' r)).

Lemma sameHost_trans h1 h2 h3 : sameHost h1 h2 -> sameHost h2 h3 -> sameHost h1 h3.
Proof.
  intros (M1 & R1 & U1) (M2 & R2 & U2). split_and!; [by rewrite M2| |by intros Hu; apply U2, U1].
  intros r Hr. by rewrite R2, R1.
Qed.

Lemma updReg_eq r v f : updReg_ r v f r = v.
Proof. unfold updReg_. by rewrite decide_True. Qed.
Lemma updReg_ne r r' v f : r' <> r -> updReg_ r v f r' = f r'.
Proof. intros Hr. unfold updReg_. by rewrite decide_False. Qed.
Lemma updReg_uint r v f : uint 64 v -> (forall r, uint 64 (f r)) -> forall r', uint 64 (updReg_ r v f r').
Proof. intros Hv Hf r'. unfold updReg_. by case_decide. Qed.

Lemma run_pushes rs : forall h rest, exists h',
  run (map (fun r => Ins Push [OReg (mkGp r 8)]) rs ++ rest) None h = run rest None h' /\ sameHost h h'.
Proof.
  induction rs as [|r rs IH]; intros h rest.
  { exists h. split; [reflexivity|]. by split_and!. }
  set (h1 := set_hregs (updReg_ Gp.rsp (u64 (hregs h Gp.rsp - 8)) (hregs h))
    (set_hstack (fun a => if a =? u64 (hregs h Gp.rsp - 8) then hregs h r else hstack h a) h)).
  destruct (IH h1 rest) as (h' & Hrun & Hs). exists h'. split; [exact Hrun|].
  eapply sameHost_trans; [|exact Hs]. split_and!; [reflexivity| |].
  - intros r' Hr. by apply updReg_ne.
  - intros Hu. apply updReg_uint; [by apply wrap_uint|exact Hu].
Qed.

Lemma run_pops rs : forall h rest, exists h',
  run (map (fun r => Ins Pop [OReg (mkGp r 8)]) rs ++ rest) None h = run rest None h' /\ machine h' = machine h.
Proof.
  induction rs as [|r rs IH]; intros h rest; [by exists h|].
  set (h1 := set_hregs (updReg_ r (hstack h (hregs h Gp.rsp))
    (updReg_ Gp.rsp (u64 (hregs h Gp.rsp + 8)) (hregs h))) h).
  destruct (IH h1 rest) as (h' & Hrun & Hm). exists h'. by split; [exact Hrun|].
Qed.

Lemma run_entry h : hregs h Gp.rcx = coreAddr -> (forall r, uint 64 (hregs h r)) -> wf_Core (hcore h) ->
  exists h', run entryCode None h = Ok (LeftTo (hregs h Gp.rdx), h') /\ entered h' /\ machine h' = machine h.
Proof.
  intros Hcx Hu Hw. unfold entryCode.
  destruct (run_pushes savedRegs h [Ins Sub [OReg (mkGp Gp.rsp 8); OImm stackSize];
     Ins Mov [OReg (mkGp stateReg 8); OReg argReg0]; Ins Jmp [OReg argReg1]]) as (h1 & -> & M1 & R1 & U1).
  set (sub := Ins Sub _).
  set (h2 := set_flags (flagsAfter sub (hregs h1))
    (setReg 8 Gp.rsp (wrap 64 (wrap 64 (hregs h1 Gp.rsp) - wrap 64 stackSize)) h1)).
  set (h3 := setReg 8 stateReg (wrap 64 (hregs h2 Gp.rcx)) h2).
  assert (forall r, uint 64 (hregs h3 r)) as U3.
  { apply updReg_uint; [by apply wrap_uint|]. apply updReg_uint; [by apply wrap_uint|]. by apply U1. }
  exists h3. split; [|split].
  - change (Ok (LeftTo (hregs h3 Gp.rdx), h3) = Ok (LeftTo (hregs h Gp.rdx), h3)). do 3 f_equal.
    change (hregs h3 Gp.rdx) with (hregs h1 Gp.rdx). by apply R1.
  - constructor; [|exact U3|].
    + change (hregs h3 stateReg) with (u64 (wrap 64 (hregs h1 Gp.rcx))). rewrite R1 by done. rewrite Hcx.
      unfold u64. rewrite wrap_wrap by lia. apply wrap_id. rewrite <-Hcx. apply Hu.
    + change (hcore h3) with (core (machine h1)). by rewrite M1.
  - exact M1.
Qed.

Lemma run_add h rest : exists h',
  run (Ins Add [OReg (mkGp Gp.rsp 8); OImm stackSize] :: rest) None h = run rest None h' /\
  machine h' = machine h.
Proof.
  assert (exists h', execInst Add [OReg (mkGp Gp.rsp 8); OImm stackSize] h = Some h' /\
    machine h' = machine h) as (h' & He & Hm) by (eexists; split; reflexivity).
  exists h'. split; [by apply (run_exec _ _ _ h')|exact Hm].
Qed.

Lemma run_exit h : exists h', run exitCode None h = Ok (Returned, h') /\ machine h' = machine h.
Proof.
  unfold exitCode. cbn [app].
  destruct (run_add h (map (fun r => Ins Pop [OReg (mkGp r 8)]) (rev savedRegs) ++ [Ins Ret []]))
    as (h1 & -> & Hm1).
  destruct (run_pops (rev savedRegs) h1 [Ins Ret []]) as (h' & -> & Hm).
  exists h'. split; [reflexivity|]. by rewrite Hm.
Qed.

(** ** [step] *)

Lemma executeCode_chain js rank blocks fuel h c :
  environment_safe (Mem := Mem) -> faithful js blocks -> ordered rtCode js rank ->
  good (machine h) -> (forall r, uint 64 (hregs h r)) -> uint 64 coreAddr ->
  gBlockMap js !! PC (hcore h) = Some c -> uint 64 c -> (rank c < fuel)%nat ->
  comesThrough blocks (machine h) ->
  exists n h' s', (0 < n)%nat /\ interpBlocks n blocks (machine h) = Ok s' /\
    executeCode rtCode fuel (gRunTime js) c h = Ok h' /\
    wf_Core (hcore h') /\ sameGuest (machine h') s' /\ PC (core s') = nextPC (core s').
Proof.
  intros He Hf Hord Hg Hu Hca Hc Hcu Hfuel Hgo. unfold executeCode.
  set (h0 := setReg 8 Gp.rdx c (setReg 8 Gp.rcx coreAddr h)).
  destruct (run_entry h0) as (h1 & -> & Hent & Hm).
  { change (hregs h0 Gp.rcx) with (u64 coreAddr). by apply u64_id. }
  { apply updReg_uint; [by apply wrap_uint|]. apply updReg_uint; [by apply wrap_uint|exact Hu]. }
  { apply Hg. }
  cbn [mbind result_bind]. change (hregs h0 Gp.rdx) with (u64 c). rewrite u64_id by exact Hcu.
  change (machine h0) with (machine h) in Hm.
  destruct (chain js rank blocks He Hf Hord fuel h1 (machine h) c) as (n & h2 & s' & Hn & Hs' & Hr & Hb & Hpc).
  { constructor; [exact Hent|exact Hg|]. rewrite Hm. apply sameGuest_refl. }
  { exact Hc. }
  { exact Hfuel. }
  { exact Hgo. }
  destruct (run_exit h2) as (h3 & Hx & Hm3). exists n, h3, s'.
  cbn [mbind result_bind]. rewrite Hr. cbn [mbind result_bind]. rewrite Hx. cbn [mbind result_bind].
  destruct Hb as [[_ _ Hw] _ Hsame]. unfold hcore. rewrite Hm3. by split_and!.
Qed.

(** What [step] of the compiler leaves. *)
Definition stepResult (js : JitState) blocks s (r : result (option (JitState * HostState Mem))) : Prop :=
  exists js' h' n s', r = Ok (Some (js', h')) /\ faithful js' blocks /\
    jit_reachable rtCode js' /\ (0 < n)%nat /\ interpBlocks n blocks s = Ok s' /\
    zeroed (machine h') = zeroed s'.

Lemma set_PC_same s : PC (core s) = nextPC (core s) -> setField fPC (nextPC (core s)) s = s.
Proof.
  intros E. unfold setField. cbn [fieldSet]. rewrite <-E. destruct s as [c m t]. by destruct c.
Qed.

(** A step that sets the program counter as [step] does. *)
Lemma sameGuest_step s s' : sameGuest s s' -> PC (core s') = nextPC (core s') ->
  zeroed (set_core (set_PC (nextPC (core s)) (core s)) s) = zeroed s'.
Proof.
  intros Hs Hpc. destruct (sameGuest_parts _ _ Hs) as (_ & _ & En).
  change (zeroed (set_core (set_PC (nextPC (core s)) (core s)) s))
    with (setField fPC (nextPC (core s)) (zeroed s)).
  rewrite (Hs (nextPC (core s))), En. change (nextPC (core s')) with (nextPC (core (zeroed s'))).
  by apply set_PC_same.
Qed.

Lemma step_unfold js h : step rtCode false js h =
  (r ← get false (memory (machine h)) js (PC (hcore h));
   match r with
   | None => mret None
   | Some (func, js) =>
      h ← executeCode rtCode (S (size (gBlockMap js))) (gRunTime js) func h;
      mret (Some (js, set_hcore (set_PC (nextPC (hcore h)) (hcore h)) h))
   end).
Proof. reflexivity. Qed.

Lemma bind_returns {A B} (r : result A) (x : A) (k : A -> result B) y :
  r = Ok x -> k x = y -> (r ≫= k) = y.
Proof. intros -> <-. reflexivity. Qed.

Lemma step_returns js js' h h' c :
  get false (memory (machine h)) js (PC (hcore h)) = Ok (Some (c, js')) ->
  executeCode rtCode (S (size (gBlockMap js'))) (gRunTime js') c h = Ok h' ->
  step rtCode false js h = Ok (Some (js', set_hcore (set_PC (nextPC (hcore h')) (hcore h')) h')).
Proof.
  intros Hget Hx. rewrite step_unfold. refine (bind_returns _ _ _ _ Hget _).
  refine (bind_returns _ _ _ _ Hx eq_refl).
Qed.

End Run.

(** ** An example *)

Section Example.
Import JitExample.

Definition example_host : HostState MemState :=
  mkHost (fun _ => 0) false false false (fun _ => 0) (program 0x91000421 0x14000004 5).
Definition example_blocks : gmap Z (list Z) := <[0x5000 := [0x91000421; 0x14000004]]> ∅.

Lemma example_comesThrough : comesThrough example_blocks (machine example_host).
Proof.
  assert (match interpBlock example_blocks (machine example_host) with
          | Ok s => PC (core s) =? 0x5014 | Err _ => false end = true) as Hok by (vm_compute; reflexivity).
  destruct (interpBlock example_blocks (machine example_host)) as [s|] eqn:E; [|discriminate Hok].
  apply Z.eqb_eq in Hok.
  assert (example_blocks !! PC (core s) = None) as Hnone by (rewrite Hok; reflexivity).
  intros [|[|n]] s1 Hn Hsome.
  - injection Hn as <-. exists s. exact E.
  - cbn [interpBlocks] in Hn. rewrite E in Hn. injection Hn as <-. rewrite Hnone in Hsome.
    destruct Hsome as [? [=]].
  - cbn [interpBlocks] in Hn. rewrite E in Hn. cbn [mbind result_bind] in Hn.
    unfold interpBlock at 1 in Hn. rewrite Hnone in Hn. discriminate Hn.
Qed.


(** ** Blocks that are not covered

    What the compiled code of two words at 0x5000 leaves, and what the interpreter does. *)

Definition compiled (w1 w2 x1 : Z) : option Core :=
  match step JitExample.rtCode false empty
          (mkHost (fun _ => 0) false false false (fun _ => 0) (program w1 w2 x1)) with
  | Ok (Some (_, h)) => Some (hcore h)
  | _ => None
  end.

Definition interpreted (w1 w2 x1 : Z) : option Core :=
  match interpBlock (<[0x5000 := [w1; w2]]> ∅) (program w1 w2 x1) with
  | Ok s => Some (core s)
  | Err _ => None
  end.

Lemma both_some {A} (P Q : A -> bool) (o o' : option A) :
  match o with Some c => P c | None => false end = true ->
  match o' with Some c => Q c | None => false end = true ->
  exists c c', o = Some c /\ o' = Some c' /\ P c = true /\ Q c' = true.
Proof. destruct o as [c|], o' as [c'|]; try discriminate. by exists c, c'. Qed.

End Example.
