(* ===== verification/HandleManager.v ===== *)
(** * Kernel handles: [hle/kernel/handleManager.cpp], [types/KAutoObject.h],
    [types/KHandleEntry.h]

    The table of handles, and what it promises: a partial map from handles to objects. *)
From S2P Require Import Prelude BitUtils Core Machine.

(** ** Constants of [handle.h] *)

Definition INVALID_HANDLE : Z := 0xFFFFFFFF.
Definition CURRENT_THREAD : Z := 0xFFFF8000.
Definition CURRENT_PROCESS : Z := 0xFFFF8001.

(** ** Object types and table entries *)

Module ObjectType.
Inductive t : Set := NO_TYPE | INTERFACE | THREAD | PROCESS | GPU_DEVICE | TRANSFER_MEM.
End ObjectType.

Record KHandleEntry := mkKHandleEntry {
  handleId : Z;                  (* uint16_t *)
  objectType : ObjectType.t;
  objectCompressedPointer : Z;   (* uint32_t *)
}.

(** An [ObjectPtr]: [None] is a null pointer, [Some p] the object at [p]. *)
Abbreviation ObjectPtr := (option Z).

(** ** The globals of [handleManager.cpp] *)

Record HandleState := mkHandleState {
  gHandleTable : list KHandleEntry;
  gCompressedPointerMap : gmap Z ObjectPtr;
  gHandleCounter : Z;
  gCompressedpointerCounter : Z;
}.

Definition handle_static : HandleState := mkHandleState [] ∅ 1 0.

(** [createHandle] for the object at [object], whose [getType()] is [ty]. *)
Definition createHandle (object : Z) (ty : ObjectType.t) (s : HandleState)
    : Z * HandleState :=
  let handle := gHandleCounter s in
  let compressedPointer := gCompressedpointerCounter s in
  let newEntry := mkKHandleEntry (u16 handle) ty compressedPointer in
  (handle,
   mkHandleState (gHandleTable s ++ [newEntry])
     (<[compressedPointer := Some object]> (gCompressedPointerMap s))
     (u32 (handle + 1)) (u32 (compressedPointer + 1))).

(** The first entry of the table with the low half of the handle, and its index. *)
Fixpoint findEntry (handle : Z) (table : list KHandleEntry) : option (nat * KHandleEntry) :=
  match table with
  | [] => None
  | e :: table =>
      if handleId e =? u16 handle then Some (0%nat, e)
      else '(i, e) ← findEntry handle table; Some (S i, e)
  end.

(** [map[key]] of [std::map]: an absent key is inserted with a null pointer. *)
Definition index_map (key : Z) (m : gmap Z ObjectPtr) : ObjectPtr * gmap Z ObjectPtr :=
  match m !! key with
  | Some p => (p, m)
  | None => (None, <[key := None]> m)
  end.

Definition lookupObject (handle : Z) (s : HandleState) : ObjectPtr * HandleState :=
  match findEntry handle (gHandleTable s) with
  | Some (_, entry) =>
      let '(p, m) := index_map (objectCompressedPointer entry) (gCompressedPointerMap s) in
      (p, mkHandleState (gHandleTable s) m (gHandleCounter s) (gCompressedpointerCounter s))
  | None => (None, s)
  end.

(** The result is paired with the pointer the erased map entry held, whose
    destructor runs. *)
Definition closeHandle (handle : Z) (s : HandleState) : bool * ObjectPtr * HandleState :=
  match findEntry handle (gHandleTable s) with
  | Some (i, entry) =>
      let cp := objectCompressedPointer entry in
      (true, default None (gCompressedPointerMap s !! cp),
       mkHandleState (delete i (gHandleTable s)) (delete cp (gCompressedPointerMap s))
         (gHandleCounter s) (gCompressedpointerCounter s))
  | None => (false, None, s)
  end.

(** ** Reference counts

    [KAutoObject] with its [referenceCount]; [Obj] is what the derived class adds. *)

Section Heap.
Context {Obj : Type}.

Record KAutoObject := mkKAutoObject { referenceCount : Z; payload : Obj }.

Definition setPayload (o : Obj) (k : KAutoObject) : KAutoObject :=
  mkKAutoObject (referenceCount k) o.

(** The host heap: objects by address, and the next address [new] returns. *)
Record ObjectHeap := mkObjectHeap { objects : gmap Z KAutoObject; nextObject : Z }.

Definition heap_static : ObjectHeap := mkObjectHeap ∅ 1.

Definition newObject (o : Obj) (h : ObjectHeap) : Z * ObjectHeap :=
  (nextObject h,
   mkObjectHeap (<[nextObject h := mkKAutoObject 0 o]> (objects h)) (nextObject h + 1)).

(** [ObjectPtr::inc] and [ObjectPtr::dec]. *)
Definition inc (p : ObjectPtr) (h : ObjectHeap) : result ObjectHeap :=
  match p with
  | None => Ok h
  | Some a =>
      match objects h !! a with
      | None => Err Undefined
      | Some k =>
          Ok (mkObjectHeap (<[a := mkKAutoObject (u64 (referenceCount k + 1)) (payload k)]> (objects h))
                (nextObject h))
      end
  end.

Definition dec (p : ObjectPtr) (h : ObjectHeap) : result ObjectHeap :=
  match p with
  | None => Ok h
  | Some a =>
      match objects h !! a with
      | None => Err Undefined
      | Some k =>
          let n := u64 (referenceCount k - 1) in
          Ok (mkObjectHeap
                (if n =? 0 then delete a (objects h)
                 else <[a := mkKAutoObject n (payload k)]> (objects h)) (nextObject h))
      end
  end.
End Heap.
Arguments KAutoObject Obj : clear implicits.
Arguments ObjectHeap Obj : clear implicits.

(** * What the handle manager promises *)

(** The object a table and a map give to each handle identifier. *)
Definition handle_map (s : HandleState) : gmap Z ObjectPtr :=
  foldr (fun e m => <[handleId e := default None
            (gCompressedPointerMap s !! objectCompressedPointer e)]> m) ∅ (gHandleTable s).

(** The invariant: identifiers and compressed pointers are those handed out so far,
    no two entries share one, and every entry has its place in the map. *)
Record handle_inv (s : HandleState) : Prop := {
  hi_ids : NoDup (handleId <$> gHandleTable s);
  hi_cps : NoDup (objectCompressedPointer <$> gHandleTable s);
  hi_bound : forall e, e ∈ gHandleTable s ->
    0 < handleId e < gHandleCounter s /\
    0 <= objectCompressedPointer e < gCompressedpointerCounter s;
  hi_dom : forall e, e ∈ gHandleTable s ->
    is_Some (gCompressedPointerMap s !! objectCompressedPointer e);
  hi_exact : forall k, is_Some (gCompressedPointerMap s !! k) ->
    k ∈ (objectCompressedPointer <$> gHandleTable s);
  hi_counter : gHandleCounter s = gCompressedpointerCounter s + 1;
  hi_count : 0 < gHandleCounter s;
}.

Lemma handle_static_inv : handle_inv handle_static.
Proof.
  constructor; cbn; [constructor|constructor| | | |lia|lia].
  - intros e He. by apply not_elem_of_nil in He.
  - intros e He. by apply not_elem_of_nil in He.
  - intros k [x Hx]. by rewrite lookup_empty in Hx.
Qed.

(** ** The search *)

Lemma findEntry_spec h table :
  match findEntry h table with
  | Some (i, e) => table !! i = Some e /\ handleId e = u16 h /\
      (forall j e', (j < i)%nat -> table !! j = Some e' -> handleId e' <> u16 h)
  | None => forall e, e ∈ table -> handleId e <> u16 h
  end.
Proof.
  induction table as [|e table IH]; simpl; [set_solver|].
  destruct (Z.eqb_spec (handleId e) (u16 h)) as [E|E].
  - split; [done|]. split; [done|]. intros j e' Hj. lia.
  - destruct (findEntry h table) as [[i e']|]; simpl.
    + destruct IH as (H1 & H2 & H3). split; [done|]. split; [done|].
      intros [|j] e'' Hj; simpl; [congruence|]. apply H3. lia.
    + intros e0 [ -> |Hin]%elem_of_cons; [done|]. by apply IH.
Qed.

Lemma findEntry_None h table :
  u16 h ∉ (handleId <$> table) -> findEntry h table = None.
Proof.
  intros Hn. pose proof (findEntry_spec h table) as Hs.
  destruct (findEntry h table) as [[i e]|]; [|done]. destruct Hs as (H1 & H2 & _).
  exfalso. apply Hn. rewrite <-H2. apply list_elem_of_fmap. exists e.
  split; [done|]. by apply list_elem_of_lookup_2 with i.
Qed.

Lemma findEntry_app h table table' :
  findEntry h (table ++ table') =
  match findEntry h table with
  | Some r => Some r
  | None => '(i, e) ← findEntry h table'; Some ((length table + i)%nat, e)
  end.
Proof.
  induction table as [|e table IH]; simpl.
  - by destruct (findEntry h table') as [[]|].
  - destruct (handleId e =? u16 h); [done|]. rewrite IH.
    destruct (findEntry h table) as [[]|]; [done|]. by destruct (findEntry h table') as [[]|].
Qed.

Lemma handle_map_lookup s h :
  handle_map s !! (u16 h) =
  match findEntry h (gHandleTable s) with
  | Some (_, e) => Some (default None (gCompressedPointerMap s !! objectCompressedPointer e))
  | None => None
  end.
Proof.
  unfold handle_map. induction (gHandleTable s) as [|e table IH]; simpl; [done|].
  destruct (Z.eqb_spec (handleId e) (u16 h)) as [E|E].
  - by rewrite E, lookup_insert_eq.
  - rewrite lookup_insert_ne by done. etransitivity; [exact IH|].
    by destruct (findEntry h table) as [[]|].
Qed.

(** ** Creating, looking up and closing *)

Section Live.
Context (s : HandleState) (Hi : handle_inv s).

Lemma live_small e : e ∈ gHandleTable s -> gHandleCounter s < 2 ^ 16 ->
  u16 (handleId e) = handleId e.
Proof.
  intros He Hc. destruct (hi_bound _ Hi e He) as [? _]. apply wrap_id. unfold uint. lia.
Qed.

Lemma lookupObject_live h :
  lookupObject h s = (default None (handle_map s !! u16 h), s).
Proof.
  unfold lookupObject. rewrite handle_map_lookup.
  pose proof (findEntry_spec h (gHandleTable s)) as Hs.
  destruct (findEntry h (gHandleTable s)) as [[i e]|]; [|done].
  destruct Hs as (Hl & _ & _). apply list_elem_of_lookup_2 in Hl.
  destruct (hi_dom _ Hi e Hl) as [p Hp]. unfold index_map.
  destruct s as [t m c c']. cbn in *. by destruct (m !! objectCompressedPointer e).
Qed.

Lemma createHandle_fresh : gHandleCounter s < 2 ^ 16 ->
  handle_map s !! gHandleCounter s = None.
Proof.
  intros Hc. pose proof (hi_count _ Hi).
  assert (u16 (gHandleCounter s) = gHandleCounter s) as E by (apply wrap_id; unfold uint; lia).
  rewrite <-E, handle_map_lookup, findEntry_None; [done|]. rewrite E.
  intros (e & He & Hin)%list_elem_of_fmap. pose proof (hi_bound _ Hi e Hin). lia.
Qed.

Lemma handle_map_snoc e p :
  handleId e ∉ (handleId <$> gHandleTable s) ->
  objectCompressedPointer e ∉ (objectCompressedPointer <$> gHandleTable s) ->
  forall c c', handle_map (mkHandleState (gHandleTable s ++ [e])
    (<[objectCompressedPointer e := p]> (gCompressedPointerMap s)) c c') =
  <[handleId e := p]> (handle_map s).
Proof.
  intros H1 H2 c c'. unfold handle_map. simpl. rewrite foldr_app. simpl.
  rewrite lookup_insert_eq. simpl. clear Hi.
  induction (gHandleTable s) as [|e' t IH]; simpl; [done|].
  rewrite fmap_cons, not_elem_of_cons in H1, H2. destruct H1 as [H1 H1'], H2 as [H2 H2'].
  rewrite IH by done. rewrite lookup_insert_ne by done.
  by rewrite insert_insert_ne by congruence.
Qed.

Lemma createHandle_live obj ty : gHandleCounter s < 2 ^ 16 ->
  exists s', createHandle obj ty s = (gHandleCounter s, s') /\ handle_inv s' /\
    handle_map s' = <[gHandleCounter s := Some obj]> (handle_map s).
Proof.
  intros Hc. pose proof (hi_count _ Hi). pose proof (hi_counter _ Hi).
  assert (u16 (gHandleCounter s) = gHandleCounter s) as E by (apply wrap_id; unfold uint; lia).
  assert (forall n, 0 <= n < 2 ^ 16 -> u32 (n + 1) = n + 1) as E2
    by (intros; apply wrap_id; unfold uint; lia).
  set (e := mkKHandleEntry (u16 (gHandleCounter s)) ty (gCompressedpointerCounter s)).
  assert (handleId e ∉ (handleId <$> gHandleTable s)) as H1.
  { simpl. rewrite E. intros (e' & He & Hin)%list_elem_of_fmap.
    pose proof (hi_bound _ Hi e' Hin). lia. }
  assert (objectCompressedPointer e ∉ (objectCompressedPointer <$> gHandleTable s)) as H2.
  { simpl. intros (e' & He & Hin)%list_elem_of_fmap.
    pose proof (hi_bound _ Hi e' Hin). lia. }
  eexists. split; [reflexivity|]. split.
  - constructor; simpl; rewrite ?fmap_app, ?E2 by lia.
    + apply NoDup_app. split; [apply Hi|]. split; [|apply NoDup_singleton].
      intros x Hx ->%list_elem_of_singleton. done.
    + apply NoDup_app. split; [apply Hi|]. split; [|apply NoDup_singleton].
      intros x Hx ->%list_elem_of_singleton. done.
    + intros e' [Hin| ->%list_elem_of_singleton]%elem_of_app; simpl; [|rewrite E; lia].
      pose proof (hi_bound _ Hi e' Hin). lia.
    + intros e' [Hin| ->%list_elem_of_singleton]%elem_of_app; simpl.
      * rewrite lookup_insert_ne; [by apply Hi|]. intros Heq. apply H2. simpl.
        rewrite Heq. by apply list_elem_of_fmap_2.
      * by rewrite lookup_insert_eq.
    + intros k. rewrite elem_of_app. destruct (decide (k = gCompressedpointerCounter s)) as [ -> | ].
      * right. by apply list_elem_of_singleton.
      * rewrite lookup_insert_ne by done. intros Hk. left. by apply Hi.
    + lia.
    + lia.
  - rewrite (handle_map_snoc e (Some obj) H1 H2). simpl. by rewrite E.
Qed.
End Live.

(** *** Closing *)

Abbreviation table_map m t :=
  (foldr (fun e (acc : gmap Z ObjectPtr) =>
     <[handleId e := default None (m !! objectCompressedPointer e)]> acc) ∅ t).

Lemma handle_map_None (t : list KHandleEntry) (m : gmap Z ObjectPtr) id :
  id ∉ (handleId <$> t) -> table_map m t !! id = None.
Proof.
  induction t as [|e t IH]; intros Hid; cbn [foldr]; [done|].
  apply not_elem_of_cons in Hid as [Hne Hid]. rewrite lookup_insert_ne by done. by apply IH.
Qed.

Lemma handle_map_other (t : list KHandleEntry) (m : gmap Z ObjectPtr) e :
  objectCompressedPointer e ∉ (objectCompressedPointer <$> t) ->
  table_map (delete (objectCompressedPointer e) m) t = table_map m t.
Proof.
  induction t as [|e' t IH]; intros Hcp; cbn [foldr]; [done|].
  apply not_elem_of_cons in Hcp as [Hne Hcp]. rewrite lookup_delete_ne by done. by rewrite IH.
Qed.

Lemma handle_map_delete (t : list KHandleEntry) (m : gmap Z ObjectPtr) h i e c c' :
  NoDup (handleId <$> t) -> NoDup (objectCompressedPointer <$> t) ->
  findEntry h t = Some (i, e) ->
  handle_map (mkHandleState (delete i t) (delete (objectCompressedPointer e) m) c c') =
  delete (u16 h) (handle_map (mkHandleState t m c c')).
Proof.
  unfold handle_map. cbn. revert i.
  induction t as [|e' t IH]; intros i Hids Hcps; simpl; [done|].
  apply NoDup_cons in Hids as [Hid Hids], Hcps as [Hcp Hcps].
  destruct (Z.eqb_spec (handleId e') (u16 h)) as [E|E].
  - intros [= <- <-]. simpl. rewrite <-E, delete_insert_eq.
    rewrite (handle_map_other t m e' Hcp). symmetry. apply delete_id.
    by apply (handle_map_None t m).
  - destruct (findEntry h t) as [[j e0]|] eqn:Hf; simpl; [|done]. intros [= <- <-]. simpl.
    rewrite (IH j) by done. pose proof (findEntry_spec h t) as Hs. rewrite Hf in Hs.
    destruct Hs as (Hl & _ & _). apply list_elem_of_lookup_2 in Hl.
    rewrite lookup_delete_ne.
    + symmetry. by apply delete_insert_ne.
    + intros Heq. apply Hcp. rewrite <-Heq. by apply list_elem_of_fmap_2.
Qed.

Section Close.
Context (s : HandleState) (Hi : handle_inv s).

Lemma closeHandle_missing h :
  handle_map s !! u16 h = None -> closeHandle h s = (false, None, s).
Proof.
  rewrite handle_map_lookup. unfold closeHandle.
  by destruct (findEntry h (gHandleTable s)) as [[]|].
Qed.

Lemma closeHandle_live h p :
  handle_map s !! u16 h = Some p ->
  exists s', closeHandle h s = (true, p, s') /\ handle_inv s' /\
    handle_map s' = delete (u16 h) (handle_map s).
Proof.
  rewrite handle_map_lookup. unfold closeHandle.
  destruct (findEntry h (gHandleTable s)) as [[i e]|] eqn:Hf; [|done]. intros [= <-].
  eexists. split; [reflexivity|].
  pose proof (findEntry_spec h (gHandleTable s)) as Hs. rewrite Hf in Hs.
  destruct Hs as (Hl & _ & _).
  assert (forall e', e' ∈ delete i (gHandleTable s) ->
    e' ∈ gHandleTable s /\ objectCompressedPointer e' <> objectCompressedPointer e) as Hin.
  { intros e' He'. apply list_elem_of_lookup in He' as [j Hj].
    rewrite list_lookup_delete in Hj. case_decide as Hij; split;
      try (by apply list_elem_of_lookup_2 in Hj); intros Heq;
      [assert (j = i)|assert (S j = i)]; try lia;
      apply (NoDup_lookup (objectCompressedPointer <$> gHandleTable s) _ _
        (objectCompressedPointer e) (hi_cps _ Hi));
      rewrite list_lookup_fmap, ?Hj, ?Hl; simpl; congruence. }
  split.
  - assert (delete i (gHandleTable s) `sublist_of` gHandleTable s) as Hsub
      by apply sublist_delete.
    constructor; cbn; try by apply Hi.
    + apply (sublist_NoDup _ (handleId <$> gHandleTable s)); [apply Hi|].
      by rewrite Hsub.
    + apply (sublist_NoDup _ (objectCompressedPointer <$> gHandleTable s)); [apply Hi|].
      by rewrite Hsub.
    + intros e' He'. apply Hi. by apply Hin.
    + intros e' He'. destruct (Hin e' He') as [H1 H2].
      rewrite lookup_delete_ne by done. by apply Hi.
    + intros k [x Hx]. apply lookup_delete_Some in Hx as [Hne Hx].
      assert (k ∈ objectCompressedPointer <$> gHandleTable s) as Hk by (apply Hi; by exists x).
      apply list_elem_of_fmap in Hk as (e' & -> & He').
      apply list_elem_of_fmap_2. apply list_elem_of_lookup in He' as [j Hj].
      rewrite delete_take_drop. apply elem_of_app.
      destruct (lt_eq_lt_dec j i) as [[Hlt|Heq]|Hgt].
      * left. apply list_elem_of_lookup. exists j. by rewrite lookup_take_lt.
      * exfalso. apply Hne. congruence.
      * right. apply list_elem_of_lookup. exists (j - S i)%nat. rewrite lookup_drop.
        by replace (S i + (j - S i))%nat with j by lia.
  - rewrite (handle_map_delete (gHandleTable s) (gCompressedPointerMap s) h i e _ _
      (hi_ids _ Hi) (hi_cps _ Hi) Hf). by destruct s.
Qed.
End Close.

(** ** The specification and the refinement *)

Inductive handle_op : Type :=
  | HCreate (object : Z) (ty : ObjectType.t)
  | HLookup (handle : Z)
  | HClose (handle : Z).

Inductive handle_result : Type :=
  | RHandle (handle : Z)
  | RObject (p : ObjectPtr)
  | RClosed (closed : bool) (p : ObjectPtr).

(** The operations of [handleManager.cpp]. *)
Definition exec_handle (op : handle_op) (s : HandleState) : handle_result * HandleState :=
  match op with
  | HCreate object ty => let '(h, s) := createHandle object ty s in (RHandle h, s)
  | HLookup h => let '(p, s) := lookupObject h s in (RObject p, s)
  | HClose h => let '(b, p, s) := closeHandle h s in (RClosed b p, s)
  end.

(** The same operations on a finite map and the number of the next handle. *)
Definition spec_handle (op : handle_op) (s : gmap Z ObjectPtr * Z)
    : handle_result * (gmap Z ObjectPtr * Z) :=
  let '(m, next) := s in
  match op with
  | HCreate object _ => (RHandle next, (<[next := Some object]> m, next + 1))
  | HLookup h => (RObject (default None (m !! u16 h)), s)
  | HClose h =>
      match m !! u16 h with
      | Some p => (RClosed true p, (delete (u16 h) m, next))
      | None => (RClosed false None, s)
      end
  end.

Fixpoint run {S} (exec : handle_op -> S -> handle_result * S) (ops : list handle_op) (s : S)
    : list handle_result * S :=
  match ops with
  | [] => ([], s)
  | op :: ops =>
      let '(r, s) := exec op s in
      let '(rs, s) := run exec ops s in (r :: rs, s)
  end.

Lemma exec_handle_simulates op s :
  handle_inv s -> gHandleCounter s < 2 ^ 16 ->
  let '(r, s') := exec_handle op s in
  spec_handle op (handle_map s, gHandleCounter s) =
    (r, (handle_map s', gHandleCounter s')) /\
  handle_inv s' /\ gHandleCounter s' <= gHandleCounter s + 1.
Proof.
  intros Hi Hc. pose proof (hi_count _ Hi). destruct op as [obj ty|h|h]; cbn [exec_handle spec_handle].
  - assert (gHandleCounter (snd (createHandle obj ty s)) = gHandleCounter s + 1) as Hn
      by (apply wrap_id; unfold uint; lia).
    destruct (createHandle_live s Hi obj ty Hc) as (s' & E & Hi' & Hm).
    rewrite E in *. cbn in Hn. rewrite Hm, Hn. split; [done|]. split; [done|]. lia.
  - rewrite (lookupObject_live s Hi). split; [done|]. split; [done|]. lia.
  - destruct (handle_map s !! u16 h) as [p|] eqn:Hl.
    + assert (gHandleCounter (snd (closeHandle h s)) = gHandleCounter s) as Hn
        by (unfold closeHandle; by destruct (findEntry h (gHandleTable s)) as [[]|]).
      destruct (closeHandle_live s Hi h p Hl) as (s' & E & Hi' & Hm).
      rewrite E in *. cbn in Hn. rewrite Hm, Hn. split; [done|]. split; [done|]. lia.
    + rewrite (closeHandle_missing s h Hl). split; [done|]. split; [done|]. lia.
Qed.

Lemma run_simulates ops s :
  handle_inv s -> gHandleCounter s + Z.of_nat (length ops) <= 2 ^ 16 ->
  fst (run exec_handle ops s) = fst (run spec_handle ops (handle_map s, gHandleCounter s)) /\
  handle_inv (snd (run exec_handle ops s)).
Proof.
  revert s. induction ops as [|op ops IH]; intros s Hi Hc; [done|]. cbn [length] in Hc.
  cbn [run]. pose proof (exec_handle_simulates op s Hi ltac:(lia)) as Hs.
  destruct (exec_handle op s) as [r s']. destruct Hs as (-> & Hi' & Hle).
  destruct (IH s' Hi' ltac:(lia)) as [H1 H2].
  destruct (run exec_handle ops s'), (run spec_handle ops _). cbn in *. by rewrite H1.
Qed.


Definition handle_history : list handle_op :=
  [HCreate 11 ObjectType.THREAD; HCreate 12 ObjectType.PROCESS; HLookup 2; HClose 1;
   HLookup 1; HClose 1; HLookup 0x10002].


(** ** Beyond 2^16 handles *)

(** [n] handles created one after the other. *)
Fixpoint creates (objs : list Z) (ty : ObjectType.t) (s : HandleState) : HandleState :=
  match objs with
  | [] => s
  | obj :: objs => creates objs ty (snd (createHandle obj ty s))
  end.

(** Creation never touches the entries that are there, nor the objects of compressed
    pointers below the counter. *)
Lemma creates_keeps objs ty s k :
  0 <= k < gCompressedpointerCounter s ->
  0 <= gHandleCounter s ->
  gCompressedpointerCounter s + Z.of_nat (length objs) < 2 ^ 32 ->
  gHandleCounter s + Z.of_nat (length objs) < 2 ^ 32 ->
  (exists t, gHandleTable (creates objs ty s) = gHandleTable s ++ t) /\
  gCompressedPointerMap (creates objs ty s) !! k = gCompressedPointerMap s !! k /\
  gHandleCounter (creates objs ty s) = gHandleCounter s + Z.of_nat (length objs) /\
  gCompressedpointerCounter (creates objs ty s) =
    gCompressedpointerCounter s + Z.of_nat (length objs).
Proof.
  revert s. induction objs as [|obj objs IH]; intros s Hk Hh Hc Hhc; cbn [creates length] in *.
  - split; [exists []; by rewrite app_nil_r|]. repeat split; lia.
  - assert (forall n, 0 <= n -> n + 1 < 2 ^ 32 -> u32 (n + 1) = n + 1) as E
      by (intros; apply wrap_id; unfold uint; lia).
    destruct (IH (snd (createHandle obj ty s))) as ([t Ht] & Hm & H1 & H2);
      [cbn; rewrite ?E by lia; lia..|].
    rewrite Ht, Hm, H1, H2. cbn. rewrite !E by lia. split.
    + eexists. by rewrite <-app_assoc.
    + split; [|lia]. apply lookup_insert_ne. lia.
Qed.

Lemma findEntry_mod h h' table :
  u16 h = u16 h' -> findEntry h table = findEntry h' table.
Proof. intros E. induction table as [|e table IH]; simpl; [done|]. by rewrite E, IH. Qed.

(** handles wrap: the 65537th handle is numbered 65537, and every operation on it acts
    on the first one: looking it up gives the first object, and closing it closes the
    first handle. *)
Theorem handle_wraps_to_first (first new : Z) (rest : list Z) (ty : ObjectType.t) :
  Z.of_nat (length rest) = 2 ^ 16 - 1 ->
  let '(h, s) := createHandle new ty (creates (first :: rest) ty handle_static) in
  h = 2 ^ 16 + 1 /\ fst (lookupObject h s) = Some first /\
  fst (closeHandle h s) = (true, Some first) /\
  fst (lookupObject h (snd (closeHandle 1 s))) = fst (lookupObject 1 (snd (closeHandle h s))).
Proof.
  intros Hlen. cbn [creates]. set (s1 := snd (createHandle first ty handle_static)).
  assert (gCompressedpointerCounter s1 = 1) as Hcp by done.
  assert (gHandleCounter s1 = 2) as Hh by done.
  destruct (creates_keeps rest ty s1 0) as ([t Ht] & Hm & H1 & H2); try (rewrite ?Hcp, ?Hh; lia).
  unfold createHandle. rewrite H1, H2, Hh, Hcp, Hlen, Ht.
  set (m := gCompressedPointerMap (creates rest ty s1)) in *.
  assert (<[1 + (2 ^ 16 - 1) := Some new]> m !! 0 = Some (Some first)) as Hm0
    by (rewrite lookup_insert_ne by done; by rewrite Hm).
  split; [done|]. unfold lookupObject, closeHandle. cbn [gHandleTable app findEntry s1 snd createHandle
    handle_static gHandleCounter gCompressedpointerCounter handleId objectCompressedPointer
    gCompressedPointerMap].
  change (u16 1 =? u16 1) with true. change (u16 1 =? u16 (2 + (2 ^ 16 - 1))) with true.
  cbn [mbind option_bind fst snd gHandleTable gCompressedPointerMap objectCompressedPointer delete
    list_delete findEntry].
  unfold index_map. cbn [objectCompressedPointer]. rewrite Hm0.
  by rewrite (findEntry_mod (2 + (2 ^ 16 - 1)) 1) by done.
Qed.

Lemma handle_wraps_to_first_witness :
  Z.of_nat (length (repeat 7 (Z.to_nat 65535))) = 2 ^ 16 - 1 /\
  let '(h, s) := createHandle 9 ObjectType.THREAD
      (creates (5 :: repeat 7 (Z.to_nat 65535)) ObjectType.THREAD handle_static) in
  h = 2 ^ 16 + 1 /\ fst (lookupObject h s) = Some 5 /\
  fst (closeHandle h s) = (true, Some 5) /\
  fst (lookupObject h (snd (closeHandle 1 s))) = fst (lookupObject 1 (snd (closeHandle h s))).
Proof.
  assert (Z.of_nat (length (repeat 7 (Z.to_nat 65535))) = 2 ^ 16 - 1) as H
    by (rewrite repeat_length, Z2Nat.id; [reflexivity|lia]).
  split; [exact H|]. exact (handle_wraps_to_first 5 9 (repeat 7 (Z.to_nat 65535)) ObjectType.THREAD H).
Defined.
