(* ===== verification/MemoryMapper.v ===== *)
(** * The memory mapper: [hle/kernel/memoryMapper.cpp], [memoryMapper.h]

    The list of guest memory regions with their types and permissions.  A new mapping
    cuts or removes the ones it overlaps; the loop that does so erases list elements
    while it iterates, which is modelled as the list operations do it. *)
From S2P Require Import Prelude BitUtils Core Machine Memory.

Module MemoryType.
Inductive t : Set :=
  | UNMAPPED | IO | NORMAL | CODE_STATIC | CODE | HEAP | SHARED_MEM_BLOCK
  | WEIRD_MAPPED_MEM | MODULE_CODE_STATIC | MODULE_CODE_MUTABLE | IPC_BUFFER_0
  | MAPPED_MEM | THEAD_LOCAL_STORAGE | ISOLATED_TRANSFER_MEM | TRANSFER_MEM
  | PROCESS_MEM | RESERVED | IPC_BUFFER_1 | IPC_BUFFER_2 | UNKNOWN.

Definition all : list t :=
  [UNMAPPED; IO; NORMAL; CODE_STATIC; CODE; HEAP; SHARED_MEM_BLOCK; WEIRD_MAPPED_MEM;
   MODULE_CODE_STATIC; MODULE_CODE_MUTABLE; IPC_BUFFER_0; MAPPED_MEM;
   THEAD_LOCAL_STORAGE; ISOLATED_TRANSFER_MEM; TRANSFER_MEM; PROCESS_MEM; RESERVED;
   IPC_BUFFER_1; IPC_BUFFER_2; UNKNOWN].

#[global] Instance t_eq_dec : EqDecision t.
Proof. solve_decision. Defined.

(** [static_cast<uint8_t>(type)]: the constructors are numbered from 0. *)
Definition value (x : t) : Z :=
  match x with
  | UNMAPPED => 0x0 | IO => 0x1 | NORMAL => 0x2 | CODE_STATIC => 0x3 | CODE => 0x4
  | HEAP => 0x5 | SHARED_MEM_BLOCK => 0x6 | WEIRD_MAPPED_MEM => 0x7
  | MODULE_CODE_STATIC => 0x8 | MODULE_CODE_MUTABLE => 0x9 | IPC_BUFFER_0 => 0xA
  | MAPPED_MEM => 0xB | THEAD_LOCAL_STORAGE => 0xC | ISOLATED_TRANSFER_MEM => 0xD
  | TRANSFER_MEM => 0xE | PROCESS_MEM => 0xF | RESERVED => 0x10 | IPC_BUFFER_1 => 0x11
  | IPC_BUFFER_2 => 0x12 | UNKNOWN => 0x13
  end.
End MemoryType.

(** [static_cast<uint64_t>(permissions)]: bit 0 read, bit 1 write, bit 2 execute. *)
Definition permissionValue (q : Permission) : Z :=
  match q with
  | NONE => 0 | READ_ONLY => 1 | WRITE_ONLY => 2 | READ_WRITE => 3 | EXECUTE_ONLY => 4
  | READ_EXECUTE => 5 | WRITE_EXECUTE => 6 | ALL => 7
  end.

(** [MemoryMapping]; of [state] only [type] is ever nonzero. *)
Record MemoryMapping := mkMapping {
  base : Z;
  size : Z;
  type : MemoryType.t;
  permissions : Permission;
}.

Definition set_base b (m : MemoryMapping) : MemoryMapping :=
  mkMapping b (m.(size)) (m.(type)) (m.(permissions)).
Definition set_size n (m : MemoryMapping) : MemoryMapping :=
  mkMapping (m.(base)) n (m.(type)) (m.(permissions)).

(** What the body of the loop does to the current element. *)
Inductive loop_action : Type :=
  | Keep (m : MemoryMapping)                          (* the element, perhaps cut *)
  | Split (m front : MemoryMapping)                   (* cut, and [front] is pushed first *)
  | Erase.                                            (* [iter = gMappings.erase(iter)] *)

Definition overlap (newBase newEnd : Z) (mapping : MemoryMapping) : loop_action :=
  let mapBase := mapping.(base) in
  let mapEnd := u64 (mapping.(base) + mapping.(size) - 1) in
  if mapEnd <? newBase then Keep mapping
  else if (mapEnd >? newBase) && (mapEnd <=? newEnd) && (mapBase <? newBase) then
    Keep (set_size (u64 (newBase - mapBase)) mapping)
  else if (mapEnd >=? newEnd) && (mapBase <=? newBase) then
    if (mapBase =? newBase) && (mapEnd =? newEnd) then Erase
    else if mapBase =? newBase then
      let mapping := set_base (u64 (newEnd + 1)) mapping in
      Keep (set_size (u64 (mapEnd - mapping.(base) + 1)) mapping)
    else if mapEnd =? newEnd then Keep (set_size (u64 (newBase - mapBase)) mapping)
    else
      Split (set_size (u64 (newBase - mapBase)) mapping)
        (mkMapping (u64 (newEnd + 1)) (u64 (mapEnd - newEnd)) (mapping.(type))
           (mapping.(permissions)))
  else if (mapEnd <=? newEnd) && (mapBase >=? newBase) then Erase
  else if (mapBase >=? newBase) && (mapBase <? newEnd) && (mapEnd >? newEnd) then
    let mapping := set_base (u64 (newEnd + 1)) mapping in
    Keep (set_size (u64 (mapEnd - mapping.(base) + 1)) mapping)
  else Keep mapping.

(** The loop, from the current element on: the elements pushed to the front, last
    pushed first, and what the rest of the list becomes.  [erase] returns the next
    element, which the [iter++] of the loop then steps over; at the end of the list
    that increment is undefined. *)
Fixpoint overlapLoop (newBase newEnd : Z) (rest : list MemoryMapping)
    : result (list MemoryMapping * list MemoryMapping) :=
  match rest with
  | [] => Ok ([], [])
  | mapping :: rest =>
      match overlap newBase newEnd mapping with
      | Keep m =>
          '(front, rest) ← overlapLoop newBase newEnd rest; Ok (front, m :: rest)
      | Split m f =>
          '(front, rest) ← overlapLoop newBase newEnd rest; Ok (front ++ [f], m :: rest)
      | Erase =>
          match rest with
          | [] => Err Undefined
          | skipped :: rest =>
              '(front, rest) ← overlapLoop newBase newEnd rest; Ok (front, skipped :: rest)
          end
      end
  end.

(** [std::list::sort] is stable. *)
Fixpoint insertMapping (m : MemoryMapping) (l : list MemoryMapping) : list MemoryMapping :=
  match l with
  | [] => [m]
  | x :: l => if x.(base) <? m.(base) then x :: insertMapping m l else m :: x :: l
  end.

Definition sortMappings (l : list MemoryMapping) : list MemoryMapping :=
  foldr insertMapping [] l.

(** The part of [addMapping] that updates [gMappings]. *)
Definition mapRegion (base size : Z) (type : MemoryType.t) (permissions : Permission)
    (gMappings : list MemoryMapping) : result (list MemoryMapping) :=
  let newBase := base in
  let newEnd := u64 (base + size - 1) in
  '(front, rest) ← overlapLoop newBase newEnd gMappings;
  Ok (sortMappings (mkMapping base size type permissions :: front ++ rest)).

(** [findMapping]: past the loop it returns a reference to a temporary. *)
Fixpoint findMapping (addr : Z) (gMappings : list MemoryMapping) : result MemoryMapping :=
  match gMappings with
  | [] => Err Undefined
  | mapping :: gMappings =>
      if (addr >=? mapping.(base)) && (addr <? u64 (mapping.(base) + mapping.(size)))
      then Ok mapping
      else findMapping addr gMappings
  end.

(** ** The memory behind the mappings *)

Class PageAdmin (Mem : Type) := {
  mallocateRegion (beginPageNum numPages : Z) (m : Mem) : result (bool * Mem);
  mprotectRegion (beginPageNum numPages : Z) (q : Permission) (m : Mem) : result Mem;
  mwriteRegion (addr : Z) (data : list Z) (m : Mem) : result Mem;
}.

#[export] Instance MemState_PageAdmin : PageAdmin MemState := {
  mallocateRegion := allocateRegion;
  mprotectRegion := protectRegion;
  mwriteRegion := writeRegion;
}.

Section AddMapping.
Context {Mem : Type} `{PageAdmin Mem}.

Definition addMapping (base size : Z) (type : MemoryType.t) (permissions : Permission)
    (s : list MemoryMapping * Mem) : result (list MemoryMapping * Mem) :=
  let '(gMappings, m) := s in
  gMappings ← mapRegion base size type permissions gMappings;
  if decide (type = MemoryType.UNMAPPED) then Ok (gMappings, m)
  else
    '(_, m) ← mallocateRegion (base / PAGE_SIZE) (size / PAGE_SIZE) m;
    m ← mprotectRegion (base / PAGE_SIZE) (size / PAGE_SIZE) permissions m;
    Ok (gMappings, m).
End AddMapping.
