(* ===== verification/Thread.v ===== *)
(** * Guest threads: [hle/kernel/thread.h], [thread.cpp]

    The saved context of a thread, its state, and the two functions that move a
    context in and out of a core.  The operations of [Thread] that reach other
    threads are in [Scheduler]. *)
From S2P Require Import Prelude BitUtils Core Machine HandleManager.

Definition HIGHEST_PRIORITY : Z := 0.
Definition LOWEST_PRIORITY : Z := 63.
Definition NO_PRIORITY : Z := 64.

(** [enum class CoreAffinity : uint32_t]: any 32-bit value can be stored in it. *)
Definition CORE0 : Z := 0.
Definition DEFAULT_CORE : Z := 0xFFFFFFFE.

Module ThreadStatus.
Inductive t : Set := UNINITIATED | INITIALIZED | READY | RUNNING | WAITING | EXITED.
#[global] Instance t_eq_dec : EqDecision t.
Proof. solve_decision. Defined.
End ThreadStatus.

(** [ThreadContext] *)
Module Context.
Record t := mk {
  GPRegs : list Z;      (* 31 *)
  VRegs : list VReg;    (* 32 *)
  PC : Z;
  SP : Z;
  PState : PSTATE.t;
  TLSAddr : Z;
}.
End Context.

(** The two functions assigned to [wakeupCallback]. *)
Inductive WakeupCallback : Set :=
  | DEFAULT_WAKEUP_CALLBACK
  | cancelAllWaitObjectsCallback.   (* [thread->cancelAllWaitObjects()] *)

Record Thread := mkThread {
  context : Context.t;
  status : ThreadStatus.t;
  affinity : Z;
  priority : Z;
  waitingThreads : list Z;
  wakeupCallback : WakeupCallback;
}.

Definition set_context c (t : Thread) : Thread :=
  mkThread c (t.(status)) (t.(affinity)) (t.(priority)) (t.(waitingThreads))
    (t.(wakeupCallback)).
Definition set_status v (t : Thread) : Thread :=
  mkThread (t.(context)) v (t.(affinity)) (t.(priority)) (t.(waitingThreads))
    (t.(wakeupCallback)).
Definition set_waitingThreads l (t : Thread) : Thread :=
  mkThread (t.(context)) (t.(status)) (t.(affinity)) (t.(priority)) l
    (t.(wakeupCallback)).
Definition set_wakeupCallback w (t : Thread) : Thread :=
  mkThread (t.(context)) (t.(status)) (t.(affinity)) (t.(priority)) (t.(waitingThreads)) w.

Definition getTLS (t : Thread) : Z := Context.TLSAddr (t.(context)).

(** The constructor; it leaves [context.PSTATE] with what the allocation held. *)
Definition newThread (uninitialised : PSTATE.t) (entry arg stack priorityIn affinityIn : Z)
    : Thread :=
  let GPRegs := replicate 31 0 in
  let VRegs := replicate 32 (mkVReg 0 0) in
  let GPRegs := <[0%nat := arg]> GPRegs in
  let GPRegs := <[30%nat := 0x0BADC0DE]> GPRegs in
  mkThread (Context.mk GPRegs VRegs entry stack uninitialised 0)
    ThreadStatus.UNINITIATED
    (if affinityIn =? DEFAULT_CORE then CORE0 else affinityIn)
    priorityIn [] DEFAULT_WAKEUP_CALLBACK.

Definition wait (t : Thread) : Thread := set_status ThreadStatus.WAITING t.

(** [cancelAllWaitObjects] has no body yet, and neither has the default callback. *)
Definition cancelAllWaitObjects (t : Thread) : Thread := t.
Definition runWakeupCallback (w : WakeupCallback) (t : Thread) : Thread :=
  match w with
  | DEFAULT_WAKEUP_CALLBACK => t
  | cancelAllWaitObjectsCallback => cancelAllWaitObjects t
  end.

Definition wakeup (t : Thread) : Thread :=
  set_wakeupCallback DEFAULT_WAKEUP_CALLBACK (runWakeupCallback (t.(wakeupCallback)) t).

(** Removes the first occurrence. *)
Fixpoint removeFirst (handle : Z) (l : list Z) : list Z :=
  match l with
  | [] => []
  | h :: l => if h =? handle then l else h :: removeFirst handle l
  end.

Definition removeHandle (handle : Z) (t : Thread) : Thread :=
  set_waitingThreads (removeFirst handle (t.(waitingThreads))) t.

(** [saveState] and [restoreState]; the loops copy registers 0 to 30 and all 32
    vector registers. *)
Definition saveState (state : Core) : Context.t :=
  Context.mk (take 31 (GPRegs state)) (take 32 (VRegs state)) (PC state) (SP state)
    (PState state) (TLSAddr state).

Definition restoreState (context : Context.t) (state : Core) : Core :=
  let state := set_GPRegs (take 31 (Context.GPRegs context) ++ drop 31 (GPRegs state)) state in
  let state := set_VRegs (take 32 (Context.VRegs context) ++ drop 32 (VRegs state)) state in
  let state := set_PC (Context.PC context) state in
  let state := set_SP (Context.SP context) state in
  let state := set_PState (Context.PState context) state in
  set_TLSAddr (Context.TLSAddr context) state.

(** ** Saving and restoring *)

(** The registers of a core that belong to the guest thread. *)
Definition same_registers (c c' : Core) : Prop :=
  (forall r, 0 <= r < 31 -> getX c r = getX c' r) /\ VRegs c = VRegs c' /\
  PC c = PC c' /\ SP c = SP c' /\ PState c = PState c' /\ TLSAddr c = TLSAddr c'.

(** A context of the right shape: the sizes of its arrays and its integer types. *)
Record wf_Context (x : Context.t) : Prop := {
  wfc_GPRegs_len : length (Context.GPRegs x) = 31%nat;
  wfc_GPRegs : Forall (uint 64) (Context.GPRegs x);
  wfc_VRegs_len : length (Context.VRegs x) = 32%nat;
  wfc_VRegs : Forall wf_VReg (Context.VRegs x);
  wfc_PC : uint 64 (Context.PC x);
  wfc_SP : uint 64 (Context.SP x);
  wfc_TLSAddr : uint 64 (Context.TLSAddr x);
}.

Lemma saveState_wf c : wf_Core c -> wf_Context (saveState c).
Proof.
  intros Hc. constructor; cbn; try by apply Hc.
  - rewrite length_take, (wf_GPRegs_len c Hc). done.
  - apply Forall_take, Hc.
  - rewrite length_take, (wf_VRegs_len c Hc). done.
  - apply Forall_take, Hc.
Qed.

Lemma restoreState_wf x c : wf_Context x -> wf_Core c -> wf_Core (restoreState x c).
Proof.
  intros Hx Hc. unfold restoreState. constructor; cbn; try by apply Hc. all: try by apply Hx.
  - rewrite length_app, length_take, length_drop, (wfc_GPRegs_len x Hx), (wf_GPRegs_len c Hc). done.
  - apply Forall_app; split; [apply Forall_take, Hx|apply Forall_drop, Hc].
  - rewrite length_app, length_take, length_drop, (wfc_VRegs_len x Hx), (wf_VRegs_len c Hc). done.
  - apply Forall_app; split; [apply Forall_take, Hx|apply Forall_drop, Hc].
Qed.

(** What is saved from a core is what restoring puts into any other. *)
Lemma restore_save c c' : wf_Core c -> wf_Core c' ->
  same_registers (restoreState (saveState c) c') c.
Proof.
  intros Hc Hc'. pose proof (wf_GPRegs_len c Hc). pose proof (wf_VRegs_len c Hc).
  pose proof (wf_VRegs_len c' Hc'). unfold same_registers, restoreState, saveState. cbn.
  split; [|split; [|done]].
  - intros r Hr. unfold getX. cbn. rewrite take_take, app_nth1.
    + rewrite !nth_lookup, lookup_take_lt by lia. done.
    + rewrite length_take. lia.
  - rewrite take_take, drop_ge, app_nil_r, take_ge by lia. done.
Qed.

Lemma newThread_wf g entry arg stack prio aff :
  uint 64 entry -> uint 64 arg -> uint 64 stack ->
  wf_Context (context (newThread g entry arg stack prio aff)).
Proof.
  intros H1 H2 H3. constructor; cbn [newThread context Context.GPRegs Context.VRegs Context.PC
    Context.SP Context.TLSAddr]; try done.
  - repeat apply Forall_insert; [|done|unfold uint; lia].
    apply Forall_replicate. unfold uint. lia.
  - apply Forall_replicate. split; unfold uint; cbn; lia.
Qed.
