(* ===== verification/Display.v ===== *)
(** * Displays, layers and buffer queues: [hle/nn/vi/display.cpp], [nn/vi/Display.h]

    A program draws into buffers that it queues in the queue of a layer; the graphics
    thread shows them.  The functions that search a vector and dereference the result
    without a test are undefined when nothing is found. *)
From stdpp Require Import strings.
From S2P Require Import Prelude BitUtils Core Machine.
#[global] Open Scope Z_scope.

(** The iterator of [std::find_if], dereferenced. *)
Definition find_first {A} (p : A -> bool) (l : list A) : option (nat * A) := list_find (fun x => p x = true) l.
Definition deref {A} (o : option A) : result A :=
  match o with Some x => Ok x | None => Err Undefined end.

(** The members of the flattened buffer the program reads. *)
Record IGBPBuffer := mkIGBPBuffer {
  magic : Z; width : Z; height : Z; stride : Z; format : Z; usage : Z;
  bufferIndex : Z; gpuBufferId : Z; nvmapHandle : Z; bufferOffset : Z;
}.

(** ** [BufferQueue] *)
Module BufferQueue.

Inductive Status : Set := FREE | DEQUEUED | QUEUED.
#[export] Instance Status_eq_dec : EqDecision Status.
Proof. solve_decision. Defined.

Record GraphicBuffer := mkGraphicBuffer { status : Status; slot : Z; buffer : IGBPBuffer }.
Definition set_status (s : Status) (b : GraphicBuffer) : GraphicBuffer :=
  mkGraphicBuffer s (slot b) (buffer b).

Record t := mk { id : Z; buffers : list GraphicBuffer }.
Definition set_buffers (l : list GraphicBuffer) (q : t) : t := mk (id q) l.

Definition hasStatus (s : Status) (b : GraphicBuffer) : bool := bool_decide (status b = s).

Definition setPreallocatedBuffer (slot : Z) (buffer : IGBPBuffer) (q : t) : t :=
  set_buffers (buffers q ++ [mkGraphicBuffer FREE slot buffer]) q.

(** The search the functions begin with. *)
Definition findSlot (s : Z) (q : t) : result (nat * GraphicBuffer) :=
  deref (find_first (fun b => slot b =? s) (buffers q)).

Definition requestBuffer (s : Z) (q : t) : result IGBPBuffer :=
  '(_, b) ← findSlot s q; Ok (buffer b).

(** [itr->status = s]. *)
Definition assignStatus (s : Status) (i : nat) (b : GraphicBuffer) (q : t) : t :=
  set_buffers (<[i := set_status s b]> (buffers q)) q.

Definition dequeueBuffer (q : t) : result (Z * t) :=
  '(i, b) ← deref (find_first (hasStatus FREE) (buffers q));
  Ok (slot b, assignStatus DEQUEUED i b q).

Definition queueBuffer (s : Z) (q : t) : result t :=
  '(i, b) ← findSlot s q; Ok (assignStatus QUEUED i b q).

Definition freeBuffer (s : Z) (q : t) : result t :=
  '(i, b) ← findSlot s q; Ok (assignStatus FREE i b q).

Definition getQueuedBuffer (q : t) : option GraphicBuffer :=
  snd <$> find_first (hasStatus QUEUED) (buffers q).
End BufferQueue.

(** ** [Layer] and [Display] *)
Module Layer.
Record t := mk { id : Z; bufferId : Z }.
End Layer.

Module Display.
Record t := mk { id : Z; name : string; layers : list Z }.
Definition addLayer (layerId : Z) (d : t) : t := mk (id d) (name d) (layers d ++ [layerId]).
End Display.

(** ** [DisplayManager] *)
Module DisplayManager.

Record t := mk {
  nextLayer : Z;
  nextBuffer : Z;
  displays : list Display.t;
  layers : list Layer.t;
  buffers : list BufferQueue.t;
}.

(** The constructor. *)
Definition initial : t := mk 100 1000 [Display.mk 1 "Default" []] [] [].

Definition set_displays (l : list Display.t) (d : t) : t :=
  mk (nextLayer d) (nextBuffer d) l (layers d) (buffers d).
Definition set_buffers (l : list BufferQueue.t) (d : t) : t :=
  mk (nextLayer d) (nextBuffer d) (displays d) (layers d) l.

Definition openDisplay (name : string) (d : t) : result Z :=
  '(_, x) ← deref (find_first (fun x => String.eqb (Display.name x) name) (displays d));
  Ok (Display.id x).

Definition getDisplay (id : Z) (d : t) : result (nat * Display.t) :=
  deref (find_first (fun x => Display.id x =? id) (displays d)).

Definition getLayer (id : Z) (d : t) : result (nat * Layer.t) :=
  deref (find_first (fun x => Layer.id x =? id) (layers d)).

Definition getBufferQueue (id : Z) (d : t) : result (nat * BufferQueue.t) :=
  deref (find_first (fun x => BufferQueue.id x =? id) (buffers d)).

Definition createBufferQueue (d : t) : Z * t :=
  let bufferId := nextBuffer d in
  (bufferId, mk (nextLayer d) (u64 (nextBuffer d + 1)) (displays d) (layers d)
     (buffers d ++ [BufferQueue.mk bufferId []])).

Definition createLayer (displayId : Z) (d : t) : result (Z * t) :=
  let layerId := nextLayer d in
  let d := mk (u64 (nextLayer d + 1)) (nextBuffer d) (displays d) (layers d) (buffers d) in
  let '(bufferId, d) := createBufferQueue d in
  let d := mk (nextLayer d) (nextBuffer d) (displays d) (layers d ++ [Layer.mk layerId bufferId])
             (buffers d) in
  '(i, x) ← getDisplay displayId d;
  Ok (layerId, set_displays (<[i := Display.addLayer layerId x]> (displays d)) d).

(** What one of the functions of a queue does to the manager that holds it. *)
Definition updateQueue {A} (id : Z) (f : BufferQueue.t -> result (A * BufferQueue.t)) (d : t)
    : result (A * t) :=
  '(i, q) ← getBufferQueue id d;
  '(a, q) ← f q;
  Ok (a, set_buffers (<[i := q]> (buffers d)) d).

(** One layer of [draw]: the buffer that is shown, if there is one, and the queue without
    it.  [address] is where a buffer is in guest memory. *)
Definition drawLayer (address : IGBPBuffer -> result Z) (layerId : Z) (d : t)
    : result (option Z * t) :=
  '(_, layer) ← getLayer layerId d;
  '(_, bufferQueue) ← getBufferQueue (Layer.bufferId layer) d;
  match BufferQueue.getQueuedBuffer bufferQueue with
  | None => Ok (None, d)
  | Some b =>
      addr ← address (BufferQueue.buffer b);
      updateQueue (Layer.bufferId layer)
        (fun q => q ← BufferQueue.freeBuffer (BufferQueue.slot b) q; Ok (Some addr, q)) d
  end.

Fixpoint drawLayers (address : IGBPBuffer -> result Z) (l : list Z) (d : t) : result (list Z * t) :=
  match l with
  | [] => Ok ([], d)
  | layerId :: l =>
      '(shown, d) ← drawLayer address layerId d;
      '(rest, d) ← drawLayers address l d;
      Ok (option_list shown ++ rest, d)
  end.

(** [draw]: the addresses given to [GraphicsDriver::setBuffer], in order.  Neither loop
    changes what it ranges over. *)
Definition draw (address : IGBPBuffer -> result Z) (d : t) : result (list Z * t) :=
  drawLayers address (concat (map Display.layers (displays d))) d.
End DisplayManager.

(** The address of a buffer: [lookupNvmapObject(nvmapHandle).addr + offset]. *)
Definition bufferAddress (lookup : Z -> option Z) (b : IGBPBuffer) : result Z :=
  addr ← deref (lookup (nvmapHandle b)); Ok (u64 (addr + bufferOffset b)).
