(* ===== verification/LoaderFormat.v ===== *)
(** * The files the loader reads: [loader/elf.h], [mod.h], [nso.h], [loader.h], and the
      readers of [loader.cpp]

    The headers of ELF and NSO files, the sections and symbols of a program, and the
    functions that fill them from a buffer.  All of them read through one cursor; the
    offset they leave it at is part of their result.  A read outside of a vector is
    undefined. *)
From stdpp Require Import strings pretty.
From Stdlib Require Import Ascii.
From S2P Require Import Prelude BitUtils Core Machine.
#[global] Open Scope Z_scope.

(** ** Bytes *)

(** A string constructed from a pointer to characters, the terminator among them. *)
Fixpoint cstring (l : list Z) : string :=
  match l with
  | [] => EmptyString
  | b :: l => if b =? 0 then EmptyString else String (ascii_of_N (Z.to_N b)) (cstring l)
  end.

(** [data.data() + off], read as a string: without a terminator it goes on behind the
    vector. *)
Definition stringAt (data : list Z) (off : Z) : result string :=
  if off <? Z.of_nat (length data) then
    let l := drop (Z.to_nat off) data in
    if existsb (Z.eqb 0) l then Ok (cstring l) else Err Undefined
  else Err Undefined.

(** [n] bytes of a vector from an offset on. *)
Definition slice (data : list Z) (off n : Z) : result (list Z) :=
  if off + n <=? Z.of_nat (length data)
  then Ok (take (Z.to_nat n) (drop (Z.to_nat off) data)) else Err Undefined.

(** [v[i]] of a vector. *)
Definition elementAt {A} (i : Z) (l : list A) : result A :=
  match l !! Z.to_nat i with Some x => Ok x | None => Err Undefined end.

(** ** [FileCursor] *)

(** [read] of a [T] of [n] bytes. *)
Definition readT (n : nat) (buffer : list Z) (o : Z) : result (Z * Z) :=
  bytes ← slice buffer o (Z.of_nat n); Ok (ofBytes bytes, u64 (o + Z.of_nat n)).

(** The loops that fill an array of bytes. *)
Fixpoint readArray (n : nat) (buffer : list Z) (o : Z) : result (list Z * Z) :=
  match n with
  | O => Ok ([], o)
  | S n =>
      '(b, o) ← readT 1 buffer o;
      '(l, o) ← readArray n buffer o;
      Ok (b :: l, o)
  end.

(** ** [elf.h], [loader.h] *)

Record ElfHeader := mkElfHeader {
  e_magic : list Z; e_class : Z; e_data : Z; e_elfversion : Z; e_osabi : Z;
  e_abiversion : Z; e_pad : list Z;
  e_type : Z; e_machine : Z; e_version : Z; e_entry : Z; e_phoff : Z; e_shoff : Z;
  e_flags : Z; e_ehsize : Z; e_phentsize : Z; e_phnum : Z; e_shentsize : Z; e_shnum : Z;
  e_shstrndx : Z;
}.
Definition sizeof_ElfHeader : Z := 64.
(** A global: all bytes are zero. *)
Definition emptyElfHeader : ElfHeader :=
  mkElfHeader [0; 0; 0; 0] 0 0 0 0 0 [0; 0; 0; 0; 0; 0; 0] 0 0 0 0 0 0 0 0 0 0 0 0 0.
Definition set_e_entry v (eh : ElfHeader) : ElfHeader :=
  mkElfHeader (e_magic eh) (e_class eh) (e_data eh) (e_elfversion eh) (e_osabi eh)
    (e_abiversion eh) (e_pad eh) (e_type eh) (e_machine eh) (e_version eh) v (e_phoff eh)
    (e_shoff eh) (e_flags eh) (e_ehsize eh) (e_phentsize eh) (e_phnum eh) (e_shentsize eh)
    (e_shnum eh) (e_shstrndx eh).

Definition SHT_RELA : Z := 4.
Definition SHT_NOBITS : Z := 8.
Definition SHT_REL : Z := 9.

Record ElfSectionHeader := mkElfSectionHeader {
  sh_name : Z; sh_type : Z; sh_flags : Z; sh_addr : Z; sh_offset : Z; sh_size : Z;
  sh_link : Z; sh_info : Z; sh_addralign : Z; sh_entsize : Z;
}.
Definition sizeof_ElfSectionHeader : Z := 64.

Definition SHN_UNDEF : Z := 0.

Record ElfSymbolHeader := mkElfSymbolHeader {
  st_name : Z; st_info : Z; st_other : Z; st_shndx : Z; st_value : Z; st_size : Z;
}.
Definition sizeof_ElfSymbolHeader : Z := 24.
Definition st_type (h : ElfSymbolHeader) : Z := bitRange 0 3 (st_info h).
Definition st_bind (h : ElfSymbolHeader) : Z := bitRange 4 7 (st_info h).
Definition set_st_value v (h : ElfSymbolHeader) : ElfSymbolHeader :=
  mkElfSymbolHeader (st_name h) (st_info h) (st_other h) (st_shndx h) v (st_size h).

Definition STB_GLOBAL : Z := 1.
Definition STB_WEAK : Z := 2.

Record ElfProgramHeader := mkElfProgramHeader {
  p_type : Z; p_flags : Z; p_offset : Z; p_vaddr : Z; p_paddr : Z; p_filesz : Z;
  p_memsz : Z; p_align : Z;
}.
Definition PT_LOAD : Z := 1.
Definition PT_DYNAMIC : Z := 2.

Record ElfDyn := mkElfDyn { d_tag : Z; d_val : Z }.
Definition DT_NULL : Z := 0.
Definition DT_NEEDED : Z := 1.
Definition DT_PLTRELSZ : Z := 2.
Definition DT_PLTGOT : Z := 3.
Definition DT_STRTAB : Z := 5.
Definition DT_SYMTAB : Z := 6.
Definition DT_RELA : Z := 7.
Definition DT_RELASZ : Z := 8.
Definition DT_STRSZ : Z := 10.
Definition DT_INIT : Z := 12.
Definition DT_FINI : Z := 13.
Definition DT_PLTREL : Z := 20.
Definition DT_JMPREL : Z := 23.
Definition DT_RELACOUNT : Z := 0x6ffffff9.

Record ElfRela := mkElfRela { r_offset : Z; r_info : Z; r_addend : Z }.
Definition sizeof_ElfRela : Z := 24.
Definition R_AARCH64_JUMP_SLOT : Z := 1026.

Record ElfSection := mkSection { sh : ElfSectionHeader; sectionData : list Z; sectionName : string }.
Definition emptySection : ElfSection := mkSection (mkElfSectionHeader 0 0 0 0 0 0 0 0 0 0) [] "".
Definition set_sh v (s : ElfSection) : ElfSection := mkSection v (sectionData s) (sectionName s).
Definition set_data v (s : ElfSection) : ElfSection := mkSection (sh s) v (sectionName s).
Definition set_name v (s : ElfSection) : ElfSection := mkSection (sh s) (sectionData s) v.

Record Symbol := mkSymbol { symHeader : ElfSymbolHeader; symName : string }.

Record Program := mkProgram {
  eh : ElfHeader;
  sections : list ElfSection;
  symbols : list Symbol;
  dynSymbols : list Symbol;
}.
Definition emptyProgram : Program := mkProgram emptyElfHeader [] [] [].
Definition set_eh v (p : Program) : Program := mkProgram v (sections p) (symbols p) (dynSymbols p).
Definition set_sections v (p : Program) : Program := mkProgram (eh p) v (symbols p) (dynSymbols p).
Definition set_symbols v (p : Program) : Program := mkProgram (eh p) (sections p) v (dynSymbols p).
Definition set_dynSymbols v (p : Program) : Program := mkProgram (eh p) (sections p) (symbols p) v.

Definition findSection (s : string) (p : Program) : option ElfSection :=
  find (fun x => String.eqb (sectionName x) s) (sections p).
Definition programSymbol (s : string) (p : Program) : option Symbol :=
  find (fun x => String.eqb (symName x) s) (symbols p).

(** ** Reading an ELF file *)

Definition readElfHeader (buffer : list Z) (o : Z) : result (ElfHeader * Z) :=
  '(magic, o) ← readArray 4 buffer o;
  '(class, o) ← readT 1 buffer o;
  '(data, o) ← readT 1 buffer o;
  '(elfversion, o) ← readT 1 buffer o;
  '(osabi, o) ← readT 1 buffer o;
  '(abiversion, o) ← readT 1 buffer o;
  '(pad, o) ← readArray 7 buffer o;
  '(type, o) ← readT 2 buffer o;
  '(machine, o) ← readT 2 buffer o;
  '(version, o) ← readT 4 buffer o;
  '(entry, o) ← readT 8 buffer o;
  '(phoff, o) ← readT 8 buffer o;
  '(shoff, o) ← readT 8 buffer o;
  '(flags, o) ← readT 4 buffer o;
  '(ehsize, o) ← readT 2 buffer o;
  '(phentsize, o) ← readT 2 buffer o;
  '(phnum, o) ← readT 2 buffer o;
  '(shentsize, o) ← readT 2 buffer o;
  '(shnum, o) ← readT 2 buffer o;
  '(shstrndx, o) ← readT 2 buffer o;
  Ok (mkElfHeader magic class data elfversion osabi abiversion pad type machine version
        entry phoff shoff flags ehsize phentsize phnum shentsize shnum shstrndx, o).

Definition readSectionHeader (buffer : list Z) (o : Z) : result (ElfSectionHeader * Z) :=
  '(name, o) ← readT 4 buffer o;
  '(type, o) ← readT 4 buffer o;
  '(flags, o) ← readT 8 buffer o;
  '(addr, o) ← readT 8 buffer o;
  '(offset, o) ← readT 8 buffer o;
  '(size, o) ← readT 8 buffer o;
  '(link, o) ← readT 4 buffer o;
  '(info, o) ← readT 4 buffer o;
  '(addralign, o) ← readT 8 buffer o;
  '(entsize, o) ← readT 8 buffer o;
  Ok (mkElfSectionHeader name type flags addr offset size link info addralign entsize, o).

Definition readSymbolHeader (buffer : list Z) (o : Z) : result (ElfSymbolHeader * Z) :=
  '(name, o) ← readT 4 buffer o;
  '(info, o) ← readT 1 buffer o;
  '(other, o) ← readT 1 buffer o;
  '(shndx, o) ← readT 2 buffer o;
  '(value, o) ← readT 8 buffer o;
  '(size, o) ← readT 8 buffer o;
  Ok (mkElfSymbolHeader name info other shndx value size, o).

(** The body of the loop of [readSections]: a section without size keeps the data an
    earlier file left there. *)
Definition readSection (buffer : list Z) (offset : Z) (section : ElfSection)
    : result (ElfSection * Z) :=
  '(h, o) ← readSectionHeader buffer offset;
  let section := set_sh h section in
  if sh_size h =? 0 then Ok (section, o)
  else if sh_type h =? SHT_NOBITS then
    Ok (set_data (replicate (Z.to_nat (sh_size h)) 0xCC) section, sh_offset h)
  else
    '(data, o) ← readArray (Z.to_nat (sh_size h)) buffer (sh_offset h);
    Ok (set_data data section, o).

Fixpoint readSectionsLoop (buffer : list Z) (shoff shentsize i : Z) (l : list ElfSection) (o : Z)
    : result (list ElfSection * Z) :=
  match l with
  | [] => Ok ([], o)
  | section :: l =>
      '(section, o) ← readSection buffer (u64 (shoff + i * shentsize)) section;
      '(l, o) ← readSectionsLoop buffer shoff shentsize (i + 1) l o;
      Ok (section :: l, o)
  end.

(** [v.resize(n)] *)
Definition resized {A} (n : nat) (x : A) (l : list A) : list A :=
  take n l ++ replicate (n - length l) x.

Definition readSections (buffer : list Z) (p : Program) (o : Z) : result (Program * Z) :=
  let l := resized (Z.to_nat (e_shnum (eh p))) emptySection (sections p) in
  '(l, o) ← readSectionsLoop buffer (e_shoff (eh p)) (e_shentsize (eh p)) 0 l o;
  Ok (set_sections l p, o).

Fixpoint nameSections (strings : list Z) (l : list ElfSection) : result (list ElfSection) :=
  match l with
  | [] => Ok []
  | section :: l =>
      name ← stringAt strings (sh_name (sh section));
      l ← nameSections strings l;
      Ok (set_name name section :: l)
  end.

Definition loadSections (p : Program) : result Program :=
  strSection ← elementAt (e_shstrndx (eh p)) (sections p);
  l ← nameSections (sectionData strSection) (sections p);
  Ok (set_sections l p).

Fixpoint readSymbols (n : nat) (strings buffer : list Z) (o : Z) : result (list Symbol * Z) :=
  match n with
  | O => Ok ([], o)
  | S n =>
      '(h, o) ← readSymbolHeader buffer o;
      name ← stringAt strings (st_name h);
      '(l, o) ← readSymbols n strings buffer o;
      Ok (mkSymbol h name :: l, o)
  end.

(** What [loadSymbols] and [loadDynSymbols] have in common. *)
Definition readSymbolSection (name : string) (buffer : list Z) (p : Program) (o : Z)
    : result (option (list Symbol) * Z) :=
  match findSection name p with
  | None => Ok (None, o)
  | Some symbolSection =>
      stringSection ← elementAt (sh_link (sh symbolSection)) (sections p);
      let numSymbols := Z.of_nat (length (sectionData symbolSection)) / sizeof_ElfSymbolHeader in
      '(l, o) ← readSymbols (Z.to_nat numSymbols) (sectionData stringSection) buffer
                  (sh_offset (sh symbolSection));
      Ok (Some l, o)
  end.

Definition loadSymbols (buffer : list Z) (p : Program) (o : Z) : result (Program * Z) :=
  '(l, o) ← readSymbolSection ".symtab" buffer p o;
  Ok (match l with None => p | Some l => set_symbols l p end, o).

Definition loadDynSymbols (buffer : list Z) (p : Program) (o : Z) : result (Program * Z) :=
  '(l, o) ← readSymbolSection ".dynsym" buffer p o;
  Ok (match l with None => p | Some l => set_dynSymbols l p end, o).

Definition readRela (buffer : list Z) (o : Z) : result (ElfRela * Z) :=
  '(offset, o) ← readT 8 buffer o;
  '(info, o) ← readT 8 buffer o;
  '(addend, o) ← readT 8 buffer o;
  Ok (mkElfRela offset info addend, o).

Definition readProgramHeader (buffer : list Z) (o : Z) : result (ElfProgramHeader * Z) :=
  '(type, o) ← readT 4 buffer o;
  '(flags, o) ← readT 4 buffer o;
  '(offset, o) ← readT 8 buffer o;
  '(vaddr, o) ← readT 8 buffer o;
  '(paddr, o) ← readT 8 buffer o;
  '(filesz, o) ← readT 8 buffer o;
  '(memsz, o) ← readT 8 buffer o;
  '(align, o) ← readT 8 buffer o;
  Ok (mkElfProgramHeader type flags offset vaddr paddr filesz memsz align, o).

(** ** [nso.h] *)

(** The second union member of the last word is [alignment]. *)
Record NsoSegmentHeader := mkNsoSegmentHeader {
  dataOffset : Z; memoryOffset : Z; segmentSize : Z; bssSize : Z;
}.

(** The members the loader uses. *)
Record NSO_header := mkNsoHeader {
  nsoMagic : list Z; nsoFlags : Z;
  segmentHeaders : list NsoSegmentHeader;
  segmentSizes : list Z;
}.
Definition sizeof_NSO_header : Z := 0x100.

Definition readSegmentHeader (i : nat) (h : list Z) : NsoSegmentHeader :=
  let off := (0x10 + i * 0x10)%nat in
  mkNsoSegmentHeader (member off 4 h) (member (off + 4) 4 h) (member (off + 8) 4 h)
    (member (off + 12) 4 h).

(** [gFileReader.seek(0)] and [read] of the header as a whole. *)
Definition readNsoHeader (buffer : list Z) : result (NSO_header * Z) :=
  h ← slice buffer 0 sizeof_NSO_header;
  Ok (mkNsoHeader (take 4 h) (member 0xC 4 h) (map (fun i => readSegmentHeader i h) (seq 0 3))
        (map (fun i => member (0x60 + i * 4) 4 h) (seq 0 3)), sizeof_NSO_header).

(** ** [mod.h] *)

Record ModHeader := mkModHeader { modMagic : Z; dynamic : Z }.
Definition sizeof_ModHeader : Z := 0x1C.

(** The members that are written to; all are 0 at first. *)
Record ModObject := mkModObject {
  relplt : Z; reldyn : Z; module_base : Z; isRela : Z; relpltSize : Z; init_ : Z; fini_ : Z;
  strtab : Z; symtab : Z; strtabSize : Z; got : Z; reladynSize : Z; relaCount : Z;
}.
Definition newModObject (base : Z) : ModObject := mkModObject 0 0 base 0 0 0 0 0 0 0 0 0 0.

(** One entry of the dynamic section: the [switch] of [loadNso], [DT_NEEDED] apart. *)
Definition dynamicEntry (e : ElfDyn) (m : ModObject) : ModObject :=
  let '(mkModObject relplt reldyn base isRela relpltSize init fini strtab symtab strtabSize
          got reladynSize relaCount) := m in
  let v := d_val e in
  let tag := d_tag e in
  if tag =? DT_JMPREL then
    mkModObject v reldyn base isRela relpltSize init fini strtab symtab strtabSize got reladynSize relaCount
  else if tag =? DT_RELA then
    mkModObject relplt v base isRela relpltSize init fini strtab symtab strtabSize got reladynSize relaCount
  else if tag =? DT_RELASZ then
    mkModObject relplt reldyn base isRela relpltSize init fini strtab symtab strtabSize got v relaCount
  else if tag =? DT_PLTREL then
    let isRela := if v =? 7 then 1 else if v =? 17 then 0 else isRela in
    mkModObject relplt reldyn base isRela relpltSize init fini strtab symtab strtabSize got reladynSize relaCount
  else if tag =? DT_PLTRELSZ then
    mkModObject relplt reldyn base isRela v init fini strtab symtab strtabSize got reladynSize relaCount
  else if tag =? DT_INIT then
    mkModObject relplt reldyn base isRela relpltSize v fini strtab symtab strtabSize got reladynSize relaCount
  else if tag =? DT_FINI then
    mkModObject relplt reldyn base isRela relpltSize init v strtab symtab strtabSize got reladynSize relaCount
  else if tag =? DT_STRTAB then
    mkModObject relplt reldyn base isRela relpltSize init fini v symtab strtabSize got reladynSize relaCount
  else if tag =? DT_SYMTAB then
    mkModObject relplt reldyn base isRela relpltSize init fini strtab v strtabSize got reladynSize relaCount
  else if tag =? DT_STRSZ then
    mkModObject relplt reldyn base isRela relpltSize init fini strtab symtab v got reladynSize relaCount
  else if tag =? DT_PLTGOT then
    mkModObject relplt reldyn base isRela relpltSize init fini strtab symtab strtabSize v reladynSize relaCount
  else if tag =? DT_RELACOUNT then
    mkModObject relplt reldyn base isRela relpltSize init fini strtab symtab strtabSize got reladynSize v
  else m.

(** The loop over the dynamic section, up to the entry [DT_NULL]: it runs out of the
    image when there is none, so an image of [n] bytes needs no more than [n] rounds. *)
Fixpoint readDynamic (fuel : nat) (image : list Z) (off : Z) (m : ModObject)
    : result (ModObject * list Z) :=
  match fuel with
  | O => Err Diverges
  | S fuel =>
      bytes ← slice image off 16;
      let e := mkElfDyn (member 0 8 bytes) (member 8 8 bytes) in
      if d_tag e =? DT_NULL then Ok (m, [])
      else
        '(m', needed) ← readDynamic fuel image (off + 16) (dynamicEntry e m);
        Ok (m', if d_tag e =? DT_NEEDED then d_val e :: needed else needed)
  end.

(** [*symHeader] in the image. *)
Definition symbolAt (image : list Z) (off : Z) : result ElfSymbolHeader :=
  b ← slice image off sizeof_ElfSymbolHeader;
  Ok (mkElfSymbolHeader (member 0 4 b) (member 4 1 b) (member 5 1 b) (member 6 2 b)
        (member 8 8 b) (member 16 8 b)).

(** The loop over the dynamic symbols.  The number of symbols is computed from the
    distance of two tables; when it is more than the image holds, either allocating the
    symbols fails or the loop reads past the image. *)
Fixpoint readDynSymbols (fuel : nat) (image : list Z) (m : ModObject) (i numSymbols : Z)
    : result (list Symbol) :=
  if i >=? numSymbols then Ok []
  else
    match fuel with
    | O => Err Diverges
    | S fuel =>
        h ← symbolAt image (symtab m + i * sizeof_ElfSymbolHeader);
        name ← stringAt image (u64 (strtab m + st_name h));
        l ← readDynSymbols fuel image m (i + 1) numSymbols;
        Ok (mkSymbol h name :: l)
    end.

(** The symbols other modules can see, at their addresses. *)
Definition isGlobal (s : Symbol) : bool :=
  ((st_bind (symHeader s) =? STB_GLOBAL) || (st_bind (symHeader s) =? STB_WEAK)) &&
  (st_shndx (symHeader s) !=? SHN_UNDEF).
Definition relocated (base : Z) (s : Symbol) : Symbol :=
  mkSymbol (set_st_value (u64 (st_value (symHeader s) + base)) (symHeader s)) (symName s).

(** ** [Loader] *)

(** The members of a loader, and the offset of [gFileReader]. *)
Record LoaderState := mkLoader {
  workingPath : string;
  nextFreeAddress : Z;
  loadedSymbols : list Symbol;
  prog : Program;
  symbolLookupMap : gmap Z string;
  loadedModules : list ModObject;
  loadedModulesSizes : list Z;
  gFileReader : Z;
}.
Definition loader_static : LoaderState := mkLoader "" 0x8000000 [] emptyProgram ∅ [] [] 0.
Definition set_workingPath v (l : LoaderState) : LoaderState :=
  mkLoader v (nextFreeAddress l) (loadedSymbols l) (prog l) (symbolLookupMap l)
    (loadedModules l) (loadedModulesSizes l) (gFileReader l).
Definition set_prog v (l : LoaderState) : LoaderState :=
  mkLoader (workingPath l) (nextFreeAddress l) (loadedSymbols l) v (symbolLookupMap l)
    (loadedModules l) (loadedModulesSizes l) (gFileReader l).
Definition seek (o : Z) (l : LoaderState) : LoaderState :=
  mkLoader (workingPath l) (nextFreeAddress l) (loadedSymbols l) (prog l) (symbolLookupMap l)
    (loadedModules l) (loadedModulesSizes l) o.

(** The place of a new module: its base, with [nextFreeAddress] behind it. *)
Definition placeModule (imageSize : Z) (l : LoaderState) : LoaderState :=
  let base := nextFreeAddress l in
  let next := u64 (base + imageSize) in
  let next := u64 (next + (0x8000000 - next mod 0x8000000)) in
  mkLoader (workingPath l) next (loadedSymbols l) (prog l) (symbolLookupMap l)
    (loadedModules l ++ [newModObject base]) (loadedModulesSizes l ++ [u64 (next - base)])
    (gFileReader l).

Definition addSymbol (s : Symbol) (l : LoaderState) : LoaderState :=
  mkLoader (workingPath l) (nextFreeAddress l) (loadedSymbols l ++ [s]) (prog l)
    (<[st_value (symHeader s) := symName s]> (symbolLookupMap l))
    (loadedModules l) (loadedModulesSizes l) (gFileReader l).

Definition addSymbols (base : Z) (syms : list Symbol) (l : LoaderState) : LoaderState :=
  foldl (fun l s => if isGlobal s then addSymbol (relocated base s) l else l) l syms.

(** [findSymbol] and [findNearestSymbol]: the map is ordered by [std::greater], so
    [lower_bound] is the greatest key that is not above the address. *)
Definition findSymbol (addr : Z) (l : LoaderState) : option string := symbolLookupMap l !! addr.

Definition lower_bound (addr : Z) (m : gmap Z string) : option (Z * string) :=
  foldr (fun kv best =>
           if kv.1 <=? addr then
             match best with Some b => if b.1 <? kv.1 then Some kv else best | None => Some kv end
           else best) None (map_to_list m).

Definition findNearestSymbol (addr : Z) (l : LoaderState) : string :=
  match lower_bound addr (symbolLookupMap l) with
  | Some (k, name) => if addr - k =? 0 then name else name +:+ " + " +:+ pretty (addr - k)
  | None => "No Symbol Found"
  end.
