(* ===== verification/KernelState.v ===== *)
(** * The state of the kernel and the monad of its functions

    The kernel's globals sit beside the guest memory in the second component of a
    [Machine], so that the supervisor call handler is one of the hooks the interpreter
    runs.  A function of the kernel runs on a host thread of one core, [tCurrentCore]:
    that core is the [core] of the machine, the other cores are in [gCores]. *)
From stdpp Require Import strings.
From S2P Require Import Prelude BitUtils Instructions Core Machine Memory HandleManager MemoryMapper.
From S2P Require Import Thread Display LoaderFormat.
#[global] Open Scope Z_scope.

(** ** The graphics devices: [gpu/nvmapInterface.h] and the function-local statics of
    [gpu/*.cpp] *)

Record NvmapObject := mkNvmapObject {
  nvHandle : Z;
  nvId : Z;
  nvSize : Z;
  nvAlign : Z;
  nvHeap : Z;
  nvKind : Z;
  nvAddr : Z;
}.

Record GpuState := mkGpu {
  gMapObjects : list NvmapObject;
  idCounter : Z;                        (* of [IocCreate] *)
  handleCounter : Z;
  timesCalled : Z;                      (* of [GetVaRegions] *)
  fenceId : Z;                          (* of [AllocGpfifoEx2] *)
}.

Definition gpu_static : GpuState := mkGpu [] 1 1 0 1.

Definition set_gMapObjects l (g : GpuState) : GpuState :=
  mkGpu l (idCounter g) (handleCounter g) (timesCalled g) (fenceId g).
Definition set_timesCalled v (g : GpuState) : GpuState :=
  mkGpu (gMapObjects g) (idCounter g) (handleCounter g) v (fenceId g).
Definition set_fenceId v (g : GpuState) : GpuState :=
  mkGpu (gMapObjects g) (idCounter g) (handleCounter g) (timesCalled g) v.

(** ** Kernel objects *)

Inductive KObject : Type :=
  | OThread (t : Thread)
  | OProcess
  | OInterfaceHandle (interface : Z) (isDomain : bool)
  | ODevice (path : string)
  | OTransferMemory (baseAddress permissions : Z).

(** The virtual function [getType]: [Thread] and [KProcess] do not override it. *)
Definition getType (o : KObject) : ObjectType.t :=
  match o with
  | OThread _ => ObjectType.NO_TYPE
  | OProcess => ObjectType.NO_TYPE
  | OInterfaceHandle _ _ => ObjectType.INTERFACE
  | ODevice _ => ObjectType.GPU_DEVICE
  | OTransferMemory _ _ => ObjectType.TRANSFER_MEM
  end.

(** ** The globals, one record per source file *)

(** [scheduler.cpp] *)
Record SchedState := mkSched {
  gTlsSlotcounter : Z;
  gSchedulerLock : bool;                (* held *)
  gCurrentThreads : list Z;             (* one handle per core *)
  gThreadLists : list (list Z);         (* one list of handles per core *)
}.
Definition set_gTlsSlotcounter v (s : SchedState) : SchedState :=
  mkSched v (gSchedulerLock s) (gCurrentThreads s) (gThreadLists s).
Definition set_gSchedulerLock v (s : SchedState) : SchedState :=
  mkSched (gTlsSlotcounter s) v (gCurrentThreads s) (gThreadLists s).
Definition set_gCurrentThreads v (s : SchedState) : SchedState :=
  mkSched (gTlsSlotcounter s) (gSchedulerLock s) v (gThreadLists s).
Definition set_gThreadLists v (s : SchedState) : SchedState :=
  mkSched (gTlsSlotcounter s) (gSchedulerLock s) (gCurrentThreads s) v.

(** [alarm.h] *)
Record Alarm := mkAlarm {
  triggerTime : Z;
  hasTriggered : bool;
  alarmWaitingThreads : list Z;
}.

(** [std::vector<Alarm>], with the number of elements its storage has room for. *)
Record AlarmVector := mkAlarmVector {
  alarms : list Alarm;
  capacity : nat;
}.

(** The functions passed to [clock::addCallback]. *)
Inductive ClockCallbackFunc : Set := updateAlarmsCallback.

(** [cpu.cpp] *)
Record CpuState := mkCpu {
  gCores : list Core;
  gIsJitEnabled : bool;
  gBreakpoints : gset Z;
  gSingleUseBreakpoints : gset Z;
  gSingleStepMode : bool;
}.
Definition set_gCores v (s : CpuState) : CpuState :=
  mkCpu v (gIsJitEnabled s) (gBreakpoints s) (gSingleUseBreakpoints s) (gSingleStepMode s).
Definition set_gBreakpoints v (s : CpuState) : CpuState :=
  mkCpu (gCores s) (gIsJitEnabled s) v (gSingleUseBreakpoints s) (gSingleStepMode s).
Definition set_gSingleUseBreakpoints v (s : CpuState) : CpuState :=
  mkCpu (gCores s) (gIsJitEnabled s) (gBreakpoints s) v (gSingleStepMode s).
Definition set_gSingleStepMode v (s : CpuState) : CpuState :=
  mkCpu (gCores s) (gIsJitEnabled s) (gBreakpoints s) (gSingleUseBreakpoints s) v.

(** The globals of [display.cpp], the static of [ReceiveMessage] in
    [ICommonStateGetter.cpp], and the addresses the graphics thread was given. *)
Record HleState := mkHle {
  gDisplayManager : DisplayManager.t;
  message : Z;
  shown : list Z;
}.
Definition hle_static : HleState := mkHle DisplayManager.initial 0x1 [].
Definition set_gDisplayManager v (h : HleState) : HleState := mkHle v (message h) (shown h).
Definition set_message v (h : HleState) : HleState := mkHle (gDisplayManager h) v (shown h).
Definition set_shown v (h : HleState) : HleState := mkHle (gDisplayManager h) (message h) v.

Record KState := mkKState {
  handles : HandleState;
  heap : ObjectHeap KObject;
  sched : SchedState;
  gAlarms : AlarmVector;
  gCallbacks : list ClockCallbackFunc;
  gMappings : list MemoryMapping;
  cpus : CpuState;
  gCurrentProcess : Z;
  gNamedPorts : gmap string Z;
  gRegisteredServices : gmap string Z;
  clockReads : nat;                     (* how often the host clock was read *)
  smInitialized : bool;                 (* [SmService::isInitialized] *)
  gpu : GpuState;
  hle : HleState;
  loader : LoaderState;                 (* [gLoader] of [kernel.cpp] *)
}.
Definition set_handles v (k : KState) : KState :=
  mkKState v (heap k) (sched k) (gAlarms k) (gCallbacks k) (gMappings k) (cpus k)
    (gCurrentProcess k) (gNamedPorts k) (gRegisteredServices k) (clockReads k)
    (smInitialized k) (gpu k)
    (hle k) (loader k).
Definition set_heap v (k : KState) : KState :=
  mkKState (handles k) v (sched k) (gAlarms k) (gCallbacks k) (gMappings k) (cpus k)
    (gCurrentProcess k) (gNamedPorts k) (gRegisteredServices k) (clockReads k)
    (smInitialized k) (gpu k)
    (hle k) (loader k).
Definition set_sched v (k : KState) : KState :=
  mkKState (handles k) (heap k) v (gAlarms k) (gCallbacks k) (gMappings k) (cpus k)
    (gCurrentProcess k) (gNamedPorts k) (gRegisteredServices k) (clockReads k)
    (smInitialized k) (gpu k)
    (hle k) (loader k).
Definition set_gAlarms v (k : KState) : KState :=
  mkKState (handles k) (heap k) (sched k) v (gCallbacks k) (gMappings k) (cpus k)
    (gCurrentProcess k) (gNamedPorts k) (gRegisteredServices k) (clockReads k)
    (smInitialized k) (gpu k)
    (hle k) (loader k).
Definition set_gCallbacks v (k : KState) : KState :=
  mkKState (handles k) (heap k) (sched k) (gAlarms k) v (gMappings k) (cpus k)
    (gCurrentProcess k) (gNamedPorts k) (gRegisteredServices k) (clockReads k)
    (smInitialized k) (gpu k)
    (hle k) (loader k).
Definition set_gMappings v (k : KState) : KState :=
  mkKState (handles k) (heap k) (sched k) (gAlarms k) (gCallbacks k) v (cpus k)
    (gCurrentProcess k) (gNamedPorts k) (gRegisteredServices k) (clockReads k)
    (smInitialized k) (gpu k)
    (hle k) (loader k).
Definition set_cpus v (k : KState) : KState :=
  mkKState (handles k) (heap k) (sched k) (gAlarms k) (gCallbacks k) (gMappings k) v
    (gCurrentProcess k) (gNamedPorts k) (gRegisteredServices k) (clockReads k)
    (smInitialized k) (gpu k)
    (hle k) (loader k).
Definition set_gCurrentProcess v (k : KState) : KState :=
  mkKState (handles k) (heap k) (sched k) (gAlarms k) (gCallbacks k) (gMappings k) (cpus k)
    v (gNamedPorts k) (gRegisteredServices k) (clockReads k)
    (smInitialized k) (gpu k)
    (hle k) (loader k).
Definition set_gNamedPorts v (k : KState) : KState :=
  mkKState (handles k) (heap k) (sched k) (gAlarms k) (gCallbacks k) (gMappings k) (cpus k)
    (gCurrentProcess k) v (gRegisteredServices k) (clockReads k)
    (smInitialized k) (gpu k)
    (hle k) (loader k).
Definition set_gRegisteredServices v (k : KState) : KState :=
  mkKState (handles k) (heap k) (sched k) (gAlarms k) (gCallbacks k) (gMappings k) (cpus k)
    (gCurrentProcess k) (gNamedPorts k) v (clockReads k) (smInitialized k) (gpu k)
    (hle k) (loader k).
Definition set_clockReads v (k : KState) : KState :=
  mkKState (handles k) (heap k) (sched k) (gAlarms k) (gCallbacks k) (gMappings k) (cpus k)
    (gCurrentProcess k) (gNamedPorts k) (gRegisteredServices k) v (smInitialized k) (gpu k)
    (hle k) (loader k).
Definition set_smInitialized v (k : KState) : KState :=
  mkKState (handles k) (heap k) (sched k) (gAlarms k) (gCallbacks k) (gMappings k) (cpus k)
    (gCurrentProcess k) (gNamedPorts k) (gRegisteredServices k) (clockReads k) v (gpu k) (hle k) (loader k).
Definition set_gpu v (k : KState) : KState :=
  mkKState (handles k) (heap k) (sched k) (gAlarms k) (gCallbacks k) (gMappings k) (cpus k)
    (gCurrentProcess k) (gNamedPorts k) (gRegisteredServices k) (clockReads k)
    (smInitialized k) v (hle k) (loader k).
Definition set_hle v (k : KState) : KState :=
  mkKState (handles k) (heap k) (sched k) (gAlarms k) (gCallbacks k) (gMappings k) (cpus k)
    (gCurrentProcess k) (gNamedPorts k) (gRegisteredServices k) (clockReads k)
    (smInitialized k) (gpu k) v (loader k).
Definition set_loader v (k : KState) : KState :=
  mkKState (handles k) (heap k) (sched k) (gAlarms k) (gCallbacks k) (gMappings k) (cpus k)
    (gCurrentProcess k) (gNamedPorts k) (gRegisteredServices k) (clockReads k)
    (smInitialized k) (gpu k) (hle k) v.

(** What the host contributes: the readings of the clock in order, the bits an
    uninitialised [PSTATE] of the object at an address holds, and the capacity a full
    vector of a given size is grown to. *)
Class HostEnv := {
  clockReading : nat -> Z;
  uninitialisedPState : Z -> PSTATE.t;
  grownCapacity : nat -> nat;
}.

(** ** The memory of a machine with a kernel *)

#[export] Instance Kernel_GuestMemory {Mem} `{GuestMemory Mem} : GuestMemory (Mem * KState) := {
  mread n addr s := mread n addr (fst s);
  mwrite n addr data s := m ← mwrite n addr data (fst s); Ok (m, snd s);
  mwriteAtomic n addr data expected s :=
    '(b, m) ← mwriteAtomic n addr data expected (fst s); Ok (b, (m, snd s));
  mwriteAtomic128 addr lo hi elo ehi s :=
    '(b, m) ← mwriteAtomic128 addr lo hi elo ehi (fst s); Ok (b, (m, snd s));
  mbreakpoint addr s := mbreakpoint addr (fst s);
}.

Section Kernel.
Context {Mem : Type}.

(** The monad of the kernel's functions. *)
Definition K (A : Type) : Type := M (Mem * KState) A.
#[global] Instance K_ret : MRet K := M_ret.
#[global] Instance K_bind : MBind K := M_bind.

Definition fail {A} (e : fault) : K A := fun _ => Err e.
Definition kernel (s : Machine (Mem * KState)) : KState := snd (s.(memory)).
Definition set_kernel (k : KState) (s : Machine (Mem * KState)) : Machine (Mem * KState) :=
  set_memory (fst (s.(memory)), k) s.

Definition getK : K KState := fun s => Ok (kernel s, s).
Definition modK (f : KState -> KState) : K unit := fun s =>
  Ok (tt, set_kernel (f (kernel s)) s).
Definition liftK {A} (f : KState -> A * KState) : K A := fun s =>
  let '(a, k) := f (kernel s) in Ok (a, set_kernel k s).
Definition liftR {A} (f : KState -> result (A * KState)) : K A := fun s =>
  match f (kernel s) with Ok (a, k) => Ok (a, set_kernel k s) | Err e => Err e end.

(** [this_core::getCoreID]. *)
Definition getCoreID : K Z := c ← getCore; mret (coreNum c).

(** [array[i]] of a [std::array]: an index out of range is undefined. *)
Definition at_index {A} (i : Z) (l : list A) : K A :=
  match (if i <? 0 then None else l !! Z.to_nat i) with
  | Some x => mret x
  | None => fail Undefined
  end.

(** [cpu::sendInterrupts(core, interrupts)] from the running core. *)
Definition sendInterruptsTo (i interrupts : Z) : K unit := fun s =>
  if i =? coreNum (s.(core)) then onCore (sendInterrupts interrupts) s
  else
    ((c ← at_index i (gCores (cpus (kernel s)));
      modK (fun k => set_cpus (set_gCores
        (<[Z.to_nat i := sendInterrupts interrupts c]> (gCores (cpus k))) (cpus k)) k)) : K unit) s.

(** ** Objects *)

(** [ObjectPtr<T>(new T(...))] followed by [createHandle]: the map entry is the one
    reference that stays. *)
Definition createObjectHandle (o : KObject) : K Z :=
  liftR (fun k =>
    let '(p, h) := newObject o (heap k) in
    let old := gCompressedPointerMap (handles k) !! gCompressedpointerCounter (handles k) in
    let '(handle, hs) := createHandle p (getType o) (handles k) in
    h ← dec (default None old) h;
    h ← inc (Some p) h;
    Ok (handle, set_handles hs (set_heap h k))).

Definition lookupObjectK (handle : Z) : K ObjectPtr :=
  liftK (fun k =>
    let '(p, hs) := lookupObject handle (handles k) in (p, set_handles hs k)).

Definition closeHandleK (handle : Z) : K bool :=
  liftR (fun k =>
    let '(b, p, hs) := closeHandle handle (handles k) in
    h ← dec p (heap k);
    Ok (b, set_handles hs (set_heap h k))).

(** [*p] for an object pointer: a null or dangling pointer. *)
Definition object_at (p : ObjectPtr) : K KObject :=
  match p with
  | None => fail NullDeref
  | Some a =>
      k ← getK;
      match objects (heap k) !! a with
      | Some o => mret (payload o)
      | None => fail Undefined
      end
  end.

Definition update_object (a : Z) (o : KObject) : K unit :=
  modK (fun k => set_heap (mkObjectHeap
    (alter (setPayload o) a (objects (heap k))) (nextObject (heap k))) k).

(** The thread behind an [ObjectPtr<Thread>], which [object_pointer_cast] made of an
    object of any type. *)
Definition thread_at (p : ObjectPtr) : K Thread :=
  o ← object_at p;
  match o with OThread t => mret t | _ => fail Undefined end.

(** [p->field = value] for a thread. *)
Definition updateThread (p : ObjectPtr) (f : Thread -> Thread) : K unit :=
  t ← thread_at p;
  match p with
  | Some a => update_object a (OThread (f t))
  | None => fail NullDeref
  end.

(** [kernel::time::getTimeInNanoseconds] *)
Definition getTimeInNanoseconds `{HostEnv} : K Z :=
  liftK (fun k => (clockReading (clockReads k), set_clockReads (S (clockReads k)) k)).
End Kernel.
Arguments K Mem A : clear implicits.

(** ** Laws of the memory of a machine with a kernel *)

(** The contexts of all threads, and the cores that are not running, hold values of
    their types. *)
Definition wf_KObject (o : KObject) : Prop :=
  match o with
  | OThread t => wf_Context (context t)
  | OInterfaceHandle i _ => uint 64 i
  | _ => True
  end.

Record wf_KState (k : KState) : Prop := {
  wfk_objects : forall a o, objects (heap k) !! a = Some o -> wf_KObject (payload o);
  wfk_cores : Forall wf_Core (gCores (cpus k));
  wfk_handle_counter : uint 32 (gHandleCounter (handles k));
  wfk_tls : 0 <= gTlsSlotcounter (sched k);
  wfk_current : Forall (uint 32) (gCurrentThreads (sched k));
  wfk_lists : Forall (Forall (uint 32)) (gThreadLists (sched k));
  wfk_mappings : Forall (fun m => uint 64 (base m) /\ uint 64 (size m)) (gMappings k);
}.
