(* ===== verification/Scheduler.v ===== *)
(** * The thread scheduler: [hle/kernel/scheduler.cpp], and the operations of
    [thread.cpp] that reach other threads

    Every core has a current thread and a list of ready threads; [popBest] picks the
    first thread of the best priority, and [rescheduleNoLock] switches the running
    core to it. *)
From S2P Require Import Prelude BitUtils Instructions Core Machine HandleManager MemoryMapper Thread KernelState.

Definition INVALID_THREAD : Z := 0.
Definition GENERIC_INTERRUPT : Z := Z.shiftl 1 0.
Definition RESET_INTERRUPT : Z := Z.shiftl 1 2.

Section Scheduler.
Context {Mem : Type}.
Implicit Types handle : Z.

Definition modSched (f : SchedState -> SchedState) : K Mem unit :=
  modK (fun k => set_sched (f (sched k)) k).

Definition lockScheduler : K Mem unit :=
  k ← getK;
  if gSchedulerLock (sched k) then fail Deadlock
  else modSched (set_gSchedulerLock true).

Definition unlockScheduler : K Mem unit := modSched (set_gSchedulerLock false).

Definition getCurrentHandle : K Mem Z :=
  i ← getCoreID; k ← getK; at_index i (gCurrentThreads (sched k)).

Definition getThread handle : K Mem ObjectPtr :=
  if handle =? INVALID_THREAD then mret None else lookupObjectK handle.

Definition getCurrentThread : K Mem ObjectPtr :=
  handle ← getCurrentHandle; getThread handle.

(** [gThreadLists[i].push_back(handle)] *)
Definition pushThreadList (i : Z) handle : K Mem unit :=
  k ← getK;
  l ← (at_index i (gThreadLists (sched k)) : K Mem (list Z));
  modSched (fun s => set_gThreadLists (<[Z.to_nat i := l ++ [handle]]> (gThreadLists s)) s).

(** [static_cast<int>(thread->affinity)] *)
Definition affinityIndex (t : Thread) : Z := to_signed 32 (affinity t).

Definition startThread handle : K Mem unit :=
  p ← getThread handle;
  (updateThread p (set_status ThreadStatus.READY) : K Mem unit);;
  lockScheduler;;
  t ← (thread_at p : K Mem Thread);
  pushThreadList (affinityIndex t) handle;;
  unlockScheduler.

Definition createThread `{HostEnv} (entry arg stack priority cores : Z) : K Mem Z :=
  lockScheduler;;
  k ← getK;
  let thread := newThread (uninitialisedPState (nextObject (heap k)))
                  entry arg stack priority cores in
  let thread := set_status ThreadStatus.INITIALIZED thread in
  let slot := gTlsSlotcounter (sched k) in
  let x := context thread in
  let x := Context.mk (Context.GPRegs x) (Context.VRegs x) (Context.PC x) (Context.SP x)
             (Context.PState x) (u64 (0x700000000 + slot * 0x200)) in
  let thread := set_context x thread in
  modSched (set_gTlsSlotcounter (u64 (slot + 1)));;
  assignedHandle ← (createObjectHandle (OThread thread) : K Mem Z);
  unlockScheduler;;
  mret assignedHandle.

Definition queueThreadNoLock handle : K Mem unit :=
  p ← getThread handle;
  t ← (thread_at p : K Mem Thread);
  pushThreadList (affinityIndex t) handle;;
  updateThread p (set_status ThreadStatus.READY).

(** The loop of [popBest]: the position and the priority of the best handle so far. *)
Fixpoint popBestLoop (list : list Z) (i : nat) (best : option nat) (bestPriority : Z)
    : K Mem (option nat) :=
  match list with
  | [] => mret best
  | handle :: list =>
      if handle =? INVALID_THREAD then popBestLoop list (S i) best bestPriority
      else
        p ← getThread handle;
        t ← (thread_at p : K Mem Thread);
        if priority t <? bestPriority then
          p ← getThread handle;
          t ← (thread_at p : K Mem Thread);
          popBestLoop list (S i) (Some i) (priority t)
        else popBestLoop list (S i) best bestPriority
  end.

(** [popBest] on the list of core [core]. *)
Definition popBest (core minPriority : Z) : K Mem Z :=
  k ← getK;
  list ← (at_index core (gThreadLists (sched k)) : K Mem (list Z));
  best ← popBestLoop list 0 None minPriority;
  match best with
  | Some i =>
      modSched (fun s => set_gThreadLists
        (<[Z.to_nat core := delete i list]> (gThreadLists s)) s);;
      mret (nth i list INVALID_THREAD)
  | None => mret INVALID_THREAD
  end.

Definition contextSwitch (newThread : ObjectPtr) : K Mem unit :=
  oldThread ← getCurrentThread;
  match oldThread with
  | Some _ =>
      c ← (getCore : K Mem Core);
      (updateThread oldThread (set_context (saveState c)) : K Mem unit)
  | None => mret tt
  end;;
  match newThread with
  | Some _ =>
      t ← (thread_at newThread : K Mem Thread);
      (onCore (restoreState (context t)) : K Mem unit)
  | None => mret tt
  end;;
  onCore (set_exclusiveAccess false).

(** [if (t->status == RUNNING) { t->status = READY; queueThreadNoLock(handle); }] *)
Definition requeueRunning (p : ObjectPtr) handle : K Mem unit :=
  t ← (thread_at p : K Mem Thread);
  if decide (status t = ThreadStatus.RUNNING) then
    (updateThread p (set_status ThreadStatus.READY) : K Mem unit);;
    queueThreadNoLock handle
  else mret tt.

Definition rescheduleNoLock : K Mem unit :=
  currentCoreNum ← (getCoreID : K Mem Z);
  currentHandle ← getCurrentHandle;
  currentThread ← getCurrentThread;
  currentPriority ← match currentThread with
                    | Some _ => t ← (thread_at currentThread : K Mem Thread); mret (priority t)
                    | None => mret NO_PRIORITY
                    end;
  nextHandle ← popBest currentCoreNum currentPriority;
  nextHandle ← match currentThread with
               | Some _ =>
                   t ← (thread_at currentThread : K Mem Thread);
                   mret (if (nextHandle =? INVALID_THREAD) &&
                            bool_decide (status t = ThreadStatus.RUNNING)
                         then currentHandle else nextHandle)
               | None => mret nextHandle
               end;
  (if currentHandle !=? INVALID_THREAD then
     if nextHandle !=? INVALID_THREAD then
       (if currentHandle !=? nextHandle then
          p ← getThread nextHandle;
          contextSwitch p;;
          p ← getThread nextHandle;
          (updateThread p (set_status ThreadStatus.RUNNING) : K Mem unit);;
          requeueRunning currentThread currentHandle
        else mret tt);;
       onCore (set_isActive true)
     else
       contextSwitch None;;
       requeueRunning currentThread currentHandle;;
       onCore (set_isActive false)
   else
     if nextHandle !=? INVALID_THREAD then
       p ← getThread nextHandle;
       contextSwitch p;;
       p ← getThread nextHandle;
       (updateThread p (set_status ThreadStatus.RUNNING) : K Mem unit);;
       onCore (set_isActive true)
     else onCore (set_isActive false)) ;;
  modSched (fun s => set_gCurrentThreads
    (<[Z.to_nat currentCoreNum := nextHandle]> (gCurrentThreads s)) s);;
  if nextHandle !=? INVALID_THREAD then
    p ← getThread nextHandle;
    updateThread p wakeup
  else mret tt.

Definition yieldThread : K Mem unit :=
  lockScheduler;;
  handle ← getCurrentHandle;
  queueThreadNoLock handle;;
  rescheduleNoLock;;
  unlockScheduler.

Definition exitThread : K Mem unit :=
  lockScheduler;;
  _ ← getCurrentHandle;
  p ← getCurrentThread;
  (updateThread p (set_status ThreadStatus.UNINITIATED) : K Mem unit);;
  rescheduleNoLock;;
  unlockScheduler.

(** ** The members of [Thread] that queue other threads *)

Fixpoint queueAll (l : list Z) : K Mem unit :=
  match l with
  | [] => mret tt
  | handle :: l => queueThreadNoLock handle;; queueAll l
  end.

(** [Thread::exit] of the thread at [p]. *)
Definition Thread_exit (p : ObjectPtr) : K Mem unit :=
  (updateThread p (set_status ThreadStatus.EXITED) : K Mem unit);;
  t ← (thread_at p : K Mem Thread);
  queueAll (waitingThreads t);;
  updateThread p (set_waitingThreads []).

(** [Thread::sync] of the thread at [p]. *)
Definition Thread_sync (p : ObjectPtr) handle : K Mem unit :=
  t ← (thread_at p : K Mem Thread);
  (if decide (status t = ThreadStatus.EXITED) then queueThreadNoLock handle
   else
     (updateThread p (fun t => set_waitingThreads (waitingThreads t ++ [handle]) t) : K Mem unit);;
     q ← getThread handle;
     updateThread q wait);;
  sendInterruptsTo 0 GENERIC_INTERRUPT.
End Scheduler.
