(* ===== verification/KernelLemmas.v ===== *)
(** * Running the kernel's functions

    The pure view of a kernel state — which thread a handle names — and one equation
    per primitive of the monad, so that a function of the kernel run in a state that
    meets the invariant is rewritten to its result. *)
From S2P Require Import Prelude BitUtils Instructions Core Machine HandleManager.
From S2P Require Import MemoryMapper Thread KernelState Scheduler.

(** ** Views *)

(** The object a handle names. *)
Definition objectOf (k : KState) (h : Z) : option Z :=
  match handle_map (handles k) !! u16 h with Some (Some a) => Some a | _ => None end.

(** The thread a handle names, with its address; [INVALID_THREAD] names none. *)
Definition threadOf (k : KState) (h : Z) : option (Z * Thread) :=
  if h =? INVALID_THREAD then None
  else
    a ← objectOf k h;
    o ← objects (heap k) !! a;
    match payload o with OThread t => Some (a, t) | _ => None end.

(** Replacing the thread at an address. *)
Definition updT (a : Z) (t : Thread) (k : KState) : KState :=
  set_heap (mkObjectHeap (alter (setPayload (OThread t)) a (objects (heap k)))
    (nextObject (heap k))) k.

Definition pushList (i h : Z) (k : KState) : KState :=
  set_sched (set_gThreadLists
    (<[Z.to_nat i := default [] (gThreadLists (sched k) !! Z.to_nat i) ++ [h]]>
       (gThreadLists (sched k))) (sched k)) k.

(** What ties the handles of a state to its objects: no handle dangles, and no two
    name the same object. *)
Record objects_inv (k : KState) : Prop := {
  oi_handles : handle_inv (handles k);
  oi_live : forall h a, handle_map (handles k) !! h = Some (Some a) ->
    is_Some (objects (heap k) !! a);
  oi_fresh : forall a, is_Some (objects (heap k) !! a) -> a < nextObject (heap k);
  oi_inj : forall h h' a, handle_map (handles k) !! h = Some (Some a) ->
    handle_map (handles k) !! h' = Some (Some a) -> h = h';
}.

Lemma updT_objects_inv a t k : objects_inv k -> objects_inv (updT a t k).
Proof.
  intros [H1 H2 H3 H4]. constructor; [done| | |exact H4].
  - intros h a' Hh. cbn. apply lookup_alter_is_Some. by apply (H2 h).
  - intros a' Ha'. apply H3. cbn in Ha'. by apply lookup_alter_is_Some in Ha'.
Qed.

Lemma threadOf_updT_eq k h a t t' :
  threadOf k h = Some (a, t) -> threadOf (updT a t' k) h = Some (a, t').
Proof.
  unfold threadOf. destruct (h =? INVALID_THREAD); [done|]. change (objectOf (updT a t' k) h)
    with (objectOf k h). destruct (objectOf k h) as [a'|]; cbn; [|done].
  destruct (objects (heap k) !! a') as [o|] eqn:Ho; cbn; [|done].
  destruct (payload o) eqn:Hp; try done. intros [= -> ->].
  rewrite lookup_alter_eq, Ho. done.
Qed.

Lemma threadOf_updT_ne k h a t :
  objectOf k h <> Some a -> threadOf (updT a t k) h = threadOf k h.
Proof.
  intros Hne. unfold threadOf. destruct (h =? INVALID_THREAD); [done|].
  change (objectOf (updT a t k) h) with (objectOf k h).
  destruct (objectOf k h) as [a'|]; cbn; [|done].
  rewrite lookup_alter_ne by congruence. done.
Qed.

Lemma threadOf_objectOf k h a t : threadOf k h = Some (a, t) -> objectOf k h = Some a.
Proof.
  unfold threadOf. destruct (h =? INVALID_THREAD); [done|].
  destruct (objectOf k h) as [a'|]; cbn; [|done].
  destruct (objects (heap k) !! a') as [o|]; cbn; [|done].
  by destruct (payload o); intros [= -> ->].
Qed.

Lemma objectOf_inj k h h' a :
  objects_inv k -> objectOf k h = Some a -> objectOf k h' = Some a -> u16 h = u16 h'.
Proof.
  intros Hi. unfold objectOf. intros H1 H2. apply (oi_inj k Hi _ _ a).
  - by destruct (handle_map (handles k) !! u16 h) as [[]|]; simplify_eq.
  - by destruct (handle_map (handles k) !! u16 h') as [[]|]; simplify_eq.
Qed.

(** Handles as the kernel hands them out. *)
Definition canonical (h : Z) : Prop := 0 < h < 2 ^ 16.

Lemma canonical_u16 h : canonical h -> u16 h = h.
Proof. intros H. apply wrap_id. unfold canonical, uint in *. lia. Qed.

Lemma threadOf_updT k a t h h' b t' :
  objects_inv k -> canonical h -> canonical h' -> threadOf k h = Some (a, t') ->
  threadOf (updT a t k) h' = Some b <->
  (h' = h /\ b = (a, t)) \/ (h' <> h /\ threadOf k h' = Some b).
Proof.
  intros Hi Hh Hh' Ht. destruct (decide (h' = h)) as [->|Hne].
  - rewrite (threadOf_updT_eq k h a t' t Ht). naive_solver.
  - rewrite threadOf_updT_ne; [naive_solver|]. intros Ho. apply Hne.
    pose proof (objectOf_inj k h' h a Hi Ho (threadOf_objectOf _ _ _ _ Ht)) as E.
    by rewrite !canonical_u16 in E.
Qed.

(** ** Equations of the monad *)

Section Run.
Context {Mem : Type}.
Implicit Types s : Machine (Mem * KState).

Lemma bind_ok {A B} (f : K Mem A) (g : A -> K Mem B) s a s' :
  f s = Ok (a, s') -> (f ≫= g) s = g a s'.
Proof. intros E. unfold mbind, K_bind, M_bind. by rewrite E. Qed.

Lemma kernel_set_kernel k s : kernel (set_kernel k s) = k.
Proof. done. Qed.

Lemma core_set_kernel k s : (set_kernel k s).(core) = s.(core).
Proof. done. Qed.

Lemma set_kernel_id s : set_kernel (kernel s) s = s.
Proof. by destruct s as [c [m k] t]. Qed.

Lemma set_kernel_twice k k' s : set_kernel k (set_kernel k' s) = set_kernel k s.
Proof. done. Qed.

Lemma lookupObjectK_eq s h :
  handle_inv (handles (kernel s)) -> lookupObjectK h s = Ok (objectOf (kernel s) h, s).
Proof.
  intros Hi. unfold lookupObjectK, liftK. rewrite (lookupObject_live _ Hi h).
  assert (set_handles (handles (kernel s)) (kernel s) = kernel s) as -> by by destruct (kernel s).
  rewrite set_kernel_id. unfold objectOf.
  by destruct (handle_map (handles (kernel s)) !! u16 h) as [[]|].
Qed.

Lemma getThread_eq s h a t :
  handle_inv (handles (kernel s)) -> threadOf (kernel s) h = Some (a, t) ->
  getThread h s = Ok (Some a, s).
Proof.
  intros Hi Ht. unfold getThread. pose proof (threadOf_objectOf _ _ _ _ Ht) as Ho.
  unfold threadOf in Ht. destruct (h =? INVALID_THREAD); [done|].
  by rewrite lookupObjectK_eq, Ho.
Qed.

Lemma getThread_invalid s : getThread INVALID_THREAD s = Ok (None, s).
Proof. done. Qed.

Lemma thread_at_eq s h a t :
  threadOf (kernel s) h = Some (a, t) -> thread_at (Some a) s = Ok (t, s).
Proof.
  unfold threadOf. destruct (h =? INVALID_THREAD); [done|].
  destruct (objectOf (kernel s) h) as [a'|]; cbn; [|done].
  destruct (objects (heap (kernel s)) !! a') as [o|] eqn:Ho; cbn; [|done].
  destruct (payload o) eqn:Hp; try done. intros [= -> ->].
  assert (object_at (Some a) s = Ok (payload o, s)) as E.
  { unfold object_at. rewrite (bind_ok _ _ s (kernel s) s) by done. by rewrite Ho. }
  unfold thread_at. by rewrite (bind_ok _ _ _ _ _ E), Hp.
Qed.

Lemma updateThread_eq s h a t f :
  threadOf (kernel s) h = Some (a, t) ->
  updateThread (Some a) f s = Ok (tt, set_kernel (updT a (f t) (kernel s)) s).
Proof. intros Ht. unfold updateThread. by rewrite (bind_ok _ _ _ _ _ (thread_at_eq s h a t Ht)). Qed.

Lemma at_index_eq {A} (i : Z) (l : list A) x s :
  0 <= i -> l !! Z.to_nat i = Some x -> at_index i l s = Ok (x, s).
Proof.
  intros Hi Hl. unfold at_index. rewrite (proj2 (Z.ltb_ge i 0)) by lia. by rewrite Hl.
Qed.

Lemma getCurrentHandle_eq s h :
  0 <= coreNum (s.(core)) ->
  gCurrentThreads (sched (kernel s)) !! Z.to_nat (coreNum (s.(core))) = Some h ->
  getCurrentHandle s = Ok (h, s).
Proof. intros Hc Hl. unfold getCurrentHandle.
  rewrite (bind_ok _ _ s (coreNum (s.(core))) s) by done.
  rewrite (bind_ok _ _ s (kernel s) s) by done. by apply at_index_eq. Qed.

Lemma pushThreadList_eq s i h l :
  0 <= i -> gThreadLists (sched (kernel s)) !! Z.to_nat i = Some l ->
  pushThreadList i h s = Ok (tt, set_kernel (pushList i h (kernel s)) s).
Proof.
  intros Hi Hl. unfold pushThreadList, pushList. rewrite Hl. cbn [default].
  rewrite (bind_ok _ _ s (kernel s) s) by done.
  by rewrite (bind_ok _ _ _ _ _ (at_index_eq _ _ l s Hi Hl)).
Qed.

Lemma queueThreadNoLock_eq s h a t l :
  handle_inv (handles (kernel s)) -> threadOf (kernel s) h = Some (a, t) ->
  0 <= affinityIndex t ->
  gThreadLists (sched (kernel s)) !! Z.to_nat (affinityIndex t) = Some l ->
  queueThreadNoLock h s =
  Ok (tt, set_kernel (updT a (set_status ThreadStatus.READY t)
            (pushList (affinityIndex t) h (kernel s))) s).
Proof.
  intros Hi Ht Ha Hl. unfold queueThreadNoLock.
  rewrite (bind_ok _ _ _ _ _ (getThread_eq s h a t Hi Ht)).
  rewrite (bind_ok _ _ _ _ _ (thread_at_eq s h a t Ht)).
  rewrite (bind_ok _ _ _ _ _ (pushThreadList_eq s _ h l Ha Hl)).
  by rewrite (updateThread_eq _ h a t).
Qed.
End Run.
