(* ===== verification/SchedulerSpec.v ===== *)
(** * What the scheduler does: a pure scheduler and its refinement

    [reschedK] is rescheduling as a function on the kernel state and the running core.
    [rescheduleNoLock_eq] shows that the code computes it whenever the lists and the
    current threads of the cores are well formed; the theorems on scheduling policy
    and the invariant of the scheduler are proved about the function. *)
From S2P Require Import Prelude BitUtils Instructions Core Machine HandleManager.
From S2P Require Import MemoryMapper Thread KernelState Scheduler KernelLemmas.

(** ** Choosing the best thread *)

Fixpoint pick (prio : Z -> Z) (l : list Z) (i : nat) (best : option nat) (bestPriority : Z)
    : option nat :=
  match l with
  | [] => best
  | h :: l =>
      if prio h <? bestPriority then pick prio l (S i) (Some i) (prio h)
      else pick prio l (S i) best bestPriority
  end.

(** [j] is the first position of the least priority in [l], and it is below [m]. *)
Definition best_at (prio : Z -> Z) (l : list Z) (m : Z) (j : nat) : Prop :=
  exists h, l !! j = Some h /\ prio h < m /\
    (forall j' h', l !! j' = Some h' -> prio h <= prio h') /\
    (forall j' h', l !! j' = Some h' -> (j' < j)%nat -> prio h < prio h').

Lemma pick_spec prio l i b m :
  (exists j, pick prio l i b m = Some (i + j)%nat /\ best_at prio l m j) \/
  (pick prio l i b m = b /\ forall h, h ∈ l -> m <= prio h).
Proof.
  revert i b m. induction l as [|h l IH]; intros i b m; cbn [pick].
  - right. split; [done|]. intros h Hh. by apply not_elem_of_nil in Hh.
  - destruct (Z.ltb_spec (prio h) m) as [Hlt|Hge].
    + left. destruct (IH (S i) (Some i) (prio h)) as [(j & E & x & Hx & Hxm & Hall & Hfst)|[E Hall]].
      * exists (S j). split; [rewrite E; f_equal; lia|]. exists x. split; [done|].
        split; [lia|]. split; intros [|j'] h' Hh'; cbn in Hh'; simplify_eq.
        -- lia.
        -- by apply (Hall j').
        -- intros _. lia.
        -- intros Hj. apply (Hfst j'); [done|lia].
      * exists 0%nat. split; [rewrite E; f_equal; lia|]. exists h. split; [done|].
        split; [done|]. split; [|lia]. intros [|j'] h' Hh'; cbn in Hh'; simplify_eq; [lia|].
        apply Hall. by apply list_elem_of_lookup_2 in Hh'.
    + destruct (IH (S i) b m) as [(j & E & x & Hx & Hxm & Hall & Hfst)|[E Hall]].
      * left. exists (S j). split; [rewrite E; f_equal; lia|]. exists x. split; [done|].
        split; [lia|]. split; intros [|j'] h' Hh'; cbn in Hh'; simplify_eq.
        -- lia.
        -- by apply (Hall j').
        -- intros _. lia.
        -- intros Hj. apply (Hfst j'); [done|lia].
      * right. split; [done|]. intros h' [->|Hin]%elem_of_cons; [done|]. by apply Hall.
Qed.

(** ** Pure operations on the kernel state *)

Definition prioOf (k : KState) (h : Z) : Z :=
  match threadOf k h with Some (_, t) => priority t | None => 0 end.
Definition statusOf (k : KState) (h : Z) : option ThreadStatus.t :=
  '(_, t) ← threadOf k h; Some (status t).
Definition contextOf (k : KState) (h : Z) : option Context.t :=
  '(_, t) ← threadOf k h; Some (context t).
Definition affinityOf (k : KState) (h : Z) : Z :=
  match threadOf k h with Some (_, t) => affinityIndex t | None => 0 end.

Definition modT (h : Z) (f : Thread -> Thread) (k : KState) : KState :=
  match threadOf k h with Some (a, t) => updT a (f t) k | None => k end.

Definition currentOf (k : KState) (i : Z) : Z :=
  default INVALID_THREAD (gCurrentThreads (sched k) !! Z.to_nat i).
Definition listOf (k : KState) (i : Z) : list Z :=
  default [] (gThreadLists (sched k) !! Z.to_nat i).
Definition setCurrent (i h : Z) (k : KState) : KState :=
  set_sched (set_gCurrentThreads (<[Z.to_nat i := h]> (gCurrentThreads (sched k))) (sched k)) k.
Definition setList (i : Z) (l : list Z) (k : KState) : KState :=
  set_sched (set_gThreadLists (<[Z.to_nat i := l]> (gThreadLists (sched k))) (sched k)) k.

Definition queueK (h : Z) (k : KState) : KState :=
  modT h (set_status ThreadStatus.READY) (pushList (affinityOf k h) h k).
Definition requeueK (h : Z) (k : KState) : KState :=
  if decide (statusOf k h = Some ThreadStatus.RUNNING)
  then queueK h (modT h (set_status ThreadStatus.READY) k) else k.
Definition saveK (h : Z) (c : Core) (k : KState) : KState :=
  if h =? INVALID_THREAD then k else modT h (set_context (saveState c)) k.
Definition restoreK (k : KState) (h : Z) (c : Core) : Core :=
  match contextOf k h with Some x => restoreState x c | None => c end.

(** The position [popBest] returns on core [i]. *)
Definition nextOf (k : KState) (i : Z) : option nat :=
  pick (prioOf k) (listOf k i) 0 None
    (if currentOf k i =? INVALID_THREAD then NO_PRIORITY else prioOf k (currentOf k i)).

Definition reschedK (i : Z) (c : Core) (k : KState) : KState * Core :=
  let cur := currentOf k i in
  match nextOf k i with
  | Some j =>
      let next := nth j (listOf k i) INVALID_THREAD in
      let k := setList i (delete j (listOf k i)) k in
      let k := saveK cur c k in
      let c := set_exclusiveAccess false (restoreK k next c) in
      let k := modT next (set_status ThreadStatus.RUNNING) k in
      let k := if cur =? INVALID_THREAD then k else requeueK cur k in
      (modT next wakeup (setCurrent i next k), set_isActive true c)
  | None =>
      if cur =? INVALID_THREAD then (setCurrent i INVALID_THREAD k, set_isActive false c)
      else if decide (statusOf k cur = Some ThreadStatus.RUNNING) then
        (modT cur wakeup (setCurrent i cur k), set_isActive true c)
      else
        (setCurrent i INVALID_THREAD (saveK cur c k),
         set_isActive false (set_exclusiveAccess false c))
  end.

(** ** Well-formed scheduler states *)

Definition live_on (k : KState) (i : nat) (h : Z) : Prop :=
  canonical h /\ exists a t, threadOf k h = Some (a, t) /\ affinityIndex t = Z.of_nat i.

Record sched_wf (k : KState) : Prop := {
  sw_objects : objects_inv k;
  sw_lists : length (gThreadLists (sched k)) = 4%nat;
  sw_currents : length (gCurrentThreads (sched k)) = 4%nat;
  sw_queued : forall i l h, gThreadLists (sched k) !! i = Some l -> h ∈ l -> live_on k i h;
  sw_current : forall i h, gCurrentThreads (sched k) !! i = Some h -> h <> INVALID_THREAD ->
    live_on k i h;
}.

Definition core_id (i : Z) : Prop := 0 <= i < 4.

Section Wf.
Context (k : KState) (Hw : sched_wf k) (i : Z) (Hi : core_id i).

Lemma currentOf_lookup : gCurrentThreads (sched k) !! Z.to_nat i = Some (currentOf k i).
Proof.
  unfold currentOf. destruct (lookup_lt_is_Some_2 (gCurrentThreads (sched k)) (Z.to_nat i))
    as [x Hx]; [rewrite (sw_currents k Hw); unfold core_id in Hi; lia|]. by rewrite Hx.
Qed.

Lemma listOf_lookup : gThreadLists (sched k) !! Z.to_nat i = Some (listOf k i).
Proof.
  unfold listOf. destruct (lookup_lt_is_Some_2 (gThreadLists (sched k)) (Z.to_nat i))
    as [x Hx]; [rewrite (sw_lists k Hw); unfold core_id in Hi; lia|]. by rewrite Hx.
Qed.

Lemma listOf_live h : h ∈ listOf k i ->
  canonical h /\ exists a t, threadOf k h = Some (a, t) /\ affinityIndex t = i.
Proof.
  intros Hh. destruct (sw_queued k Hw _ _ h listOf_lookup Hh) as (Hc & a & t & Ht & Ha).
  split; [done|]. exists a, t. split; [done|]. rewrite Ha. unfold core_id in Hi. lia.
Qed.

Lemma currentOf_live : currentOf k i <> INVALID_THREAD ->
  canonical (currentOf k i) /\
  exists a t, threadOf k (currentOf k i) = Some (a, t) /\ affinityIndex t = i.
Proof.
  intros Hh. destruct (sw_current k Hw _ _ currentOf_lookup Hh) as (Hc & a & t & Ht & Ha).
  split; [done|]. exists a, t. split; [done|]. rewrite Ha. unfold core_id in Hi. lia.
Qed.
End Wf.

Lemma canonical_nonzero h : canonical h -> h <> INVALID_THREAD.
Proof. unfold canonical, INVALID_THREAD. lia. Qed.

Lemma modT_eq k h a t f : threadOf k h = Some (a, t) -> modT h f k = updT a (f t) k.
Proof. intros E. unfold modT. by rewrite E. Qed.

Lemma threadOf_modT k h h' f :
  objects_inv k -> canonical h -> canonical h' ->
  threadOf (modT h f k) h' =
  if decide (h' = h) then '(a, t) ← threadOf k h; Some (a, f t) else threadOf k h'.
Proof.
  intros Hi Hh Hh'. unfold modT. destruct (threadOf k h) as [[a t]|] eqn:Ht; cbn.
  - case_decide as Hd; [subst; by apply threadOf_updT_eq with t|].
    apply threadOf_updT_ne. intros Ho. apply Hd.
    pose proof (objectOf_inj k h' h a Hi Ho (threadOf_objectOf _ _ _ _ Ht)) as E.
    by rewrite !canonical_u16 in E.
  - case_decide; [by subst|done].
Qed.

Lemma modT_objects_inv k h f : objects_inv k -> objects_inv (modT h f k).
Proof.
  intros Hi. unfold modT. destruct (threadOf k h) as [[a t]|]; [|done]. by apply updT_objects_inv.
Qed.

Lemma sched_modT k h f : sched (modT h f k) = sched k.
Proof. unfold modT. by destruct (threadOf k h) as [[]|]. Qed.

(** ** The code computes the pure scheduler *)

(** Rewrite with what the next statement returns. *)
Ltac run E := rewrite (bind_ok _ _ _ _ _ E).

Section Refine.
Context {Mem : Type} (m : Mem) (timer : Z).

(** The machine with a given kernel state and running core. *)
Definition St (k : KState) (c : Core) : Machine (Mem * KState) := mkMachine c (m, k) timer.

Lemma run_updateThread k c h a t f : threadOf k h = Some (a, t) ->
  updateThread (Some a) f (St k c) = Ok (tt, St (modT h f k) c).
Proof. intros E. rewrite (updateThread_eq (St k c) h a t f E). by rewrite (modT_eq k h a t f E). Qed.

Lemma run_getThread k c h a t : objects_inv k -> threadOf k h = Some (a, t) ->
  getThread h (St k c) = Ok (Some a, St k c).
Proof. intros Hi. apply (getThread_eq (St k c)), Hi. Qed.

Lemma run_thread_at k c h a t : threadOf k h = Some (a, t) ->
  thread_at (Some a) (St k c) = Ok (t, St k c).
Proof. apply (thread_at_eq (St k c)). Qed.

Lemma run_queue k c h a t :
  objects_inv k -> threadOf k h = Some (a, t) -> core_id (affinityIndex t) ->
  length (gThreadLists (sched k)) = 4%nat ->
  queueThreadNoLock h (St k c) = Ok (tt, St (queueK h k) c).
Proof.
  intros Hi Ht Ha Hl.
  destruct (lookup_lt_is_Some_2 (gThreadLists (sched k)) (Z.to_nat (affinityIndex t)))
    as [l El]; [unfold core_id in Ha; lia|].
  rewrite (queueThreadNoLock_eq (St k c) h a t l (oi_handles k Hi) Ht) by
    (try exact El; unfold core_id in Ha; lia).
  unfold queueK, affinityOf. rewrite Ht.
  change (kernel (St k c)) with k.
  by rewrite (modT_eq (pushList (affinityIndex t) h k) h a t).
Qed.

Lemma run_requeue k c h a t :
  objects_inv k -> canonical h -> threadOf k h = Some (a, t) -> core_id (affinityIndex t) ->
  length (gThreadLists (sched k)) = 4%nat ->
  requeueRunning (Some a) h (St k c) = Ok (tt, St (requeueK h k) c).
Proof.
  intros Hi Hc Ht Ha Hl. unfold requeueRunning. run (run_thread_at k c h a t Ht).
  unfold requeueK, statusOf. rewrite Ht. cbn [mbind option_bind].
  destruct (decide (status t = ThreadStatus.RUNNING)) as [E|E].
  - rewrite decide_True by congruence. run (run_updateThread k c h a t (set_status ThreadStatus.READY) Ht).
    apply (run_queue _ c h a (set_status ThreadStatus.READY t)); try done.
    + by apply modT_objects_inv.
    + rewrite threadOf_modT by done. rewrite decide_True by done. by rewrite Ht.
    + by rewrite sched_modT.
  - rewrite decide_False by congruence. done.
Qed.

Lemma run_popBestLoop k c l i b bp :
  objects_inv k ->
  (forall h, h ∈ l -> canonical h /\ exists a t, threadOf k h = Some (a, t)) ->
  popBestLoop l i b bp (St k c) = Ok (pick (prioOf k) l i b bp, St k c).
Proof.
  intros Hi. revert i b bp. induction l as [|h l IH]; intros i b bp Hl; [done|].
  cbn [popBestLoop pick]. destruct (Hl h) as [Hc (a & t & Ht)]; [by apply list_elem_of_here|].
  rewrite (proj2 (Z.eqb_neq h _) (canonical_nonzero h Hc)).
  run (run_getThread k c h a t Hi Ht). run (run_thread_at k c h a t Ht).
  assert (prioOf k h = priority t) as -> by (unfold prioOf; by rewrite Ht).
  assert (forall h, h ∈ l -> canonical h /\ exists a t, threadOf k h = Some (a, t)) as Hl'
    by (intros h' Hh'; apply Hl; by apply list_elem_of_further).
  destruct (priority t <? bp).
  - run (run_getThread k c h a t Hi Ht). run (run_thread_at k c h a t Ht). by apply IH.
  - by apply IH.
Qed.

Lemma run_popBest k c i bp : sched_wf k -> core_id i ->
  popBest i bp (St k c) =
  match pick (prioOf k) (listOf k i) 0 None bp with
  | Some j => Ok (nth j (listOf k i) INVALID_THREAD, St (setList i (delete j (listOf k i)) k) c)
  | None => Ok (INVALID_THREAD, St k c)
  end.
Proof.
  intros Hw Hi. unfold popBest. rewrite (bind_ok _ _ (St k c) k (St k c)) by done.
  run (at_index_eq i _ (listOf k i) (St k c) (proj1 Hi) (listOf_lookup k Hw i Hi)).
  rewrite (bind_ok _ _ _ _ _ (run_popBestLoop k c (listOf k i) 0 None bp (sw_objects k Hw)
    (fun h Hh => let '(conj H1 (ex_intro _ a (ex_intro _ t (conj H2 _)))) :=
       listOf_live k Hw i Hi h Hh in
       conj H1 (ex_intro _ a (ex_intro _ t H2))))).
  by destruct (pick _ _ _ _ _).
Qed.

Lemma run_getCurrentHandle k c : sched_wf k -> core_id (coreNum c) ->
  getCurrentHandle (St k c) = Ok (currentOf k (coreNum c), St k c).
Proof.
  intros Hw Hi. apply (getCurrentHandle_eq (St k c)); [apply Hi|]. by apply currentOf_lookup.
Qed.

Lemma run_contextSwitch k c cur old next :
  objects_inv k ->
  gCurrentThreads (sched k) !! Z.to_nat (coreNum c) = Some cur -> core_id (coreNum c) ->
  (cur = INVALID_THREAD /\ old = None \/
   exists a t, cur <> INVALID_THREAD /\ canonical cur /\ threadOf k cur = Some (a, t) /\ old = Some a) ->
  (next = INVALID_THREAD \/ canonical next /\ next <> cur /\ exists a t, threadOf k next = Some (a, t)) ->
  contextSwitch (if next =? INVALID_THREAD then None else objectOf k next) (St k c) =
  Ok (tt, St (saveK cur c k)
        (set_exclusiveAccess false
           (if next =? INVALID_THREAD then c else restoreK (saveK cur c k) next c))).
Proof.
  intros Hi Hcur Hid Hold Hnext. unfold contextSwitch, getCurrentThread.
  assert ((handle ← getCurrentHandle; getThread handle) (St k c) = Ok (old, St k c)) as Ec.
  { run (getCurrentHandle_eq (St k c) cur (proj1 Hid) Hcur).
    destruct Hold as [[-> ->]|(a & t & _ & _ & Ht & ->)]; [done|]. by apply run_getThread with t. }
  run Ec. clear Ec.
  set (k' := saveK cur c k).
  assert ((match old with
    | Some _ => c0 ← (getCore : K Mem Core); (updateThread old (set_context (saveState c0)) : K Mem unit)
    | None => mret tt end : K Mem unit) (St k c) = Ok (tt, St k' c)) as Esave.
  { unfold k', saveK. destruct Hold as [[-> ->]|(a & t & Hne & _ & Ht & ->)]; [done|].
    rewrite (proj2 (Z.eqb_neq cur _) Hne).
    rewrite (bind_ok _ _ (St k c) c (St k c)) by done. by apply run_updateThread with t. }
  run Esave. clear Esave.
  destruct Hnext as [->|(Hcn & Hnc & a & t & Ht)]; [done|].
  rewrite (proj2 (Z.eqb_neq next _) (canonical_nonzero next Hcn)).
  rewrite (threadOf_objectOf _ _ _ _ Ht).
  assert (threadOf k' next = Some (a, t)) as Ht'.
  { unfold k', saveK. destruct Hold as [[-> ->]|(a' & t' & Hne & Hcc & Ht' & ->)]; [done|].
    rewrite (proj2 (Z.eqb_neq cur _) Hne). rewrite threadOf_modT by done. by rewrite decide_False. }
  unfold restoreK, contextOf. rewrite Ht'. cbn [mbind option_bind].
  rewrite (bind_ok _ _ (St k' c) tt (St k' (restoreState (context t) c))); [done|].
  by run (run_thread_at k' c next a t Ht').
Qed.
End Refine.

Lemma requeueK_objects_inv h k : objects_inv k -> objects_inv (requeueK h k).
Proof.
  intros Hi. unfold requeueK, queueK. destruct (decide _); [|done].
  apply modT_objects_inv. pose proof (modT_objects_inv k h (set_status ThreadStatus.READY) Hi) as H.
  destruct H; by constructor.
Qed.

Lemma queueK_threadOf h k h' : objects_inv k -> canonical h -> canonical h' ->
  threadOf (queueK h k) h' =
  if decide (h' = h) then '(a, t) ← threadOf k h; Some (a, set_status ThreadStatus.READY t)
  else threadOf k h'.
Proof.
  intros Hi Hh Hh'. unfold queueK.
  assert (objects_inv (pushList (affinityOf k h) h k)) by (destruct Hi; by constructor).
  by rewrite threadOf_modT.
Qed.

Lemma requeueK_threadOf h k h' : objects_inv k -> canonical h -> canonical h' ->
  threadOf (requeueK h k) h' =
  if decide (h' = h /\ statusOf k h = Some ThreadStatus.RUNNING)
  then '(a, t) ← threadOf k h; Some (a, set_status ThreadStatus.READY t)
  else threadOf k h'.
Proof.
  intros Hi Hh Hh'. unfold requeueK. destruct (decide (statusOf k h = _)) as [E|E].
  - rewrite queueK_threadOf by (done || by apply modT_objects_inv).
    destruct (decide (h' = h)) as [->|Hne].
    + rewrite decide_True by done. rewrite threadOf_modT by done. rewrite decide_True by done.
      by destruct (threadOf k h) as [[]|].
    + rewrite (decide_False (P := _ /\ _)) by tauto. rewrite threadOf_modT by done.
      by rewrite decide_False.
  - by rewrite decide_False by tauto.
Qed.

Lemma requeueK_threadOf_ne h k h' : objects_inv k -> canonical h -> canonical h' -> h' <> h ->
  threadOf (requeueK h k) h' = threadOf k h'.
Proof. intros Hi Hh Hh' Hne. rewrite requeueK_threadOf by done. by rewrite decide_False by tauto. Qed.

(** The thread [popBest] picks, and why it is not the current one. *)
Lemma nextOf_live k i j :
  sched_wf k -> core_id i -> nextOf k i = Some j ->
  let next := nth j (listOf k i) INVALID_THREAD in
  next ∈ listOf k i /\ canonical next /\ next <> currentOf k i /\
  (exists a t, threadOf k next = Some (a, t) /\ affinityIndex t = i).
Proof.
  intros Hw Hi Hn. unfold nextOf in Hn.
  destruct (pick_spec (prioOf k) (listOf k i) 0 None
    (if currentOf k i =? INVALID_THREAD then NO_PRIORITY else prioOf k (currentOf k i)))
    as [(j' & E & h & Hh & Hlt & _)|[E _]]; rewrite E in Hn; [|done].
  injection Hn as <-. cbn. rewrite (nth_lookup_Some _ _ _ h Hh).
  apply list_elem_of_lookup_2 in Hh. destruct (listOf_live k Hw i Hi h Hh) as [Hc Ht].
  split; [done|]. split; [done|]. split; [|done]. intros ->.
  rewrite (proj2 (Z.eqb_neq _ _) (canonical_nonzero _ Hc)) in Hlt. lia.
Qed.

Section Reschedule.
Context {Mem : Type} (m : Mem) (timer : Z).
Context (k : KState) (c : Core) (Hw : sched_wf k) (Hid : core_id (coreNum c)).
Abbreviation St := (St m timer).

Let i := coreNum c.
Let cur := currentOf k i.
Let l := listOf k i.

(** From an idle core to the chosen thread. *)
Lemma run_from_idle j k1 :
  cur = INVALID_THREAD -> nextOf k i = Some j -> k1 = setList i (delete j l) k ->
  let next := nth j l INVALID_THREAD in
  (p ← getThread next;
   contextSwitch p;;
   p ← getThread next;
   (updateThread p (set_status ThreadStatus.RUNNING) : K Mem unit);;
   onCore (set_isActive true)) (St k1 c) =
  Ok (tt, St (modT next (set_status ThreadStatus.RUNNING) k1)
        (set_isActive true (set_exclusiveAccess false (restoreK k1 next c)))).
Proof.
  intros Hcur Hn -> next.
  destruct (nextOf_live k i j Hw Hid Hn) as (Hin & Hc & Hne & a & t & Ht & Ha).
  fold l in Hin, Hc, Hne, Ht. fold next in Hin, Hc, Hne, Ht.
  set (k1 := setList i (delete j l) k). pose proof (sw_objects k Hw) as Ho.
  pose proof (Ht : threadOf k1 next = Some (a, t)) as Ht1.
  assert (objects_inv k1) as Ho1 by (destruct Ho; by constructor).
  run (run_getThread m timer k1 c next a t Ho1 Ht1).
  pose proof (run_contextSwitch m timer k1 c cur None next Ho1 (currentOf_lookup k Hw i Hid) Hid) as E.
  rewrite (proj2 (Z.eqb_neq next _) (canonical_nonzero next Hc)) in E.
  rewrite (threadOf_objectOf _ _ _ _ Ht1) in E.
  run (E (or_introl (conj Hcur eq_refl)) (or_intror (conj Hc (conj Hne (ex_intro _ a (ex_intro _ t Ht1)))))).
  rewrite Hcur. unfold saveK. cbn [Z.eqb INVALID_THREAD].
  run (run_getThread m timer k1 (set_exclusiveAccess false (restoreK k1 next c)) next a t Ho1 Ht1).
  run (run_updateThread m timer k1 (set_exclusiveAccess false (restoreK k1 next c)) next a t
    (set_status ThreadStatus.RUNNING) Ht1).
  done.
Qed.

(** From a current thread to the chosen one. *)
Lemma run_from_thread j k1 a0 :
  cur <> INVALID_THREAD -> nextOf k i = Some j -> k1 = setList i (delete j l) k ->
  objectOf k cur = Some a0 ->
  let next := nth j l INVALID_THREAD in
  let k2 := saveK cur c k1 in
  ((p ← getThread next;
    contextSwitch p;;
    p ← getThread next;
    (updateThread p (set_status ThreadStatus.RUNNING) : K Mem unit);;
    (requeueRunning (Some a0) cur : K Mem unit)) : K Mem unit) (St k1 c) =
  Ok (tt, St (requeueK cur (modT next (set_status ThreadStatus.RUNNING) k2))
        (set_exclusiveAccess false (restoreK k2 next c))).
Proof.
  intros Hcur Hn -> Ha0 next.
  destruct (nextOf_live k i j Hw Hid Hn) as (Hin & Hc & Hne & a & t & Ht & Ha).
  fold l in Hin, Hc, Hne, Ht. fold next in Hin, Hc, Hne, Ht. fold cur in Hne.
  set (k1 := setList i (delete j l) k). pose proof (sw_objects k Hw) as Ho.
  pose proof (Ht : threadOf k1 next = Some (a, t)) as Ht1.
  assert (objects_inv k1) as Ho1 by (destruct Ho; by constructor).
  destruct (currentOf_live k Hw i Hid Hcur) as (Hcc & a' & tc & Htc & Hac). fold cur in Hcc, Htc.
  pose proof (threadOf_objectOf _ _ _ _ Htc) as E0. rewrite Ha0 in E0. injection E0 as <-.
  pose proof (Htc : threadOf k1 cur = Some (a0, tc)) as Htc1.
  intros k2. set (c2 := set_exclusiveAccess false (restoreK k2 next c)).
  assert (threadOf k2 next = Some (a, t)) as Ht2.
  { unfold k2, saveK. rewrite (proj2 (Z.eqb_neq cur _) Hcur).
    rewrite threadOf_modT by done. by rewrite decide_False. }
  assert (threadOf k2 cur = Some (a0, set_context (saveState c) tc)) as Htc2.
  { unfold k2, saveK. rewrite (proj2 (Z.eqb_neq cur _) Hcur).
    rewrite threadOf_modT by done. by rewrite decide_True, Htc1. }
  assert (objects_inv k2) as Ho2.
  { unfold k2, saveK. destruct (cur =? INVALID_THREAD); [done|]. by apply modT_objects_inv. }
  assert (sched k2 = sched k1) as Hs2.
  { unfold k2, saveK. destruct (cur =? INVALID_THREAD); [done|]. by rewrite sched_modT. }
  run (run_getThread m timer k1 c next a t Ho1 Ht1).
  pose proof (run_contextSwitch m timer k1 c cur (Some a0) next Ho1 (currentOf_lookup k Hw i Hid) Hid) as E.
  rewrite (proj2 (Z.eqb_neq next _) (canonical_nonzero next Hc)) in E.
  rewrite (threadOf_objectOf _ _ _ _ Ht1) in E.
  rewrite (bind_ok _ _ _ tt (St k2 c2)).
  2: { apply E; [right; by exists a0, tc|right]. split; [done|]. split; [done|]. by exists a, t. }
  run (run_getThread m timer k2 c2 next a t Ho2 Ht2).
  run (run_updateThread m timer k2 c2 next a t (set_status ThreadStatus.RUNNING) Ht2).
  apply (run_requeue m timer _ c2 cur a0 (set_context (saveState c) tc)); try done.
  - by apply modT_objects_inv.
  - rewrite threadOf_modT by done. by rewrite decide_False.
  - cbn. unfold affinityIndex in *. cbn. by rewrite Hac.
  - rewrite sched_modT, Hs2. cbn. rewrite length_insert. apply Hw.
Qed.
End Reschedule.

Lemma setCurrent_tail {Mem} (m : Mem) timer k c i next a t :
  objects_inv k -> next <> INVALID_THREAD -> threadOf k next = Some (a, t) ->
  ((modSched (fun s => set_gCurrentThreads (<[Z.to_nat i := next]> (gCurrentThreads s)) s) : K Mem unit) ;;
   ((p ← getThread next; updateThread p wakeup) : K Mem unit)) (St m timer k c) =
  Ok (tt, St m timer (modT next wakeup (setCurrent i next k)) c).
Proof.
  intros Hi Hn Ht. rewrite (bind_ok _ _ _ tt (St m timer (setCurrent i next k) c)) by done.
  pose proof (Ht : threadOf (setCurrent i next k) next = Some (a, t)) as Ht'.
  assert (objects_inv (setCurrent i next k)) as Hi' by (destruct Hi; by constructor).
  run (run_getThread m timer _ c next a t Hi' Ht'). by apply run_updateThread with t.
Qed.

(** The code of [rescheduleNoLock] computes [reschedK]. *)
Lemma rescheduleNoLock_eq {Mem} (m : Mem) timer k c :
  sched_wf k -> core_id (coreNum c) ->
  rescheduleNoLock (St m timer k c) =
  let '(k', c') := reschedK (coreNum c) c k in Ok (tt, St m timer k' c').
Proof.
  intros Hw Hid. set (i := coreNum c). set (cur := currentOf k i).
  pose proof (sw_objects k Hw) as Ho. unfold rescheduleNoLock.
  rewrite (bind_ok _ _ _ i (St m timer k c)) by done.
  run (run_getCurrentHandle m timer k c Hw Hid). fold i cur.
  assert (exists old, getCurrentThread (St m timer k c) = Ok (old, St m timer k c) /\
    (cur = INVALID_THREAD /\ old = None \/
     exists a t, cur <> INVALID_THREAD /\ canonical cur /\ threadOf k cur = Some (a, t) /\
       affinityIndex t = i /\ old = Some a)) as (old & Eold & Hold).
  { unfold getCurrentThread. run (run_getCurrentHandle m timer k c Hw Hid). fold i cur.
    destruct (Z.eq_dec cur INVALID_THREAD) as [E|E].
    - exists None. rewrite E. by split; [|left].
    - destruct (currentOf_live k Hw i Hid E) as (Hc & a & t & Ht & Ha). exists (Some a).
      split; [by apply run_getThread with t|]. right. by exists a, t. }
  run Eold. unfold reschedK. cbv zeta. fold cur.
  set (minp := if cur =? INVALID_THREAD then NO_PRIORITY else prioOf k cur).
  rewrite (bind_ok _ _ _ minp (St m timer k c)).
  2: { destruct Hold as [[E ->]|(a & t & E & _ & Ht & _ & ->)]; unfold minp.
       - by rewrite E.
       - rewrite (proj2 (Z.eqb_neq cur _) E). run (run_thread_at m timer k c cur a t Ht).
         unfold prioOf. by rewrite Ht. }
  pose proof (run_popBest m timer k c i minp Hw Hid) as Ep.
  assert (pick (prioOf k) (listOf k i) 0 None minp = nextOf k i) as Epick by done.
  rewrite Epick in Ep. clear Epick.
  destruct (nextOf k i) as [j|] eqn:Hn.
  - (* a better thread waits *)
    destruct (nextOf_live k i j Hw Hid Hn) as (Hin & Hc & Hne & a & t & Ht & Ha).
    set (next := nth j (listOf k i) INVALID_THREAD) in *.
    set (k1 := setList i (delete j (listOf k i)) k) in *.
    assert ((next =? INVALID_THREAD) = false) as Hn0 by (apply Z.eqb_neq; by apply canonical_nonzero).
    assert (objects_inv k1) as Ho1 by (destruct Ho; by constructor).
    run Ep. rewrite (bind_ok _ _ _ next (St m timer k1 c)).
    2: { destruct Hold as [[E ->]|(a' & t' & E & _ & Ht' & _ & ->)]; [done|].
         run (run_thread_at m timer k1 c cur a' t' Ht'). by rewrite Hn0. }
    destruct Hold as [[E ->]|(a' & t' & E & Hcc & Ht' & Ha' & ->)].
    + assert (threadOf (modT next (set_status ThreadStatus.RUNNING) k1) next =
        Some (a, set_status ThreadStatus.RUNNING t)) as Ht1.
      { rewrite threadOf_modT by done. rewrite decide_True by done.
        by rewrite (Ht : threadOf k1 next = _). }
      rewrite E, Hn0. cbn [negb Z.eqb INVALID_THREAD].
      run (run_from_idle m timer k c Hw Hid j k1 E Hn eq_refl).
      rewrite (setCurrent_tail m timer _ _ i next a (set_status ThreadStatus.RUNNING t));
        [done|by apply modT_objects_inv|by apply canonical_nonzero|exact Ht1].
    + rewrite Hn0, (proj2 (Z.eqb_neq cur _) E). cbn [negb].
      rewrite (proj2 (Z.eqb_neq cur next)) by (intros Heq; by apply Hne). cbn [negb].
      pose proof (run_from_thread m timer k c Hw Hid j k1 a' E Hn eq_refl
        (threadOf_objectOf _ _ _ _ Ht')) as Er. cbv zeta in Er. fold next i cur in Er.
      set (k2 := saveK cur c k1) in *.
      assert (objects_inv k2) as Ho2.
      { unfold k2, saveK. destruct (cur =? INVALID_THREAD); [done|]. by apply modT_objects_inv. }
      assert (threadOf k2 next = Some (a, t)) as Ht2.
      { unfold k2, saveK. rewrite (proj2 (Z.eqb_neq cur _) E).
        rewrite threadOf_modT by done. by rewrite decide_False. }
      set (c2 := set_exclusiveAccess false (restoreK k2 next c)) in *.
      set (k3 := modT next (set_status ThreadStatus.RUNNING) k2) in *.
      rewrite (bind_ok _ _ _ tt (St m timer (requeueK cur k3) (set_isActive true c2))).
      2: { by rewrite (bind_ok _ _ _ tt (St m timer (requeueK cur k3) c2)). }
      assert (threadOf k3 next = Some (a, set_status ThreadStatus.RUNNING t)) as Ht3.
      { unfold k3. rewrite threadOf_modT by done. rewrite decide_True by done. by rewrite Ht2. }
      assert (objects_inv k3) as Ho3 by by apply modT_objects_inv.
      rewrite (setCurrent_tail m timer _ _ i next a (set_status ThreadStatus.RUNNING t)); [done| | |].
      * by apply requeueK_objects_inv.
      * by apply canonical_nonzero.
      * by rewrite requeueK_threadOf_ne.
  - (* none *)
    run Ep.
    destruct Hold as [[E ->]|(a' & t' & E & Hcc & Ht' & Ha' & ->)].
    + rewrite (bind_ok _ _ _ INVALID_THREAD (St m timer k c)) by done.
      rewrite E. done.
    + assert (statusOf k cur = Some (status t')) as Es by (unfold statusOf; by rewrite Ht').
      rewrite (bind_ok _ _ _ (if bool_decide (status t' = ThreadStatus.RUNNING) then cur
                              else INVALID_THREAD) (St m timer k c)).
      2: { by run (run_thread_at m timer k c cur a' t' Ht'). }
      rewrite (proj2 (Z.eqb_neq cur _) E), Es.
      destruct (decide (status t' = ThreadStatus.RUNNING)) as [Er|Er].
      * rewrite (decide_True _ _ (f_equal Some Er)), (bool_decide_true _ Er).
        rewrite (proj2 (Z.eqb_neq cur _) E), Z.eqb_refl. cbn [negb].
        rewrite (bind_ok _ _ _ tt (St m timer k (set_isActive true c))) by done.
        by rewrite (setCurrent_tail m timer k _ i cur a' t').
      * rewrite decide_False by congruence. rewrite (bool_decide_false _ Er).
        cbn [negb Z.eqb INVALID_THREAD].
        pose proof (run_contextSwitch m timer k c cur (Some a') INVALID_THREAD Ho
          (currentOf_lookup k Hw i Hid) Hid ltac:(right; by exists a', t') (or_introl eq_refl)) as Ec.
        cbn [Z.eqb INVALID_THREAD] in Ec.
        set (k2 := saveK cur c k) in *.
        assert (threadOf k2 cur = Some (a', set_context (saveState c) t')) as Ht2.
        { unfold k2, saveK. rewrite (proj2 (Z.eqb_neq cur _) E).
          rewrite threadOf_modT by done. by rewrite decide_True, Ht'. }
        rewrite (bind_ok _ _ _ tt (St m timer k2 (set_isActive false (set_exclusiveAccess false c)))).
        2: { run Ec. rewrite (bind_ok _ _ _ tt (St m timer k2 (set_exclusiveAccess false c))); [done|].
             unfold requeueRunning. run (run_thread_at m timer k2 (set_exclusiveAccess false c) cur a' _ Ht2).
             by rewrite decide_False. }
        done.
Qed.
