(* ===== verification/SchedulerInv.v ===== *)
(** * The invariant of the scheduler

    No ready thread is lost and none is queued twice: the lists hold exactly the ready
    threads, each once and on the core of its affinity, and a running thread is the
    current one of its core.  Every operation of the scheduler keeps this, so it holds
    in every reachable state. *)
From S2P Require Import Prelude BitUtils Instructions Core Machine HandleManager.
From S2P Require Import MemoryMapper Thread KernelState Scheduler KernelLemmas SchedulerSpec.

Record sched_inv (k : KState) : Prop := {
  si_wf : sched_wf k;
  si_nodup : forall i, core_id i -> NoDup (listOf k i);
  si_queued_ready : forall i h, core_id i -> h ∈ listOf k i ->
    statusOf k h = Some ThreadStatus.READY;
  si_ready_queued : forall h, canonical h -> statusOf k h = Some ThreadStatus.READY ->
    core_id (affinityOf k h) /\ h ∈ listOf k (affinityOf k h);
  si_running_current : forall h, canonical h -> statusOf k h = Some ThreadStatus.RUNNING ->
    core_id (affinityOf k h) /\ currentOf k (affinityOf k h) = h;
}.

(** ** What the pure operations change *)

Section Views.
Context (k : KState) (Ho : objects_inv k) (h : Z) (Hh : canonical h).

Lemma statusOf_modT_keep f h' : canonical h' -> (forall t, status (f t) = status t) ->
  statusOf (modT h f k) h' = statusOf k h'.
Proof.
  intros Hh' Hf. unfold statusOf. rewrite threadOf_modT by done.
  destruct (decide (h' = h)) as [->|]; [|done].
  destruct (threadOf k h) as [[a t]|]; cbn; [by rewrite Hf|done].
Qed.

Lemma statusOf_set_status v h' : canonical h' ->
  statusOf (modT h (set_status v) k) h' =
  if decide (h' = h) then (_ ← threadOf k h; Some v) else statusOf k h'.
Proof.
  intros Hh'. unfold statusOf. rewrite threadOf_modT by done.
  destruct (decide (h' = h)); [|done]. by destruct (threadOf k h) as [[]|].
Qed.

Lemma affinityOf_modT f h' : canonical h' -> (forall t, affinity (f t) = affinity t) ->
  affinityOf (modT h f k) h' = affinityOf k h'.
Proof.
  intros Hh' Hf. unfold affinityOf. rewrite threadOf_modT by done.
  destruct (decide (h' = h)) as [->|]; [|done].
  destruct (threadOf k h) as [[a t]|]; cbn; [|done]. unfold affinityIndex. by rewrite Hf.
Qed.

Lemma live_on_modT f i h' : (forall t, affinity (f t) = affinity t) ->
  live_on k i h' -> live_on (modT h f k) i h'.
Proof.
  intros Hf (Hc & a & t & Ht & Ha). split; [done|]. rewrite threadOf_modT by done.
  destruct (decide (h' = h)) as [->|]; [|by exists a, t]. rewrite Ht. cbn.
  exists a, (f t). split; [done|]. unfold affinityIndex in *. by rewrite Hf.
Qed.
End Views.

Lemma set_status_affinity v t : affinity (set_status v t) = affinity t.
Proof. done. Qed.
Lemma set_context_affinity x t : affinity (set_context x t) = affinity t.
Proof. done. Qed.
Lemma wakeup_affinity t : affinity (wakeup t) = affinity t.
Proof. unfold wakeup. by destruct (wakeupCallback t). Qed.
Lemma set_context_status x t : status (set_context x t) = status t.
Proof. done. Qed.
Lemma wakeup_status t : status (wakeup t) = status t.
Proof. unfold wakeup. by destruct (wakeupCallback t). Qed.
#[export] Hint Resolve set_status_affinity set_context_affinity wakeup_affinity
  set_context_status wakeup_status modT_objects_inv : emu.

Lemma sched_wf_modT k h f :
  canonical h -> (forall t, affinity (f t) = affinity t) -> sched_wf k -> sched_wf (modT h f k).
Proof.
  intros Hh Hf [H1 H2 H3 H4 H5]. constructor; rewrite ?sched_modT; try done.
  - by apply modT_objects_inv.
  - intros i l h' Hl Hin. apply live_on_modT; try done. by apply (H4 i l).
  - intros i h' Hl Hne. apply live_on_modT; try done. by apply (H5 i h').
Qed.

(** Lookups in the list of a core and its current thread after an update. *)
Lemma listOf_setList k i i' l : sched_wf k -> core_id i -> core_id i' ->
  listOf (setList i l k) i' = if decide (i' = i) then l else listOf k i'.
Proof.
  intros Hw Hi Hi'. unfold listOf, setList. cbn. unfold core_id in *. case_decide as Hd.
  - rewrite Hd, list_lookup_insert_eq; [done|]. rewrite (sw_lists k Hw). lia.
  - rewrite list_lookup_insert_ne; [done|]. lia.
Qed.

Lemma currentOf_setCurrent k i i' h : sched_wf k -> core_id i -> core_id i' ->
  currentOf (setCurrent i h k) i' = if decide (i' = i) then h else currentOf k i'.
Proof.
  intros Hw Hi Hi'. unfold currentOf, setCurrent. cbn. unfold core_id in *. case_decide as Hd.
  - rewrite Hd, list_lookup_insert_eq; [done|]. rewrite (sw_currents k Hw). lia.
  - rewrite list_lookup_insert_ne; [done|]. lia.
Qed.

Lemma sched_wf_setList k i l : core_id i -> (forall h, h ∈ l -> live_on k (Z.to_nat i) h) ->
  sched_wf k -> sched_wf (setList i l k).
Proof.
  intros Hi Hl [H1 H2 H3 H4 H5]. constructor; cbn; try done.
  - destruct H1; by constructor.
  - by rewrite length_insert.
  - intros i' l' h E Hin. apply list_lookup_insert_Some in E as [(<- & -> & _)|[_ E]].
    + by apply Hl.
    + by apply (H4 i' l').
Qed.

Lemma sched_wf_setCurrent k i h : core_id i ->
  (h <> INVALID_THREAD -> live_on k (Z.to_nat i) h) -> sched_wf k -> sched_wf (setCurrent i h k).
Proof.
  intros Hi Hl [H1 H2 H3 H4 H5]. constructor; cbn; try done.
  - destruct H1; by constructor.
  - by rewrite length_insert.
  - intros i' h' E Hin. apply list_lookup_insert_Some in E as [(<- & -> & _)|[_ E]].
    + by apply Hl.
    + by apply (H5 i' h').
Qed.

Lemma pushList_setList k h i : pushList i h k = setList i (listOf k i ++ [h]) k.
Proof. done. Qed.

Lemma live_on_of k i h a t : core_id i -> canonical h -> threadOf k h = Some (a, t) ->
  affinityIndex t = i -> live_on k (Z.to_nat i) h.
Proof.
  intros Hi Hc Ht Ha. split; [done|]. exists a, t. split; [done|]. rewrite Ha.
  unfold core_id in Hi. lia.
Qed.

Lemma live_on_core k i h : sched_wf k -> core_id i -> h ∈ listOf k i -> live_on k (Z.to_nat i) h.
Proof.
  intros Hw Hi Hin. apply (sw_queued k Hw _ (listOf k i)); [by apply listOf_lookup|done].
Qed.

(** ** Queueing a thread *)

Section Queue.
Context (k : KState) (Hw : sched_wf k) (h a : Z) (t : Thread).
Context (Hc : canonical h) (Ht : threadOf k h = Some (a, t)) (Ha : core_id (affinityIndex t)).

Lemma sched_wf_pushed : sched_wf (pushList (affinityIndex t) h k).
Proof.
  rewrite pushList_setList. apply sched_wf_setList; try done.
  intros h' [Hin| ->%list_elem_of_singleton]%elem_of_app.
  - by apply live_on_core.
  - by apply (live_on_of k _ h a t).
Qed.

Lemma affinityOf_thread : affinityOf k h = affinityIndex t.
Proof. unfold affinityOf. by rewrite Ht. Qed.

Lemma queueK_wf : sched_wf (queueK h k).
Proof.
  unfold queueK. apply sched_wf_modT; try done. rewrite affinityOf_thread. apply sched_wf_pushed.
Qed.

Lemma queueK_statusOf h' : canonical h' ->
  statusOf (queueK h k) h' = if decide (h' = h) then Some ThreadStatus.READY else statusOf k h'.
Proof.
  intros Hh'. unfold statusOf. rewrite queueK_threadOf by (done || apply Hw).
  rewrite Ht. by destruct (decide (h' = h)).
Qed.

Lemma queueK_affinityOf h' : canonical h' -> affinityOf (queueK h k) h' = affinityOf k h'.
Proof.
  intros Hh'. unfold affinityOf. rewrite queueK_threadOf by (done || apply Hw).
  destruct (decide (h' = h)) as [->|]; [|done]. by rewrite Ht.
Qed.

Lemma queueK_listOf i : core_id i ->
  listOf (queueK h k) i =
  if decide (i = affinityIndex t) then listOf k i ++ [h] else listOf k i.
Proof.
  intros Hi. unfold queueK, listOf. rewrite sched_modT. rewrite affinityOf_thread.
  fold (listOf (pushList (affinityIndex t) h k) i). rewrite pushList_setList.
  rewrite listOf_setList by done. by case_decide; subst.
Qed.

Lemma queueK_currentOf i : currentOf (queueK h k) i = currentOf k i.
Proof. unfold queueK, currentOf. by rewrite sched_modT. Qed.

Lemma queueK_lock : gSchedulerLock (sched (queueK h k)) = gSchedulerLock (sched k).
Proof. unfold queueK. by rewrite sched_modT. Qed.
End Queue.

(** ** Rescheduling *)

(** The threads [delete j l] holds, when [l] has no duplicates. *)
Lemma elem_of_delete_NoDup {A} (l : list A) j x y :
  NoDup l -> l !! j = Some x -> y ∈ delete j l <-> y ∈ l /\ y <> x.
Proof.
  intros Hn Hj. rewrite delete_take_drop, elem_of_app.
  pose proof (take_drop_middle l j x Hj) as E. rewrite <-E in Hn.
  apply NoDup_app in Hn as (_ & Hd & Hn). apply NoDup_cons in Hn as [Hx _]. split.
  - intros Hy. split.
    + rewrite <-E, elem_of_app, elem_of_cons. tauto.
    + intros ->. destruct Hy as [Hy|Hy]; [|done]. apply (Hd x Hy). by apply list_elem_of_here.
  - intros [Hy Hne]. rewrite <-E, elem_of_app, elem_of_cons in Hy. tauto.
Qed.

Lemma NoDup_delete {A} (l : list A) j : NoDup l -> NoDup (delete j l).
Proof. intros H. apply sublist_NoDup with l; [done|]. apply sublist_delete. Qed.

Section Resched.
Context (k : KState) (Hw : sched_wf k) (i : Z) (Hi : core_id i) (c : Core).
Let cur := currentOf k i.
Let k' := fst (reschedK i c k).

(** The save of the current thread's context changes nothing the scheduler looks at. *)
Lemma saveK_view k1 : sched_wf k1 -> (cur = INVALID_THREAD \/ canonical cur) ->
  sched_wf (saveK cur c k1) /\
  (forall h', canonical h' -> statusOf (saveK cur c k1) h' = statusOf k1 h') /\
  (forall h', canonical h' -> affinityOf (saveK cur c k1) h' = affinityOf k1 h') /\
  sched (saveK cur c k1) = sched k1.
Proof.
  intros Hw1 Hcc. unfold saveK. destruct (Z.eqb_spec cur INVALID_THREAD) as [|Hne]; [done|].
  destruct Hcc as [|Hcc]; [done|]. split; [|split; [|split]].
  - apply sched_wf_modT; auto with emu.
  - intros h' Hh'. apply statusOf_modT_keep; auto with emu. apply Hw1.
  - intros h' Hh'. apply affinityOf_modT; auto with emu. apply Hw1.
  - apply sched_modT.
Qed.

Lemma cur_canonical : cur = INVALID_THREAD \/ canonical cur.
Proof.
  destruct (Z.eq_dec cur INVALID_THREAD) as [|Hne]; [by left|]. right.
  by destruct (currentOf_live k Hw i Hi Hne).
Qed.

(** What a call of the scheduler does to the parts of the state it looks at. *)
Record view_after (st : Z -> option ThreadStatus.t) (li : Z -> list Z) (cu : Z -> Z)
    : Prop := {
  va_wf : sched_wf k';
  va_lock : gSchedulerLock (sched k') = gSchedulerLock (sched k);
  va_status : forall h, canonical h -> statusOf k' h = st h;
  va_affinity : forall h, canonical h -> affinityOf k' h = affinityOf k h;
  va_list : forall i', core_id i' -> listOf k' i' = li i';
  va_current : forall i', core_id i' -> currentOf k' i' = cu i';
}.

Lemma resched_idle :
  nextOf k i = None -> statusOf k cur <> Some ThreadStatus.RUNNING ->
  view_after (statusOf k) (listOf k)
    (fun i' => if decide (i' = i) then INVALID_THREAD else currentOf k i').
Proof.
  intros Hn Hr. destruct (saveK_view k Hw cur_canonical) as (S1 & S2 & S3 & S4).
  assert (k' = setCurrent i INVALID_THREAD (saveK cur c k)) as E.
  { unfold k', reschedK. rewrite Hn. fold cur. unfold saveK.
    destruct (cur =? INVALID_THREAD); [done|]. by rewrite decide_False. }
  constructor; rewrite E.
  - by apply sched_wf_setCurrent.
  - cbn. by rewrite S4.
  - exact S2.
  - exact S3.
  - intros i' Hi'. unfold listOf. cbn. by rewrite S4.
  - intros i' Hi'. rewrite currentOf_setCurrent by done. unfold currentOf. by rewrite S4.
Qed.

Lemma resched_keep :
  nextOf k i = None -> statusOf k cur = Some ThreadStatus.RUNNING ->
  view_after (statusOf k) (listOf k) (currentOf k).
Proof.
  intros Hn Hr. destruct cur_canonical as [E0|Hcc].
  { rewrite E0 in Hr. done. }
  assert (k' = modT cur wakeup (setCurrent i cur k)) as E.
  { unfold k', reschedK. rewrite Hn. fold cur.
    rewrite (proj2 (Z.eqb_neq cur _) (canonical_nonzero cur Hcc)). by rewrite decide_True. }
  assert (sched_wf (setCurrent i cur k)) as Hw1.
  { apply sched_wf_setCurrent; try done. intros _. apply (sw_current k Hw); [|by apply canonical_nonzero].
    by apply currentOf_lookup. }
  constructor; rewrite E.
  - apply sched_wf_modT; auto with emu.
  - by rewrite sched_modT.
  - intros h Hh. rewrite statusOf_modT_keep; auto with emu. apply Hw1.
  - intros h Hh. rewrite affinityOf_modT; auto with emu. apply Hw1.
  - intros i' Hi'. unfold listOf. by rewrite sched_modT.
  - intros i' Hi'. unfold currentOf at 1. rewrite sched_modT.
    fold (currentOf (setCurrent i cur k) i'). rewrite currentOf_setCurrent by done.
    by case_decide; subst.
Qed.

(** Requeueing the old current thread, after the new one was made running. *)
Lemma requeue_view j next k3 :
  sched_wf k3 -> canonical next -> next <> cur ->
  gSchedulerLock (sched k3) = gSchedulerLock (sched k) ->
  (forall h, canonical h -> statusOf k3 h =
     if decide (h = next) then Some ThreadStatus.RUNNING else statusOf k h) ->
  (forall h, canonical h -> affinityOf k3 h = affinityOf k h) ->
  (forall i', core_id i' -> listOf k3 i' =
     if decide (i' = i) then delete j (listOf k i) else listOf k i') ->
  (forall i', core_id i' -> currentOf k3 i' = currentOf k i') ->
  let k4 := if cur =? INVALID_THREAD then k3 else requeueK cur k3 in
  sched_wf k4 /\ gSchedulerLock (sched k4) = gSchedulerLock (sched k) /\
  (forall h, canonical h -> statusOf k4 h =
     if decide (h = next) then Some ThreadStatus.RUNNING
     else if decide (h = cur /\ statusOf k cur = Some ThreadStatus.RUNNING)
          then Some ThreadStatus.READY else statusOf k h) /\
  (forall h, canonical h -> affinityOf k4 h = affinityOf k h) /\
  (forall i', core_id i' -> listOf k4 i' = if decide (i' = i) then
     delete j (listOf k i) ++
     (if decide (statusOf k cur = Some ThreadStatus.RUNNING) then [cur] else [])
     else listOf k i') /\
  (forall i', core_id i' -> currentOf k4 i' = currentOf k i').
Proof.
  intros W3 Hc Hne K3 S3 A3 L3 C3.
  destruct (decide (statusOf k cur = Some ThreadStatus.RUNNING)) as [Er|Er].
  - destruct cur_canonical as [E0|Hcc]; [by rewrite E0 in Er|].
    rewrite (proj2 (Z.eqb_neq cur _) (canonical_nonzero cur Hcc)).
    pose proof (S3 cur Hcc) as Sc. rewrite decide_False in Sc by congruence.
    assert (statusOf k3 cur = Some ThreadStatus.RUNNING) as Sc' by congruence.
    assert (exists a t, threadOf k3 cur = Some (a, t)) as (a & t & Ht).
    { unfold statusOf in Sc'. destruct (threadOf k3 cur) as [[a t]|]; [by exists a, t|done]. }
    pose proof (A3 cur Hcc) as Ac. rewrite (affinityOf_thread k3 cur a t Ht) in Ac.
    assert (affinityOf k cur = i) as Ai.
    { destruct (currentOf_live k Hw i Hi (canonical_nonzero cur Hcc)) as (_ & a0 & t0 & Ht0 & Ha0).
      unfold affinityOf, cur. by rewrite Ht0. }
    rewrite Ai in Ac.
    set (k3' := modT cur (set_status ThreadStatus.READY) k3).
    assert (sched_wf k3') as W3' by (apply sched_wf_modT; auto with emu).
    assert (threadOf k3' cur = Some (a, set_status ThreadStatus.READY t)) as Ht'.
    { unfold k3'. rewrite threadOf_modT by (done || apply W3). rewrite decide_True by done. by rewrite Ht. }
    assert (affinityIndex (set_status ThreadStatus.READY t) = i) as Ai' by exact Ac.
    assert (requeueK cur k3 = queueK cur k3') as ->.
    { unfold requeueK. by rewrite decide_True. }
    rewrite <-Ai' in Hi. split; [|split; [|split; [|split; [|split]]]].
    + by apply (queueK_wf k3' W3' cur a _ Hcc Ht' Hi).
    + rewrite queueK_lock. unfold k3'. by rewrite sched_modT.
    + intros h Hh. rewrite (queueK_statusOf k3' W3' cur a _ Hcc Ht') by done.
      unfold k3'. rewrite statusOf_set_status by (done || apply W3). rewrite S3 by done.
      destruct (decide (h = cur)) as [->|]; [|by rewrite (decide_False (P := _ /\ _)) by tauto].
      rewrite decide_False by congruence. by rewrite decide_True.
    + intros h Hh. rewrite (queueK_affinityOf k3' W3' cur a _ Hcc Ht') by done.
      unfold k3'. rewrite affinityOf_modT by (auto with emu; apply W3). by apply A3.
    + intros i' Hi'. rewrite (queueK_listOf k3' W3' cur a _ Ht' Hi) by done.
      unfold listOf at 1 2. unfold k3'. rewrite sched_modT. fold (listOf k3 i').
      rewrite L3 by done. rewrite Ai'. by destruct (decide (i' = i)).
    + intros i' Hi'. rewrite queueK_currentOf. unfold currentOf at 1, k3'. rewrite sched_modT.
      by apply C3.
  - assert ((if cur =? INVALID_THREAD then k3 else requeueK cur k3) = k3) as ->.
    { destruct (Z.eqb_spec cur INVALID_THREAD); [done|]. unfold requeueK.
      destruct cur_canonical as [|Hcc]; [done|]. rewrite decide_False; [done|].
      rewrite S3 by done. by rewrite decide_False by congruence. }
    split; [done|]. split; [done|]. split; [|split; [done|split; [|done]]].
    + intros h Hh. rewrite S3 by done. destruct (decide (h = next)); [done|].
      by rewrite decide_False by tauto.
    + intros i' Hi'. rewrite L3 by done. by rewrite app_nil_r.
Qed.

Lemma resched_switch j :
  nextOf k i = Some j ->
  let next := nth j (listOf k i) INVALID_THREAD in
  view_after
    (fun h => if decide (h = next) then Some ThreadStatus.RUNNING
              else if decide (h = cur /\ statusOf k cur = Some ThreadStatus.RUNNING)
                   then Some ThreadStatus.READY else statusOf k h)
    (fun i' => if decide (i' = i) then
                 delete j (listOf k i) ++
                 (if decide (statusOf k cur = Some ThreadStatus.RUNNING) then [cur] else [])
               else listOf k i')
    (fun i' => if decide (i' = i) then next else currentOf k i').
Proof.
  intros Hn next. destruct (nextOf_live k i j Hw Hi Hn) as (Hin & Hc & Hne & a & t & Ht & Ha).
  fold next in Hin, Hc, Hne, Ht. fold cur in Hne.
  set (k1 := setList i (delete j (listOf k i)) k).
  assert (sched_wf k1) as Hw1.
  { apply sched_wf_setList; try done. intros h Hh. apply live_on_core; try done.
    apply (elem_of_sublist _ _ _ Hh). apply sublist_delete. }
  destruct (saveK_view k1 Hw1 cur_canonical) as (W2 & S2 & A2 & L2).
  set (k2 := saveK cur c k1) in *.
  set (k3 := modT next (set_status ThreadStatus.RUNNING) k2).
  assert (sched_wf k3) as W3 by (apply sched_wf_modT; auto with emu).
  assert (exists a2 t2, threadOf k2 next = Some (a2, t2)) as (a2 & t2 & Ht2).
  { specialize (S2 next Hc). unfold statusOf in S2.
    change (threadOf k1 next) with (threadOf k next) in S2. rewrite Ht in S2.
    destruct (threadOf k2 next) as [[a2 t2]|]; [by exists a2, t2|done]. }
  assert (forall h, canonical h -> statusOf k3 h =
    if decide (h = next) then Some ThreadStatus.RUNNING else statusOf k h) as S3.
  { intros h Hh. unfold k3. rewrite statusOf_set_status by (done || apply W2).
    rewrite Ht2. by rewrite S2. }
  assert (forall h, canonical h -> affinityOf k3 h = affinityOf k h) as A3.
  { intros h Hh. unfold k3. rewrite affinityOf_modT by (auto with emu; apply W2). by rewrite A2. }
  set (k4 := if cur =? INVALID_THREAD then k3 else requeueK cur k3).
  assert (k' = modT next wakeup (setCurrent i next k4)) as E
    by (unfold k', reschedK; rewrite Hn; done).
  assert (sched_wf k4 /\ gSchedulerLock (sched k4) = gSchedulerLock (sched k) /\
    (forall h, canonical h -> statusOf k4 h =
       if decide (h = next) then Some ThreadStatus.RUNNING
       else if decide (h = cur /\ statusOf k cur = Some ThreadStatus.RUNNING)
            then Some ThreadStatus.READY else statusOf k h) /\
    (forall h, canonical h -> affinityOf k4 h = affinityOf k h) /\
    (forall i', core_id i' -> listOf k4 i' = if decide (i' = i) then
       delete j (listOf k i) ++
       (if decide (statusOf k cur = Some ThreadStatus.RUNNING) then [cur] else [])
       else listOf k i') /\
    (forall i', core_id i' -> currentOf k4 i' = currentOf k i'))
    as (W4 & K4 & S4 & A4 & L4 & C4).
  { apply (requeue_view j next k3); try done.
    - unfold k3. by rewrite sched_modT, L2.
    - intros i' Hi'. unfold listOf at 1. unfold k3. rewrite sched_modT, L2.
      fold (listOf k1 i'). unfold k1. by rewrite listOf_setList.
    - intros i' Hi'. unfold currentOf at 1. unfold k3. by rewrite sched_modT, L2. }
  assert (live_on k4 (Z.to_nat i) next) as Hlive.
  { assert (exists a4 t4, threadOf k4 next = Some (a4, t4)) as (a4 & t4 & Ht4).
    { specialize (S4 next Hc). rewrite decide_True in S4 by done. unfold statusOf in S4.
      destruct (threadOf k4 next) as [[a4 t4]|]; [by exists a4, t4|done]. }
    apply (live_on_of k4 i next a4 t4); try done. specialize (A4 next Hc).
    unfold affinityOf in A4. by rewrite Ht4, Ht, Ha in A4. }
  assert (sched_wf (setCurrent i next k4)) as W5 by by apply sched_wf_setCurrent.
  constructor; rewrite E.
  - apply sched_wf_modT; auto with emu.
  - by rewrite sched_modT.
  - intros h Hh. rewrite statusOf_modT_keep by (auto with emu; apply W5). by apply S4.
  - intros h Hh. rewrite affinityOf_modT by (auto with emu; apply W5). by apply A4.
  - intros i' Hi'. unfold listOf at 1. rewrite sched_modT. by apply L4.
  - intros i' Hi'. unfold currentOf at 1. rewrite sched_modT.
    fold (currentOf (setCurrent i next k4) i'). rewrite currentOf_setCurrent by done.
    by rewrite C4.
Qed.
End Resched.

(** ** Rescheduling keeps the invariant *)

Lemma reschedK_inv k i c : sched_inv k -> core_id i -> sched_inv (fst (reschedK i c k)).
Proof.
  intros [Hw Hnd Hqr Hrq Hrc] Hi. set (cur := currentOf k i).
  destruct (nextOf k i) as [j|] eqn:Hn.
  - destruct (nextOf_live k i j Hw Hi Hn) as (Hin & Hc & Hne & a & t & Ht & Ha).
    destruct (resched_switch k Hw i Hi c j Hn) as [W K S A L C].
    set (next := nth j (listOf k i) INVALID_THREAD) in *. fold cur in Hne, S, L.
    assert (listOf k i !! j = Some next) as Hj.
    { destruct (listOf k i !! j) as [x|] eqn:E; [f_equal; symmetry; by apply nth_lookup_Some|].
      exfalso. unfold next in Hc. rewrite nth_lookup, E in Hc. by apply (canonical_nonzero _ Hc). }
    assert (forall y, y ∈ delete j (listOf k i) <-> y ∈ listOf k i /\ y <> next) as Hdel
      by (intros y; apply elem_of_delete_NoDup; [by apply Hnd|done]).
    assert (affinityOf k next = i) as Han by (unfold affinityOf; by rewrite Ht).
    constructor; [done| | | |].
    + intros i' Hi'. rewrite L by done. destruct (decide (i' = i)); [|by apply Hnd].
      apply NoDup_app. split; [by apply NoDup_delete, Hnd|].
      destruct (decide (statusOf k cur = _)) as [Er|]; [|split; [intros x _; apply not_elem_of_nil|constructor]].
      split; [|apply NoDup_singleton]. intros x [Hx _]%Hdel ->%list_elem_of_singleton.
      rewrite (Hqr i cur Hi Hx) in Er. done.
    + intros i' h Hi'. rewrite L by done. intros Hh.
      assert (canonical h) as Hch.
      { destruct (decide (i' = i)); [apply elem_of_app in Hh as [[Hh _]%Hdel|Hh]|];
          [by apply (listOf_live k Hw i Hi)| |by apply (listOf_live k Hw i' Hi')].
        destruct (decide (statusOf k cur = _)) as [Er|]; [|by apply not_elem_of_nil in Hh].
        apply list_elem_of_singleton in Hh as ->. destruct (cur_canonical k Hw i Hi) as [E|]; [|done].
        fold cur in E. by rewrite E in Er. }
      rewrite S by done. destruct (decide (i' = i)) as [Hii|Hii].
      * apply elem_of_app in Hh as [[Hh Hhn]%Hdel|Hh].
        -- rewrite decide_False by done. destruct (decide (h = cur /\ _)); [done|]. by apply (Hqr i).
        -- destruct (decide (statusOf k cur = _)) as [Er|]; [|by apply not_elem_of_nil in Hh].
           apply list_elem_of_singleton in Hh as ->. rewrite decide_False by congruence.
           by rewrite decide_True.
      * rewrite (decide_False (P := h = next)).
        2: { intros ->. destruct (listOf_live k Hw i' Hi' next Hh) as (_ & ? & ? & Ht' & Ha'). congruence. }
        destruct (decide (h = cur /\ _)); [done|]. by apply (Hqr i').
    + intros h Hh. rewrite S, A by done. destruct (decide (h = next)) as [|Hd1]; [done|].
      destruct (decide (h = cur /\ _)) as [Hd2|Hd2].
      * destruct Hd2 as [-> Er]. intros _.
        destruct (currentOf_live k Hw i Hi) as (_ & a0 & t0 & Ht0 & Ha0).
        { fold cur. by apply canonical_nonzero. }
        assert (affinityOf k cur = i) as -> by (unfold affinityOf, cur; by rewrite Ht0).
        split; [done|]. rewrite L by done. rewrite decide_True by done. apply elem_of_app. right.
        rewrite decide_True by done. by apply list_elem_of_here.
      * intros Hr. destruct (Hrq h Hh Hr) as [Hi' Hin']. split; [done|]. rewrite L by done.
        destruct (decide (affinityOf k h = i)) as [Hd|]; [|done]. apply elem_of_app. left. apply Hdel. by rewrite <-Hd.
    + intros h Hh. rewrite S, A by done. destruct (decide (h = next)) as [Hd1|Hd1].
      * intros _. subst h. rewrite Han. split; [done|]. rewrite C by done. by rewrite decide_True.
      * destruct (decide (h = cur /\ _)) as [|Hd2]; [done|]. intros Hr. destruct (Hrc h Hh Hr) as [Hi' Hcu].
        split; [done|]. rewrite C by done. destruct (decide (affinityOf k h = i)) as [Hd|Hd]; [|exact Hcu].
        exfalso. apply Hd2. rewrite Hd in Hcu. fold cur in Hcu. by subst h.
  - destruct (decide (statusOf k cur = Some ThreadStatus.RUNNING)) as [Er|Er].
    + destruct (resched_keep k Hw i Hi c Hn Er) as [W K S A L C]. constructor; [done| | | |].
      * intros i' Hi'. rewrite L by done. by apply Hnd.
      * intros i' h Hi' Hh. rewrite L in Hh by done. rewrite S; [by apply (Hqr i')|].
        by apply (listOf_live k Hw i' Hi').
      * intros h Hh. rewrite S, A by done. intros Hr. destruct (Hrq h Hh Hr). by rewrite L.
      * intros h Hh. rewrite S, A by done. intros Hr. destruct (Hrc h Hh Hr). by rewrite C.
    + destruct (resched_idle k Hw i Hi c Hn Er) as [W K S A L C]. constructor; [done| | | |].
      * intros i' Hi'. rewrite L by done. by apply Hnd.
      * intros i' h Hi' Hh. rewrite L in Hh by done. rewrite S; [by apply (Hqr i')|].
        by apply (listOf_live k Hw i' Hi').
      * intros h Hh. rewrite S, A by done. intros Hr. destruct (Hrq h Hh Hr). by rewrite L.
      * intros h Hh. rewrite S, A by done. intros Hr. destruct (Hrc h Hh Hr) as [Hi' Hcu].
        split; [done|]. rewrite C by done. destruct (decide (affinityOf k h = i)) as [Hd|Hd]; [|exact Hcu]. exfalso. apply Er.
        rewrite Hd in Hcu. unfold cur. by rewrite Hcu.
Qed.

Lemma reschedK_lock k i c : sched_wf k -> core_id i ->
  gSchedulerLock (sched (fst (reschedK i c k))) = gSchedulerLock (sched k).
Proof.
  intros Hw Hi. destruct (nextOf k i) as [j|] eqn:Hn.
  - apply (va_lock _ _ _ _ _ _ (resched_switch k Hw i Hi c j Hn)).
  - destruct (decide (statusOf k (currentOf k i) = Some ThreadStatus.RUNNING)) as [Er|Er].
    + apply (va_lock _ _ _ _ _ _ (resched_keep k Hw i Hi c Hn Er)).
    + apply (va_lock _ _ _ _ _ _ (resched_idle k Hw i Hi c Hn Er)).
Qed.

Lemma coreNum_reschedK k i c : coreNum (snd (reschedK i c k)) = coreNum c.
Proof.
  unfold reschedK. destruct (nextOf k i) as [j|].
  - cbn. unfold restoreK. by destruct (contextOf _ _).
  - destruct (currentOf k i =? INVALID_THREAD); [done|]. by case_decide.
Qed.

(** ** The lock *)

Definition setLock (b : bool) (k : KState) : KState :=
  set_sched (set_gSchedulerLock b (sched k)) k.

Lemma sched_wf_setLock b k : sched_wf k -> sched_wf (setLock b k).
Proof.
  intros [[O1 O2 O3 O4] H2 H3 H4 H5]. by constructor.
Qed.

Lemma sched_inv_setLock b k : sched_inv k -> sched_inv (setLock b k).
Proof. intros [Hw H1 H2 H3 H4]. constructor; [by apply sched_wf_setLock|done..]. Qed.

(** ** Changing the status of a thread, and queueing it *)

Section Status.
Context (k : KState) (Hk : sched_inv k) (h a : Z) (t : Thread).
Context (Hc : canonical h) (Ht : threadOf k h = Some (a, t)).

Lemma set_status_inv v :
  status t <> ThreadStatus.READY -> v <> ThreadStatus.READY -> v <> ThreadStatus.RUNNING ->
  sched_inv (modT h (set_status v) k).
Proof.
  intros Ho H1 H2. destruct Hk as [Hw Hnd Hqr Hrq Hrc]. pose proof (sw_objects k Hw) as Hobj.
  assert (statusOf k h = Some (status t)) as Es by (unfold statusOf; by rewrite Ht).
  assert (forall i, listOf (modT h (set_status v) k) i = listOf k i) as L
    by (intros; unfold listOf; by rewrite sched_modT).
  assert (forall i, currentOf (modT h (set_status v) k) i = currentOf k i) as C
    by (intros; unfold currentOf; by rewrite sched_modT).
  constructor.
  - apply sched_wf_modT; auto with emu.
  - intros i Hi. rewrite L. by apply Hnd.
  - intros i h' Hi. rewrite L. intros Hh'.
    rewrite statusOf_set_status by (done || by apply (listOf_live k Hw i Hi)).
    case_decide as Hd; [|by apply (Hqr i)]. subst h'. rewrite (Hqr i h Hi Hh') in Es. congruence.
  - intros h' Hh'. rewrite statusOf_set_status, affinityOf_modT, L by auto with emu.
    case_decide; [|by apply Hrq]. rewrite Ht. cbn. congruence.
  - intros h' Hh'. rewrite statusOf_set_status, affinityOf_modT, C by auto with emu.
    case_decide; [|by apply Hrc]. rewrite Ht. cbn. congruence.
Qed.

Lemma queueK_inv :
  core_id (affinityIndex t) -> status t <> ThreadStatus.READY -> sched_inv (queueK h k).
Proof.
  intros Ha Hs. destruct Hk as [Hw Hnd Hqr Hrq Hrc].
  assert (statusOf k h = Some (status t)) as Es by (unfold statusOf; by rewrite Ht).
  assert (forall i, core_id i -> h ∉ listOf k i) as Hni
    by (intros i Hi Hin; rewrite (Hqr i h Hi Hin) in Es; congruence).
  constructor.
  - by apply (queueK_wf k Hw h a t).
  - intros i Hi. rewrite (queueK_listOf k Hw h a t) by done. case_decide; [|by apply Hnd].
    apply NoDup_app. split; [by apply Hnd|]. split; [|apply NoDup_singleton].
    intros x Hx ->%list_elem_of_singleton. by apply (Hni i).
  - intros i h' Hi. rewrite (queueK_listOf k Hw h a t) by done. intros Hh'.
    destruct (decide (h' = h)) as [->|Hne].
    + rewrite (queueK_statusOf k Hw h a t) by done. by rewrite decide_True.
    + assert (h' ∈ listOf k i) as Hin.
      { case_decide; [|done]. apply elem_of_app in Hh' as [| ->%list_elem_of_singleton]; done. }
      rewrite (queueK_statusOf k Hw h a t) by (done || by apply (listOf_live k Hw i Hi)).
      rewrite decide_False by done. by apply (Hqr i).
  - intros h' Hh'. rewrite (queueK_statusOf k Hw h a t), (queueK_affinityOf k Hw h a t) by done.
    case_decide as Hd.
    + intros _. subst h'. rewrite (affinityOf_thread k h a t Ht). split; [done|].
      rewrite (queueK_listOf k Hw h a t) by done. rewrite decide_True by done.
      apply elem_of_app. right. by apply list_elem_of_here.
    + intros Hr. destruct (Hrq h' Hh' Hr) as [Hi Hin]. split; [done|].
      rewrite (queueK_listOf k Hw h a t) by done. case_decide; [|done].
      apply elem_of_app. by left.
  - intros h' Hh'. rewrite (queueK_statusOf k Hw h a t), (queueK_affinityOf k Hw h a t) by done.
    case_decide; [done|]. rewrite queueK_currentOf. by apply Hrc.
Qed.
End Status.
