(* ===== verification/SchedulerSafety.v ===== *)
(** * Reachable states of the scheduler

    The calls of the scheduler as steps of a transition system over the kernel state
    and four cores, in any order.  Called within their contracts they return, and
    every reachable state meets [sched_inv]. *)
From S2P Require Import LoaderFormat.
From S2P Require Import Prelude BitUtils Instructions Core Machine HandleManager.
From S2P Require Import MemoryMapper Thread KernelState Scheduler KernelLemmas SchedulerSpec SchedulerInv.

Definition unlocked (k : KState) : Prop := gSchedulerLock (sched k) = false.

(** ** The remaining operations as functions *)

Definition locked (k : KState) : KState := setLock true k.

Definition yieldK (i : Z) (c : Core) (k : KState) : KState * Core :=
  let '(k, c) := reschedK i c (queueK (currentOf k i) (locked k)) in (setLock false k, c).

Definition exitK (i : Z) (c : Core) (k : KState) : KState * Core :=
  let '(k, c) :=
    reschedK i c (modT (currentOf k i) (set_status ThreadStatus.UNINITIATED) (locked k)) in
  (setLock false k, c).

Definition startK (h : Z) (k : KState) : KState := setLock false (queueK h (locked k)).

Section Equations.
Context {Mem : Type} (m : Mem) (timer : Z).
Abbreviation St := (St m timer).

Lemma lockScheduler_eq k c : unlocked k -> lockScheduler (St k c) = Ok (tt, St (locked k) c).
Proof.
  intros Hl. unfold lockScheduler. rewrite (bind_ok _ _ (St k c) k (St k c)) by done.
  by rewrite Hl.
Qed.

Lemma getCurrentThread_eq k c a t :
  sched_wf k -> core_id (coreNum c) -> threadOf k (currentOf k (coreNum c)) = Some (a, t) ->
  getCurrentThread (St k c) = Ok (Some a, St k c).
Proof.
  intros Hw Hi Ht. unfold getCurrentThread. run (run_getCurrentHandle m timer k c Hw Hi).
  apply run_getThread with t; [apply Hw|done].
Qed.

Lemma threadOf_setLock b k h : threadOf (setLock b k) h = threadOf k h.
Proof. done. Qed.

Lemma yieldThread_eq k c a t :
  sched_wf k -> unlocked k -> core_id (coreNum c) ->
  threadOf k (currentOf k (coreNum c)) = Some (a, t) ->
  yieldThread (St k c) =
  let '(k', c') := yieldK (coreNum c) c k in Ok (tt, St k' c').
Proof.
  intros Hw Hl Hi Ht. set (cur := currentOf k (coreNum c)) in *.
  assert (cur <> INVALID_THREAD) as Hne by (intros E; by rewrite E in Ht).
  destruct (currentOf_live k Hw _ Hi Hne) as (Hc & a' & t' & Ht' & Ha). fold cur in Hc, Ht'.
  rewrite Ht in Ht'. injection Ht' as <- <-.
  assert (sched_wf (locked k)) as Hw1 by by apply sched_wf_setLock.
  assert (core_id (affinityIndex t)) as Hia by by rewrite Ha.
  unfold yieldThread. run (lockScheduler_eq k c Hl).
  run (run_getCurrentHandle m timer (locked k) c Hw1 Hi).
  change (currentOf (locked k) (coreNum c)) with cur.
  run (run_queue m timer (locked k) c cur a t (sw_objects _ Hw1) Ht Hia (sw_lists _ Hw1)).
  pose proof (rescheduleNoLock_eq m timer (queueK cur (locked k)) c
    (queueK_wf (locked k) Hw1 cur a t Hc Ht Hia) Hi) as E.
  unfold yieldK. fold cur. destruct (reschedK _ c _) as [k' c']. by run E.
Qed.

Lemma exitThread_eq k c a t :
  sched_wf k -> unlocked k -> core_id (coreNum c) ->
  threadOf k (currentOf k (coreNum c)) = Some (a, t) ->
  exitThread (St k c) = let '(k', c') := exitK (coreNum c) c k in Ok (tt, St k' c').
Proof.
  intros Hw Hl Hi Ht. set (cur := currentOf k (coreNum c)) in *.
  assert (cur <> INVALID_THREAD) as Hne by (intros E; by rewrite E in Ht).
  destruct (currentOf_live k Hw _ Hi Hne) as (Hc & _). fold cur in Hc.
  assert (sched_wf (locked k)) as Hw1 by by apply sched_wf_setLock.
  unfold exitThread. run (lockScheduler_eq k c Hl).
  run (run_getCurrentHandle m timer (locked k) c Hw1 Hi).
  run (getCurrentThread_eq (locked k) c a t Hw1 Hi Ht).
  run (run_updateThread m timer (locked k) c cur a t (set_status ThreadStatus.UNINITIATED) Ht).
  set (k1 := modT cur (set_status ThreadStatus.UNINITIATED) (locked k)).
  assert (sched_wf k1) as Hw2 by (apply sched_wf_modT; auto with emu).
  pose proof (rescheduleNoLock_eq m timer k1 c Hw2 Hi) as E.
  unfold exitK. fold cur k1. destruct (reschedK _ c _) as [k' c']. by run E.
Qed.

Lemma startThread_eq k c h a t :
  sched_wf k -> unlocked k -> canonical h -> threadOf k h = Some (a, t) ->
  core_id (affinityIndex t) ->
  startThread h (St k c) = Ok (tt, St (startK h k) c).
Proof.
  intros Hw Hl Hc Ht Ha. pose proof (sw_objects k Hw) as Ho. unfold startThread.
  run (run_getThread m timer k c h a t Ho Ht).
  run (run_updateThread m timer k c h a t (set_status ThreadStatus.READY) Ht).
  set (k1 := modT h (set_status ThreadStatus.READY) k).
  assert (sched_wf k1) as Hw1 by (apply sched_wf_modT; auto with emu).
  assert (unlocked k1) as Hl1 by (unfold unlocked, k1; by rewrite sched_modT).
  assert (threadOf k1 h = Some (a, set_status ThreadStatus.READY t)) as Ht1.
  { unfold k1. rewrite threadOf_modT by done. rewrite decide_True by done. by rewrite Ht. }
  run (lockScheduler_eq k1 c Hl1).
  run (run_thread_at m timer (locked k1) c h a _ Ht1).
  assert (sched_wf (locked k1)) as Hw2 by by apply sched_wf_setLock.
  assert (core_id (affinityIndex (set_status ThreadStatus.READY t))) as Ha1 by exact Ha.
  pose proof (listOf_lookup (locked k1) Hw2 _ Ha1) as El.
  run (pushThreadList_eq (St (locked k1) c) _ h _ (proj1 Ha1) El).
  unfold unlockScheduler, modSched, modK, startK. do 2 f_equal. unfold SchedulerSpec.St, set_kernel.
  cbn [kernel memory snd fst set_memory core gTimer]. do 2 f_equal.
  unfold queueK, affinityOf. change (threadOf (locked k) h) with (threadOf k h). rewrite Ht.
  rewrite (modT_eq (pushList _ h (locked k)) h a t _ Ht).
  unfold k1. rewrite (modT_eq k h a t _ Ht). done.
Qed.

Lemma block_eq k c a t :
  sched_wf k -> core_id (coreNum c) -> threadOf k (currentOf k (coreNum c)) = Some (a, t) ->
  (p ← getCurrentThread; updateThread p wait) (St k c) =
  Ok (tt, St (modT (currentOf k (coreNum c)) wait k) c).
Proof.
  intros Hw Hi Ht. run (getCurrentThread_eq k c a t Hw Hi Ht).
  by apply run_updateThread with t.
Qed.
End Equations.

(** ** Creating a thread *)

Section Create.
Context `{HostEnv}.

(** The thread [createThread] makes. *)
Definition createdThread (k : KState) (entry arg stack priority cores : Z) : Thread :=
  let t := set_status ThreadStatus.INITIALIZED
    (newThread (uninitialisedPState (nextObject (heap k))) entry arg stack priority cores) in
  let x := context t in
  set_context (Context.mk (Context.GPRegs x) (Context.VRegs x) (Context.PC x) (Context.SP x)
    (Context.PState x) (u64 (0x700000000 + gTlsSlotcounter (sched k) * 0x200))) t.

Definition createK (entry arg stack priority cores : Z) (k : KState) : KState :=
  let t := createdThread k entry arg stack priority cores in
  let p := nextObject (heap k) in
  set_sched (set_gTlsSlotcounter (u64 (gTlsSlotcounter (sched k) + 1)) (sched k))
    (set_handles (snd (createHandle p ObjectType.NO_TYPE (handles k)))
       (set_heap (mkObjectHeap (<[p := mkKAutoObject 1 (OThread t)]> (objects (heap k))) (p + 1)) k)).

(** An object with a handle of its own, and no other reference. *)
Lemma createObjectHandle_eq {Mem} (m : Mem) timer k c o :
  objects_inv k ->
  createObjectHandle o (St m timer k c) =
  Ok (gHandleCounter (handles k),
      St m timer
        (set_handles (snd (createHandle (nextObject (heap k)) (getType o) (handles k)))
           (set_heap (mkObjectHeap
              (<[nextObject (heap k) := mkKAutoObject 1 o]> (objects (heap k)))
              (nextObject (heap k) + 1)) k)) c).
Proof.
  intros [Hh _ _ _]. unfold createObjectHandle, liftR, newObject. cbn [kernel St memory snd].
  assert (gCompressedPointerMap (handles k) !! gCompressedpointerCounter (handles k) = None) as En.
  { destruct (gCompressedPointerMap (handles k) !! _) as [x|] eqn:E; [|done].
    destruct (list_elem_of_fmap_1 _ _ _ (hi_exact _ Hh _ (mk_is_Some _ _ E))) as (e & Ee & Hin).
    pose proof (hi_bound _ Hh e Hin). lia. }
  rewrite En. unfold createHandle. cbn [default dec mbind result_bind].
  unfold inc. cbn [objects nextObject]. rewrite lookup_insert_eq. cbn.
  by rewrite insert_insert_eq.
Qed.

Lemma createThread_eq {Mem} (m : Mem) timer k c entry arg stack priority cores :
  objects_inv k -> unlocked k ->
  createThread entry arg stack priority cores (St m timer k c) =
  Ok (gHandleCounter (handles k), St m timer (createK entry arg stack priority cores k) c).
Proof.
  intros Ho Hl. unfold createThread. run (lockScheduler_eq m timer k c Hl).
  rewrite (bind_ok _ _ (St m timer (locked k) c) (locked k) (St m timer (locked k) c)) by done.
  cbv zeta.
  set (k1 := set_sched (set_gTlsSlotcounter (u64 (gTlsSlotcounter (sched k) + 1)) (sched (locked k))) k).
  rewrite (bind_ok _ _ _ tt (St m timer k1 c)) by done.
  assert (objects_inv k1) as Ho1 by (destruct Ho; by constructor).
  run (createObjectHandle_eq m timer k1 c (OThread (createdThread k entry arg stack priority cores)) Ho1).
  rewrite (bind_ok _ _ _ tt (St m timer (createK entry arg stack priority cores k) c)); [done|].
  unfold unlockScheduler, modSched, modK. do 2 f_equal. unfold St, set_kernel, createK. cbn.
  do 2 f_equal. unfold unlocked in Hl. destruct k as [? ? s]. by destruct s; cbn in *; subst.
Qed.

Section CreateInv.
Context (k : KState) (Hk : sched_inv k) (entry arg stack prio cores : Z).
Context (Hsmall : gHandleCounter (handles k) < 2 ^ 16).
Let k' := createK entry arg stack prio cores k.
Let new := gHandleCounter (handles k).
Let t := createdThread k entry arg stack prio cores.

Lemma new_canonical : canonical new.
Proof.
  destruct Hk as [[[Hh _ _ _] _ _ _ _] _ _ _ _]. split; [apply (hi_count _ Hh)|done].
Qed.

Lemma create_handle_map :
  handle_inv (handles k') /\
  handle_map (handles k') = <[new := Some (nextObject (heap k))]> (handle_map (handles k)).
Proof.
  destruct Hk as [[[Hh _ _ _] _ _ _ _] _ _ _ _].
  destruct (createHandle_live (handles k) Hh (nextObject (heap k)) ObjectType.NO_TYPE Hsmall)
    as (s' & E & Hi & Hm). unfold k', createK.
  cbn [handles set_sched set_handles]. by rewrite E.
Qed.

Lemma create_fresh : handle_map (handles k) !! new = None.
Proof.
  destruct Hk as [[[Hh _ _ _] _ _ _ _] _ _ _ _]. by apply createHandle_fresh.
Qed.

Lemma create_objects_inv : objects_inv k'.
Proof.
  destruct create_handle_map as [Hi Hm]. pose proof create_fresh as Hf.
  destruct Hk as [[[Hh Hl Hfr Hj] _ _ _ _] _ _ _ _]. constructor; [done| | |].
  - intros h a. rewrite Hm. cbn. intros [[<- [= <-]]|[Hne E]]%lookup_insert_Some.
    + rewrite lookup_insert_eq. by eexists.
    + destruct (Hl h a E) as [o Ho]. rewrite lookup_insert_ne; [by eexists|].
      pose proof (Hfr a (mk_is_Some _ _ Ho)). lia.
  - intros a. cbn. intros [o E]. apply lookup_insert_Some in E as [[<- _]|[_ E]]; [lia|].
    pose proof (Hfr a (mk_is_Some _ _ E)). lia.
  - assert (forall h, handle_map (handles k) !! h = Some (Some (nextObject (heap k))) -> False) as Hno.
    { intros h E. destruct (Hl h _ E) as [o Ho]. pose proof (Hfr _ (mk_is_Some _ _ Ho)). lia. }
    intros h h' a. rewrite Hm.
    intros [[<- [= <-]]|[Hne E]]%lookup_insert_Some [[<- E']|[Hne' E']]%lookup_insert_Some; try done.
    + by destruct (Hno h').
    + injection E' as <-. by destruct (Hno h).
    + by apply (Hj h h' a).
Qed.

Lemma create_threadOf h : canonical h ->
  threadOf k' h = if decide (h = new) then Some (nextObject (heap k), t) else threadOf k h.
Proof.
  intros Hh. destruct create_handle_map as [Hi Hm]. pose proof create_fresh as Hf.
  destruct Hk as [[[_ Hl Hfr _] _ _ _ _] _ _ _ _].
  unfold threadOf. rewrite (proj2 (Z.eqb_neq h _) (canonical_nonzero h Hh)).
  unfold objectOf. rewrite Hm, canonical_u16 by done. case_decide as Hd.
  - subst h. rewrite lookup_insert_eq. cbn. by rewrite lookup_insert_eq.
  - rewrite lookup_insert_ne by done.
    destruct (handle_map (handles k) !! h) as [[a|]|] eqn:E; [|done|done]. cbn.
    rewrite lookup_insert_ne; [done|]. destruct (Hl h a E) as [o Ho].
    pose proof (Hfr a (mk_is_Some _ _ Ho)). lia.
Qed.

(** A new thread is not ready and not in any list. *)
Lemma createK_inv : sched_inv k'.
Proof.
  pose proof create_objects_inv as Ho. pose proof create_fresh as Hf.
  assert (forall h b, canonical h -> threadOf k h = Some b -> threadOf k' h = Some b) as Hkeep.
  { intros h b Hh E. rewrite create_threadOf by done. case_decide as Hd; [|done]. subst h.
    unfold threadOf, objectOf in E. rewrite canonical_u16, Hf in E by apply new_canonical.
    by destruct (new =? INVALID_THREAD). }
  assert (forall i h, live_on k i h -> live_on k' i h) as Hlive.
  { intros i h (Hc & a & u & Hu & Ha). split; [done|]. exists a, u. split; [|done]. by apply Hkeep. }
  assert (forall h v, canonical h -> statusOf k' h = Some v -> v <> ThreadStatus.INITIALIZED ->
    statusOf k h = Some v /\ affinityOf k' h = affinityOf k h) as Hst.
  { intros h v Hh. unfold statusOf, affinityOf. rewrite create_threadOf by done. case_decide; [|done].
    cbn. intros [= <-]. done. }
  destruct Hk as [[H1 H2 H3 H4 H5] Hnd Hqr Hrq Hrc]. constructor.
  - constructor; try done.
    + intros i l h El Hin. apply Hlive. by apply (H4 i l).
    + intros i h El Hne. apply Hlive. by apply (H5 i h).
  - exact Hnd.
  - intros i h Hi Hin. specialize (Hqr i h Hi Hin). unfold statusOf in *.
    destruct (threadOf k h) as [[a u]|] eqn:E; [|done].
    rewrite (Hkeep h (a, u)); [done| |done]. by apply (listOf_live k (Build_sched_wf k H1 H2 H3 H4 H5) i Hi).
  - intros h Hh Hs. destruct (Hst h _ Hh Hs) as [Hs' ->]; [done|]. by apply Hrq.
  - intros h Hh Hs. destruct (Hst h _ Hh Hs) as [Hs' ->]; [done|]. by apply Hrc.
Qed.
End CreateInv.
End Create.

(** ** The transition system *)

(** A call of the scheduler on some core.  [Block] is what [Alarm::wait] and
    [Thread::sync] do to the calling thread, [Wake] what they and [Alarm::update] do
    to a waiting one. *)
Inductive sched_op : Type :=
  | Create (entry arg stack priority cores : Z)
  | Start (handle : Z)
  | Yield
  | Exit
  | Reschedule
  | Block
  | Wake (handle : Z).

(** The contract of a call on core [i]. *)
Definition op_ok (i : Z) (k : KState) (op : sched_op) : Prop :=
  let running := statusOf k (currentOf k i) = Some ThreadStatus.RUNNING in
  let waits h v := canonical h /\ statusOf k h = Some v /\ core_id (affinityOf k h) in
  match op with
  | Create _ _ _ _ _ => gHandleCounter (handles k) < 2 ^ 16
  | Start h => waits h ThreadStatus.INITIALIZED
  | Wake h => waits h ThreadStatus.WAITING
  | Reschedule => True
  | Yield | Exit | Block => running
  end.

Section System.
Context {Mem : Type} `{HostEnv}.

Definition exec_sched (op : sched_op) : K Mem unit :=
  match op with
  | Create entry arg stack priority cores =>
      _ ← (createThread entry arg stack priority cores : K Mem Z); mret tt
  | Start h => startThread h
  | Yield => yieldThread
  | Exit => exitThread
  | Reschedule => lockScheduler;; rescheduleNoLock;; unlockScheduler
  | Block => p ← getCurrentThread; updateThread p wait
  | Wake h => queueThreadNoLock h
  end.

Lemma status_thread k h v : statusOf k h = Some v -> exists a t, threadOf k h = Some (a, t) /\ status t = v.
Proof.
  unfold statusOf. destruct (threadOf k h) as [[a t]|]; [|done]. cbn. intros [= <-]. by exists a, t.
Qed.

(** Every call within its contract returns, on the core it was made on, in a state that
    meets the invariant with the lock released. *)
Lemma exec_sched_inv (m : Mem) timer k c op :
  sched_inv k -> unlocked k -> core_id (coreNum c) -> op_ok (coreNum c) k op ->
  exists k' c', exec_sched op (St m timer k c) = Ok (tt, St m timer k' c') /\
    sched_inv k' /\ unlocked k' /\ coreNum c' = coreNum c.
Proof.
  intros Hk Hl Hi Hop. pose proof (si_wf k Hk) as Hw. pose proof (sw_objects k Hw) as Ho.
  assert (sched_inv (locked k)) as Hk1 by by apply sched_inv_setLock.
  set (i := coreNum c) in *. set (cur := currentOf k i) in *.
  assert (statusOf k cur = Some ThreadStatus.RUNNING ->
    canonical cur /\ exists a t, threadOf k cur = Some (a, t) /\
      status t = ThreadStatus.RUNNING /\ affinityIndex t = i) as Hcur.
  { intros Hr. destruct (status_thread k cur _ Hr) as (a & t & Ht & Hs).
    destruct (currentOf_live k Hw i Hi) as (Hc & a' & t' & Ht' & Ha).
    { fold cur. intros E. by rewrite E in Ht. }
    fold cur in Ht'. rewrite Ht in Ht'. injection Ht' as <- <-. split; [done|]. by exists a, t. }
  assert (forall k1 c1, sched_inv k1 -> sched_inv (setLock false (fst (reschedK i c1 k1))) /\
    unlocked (setLock false (fst (reschedK i c1 k1))) /\ coreNum (snd (reschedK i c1 k1)) = coreNum c1) as Hr.
  { intros k1 c1 Hk'. split; [by apply sched_inv_setLock, reschedK_inv|]. split; [done|].
    apply coreNum_reschedK. }
  destruct op as [entry arg stack prio cores|h| | | | |h]; cbn [exec_sched op_ok] in *.
  - eexists _, c. split; [by run (createThread_eq m timer k c entry arg stack prio cores Ho Hl)|].
    split; [by apply createK_inv|]. done.
  - destruct Hop as (Hc & Hs & Ha). destruct (status_thread k h _ Hs) as (a & t & Ht & Est).
    rewrite (affinityOf_thread k h a t Ht) in Ha.
    eexists _, c. split; [by apply (startThread_eq m timer k c h a t)|].
    split; [|done]. apply sched_inv_setLock.
    apply (queueK_inv (locked k) Hk1 h a t Hc Ht Ha). congruence.
  - destruct (Hcur Hop) as (Hc & a & t & Ht & Hs & Ha). rewrite (yieldThread_eq m timer k c a t) by done.
    unfold yieldK. fold i cur.
    pose proof (Hr (queueK cur (locked k)) c) as Hr'. destruct (reschedK i c _) as [k' c'].
    exists (setLock false k'), c'. split; [done|]. apply Hr'.
    apply (queueK_inv (locked k) Hk1 cur a t Hc Ht); [by rewrite Ha|congruence].
  - destruct (Hcur Hop) as (Hc & a & t & Ht & Hs & Ha). rewrite (exitThread_eq m timer k c a t) by done.
    unfold exitK. fold i cur.
    pose proof (Hr (modT cur (set_status ThreadStatus.UNINITIATED) (locked k)) c) as Hr'.
    destruct (reschedK i c _) as [k' c']. exists (setLock false k'), c'. split; [done|]. apply Hr'.
    apply (set_status_inv (locked k) Hk1 cur a t Hc Ht); congruence.
  - run (lockScheduler_eq m timer k c Hl).
    pose proof (rescheduleNoLock_eq m timer (locked k) c (si_wf _ Hk1) Hi) as E.
    pose proof (Hr (locked k) c Hk1) as Hr'. fold i in E. destruct (reschedK i c (locked k)) as [k' c'].
    exists (setLock false k'), c'. split; [by run E|exact Hr'].
  - destruct (Hcur Hop) as (Hc & a & t & Ht & Hs & Ha).
    eexists _, c. split; [by apply (block_eq m timer k c a t)|]. split; [|split; [|done]].
    + apply (set_status_inv k Hk cur a t Hc Ht); congruence.
    + unfold unlocked. by rewrite sched_modT.
  - destruct Hop as (Hc & Hs & Ha). destruct (status_thread k h _ Hs) as (a & t & Ht & Est).
    rewrite (affinityOf_thread k h a t Ht) in Ha.
    eexists _, c. split; [by apply (run_queue m timer k c h a t Ho Ht Ha (sw_lists k Hw))|].
    split; [|split; [|done]].
    + apply (queueK_inv k Hk h a t Hc Ht Ha). congruence.
    + unfold unlocked. by rewrite queueK_lock.
Qed.

(** The four cores with the kernel, before the first thread. *)
Definition sched_static : SchedState :=
  mkSched 1 false (replicate 4 INVALID_THREAD) (replicate 4 []).

Definition kernel_static (cores : list Core) : KState :=
  mkKState handle_static heap_static sched_static (mkAlarmVector [] 0) [] []
    (mkCpu cores false ∅ ∅ false) INVALID_HANDLE ∅ ∅ 0 false gpu_static hle_static loader_static.

Lemma kernel_static_inv cores : sched_inv (kernel_static cores).
Proof.
  assert (forall i, listOf (kernel_static cores) i = []) as Hl.
  { intros i. unfold listOf. cbn. destruct (Z.to_nat i) as [|[|[|[|n]]]]; done. }
  assert (forall h, canonical h -> statusOf (kernel_static cores) h = None) as Hs.
  { intros h Hh. unfold statusOf, threadOf.
    by rewrite (proj2 (Z.eqb_neq h _) (canonical_nonzero h Hh)). }
  constructor.
  - constructor; try done.
    + constructor; cbn; [apply handle_static_inv| | |]; try done. intros a [o Ho].
      by rewrite lookup_empty in Ho.
    + intros i l h E. apply lookup_replicate in E as [-> _]. by intros ?%not_elem_of_nil.
    + intros i h E. by apply lookup_replicate in E as [-> _].
  - intros i _. rewrite Hl. constructor.
  - intros i h _. rewrite Hl. by intros ?%not_elem_of_nil.
  - intros h Hh. by rewrite Hs.
  - intros h Hh. by rewrite Hs.
Qed.

(** Cores take turns: a step is one call on one core; between two calls a core runs
    guest code, which changes its registers. *)
Inductive reachable (m : Mem) (timer : Z) : KState -> (Z -> Core) -> Prop :=
  | reach_init cores cs :
      (forall i, core_id i -> coreNum (cs i) = i) -> reachable m timer (kernel_static cores) cs
  | reach_step k cs i op k' c' :
      reachable m timer k cs -> core_id i -> op_ok i k op ->
      exec_sched op (St m timer k (cs i)) = Ok (tt, St m timer k' c') ->
      reachable m timer k' (fun j => if j =? i then c' else cs j)
  | reach_guest k cs cs' :
      reachable m timer k cs -> (forall i, core_id i -> coreNum (cs' i) = i) ->
      reachable m timer k cs'.

Lemma reachable_cores m timer k cs :
  reachable m timer k cs -> sched_inv k /\ unlocked k /\ (forall i, core_id i -> coreNum (cs i) = i).
Proof.
  induction 1 as [cores cs Hcs|k cs i op k' c' _ (Hk & Hl & Hcs) Hi Hop E
    |k cs cs' _ (Hk & Hl & _) Hcs'].
  - split; [apply kernel_static_inv|]. by split.
  - destruct (exec_sched_inv m timer k (cs i) op Hk Hl) as (k2 & c2 & E2 & Hk2 & Hl2 & Hc2);
      [by rewrite Hcs|by rewrite Hcs|].
    rewrite E in E2. injection E2 as <- <-. split; [done|]. split; [done|].
    intros j Hj. destruct (Z.eqb_spec j i) as [->|]; [|by apply Hcs]. rewrite Hc2. by apply Hcs.
  - done.
Qed.

(** C4: state machine: in every state the cores reach by calls of the scheduler, in any
    order and on any core, no thread is lost or queued twice (the lists hold exactly
    the READY threads, each once, on the core of its affinity; a RUNNING thread is the
    current one of its core), the lock is free, and the next call made within its
    contract returns. *)
Theorem scheduler_invariant (m : Mem) (timer : Z) (k : KState) (cs : Z -> Core) :
  reachable m timer k cs ->
  sched_inv k /\ unlocked k /\
  forall i op, core_id i -> op_ok i k op ->
    exists k' c', exec_sched op (St m timer k (cs i)) = Ok (tt, St m timer k' c').
Proof.
  intros Hr. destruct (reachable_cores m timer k cs Hr) as (Hk & Hl & Hcs).
  split; [done|]. split; [done|]. intros i op Hi Hop.
  destruct (exec_sched_inv m timer k (cs i) op Hk Hl) as (k' & c' & E & _);
    [by rewrite Hcs|by rewrite Hcs|]. by exists k', c'.
Qed.
End System.

(** ** An example: one thread created, started and running on core 0 *)

Definition core_example (i : Z) : Core :=
  mkCore false i (replicate 32 0) (replicate 32 (mkVReg 0 0)) 0x1000 0x2000
    (PSTATE.mk false false false false) 0 0 0 false 0 0 0 0.

Lemma core_example_wf i : wf_Core (core_example i).
Proof.
  constructor; cbn [core_example GPRegs VRegs PC SP TLSAddr nextPC numInsts exclusiveAccessAddr
    exclusiveData0 exclusiveData1 interrupts]; try done.
  - apply Forall_replicate. unfold uint. lia.
  - apply Forall_replicate. split; unfold uint; cbn; lia.
Qed.

#[local] Instance host_example : HostEnv := {
  clockReading n := Z.of_nat n;
  grownCapacity n := S (n + n / 2);
  uninitialisedPState _ := PSTATE.mk true false true false;
}.

Definition created_example : KState :=
  createK 0x8000000 0 0x7000 44 CORE0 (kernel_static []).
Definition started_example : KState := startK 1 created_example.
Definition running_example : KState := fst (reschedK 0 (core_example 0) started_example).

Lemma created_example_inv : sched_inv created_example.
Proof. apply createK_inv; [apply kernel_static_inv|reflexivity]. Qed.

Lemma started_example_inv : sched_inv started_example.
Proof.
  destruct (threadOf created_example 1) as [[a t]|] eqn:Ht; [|by vm_compute in Ht].
  apply sched_inv_setLock.
  apply (queueK_inv _ (sched_inv_setLock true _ created_example_inv) 1 a t); try done.
  all: vm_compute in Ht; injection Ht as <- <-; try (unfold core_id; cbn; lia); done.
Qed.

Lemma running_example_inv : sched_inv running_example.
Proof. apply reschedK_inv; [apply started_example_inv|unfold core_id; lia]. Qed.

Lemma scheduler_invariant_witness :
  reachable tt 0 started_example core_example /\
  sched_inv started_example /\ unlocked started_example.
Proof.
  assert (reachable tt 0 started_example core_example) as Hr.
  { apply reach_guest with (fun j => if j =? 0 then core_example 0 else
      (fun j => if j =? 0 then core_example 0 else core_example j) j); [|done].
    apply (reach_step tt 0 created_example
      (fun j => if j =? 0 then core_example 0 else core_example j) 0 (Start 1)).
    - apply (reach_step tt 0 (kernel_static []) core_example 0 (Create 0x8000000 0 0x7000 44 CORE0)).
      + by apply reach_init.
      + unfold core_id. lia.
      + reflexivity.
      + vm_compute. reflexivity.
    - unfold core_id. lia.
    - split; [|split]; vm_compute; repeat split; try done; discriminate.
    - vm_compute. reflexivity. }
  split; [exact Hr|].
  destruct (scheduler_invariant tt 0 started_example core_example Hr) as (H1 & H2 & _). by split.
Defined.
