(* ===== verification/SchedulerPolicy.v ===== *)
(** * Scheduling policy, context switches, and what yielding does

    Which thread runs after a call of the scheduler and with which registers, what is
    kept of the thread that was switched out, and the behaviours that follow: a thread
    that yields without a strictly better one waiting leaves its core idle. *)
From S2P Require Import Prelude BitUtils Instructions Core Machine HandleManager.
From S2P Require Import MemoryMapper Thread KernelState Scheduler KernelLemmas SchedulerSpec SchedulerInv SchedulerSafety.

(** ** Saved contexts *)

Lemma contextOf_modT_keep k h f h' :
  objects_inv k -> canonical h -> canonical h' -> (forall t, context (f t) = context t) ->
  contextOf (modT h f k) h' = contextOf k h'.
Proof.
  intros Ho Hh Hh' Hf. unfold contextOf. rewrite threadOf_modT by done.
  destruct (decide (h' = h)) as [->|]; [|done].
  destruct (threadOf k h) as [[a t]|]; cbn; [by rewrite Hf|done].
Qed.

Lemma set_status_context v t : context (set_status v t) = context t.
Proof. done. Qed.
Lemma wakeup_context t : context (wakeup t) = context t.
Proof. unfold wakeup. by destruct (wakeupCallback t). Qed.
#[export] Hint Resolve set_status_context wakeup_context : emu.

Lemma contextOf_requeueK k h h' :
  objects_inv k -> canonical h -> canonical h' -> contextOf (requeueK h k) h' = contextOf k h'.
Proof.
  intros Ho Hh Hh'. unfold contextOf. rewrite requeueK_threadOf by done.
  case_decide as Hd; [|done]. destruct Hd as [-> _]. by destruct (threadOf k h) as [[]|].
Qed.

Lemma contextOf_saveK k h c a t h' :
  objects_inv k -> canonical h -> canonical h' -> threadOf k h = Some (a, t) ->
  contextOf (saveK h c k) h' = if decide (h' = h) then Some (saveState c) else contextOf k h'.
Proof.
  intros Ho Hh Hh' Ht. unfold saveK.
  rewrite (proj2 (Z.eqb_neq h _) (canonical_nonzero h Hh)).
  unfold contextOf. rewrite threadOf_modT by done.
  destruct (decide (h' = h)); [|done]. by rewrite Ht.
Qed.

Section Switch.
Context (k : KState) (Hw : sched_wf k) (i : Z) (Hi : core_id i) (c : Core).
Let cur := currentOf k i.

(** A switch keeps the context of every thread but the one switched out. *)
Lemma switch_contexts j h :
  nextOf k i = Some j -> canonical h ->
  contextOf (fst (reschedK i c k)) h =
  if decide (h = cur) then Some (saveState c) else contextOf k h.
Proof.
  intros Hn Hh. destruct (nextOf_live k i j Hw Hi Hn) as (Hin & Hc & Hne & _).
  set (next := nth j (listOf k i) INVALID_THREAD) in *.
  set (k1 := setList i (delete j (listOf k i)) k).
  assert (sched_wf k1) as Hw1.
  { apply sched_wf_setList; try done. intros h' Hh'. apply live_on_core; try done.
    apply (elem_of_sublist _ _ _ Hh'). apply sublist_delete. }
  destruct (saveK_view k i c k1 Hw1 (cur_canonical k Hw i Hi)) as (W2 & _).
  fold cur in W2. set (k2 := saveK cur c k1) in *.
  set (k3 := modT next (set_status ThreadStatus.RUNNING) k2).
  assert (sched_wf k3) as W3 by (apply sched_wf_modT; auto with emu).
  assert (contextOf k3 h = if decide (h = cur) then Some (saveState c) else contextOf k h) as E3.
  { unfold k3. rewrite contextOf_modT_keep by (auto with emu; apply W2). unfold k2.
    destruct (Z.eq_dec cur INVALID_THREAD) as [E|E].
    - rewrite decide_False by (intros ->; by apply (canonical_nonzero _ Hh)).
      unfold saveK. by rewrite E.
    - destruct (currentOf_live k Hw i Hi E) as (Hcc & a & t & Ht & _). fold cur in Hcc, Ht.
      apply (contextOf_saveK k1 cur c a t h (sw_objects _ Hw1) Hcc Hh Ht). }
  set (k4 := if cur =? INVALID_THREAD then k3 else requeueK cur k3).
  assert (objects_inv k4 /\ contextOf k4 h = contextOf k3 h) as [O4 E4].
  { unfold k4. destruct (Z.eqb_spec cur INVALID_THREAD) as [|E]; [split; [apply W3|done]|].
    destruct (cur_canonical k Hw i Hi) as [|Hcc]; [done|]. fold cur in Hcc.
    split; [apply requeueK_objects_inv, W3|]. by apply contextOf_requeueK; [apply W3|..]. }
  assert (fst (reschedK i c k) = modT next wakeup (setCurrent i next k4)) as ->
    by (unfold reschedK; rewrite Hn; done).
  rewrite contextOf_modT_keep; auto with emu; [|destruct O4; by constructor].
  change (contextOf (setCurrent i next k4) h) with (contextOf k4 h). by rewrite E4.
Qed.

(** The core after a switch: the saved registers of the next thread. *)
Lemma switch_core j :
  nextOf k i = Some j ->
  snd (reschedK i c k) =
  set_isActive true (set_exclusiveAccess false
    (restoreK k (nth j (listOf k i) INVALID_THREAD) c)).
Proof.
  intros Hn. destruct (nextOf_live k i j Hw Hi Hn) as (Hin & Hc & Hne & a & t & Ht & _).
  set (next := nth j (listOf k i) INVALID_THREAD) in *. unfold reschedK. rewrite Hn. cbn [snd].
  fold next cur. unfold restoreK. do 3 f_equal.
  set (k1 := setList i (delete j (listOf k i)) k).
  assert (contextOf (saveK cur c k1) next = contextOf k next) as ->; [|done].
  unfold saveK. destruct (Z.eqb_spec cur INVALID_THREAD) as [|E]; [done|].
  destruct (cur_canonical k Hw i Hi) as [|Hcc]; [done|]. fold cur in Hcc.
  unfold contextOf. rewrite threadOf_modT; [by rewrite decide_False|..]; try done.
  destruct (sw_objects k Hw); by constructor.
Qed.

(** Leaving for idle: the context of the thread that left is what the core held. *)
Lemma idle_contexts h :
  nextOf k i = None -> statusOf k cur <> Some ThreadStatus.RUNNING ->
  canonical h -> cur <> INVALID_THREAD ->
  contextOf (fst (reschedK i c k)) h = if decide (h = cur) then Some (saveState c) else contextOf k h.
Proof.
  intros Hn Hr Hh Hne. unfold reschedK. rewrite Hn. fold cur.
  rewrite (proj2 (Z.eqb_neq cur _) Hne), decide_False by done. cbn [fst].
  destruct (currentOf_live k Hw i Hi Hne) as (Hcc & a & t & Ht & _). fold cur in Hcc, Ht.
  apply (contextOf_saveK k cur c a t h (sw_objects k Hw) Hcc Hh Ht).
Qed.
End Switch.

(** ** Policy *)

(** The priority a waiting thread has to beat. *)
Definition limit (k : KState) (i : Z) : Z :=
  if currentOf k i =? INVALID_THREAD then NO_PRIORITY else prioOf k (currentOf k i).

Lemma nextOf_best k i j : best_at (prioOf k) (listOf k i) (limit k i) j -> nextOf k i = Some j.
Proof.
  intros (h & Hh & Hlt & Hall & Hfst). unfold nextOf. fold (limit k i).
  destruct (pick_spec (prioOf k) (listOf k i) 0 None (limit k i))
    as [(j' & E & h' & Hh' & Hlt' & Hall' & Hfst')|[E Hnone]].
  - rewrite E. cbn. f_equal. destruct (lt_eq_lt_dec j j') as [[Hj|Hj]|Hj]; [|done|].
    + pose proof (Hfst' j h Hh Hj). pose proof (Hall j' h' Hh'). lia.
    + pose proof (Hfst j' h' Hh' Hj). pose proof (Hall' j h Hh). lia.
  - exfalso. pose proof (Hnone h (list_elem_of_lookup_2 _ _ _ Hh)). lia.
Qed.

Lemma nextOf_none k i : (forall h, h ∈ listOf k i -> limit k i <= prioOf k h) -> nextOf k i = None.
Proof.
  intros Hnone. unfold nextOf. fold (limit k i).
  destruct (pick_spec (prioOf k) (listOf k i) 0 None (limit k i))
    as [(j' & E & h' & Hh' & Hlt' & _)|[E _]]; [|done].
  exfalso. pose proof (Hnone h' (list_elem_of_lookup_2 _ _ _ Hh')). lia.
Qed.

(** C9: scheduling policy: rescheduling a core takes from its list the first thread of
    the best priority, if that is strictly better than the current thread's; it
    becomes the RUNNING current thread with its saved registers in the core, the old
    thread keeps the core's registers as its context and, if it was RUNNING, goes to
    the end of the list.  Otherwise a RUNNING current thread goes on, and any other
    leaves the core idle. *)
Theorem reschedule_policy {Mem} (m : Mem) (timer : Z) (k : KState) (c : Core) :
  sched_wf k -> core_id (coreNum c) ->
  let i := coreNum c in
  let cur := currentOf k i in
  exists k' c', rescheduleNoLock (St m timer k c) = Ok (tt, St m timer k' c') /\
    (forall j h, best_at (prioOf k) (listOf k i) (limit k i) j -> listOf k i !! j = Some h ->
       currentOf k' i = h /\ statusOf k' h = Some ThreadStatus.RUNNING /\
       (exists x, contextOf k h = Some x /\
          c' = set_isActive true (set_exclusiveAccess false (restoreState x c))) /\
       (cur <> INVALID_THREAD -> contextOf k' cur = Some (saveState c)) /\
       listOf k' i = delete j (listOf k i) ++
         (if decide (statusOf k cur = Some ThreadStatus.RUNNING) then [cur] else [])) /\
    ((forall h, h ∈ listOf k i -> limit k i <= prioOf k h) ->
       listOf k' i = listOf k i /\
       if decide (statusOf k cur = Some ThreadStatus.RUNNING)
       then currentOf k' i = cur /\ c' = set_isActive true c
       else currentOf k' i = INVALID_THREAD /\ isActive c' = false /\
            (cur <> INVALID_THREAD -> contextOf k' cur = Some (saveState c))).
Proof.
  intros Hw Hi i cur. pose proof (rescheduleNoLock_eq m timer k c Hw Hi) as E. fold i in E.
  exists (fst (reschedK i c k)), (snd (reschedK i c k)).
  split; [rewrite E; by destruct (reschedK i c k)|]. split.
  - intros j h Hb Hj. pose proof (nextOf_best k i j Hb) as Hn.
    destruct (resched_switch k Hw i Hi c j Hn) as [W K S A L C].
    rewrite (nth_lookup_Some _ _ INVALID_THREAD _ Hj) in *.
    destruct (nextOf_live k i j Hw Hi Hn) as (Hin & Hc & Hne & a & t & Ht & _).
    rewrite (nth_lookup_Some _ _ INVALID_THREAD _ Hj) in *.
    rewrite C, S, L by done. rewrite !(decide_True (P := i = i)), (decide_True (P := h = h)) by done.
    split; [done|]. split; [done|]. split; [|split; [|done]].
    + exists (context t). unfold contextOf. rewrite Ht. split; [done|].
      rewrite (switch_core k Hw i Hi c j Hn), (nth_lookup_Some _ _ INVALID_THREAD _ Hj).
      unfold restoreK, contextOf. by rewrite Ht.
    + intros Hcur. destruct (currentOf_live k Hw i Hi Hcur) as (Hcc & _).
      rewrite (switch_contexts k Hw i Hi c j cur Hn Hcc). by rewrite decide_True.
  - intros Hnone. pose proof (nextOf_none k i Hnone) as Hn.
    destruct (decide (statusOf k cur = Some ThreadStatus.RUNNING)) as [Er|Er].
    + destruct (resched_keep k Hw i Hi c Hn Er) as [W K S A L C]. rewrite C, L by done.
      split; [done|]. split; [done|]. unfold reschedK. rewrite Hn. fold cur.
      destruct (Z.eqb_spec cur INVALID_THREAD) as [E0|]; [by rewrite E0 in Er|].
      by rewrite decide_True.
    + destruct (resched_idle k Hw i Hi c Hn Er) as [W K S A L C]. rewrite C, L by done.
      rewrite decide_True by done. split; [done|]. split; [done|]. split.
      * unfold reschedK. rewrite Hn. fold cur. destruct (cur =? INVALID_THREAD); [done|].
        by rewrite decide_False.
      * intros Hcur. destruct (currentOf_live k Hw i Hi Hcur) as (Hcc & _).
        rewrite (idle_contexts k Hw i Hi c cur Hn Er Hcc Hcur). by rewrite decide_True.
Qed.

(** ** Yielding *)

Lemma prioOf_queueK k h h' : objects_inv k -> canonical h -> canonical h' ->
  prioOf (queueK h k) h' = prioOf k h'.
Proof.
  intros Ho Hh Hh'. unfold prioOf. rewrite queueK_threadOf by done.
  destruct (decide (h' = h)) as [->|]; [|done]. by destruct (threadOf k h) as [[]|].
Qed.

Section Yield.
Context (k : KState) (Hk : sched_inv k) (Hl : unlocked k) (i : Z) (Hi : core_id i) (c : Core).
Let cur := currentOf k i.
Context (Hrun : statusOf k cur = Some ThreadStatus.RUNNING).
Context (Hnobetter : forall h, h ∈ listOf k i -> prioOf k cur <= prioOf k h).

Lemma yield_current : canonical cur /\ exists a t, threadOf k cur = Some (a, t) /\
  status t = ThreadStatus.RUNNING /\ affinityIndex t = i.
Proof.
  destruct (status_thread k cur _ Hrun) as (a & t & Ht & Hs).
  destruct (currentOf_live k (si_wf k Hk) i Hi) as (Hc & a' & t' & Ht' & Ha).
  { fold cur. intros E. by rewrite E in Ht. }
  fold cur in Hc, Ht'. rewrite Ht in Ht'. injection Ht' as <- <-. split; [done|]. by exists a, t.
Qed.

(** The state after the thread queued itself. *)
Lemma yield_queue_view :
  let k1 := queueK cur (locked k) in
  sched_inv k1 /\ currentOf k1 i = cur /\ listOf k1 i = listOf k i ++ [cur] /\
  statusOf k1 cur = Some ThreadStatus.READY /\
  (forall h, canonical h -> prioOf k1 h = prioOf k h) /\
  (forall h, canonical h -> contextOf k1 h = contextOf k h).
Proof.
  destruct yield_current as (Hc & a & t & Ht & Hs & Ha).
  assert (sched_inv (locked k)) as Hk1 by by apply sched_inv_setLock.
  pose proof (si_wf _ Hk1) as Hw1. pose proof (sw_objects _ Hw1) as Ho1.
  assert (core_id (affinityIndex t)) as Hia by by rewrite Ha.
  set (k1 := queueK cur (locked k)). cbv zeta.
  split; [by apply (queueK_inv (locked k) Hk1 cur a t Hc Ht Hia); rewrite Hs|].
  split; [apply queueK_currentOf|]. split; [|split; [|split]].
  - unfold k1. rewrite (queueK_listOf (locked k) Hw1 cur a t) by done. by rewrite decide_True.
  - unfold k1. rewrite (queueK_statusOf (locked k) Hw1 cur a t) by done. by rewrite decide_True.
  - intros h Hh. unfold k1. by rewrite prioOf_queueK.
  - intros h Hh. unfold k1, contextOf. rewrite queueK_threadOf by done.
    change (threadOf (locked k)) with (threadOf k).
    destruct (decide (h = cur)) as [->|]; [|done]. by destruct (threadOf k cur) as [[]|].
Qed.

(** With nobody better in the list, it does not beat its own priority either. *)
Lemma yield_queued :
  let k1 := queueK cur (locked k) in
  sched_inv k1 /\ currentOf k1 i = cur /\ listOf k1 i = listOf k i ++ [cur] /\
  nextOf k1 i = None /\ statusOf k1 cur = Some ThreadStatus.READY /\
  (forall h, canonical h -> prioOf k1 h = prioOf k h) /\
  (forall h, canonical h -> contextOf k1 h = contextOf k h).
Proof.
  destruct yield_queue_view as (Hk1 & Ecur & El & Es & Ep & Ex).
  destruct yield_current as (Hc & _). cbv zeta.
  split; [done|]. split; [done|]. split; [done|]. split; [|done].
  apply nextOf_none. unfold limit. rewrite Ecur, El.
  rewrite (proj2 (Z.eqb_neq cur _) (canonical_nonzero cur Hc)).
  intros h Hin. rewrite Ep by done. apply elem_of_app in Hin as [Hin| ->%list_elem_of_singleton].
  - rewrite Ep by by apply (listOf_live k (si_wf k Hk) i Hi). by apply Hnobetter.
  - rewrite Ep by done. lia.
Qed.

Lemma yield_idle_state :
  let '(k', c') := yieldK i c k in
  sched_inv k' /\ unlocked k' /\ currentOf k' i = INVALID_THREAD /\
  c' = set_isActive false (set_exclusiveAccess false c) /\
  listOf k' i = listOf k i ++ [cur] /\
  (forall h, h ∈ listOf k' i -> statusOf k' h = Some ThreadStatus.READY) /\
  contextOf k' cur = Some (saveState c).
Proof.
  destruct yield_queued as (Hk1 & Ecur & El & Hn & Hs & _).
  destruct yield_current as (Hc & a & t & Ht & _ & _).
  set (k1 := queueK cur (locked k)) in *. pose proof (si_wf _ Hk1) as Hw1.
  assert (statusOf k1 (currentOf k1 i) <> Some ThreadStatus.RUNNING) as Hnr by (rewrite Ecur; congruence).
  destruct (resched_idle k1 Hw1 i Hi c Hn Hnr) as [W K S A L C].
  pose proof (idle_contexts k1 Hw1 i Hi c cur Hn Hnr Hc) as Hx. rewrite Ecur in Hx.
  specialize (Hx (canonical_nonzero cur Hc)). rewrite decide_True in Hx by done.
  pose proof (reschedK_inv k1 i c Hk1 Hi) as Hk2.
  assert (snd (reschedK i c k1) = set_isActive false (set_exclusiveAccess false c)) as Ec.
  { unfold reschedK. rewrite Hn, Ecur.
    rewrite (proj2 (Z.eqb_neq cur _) (canonical_nonzero cur Hc)). rewrite decide_False; [done|congruence]. }
  unfold yieldK. fold cur k1. destruct (reschedK i c k1) as [k' c']. cbn [fst snd] in *.
  split; [by apply sched_inv_setLock|]. split; [done|].
  change (currentOf (setLock false k') i) with (currentOf k' i).
  change (listOf (setLock false k') i) with (listOf k' i).
  rewrite C, decide_True by done. split; [done|]. split; [done|].
  rewrite L, El by done. split; [done|]. split; [|exact Hx].
  intros h Hh. change (statusOf (setLock false k') h) with (statusOf k' h).
  apply (si_queued_ready k' Hk2 i h Hi). by rewrite L, El by done.
Qed.

Lemma yield_prio h : canonical h -> prioOf (fst (yieldK i c k)) h = prioOf k h.
Proof.
  intros Hh. destruct yield_queued as (Hk1 & Ecur & El & Hn & Hs & Hp & _).
  destruct yield_current as (Hc & _).
  set (k1 := queueK cur (locked k)) in *. unfold yieldK. fold cur k1.
  assert (fst (reschedK i c k1) = setCurrent i INVALID_THREAD (saveK cur c k1)) as E.
  { unfold reschedK. rewrite Hn, Ecur. rewrite (proj2 (Z.eqb_neq cur _) (canonical_nonzero cur Hc)).
    rewrite decide_False; [done|congruence]. }
  destruct (reschedK i c k1) as [k' c']. cbn [fst] in *. subst k'.
  change (prioOf (setLock false (setCurrent i INVALID_THREAD (saveK cur c k1))) h)
    with (prioOf (saveK cur c k1) h). rewrite <-Hp by done.
  unfold saveK. rewrite (proj2 (Z.eqb_neq cur _) (canonical_nonzero cur Hc)).
  unfold prioOf. rewrite threadOf_modT by (done || apply (sw_objects _ (si_wf _ Hk1))).
  destruct (decide (h = cur)) as [->|]; [|done]. by destruct (threadOf k1 cur) as [[]|].
Qed.
End Yield.

(** Yielding to a better thread. *)
Section YieldTo.
Context (k : KState) (Hk : sched_inv k) (Hl : unlocked k) (i : Z) (Hi : core_id i) (c : Core).
Let cur := currentOf k i.
Context (Hrun : statusOf k cur = Some ThreadStatus.RUNNING).
Context (j : nat) (next : Z) (Hj : listOf k i !! j = Some next).
Context (Hbest : best_at (prioOf k) (listOf k i) (prioOf k cur) j).

Lemma yield_switch_state :
  let '(k', c') := yieldK i c k in
  sched_inv k' /\ unlocked k' /\ currentOf k' i = next /\
  contextOf k' cur = Some (saveState c) /\
  exists x, contextOf k next = Some x /\
    c' = set_isActive true (set_exclusiveAccess false (restoreState x c)).
Proof.
  destruct (yield_queue_view k Hk i Hi Hrun) as (Hk1 & Ecur & El & Es & Ep & Ex).
  destruct (yield_current k Hk i Hi Hrun) as (Hc & _).
  fold cur in Hk1, Ecur, El, Es, Ep, Ex, Hc.
  set (k1 := queueK cur (locked k)) in *. pose proof (si_wf _ Hk1) as Hw1.
  assert (listOf k1 i !! j = Some next) as Hj1.
  { rewrite El. apply lookup_app_l_Some. exact Hj. }
  assert (forall h, h ∈ listOf k i -> canonical h) as Hcan
    by (intros h Hh; by apply (listOf_live k (si_wf k Hk) i Hi)).
  assert (best_at (prioOf k1) (listOf k1 i) (limit k1 i) j) as Hb.
  { destruct Hbest as (h & Hh & Hlt & Hall & Hfst). rewrite Hj in Hh. injection Hh as <-.
    assert (canonical next) as Hcn by (apply Hcan; by apply list_elem_of_lookup_2 in Hj).
    exists next. split; [done|].
    assert (limit k1 i = prioOf k cur) as ->.
    { unfold limit. rewrite Ecur, (proj2 (Z.eqb_neq cur _) (canonical_nonzero cur Hc)). by apply Ep. }
    rewrite Ep by done. split; [done|]. rewrite El.
    assert (forall j' h', (listOf k i ++ [cur]) !! j' = Some h' ->
      (listOf k i !! j' = Some h' /\ canonical h') \/ (h' = cur /\ (length (listOf k i) <= j')%nat)) as Hsplit.
    { intros j' h' [Hl'|[Hge Hl']]%lookup_app_Some.
      - left. split; [done|]. apply Hcan. by apply list_elem_of_lookup_2 in Hl'.
      - right. apply list_lookup_singleton_Some in Hl' as [_ <-]. done. }
    split; intros j' h' Hl'; destruct (Hsplit j' h' Hl') as [[Hl2 Hch]|[-> Hge]]; rewrite Ep by done.
    - by apply (Hall j').
    - lia.
    - intros Hlt'. by apply (Hfst j').
    - intros Hlt'. apply lookup_lt_Some in Hj. lia. }
  pose proof (nextOf_best k1 i j Hb) as Hn.
  destruct (resched_switch k1 Hw1 i Hi c j Hn) as [W K S A L C].
  pose proof (switch_core k1 Hw1 i Hi c j Hn) as Ec.
  pose proof (switch_contexts k1 Hw1 i Hi c j cur Hn Hc) as Ecx. rewrite Ecur in Ecx.
  rewrite decide_True in Ecx by done.
  pose proof (reschedK_inv k1 i c Hk1 Hi) as Hk2.
  destruct (nextOf_live k1 i j Hw1 Hi Hn) as (_ & Hcn & _ & a & t & Ht & _).
  rewrite (nth_lookup_Some _ _ INVALID_THREAD _ Hj1) in *.
  unfold yieldK. fold cur k1. destruct (reschedK i c k1) as [k' c']. cbn [fst snd] in *.
  split; [by apply sched_inv_setLock|]. split; [done|].
  change (currentOf (setLock false k') i) with (currentOf k' i).
  rewrite C, decide_True by done. split; [done|]. split; [exact Ecx|].
  exists (context t). assert (contextOf k1 next = Some (context t)) as Hx
    by (unfold contextOf; by rewrite Ht).
  split; [by rewrite <-Ex|]. rewrite Ec. unfold restoreK. by rewrite Hx.
Qed.
End YieldTo.

(** yielding without a strictly better thread: when no waiting thread of the core is
    strictly better than the running one (none waits, or they have its own priority),
    [yieldThread] runs nobody: the core goes idle although the yielding thread and
    all the others are READY in its list, and no interrupt is raised for it. *)
Theorem yield_goes_idle {Mem} (m : Mem) (timer : Z) (k : KState) (c : Core) :
  sched_inv k -> unlocked k -> core_id (coreNum c) ->
  let i := coreNum c in
  let cur := currentOf k i in
  statusOf k cur = Some ThreadStatus.RUNNING ->
  (forall h, h ∈ listOf k i -> prioOf k cur <= prioOf k h) ->
  exists k' c', yieldThread (St m timer k c) = Ok (tt, St m timer k' c') /\
    currentOf k' i = INVALID_THREAD /\ isActive c' = false /\ interrupts c' = interrupts c /\
    listOf k' i = listOf k i ++ [cur] /\
    (forall h, h ∈ listOf k' i -> statusOf k' h = Some ThreadStatus.READY).
Proof.
  intros Hk Hl Hi i cur Hrun Hnb.
  destruct (yield_current k Hk i Hi Hrun) as (Hc & a & t & Ht & _).
  pose proof (yieldThread_eq m timer k c a t (si_wf k Hk) Hl Hi Ht) as E. fold i in E.
  pose proof (yield_idle_state k Hk i Hi c Hrun Hnb) as Hst. destruct (yieldK i c k) as [k' c'].
  destruct Hst as (_ & _ & H1 & -> & H2 & H3 & _). by exists k', (set_isActive false (set_exclusiveAccess false c)).
Qed.

(** Out and back in, on an otherwise empty core. *)
Lemma yield_resume {Mem} (m : Mem) (timer : Z) (k : KState) (c c1 : Core) :
  sched_inv k -> unlocked k -> core_id (coreNum c) -> wf_Core c -> wf_Core c1 ->
  coreNum c1 = coreNum c ->
  let i := coreNum c in
  let cur := currentOf k i in
  statusOf k cur = Some ThreadStatus.RUNNING -> listOf k i = [] -> prioOf k cur < NO_PRIORITY ->
  exists k' c' k'' c'',
    yieldThread (St m timer k c) = Ok (tt, St m timer k' c') /\
    rescheduleNoLock (St m timer k' c1) = Ok (tt, St m timer k'' c'') /\
    currentOf k'' i = cur /\ statusOf k'' cur = Some ThreadStatus.RUNNING /\
    isActive c'' = true /\ same_registers c'' c.
Proof.
  intros Hk Hl Hi Hwc Hwc1 Hcn i cur Hrun Hempty Hprio.
  assert (forall h, h ∈ listOf k i -> prioOf k cur <= prioOf k h) as Hnb
    by (rewrite Hempty; by intros h ?%not_elem_of_nil).
  destruct (yield_current k Hk i Hi Hrun) as (Hc & a & t & Ht & _). fold cur in Hc, Ht.
  pose proof (yieldThread_eq m timer k c a t (si_wf k Hk) Hl Hi Ht) as E. fold i in E.
  pose proof (yield_idle_state k Hk i Hi c Hrun Hnb) as Hst.
  pose proof (yield_prio k Hk i Hi c Hrun Hnb cur Hc) as Hp.
  destruct (yieldK i c k) as [k' c']. cbn [fst] in Hp.
  destruct Hst as (Hk' & Hl' & Hcur' & -> & Hlist & Hready & Hctx). rewrite Hempty in Hlist. cbn in Hlist.
  pose proof (si_wf k' Hk') as Hw'. rewrite <-Hcn in Hi.
  pose proof (rescheduleNoLock_eq m timer k' c1 Hw' Hi) as E2. rewrite Hcn in E2, Hi. fold i in E2, Hi.
  assert (nextOf k' i = Some 0%nat) as Hn.
  { apply nextOf_best. exists cur. fold cur in Hlist. rewrite Hlist. split; [done|].
    unfold limit. rewrite Hcur'. cbn [Z.eqb INVALID_THREAD]. split; [fold cur in Hp; lia|].
    split; intros [|j] h'; cbn; intros; simplify_eq; lia. }
  destruct (resched_switch k' Hw' i Hi c1 0 Hn) as [W K S A L C]. rewrite Hlist in *. cbn [nth] in *.
  exists k', (set_isActive false (set_exclusiveAccess false c)),
    (fst (reschedK i c1 k')), (snd (reschedK i c1 k')).
  split; [done|]. split; [rewrite E2; by destruct (reschedK i c1 k')|].
  rewrite C, S by done. rewrite !decide_True by done. split; [done|]. split; [done|].
  rewrite (switch_core k' Hw' i Hi c1 0 Hn), Hlist. cbn [nth]. split; [done|].
  unfold restoreK. fold cur in Hctx. fold cur. rewrite Hctx.
  destruct (restore_save c c1 Hwc Hwc1) as (R1 & R2 & R3). split; [exact R1|]. split; [exact R2|exact R3].
Qed.

(** switching out and back in: a thread that yields on a core with nobody else waiting
    and is scheduled again from the idle core, whatever the core holds by then, gets
    back every register it had. *)
Theorem yield_resume_roundtrip {Mem} (m : Mem) (timer : Z) (k : KState) (c c1 : Core) :
  sched_inv k -> unlocked k -> core_id (coreNum c) -> wf_Core c -> wf_Core c1 ->
  coreNum c1 = coreNum c ->
  let i := coreNum c in
  let cur := currentOf k i in
  statusOf k cur = Some ThreadStatus.RUNNING -> listOf k i = [] -> prioOf k cur < NO_PRIORITY ->
  exists k' c' k'' c'',
    yieldThread (St m timer k c) = Ok (tt, St m timer k' c') /\
    rescheduleNoLock (St m timer k' c1) = Ok (tt, St m timer k'' c'') /\
    currentOf k'' i = cur /\ statusOf k'' cur = Some ThreadStatus.RUNNING /\
    isActive c'' = true /\ same_registers c'' c.
Proof. apply yield_resume. Qed.

(** ** The theorems at the example state *)

(** A second thread, of a better priority, waits behind the running one. *)
#[local] Instance policy_host : HostEnv := host_example.
Definition waiting_example : KState :=
  startK 2 (createK 0x9000000 7 0x8000 30 CORE0 running_example).

Lemma waiting_example_inv : sched_inv waiting_example.
Proof.
  pose proof (createK_inv running_example running_example_inv 0x9000000 7 0x8000 30 CORE0 eq_refl) as Hk.
  fold (createK 0x9000000 7 0x8000 30 CORE0 running_example) in Hk.
  set (k := createK 0x9000000 7 0x8000 30 CORE0 running_example) in *.
  destruct (threadOf k 2) as [[a t]|] eqn:Ht; [|by vm_compute in Ht].
  apply sched_inv_setLock.
  apply (queueK_inv _ (sched_inv_setLock true _ Hk) 2 a t); try done.
  all: vm_compute in Ht; injection Ht as <- <-; try (unfold core_id; cbn; lia); done.
Qed.

Lemma reschedule_policy_witness :
  (sched_wf waiting_example /\ core_id (coreNum (core_example 0))) /\
  exists k' c',
    rescheduleNoLock (St tt 0 waiting_example (core_example 0)) = Ok (tt, St tt 0 k' c') /\
    currentOf waiting_example 0 = 1 /\ currentOf k' 0 = 2 /\ PC c' = 0x9000000.
Proof.
  assert (sched_wf waiting_example) as Hw by apply waiting_example_inv.
  assert (core_id (coreNum (core_example 0))) as Hi by (unfold core_id; cbn; lia).
  split; [by split|].
  destruct (reschedule_policy tt 0 waiting_example (core_example 0) Hw Hi) as (k' & c' & E & Hpick & _).
  exists k', c'. split; [exact E|]. split; [vm_compute; reflexivity|].
  destruct (Hpick 0%nat 2) as (H1 & _ & (x & Hx & ->) & _).
  - exists 2. split; [vm_compute; reflexivity|]. split; [vm_compute; reflexivity|].
    split; intros [|[|j]] h' Hh'; vm_compute in Hh'; try discriminate Hh'; try lia.
    injection Hh' as <-. vm_compute. discriminate.
  - vm_compute. reflexivity.
  - split; [exact H1|]. vm_compute in Hx. injection Hx as <-. reflexivity.
Defined.

Lemma yield_goes_idle_witness :
  (sched_inv running_example /\ unlocked running_example /\ core_id (coreNum (core_example 0)) /\
   statusOf running_example (currentOf running_example 0) = Some ThreadStatus.RUNNING /\
   listOf running_example 0 = []) /\
  exists k' c', yieldThread (St tt 0 running_example (core_example 0)) = Ok (tt, St tt 0 k' c') /\
    currentOf k' 0 = INVALID_THREAD /\ isActive c' = false /\ listOf k' 0 = [1].
Proof.
  assert (core_id (coreNum (core_example 0))) as Hi by (unfold core_id; cbn; lia).
  assert (statusOf running_example (currentOf running_example 0) = Some ThreadStatus.RUNNING) as Hs
    by (vm_compute; reflexivity).
  assert (listOf running_example 0 = []) as Hl by (vm_compute; reflexivity).
  split; [split; [apply running_example_inv|]; split; [vm_compute; reflexivity|by repeat split]|].
  destruct (yield_goes_idle tt 0 running_example (core_example 0) running_example_inv eq_refl Hi Hs)
    as (k' & c' & E & H1 & H2 & _ & H3 & _).
  - cbn [coreNum core_example]. rewrite Hl. intros h Hh. by apply not_elem_of_nil in Hh.
  - exists k', c'. split; [exact E|]. split; [exact H1|]. split; [exact H2|].
    cbn [coreNum core_example] in H3. rewrite Hl in H3. rewrite H3. vm_compute. reflexivity.
Defined.

Lemma yield_resume_roundtrip_witness :
  (sched_inv running_example /\ unlocked running_example /\ wf_Core (core_example 0) /\
   listOf running_example 0 = []) /\
  exists k' c' k'' c'',
    yieldThread (St tt 0 running_example (core_example 0)) = Ok (tt, St tt 0 k' c') /\
    rescheduleNoLock (St tt 0 k' (set_PC 0xBAD (core_example 0))) = Ok (tt, St tt 0 k'' c'') /\
    PC c'' = 0x1000.
Proof.
  assert (core_id (coreNum (core_example 0))) as Hi by (unfold core_id; cbn; lia).
  assert (listOf running_example 0 = []) as Hl by (vm_compute; reflexivity).
  assert (wf_Core (set_PC 0xBAD (core_example 0))) as Hw.
  { apply wf_set_PC; [apply core_example_wf|unfold uint; lia]. }
  split; [split; [apply running_example_inv|]; split; [reflexivity|]; split; [apply core_example_wf|exact Hl]|].
  destruct (yield_resume_roundtrip tt 0 running_example (core_example 0) (set_PC 0xBAD (core_example 0))
    running_example_inv eq_refl Hi (core_example_wf 0) Hw eq_refl)
    as (k' & c' & k'' & c'' & E1 & E2 & _ & _ & _ & (_ & _ & Hpc & _)).
  - vm_compute. reflexivity.
  - exact Hl.
  - vm_compute. reflexivity.
  - exists k', c', k'', c''. split; [exact E1|]. split; [exact E2|exact Hpc].
Defined.
