(* ===== verification/MapperSpec.v ===== *)
(** * What the memory mapper promises

    The list of mappings against an abstract address map: which type and which
    permissions the guest sees at every address.  A list in order, of page-aligned
    mappings that do not meet, is an address map, and [mapRegion] updates that map,
    provided the loop erases no mapping whose successor it would then have had to
    look at: [iter = gMappings.erase(iter)] is followed by the loop's [iter++]. *)
From Stdlib Require Import Sorting.Sorted.
From stdpp Require Import sorting.
From S2P Require Import Prelude BitUtils Core Machine Memory MemoryMapper.

Definition covers (m : MemoryMapping) (a : Z) : Prop := m.(base) <= a < m.(base) + m.(size).

Definition attributes (m : MemoryMapping) : MemoryType.t * Permission :=
  (m.(type), m.(permissions)).

(** The abstract address map of a list of mappings. *)
Definition address_map (l : list MemoryMapping) (a : Z) : option (MemoryType.t * Permission) :=
  match findMapping a l with Ok m => Some (attributes m) | Err _ => None end.

Record wf_mapping (m : MemoryMapping) : Prop := {
  wfm_base : 0 <= m.(base);
  wfm_size : 0 < m.(size);
  wfm_end : m.(base) + m.(size) < 2 ^ 64;
  wfm_base_aligned : (PAGE_SIZE | m.(base));
  wfm_size_aligned : (PAGE_SIZE | m.(size));
}.

Definition before (m m' : MemoryMapping) : Prop := m.(base) + m.(size) <= m'.(base).
Definition apart (m m' : MemoryMapping) : Prop := before m m' \/ before m' m.

(** The mappings are in order and do not meet. *)
Definition wf_mappings (l : list MemoryMapping) : Prop :=
  Forall wf_mapping l /\ StronglySorted before l.

Definition inside (n m : MemoryMapping) : Prop :=
  n.(base) <= m.(base) /\ m.(base) + m.(size) <= n.(base) + n.(size).

(** Where the loop erases a mapping it steps over the next one unseen, which is
    harmless if there is one and it lies beyond the new mapping. *)
Fixpoint erase_harmless (n : MemoryMapping) (l : list MemoryMapping) : Prop :=
  match l with
  | [] => True
  | m :: l =>
      (inside n m -> match l with [] => False | m' :: _ => before n m' end) /\
      erase_harmless n l
  end.

(** ** One step of the loop *)

Definition newEndOf (n : MemoryMapping) : Z := u64 (n.(base) + n.(size) - 1).

Lemma newEndOf_eq n : wf_mapping n -> newEndOf n = n.(base) + n.(size) - 1.
Proof. intros []. apply wrap_id. unfold uint. lia. Qed.

(** [m'] is a piece of [m] outside [n]. *)
Record piece (n m m' : MemoryMapping) : Prop := {
  pc_wf : wf_mapping m';
  pc_inside : inside m m';
  pc_apart : apart m' n;
  pc_attributes : attributes m' = attributes m;
}.

Definition step_ok (n m : MemoryMapping) (act : loop_action) : Prop :=
  match act with
  | Keep m' => piece n m m' /\ ~ inside n m /\
      (forall a, ~ covers n a -> covers m a <-> covers m' a)
  | Split m' f => piece n m m' /\ piece n m f /\ before m' f /\ ~ inside n m /\
      (forall a, ~ covers n a -> covers m a <-> covers m' a \/ covers f a)
  | Erase => inside n m
  end.

Lemma wf_mapping_intro b n t q :
  0 <= b -> 0 < n -> b + n < 2 ^ 64 -> (PAGE_SIZE | b) -> (PAGE_SIZE | n) ->
  wf_mapping (mkMapping b n t q).
Proof. by constructor. Qed.

Lemma piece_intro n m b s :
  wf_mapping n -> wf_mapping m -> m.(base) <= b -> 0 < s -> b + s <= m.(base) + m.(size) ->
  (b + s <= n.(base) \/ n.(base) + n.(size) <= b) -> (PAGE_SIZE | b) -> (PAGE_SIZE | b + s) ->
  piece n m (mkMapping b s m.(type) m.(permissions)).
Proof.
  intros Hn Hm H1 H2 H3 H4 H5 H6. constructor; [|split|..]; try done.
  apply wf_mapping_intro; try done; destruct Hm; try lia.
  replace s with ((b + s) - b) by lia. by apply Z.divide_sub_r.
Qed.

Lemma piece_self n m : wf_mapping m -> apart m n -> piece n m m.
Proof. intros. constructor; [done|split; lia|done|done]. Qed.

Lemma overlap_spec n m : wf_mapping n -> wf_mapping m -> step_ok n m (overlap n.(base) (newEndOf n) m).
Proof.
  intros Hn Hm. rewrite (newEndOf_eq n Hn). unfold overlap.
  assert (u64 (base m + size m - 1) = base m + size m - 1) as -> by exact (newEndOf_eq m Hm).
  pose proof Hn as Hn0. pose proof Hm as Hm0.
  assert ((PAGE_SIZE | base n + size n)) as Hne by (destruct Hn; by apply Z.divide_add_r).
  assert ((PAGE_SIZE | base m + size m)) as Hme by (destruct Hm; by apply Z.divide_add_r).
  assert (forall x y, (PAGE_SIZE | x) -> (PAGE_SIZE | y) -> x < y -> x + 4096 <= y) as Hgap.
  { intros x y [p ->] [q ->]. change PAGE_SIZE with 4096. intros. lia. }
  assert (forall x, 0 <= x < 2 ^ 64 -> u64 x = x) as Hu by (intros; by apply wrap_id).
  destruct Hn as [N1 N2 N3 N4 _], Hm as [M1 M2 M3 M4 _].
  pose proof (Hgap (base n) (base m + size m) N4 Hme) as G1.
  pose proof (Hgap (base m) (base n + size n) M4 Hne) as G2.
  pose proof (Hgap (base m) (base n) M4 N4) as G3.
  pose proof (Hgap (base n + size n) (base m + size m) Hne Hme) as G4.
  repeat match goal with
  | |- context [?x <? ?y] => destruct (Z.ltb_spec x y)
  | |- context [?x <=? ?y] => destruct (Z.leb_spec x y)
  | |- context [?x =? ?y] => destruct (Z.eqb_spec x y)
  | |- context [?x >? ?y] => rewrite (Z.gtb_ltb x y)
  | |- context [?x >=? ?y] => rewrite (Z.geb_leb x y)
  end; cbn [andb]; try (exfalso; lia);
  unfold set_base, set_size, step_ok; cbn [base size type permissions];
  rewrite ?Hu by (rewrite ?Hu; lia).
  all: try (unfold inside; lia).
  all: try (split; [|split; [unfold inside; lia|intros a Ha; unfold covers in *; cbn [base size]; lia]]).
  all: try (split; [|split; [|split; [|split; [unfold inside; lia|intros a Ha; unfold covers in *; cbn [base size]; lia]]]]).
  all: try (unfold before; cbn [base size]; lia).
  all: try (apply piece_self; try done; unfold apart, before; lia).
  all: replace (base n + size n - 1 + 1) with (base n + size n) by lia.
  all: apply piece_intro; try done; try lia;
    match goal with |- (_ | ?x) =>
      first [replace x with (base m + size m) by lia | replace x with (base n) by lia]; done end.
Qed.

(** ** The loop *)

Definition disjoint_list : list MemoryMapping -> Prop := ForallOrdPairs apart.

Definition covered_by (l : list MemoryMapping) (v : MemoryType.t * Permission) (a : Z) : Prop :=
  exists m, m ∈ l /\ covers m a /\ attributes m = v.

Lemma apart_sym m m' : apart m m' -> apart m' m.
Proof. unfold apart. tauto. Qed.

Lemma apart_inside m m' x : inside m m' -> apart x m -> apart x m'.
Proof. unfold inside, apart, before. lia. Qed.

Lemma ForallOrdPairs_app {A} (R : A -> A -> Prop) l1 l2 :
  ForallOrdPairs R l1 -> ForallOrdPairs R l2 ->
  (forall x y, x ∈ l1 -> y ∈ l2 -> R x y) -> ForallOrdPairs R (l1 ++ l2).
Proof.
  intros H1 H2. induction H1 as [|x l1 Hx H1 IH]; intros H; [done|]. cbn. constructor.
  - apply Forall_app. split; [done|]. apply Forall_forall. intros y Hy. apply H; [|done].
    apply list_elem_of_here.
  - apply IH. intros y z Hy. apply H. by apply list_elem_of_further.
Qed.

Lemma ForallOrdPairs_app_inv {A} (R : A -> A -> Prop) l1 l2 :
  ForallOrdPairs R (l1 ++ l2) ->
  ForallOrdPairs R l1 /\ ForallOrdPairs R l2 /\ forall x y, x ∈ l1 -> y ∈ l2 -> R x y.
Proof.
  induction l1 as [|x l1 IH]; cbn; intros H.
  - split; [constructor|]. split; [done|]. by intros x y ?%not_elem_of_nil.
  - inversion H as [|? ? Hx H']; subst. apply Forall_app in Hx as [Hx1 Hx2].
    destruct (IH H') as (I1 & I2 & I3). split; [by constructor|]. split; [done|].
    intros y z [->|Hy]%elem_of_cons Hz; [|by apply I3].
    rewrite Forall_forall in Hx2. by apply Hx2.
Qed.

(** What the loop leaves: pieces of the old mappings that do not meet each other nor the
    new mapping, and outside the new mapping the same address map. *)
Record loop_ok (n : MemoryMapping) (l out : list MemoryMapping) : Prop := {
  lo_piece : forall m', m' ∈ out -> exists m, m ∈ l /\ piece n m m';
  lo_disjoint : disjoint_list out;
  lo_view : forall v a, ~ covers n a -> covered_by l v a <-> covered_by out v a;
}.

Lemma loop_ok_nil n : loop_ok n [] [].
Proof. constructor; [by intros m' ?%not_elem_of_nil|constructor|done]. Qed.

Lemma covered_by_cons m l v a :
  covered_by (m :: l) v a <-> (covers m a /\ attributes m = v) \/ covered_by l v a.
Proof.
  unfold covered_by. setoid_rewrite elem_of_cons. naive_solver.
Qed.

Lemma covered_by_app l l' v a :
  covered_by (l ++ l') v a <-> covered_by l v a \/ covered_by l' v a.
Proof. unfold covered_by. setoid_rewrite elem_of_app. naive_solver. Qed.

Lemma covered_by_permutation l l' v a : l ≡ₚ l' -> covered_by l v a <-> covered_by l' v a.
Proof. intros Hp. unfold covered_by. by setoid_rewrite Hp. Qed.

(** Adding the pieces [ms] of one more mapping [m]. *)
Lemma loop_ok_cons n m l front rest ms fs :
  loop_ok n l (front ++ rest) -> Forall (apart m) l ->
  (forall m', m' ∈ fs ++ ms -> piece n m m') -> disjoint_list (fs ++ ms) ->
  (forall a, ~ covers n a -> covers m a <-> exists m', m' ∈ fs ++ ms /\ covers m' a) ->
  loop_ok n (m :: l) ((front ++ fs) ++ (ms ++ rest)).
Proof.
  intros [H1 H2 H3] Hm Hp Hd Hc.
  assert ((front ++ fs) ++ ms ++ rest ≡ₚ (fs ++ ms) ++ (front ++ rest)) as Eperm by solve_Permutation.
  assert (forall x y, x ∈ fs ++ ms -> y ∈ front ++ rest -> apart x y) as Hxy.
  { intros x y Hx Hy. destruct (H1 y Hy) as (my & Hmy & []), (Hp x Hx).
    rewrite Forall_forall in Hm. apply (apart_inside my y); [done|]. apply apart_sym.
    apply (apart_inside m x); [done|]. apply apart_sym. by apply Hm. }
  constructor.
  - intros m'. rewrite Eperm, elem_of_app. intros [Hin|Hin].
    + exists m. split; [apply list_elem_of_here|]. by apply Hp.
    + destruct (H1 m' Hin) as (m0 & ? & ?). exists m0. split; [by apply list_elem_of_further|done].
  - unfold disjoint_list in *. destruct (ForallOrdPairs_app_inv _ _ _ H2) as (F1 & F2 & F3).
    destruct (ForallOrdPairs_app_inv _ _ _ Hd) as (G1 & G2 & G3).
    repeat apply ForallOrdPairs_app; try done.
    + intros x y Hx Hy. apply apart_sym. apply Hxy; rewrite elem_of_app; tauto.
    + intros x y Hx Hy. apply Hxy; rewrite elem_of_app; tauto.
    + intros x y. rewrite !elem_of_app. intros [Hx|Hx] [Hy|Hy].
      * apply apart_sym. apply Hxy; rewrite elem_of_app; tauto.
      * by apply F3.
      * by apply G3.
      * apply Hxy; rewrite elem_of_app; tauto.
  - intros v a Ha. rewrite covered_by_cons, (covered_by_permutation _ _ v a Eperm), covered_by_app.
    rewrite (H3 v a Ha), (Hc a Ha). split; (intros [Hx|Hx]; [left|by right]).
    + destruct Hx as [(m' & Hin & Hcm) <-]. exists m'. split; [done|]. split; [done|].
      by destruct (Hp m' Hin).
    + destruct Hx as (m' & Hin & Hcm & <-). split; [by exists m'|]. symmetry. by destruct (Hp m' Hin).
Qed.

Lemma overlapLoop_spec n l :
  wf_mapping n -> wf_mappings l -> erase_harmless n l ->
  exists front rest, overlapLoop n.(base) (newEndOf n) l = Ok (front, rest) /\
    loop_ok n l (front ++ rest).
Proof.
  intros Hn. remember (length l) as k eqn:Ek. assert (length l <= k)%nat as Hk by lia. clear Ek.
  revert l Hk. induction k as [|k IH]; intros l Hk [Hl Hs] He.
  { destruct l; [|cbn in Hk; lia]. exists [], []. split; [done|apply loop_ok_nil]. }
  destruct l as [|m l]. { exists [], []. split; [done|apply loop_ok_nil]. }
  cbn [length] in Hk. inversion Hl as [|? ? Hm Hl']; subst. inversion Hs as [|? ? Hs' Hbefore]; subst.
  destruct He as [Hin He]. pose proof (overlap_spec n m Hn Hm) as Hstep. cbn [overlapLoop].
  assert (Forall (apart m) l) as Hapart by (eapply Forall_impl; [exact Hbefore|]; intros x Hx; by left).
  destruct (overlap (base n) (newEndOf n) m) as [m'|m' f|] eqn:Eo.
  - destruct Hstep as (Hp & _ & Hc).
    destruct (IH l ltac:(lia) (conj Hl' Hs') He) as (front & rest & -> & Hok).
    exists front, (m' :: rest). split; [done|].
    rewrite <-(app_nil_r front). apply (loop_ok_cons n m l front rest [m'] []); try done.
    + by intros x ->%list_elem_of_singleton.
    + by repeat constructor.
    + intros a Ha. rewrite (Hc a Ha). cbn. split; [intros; exists m'; split; [apply list_elem_of_here|done]|].
      by intros (x & ->%list_elem_of_singleton & ?).
  - destruct Hstep as (Hp & Hpf & Hb & _ & Hc).
    destruct (IH l ltac:(lia) (conj Hl' Hs') He) as (front & rest & -> & Hok).
    exists (front ++ [f]), (m' :: rest). split; [done|].
    apply (loop_ok_cons n m l front rest [m'] [f]); try done.
    + intros x. cbn. rewrite !elem_of_cons, elem_of_nil. by intros [->|[->|[]]].
    + constructor; [|repeat constructor]. apply Forall_singleton. by right.
    + intros a Ha. rewrite (Hc a Ha). cbn. split.
      * intros [?|?]; [exists m'|exists f]; (split; [|done]); rewrite !elem_of_cons; [by right; left|by left].
      * intros (x & Hx & ?). rewrite !elem_of_cons, elem_of_nil in Hx.
        destruct Hx as [->|[->|[]]]; tauto.
  - destruct l as [|sk l]; [by destruct (Hin Hstep)|]. specialize (Hin Hstep). cbn beta iota in Hin.
    inversion Hl' as [|? ? Hsk Hl'']; subst. inversion Hs' as [|? ? Hs'' Hsb]; subst.
    destruct He as [_ He].
    destruct (IH l ltac:(cbn in Hk; lia) (conj Hl'' Hs'') He) as (front & rest & -> & Hok).
    exists front, (sk :: rest). split; [done|].
    assert (loop_ok n (sk :: l) (front ++ sk :: rest)) as Hok1.
    { rewrite <-(app_nil_r front). apply (loop_ok_cons n sk l front rest [sk] []); try done.
      - eapply Forall_impl; [exact Hsb|]. intros x Hx; by left.
      - intros x ->%list_elem_of_singleton. apply piece_self; [done|]. by right.
      - by repeat constructor.
      - intros a Ha. cbn. split; [intros; exists sk; split; [apply list_elem_of_here|done]|].
        by intros (x & ->%list_elem_of_singleton & ?). }
    pose proof (loop_ok_cons n m (sk :: l) front (sk :: rest) [] []) as Hcons.
    rewrite (app_nil_r front) in Hcons. apply Hcons; try done.
    + by intros x ?%not_elem_of_nil.
    + constructor.
    + intros a Ha. split; [|by intros (x & ?%not_elem_of_nil & ?)].
      unfold step_ok, inside, covers in *. lia.
Qed.

(** ** The sort *)

Lemma insertMapping_permutation m l : insertMapping m l ≡ₚ m :: l.
Proof.
  induction l as [|x l IH]; [done|]. cbn. destruct (base x <? base m); [|reflexivity].
  rewrite IH. apply Permutation_swap.
Qed.

Lemma sortMappings_permutation l : sortMappings l ≡ₚ l.
Proof. induction l as [|m l IH]; [done|]. cbn. by rewrite insertMapping_permutation, IH. Qed.

Lemma insertMapping_sorted m l :
  Forall (fun x => 0 < size x) (m :: l) -> StronglySorted before l -> Forall (apart m) l ->
  StronglySorted before (insertMapping m l).
Proof.
  intros Hpos Hs Ha. induction Hs as [|x l Hs IH Hx]; cbn; [by repeat constructor|].
  inversion Hpos as [|? ? Hm Hpos']; subst. inversion Hpos' as [|? ? Hx' Hpos'']; subst.
  inversion Ha as [|? ? Hmx Ha']; subst.
  destruct (Z.ltb_spec (base x) (base m)) as [Hlt|Hge].
  - constructor; [apply IH; [by constructor|done]|].
    rewrite insertMapping_permutation. constructor; [|done]. unfold apart, before in *. lia.
  - assert (before m x) as Hb by (unfold apart, before in *; lia).
    constructor; [by constructor|]. constructor; [done|].
    eapply Forall_impl; [exact Hx|]. intros y Hy. unfold before in *. lia.
Qed.

Lemma sortMappings_wf l : Forall wf_mapping l -> disjoint_list l -> wf_mappings (sortMappings l).
Proof.
  intros Hl Hd. split; [by rewrite sortMappings_permutation|].
  induction Hd as [|m l Hm Hd IH]; cbn; [constructor|]. inversion Hl as [|? ? Hwm Hl']; subst.
  apply insertMapping_sorted.
  - constructor; [by destruct Hwm|]. rewrite sortMappings_permutation.
    eapply Forall_impl; [exact Hl'|]. by intros ? [].
  - by apply IH.
  - by rewrite sortMappings_permutation.
Qed.

(** ** The address map of a well-formed list *)

Lemma findMapping_wf l a : wf_mappings l -> forall v,
  address_map l a = Some v <-> covered_by l v a.
Proof.
  intros [Hl Hs] v. unfold address_map. induction Hs as [|m l Hs IH Hb]; cbn.
  { split; [done|]. by intros (? & ?%not_elem_of_nil & _). }
  inversion Hl as [|? ? Hm Hl']; subst. rewrite covered_by_cons.
  assert (u64 (base m + size m) = base m + size m) as -> by (apply wrap_id; destruct Hm; unfold uint; lia).
  rewrite Z.geb_leb.
  destruct (Z.leb_spec (base m) a), (Z.ltb_spec a (base m + size m)); cbn [andb].
  2-4: rewrite (IH Hl'); unfold covers; split; [by right|]; intros [[? _]|?]; [lia|done].
  split; [intros [= <-]; left; by split|]. intros [[_ <-]|(x & Hin & Hx & _)]; [done|].
  rewrite Forall_forall in Hb. specialize (Hb x Hin). unfold before, covers in *. lia.
Qed.

Definition update_map (n : MemoryMapping) (f : Z -> option (MemoryType.t * Permission)) (a : Z) :=
  if (n.(base) <=? a) && (a <? n.(base) + n.(size)) then Some (attributes n) else f a.


(** ** Exact results

    A new mapping inside of one old mapping splits it; one that begins in an old mapping
    and ends in the next cuts both. *)

Lemma StronglySorted_app_iff {A} (R : A -> A -> Prop) l1 l2 :
  StronglySorted R (l1 ++ l2) <->
  StronglySorted R l1 /\ StronglySorted R l2 /\ forall x y, x ∈ l1 -> y ∈ l2 -> R x y.
Proof.
  induction l1 as [|x l1 IH]; cbn.
  - split; [intros H; split; [constructor|split; [done|by intros ? ? ?%not_elem_of_nil]]|by intros (_ & ? & _)].
  - split.
    + intros H. apply StronglySorted_inv in H as [H Hx]. apply IH in H as (H1 & H2 & H3).
      apply Forall_app in Hx as [Hx1 Hx2]. split; [by constructor|]. split; [done|].
      intros y z [->|Hy]%elem_of_cons Hz; [|by apply H3]. rewrite Forall_forall in Hx2. by apply Hx2.
    + intros (H1 & H2 & H3). apply StronglySorted_inv in H1 as [H1 Hx]. constructor.
      * apply IH. split; [done|]. split; [done|]. intros y z Hy. apply H3. by apply list_elem_of_further.
      * apply Forall_app. split; [done|]. apply Forall_forall. intros z Hz. apply H3; [apply list_elem_of_here|done].
Qed.

Lemma sorted_disjoint l : StronglySorted before l -> disjoint_list l.
Proof.
  intros Hs. induction Hs as [|m l Hs IH Hm]; constructor; [|done].
  eapply Forall_impl; [exact Hm|]. intros x Hx. by left.
Qed.

Lemma disjoint_permutation l l' : l ≡ₚ l' -> disjoint_list l -> disjoint_list l'.
Proof.
  unfold disjoint_list. intros Hp. induction Hp as [|x l l' Hp IH|x y l|l1 l2 l3 _ IH1 _ IH2]; intros Hd; [done| | |auto].
  - inversion Hd; subst. constructor; [by rewrite <-Hp|auto].
  - inversion Hd as [|? ? Hy Hd1]; subst. inversion Hd1 as [|? ? Hx Hd2]; subst.
    apply Forall_cons in Hy as [Hyx Hy]. constructor; [|by constructor].
    constructor; [by apply apart_sym|done].
Qed.

Lemma sortMappings_unique l l' : wf_mappings l' -> l ≡ₚ l' -> sortMappings l = l'.
Proof.
  intros [Hl Hs] Hp. apply (StronglySorted_unique_strong before); try done.
  - intros x y Hx Hy Hxy Hyx. rewrite Forall_forall in Hl.
    rewrite sortMappings_permutation, Hp in Hx. destruct (Hl x Hx), (Hl y Hy). unfold before in *. lia.
  - apply sortMappings_wf; [by rewrite Hp|].
    apply (disjoint_permutation l'); [done|by apply sorted_disjoint].
  - by rewrite sortMappings_permutation.
Qed.

(** Mappings that take the place of others. *)
Lemma wf_mappings_splice l1 l2 old new :
  wf_mappings (l1 ++ old ++ l2) -> wf_mappings new ->
  (forall y, y ∈ new -> (exists x, x ∈ old /\ base x <= base y) /\
     exists x, x ∈ old /\ base y + size y <= base x + size x) ->
  wf_mappings (l1 ++ new ++ l2).
Proof.
  intros [Hw Hs] [Hn Hns] Hin.
  rewrite !Forall_app in Hw. destruct Hw as (W1 & _ & W2).
  apply StronglySorted_app_iff in Hs as (S1 & S2 & S3).
  apply StronglySorted_app_iff in S2 as (_ & S4 & S5).
  split; [by rewrite !Forall_app|].
  apply StronglySorted_app_iff. split; [done|]. split.
  - apply StronglySorted_app_iff. split; [done|]. split; [done|]. intros y z Hy Hz.
    destruct (Hin y Hy) as (_ & x & Hx & He). specialize (S5 x z Hx Hz). unfold before in *. lia.
  - intros z y Hz [Hy|Hy]%elem_of_app; [|apply S3; [done|by apply elem_of_app; right]].
    destruct (Hin y Hy) as ((x & Hx & Hb) & _).
    specialize (S3 z x Hz ltac:(by apply elem_of_app; left)). unfold before in *. lia.
Qed.

Lemma overlap_apart n m : wf_mapping n -> wf_mapping m -> apart m n ->
  overlap (base n) (newEndOf n) m = Keep m.
Proof.
  intros Hn Hm Ha. rewrite (newEndOf_eq n Hn). unfold overlap.
  assert (u64 (base m + size m - 1) = base m + size m - 1) as -> by exact (newEndOf_eq m Hm).
  destruct Hn as [N1 N2 N3 _ _], Hm as [M1 M2 M3 _ _]. unfold apart, before in Ha.
  repeat match goal with
  | |- context [?x <? ?y] => destruct (Z.ltb_spec x y)
  | |- context [?x <=? ?y] => destruct (Z.leb_spec x y)
  | |- context [?x >? ?y] => rewrite (Z.gtb_ltb x y)
  | |- context [?x >=? ?y] => rewrite (Z.geb_leb x y)
  end; cbn [andb]; try done; exfalso; lia.
Qed.

Lemma overlapLoop_apart n l l' : wf_mapping n -> Forall wf_mapping l -> Forall (fun m => apart m n) l ->
  overlapLoop (base n) (newEndOf n) (l ++ l') =
  ('(front, rest) ← overlapLoop (base n) (newEndOf n) l'; Ok (front, l ++ rest)).
Proof.
  intros Hn Hw Ha. induction l as [|m l IH]; cbn [app overlapLoop].
  { by destruct (overlapLoop _ _ l') as [[]|]. }
  apply Forall_cons in Hw as [Hm Hw]. apply Forall_cons in Ha as [Hma Ha].
  rewrite overlap_apart, IH by done. by destruct (overlapLoop _ _ l') as [[]|].
Qed.

Definition leftPart (n u : MemoryMapping) : list MemoryMapping :=
  if base n =? base u then [] else [set_size (base n - base u) u].
Definition rightPart (n u : MemoryMapping) : MemoryMapping :=
  mkMapping (base n + size n) (base u + size u - (base n + size n)) (type u) (permissions u).

(** The neighbours of a list that is in order. *)
Lemma wf_mappings_middle l1 mid l2 : wf_mappings (l1 ++ mid ++ l2) ->
  Forall wf_mapping l1 /\ wf_mappings mid /\ Forall wf_mapping l2 /\
  (forall x y, x ∈ l1 -> y ∈ mid -> before x y) /\ (forall x y, x ∈ mid -> y ∈ l2 -> before x y).
Proof.
  intros [Hw Hs]. rewrite !Forall_app in Hw. destruct Hw as (W1 & W2 & W3).
  apply StronglySorted_app_iff in Hs as (S1 & S2 & S3).
  apply StronglySorted_app_iff in S2 as (S4 & S5 & S6). split; [done|]. split; [by split|].
  split; [done|]. split; [|done]. intros x y Hx Hy. apply S3; [done|]. apply elem_of_app. by left.
Qed.

(** The loop over a list whose middle alone meets the new mapping. *)
Lemma mapRegion_middle l1 mid l2 n front rest new :
  wf_mapping n -> wf_mappings (l1 ++ mid ++ l2) ->
  Forall (fun m => apart m n) l1 -> Forall (fun m => apart m n) l2 ->
  overlapLoop (base n) (newEndOf n) (mid ++ l2) = Ok (front, rest ++ l2) ->
  n :: front ++ rest ≡ₚ new -> wf_mappings (l1 ++ new ++ l2) ->
  mapRegion (base n) (size n) (type n) (permissions n) (l1 ++ mid ++ l2) = Ok (l1 ++ new ++ l2).
Proof.
  intros Hn Hw A1 A2 E Hp Hwf. unfold mapRegion.
  change (u64 (base n + size n - 1)) with (newEndOf n).
  destruct (wf_mappings_middle _ _ _ Hw) as (W1 & _).
  rewrite overlapLoop_apart, E by done. cbn [mbind result_bind]. cbv zeta. f_equal.
  replace (mkMapping (base n) (size n) (type n) (permissions n)) with n by (by destruct n).
  apply sortMappings_unique; [done|]. rewrite <-Hp. solve_Permutation.
Qed.

Lemma overlapLoop_rest n l : wf_mapping n -> Forall wf_mapping l -> Forall (fun m => apart m n) l ->
  overlapLoop (base n) (newEndOf n) l = Ok ([], l).
Proof.
  intros Hn Hw Ha. rewrite <-(app_nil_r l) at 1. rewrite overlapLoop_apart by done. cbn.
  by rewrite app_nil_r.
Qed.

Lemma divide_gap x y : (PAGE_SIZE | x) -> (PAGE_SIZE | y) -> x < y -> x + 4096 <= y.
Proof. intros [p ->] [q ->]. change PAGE_SIZE with 4096. lia. Qed.

(** Splitting [overlap] into the cases that are possible. *)
Ltac overlap_cases :=
  repeat match goal with
  | |- context [?x <? ?y] => destruct (Z.ltb_spec x y)
  | |- context [?x <=? ?y] => destruct (Z.leb_spec x y)
  | |- context [?x =? ?y] => destruct (Z.eqb_spec x y)
  | |- context [?x >? ?y] => rewrite (Z.gtb_ltb x y)
  | |- context [?x >=? ?y] => rewrite (Z.geb_leb x y)
  end; cbn [andb]; try (exfalso; lia); try reflexivity.

(** The elements of a list that is given one by one. *)
Ltac each_element :=
  repeat match goal with
  | |- Forall _ [] => constructor
  | |- Forall _ (_ :: _) => constructor
  | |- StronglySorted _ [] => constructor
  | |- StronglySorted _ (_ :: _) => constructor
  end.

Section Exact.
Context (n : MemoryMapping) (Hn : wf_mapping n).

(** [n] begins inside of [t] and does not end in it. *)
Lemma overlap_tail t : wf_mapping t -> base t < base n <= base t + size t ->
  base t + size t <= base n + size n ->
  overlap (base n) (newEndOf n) t = Keep (set_size (base n - base t) t).
Proof using Hn.
  intros Ht H1 H2. rewrite (newEndOf_eq n Hn). unfold overlap.
  assert (u64 (base t + size t - 1) = base t + size t - 1) as -> by exact (newEndOf_eq t Ht).
  destruct Hn as [N1 N2 N3 N4 _], Ht as [M1 M2 M3 M4 M5].
  pose proof (divide_gap (base n) (base t + size t) N4 ltac:(by apply Z.divide_add_r)).
  assert (u64 (base n - base t) = base n - base t) as Hu by (apply wrap_id; unfold uint; lia).
  overlap_cases; rewrite ?Hu; try reflexivity.
  replace (base n - base t) with (size t) by lia. by destruct t.
Qed.

(** [n] ends inside of [r] and does not begin behind its base. *)
Lemma overlap_head r : wf_mapping r -> base n <= base r -> base r <= base n + size n < base r + size r ->
  overlap (base n) (newEndOf n) r = Keep (rightPart n r).
Proof using Hn.
  intros Hr H1 H2. rewrite (newEndOf_eq n Hn). unfold overlap, rightPart.
  assert (u64 (base r + size r - 1) = base r + size r - 1) as -> by exact (newEndOf_eq r Hr).
  destruct Hn as [N1 N2 N3 N4 N5], Hr as [M1 M2 M3 M4 M5].
  pose proof (divide_gap (base r) (base n + size n) M4 ltac:(by apply Z.divide_add_r)).
  pose proof (divide_gap (base n + size n) (base r + size r) ltac:(by apply Z.divide_add_r)
    ltac:(by apply Z.divide_add_r)).
  assert (u64 (base n + size n - 1 + 1) = base n + size n) as Hu
    by (replace (base n + size n - 1 + 1) with (base n + size n) by lia; apply wrap_id; unfold uint; lia).
  assert (u64 (base r + size r - 1 - (base n + size n) + 1) = base r + size r - (base n + size n)) as Hu2
    by (replace (base r + size r - 1 - (base n + size n) + 1) with (base r + size r - (base n + size n))
          by lia; apply wrap_id; unfold uint; lia).
  overlap_cases; unfold set_base, set_size; cbn [base size type permissions]; rewrite ?Hu, ?Hu2; try reflexivity.
  replace (base n + size n) with (base r) by lia. replace (base r + size r - base r) with (size r) by lia.
  by destruct r.
Qed.

Lemma overlap_inside u : wf_mapping u -> base u < base n -> base n + size n < base u + size u ->
  overlap (base n) (newEndOf n) u = Split (set_size (base n - base u) u) (rightPart n u).
Proof using Hn.
  intros Hu H1 H2. rewrite (newEndOf_eq n Hn). unfold overlap, rightPart.
  assert (u64 (base u + size u - 1) = base u + size u - 1) as -> by exact (newEndOf_eq u Hu).
  destruct Hn as [N1 N2 N3 N4 N5], Hu as [M1 M2 M3 M4 M5].
  assert (u64 (base n + size n - 1 + 1) = base n + size n) as Hv
    by (replace (base n + size n - 1 + 1) with (base n + size n) by lia; apply wrap_id; unfold uint; lia).
  assert (u64 (base n - base u) = base n - base u) as Hv1 by (apply wrap_id; unfold uint; lia).
  assert (u64 (base u + size u - 1 - (base n + size n - 1)) = base u + size u - (base n + size n)) as Hv2
    by (replace (base u + size u - 1 - (base n + size n - 1)) with (base u + size u - (base n + size n))
          by lia; apply wrap_id; unfold uint; lia).
  overlap_cases. by rewrite Hv, Hv1, Hv2.
Qed.

Lemma apart_outside l1 mid l2 lo hi : wf_mappings (l1 ++ mid ++ l2) -> lo ∈ mid -> hi ∈ mid ->
  base lo <= base n -> base n + size n <= base hi + size hi ->
  Forall (fun m => apart m n) l1 /\ Forall (fun m => apart m n) l2.
Proof using.
  intros Hw Hlo Hhi H1 H2. destruct (wf_mappings_middle _ _ _ Hw) as (_ & _ & _ & B1 & B2).
  split; apply Forall_forall; intros x Hx.
  - specialize (B1 x lo Hx Hlo). left. unfold before in *. lia.
  - specialize (B2 hi x Hhi Hx). right. unfold before in *. lia.
Qed.

Lemma rightPart_wf u : wf_mapping u -> base n + size n < base u + size u -> wf_mapping (rightPart n u).
Proof using Hn.
  intros [M1 M2 M3 M4 M5] H1. destruct Hn as [N1 N2 N3 N4 N5].
  apply wf_mapping_intro; try lia; repeat first [apply Z.divide_sub_r | apply Z.divide_add_r]; done.
Qed.

Lemma cut_wf u : wf_mapping u -> base u < base n -> wf_mapping (set_size (base n - base u) u).
Proof using Hn.
  intros [M1 M2 M3 M4 M5] H1. destruct Hn as [N1 N2 N3 N4 N5]. unfold set_size.
  apply wf_mapping_intro; try lia; try done. by apply Z.divide_sub_r.
Qed.

(** Inside of one mapping. *)
Lemma mapRegion_in_hole l1 u l2 :
  wf_mappings (l1 ++ [u] ++ l2) -> base u <= base n -> base n + size n < base u + size u ->
  mapRegion (base n) (size n) (type n) (permissions n) (l1 ++ [u] ++ l2) =
    Ok (l1 ++ (leftPart n u ++ [n; rightPart n u]) ++ l2) /\
  wf_mappings (l1 ++ (leftPart n u ++ [n; rightPart n u]) ++ l2).
Proof using Hn.
  intros Hw H1 H2. destruct (wf_mappings_middle _ _ _ Hw) as (_ & [Wu _] & W2 & _).
  apply Forall_inv in Wu. pose proof Hn as [_ Hs _ _ _].
  destruct (apart_outside l1 [u] l2 u u Hw (list_elem_of_here _ _) (list_elem_of_here _ _) H1 ltac:(lia))
    as [A1 A2].
  pose proof (rightPart_wf u Wu H2) as Hr.
  assert (wf_mappings (l1 ++ (leftPart n u ++ [n; rightPart n u]) ++ l2)) as Hwf.
  { apply (wf_mappings_splice _ _ [u]); [done| |].
    - unfold leftPart. destruct (Z.eqb_spec (base n) (base u)); split; cbn [app];
        each_element; try done; try (apply cut_wf; [done|lia]); unfold before, rightPart, set_size; cbn; lia.
    - intros y Hy. split; exists u; (split; [apply list_elem_of_here|]); revert Hy; unfold leftPart;
        destruct (Z.eqb_spec (base n) (base u)); cbn [app]; rewrite !elem_of_cons, elem_of_nil;
        unfold rightPart, set_size; intros Hy; destruct_or?; subst; cbn; try done; lia. }
  split; [|done]. unfold leftPart in *. destruct (Z.eqb_spec (base n) (base u)) as [He|Hne].
  - apply (mapRegion_middle l1 [u] l2 n [] [rightPart n u]); try done.
    cbn [app overlapLoop]. rewrite overlap_head by (done || lia). by rewrite overlapLoop_rest.
  - apply (mapRegion_middle l1 [u] l2 n [rightPart n u] [set_size (base n - base u) u]); try done.
    + cbn [app overlapLoop]. rewrite overlap_inside by (done || lia). by rewrite overlapLoop_rest.
    + cbn [app]. solve_Permutation.
Qed.

(** Across the boundary of two, or from it on. *)
Lemma mapRegion_at_boundary l1 t r l2 :
  wf_mappings (l1 ++ [t; r] ++ l2) -> base t < base n <= base r -> base t + size t = base r ->
  base r <= base n + size n < base r + size r ->
  mapRegion (base n) (size n) (type n) (permissions n) (l1 ++ [t; r] ++ l2) =
    Ok (l1 ++ [set_size (base n - base t) t; n; rightPart n r] ++ l2) /\
  wf_mappings (l1 ++ [set_size (base n - base t) t; n; rightPart n r] ++ l2).
Proof using Hn.
  intros Hw H1 H2 H3. destruct (wf_mappings_middle _ _ _ Hw) as (_ & [Wtr _] & W2 & _).
  apply Forall_cons in Wtr as [Wt Wr%Forall_inv]. pose proof Hn as [_ Hs _ _ _].
  destruct (apart_outside l1 [t; r] l2 t r Hw (list_elem_of_here _ _)
    ltac:(right; left) ltac:(lia) ltac:(lia)) as [A1 A2].
  assert (wf_mappings (l1 ++ [set_size (base n - base t) t; n; rightPart n r] ++ l2)) as Hwf.
  { apply (wf_mappings_splice _ _ [t; r]); [done| |].
    - split; each_element; try done; try (apply cut_wf; [done|lia]);
        try (apply rightPart_wf; [done|lia]); unfold before, rightPart, set_size; cbn; lia.
    - intros y Hy. rewrite !elem_of_cons, elem_of_nil in Hy.
      split; [exists t; split; [left|]|exists r; split; [right; left|]];
        unfold rightPart, set_size in Hy; destruct_or?; subst; cbn; try done; lia. }
  split; [|done].
  apply (mapRegion_middle l1 [t; r] l2 n [] [set_size (base n - base t) t; rightPart n r]); try done.
  - cbn [app overlapLoop]. rewrite overlap_tail by (done || lia). rewrite overlap_head by (done || lia).
    by rewrite overlapLoop_rest.
  - cbn [app]. solve_Permutation.
Qed.
End Exact.

(** ** At the mappings of the program *)

(** What [launchGameCart] maps first: the whole address space, unmapped. *)
Definition unmapped_space : MemoryMapping := mkMapping 0 (Z.shiftl 1 36) MemoryType.UNMAPPED NONE.
(** The heap [svcSetHeapSize] maps. *)
Definition heap_mapping (size : Z) : MemoryMapping :=
  mkMapping 0xaa0000000 size MemoryType.HEAP READ_WRITE.

Lemma heap_mapping_wf k : 0 < k <= 0x80000 -> wf_mapping (heap_mapping (4096 * k)).
Proof.
  intros Hk. constructor; cbn [base size heap_mapping]; try lia.
  - by exists 0xaa0000.
  - apply Z.divide_factor_l.
Qed.

Lemma unmapped_space_wf : wf_mappings [unmapped_space].
Proof.
  split; [|by repeat constructor]. apply Forall_singleton.
  change unmapped_space with (mkMapping (4096 * 0) (4096 * 0x1000000) MemoryType.UNMAPPED NONE).
  apply wf_mapping_intro; try lia; apply Z.divide_factor_l.
Qed.


(** Where the loop does erase a mapping with an overlapping successor, the new mapping
    overlaps an old one: a program that enlarges its heap leaves two mappings over the
    added part.  Where it erases the last mapping, it goes on past the end of the list:
    launching twice without anything mapped in between. *)
Theorem addMapping_erase_hazard :
  (exists l l', mapRegion 0xaa0000000 0x1000000 MemoryType.HEAP READ_WRITE [unmapped_space] = Ok l /\
     mapRegion 0xaa0000000 0x2000000 MemoryType.HEAP READ_WRITE l = Ok l' /\
     exists m m', m ∈ l' /\ m' ∈ l' /\ attributes m <> attributes m' /\
       covers m 0xaa1000000 /\ covers m' 0xaa1000000) /\
  mapRegion 0 (Z.shiftl 1 36) MemoryType.UNMAPPED NONE [unmapped_space] = Err Undefined.
Proof.
  split; [|vm_compute; reflexivity].
  eexists _, _. split; [vm_compute; reflexivity|]. split; [vm_compute; reflexivity|].
  exists (heap_mapping 0x2000000), (mkMapping 0xaa1000000 0x55f000000 MemoryType.UNMAPPED NONE).
  rewrite !elem_of_cons. split; [tauto|]. split; [tauto|].
  unfold covers. cbn. split; [done|]. lia.
Qed.
