(* ===== verification/Alarm.v ===== *)
(** * Alarms and the clock thread: [alarm.cpp], [clock.cpp], and [sleepThread] of
    [scheduler.cpp]

    The alarms live in a [std::vector]: an alarm is addressed by its position, and a
    [push_back] into a full vector moves every alarm to new storage, with the move
    constructor and then the destructor of the class.  Each alarm's mutex is held
    inside one operation only, and the clock's lock inside one round; neither is
    taken twice by one host thread, so they are left out. *)
From S2P Require Import Prelude BitUtils Instructions Core Machine HandleManager MemoryMapper.
From S2P Require Import Thread KernelState Scheduler.

Definition set_hasTriggered b (a : Alarm) : Alarm :=
  mkAlarm (triggerTime a) b (alarmWaitingThreads a).
Definition set_alarmWaitingThreads l (a : Alarm) : Alarm :=
  mkAlarm (triggerTime a) (hasTriggered a) l.

(** [Alarm(uint64_t)] and [Alarm(const Alarm&&)], which copies the trigger time only. *)
Definition newAlarm (triggerTime_ : Z) : Alarm := mkAlarm triggerTime_ false [].
Definition movedAlarm (other : Alarm) : Alarm := newAlarm (triggerTime other).

Section Alarm.
Context {Mem : Type}.

Definition alarm_at (i : nat) : K Mem Alarm :=
  k ← getK; at_index (Z.of_nat i) (alarms (gAlarms k)).

Definition setAlarm (i : nat) (a : Alarm) : K Mem unit :=
  modK (fun k => set_gAlarms
    (mkAlarmVector (<[i := a]> (alarms (gAlarms k))) (capacity (gAlarms k))) k).

(** [Alarm::update] *)
Definition Alarm_update (i : nat) (time : Z) : K Mem bool :=
  a ← alarm_at i;
  if (time >=? triggerTime a) && negb (hasTriggered a) then
    setAlarm i (set_hasTriggered true a);;
    queueAll (alarmWaitingThreads a);;
    setAlarm i (set_alarmWaitingThreads [] (set_hasTriggered true a));;
    (sendInterruptsTo 0 GENERIC_INTERRUPT : K Mem unit);;
    mret true
  else mret (hasTriggered a).

(** [Alarm::wait] *)
Definition Alarm_wait (i : nat) (handle : Z) : K Mem unit :=
  a ← alarm_at i;
  (if hasTriggered a then queueThreadNoLock handle
   else
     setAlarm i (set_alarmWaitingThreads (alarmWaitingThreads a ++ [handle]) a);;
     p ← getThread handle;
     (updateThread p wait : K Mem unit));;
  sendInterruptsTo 0 GENERIC_INTERRUPT.

(** [Alarm::~Alarm] *)
Definition destroyAlarm (a : Alarm) : K Mem unit := queueAll (alarmWaitingThreads a).

Fixpoint destroyAlarms (l : list Alarm) : K Mem unit :=
  match l with
  | [] => mret tt
  | a :: l => destroyAlarm a;; destroyAlarms l
  end.

(** [createAlarm]: the position of the new alarm is the reference it returns. *)
Definition createAlarm `{HostEnv} (time : Z) : K Mem nat :=
  k ← getK;
  let old := alarms (gAlarms k) in
  (if Nat.ltb (length old) (capacity (gAlarms k)) then
     modK (fun k => set_gAlarms (mkAlarmVector (old ++ [newAlarm time]) (capacity (gAlarms k))) k)
   else
     (modK (fun k => set_gAlarms (mkAlarmVector (map movedAlarm old ++ [newAlarm time])
        (grownCapacity (length old))) k) : K Mem unit);;
     destroyAlarms old);;
  mret (length old).

(** The loop of [updateAlarms]. *)
Fixpoint updateLoop (now : Z) (l : list nat) : K Mem unit :=
  match l with
  | [] => mret tt
  | i :: l => _ ← Alarm_update i now; updateLoop now l
  end.

Definition updateAlarms `{HostEnv} : K Mem bool :=
  now ← (getTimeInNanoseconds : K Mem Z);
  k ← getK;
  updateLoop now (seq 0 (length (alarms (gAlarms k))));;
  mret true.

(** [kernel::scheduler::sleepThread] *)
Definition sleepThread `{HostEnv} (nano : Z) : K Mem unit :=
  now ← (getTimeInNanoseconds : K Mem Z);
  alarm ← createAlarm (u64 (now + nano));
  handle ← getCurrentHandle;
  Alarm_wait alarm handle.

(** ** [clock.cpp] *)

Definition clock_init : K Mem unit := modK (set_gCallbacks []).
Definition addCallback (func : ClockCallbackFunc) : K Mem unit :=
  modK (fun k => set_gCallbacks (gCallbacks k ++ [func]) k).

(** [alarm::init] *)
Definition alarm_init : K Mem unit := addCallback updateAlarmsCallback.

Definition runCallback `{HostEnv} (func : ClockCallbackFunc) : K Mem bool :=
  match func with updateAlarmsCallback => updateAlarms end.

(** One round of [workLoop]: the callbacks that stay. *)
Fixpoint callbackLoop `{HostEnv} (l : list ClockCallbackFunc) : K Mem (list ClockCallbackFunc) :=
  match l with
  | [] => mret []
  | callback :: l =>
      shouldContinue ← runCallback callback;
      rest ← callbackLoop l;
      mret (if (shouldContinue : bool) then callback :: rest else rest)
  end.

Definition clockRound `{HostEnv} : K Mem unit :=
  k ← getK;
  rest ← callbackLoop (gCallbacks k);
  modK (set_gCallbacks rest).
End Alarm.
