(* ===== verification/AlarmSpec.v ===== *)
(** * Sleeping and waking: what the alarms do to the threads

    [wakes W] is the effect of an operation on the scheduler: the threads of [W] become
    READY and join the lists of their cores, and nothing else changes.  The operations
    of the alarms are shown to have that effect for exactly the threads whose time has
    come, the growth of the alarm vector excepted. *)
From S2P Require Import Prelude BitUtils Instructions Core Machine HandleManager.
From S2P Require Import MemoryMapper Thread KernelState Scheduler KernelLemmas SchedulerSpec.
From S2P Require Import SchedulerInv SchedulerSafety Alarm.

(** A thread that sleeps, with a core of its own to come back to. *)
Definition waiter (k : KState) (h : Z) : Prop :=
  canonical h /\ statusOf k h = Some ThreadStatus.WAITING /\ core_id (affinityOf k h).

(** The interrupts pending on core [j], as seen from the running core. *)
Definition pendingOf (k : KState) (c : Core) (j : Z) : Z :=
  if j =? coreNum c then interrupts c
  else from_option interrupts 0 (gCores (cpus k) !! Z.to_nat j).

Record wakes (W : list Z) (k : KState) (c : Core) (k' : KState) (c' : Core) : Prop := {
  wk_inv : sched_inv k -> sched_inv k';
  wk_status : forall h, canonical h ->
    statusOf k' h = if decide (h ∈ W) then Some ThreadStatus.READY else statusOf k h;
  wk_affinity : forall h, canonical h -> affinityOf k' h = affinityOf k h;
  wk_list : forall i, core_id i ->
    listOf k' i = listOf k i ++ filter (fun h => affinityOf k h = i) W;
  wk_current : forall i, currentOf k' i = currentOf k i;
  wk_lock : gSchedulerLock (sched k') = gSchedulerLock (sched k);
  wk_coreNum : coreNum c' = coreNum c;
  wk_registers : same_registers c' c;
  wk_cores : length (gCores (cpus k')) = length (gCores (cpus k));
}.

Lemma same_registers_refl c : same_registers c c.
Proof. by repeat split. Qed.

Lemma same_registers_trans c1 c2 c3 :
  same_registers c1 c2 -> same_registers c2 c3 -> same_registers c1 c3.
Proof.
  intros (G & ? & ? & ? & ? & ?) (G' & ? & ? & ? & ? & ?).
  split; [intros r Hr; by rewrite G, G'|]. repeat split; congruence.
Qed.

Lemma wakes_refl k c : wakes [] k c k c.
Proof.
  constructor; try done. intros i _. cbn. by rewrite app_nil_r.
Qed.

(** Only the threads of [k] and its lists count. *)
Lemma sched_inv_congr k k' :
  handles k' = handles k -> heap k' = heap k -> sched k' = sched k -> sched_inv k -> sched_inv k'.
Proof.
  destruct k, k'. cbn. intros -> -> -> [[[O1 O2 O3 O4] H2 H3 H4 H5] I1 I2 I3 I4].
  constructor; [constructor; [by constructor|..]|..]; assumption.
Qed.

Lemma wakes_silent k k' c c' :
  handles k' = handles k -> heap k' = heap k -> sched k' = sched k ->
  coreNum c' = coreNum c -> same_registers c' c ->
  length (gCores (cpus k')) = length (gCores (cpus k)) -> wakes [] k c k' c'.
Proof.
  intros E1 E2 E3 H4 H5 H6.
  assert (forall h, threadOf k' h = threadOf k h) as Ht
    by (intros h; unfold threadOf, objectOf; by rewrite E1, E2).
  constructor; try done.
  - by apply sched_inv_congr.
  - intros h _. unfold statusOf. by rewrite Ht.
  - intros h _. unfold affinityOf. by rewrite Ht.
  - intros i _. unfold listOf. rewrite E3. cbn. by rewrite app_nil_r.
  - intros i. unfold currentOf. by rewrite E3.
  - by rewrite E3.
Qed.

Lemma filter_ext_in {A} (P Q : A -> Prop) `{!forall x, Decision (P x)} `{!forall x, Decision (Q x)} (l : list A) :
  (forall x, x ∈ l -> P x <-> Q x) -> filter P l = filter Q l.
Proof.
  induction l as [|x l IH]; intros Hl; [done|]. rewrite !filter_cons.
  rewrite IH by (intros; by apply Hl, list_elem_of_further).
  pose proof (Hl x (list_elem_of_here _ _)) as Hx.
  destruct (decide (P x)), (decide (Q x)); tauto.
Qed.

Lemma wakes_trans W1 W2 k c k1 c1 k2 c2 :
  (forall h, h ∈ W2 -> canonical h) ->
  wakes W1 k c k1 c1 -> wakes W2 k1 c1 k2 c2 -> wakes (W1 ++ W2) k c k2 c2.
Proof.
  intros HW [A1 A2 A3 A4 A5 A6 A7 A8 A9] [B1 B2 B3 B4 B5 B6 B7 B8 B9]. constructor; try congruence.
  - auto.
  - intros h Hh. rewrite B2, A2 by done.
    destruct (decide (h ∈ W2)) as [H2|H2]; [rewrite decide_True; [done|apply elem_of_app; tauto]|].
    destruct (decide (h ∈ W1)) as [H1|H1]; [rewrite decide_True; [done|apply elem_of_app; tauto]|].
    rewrite decide_False; [done|]. rewrite elem_of_app. tauto.
  - intros h Hh. by rewrite B3, A3.
  - intros i Hi. rewrite B4, A4, filter_app, app_assoc by done. f_equal.
    apply filter_ext_in. intros h Hh. by rewrite A3 by auto.
  - by apply (same_registers_trans _ c1).
Qed.

(** ** Queueing *)

Definition queueAllK (l : list Z) (k : KState) : KState := foldl (fun k h => queueK h k) k l.

Lemma statusOf_thread k h v : statusOf k h = Some v -> exists a t, threadOf k h = Some (a, t) /\ status t = v.
Proof.
  unfold statusOf. destruct (threadOf k h) as [[a t]|]; [|done]. cbn. intros [= <-]. by exists a, t.
Qed.

Lemma waiter_thread k h : waiter k h -> exists a t, threadOf k h = Some (a, t) /\
  status t = ThreadStatus.WAITING /\ core_id (affinityIndex t) /\ canonical h.
Proof.
  intros (Hc & Hs & Ha). destruct (statusOf_thread k h _ Hs) as (a & t & Ht & Et).
  exists a, t. split; [done|]. split; [done|]. split; [|done]. unfold affinityOf in Ha. by rewrite Ht in Ha.
Qed.

Lemma queueK_rest h k : gAlarms (queueK h k) = gAlarms k /\ cpus (queueK h k) = cpus k.
Proof. unfold queueK, modT. by destruct (threadOf _ h) as [[]|]. Qed.

Lemma queueAllK_rest l k : gAlarms (queueAllK l k) = gAlarms k /\ cpus (queueAllK l k) = cpus k.
Proof.
  revert k. induction l as [|h l IH]; intros k; [done|].
  destruct (IH (queueK h k)) as [E1 E2], (queueK_rest h k) as [E3 E4].
  change (queueAllK (h :: l) k) with (queueAllK l (queueK h k)). split; congruence.
Qed.

Section Effects.
Context {Mem : Type} (m : Mem) (timer : Z).
Abbreviation St := (St m timer).

Lemma run_queue_waiter k c h : sched_inv k -> waiter k h ->
  queueThreadNoLock h (St k c) = Ok (tt, St (queueK h k) c) /\ wakes [h] k c (queueK h k) c.
Proof.
  intros Hk Hh. destruct (waiter_thread k h Hh) as (a & t & Ht & Et & Ha & Hc).
  pose proof (si_wf k Hk) as Hw. split.
  - apply (run_queue m timer k c h a t); try done; apply Hw.
  - constructor; try done.
    + intros _. apply (queueK_inv k Hk h a t); try done. congruence.
    + intros h' Hh'. rewrite (queueK_statusOf k Hw h a t) by done.
      destruct (decide (h' = h)) as [->|Hne].
      * by rewrite decide_True by apply list_elem_of_here.
      * by rewrite decide_False by (by intros ?%list_elem_of_singleton).
    + intros h' Hh'. by apply (queueK_affinityOf k Hw h a t).
    + intros i Hi. rewrite (queueK_listOf k Hw h a t) by done.
      rewrite filter_cons, filter_nil.
      pose proof (affinityOf_thread k h a t Ht) as Eh.
      destruct (decide (i = affinityIndex t)) as [Ei|Ei].
      * by rewrite decide_True by congruence.
      * rewrite decide_False by congruence. by rewrite app_nil_r.
    + intros i. apply queueK_currentOf.
    + apply queueK_lock.
    + by rewrite (proj2 (queueK_rest h k)).
Qed.

(** A sleeper is still one after others were woken. *)
Lemma wakes_waiter W k c k' c' h : wakes W k c k' c' -> waiter k h -> h ∉ W -> waiter k' h.
Proof.
  intros Hw (Hc & Hs & Ha) Hn. split; [done|]. rewrite (wk_status _ _ _ _ _ Hw) by done.
  rewrite (wk_affinity _ _ _ _ _ Hw) by done. by rewrite decide_False.
Qed.

Lemma run_queueAll l k c : sched_inv k -> Forall (waiter k) l -> NoDup l ->
  queueAll l (St k c) = Ok (tt, St (queueAllK l k) c) /\ wakes l k c (queueAllK l k) c.
Proof.
  revert k. induction l as [|h l IH]; intros k Hk Hl Hnd; [split; [done|apply wakes_refl]|].
  inversion Hl as [|? ? Hh Hl']; subst. inversion Hnd as [|? ? Hni Hnd']; subst.
  destruct (run_queue_waiter k c h Hk Hh) as (E & Hw).
  destruct (IH (queueK h k)) as (E' & Hw'); [by apply (wk_inv _ _ _ _ _ Hw)| |done|].
  - apply Forall_forall. intros x Hx. rewrite Forall_forall in Hl'.
    apply (wakes_waiter _ _ _ _ _ _ Hw); [by apply Hl'|]. by intros ->%list_elem_of_singleton.
  - cbn [queueAll]. split; [by run E|].
    apply (wakes_trans [h] l _ _ (queueK h k) c); try done.
    intros x Hx. rewrite Forall_forall in Hl'. by apply Hl'.
Qed.

(** ** Interrupts *)

Lemma run_sendInterrupts k c j v : length (gCores (cpus k)) = 4%nat -> core_id j ->
  exists k' c', sendInterruptsTo j v (St k c) = Ok (tt, St k' c') /\ wakes [] k c k' c' /\
    gAlarms k' = gAlarms k /\ pendingOf k' c' j = Z.lor (pendingOf k c j) v.
Proof.
  intros Hl Hj. unfold sendInterruptsTo. cbn [core SchedulerSpec.St]. unfold pendingOf.
  destruct (Z.eqb_spec j (coreNum c)) as [->|Hne].
  - exists k, (sendInterrupts v c). split; [done|]. split; [by apply wakes_silent|].
    split; [done|]. by rewrite Z.eqb_refl.
  - destruct (lookup_lt_is_Some_2 (gCores (cpus k)) (Z.to_nat j)) as [x Hx]; [unfold core_id in Hj; lia|].
    eexists _, c. split; [run (at_index_eq j _ x (St k c) (proj1 Hj) Hx); reflexivity|].
    split; [apply wakes_silent; try done; cbn; by rewrite length_insert|].
    split; [done|]. rewrite (proj2 (Z.eqb_neq j (coreNum c)) Hne), Hx. cbn.
    rewrite list_lookup_insert_eq; [done|]. unfold core_id in Hj. cbn. lia.
Qed.
End Effects.

(** ** The alarms *)

Definition sleepers (k : KState) : list Z :=
  concat (map alarmWaitingThreads (alarms (gAlarms k))).

Record alarm_inv (k : KState) : Prop := {
  ai_waiters : Forall (waiter k) (sleepers k);
  ai_nodup : NoDup (sleepers k);
  ai_triggered : forall a, a ∈ alarms (gAlarms k) -> hasTriggered a = true ->
    alarmWaitingThreads a = [];
}.

Definition due (now : Z) (a : Alarm) : bool := (triggerTime a <=? now) && negb (hasTriggered a).
Definition fired (now : Z) (a : Alarm) : Alarm :=
  if due now a then mkAlarm (triggerTime a) true [] else a.
(** The threads that an update at [now] wakes. *)
Definition woken (now : Z) (l : list Alarm) : list Z :=
  concat (map (fun a => if due now a then alarmWaitingThreads a else []) l).

Lemma elem_of_woken now l h :
  h ∈ woken now l <-> exists a, a ∈ l /\ due now a = true /\ h ∈ alarmWaitingThreads a.
Proof.
  unfold woken. induction l as [|a l IH]; cbn.
  - split; [by intros ?%not_elem_of_nil|]. by intros (? & ?%not_elem_of_nil & _).
  - rewrite elem_of_app, IH. setoid_rewrite elem_of_cons. destruct (due now a) eqn:Ed; split.
    + intros [Hh|(x & ? & ? & ?)]; [exists a|exists x]; tauto.
    + intros (x & [->|?] & ? & ?); [by left|right; by exists x].
    + intros [?%not_elem_of_nil|(x & ? & ? & ?)]; [done|exists x; tauto].
    + intros (x & [->|?] & ? & ?); [congruence|right; by exists x].
Qed.

Lemma elem_of_sleepers k h :
  h ∈ sleepers k <-> exists a, a ∈ alarms (gAlarms k) /\ h ∈ alarmWaitingThreads a.
Proof.
  unfold sleepers. induction (alarms (gAlarms k)) as [|a l IH]; cbn.
  - split; [by intros ?%not_elem_of_nil|]. by intros (? & ?%not_elem_of_nil & _).
  - rewrite elem_of_app, IH. setoid_rewrite elem_of_cons. naive_solver.
Qed.

Section Alarms.
Context {Mem : Type} (m : Mem) (timer : Z).
Abbreviation St := (St m timer).

Lemma run_alarm_at k c pre a post : alarms (gAlarms k) = pre ++ a :: post ->
  alarm_at (length pre) (St k c) = Ok (a, St k c).
Proof.
  intros E. unfold alarm_at. rewrite (bind_ok _ _ _ k (St k c)) by done.
  apply at_index_eq; [lia|]. rewrite Nat2Z.id, E. by rewrite list_lookup_middle.
Qed.

Lemma run_setAlarm k c pre a a' post : alarms (gAlarms k) = pre ++ a :: post ->
  exists k', setAlarm (length pre) a' (St k c) = Ok (tt, St k' c) /\ wakes [] k c k' c /\
    gAlarms k' = mkAlarmVector (pre ++ a' :: post) (capacity (gAlarms k)) /\ cpus k' = cpus k.
Proof.
  intros E. eexists. split; [reflexivity|]. split; [by apply wakes_silent|].
  cbn. rewrite E, insert_app_r_alt, Nat.sub_diag by lia. done.
Qed.

(** One alarm: it fires once, when its time has come. *)
Lemma run_update k c now pre a post :
  sched_inv k -> length (gCores (cpus k)) = 4%nat -> alarms (gAlarms k) = pre ++ a :: post ->
  Forall (waiter k) (alarmWaitingThreads a) -> NoDup (alarmWaitingThreads a) ->
  exists k' c',
    Alarm_update (length pre) now (St k c) = Ok (due now a || hasTriggered a, St k' c') /\
    wakes (if due now a then alarmWaitingThreads a else []) k c k' c' /\
    alarms (gAlarms k') = pre ++ fired now a :: post /\
    pendingOf k' c' 0 = Z.lor (pendingOf k c 0) (if due now a then GENERIC_INTERRUPT else 0).
Proof.
  intros Hk H4 E Hw Hnd. unfold Alarm_update. run (run_alarm_at k c pre a post E).
  rewrite Z.geb_leb. change ((triggerTime a <=? now) && negb (hasTriggered a)) with (due now a).
  unfold fired. destruct (due now a) eqn:Ed.
  2: { exists k, c. split; [done|]. split; [apply wakes_refl|]. by rewrite Z.lor_0_r. }
  destruct (run_setAlarm k c pre a (set_hasTriggered true a) post E) as (k1 & E1 & W1 & A1 & C1).
  run E1. set (l := alarmWaitingThreads a) in *.
  assert (sched_inv k1) as Hk1 by by apply (wk_inv _ _ _ _ _ W1).
  assert (Forall (waiter k1) l) as Hw1.
  { eapply Forall_impl; [exact Hw|]. intros h Hh. apply (wakes_waiter _ _ _ _ _ _ W1 Hh).
    apply not_elem_of_nil. }
  destruct (run_queueAll m timer l k1 c Hk1 Hw1 Hnd) as (E2 & W2).
  destruct (queueAllK_rest l k1) as [A2 C2]. run E2. set (k2 := queueAllK l k1) in *.
  assert (alarms (gAlarms k2) = pre ++ set_hasTriggered true a :: post) as A2' by by rewrite A2, A1.
  destruct (run_setAlarm k2 c pre _ (set_alarmWaitingThreads [] (set_hasTriggered true a)) post A2')
    as (k3 & E3 & W3 & A3 & C3). run E3.
  destruct (run_sendInterrupts m timer k3 c 0 GENERIC_INTERRUPT) as (k4 & c4 & E4 & W4 & A4 & P4);
    [by rewrite C3, C2, C1|unfold core_id; lia|].
  run E4. exists k4, c4. split; [done|].
  assert (forall h, h ∈ l -> canonical h) as Hcan by (rewrite Forall_forall in Hw; intros h Hh; by apply Hw).
  assert (forall h : Z, h ∈ @nil Z -> canonical h) as Hnil by by intros h ?%not_elem_of_nil.
  split; [|split].
  - rewrite <-(app_nil_r l). apply (wakes_trans _ _ _ _ k3 c); [done| |exact W4].
    rewrite <-(app_nil_r l). apply (wakes_trans _ _ _ _ k2 c); [done| |exact W3].
    exact (wakes_trans [] l _ _ k1 c k2 c Hcan W1 W2).
  - by rewrite A4, A3.
  - rewrite P4. f_equal. unfold pendingOf. by rewrite C3, C2, C1.
Qed.

Lemma any_due_lor now a l p :
  Z.lor (Z.lor p (if due now a then GENERIC_INTERRUPT else 0))
    (if existsb (due now) l then GENERIC_INTERRUPT else 0) =
  Z.lor p (if existsb (due now) (a :: l) then GENERIC_INTERRUPT else 0).
Proof.
  rewrite <-Z.lor_assoc. f_equal. cbn [existsb].
  destruct (due now a), (existsb (due now) l); reflexivity.
Qed.

Lemma run_updateLoop now l : forall pre k c,
  sched_inv k -> length (gCores (cpus k)) = 4%nat -> alarms (gAlarms k) = pre ++ l ->
  Forall (waiter k) (concat (map alarmWaitingThreads l)) ->
  NoDup (concat (map alarmWaitingThreads l)) ->
  exists k' c',
    updateLoop now (seq (length pre) (length l)) (St k c) = Ok (tt, St k' c') /\
    wakes (woken now l) k c k' c' /\
    alarms (gAlarms k') = pre ++ map (fired now) l /\
    pendingOf k' c' 0 = Z.lor (pendingOf k c 0)
      (if existsb (due now) l then GENERIC_INTERRUPT else 0).
Proof.
  induction l as [|a l IH]; intros pre k c Hk H4 E Hw Hnd; cbn [length seq updateLoop map concat].
  { exists k, c. split; [done|]. split; [apply wakes_refl|]. by rewrite E, Z.lor_0_r. }
  cbn [map concat] in Hw, Hnd. apply Forall_app in Hw as [Hwa Hwl].
  apply NoDup_app in Hnd as (Hna & Hdis & Hnl).
  destruct (run_update k c now pre a l Hk H4 E Hwa Hna) as (k1 & c1 & E1 & W1 & A1 & P1).
  assert (alarms (gAlarms k1) = (pre ++ [fired now a]) ++ l) as A1'
    by by rewrite A1, <-app_assoc.
  destruct (IH (pre ++ [fired now a]) k1 c1) as (k2 & c2 & E2 & W2 & A2 & P2).
  - by apply (wk_inv _ _ _ _ _ W1).
  - by rewrite (wk_cores _ _ _ _ _ W1).
  - exact A1'.
  - apply Forall_forall. intros h Hh. rewrite Forall_forall in Hwl.
    apply (wakes_waiter _ _ _ _ _ _ W1); [by apply Hwl|]. destruct (due now a); [|apply not_elem_of_nil].
    intros Hin. by apply (Hdis h).
  - done.
  - rewrite length_app, Nat.add_1_r in E2. exists k2, c2. split; [by run E1|].
    split; [|split].
    + apply (wakes_trans _ _ _ _ k1 c1); [|exact W1|exact W2].
      intros h (x & Hx & _ & Hin)%elem_of_woken. rewrite Forall_forall in Hwl.
      apply Hwl. clear -Hx Hin. induction l as [|y l IHl]; [by apply not_elem_of_nil in Hx|].
      cbn. apply elem_of_app. apply elem_of_cons in Hx as [->|Hx]; [by left|right; by apply IHl].
    + by rewrite A2, <-app_assoc.
    + by rewrite P2, P1, any_due_lor.
Qed.
End Alarms.

(** ** The theorems *)

Lemma sleepers_fired now (l : list Alarm) h :
  NoDup (concat (map alarmWaitingThreads l)) ->
  h ∈ concat (map alarmWaitingThreads (map (fired now) l)) <->
  h ∈ concat (map alarmWaitingThreads l) /\ h ∉ woken now l.
Proof.
  unfold woken. induction l as [|a l IH]; cbn.
  - intros _. split; [by intros ?%not_elem_of_nil|tauto].
  - intros (Hna & Hdis & Hnl)%NoDup_app. specialize (IH Hnl).
    assert (h ∈ concat (map (fun a => if due now a then alarmWaitingThreads a else []) l) ->
      h ∈ concat (map alarmWaitingThreads l)) as Hsub.
    { clear. induction l as [|b l IH]; cbn; [done|]. rewrite !elem_of_app.
      destruct (due now b); [tauto|]. intros [?%not_elem_of_nil|?]; [done|tauto]. }
    specialize (Hdis h). rewrite !elem_of_app, IH. unfold fired. destruct (due now a); cbn.
    + pose proof (not_elem_of_nil h). tauto.
    + pose proof (not_elem_of_nil h). tauto.
Qed.

Lemma NoDup_fired now (l : list Alarm) :
  NoDup (concat (map alarmWaitingThreads l)) ->
  NoDup (concat (map alarmWaitingThreads (map (fired now) l))).
Proof.
  induction l as [|a l IH]; cbn; [done|]. intros (Hna & Hdis & Hnl)%NoDup_app.
  apply NoDup_app. split; [unfold fired; destruct (due now a); [constructor|done]|].
  split; [|by apply IH]. intros h Ha Hin. apply (sleepers_fired now l h Hnl) in Hin as [Hin _].
  apply (Hdis h); [|done]. unfold fired in Ha. destruct (due now a); [by apply not_elem_of_nil in Ha|done].
Qed.

Lemma same_sleeper (l : list Alarm) a b h :
  NoDup (concat (map alarmWaitingThreads l)) -> a ∈ l -> b ∈ l ->
  h ∈ alarmWaitingThreads a -> h ∈ alarmWaitingThreads b -> a = b.
Proof.
  assert (forall x (l : list Alarm), x ∈ l -> h ∈ alarmWaitingThreads x ->
    h ∈ concat (map alarmWaitingThreads l)) as Hc.
  { intros x l' Hx Hh. induction l' as [|y l' IH]; [by apply not_elem_of_nil in Hx|]. cbn.
    apply elem_of_app. apply elem_of_cons in Hx as [->|Hx]; [by left|right; by apply IH]. }
  induction l as [|y l IH]; [by intros _ ?%not_elem_of_nil|]. cbn.
  intros (_ & Hdis & Hnl)%NoDup_app [->|Ha]%elem_of_cons [->|Hb]%elem_of_cons H1 H2; [done| | |by apply IH].
  - destruct (Hdis h H1). by apply (Hc b).
  - destruct (Hdis h H2). by apply (Hc a).
Qed.

(** C20: one round of the clock: [updateAlarms] wakes exactly the threads whose alarm has
    reached its time, each into the ready list of its core, keeps every other sleeper
    asleep, fires each alarm at most once, interrupts core 0 if any fired, and keeps
    the invariants of the scheduler and of the alarms. *)
Theorem updateAlarms_wakes_due `{HostEnv} {Mem} (m : Mem) (timer : Z) (k : KState) (c : Core) :
  sched_inv k -> alarm_inv k -> length (gCores (cpus k)) = 4%nat ->
  let now := clockReading (clockReads k) in
  exists k' c', updateAlarms (St m timer k c) = Ok (true, St m timer k' c') /\
    sched_inv k' /\ alarm_inv k' /\
    (forall a h, a ∈ alarms (gAlarms k) -> h ∈ alarmWaitingThreads a ->
       statusOf k' h = Some (if triggerTime a <=? now then ThreadStatus.READY else ThreadStatus.WAITING)) /\
    (forall h, canonical h -> h ∉ sleepers k -> statusOf k' h = statusOf k h) /\
    alarms (gAlarms k') = map (fired now) (alarms (gAlarms k)) /\
    pendingOf k' c' 0 = Z.lor (pendingOf k c 0)
      (if existsb (due now) (alarms (gAlarms k)) then GENERIC_INTERRUPT else 0).
Proof.
  intros Hk [Hw Hnd Htr] H4 now. unfold updateAlarms, getTimeInNanoseconds.
  set (k1 := set_clockReads (S (clockReads k)) k).
  rewrite (bind_ok _ _ _ now (St m timer k1 c)) by done.
  rewrite (bind_ok _ _ _ k1 (St m timer k1 c)) by done.
  assert (wakes [] k c k1 c) as W0 by by apply wakes_silent.
  destruct (run_updateLoop m timer now (alarms (gAlarms k)) [] k1 c) as (k2 & c2 & E & W & A & P); try done.
  { by apply (wk_inv _ _ _ _ _ W0). }
  assert (sched_inv k1) as Hk1 by by apply (wk_inv _ _ _ _ _ W0).
  cbn [length app] in E, A. run E. exists k2, c2. split; [done|].
  assert (forall h, h ∈ woken now (alarms (gAlarms k)) -> h ∈ sleepers k) as Hsub.
  { intros h (a & ? & _ & ?)%elem_of_woken. apply elem_of_sleepers. by exists a. }
  rewrite Forall_forall in Hw.
  split; [by apply (wk_inv _ _ _ _ _ W)|]. split; [|split; [|split; [|done]]].
  - constructor.
    + apply Forall_forall. unfold sleepers. rewrite A. intros h Hh.
      apply sleepers_fired in Hh as [Hh Hn]; [|done].
      apply (wakes_waiter _ k1 c k2 c2 h W); [by apply Hw|done].
    + unfold sleepers. rewrite A. by apply NoDup_fired.
    + rewrite A. intros a (b & -> & Hb)%list_elem_of_fmap. unfold fired. destruct (due now b); [done|by apply Htr].
  - intros a h Ha Hh. destruct (Hw h) as (Hc & Hs & _); [apply elem_of_sleepers; by exists a|].
    rewrite (wk_status _ _ _ _ _ W) by done.
    assert (due now a = (triggerTime a <=? now)) as Ed.
    { unfold due. destruct (hasTriggered a) eqn:Et; [|by rewrite andb_true_r].
      rewrite (Htr a Ha Et) in Hh. by apply not_elem_of_nil in Hh. }
    rewrite <-Ed. destruct (due now a) eqn:Edue.
    + rewrite decide_True; [done|]. apply elem_of_woken. by exists a.
    + rewrite decide_False; [done|]. intros (b & Hb & Hdb & Hhb)%elem_of_woken.
      rewrite (same_sleeper _ a b h Hnd Ha Hb Hh Hhb) in Edue. congruence.
  - intros h Hc Hn. rewrite (wk_status _ _ _ _ _ W) by done.
    rewrite decide_False; [done|]. intros Hin. by apply Hn, Hsub.
Qed.

(** Putting the current thread to sleep on an alarm that has not fired. *)
Section Sleep.
Context {Mem : Type} (m : Mem) (timer : Z) (k : KState) (c : Core).
Context (Hk : sched_inv k) (Ha : alarm_inv k) (Hi : core_id (coreNum c)).
Let cur := currentOf k (coreNum c).
Context (Hrun : statusOf k cur = Some ThreadStatus.RUNNING).

Lemma current_thread : exists a t, threadOf k cur = Some (a, t) /\ status t = ThreadStatus.RUNNING /\
  canonical cur /\ core_id (affinityIndex t).
Proof.
  destruct (statusOf_thread k cur _ Hrun) as (a & t & Ht & Es). exists a, t.
  split; [done|]. split; [done|].
  assert (cur <> INVALID_THREAD) as Hne by (intros E; by rewrite E in Ht).
  destruct (currentOf_live k (si_wf k Hk) (coreNum c) Hi Hne) as (Hc & a' & t' & Ht' & Ea).
  fold cur in Hc, Ht'. rewrite Ht in Ht'. injection Ht' as <- <-. split; [done|]. by rewrite Ea.
Qed.

Lemma sleep_inv k' l : handles k' = handles k -> heap k' = heap k -> sched k' = sched k ->
  alarms (gAlarms k') = alarms (gAlarms k) ++ [mkAlarm l false [cur]] ->
  let k2 := modT cur wait k' in sched_inv k2 /\ alarm_inv k2 /\
  statusOf k2 cur = Some ThreadStatus.WAITING.
Proof.
  intros E1 E2 E3 Ea k2. destruct current_thread as (a & t & Ht & Es & Hc & Hai).
  pose proof (sched_inv_congr k k' E1 E2 E3 Hk) as Hk'.
  assert (threadOf k' cur = Some (a, t)) as Ht' by (unfold threadOf, objectOf in *; by rewrite E1, E2).
  assert (forall h, statusOf k' h = statusOf k h /\ affinityOf k' h = affinityOf k h) as Hv.
  { intros h. unfold statusOf, affinityOf, threadOf, objectOf. by rewrite E1, E2. }
  pose proof (sw_objects _ (si_wf _ Hk')) as Ho.
  assert (forall h, canonical h -> statusOf k2 h =
    if decide (h = cur) then Some ThreadStatus.WAITING else statusOf k h) as Hs2.
  { intros h Hh. unfold k2, wait. rewrite statusOf_set_status by done.
    destruct (decide (h = cur)); [by rewrite Ht'|]. apply Hv. }
  assert (forall h, canonical h -> affinityOf k2 h = affinityOf k h) as Ha2.
  { intros h Hh. unfold k2. rewrite affinityOf_modT by done. apply Hv. }
  assert (sleepers k2 = sleepers k ++ [cur]) as Esl.
  { unfold sleepers, k2, modT. rewrite Ht'. cbn. rewrite Ea, map_app, concat_app. cbn. done. }
  assert (cur ∉ sleepers k) as Hn.
  { intros Hin. destruct Ha as [Hw _ _]. rewrite Forall_forall in Hw.
    destruct (Hw cur Hin) as (_ & Hs & _). congruence. }
  split; [apply (set_status_inv k' Hk' cur a t); congruence|].
  split; [|by rewrite Hs2, decide_True].
  destruct Ha as [Hw Hnd Htr]. constructor.
  - rewrite Esl. apply Forall_app. split.
    + apply Forall_forall. intros h Hh. rewrite Forall_forall in Hw. destruct (Hw h Hh) as (Hch & Hsh & Hah).
      split; [done|]. rewrite Hs2, Ha2 by done. rewrite decide_False; [done|]. by intros ->.
    + apply Forall_singleton. split; [done|]. rewrite Hs2, Ha2, decide_True by done. split; [done|].
      unfold affinityOf. by rewrite Ht.
  - rewrite Esl. apply NoDup_app. split; [done|]. split; [|apply NoDup_singleton].
    by intros h Hh ->%list_elem_of_singleton.
  - unfold k2, modT. rewrite Ht'. cbn. rewrite Ea. intros x [Hx|Hx]%elem_of_app; [by apply Htr|].
    apply list_elem_of_singleton in Hx as ->. done.
Qed.

(** [sleepThread] while the alarm vector has room: the calling thread waits on a new
    alarm that is due [nano] after the reading of the clock, everybody else is left
    alone, and core 0 (always core 0) is interrupted to reschedule. *)
Theorem sleepThread_waits `{HostEnv} (nano : Z) :
  length (gCores (cpus k)) = 4%nat -> (length (alarms (gAlarms k)) < capacity (gAlarms k))%nat ->
  exists k' c', sleepThread nano (St m timer k c) = Ok (tt, St m timer k' c') /\
    sched_inv k' /\ alarm_inv k' /\
    statusOf k' cur = Some ThreadStatus.WAITING /\
    alarms (gAlarms k') = alarms (gAlarms k) ++
      [mkAlarm (u64 (clockReading (clockReads k) + nano)) false [cur]] /\
    (forall i, core_id i -> listOf k' i = listOf k i) /\
    pendingOf k' c' 0 = Z.lor (pendingOf k c 0) GENERIC_INTERRUPT.
Proof.
  intros H4 Hcap. destruct current_thread as (a & t & Ht & Es & Hc & Hai).
  set (time := u64 (clockReading (clockReads k) + nano)).
  unfold sleepThread, getTimeInNanoseconds. set (k1 := set_clockReads (S (clockReads k)) k).
  rewrite (bind_ok _ _ _ (clockReading (clockReads k)) (St m timer k1 c)) by done.
  fold time. unfold createAlarm.
  set (k2 := set_gAlarms (mkAlarmVector (alarms (gAlarms k) ++ [newAlarm time]) (capacity (gAlarms k))) k1).
  rewrite (bind_ok _ _ _ (length (alarms (gAlarms k))) (St m timer k2 c)).
  2: { rewrite (bind_ok _ _ _ k1 (St m timer k1 c)) by done.
       change (gAlarms k1) with (gAlarms k). rewrite (proj2 (Nat.ltb_lt _ _) Hcap). done. }
  pose proof (sched_inv_congr k k2 eq_refl eq_refl eq_refl Hk) as Hk2.
  run (run_getCurrentHandle m timer k2 c (si_wf _ Hk2) Hi). change (currentOf k2 (coreNum c)) with cur.
  unfold Alarm_wait.
  run (run_alarm_at m timer k2 c (alarms (gAlarms k)) (newAlarm time) [] eq_refl). cbn [hasTriggered newAlarm].
  set (a' := set_alarmWaitingThreads (alarmWaitingThreads (newAlarm time) ++ [cur]) (newAlarm time)).
  set (k3 := set_gAlarms (mkAlarmVector (alarms (gAlarms k) ++ [mkAlarm time false [cur]])
    (capacity (gAlarms k))) k1).
  assert (setAlarm (length (alarms (gAlarms k))) a' (St m timer k2 c) = Ok (tt, St m timer k3 c)) as E3.
  { unfold setAlarm, modK. do 2 f_equal. unfold SchedulerSpec.St, set_kernel. cbn. do 2 f_equal.
    unfold k3, k2. cbn. by rewrite insert_app_r_alt, Nat.sub_diag by lia. }
  assert (threadOf k3 cur = Some (a, t)) as Ht3 by exact Ht.
  destruct (sleep_inv k3 time eq_refl eq_refl eq_refl eq_refl) as (I1 & I2 & I3).
  set (k4 := modT cur wait k3) in *.
  rewrite (bind_ok _ _ _ tt (St m timer k4 c)).
  2: { pose proof (sched_inv_congr k k3 eq_refl eq_refl eq_refl Hk) as Hk3.
       run E3. run (run_getThread m timer k3 c cur a t (sw_objects _ (si_wf _ Hk3)) Ht3).
       apply (run_updateThread m timer k3 c cur a t wait Ht3). }
  assert (gAlarms k4 = gAlarms k3 /\ cpus k4 = cpus k3 /\ sched k4 = sched k3) as (G1 & G2 & G3)
    by (unfold k4, modT; by rewrite Ht3).
  destruct (run_sendInterrupts m timer k4 c 0 GENERIC_INTERRUPT) as (k5 & c5 & E5 & W5 & A5 & P5);
    [by rewrite G2|unfold core_id; lia|].
  exists k5, c5. split; [done|]. split; [by apply (wk_inv _ _ _ _ _ W5)|]. split; [|split; [|split; [|split]]].
  - destruct I2 as [J1 J2 J3]. unfold sleepers in *.
    constructor; unfold sleepers; rewrite A5; try done.
    apply Forall_forall. intros h Hh. rewrite Forall_forall in J1.
    apply (wakes_waiter _ _ _ _ _ _ W5); [by apply J1|apply not_elem_of_nil].
  - rewrite (wk_status _ _ _ _ _ W5) by done. by rewrite decide_False by apply not_elem_of_nil.
  - by rewrite A5, G1.
  - intros i Hci. rewrite (wk_list _ _ _ _ _ W5) by done. cbn. rewrite app_nil_r.
    unfold listOf. by rewrite G3.
  - rewrite P5. f_equal. unfold pendingOf. by rewrite G2.
Qed.
End Sleep.

(** [createAlarm] on a full vector: the alarms are moved to new storage and the old ones
    destroyed, and the destructor queues their waiting threads.  Every sleeper wakes,
    whatever its alarm's time, and no alarm has a waiter left. *)
Theorem createAlarm_wakes_everybody `{HostEnv} {Mem} (m : Mem) (timer : Z) (k : KState) (c : Core) (time : Z) :
  sched_inv k -> alarm_inv k -> (capacity (gAlarms k) <= length (alarms (gAlarms k)))%nat ->
  exists k', createAlarm time (St m timer k c) = Ok (length (alarms (gAlarms k)), St m timer k' c) /\
    sched_inv k' /\ sleepers k' = [] /\
    (forall h, h ∈ sleepers k -> statusOf k' h = Some ThreadStatus.READY /\
       h ∈ listOf k' (affinityOf k h)).
Proof.
  intros Hk [Hw Hnd _] Hcap. unfold createAlarm.
  rewrite (bind_ok _ _ _ k (St m timer k c)) by done.
  rewrite (proj2 (Nat.ltb_ge _ _) Hcap). set (old := alarms (gAlarms k)) in *.
  set (k1 := set_gAlarms (mkAlarmVector (map movedAlarm old ++ [newAlarm time])
    (grownCapacity (length old))) k).
  assert (forall l k0, sched_inv k0 -> Forall (waiter k0) (concat (map alarmWaitingThreads l)) ->
    NoDup (concat (map alarmWaitingThreads l)) ->
    let k2 := queueAllK (concat (map alarmWaitingThreads l)) k0 in
    destroyAlarms l (St m timer k0 c) = Ok (tt, St m timer k2 c)) as Hdestroy.
  { clear. induction l as [|a l IH]; intros k0 Hk Hw Hnd; [done|]. cbn [map concat] in *.
    apply Forall_app in Hw as [Hw1 Hw2]. apply NoDup_app in Hnd as (N1 & N2 & N3).
    destruct (run_queueAll m timer _ k0 c Hk Hw1 N1) as [E W].
    cbn [destroyAlarms]. unfold destroyAlarm. run E. unfold queueAllK. rewrite foldl_app.
    apply IH; [by apply (wk_inv _ _ _ _ _ W)| |done].
    apply Forall_forall. intros h Hh. rewrite Forall_forall in Hw2.
    apply (wakes_waiter _ _ _ _ _ _ W); [by apply Hw2|]. intros Hin. by apply (N2 h). }
  pose proof (sched_inv_congr k k1 eq_refl eq_refl eq_refl Hk) as Hk1.
  assert (Forall (waiter k1) (sleepers k)) as Hw1 by done.
  destruct (run_queueAll m timer (sleepers k) k1 c Hk1 Hw1 Hnd) as [_ W].
  destruct (queueAllK_rest (sleepers k) k1) as [A _].
  set (k2 := queueAllK (sleepers k) k1) in *. exists k2. split; [|split; [|split]].
  - rewrite (bind_ok _ _ _ tt (St m timer k2 c)); [done|].
    rewrite (bind_ok _ _ _ tt (St m timer k1 c)) by done. by apply Hdestroy.
  - by apply (wk_inv _ _ _ _ _ W).
  - unfold sleepers. rewrite A. cbn. rewrite map_app, concat_app. cbn. rewrite app_nil_r.
    clear. by induction old as [|a l IH].
  - intros h Hh. rewrite Forall_forall in Hw. destruct (Hw h Hh) as (Hc & _ & Hai).
    rewrite (wk_status _ _ _ _ _ W) by done. rewrite decide_True by done. split; [done|].
    rewrite (wk_list _ _ _ _ _ W) by done. apply elem_of_app. right. apply list_elem_of_filter.
    by split.
Qed.

(** ** The theorems at example states *)

#[local] Instance alarm_host : HostEnv := host_example.

(** One thread running on core 0, with room for [n] alarms. *)
Definition alarm_example (n : nat) : KState :=
  set_gAlarms (mkAlarmVector [] n)
    (set_cpus (mkCpu (map core_example [0; 1; 2; 3]) false ∅ ∅ false) running_example).

(** It sleeps on an alarm of the given time. *)
Definition sleeping_example (time : Z) : KState :=
  modT 1 wait (set_gAlarms (mkAlarmVector [mkAlarm time false [1]] 1) (alarm_example 1)).

Lemma alarm_example_inv n : sched_inv (alarm_example n) /\ alarm_inv (alarm_example n).
Proof.
  split; [by apply (sched_inv_congr running_example), running_example_inv|].
  constructor; [by apply Forall_nil|apply NoDup_nil_2|]. by intros a ?%not_elem_of_nil.
Qed.

Lemma sleeping_example_inv time : sched_inv (sleeping_example time) /\ alarm_inv (sleeping_example time).
Proof.
  destruct (alarm_example_inv 1) as [Hk Ha].
  assert (core_id (coreNum (core_example 0))) as Hi by (unfold core_id; cbn; lia).
  destruct (sleep_inv (alarm_example 1) (core_example 0) Hk Ha Hi ltac:(vm_compute; reflexivity)
    (set_gAlarms (mkAlarmVector [mkAlarm time false [1]] 1) (alarm_example 1)) time) as (H1 & H2 & _);
    try done.
Qed.

Lemma sleepThread_waits_witness :
  exists k' c', sleepThread 100 (St tt 0 (alarm_example 1) (core_example 0)) = Ok (tt, St tt 0 k' c') /\
    statusOf k' 1 = Some ThreadStatus.WAITING /\ alarms (gAlarms k') = [mkAlarm 100 false [1]].
Proof.
  destruct (alarm_example_inv 1) as [Hk Ha].
  assert (core_id (coreNum (core_example 0))) as Hi by (unfold core_id; cbn; lia).
  destruct (sleepThread_waits tt 0 (alarm_example 1) (core_example 0) Hk Ha Hi
    ltac:(vm_compute; reflexivity) 100 ltac:(reflexivity) ltac:(cbn; lia))
    as (k' & c' & E & _ & _ & Hs & Hl & _).
  exists k', c'. split; [exact E|]. split; [exact Hs|exact Hl].
Defined.

Lemma updateAlarms_wakes_due_witness :
  exists k' c', updateAlarms (St tt 0 (sleeping_example 0) (core_example 0)) = Ok (true, St tt 0 k' c') /\
    statusOf k' 1 = Some ThreadStatus.READY /\ alarms (gAlarms k') = [mkAlarm 0 true []].
Proof.
  destruct (sleeping_example_inv 0) as [Hk Ha].
  destruct (updateAlarms_wakes_due tt 0 (sleeping_example 0) (core_example 0) Hk Ha)
    as (k' & c' & E & _ & _ & Hs & _ & Hl & _); [vm_compute; reflexivity|].
  exists k', c'. split; [exact E|]. split; [|rewrite Hl; vm_compute; reflexivity].
  rewrite (Hs (mkAlarm 0 false [1]) 1); [vm_compute; reflexivity| |]; vm_compute; apply list_elem_of_here.
Defined.

Lemma createAlarm_wakes_everybody_witness :
  exists k', createAlarm 0 (St tt 0 (sleeping_example 1000000000) (core_example 0)) =
      Ok (1%nat, St tt 0 k' (core_example 0)) /\
    clockReading (clockReads (sleeping_example 1000000000)) < 1000000000 /\
    statusOf k' 1 = Some ThreadStatus.READY.
Proof.
  destruct (sleeping_example_inv 1000000000) as [Hk Ha].
  destruct (createAlarm_wakes_everybody tt 0 (sleeping_example 1000000000) (core_example 0) 0 Hk Ha)
    as (k' & E & _ & _ & Hs); [vm_compute; lia|].
  exists k'. split; [exact E|]. split; [vm_compute; reflexivity|].
  apply (Hs 1). vm_compute. apply list_elem_of_here.
Defined.
