(* ===== verification/Ipc.v ===== *)
(** * IPC messages: [hle/ipc.h] and [hle/ipc.cpp], and the dispatch of [hle/service.cpp]

    A request is read word by word from the guest's buffer into an [IpcInfo], the
    function registered for its command builds a reply, and [construct] writes the
    reply over the request.  The functions the classes under [nn] and [nns] register
    are an interface, [Services]. *)
From stdpp Require Import strings.
From S2P Require Import Prelude BitUtils Instructions Core Machine HandleManager MemoryMapper.
From S2P Require Import Thread KernelState Scheduler.
#[global] Open Scope Z_scope.

(** ** The data *)

Record PointerDescriptor := mkPointer { counter : Z; pointerAddress : Z; pointerSize : Z }.
Record RegularDescriptor := mkRegular { flags : Z; regularAddress : Z; regularSize : Z }.
Record ReceiveListDescriptor := mkReceive { receiveAddress : Z; receiveSize : Z }.

Record IpcInfo := mkIpcInfo {
  pid : Z;
  cmdId : Z;
  sendDescriptors : list RegularDescriptor;
  recvDescriptors : list RegularDescriptor;
  transDescriptors : list RegularDescriptor;
  staticInDescriptors : list PointerDescriptor;
  staticOutDescriptors : list ReceiveListDescriptor;
  copiedHandles : list Z;
  movedHandles : list Z;
  argData : list Z;                     (* bytes *)
  rawData : Z;
  buffer : Z;
  isDomain : bool;
  domainCmd : Z;
  domainSize : Z;
  domainObjId : Z;
}.

(** [IpcMessageCons]; [error] is the union of [error] and [command]. *)
Record IpcMessageCons := mkCons {
  memOffset : Z;
  isReply : bool;
  consIsDomain : bool;
  consType : Z;
  dataBuf : list Z;
  consCopied : list Z;
  consMoved : list Z;
  error : Z;
}.

Definition newCons (isReply_ : bool) (type_ : Z) (info : IpcInfo) : IpcMessageCons :=
  mkCons (buffer info) isReply_ (isDomain info) type_ [] [] [] 0.

Definition bytesOf (n : nat) (v : Z) : list Z :=
  map (fun i => Z.land (Z.shiftr v (8 * Z.of_nat i)) 0xFF) (seq 0 n).

Definition pushData (l : list Z) (r : IpcMessageCons) : IpcMessageCons :=
  mkCons (memOffset r) (isReply r) (consIsDomain r) (consType r) (dataBuf r ++ l)
    (consCopied r) (consMoved r) (error r).
Definition set_moved (l : list Z) (r : IpcMessageCons) : IpcMessageCons :=
  mkCons (memOffset r) (isReply r) (consIsDomain r) (consType r) (dataBuf r)
    (consCopied r) l (error r).

(** [writeArgs] of an object of the given bytes. *)
Definition writeArgs (bytes : list Z) (r : IpcMessageCons) : IpcMessageCons := pushData bytes r.
Definition writeData (data : Z) (r : IpcMessageCons) : IpcMessageCons := pushData (bytesOf 8 data) r.
Definition writeError (err : Z) (r : IpcMessageCons) : IpcMessageCons :=
  mkCons (memOffset r) (isReply r) (consIsDomain r) (consType r) (dataBuf r)
    (consCopied r) (consMoved r) err.
Definition writeCommandId (id : Z) (r : IpcMessageCons) : IpcMessageCons := writeError id r.
Definition copyHandle (handle : Z) (r : IpcMessageCons) : IpcMessageCons :=
  mkCons (memOffset r) (isReply r) (consIsDomain r) (consType r) (dataBuf r)
    (consCopied r ++ [handle]) (consMoved r) (error r).
Definition moveHandle (handle : Z) (r : IpcMessageCons) : IpcMessageCons :=
  set_moved (consMoved r ++ [handle]) r.

(** [readArgs]: the first [n] bytes of the arguments; there is no test that they are
    there. *)
Definition readArgs (n : nat) (info : IpcInfo) : option (list Z) :=
  if Nat.leb n (length (argData info)) then Some (take n (argData info)) else None.

(** ** Descriptors *)

Definition decodePointer (descWord0 descWord1 : Z) : PointerDescriptor :=
  mkPointer 0
    (Z.lor (Z.lor descWord1 (Z.shiftl (bitRange 12 15 descWord0) 32))
       (Z.shiftl (bitRange 6 8 descWord0) 36))
    (bitRange 16 31 descWord0).

Definition decodeRegular (descWord0 descWord1 descWord2 : Z) : RegularDescriptor :=
  mkRegular (bitRange 0 1 descWord2)
    (Z.lor (Z.lor descWord1 (Z.shiftl (bitRange 28 31 descWord2) 32))
       (Z.shiftl (bitRange 2 4 descWord2) 36))
    (Z.lor descWord0 (Z.shiftl (bitRange 24 27 descWord2) 32)).

Definition decodeReceive (descWord0 descWord1 : Z) : ReceiveListDescriptor :=
  mkReceive (Z.lor descWord0 (bitRange 0 15 descWord1)) (bitRange 16 31 descWord1).

Section Reader.
Context {Mem : Type} `{GuestMemory Mem}.

Definition read8 (addr : Z) : K Mem Z := mem_read 1 (u64 addr).
Definition read16 (addr : Z) : K Mem Z := mem_read 2 (u64 addr).
Definition read32 (addr : Z) : K Mem Z := mem_read 4 (u64 addr).
Definition read64 (addr : Z) : K Mem Z := mem_read 8 (u64 addr).
Definition write8 (addr data : Z) : K Mem unit := mem_write 1 (u64 addr) data.
Definition write32 (addr data : Z) : K Mem unit := mem_write 4 (u64 addr) data.
Definition write64 (addr data : Z) : K Mem unit := mem_write 8 (u64 addr) data.

(** The loops [for (i = 0; i < n; i++) { ...; offset += width; }]: the elements pushed,
    and the offset after. *)
Fixpoint readItems {A} (n : nat) (width : Z) (item : Z -> K Mem A) (offset : Z)
    : K Mem (list A * Z) :=
  match n with
  | O => mret ([], offset)
  | S n =>
      x ← item offset;
      '(l, offset) ← readItems n width item (offset + width);
      mret (x :: l, offset)
  end.

(** The loop body of the handles to copy. *)
Definition copiedHandleAt (buffer offset : Z) : K Mem Z :=
  copiedHandle ← read32 (buffer + offset);
  if copiedHandle =? CURRENT_PROCESS then k ← (getK : K Mem KState); mret (gCurrentProcess k)
  else if copiedHandle =? CURRENT_THREAD then getCurrentHandle
  else mret copiedHandle.

Definition pointerAt (buffer offset : Z) : K Mem PointerDescriptor :=
  descWord0 ← read32 (buffer + offset);
  descWord1 ← read32 (buffer + offset + 4);
  mret (decodePointer descWord0 descWord1).

Definition regularAt (buffer offset : Z) : K Mem RegularDescriptor :=
  descWord0 ← read32 (buffer + offset);
  descWord1 ← read32 (buffer + offset + 4);
  descWord2 ← read32 (buffer + offset + 8);
  mret (decodeRegular descWord0 descWord1 descWord2).

(** The C descriptors, from the [i]-th on. *)
Fixpoint receiveList (n : nat) (i sizeStart descStart : Z) : K Mem (list ReceiveListDescriptor) :=
  match n with
  | O => mret []
  | S n =>
      _ ← read16 (sizeStart + i * 2);
      descWord0 ← read32 (descStart + 8 * i);
      descWord1 ← read32 (descStart + 8 * i + 4);
      l ← receiveList n (i + 1) sizeStart descStart;
      mret (decodeReceive descWord0 descWord1 :: l)
  end.

(** The C descriptors, in the form [cFlags] selects. *)
Definition readReceiveList (cFlags rawDataStart wordCount : Z) : K Mem (list ReceiveListDescriptor) :=
  if cFlags =? 0 then mret []
  else if cFlags =? 1 then mret []
  else
    let numCBuffs := if cFlags =? 2 then 1 else cFlags - 2 in
    let sizeOfCBufferSizes := (numCBuffs + 1) / 2 in
    let sizeStart := u64 (rawDataStart + (wordCount - sizeOfCBufferSizes) * 4) in
    receiveList (Z.to_nat numCBuffs) 0 sizeStart (rawDataStart + wordCount * 4).

Fixpoint readBytes (n : nat) (addr : Z) : K Mem (list Z) :=
  match n with
  | O => mret []
  | S n => b ← read8 addr; l ← readBytes n (addr + 1); mret (b :: l)
  end.

(** The message up to the raw data: the type, the number of words of the raw data, the
    aligned offset behind the descriptors, and the descriptors. *)
Definition readHeader (buffer : Z) : K Mem (Z * Z * Z * IpcInfo) :=
  word0 ← read32 (buffer + 0);
  word1 ← read32 (buffer + 4);
  let type := bitRange 0 15 word0 in
  let numStaticIn := bitRange 16 19 word0 in
  let numSend := bitRange 20 23 word0 in
  let numRecv := bitRange 24 27 word0 in
  let numTrans := bitRange 28 31 word0 in
  let wordCount := bitRange 0 9 word1 in
  let cFlags := bitRange 10 13 word1 in
  let enableHandleDescriptor := testBit 31 word1 in
  word2 ← (if enableHandleDescriptor then read32 (buffer + 8) else mret 0);
  let offset := if enableHandleDescriptor then 8 + 4 else 8 in
  let sendPid := testBit 0 word2 in
  let numHandlesToCopy := bitRange 1 4 word2 in
  let numHandlesToMove := bitRange 5 8 word2 in
  pid ← (if sendPid then read64 (buffer + 12) else mret 0);
  let offset := if sendPid then offset + 8 else offset in
  '(copied, offset) ← readItems (Z.to_nat numHandlesToCopy) 4 (copiedHandleAt buffer) offset;
  '(moved, offset) ← readItems (Z.to_nat numHandlesToMove) 4 (fun o => read32 (buffer + o)) offset;
  '(staticIn, offset) ← readItems (Z.to_nat numStaticIn) 8 (pointerAt buffer) offset;
  '(send, offset) ← readItems (Z.to_nat numSend) 12 (regularAt buffer) offset;
  '(recv, offset) ← readItems (Z.to_nat numRecv) 12 (regularAt buffer) offset;
  '(trans, offset) ← readItems (Z.to_nat numTrans) 12 (regularAt buffer) offset;
  let rawDataStart := buffer + offset in
  let offset := if offset mod 0x10 !=? 0 then offset + (0x10 - offset mod 0x10) else offset in
  staticOut ← readReceiveList cFlags rawDataStart wordCount;
  mret (type, wordCount, offset,
        mkIpcInfo pid 0 send recv trans staticIn staticOut copied moved [] 0 buffer false 0 0 0).

(** The domain header, if there is one, and the raw data at [offset]. *)
Definition readBody (domain : bool) (type wordCount offset : Z) (info : IpcInfo) : K Mem IpcInfo :=
  let buf := buffer info in
  '(cmd, size, obj, offset) ←
    ((if domain && (type !=? 5) then
        cmd ← read8 (buf + offset);
        size ← read16 (buf + offset + 2);
        obj ← read32 (buf + offset + 4);
        mret (cmd, size, obj, offset + 0x10)
      else mret (0, 0, 0, offset)) : K Mem (Z * Z * Z * Z));
  let raw := u64 (buf + offset) in
  cmdId ← read32 (raw + 8);
  args ← readBytes (Z.to_nat (wordCount * 4)) (raw + 16);
  mret (mkIpcInfo (pid info) cmdId (sendDescriptors info) (recvDescriptors info)
    (transDescriptors info) (staticInDescriptors info) (staticOutDescriptors info)
    (copiedHandles info) (movedHandles info) args raw buf domain cmd size obj).

(** ** The reply *)

Fixpoint writeBytes (l : list Z) (addr : Z) : K Mem unit :=
  match l with
  | [] => mret tt
  | b :: l => write8 addr b;; writeBytes l (addr + 1)
  end.

Fixpoint writeWords (l : list Z) (addr : Z) : K Mem unit :=
  match l with
  | [] => mret tt
  | w :: l => write32 addr w;; writeWords l (addr + 4)
  end.

Definition lengthZ {A} (l : list A) : Z := Z.of_nat (length l).

Definition construct (r : IpcMessageCons) : K Mem unit :=
  writeBytes (replicate 0x100 0) (memOffset r);;
  let size := 0 in
  let numObjects := if consIsDomain r then u32 (lengthZ (consMoved r)) else 0 in
  let dataBuf :=
    if consIsDomain r then dataBuf r ++ concat (map (bytesOf 4) (consMoved r)) else dataBuf r in
  let moved := if consIsDomain r then [] else consMoved r in
  let copied := consCopied r in
  let handleDesc := (0 <? lengthZ copied) || (0 <? lengthZ moved) in
  let word0 := consType r in
  let word1 := u32 (Z.lor (8 + (lengthZ dataBuf + 3) / 4 + (if consIsDomain r then 4 else 0))
                 (if handleDesc then 0x80000000 else 0)) in
  write32 (memOffset r) word0;;
  write32 (memOffset r + 4) word1;;
  let size := size + 8 in
  (if handleDesc then
     write32 (memOffset r + 8)
       (u32 (Z.lor (Z.shiftl (lengthZ copied) 1) (Z.shiftl (lengthZ moved) 5)));;
     writeWords (copied ++ moved) (memOffset r + 12)
   else mret tt);;
  let size := if handleDesc then size + (4 + lengthZ copied * 4 + lengthZ moved * 4) else size in
  let size := if size mod 0x10 !=? 0 then size + (0x10 - size mod 0x10) else size in
  (if consIsDomain r then
     write32 (memOffset r + size + 0x0) numObjects;;
     write32 (memOffset r + size + 0x4) 0;;
     write32 (memOffset r + size + 0x8) 0;;
     write32 (memOffset r + size + 0xC) 0
   else mret tt);;
  let size := if consIsDomain r then size + 0x10 else size in
  write8 (memOffset r + size) 0x53;;
  write8 (memOffset r + size + 1) 0x46;;
  write8 (memOffset r + size + 2) 0x43;;
  write8 (memOffset r + size + 3) (if isReply r then 0x4F else 0x49);;
  write64 (memOffset r + size + 8) (error r);;
  writeBytes dataBuf (memOffset r + size + 16).
End Reader.

(** ** Interfaces and their functions *)

(** [FunctionEntry]: the command, and the member function unless it is null. *)
Record FunctionEntry (Mem : Type) := mkFunctionEntry {
  functionId : Z;
  functionPtr : option (IpcInfo -> IpcMessageCons -> K Mem (Z * IpcMessageCons));
}.
Arguments mkFunctionEntry {Mem}.
Arguments functionId {Mem}.
Arguments functionPtr {Mem}.

(** What the constructors of the interfaces pass to [registerFunctions]. *)
Class Services (Mem : Type) := { mFunctions : Z -> list (FunctionEntry Mem) }.

Section Dispatch.
Context {Mem : Type} `{GuestMemory Mem}.

Fixpoint findFunction (cmd : Z) (l : list (FunctionEntry Mem)) :=
  match l with
  | [] => None
  | f :: l =>
      match functionPtr f with
      | Some p => if functionId f =? cmd then Some p else findFunction cmd l
      | None => findFunction cmd l
      end
  end.

(** [Interface::connect] *)
Definition connect (interface : Z) : K Mem Z :=
  createObjectHandle (OInterfaceHandle interface false).

(** [service::addNamedPort]: [emplace] keeps an entry that is there. *)
Definition addNamedPort (interface : Z) (name : string) : K Mem unit :=
  modK (fun k => set_gNamedPorts
    (match gNamedPorts k !! name with
     | Some _ => gNamedPorts k
     | None => <[name := interface]> (gNamedPorts k)
     end) k).

(** The object behind an [ObjectPtr<InterfaceHandle>] made of any object. *)
Definition interface_at (p : ObjectPtr) : K Mem (Z * bool) :=
  o ← (object_at p : K Mem KObject);
  match o with OInterfaceHandle i d => mret (i, d) | _ => fail Undefined end.

Context `{Services Mem}.

(** [Interface::handleSyncRequest] *)
Definition handleSyncRequest (interface : Z) (info : IpcInfo) : K Mem unit :=
  if interface =? 0 then fail NullDeref
  else
    match findFunction (cmdId info) (mFunctions interface) with
    | Some func =>
        '(err, reply) ← (func info (newCons true 0 info) : K Mem (Z * IpcMessageCons));
        construct (writeError err reply)
    | None => mret tt
    end.

(** The control messages (type 5). *)
Definition controlMessage (handle : Z) (info : IpcInfo) : K Mem unit :=
  let reply := writeError 0 (newCons true 0 info) in
  if cmdId info =? 0 then
    construct (writeArgs (bytesOf 4 handle) reply);;
    inter ← (lookupObjectK handle : K Mem ObjectPtr);
    match inter with
    | None => mret tt
    | Some a =>
        '(i, _) ← interface_at inter;
        update_object a (OInterfaceHandle i true)
    end
  else if cmdId info =? 2 then construct (moveHandle handle reply)
  else if cmdId info =? 3 then construct (writeData 0x500 reply)
  else if cmdId info =? 4 then construct (moveHandle handle reply)
  else mret tt.

(** A message for an interface, reached through a handle. *)
Definition forwardRequest (handle : Z) (info : IpcInfo) : K Mem unit :=
  inter ← (lookupObjectK handle : K Mem ObjectPtr);
  match inter with
  | None => mret tt
  | Some _ => '(i, _) ← interface_at inter; handleSyncRequest i info
  end.

(** [doIpcCall]: what the guest gets in X0. *)
Definition doIpcCall (handle buffer size : Z) : K Mem Z :=
  '(type, wordCount, offset, info) ← readHeader buffer;
  object ← (lookupObjectK handle : K Mem ObjectPtr);
  match object with
  | None => mret 0
  | Some _ =>
      '(_, domain) ← interface_at object;
      info ← readBody domain type wordCount offset info;
      badMagic ←
        ((if negb (domain && (domainCmd info =? 2)) && (type !=? 2) then
            magic ← read32 (rawData info);
            if magic !=? 0x49434653 then _ ← read32 (rawData info); mret true else mret false
          else mret false) : K Mem bool);
      if (badMagic : bool) then mret 0
      else if domain && (type !=? 5) then
        (if domainCmd info =? 1 then forwardRequest (domainObjId info) info else mret tt);;
        mret 0
      else if type =? 4 then forwardRequest handle info;; mret 0
      else if type =? 5 then controlMessage handle info;; mret 0
      else if type =? 2 then construct (writeError 0 (newCons true 0 info));; mret 0xf601
      else mret 0
  end.
End Dispatch.
