(* ===== verification/IpcReply.v ===== *)
(** * The reply

    [construct] as a list of memory writes, and what the guest finds in its buffer
    afterwards: the fields of the reply, and the rest of the memory as it was. *)
From stdpp Require Import strings.
From S2P Require Import Prelude BitUtils Instructions Core Machine Memory MemoryInv MemorySpec.
From S2P Require Import HandleManager MemoryMapper Thread KernelState Scheduler KernelLemmas.
From S2P Require Import SchedulerSpec SchedulerSafety Ipc.
#[global] Open Scope Z_scope.

(** An address, a number of bytes and a value. *)
Definition write_list : Type := list (Z * Z * Z).

Fixpoint byteWrites (l : list Z) (a : Z) : write_list :=
  match l with [] => [] | b :: l => (a, 1, b) :: byteWrites l (a + 1) end.
Fixpoint wordWrites (l : list Z) (a : Z) : write_list :=
  match l with [] => [] | w :: l => (a, 4, w) :: wordWrites l (a + 4) end.

(** The writes lie between two addresses. *)
Definition within (lo hi : Z) (l : write_list) : Prop :=
  Forall (fun w => let '(a, n, _) := w in 0 < n /\ lo <= a /\ a + n <= hi) l.

(** Writes that leave [n] bytes at [a] alone. *)
Definition apart (a n : Z) (l : write_list) : Prop :=
  Forall (fun w => let '(a', n', _) := w in a + n <= a' \/ a' + n' <= a) l.

Lemma byteWrites_within l a : within a (a + lengthZ l) (byteWrites l a).
Proof.
  unfold lengthZ. revert a. induction l as [|b l IH]; intros a; cbn [byteWrites length]; [constructor|].
  constructor; [lia|]. eapply Forall_impl; [apply IH|]. intros [[x n] v]. lia.
Qed.

Lemma wordWrites_within l a : within a (a + 4 * lengthZ l) (wordWrites l a).
Proof.
  unfold lengthZ. revert a. induction l as [|b l IH]; intros a; cbn [wordWrites length]; [constructor|].
  constructor; [lia|]. eapply Forall_impl; [apply IH|]. intros [[x n] v]. lia.
Qed.

Lemma within_weaken lo hi lo' hi' l : within lo hi l -> lo' <= lo -> hi <= hi' -> within lo' hi' l.
Proof. intros Hw H1 H2. eapply Forall_impl; [exact Hw|]. intros [[a n] v]. lia. Qed.

Lemma byteWrites_app l1 l2 a : byteWrites (l1 ++ l2) a = byteWrites l1 a ++ byteWrites l2 (a + lengthZ l1).
Proof.
  unfold lengthZ. revert a. induction l1 as [|b l1 IH]; intros a; cbn; [by rewrite Z.add_0_r|].
  rewrite IH. do 2 f_equal. f_equal. lia.
Qed.

Lemma wordWrites_app l1 l2 a : wordWrites (l1 ++ l2) a = wordWrites l1 a ++ wordWrites l2 (a + 4 * lengthZ l1).
Proof.
  unfold lengthZ. revert a. induction l1 as [|b l1 IH]; intros a; cbn [app wordWrites length].
  - by rewrite Z.mul_0_r, Z.add_0_r.
  - rewrite IH. do 2 f_equal. f_equal. lia.
Qed.

Section Writes.
Context {Mem : Type} `{GuestMemoryLaws Mem}.

Fixpoint applyWrites (l : write_list) (m : Mem) : result Mem :=
  match l with
  | [] => Ok m
  | (a, n, v) :: l => m ← mwrite n a v m; applyWrites l m
  end.

Context (lo hi : Z) (Hlo : 0 <= lo) (Hhi : hi <= 2 ^ 64).

(** A buffer the guest may write to, without breakpoints of the debugger. *)
Record buffer_ok (m : Mem) : Prop := {
  bo_ok : mem_ok m;
  bo_mapped : forall a n, 0 < n -> lo <= a -> a + n <= hi -> mapped a n m;
  bo_breakpoint : forall a, lo <= a < hi -> mbreakpoint a m = false;
}.

Lemma mwrite_buffer m a n v : buffer_ok m -> 0 < n -> lo <= a -> a + n <= hi ->
  exists m', mwrite n a v m = Ok m' /\ buffer_ok m' /\
    mread n a m' = Ok (wrap (8 * n) v) /\
    (forall a' n', mapped a' n' m -> a' + n' <= a \/ a + n <= a' ->
       mapped a' n' m' /\ mread n' a' m' = mread n' a' m) /\
    (forall a' n', mapped a' n' m -> mapped a' n' m').
Proof using Hlo Hhi.
  intros [H1 H2 H3] Hn Ha He. pose proof (H2 a n Hn Ha He) as Hm.
  destruct (mwrite_mapped n a v m H1 Hm) as (m' & E & Hok & Hmap & Hbp).
  exists m'. split; [done|]. split; [|split; [|split]].
  - constructor; [done| |].
    + intros a' n' ???. apply Hmap. by apply H2.
    + intros a' ?. rewrite Hbp. by apply H3.
  - by apply (mread_mwrite_eq n a v m m').
  - intros a' n' Ha' Hd. split; [by apply Hmap|]. by apply (mread_mwrite_ne n a v n' a' m m').
  - intros a' n' Ha'. by apply Hmap.
Qed.

Lemma applyWrites_buffer l : within lo hi l -> forall m, buffer_ok m ->
  exists m', applyWrites l m = Ok m' /\ buffer_ok m' /\
    (forall a' n', mapped a' n' m -> mapped a' n' m') /\
    (forall a' n', mapped a' n' m ->
       Forall (fun w => let '(a, n, _) := w in a' + n' <= a \/ a + n <= a') l ->
       mread n' a' m' = mread n' a' m).
Proof using Hlo Hhi.
  induction 1 as [|[[a n] v] l (Hn & Ha & He) Hl IH]; intros m Hm; cbn [applyWrites].
  { exists m. split; [done|]. split; [exact Hm|]. by split. }
  destruct (mwrite_buffer m a n v Hm Hn Ha He) as (m1 & E & Hm1 & _ & Hr & Hmap).
  destruct (IH m1 Hm1) as (m2 & E2 & Hm2 & Hmap2 & Hr2).
  exists m2. rewrite E. split; [done|]. split; [done|]. split; [by auto|].
  intros a' n' Ha' Hd. apply Forall_cons in Hd as [Hd1 Hd2].
  rewrite Hr2 by (done || by apply Hmap). by apply Hr.
Qed.

(** A field reads back as what was written to it last. *)
Lemma applyWrites_field l1 a n v l2 m m' :
  within lo hi (l1 ++ (a, n, v) :: l2) -> buffer_ok m ->
  applyWrites (l1 ++ (a, n, v) :: l2) m = Ok m' ->
  apart a n l2 ->
  mread n a m' = Ok (wrap (8 * n) v).
Proof using Hlo Hhi.
  intros Hw. apply Forall_app in Hw as [Hw1 Hw2]. apply Forall_cons in Hw2 as [(Hn & Ha & He) Hw3].
  revert m. induction l1 as [|[[a0 n0] v0] l1 IH]; intros m Hm E Hd; cbn [app applyWrites] in E.
  - destruct (mwrite_buffer m a n v Hm Hn Ha He) as (m1 & E1 & Hm1 & Hr & _ & _).
    rewrite E1 in E. cbn in E. destruct (applyWrites_buffer l2 Hw3 m1 Hm1) as (m2 & E2 & _ & _ & Hr2).
    rewrite E in E2. injection E2 as <-. rewrite Hr2; [done| |done]. by apply (bo_mapped m1 Hm1).
  - apply Forall_cons in Hw1 as [(Hn0 & Ha0 & He0) Hw4].
    destruct (mwrite_buffer m a0 n0 v0 Hm Hn0 Ha0 He0) as (m1 & E1 & Hm1 & _).
    rewrite E1 in E. cbn in E. by apply (IH Hw4 m1).
Qed.

(** ** Programs that only write *)

Definition Writes (P : K Mem unit) (l : write_list) : Prop :=
  within lo hi l -> forall m timer k c, buffer_ok m ->
  P (St m timer k c) = (m' ← applyWrites l m; Ok (tt, St m' timer k c)).

Lemma applyWrites_app l1 l2 m :
  applyWrites (l1 ++ l2) m = (m' ← applyWrites l1 m; applyWrites l2 m').
Proof.
  revert m. induction l1 as [|[[a n] v] l1 IH]; intros m; [done|]. cbn [app applyWrites].
  destruct (mwrite n a v m) as [m1|]; [|done]. cbn. apply IH.
Qed.

Lemma writes_ret : Writes (mret tt) [].
Proof. done. Qed.

Lemma writes_seq P Q l1 l2 : Writes P l1 -> Writes Q l2 -> Writes (P ;; Q) (l1 ++ l2).
Proof using Hlo Hhi.
  intros HP HQ Hw m timer k c Hm. apply Forall_app in Hw as [Hw1 Hw2].
  destruct (applyWrites_buffer l1 Hw1 m Hm) as (m1 & E1 & Hm1 & _).
  rewrite applyWrites_app, E1. unfold mbind at 1, K_bind, M_bind. rewrite (HP Hw1 m timer k c Hm), E1.
  cbn. by apply HQ.
Qed.

Lemma writes_write n a v : Writes (mem_write n (u64 a) v) [(a, n, v)].
Proof using Hlo Hhi.
  intros Hw m timer k c Hm. apply Forall_cons in Hw as [(Hn & Ha & He) _].
  assert (u64 a = a) as -> by (apply wrap_id; unfold uint; lia).
  unfold mem_write, breakpointTest, mbind at 1, M_bind. cbn [memory St].
  change (mbreakpoint a (m, k)) with (mbreakpoint a m). rewrite (bo_breakpoint m Hm a) by lia.
  unfold onMemory. cbn [memory St applyWrites].
  change (mwrite n a v (m, k)) with (m ← mwrite n a v m; Ok (m, k)).
  by destruct (mwrite n a v m).
Qed.

Lemma writes_bytes l : forall a, Writes (writeBytes l a) (byteWrites l a).
Proof using Hlo Hhi.
  induction l as [|b l IH]; intros a; [apply writes_ret|]. cbn [writeBytes byteWrites].
  apply (writes_seq _ _ [(a, 1, b)]); [apply writes_write|apply IH].
Qed.

Lemma writes_words l : forall a, Writes (writeWords l a) (wordWrites l a).
Proof using Hlo Hhi.
  induction l as [|b l IH]; intros a; [apply writes_ret|]. cbn [writeWords wordWrites].
  apply (writes_seq _ _ [(a, 4, b)]); [apply writes_write|apply IH].
Qed.

Lemma writes_if (b : bool) P Q l1 l2 : Writes P l1 -> Writes Q l2 ->
  Writes (if b then P else Q) (if b then l1 else l2).
Proof. by destruct b. Qed.
End Writes.

(** ** The layout of a reply *)

Section Layout.
Context (r : IpcMessageCons).

(** A domain has its moved handles among the data. *)
Definition replyData : list Z :=
  if consIsDomain r then dataBuf r ++ concat (map (bytesOf 4) (consMoved r)) else dataBuf r.
Definition replyMoved : list Z := if consIsDomain r then [] else consMoved r.
Definition replyHandles : list Z := consCopied r ++ replyMoved.
Definition hasHandles : bool := (0 <? lengthZ (consCopied r)) || (0 <? lengthZ replyMoved).
Definition replyWord1 : Z :=
  u32 (Z.lor (8 + (lengthZ replyData + 3) / 4 + (if consIsDomain r then 4 else 0))
    (if hasHandles then 0x80000000 else 0)).
Definition replyWord2 : Z :=
  u32 (Z.lor (Z.shiftl (lengthZ (consCopied r)) 1) (Z.shiftl (lengthZ replyMoved) 5)).

(** The offsets of the domain header and of the raw data. *)
Definition headerEnd : Z :=
  if hasHandles then 8 + (4 + lengthZ (consCopied r) * 4 + lengthZ replyMoved * 4) else 8.
Definition domainStart : Z :=
  if headerEnd mod 0x10 !=? 0 then headerEnd + (0x10 - headerEnd mod 0x10) else headerEnd.
Definition rawStart : Z := if consIsDomain r then domainStart + 0x10 else domainStart.
(** The end of what [construct] writes. *)
Definition replyExtent : Z := Z.max 0x100 (rawStart + 16 + lengthZ replyData).

Let off := memOffset r.

Definition clearWrites : write_list := byteWrites (replicate 0x100 0) off.
Definition headWrites : write_list := [(off, 4, consType r)] ++ [(off + 4, 4, replyWord1)].
Definition handleWrites : write_list :=
  if hasHandles then [(off + 8, 4, replyWord2)] ++ wordWrites replyHandles (off + 12) else [].
Definition domainWrites : write_list :=
  if consIsDomain r then
    [(off + domainStart + 0x0, 4, u32 (lengthZ (consMoved r)))] ++ [(off + domainStart + 0x4, 4, 0)] ++
    [(off + domainStart + 0x8, 4, 0)] ++ [(off + domainStart + 0xC, 4, 0)]
  else [].
Definition magicWrites : write_list :=
  [(off + rawStart, 1, 0x53)] ++ [(off + rawStart + 1, 1, 0x46)] ++ [(off + rawStart + 2, 1, 0x43)] ++
  [(off + rawStart + 3, 1, if isReply r then 0x4F else 0x49)].
Definition errorWrites : write_list := [(off + rawStart + 8, 8, error r)].
Definition dataWrites : write_list := byteWrites replyData (off + rawStart + 16).

Definition constructWrites : write_list :=
  clearWrites ++ headWrites ++ handleWrites ++ domainWrites ++ magicWrites ++ errorWrites ++ dataWrites.

Lemma headerEnd_bounds : 8 <= headerEnd /\ headerEnd <= domainStart /\ domainStart <= rawStart /\
  (hasHandles = true -> headerEnd = 12 + 4 * lengthZ replyHandles) /\
  (consIsDomain r = true -> rawStart = domainStart + 16).
Proof using Type.
  unfold rawStart, domainStart, headerEnd, replyHandles, lengthZ. rewrite length_app.
  pose proof (Z.mod_pos_bound (if hasHandles then 8 + (4 + Z.of_nat (length (consCopied r)) * 4 +
    Z.of_nat (length replyMoved) * 4) else 8) 0x10 ltac:(lia)).
  destruct hasHandles, (consIsDomain r), (_ !=? 0); split_and!; (done || lia).
Qed.
End Layout.

Lemma within_app lo hi l1 l2 : within lo hi l1 -> within lo hi l2 -> within lo hi (l1 ++ l2).
Proof. intros. by apply Forall_app. Qed.

Lemma within_one lo hi a n v : 0 < n -> lo <= a -> a + n <= hi -> within lo hi [(a, n, v)].
Proof. intros. by constructor. Qed.

Lemma within_nil lo hi : within lo hi [].
Proof. constructor. Qed.

Lemma within_apart lo hi l a n : within lo hi l -> a + n <= lo \/ hi <= a -> apart a n l.
Proof. intros Hw Ha. eapply Forall_impl; [exact Hw|]. intros [[a' n'] v]. lia. Qed.

Create HintDb layout.
#[global] Hint Resolve within_app within_nil within_one : layout.
Ltac layout := unfold headWrites, magicWrites, errorWrites, domainWrites, handleWrites;
  repeat case_match; repeat first [apply within_app | apply within_nil | apply within_one; lia |
    eapply within_weaken; [first [apply byteWrites_within|apply wordWrites_within]|lia|lia]].

(** The parts lie one behind the other. *)
Lemma parts_within r :
  let off := memOffset r in
  within off (off + 0x100) (clearWrites r) /\ within off (off + 8) (headWrites r) /\
  within (off + 8) (off + headerEnd r) (handleWrites r) /\
  within (off + domainStart r) (off + rawStart r) (domainWrites r) /\
  within (off + rawStart r) (off + rawStart r + 4) (magicWrites r) /\
  within (off + rawStart r + 8) (off + rawStart r + 16) (errorWrites r) /\
  within (off + rawStart r + 16) (off + rawStart r + 16 + lengthZ (replyData r)) (dataWrites r).
Proof.
  cbv zeta. destruct (headerEnd_bounds r) as (H1 & H2 & H3 & H4 & H5).
  assert (0 <= lengthZ (replyHandles r)) by (unfold lengthZ; lia).
  split_and!.
  - exact (byteWrites_within (replicate 0x100 0) (memOffset r)).
  - layout.
  - unfold handleWrites. destruct (hasHandles r); [|apply within_nil]. specialize (H4 eq_refl).
    apply within_app; [apply within_one; lia|].
    eapply within_weaken; [apply wordWrites_within|lia|lia].
  - unfold domainWrites. destruct (consIsDomain r); [|apply within_nil]. specialize (H5 eq_refl). layout.
  - layout.
  - layout.
  - apply byteWrites_within.
Qed.

(** ** [construct] *)

Section Construct.
Context {Mem : Type} `{GuestMemoryLaws Mem}.
Context (lo hi : Z) (Hlo : 0 <= lo) (Hhi : hi <= 2 ^ 64).

Lemma writes_construct r : Writes lo hi (construct r) (constructWrites r).
Proof using Hlo Hhi.
  pose proof (writes_write lo hi Hlo Hhi) as Hw. pose proof (writes_seq lo hi Hlo Hhi) as Hs.
  unfold construct. fold (replyData r) (replyMoved r). cbv zeta. change (0 + 8) with 8.
  change ((0 <? lengthZ (consCopied r)) || (0 <? lengthZ (replyMoved r))) with (hasHandles r).
  fold (replyWord1 r) (replyWord2 r) (replyHandles r) (headerEnd r).
  fold (domainStart r) (rawStart r).
  apply Hs; [apply (writes_bytes lo hi Hlo Hhi)|]. unfold headWrites. rewrite <-app_assoc.
  do 2 (apply Hs; [apply Hw|]). apply Hs.
  { apply writes_if; [|apply writes_ret]. apply Hs; [apply Hw|apply (writes_words lo hi Hlo Hhi)]. }
  apply Hs.
  { unfold domainWrites. destruct (consIsDomain r); [|apply writes_ret].
    repeat (apply Hs; [apply Hw|]). apply Hw. }
  unfold magicWrites. rewrite <-!app_assoc.
  do 4 (apply Hs; [apply Hw|]). apply Hs; [apply Hw|apply (writes_bytes lo hi Hlo Hhi)].
Qed.
End Construct.

(** A word of a list of words that is written is followed by words behind it. *)
Lemma wordWrites_split l i w a : l !! i = Some w ->
  exists l1 l2, wordWrites l a = l1 ++ (a + 4 * Z.of_nat i, 4, w) :: l2 /\
    within (a + 4 * Z.of_nat i + 4) (a + 4 * lengthZ l) l2.
Proof.
  intros Hi. rewrite <-(take_drop_middle l i w Hi). pose proof (lookup_lt_Some l i w Hi).
  rewrite wordWrites_app. unfold lengthZ. rewrite length_take, Nat.min_l by lia. cbn [wordWrites].
  eexists _, _. split; [done|]. eapply within_weaken; [apply wordWrites_within|lia|].
  unfold lengthZ. rewrite length_app. cbn [length]. rewrite length_take, Nat.min_l by lia. lia.
Qed.

Lemma byteWrites_split l i b a : l !! i = Some b ->
  exists l1 l2, byteWrites l a = l1 ++ (a + Z.of_nat i, 1, b) :: l2 /\
    within (a + Z.of_nat i + 1) (a + lengthZ l) l2.
Proof.
  intros Hi. rewrite <-(take_drop_middle l i b Hi). pose proof (lookup_lt_Some l i b Hi).
  rewrite byteWrites_app. unfold lengthZ. rewrite length_take, Nat.min_l by lia. cbn [byteWrites].
  eexists _, _. split; [done|]. eapply within_weaken; [apply byteWrites_within|lia|].
  unfold lengthZ. rewrite length_app. cbn [length]. rewrite length_take, Nat.min_l by lia. lia.
Qed.

Section Reply.
Context {Mem : Type} `{GuestMemoryLaws Mem}.

(** What the guest finds: the type, the sizes, the handles behind their descriptor, the
    result of the call, the data; and the memory around the reply as it was. *)
Record reply_at (r : IpcMessageCons) (m m' : Mem) : Prop := {
  ra_type : mread 4 (memOffset r) m' = Ok (u32 (consType r));
  ra_sizes : mread 4 (memOffset r + 4) m' = Ok (replyWord1 r);
  ra_count : hasHandles r = true -> mread 4 (memOffset r + 8) m' = Ok (replyWord2 r);
  ra_handles i h : replyHandles r !! i = Some h ->
    mread 4 (memOffset r + 12 + 4 * Z.of_nat i) m' = Ok (u32 h);
  ra_error : mread 8 (memOffset r + rawStart r + 8) m' = Ok (u64 (error r));
  ra_data i b : replyData r !! i = Some b ->
    mread 1 (memOffset r + rawStart r + 16 + Z.of_nat i) m' = Ok (u8 b);
  ra_frame a n : mapped a n m -> a + n <= memOffset r \/ memOffset r + replyExtent r <= a ->
    mread n a m' = mread n a m;
}.

Lemma replyHandles_flag r i h : replyHandles r !! i = Some h -> hasHandles r = true.
Proof.
  intros Hi%lookup_lt_Some. unfold hasHandles, lengthZ. unfold replyHandles in Hi.
  rewrite length_app in Hi. destruct (consCopied r), (replyMoved r); cbn in *; (done || lia).
Qed.

Lemma constructWrites_within r :
  within (memOffset r) (memOffset r + replyExtent r) (constructWrites r).
Proof.
  destruct (parts_within r) as (P1 & P2 & P3 & P4 & P5 & P6 & P7).
  destruct (headerEnd_bounds r) as (H1 & H2 & H3 & _ & _). unfold replyExtent.
  assert (0 <= lengthZ (replyData r)) by (unfold lengthZ; lia).
  apply within_app; [eapply within_weaken; [exact P1|lia|lia]|].
  apply within_app; [eapply within_weaken; [exact P2|lia|lia]|].
  apply within_app; [eapply within_weaken; [exact P3|lia|lia]|].
  apply within_app; [eapply within_weaken; [exact P4|lia|lia]|].
  apply within_app; [eapply within_weaken; [exact P5|lia|lia]|].
  apply within_app; [eapply within_weaken; [exact P6|lia|lia]|eapply within_weaken; [exact P7|lia|lia]].
Qed.

Context (r : IpcMessageCons) (m m' : Mem).
Context (Hb : 0 <= memOffset r) (He : memOffset r + replyExtent r <= 2 ^ 64).
Context (Hm : buffer_ok (memOffset r) (memOffset r + replyExtent r) m).
Context (E : applyWrites (constructWrites r) m = Ok m').

(** A field that the parts behind it leave alone. *)
Lemma construct_field l1 a n v l2 rest :
  constructWrites r = l1 ++ (a, n, v) :: l2 ++ rest ->
  apart a n l2 ->
  apart a n rest ->
  mread n a m' = Ok (wrap (8 * n) v).
Proof using Hb He Hm E.
  intros El Hl2 Hrest. apply (applyWrites_field _ _ Hb He l1 a n v (l2 ++ rest) m m').
  - rewrite <-El. apply constructWrites_within.
  - done.
  - by rewrite <-El.
  - by apply Forall_app.
Qed.

Lemma apart_parts a n : a + n <= memOffset r + domainStart r ->
  apart a n (domainWrites r ++ magicWrites r ++ errorWrites r ++ dataWrites r).
Proof using Type.
  intros Ha. destruct (parts_within r) as (_ & _ & _ & P4 & P5 & P6 & P7).
  destruct (headerEnd_bounds r) as (_ & _ & H3 & _ & _).
  apply Forall_app_2; [eapply within_apart; [exact P4|lia]|].
  apply Forall_app_2; [eapply within_apart; [exact P5|lia]|].
  apply Forall_app_2; [eapply within_apart; [exact P6|lia]|].
  eapply within_apart; [exact P7|lia].
Qed.

(** A field of the header. *)
Lemma construct_header l1 a n v l2 :
  clearWrites r ++ headWrites r ++ handleWrites r = l1 ++ (a, n, v) :: l2 ->
  apart a n l2 -> a + n <= memOffset r + domainStart r ->
  mread n a m' = Ok (wrap (8 * n) v).
Proof using Hb He Hm E.
  intros El Hl2 Ha.
  apply (construct_field l1 a n v l2 (domainWrites r ++ magicWrites r ++ errorWrites r ++ dataWrites r)).
  - unfold constructWrites.
    transitivity ((clearWrites r ++ headWrites r ++ handleWrites r) ++
      domainWrites r ++ magicWrites r ++ errorWrites r ++ dataWrites r); [by rewrite <-!app_assoc|].
    rewrite El. by rewrite <-!app_assoc.
  - done.
  - by apply apart_parts.
Qed.

Lemma construct_words :
  mread 4 (memOffset r) m' = Ok (u32 (consType r)) /\
  mread 4 (memOffset r + 4) m' = Ok (replyWord1 r).
Proof using Hb He Hm E.
  destruct (parts_within r) as (_ & _ & P3 & _). destruct (headerEnd_bounds r) as (H1 & H2 & _).
  split.
  - apply (construct_header (clearWrites r) _ 4 _ ((memOffset r + 4, 4, replyWord1 r) :: handleWrites r));
      [done| |lia].
    constructor; [lia|]. eapply within_apart; [exact P3|lia].
  - rewrite (construct_header (clearWrites r ++ [(memOffset r, 4, consType r)]) _ 4 (replyWord1 r)
      (handleWrites r)); [|by rewrite <-!app_assoc|eapply within_apart; [exact P3|lia]|lia].
    unfold replyWord1, u32. by rewrite (wrap_wrap 32) by lia.
Qed.

Lemma construct_handles :
  (hasHandles r = true -> mread 4 (memOffset r + 8) m' = Ok (replyWord2 r)) /\
  (forall i h, replyHandles r !! i = Some h ->
     mread 4 (memOffset r + 12 + 4 * Z.of_nat i) m' = Ok (u32 h)).
Proof using Hb He Hm E.
  destruct (headerEnd_bounds r) as (H1 & H2 & _ & H4 & _). split.
  - intros Hh. specialize (H4 Hh). assert (0 <= lengthZ (replyHandles r)) by (unfold lengthZ; lia).
    rewrite (construct_header (clearWrites r ++ headWrites r) _ 4 (replyWord2 r)
      (wordWrites (replyHandles r) (memOffset r + 12))).
    + unfold replyWord2, u32. by rewrite (wrap_wrap 32) by lia.
    + unfold handleWrites. rewrite Hh. by rewrite <-!app_assoc.
    + eapply within_apart; [apply wordWrites_within|lia].
    + lia.
  - intros i h Hi. pose proof (replyHandles_flag r i h Hi) as Hh. specialize (H4 Hh).
    pose proof (lookup_lt_Some _ _ _ Hi). unfold lengthZ in H4.
    destruct (wordWrites_split (replyHandles r) i h (memOffset r + 12) Hi) as (l1 & l2 & El & Hl2).
    apply (construct_header (clearWrites r ++ headWrites r ++ [(memOffset r + 8, 4, replyWord2 r)] ++ l1)
      _ 4 _ l2).
    + unfold handleWrites. rewrite Hh, El. by rewrite <-!app_assoc.
    + eapply within_apart; [exact Hl2|lia].
    + lia.
Qed.

Lemma construct_body :
  mread 8 (memOffset r + rawStart r + 8) m' = Ok (u64 (error r)) /\
  (forall i b, replyData r !! i = Some b ->
     mread 1 (memOffset r + rawStart r + 16 + Z.of_nat i) m' = Ok (u8 b)).
Proof using Hb He Hm E.
  destruct (parts_within r) as (_ & _ & _ & _ & _ & _ & P7). split.
  - apply (construct_field (clearWrites r ++ headWrites r ++ handleWrites r ++ domainWrites r ++
      magicWrites r) _ 8 _ [] (dataWrites r)).
    + unfold constructWrites. by rewrite <-!app_assoc.
    + constructor.
    + eapply within_apart; [exact P7|lia].
  - intros i b Hi.
    destruct (byteWrites_split (replyData r) i b (memOffset r + rawStart r + 16) Hi) as (l1 & l2 & El & Hl2).
    apply (construct_field (clearWrites r ++ headWrites r ++ handleWrites r ++ domainWrites r ++
      magicWrites r ++ errorWrites r ++ l1) _ 1 _ l2 []).
    + unfold constructWrites, dataWrites. rewrite El. by rewrite app_nil_r, <-!app_assoc.
    + eapply within_apart; [exact Hl2|lia].
    + constructor.
Qed.

Lemma construct_reply : reply_at r m m'.
Proof using Hb He Hm E.
  destruct construct_words as [F1 F2]. destruct construct_handles as [F3 F4].
  destruct construct_body as [F5 F6]. constructor; [done..|].
  intros a n Ha Hout.
  destruct (applyWrites_buffer _ _ Hb He _ (constructWrites_within r) m Hm) as (m2 & E2 & _ & _ & Hr).
  rewrite E in E2. injection E2 as <-. apply Hr; [done|].
  eapply Forall_impl; [apply constructWrites_within|]. intros [[a' n'] v]. lia.
Qed.
End Reply.


(** ** A concrete buffer *)

(** The page of the example memory is a buffer. *)
Lemma page_buffer m lo hi free :
  mem_inv m free -> gMemBreakpoints m = ∅ -> pointer (entry m 5) <> 0 ->
  0x5000 <= lo -> hi <= 0x6000 -> buffer_ok lo hi m.
Proof.
  intros Hi Hbp Hp Hlo Hhi. constructor.
  - by exists free.
  - intros a n Hn Ha He.
    assert (a / PAGE_SIZE = 5) as E
      by (symmetry; apply Z.div_unique with (a - 0x5000); rewrite PAGE_SIZE_eq; lia).
    change (mapped_range a n m). unfold mapped_range. rewrite E.
    split; [lia|]. split; [lia|]. split; [done|]. split; [done|].
    rewrite Z.mod_eq by (by rewrite PAGE_SIZE_eq). rewrite E, PAGE_SIZE_eq. lia.
  - intros a _. change (bool_decide (a ∈ gMemBreakpoints m) = false). by rewrite Hbp.
Qed.

(** A reply with one copied and one moved handle and three bytes. *)
Definition reply_example : IpcMessageCons := mkCons 0x5100 true false 0 [1; 2; 3] [7] [9] 0xCAFE.

