(* ===== verification/IpcSpec.v ===== *)
(** * The message format, and what the parser makes of it

    Requests as data with their encoding into the words of a message buffer; the
    parser is shown to give back what was encoded. *)
From stdpp Require Import strings.
From S2P Require Import Prelude BitUtils Instructions Core Machine Memory MemoryInv MemorySpec.
From S2P Require Import HandleManager MemoryMapper Thread KernelState Scheduler KernelLemmas.
From S2P Require Import SchedulerSpec SchedulerSafety Ipc IpcReply.
#[global] Open Scope Z_scope.

(** ** Fields of a word *)

Lemma lor_shiftl_add a b n : 0 <= n -> 0 <= a < 2 ^ n -> Z.lor a (Z.shiftl b n) = a + b * 2 ^ n.
Proof.
  intros Hn Ha. rewrite <-Z.shiftl_mul_pow2 by done.
  assert (Z.land a (Z.shiftl b n) = 0) as E.
  { apply Z.bits_inj_0. intros i. rewrite Z.land_spec.
    destruct (Z.ltb_spec i 0); [by rewrite Z.testbit_neg_r|].
    destruct (Z.ltb_spec i n); [by rewrite Z.shiftl_spec_low, andb_false_r|].
    assert (a mod 2 ^ n = a) as <- by (by apply Z.mod_small).
    by rewrite Z.mod_pow2_bits_high by lia. }
  rewrite Z.add_nocarry_lxor by done. by rewrite Z.lxor_lor.
Qed.

(** ** Encoding *)

Definition field (n a v : Z) : Z := (v / 2 ^ a) mod 2 ^ n.

Definition encodePointer (d : PointerDescriptor) : list Z :=
  [field 6 0 (counter d) + field 3 36 (pointerAddress d) * 2 ^ 6 + field 3 9 (counter d) * 2 ^ 9 +
     field 4 32 (pointerAddress d) * 2 ^ 12 + pointerSize d * 2 ^ 16;
   field 32 0 (pointerAddress d)].

Definition encodeRegular (d : RegularDescriptor) : list Z :=
  [field 32 0 (regularSize d); field 32 0 (regularAddress d);
   flags d + field 3 36 (regularAddress d) * 2 ^ 2 + field 4 32 (regularSize d) * 2 ^ 24 +
     field 4 32 (regularAddress d) * 2 ^ 28].

Definition wf_pointer (d : PointerDescriptor) : Prop :=
  0 <= pointerAddress d < 2 ^ 39 /\ 0 <= pointerSize d < 2 ^ 16 /\ 0 <= counter d < 2 ^ 12.
Definition wf_regular (d : RegularDescriptor) : Prop :=
  0 <= regularAddress d < 2 ^ 39 /\ 0 <= regularSize d < 2 ^ 36 /\ 0 <= flags d < 4.

(** What the parser keeps of a pointer descriptor. *)
Definition dropCounter (d : PointerDescriptor) : PointerDescriptor :=
  mkPointer 0 (pointerAddress d) (pointerSize d).

Lemma bitRange_field a b v : 0 <= a <= b -> bitRange a b v = (v / 2 ^ a) mod 2 ^ (b - a + 1).
Proof. intros H. rewrite bitRange_div by lia. done. Qed.

(** The constants of the fields, as numbers, for [lia]. *)
Ltac fields :=
  unfold field in *;
  change (2 ^ 0) with 1 in *; change (2 ^ 1) with 2 in *; change (2 ^ 2) with 4 in *;
  change (2 ^ 3) with 8 in *; change (2 ^ 4) with 16 in *; change (2 ^ 5) with 32 in *;
  change (2 ^ 6) with 64 in *; change (2 ^ 9) with 512 in *; change (2 ^ 10) with 1024 in *;
  change (2 ^ 12) with 4096 in *; change (2 ^ 14) with 16384 in *; change (2 ^ 16) with 65536 in *;
  change (2 ^ 20) with 1048576 in *; change (2 ^ 24) with 16777216 in *;
  change (2 ^ 28) with 268435456 in *; change (2 ^ 31) with 2147483648 in *;
  change (2 ^ 32) with 4294967296 in *; change (2 ^ 36) with 68719476736 in *;
  change (2 ^ 39) with 549755813888 in *; change (2 ^ 64) with 18446744073709551616 in *;
  rewrite ?Z.div_1_r in *.

Ltac fields_lia := fields; Z.div_mod_to_equations; lia.

Lemma address_parts lo mid hi : 0 <= lo < 2 ^ 32 -> 0 <= mid < 2 ^ 4 ->
  Z.lor (Z.lor lo (Z.shiftl mid 32)) (Z.shiftl hi 36) = lo + mid * 2 ^ 32 + hi * 2 ^ 36.
Proof.
  intros Hl Hm. rewrite (lor_shiftl_add lo) by lia. rewrite lor_shiftl_add by lia. done.
Qed.

Lemma field_bound n a v : 0 <= n -> 0 <= field n a v < 2 ^ n.
Proof. intros Hn. unfold field. apply Z.mod_pos_bound. by apply Z.pow_pos_nonneg. Qed.

Lemma decode_encodePointer d w0 w1 : wf_pointer d -> encodePointer d = [w0; w1] ->
  decodePointer w0 w1 = dropCounter d.
Proof.
  destruct d as [cnt addr size]. intros (Ha & Hs & Hc). cbn [pointerAddress pointerSize counter] in *.
  unfold encodePointer, decodePointer, dropCounter. cbn [pointerAddress pointerSize counter].
  intros [= <- <-]. rewrite !bitRange_field by lia.
  rewrite address_parts by (try apply field_bound; try apply Z.mod_pos_bound; lia).
  f_equal; fields_lia.
Qed.

Lemma decode_encodeRegular d w0 w1 w2 : wf_regular d -> encodeRegular d = [w0; w1; w2] ->
  decodeRegular w0 w1 w2 = d.
Proof.
  destruct d as [fl addr size]. intros (Ha & Hs & Hf). cbn [regularAddress regularSize flags] in *.
  unfold encodeRegular, decodeRegular. cbn [regularAddress regularSize flags].
  intros [= <- <- <-]. rewrite !bitRange_field by lia.
  rewrite address_parts by (try apply field_bound; try apply Z.mod_pos_bound; lia).
  rewrite lor_shiftl_add by (try apply field_bound; lia).
  f_equal; fields_lia.
Qed.

(** ** Requests *)

Record Request := mkRequest {
  rqType : Z;
  rqHandles : bool;                     (* there is a handle descriptor *)
  rqPid : option Z;
  rqCopied : list Z;
  rqMoved : list Z;
  rqPointers : list PointerDescriptor;
  rqSend : list RegularDescriptor;
  rqRecv : list RegularDescriptor;
  rqTrans : list RegularDescriptor;
  rqWordCount : Z;
}.

Definition rqWord0 (r : Request) : Z :=
  rqType r + lengthZ (rqPointers r) * 2 ^ 16 + lengthZ (rqSend r) * 2 ^ 20 +
  lengthZ (rqRecv r) * 2 ^ 24 + lengthZ (rqTrans r) * 2 ^ 28.
Definition rqWord1 (r : Request) : Z := rqWordCount r + (if rqHandles r then 2 ^ 31 else 0).
Definition rqWord2 (r : Request) : Z :=
  (if rqPid r is Some _ then 1 else 0) + lengthZ (rqCopied r) * 2 ^ 1 + lengthZ (rqMoved r) * 2 ^ 5.

Definition rqPidWords (r : Request) : list Z :=
  match rqPid r with Some p => [field 32 0 p; field 32 32 p] | None => [] end.

(** The words of the message up to the raw data. *)
Definition encodeRequest (r : Request) : list Z :=
  [rqWord0 r; rqWord1 r] ++
  (if rqHandles r then [rqWord2 r] ++ rqPidWords r ++ rqCopied r ++ rqMoved r else []) ++
  concat (map encodePointer (rqPointers r)) ++ concat (map encodeRegular (rqSend r)) ++
  concat (map encodeRegular (rqRecv r)) ++ concat (map encodeRegular (rqTrans r)).

Record wf_request (r : Request) : Prop := {
  wr_type : 0 <= rqType r < 2 ^ 16;
  wr_words : 0 <= rqWordCount r < 2 ^ 10;
  wr_none : rqHandles r = false -> rqPid r = None /\ rqCopied r = [] /\ rqMoved r = [];
  wr_copied : lengthZ (rqCopied r) < 16;
  wr_moved : lengthZ (rqMoved r) < 16;
  wr_pointers : lengthZ (rqPointers r) < 16 /\ Forall wf_pointer (rqPointers r);
  wr_send : lengthZ (rqSend r) < 16 /\ Forall wf_regular (rqSend r);
  wr_recv : lengthZ (rqRecv r) < 16 /\ Forall wf_regular (rqRecv r);
  wr_trans : lengthZ (rqTrans r) < 16 /\ Forall wf_regular (rqTrans r);
}.

(** A handle as the parser resolves it. *)
Definition resolveHandle (process thread h : Z) : Z :=
  if h =? CURRENT_PROCESS then process else if h =? CURRENT_THREAD then thread else h.

Section Parse.
Context {Mem : Type} `{GuestMemory Mem} (s : Machine (Mem * KState)) (b : Z).

(** Reading the words at an offset of the buffer gives [words] and changes nothing. *)
Definition Reads (o : Z) (words : list Z) : Prop :=
  forall i w, words !! i = Some w -> read32 (b + (o + 4 * Z.of_nat i)) s = Ok (w, s).

Lemma Reads_app o l1 l2 : Reads o (l1 ++ l2) -> Reads o l1 /\ Reads (o + 4 * lengthZ l1) l2.
Proof.
  intros Hr. split; intros i w Hi.
  - apply Hr. by apply lookup_app_l_Some.
  - unfold lengthZ.
    replace (o + 4 * Z.of_nat (length l1) + 4 * Z.of_nat i) with (o + 4 * Z.of_nat (length l1 + i)) by lia.
    apply Hr. rewrite lookup_app_r by lia. by replace (length l1 + i - length l1)%nat with i by lia.
Qed.

Lemma Reads_word o w l i a : Reads o l -> l !! i = Some w -> a = b + o + 4 * Z.of_nat i ->
  read32 a s = Ok (w, s).
Proof. intros Hr Hi ->. rewrite <-Z.add_assoc. by apply Hr. Qed.

(** A loop over items of a fixed number of words. *)
Lemma readItems_encoded {A B} (enc : A -> list Z) (dec : A -> B) (P : A -> Prop) width
    (item : Z -> K Mem B) l o :
  (forall x o, P x -> Reads o (enc x) -> item o s = Ok (dec x, s)) ->
  (forall x, 4 * lengthZ (enc x) = width) ->
  Forall P l -> Reads o (concat (map enc l)) ->
  readItems (Z.to_nat (lengthZ l)) width item o s = Ok ((map dec l, o + width * lengthZ l), s).
Proof.
  intros Hitem Hw Hl. unfold lengthZ. rewrite Nat2Z.id. revert o.
  induction Hl as [|x l Hx Hl IH]; intros o Hr; cbn [map concat length readItems].
  { by rewrite Z.mul_0_r, Z.add_0_r. }
  cbn [map concat] in Hr. apply Reads_app in Hr as [Hr1 Hr2]. rewrite Hw in Hr2.
  rewrite (bind_ok _ _ s (dec x) s) by by apply Hitem.
  rewrite (bind_ok _ _ s (map dec l, o + width + width * Z.of_nat (length l)) s) by by apply IH.
  by replace (o + width * Z.of_nat (S (length l))) with (o + width + width * Z.of_nat (length l)) by lia.
Qed.

Lemma pointerAt_encoded d o : wf_pointer d -> Reads o (encodePointer d) ->
  pointerAt b o s = Ok (dropCounter d, s).
Proof.
  intros Hd Hr. destruct (encodePointer d) as [|w0 [|w1 [|]]] eqn:E; try done.
  unfold pointerAt.
  rewrite (bind_ok _ _ s w0 s) by (apply (Reads_word o w0 _ 0 _ Hr eq_refl); lia).
  rewrite (bind_ok _ _ s w1 s) by (apply (Reads_word o w1 _ 1 _ Hr eq_refl); lia).
  by rewrite (decode_encodePointer d w0 w1 Hd E).
Qed.

Lemma regularAt_encoded d o : wf_regular d -> Reads o (encodeRegular d) ->
  regularAt b o s = Ok (d, s).
Proof.
  intros Hd Hr. destruct (encodeRegular d) as [|w0 [|w1 [|w2 [|]]]] eqn:E; try done.
  unfold regularAt.
  rewrite (bind_ok _ _ s w0 s) by (apply (Reads_word o w0 _ 0 _ Hr eq_refl); lia).
  rewrite (bind_ok _ _ s w1 s) by (apply (Reads_word o w1 _ 1 _ Hr eq_refl); lia).
  rewrite (bind_ok _ _ s w2 s) by (apply (Reads_word o w2 _ 2 _ Hr eq_refl); lia).
  by rewrite (decode_encodeRegular d w0 w1 w2 Hd E).
Qed.

Context (thread : Z) (Hthread : getCurrentHandle s = Ok (thread, s)).
Let resolve := resolveHandle (gCurrentProcess (kernel s)) thread.

Lemma copiedHandleAt_encoded h o : Reads o [h] -> copiedHandleAt b o s = Ok (resolve h, s).
Proof.
  intros Hr. unfold copiedHandleAt.
  rewrite (bind_ok _ _ s h s) by (apply (Reads_word o h _ 0 _ Hr eq_refl); lia).
  unfold resolve, resolveHandle. destruct (h =? CURRENT_PROCESS); [done|].
  by destruct (h =? CURRENT_THREAD).
Qed.

Lemma concat_singletons (l : list Z) : concat (map (fun x => [x]) l) = l.
Proof. induction l as [|x l IH]; [done|]. cbn. by rewrite IH. Qed.

Definition alignUp16 (o : Z) : Z :=
  if o mod 0x10 !=? 0 then o + (0x10 - o mod 0x10) else o.

(** What the parser is to make of a request. *)
Definition parsedRequest (r : Request) : Z * Z * Z * IpcInfo :=
  (rqType r, rqWordCount r, alignUp16 (4 * lengthZ (encodeRequest r)),
   mkIpcInfo (default 0 (rqPid r)) 0 (rqSend r) (rqRecv r) (rqTrans r)
     (map dropCounter (rqPointers r)) [] (map resolve (rqCopied r)) (rqMoved r) [] 0 b false 0 0 0).

Lemma header_fields r : wf_request r ->
  let w0 := rqWord0 r in let w1 := rqWord1 r in
  bitRange 0 15 w0 = rqType r /\ bitRange 16 19 w0 = lengthZ (rqPointers r) /\
  bitRange 20 23 w0 = lengthZ (rqSend r) /\ bitRange 24 27 w0 = lengthZ (rqRecv r) /\
  bitRange 28 31 w0 = lengthZ (rqTrans r) /\ bitRange 0 9 w1 = rqWordCount r /\
  bitRange 10 13 w1 = 0 /\ testBit 31 w1 = rqHandles r.
Proof.
  intros [H1 H2 _ _ _ [H3 _] [H4 _] [H5 _] [H6 _]]. cbv zeta.
  assert (0 <= lengthZ (rqPointers r) /\ 0 <= lengthZ (rqSend r) /\ 0 <= lengthZ (rqRecv r) /\
    0 <= lengthZ (rqTrans r)) as (L1 & L2 & L3 & L4) by (unfold lengthZ; lia).
  unfold rqWord0, rqWord1. revert L1 L2 L3 L4 H3 H4 H5 H6.
  generalize (lengthZ (rqPointers r)) (lengthZ (rqSend r)) (lengthZ (rqRecv r)) (lengthZ (rqTrans r)).
  intros x y z t ????????. rewrite !bitRange_field by lia.
  replace (testBit 31 _) with ((rqWordCount r + (if rqHandles r then 2 ^ 31 else 0)) / 2 ^ 31 =? 1).
  - destruct (rqHandles r); repeat split; try fields_lia; first [apply Z.eqb_eq|apply Z.eqb_neq]; fields_lia.
  - rewrite testBit_spec by lia. rewrite Z.testbit_eqb by lia.
    assert (0 <= (rqWordCount r + (if rqHandles r then 2 ^ 31 else 0)) / 2 ^ 31 < 2) as Hb
      by (destruct (rqHandles r); fields_lia).
    rewrite Z.mod_small by lia. done.
Qed.

Lemma handle_fields r : wf_request r ->
  let w2 := rqWord2 r in
  testBit 0 w2 = bool_decide (is_Some (rqPid r)) /\ bitRange 1 4 w2 = lengthZ (rqCopied r) /\
  bitRange 5 8 w2 = lengthZ (rqMoved r).
Proof.
  intros [_ _ _ H1 H2 _ _ _ _]. cbv zeta.
  assert (0 <= lengthZ (rqCopied r) /\ 0 <= lengthZ (rqMoved r)) as [L1 L2] by (unfold lengthZ; lia).
  unfold rqWord2. revert L1 L2 H1 H2. generalize (lengthZ (rqCopied r)) (lengthZ (rqMoved r)).
  intros x y ????. rewrite testBit_spec, Z.testbit_eqb by lia. rewrite !bitRange_field by lia.
  destruct (rqPid r) as [p|]; repeat split; try fields_lia.
  - rewrite bool_decide_true by by eexists. apply Z.eqb_eq. fields_lia.
  - rewrite bool_decide_false by by intros []. apply Z.eqb_neq. fields_lia.
Qed.

Ltac finish := first [done | lia | match goal with Hh : Reads ?o ?l |- Reads ?o' ?l =>
  replace o' with o by lia; exact Hh end].

(** The parts of the words behind the header. *)
Lemma Reads_parts r : wf_request r -> Reads 0 (encodeRequest r) ->
  let oc := (if rqPid r is Some _ then (if rqHandles r then 8 + 4 else 8) + 8
             else if rqHandles r then 8 + 4 else 8) in
  let om := oc + 4 * lengthZ (rqCopied r) in
  let ox := om + 4 * lengthZ (rqMoved r) in
  let oa := ox + 8 * lengthZ (rqPointers r) in
  let ob := oa + 12 * lengthZ (rqSend r) in
  let ow := ob + 12 * lengthZ (rqRecv r) in
  Reads 0 [rqWord0 r; rqWord1 r] /\ (rqHandles r = true -> Reads 8 [rqWord2 r]) /\
  Reads oc (rqCopied r) /\ Reads om (rqMoved r) /\
  Reads ox (concat (map encodePointer (rqPointers r))) /\
  Reads oa (concat (map encodeRegular (rqSend r))) /\
  Reads ob (concat (map encodeRegular (rqRecv r))) /\
  Reads ow (concat (map encodeRegular (rqTrans r))) /\
  ow + 12 * lengthZ (rqTrans r) = 4 * lengthZ (encodeRequest r).
Proof.
  assert (forall l, lengthZ (concat (map encodePointer l)) = 2 * lengthZ l) as Lp.
  { intros l. unfold lengthZ. induction l as [|x l IH]; [done|]. cbn [map concat].
    rewrite length_app, Nat2Z.inj_add, IH. cbn [length encodePointer]. lia. }
  assert (forall l, lengthZ (concat (map encodeRegular l)) = 3 * lengthZ l) as Lr.
  { intros l. unfold lengthZ. induction l as [|x l IH]; [done|]. cbn [map concat].
    rewrite length_app, Nat2Z.inj_add, IH. cbn [length encodeRegular]. lia. }
  assert (forall A (l l' : list A), lengthZ (l ++ l') = lengthZ l + lengthZ l') as La
    by (intros; unfold lengthZ; rewrite length_app; lia).
  intros Hw Hr. cbv zeta. unfold encodeRequest in *. rewrite !La, Lp, !Lr.
  set (X := concat (map encodePointer (rqPointers r))) in *.
  set (A := concat (map encodeRegular (rqSend r))) in *.
  set (B := concat (map encodeRegular (rqRecv r))) in *.
  set (W := concat (map encodeRegular (rqTrans r))) in *.
  apply Reads_app in Hr as [H0 Hr]. change (0 + 4 * lengthZ [rqWord0 r; rqWord1 r]) with 8 in Hr.
  apply Reads_app in Hr as [Hh Hr]. apply Reads_app in Hr as [HX Hr].
  apply Reads_app in Hr as [HA Hr]. apply Reads_app in Hr as [HB HW].
  unfold X in HA, HB, HW. rewrite Lp in HA, HB, HW. unfold A in HB, HW. rewrite Lr in HB, HW.
  unfold B in HW. rewrite Lr in HW. fold A B W in HB, HW.
  change (lengthZ [rqWord0 r; rqWord1 r]) with 2.
  destruct (rqHandles r) eqn:Eh.
  - rewrite !La in *. change (lengthZ [rqWord2 r]) with 1 in *.
    apply Reads_app in Hh as [H2 Hh]. change (8 + 4 * lengthZ [rqWord2 r]) with 12 in Hh.
    apply Reads_app in Hh as [_ Hh]. apply Reads_app in Hh as [Hc Hm].
    unfold rqPidWords in *. destruct (rqPid r) as [p|];
      [change (lengthZ [_; _]) with 2 in *|change (lengthZ []) with 0 in *];
      split_and!; finish.
  - destruct (wr_none r Hw Eh) as (-> & -> & ->). change (lengthZ []) with 0 in *.
    change (lengthZ []) with 0.
    split_and!; finish.
Qed.

End Parse.

(** ** Concrete messages *)

(** Reading without a breakpoint of the debugger changes nothing. *)
Lemma mem_read_ok {Mem} `{GuestMemory Mem} n a v m timer k c :
  mbreakpoint a m = false -> mread n a m = Ok v ->
  (mem_read n a : K Mem Z) (St m timer k c) = Ok (v, St m timer k c).
Proof.
  intros Hb Hr. unfold mem_read, breakpointTest, mbind, M_bind. cbn [memory St].
  change (mbreakpoint a (m, k)) with (mbreakpoint a m). rewrite Hb. unfold askMemory. cbn [memory St].
  change (mread n a (m, k)) with (mread n a m). by rewrite Hr.
Qed.

(** A request with a process id, the two pseudo-handles, a handle that moves and one
    descriptor of each of two kinds. *)
Definition request_example : Request :=
  mkRequest 4 true (Some 0x1122334455667788) [0xFFFF8001; 0xFFFF8000] [0x42]
    [mkPointer 3 0x7123456789 0x20] [mkRegular 1 0x7F00001000 0x100] [] [] 10.

Definition request_memory : MemState :=
  match applyWrites (wordWrites (encodeRequest request_example) 0x5000) mem_example with
  | Ok m => m
  | Err _ => mem_example
  end.

Lemma request_example_wf : wf_request request_example.
Proof.
  constructor; cbn [request_example rqType rqWordCount rqHandles rqPid rqCopied rqMoved rqPointers rqSend
    rqRecv rqTrans]; try done.
  all: split; [done|]; repeat constructor; done.
Qed.

