(* ===== verification/SmService.v ===== *)
(** * The service manager: [hle/SmService/SmService.cpp] and [SmService.h]

    The port ["sm:"] through which a program gets a session with every other service:
    the handle it gives out reaches the interface that was registered. *)
From stdpp Require Import strings.
From Stdlib Require Import Ascii.
From S2P Require Import LoaderFormat.
From S2P Require Import Prelude BitUtils Instructions Core Machine Memory MemoryInv MemorySpec.
From S2P Require Import HandleManager MemoryMapper Thread KernelState Scheduler KernelLemmas.
From S2P Require Import SchedulerSpec SchedulerSafety Ipc.
#[global] Open Scope Z_scope.

Definition ERR_SUCCESS : Z := 0.

(** The name in the first eight bytes of the arguments; [nameBuffer[8]] ends it. *)
Definition serviceName (args : list Z) : string := cstring (take 8 args ++ [0]).

Section SmService.
Context {Mem : Type}.

(** Reading past the argument data is undefined. *)
Definition needArgs (n : nat) (info : IpcInfo) : K Mem (list Z) :=
  match readArgs n info with Some l => mret l | None => fail Undefined end.

Definition Initialize (info : IpcInfo) (reply : IpcMessageCons) : K Mem (Z * IpcMessageCons) :=
  _ ← needArgs 8 info;
  (modK (set_smInitialized true) : K Mem unit);;
  mret (ERR_SUCCESS, reply).

(** [gRegisteredServices[name]]: the operator enters a null pointer for a new name. *)
Definition serviceAt (name : string) : K Mem Z :=
  k ← getK;
  match gRegisteredServices k !! name with
  | Some service => mret service
  | None =>
      (modK (fun k => set_gRegisteredServices (<[name := 0]> (gRegisteredServices k)) k) : K Mem unit);;
      mret 0
  end.

Definition GetService (info : IpcInfo) (reply : IpcMessageCons) : K Mem (Z * IpcMessageCons) :=
  args ← needArgs 8 info;
  service ← serviceAt (serviceName args);
  if service =? 0 then mret (1, reply)
  else
    handle ← (connect service : K Mem Z);
    mret (ERR_SUCCESS, moveHandle handle reply).

Definition RegisterService (info : IpcInfo) (reply : IpcMessageCons) : K Mem (Z * IpcMessageCons) :=
  _ ← needArgs 16 info; mret (ERR_SUCCESS, reply).

Definition UnregisterService (info : IpcInfo) (reply : IpcMessageCons) : K Mem (Z * IpcMessageCons) :=
  _ ← needArgs 8 info; mret (ERR_SUCCESS, reply).

(** The constructor's [registerFunctions]. *)
Definition sm_functions : list (FunctionEntry Mem) :=
  [mkFunctionEntry 0 (Some Initialize); mkFunctionEntry 1 (Some GetService);
   mkFunctionEntry 2 (Some RegisterService); mkFunctionEntry 3 (Some UnregisterService)].

(** [SmService::internal::registerService], which [service::addService] calls. *)
Definition registerService (name : string) (interface : Z) : K Mem unit :=
  modK (fun k => set_gRegisteredServices (<[name := interface]> (gRegisteredServices k)) k).

(** The constructor's [addNamedPort]. *)
Definition sm_init (smModule : Z) : K Mem unit := addNamedPort smModule "sm:".
End SmService.

(** * Getting a session *)

(** The state after a session with interface [i] was opened. *)
Definition connectK (i : Z) (k : KState) : KState :=
  set_handles (snd (createHandle (nextObject (heap k)) (getType (OInterfaceHandle i false)) (handles k)))
    (set_heap (mkObjectHeap
       (<[nextObject (heap k) := mkKAutoObject 1 (OInterfaceHandle i false)]> (objects (heap k)))
       (nextObject (heap k) + 1)) k).

Section Session.
Context (k : KState) (Ho : objects_inv k) (Hsmall : gHandleCounter (handles k) < 2 ^ 16) (i : Z).
Let h := gHandleCounter (handles k).

Lemma connectK_handles : handle_inv (handles (connectK i k)) /\
  handle_map (handles (connectK i k)) = <[h := Some (nextObject (heap k))]> (handle_map (handles k)).
Proof using Ho Hsmall.
  destruct (createHandle_live (handles k) (oi_handles k Ho) (nextObject (heap k))
    (getType (OInterfaceHandle i false)) Hsmall) as (s' & E & Hi & Hm).
  unfold connectK. cbn [handles set_handles]. rewrite E. by split.
Qed.

Lemma connectK_object : objectOf (connectK i k) h = Some (nextObject (heap k)).
Proof using Ho Hsmall.
  destruct connectK_handles as [_ Hm]. unfold objectOf. rewrite Hm.
  assert (u16 h = h) as ->.
  { apply wrap_id. pose proof (hi_count _ (oi_handles k Ho)). unfold uint, h. lia. }
  by rewrite lookup_insert_eq.
Qed.

(** The handles there were name what they named. *)
Lemma connectK_others h' : u16 h' <> h -> objectOf (connectK i k) h' = objectOf k h'.
Proof using Ho Hsmall.
  intros Hne. destruct connectK_handles as [_ Hm]. unfold objectOf. rewrite Hm.
  by rewrite lookup_insert_ne.
Qed.
End Session.

Section Requests.
Context {Mem : Type} `{GuestMemory Mem} `{Services Mem}.

Lemma forwardRequest_session (m : Mem) timer k c i info :
  objects_inv k -> gHandleCounter (handles k) < 2 ^ 16 ->
  forwardRequest (gHandleCounter (handles k)) info (St m timer (connectK i k) c) =
  handleSyncRequest i info (St m timer (connectK i k) c).
Proof.
  intros Ho Hs. destruct (connectK_handles k Ho Hs i) as [Hi _]. unfold forwardRequest.
  rewrite (bind_ok _ _ _ (Some (nextObject (heap k))) (St m timer (connectK i k) c)).
  2: { rewrite lookupObjectK_eq by exact Hi. do 2 f_equal. by apply connectK_object. }
  cbn beta iota. rewrite (bind_ok _ _ _ (i, false) (St m timer (connectK i k) c)); [done|].
  unfold interface_at. rewrite (bind_ok _ _ _ (OInterfaceHandle i false) (St m timer (connectK i k) c)); [done|].
  cbn [object_at]. rewrite (bind_ok _ _ _ (connectK i k) (St m timer (connectK i k) c)) by done.
  cbn [connectK heap set_handles set_heap objects]. by rewrite lookup_insert_eq.
Qed.
End Requests.

(** sessions: a request for a registered service is answered with success and a new
    handle, every handle given out before still names its object, and each request
    sent on the new handle is handled by the interface that was registered; a request
    for an unknown service is answered with an error and opens no session. *)
Theorem getService_opens_session {Mem} `{GuestMemory Mem} `{Services Mem}
    (m : Mem) timer k c (info : IpcInfo) (reply : IpcMessageCons) name :
  objects_inv k -> gHandleCounter (handles k) < 2 ^ 16 ->
  (8 <= length (argData info))%nat -> serviceName (take 8 (argData info)) = name ->
  let h := gHandleCounter (handles k) in
  match gRegisteredServices k !! name with
  | Some i => i <> 0 ->
      exists k', GetService info reply (St m timer k c) =
        Ok ((ERR_SUCCESS, moveHandle h reply), St m timer k' c) /\
      (forall h', u16 h' <> h -> objectOf k' h' = objectOf k h') /\
      forall request, forwardRequest h request (St m timer k' c) =
        handleSyncRequest i request (St m timer k' c)
  | None => exists k', GetService info reply (St m timer k c) = Ok ((1, reply), St m timer k' c) /\
      handles k' = handles k /\ heap k' = heap k
  end.
Proof.
  intros Ho Hs Hlen Hname h. unfold GetService.
  run ((ltac:(unfold needArgs, readArgs; rewrite (proj2 (Nat.leb_le 8 _)) by lia; reflexivity) :
    needArgs 8 info (St m timer k c) = Ok (take 8 (argData info), St m timer k c))).
  rewrite Hname. destruct (gRegisteredServices k !! name) as [i|] eqn:En.
  - intros Hi. exists (connectK i k). split; [|split].
    + rewrite (bind_ok _ _ _ i (St m timer k c)).
      2: { unfold serviceAt, getK, mbind, K_bind, M_bind. cbn. by rewrite En. }
      rewrite (proj2 (Z.eqb_neq i 0) Hi). unfold connect.
      by run (createObjectHandle_eq m timer k c (OInterfaceHandle i false) Ho).
    + intros h' Hne. by apply connectK_others.
    + intros request. by apply forwardRequest_session.
  - exists (set_gRegisteredServices (<[name := 0]> (gRegisteredServices k)) k). split; [|done].
    rewrite (bind_ok _ _ _ 0 (St m timer (set_gRegisteredServices (<[name := 0]> (gRegisteredServices k)) k) c)).
    2: { unfold serviceAt, getK, mbind, K_bind, M_bind. cbn. by rewrite En. }
    done.
Qed.

(** A service registered as ["fsp"], and a request for it. *)
Definition registry_example : KState :=
  set_gRegisteredServices {[ "fsp" := 7 ]} running_example.
Definition getService_request : IpcInfo :=
  mkIpcInfo 0 1 [] [] [] [] [] [] [] [0x66; 0x73; 0x70; 0; 0; 0; 0; 0] 0 0x5000 false 0 0 0.

#[local] Instance no_functions : Services MemState := { mFunctions _ := [] }.

Lemma registry_example_inv : objects_inv registry_example.
Proof.
  assert (objects_inv running_example) as [H1 H2 H3 H4] by apply running_example_inv.
  by constructor.
Qed.

Lemma getService_opens_session_witness :
  exists k', GetService getService_request (newCons true 0 getService_request)
      (St mem_example 0 registry_example (core_example 0)) =
    Ok ((ERR_SUCCESS, moveHandle (gHandleCounter (handles registry_example))
          (newCons true 0 getService_request)), St mem_example 0 k' (core_example 0)).
Proof.
  pose proof (getService_opens_session mem_example 0 registry_example (core_example 0) getService_request
    (newCons true 0 getService_request) "fsp" registry_example_inv ltac:(vm_compute; reflexivity)
    ltac:(vm_compute; lia) ltac:(vm_compute; reflexivity)) as Hs.
  cbv zeta in Hs.
  destruct (gRegisteredServices registry_example !! "fsp") as [i|] eqn:E; [|by vm_compute in E].
  assert (i <> 0) as Hi by (vm_compute in E; injection E as <-; done).
  destruct (Hs Hi) as (k' & Hk & _). exists k'. exact Hk.
Defined.
