(* ===== verification/Svc.v ===== *)
(** * Supervisor calls: [hle/svc.cpp]

    The handlers of [svcFunctionTable], and [callSVC], the function the kernel installs
    as the interpreter's SVC handler. *)
From stdpp Require Import strings.
From S2P Require Import LoaderFormat.
From S2P Require Import Prelude BitUtils Instructions Core Machine Memory HandleManager MemoryMapper.
From S2P Require Import Thread KernelState Scheduler Alarm Ipc SmService.
#[global] Open Scope Z_scope.

(** ** Host pointers into guest memory

    [mem::translate] hands out host pointers; a C string behind one is read as host
    memory, across page boundaries. *)
Class HostMemory (Mem : Type) := {
  mtranslate (addr : Z) (m : Mem) : result Z;
  mhostByte (p : Z) (m : Mem) : result Z;
  mhostSize (m : Mem) : Z;              (* no string in the block is longer *)
}.

#[export] Instance MemState_HostMemory : HostMemory MemState := {
  mtranslate := translate;
  mhostByte p m := host_load 1 p m;
  mhostSize := memBytes;
}.

(** The bytes at [p] up to the first zero, at most [limit] of them if that is given. *)
Fixpoint hostString {Mem} `{HostMemory Mem} (fuel : nat) (p : Z) (m : Mem) : result (list Z) :=
  match fuel with
  | O => Err Diverges
  | S fuel =>
      b ← mhostByte p m;
      if b =? 0 then Ok [] else l ← hostString fuel (p + 1) m; Ok (b :: l)
  end.

(** [while ((index <= size) && (str[index] != 0)) printf(...)]: the bytes printed. *)
Fixpoint printString {Mem} `{HostMemory Mem} (fuel : nat) (str size index : Z) (m : Mem)
    : result (list Z) :=
  match fuel with
  | O => Err Diverges
  | S fuel =>
      if index <=? size then
        b ← mhostByte (str + index) m;
        if b =? 0 then Ok [] else l ← printString fuel str size (index + 1) m; Ok (b :: l)
      else Ok []
  end.

Section Svc.
Context {Mem : Type} `{GuestMemory Mem} `{PageAdmin Mem} `{HostMemory Mem} `{Services Mem} `{HostEnv}.

(** [core->GPRegs[r]] and an assignment to it. *)
Definition getGPR (r : Z) : K Mem Z := c ← (getCore : K Mem Core); mret (getX c r).
Definition setGPR (r v : Z) : K Mem unit := onCore (setX r v).
Definition askHost {A} (f : Mem -> result A) : K Mem A := askMemory (fun m => f (fst m)).

Definition addMappingK (base size : Z) (type : MemoryType.t) (q : Permission) : K Mem unit :=
  fun s =>
    match addMapping base size type q (gMappings (kernel s), fst (s.(memory))) with
    | Ok (l, m) => Ok (tt, set_memory (m, set_gMappings l (kernel s)) s)
    | Err e => Err e
    end.

(** [cpu::halt] *)
Definition halt : K Mem unit :=
  sendInterruptsTo 0 RESET_INTERRUPT;;
  sendInterruptsTo 1 RESET_INTERRUPT;;
  sendInterruptsTo 2 RESET_INTERRUPT;;
  sendInterruptsTo 3 RESET_INTERRUPT.

Definition svcSetHeapSize : K Mem unit :=
  x1 ← getGPR 1;
  let size := u32 x1 in
  addMappingK 0xaa0000000 size MemoryType.HEAP READ_WRITE;;
  setGPR 0 0;;
  setGPR 1 0xaa0000000.

Definition svcSetMemoryAttribute : K Mem unit := setGPR 0 0.

(** The copying loop of [svcMapMemory]. *)
Fixpoint copyBytes (n : nat) (dstAddr srcAddr : Z) : K Mem unit :=
  match n with
  | O => mret tt
  | S n =>
      b ← read8 srcAddr;
      write8 dstAddr b;;
      copyBytes n (dstAddr + 1) (srcAddr + 1)
  end.

Definition svcMapMemory : K Mem unit :=
  dstAddr ← getGPR 0;
  srcAddr ← getGPR 1;
  size ← getGPR 2;
  addMappingK dstAddr size MemoryType.MAPPED_MEM ALL;;
  copyBytes (Z.to_nat size) dstAddr srcAddr;;
  setGPR 0 0.

Definition svcQueryMemory : K Mem unit :=
  memInfo ← getGPR 0;
  addr ← getGPR 2;
  k ← (getK : K Mem KState);
  match findMapping addr (gMappings k) with
  | Err e => fail e
  | Ok mapping =>
      write64 memInfo (base mapping);;
      write64 (memInfo + 8) (size mapping);;
      write64 (memInfo + 16) (MemoryType.value (type mapping));;
      write64 (memInfo + 24) (permissionValue (permissions mapping));;
      setGPR 0 0;;
      setGPR 1 0
  end.

Definition svcExitProcess : K Mem unit := halt.

Definition svcCreateThread : K Mem unit :=
  entry ← getGPR 1;
  arg ← getGPR 2;
  stack ← getGPR 3;
  x4 ← getGPR 4;
  x5 ← getGPR 5;
  let priority := u32 x4 in
  let cores := u32 x5 in
  thread ← createThread entry arg stack priority cores;
  setGPR 0 0;;
  setGPR 1 thread.

Definition svcStartThread : K Mem unit :=
  x0 ← getGPR 0;
  startThread (u32 x0);;
  setGPR 0 0.

Definition svcExitThread : K Mem unit := exitThread.

Definition svcSleepThread : K Mem unit :=
  nano ← getGPR 0;
  if nano =? 0 then yieldThread else sleepThread nano.

Definition svcGetThreadPriority : K Mem unit :=
  addr ← getGPR 0;
  write64 addr 0x2C;;
  setGPR 0 0.

Definition svcSetThreadPriority : K Mem unit := setGPR 0 0.
Definition svcSetThreadCoreMask : K Mem unit := setGPR 0 0.

Definition svcGetCurrentProcessorNumber : K Mem unit :=
  i ← (getCoreID : K Mem Z);
  setGPR 0 (u64 i).

Definition svcMapSharedMemory : K Mem unit :=
  addr ← getGPR 1;
  size ← getGPR 2;
  addMappingK addr size MemoryType.SHARED_MEM_BLOCK ALL;;
  setGPR 0 0.

(** [new KTransferMemory(addr, size, perm, nullptr)]: the constructor maps the memory. *)
Definition newTransferMemory (baseAddress size permissions : Z) : K Mem KObject :=
  addMappingK baseAddress size MemoryType.TRANSFER_MEM ALL;;
  mret (OTransferMemory baseAddress (to_signed 32 (u32 permissions))).

Definition svcCreateTransferMemory : K Mem unit :=
  addr ← getGPR 1;
  size ← getGPR 2;
  perm ← getGPR 3;
  o ← newTransferMemory addr size perm;
  memHandle ← (createObjectHandle o : K Mem Z);
  setGPR 0 0;;
  setGPR 1 memHandle.

Definition svcCloseHandle : K Mem unit :=
  x0 ← getGPR 0;
  _ ← (closeHandleK (u32 x0) : K Mem bool);
  setGPR 0 0.

Definition svcResetSignal : K Mem unit := setGPR 0 0.

(** [obj->sync(handle)] through [ObjectPtr<KSynchronizationObject>]: [KProcess] keeps the
    empty function of the base class; the other objects are not of that class. *)
Definition syncObject (p : ObjectPtr) (handle : Z) : K Mem unit :=
  o ← (object_at p : K Mem KObject);
  match o with
  | OThread _ => Thread_sync p handle
  | OProcess => mret tt
  | _ => fail Undefined
  end.

(** The second loop of [svcWaitSynchronization]. *)
Fixpoint syncHandles (l : list Z) (thisThread : Z) : K Mem unit :=
  match l with
  | [] => mret tt
  | handle :: l =>
      (if handle >? 0x100 then mret tt
       else
         obj ← (lookupObjectK handle : K Mem ObjectPtr);
         syncObject obj thisThread);;
      syncHandles l thisThread
  end.

Definition svcWaitSynchronization : K Mem unit :=
  handlePtr ← getGPR 1;
  numHandles ← getGPR 2;
  '(handles, _) ← readItems (Z.to_nat numHandles) 4 (fun o => read32 (handlePtr + o)) 0;
  thisThread ← getCurrentHandle;
  p ← getThread thisThread;
  (updateThread p (set_wakeupCallback cancelAllWaitObjectsCallback) : K Mem unit);;
  syncHandles handles thisThread;;
  setGPR 0 0;;
  setGPR 1 0.

Definition svcSignalProcessWideKey : K Mem unit :=
  ptr ← getGPR 0;
  val ← read64 ptr;
  write64 ptr (u64 (val + 1));;
  setGPR 0 0.

Definition svcConnectToPort : K Mem unit :=
  x1 ← getGPR 1;
  p ← askHost (mtranslate x1);
  name ← askHost (fun m => hostString (S (Z.to_nat (mhostSize m))) p m);
  k ← (getK : K Mem KState);
  match gNamedPorts k !! cstring name with
  | None => setGPR 0 1
  | Some interface =>
      setGPR 0 0;;
      if interface =? 0 then fail NullDeref
      else
        handle ← (connect interface : K Mem Z);
        setGPR 1 handle
  end.

Definition svcSendSyncRequest : K Mem unit :=
  x0 ← getGPR 0;
  p ← getCurrentThread;
  t ← (thread_at p : K Mem Thread);
  r ← doIpcCall (u32 x0) (getTLS t) (1024 * 1024);
  setGPR 0 r.

Definition svcSendSyncRequestWithUserBuffer : K Mem unit :=
  x0 ← getGPR 0;
  x1 ← getGPR 1;
  x2 ← getGPR 2;
  r ← doIpcCall (u32 x2) x0 x1;
  setGPR 0 r.

Definition svcBreak : K Mem unit :=
  i ← (getCoreID : K Mem Z);
  sendInterruptsTo i DEBUG_BREAK_INTERRUPT.

Definition svcGetThreadId : K Mem unit := setGPR 0 0;; setGPR 1 1.

(** What [svcGetInfo] answers; [None] is the unhandled case.  For an unhandled core of
    information type 11 X1 keeps its value. *)
Definition infoValue (infoType subType x1 : Z) : option Z :=
  if (infoType =? 0) && (subType =? 0) then Some 0xF
  else if (infoType =? 2) && (subType =? 0) then Some 0x21000000
  else if (infoType =? 3) && (subType =? 0) then Some 0x10000000
  else if (infoType =? 4) && (subType =? 0) then Some 0xaa0000000
  else if (infoType =? 5) && (subType =? 0) then Some 0
  else if (infoType =? 6) && (subType =? 0) then Some 0x80000000
  else if (infoType =? 7) && (subType =? 0) then Some 0x100000
  else if infoType =? 11 then
    Some (if subType =? 0 then 0 else if subType =? 1 then 1 else if subType =? 2 then 2
          else if subType =? 3 then 3 else x1)
  else if (infoType =? 12) && (subType =? 0) then Some 0x8000000
  else if (infoType =? 13) && (subType =? 0) then Some 0x7ff8000000
  else None.

Definition svcGetInfo : K Mem unit :=
  infoType ← getGPR 1;
  subType ← getGPR 3;
  match infoValue infoType subType infoType with
  | Some v => setGPR 1 v;; setGPR 0 0
  | None => setGPR 0 1
  end.

Definition svcOutputDebugString : K Mem unit :=
  x0 ← getGPR 0;
  str ← askHost (mtranslate x0);
  size ← getGPR 1;
  if str !=? 0 then
    _ ← askHost (fun m => printString (S (Z.to_nat (mhostSize m))) str size 0 m);
    mret tt
  else mret tt.

(** The entries of the table; the array has [0x80] elements. *)
Definition svcFunctionTable (id : Z) : option (K Mem unit) :=
  match id with
  | 0x01 => Some svcSetHeapSize
  | 0x03 => Some svcSetMemoryAttribute
  | 0x04 => Some svcMapMemory
  | 0x06 => Some svcQueryMemory
  | 0x07 => Some svcExitProcess
  | 0x08 => Some svcCreateThread
  | 0x09 => Some svcStartThread
  | 0x0A => Some svcExitThread
  | 0x0B => Some svcSleepThread
  | 0x0C => Some svcGetThreadPriority
  | 0x0D => Some svcSetThreadPriority
  | 0x0F => Some svcSetThreadCoreMask
  | 0x10 => Some svcGetCurrentProcessorNumber
  | 0x13 => Some svcMapSharedMemory
  | 0x15 => Some svcCreateTransferMemory
  | 0x16 => Some svcCloseHandle
  | 0x17 => Some svcResetSignal
  | 0x18 => Some svcWaitSynchronization
  | 0x1D => Some svcSignalProcessWideKey
  | 0x1F => Some svcConnectToPort
  | 0x21 => Some svcSendSyncRequest
  | 0x22 => Some svcSendSyncRequestWithUserBuffer
  | 0x25 => Some svcGetThreadId
  | 0x26 => Some svcBreak
  | 0x27 => Some svcOutputDebugString
  | 0x29 => Some svcGetInfo
  | _ => None
  end.

Definition callSVC (id : Z) : K Mem unit :=
  if (0 <=? id) && (id <? 0x80) then
    match svcFunctionTable id with Some func => func | None => mret tt end
  else fail Undefined.
End Svc.
