(* ===== verification/Loader.v ===== *)
(** * The loader: [hle/kernel/loader/loader.cpp]

    A game is a directory of files: [rtld] and [main], each an ELF or an NSO file.  An
    NSO file holds three compressed segments; its module is placed behind the ones before
    it, mapped and written to guest memory, and the libraries it names are loaded after
    it, through the same function.  The files of the host and the decompression of the
    library [lz4] are the interface [LoaderHost]. *)
From stdpp Require Import strings pretty.
From S2P Require Import Prelude BitUtils Instructions Core Machine Memory HandleManager MemoryMapper.
From S2P Require Import Thread LoaderFormat KernelState Scheduler Ipc SmService Svc.
#[global] Open Scope Z_scope.

(** [LZ4_decompress_safe src capacity]: its result, and the bytes it has written to the
    destination. *)
Class LoaderHost := {
  hostFile : string -> option (list Z);
  LZ4_decompress_safe : list Z -> Z -> Z * list Z;
}.

(** ** Segments and images *)

Section Images.
Context `{LoaderHost}.

(** [bytes] written to a vector at an offset. *)
Definition overlay (off : Z) (bytes image : list Z) : result (list Z) :=
  if off + Z.of_nat (length bytes) <=? Z.of_nat (length image) then
    Ok (take (Z.to_nat off) image ++ bytes ++ drop (Z.to_nat off + length bytes) image)
  else Err Undefined.

(** [decompress]: the image after it, if it reports success. *)
Definition decompress (buffer image : list Z) (s : NsoSegmentHeader) (srcLength : Z)
    : result (option (list Z)) :=
  let dstLength := segmentSize s in
  src ← slice buffer (dataOffset s) srcLength;
  let '(length, bytes) := LZ4_decompress_safe src (to_signed 32 dstLength) in
  image ← overlay (memoryOffset s) bytes image;
  Ok (if length <? 0 then None
      else if u32 length !=? dstLength then None
      else if length >? 0 then Some image else None).

Fixpoint decompressAll (buffer image : list Z) (l : list (NsoSegmentHeader * Z))
    : result (option (list Z)) :=
  match l with
  | [] => Ok (Some image)
  | (s, srcLength) :: l =>
      r ← decompress buffer image s srcLength;
      match r with
      | None => Ok None
      | Some image => decompressAll buffer image l
      end
  end.

Definition segment (i : nat) (h : NSO_header) : NsoSegmentHeader :=
  nth i (segmentHeaders h) (mkNsoSegmentHeader 0 0 0 0).

(** The argument of [imageBuffer.resize]: a sum of [uint32_t]. *)
Definition imageSize (h : NSO_header) : Z :=
  let s := segment 2 h in u32 (memoryOffset s + segmentSize s + bssSize s).

Definition loadImage (buffer : list Z) (h : NSO_header) : result (option (list Z)) :=
  decompressAll buffer (replicate (Z.to_nat (imageSize h)) 0)
    (zip (segmentHeaders h) (segmentSizes h)).
End Images.

(** [reinterpret_cast<uint32_t*>(imageBuffer.data())[1]] *)
Definition modOffset (image : list Z) : result Z :=
  w ← slice image 4 4; Ok (ofBytes w).

Definition readModHeader (image : list Z) (off : Z) : result ModHeader :=
  h ← slice image off sizeof_ModHeader; Ok (mkModHeader (member 0 4 h) (member 4 4 h)).

Definition MOD_MAGIC : Z := 0x30444F4D.

(** The length of a mapping: a whole page is added to one that is a multiple of it. *)
Definition padded (w size : Z) : Z := wrap w (size + (0x1000 - size mod 0x1000)).

(** [getFileType]: the type of a buffer, and the cursor behind it. *)
Definition getFileType (buffer : list Z) : result (Z * Z) :=
  '(magic, _) ← readArray 4 buffer 0;
  let byte i := nth i magic 0 in
  Ok (if (byte 0%nat =? 0x7F) || (byte 1%nat =? 0x45) || (byte 2%nat =? 0x4C) || (byte 3%nat =? 0x46)
      then 0
      else if (byte 0%nat =? 0x4E) || (byte 1%nat =? 0x53) || (byte 2%nat =? 0x4F) || (byte 3%nat =? 0x30)
      then 1
      else -1, 0).

(** [snprintf(buff, 8, "subsdk%lld", i)] *)
Definition libraryFile (i : Z) : string := String.substring 0 7 ("subsdk" +:+ pretty i).

(** ** Loading *)

Section Loader.
Context {Mem : Type} `{GuestMemory Mem} `{PageAdmin Mem} `{LoaderHost}.

Definition getLoader : K Mem LoaderState := k ← (getK : K Mem KState); mret (loader k).
Definition modLoader (f : LoaderState -> LoaderState) : K Mem unit :=
  modK (fun k => set_loader (f (loader k)) k).
Definition ask {A} (r : result A) : K Mem A :=
  match r with Ok a => mret a | Err e => fail e end.

(** [mem::writeRegion] *)
Definition writeRegionK (addr : Z) (data : list Z) : K Mem unit :=
  onMemory (fun s => m ← mwriteRegion addr data (fst s); Ok (tt, (m, snd s))).

(** [readFile]: the size is cast to [unsigned int]. *)
Definition readFile (filePath : string) : option (list Z) :=
  (fun file => take (Z.to_nat (u32 (Z.of_nat (length file)))) file) <$> hostFile filePath.

(** *** NSO *)

Definition mapSegments (base : Z) (h : NSO_header) : K Mem unit :=
  let text := segment 0 h in
  let rodata := segment 1 h in
  let data := segment 2 h in
  addMappingK (u64 (memoryOffset text + base)) (padded 32 (segmentSize text))
    MemoryType.CODE_STATIC READ_EXECUTE;;
  addMappingK (u64 (memoryOffset rodata + base)) (padded 32 (segmentSize rodata))
    MemoryType.PROCESS_MEM READ_ONLY;;
  addMappingK (u64 (memoryOffset data + base))
    (padded 64 (u32 (segmentSize data + bssSize data)))
    MemoryType.PROCESS_MEM READ_WRITE.

(** The part of [loadNso] under [SYMBOLS]. *)
Definition loadModSymbols (image : list Z) (m : ModObject) : K Mem unit :=
  if symtab m !=? 0 then
    if Z.of_nat (length image) >=? u64 (symtab m + sizeof_ElfSymbolHeader) then
      syms ← ask (readDynSymbols (S (length image)) image m 0 (u64 (strtab m - symtab m) / 24));
      modLoader (addSymbols (module_base m) syms)
    else mret tt
  else mret tt.

(** The part under [LIBRARIES]: the last library is the file [sdk].  Its name is read for
    the log; what loading it returns is ignored. *)
Fixpoint loadLibraries (loadExe : string -> K Mem bool) (image : list Z) (m : ModObject)
    (i : Z) (neededLibraries : list Z) : K Mem unit :=
  match neededLibraries with
  | [] => mret tt
  | name :: rest =>
      _ ← ask (stringAt image (u64 (strtab m + name)));
      let fileName := match rest with [] => "sdk" | _ => libraryFile i end in
      l ← getLoader;
      _ ← loadExe (workingPath l +:+ fileName);
      loadLibraries loadExe image m (i + 1) rest
  end.

(** What [loadNso] does for an image with the header of a module. *)
Definition loadMod (loadExe : string -> K Mem bool) (image : list Z) (base dynOffset : Z)
    : K Mem unit :=
  dyn ← ask (readDynamic (S (length image)) image dynOffset (newModObject base));
  loadModSymbols image (fst dyn);;
  loadLibraries loadExe image (fst dyn) 0 (snd dyn).

Definition loadNso (loadExe : string -> K Mem bool) (buffer : list Z) : K Mem bool :=
  h ← ask (readNsoHeader buffer);
  modLoader (seek (snd h));;
  r ← ask (loadImage buffer (fst h));
  match r with
  | None => mret false
  | Some image =>
      off ← ask (modOffset image);
      modHeader ← ask (readModHeader image off);
      l ← getLoader;
      let base := nextFreeAddress l in
      modLoader (placeModule (Z.of_nat (length image)));;
      mapSegments base (fst h);;
      writeRegionK base image;;
      (if modMagic modHeader =? MOD_MAGIC
       then loadMod loadExe image base (u32 (dynamic modHeader + off)) else mret tt);;
      mret true
  end.

(** *** ELF *)

(** A function of the buffer that updates the program and the cursor. *)
Definition onProgram (f : Program -> Z -> result (Program * Z)) : K Mem unit :=
  l ← getLoader;
  r ← ask (f (prog l) (gFileReader l));
  modLoader (fun l => seek (snd r) (set_prog (fst r) l)).

(** One program header; [false] when the function returns early. *)
Definition loadProgramHeader (buffer : list Z) (p : Program) (ph : ElfProgramHeader)
    : K Mem bool :=
  if p_type ph =? PT_LOAD then
    data ← ask (slice buffer (p_offset ph) (p_filesz ph));
    writeRegionK (p_vaddr ph) data;; mret true
  else if p_type ph =? PT_DYNAMIC then
    mret (match findSection ".dynamic" p with Some _ => true | None => false end)
  else mret true.

Fixpoint readProgramHeadersLoop (n : nat) (i : Z) (buffer : list Z) (p : Program) : K Mem unit :=
  match n with
  | O => mret tt
  | S n =>
      ph ← ask (readProgramHeader buffer (u64 (e_phoff (eh p) + i * e_phentsize (eh p))));
      modLoader (seek (snd ph));;
      continue ← loadProgramHeader buffer p (fst ph);
      if continue : bool then readProgramHeadersLoop n (i + 1) buffer p else mret tt
  end.

Definition readProgramHeaders (buffer : list Z) : K Mem unit :=
  l ← getLoader;
  modLoader (seek (e_phoff (eh (prog l))));;
  readProgramHeadersLoop (Z.to_nat (e_phnum (eh (prog l)))) 0 buffer (prog l).

(** One relocation: only a jump slot of a symbol of the program is written. *)
Definition relocate (p : Program) (rela : ElfRela) : K Mem unit :=
  let symType := bitRange 0 31 (r_info rela) in
  let symIndex := bitRange 32 63 (r_info rela) in
  symbol ← ask (elementAt symIndex (dynSymbols p));
  if symType =? R_AARCH64_JUMP_SLOT then
    match programSymbol (symName symbol) p with
    | None => mret tt
    | Some _ => write64 (r_offset rela) (u64 (0x20000000 + 8 * symIndex))
    end
  else mret tt.

Fixpoint relocateSection (n : nat) (i offset : Z) (buffer : list Z) (p : Program) : K Mem unit :=
  match n with
  | O => mret tt
  | S n =>
      rela ← ask (readRela buffer (u64 (offset + i * sizeof_ElfRela)));
      modLoader (seek (snd rela));;
      relocate p (fst rela);;
      relocateSection n (i + 1) offset buffer p
  end.

Fixpoint loadRelocations (buffer : list Z) (p : Program) (l : list ElfSection) : K Mem unit :=
  match l with
  | [] => mret tt
  | section :: l =>
      (if sh_type (sh section) =? SHT_RELA then
         _ ← ask (elementAt (sh_link (sh section)) (sections p));
         relocateSection (length (sectionData section) / Z.to_nat sizeof_ElfRela) 0
           (sh_offset (sh section)) buffer p
       else mret tt);;
      loadRelocations buffer p l
  end.

(** The tests of [loadElf] on the header it has read. *)
Definition elfHeaderOk (eh : ElfHeader) : bool :=
  let byte i := nth i (e_magic eh) 0 in
  (byte 0%nat =? 0x7F) && (byte 1%nat =? 0x45) && (byte 2%nat =? 0x4C) && (byte 3%nat =? 0x46) &&
  (e_class eh =? 2) && (e_data eh =? 1) && (e_version eh =? 1) && (e_machine eh =? 0xB7) &&
  (e_flags eh =? 0) && (e_ehsize eh =? sizeof_ElfHeader) &&
  (e_shentsize eh =? sizeof_ElfSectionHeader).

Definition loadElf (buffer : list Z) : K Mem bool :=
  onProgram (fun p o => '(eh, o) ← readElfHeader buffer o; Ok (set_eh eh p, o));;
  l ← getLoader;
  if negb (elfHeaderOk (eh (prog l))) then mret false
  else
    onProgram (readSections buffer);;
    onProgram (fun p o => p ← loadSections p; Ok (p, o));;
    readProgramHeaders buffer;;
    onProgram (loadSymbols buffer);;
    onProgram (loadDynSymbols buffer);;
    l ← getLoader;
    loadRelocations buffer (prog l) (sections (prog l));;
    mret true.

(** *** Files *)

(** [loadExe]: a module loads its libraries through it.  [fuel] bounds how deep. *)
Fixpoint loadExe (fuel : nat) (filePath : string) : K Mem bool :=
  match fuel with
  | O => fail Diverges
  | S fuel =>
      match readFile filePath with
      | None => mret false
      | Some [] => mret false
      | Some buffer =>
          t ← ask (getFileType buffer);
          modLoader (seek (snd t));;
          if fst t =? 0 then loadElf buffer
          else if fst t =? 1 then loadNso (loadExe fuel) buffer
          else mret false
      end
  end.

Definition loadGame (fuel : nat) : K Mem bool :=
  l ← getLoader;
  _ ← loadExe fuel (workingPath l +:+ "rtld");
  l ← getLoader;
  loaded ← loadExe fuel (workingPath l +:+ "main");
  if negb loaded then mret false
  else
    modLoader (fun l => set_prog (set_eh (set_e_entry 0x8000000 (eh (prog l))) (prog l)) l);;
    mret true.

Definition getProgramEntry : K Mem Z := l ← getLoader; mret (e_entry (eh (prog l))).
End Loader.
