(* ===== verification/LoaderSpec.v ===== *)
(** * What the loader does

    A module in the NSO format is placed, mapped and written to guest memory; modules
    stand one behind the other; a library that needs libraries itself can make the loader
    run for ever. *)
From stdpp Require Import strings pretty.
From S2P Require Import Prelude BitUtils Instructions Core Machine Memory MemoryInv.
From S2P Require Import MemorySpec MemoryRegions HandleManager MemoryMapper MapperSpec.
From S2P Require Import Thread LoaderFormat KernelState Scheduler KernelLemmas SchedulerSpec SchedulerSafety.
From S2P Require Import Ipc SmService Svc Loader.
#[global] Open Scope Z_scope.

(** ** Mapping memory for a module *)

Lemma region_allocated_protect n b m free m1 free1 k q :
  region_allocated n b m free m1 free1 -> region_allocated n b m free (protectPage k q m1) free1.
Proof.
  intros [R1 R2 R3 R4 R5].
  assert (forall j, pointer (entry (protectPage k q m1) j) = pointer (entry m1 j)) as Hp.
  { intros j. unfold protectPage. destruct (k >=? NUM_PAGES); [done|].
    destruct (pointer (entry m1 k) =? 0); [done|]. apply pointer_set_perm. }
  constructor; [by apply protect_inv|done| | |].
  - intros j Hj. rewrite Hp. by apply R3.
  - intros j Hj. rewrite Hp. by apply R4.
  - intros a Ha. rewrite protect_guest. by apply R5.
Qed.

Lemma protectRegion_ok n b q m free m1 free1 :
  0 <= n < 2 ^ 32 -> region_allocated (Z.to_nat n) b m free m1 free1 ->
  exists m2, protectRegion b n q m1 = Ok m2 /\ region_allocated (Z.to_nat n) b m free m2 free1.
Proof.
  intros Hn HR. unfold protectRegion.
  apply (whileU32_inv (fun _ m2 => region_allocated (Z.to_nat n) b m free m2 free1)); try done; try lia.
  - unfold loopFuel. lia.
  - intros i m2 Hi HR2. eexists _, _. split; [done|]. split; [lia|]. by apply region_allocated_protect.
Qed.

(** A new mapping over the pages [p .. p + n), when the free list has enough of them. *)
Lemma addMapping_ok p n ty q l l' m free :
  mem_inv m free -> 0 <= p -> 0 <= n -> p + n <= NUM_PAGES -> ty <> MemoryType.UNMAPPED ->
  mapRegion (PAGE_SIZE * p) (PAGE_SIZE * n) ty q l = Ok l' ->
  (missing (Z.to_nat n) p m <= length free)%nat ->
  exists m' free', addMapping (PAGE_SIZE * p) (PAGE_SIZE * n) ty q (l, m) = Ok (l', m') /\
    region_allocated (Z.to_nat n) p m free m' free'.
Proof.
  intros Hi Hp Hn Hmax Hty Hl Hfree. unfold addMapping. rewrite Hl. cbn [mbind result_bind].
  rewrite decide_False by done. rewrite !(Z.mul_comm PAGE_SIZE), !Z.div_mul by done.
  cbn [mallocateRegion mprotectRegion MemState_PageAdmin].
  pose proof (allocateLoop_spec p n Hp Hmax (Z.to_nat n) (loopFuel n) 0 m free
    ltac:(unfold loopFuel; lia) ltac:(lia) ltac:(lia) Hi) as Ha.
  rewrite Z.add_0_r in Ha. rewrite (proj2 (Nat.leb_le _ _)) in Ha by lia.
  destruct Ha as (m1 & free1 & Ea & HR).
  change (allocateLoop p n (loopFuel n) 0 m) with (allocateRegion p n m) in Ea.
  rewrite Ea. cbn [mbind result_bind].
  destruct (protectRegion_ok n p q m free m1 free1) as (m2 & -> & HR2).
  { rewrite NUM_PAGES_eq in *. lia. }
  { done. }
  by exists m2, free1.
Qed.

Lemma missing_app a b p m : missing (a + b) p m = (missing a p m + missing b (p + Z.of_nat a) m)%nat.
Proof.
  revert p. induction a as [|a IH]; intros p; cbn [missing Nat.add].
  - by rewrite Z.add_0_r.
  - rewrite IH. replace (p + 1 + Z.of_nat a) with (p + Z.of_nat (S a)) by lia. lia.
Qed.

Lemma missing_same n b m m' :
  (forall k, b <= k < b + Z.of_nat n -> pointer (entry m' k) = pointer (entry m k)) ->
  missing n b m' = missing n b m.
Proof.
  revert b. induction n as [|n IH]; intros b Hp; [done|]. cbn [missing].
  rewrite Hp by lia. f_equal. apply IH. intros k Hk. apply Hp. lia.
Qed.

Lemma missing_none n b m :
  (forall k, b <= k < b + Z.of_nat n -> pointer (entry m k) <> 0) -> missing n b m = 0%nat.
Proof.
  revert b. induction n as [|n IH]; intros b Hp; [done|]. cbn [missing].
  rewrite (proj2 (Z.eqb_neq _ 0)) by (apply Hp; lia). apply IH. intros k Hk. apply Hp. lia.
Qed.

(** The pages of a span that are missing, before and after a part of it was mapped. *)
Lemma missing_part p0 N p n m free m' free' :
  region_allocated n p m free m' free' -> p0 <= p -> p + Z.of_nat n <= p0 + Z.of_nat N ->
  missing N p0 m = (missing n p m + missing N p0 m')%nat.
Proof.
  intros [_ _ R3 R4 _] H1 H2. set (a := Z.to_nat (p - p0)).
  replace N with (a + (n + (N - a - n)))%nat by lia. rewrite !missing_app.
  replace (p0 + Z.of_nat a) with p by lia.
  rewrite (missing_same a p0 m m'), (missing_same (N - a - n) (p + Z.of_nat n) m m'), (missing_none n p m').
  - lia.
  - done.
  - intros k Hk. apply R4. right. lia.
  - intros k Hk. apply R4. right. lia.
Qed.

(** The memory while the parts of a span are mapped one after the other. *)
Record mapping_span (p0 : Z) (N : nat) (m0 m : MemState) (free : list Z) : Prop := {
  ms_inv : mem_inv m free;
  ms_enough : (missing N p0 m <= length free)%nat;
  ms_kept a v : 0 <= a -> guest m0 a = Some v -> guest m a = Some v;
}.

Definition pages_mapped (p n : Z) (m : MemState) : Prop :=
  forall k, p <= k < p + n -> pointer (entry m k) <> 0.

Lemma map_part p0 N m0 m free p n ty q l l' :
  mapping_span p0 N m0 m free -> 0 <= p0 -> p0 <= p -> 0 <= n -> p + n <= p0 + Z.of_nat N ->
  p0 + Z.of_nat N <= NUM_PAGES -> ty <> MemoryType.UNMAPPED ->
  mapRegion (PAGE_SIZE * p) (PAGE_SIZE * n) ty q l = Ok l' ->
  exists m' free', addMapping (PAGE_SIZE * p) (PAGE_SIZE * n) ty q (l, m) = Ok (l', m') /\
    mapping_span p0 N m0 m' free' /\ pages_mapped p n m' /\
    forall p' n', pages_mapped p' n' m -> pages_mapped p' n' m'.
Proof.
  intros [S1 S2 S3] H0 H1 H2 H3 H4 Hty Hl.
  assert (missing (Z.to_nat n) p m <= missing N p0 m)%nat as Hle.
  { set (a := Z.to_nat (p - p0)). replace N with (a + (Z.to_nat n + (N - a - Z.to_nat n)))%nat by lia.
    rewrite !missing_app. replace (p0 + Z.of_nat a) with p by lia. lia. }
  destruct (addMapping_ok p n ty q l l' m free) as (m' & free' & E & HR); try done; try lia.
  pose proof (missing_part p0 N p (Z.to_nat n) m free m' free' HR H1 ltac:(lia)) as Hm.
  destruct HR as [R1 R2 R3 R4 R5]. exists m', free'. split; [done|]. split; [|split].
  - constructor; [done|lia|]. intros a v Ha Hv. apply (S3 a v Ha) in Hv. rewrite R5 by done.
    rewrite Hv. cbn. by destruct (_ && _).
  - intros k Hk. apply R3. lia.
  - intros p' n' Hp k Hk. rewrite R4; [by apply Hp|]. left. by apply Hp.
Qed.

Lemma pages_region b e m p n : pages_mapped p n m -> 0 <= p -> p + n <= NUM_PAGES ->
  PAGE_SIZE * p <= b -> e <= PAGE_SIZE * (p + n) -> region_mapped b (e - b) m.
Proof.
  intros Hp H0 Hmax Hb He. change PAGE_SIZE with 4096 in *. rewrite NUM_PAGES_eq in Hmax.
  split; [lia|]. split; [lia|]. intros a Ha.
  apply mapped_byte; [lia| |]; change PAGE_SIZE with 4096.
  - rewrite NUM_PAGES_eq. apply Z.div_lt_upper_bound; lia.
  - apply Hp. split; [apply Z.div_le_lower_bound; lia|apply Z.div_lt_upper_bound; lia].
Qed.

(** ** The image of an NSO file *)

Definition zeros (n : Z) : list Z := replicate (Z.to_nat n) 0.
(** [padded] where it does not overflow: the next page boundary above. *)
Definition padUp (n : Z) : Z := n + (0x1000 - n mod 0x1000).

(** Segments in order, each on the page after the one before, or a page later. *)
Record layout_ok (h : NSO_header) : Prop := {
  lay_text : memoryOffset (segment 0 h) = 0;
  lay_text_size : 0 < segmentSize (segment 0 h) < 2 ^ 31;
  lay_rodata_size : 0 < segmentSize (segment 1 h) < 2 ^ 31;
  lay_data_size : 0 < segmentSize (segment 2 h) < 2 ^ 31;
  lay_bss : 0 <= bssSize (segment 2 h);
  lay_rodata_page : (PAGE_SIZE | memoryOffset (segment 1 h));
  lay_data_page : (PAGE_SIZE | memoryOffset (segment 2 h));
  lay_rodata : segmentSize (segment 0 h) <= memoryOffset (segment 1 h) <= padUp (segmentSize (segment 0 h));
  lay_data : memoryOffset (segment 1 h) + segmentSize (segment 1 h) <= memoryOffset (segment 2 h) <=
    memoryOffset (segment 1 h) + padUp (segmentSize (segment 1 h));
  lay_end : memoryOffset (segment 2 h) + segmentSize (segment 2 h) + bssSize (segment 2 h) + 0x1000 < 2 ^ 32;
}.

(** The whole file: a header with such a layout, and three segments that decompress to
    as many bytes as it says. *)
Record unpacks `{LoaderHost} (buffer : list Z) (s : NsoSegmentHeader) (n : Z) (bytes : list Z) : Prop := {
  up_bytes : Forall (uint 8) bytes;
  up_length : Z.of_nat (length bytes) = segmentSize s;
  up_result : exists src, slice buffer (dataOffset s) n = Ok src /\
    LZ4_decompress_safe src (segmentSize s) = (segmentSize s, bytes);
}.

Definition imageOf (h : NSO_header) (text rodata data : list Z) : list Z :=
  text ++ zeros (memoryOffset (segment 1 h) - segmentSize (segment 0 h)) ++
  rodata ++ zeros (memoryOffset (segment 2 h) - memoryOffset (segment 1 h) - segmentSize (segment 1 h)) ++
  data ++ zeros (bssSize (segment 2 h)).

Lemma zeros_app a b : 0 <= a -> 0 <= b -> zeros (a + b) = zeros a ++ zeros b.
Proof. intros Ha Hb. unfold zeros. by rewrite Z2Nat.inj_add, replicate_add by done. Qed.

Lemma length_zeros n : 0 <= n -> Z.of_nat (length (zeros n)) = n.
Proof. intros Hn. unfold zeros. rewrite length_replicate. lia. Qed.

Lemma overlay_zeros pre bytes k off :
  Z.of_nat (length pre) = off -> 0 <= k ->
  overlay off bytes (pre ++ zeros (Z.of_nat (length bytes) + k)) = Ok (pre ++ bytes ++ zeros k).
Proof.
  intros <- Hk. unfold overlay. rewrite length_app, Nat2Z.inj_add, length_zeros by lia.
  rewrite (proj2 (Z.leb_le _ _)) by lia. rewrite Nat2Z.id, take_app_length.
  do 3 f_equal. rewrite drop_app, (drop_ge pre) by lia. cbn [app].
  replace (length pre + length bytes - length pre)%nat with (length bytes) by lia.
  unfold zeros. rewrite drop_replicate. f_equal. lia.
Qed.

Section Unpack.
Context `{LoaderHost}.

Lemma decompress_ok buffer pre k s n bytes :
  unpacks buffer s n bytes -> 0 < segmentSize s < 2 ^ 31 -> Z.of_nat (length pre) = memoryOffset s ->
  0 <= k -> decompress buffer (pre ++ zeros (segmentSize s + k)) s n = Ok (Some (pre ++ bytes ++ zeros k)).
Proof.
  intros [Hb Hl (src & Hsrc & Hz)] Hs Hp Hk. unfold decompress. rewrite Hsrc. cbn [mbind result_bind].
  assert (to_signed 32 (segmentSize s) = segmentSize s) as ->.
  { unfold to_signed. rewrite wrap_id by (unfold uint; lia). by rewrite (proj2 (Z.ltb_lt _ _)) by lia. }
  rewrite Hz. rewrite <-Hl at 1. rewrite overlay_zeros by done. cbn [mbind result_bind].
  rewrite (proj2 (Z.ltb_ge _ _)) by lia. unfold u32. rewrite wrap_id by (unfold uint; lia).
  rewrite Z.eqb_refl. cbn [negb]. by rewrite Z.gtb_ltb, (proj2 (Z.ltb_lt _ _)) by lia.
Qed.

Lemma loadImage_ok buffer h o text rodata data :
  readNsoHeader buffer = Ok (h, o) -> layout_ok h ->
  unpacks buffer (segment 0 h) (nth 0 (segmentSizes h) 0) text ->
  unpacks buffer (segment 1 h) (nth 1 (segmentSizes h) 0) rodata ->
  unpacks buffer (segment 2 h) (nth 2 (segmentSizes h) 0) data ->
  loadImage buffer h = Ok (Some (imageOf h text rodata data)).
Proof.
  intros Hh [] U0 U1 U2. unfold loadImage.
  assert (zip (segmentHeaders h) (segmentSizes h) =
    [(segment 0 h, nth 0 (segmentSizes h) 0); (segment 1 h, nth 1 (segmentSizes h) 0);
     (segment 2 h, nth 2 (segmentSizes h) 0)]) as ->.
  { unfold readNsoHeader in Hh. destruct (slice buffer 0 sizeof_NSO_header); [|done].
    by injection Hh as <- _. }
  unfold imageSize. unfold u32. rewrite wrap_id by (unfold uint; lia).
  set (s0 := segment 0 h) in *. set (s1 := segment 1 h) in *. set (s2 := segment 2 h) in *.
  pose proof (up_length _ _ _ _ U0) as L0. pose proof (up_length _ _ _ _ U1) as L1.
  unfold imageOf. fold s0 s1 s2. cbn [decompressAll].
  set (g1 := memoryOffset s1 - segmentSize s0).
  set (g2 := memoryOffset s2 - memoryOffset s1 - segmentSize s1).
  fold (zeros (memoryOffset s2 + segmentSize s2 + bssSize s2)).
  replace (memoryOffset s2 + segmentSize s2 + bssSize s2)
    with (segmentSize s0 + (g1 + (segmentSize s1 + (g2 + (segmentSize s2 + bssSize s2))))) by lia.
  rewrite <-(app_nil_l (zeros _)), (decompress_ok buffer [] _ s0 _ text) by (done || lia).
  cbn [mbind result_bind app].
  rewrite (zeros_app g1) by lia. rewrite (app_assoc text).
  rewrite (decompress_ok buffer (text ++ zeros g1) _ s1 _ rodata)
    by (done || lia || (rewrite length_app, Nat2Z.inj_add, length_zeros by lia; lia)).
  cbn [mbind result_bind]. rewrite (zeros_app g2) by lia. rewrite (app_assoc rodata), (app_assoc (text ++ _)).
  rewrite (decompress_ok buffer ((text ++ zeros g1) ++ rodata ++ zeros g2) _ s2 _ data)
    by (done || lia || (rewrite !length_app, !Nat2Z.inj_add, !length_zeros by lia; lia)).
  cbn [mbind result_bind]. by rewrite <-!app_assoc.
Qed.
End Unpack.

(** ** The mappings of a module *)

(** What the mapper says of a module at [base]. *)
Definition moduleMappings (base : Z) (h : NSO_header) : list MemoryMapping :=
  let rodata := memoryOffset (segment 1 h) in
  let data := memoryOffset (segment 2 h) in
  [mkMapping base rodata MemoryType.CODE_STATIC READ_EXECUTE;
   mkMapping (base + rodata) (data - rodata) MemoryType.PROCESS_MEM READ_ONLY;
   mkMapping (base + data) (padUp (segmentSize (segment 2 h) + bssSize (segment 2 h)))
     MemoryType.PROCESS_MEM READ_WRITE].

(** The memory a module takes: up to the end of its last mapping. *)
Definition span (h : NSO_header) : Z :=
  memoryOffset (segment 2 h) + padUp (segmentSize (segment 2 h) + bssSize (segment 2 h)).

(** The unmapped space [u] after a module took its part. *)
Definition afterModule (base : Z) (h : NSO_header) (u : MemoryMapping) : list MemoryMapping :=
  (if base =? MemoryMapper.base u then [] else [set_size (base - MemoryMapper.base u) u]) ++
  moduleMappings base h ++
  [mkMapping (base + span h) (MemoryMapper.base u + size u - (base + span h)) (type u) (permissions u)].

Lemma padUp_bounds n : 0 <= n -> n < padUp n <= n + 0x1000 /\ (PAGE_SIZE | padUp n).
Proof.
  intros Hn. unfold padUp. pose proof (Z.mod_pos_bound n 0x1000 ltac:(lia)).
  split; [lia|]. exists (n / 0x1000 + 1). pose proof (Z.div_mod n 0x1000 ltac:(lia)).
  change PAGE_SIZE with 0x1000. lia.
Qed.

(** A page boundary at least [n] is at most a page below [padUp n]. *)
Lemma padUp_page n x : 0 <= n -> (PAGE_SIZE | x) -> n <= x -> padUp n <= x + 0x1000.
Proof.
  intros Hn [q ->] Hx. change PAGE_SIZE with 0x1000 in *. unfold padUp.
  pose proof (Z.div_mod n 0x1000 ltac:(lia)). pose proof (Z.mod_pos_bound n 0x1000 ltac:(lia)).
  assert (n / 0x1000 <= q) by (apply Z.div_le_upper_bound; lia). lia.
Qed.

Lemma padded_ok w n : 0 <= n -> n + 0x1000 < 2 ^ w -> padded w n = padUp n.
Proof.
  intros Hn Hw. unfold padded. apply wrap_id. pose proof (padUp_bounds n Hn). unfold padUp in *.
  unfold uint. lia.
Qed.

Section MapSegments.
Context (h : NSO_header) (base : Z) (u : MemoryMapping) (l1 l2 : list MemoryMapping).
Context (Hh : layout_ok h) (Hpage : (PAGE_SIZE | base)) (H0 : 0 <= base).
Context (Hu1 : MemoryMapper.base u <= base) (Hu2 : base + span h < MemoryMapper.base u + size u).
Context (Hw : wf_mappings (l1 ++ [u] ++ l2)).

Let mo1 := memoryOffset (segment 1 h).
Let mo2 := memoryOffset (segment 2 h).
Let n1 := mkMapping base (padUp (segmentSize (segment 0 h))) MemoryType.CODE_STATIC READ_EXECUTE.
Let n2 := mkMapping (base + mo1) (padUp (segmentSize (segment 1 h))) MemoryType.PROCESS_MEM READ_ONLY.
Let n3 := mkMapping (base + mo2) (padUp (segmentSize (segment 2 h) + bssSize (segment 2 h)))
            MemoryType.PROCESS_MEM READ_WRITE.

Lemma hole_wf : wf_mapping u.
Proof using Hw. destruct (wf_mappings_middle _ _ _ Hw) as (_ & [Wu _] & _). by apply Forall_inv in Wu. Qed.

(** The three sizes and how they follow each other. *)
Lemma module_bounds :
  let p0 := padUp (segmentSize (segment 0 h)) in
  let p1 := padUp (segmentSize (segment 1 h)) in
  0 < p0 /\ 0 < p1 /\ 0 < mo1 <= p0 /\ mo1 < mo2 <= mo1 + p1 /\ p0 <= mo1 + p1 /\
  mo1 + p1 <= span h /\ mo2 < span h.
Proof using Hh.
  destruct Hh as [L1 L2 L3 L4 L5 L6 L7 L8 L9 L10]. fold mo1 in L6, L8, L9. fold mo2 in L7, L9, L10.
  pose proof (padUp_bounds (segmentSize (segment 0 h)) ltac:(lia)) as [B0 _].
  pose proof (padUp_bounds (segmentSize (segment 1 h)) ltac:(lia)) as [B1 _].
  pose proof (padUp_bounds (segmentSize (segment 2 h) + bssSize (segment 2 h)) ltac:(lia)) as [B2 D2].
  pose proof (padUp_page (segmentSize (segment 0 h)) mo1 ltac:(lia) L6 ltac:(lia)) as P1.
  assert ((PAGE_SIZE | mo2 - mo1)) as D by (by apply Z.divide_sub_r).
  pose proof (padUp_page (segmentSize (segment 1 h)) (mo2 - mo1) ltac:(lia) D ltac:(lia)) as P2.
  assert (0x1000 <= padUp (segmentSize (segment 1 h))) as G1.
  { destruct (padUp_bounds (segmentSize (segment 1 h)) ltac:(lia)) as [_ [q Hq]].
    change PAGE_SIZE with 0x1000 in Hq. lia. }
  assert (0x1000 <= padUp (segmentSize (segment 2 h) + bssSize (segment 2 h))) as G2.
  { destruct D2 as [q Hq]. change PAGE_SIZE with 0x1000 in Hq. lia. }
  cbv zeta. unfold span. fold mo2. repeat split; lia.
Qed.

Lemma segments_wf : wf_mapping n1 /\ wf_mapping n2 /\ wf_mapping n3.
Proof using Hh Hpage H0 Hu2 Hw.
  pose proof module_bounds as (B1 & B2 & B3 & B4 & B5 & B6 & B7). pose proof hole_wf as [_ _ W _ _].
  destruct Hh as [L1 L2 L3 L4 L5 L6 L7 L8 L9 L10]. fold mo1 in L6. fold mo2 in L7.
  unfold n1, n2, n3. unfold span in *. fold mo2 in Hu2, B6, B7.
  split; [|split]; apply wf_mapping_intro; try lia; try (by apply Z.divide_add_r); try done.
  all: apply padUp_bounds; lia.
Qed.

(** The parts the mappings are cut into, by their numbers. *)
Local Ltac cut := unfold rightPart, set_size, n1, n2, n3; cbn [MemoryMapper.base size type permissions].

Lemma mapRegions_ok : exists la lb,
  mapRegion base (size n1) (type n1) (permissions n1) (l1 ++ [u] ++ l2) = Ok la /\
  mapRegion (base + mo1) (size n2) (type n2) (permissions n2) la = Ok lb /\
  mapRegion (base + mo2) (size n3) (type n3) (permissions n3) lb = Ok (l1 ++ afterModule base h u ++ l2) /\
  wf_mappings (l1 ++ afterModule base h u ++ l2).
Proof using Hh Hpage H0 Hu1 Hu2 Hw.
  pose proof module_bounds as (B1 & B2 & B3 & B4 & B5 & B6 & B7).
  pose proof segments_wf as (W1 & W2 & W3). pose proof hole_wf as Wu.
  destruct (mapRegion_in_hole n1 W1 l1 u l2 Hw Hu1 ltac:(cbn; lia)) as [E1 Hw1].
  eexists _, _. split; [exact E1|].
  assert (forall x y z : list MemoryMapping, l1 ++ (x ++ y) ++ z = (l1 ++ x) ++ y ++ z) as Hs
    by (intros; by rewrite <-!app_assoc).
  rewrite Hs in Hw1 |- *.
  destruct (mapRegion_at_boundary n2 W2 (l1 ++ leftPart n1 u) n1 (rightPart n1 u) l2 Hw1) as [E2 Hw2];
    [cut; lia|cut; lia|cut; lia|].
  split; [exact E2|].
  set (c1 := set_size (MemoryMapper.base n2 - MemoryMapper.base n1) n1) in *.
  set (r2 := rightPart n2 (rightPart n1 u)) in *.
  assert (forall z, (l1 ++ leftPart n1 u) ++ [c1; n2; r2] ++ z = ((l1 ++ leftPart n1 u) ++ [c1]) ++ [n2; r2] ++ z)
    as Hs2 by (intros; by rewrite <-!app_assoc).
  rewrite Hs2 in Hw2 |- *.
  destruct (mapRegion_at_boundary n3 W3 ((l1 ++ leftPart n1 u) ++ [c1]) n2 r2 l2 Hw2) as [E3 Hw3];
    [unfold r2; cut; lia|unfold r2; cut; lia|unfold r2; cut; unfold span in Hu2, B6, B7; fold mo2 in Hu2, B6, B7; lia|].
  assert (((l1 ++ leftPart n1 u) ++ [c1]) ++
    [set_size (MemoryMapper.base n3 - MemoryMapper.base n2) n2; n3; rightPart n3 r2] ++ l2 =
    l1 ++ afterModule base h u ++ l2) as Efinal.
  { unfold afterModule, moduleMappings. fold mo1 mo2.
    change (if base =? MemoryMapper.base u then [] else [set_size (base - MemoryMapper.base u) u])
      with (leftPart n1 u).
    assert (c1 = mkMapping base mo1 MemoryType.CODE_STATIC READ_EXECUTE) as ->
      by (unfold c1; cut; f_equal; lia).
    assert (set_size (MemoryMapper.base n3 - MemoryMapper.base n2) n2 =
      mkMapping (base + mo1) (mo2 - mo1) MemoryType.PROCESS_MEM READ_ONLY) as -> by (cut; f_equal; lia).
    assert (rightPart n3 r2 = mkMapping (base + span h) (MemoryMapper.base u + size u - (base + span h))
      (type u) (permissions u)) as ->
      by (unfold r2; cut; unfold span; fold mo2; f_equal; lia).
    by rewrite <-!app_assoc. }
  rewrite Efinal in E3, Hw3. by split.
Qed.
End MapSegments.

Lemma addMappingK_ok b s ty q l' m m' timer k c :
  addMapping b s ty q (gMappings k, m) = Ok (l', m') ->
  addMappingK b s ty q (St m timer k c) = Ok (tt, St m' timer (set_gMappings l' k) c).
Proof. intros E. unfold addMappingK. cbn [St kernel memory fst snd]. by rewrite E. Qed.

Section MapModule.
Context (h : NSO_header) (base : Z) (u : MemoryMapping) (l1 l2 : list MemoryMapping).
Context (Hh : layout_ok h) (Hpage : (PAGE_SIZE | base)) (H0 : 0 <= base).
Context (Hu1 : MemoryMapper.base u <= base) (Hu2 : base + span h < MemoryMapper.base u + size u).
Context (Hw : wf_mappings (l1 ++ [u] ++ l2)) (Hmax : base + span h <= NUM_PAGES * PAGE_SIZE).

(** The parts in pages. *)
Lemma module_pages : exists p0 a0 b1 a1 b2 a2,
  base = PAGE_SIZE * p0 /\ padUp (segmentSize (segment 0 h)) = PAGE_SIZE * a0 /\
  memoryOffset (segment 1 h) = PAGE_SIZE * b1 /\ padUp (segmentSize (segment 1 h)) = PAGE_SIZE * a1 /\
  memoryOffset (segment 2 h) = PAGE_SIZE * b2 /\
  padUp (segmentSize (segment 2 h) + bssSize (segment 2 h)) = PAGE_SIZE * a2 /\
  0 <= p0 /\ 0 <= a0 /\ 0 <= b1 <= a0 /\ 0 <= a1 /\ b1 <= b2 <= b1 + a1 /\ 0 <= a2 /\
  a0 <= b2 + a2 /\ b1 + a1 <= b2 + a2 /\ p0 + (b2 + a2) <= NUM_PAGES.
Proof using Hh Hpage H0 Hmax.
  pose proof (module_bounds h Hh) as (B1 & B2 & B3 & B4 & B5 & B6 & B7).
  clear Hu1 Hu2. unfold span in Hmax, B6, B7.
  destruct Hh as [L1 L2 L3 L4 L5 L6 L7 L8 L9 L10].
  destruct (padUp_bounds (segmentSize (segment 0 h)) ltac:(lia)) as [_ [a0 A0]].
  destruct (padUp_bounds (segmentSize (segment 1 h)) ltac:(lia)) as [_ [a1 A1]].
  destruct (padUp_bounds (segmentSize (segment 2 h) + bssSize (segment 2 h)) ltac:(lia)) as [? [a2 A2]].
  destruct Hpage as [p0 P0], L6 as [b1 E1], L7 as [b2 E2].
  exists p0, a0, b1, a1, b2, a2. rewrite A0, A1, A2, E1, E2 in *.
  change PAGE_SIZE with 0x1000 in *. repeat split; lia.
Qed.

(** Mapping the segments: enough free pages, and a hole in the mappings. *)
Lemma mapSegments_ok m free timer k c :
  gMappings k = l1 ++ [u] ++ l2 -> mem_inv m free ->
  (missing (Z.to_nat (span h / PAGE_SIZE)) (base / PAGE_SIZE) m <= length free)%nat ->
  exists m' free', mapSegments base h (St m timer k c) =
      Ok (tt, St m' timer (set_gMappings (l1 ++ afterModule base h u ++ l2) k) c) /\
    mem_inv m' free' /\ region_mapped base (span h) m' /\
    forall a v, 0 <= a -> guest m a = Some v -> guest m' a = Some v.
Proof using Hh Hpage H0 Hu1 Hu2 Hw Hmax.
  intros Hk Hi Hfree. destruct (mapRegions_ok h base u l1 l2 Hh Hpage H0 Hu1 Hu2 Hw) as (la & lb & E1 & E2 & E3 & _).
  destruct module_pages as (p0 & a0 & b1 & a1 & b2 & a2 & P0 & A0 & B1 & A1 & B2 & A2 & C0 & C1 & C2 & C3 & C4 & C5 & C6 & C7 & C8).
  assert (span h = PAGE_SIZE * (b2 + a2)) as Hs by (unfold span; rewrite B2, A2; lia).
  cbn [size type permissions] in E1, E2, E3. rewrite A0 in E1. rewrite A1, B1, P0 in E2. rewrite A2, B2, P0 in E3.
  rewrite P0 in E1. rewrite <-Z.mul_add_distr_l in E2, E3.
  rewrite Hs, P0, !(Z.mul_comm PAGE_SIZE), !Z.div_mul in Hfree by done.
  assert (mapping_span p0 (Z.to_nat (b2 + a2)) m m free) as S0 by (constructor; done).
  destruct (map_part p0 _ m m free p0 a0 MemoryType.CODE_STATIC _ _ la S0 C0 ltac:(lia) C1 ltac:(lia) ltac:(lia) ltac:(done) E1)
    as (m1 & free1 & F1 & S1 & M1 & _).
  destruct (map_part p0 _ m m1 free1 (p0 + b1) a1 MemoryType.PROCESS_MEM _ _ lb S1 C0 ltac:(lia) C3 ltac:(lia) ltac:(lia) ltac:(done) E2)
    as (m2 & free2 & F2 & S2 & M2 & K2).
  destruct (map_part p0 _ m m2 free2 (p0 + b2) a2 MemoryType.PROCESS_MEM _ _ _ S2 C0 ltac:(lia) C5 ltac:(lia) ltac:(lia) ltac:(done) E3)
    as (m3 & free3 & F3 & [S3 _ S5] & M3 & K3).
  exists m3, free3. rewrite <-P0 in E1. split; [|split; [done|split; [|done]]].
  - destruct Hh as [L1 L2 L3 L4 L5 L6 L7 L8 L9 L10]. unfold mapSegments. rewrite L1.
    rewrite NUM_PAGES_eq in *. change PAGE_SIZE with 0x1000 in *.
    assert (forall x, 0 <= x < 2 ^ 64 -> u64 x = x) as Hu by (intros; by apply wrap_id).
    assert (u32 (segmentSize (segment 2 h) + bssSize (segment 2 h)) =
      segmentSize (segment 2 h) + bssSize (segment 2 h)) as -> by (apply wrap_id; unfold uint; lia).
    rewrite !Hu, !padded_ok by lia. rewrite A0, A1, A2, B1, B2, P0.
    rewrite <-Hk in F1.
    rewrite (bind_ok _ _ _ _ _ (addMappingK_ok _ _ _ _ _ _ _ timer k c F1)).
    replace (0x1000 * b1 + 0x1000 * p0) with (0x1000 * (p0 + b1)) by lia.
    rewrite (bind_ok _ _ _ _ _ (addMappingK_ok _ _ _ _ _ _ _ timer (set_gMappings la k) c F2)).
    replace (0x1000 * b2 + 0x1000 * p0) with (0x1000 * (p0 + b2)) by lia.
    by rewrite (addMappingK_ok _ _ _ _ _ _ _ timer (set_gMappings lb (set_gMappings la k)) c F3), <-P0.
  - replace (span h) with (base + span h - base) by lia. apply (pages_region _ _ m3 p0 (b2 + a2)); try lia.
    intros j Hj. destruct (Z_lt_le_dec j (p0 + b1)) as [|]; [apply K3 with p0 a0; [by apply K2|lia]|].
    destruct (Z_lt_le_dec j (p0 + b2)); [apply K3 with (p0 + b1) a1; [done|lia]|apply M3; lia].
Qed.
End MapModule.

(** ** Loading a module *)

Lemma length_imageOf h text rodata data : layout_ok h ->
  Z.of_nat (length text) = segmentSize (segment 0 h) ->
  Z.of_nat (length rodata) = segmentSize (segment 1 h) ->
  Z.of_nat (length data) = segmentSize (segment 2 h) ->
  Z.of_nat (length (imageOf h text rodata data)) =
    memoryOffset (segment 2 h) + segmentSize (segment 2 h) + bssSize (segment 2 h).
Proof.
  intros [] E0 E1 E2. unfold imageOf. rewrite !length_app, !Nat2Z.inj_add, !length_zeros by lia. lia.
Qed.

Lemma imageOf_bytes h text rodata data :
  Forall (uint 8) text -> Forall (uint 8) rodata -> Forall (uint 8) data ->
  Forall (uint 8) (imageOf h text rodata data).
Proof.
  assert (forall n, Forall (uint 8) (zeros n)) as Hz by (intros; apply Forall_replicate; unfold uint; lia).
  intros. unfold imageOf. rewrite !Forall_app. repeat split; auto.
Qed.

(** The next module goes behind this one. *)
Lemma placeModule_next h base len (l : LoaderState) : layout_ok h ->
  len = memoryOffset (segment 2 h) + segmentSize (segment 2 h) + bssSize (segment 2 h) ->
  nextFreeAddress l = base -> 0 <= base -> (0x8000000 | base) -> base + span h <= NUM_PAGES * PAGE_SIZE ->
  (0x8000000 | nextFreeAddress (placeModule len l)) /\
  base + span h <= nextFreeAddress (placeModule len l).
Proof.
  intros [] -> Hl H0 [q Hq] Hmax. unfold placeModule. cbn [nextFreeAddress]. rewrite Hl.
  set (len := memoryOffset _ + _ + _).
  destruct (padUp_bounds (segmentSize (segment 2 h) + bssSize (segment 2 h)) ltac:(lia)) as [B [q2 D]].
  destruct lay_data_page0 as [q1 D1]. unfold span in *.
  rewrite NUM_PAGES_eq in Hmax. change PAGE_SIZE with 0x1000 in *.
  assert (u64 (base + len) = base + len) as -> by (apply wrap_id; unfold uint; lia).
  pose proof (Z.div_mod (base + len) 0x8000000 ltac:(lia)).
  pose proof (Z.mod_pos_bound (base + len) 0x8000000 ltac:(lia)).
  set (r := (base + len) mod 0x8000000) in *. set (d := (base + len) / 0x8000000) in *.
  assert (u64 (base + len + (0x8000000 - r)) = base + len + (0x8000000 - r)) as ->
    by (apply wrap_id; unfold uint; lia).
  split; [exists (d + 1); lia|].
  assert (base + len + (0x8000000 - r) = 0x1000 * (0x8000 * (d + 1))) as E by lia. rewrite E.
  pose proof (padUp_page (segmentSize (segment 2 h) + bssSize (segment 2 h))
    (0x1000 * (0x8000 * (d + 1) - 1 - q1 - 0x8000 * q)) ltac:(lia)) as P. lia.
Qed.

Lemma ask_ok {Mem A} (a : A) (s : Machine (Mem * KState)) : ask (Ok a) s = Ok (a, s).
Proof. done. Qed.

Section LoadNso.
Context `{LoaderHost}.

(** The image of a file in guest memory. *)
Lemma writeImage_ok base image m free timer k c :
  mem_inv m free -> region_mapped base (Z.of_nat (length image)) m ->
  Z.of_nat (length image) < 2 ^ 32 -> Forall (uint 8) image ->
  exists m', writeRegionK base image (St m timer k c) = Ok (tt, St m' timer k c) /\ mem_inv m' free /\
    forall a, 0 <= a -> guest m' a =
      if (base <=? a) && (a <? base + Z.of_nat (length image))
      then Some (nth (Z.to_nat (a - base)) image 0) else guest m a.
Proof.
  intros Hi Hr Hl Hb. destruct (writeRegion_spec m free base image Hi Hr Hl Hb) as (m' & E & Hi' & _ & Hg).
  exists m'. split; [|done]. unfold writeRegionK, onMemory. cbn [St memory fst snd mwriteRegion MemState_PageAdmin].
  by rewrite E.
Qed.

(** C26: loading a module: a file whose segments decompress, in a layout that leaves no
    page between them, with a hole in the mappings and enough free pages, is loaded: the
    mapper gets the three mappings with their permissions in place of a part of the
    hole, guest memory reads as the segments at their offsets, with zeros between and
    behind them, no other byte of it changes, and the address of the next module is
    behind the last mapping, at a multiple of 0x8000000; the loader goes on with the
    symbols and libraries of the module, if it has a module header. *)
Theorem loadNso_loads_module loadExe buffer h o text rodata data off mh m free timer k c l1 u l2 :
  let base := nextFreeAddress (loader k) in
  let image := imageOf h text rodata data in
  readNsoHeader buffer = Ok (h, o) -> layout_ok h ->
  unpacks buffer (segment 0 h) (nth 0 (segmentSizes h) 0) text ->
  unpacks buffer (segment 1 h) (nth 1 (segmentSizes h) 0) rodata ->
  unpacks buffer (segment 2 h) (nth 2 (segmentSizes h) 0) data ->
  modOffset image = Ok off -> readModHeader image off = Ok mh ->
  0 <= base -> (0x8000000 | base) -> base + span h <= NUM_PAGES * PAGE_SIZE ->
  gMappings k = l1 ++ [u] ++ l2 -> wf_mappings (l1 ++ [u] ++ l2) ->
  MemoryMapper.base u <= base -> base + span h < MemoryMapper.base u + size u ->
  mem_inv m free -> (missing (Z.to_nat (span h / PAGE_SIZE)) (base / PAGE_SIZE) m <= length free)%nat ->
  exists m' free' k',
    loadNso loadExe buffer (St m timer k c) =
      ((if modMagic mh =? MOD_MAGIC then loadMod loadExe image base (u32 (dynamic mh + off)) else mret tt);;
       (mret true : K MemState bool)) (St m' timer k' c) /\
    gMappings k' = l1 ++ afterModule base h u ++ l2 /\
    loadedModules (loader k') = loadedModules (loader k) ++ [newModObject base] /\
    (0x8000000 | nextFreeAddress (loader k')) /\ base + span h <= nextFreeAddress (loader k') /\
    mem_inv m' free' /\
    (forall i, (i < length image)%nat -> guest m' (base + Z.of_nat i) = image !! i) /\
    (forall a v, 0 <= a -> ~ (base <= a < base + Z.of_nat (length image)) ->
       guest m a = Some v -> guest m' a = Some v).
Proof.
  intros base image Hh Hlay U0 U1 U2 Hoff Hmh H0 Hpage Hmax Hk Hw Hu1 Hu2 Hi Hfree.
  pose proof (length_imageOf h text rodata data Hlay (up_length _ _ _ _ U0) (up_length _ _ _ _ U1)
    (up_length _ _ _ _ U2)) as Hlen. fold image in Hlen.
  pose proof (imageOf_bytes h _ _ _ (up_bytes _ _ _ _ U0) (up_bytes _ _ _ _ U1) (up_bytes _ _ _ _ U2)) as Hb.
  assert ((PAGE_SIZE | base)) as Hp by (eapply Z.divide_trans; [|exact Hpage]; by exists 0x8000).
  set (k1 := set_loader (placeModule (Z.of_nat (length image)) (seek o (loader k))) k).
  destruct (mapSegments_ok h base u l1 l2 Hlay Hp H0 Hu1 Hu2 Hw Hmax m free timer k1 c Hk Hi Hfree)
    as (m1 & free1 & E1 & Hi1 & [Hr1 [Hr2 Hr3]] & Hg1).
  set (k2 := set_gMappings (l1 ++ afterModule base h u ++ l2) k1) in *.
  assert (Z.of_nat (length image) <= span h) as Hspan.
  { rewrite Hlen. unfold span. destruct Hlay.
    pose proof (padUp_bounds (segmentSize (segment 2 h) + bssSize (segment 2 h)) ltac:(lia)). lia. }
  destruct (writeImage_ok base image m1 free1 timer k2 c Hi1) as (m2 & E2 & Hi2 & Hg2); try done.
  { split; [done|]. split; [lia|]. intros a Ha. apply Hr3. lia. }
  { rewrite Hlen. destruct Hlay. lia. }
  destruct (placeModule_next h base _ (seek o (loader k)) Hlay Hlen eq_refl H0 Hpage Hmax) as [N1 N2].
  exists m2, free1, k2. split; [|split; [done|split; [done|split; [done|split; [done|split; [done|]]]]]].
  - unfold loadNso. rewrite Hh, (bind_ok _ _ _ _ _ (ask_ok _ _)). cbn [fst snd].
    rewrite (bind_ok _ _ _ tt (St m timer (set_loader (seek o (loader k)) k) c)) by done.
    rewrite (loadImage_ok buffer h o text rodata data Hh Hlay U0 U1 U2), (bind_ok _ _ _ _ _ (ask_ok _ _)).
    fold image. rewrite Hoff, (bind_ok _ _ _ _ _ (ask_ok _ _)), Hmh, (bind_ok _ _ _ _ _ (ask_ok _ _)).
    rewrite (bind_ok _ _ _ (seek o (loader k)) (St m timer (set_loader (seek o (loader k)) k) c)) by done.
    change (nextFreeAddress (seek o (loader k))) with base. cbv zeta.
    rewrite (bind_ok _ _ _ tt (St m timer k1 c)) by done.
    by rewrite (bind_ok _ _ _ _ _ E1), (bind_ok _ _ _ _ _ E2).
  - split.
    + intros i Hlt. rewrite Hg2 by lia.
      rewrite (proj2 (Z.leb_le _ _)), (proj2 (Z.ltb_lt _ _)) by lia. cbn [andb].
      replace (Z.to_nat (base + Z.of_nat i - base)) with i by lia.
      destruct (nth_lookup_or_length image i 0) as [->|]; [done|lia].
    + intros a v Ha Hn Hv. rewrite Hg2 by done. destruct (Z.leb_spec base a), (Z.ltb_spec a (base + Z.of_nat (length image)));
        cbn [andb]; [lia| | |]; by apply Hg1.
Qed.
End LoadNso.

(** ** A file *)

Section Example.

(** A host on which compressed data is the data itself. *)
#[local] Instance stored_host : LoaderHost := {
  hostFile _ := None;
  LZ4_decompress_safe src cap :=
    if Z.of_nat (length src) <=? cap then (Z.of_nat (length src), src) else (-1, []);
}.

(** Eight bytes of text, which name the offset of the module header, 28 bytes of read-only
    data, four bytes of data and eight more of zeros. *)
Definition word4 (n : Z) : list Z := [n mod 256; n / 256 mod 256; n / 65536 mod 256; n / 16777216].
Definition nso_example : list Z :=
  word4 0x304F534E ++ replicate 12 0 ++
  word4 0x100 ++ word4 0 ++ word4 8 ++ word4 0 ++
  word4 0x108 ++ word4 0x1000 ++ word4 28 ++ word4 0 ++
  word4 0x124 ++ word4 0x2000 ++ word4 4 ++ word4 8 ++
  replicate 32 0 ++ word4 8 ++ word4 28 ++ word4 4 ++ replicate 148 0 ++
  word4 0x11223344 ++ word4 0x1000 ++ replicate 28 7 ++ word4 0xABCD.

Definition nso_example_header : NSO_header :=
  match readNsoHeader nso_example with Ok (h, _) => h | Err _ => mkNsoHeader [] 0 [] [] end.

Lemma nso_example_layout : layout_ok nso_example_header.
Proof.
  constructor; try (vm_compute; done); try (vm_compute; repeat split; congruence).
  - by exists 1.
  - by exists 2.
Qed.

Lemma nso_example_unpacks :
  unpacks nso_example (segment 0 nso_example_header) 8 (word4 0x11223344 ++ word4 0x1000) /\
  unpacks nso_example (segment 1 nso_example_header) 28 (replicate 28 7) /\
  unpacks nso_example (segment 2 nso_example_header) 4 (word4 0xABCD).
Proof.
  assert (forall l, forallb (fun b => (0 <=? b) && (b <? 256)) l = true -> Forall (uint 8) l) as Hb.
  { intros l Hl. apply Forall_forall. intros b Hin. rewrite forallb_forall in Hl.
    specialize (Hl b ltac:(by apply list_elem_of_In)). apply andb_true_iff in Hl as [?%Z.leb_le ?%Z.ltb_lt].
    unfold uint. lia. }
  repeat split; try (apply Hb; reflexivity); try reflexivity; eexists; (split; vm_compute; reflexivity).
Qed.

Lemma empty_missing n b m : gMainPageTable m = ∅ -> missing n b m = n.
Proof.
  intros Ht. revert b. induction n as [|n IH]; intros b; [done|]. cbn [missing]. rewrite IH.
  unfold entry. by rewrite Ht, lookup_empty.
Qed.

Lemma loadNso_loads_module_witness : exists m free timer c k,
  mem_inv m free /\ exists m' k' base,
    loadNso (fun _ => mret false) nso_example (St m timer k c) = Ok (true, St m' timer k' c) /\
    base = 0x8000000 /\ guest m' base = Some 0x44 /\ guest m' (base + 0x1000) = Some 7 /\
    guest m' (base + 0x2004) = Some 0 /\ 0x8003000 <= nextFreeAddress (loader k').
Proof.
  destruct (init_inv 0x10000 0x4000 ltac:(lia) ltac:(lia) ltac:(lia) eq_refl) as (m & _ & Hi & Ht & _).
  set (k := set_gMappings [unmapped_space] (kernel_static [])).
  destruct nso_example_unpacks as (U0 & U1 & U2).
  destruct (loadNso_loads_module (fun _ => mret false) nso_example nso_example_header 0x100
    (word4 0x11223344 ++ word4 0x1000) (replicate 28 7) (word4 0xABCD) 0x1000 (mkModHeader 0x07070707 0x07070707)
    m _ 0 k (core_example 0) [] unmapped_space [] ltac:(vm_compute; reflexivity) nso_example_layout U0 U1 U2
    ltac:(vm_compute; reflexivity) ltac:(vm_compute; reflexivity) ltac:(cbn; lia) ltac:(by exists 1)
    ltac:(vm_compute; congruence) eq_refl unmapped_space_wf ltac:(cbn; lia) ltac:(vm_compute; congruence) Hi)
    as (m' & free' & k' & E & _ & _ & _ & Hn & _ & Hg & _).
  { rewrite empty_missing by done. vm_compute. lia. }
  eexists m, _, 0, (core_example 0), k. split; [exact Hi|]. exists m', k', 0x8000000.
  split; [exact E|]. split; [done|].
  pose proof (Hg 0%nat ltac:(vm_compute; lia)) as G0. pose proof (Hg 0x1000%nat ltac:(vm_compute; lia)) as G1.
  pose proof (Hg 0x2004%nat ltac:(vm_compute; lia)) as G2.
  split; [exact G0|]. split; [exact G1|]. split; [exact G2|]. exact Hn.
Defined.
End Example.
