(* ===== verification/LoaderModules.v ===== *)
(** * Modules and libraries

    What every run of the loader keeps, whatever the files are: modules stand one behind
    the other.  And runs that do not end. *)
From stdpp Require Import strings pretty.
From S2P Require Import Prelude BitUtils Instructions Core Machine Memory HandleManager MemoryMapper.
From S2P Require Import MemoryInv Thread LoaderFormat KernelState Scheduler KernelLemmas SchedulerSpec.
From S2P Require Import SchedulerSafety Ipc SmService Svc Loader MapperSpec LoaderSpec.
#[global] Open Scope Z_scope.

(** ** What a run of the loader does to its state *)

(** The four ways it changes. *)
Record loader_closed (I : LoaderState -> Prop) : Prop := {
  lc_seek o l : I l -> I (seek o l);
  lc_prog p l : I l -> I (set_prog p l);
  lc_place n l : I l -> I (placeModule n l);
  lc_symbols base syms l : I l -> I (addSymbols base syms l);
}.

Section Preserves.
Context {Mem : Type} `{GuestMemory Mem} `{PageAdmin Mem} `{LoaderHost}.
Context (I : LoaderState -> Prop).

Definition loaderOf (s : Machine (Mem * KState)) : LoaderState := loader (kernel s).

Definition preserves {A} (f : K Mem A) : Prop := forall s a s',
  f s = Ok (a, s') -> I (loaderOf s) -> I (loaderOf s').

Lemma preserves_ret {A} (a : A) : preserves (mret a).
Proof. by intros s b s' [= _ <-]. Qed.

Lemma preserves_fail {A} e : preserves (fail e : K Mem A).
Proof. by intros s b s' ?. Qed.

Lemma bind_inv {A B} (f : K Mem A) (g : A -> K Mem B) s b s' :
  (a ← f; g a) s = Ok (b, s') -> exists a s1, f s = Ok (a, s1) /\ g a s1 = Ok (b, s').
Proof.
  unfold mbind, K_bind, M_bind. destruct (f s) as [[a s1]|]; [|done]. intros E. by exists a, s1.
Qed.

Lemma preserves_bind {A B} (f : K Mem A) (g : A -> K Mem B) :
  preserves f -> (forall a, preserves (g a)) -> preserves (a ← f; g a).
Proof.
  intros Hf Hg s b s' E HI. apply bind_inv in E as (a & s1 & E1 & E2).
  apply (Hg a s1 b s' E2), (Hf s a s1 E1 HI).
Qed.

Lemma preserves_if {A} (b : bool) (f g : K Mem A) :
  preserves f -> preserves g -> preserves (if b then f else g).
Proof. by destruct b. Qed.

Lemma preserves_ask {A} (r : result A) : preserves (ask r : K Mem A).
Proof. destruct r; [apply preserves_ret|apply preserves_fail]. Qed.

Lemma preserves_getLoader : preserves getLoader.
Proof. by intros s l s' [= _ <-]. Qed.

Lemma preserves_modLoader f : (forall l, I l -> I (f l)) -> preserves (modLoader f).
Proof. intros Hf s l s' [= _ <-] HI. by apply Hf. Qed.

(** What touches the memory or the mapper alone. *)
Lemma preserves_writeRegion addr data : preserves (writeRegionK addr data).
Proof.
  intros s a s'. unfold writeRegionK, onMemory, loaderOf, kernel.
  destruct (mwriteRegion addr data (fst (memory s))); [|done]. by intros [= _ <-].
Qed.

Lemma preserves_addMapping b n ty q : preserves (addMappingK b n ty q).
Proof.
  intros s a s'. unfold addMappingK. destruct (addMapping _ _ _ _ _) as [[l m]|]; [|done]. by intros [= _ <-].
Qed.

Lemma preserves_write64 addr data : preserves (write64 addr data).
Proof.
  intros s a s'. unfold write64, mem_write. intros E. apply bind_inv in E as (t & s1 & E1 & E2).
  assert (loaderOf s1 = loaderOf s) as <-.
  { revert E1. unfold breakpointTest. destruct (mbreakpoint _ _); by intros [= _ <-]. }
  revert E2. unfold onMemory, loaderOf, kernel. cbn [mwrite Kernel_GuestMemory].
  destruct (mwrite 8 (u64 addr) data (fst (memory s1))); [|done]. by intros [= _ <-].
Qed.

Context (HI : loader_closed I).

#[local] Hint Resolve preserves_ret preserves_fail preserves_ask preserves_getLoader
  preserves_writeRegion preserves_addMapping preserves_write64 : core.

Lemma preserves_seek o : preserves (modLoader (seek o)).
Proof using HI. apply preserves_modLoader. intros l. apply HI. Qed.

Lemma preserves_onProgram f : preserves (onProgram f).
Proof using HI.
  repeat (apply preserves_bind; [auto|intros]). apply preserves_modLoader. intros l Hl.
  apply HI, HI, Hl.
Qed.
#[local] Hint Resolve preserves_seek preserves_onProgram : core.

(** The steps of a function one after the other. *)
Ltac steps :=
  repeat first
    [ progress auto
    | apply preserves_bind; [|intros ?]
    | apply preserves_if
    | match goal with |- preserves (match ?x with _ => _ end) => destruct x end ].

(** *** ELF *)

Lemma preserves_readProgramHeaders buffer : preserves (readProgramHeaders buffer).
Proof using HI.
  unfold readProgramHeaders. steps. generalize 0 as i.
  generalize (Z.to_nat (e_phnum (eh (prog a)))) as n. intros n.
  induction n as [|n IH]; intros i; cbn [readProgramHeadersLoop]; unfold loadProgramHeader; steps.
Qed.
#[local] Hint Resolve preserves_readProgramHeaders : core.

Lemma preserves_relocateSection n : forall i offset buffer p, preserves (relocateSection n i offset buffer p).
Proof using HI.
  induction n as [|n IH]; intros i offset buffer p; cbn [relocateSection]; unfold relocate; steps.
Qed.
#[local] Hint Resolve preserves_relocateSection : core.

Lemma preserves_loadRelocations buffer p l : preserves (loadRelocations buffer p l).
Proof using HI.
  induction l as [|section l IH]; cbn [loadRelocations]; steps.
Qed.
#[local] Hint Resolve preserves_loadRelocations : core.

Lemma preserves_loadElf buffer : preserves (loadElf buffer).
Proof using HI.
  unfold loadElf. steps.
Qed.
#[local] Hint Resolve preserves_loadElf : core.

(** *** NSO, and files *)

Section Libraries.
Context (loadLib : string -> K Mem bool) (Hlib : forall path, preserves (loadLib path)).

Lemma preserves_loadLibraries image m i needed : preserves (loadLibraries loadLib image m i needed).
Proof using HI Hlib.
  revert i. induction needed as [|n needed IH]; intros i; cbn [loadLibraries]; steps.
Qed.
#[local] Hint Resolve preserves_loadLibraries : core.

Lemma preserves_loadModSymbols image m : preserves (loadModSymbols image m).
Proof using HI.
  unfold loadModSymbols. steps. apply preserves_modLoader. intros l. apply HI.
Qed.
#[local] Hint Resolve preserves_loadModSymbols : core.

Lemma preserves_loadMod image base off : preserves (loadMod loadLib image base off).
Proof using HI Hlib.
  unfold loadMod. steps.
Qed.
#[local] Hint Resolve preserves_loadMod : core.

Lemma preserves_loadNso buffer : preserves (loadNso loadLib buffer).
Proof using HI Hlib.
  unfold loadNso, mapSegments. steps.
  apply preserves_modLoader. intros l'. apply HI.
Qed.
End Libraries.
#[local] Hint Resolve preserves_loadNso : core.

Lemma preserves_loadExe fuel : forall path, preserves (loadExe fuel path).
Proof using HI.
  induction fuel as [|fuel IH]; intros path; cbn [loadExe]; steps.
Qed.
End Preserves.

(** ** Modules stand one behind the other *)

(** The modules and the sizes of their places, from one address to the next free one;
    addresses are 64-bit integers. *)
Fixpoint placed (b : Z) (modules : list ModObject) (sizes : list Z) (next : Z) : Prop :=
  match modules, sizes with
  | [], [] => next = b
  | m :: modules, s :: sizes =>
      module_base m = b /\ (0x8000000 | s) /\ placed (u64 (b + s)) modules sizes next
  | _, _ => False
  end.

Record modules_ok (l : LoaderState) : Prop := {
  mo_placed : placed 0x8000000 (loadedModules l) (loadedModulesSizes l) (nextFreeAddress l);
  mo_aligned : (0x8000000 | nextFreeAddress l);
}.

Lemma divide_u64 x : (0x8000000 | x) -> (0x8000000 | u64 x).
Proof.
  intros [q ->]. unfold u64, wrap. exists (q mod 2 ^ 37).
  replace (2 ^ 64) with (2 ^ 37 * 0x8000000) by reflexivity.
  by rewrite Z.mul_mod_distr_r.
Qed.

Lemma placed_snoc modules sizes m next' : forall b next,
  placed b modules sizes next -> module_base m = next -> uint 64 next' ->
  (0x8000000 | next) -> (0x8000000 | next') ->
  placed b (modules ++ [m]) (sizes ++ [u64 (next' - next)]) next'.
Proof.
  revert sizes. induction modules as [|m1 modules IH]; intros [|s sizes] b next Hp Hm Hn D D'; try done.
  - cbn in *. subst b. split; [done|]. split; [by apply divide_u64, Z.divide_sub_r|].
    unfold u64. rewrite wrap_add_r. replace (next + (next' - next)) with next' by lia. by rewrite wrap_id.
  - cbn in *. destruct Hp as (E & Ds & Hp). split; [done|]. split; [done|]. by apply IH.
Qed.

Lemma modules_closed : loader_closed modules_ok.
Proof.
  constructor; try by intros ? ? [].
  - intros n l [Hp Ha]. unfold placeModule.
    set (next := u64 (u64 (nextFreeAddress l + n) + _)).
    assert ((0x8000000 | next)) as Hn.
    { apply divide_u64. set (x := u64 (nextFreeAddress l + n)). exists (x / 0x8000000 + 1).
      pose proof (Z.div_mod x 0x8000000 ltac:(lia)). lia. }
    constructor; [|done]. cbn [loadedModules loadedModulesSizes nextFreeAddress].
    apply (placed_snoc _ _ _ next 0x8000000 (nextFreeAddress l)); try done. apply wrap_uint. lia.
  - intros base syms l Hl. unfold addSymbols. revert l Hl.
    induction syms as [|s syms IH]; intros l Hl; [done|]. cbn [foldl]. apply IH.
    destruct (isGlobal s); [|done]. by destruct Hl.
Qed.


(** ** Libraries *)

(** A file that is a module and needs a library: what [loadNso] computes of it before it
    touches the guest. *)
Record needs_library `{LoaderHost} (file : list Z) : Prop := {
  nl_type : exists o, getFileType file = Ok (1, o);
  nl_module : exists h o image off mh, readNsoHeader file = Ok (h, o) /\
    loadImage file h = Ok (Some image) /\ modOffset image = Ok off /\
    readModHeader image off = Ok mh /\ modMagic mh = MOD_MAGIC /\
    forall base m needed,
      readDynamic (S (length image)) image (u32 (dynamic mh + off)) (newModObject base) = Ok (m, needed) ->
      needed <> [];
}.

Section Sdk.
Context {Mem : Type} `{GuestMemory Mem} `{PageAdmin Mem} `{LoaderHost}.

Lemma path_closed root : loader_closed (fun l => workingPath l = root).
Proof.
  constructor; try done. intros base syms l Hl. unfold addSymbols. revert l Hl.
  induction syms as [|s syms IH]; intros l Hl; [done|]. cbn [foldl]. apply IH. by destruct (isGlobal s).
Qed.

(** The last of the libraries is the file [sdk]. *)
Lemma loadLibraries_sdk (loadLib : string -> K Mem bool) root image m needed :
  (forall path, preserves (fun l => workingPath l = root) (loadLib path)) ->
  forall i s a s', loadLibraries loadLib image m i needed s = Ok (a, s') ->
  workingPath (loaderOf s) = root -> needed <> [] ->
  exists s1 r s2, loadLib (root +:+ "sdk") s1 = Ok (r, s2) /\ workingPath (loaderOf s1) = root.
Proof.
  intros Hlib. induction needed as [|n needed IH]; intros i s a s' E Hs Hn; [done|].
  cbn [loadLibraries] in E. apply bind_inv in E as (name & s1 & E1 & E).
  apply bind_inv in E as (l & s2 & E2 & E). injection E2 as <- <-.
  apply bind_inv in E as (r & s3 & E3 & E).
  assert (workingPath (loaderOf s1) = root) as Hw
    by (eapply (preserves_ask (fun l => workingPath l = root)); [exact E1|done]).
  fold (loaderOf s1) in E3. rewrite Hw in E3. destruct needed as [|n2 needed].
  - by exists s1, r, s3.
  - apply (IH (i + 1) s3 a s' E); [|done]. by apply (Hlib _ _ _ _ E3).
Qed.

(** A module that needs a library gets to the part that loads them. *)
Lemma loadNso_libraries (loadLib : string -> K Mem bool) root file s r s' :
  (forall path, preserves (fun l => workingPath l = root) (loadLib path)) ->
  needs_library file -> loadNso loadLib file s = Ok (r, s') -> workingPath (loaderOf s) = root ->
  exists s1 r s2, loadLib (root +:+ "sdk") s1 = Ok (r, s2) /\ workingPath (loaderOf s1) = root.
Proof.
  intros Hlib [_ (h & oh & image & off & mh & Hh & Hi & Ho & Hm & Hmagic & Hn)] E Hs.
  unfold loadNso in E. rewrite Hh in E. apply bind_inv in E as (t & s1 & [= <- <-] & E).
  cbn [fst snd] in E. rewrite Hi in E. apply bind_inv in E as (t & s2 & E2 & E).
  apply bind_inv in E as (t' & s3 & [= <- <-] & E). rewrite Ho in E.
  apply bind_inv in E as (t' & s3 & [= <- <-] & E). rewrite Hm in E.
  apply bind_inv in E as (t' & s3 & [= <- <-] & E).
  apply bind_inv in E as (l & s3 & E3 & E). apply bind_inv in E as (t' & s4 & E4 & E).
  apply bind_inv in E as (t2 & s5 & E5 & E). apply bind_inv in E as (t3 & s6 & E6 & E).
  assert (workingPath (loaderOf s6) = root) as Hw.
  { pose proof (path_closed root) as Hc.
    eapply (preserves_writeRegion (fun l => workingPath l = root)); [exact E6|].
    assert (workingPath (loaderOf s4) = root) as H4.
    { injection E4 as _ <-. injection E3 as _ <-. by injection E2 as _ <-. }
    unfold mapSegments in E5. apply bind_inv in E5 as (? & ? & E51 & E5).
    apply bind_inv in E5 as (? & ? & E52 & E53).
    do 3 (eapply (preserves_addMapping (fun l => workingPath l = root)); [eassumption|]). done. }
  rewrite Hmagic in E. change (MOD_MAGIC =? MOD_MAGIC) with true in E. cbv iota in E.
  apply bind_inv in E as (t4 & s7 & E7 & _). unfold loadMod in E7.
  apply bind_inv in E7 as ([m needed] & s8 & E8 & E7). apply bind_inv in E7 as (t5 & s9 & E9 & E7).
  cbn [fst snd] in E9, E7.
  destruct (readDynamic _ image _ _) as [[m' needed']|] eqn:Ed; [|done]. injection E8 as -> -> <-.
  apply (loadLibraries_sdk loadLib root image m needed Hlib 0 s9 t4 s7 E7); [|by eapply Hn].
  by eapply (preserves_loadModSymbols (fun l => workingPath l = root)); [apply path_closed|exact E9|].
Qed.

(** the file [sdk] is loaded for the last library a module needs, and a module that
    was loaded before is loaded again: when [sdk] is a module that needs a library
    itself, loading it never returns, for any depth of libraries. *)
Theorem sdk_with_libraries_diverges root file fuel (s : Machine (Mem * KState)) r :
  readFile (root +:+ "sdk") = Some file -> needs_library file ->
  workingPath (loaderOf s) = root -> loadExe fuel (root +:+ "sdk") s <> Ok r.
Proof.
  intros Hf Hneeds. revert s r. induction fuel as [|fuel IH]; intros s [r s'] Hs E; [done|].
  cbn [loadExe] in E. rewrite Hf in E. pose proof Hneeds as [[o Ht] _].
  destruct file as [|b file]; [done|].
  rewrite Ht in E. apply bind_inv in E as (t & s1 & [= <- <-] & E).
  apply bind_inv in E as (t & s1 & E1 & E). cbn [fst snd Z.eqb] in E.
  destruct (loadNso_libraries (loadExe fuel) root (b :: file) s1 r s') as (s2 & r2 & s3 & E2 & H2); try done.
  - intros path. apply preserves_loadExe, path_closed.
  - by injection E1 as _ <-.
  - by apply (IH s2 (r2, s3) H2).
Qed.

(** *** How deep the libraries go *)

(** The files of the libraries, in the order they are loaded. *)
Fixpoint libraryFiles (i : Z) (needed : list Z) : list string :=
  match needed with
  | [] => []
  | _ :: rest => match rest with [] => "sdk" | _ => libraryFile i end :: libraryFiles (i + 1) rest
  end.

(** The module [file] names the library [lib]. *)
Definition names_library (file : list Z) (lib : string) : Prop :=
  exists h o image off mh base m needed, readNsoHeader file = Ok (h, o) /\
    loadImage file h = Ok (Some image) /\ modOffset image = Ok off /\ readModHeader image off = Ok mh /\
    readDynamic (S (length image)) image (u32 (dynamic mh + off)) (newModObject base) = Ok (m, needed) /\
    lib ∈ libraryFiles 0 needed.

Lemma bind_ext {A B} (f : K Mem A) (g1 g2 : A -> K Mem B) s :
  (forall a s1, f s = Ok (a, s1) -> g1 a s1 = g2 a s1) -> (a ← f; g1 a) s = (a ← f; g2 a) s.
Proof. intros Hg. unfold mbind, K_bind, M_bind. destruct (f s) as [[a s1]|]; [by apply Hg|done]. Qed.

Lemma bind_ext_l {A B} (f1 f2 : K Mem A) (g : A -> K Mem B) s :
  f1 s = f2 s -> (a ← f1; g a) s = (a ← f2; g a) s.
Proof. intros Hf. unfold mbind, K_bind, M_bind. by rewrite Hf. Qed.

Section Depth.
Context (root : string) (lib1 lib2 : string -> K Mem bool).
Context (Hlib : forall path, preserves (fun l => workingPath l = root) (lib1 path)).

Definition agree (name : string) : Prop :=
  forall s, workingPath (loaderOf s) = root -> lib1 (root +:+ name) s = lib2 (root +:+ name) s.

Lemma loadLibraries_ext image m needed : forall i s,
  (forall name, name ∈ libraryFiles i needed -> agree name) -> workingPath (loaderOf s) = root ->
  loadLibraries lib1 image m i needed s = loadLibraries lib2 image m i needed s.
Proof using Hlib.
  induction needed as [|n needed IH]; intros i s Ha Hs; [done|]. cbn [loadLibraries libraryFiles] in *.
  apply bind_ext. intros name s1 E1.
  assert (workingPath (loaderOf s1) = root) as Hw
    by (eapply (preserves_ask (fun l => workingPath l = root)); [exact E1|done]).
  apply bind_ext. intros l s2 [= <- <-]. fold (loaderOf s1). rewrite Hw.
  transitivity ((_ ← lib1 (root +:+ match needed with [] => "sdk" | _ => libraryFile i end);
                 loadLibraries lib2 image m (i + 1) needed) s1).
  - apply bind_ext. intros r s3 E3. apply IH; [|by apply (Hlib _ _ _ _ E3)].
    intros name' Hn. apply Ha. by apply list_elem_of_further.
  - apply bind_ext_l. apply (Ha _ (list_elem_of_here _ _) s1 Hw).
Qed.

Lemma loadMod_ext image base off s :
  (forall m needed name, readDynamic (S (length image)) image off (newModObject base) = Ok (m, needed) ->
     name ∈ libraryFiles 0 needed -> agree name) -> workingPath (loaderOf s) = root ->
  loadMod lib1 image base off s = loadMod lib2 image base off s.
Proof using Hlib.
  intros Ha Hs. unfold loadMod. apply bind_ext. intros [m needed] s1 E1.
  destruct (readDynamic _ _ _ _) as [[m' needed']|] eqn:Ed; [|done]. injection E1 as -> -> <-.
  apply bind_ext. intros [] s2 E2. apply loadLibraries_ext; [intros name Hin; by apply (Ha m needed)|].
  by eapply (preserves_loadModSymbols (fun l => workingPath l = root)); [apply path_closed|exact E2|].
Qed.

Lemma loadNso_ext file s :
  (forall name, names_library file name -> agree name) -> workingPath (loaderOf s) = root ->
  loadNso lib1 file s = loadNso lib2 file s.
Proof using Hlib.
  intros Ha Hs. pose proof (path_closed root) as Hc. unfold loadNso.
  apply bind_ext. intros [h o] s1 E1. destruct (readNsoHeader file) as [[h' o']|] eqn:Eh; [|done].
  injection E1 as -> -> <-. apply bind_ext. intros [] s2 E2.
  assert (workingPath (loaderOf s2) = root) as Hw2 by (by injection E2 as <-). clear E2.
  cbn [fst]. apply bind_ext. intros r s3 E3. destruct (loadImage file h) as [r'|] eqn:Ei; [|done].
  injection E3 as -> <-. destruct r as [image|]; [|done].
  apply bind_ext. intros off s3 E3. destruct (modOffset image) as [off'|] eqn:Eo; [|done].
  injection E3 as -> <-. apply bind_ext. intros mh s3 E3.
  destruct (readModHeader image off) as [mh'|] eqn:Em; [|done]. injection E3 as -> <-.
  apply bind_ext. intros l s3 [= <- <-]. apply bind_ext. intros [] s4 E4.
  assert (workingPath (loaderOf s4) = root) as Hw4 by (by injection E4 as <-). clear E4. cbv zeta.
  apply bind_ext. intros [] s5 E5.
  assert (workingPath (loaderOf s5) = root) as H5.
  { unfold mapSegments in E5. apply bind_inv in E5 as (? & ? & E51 & E5).
    apply bind_inv in E5 as (? & ? & E52 & E53).
    do 3 (eapply (preserves_addMapping (fun l => workingPath l = root)); [eassumption|]). done. }
  apply bind_ext. intros [] s6 E6.
  assert (workingPath (loaderOf s6) = root) as H6
    by (eapply (preserves_writeRegion (fun l => workingPath l = root)); [exact E6|done]).
  apply bind_ext_l. destruct (modMagic mh =? MOD_MAGIC); [|done].
  apply loadMod_ext; [|done]. intros m needed name Ed Hin. apply Ha.
  by exists h, o, image, off, mh, (nextFreeAddress (loader (kernel s2))), m, needed.
Qed.
End Depth.

(** Enough fuel: when every library a file names is of lower rank than the file, a fuel
    above the rank makes no difference, so that it only ends the runs that do not end. *)
Lemma loadExe_enough_fuel (rank : string -> nat) root :
  (forall path file lib, readFile (root +:+ path) = Some file -> names_library file lib ->
     (rank lib < rank path)%nat) ->
  forall f1 f2 path s, (rank path < f1)%nat -> (rank path < f2)%nat -> workingPath (loaderOf s) = root ->
  loadExe f1 (root +:+ path) s = loadExe f2 (root +:+ path) s.
Proof.
  intros Hr f1. induction f1 as [|f1 IH]; intros f2 path s Hf1 Hf2 Hs; [lia|]. destruct f2 as [|f2]; [lia|].
  cbn [loadExe]. destruct (readFile (root +:+ path)) as [file|] eqn:Ef; [|done].
  destruct file as [|b file]; [done|]. apply bind_ext. intros t s1 E1.
  destruct (getFileType (b :: file)) as [t'|]; [|done]. injection E1 as -> <-.
  apply bind_ext. intros [] s2 E2.
  assert (workingPath (loaderOf s2) = root) as Hw by (by injection E2 as <-).
  destruct (fst t =? 0); [done|]. destruct (fst t =? 1); [|done].
  apply (loadNso_ext root); [intros; apply preserves_loadExe, path_closed| |done].
  intros lib Hlib s3 Hs3. pose proof (Hr path _ lib Ef Hlib). apply IH; [lia|lia|done].
Qed.
End Sdk.

(** ** The loops inside an image *)

Lemma slice_in (data : list Z) off n b : slice data off n = Ok b -> off + n <= Z.of_nat (length data).
Proof. unfold slice. destruct (Z.leb_spec (off + n) (Z.of_nat (length data))); [done|by intros ?]. Qed.

Lemma slice_ends (data : list Z) off n : slice data off n <> Err Diverges.
Proof. unfold slice. by destruct (_ <=? _). Qed.

Lemma readDynamic_ends fuel image : forall off m, Z.of_nat (length image) < off + 16 * Z.of_nat fuel ->
  0 <= off -> (0 < fuel)%nat -> readDynamic fuel image off m <> Err Diverges.
Proof.
  induction fuel as [|fuel IH]; intros off m Hl Ho Hf; [lia|]. cbn [readDynamic].
  destruct (slice image off 16) as [bytes|e] eqn:Es.
  - cbn [mbind result_bind d_tag]. destruct (_ =? DT_NULL); [done|].
    apply slice_in in Es. destruct fuel as [|fuel]; [lia|].
    specialize (IH (off + 16) (dynamicEntry (mkElfDyn (member 0 8 bytes) (member 8 8 bytes)) m)
      ltac:(lia) ltac:(lia) ltac:(lia)).
    destruct (readDynamic _ _ _ _) as [[m' needed]|]; [done|]. cbn. congruence.
  - cbn. intros [= ->]. by apply (slice_ends image off 16).
Qed.

Lemma readDynSymbols_ends fuel image m numSymbols : forall i,
  Z.of_nat (length image) < symtab m + 24 * (i + Z.of_nat fuel) -> 0 <= symtab m -> 0 <= i -> (0 < fuel)%nat ->
  readDynSymbols fuel image m i numSymbols <> Err Diverges.
Proof.
  induction fuel as [|fuel IH]; intros i Hl Hs Hi Hf; [lia|]. cbn [readDynSymbols].
  destruct (i >=? numSymbols); [done|]. unfold symbolAt.
  destruct (slice image _ _) as [b|e] eqn:Es.
  - cbn [mbind result_bind]. apply slice_in in Es. change sizeof_ElfSymbolHeader with 24 in Es.
    destruct fuel as [|fuel]; [lia|]. specialize (IH (i + 1) ltac:(lia) Hs ltac:(lia) ltac:(lia)).
    unfold stringAt. destruct (_ <? _); [|done]. cbv zeta. destruct (existsb _ _); [|done].
    cbn [mbind result_bind]. destruct (readDynSymbols _ _ _ _ _) as [l|]; [done|]. cbn. congruence.
  - cbn. intros [= ->]. by apply (slice_ends image (symtab m + i * sizeof_ElfSymbolHeader) sizeof_ElfSymbolHeader).
Qed.

(** ** Looking up symbols *)

Lemma lower_bound_list addr (l : list (Z * string)) :
  match foldr (fun kv best =>
           if kv.1 <=? addr then
             match best with Some b => if b.1 <? kv.1 then Some kv else best | None => Some kv end
           else best) None l with
  | Some kv => kv ∈ l /\ kv.1 <= addr /\ forall kv', kv' ∈ l -> kv'.1 <= addr -> kv'.1 <= kv.1
  | None => forall kv', kv' ∈ l -> addr < kv'.1
  end.
Proof.
  induction l as [|x l IH]; cbn [foldr]; [by intros ? ?%not_elem_of_nil|].
  destruct (foldr _ None l) as [b|]; destruct (Z.leb_spec x.1 addr).
  - destruct IH as (Hb & Hba & Hmax). destruct (Z.ltb_spec b.1 x.1).
    + split; [left|]. split; [done|]. intros kv [->|Hin]%elem_of_cons Ha; [lia|].
      specialize (Hmax kv Hin Ha). lia.
    + split; [by right|]. split; [done|]. intros kv [->|Hin]%elem_of_cons Ha; [lia|by apply Hmax].
  - destruct IH as (Hb & Hba & Hmax). split; [by right|]. split; [done|].
    intros kv [->|Hin]%elem_of_cons Ha; [lia|by apply Hmax].
  - split; [left|]. split; [done|]. intros kv [->|Hin]%elem_of_cons Ha; [lia|].
    specialize (IH kv Hin). lia.
  - intros kv [->|Hin]%elem_of_cons; [done|by apply IH].
Qed.

(** [findNearestSymbol] names the symbol at the greatest address that is not above the one
    asked for, with the distance to it. *)
Lemma findNearestSymbol_nearest addr l :
  (exists k name, symbolLookupMap l !! k = Some name /\ k <= addr /\
     (forall k' name', symbolLookupMap l !! k' = Some name' -> k' <= addr -> k' <= k) /\
     findNearestSymbol addr l = if addr =? k then name else name +:+ " + " +:+ pretty (addr - k)) \/
  ((forall k name, symbolLookupMap l !! k = Some name -> addr < k) /\
   findNearestSymbol addr l = "No Symbol Found").
Proof.
  unfold findNearestSymbol, lower_bound.
  pose proof (lower_bound_list addr (map_to_list (symbolLookupMap l))) as Hl.
  destruct (foldr _ None _) as [[k name]|].
  - left. destruct Hl as (Hin & Hk & Hmax). exists k, name. apply elem_of_map_to_list in Hin.
    split; [done|]. split; [done|]. split.
    + intros k' name' Hn. by apply (Hmax (k', name')), elem_of_map_to_list.
    + destruct (Z.eqb_spec addr k), (Z.eqb_spec (addr - k) 0); done || lia.
  - right. split; [|done]. intros k name Hn. by apply (Hl (k, name)), elem_of_map_to_list.
Qed.

(** ** Two directories *)

Section Example.

(** [sdk] is a module that needs a library: its text holds the module header at offset 8
    and, behind it, a dynamic section with one [DT_NEEDED]. *)
Definition sdk_example : list Z :=
  word4 0x304F534E ++ replicate 12 0 ++
  word4 0x100 ++ word4 0 ++ word4 68 ++ word4 0 ++
  word4 0x144 ++ word4 0x1000 ++ word4 4 ++ word4 0 ++
  word4 0x148 ++ word4 0x2000 ++ word4 4 ++ word4 0 ++
  replicate 32 0 ++ word4 68 ++ word4 4 ++ word4 4 ++ replicate 148 0 ++
  (word4 0 ++ word4 8 ++ word4 MOD_MAGIC ++ word4 28 ++ replicate 20 0 ++
   word4 1 ++ replicate 12 0 ++ replicate 16 0) ++
  replicate 4 1 ++ replicate 4 2.

#[local] Instance directory_host : LoaderHost := {
  hostFile path := if String.eqb path "game/main" then Some nso_example
                   else if String.eqb path "loop/sdk" then Some sdk_example else None;
  LZ4_decompress_safe src cap :=
    if Z.of_nat (length src) <=? cap then (Z.of_nat (length src), src) else (-1, []);
}.

Definition machine_at (root : string) : Machine (MemState * KState) :=
  let m := match init 0x10000 0x4000 mem_static with Ok (_, m) => m | Err _ => mem_static end in
  St m 0 (set_loader (set_workingPath root loader_static)
    (set_gMappings [unmapped_space] (kernel_static []))) (core_example 0).

Lemma static_modules root : modules_ok (set_workingPath root loader_static).
Proof. constructor; [done|]. by exists 1. Qed.


Lemma sdk_example_needs : needs_library sdk_example.
Proof.
  constructor; [by eexists|]. eexists _, _, _, _, _.
  split; [vm_compute; reflexivity|]. split; [vm_compute; reflexivity|].
  split; [vm_compute; reflexivity|]. split; [vm_compute; reflexivity|]. split; [reflexivity|].
  intros base m needed. vm_compute. by intros [= <- <-].
Qed.

Lemma sdk_with_libraries_diverges_witness :
  readFile ("loop/" +:+ "sdk") = Some sdk_example /\ needs_library sdk_example /\
  match loadExe 1000 ("loop/" +:+ "sdk") (machine_at "loop/") with Ok _ => False | Err _ => True end.
Proof.
  assert (readFile ("loop/" +:+ "sdk") = Some sdk_example) as Hf by (vm_compute; reflexivity).
  split; [exact Hf|]. split; [exact sdk_example_needs|].
  destruct (loadExe 1000 ("loop/" +:+ "sdk") (machine_at "loop/")) as [r|] eqn:E; [|exact I].
  exact (sdk_with_libraries_diverges "loop/" sdk_example 1000 (machine_at "loop/") r Hf
    sdk_example_needs eq_refl E).
Defined.
End Example.
