(* ===== verification/Gpu.v ===== *)
(** * The graphics devices: [gpu/*.cpp] and the driver service [nns/nvdrv]

    A program opens a device by its path, gets a handle, and sends commands with a
    buffer of bytes; each class of device has a table of functions that read their
    argument struct from the buffer and append a result struct to the answer. *)
From stdpp Require Import strings.
From Stdlib Require Import Ascii.
From S2P Require Import Prelude BitUtils Instructions Core Machine Memory HandleManager MemoryMapper.
From S2P Require Import Thread KernelState Scheduler Ipc SmService Svc.
#[global] Open Scope Z_scope.

(** ** Structs in buffers *)

(** The values of members nobody initialised, one place for each member. *)
Class GpuHost := { garbage : nat -> GpuState -> Z }.

Definition ERR_NOT_IMPLEMENTED : Z := 1.

Section Gpu.
Context {Mem : Type} `{GuestMemory Mem} `{PageAdmin Mem} `{GpuHost}.

(** A function of a device: the error, and the bytes appended to the answer. *)
Definition DeviceFunc : Type := list Z -> K Mem (Z * list Z).

(** [readObjectFromBuffer] of a struct of [size] bytes; a shorter buffer is read past
    its end. *)
Definition readObjectFromBuffer (size : nat) (buffer : list Z) : K Mem (list Z) :=
  if Nat.leb size (length buffer) then mret (take size buffer) else fail Undefined.

Definition getGpu : K Mem GpuState := k ← getK; mret (gpu k).
Definition modGpu (f : GpuState -> GpuState) : K Mem unit := modK (fun k => set_gpu (f (gpu k)) k).

(** A function that reads its arguments and does nothing. *)
Definition ignoreArgs (size : nat) : DeviceFunc := fun buffer =>
  _ ← readObjectFromBuffer size buffer; mret (ERR_SUCCESS, []).

(** [lookupNvmapObject]: [*end()] for an unknown handle. *)
Definition lookupNvmapObject (handle : Z) : K Mem NvmapObject :=
  g ← getGpu;
  match find (fun o => nvHandle o =? handle) (gMapObjects g) with
  | Some o => mret o
  | None => fail Undefined
  end.
End Gpu.

(** ** [nvmapInterface.cpp] *)
Module NvmapInterface.
Section Nvmap.
Context {Mem : Type} `{GuestMemory Mem} `{GpuHost}.

Definition IocCreate : @DeviceFunc Mem := fun buffer =>
  objectIn ← (readObjectFromBuffer 8 buffer : K Mem (list Z));
  g ← (getGpu : K Mem GpuState);
  let size := member 0 4 objectIn in
  let newObject := mkNvmapObject (handleCounter g) (idCounter g) size
    (u32 (garbage 0 g)) (u32 (garbage 1 g)) (u8 (garbage 2 g)) (u64 (garbage 3 g)) in
  (modGpu (fun g => mkGpu (gMapObjects g ++ [newObject]) (u32 (idCounter g + 1))
     (u32 (handleCounter g + 1)) (timesCalled g) (fenceId g)) : K Mem unit);;
  mret (ERR_SUCCESS, bytesOf 4 size ++ bytesOf 4 (nvHandle newObject)).

Definition IocFromId : @DeviceFunc Mem := fun buffer =>
  objectIn ← (readObjectFromBuffer 8 buffer : K Mem (list Z));
  g ← (getGpu : K Mem GpuState);
  let id := member 4 4 objectIn in
  let handle :=
    match find (fun o => nvId o =? id) (gMapObjects g) with
    | Some o => nvHandle o
    | None => member 0 4 objectIn
    end in
  mret (ERR_SUCCESS, bytesOf 4 handle ++ bytesOf 4 (garbage 4 g)).

(** The first object with the handle gets the attributes. *)
Fixpoint setAttributes (handle align heap kind addr : Z) (l : list NvmapObject) : list NvmapObject :=
  match l with
  | [] => []
  | o :: l =>
      if nvHandle o =? handle
      then mkNvmapObject (nvHandle o) (nvId o) (nvSize o) align heap kind addr :: l
      else o :: setAttributes handle align heap kind addr l
  end.

Definition IocAlloc : @DeviceFunc Mem := fun buffer =>
  objectIn ← (readObjectFromBuffer 32 buffer : K Mem (list Z));
  let handle := member 0 4 objectIn in
  let align := member 12 4 objectIn in
  let kind := member 16 1 objectIn in
  let addr := member 24 8 objectIn in
  (modGpu (fun g => set_gMapObjects
     (setAttributes handle align 0x40000000 kind addr (gMapObjects g)) g) : K Mem unit);;
  mret (ERR_SUCCESS,
    take 16 objectIn ++ bytesOf 1 0 ++ take 7 (drop 17 objectIn) ++ bytesOf 8 addr).

(** [IocParamType] *)
Definition SIZE : Z := 1.
Definition ALIGNMENT : Z := 2.
Definition BASE : Z := 3.
Definition HEAP : Z := 4.
Definition KIND : Z := 5.
Definition COMPR : Z := 6.

Definition IocParam : @DeviceFunc Mem := fun buffer =>
  objectIn ← (readObjectFromBuffer 12 buffer : K Mem (list Z));
  g ← (getGpu : K Mem GpuState);
  let handle := member 0 4 objectIn in
  let param := member 4 4 objectIn in
  let object :=
    default (mkNvmapObject (garbage 5 g) (garbage 6 g) (garbage 7 g) (garbage 8 g) (garbage 9 g)
        (garbage 10 g) (garbage 11 g))
      (find (fun o => nvHandle o =? handle) (gMapObjects g)) in
  let res :=
    if param =? SIZE then nvSize object
    else if param =? ALIGNMENT then nvAlign object
    else if param =? BASE then 0
    else if param =? HEAP then nvHeap object
    else if param =? KIND then nvKind object
    else 0 in
  mret (ERR_SUCCESS, bytesOf 4 handle ++ bytesOf 4 param ++ bytesOf 4 res).

Definition IocGetId : @DeviceFunc Mem := fun buffer =>
  objectIn ← (readObjectFromBuffer 8 buffer : K Mem (list Z));
  g ← (getGpu : K Mem GpuState);
  let handle := member 0 4 objectIn in
  let id :=
    match find (fun o => nvHandle o =? handle) (gMapObjects g) with
    | Some o => nvId o
    | None => garbage 12 g
    end in
  mret (ERR_SUCCESS, bytesOf 4 handle ++ bytesOf 4 id).

Definition functions : list (Z * @DeviceFunc Mem) :=
  [(1, IocCreate); (3, IocFromId); (4, IocAlloc); (9, IocParam); (14, IocGetId)].
End Nvmap.
End NvmapInterface.

(** ** [nvhostAsGpuInterface.cpp] *)
Module NvhostAsGpuInterface.
Section AsGpu.
Context {Mem : Type} `{GuestMemory Mem} `{PageAdmin Mem} `{GpuHost}.

Definition BindChannel : @DeviceFunc Mem := ignoreArgs 4.

Definition AllocSpace : @DeviceFunc Mem := fun buffer =>
  objectIn ← (readObjectFromBuffer 24 buffer : K Mem (list Z));
  (addMappingK 0xF0000000 0x10000000 MemoryType.CODE_STATIC ALL : K Mem unit);;
  mret (ERR_SUCCESS, take 12 objectIn ++ bytesOf 4 0 ++ bytesOf 8 0x400000000).

Definition MapBufferEx : @DeviceFunc Mem := fun buffer =>
  objectIn ← (readObjectFromBuffer 40 buffer : K Mem (list Z));
  object ← (lookupNvmapObject (member 8 4 objectIn) : K Mem NvmapObject);
  g ← (getGpu : K Mem GpuState);
  mret (ERR_SUCCESS,
    bytesOf 4 (garbage 13 g) ++ bytesOf 4 (garbage 14 g) ++ bytesOf 4 (garbage 15 g) ++
    bytesOf 4 (member 12 4 objectIn) ++ bytesOf 8 (garbage 16 g) ++ bytesOf 8 (garbage 17 g) ++
    bytesOf 8 (nvAddr object)).

Definition Initialize : @DeviceFunc Mem := ignoreArgs 16.

(** [VaRegion]; [reserved] is 0. *)
Definition vaRegion (offset pageSize pages : Z) : list Z :=
  bytesOf 8 offset ++ bytesOf 4 pageSize ++ bytesOf 4 0 ++ bytesOf 8 pages.

Definition GetVaRegions : @DeviceFunc Mem := fun buffer =>
  _ ← (readObjectFromBuffer 64 buffer : K Mem (list Z));
  g ← (getGpu : K Mem GpuState);
  (modGpu (fun g => set_timesCalled (timesCalled g + 1) g) : K Mem unit);;
  mret (ERR_SUCCESS,
    if timesCalled g =? 0 then
      bytesOf 8 0 ++ bytesOf 4 48 ++ bytesOf 4 0 ++ vaRegion 0 0 0 ++ vaRegion 0 0 0
    else
      bytesOf 8 0x6fff8f0 ++ bytesOf 4 48 ++ bytesOf 4 0 ++
      vaRegion 0x04000000 0x1000 0x3fbfff ++ vaRegion 0x0400000000 0x10000 0x1bffff).

Definition InitializeEx : @DeviceFunc Mem := ignoreArgs 40.

Definition functions : list (Z * @DeviceFunc Mem) :=
  [(1, BindChannel); (2, AllocSpace); (6, MapBufferEx); (7, Initialize); (8, GetVaRegions);
   (9, InitializeEx)].
End AsGpu.
End NvhostAsGpuInterface.

(** ** [nvhostCtrlGpuInterface.cpp] *)
Module NvhostCtrlGpuInterface.
Section CtrlGpu.
Context {Mem : Type} `{GuestMemory Mem} `{GpuHost}.

Definition ZcullGetCtxSize : @DeviceFunc Mem := fun _ => mret (ERR_SUCCESS, bytesOf 4 0x10200).

Definition zcullInfo : list Z :=
  concat (map (bytesOf 4) [0x20; 0x20; 0x400; 0x800; 0x20; 0x20; 0xC0; 0x20; 0x40; 0x10]).
Definition ZcullGetInfo : @DeviceFunc Mem := fun _ => mret (ERR_SUCCESS, zcullInfo).

(** The members of [GpuCharacteristics] with their sizes. *)
Definition characteristics : list Z :=
  concat (map (fun '(n, v) => bytesOf n v)
    [(4%nat, 0x120); (4%nat, 0xB); (4%nat, 0xA1); (4%nat, 0x1); (8%nat, 0x40000); (8%nat, 0x0);
     (4%nat, 0x2); (4%nat, 0x20); (4%nat, 0x20000); (4%nat, 0x20000); (4%nat, 0x1B);
     (4%nat, 0x30000); (4%nat, 0x1); (4%nat, 0x503); (4%nat, 0x503); (4%nat, 0x80);
     (4%nat, 0x28); (4%nat, 0x0); (8%nat, 0x55); (4%nat, 0x902D); (4%nat, 0xB197);
     (4%nat, 0xB1C0); (4%nat, 0xB06F); (4%nat, 0xA140); (4%nat, 0xB0B5); (4%nat, 0x1);
     (4%nat, 0x0); (4%nat, 0x2); (4%nat, 0x1); (4%nat, 0x0); (4%nat, 0x1); (4%nat, 0x21D70);
     (4%nat, 0x0); (8%nat, 0x6230326D67); (8%nat, 0x0)]).

Definition GetCharacteristics : @DeviceFunc Mem := fun buffer =>
  objectIn ← (readObjectFromBuffer 176 buffer : K Mem (list Z));
  mret (ERR_SUCCESS, take 16 objectIn ++ characteristics).

Definition GetTpcMasks : @DeviceFunc Mem := fun buffer =>
  objectIn ← (readObjectFromBuffer 24 buffer : K Mem (list Z));
  g ← (getGpu : K Mem GpuState);
  mret (ERR_SUCCESS,
    bytesOf 4 4 ++ bytesOf 4 (garbage 18 g) ++ take 8 (drop 8 objectIn) ++ bytesOf 8 0x3).

Definition GetL2State : @DeviceFunc Mem := fun _ => mret (ERR_SUCCESS, bytesOf 4 0x7 ++ bytesOf 4 0x0).

Definition functions : list (Z * @DeviceFunc Mem) :=
  [(1, ZcullGetCtxSize); (2, ZcullGetInfo); (5, GetCharacteristics); (6, GetTpcMasks);
   (20, GetL2State)].
End CtrlGpu.
End NvhostCtrlGpuInterface.

(** ** [nvhostCtrlInterface.cpp] *)
Module NvhostCtrlInterface.
Section Ctrl.
Context {Mem : Type} `{GuestMemory Mem} `{GpuHost}.

(** A character array of which only the first element is set. *)
Definition emptyString (place n : nat) (g : GpuState) : list Z :=
  0 :: map (fun i => u8 (garbage (place + i) g)) (seq 1 (n - 1)).

Definition GetConfig : @DeviceFunc Mem := fun buffer =>
  _ ← (readObjectFromBuffer (0x41 + 0x41 + 0x101) buffer : K Mem (list Z));
  g ← (getGpu : K Mem GpuState);
  mret (ERR_SUCCESS,
    emptyString 100 0x41 g ++ emptyString 200 0x41 g ++ emptyString 300 0x101 g).

Definition functions : list (Z * @DeviceFunc Mem) := [(27, GetConfig)].
End Ctrl.
End NvhostCtrlInterface.

(** ** [nvhostGpuInterface.cpp] *)
Module NvhostGpuInterface.
Section HostGpu.
Context {Mem : Type} `{GuestMemory Mem} `{GpuHost}.

Definition SetNvmapFd : @DeviceFunc Mem := ignoreArgs 4.
Definition AllocObjCtx : @DeviceFunc Mem := fun buffer =>
  _ ← (readObjectFromBuffer 12 buffer : K Mem (list Z));
  g ← (getGpu : K Mem GpuState);
  mret (ERR_SUCCESS, bytesOf 4 (garbage 19 g) ++ bytesOf 4 (garbage 20 g) ++ bytesOf 4 0).
Definition ZcullBind : @DeviceFunc Mem := ignoreArgs 16.
Definition SetErrorNotifier : @DeviceFunc Mem := ignoreArgs 24.
Definition SetPriority : @DeviceFunc Mem := ignoreArgs 4.
(** An empty struct has one byte. *)
Definition SetUserData : @DeviceFunc Mem := ignoreArgs 1.
(** The result struct is filled and never written to the answer. *)
Definition AllocGpfifoEx2 : @DeviceFunc Mem := fun buffer =>
  _ ← (readObjectFromBuffer 32 buffer : K Mem (list Z));
  (modGpu (fun g => set_fenceId (u32 (fenceId g + 1)) g) : K Mem unit);;
  mret (ERR_SUCCESS, []).

Definition functions : list (Z * @DeviceFunc Mem) :=
  [(1, SetNvmapFd); (9, AllocObjCtx); (11, ZcullBind); (12, SetErrorNotifier); (13, SetPriority);
   (20, SetUserData); (26, AllocGpfifoEx2)].
End HostGpu.
End NvhostGpuInterface.

(** ** [deviceInterface.cpp] and [deviceHandleManager.cpp] *)

Section Devices.
Context {Mem : Type} `{GuestMemory Mem} `{PageAdmin Mem} `{GpuHost}.

(** The table of the device with a path. *)
Definition deviceFunctions (path : string) : list (Z * @DeviceFunc Mem) :=
  if String.eqb path "/dev/nvhost-ctrl" then NvhostCtrlInterface.functions
  else if String.eqb path "/dev/nvhost-ctrl-gpu" then NvhostCtrlGpuInterface.functions
  else if String.eqb path "/dev/nvmap" then NvmapInterface.functions
  else if String.eqb path "/dev/nvhost-as-gpu" then NvhostAsGpuInterface.functions
  else if String.eqb path "/dev/nvhost-gpu" then NvhostGpuInterface.functions
  else [].

Definition handleIoctl (path : string) (cmd : Z) (buffer : list Z) : K Mem (Z * list Z) :=
  let id := Z.land cmd 0xFF in
  match find (fun f => fst f =? id) (deviceFunctions path) with
  | Some (_, func) => func buffer
  | None => mret (ERR_NOT_IMPLEMENTED, [])
  end.

Definition devicePaths : list string :=
  ["/dev/nvhost-ctrl"; "/dev/nvhost-ctrl-gpu"; "/dev/nvmap"; "/dev/nvhost-as-gpu"; "/dev/nvhost-gpu"].

Definition connectToDevice (name : string) : K Mem Z :=
  if existsb (String.eqb name) devicePaths then createObjectHandle (ODevice name) else mret 0.

Definition sendIoctl (handle cmd : Z) (buffer : list Z) : K Mem (Z * list Z) :=
  p ← (lookupObjectK handle : K Mem ObjectPtr);
  o ← (object_at p : K Mem KObject);
  match o with
  | ODevice path => handleIoctl path cmd buffer
  | _ => fail Undefined
  end.
End Devices.

(** ** [nns/nvdrv/INvDrvServices.cpp] *)
Module INvDrvServices.
Section NvDrv.
Context {Mem : Type} `{GuestMemory Mem} `{PageAdmin Mem} `{GpuHost}.

Definition ServiceFunc : Type := IpcInfo -> IpcMessageCons -> K Mem (Z * IpcMessageCons).

(** [SERVICE_FUNC_STUB] *)
Definition stub : ServiceFunc := fun _ reply => mret (ERR_SUCCESS, reply).

(** The first element of a vector. *)
Definition front {A} (l : list A) : K Mem A :=
  match l with x :: _ => mret x | [] => fail Undefined end.

Definition stringOf (l : list Z) : string :=
  foldr (fun b s => String (ascii_of_N (Z.to_N b)) s) EmptyString l.

Definition Open : ServiceFunc := fun info reply =>
  d ← (front (sendDescriptors info) : K Mem RegularDescriptor);
  devName ← (readBytes (Z.to_nat (regularSize d)) (regularAddress d) : K Mem (list Z));
  devHandle ← (connectToDevice (stringOf devName) : K Mem Z);
  mret (ERR_SUCCESS, writeArgs (bytesOf 4 devHandle ++ bytesOf 4 0) reply).

(** Where the input of a command is. *)
Definition inputBuffer (info : IpcInfo) : K Mem (Z * Z) :=
  let other := d ← (front (sendDescriptors info) : K Mem RegularDescriptor);
    mret (regularAddress d, regularSize d) in
  match staticInDescriptors info with
  | d :: _ => if pointerAddress d !=? 0 then mret (pointerAddress d, pointerSize d) else other
  | [] => other
  end.

Definition Ioctl : ServiceFunc := fun info reply =>
  handle ← (read32 (rawData info + 0x10) : K Mem Z);
  cmd ← (read32 (rawData info + 0x14) : K Mem Z);
  '(addr, size) ← inputBuffer info;
  buffer ← (readBytes (Z.to_nat size) addr : K Mem (list Z));
  '(ioctlRet, out) ← (sendIoctl handle cmd buffer : K Mem (Z * list Z));
  recv ← (front (recvDescriptors info) : K Mem RegularDescriptor);
  (writeBytes (replicate (Z.to_nat (regularSize recv)) 0) (regularAddress recv) : K Mem unit);;
  (match out with
   | [] => mret tt
   | _ =>
       let outAddr :=
         match staticOutDescriptors info with
         | d :: _ => if receiveAddress d !=? 0 then receiveAddress d else regularAddress recv
         | [] => regularAddress recv
         end in
       writeBytes out outAddr
   end : K Mem unit);;
  mret (ERR_SUCCESS, writeArgs (bytesOf 4 ioctlRet) reply).

(** [Close], [Initialize] and [SetClientPID] answer with the error 0. *)
Definition Close : ServiceFunc := fun _ reply => mret (ERR_SUCCESS, writeArgs (bytesOf 4 0) reply).
Definition Initialize : ServiceFunc := fun _ reply => mret (ERR_SUCCESS, writeArgs (bytesOf 4 0) reply).
Definition QueryEvent : ServiceFunc := fun _ reply =>
  mret (ERR_SUCCESS, copyHandle 0x1357 (writeArgs (bytesOf 4 0) reply)).
Definition SetClientPID : ServiceFunc := fun _ reply => mret (ERR_SUCCESS, writeArgs (bytesOf 4 0) reply).

Definition functions : list (FunctionEntry Mem) :=
  [mkFunctionEntry 0 (Some Open); mkFunctionEntry 1 (Some Ioctl); mkFunctionEntry 2 (Some Close);
   mkFunctionEntry 3 (Some Initialize); mkFunctionEntry 4 (Some QueryEvent);
   mkFunctionEntry 5 (Some stub); mkFunctionEntry 6 (Some stub); mkFunctionEntry 7 (Some stub);
   mkFunctionEntry 8 (Some SetClientPID); mkFunctionEntry 9 (Some stub); mkFunctionEntry 10 (Some stub);
   mkFunctionEntry 11 (Some stub); mkFunctionEntry 12 (Some stub); mkFunctionEntry 13 (Some stub)].
End NvDrv.
End INvDrvServices.
