(* ===== verification/GpuSpec.v ===== *)
(** * The objects of [/dev/nvmap]

    What the commands of the device promise about the objects they create. *)
From stdpp Require Import strings.
From S2P Require Import Prelude BitUtils Instructions Core Machine Memory MemoryInv MemorySpec HandleManager MemoryMapper.
From S2P Require Import Thread KernelState KernelLemmas SchedulerSpec Scheduler SchedulerSafety Ipc SmService Svc Gpu.
#[global] Open Scope Z_scope.

(** ** Bytes *)

Definition byte (b : Z) : Prop := 0 <= b < 256.

Lemma bytesOf_S n v : bytesOf (S n) v = v mod 256 :: bytesOf n (v / 256).
Proof.
  unfold bytesOf. rewrite <-cons_seq. cbn [map]. f_equal.
  - cbn [Z.of_nat]. rewrite Z.mul_0_r, Z.shiftr_0_r. change 0xFF with (Z.ones 8).
    by rewrite Z.land_ones by lia.
  - rewrite <-seq_shift, map_map. apply map_ext. intros i.
    change 256 with (2 ^ 8). rewrite <-Z.shiftr_div_pow2, Z.shiftr_shiftr by lia.
    do 2 f_equal. lia.
Qed.

Lemma length_bytesOf n v : length (bytesOf n v) = n.
Proof. unfold bytesOf. by rewrite length_map, length_seq. Qed.

Lemma ofBytes_bytesOf n v : ofBytes (bytesOf n v) = wrap (8 * Z.of_nat n) v.
Proof.
  revert v. induction n as [|n IH]; intros v; [unfold wrap; cbn [Z.of_nat]; by rewrite Z.mul_0_r, Z.pow_0_r, Z.mod_1_r|].
  rewrite bytesOf_S. cbn [ofBytes foldr]. unfold ofBytes in IH. rewrite IH. unfold wrap.
  replace (2 ^ (8 * Z.of_nat (S n))) with (256 * 2 ^ (8 * Z.of_nat n))
    by (change 256 with (2 ^ 8); rewrite <-Z.pow_add_r by lia; f_equal; lia).
  symmetry. apply Z.rem_mul_r; [done|]. apply Z.pow_pos_nonneg; lia.
Qed.

Lemma ofBytes_bounds l : Forall byte l -> 0 <= ofBytes l < 2 ^ (8 * Z.of_nat (length l)).
Proof.
  induction 1 as [|b l Hb Hl IH]; [done|]. cbn [ofBytes foldr length]. unfold ofBytes in IH.
  replace (2 ^ (8 * Z.of_nat (S (length l)))) with (256 * 2 ^ (8 * Z.of_nat (length l)))
    by (change 256 with (2 ^ 8); rewrite <-Z.pow_add_r by lia; f_equal; lia).
  unfold byte in Hb. lia.
Qed.

(** Members of a struct that was put together from its parts. *)
Lemma member_head n v l : member 0 n (bytesOf n v ++ l) = wrap (8 * Z.of_nat n) v.
Proof. unfold member. rewrite drop_0, take_app_length' by (symmetry; apply length_bytesOf). apply ofBytes_bytesOf. Qed.

Lemma member_all n v : member 0 n (bytesOf n v) = wrap (8 * Z.of_nat n) v.
Proof. by rewrite <-(member_head n v []), app_nil_r. Qed.

Lemma member_tail off n p v l : (p <= off)%nat -> member off n (bytesOf p v ++ l) = member (off - p) n l.
Proof.
  intros Hp. unfold member. rewrite drop_app, length_bytesOf.
  rewrite (drop_ge (bytesOf p v)) by (rewrite length_bytesOf; lia). done.
Qed.

Lemma member_take off n p l : (off + n <= p)%nat -> member off n (take p l) = member off n l.
Proof.
  intros Hp. unfold member. rewrite skipn_firstn_comm, take_take. by rewrite Nat.min_l by lia.
Qed.

Lemma member_bounds off n l : Forall byte l -> 0 <= member off n l < 2 ^ (8 * Z.of_nat n).
Proof.
  intros Hl. unfold member.
  pose proof (ofBytes_bounds (take n (drop off l)) (Forall_take byte n _ (Forall_drop byte off _ Hl))) as Hb.
  assert (Z.of_nat (length (take n (drop off l))) <= Z.of_nat n) by (rewrite length_take; lia).
  assert (2 ^ (8 * Z.of_nat (length (take n (drop off l)))) <= 2 ^ (8 * Z.of_nat n))
    by (apply Z.pow_le_mono_r; lia).
  lia.
Qed.

(** ** The table of objects *)

(** The objects are numbered from 1, ids and handles alike, and the counters are the
    next number. *)
Record nvmap_ok (g : GpuState) : Prop := {
  nv_numbers i o : gMapObjects g !! i = Some o -> nvHandle o = Z.of_nat i + 1 /\ nvId o = Z.of_nat i + 1;
  nv_handles : handleCounter g = Z.of_nat (length (gMapObjects g)) + 1;
  nv_ids : idCounter g = Z.of_nat (length (gMapObjects g)) + 1;
  nv_few : handleCounter g < 2 ^ 32;
}.

Lemma gpu_static_ok : nvmap_ok gpu_static.
Proof. by constructor. Qed.

(** Searching a numbered list. *)
Lemma find_numbered (f : NvmapObject -> Z) l i o :
  (forall j x, l !! j = Some x -> f x = Z.of_nat j + 1) -> l !! i = Some o ->
  find (fun x => f x =? Z.of_nat i + 1) l = Some o.
Proof.
  assert (forall b, (forall j x, l !! j = Some x -> f x = Z.of_nat b + Z.of_nat j + 1) -> l !! i = Some o ->
    find (fun x => f x =? Z.of_nat b + Z.of_nat i + 1) l = Some o) as Hg.
  { revert i. induction l as [|x l IH]; intros i b Hf Hi; [done|]. cbn [find].
    rewrite (Hf 0%nat x eq_refl). destruct i as [|i].
    - injection Hi as <-. by rewrite Z.eqb_refl.
    - rewrite (proj2 (Z.eqb_neq _ _)) by lia.
      replace (Z.of_nat b + Z.of_nat (S i) + 1) with (Z.of_nat (S b) + Z.of_nat i + 1) by lia.
      apply IH; [|done]. intros j y Hj. rewrite (Hf (S j) y Hj). lia. }
  intros Hf. apply (Hg 0%nat). intros j x Hj. rewrite (Hf j x Hj). lia.
Qed.

Lemma find_numbered_none (f : NvmapObject -> Z) l n :
  (forall j x, l !! j = Some x -> f x = Z.of_nat j + 1) -> ~ (1 <= n <= Z.of_nat (length l)) ->
  find (fun x => f x =? n) l = None.
Proof.
  intros Hf Hn. destruct (find _ l) as [x|] eqn:E; [|done]. apply find_some in E as [Hin Hx].
  apply list_elem_of_In, list_elem_of_lookup in Hin as [j Hj]. apply Z.eqb_eq in Hx.
  pose proof (Hf j x Hj). pose proof (lookup_lt_Some _ _ _ Hj). lia.
Qed.

Lemma setAttributes_numbered align heap kind addr l i o :
  (forall j x, l !! j = Some x -> nvHandle x = Z.of_nat j + 1) -> l !! i = Some o ->
  NvmapInterface.setAttributes (Z.of_nat i + 1) align heap kind addr l =
  <[i := mkNvmapObject (nvHandle o) (nvId o) (nvSize o) align heap kind addr]> l.
Proof.
  assert (forall b, (forall j x, l !! j = Some x -> nvHandle x = Z.of_nat b + Z.of_nat j + 1) ->
    l !! i = Some o ->
    NvmapInterface.setAttributes (Z.of_nat b + Z.of_nat i + 1) align heap kind addr l =
    <[i := mkNvmapObject (nvHandle o) (nvId o) (nvSize o) align heap kind addr]> l) as Hg.
  { revert i. induction l as [|x l IH]; intros i b Hf Hi; [done|]. cbn [NvmapInterface.setAttributes].
    pose proof (Hf 0%nat x eq_refl) as Hx. destruct i as [|i].
    - injection Hi as <-. by rewrite Hx, Z.eqb_refl.
    - rewrite (proj2 (Z.eqb_neq _ _)) by lia. cbn. f_equal.
      replace (Z.of_nat b + Z.of_nat (S i) + 1) with (Z.of_nat (S b) + Z.of_nat i + 1) by lia.
      apply IH; [|done]. intros j y Hj. rewrite (Hf (S j) y Hj). lia. }
  intros Hf. apply (Hg 0%nat). intros j x Hj. rewrite (Hf j x Hj). lia.
Qed.

Definition objectAt (g : GpuState) (h : Z) : option NvmapObject :=
  find (fun o => nvHandle o =? h) (gMapObjects g).

Section Table.
Context (g : GpuState) (Hg : nvmap_ok g).

Lemma objectAt_index h o : objectAt g h = Some o ->
  exists i, gMapObjects g !! i = Some o /\ h = Z.of_nat i + 1 /\ nvHandle o = h /\ nvId o = h.
Proof.
  unfold objectAt. intros E. apply find_some in E as [Hin Hh]. apply Z.eqb_eq in Hh.
  apply list_elem_of_In, list_elem_of_lookup in Hin as [i Hi].
  destruct (nv_numbers g Hg i o Hi) as [H1 H2]. exists i. split_and!; done || lia.
Qed.

Lemma find_id h o : objectAt g h = Some o -> find (fun x => nvId x =? h) (gMapObjects g) = Some o.
Proof.
  intros E. destruct (objectAt_index h o E) as (i & Hi & -> & _).
  apply find_numbered; [|done]. intros j x Hj. apply (nv_numbers g Hg j x Hj).
Qed.

(** A new object at the end. *)
Definition created (o : NvmapObject) : GpuState :=
  mkGpu (gMapObjects g ++ [o]) (u32 (idCounter g + 1)) (u32 (handleCounter g + 1)) (timesCalled g)
    (fenceId g).

Lemma created_ok o : nvHandle o = handleCounter g -> nvId o = idCounter g ->
  handleCounter g < 2 ^ 32 - 1 -> nvmap_ok (created o).
Proof.
  intros Ho Hd Hf. destruct Hg as [H1 H2 H3 _]. unfold created.
  assert (forall n, 0 <= n < 2 ^ 32 -> u32 n = n) as Hw by (intros; apply wrap_id; unfold uint; lia).
  constructor; cbn [gMapObjects idCounter handleCounter]; rewrite ?length_app; cbn [length].
  - intros i x Hi. apply lookup_app_Some in Hi as [Hi|[Hl Hi]]; [by apply H1|].
    apply list_lookup_singleton_Some in Hi as [Hi <-]. lia.
  - rewrite Hw by lia. lia.
  - rewrite Hw by lia. lia.
  - rewrite Hw by lia. lia.
Qed.

Lemma objectAt_created o h : nvHandle o = handleCounter g ->
  objectAt (created o) h = if h =? handleCounter g then Some o else objectAt g h.
Proof.
  intros Ho. unfold objectAt, created. cbn [gMapObjects].
  assert (forall l, find (fun x => nvHandle x =? h) (l ++ [o]) =
    match find (fun x => nvHandle x =? h) l with Some x => Some x
    | None => if nvHandle o =? h then Some o else None end) as Ef.
  { clear. intros l. induction l as [|x l IH]; cbn; [done|]. by destruct (nvHandle x =? h). }
  rewrite Ef, Ho, (Z.eqb_sym h). destruct (Z.eqb_spec (handleCounter g) h) as [<-|].
  - rewrite find_numbered_none; [done| |pose proof (nv_handles g Hg); lia].
    intros j x Hj. apply (nv_numbers g Hg j x Hj).
  - by destruct (find _ _).
Qed.

(** New attributes for an object. *)
Definition attributed (o : NvmapObject) (align kind addr : Z) : NvmapObject :=
  mkNvmapObject (nvHandle o) (nvId o) (nvSize o) align 0x40000000 kind addr.
Definition allocatedIn (h align kind addr : Z) : GpuState :=
  set_gMapObjects (NvmapInterface.setAttributes h align 0x40000000 kind addr (gMapObjects g)) g.

Lemma allocated_table h o align kind addr : objectAt g h = Some o ->
  exists i, gMapObjects g !! i = Some o /\ h = Z.of_nat i + 1 /\
    gMapObjects (allocatedIn h align kind addr) = <[i := attributed o align kind addr]> (gMapObjects g).
Proof.
  intros E. destruct (objectAt_index h o E) as (i & Hi & -> & _). exists i. split; [done|]. split; [done|].
  apply setAttributes_numbered; [|done]. intros j x Hj. apply (nv_numbers g Hg j x Hj).
Qed.

Lemma allocated_ok h o align kind addr : objectAt g h = Some o -> nvmap_ok (allocatedIn h align kind addr).
Proof.
  intros E. destruct (allocated_table h o align kind addr E) as (i & Hi & -> & Et).
  destruct Hg as [H1 H2 H3 H4]. constructor; rewrite ?Et, ?length_insert; try done.
  intros j x Hj. apply list_lookup_insert_Some in Hj as [(<- & <- & _)|[_ Hj]]; [|by apply H1].
  destruct (H1 i o Hi) as [E1 E2]. by split.
Qed.

Lemma objectAt_allocated h o align kind addr h' : objectAt g h = Some o ->
  objectAt (allocatedIn h align kind addr) h' =
    if h' =? h then Some (attributed o align kind addr) else objectAt g h'.
Proof.
  intros E. destruct (allocated_table h o align kind addr E) as (i & Hi & Eh & Et).
  pose proof (allocated_ok h o align kind addr E) as [N1 _ _ _]. subst h.
  unfold objectAt at 1. destruct (Z.eqb_spec h' (Z.of_nat i + 1)) as [->|Hne].
  - apply find_numbered; [intros j x Hj; by apply (N1 j x)|].
    rewrite Et. apply list_lookup_insert_eq. by apply lookup_lt_Some in Hi.
  - destruct (objectAt g h') as [o'|] eqn:E'.
    + destruct (objectAt_index h' o' E') as (i' & Hi' & -> & _).
      apply find_numbered; [intros j x Hj; by apply (N1 j x)|].
      rewrite Et, list_lookup_insert_ne by lia. done.
    + apply find_numbered_none; [intros j x Hj; by apply (N1 j x)|].
      rewrite Et, length_insert. intros Hr.
      destruct (lookup_lt_is_Some_2 (gMapObjects g) (Z.to_nat (h' - 1))) as [o' Ho']; [lia|].
      unfold objectAt in E'. replace h' with (Z.of_nat (Z.to_nat (h' - 1)) + 1) in E' by lia.
      rewrite (find_numbered nvHandle _ _ o') in E'; [done| |done].
      intros j x Hj. apply (nv_numbers g Hg j x Hj).
Qed.
End Table.

(** ** The commands *)

Section Commands.
Context {Mem : Type} `{GuestMemory Mem} `{PageAdmin Mem} `{GpuHost} (m : Mem) (timer : Z) (c : Core).

Definition nvmap (cmd : Z) (buffer : list Z) : K Mem (Z * list Z) := handleIoctl "/dev/nvmap" cmd buffer.

Lemma readObject_ok size buffer (s : Machine (Mem * KState)) : (size <= length buffer)%nat ->
  readObjectFromBuffer size buffer s = Ok (take size buffer, s).
Proof. intros Hl. unfold readObjectFromBuffer. by rewrite (proj2 (Nat.leb_le _ _) Hl). Qed.

Lemma create_command k buffer : (8 <= length buffer)%nat ->
  let g := gpu k in let size := member 0 4 buffer in
  exists o, nvHandle o = handleCounter g /\ nvId o = idCounter g /\ nvSize o = size /\
    nvmap 1 buffer (St m timer k c) =
      Ok ((ERR_SUCCESS, bytesOf 4 size ++ bytesOf 4 (handleCounter g)),
          St m timer (set_gpu (created g o) k) c).
Proof.
  intros Hl g size. eexists (mkNvmapObject (handleCounter g) (idCounter g) size _ _ _ _).
  split; [done|]. split; [done|]. split; [done|].
  change (nvmap 1 buffer) with (NvmapInterface.IocCreate buffer : K Mem (Z * list Z)).
  unfold NvmapInterface.IocCreate. run (readObject_ok 8 buffer (St m timer k c) Hl).
  rewrite (bind_ok _ _ _ g (St m timer k c)) by done. rewrite member_take by lia. done.
Qed.

Lemma alloc_command k buffer h o : nvmap_ok (gpu k) -> (32 <= length buffer)%nat ->
  member 0 4 buffer = h -> objectAt (gpu k) h = Some o ->
  exists out, nvmap 4 buffer (St m timer k c) =
    Ok ((ERR_SUCCESS, out),
        St m timer (set_gpu (allocatedIn (gpu k) h (member 12 4 buffer) (member 16 1 buffer)
          (member 24 8 buffer)) k) c).
Proof.
  intros Hg Hl <- Ho. eexists.
  change (nvmap 4 buffer) with (NvmapInterface.IocAlloc buffer : K Mem (Z * list Z)).
  unfold NvmapInterface.IocAlloc. run (readObject_ok 32 buffer (St m timer k c) Hl).
  rewrite !member_take by lia. done.
Qed.

(** What the queries answer about an object. *)
Record answers (k : KState) (o : NvmapObject) : Prop := {
  an_id x : nvmap 14 (bytesOf 4 (nvHandle o) ++ bytesOf 4 x) (St m timer k c) =
    Ok ((ERR_SUCCESS, bytesOf 4 (nvHandle o) ++ bytesOf 4 (nvId o)), St m timer k c);
  an_handle x : exists y, nvmap 3 (bytesOf 4 x ++ bytesOf 4 (nvId o)) (St m timer k c) =
    Ok ((ERR_SUCCESS, bytesOf 4 (nvHandle o) ++ y), St m timer k c);
  an_param p v x : (p, v) ∈ [(NvmapInterface.SIZE, nvSize o); (NvmapInterface.ALIGNMENT, nvAlign o);
      (NvmapInterface.HEAP, nvHeap o); (NvmapInterface.KIND, nvKind o)] ->
    nvmap 9 (bytesOf 4 (nvHandle o) ++ bytesOf 4 p ++ bytesOf 4 x) (St m timer k c) =
    Ok ((ERR_SUCCESS, bytesOf 4 (nvHandle o) ++ bytesOf 4 p ++ bytesOf 4 v), St m timer k c);
  an_map l : (40 <= length l)%nat -> member 8 4 l = nvHandle o ->
    exists y, handleIoctl "/dev/nvhost-as-gpu" 6 l (St m timer k c) =
      Ok ((ERR_SUCCESS, y ++ bytesOf 8 (nvAddr o)), St m timer k c);
}.

Lemma answers_object k h o : nvmap_ok (gpu k) -> objectAt (gpu k) h = Some o -> answers k o.
Proof.
  intros Hg Ho. destruct (objectAt_index _ Hg h o Ho) as (i & Hi & Eh & E1 & E2).
  assert (wrap (8 * Z.of_nat 4) h = h) as Hw.
  { apply wrap_id. pose proof (lookup_lt_Some _ _ _ Hi). pose proof (nv_handles _ Hg).
    pose proof (nv_few _ Hg). unfold uint. change (8 * Z.of_nat 4) with 32. lia. }
  assert (forall n (l : list Z), length l = n -> take n l = l) as Ht by (intros n l <-; apply firstn_all).
  constructor; rewrite ?E1, ?E2.
  - intros x. change (nvmap 14 ?b) with (NvmapInterface.IocGetId b : K Mem (Z * list Z)).
    unfold NvmapInterface.IocGetId.
    run (readObject_ok 8 (bytesOf 4 h ++ bytesOf 4 x) (St m timer k c) (le_n _)).
    rewrite (bind_ok _ _ _ (gpu k) (St m timer k c)) by done.
    rewrite Ht, member_head, Hw by done. unfold objectAt in Ho. by rewrite Ho, E2.
  - intros x. eexists. change (nvmap 3 ?b) with (NvmapInterface.IocFromId b : K Mem (Z * list Z)).
    unfold NvmapInterface.IocFromId.
    run (readObject_ok 8 (bytesOf 4 x ++ bytesOf 4 h) (St m timer k c) (le_n _)).
    rewrite (bind_ok _ _ _ (gpu k) (St m timer k c)) by done.
    rewrite Ht, member_tail by done. change (4 - 4)%nat with 0%nat.
    rewrite (member_all 4 h), Hw.
    rewrite (find_id _ Hg h o Ho), E1. done.
  - intros p v x Hp. change (nvmap 9 ?b) with (NvmapInterface.IocParam b : K Mem (Z * list Z)).
    unfold NvmapInterface.IocParam.
    run (readObject_ok 12 (bytesOf 4 h ++ bytesOf 4 p ++ bytesOf 4 x) (St m timer k c) (le_n _)).
    rewrite (bind_ok _ _ _ (gpu k) (St m timer k c)) by done.
    rewrite Ht, member_head, Hw, member_tail by done. change (4 - 4)%nat with 0%nat.
    rewrite member_head. unfold objectAt in Ho. rewrite Ho. cbn [default].
    rewrite !elem_of_cons in Hp.
    by destruct Hp as [[= -> ->]|[[= -> ->]|[[= -> ->]|[[= -> ->]|Hp%not_elem_of_nil]]]].
  - intros l Hl El. change (handleIoctl "/dev/nvhost-as-gpu" 6 l)
      with (NvhostAsGpuInterface.MapBufferEx l : K Mem (Z * list Z)).
    unfold NvhostAsGpuInterface.MapBufferEx. run (readObject_ok 40 l (St m timer k c) Hl).
    rewrite (member_take 8 4 40), El by lia.
    exists (bytesOf 4 (garbage 13 (gpu k)) ++ bytesOf 4 (garbage 14 (gpu k)) ++
      bytesOf 4 (garbage 15 (gpu k)) ++ bytesOf 4 (member 12 4 l) ++
      bytesOf 8 (garbage 16 (gpu k)) ++ bytesOf 8 (garbage 17 (gpu k))).
    rewrite (bind_ok _ _ _ o (St m timer k c)).
    2: { unfold lookupNvmapObject. rewrite (bind_ok _ _ _ (gpu k) (St m timer k c)) by done.
         unfold objectAt in Ho. by rewrite Ho. }
    rewrite (bind_ok _ _ _ (gpu k) (St m timer k c)) by done.
    rewrite member_take by lia. rewrite <-!app_assoc. reflexivity.
Qed.
End Commands.

(** C38: the objects of [/dev/nvmap]: creating one gives a new handle, after which the
    device answers for it its id and, for the id, its handle, its size, and, once its
    memory was given, its attributes; mapping it gives the address it was given; all
    other objects stay as they are. *)
Theorem nvmap_objects_answer {Mem} `{GuestMemory Mem} `{PageAdmin Mem} `{GpuHost}
    (m : Mem) (timer : Z) (c : Core) (k : KState) (create alloc : list Z) :
  nvmap_ok (gpu k) -> handleCounter (gpu k) < 2 ^ 32 - 1 -> (8 <= length create)%nat ->
  let h := handleCounter (gpu k) in
  exists k1 o, nvmap 1 create (St m timer k c) =
      Ok ((ERR_SUCCESS, bytesOf 4 (member 0 4 create) ++ bytesOf 4 h), St m timer k1 c) /\
    nvmap_ok (gpu k1) /\ objectAt (gpu k1) h = Some o /\ nvSize o = member 0 4 create /\
    (forall h', h' <> h -> objectAt (gpu k1) h' = objectAt (gpu k) h') /\
    answers m timer c k1 o /\
    ((32 <= length alloc)%nat -> member 0 4 alloc = h ->
     exists k2 out, nvmap 4 alloc (St m timer k1 c) = Ok ((ERR_SUCCESS, out), St m timer k2 c) /\
       nvmap_ok (gpu k2) /\
       answers m timer c k2
         (attributed o (member 12 4 alloc) (member 16 1 alloc) (member 24 8 alloc)) /\
       (forall h', h' <> h -> objectAt (gpu k2) h' = objectAt (gpu k) h')).
Proof.
  intros Hg Hf Hl h. destruct (create_command m timer c k create Hl) as (o & O1 & O2 & O3 & E).
  assert (nvmap_ok (gpu (set_gpu (created (gpu k) o) k))) as Hg1 by by apply created_ok.
  assert (forall h', objectAt (created (gpu k) o) h' = if h' =? h then Some o else objectAt (gpu k) h')
    as Hat by (intros h'; by apply objectAt_created).
  assert (objectAt (created (gpu k) o) h = Some o) as Ho by by rewrite Hat, Z.eqb_refl.
  exists (set_gpu (created (gpu k) o) k), o. split; [exact E|]. split; [done|]. split; [exact Ho|].
  split; [done|]. split.
  { intros h' Hne. change (gpu (set_gpu _ k)) with (created (gpu k) o).
    by rewrite Hat, (proj2 (Z.eqb_neq _ _) Hne). }
  split; [by apply (answers_object m timer c _ h)|]. intros Hla Ha.
  destruct (alloc_command m timer c _ alloc h o Hg1 Hla Ha Ho) as [out Ea].
  eexists _, out. split; [exact Ea|]. split; [by apply (allocated_ok _ Hg1 h o)|]. split.
  - apply (answers_object m timer c _ h); [by apply (allocated_ok _ Hg1 h o)|].
    change (gpu (set_gpu ?x _)) with x. by rewrite (objectAt_allocated _ Hg1 h o), Z.eqb_refl.
  - intros h' Hne. change (gpu (set_gpu (allocatedIn ?x ?a ?b ?d ?e) _)) with (allocatedIn x a b d e).
    rewrite (objectAt_allocated _ Hg1 h o), (proj2 (Z.eqb_neq _ _) Hne) by exact Ho.
    change (gpu (set_gpu _ k)) with (created (gpu k) o). by rewrite Hat, (proj2 (Z.eqb_neq _ _) Hne).
Qed.

(** The first object of a program: one page, aligned to a page, at 0xAA0000000. *)
#[local] Instance quiet_gpu : GpuHost := { garbage _ _ := 0xCDCDCDCD }.

Definition create_example : list Z := bytesOf 4 0x1000 ++ bytesOf 4 0.
Definition alloc_example : list Z :=
  bytesOf 4 1 ++ bytesOf 4 0 ++ bytesOf 4 0 ++ bytesOf 4 0x1000 ++ bytesOf 8 0xFE ++ bytesOf 8 0xAA0000000.

Lemma nvmap_objects_answer_witness :
  exists k1 k2, nvmap 1 create_example (St mem_example 0 running_example (core_example 0)) =
      Ok ((ERR_SUCCESS, bytesOf 4 0x1000 ++ bytesOf 4 1), St mem_example 0 k1 (core_example 0)) /\
    nvmap 9 (bytesOf 4 1 ++ bytesOf 4 2 ++ bytesOf 4 0) (St mem_example 0 k2 (core_example 0)) =
      Ok ((ERR_SUCCESS, bytesOf 4 1 ++ bytesOf 4 2 ++ bytesOf 4 0x1000),
          St mem_example 0 k2 (core_example 0)).
Proof.
  destruct (nvmap_objects_answer mem_example 0 (core_example 0) running_example create_example alloc_example
    gpu_static_ok ltac:(vm_compute; reflexivity) ltac:(vm_compute; lia))
    as (k1 & o & E & _ & Ho & _ & _ & _ & Ha).
  destruct (Ha ltac:(vm_compute; lia) ltac:(vm_compute; reflexivity)) as (k2 & out & _ & _ & A & _).
  exists k1, k2. split; [exact E|].
  assert (nvHandle o = 1) as E1.
  { unfold objectAt in Ho. apply find_some in Ho as [_ Ho]. by apply Z.eqb_eq in Ho. }
  pose proof (an_param _ _ _ _ _ A 2 0x1000 0) as P.
  change (nvHandle (attributed o _ _ _)) with (nvHandle o) in P. rewrite E1 in P. apply P.
  apply elem_of_cons. right. apply elem_of_cons. by left.
Defined.
