(* ===== verification/ServiceBase.v ===== *)
(** * What the service classes share: [hle/service.h], and access to the displays

    An object of a service class has no state beyond the table its constructor
    registers, so a pointer to one is represented by the number of its class; 0 is the
    null pointer. *)
From stdpp Require Import strings.
From S2P Require Import Prelude BitUtils Core Machine HandleManager MemoryMapper.
From S2P Require Import Thread Display KernelState Scheduler Ipc SmService Gpu.
#[global] Open Scope Z_scope.

(** ** The classes *)

Inductive ServiceClass : Set :=
  | SmService
  | IAccountServiceForApplication
  | IManagerForApplication
  | INotifier
  | IProfile
  | IAllSystemAppletProxiesService
  | IApplicationFunctions
  | IApplicationProxy
  | IApplicationProxyService
  | IAudioController
  | ICommonStateGetter
  | IDebugFunctions
  | IDisplayController
  | ILibraryAppletCreator
  | ILibraryAppletProxy
  | IProcessWindingController
  | ISelfController
  | am_IStorage
  | IStorageAccessor
  | IWindowController
  | IAddOnContentManager
  | IManager
  | ISession
  | IFileSystemProxy
  | fssrv_IStorage
  | IAppletResource
  | IHidServer
  | ILogService
  | ILogger
  | IGeneralService
  | nifm_IStaticService
  | IParentalControlServiceFactory
  | ISettingsServer
  | timesrv_IStaticService
  | ISteadyClock
  | ISystemClock
  | ITimeZoneService
  | IApplicationDisplayService
  | IApplicationRootService
  | IManagerDisplayService
  | IManagerRootService
  | ISystemDisplayService
  | ISystemRootService
  | IHOSBinderDriver
  | INvDrvServices.
#[export] Instance ServiceClass_eq_dec : EqDecision ServiceClass.
Proof. solve_decision. Defined.

Definition interfaceOf (c : ServiceClass) : Z :=
  match c with
  | SmService => 1
  | IAccountServiceForApplication => 2
  | IManagerForApplication => 3
  | INotifier => 4
  | IProfile => 5
  | IAllSystemAppletProxiesService => 6
  | IApplicationFunctions => 7
  | IApplicationProxy => 8
  | IApplicationProxyService => 9
  | IAudioController => 10
  | ICommonStateGetter => 11
  | IDebugFunctions => 12
  | IDisplayController => 13
  | ILibraryAppletCreator => 14
  | ILibraryAppletProxy => 15
  | IProcessWindingController => 16
  | ISelfController => 17
  | am_IStorage => 18
  | IStorageAccessor => 19
  | IWindowController => 20
  | IAddOnContentManager => 21
  | IManager => 22
  | ISession => 23
  | IFileSystemProxy => 24
  | fssrv_IStorage => 25
  | IAppletResource => 26
  | IHidServer => 27
  | ILogService => 28
  | ILogger => 29
  | IGeneralService => 30
  | nifm_IStaticService => 31
  | IParentalControlServiceFactory => 32
  | ISettingsServer => 33
  | timesrv_IStaticService => 34
  | ISteadyClock => 35
  | ISystemClock => 36
  | ITimeZoneService => 37
  | IApplicationDisplayService => 38
  | IApplicationRootService => 39
  | IManagerDisplayService => 40
  | IManagerRootService => 41
  | ISystemDisplayService => 42
  | ISystemRootService => 43
  | IHOSBinderDriver => 44
  | INvDrvServices => 45
  end.

Definition allClasses : list ServiceClass :=
  [SmService;
   IAccountServiceForApplication;
   IManagerForApplication;
   INotifier;
   IProfile;
   IAllSystemAppletProxiesService;
   IApplicationFunctions;
   IApplicationProxy;
   IApplicationProxyService;
   IAudioController;
   ICommonStateGetter;
   IDebugFunctions;
   IDisplayController;
   ILibraryAppletCreator;
   ILibraryAppletProxy;
   IProcessWindingController;
   ISelfController;
   am_IStorage;
   IStorageAccessor;
   IWindowController;
   IAddOnContentManager;
   IManager;
   ISession;
   IFileSystemProxy;
   fssrv_IStorage;
   IAppletResource;
   IHidServer;
   ILogService;
   ILogger;
   IGeneralService;
   nifm_IStaticService;
   IParentalControlServiceFactory;
   ISettingsServer;
   timesrv_IStaticService;
   ISteadyClock;
   ISystemClock;
   ITimeZoneService;
   IApplicationDisplayService;
   IApplicationRootService;
   IManagerDisplayService;
   IManagerRootService;
   ISystemDisplayService;
   ISystemRootService;
   IHOSBinderDriver;
   INvDrvServices].

Definition classOf (interface : Z) : option ServiceClass :=
  find (fun c => interfaceOf c =? interface) allClasses.

(** What a handler finds in a local struct it does not initialise, one place each, and
    the file [romfs] in the directory of the game, if there is one. *)
Class ServiceHost := { leftover : nat -> KState -> Z; romfs : option (list Z) }.

(** ** Functions *)

Definition ServiceFunc (Mem : Type) : Type := IpcInfo -> IpcMessageCons -> K Mem (Z * IpcMessageCons).

Section Functions.
Context {Mem : Type}.

(** The macro of [service.h]: the name is logged. *)
Definition SERVICE_FUNC_STUB : ServiceFunc Mem := INvDrvServices.stub.

(** A row of a table; the name is for the log. *)
Definition entry (id : Z) (func : ServiceFunc Mem) (name : string) : FunctionEntry Mem :=
  mkFunctionEntry id (Some func).

(** [reply->moveHandle((new C())->connect())] *)
Definition opens (c : ServiceClass) (reply : IpcMessageCons) : K Mem (Z * IpcMessageCons) :=
  handle ← (connect (interfaceOf c) : K Mem Z);
  mret (ERR_SUCCESS, moveHandle handle reply).

Definition getHle : K Mem HleState := k ← (getK : K Mem KState); mret (hle k).
Definition modHle (f : HleState -> HleState) : K Mem unit := modK (fun k => set_hle (f (hle k)) k).

(** A function of [gDisplayManager]. *)
Definition onDisplays {A} (f : DisplayManager.t -> result (A * DisplayManager.t)) : K Mem A :=
  liftR (fun k =>
    '(a, d) ← f (gDisplayManager (hle k)); Ok (a, set_hle (set_gDisplayManager d (hle k)) k)).

(** [DisplayManager::draw] on the graphics thread. *)
Definition nvmapAddress (g : GpuState) (handle : Z) : option Z :=
  nvAddr <$> find (fun o => nvHandle o =? handle) (gMapObjects g).
Definition draw : K Mem unit :=
  k ← (getK : K Mem KState);
  l ← (onDisplays (DisplayManager.draw (bufferAddress (nvmapAddress (gpu k)))) : K Mem (list Z));
  modHle (fun h => set_shown (shown h ++ l) h).
End Functions.
