(* ===== verification/NnServices.v ===== *)
(** * The classes of the services: [hle/nn], a Module each

    Accounts, applets, add-on content, performance, files, input, logging, network,
    parental control, settings, time and display: the functions of every class and the
    table its constructor registers. *)
From stdpp Require Import strings.
From S2P Require Import LoaderFormat.
From S2P Require Import Prelude BitUtils Core Machine HandleManager MemoryMapper.
From S2P Require Import Thread Display KernelState Scheduler Ipc SmService Gpu ServiceBase.
#[global] Open Scope Z_scope.

(** ** [account/IAccountServiceForApplication.h] *)
Module IAccountServiceForApplication.
Section Functions.
Context {Mem : Type} `{GuestMemory Mem} `{ServiceHost}.

Definition GetProfile : ServiceFunc Mem := fun info reply =>
  opens IProfile reply.

Definition InitializeApplicationInfo : ServiceFunc Mem := fun info reply =>
  mret (ERR_SUCCESS, reply).

Definition GetBaasAccountManagerForApplication : ServiceFunc Mem := fun info reply =>
  opens IManagerForApplication reply.

Definition functions : list (FunctionEntry Mem) :=
  [entry 0 SERVICE_FUNC_STUB "GetUserCount";
   entry 1 SERVICE_FUNC_STUB "GetUserExistence";
   entry 2 SERVICE_FUNC_STUB "ListAllUsers";
   entry 3 SERVICE_FUNC_STUB "ListOpenUsers";
   entry 4 SERVICE_FUNC_STUB "GetLastOpenedUser";
   entry 5 GetProfile "GetProfile";
   entry 6 SERVICE_FUNC_STUB "GetProfileDigest";
   entry 50 SERVICE_FUNC_STUB "IsUserRegistrationRequestPermitted";
   entry 51 SERVICE_FUNC_STUB "TrySelectUserWithoutInteraction";
   entry 100 InitializeApplicationInfo "InitializeApplicationInfo";
   entry 101 GetBaasAccountManagerForApplication "GetBaasAccountManagerForApplication";
   entry 102 SERVICE_FUNC_STUB "AuthenticateApplicationAsync";
   entry 110 SERVICE_FUNC_STUB "StoreSaveDataThumbnail";
   entry 111 SERVICE_FUNC_STUB "ClearSaveDataThumbnail";
   entry 120 SERVICE_FUNC_STUB "CreateGuestLoginRequest"].
End Functions.
End IAccountServiceForApplication.

(** ** [account/IManagerForApplication.h] *)
Module IManagerForApplication.
Section Functions.
Context {Mem : Type} `{GuestMemory Mem} `{ServiceHost}.

Definition functions : list (FunctionEntry Mem) :=
  [entry 0 SERVICE_FUNC_STUB "CheckAvailability";
   entry 1 SERVICE_FUNC_STUB "GetAccountId";
   entry 2 SERVICE_FUNC_STUB "EnsureIdTokenCacheAsync";
   entry 3 SERVICE_FUNC_STUB "LoadIdTokenCache";
   entry 130 SERVICE_FUNC_STUB "GetNintendoAccountUserResourceCacheForApplication";
   entry 150 SERVICE_FUNC_STUB "CreateAuthorizationRequest"].
End Functions.
End IManagerForApplication.

(** ** [account/INotifier.h] *)
Module INotifier.
Section Functions.
Context {Mem : Type} `{GuestMemory Mem} `{ServiceHost}.

Definition functions : list (FunctionEntry Mem) :=
  [entry 0 SERVICE_FUNC_STUB "GetSystemEvent"].
End Functions.
End INotifier.

(** ** [account/IProfile.h] *)
Module IProfile.
Section Functions.
Context {Mem : Type} `{GuestMemory Mem} `{ServiceHost}.

Definition GetBase : ServiceFunc Mem := fun _ reply =>
  k ← (getK : K Mem KState);
  mret (ERR_SUCCESS, writeArgs (bytesOf 56 (leftover 0 k)) reply).

Definition functions : list (FunctionEntry Mem) :=
  [entry 0 SERVICE_FUNC_STUB "Get";
   entry 1 GetBase "GetBase";
   entry 10 SERVICE_FUNC_STUB "GetImageSize";
   entry 11 SERVICE_FUNC_STUB "LoadImage"].
End Functions.
End IProfile.

(** ** [am/IAllSystemAppletProxiesService.h] *)
Module IAllSystemAppletProxiesService.
Section Functions.
Context {Mem : Type} `{GuestMemory Mem} `{ServiceHost}.

Definition OpenLibraryAppletProxyOld : ServiceFunc Mem := fun info reply =>
  opens ILibraryAppletProxy reply.

Definition functions : list (FunctionEntry Mem) :=
  [entry 100 SERVICE_FUNC_STUB "OpenSystemAppletProxy";
   entry 200 OpenLibraryAppletProxyOld "OpenLibraryAppletProxyOld";
   entry 201 SERVICE_FUNC_STUB "OpenLibraryAppletProxy";
   entry 300 SERVICE_FUNC_STUB "OpenOverlayAppletProxy";
   entry 350 SERVICE_FUNC_STUB "OpenSystemApplicationProxy";
   entry 400 SERVICE_FUNC_STUB "CreateSelfLibraryAppletCreatorForDevelop"].
End Functions.
End IAllSystemAppletProxiesService.

(** ** [am/IApplicationFunctions.h] *)
Module IApplicationFunctions.
Section Functions.
Context {Mem : Type} `{GuestMemory Mem} `{ServiceHost}.

Definition PopLaunchParameter : ServiceFunc Mem := fun info reply =>
  opens am_IStorage reply.

Definition GetDesiredLanguage : ServiceFunc Mem := fun _ reply => mret (ERR_SUCCESS, writeArgs (bytesOf 8 0x1) reply).

Definition SetTerminateResult : ServiceFunc Mem := fun info reply =>
  _ ← (needArgs 4 info : K Mem (list Z));
  mret (ERR_SUCCESS, reply).

Definition NotifyRunning : ServiceFunc Mem := fun _ reply =>
  k ← (getK : K Mem KState);
  mret (ERR_SUCCESS, writeArgs (bytesOf 1 (leftover 1 k)) reply).

Definition functions : list (FunctionEntry Mem) :=
  [entry 1 PopLaunchParameter "PopLaunchParameter";
   entry 10 SERVICE_FUNC_STUB "CreateApplicationAndPushAndRequestToStart";
   entry 11 SERVICE_FUNC_STUB "CreateApplicationAndPushAndRequestToStartForQuest";
   entry 20 SERVICE_FUNC_STUB "EnsureSaveData";
   entry 21 GetDesiredLanguage "GetDesiredLanguage";
   entry 22 SetTerminateResult "SetTerminateResult";
   entry 23 SERVICE_FUNC_STUB "GetDisplayVersion";
   entry 24 SERVICE_FUNC_STUB "GetLaunchStorageInfoForDebug";
   entry 25 SERVICE_FUNC_STUB "ExtendSaveData";
   entry 26 SERVICE_FUNC_STUB "GetSaveDataSize";
   entry 30 SERVICE_FUNC_STUB "BeginBlockingHomeButtonShortAndLongPressed";
   entry 31 SERVICE_FUNC_STUB "EndBlockingHomeButtonShortAndLongPressed";
   entry 32 SERVICE_FUNC_STUB "BeginBlockingHomeButton";
   entry 33 SERVICE_FUNC_STUB "EndBlockingHomeButton";
   entry 40 NotifyRunning "NotifyRunning";
   entry 50 SERVICE_FUNC_STUB "GetPseudoDeviceId";
   entry 60 SERVICE_FUNC_STUB "SetMediaPlaybackStateForApplication";
   entry 65 SERVICE_FUNC_STUB "IsGamePlayRecordingSupported";
   entry 66 SERVICE_FUNC_STUB "InitializeGamePlayRecording";
   entry 67 SERVICE_FUNC_STUB "SetGamePlayRecordingState";
   entry 70 SERVICE_FUNC_STUB "RequestToShutdown";
   entry 71 SERVICE_FUNC_STUB "RequestToReboot"].
End Functions.
End IApplicationFunctions.

(** ** [am/IApplicationProxy.h] *)
Module IApplicationProxy.
Section Functions.
Context {Mem : Type} `{GuestMemory Mem} `{ServiceHost}.

Definition GetCommonStateGetter : ServiceFunc Mem := fun info reply =>
  opens ICommonStateGetter reply.

Definition GetSelfController : ServiceFunc Mem := fun info reply =>
  opens ISelfController reply.

Definition GetWindowController : ServiceFunc Mem := fun info reply =>
  opens IWindowController reply.

Definition GetAudioController : ServiceFunc Mem := fun info reply =>
  opens IAudioController reply.

Definition GetDisplayController : ServiceFunc Mem := fun info reply =>
  opens IDisplayController reply.

Definition GetProcessWindingController : ServiceFunc Mem := fun info reply =>
  opens IProcessWindingController reply.

Definition GetLibraryAppletCreator : ServiceFunc Mem := fun info reply =>
  opens ILibraryAppletCreator reply.

Definition GetApplicationFunctions : ServiceFunc Mem := fun info reply =>
  opens IApplicationFunctions reply.

Definition GetDebugFunctions : ServiceFunc Mem := fun info reply =>
  opens IDebugFunctions reply.

Definition functions : list (FunctionEntry Mem) :=
  [entry 0 GetCommonStateGetter "GetCommonStateGetter";
   entry 1 GetSelfController "GetSelfController";
   entry 2 GetWindowController "GetWindowController";
   entry 3 GetAudioController "GetAudioController";
   entry 4 GetDisplayController "GetDisplayController";
   entry 10 GetProcessWindingController "GetProcessWindingController";
   entry 11 GetLibraryAppletCreator "GetLibraryAppletCreator";
   entry 20 GetApplicationFunctions "GetApplicationFunctions";
   entry 1000 GetDebugFunctions "GetDebugFunctions"].
End Functions.
End IApplicationProxy.

(** ** [am/IApplicationProxyService.h] *)
Module IApplicationProxyService.
Section Functions.
Context {Mem : Type} `{GuestMemory Mem} `{ServiceHost}.

Definition OpenApplicationProxy : ServiceFunc Mem := fun info reply =>
  opens IApplicationProxy reply.

Definition functions : list (FunctionEntry Mem) :=
  [entry 0 OpenApplicationProxy "OpenApplicationProxy"].
End Functions.
End IApplicationProxyService.

(** ** [am/IAudioController.h] *)
Module IAudioController.
Section Functions.
Context {Mem : Type} `{GuestMemory Mem} `{ServiceHost}.

Definition functions : list (FunctionEntry Mem) :=
  [entry 0 SERVICE_FUNC_STUB "SetExpectedMasterVolume";
   entry 1 SERVICE_FUNC_STUB "GetMainAppletExpectedMasterVolume";
   entry 2 SERVICE_FUNC_STUB "GetLibraryAppletExpectedMasterVolume";
   entry 3 SERVICE_FUNC_STUB "ChangeMainAppletMasterVolume";
   entry 4 SERVICE_FUNC_STUB "SetTransparentVolumeRate"].
End Functions.
End IAudioController.

(** ** [am/ICommonStateGetter.h] *)
Module ICommonStateGetter.
Section Functions.
Context {Mem : Type} `{GuestMemory Mem} `{ServiceHost}.

Definition GetEventHandle : ServiceFunc Mem := fun _ reply => mret (ERR_SUCCESS, copyHandle 0x12345678 reply).

Definition ReceiveMessage : ServiceFunc Mem := fun _ reply =>
  h ← (getHle : K Mem HleState);
  (modHle (set_message (if message h =? 0x1 then 0xF else 0x1)) : K Mem unit);;
  mret (ERR_SUCCESS, writeArgs (bytesOf 4 (message h)) reply).

Definition GetOperationMode : ServiceFunc Mem := fun _ reply => mret (ERR_SUCCESS, writeArgs (bytesOf 1 0x15) reply).

Definition GetPerformanceMode : ServiceFunc Mem := fun _ reply => mret (ERR_SUCCESS, writeArgs (bytesOf 4 0x15) reply).

Definition GetCurrentFocusState : ServiceFunc Mem := fun _ reply => mret (ERR_SUCCESS, writeArgs (bytesOf 1 0x1) reply).

Definition functions : list (FunctionEntry Mem) :=
  [entry 0 GetEventHandle "GetEventHandle";
   entry 1 ReceiveMessage "ReceiveMessage";
   entry 2 SERVICE_FUNC_STUB "GetThisAppletKind";
   entry 3 SERVICE_FUNC_STUB "AllowToEnterSleep";
   entry 4 SERVICE_FUNC_STUB "DisallowToEnterSleep";
   entry 5 GetOperationMode "GetOperationMode";
   entry 6 GetPerformanceMode "GetPerformanceMode";
   entry 7 SERVICE_FUNC_STUB "GetCradleStatus";
   entry 8 SERVICE_FUNC_STUB "GetBootMode";
   entry 9 GetCurrentFocusState "GetCurrentFocusState";
   entry 10 SERVICE_FUNC_STUB "RequestToAcquireSleepLock";
   entry 11 SERVICE_FUNC_STUB "ReleaseSleepLock";
   entry 12 SERVICE_FUNC_STUB "ReleaseSleepLockTransiently";
   entry 13 SERVICE_FUNC_STUB "GetAcquiredSleepLockEvent";
   entry 20 SERVICE_FUNC_STUB "PushToGeneralChannel";
   entry 30 SERVICE_FUNC_STUB "GetHomeButtonReaderLockAccessor";
   entry 31 SERVICE_FUNC_STUB "GetReaderLockAccessorEx";
   entry 40 SERVICE_FUNC_STUB "GetCradleFwVersion";
   entry 50 SERVICE_FUNC_STUB "IsVrModeEnabled";
   entry 51 SERVICE_FUNC_STUB "SetVrModeEnabled";
   entry 55 SERVICE_FUNC_STUB "IsInControllerFirmwareUpdateSection";
   entry 60 SERVICE_FUNC_STUB "GetDefaultDisplayResolution";
   entry 61 SERVICE_FUNC_STUB "GetDefaultDisplayResolutionChangeEvent"].
End Functions.
End ICommonStateGetter.

(** ** [am/IDebugFunctions.h] *)
Module IDebugFunctions.
Section Functions.
Context {Mem : Type} `{GuestMemory Mem} `{ServiceHost}.

Definition functions : list (FunctionEntry Mem) :=
  [entry 0 SERVICE_FUNC_STUB "NotifyMessageToHomeMenuForDebug";
   entry 1 SERVICE_FUNC_STUB "OpenMainApplication";
   entry 10 SERVICE_FUNC_STUB "EmulateButtonEvent";
   entry 20 SERVICE_FUNC_STUB "InvalidateTransitionLayer"].
End Functions.
End IDebugFunctions.

(** ** [am/IDisplayController.h] *)
Module IDisplayController.
Section Functions.
Context {Mem : Type} `{GuestMemory Mem} `{ServiceHost}.

Definition functions : list (FunctionEntry Mem) :=
  [entry 0 SERVICE_FUNC_STUB "GetLastForegroundCaptureImage";
   entry 1 SERVICE_FUNC_STUB "UpdateLastForegroundCaptureImage";
   entry 2 SERVICE_FUNC_STUB "GetLastApplicationCaptureImage";
   entry 3 SERVICE_FUNC_STUB "GetCallerAppletCaptureImage";
   entry 4 SERVICE_FUNC_STUB "UpdateCallerAppletCaptureImage";
   entry 5 SERVICE_FUNC_STUB "GetLastForegroundCaptureImageEx";
   entry 6 SERVICE_FUNC_STUB "GetLastApplicationCaptureImageEx";
   entry 7 SERVICE_FUNC_STUB "GetCallerAppletCaptureImageEx";
   entry 8 SERVICE_FUNC_STUB "TakeScreenShotOfOwnLayer";
   entry 10 SERVICE_FUNC_STUB "AcquireLastApplicationCaptureBuffer";
   entry 11 SERVICE_FUNC_STUB "ReleaseLastApplicationCaptureBuffer";
   entry 12 SERVICE_FUNC_STUB "AcquireLastForegroundCaptureBuffer";
   entry 13 SERVICE_FUNC_STUB "ReleaseLastForegroundCaptureBuffer";
   entry 14 SERVICE_FUNC_STUB "AcquireCallerAppletCaptureBuffer";
   entry 15 SERVICE_FUNC_STUB "ReleaseCallerAppletCaptureBuffer";
   entry 16 SERVICE_FUNC_STUB "AcquireLastApplicationCaptureBufferEx";
   entry 17 SERVICE_FUNC_STUB "AcquireLastForegroundCaptureBufferEx";
   entry 18 SERVICE_FUNC_STUB "AcquireCallerAppletCaptureBufferEx";
   entry 20 SERVICE_FUNC_STUB "ClearCaptureBuffer";
   entry 21 SERVICE_FUNC_STUB "ClearAppletTransitionBuffer"].
End Functions.
End IDisplayController.

(** ** [am/ILibraryAppletCreator.h] *)
Module ILibraryAppletCreator.
Section Functions.
Context {Mem : Type} `{GuestMemory Mem} `{ServiceHost}.

Definition functions : list (FunctionEntry Mem) :=
  [entry 0 SERVICE_FUNC_STUB "CreateLibraryApplet";
   entry 1 SERVICE_FUNC_STUB "TerminateAllLibraryApplets";
   entry 2 SERVICE_FUNC_STUB "AreAnyLibraryAppletsLeft";
   entry 10 SERVICE_FUNC_STUB "CreateStorage";
   entry 11 SERVICE_FUNC_STUB "CreateTransferMemoryStorage";
   entry 12 SERVICE_FUNC_STUB "CreateHandleStorage"].
End Functions.
End ILibraryAppletCreator.

(** ** [am/ILibraryAppletProxy.h] *)
Module ILibraryAppletProxy.
Section Functions.
Context {Mem : Type} `{GuestMemory Mem} `{ServiceHost}.

Definition GetSelfController : ServiceFunc Mem := fun info reply =>
  opens ISelfController reply.

Definition GetWindowController : ServiceFunc Mem := fun info reply =>
  opens IWindowController reply.

Definition functions : list (FunctionEntry Mem) :=
  [entry 0 SERVICE_FUNC_STUB "GetCommonStateGetter";
   entry 1 GetSelfController "GetSelfController";
   entry 2 GetWindowController "GetWindowController";
   entry 3 SERVICE_FUNC_STUB "GetAudioController";
   entry 4 SERVICE_FUNC_STUB "GetDisplayController";
   entry 10 SERVICE_FUNC_STUB "GetProcessWindingController";
   entry 11 SERVICE_FUNC_STUB "GetLibraryAppletCreator";
   entry 20 SERVICE_FUNC_STUB "OpenLibraryAppletSelfAccessor";
   entry 1000 SERVICE_FUNC_STUB "GetDebugFunctions"].
End Functions.
End ILibraryAppletProxy.

(** ** [am/IProcessWindingController.h] *)
Module IProcessWindingController.
Section Functions.
Context {Mem : Type} `{GuestMemory Mem} `{ServiceHost}.

Definition functions : list (FunctionEntry Mem) :=
  [entry 0 SERVICE_FUNC_STUB "GetLaunchReason";
   entry 11 SERVICE_FUNC_STUB "OpenCallingLibraryApplet";
   entry 21 SERVICE_FUNC_STUB "PushContext";
   entry 22 SERVICE_FUNC_STUB "PopContext";
   entry 23 SERVICE_FUNC_STUB "CancelWindingReservation";
   entry 30 SERVICE_FUNC_STUB "WindAndDoReserved";
   entry 40 SERVICE_FUNC_STUB "ReserveToStartAndWaitAndUnwindThis"].
End Functions.
End IProcessWindingController.

(** ** [am/ISelfController.h] *)
Module ISelfController.
Section Functions.
Context {Mem : Type} `{GuestMemory Mem} `{ServiceHost}.

Definition SetOperationModeChangedNotification : ServiceFunc Mem := fun info reply =>
  _ ← (needArgs 1 info : K Mem (list Z));
  mret (ERR_SUCCESS, reply).

Definition SetPerformanceModeChangedNotification : ServiceFunc Mem := fun info reply =>
  _ ← (needArgs 1 info : K Mem (list Z));
  mret (ERR_SUCCESS, reply).

Definition SetFocusHandlingMode : ServiceFunc Mem := fun info reply =>
  _ ← (needArgs 3 info : K Mem (list Z));
  mret (ERR_SUCCESS, reply).

Definition SetRestartMessageEnabled : ServiceFunc Mem := fun info reply =>
  _ ← (needArgs 1 info : K Mem (list Z));
  mret (ERR_SUCCESS, reply).

Definition SetScreenShotAppletIdentityInfo : ServiceFunc Mem := fun info reply =>
  _ ← (needArgs 16 info : K Mem (list Z));
  mret (ERR_SUCCESS, reply).

Definition SetOutOfFocusSuspendingEnabled : ServiceFunc Mem := fun info reply =>
  _ ← (needArgs 1 info : K Mem (list Z));
  mret (ERR_SUCCESS, reply).

Definition CreateManagedDisplayLayer : ServiceFunc Mem := fun _ reply =>
  layerId ← (onDisplays (fun d =>
    id ← DisplayManager.openDisplay "Default" d; DisplayManager.createLayer id d) : K Mem Z);
  mret (ERR_SUCCESS, writeArgs (bytesOf 8 layerId) reply).

Definition functions : list (FunctionEntry Mem) :=
  [entry 0 SERVICE_FUNC_STUB "Exit";
   entry 1 SERVICE_FUNC_STUB "LockExit";
   entry 2 SERVICE_FUNC_STUB "UnlockExit";
   entry 3 SERVICE_FUNC_STUB "EnterFatalSection";
   entry 4 SERVICE_FUNC_STUB "LeaveFatalSection";
   entry 9 SERVICE_FUNC_STUB "GetLibraryAppletLaunchableEvent";
   entry 10 SERVICE_FUNC_STUB "SetScreenShotPermission";
   entry 11 SetOperationModeChangedNotification "SetOperationModeChangedNotification";
   entry 12 SetPerformanceModeChangedNotification "SetPerformanceModeChangedNotification";
   entry 13 SetFocusHandlingMode "SetFocusHandlingMode";
   entry 14 SetRestartMessageEnabled "SetRestartMessageEnabled";
   entry 15 SetScreenShotAppletIdentityInfo "SetScreenShotAppletIdentityInfo";
   entry 16 SetOutOfFocusSuspendingEnabled "SetOutOfFocusSuspendingEnabled";
   entry 17 SERVICE_FUNC_STUB "SetControllerFirmwareUpdateSection";
   entry 18 SERVICE_FUNC_STUB "SetRequiresCaptureButtonShortPressedMessage";
   entry 19 SERVICE_FUNC_STUB "SetScreenShotImageOrientation";
   entry 40 CreateManagedDisplayLayer "CreateManagedDisplayLayer";
   entry 50 SERVICE_FUNC_STUB "SetHandlesRequestToDisplay";
   entry 51 SERVICE_FUNC_STUB "ApproveToDisplay";
   entry 60 SERVICE_FUNC_STUB "OverrideAutoSleepTimeAndDimmingTime";
   entry 61 SERVICE_FUNC_STUB "SetMediaPlaybackState";
   entry 62 SERVICE_FUNC_STUB "SetIdleTimeDetectionExtension";
   entry 63 SERVICE_FUNC_STUB "GetIdleTimeDetectionExtension";
   entry 64 SERVICE_FUNC_STUB "SetInputDetectionSourceSet";
   entry 65 SERVICE_FUNC_STUB "ReportUserIsActive";
   entry 66 SERVICE_FUNC_STUB "GetCurrentIlluminance";
   entry 67 SERVICE_FUNC_STUB "IsIlluminanceAvailable"].
End Functions.
End ISelfController.

(** ** [am/IStorage.h] *)
Module am_IStorage.
Section Functions.
Context {Mem : Type} `{GuestMemory Mem} `{ServiceHost}.

Definition Open : ServiceFunc Mem := fun info reply =>
  opens IStorageAccessor reply.

Definition functions : list (FunctionEntry Mem) :=
  [entry 0 Open "Open";
   entry 1 SERVICE_FUNC_STUB "OpenTransferStorage"].
End Functions.
End am_IStorage.

(** ** [am/IStorageAccessor.h] *)
Module IStorageAccessor.
Section Functions.
Context {Mem : Type} `{GuestMemory Mem} `{ServiceHost}.

Definition GetSize : ServiceFunc Mem := fun _ reply => mret (ERR_SUCCESS, writeData 0x100 reply).

Definition Read : ServiceFunc Mem := fun info reply =>
  d ← (INvDrvServices.front (staticOutDescriptors info) : K Mem ReceiveListDescriptor);
  let addr := receiveAddress d in
  write32 addr 0xC79497CA;;
  write8 (addr + 4) 0x1;;
  write64 (addr + 8) 0xF;;
  write64 (addr + 16) 0xF0;;
  mret (ERR_SUCCESS, reply).

Definition functions : list (FunctionEntry Mem) :=
  [entry 0 GetSize "GetSize";
   entry 10 SERVICE_FUNC_STUB "Write";
   entry 11 Read "Read"].
End Functions.
End IStorageAccessor.

(** ** [am/IWindowController.h] *)
Module IWindowController.
Section Functions.
Context {Mem : Type} `{GuestMemory Mem} `{ServiceHost}.

Definition GetAppletResourceUserId : ServiceFunc Mem := fun _ reply => mret (ERR_SUCCESS, writeArgs (bytesOf 8 0x12345678) reply).

Definition AcquireForegroundRights : ServiceFunc Mem := fun info reply =>
  mret (ERR_SUCCESS, reply).

Definition functions : list (FunctionEntry Mem) :=
  [entry 0 SERVICE_FUNC_STUB "CreateWindow";
   entry 1 GetAppletResourceUserId "GetAppletResourceUserId";
   entry 10 AcquireForegroundRights "AcquireForegroundRights";
   entry 11 SERVICE_FUNC_STUB "ReleaseForegroundRights";
   entry 12 SERVICE_FUNC_STUB "RejectToChangeIntoBackground"].
End Functions.
End IWindowController.

(** ** [aocsrv/IAddOnContentManager.h] *)
Module IAddOnContentManager.
Section Functions.
Context {Mem : Type} `{GuestMemory Mem} `{ServiceHost}.

Definition functions : list (FunctionEntry Mem) :=
  [entry 0 SERVICE_FUNC_STUB "CountAddOnContentByApplicationId";
   entry 1 SERVICE_FUNC_STUB "ListAddOnContentByApplicationId";
   entry 2 SERVICE_FUNC_STUB "CountAddOnContent";
   entry 3 SERVICE_FUNC_STUB "ListAddOnContent";
   entry 4 SERVICE_FUNC_STUB "GetAddOnContentBaseIdByApplicationId";
   entry 5 SERVICE_FUNC_STUB "GetAddOnContentBaseId";
   entry 6 SERVICE_FUNC_STUB "PrepareAddOnContentByApplicationId";
   entry 7 SERVICE_FUNC_STUB "PrepareAddOnContent"].
End Functions.
End IAddOnContentManager.

(** ** [apm/IManager.h] *)
Module IManager.
Section Functions.
Context {Mem : Type} `{GuestMemory Mem} `{ServiceHost}.

Definition OpenSession : ServiceFunc Mem := fun info reply =>
  opens ISession reply.

Definition functions : list (FunctionEntry Mem) :=
  [entry 0 OpenSession "OpenSession";
   entry 1 SERVICE_FUNC_STUB "GetPerformanceMode"].
End Functions.
End IManager.

(** ** [apm/ISession.h] *)
Module ISession.
Section Functions.
Context {Mem : Type} `{GuestMemory Mem} `{ServiceHost}.

Definition SetPerformanceConfiguration : ServiceFunc Mem := fun info reply =>
  _ ← (needArgs 8 info : K Mem (list Z));
  mret (ERR_SUCCESS, reply).

Definition functions : list (FunctionEntry Mem) :=
  [entry 0 SetPerformanceConfiguration "SetPerformanceConfiguration";
   entry 0 SERVICE_FUNC_STUB "GetPerformanceConfiguration"].
End Functions.
End ISession.

(** ** [fssrv/IFileSystemProxy.h] *)
Module IFileSystemProxy.
Section Functions.
Context {Mem : Type} `{GuestMemory Mem} `{ServiceHost}.

Definition Initialize : ServiceFunc Mem := fun info reply =>
  mret (ERR_SUCCESS, reply).

Definition MountSaveData : ServiceFunc Mem := fun info reply =>
  opens fssrv_IStorage reply.

Definition OpenDataStorageByCurrentProcess : ServiceFunc Mem := fun info reply =>
  opens fssrv_IStorage reply.

Definition OpenRomStorage : ServiceFunc Mem := fun info reply =>
  opens fssrv_IStorage reply.

Definition GetGlobalAccessLogMode : ServiceFunc Mem := fun _ reply => mret (ERR_SUCCESS, writeData 0 reply).

Definition functions : list (FunctionEntry Mem) :=
  [entry 1 Initialize "Initialize";
   entry 2 SERVICE_FUNC_STUB "OpenDataFileSystemByCurrentProcess";
   entry 7 SERVICE_FUNC_STUB "MountContent7";
   entry 8 SERVICE_FUNC_STUB "MountContent";
   entry 9 SERVICE_FUNC_STUB "OpenDataFileSystemByApplicationId";
   entry 11 SERVICE_FUNC_STUB "MountBis";
   entry 12 SERVICE_FUNC_STUB "OpenBisPartition";
   entry 13 SERVICE_FUNC_STUB "InvalidateBisCache";
   entry 17 SERVICE_FUNC_STUB "OpenHostFileSystemImpl";
   entry 18 SERVICE_FUNC_STUB "MountSdCard";
   entry 19 SERVICE_FUNC_STUB "FormatSdCard";
   entry 21 SERVICE_FUNC_STUB "DeleteSaveData";
   entry 22 SERVICE_FUNC_STUB "CreateSaveData";
   entry 23 SERVICE_FUNC_STUB "CreateSystemSaveData";
   entry 24 SERVICE_FUNC_STUB "RegisterSaveDataAtomicDeletion";
   entry 25 SERVICE_FUNC_STUB "DeleteSaveDataWithSpaceId";
   entry 26 SERVICE_FUNC_STUB "FormatSdCardDryRun";
   entry 27 SERVICE_FUNC_STUB "IsExFatSupported";
   entry 30 SERVICE_FUNC_STUB "OpenGameCardPartition";
   entry 31 SERVICE_FUNC_STUB "MountGameCardPartition";
   entry 32 SERVICE_FUNC_STUB "ExtendSaveData";
   entry 51 MountSaveData "MountSaveData";
   entry 52 SERVICE_FUNC_STUB "MountSystemSaveData";
   entry 53 SERVICE_FUNC_STUB "MountSaveDataReadOnly";
   entry 57 SERVICE_FUNC_STUB "ReadSaveDataFileSystemExtraDataWithSpaceId";
   entry 58 SERVICE_FUNC_STUB "ReadSaveDataFileSystemExtraData";
   entry 59 SERVICE_FUNC_STUB "WriteSaveDataFileSystemExtraData";
   entry 60 SERVICE_FUNC_STUB "OpenSaveDataInfoReader";
   entry 61 SERVICE_FUNC_STUB "OpenSaveDataIterator";
   entry 80 SERVICE_FUNC_STUB "OpenSaveDataThumbnailFile";
   entry 100 SERVICE_FUNC_STUB "MountImageDirectory";
   entry 110 SERVICE_FUNC_STUB "MountContentStorage";
   entry 200 OpenDataStorageByCurrentProcess "OpenDataStorageByCurrentProcess";
   entry 201 SERVICE_FUNC_STUB "OpenDataStorageByApplicationId";
   entry 202 SERVICE_FUNC_STUB "OpenDataStorageByDataId";
   entry 203 OpenRomStorage "OpenRomStorage";
   entry 400 SERVICE_FUNC_STUB "OpenDeviceOperator";
   entry 500 SERVICE_FUNC_STUB "OpenSdCardDetectionEventNotifier";
   entry 501 SERVICE_FUNC_STUB "OpenGameCardDetectionEventNotifier";
   entry 600 SERVICE_FUNC_STUB "SetCurrentPosixTime";
   entry 601 SERVICE_FUNC_STUB "QuerySaveDataTotalSize";
   entry 602 SERVICE_FUNC_STUB "VerifySaveData";
   entry 603 SERVICE_FUNC_STUB "CorruptSaveDataForDebug";
   entry 604 SERVICE_FUNC_STUB "CreatePaddingFile";
   entry 605 SERVICE_FUNC_STUB "DeleteAllPaddingFiles";
   entry 606 SERVICE_FUNC_STUB "GetRightsId";
   entry 607 SERVICE_FUNC_STUB "RegisterExternalKey";
   entry 607 SERVICE_FUNC_STUB "UnregisterExternalKey";
   entry 609 SERVICE_FUNC_STUB "GetRightsIdByPath";
   entry 610 SERVICE_FUNC_STUB "GetRightsIdByPath2";
   entry 620 SERVICE_FUNC_STUB "SetSdCardEncryptionSeed";
   entry 800 SERVICE_FUNC_STUB "GetAndClearFileSystemProxyErrorInfo";
   entry 1000 SERVICE_FUNC_STUB "SetBisRootForHost";
   entry 1001 SERVICE_FUNC_STUB "SetSaveDataSize";
   entry 1002 SERVICE_FUNC_STUB "SetSaveDataRootPath";
   entry 1003 SERVICE_FUNC_STUB "DisableAutoSaveDataCreation";
   entry 1004 SERVICE_FUNC_STUB "SetGlobalAccessLogMode";
   entry 1005 GetGlobalAccessLogMode "GetGlobalAccessLogMode";
   entry 1006 SERVICE_FUNC_STUB "OutputAccessLogToSdCard"].
End Functions.
End IFileSystemProxy.

(** ** [fssrv/IStorage.h] *)
Module fssrv_IStorage.
Section Functions.
Context {Mem : Type} `{GuestMemory Mem} `{ServiceHost}.

(** [fileStream.read] into a vector of [size] zeros: what the file does not have stays
    zero, and an offset that is no position of the file reads nothing. *)
Definition readAt (offset : Z) (size : nat) (file : list Z) : list Z :=
  let data := take size (drop (Z.to_nat (u64 offset)) file) in
  data ++ replicate (size - length data) 0.

Definition Read : ServiceFunc Mem := fun info reply =>
  d ← (INvDrvServices.front (recvDescriptors info) : K Mem RegularDescriptor);
  let addr := regularAddress d in
  let size := regularSize d in
  offset ← (read64 (rawData info + 16) : K Mem Z);
  _ ← (read64 (rawData info + 24) : K Mem Z);
  (match romfs with
   | None => mret tt
   | Some file => writeBytes (readAt offset (Z.to_nat size) file) addr
   end : K Mem unit);;
  mret (ERR_SUCCESS, reply).

Definition functions : list (FunctionEntry Mem) :=
  [entry 0 Read "Read";
   entry 1 SERVICE_FUNC_STUB "Write";
   entry 2 SERVICE_FUNC_STUB "Flush";
   entry 3 SERVICE_FUNC_STUB "SetSize";
   entry 4 SERVICE_FUNC_STUB "GetSize"].
End Functions.
End fssrv_IStorage.

(** ** [hid/IAppletResource.h] *)
Module IAppletResource.
Section Functions.
Context {Mem : Type} `{GuestMemory Mem} `{ServiceHost}.

Definition GetSharedMemoryHandle : ServiceFunc Mem := fun _ reply => mret (ERR_SUCCESS, moveHandle 0x1234 reply).

Definition functions : list (FunctionEntry Mem) :=
  [entry 0 GetSharedMemoryHandle "GetSharedMemoryHandle"].
End Functions.
End IAppletResource.

(** ** [hid/IHidServer.h] *)
Module IHidServer.
Section Functions.
Context {Mem : Type} `{GuestMemory Mem} `{ServiceHost}.

Definition CreateAppletResource : ServiceFunc Mem := fun info reply =>
  _ ← (needArgs 8 info : K Mem (list Z));
  opens IAppletResource reply.

Definition ActivateTouchScreen : ServiceFunc Mem := fun info reply =>
  _ ← (needArgs 8 info : K Mem (list Z));
  mret (ERR_SUCCESS, reply).

Definition SetSupportedNpadStyleSet : ServiceFunc Mem := fun info reply =>
  _ ← (needArgs 16 info : K Mem (list Z));
  mret (ERR_SUCCESS, reply).

Definition SetSupportedNpadIdType : ServiceFunc Mem := fun info reply =>
  _ ← (needArgs 8 info : K Mem (list Z));
  mret (ERR_SUCCESS, reply).

Definition ActivateNpad : ServiceFunc Mem := fun info reply =>
  _ ← (needArgs 8 info : K Mem (list Z));
  mret (ERR_SUCCESS, reply).

Definition SetNpadJoyHoldType : ServiceFunc Mem := fun info reply =>
  _ ← (needArgs 16 info : K Mem (list Z));
  mret (ERR_SUCCESS, reply).

Definition functions : list (FunctionEntry Mem) :=
  [entry 0 CreateAppletResource "CreateAppletResource";
   entry 1 SERVICE_FUNC_STUB "ActivateDebugPad";
   entry 11 ActivateTouchScreen "ActivateTouchScreen";
   entry 21 SERVICE_FUNC_STUB "ActivateMouse";
   entry 31 SERVICE_FUNC_STUB "ActivateKeyboard";
   entry 40 SERVICE_FUNC_STUB "AcquireXpadIdEventHandle";
   entry 41 SERVICE_FUNC_STUB "ReleaseXpadIdEventHandle";
   entry 51 SERVICE_FUNC_STUB "ActivateXpad";
   entry 55 SERVICE_FUNC_STUB "GetXpadIds";
   entry 56 SERVICE_FUNC_STUB "ActivateJoyXpad";
   entry 58 SERVICE_FUNC_STUB "GetJoyXpadLifoHandle";
   entry 59 SERVICE_FUNC_STUB "GetJoyXpadIds";
   entry 60 SERVICE_FUNC_STUB "ActivateSixAxisSensor";
   entry 61 SERVICE_FUNC_STUB "DeactivateSixAxisSensor";
   entry 62 SERVICE_FUNC_STUB "GetSixAxisSensorLifoHandle";
   entry 63 SERVICE_FUNC_STUB "ActivateJoySixAxisSensor";
   entry 64 SERVICE_FUNC_STUB "DeactivateJoySixAxisSensor";
   entry 65 SERVICE_FUNC_STUB "GetJoySixAxisSensorLifoHandle";
   entry 66 SERVICE_FUNC_STUB "StartSixAxisSensor";
   entry 67 SERVICE_FUNC_STUB "StopSixAxisSensor";
   entry 68 SERVICE_FUNC_STUB "IsSixAxisSensorFusionEnabled";
   entry 69 SERVICE_FUNC_STUB "EnableSixAxisSensorFusion";
   entry 70 SERVICE_FUNC_STUB "SetSixAxisSensorFusionParameters";
   entry 71 SERVICE_FUNC_STUB "GetSixAxisSensorFusionParameters";
   entry 72 SERVICE_FUNC_STUB "ResetSixAxisSensorFusionParameters";
   entry 73 SERVICE_FUNC_STUB "SetAccelerometerParameters";
   entry 74 SERVICE_FUNC_STUB "GetAccelerometerParameters";
   entry 75 SERVICE_FUNC_STUB "ResetAccelerometerParameters";
   entry 76 SERVICE_FUNC_STUB "SetAccelerometerPlayMode";
   entry 77 SERVICE_FUNC_STUB "GetAccelerometerPlayMode";
   entry 78 SERVICE_FUNC_STUB "ResetAccelerometerPlayMode";
   entry 79 SERVICE_FUNC_STUB "SetGyroscopeZeroDriftMode";
   entry 80 SERVICE_FUNC_STUB "GetGyroscopeZeroDriftMode";
   entry 81 SERVICE_FUNC_STUB "ResetGyroscopeZeroDriftMode";
   entry 82 SERVICE_FUNC_STUB "IsSixAxisSensorAtRest";
   entry 91 SERVICE_FUNC_STUB "ActivateGesture";
   entry 100 SetSupportedNpadStyleSet "SetSupportedNpadStyleSet";
   entry 101 SERVICE_FUNC_STUB "GetSupportedNpadStyleSet";
   entry 102 SetSupportedNpadIdType "SetSupportedNpadIdType";
   entry 103 ActivateNpad "ActivateNpad";
   entry 104 SERVICE_FUNC_STUB "DeactivateNpad";
   entry 106 SERVICE_FUNC_STUB "AcquireNpadStyleSetUpdateEventHandle";
   entry 107 SERVICE_FUNC_STUB "DisconnectNpad";
   entry 108 SERVICE_FUNC_STUB "GetPlayerLedPattern";
   entry 120 SetNpadJoyHoldType "SetNpadJoyHoldType";
   entry 121 SERVICE_FUNC_STUB "GetNpadJoyHoldType";
   entry 122 SERVICE_FUNC_STUB "SetNpadJoyAssignmentModeSingleByDefault";
   entry 123 SERVICE_FUNC_STUB "SetNpadJoyAssignmentModeSingle";
   entry 124 SERVICE_FUNC_STUB "SetNpadJoyAssignmentModeDual";
   entry 125 SERVICE_FUNC_STUB "MergeSingleJoyAsDualJoy";
   entry 126 SERVICE_FUNC_STUB "StartLrAssignmentMode";
   entry 127 SERVICE_FUNC_STUB "StopLrAssignmentMode";
   entry 128 SERVICE_FUNC_STUB "SetNpadHandheldActivationMode";
   entry 129 SERVICE_FUNC_STUB "GetNpadHandheldActivationMode";
   entry 130 SERVICE_FUNC_STUB "SwapNpadAssignment";
   entry 131 SERVICE_FUNC_STUB "IsUnintendedHomeButtonInputProtectionEnabled";
   entry 132 SERVICE_FUNC_STUB "EnableUnintendedHomeButtonInputProtection";
   entry 200 SERVICE_FUNC_STUB "GetVibrationDeviceInfo";
   entry 201 SERVICE_FUNC_STUB "SendVibrationValue";
   entry 202 SERVICE_FUNC_STUB "GetActualVibrationValue";
   entry 203 SERVICE_FUNC_STUB "CreateActiveVibrationDeviceList";
   entry 204 SERVICE_FUNC_STUB "PermitVibration";
   entry 205 SERVICE_FUNC_STUB "IsVibrationPermitted";
   entry 206 SERVICE_FUNC_STUB "SendVibrationValues";
   entry 300 SERVICE_FUNC_STUB "ActivateConsoleSixAxisSensor";
   entry 301 SERVICE_FUNC_STUB "StartConsoleSixAxisSensor";
   entry 302 SERVICE_FUNC_STUB "StopConsoleSixAxisSensor";
   entry 400 SERVICE_FUNC_STUB "IsUsbFullKeyControllerEnabled";
   entry 401 SERVICE_FUNC_STUB "EnableUsbFullKeyController";
   entry 402 SERVICE_FUNC_STUB "IsUsbFullKeyControllerConnected";
   entry 1000 SERVICE_FUNC_STUB "SetNpadCommunicationMode";
   entry 1001 SERVICE_FUNC_STUB "GetNpadCommunicationMode"].
End Functions.
End IHidServer.

(** ** [lm/ILogService.h] *)
Module ILogService.
Section Functions.
Context {Mem : Type} `{GuestMemory Mem} `{ServiceHost}.

Definition Initialize : ServiceFunc Mem := fun info reply =>
  _ ← (needArgs 8 info : K Mem (list Z));
  opens ILogger reply.

Definition functions : list (FunctionEntry Mem) :=
  [entry 0 Initialize "Initialize"].
End Functions.
End ILogService.

(** ** [lm/ILogger.h] *)
Module ILogger.
Section Functions.
Context {Mem : Type} `{GuestMemory Mem} `{ServiceHost}.

(** The message: a list of a type, a length and a text each.  Reading past the copied
    buffer is undefined; [i] grows by two or more in every round. *)
Fixpoint logStrings (fuel : nat) (data : list Z) (msgSize i : nat) : option (list (Z * list Z)) :=
  if Nat.leb msgSize i then Some []
  else
    match fuel with
    | O => None
    | S fuel =>
        dataType ← data !! (i + 0x18)%nat;
        strLength ← data !! (i + 1 + 0x18)%nat;
        let text := take (Z.to_nat strLength) (drop (i + 2 + 0x18) data) in
        if Nat.ltb (length text) (Z.to_nat strLength) then None
        else
          rest ← logStrings fuel data msgSize (i + 2 + Z.to_nat strLength);
          Some ((dataType, text) :: rest)
    end.

Definition logMessage (data : list Z) : option (list (Z * list Z)) :=
  if Nat.ltb (length data) 0x18 then None
  else logStrings (length data) data (Z.to_nat (member 0x14 4 data)) 0.

Definition unk0 : ServiceFunc Mem := fun info reply =>
  d ← (INvDrvServices.front (staticInDescriptors info) : K Mem PointerDescriptor);
  data ← (readBytes (Z.to_nat (pointerSize d)) (pointerAddress d) : K Mem (list Z));
  match logMessage data with
  | None => fail Undefined
  | Some _ =>
      (sendInterruptsTo 0 DEBUG_BREAK_INTERRUPT : K Mem unit);;
      mret (ERR_SUCCESS, reply)
  end.

Definition functions : list (FunctionEntry Mem) :=
  [entry 0 unk0 "unk0";
   entry 1 SERVICE_FUNC_STUB "unk1"].
End Functions.
End ILogger.

(** ** [nifm/IGeneralService.h] *)
Module IGeneralService.
Section Functions.
Context {Mem : Type} `{GuestMemory Mem} `{ServiceHost}.

Definition functions : list (FunctionEntry Mem) :=
  [entry 1 SERVICE_FUNC_STUB "GetClientId";
   entry 2 SERVICE_FUNC_STUB "CreateScanRequest";
   entry 4 SERVICE_FUNC_STUB "CreateRequest";
   entry 5 SERVICE_FUNC_STUB "GetCurrentNetworkProfile";
   entry 6 SERVICE_FUNC_STUB "EnumerateNetworkInterfaces";
   entry 7 SERVICE_FUNC_STUB "EnumerateNetworkProfiles";
   entry 8 SERVICE_FUNC_STUB "GetNetworkProfile";
   entry 9 SERVICE_FUNC_STUB "SetNetworkProfile";
   entry 10 SERVICE_FUNC_STUB "RemoveNetworkProfile";
   entry 11 SERVICE_FUNC_STUB "GetScanData";
   entry 12 SERVICE_FUNC_STUB "GetCurrentIpAddress";
   entry 13 SERVICE_FUNC_STUB "GetCurrentAccessPoint";
   entry 14 SERVICE_FUNC_STUB "CreateTemporaryNetworkProfile";
   entry 15 SERVICE_FUNC_STUB "GetCurrentIpConfigInfo";
   entry 16 SERVICE_FUNC_STUB "SetWirelessCommunicationEnabled";
   entry 17 SERVICE_FUNC_STUB "IsWirelessCommunicationEnabled";
   entry 18 SERVICE_FUNC_STUB "GetInternetConnectionStatus";
   entry 19 SERVICE_FUNC_STUB "SetEthernetCommunicationEnabled";
   entry 20 SERVICE_FUNC_STUB "IsEthernetCommunicationEnabled";
   entry 21 SERVICE_FUNC_STUB "IsAnyInternetRequestAccepted";
   entry 22 SERVICE_FUNC_STUB "IsAnyForegroundRequestAccepted";
   entry 23 SERVICE_FUNC_STUB "PutToSleep";
   entry 24 SERVICE_FUNC_STUB "WakeUp";
   entry 25 SERVICE_FUNC_STUB "GetSsidListVersion";
   entry 26 SERVICE_FUNC_STUB "SetExclusiveClient";
   entry 27 SERVICE_FUNC_STUB "GetDefaultIpSetting";
   entry 28 SERVICE_FUNC_STUB "SetDefaultIpSetting";
   entry 29 SERVICE_FUNC_STUB "SetWirelessCommunicationEnabledForTest";
   entry 30 SERVICE_FUNC_STUB "SetEthernetCommunicationEnabledForTest";
   entry 31 SERVICE_FUNC_STUB "GetTelemetorySystemEventReadableHandle";
   entry 32 SERVICE_FUNC_STUB "GetTelemetryInfo";
   entry 33 SERVICE_FUNC_STUB "ConfirmSystemAvailability"].
End Functions.
End IGeneralService.

(** ** [nifm/IStaticService.h] *)
Module nifm_IStaticService.
Section Functions.
Context {Mem : Type} `{GuestMemory Mem} `{ServiceHost}.

Definition CreateGeneralServiceOld : ServiceFunc Mem := fun info reply =>
  opens IGeneralService reply.

Definition functions : list (FunctionEntry Mem) :=
  [entry 4 CreateGeneralServiceOld "CreateGeneralServiceOld";
   entry 5 SERVICE_FUNC_STUB "CreateGeneralService"].
End Functions.
End nifm_IStaticService.

(** ** [pctl/IParentalControlServiceFactory.h] *)
Module IParentalControlServiceFactory.
Section Functions.
Context {Mem : Type} `{GuestMemory Mem} `{ServiceHost}.

Definition CreateService : ServiceFunc Mem := fun info reply =>
  _ ← (needArgs 8 info : K Mem (list Z));
  mret (ERR_SUCCESS, reply).

Definition functions : list (FunctionEntry Mem) :=
  [entry 0 CreateService "CreateService"].
End Functions.
End IParentalControlServiceFactory.

(** ** [settings/ISettingsServer.h] *)
Module ISettingsServer.
Section Functions.
Context {Mem : Type} `{GuestMemory Mem} `{ServiceHost}.

Definition GetAvailableLanguageCodes : ServiceFunc Mem := fun info reply =>
  let reply := writeArgs (bytesOf 4 0x4) reply in
  d ← (INvDrvServices.front (staticOutDescriptors info) : K Mem ReceiveListDescriptor);
  let addr := receiveAddress d in
  write64 addr 0x0;;
  write64 (addr + 0x8) 0x1;;
  write64 (addr + 0x10) 0x2;;
  write64 (addr + 0x18) 0x3;;
  mret (ERR_SUCCESS, reply).

Definition functions : list (FunctionEntry Mem) :=
  [entry 0 SERVICE_FUNC_STUB "GetLanguageCode";
   entry 1 GetAvailableLanguageCodes "GetAvailableLanguageCodes";
   entry 3 SERVICE_FUNC_STUB "GetAvailableLanguageCodeCount";
   entry 4 SERVICE_FUNC_STUB "GetRegionCode"].
End Functions.
End ISettingsServer.

(** ** [timesrv/IStaticService.h] *)
Module timesrv_IStaticService.
Section Functions.
Context {Mem : Type} `{GuestMemory Mem} `{ServiceHost}.

Definition GetStandardUserSystemClock : ServiceFunc Mem := fun info reply =>
  opens ISystemClock reply.

Definition GetStandardNetworkSystemClock : ServiceFunc Mem := fun info reply =>
  opens ISystemClock reply.

Definition GetStandardSteadyClock : ServiceFunc Mem := fun info reply =>
  opens ISteadyClock reply.

Definition GetTimeZoneService : ServiceFunc Mem := fun info reply =>
  opens ITimeZoneService reply.

Definition functions : list (FunctionEntry Mem) :=
  [entry 0 GetStandardUserSystemClock "GetStandardUserSystemClock";
   entry 1 GetStandardNetworkSystemClock "GetStandardNetworkSystemClock";
   entry 2 GetStandardSteadyClock "GetStandardSteadyClock";
   entry 3 GetTimeZoneService "GetTimeZoneService";
   entry 4 SERVICE_FUNC_STUB "GetStandardLocalSystemClock";
   entry 100 SERVICE_FUNC_STUB "IsStandardUserSystemClockAutomaticCorrectionEnabled";
   entry 101 SERVICE_FUNC_STUB "SetStandardUserSystemClockAutomaticCorrectionEnabled";
   entry 200 SERVICE_FUNC_STUB "IsStandardNetworkSystemClockAccuracySufficient"].
End Functions.
End timesrv_IStaticService.

(** ** [timesrv/ISteadyClock.h] *)
Module ISteadyClock.
Section Functions.
Context {Mem : Type} `{GuestMemory Mem} `{ServiceHost}.

Definition functions : list (FunctionEntry Mem) :=
  [entry 0 SERVICE_FUNC_STUB "GetCurrentTimePoint";
   entry 2 SERVICE_FUNC_STUB "GetTestOffset";
   entry 3 SERVICE_FUNC_STUB "SetTestOffset";
   entry 100 SERVICE_FUNC_STUB "GetRtcValue";
   entry 101 SERVICE_FUNC_STUB "IsRtcResetDetected";
   entry 102 SERVICE_FUNC_STUB "GetSetupResutltValue";
   entry 200 SERVICE_FUNC_STUB "GetInternalOffset";
   entry 201 SERVICE_FUNC_STUB "SetInternalOffset"].
End Functions.
End ISteadyClock.

(** ** [timesrv/ISystemClock.h] *)
Module ISystemClock.
Section Functions.
Context {Mem : Type} `{GuestMemory Mem} `{ServiceHost}.

Definition GetCurrentTime : ServiceFunc Mem := fun _ reply => mret (ERR_SUCCESS, writeArgs (bytesOf 8 0x12345678) reply).

Definition functions : list (FunctionEntry Mem) :=
  [entry 0 GetCurrentTime "GetCurrentTime";
   entry 1 SERVICE_FUNC_STUB "SetCurrentTime";
   entry 2 SERVICE_FUNC_STUB "GetSystemClockContext";
   entry 3 SERVICE_FUNC_STUB "SetSystemClockContext"].
End Functions.
End ISystemClock.

(** ** [timesrv/ITimeZoneService.h] *)
Module ITimeZoneService.
Section Functions.
Context {Mem : Type} `{GuestMemory Mem} `{ServiceHost}.

Definition ToCalendarTimeWithMyRule : ServiceFunc Mem := fun info reply =>
  _ ← (needArgs 8 info : K Mem (list Z));
  k ← (getK : K Mem KState);
  mret (ERR_SUCCESS, writeArgs
    (bytesOf 2 2017 ++ bytesOf 1 11 ++ bytesOf 1 29 ++ bytesOf 1 15 ++ bytesOf 1 26 ++ bytesOf 1 50 ++
     bytesOf 1 (leftover 2 k) ++ bytesOf 24 (leftover 3 k)) reply).

Definition functions : list (FunctionEntry Mem) :=
  [entry 0 SERVICE_FUNC_STUB "GetDeviceLocationName";
   entry 1 SERVICE_FUNC_STUB "SetDeviceLocationName";
   entry 2 SERVICE_FUNC_STUB "GetTotalLocationNameCount";
   entry 3 SERVICE_FUNC_STUB "LoadLocationNameList";
   entry 4 SERVICE_FUNC_STUB "LoadTimeZoneRule";
   entry 5 SERVICE_FUNC_STUB "GetTimeZoneRuleVersion";
   entry 100 SERVICE_FUNC_STUB "ToCalendarTime";
   entry 101 ToCalendarTimeWithMyRule "ToCalendarTimeWithMyRule";
   entry 201 SERVICE_FUNC_STUB "ToPosixTime";
   entry 202 SERVICE_FUNC_STUB "ToPosixTimeWithMyRule"].
End Functions.
End ITimeZoneService.

(** ** [visrv/IApplicationDisplayService.h] *)
Module IApplicationDisplayService.
Section Functions.
Context {Mem : Type} `{GuestMemory Mem} `{ServiceHost}.

Definition GetRelayService : ServiceFunc Mem := fun info reply =>
  opens IHOSBinderDriver reply.

Definition GetSystemDisplayService : ServiceFunc Mem := fun info reply =>
  opens ISystemDisplayService reply.

Definition GetManagerDisplayService : ServiceFunc Mem := fun info reply =>
  opens IManagerDisplayService reply.

Definition GetIndirectDisplayTransactionService : ServiceFunc Mem := fun info reply =>
  opens IHOSBinderDriver reply.

(** [std::string(name)] of a [DisplayName]; without a terminator the constructor reads on
    past the struct. *)
Definition displayName (l : list Z) : K Mem string :=
  if existsb (Z.eqb 0) l then mret (cstring l) else fail Undefined.

Definition OpenDisplay : ServiceFunc Mem := fun info reply =>
  args ← (needArgs 0x40 info : K Mem (list Z));
  name ← (displayName args : K Mem string);
  id ← (onDisplays (fun d => id ← DisplayManager.openDisplay name d; Ok (id, d)) : K Mem Z);
  mret (ERR_SUCCESS, writeArgs (bytesOf 8 id) reply).

Definition OpenLayer : ServiceFunc Mem := fun info reply =>
  args ← (needArgs 0x50 info : K Mem (list Z));
  r ← (INvDrvServices.front (recvDescriptors info) : K Mem RegularDescriptor);
  let addr := regularAddress r in
  writeBytes (replicate (Z.to_nat (regularSize r)) 0) addr;;
  write32 (addr + 0x0) 0x28;;
  write32 (addr + 0x4) 0x10;;
  write32 (addr + 0x8) 0x4;;
  write32 (addr + 0xC) 0xF0;;
  write32 (addr + 0x10 + 0x0) 2;;
  write32 (addr + 0x10 + 0x4) 0;;
  bufferId ← (onDisplays (fun d =>
    '(_, layer) ← DisplayManager.getLayer (member 0x40 8 args) d; Ok (Layer.bufferId layer, d)) : K Mem Z);
  write32 (addr + 0x10 + 0x8) bufferId;;
  write8 (addr + 0x10 + 0xC + 0xC + 0x0) 0x64;;
  write8 (addr + 0x10 + 0xC + 0xC + 0x1) 0x73;;
  write8 (addr + 0x10 + 0xC + 0xC + 0x2) 0x70;;
  write8 (addr + 0x10 + 0xC + 0xC + 0x3) 0x64;;
  write8 (addr + 0x10 + 0xC + 0xC + 0x4) 0x72;;
  write8 (addr + 0x10 + 0xC + 0xC + 0x5) 0x76;;
  mret (ERR_SUCCESS, writeData 0x100 reply).

Definition CreateStrayLayer : ServiceFunc Mem := fun info reply =>
  _ ← (needArgs 16 info : K Mem (list Z));
  r ← (INvDrvServices.front (recvDescriptors info) : K Mem RegularDescriptor);
  let addr := regularAddress r in
  writeBytes (replicate (Z.to_nat (regularSize r)) 0) addr;;
  write32 (addr + 0) 0x18;;
  write32 (addr + 4) 0x10;;
  write32 (addr + 8) 0x0;;
  write32 (addr + 0xC) 0x28;;
  handle ← (connect (interfaceOf IHOSBinderDriver) : K Mem Z);
  write32 (addr + 0x10 + 0x8) handle;;
  mret (ERR_SUCCESS, writeArgs (bytesOf 8 1 ++ bytesOf 8 0) reply).

Definition SetLayerScalingMode : ServiceFunc Mem := fun info reply =>
  mret (ERR_SUCCESS, reply).

Definition GetDisplayVsyncEvent : ServiceFunc Mem := fun _ reply => mret (ERR_SUCCESS, copyHandle 0x12345678 reply).

Definition functions : list (FunctionEntry Mem) :=
  [entry 100 GetRelayService "GetRelayService";
   entry 101 GetSystemDisplayService "GetSystemDisplayService";
   entry 102 GetManagerDisplayService "GetManagerDisplayService";
   entry 103 GetIndirectDisplayTransactionService "GetIndirectDisplayTransactionService";
   entry 1000 SERVICE_FUNC_STUB "ListDisplays";
   entry 1010 OpenDisplay "OpenDisplay";
   entry 1011 SERVICE_FUNC_STUB "OpenDefaultDisplay";
   entry 1020 SERVICE_FUNC_STUB "CloseDisplay";
   entry 1101 SERVICE_FUNC_STUB "SetDisplayEnabled";
   entry 1102 SERVICE_FUNC_STUB "GetDisplayResolution";
   entry 2020 OpenLayer "OpenLayer";
   entry 2021 SERVICE_FUNC_STUB "CloseLayer";
   entry 2030 CreateStrayLayer "CreateStrayLayer";
   entry 2031 SERVICE_FUNC_STUB "DestroyStrayLayer";
   entry 2101 SetLayerScalingMode "SetLayerScalingMode";
   entry 2450 SERVICE_FUNC_STUB "GetIndirectLayerImageMap";
   entry 2451 SERVICE_FUNC_STUB "GetIndirectLayerImageCropMap";
   entry 2460 SERVICE_FUNC_STUB "GetIndirectLayerImageRequiredMemoryInfo";
   entry 5202 GetDisplayVsyncEvent "GetDisplayVsyncEvent";
   entry 5203 SERVICE_FUNC_STUB "GetDisplayVsyncEventForDebug"].
End Functions.
End IApplicationDisplayService.

(** ** [visrv/IApplicationRootService.h] *)
Module IApplicationRootService.
Section Functions.
Context {Mem : Type} `{GuestMemory Mem} `{ServiceHost}.

Definition functions : list (FunctionEntry Mem) :=
  [entry 0 SERVICE_FUNC_STUB "GetDisplayService"].
End Functions.
End IApplicationRootService.

(** ** [visrv/IManagerDisplayService.h] *)
Module IManagerDisplayService.
Section Functions.
Context {Mem : Type} `{GuestMemory Mem} `{ServiceHost}.

Definition CreateManagedLayer : ServiceFunc Mem := fun info reply =>
  args ← (needArgs 24 info : K Mem (list Z));
  layerId ← (onDisplays (DisplayManager.createLayer (member 8 8 args)) : K Mem Z);
  mret (ERR_SUCCESS, writeArgs (bytesOf 8 layerId) reply).

Definition AddToLayerStack : ServiceFunc Mem := fun info reply =>
  mret (ERR_SUCCESS, reply).

Definition functions : list (FunctionEntry Mem) :=
  [entry 1102 SERVICE_FUNC_STUB "GetDisplayResolution";
   entry 2010 CreateManagedLayer "CreateManagedLayer";
   entry 2011 SERVICE_FUNC_STUB "DestroyManagedLayer";
   entry 2050 SERVICE_FUNC_STUB "CreateIndirectLayer";
   entry 2051 SERVICE_FUNC_STUB "DestroyIndirectLayer";
   entry 2052 SERVICE_FUNC_STUB "CreateIndirectProducerEndPoint";
   entry 2053 SERVICE_FUNC_STUB "DestroyIndirectProducerEndPoint";
   entry 2054 SERVICE_FUNC_STUB "CreateIndirectConsumerEndPoint";
   entry 2055 SERVICE_FUNC_STUB "DestroyIndirectConsumerEndPoint";
   entry 2300 SERVICE_FUNC_STUB "AcquireLayerTexturePresentingEvent";
   entry 2301 SERVICE_FUNC_STUB "ReleaseLayerTexturePresentingEvent";
   entry 2302 SERVICE_FUNC_STUB "GetDisplayHotplugEvent";
   entry 2402 SERVICE_FUNC_STUB "GetDisplayHotplugState";
   entry 4201 SERVICE_FUNC_STUB "SetDisplayAlpha";
   entry 4203 SERVICE_FUNC_STUB "SetDisplayLayerStack";
   entry 4205 SERVICE_FUNC_STUB "SetDisplayPowerState";
   entry 6000 AddToLayerStack "AddToLayerStack";
   entry 6001 SERVICE_FUNC_STUB "RemoveFromLayerStack";
   entry 6002 SERVICE_FUNC_STUB "SetLayerVisibility";
   entry 7000 SERVICE_FUNC_STUB "SetContentVisibility";
   entry 8000 SERVICE_FUNC_STUB "SetConductorLayer";
   entry 8100 SERVICE_FUNC_STUB "SetIndirectProducerFlipOffset"].
End Functions.
End IManagerDisplayService.

(** ** [visrv/IManagerRootService.h] *)
Module IManagerRootService.
Section Functions.
Context {Mem : Type} `{GuestMemory Mem} `{ServiceHost}.

Definition GetDisplayService : ServiceFunc Mem := fun info reply =>
  _ ← (needArgs 4 info : K Mem (list Z));
  opens IApplicationDisplayService reply.

Definition functions : list (FunctionEntry Mem) :=
  [entry 2 GetDisplayService "GetDisplayService";
   entry 3 SERVICE_FUNC_STUB "GetDisplayServiceWithProxyNameExchange"].
End Functions.
End IManagerRootService.

(** ** [visrv/ISystemDisplayService.h] *)
Module ISystemDisplayService.
Section Functions.
Context {Mem : Type} `{GuestMemory Mem} `{ServiceHost}.

Definition SetLayerZ : ServiceFunc Mem := fun info reply =>
  mret (ERR_SUCCESS, reply).

Definition functions : list (FunctionEntry Mem) :=
  [entry 1200 SERVICE_FUNC_STUB "GetZOrderCountMin";
   entry 1202 SERVICE_FUNC_STUB "GetZOrderCountMax";
   entry 1203 SERVICE_FUNC_STUB "GetDisplayLogicalResolution";
   entry 1204 SERVICE_FUNC_STUB "SetDisplayMagnification";
   entry 2201 SERVICE_FUNC_STUB "SetLayerPosition";
   entry 2203 SERVICE_FUNC_STUB "SetLayerSize";
   entry 2204 SERVICE_FUNC_STUB "GetLayerZ";
   entry 2205 SetLayerZ "SetLayerZ";
   entry 2207 SERVICE_FUNC_STUB "SetLayerVisibility";
   entry 2209 SERVICE_FUNC_STUB "SetLayerAlpha";
   entry 2312 SERVICE_FUNC_STUB "CreateStrayLayer";
   entry 2400 SERVICE_FUNC_STUB "OpenIndirectLayer";
   entry 2401 SERVICE_FUNC_STUB "CloseIndirectLayer";
   entry 2402 SERVICE_FUNC_STUB "FlipIndirectLayer";
   entry 3000 SERVICE_FUNC_STUB "ListDisplayModes";
   entry 3001 SERVICE_FUNC_STUB "ListDisplayRgbRanges";
   entry 3002 SERVICE_FUNC_STUB "ListDisplayContentTypes";
   entry 3200 SERVICE_FUNC_STUB "GetDisplayMode";
   entry 3201 SERVICE_FUNC_STUB "SetDisplayMode";
   entry 3202 SERVICE_FUNC_STUB "GetDisplayUnderscan";
   entry 3203 SERVICE_FUNC_STUB "SetDisplayUnderscan";
   entry 3204 SERVICE_FUNC_STUB "GetDisplayContentType";
   entry 3205 SERVICE_FUNC_STUB "SetDisplayContentType";
   entry 3206 SERVICE_FUNC_STUB "GetDisplayRgbRange";
   entry 3207 SERVICE_FUNC_STUB "SetDisplayRgbRange";
   entry 3208 SERVICE_FUNC_STUB "GetDisplayCmuMode";
   entry 3209 SERVICE_FUNC_STUB "SetDisplayCmuMode";
   entry 3210 SERVICE_FUNC_STUB "GetDisplayContrastRatio";
   entry 3211 SERVICE_FUNC_STUB "SetDisplayContrastRatio";
   entry 3214 SERVICE_FUNC_STUB "GetDisplayGamma";
   entry 3215 SERVICE_FUNC_STUB "SetDisplayGamma";
   entry 3216 SERVICE_FUNC_STUB "GetDisplayCmuLuma";
   entry 3217 SERVICE_FUNC_STUB "SetDisplayCmuLuma"].
End Functions.
End ISystemDisplayService.

(** ** [visrv/ISystemRootService.h] *)
Module ISystemRootService.
Section Functions.
Context {Mem : Type} `{GuestMemory Mem} `{ServiceHost}.

Definition GetDisplayService : ServiceFunc Mem := fun info reply =>
  _ ← (needArgs 4 info : K Mem (list Z));
  opens IApplicationDisplayService reply.

Definition functions : list (FunctionEntry Mem) :=
  [entry 1 GetDisplayService "GetDisplayService";
   entry 3 SERVICE_FUNC_STUB "GetDisplayServiceWithProxyNameExchange"].
End Functions.
End ISystemRootService.
