(* ===== verification/Services.v ===== *)
(** * The buffer producer of a layer, and the table of all services

    [nns/hosbinder/IHOSBinderDriver.cpp]: a program sends parcels to the queue of a layer: it
    hands over its buffers, takes a free one to draw into and queues it when the picture is
    done.  Then the functions every class registers, and [service::init] of
    [hle/service.cpp]. *)
From stdpp Require Import strings.
From S2P Require Import Prelude BitUtils Core Machine Memory HandleManager MemoryMapper Thread Display.
From S2P Require Import KernelState Scheduler Ipc SmService Gpu ServiceBase NnServices.
#[global] Open Scope Z_scope.

Module Transaction.
Definition REQUEST_BUFFER : Z := 0x1.
Definition DEQUEUE_BUFFER : Z := 0x3.
Definition QUEUE_BUFFER : Z := 0x7.
Definition CONNECT : Z := 0xA.
Definition SET_PREALLOCATED_BUFFER : Z := 0xE.
End Transaction.

Module IHOSBinderDriver.
Section Binder.
Context {Mem : Type} `{GuestMemory Mem}.

(** [debug::dumpMem]: the lines of 16 bytes around a region are read with
    [mem::inspect]. *)
Definition inspect8 (addr : Z) : K Mem Z := askMemory (mread 1 (u64 addr)).
Fixpoint inspectBytes (n : nat) (addr : Z) : K Mem unit :=
  match n with
  | O => mret tt
  | S n => _ ← inspect8 addr; inspectBytes n (addr + 1)
  end.
Definition dumpMem (addr size : Z) : K Mem unit :=
  let startAddr := Z.ldiff addr 0xF in
  let endAddr := Z.ldiff (u64 (addr + size + 0xF)) 0xF in
  inspectBytes (Z.to_nat (endAddr - startAddr)) startAddr.

(** A function of the queue with an id. *)
Definition onQueue {A} (id : Z) (f : BufferQueue.t -> result (A * BufferQueue.t)) : K Mem A :=
  onDisplays (DisplayManager.updateQueue id f).

(** Where the data of the incoming parcel begins, and a word of it. *)
Definition parcel (addrIn : Z) : Z := addrIn + 0x10 + 0x50.
Definition word (addrIn off : Z) : K Mem Z := read32 (parcel addrIn + off).

(** The parcel that goes back: its header and its data, word after word. *)
Definition writeParcel (addrOut dataSize objectsOffset : Z) (data : list Z) : K Mem unit :=
  writeWords ([dataSize; 0x10; 0x0; objectsOffset] ++ data) addrOut.

Definition zeros (n : nat) : list Z := replicate n 0.

Definition REQUEST_BUFFER (id addrIn addrOut : Z) : K Mem unit :=
  slot ← word addrIn 0x0;
  _ ← (onQueue id (fun q => b ← BufferQueue.requestBuffer slot q; Ok (b, q)) : K Mem IGBPBuffer);
  writeParcel addrOut (0x4 + 0x4 + 0x4 + 0x16C + 0x4) (0x10 + 0x4 + 0x4 + 0x4 + 0x16C + 0x4)
    ([1; 0x16C; 0] ++ zeros (0x16C / 4) ++ [0]).

Definition DEQUEUE_BUFFER (id addrIn addrOut : Z) : K Mem unit :=
  _ ← word addrIn 0x0;
  _ ← word addrIn 0x4;
  _ ← word addrIn 0x8;
  _ ← word addrIn 0xC;
  _ ← word addrIn 0x10;
  slot ← (onQueue id BufferQueue.dequeueBuffer : K Mem Z);
  writeParcel addrOut (0x4 + 0x2C + 0x4) (0x10 + 0x4 + 0x2C + 0x4) ([slot] ++ zeros 11 ++ [0]).

Definition QUEUE_BUFFER (id addrIn addrOut : Z) : K Mem unit :=
  slot ← word addrIn 0x0;
  _ ← read64 (parcel addrIn + 0x4 + 0x0);
  _ ← read8 (parcel addrIn + 0x4 + 0x8);
  _ ← word addrIn (0x4 + 0xC);
  _ ← word addrIn (0x4 + 0x10);
  _ ← word addrIn (0x4 + 0x14);
  _ ← word addrIn (0x4 + 0x18);
  _ ← word addrIn (0x4 + 0x1C);
  _ ← word addrIn (0x4 + 0x20);
  (onQueue id (fun q => q ← BufferQueue.queueBuffer slot q; Ok (tt, q)) : K Mem unit);;
  writeParcel addrOut (0x16C + 0x4) (0x10 + 0x4 + 0x4 + 0x4 + 0x16C + 0x4)
    (zeros (0x16C / 4) ++ [0]).

Definition CONNECT (addrOut : Z) : K Mem unit :=
  writeParcel addrOut (0x10 + 0x4) (0x10 + 0x10 + 0x4) [1280; 720; 0; 0; 0].

Definition SET_PREALLOCATED_BUFFER (id addrIn : Z) : K Mem unit :=
  slot ← word addrIn 0x0;
  _ ← word addrIn 0x4;
  _ ← word addrIn 0x8;
  _ ← word addrIn 0xC;
  magic ← word addrIn (0x10 + 0x0);
  width ← word addrIn (0x10 + 0x4);
  height ← word addrIn (0x10 + 0x8);
  stride ← word addrIn (0x10 + 0xC);
  format ← word addrIn (0x10 + 0x10);
  usage ← word addrIn (0x10 + 0x14);
  index ← word addrIn (0x10 + 0x1C);
  gpuBufferId ← word addrIn (0x10 + 0x2C);
  nvmapHandle ← word addrIn (0x10 + 0x74);
  offset ← word addrIn (0x10 + 0x78);
  onQueue id (fun q => Ok (tt, BufferQueue.setPreallocatedBuffer slot
    (mkIGBPBuffer magic width height stride format usage index gpuBufferId nvmapHandle offset) q)).

(** The [switch]: whether the transaction is known, after its effect. *)
Definition transact (transaction id addrIn addrOut : Z) : K Mem bool :=
  if transaction =? Transaction.REQUEST_BUFFER then REQUEST_BUFFER id addrIn addrOut;; mret true
  else if transaction =? Transaction.DEQUEUE_BUFFER then DEQUEUE_BUFFER id addrIn addrOut;; mret true
  else if transaction =? Transaction.QUEUE_BUFFER then QUEUE_BUFFER id addrIn addrOut;; mret true
  else if transaction =? Transaction.CONNECT then CONNECT addrOut;; mret true
  else if transaction =? Transaction.SET_PREALLOCATED_BUFFER then
    SET_PREALLOCATED_BUFFER id addrIn;; mret true
  else mret false.

(** The id of the queue is an [int32_t] that is widened to [uint64_t]. *)
Definition TransactParcelAuto : ServiceFunc Mem := fun info reply =>
  args ← (needArgs 12 info : K Mem (list Z));
  send ← (INvDrvServices.front (sendDescriptors info) : K Mem RegularDescriptor);
  recv ← (INvDrvServices.front (recvDescriptors info) : K Mem RegularDescriptor);
  let id := u64 (to_signed 32 (member 0 4 args)) in
  dumpMem (regularAddress send) (regularSize send);;
  _ ← (onQueue id (fun q => Ok (tt, q)) : K Mem unit);
  known ← transact (member 4 4 args) id (regularAddress send) (regularAddress recv);
  mret (if known : bool then ERR_SUCCESS else 1, reply).

Definition TransactParcel : ServiceFunc Mem := TransactParcelAuto.

Definition AdjustRefcount : ServiceFunc Mem := fun info reply =>
  _ ← (needArgs 12 info : K Mem (list Z)); mret (ERR_SUCCESS, reply).

Definition GetNativeHandle : ServiceFunc Mem := fun info reply =>
  _ ← (needArgs 8 info : K Mem (list Z)); mret (ERR_SUCCESS, copyHandle 0x4321 reply).

Definition functions : list (FunctionEntry Mem) :=
  [entry 0 TransactParcel "TransactParcel";
   entry 1 AdjustRefcount "AdjustRefcount";
   entry 2 GetNativeHandle "GetNativeHandle";
   entry 3 TransactParcelAuto "TransactParcelAuto"].
End Binder.
End IHOSBinderDriver.

Section Tables.
Context {Mem : Type} `{GuestMemory Mem} `{PageAdmin Mem} `{GpuHost} `{ServiceHost}.

Definition functionsOf (c : ServiceClass) : list (FunctionEntry Mem) :=
  match c with
  | SmService => sm_functions
  | IAccountServiceForApplication => IAccountServiceForApplication.functions
  | IManagerForApplication => IManagerForApplication.functions
  | INotifier => INotifier.functions
  | IProfile => IProfile.functions
  | IAllSystemAppletProxiesService => IAllSystemAppletProxiesService.functions
  | IApplicationFunctions => IApplicationFunctions.functions
  | IApplicationProxy => IApplicationProxy.functions
  | IApplicationProxyService => IApplicationProxyService.functions
  | IAudioController => IAudioController.functions
  | ICommonStateGetter => ICommonStateGetter.functions
  | IDebugFunctions => IDebugFunctions.functions
  | IDisplayController => IDisplayController.functions
  | ILibraryAppletCreator => ILibraryAppletCreator.functions
  | ILibraryAppletProxy => ILibraryAppletProxy.functions
  | IProcessWindingController => IProcessWindingController.functions
  | ISelfController => ISelfController.functions
  | am_IStorage => am_IStorage.functions
  | IStorageAccessor => IStorageAccessor.functions
  | IWindowController => IWindowController.functions
  | IAddOnContentManager => IAddOnContentManager.functions
  | IManager => IManager.functions
  | ISession => ISession.functions
  | IFileSystemProxy => IFileSystemProxy.functions
  | fssrv_IStorage => fssrv_IStorage.functions
  | IAppletResource => IAppletResource.functions
  | IHidServer => IHidServer.functions
  | ILogService => ILogService.functions
  | ILogger => ILogger.functions
  | IGeneralService => IGeneralService.functions
  | nifm_IStaticService => nifm_IStaticService.functions
  | IParentalControlServiceFactory => IParentalControlServiceFactory.functions
  | ISettingsServer => ISettingsServer.functions
  | timesrv_IStaticService => timesrv_IStaticService.functions
  | ISteadyClock => ISteadyClock.functions
  | ISystemClock => ISystemClock.functions
  | ITimeZoneService => ITimeZoneService.functions
  | IApplicationDisplayService => IApplicationDisplayService.functions
  | IApplicationRootService => IApplicationRootService.functions
  | IManagerDisplayService => IManagerDisplayService.functions
  | IManagerRootService => IManagerRootService.functions
  | ISystemDisplayService => ISystemDisplayService.functions
  | ISystemRootService => ISystemRootService.functions
  | IHOSBinderDriver => IHOSBinderDriver.functions
  | INvDrvServices => INvDrvServices.functions
  end.

(** The interface the dispatcher of [Ipc] asks for. *)
#[global] Instance allServices : Services Mem := {
  mFunctions i := match classOf i with Some c => functionsOf c | None => [] end;
}.
End Tables.

(** The names a constructor passes to [addService]. *)
Definition serviceNames (c : ServiceClass) : list string :=
  match c with
  | IAccountServiceForApplication => ["acc:u0"]
  | IAllSystemAppletProxiesService => ["appletAE"]
  | IApplicationProxyService => ["appletOE"]
  | IAddOnContentManager => ["aoc:u"]
  | IManager => ["apm"]
  | IFileSystemProxy => ["fsp-srv"]
  | IHidServer => ["hid"]
  | ILogService => ["lm"]
  | nifm_IStaticService => ["nifm:u"; "nifm:a"; "nifm:s"]
  | IParentalControlServiceFactory => ["pctl"; "pctl:a"; "pctl:s"; "pctl:r"]
  | ISettingsServer => ["set"]
  | timesrv_IStaticService => ["time:u"]
  | IApplicationRootService => ["vi:u"]
  | IManagerRootService => ["vi:m"]
  | ISystemRootService => ["vi:s"]
  | INvDrvServices => ["nvdrv"; "nvdrv:a"; "nvdrv:s"; "nvdrv:t"]
  | _ => []
  end.

Section Init.
Context {Mem : Type}.

(** [new C()] of a class that registers itself. *)
Fixpoint addServices (c : ServiceClass) (names : list string) : K Mem unit :=
  match names with
  | [] => mret tt
  | name :: names => registerService name (interfaceOf c);; addServices c names
  end.

Fixpoint newModules (l : list ServiceClass) : K Mem unit :=
  match l with
  | [] => mret tt
  | c :: l => addServices c (serviceNames c);; newModules l
  end.

(** The modules of [service::init] after the service manager, in order. *)
Definition modules : list ServiceClass :=
  [IManager; IApplicationProxyService; IAllSystemAppletProxiesService; IAddOnContentManager; IAccountServiceForApplication; IParentalControlServiceFactory; ILogService; ISettingsServer; timesrv_IStaticService; IFileSystemProxy; IHidServer; INvDrvServices; IManagerRootService; ISystemRootService; IApplicationRootService; nifm_IStaticService].

Definition service_init : K Mem unit := sm_init (interfaceOf SmService);; newModules modules.
End Init.
