(* ===== verification/DisplaySpec.v ===== *)
(** * What the displays do

    The ids of the display manager stay consistent, drawing shows one queued buffer of
    every layer, and a buffer goes round from the program to the screen and back.  Then the
    parcels of the binder in guest memory: a program takes a buffer, queues it, and
    the graphics thread shows it. *)
From stdpp Require Import strings.
From S2P Require Import Prelude BitUtils Instructions Core Machine Memory MemoryInv MemorySpec HandleManager.
From S2P Require Import MemoryMapper Thread Display KernelState Scheduler KernelLemmas SchedulerSpec SchedulerSafety Ipc.
From S2P Require Import IpcReply IpcSpec SmService Gpu GpuSpec ServiceBase Services.
#[global] Open Scope Z_scope.

Import BufferQueue.

(** ** Searching *)

Lemma find_first_Some {A} (p : A -> bool) l i x : find_first p l = Some (i, x) <->
  l !! i = Some x /\ p x = true /\ forall j y, l !! j = Some y -> (j < i)%nat -> p y = false.
Proof.
  unfold find_first. rewrite list_find_Some. split; intros (H1 & H2 & H3); split_and!; try done;
    intros j y Hj Hl; specialize (H3 j y Hj Hl); destruct (p y); done.
Qed.

(** A key that occurs once finds its element. *)
Lemma find_first_key {A} (f : A -> Z) l i x :
  NoDup (map f l) -> l !! i = Some x -> find_first (fun y => f y =? f x) l = Some (i, x).
Proof.
  intros Hn Hi. apply find_first_Some. split; [done|]. split; [apply Z.eqb_refl|].
  intros j y Hj Hl. apply Z.eqb_neq. intros E.
  assert (j = i) as ->; [|lia]. eapply (NoDup_lookup (map f l)); [done| |];
    rewrite list_lookup_fmap; [by rewrite Hj|by rewrite Hi; cbn; rewrite E].
Qed.

(** ** A queue *)

(** The slots of a queue are different words. *)
Record slots_ok (q : BufferQueue.t) : Prop := {
  so_distinct : NoDup (map slot (buffers q));
  so_words b : b ∈ buffers q -> uint 32 (slot b);
}.

Lemma assignStatus_slots s i b q : buffers q !! i = Some b ->
  map slot (buffers (assignStatus s i b q)) = map slot (buffers q).
Proof.
  intros Hi. cbn. rewrite list_fmap_insert. apply list_insert_id.
  by rewrite list_lookup_fmap, Hi.
Qed.

Lemma assignStatus_ok s i b q : buffers q !! i = Some b -> slots_ok q -> slots_ok (assignStatus s i b q).
Proof.
  intros Hi [H1 H2]. constructor; [by rewrite assignStatus_slots|].
  intros x Hx. apply list_elem_of_lookup in Hx as [j Hj]. cbn in Hj.
  apply list_lookup_insert_Some in Hj as [(<- & <- & _)|[_ Hj]].
  - cbn. by eapply H2, list_elem_of_lookup_2.
  - by eapply H2, list_elem_of_lookup_2.
Qed.

Lemma findSlot_ok q i b : slots_ok q -> buffers q !! i = Some b -> findSlot (slot b) q = Ok (i, b).
Proof. intros [H1 _] Hi. unfold findSlot. by rewrite (find_first_key slot _ i b). Qed.

(** The queue after its first queued buffer was shown. *)
Definition takenFrom (q : BufferQueue.t) : BufferQueue.t :=
  match find_first (hasStatus QUEUED) (buffers q) with
  | Some (i, b) => assignStatus FREE i b q
  | None => q
  end.

Lemma takenFrom_ok q : slots_ok q -> slots_ok (takenFrom q).
Proof.
  intros Hq. unfold takenFrom. destruct (find_first _ _) as [[i b]|] eqn:E; [|done].
  apply find_first_Some in E as (Hi & _). by apply assignStatus_ok.
Qed.

(** ** The manager *)

Import DisplayManager.
#[local] Abbreviation buffers := BufferQueue.buffers.

(** Layers are numbered from 100 and their queues from 1000, in the order they were
    created, all on the one display. *)
Record display_ok (d : DisplayManager.t) : Prop := {
  do_displays : displays d = [Display.mk 1 "Default" (map Layer.id (layers d))];
  do_layers i l : layers d !! i = Some l -> l = Layer.mk (100 + Z.of_nat i) (1000 + Z.of_nat i);
  do_queues i q : DisplayManager.buffers d !! i = Some q -> BufferQueue.id q = 1000 + Z.of_nat i;
  do_length : length (DisplayManager.buffers d) = length (layers d);
  do_nextLayer : nextLayer d = 100 + Z.of_nat (length (layers d));
  do_nextBuffer : nextBuffer d = 1000 + Z.of_nat (length (layers d));
  do_slots i q : DisplayManager.buffers d !! i = Some q -> slots_ok q;
}.

Lemma initial_ok : display_ok initial.
Proof. constructor; done. Qed.

(** Numbered lists are searched by their numbers. *)
Lemma find_numbered_first {A} (f : A -> Z) base l i x :
  (forall j y, l !! j = Some y -> f y = base + Z.of_nat j) -> l !! i = Some x ->
  find_first (fun y => f y =? base + Z.of_nat i) l = Some (i, x).
Proof.
  intros Hf Hi. apply find_first_Some. split; [done|]. split; [apply Z.eqb_eq; by apply Hf|].
  intros j y Hj Hl. apply Z.eqb_neq. rewrite (Hf j y Hj). lia.
Qed.

Section Manager.
Context (d : DisplayManager.t) (Hd : display_ok d).

Lemma getBufferQueue_ok i q : DisplayManager.buffers d !! i = Some q ->
  getBufferQueue (1000 + Z.of_nat i) d = Ok (i, q).
Proof using Hd.
  intros Hi. unfold getBufferQueue. rewrite (find_numbered_first BufferQueue.id 1000 _ i q); [done| |done].
  intros j y Hj. by apply (do_queues d Hd).
Qed.

Lemma getLayer_ok i l : layers d !! i = Some l -> getLayer (100 + Z.of_nat i) d = Ok (i, l).
Proof using Hd.
  intros Hi. unfold getLayer. rewrite (find_numbered_first Layer.id 100 _ i l); [done| |done].
  intros j y Hj. by rewrite (do_layers d Hd j y Hj).
Qed.

(** Replacing a queue by one with the same id. *)
Lemma set_queue_ok i q q' : DisplayManager.buffers d !! i = Some q ->
  BufferQueue.id q' = BufferQueue.id q -> slots_ok q' ->
  display_ok (DisplayManager.set_buffers (<[i := q']> (DisplayManager.buffers d)) d).
Proof using Hd.
  intros Hi Hid Hs. destruct Hd as [H1 H2 H3 H4 H5 H6 H7].
  constructor; cbn; rewrite ?length_insert; try done.
  - intros j x Hj. apply list_lookup_insert_Some in Hj as [(<- & <- & _)|[_ Hj]]; [|by apply H3].
    rewrite Hid. by apply H3.
  - intros j x Hj. apply list_lookup_insert_Some in Hj as [(<- & <- & _)|[_ Hj]]; [done|by apply (H7 j)].
Qed.

Lemma updateQueue_ok {A} i q (f : BufferQueue.t -> result (A * BufferQueue.t)) a q' :
  DisplayManager.buffers d !! i = Some q -> f q = Ok (a, q') ->
  updateQueue (1000 + Z.of_nat i) f d =
    Ok (a, DisplayManager.set_buffers (<[i := q']> (DisplayManager.buffers d)) d).
Proof using Hd. intros Hi Hf. unfold updateQueue. rewrite (getBufferQueue_ok i q Hi). cbn. by rewrite Hf. Qed.

Lemma createLayer_ok : nextBuffer d < 2 ^ 64 - 1 ->
  exists d', createLayer 1 d = Ok (100 + Z.of_nat (length (layers d)), d') /\ display_ok d' /\
    layers d' = layers d ++ [Layer.mk (nextLayer d) (nextBuffer d)] /\
    DisplayManager.buffers d' = DisplayManager.buffers d ++ [BufferQueue.mk (nextBuffer d) []].
Proof using Hd.
  intros Hf. destruct Hd as [H1 H2 H3 H4 H5 H6 H7]. unfold createLayer, createBufferQueue, getDisplay.
  cbn [displays nextLayer nextBuffer layers DisplayManager.buffers]. rewrite H1. cbn.
  eexists. split; [by rewrite H5|].
  assert (forall n, 0 <= n < 2 ^ 64 -> u64 n = n) as Hw by (intros; apply wrap_id; unfold uint; lia).
  split; [|by rewrite H5]. constructor; cbn; rewrite ?length_app; cbn [length].
  - unfold Display.addLayer. cbn. by rewrite map_app.
  - intros i l Hi. apply lookup_app_Some in Hi as [Hi|[Hl Hi]]; [by apply H2|].
    apply list_lookup_singleton_Some in Hi as [Hi <-]. rewrite H6. f_equal; lia.
  - intros i q Hi. apply lookup_app_Some in Hi as [Hi|[Hl Hi]]; [by apply H3|].
    apply list_lookup_singleton_Some in Hi as [Hi <-]. cbn. lia.
  - lia.
  - rewrite Hw; lia.
  - rewrite Hw; lia.
  - intros i q Hi. apply lookup_app_Some in Hi as [Hi|[Hl Hi]]; [by apply (H7 i)|].
    apply list_lookup_singleton_Some in Hi as [Hi <-]. constructor; cbn; [constructor|].
    by intros b ?%not_elem_of_nil.
Qed.
End Manager.

(** ** Drawing *)

Lemma set_buffers_id (d : DisplayManager.t) : DisplayManager.set_buffers (DisplayManager.buffers d) d = d.
Proof. by destruct d. Qed.

(** The frame a layer shows: the first queued buffer of its queue. *)
Definition frameOf (address : IGBPBuffer -> Z) (q : BufferQueue.t) : list Z :=
  option_list ((fun b => address (buffer b)) <$> getQueuedBuffer q).

Section Draw.
Context (address : IGBPBuffer -> result Z) (addr : IGBPBuffer -> Z).

(** The guest has memory behind every buffer that is queued. *)
Definition addressed (q : BufferQueue.t) : Prop :=
  forall b, b ∈ buffers q -> status b = QUEUED -> address (buffer b) = Ok (addr (buffer b)).

Lemma drawLayer_eq d i q : display_ok d -> DisplayManager.buffers d !! i = Some q -> addressed q ->
  drawLayer address (100 + Z.of_nat i) d =
  Ok ((fun b => addr (buffer b)) <$> getQueuedBuffer q,
      DisplayManager.set_buffers (<[i := takenFrom q]> (DisplayManager.buffers d)) d).
Proof.
  intros Hd Hi Ha. assert (is_Some (layers d !! i)) as [l Hl].
  { apply lookup_lt_is_Some. rewrite <-(do_length d Hd). by apply lookup_lt_Some in Hi. }
  unfold drawLayer. rewrite (getLayer_ok d Hd i l Hl). cbn. rewrite (do_layers d Hd i l Hl). cbn.
  rewrite (getBufferQueue_ok d Hd i q Hi). cbn. unfold getQueuedBuffer, takenFrom.
  destruct (find_first (hasStatus QUEUED) (buffers q)) as [[j b]|] eqn:E; cbn.
  - apply find_first_Some in E as (Hj & Hs & _). apply bool_decide_eq_true in Hs.
    rewrite (Ha b (list_elem_of_lookup_2 _ _ _ Hj) Hs). cbn.
    apply updateQueue_ok with q; [done|done|]. unfold freeBuffer.
    by rewrite (findSlot_ok q j b (do_slots d Hd i q Hi) Hj).
  - by rewrite list_insert_id, set_buffers_id.
Qed.

(** The queues from the [i]-th on. *)
Lemma drawLayers_eq ls : forall d i, display_ok d -> ls = drop i (map Layer.id (layers d)) ->
  Forall addressed (drop i (DisplayManager.buffers d)) ->
  drawLayers address ls d =
  Ok (concat (map (frameOf addr) (drop i (DisplayManager.buffers d))),
      DisplayManager.set_buffers (take i (DisplayManager.buffers d) ++
        map takenFrom (drop i (DisplayManager.buffers d))) d).
Proof.
  induction ls as [|x ls IH]; intros d i Hd El Ha.
  - assert (length (DisplayManager.buffers d) <= i)%nat as Hlen.
    { apply (f_equal length) in El. rewrite length_drop, length_map, <-(do_length d Hd) in El.
      cbn [length] in El. lia. }
    rewrite drop_ge, take_ge by done. cbn. by rewrite app_nil_r, set_buffers_id.
  - assert (is_Some (layers d !! i)) as [l Hl].
    { apply lookup_lt_is_Some. apply (f_equal length) in El. rewrite length_drop, length_map in El.
      cbn [length] in El. lia. }
    assert (is_Some (DisplayManager.buffers d !! i)) as [q Hq].
    { apply lookup_lt_is_Some. rewrite (do_length d Hd). by apply lookup_lt_Some in Hl. }
    rewrite (drop_S (map Layer.id (layers d)) (Layer.id l)) in El
      by (rewrite list_lookup_fmap, Hl; done).
    injection El as -> El. rewrite (drop_S _ q i Hq) in Ha |- *. apply Forall_cons in Ha as [Hq1 Ha].
    rewrite (do_layers d Hd i l Hl). cbn [drawLayers Layer.id].
    rewrite (drawLayer_eq d i q Hd Hq Hq1). cbn.
    set (d' := DisplayManager.set_buffers (<[i := takenFrom q]> (DisplayManager.buffers d)) d).
    assert (display_ok d') as Hd'.
    { apply (set_queue_ok d Hd i q); [done| |by apply takenFrom_ok, (do_slots d Hd i)].
      unfold takenFrom. by destruct (find_first _ _) as [[]|]. }
    assert (drop (S i) (DisplayManager.buffers d') = drop (S i) (DisplayManager.buffers d)) as Ed.
    { cbn. by rewrite drop_insert_lt by lia. }
    rewrite (IH d' (S i) Hd'); [|done|by rewrite Ed]. rewrite Ed.
    assert (take (S i) (DisplayManager.buffers d') = take i (DisplayManager.buffers d) ++ [takenFrom q]) as Et.
    { rewrite take_S_r with (x := takenFrom q)
        by (apply list_lookup_insert_eq; by apply lookup_lt_Some in Hq).
      cbn. by rewrite take_insert_ge by lia. }
    rewrite Et, <-app_assoc. done.
Qed.

(** One call of [draw]: every layer shows its first queued buffer, and frees it. *)
Lemma draw_eq d : display_ok d -> Forall addressed (DisplayManager.buffers d) ->
  DisplayManager.draw address d =
  Ok (concat (map (frameOf addr) (DisplayManager.buffers d)),
      DisplayManager.set_buffers (map takenFrom (DisplayManager.buffers d)) d).
Proof.
  intros Hd Ha. unfold DisplayManager.draw. rewrite (do_displays d Hd). cbn. rewrite app_nil_r.
  by rewrite (drawLayers_eq (map Layer.id (layers d)) d 0 Hd eq_refl Ha).
Qed.

Lemma draw_ok d : display_ok d ->
  display_ok (DisplayManager.set_buffers (map takenFrom (DisplayManager.buffers d)) d).
Proof.
  intros [H1 H2 H3 H4 H5 H6 H7]. constructor; cbn; rewrite ?length_map; try done.
  - intros i q Hi. rewrite list_lookup_fmap in Hi. apply fmap_Some in Hi as (q0 & Hi & ->).
    rewrite <-(H3 i q0 Hi). unfold takenFrom. by destruct (find_first _ _) as [[]|].
  - intros i q Hi. rewrite list_lookup_fmap in Hi. apply fmap_Some in Hi as (q0 & Hi & ->).
    by apply takenFrom_ok, (H7 i).
Qed.
End Draw.

(** ** Reachable states *)

(** The functions of a queue the binder calls, apart from handing over a buffer. *)
Inductive queue_op : Set := OpRequest (slot : Z) | OpDequeue | OpQueue (slot : Z).
Definition run_op (op : queue_op) (q : BufferQueue.t) : result BufferQueue.t :=
  match op with
  | OpRequest s => _ ← requestBuffer s q; Ok q
  | OpDequeue => '(_, q) ← dequeueBuffer q; Ok q
  | OpQueue s => queueBuffer s q
  end.

(** The steps of programs and of the graphics thread: a program hands over a buffer for
    a slot only once. *)
Inductive display_step (d : DisplayManager.t) : DisplayManager.t -> Prop :=
  | step_layer id d' : nextBuffer d < 2 ^ 64 - 1 -> createLayer 1 d = Ok (id, d') -> display_step d d'
  | step_preallocate id i q s b d' :
      getBufferQueue id d = Ok (i, q) -> uint 32 s -> s ∉ map slot (buffers q) ->
      updateQueue id (fun q => Ok (tt, setPreallocatedBuffer s b q)) d = Ok (tt, d') -> display_step d d'
  | step_op id op d' :
      updateQueue id (fun q => q ← run_op op q; Ok (tt, q)) d = Ok (tt, d') -> display_step d d'
  | step_draw address addr l d' :
      Forall (addressed address addr) (DisplayManager.buffers d) ->
      DisplayManager.draw address d = Ok (l, d') -> display_step d d'.

Inductive display_reachable : DisplayManager.t -> Prop :=
  | reachable_initial : display_reachable initial
  | reachable_step d d' : display_reachable d -> display_step d d' -> display_reachable d'.

Lemma deref_Ok {A} (o : option A) x : deref o = Ok x -> o = Some x.
Proof. destruct o; cbn; congruence. Qed.

Lemma getBufferQueue_Some id d i q : getBufferQueue id d = Ok (i, q) ->
  DisplayManager.buffers d !! i = Some q.
Proof. intros E%deref_Ok. by apply find_first_Some in E as [E _]. Qed.

Lemma updateQueue_Ok {A} id (f : BufferQueue.t -> result (A * BufferQueue.t)) d a d' :
  updateQueue id f d = Ok (a, d') ->
  exists i q q', getBufferQueue id d = Ok (i, q) /\ f q = Ok (a, q') /\
    d' = DisplayManager.set_buffers (<[i := q']> (DisplayManager.buffers d)) d.
Proof.
  unfold updateQueue. destruct (getBufferQueue id d) as [[i q]|]; cbn; [|done].
  destruct (f q) as [[a' q']|] eqn:E; cbn; [|done]. intros [= -> <-]. by exists i, q, q'.
Qed.

(** What an operation of a queue does, if it returns. *)
Lemma run_op_ok op q q' : run_op op q = Ok q' -> slots_ok q ->
  BufferQueue.id q' = BufferQueue.id q /\ slots_ok q'.
Proof.
  intros E Hq. destruct op as [s| |s]; cbn in E.
  - destruct (requestBuffer s q); cbn in E; [|done]. by injection E as <-.
  - unfold dequeueBuffer in E. destruct (find_first _ _) as [[i b]|] eqn:Ef; cbn in E; [|done].
    injection E as <-. apply find_first_Some in Ef as [Hi _]. split; [done|by apply assignStatus_ok].
  - unfold queueBuffer, findSlot in E. destruct (find_first _ _) as [[i b]|] eqn:Ef; cbn in E; [|done].
    injection E as <-. apply find_first_Some in Ef as [Hi _]. split; [done|by apply assignStatus_ok].
Qed.

Lemma preallocate_ok s b q : slots_ok q -> uint 32 s -> s ∉ map slot (buffers q) ->
  slots_ok (setPreallocatedBuffer s b q).
Proof.
  intros [H1 H2] Hs Hn. constructor; cbn.
  - rewrite map_app. apply NoDup_app. split; [done|]. split; [|cbn; apply NoDup_singleton].
    intros x Hx Hx'. apply list_elem_of_singleton in Hx' as ->. done.
  - intros x Hx. apply elem_of_app in Hx as [Hx|Hx]; [by apply H2|].
    by apply list_elem_of_singleton in Hx as ->.
Qed.

Lemma display_step_ok d d' : display_ok d -> display_step d d' -> display_ok d'.
Proof.
  intros Hd [id d1 Hf E|id i q s b d1 Eg Hs Hn E|id op d1 E|address addr l d1 Ha E].
  - destruct (createLayer_ok d Hd Hf) as (d2 & E2 & Hd2 & _). rewrite E in E2. by injection E2 as _ <-.
  - apply updateQueue_Ok in E as (i' & q' & q1 & Eg' & E & ->). rewrite Eg in Eg'.
    injection Eg' as <- <-. injection E as <-. apply getBufferQueue_Some in Eg.
    apply (set_queue_ok d Hd i q); [done|done|]. by apply preallocate_ok, Hn; [apply (do_slots d Hd i)|].
  - apply updateQueue_Ok in E as (i & q & q1 & Eg & E & ->). apply getBufferQueue_Some in Eg.
    destruct (run_op op q) as [q2|] eqn:Eo; cbn in E; [|done]. injection E as <-.
    destruct (run_op_ok op q q2 Eo (do_slots d Hd i q Eg)) as [H1 H2].
    by apply (set_queue_ok d Hd i q).
  - rewrite (draw_eq address addr d Hd Ha) in E. injection E as _ <-. by apply draw_ok.
Qed.

Lemma display_reachable_ok d : display_reachable d -> display_ok d.
Proof. induction 1 as [|d d' _ IH Hs]; [apply initial_ok|]. by apply (display_step_ok d). Qed.

(** ** Calling [draw] again and again *)

(** The addresses of the queued buffers of a queue, in the order of its vector. *)
Definition queuedFrames (addr : IGBPBuffer -> Z) (q : BufferQueue.t) : list Z :=
  map (fun b => addr (buffer b)) (filter (fun b => status b = QUEUED) (buffers q)).

Lemma first_queued l i b : find_first (hasStatus QUEUED) l = Some (i, b) ->
  filter (fun b => status b = QUEUED) l =
    b :: filter (fun b => status b = QUEUED) (<[i := set_status FREE b]> l).
Proof.
  intros E. apply find_first_Some in E as (Hi & Hs & Hbefore). apply bool_decide_eq_true in Hs.
  revert i Hi Hbefore. induction l as [|x l IH]; intros i Hi Hbefore; [done|]. destruct i as [|i].
  - injection Hi as ->. change (<[0%nat := set_status FREE b]> (b :: l)) with (set_status FREE b :: l).
    by rewrite filter_cons_True, filter_cons_False.
  - change (<[S i := set_status FREE b]> (x :: l)) with (x :: <[i := set_status FREE b]> l).
    assert (status x <> QUEUED) as Hx.
    { pose proof (Hbefore 0%nat x eq_refl ltac:(lia)) as Hx. by apply bool_decide_eq_false in Hx. }
    rewrite !filter_cons_False by done. apply IH; [done|]. intros j y Hj Hl.
    apply (Hbefore (S j) y Hj). lia.
Qed.

Lemma no_queued l : find_first (hasStatus QUEUED) l = None ->
  filter (fun b => status b = QUEUED) l = [].
Proof.
  intros E. apply list_find_None in E. induction E as [|x l Hx _ IH]; [done|].
  rewrite filter_cons_False; [done|]. intros Hq. apply Hx. by apply bool_decide_eq_true.
Qed.

Lemma queuedFrames_taken addr q :
  frameOf addr q = option_list (queuedFrames addr q !! 0%nat) /\
  forall k, queuedFrames addr (takenFrom q) !! k = queuedFrames addr q !! S k.
Proof.
  unfold frameOf, getQueuedBuffer, takenFrom, queuedFrames.
  destruct (find_first (hasStatus QUEUED) (buffers q)) as [[i b]|] eqn:E.
  - rewrite (first_queued _ i b E). split; [done|]. intros k. done.
  - rewrite (no_queued _ E). split; [done|]. by destruct k.
Qed.

Lemma takenFrom_addressed address addr q : addressed address addr q -> addressed address addr (takenFrom q).
Proof.
  intros Ha b Hb Hs. unfold takenFrom in Hb. destruct (find_first _ _) as [[i x]|]; [|by apply Ha].
  apply list_elem_of_lookup in Hb as [j Hj]. cbn in Hj.
  apply list_lookup_insert_Some in Hj as [(<- & <- & _)|[_ Hj]]; [done|].
  by eapply Ha; [eapply list_elem_of_lookup_2|].
Qed.

Fixpoint draws (address : IGBPBuffer -> result Z) (n : nat) (d : DisplayManager.t)
    : result (list Z * DisplayManager.t) :=
  match n with
  | O => Ok ([], d)
  | S n => '(l, d) ← DisplayManager.draw address d; '(l', d) ← draws address n d; Ok (l ++ l', d)
  end.

(** The frames of the [k]-th call, one of every layer that has so many. *)
Definition framesAt (addr : IGBPBuffer -> Z) (d : DisplayManager.t) (k : nat) : list Z :=
  concat (map (fun q => option_list (queuedFrames addr q !! k)) (DisplayManager.buffers d)).

Lemma framesAt_taken addr d k :
  framesAt addr (DisplayManager.set_buffers (map takenFrom (DisplayManager.buffers d)) d) k =
  framesAt addr d (S k).
Proof.
  unfold framesAt. cbn. rewrite map_map. f_equal. apply map_ext. intros q.
  by rewrite (proj2 (queuedFrames_taken addr q)).
Qed.


(** A layer whose program queued the buffer of slot 1 before that of slot 0: the frame of
    slot 0 is shown first. *)
Definition buffer_example (handle : Z) : IGBPBuffer := mkIGBPBuffer 0x47424652 1280 720 1280 1 0 0 0 handle 0x1000.
Definition one_layer (l : list GraphicBuffer) : DisplayManager.t :=
  DisplayManager.mk 101 1001 [Display.mk 1 "Default" [100]] [Layer.mk 100 1000] [BufferQueue.mk 1000 l].
Definition two_buffers (s0 s1 : Status) : list GraphicBuffer :=
  [mkGraphicBuffer s0 0 (buffer_example 1); mkGraphicBuffer s1 1 (buffer_example 2)].
Definition display_example : DisplayManager.t := one_layer (two_buffers QUEUED QUEUED).

Definition one_buffer : DisplayManager.t := one_layer [mkGraphicBuffer FREE 0 (buffer_example 1)].

Lemma one_buffer_reachable : display_reachable one_buffer.
Proof.
  apply (reachable_step (one_layer [])).
  2: { by apply (step_preallocate _ 1000 0 (BufferQueue.mk 1000 []) 0 (buffer_example 1));
         [| |apply not_elem_of_nil|]. }
  apply (reachable_step initial); [apply reachable_initial|].
  apply (step_layer _ 100); vm_compute; reflexivity.
Qed.

Lemma display_example_reachable : display_reachable display_example.
Proof.
  apply (reachable_step (one_layer (two_buffers DEQUEUED QUEUED))); [|by apply (step_op _ 1000 (OpQueue 0))].
  apply (reachable_step (one_layer (two_buffers DEQUEUED DEQUEUED))); [|by apply (step_op _ 1000 (OpQueue 1))].
  apply (reachable_step (one_layer (two_buffers DEQUEUED FREE))); [|by apply (step_op _ 1000 OpDequeue)].
  apply (reachable_step (one_layer (two_buffers FREE FREE))); [|by apply (step_op _ 1000 OpDequeue)].
  apply (reachable_step one_buffer).
  2: { by apply (step_preallocate _ 1000 0 (BufferQueue.mk 1000 [mkGraphicBuffer FREE 0 (buffer_example 1)])
         1 (buffer_example 2)); [| |intros ?%list_elem_of_singleton|]. }
  exact one_buffer_reachable.
Qed.

Definition address_example (b : IGBPBuffer) : Z := nvmapHandle b * 0x400000 + bufferOffset b.


Import IHOSBinderDriver.

(** The kernel with other displays. *)
Definition setDisplays (d : DisplayManager.t) (k : KState) : KState :=
  set_hle (set_gDisplayManager d (hle k)) k.
Definition displaysOf (k : KState) : DisplayManager.t := gDisplayManager (hle k).

Lemma align_line a : Z.ldiff a 0xF = a / 16 * 16.
Proof.
  change 0xF with (Z.ones 4). by rewrite Z.ldiff_ones_r, Z.shiftl_mul_pow2, Z.shiftr_div_pow2 by lia.
Qed.

Section Parcels.
Context {Mem : Type} `{GuestMemoryLaws Mem}.

(** ** Reading *)

Lemma mread_buffer lo hi m n a timer k c : 0 <= lo -> hi <= 2 ^ 64 -> buffer_ok lo hi m ->
  0 < n -> lo <= a -> a + n <= hi ->
  exists v, mread n a m = Ok v /\
    (mem_read n (u64 a) : K Mem Z) (St m timer k c) = Ok (v, St m timer k c).
Proof.
  intros Hlo Hhi [H1 H2 H3] Hn Ha He. destruct (mread_mapped n a m H1 (H2 a n Hn Ha He)) as [v Ev].
  exists v. split; [done|]. assert (u64 a = a) as -> by (apply wrap_id; unfold uint; lia).
  apply mem_read_ok; [apply H3; lia|done].
Qed.

Lemma inspectBytes_ok lo hi m timer k c n : forall a, 0 <= lo -> hi <= 2 ^ 64 -> buffer_ok lo hi m ->
  lo <= a -> a + Z.of_nat n <= hi -> inspectBytes n a (St m timer k c) = Ok (tt, St m timer k c).
Proof.
  induction n as [|n IH]; intros a Hlo Hhi Hb Ha He; [done|]. cbn [inspectBytes].
  destruct (mread_mapped 1 a m (bo_ok lo hi m Hb) (bo_mapped lo hi m Hb a 1 ltac:(lia) Ha ltac:(lia))) as [v Ev].
  rewrite (bind_ok _ _ _ v (St m timer k c)).
  - apply IH; lia || done.
  - unfold inspect8, askMemory. assert (u64 a = a) as -> by (apply wrap_id; unfold uint; lia).
    change (mread 1 a (memory (St m timer k c))) with (mread 1 a m). by rewrite Ev.
Qed.

(** A parcel the program sends: the lines of 16 bytes around it, and the words the
    driver reads, are in a buffer. *)
Record parcel_in (lo hi addr size : Z) (m : Mem) : Prop := {
  pi_buffer : buffer_ok lo hi m;
  pi_low : 0 <= lo /\ lo + 0xF <= addr;
  pi_high : 0 <= size /\ addr + size + 0xF <= hi /\ addr + 0xA0 <= hi /\ hi < 2 ^ 64;
}.

Lemma dumpMem_ok lo hi addr size m timer k c : parcel_in lo hi addr size m ->
  dumpMem addr size (St m timer k c) = Ok (tt, St m timer k c).
Proof.
  intros [Hb [Hl1 Hl2] (Hs & Hh & _ & Hhi)]. unfold dumpMem. rewrite !align_line.
  assert (u64 (addr + size + 0xF) = addr + size + 0xF) as -> by (apply wrap_id; unfold uint; lia).
  pose proof (Z.div_mod addr 16 ltac:(lia)). pose proof (Z.mod_pos_bound addr 16 ltac:(lia)).
  pose proof (Z.div_mod (addr + size + 0xF) 16 ltac:(lia)).
  pose proof (Z.mod_pos_bound (addr + size + 0xF) 16 ltac:(lia)).
  apply (inspectBytes_ok lo hi); try done; lia.
Qed.

Section Words.
Context (lo hi addr size : Z) (m : Mem) (timer : Z) (k : KState) (c : Core).
Context (Hp : parcel_in lo hi addr size m).

Lemma word_ok off : 0 <= off <= 0x3C -> exists v,
  mread 4 (addr + 0x60 + off) m = Ok v /\ word addr off (St m timer k c) = Ok (v, St m timer k c).
Proof using Hp.
  intros Ho. destruct Hp as [Hb [H1 H2] (H3 & H4 & H5 & H6)].
  destruct (mread_buffer lo hi m 4 (addr + 0x60 + off) timer k c) as (v & Ev & E); try done; try lia.
  exists v. split; [done|]. unfold word, read32, parcel.
  replace (addr + 0x10 + 0x50 + off) with (addr + 0x60 + off) by lia. exact E.
Qed.

(** A word whose value does not matter. *)
Lemma skip_word {A} off (P : Z -> K Mem A) r : 0 <= off <= 0x3C ->
  (forall v, P v (St m timer k c) = r) -> (v ← word addr off; P v) (St m timer k c) = r.
Proof using Hp.
  intros Ho HP. destruct (word_ok off Ho) as (v & _ & E). rewrite (bind_ok _ _ _ _ _ E). apply HP.
Qed.

Lemma skip_read {A} n a (P : Z -> K Mem A) r : 0 < n <= 8 -> parcel addr <= a <= parcel addr + 0x38 ->
  (forall v, P v (St m timer k c) = r) ->
  (v ← (mem_read n (u64 a) : K Mem Z); P v) (St m timer k c) = r.
Proof using Hp.
  unfold parcel. intros Hn Ho HP. destruct Hp as [Hb [H1 H2] (H3 & H4 & H5 & H6)].
  destruct (mread_buffer lo hi m n a timer k c) as (v & _ & E); try done; try lia.
  rewrite (bind_ok _ _ _ _ _ E). apply HP.
Qed.
End Words.

(** ** Writing *)

Lemma writeParcel_ok lo hi addrOut dataSize objectsOffset data m timer k c :
  0 <= lo -> hi <= 2 ^ 64 -> buffer_ok lo hi m ->
  lo <= addrOut -> addrOut + 4 * (4 + lengthZ data) <= hi ->
  exists m', writeParcel addrOut dataSize objectsOffset data (St m timer k c) = Ok (tt, St m' timer k c) /\
    buffer_ok lo hi m' /\
    forall i w, data !! i = Some w -> mread 4 (addrOut + 0x10 + 4 * Z.of_nat i) m' = Ok (u32 w).
Proof.
  intros Hlo Hhi Hb Ha He. unfold writeParcel. set (l := _ ++ data).
  assert (within lo hi (wordWrites l addrOut)) as Hw.
  { eapply within_weaken; [apply wordWrites_within|done|].
    unfold l, lengthZ in *. rewrite length_app. cbn [length]. lia. }
  destruct (applyWrites_buffer lo hi Hlo Hhi _ Hw m Hb) as (m' & E & Hb' & _ & _).
  exists m'. split; [by rewrite (writes_words lo hi Hlo Hhi l addrOut Hw m timer k c Hb), E|].
  split; [done|]. intros i w Hi.
  assert (l !! (4 + i)%nat = Some w) as Hl by done.
  destruct (wordWrites_split l (4 + i) w addrOut Hl) as (l1 & l2 & Es & Hap).
  rewrite Es in Hw, E.
  replace (addrOut + 0x10 + 4 * Z.of_nat i) with (addrOut + 4 * Z.of_nat (4 + i)) by lia.
  apply (applyWrites_field lo hi Hlo Hhi l1 _ 4 w l2 m m' Hw Hb E).
  eapply within_apart; [exact Hap|lia].
Qed.

(** ** The queue *)

Lemma onQueue_ok {A} id (f : BufferQueue.t -> result (A * BufferQueue.t)) a d' m timer k c :
  DisplayManager.updateQueue id f (displaysOf k) = Ok (a, d') ->
  (onQueue id f : K Mem A) (St m timer k c) = Ok (a, St m timer (setDisplays d' k) c).
Proof.
  intros E. unfold onQueue, onDisplays, liftR. cbn [St KernelState.kernel memory snd].
  fold (displaysOf k). by rewrite E.
Qed.

(** ** The transactions *)

(** A call of [TransactParcelAuto]: the queue, the transaction and the two parcels. *)
Record call (info : IpcInfo) (id transaction addrIn sizeIn addrOut : Z) : Prop := {
  ca_length : (12 <= length (argData info))%nat;
  ca_id : member 0 4 (take 12 (argData info)) = id;
  ca_range : 0 <= id < 2 ^ 31;
  ca_transaction : member 4 4 (take 12 (argData info)) = transaction;
  ca_in : exists f l, sendDescriptors info = mkRegular f addrIn sizeIn :: l;
  ca_out : exists f s l, recvDescriptors info = mkRegular f addrOut s :: l;
}.

Lemma transact_call info id t addrIn sizeIn addrOut reply lo hi m timer k c i q m' k' :
  call info id t addrIn sizeIn addrOut -> parcel_in lo hi addrIn sizeIn m ->
  DisplayManager.getBufferQueue id (displaysOf k) = Ok (i, q) ->
  transact t id addrIn addrOut (St m timer k c) = Ok (true, St m' timer k' c) ->
  TransactParcelAuto info reply (St m timer k c) = Ok ((ERR_SUCCESS, reply), St m' timer k' c).
Proof.
  intros [H1 H2 H3 H4 [f [l Hin]] [f' [s' [l' Hout]]]] Hp Hq E. unfold TransactParcelAuto.
  run ((ltac:(unfold needArgs, readArgs; rewrite (proj2 (Nat.leb_le 12 _)) by lia; reflexivity) :
    needArgs 12 info (St m timer k c) = Ok (take 12 (argData info), St m timer k c))).
  rewrite Hin, Hout, H2, H4.
  rewrite (bind_ok _ _ _ (mkRegular f addrIn sizeIn) (St m timer k c)) by done.
  rewrite (bind_ok _ _ _ (mkRegular f' addrOut s') (St m timer k c)) by done.
  cbn [regularAddress regularSize].
  assert (u64 (to_signed 32 id) = id) as ->.
  { unfold to_signed. cbv zeta. assert (wrap 32 id = id) as -> by (apply wrap_id; unfold uint; lia).
    rewrite (proj2 (Z.ltb_lt id (2 ^ (32 - 1)))) by (change (2 ^ (32 - 1)) with (2 ^ 31); lia).
    apply wrap_id; unfold uint; lia. }
  run (dumpMem_ok lo hi addrIn sizeIn m timer k c Hp).
  rewrite (bind_ok _ _ _ tt (St m timer k c)).
  - by run E.
  - rewrite (onQueue_ok id _ tt (displaysOf k)).
    + unfold setDisplays, displaysOf. by destruct k as [????????????? []].
    + unfold DisplayManager.updateQueue. rewrite Hq. cbn. apply getBufferQueue_Some in Hq.
      by rewrite list_insert_id, set_buffers_id.
Qed.

Lemma dequeue_ok lo hi lo' hi' addrIn sizeIn addrOut m timer k c id slot d' :
  parcel_in lo hi addrIn sizeIn m ->
  0 <= lo' -> hi' <= 2 ^ 64 -> buffer_ok lo' hi' m -> lo' <= addrOut -> addrOut + 68 <= hi' ->
  DisplayManager.updateQueue id BufferQueue.dequeueBuffer (displaysOf k) = Ok (slot, d') ->
  exists m', transact Transaction.DEQUEUE_BUFFER id addrIn addrOut (St m timer k c) =
      Ok (true, St m' timer (setDisplays d' k) c) /\
    mread 4 (addrOut + 0x10) m' = Ok (u32 slot).
Proof.
  intros Hp Hlo Hhi Hb Ha He E.
  destruct (writeParcel_ok lo' hi' addrOut (0x4 + 0x2C + 0x4) (0x10 + 0x4 + 0x2C + 0x4)
    ([slot] ++ zeros 11 ++ [0]) m timer (setDisplays d' k) c Hlo Hhi Hb Ha ltac:(change (lengthZ _) with 13; lia))
    as (m' & Ew & _ & Hr).
  exists m'. split; [|by rewrite <-(Hr 0%nat slot eq_refl), Z.add_0_r].
  change (transact Transaction.DEQUEUE_BUFFER id addrIn addrOut)
    with (DEQUEUE_BUFFER id addrIn addrOut;; mret true : K Mem bool).
  rewrite (bind_ok _ _ _ tt (St m' timer (setDisplays d' k) c)); [done|]. unfold DEQUEUE_BUFFER.
  do 5 (apply (skip_word lo hi addrIn sizeIn m timer k c Hp); [lia|intros _]).
  run (onQueue_ok id BufferQueue.dequeueBuffer slot d' m timer k c E). exact Ew.
Qed.

Lemma queue_ok lo hi lo' hi' addrIn sizeIn addrOut m timer k c id slot d' :
  parcel_in lo hi addrIn sizeIn m -> mread 4 (addrIn + 0x60) m = Ok slot ->
  0 <= lo' -> hi' <= 2 ^ 64 -> buffer_ok lo' hi' m -> lo' <= addrOut -> addrOut + 384 <= hi' ->
  DisplayManager.updateQueue id (fun q => q ← BufferQueue.queueBuffer slot q; Ok (tt, q)) (displaysOf k) =
    Ok (tt, d') ->
  exists m', transact Transaction.QUEUE_BUFFER id addrIn addrOut (St m timer k c) =
      Ok (true, St m' timer (setDisplays d' k) c).
Proof.
  intros Hp Hs Hlo Hhi Hb Ha He E.
  destruct (writeParcel_ok lo' hi' addrOut (0x16C + 0x4) (0x10 + 0x4 + 0x4 + 0x4 + 0x16C + 0x4)
    (zeros (0x16C / 4) ++ [0]) m timer (setDisplays d' k) c Hlo Hhi Hb Ha ltac:(change (lengthZ _) with 92; lia))
    as (m' & Ew & _).
  exists m'. change (transact Transaction.QUEUE_BUFFER id addrIn addrOut)
    with (QUEUE_BUFFER id addrIn addrOut;; mret true : K Mem bool).
  rewrite (bind_ok _ _ _ tt (St m' timer (setDisplays d' k) c)); [done|]. unfold QUEUE_BUFFER.
  destruct (word_ok lo hi addrIn sizeIn m timer k c Hp 0 ltac:(lia)) as (v & Ev & Er).
  rewrite Z.add_0_r, Hs in Ev. injection Ev as <-. run Er.
  apply (skip_read lo hi addrIn sizeIn m timer k c Hp 8); [lia|lia|intros _].
  apply (skip_read lo hi addrIn sizeIn m timer k c Hp 1); [lia|lia|intros _].
  do 6 (apply (skip_word lo hi addrIn sizeIn m timer k c Hp); [lia|intros _]).
  run (onQueue_ok id _ tt d' m timer k c E). exact Ew.
Qed.
End Parcels.

(** ** The displays *)

Import BufferQueue.

Lemma concat_only {A B} (f : A -> list B) l i x : l !! i = Some x ->
  (forall j y, l !! j = Some y -> j <> i -> f y = []) -> concat (map f l) = f x.
Proof.
  revert i. induction l as [|y l IH]; intros i Hi Ho; [done|]. cbn. destruct i as [|i].
  - injection Hi as ->. assert (concat (map f l) = []) as ->; [|by rewrite app_nil_r].
    apply concat_nil_Forall, Forall_map, Forall_lookup. intros j y Hj. by apply (Ho (S j) y Hj).
  - rewrite (Ho 0%nat y eq_refl) by done. apply IH with i; [done|]. intros j z Hj Hne.
    apply (Ho (S j) z Hj). lia.
Qed.

(** No frame waits to be shown. *)
Definition nothing_queued (l : list BufferQueue.t) : Prop :=
  forall q b, q ∈ l -> b ∈ buffers q -> status b <> QUEUED.

Lemma nothing_queued_none q l : nothing_queued l -> q ∈ l -> find_first (hasStatus QUEUED) (buffers q) = None.
Proof.
  intros Hn Hq. apply list_find_None, Forall_forall. intros b Hb Hs.
  apply (Hn q b Hq Hb). by apply bool_decide_eq_true in Hs.
Qed.

Section Cycle.
Context (d : DisplayManager.t) (Hd : display_ok d) (i : nat) (q : BufferQueue.t) (j : nat) (b : GraphicBuffer).
Context (Hq : DisplayManager.buffers d !! i = Some q).
Context (Hb : find_first (hasStatus FREE) (buffers q) = Some (j, b)).
Context (Hn : nothing_queued (DisplayManager.buffers d)).

(** The displays while the buffer is with the program, or queued. *)
Definition withStatus (s : Status) : DisplayManager.t :=
  DisplayManager.set_buffers (<[i := assignStatus s j b q]> (DisplayManager.buffers d)) d.

Lemma cycle_buffer : buffers q !! j = Some b /\ status b = FREE.
Proof using Hb.
  apply find_first_Some in Hb as (H1 & H2 & _). split; [done|]. by apply bool_decide_eq_true in H2.
Qed.

Lemma withStatus_ok s : display_ok (withStatus s).
Proof using All.
  apply (set_queue_ok d Hd i q); [done|done|]. apply assignStatus_ok; [apply cycle_buffer|].
  by apply (do_slots d Hd i).
Qed.

Lemma cycle_dequeue :
  DisplayManager.updateQueue (1000 + Z.of_nat i) dequeueBuffer d = Ok (slot b, withStatus DEQUEUED).
Proof using All.
  apply (updateQueue_ok d Hd i q); [done|]. unfold dequeueBuffer. by rewrite Hb.
Qed.

Lemma cycle_queue :
  DisplayManager.updateQueue (1000 + Z.of_nat i) (fun q => q ← queueBuffer (slot b) q; Ok (tt, q))
    (withStatus DEQUEUED) = Ok (tt, withStatus QUEUED).
Proof using All.
  destruct cycle_buffer as [Hj _]. pose proof (lookup_lt_Some _ _ _ Hj) as Hlt.
  rewrite (updateQueue_ok _ (withStatus_ok DEQUEUED) i (assignStatus DEQUEUED j b q) _ tt
    (assignStatus QUEUED j b q)).
  - unfold withStatus. cbn. by rewrite list_insert_insert_eq.
  - cbn. apply list_lookup_insert_eq. by apply lookup_lt_Some in Hq.
  - unfold queueBuffer. change (slot b) with (slot (set_status DEQUEUED b)).
    rewrite (findSlot_ok _ j).
    + cbn. unfold assignStatus, BufferQueue.set_buffers. cbn. by rewrite list_insert_insert_eq.
    + apply assignStatus_ok; [done|by apply (do_slots d Hd i)].
    + cbn. by apply list_lookup_insert_eq.
Qed.

Lemma cycle_taken : takenFrom (assignStatus QUEUED j b q) = q.
Proof using Hd Hq Hb Hn.
  destruct cycle_buffer as [Hj Hs]. pose proof (lookup_lt_Some _ _ _ Hj) as Hlt. unfold takenFrom.
  assert (find_first (hasStatus QUEUED) (buffers (assignStatus QUEUED j b q)) = Some (j, set_status QUEUED b)) as ->.
  { apply find_first_Some. cbn. split; [by apply list_lookup_insert_eq|]. split; [done|].
    intros j' y Hj' Hl. rewrite list_lookup_insert_ne in Hj' by lia. apply bool_decide_eq_false.
    apply (Hn q y); by eapply list_elem_of_lookup_2. }
  unfold assignStatus, BufferQueue.set_buffers. cbn. rewrite list_insert_insert_eq.
  assert (set_status FREE (set_status QUEUED b) = b) as -> by (destruct b; cbn in *; by subst).
  rewrite list_insert_id by done. by destruct q.
Qed.

Lemma cycle_draw address a : address (buffer b) = Ok a ->
  DisplayManager.draw address (withStatus QUEUED) = Ok ([a], d).
Proof using All.
  intros Ha. destruct cycle_buffer as [Hj _]. pose proof (lookup_lt_Some _ _ _ Hq) as Hlt.
  assert (forall k x, DisplayManager.buffers (withStatus QUEUED) !! k = Some x -> k <> i ->
    DisplayManager.buffers d !! k = Some x) as Hother.
  { intros k x Hk Hne. cbn in Hk. by rewrite list_lookup_insert_ne in Hk by done. }
  assert (DisplayManager.buffers (withStatus QUEUED) !! i = Some (assignStatus QUEUED j b q)) as Hi
    by (cbn; by apply list_lookup_insert_eq).
  rewrite (draw_eq address (fun _ => a) _ (withStatus_ok QUEUED)).
  - do 2 f_equal.
    + rewrite (concat_only _ _ i _ Hi).
      * unfold frameOf, getQueuedBuffer.
        destruct (find_first (hasStatus QUEUED) (buffers (assignStatus QUEUED j b q))) as [[]|] eqn:E; [done|].
        apply list_find_None in E. rewrite Forall_lookup in E. exfalso.
        apply (E j (set_status QUEUED b)); [|done]. cbn. apply list_lookup_insert_eq.
        by apply lookup_lt_Some in Hj.
      * intros k x Hk Hne. unfold frameOf, getQueuedBuffer.
        rewrite (nothing_queued_none x _ Hn); [done|]. by eapply list_elem_of_lookup_2, Hother.
    + assert (map takenFrom (DisplayManager.buffers (withStatus QUEUED)) = DisplayManager.buffers d) as ->;
        [|exact (set_buffers_id d)].
      apply list_eq. intros k. rewrite list_lookup_fmap. destruct (decide (k = i)) as [->|Hne].
      * rewrite Hi. cbn. by rewrite cycle_taken.
      * unfold withStatus. cbn. rewrite list_lookup_insert_ne by done.
        destruct (DisplayManager.buffers d !! k) as [x|] eqn:Hk; [|done].
        cbn. unfold takenFrom. rewrite (nothing_queued_none x _ Hn); [done|].
        by eapply list_elem_of_lookup_2.
  - apply Forall_lookup. intros k x Hk y Hy Hs. destruct (decide (k = i)) as [->|Hne].
    + rewrite Hi in Hk. injection Hk as <-. apply list_elem_of_lookup in Hy as [j' Hj']. cbn in Hj'.
      apply list_lookup_insert_Some in Hj' as [(<- & <- & _)|[_ Hj']]; [done|].
      exfalso. apply (Hn q y); [by eapply list_elem_of_lookup_2..|done].
    + exfalso. apply (Hn x y); [by eapply list_elem_of_lookup_2, Hother|done|done].
Qed.
End Cycle.

(** The memory a call needs: the parcel that is sent, and room for [n] bytes of the one
    that comes back. *)
Definition parcels_ok {Mem} `{GuestMemoryLaws Mem} (addrIn sizeIn addrOut n : Z) (m : Mem) : Prop :=
  exists lo hi lo' hi', parcel_in lo hi addrIn sizeIn m /\
    0 <= lo' /\ hi' <= 2 ^ 64 /\ buffer_ok lo' hi' m /\ lo' <= addrOut /\ addrOut + n <= hi'.


(** A program with one buffer at offset 0x1000 of an object at 0xAA0000000. *)
Definition frame_kernel : KState :=
  setDisplays one_buffer (set_gpu (set_gMapObjects [mkNvmapObject 1 1 0x400000 0x1000 0x40000000 0xFE 0xAA0000000]
    gpu_static) running_example).
Definition frame_call (transaction : Z) : IpcInfo :=
  mkIpcInfo 0 3 [mkRegular 0 0x5100 0x94] [mkRegular 0 0x5800 0x200] [] [] [] [] []
    (bytesOf 4 1000 ++ bytesOf 4 transaction ++ bytesOf 4 0) 0 0x5000 false 0 0 0.

Lemma frame_call_ok t : t = Transaction.DEQUEUE_BUFFER \/ t = Transaction.QUEUE_BUFFER ->
  call (frame_call t) 1000 t 0x5100 0x94 0x5800.
Proof. intros [->| ->]; (constructor; [by vm_compute|done|done|done|by repeat eexists|by repeat eexists]). Qed.

Lemma frame_parcels n : n <= 0x800 -> parcels_ok 0x5100 0x94 0x5800 n mem_example.
Proof.
  assert (buffer_ok 0x5000 0x6000 mem_example) as Hb
    by (apply (page_buffer _ _ _ [0x11000] mem_example_inv); vm_compute; congruence).
  intros Hn. exists 0x5000, 0x6000, 0x5000, 0x6000. split; [constructor; [done|lia|lia]|].
  split; [lia|]. split; [lia|]. split; [done|]. lia.
Qed.

