(* ===== verification/ServicesSpec.v ===== *)
(** * Sessions and tables of the services

    What the commands that open sessions give the program, and which rows of the tables
    a request can reach. *)
From stdpp Require Import strings.
From S2P Require Import Prelude BitUtils Instructions Core Machine Memory MemoryInv MemorySpec.
From S2P Require Import HandleManager MemoryMapper Thread Display KernelState Scheduler.
From S2P Require Import KernelLemmas SchedulerSpec SchedulerSafety Ipc IpcReply IpcSpec SmService Gpu.
From S2P Require Import ServiceBase Services NnServices.
#[global] Open Scope Z_scope.

(** ** Opening a session *)

(** The commands that answer with a session of a new object: the class that has the
    command, its id, and the class of the object. *)
Definition opening : list (ServiceClass * Z * ServiceClass) :=
  [(IAccountServiceForApplication, 5, IProfile);
   (IAccountServiceForApplication, 101, IManagerForApplication);
   (IAllSystemAppletProxiesService, 200, ILibraryAppletProxy);
   (IApplicationFunctions, 1, am_IStorage);
   (IApplicationProxy, 0, ICommonStateGetter); (IApplicationProxy, 1, ISelfController);
   (IApplicationProxy, 2, IWindowController); (IApplicationProxy, 3, IAudioController);
   (IApplicationProxy, 4, IDisplayController); (IApplicationProxy, 10, IProcessWindingController);
   (IApplicationProxy, 11, ILibraryAppletCreator); (IApplicationProxy, 20, IApplicationFunctions);
   (IApplicationProxy, 1000, IDebugFunctions); (IApplicationProxyService, 0, IApplicationProxy);
   (ILibraryAppletProxy, 1, ISelfController); (ILibraryAppletProxy, 2, IWindowController);
   (am_IStorage, 0, IStorageAccessor); (IManager, 0, ISession);
   (IFileSystemProxy, 51, fssrv_IStorage); (IFileSystemProxy, 200, fssrv_IStorage);
   (IFileSystemProxy, 203, fssrv_IStorage); (IHidServer, 0, IAppletResource); (ILogService, 0, ILogger);
   (nifm_IStaticService, 4, IGeneralService); (timesrv_IStaticService, 0, ISystemClock);
   (timesrv_IStaticService, 1, ISystemClock); (timesrv_IStaticService, 2, ISteadyClock);
   (timesrv_IStaticService, 3, ITimeZoneService); (IApplicationDisplayService, 100, IHOSBinderDriver);
   (IApplicationDisplayService, 101, ISystemDisplayService);
   (IApplicationDisplayService, 102, IManagerDisplayService);
   (IApplicationDisplayService, 103, IHOSBinderDriver);
   (IManagerRootService, 2, IApplicationDisplayService);
   (ISystemRootService, 1, IApplicationDisplayService)].

Lemma classOf_interfaceOf c : classOf (interfaceOf c) = Some c.
Proof. by destruct c. Qed.

Section Open.
Context {Mem : Type} `{GuestMemoryLaws Mem} `{PageAdmin Mem} `{GpuHost} `{ServiceHost}.

(** A function that answers with a session of class [c]. *)
Definition openerOf (c : ServiceClass) (f : ServiceFunc Mem) : Prop :=
  forall info reply m timer k cr, objects_inv k -> (8 <= length (argData info))%nat ->
    f info reply (St m timer k cr) =
      Ok ((ERR_SUCCESS, moveHandle (gHandleCounter (handles k)) reply),
          St m timer (connectK (interfaceOf c) k) cr).

Lemma opener_plain c : openerOf c (fun info reply => opens c reply).
Proof.
  intros info reply m timer k cr Ho _. unfold opens, connect.
  by run (createObjectHandle_eq m timer k cr (OInterfaceHandle (interfaceOf c) false) Ho).
Qed.

Lemma opener_args n c : (n <= 8)%nat ->
  openerOf c (fun info reply => _ ← (needArgs n info : K Mem (list Z)); opens c reply).
Proof.
  intros Hn info reply m timer k cr Ho Hl.
  rewrite (bind_ok _ _ _ (take n (argData info)) (St m timer k cr)).
  - by apply (opener_plain c info).
  - unfold needArgs, readArgs. by rewrite (proj2 (Nat.leb_le n _)) by lia.
Qed.

Lemma opening_functions c cmd c' : (c, cmd, c') ∈ opening ->
  exists f, findFunction cmd (functionsOf c) = Some f /\ openerOf c' f.
Proof.
  revert c cmd c'. assert (Forall (fun '(c, cmd, c') => exists f, findFunction cmd (functionsOf c) = Some f /\
    openerOf c' f) opening) as Hall.
  { repeat constructor; (eexists; split; [reflexivity|]);
      first [apply opener_plain | apply (opener_args 8); lia | apply (opener_args 4); lia]. }
  intros c cmd c' Hin. by apply (proj1 (Forall_forall _ _) Hall (c, cmd, c')).
Qed.
End Open.

(** ** Requests *)

Lemma interfaceOf_nonzero c : (interfaceOf c =? 0) = false.
Proof. by destruct c. Qed.


(** ** The tables *)

Definition ids {Mem} (l : list (FunctionEntry Mem)) : list Z := map functionId l.

(** The rows no request reaches, because a row before them has the same command. *)
Fixpoint shadowedRows (seen l : list Z) : list Z :=
  match l with
  | [] => []
  | id :: l => if existsb (Z.eqb id) seen then id :: shadowedRows seen l else shadowedRows (id :: seen) l
  end.

Section Tables.
Context {Mem : Type} `{GuestMemory Mem} `{PageAdmin Mem} `{GpuHost} `{ServiceHost}.

Lemma tables_shadowed c : shadowedRows [] (ids (functionsOf (Mem := Mem) c)) =
  if decide (c = ISession) then [0] else if decide (c = IFileSystemProxy) then [607] else [].
Proof. by destruct c. Qed.

Lemma tables_filled c : Forall (fun f => is_Some (functionPtr f)) (functionsOf (Mem := Mem) c).
Proof. destruct c; repeat constructor; eauto. Qed.

(** A row whose command occurs only once is found. *)
Lemma findFunction_first (l : list (FunctionEntry Mem)) seen i r :
  Forall (fun f => is_Some (functionPtr f)) l -> l !! i = Some r ->
  functionId r ∉ shadowedRows seen (ids l) -> existsb (Z.eqb (functionId r)) seen = false ->
  findFunction (functionId r) l = functionPtr r.
Proof.
  revert seen i. induction l as [|x l IH]; intros seen i Hf Hi Hn Hseen; [done|].
  apply Forall_cons in Hf as [[p Hp] Hf]. cbn [findFunction ids map shadowedRows] in *. rewrite Hp.
  destruct i as [|i].
  { injection Hi as ->. by rewrite Z.eqb_refl, Hp. }
  destruct (Z.eqb_spec (functionId x) (functionId r)) as [Ex|Ex].
  - exfalso. rewrite Ex, Hseen in Hn. apply Hn.
    assert (forall s l j, existsb (Z.eqb (functionId r)) s = true -> l !! j = Some r ->
      functionId r ∈ shadowedRows s (ids l)) as Hs.
    { clear. intros s l. revert s. induction l as [|y l IH]; intros s j Hs Hj; [done|]. cbn.
      destruct j as [|j].
      - injection Hj as ->. rewrite Hs. apply list_elem_of_here.
      - destruct (existsb (Z.eqb (functionId y)) s).
        + apply list_elem_of_further. by apply (IH s j).
        + apply (IH _ j); [|done]. cbn. by rewrite Hs, orb_true_r. }
    apply (Hs _ l i); [|done]. cbn. by rewrite Z.eqb_refl.
  - destruct (existsb (Z.eqb (functionId x)) seen).
    + apply (IH seen i); try done. intros Hin. apply Hn. by apply list_elem_of_further.
    + apply (IH (functionId x :: seen) i); try done. cbn.
      by rewrite Hseen, (proj2 (Z.eqb_neq _ _)) by congruence.
Qed.

(** the tables of the 45 classes: a request with the command of a row runs the function
    of that row, except for the two commands that two rows have: 0 of [ISession], where
    [GetPerformanceConfiguration] cannot be reached, and 607 of [IFileSystemProxy]; the
    commands 1 and 608 the second rows should have are unknown. *)
Theorem rows_reachable :
  (forall c i r, functionsOf (Mem := Mem) c !! i = Some r ->
     (c, functionId r) <> (ISession, 0) -> (c, functionId r) <> (IFileSystemProxy, 607) ->
     findFunction (functionId r) (functionsOf c) = functionPtr r) /\
  functionsOf (Mem := Mem) ISession !! 1%nat =
    Some (entry 0 SERVICE_FUNC_STUB "GetPerformanceConfiguration") /\
  findFunction 0 (functionsOf (Mem := Mem) ISession) = Some ISession.SetPerformanceConfiguration /\
  findFunction 1 (functionsOf (Mem := Mem) ISession) = None /\
  findFunction 608 (functionsOf (Mem := Mem) IFileSystemProxy) = None.
Proof.
  split; [|by split_and!]. intros c i r Hi H1' H2'.
  apply (findFunction_first (functionsOf c) [] i r); [apply tables_filled|done| |done].
  rewrite tables_shadowed. intros Hin. repeat case_decide; subst.
  - apply list_elem_of_singleton in Hin. by rewrite Hin in H1'.
  - apply list_elem_of_singleton in Hin. by rewrite Hin in H2'.
  - by apply not_elem_of_nil in Hin.
Qed.
End Tables.

(** ** Concrete requests *)

#[local] Instance example_gpu : GpuHost := { garbage _ _ := 0xCDCDCDCD }.
#[local] Instance example_services : ServiceHost := { leftover _ _ := 0xCDCDCDCD; romfs := None }.

(** A request for [GetDisplayService] of ["vi:m"]. *)
Definition display_request : IpcInfo :=
  mkIpcInfo 0 2 [] [] [] [] [] [] [] (bytesOf 4 1 ++ bytesOf 4 0) 0x5020 0x5000 false 0 0 0.


Lemma rows_reachable_witness :
  findFunction 1010 (functionsOf (Mem := MemState) IApplicationDisplayService) =
    Some IApplicationDisplayService.OpenDisplay.
Proof.
  destruct (rows_reachable (Mem := MemState)) as [Hr _].
  exact (Hr IApplicationDisplayService 5%nat
    (entry 1010 IApplicationDisplayService.OpenDisplay "OpenDisplay") eq_refl
    ltac:(intros E; discriminate E) ltac:(intros E; discriminate E)).
Defined.
