(* ===== verification/RunLoop.v ===== *)
(** * The run loop of a core: [libcpu/src/cpu.cpp], and [hle/kernel/kernel.cpp]

    The functions the kernel installs in the CPU, the loop a core runs them in, and
    the start of a game.  The break handler of the debugger and the step of the JIT compiler,
    whose state is not part of the kernel's, are the interface [FrontEnd]. *)
From stdpp Require Import strings.
From S2P Require Import Prelude BitUtils Instructions Core InstUtils Machine Memory Float Interp.
From S2P Require Import HandleManager MemoryMapper Thread.
From S2P Require Import LoaderFormat KernelState Scheduler Alarm Ipc SmService Svc Loader.
#[global] Open Scope Z_scope.

Class FrontEnd (Mem : Type) := {
  debugBreakHandler : K Mem unit;       (* [debug::debugBreakHandler] *)
  jitStep : K Mem unit;                 (* [cpu::jit::step] *)
}.

Section RunLoop.
Context {Mem : Type} `{GuestMemory Mem} `{PageAdmin Mem} `{HostMemory Mem} `{Services Mem}.
Context `{HostEnv} `{FrontEnd Mem} `{ShiftTarget} `{HostFloat} `{LoaderHost}.

(** ** The handlers of [kernel.cpp] *)

Definition rescheduleLocked : K Mem unit :=
  lockScheduler;; rescheduleNoLock;; unlockScheduler.

Definition interruptHandler (interrupts : Z) : K Mem unit :=
  (if Z.land interrupts RESET_INTERRUPT !=? 0 then fail ThreadExit else mret tt);;
  (if Z.land interrupts DEBUG_BREAK_INTERRUPT !=? 0 then debugBreakHandler else mret tt);;
  (if interrupts !=? DEBUG_BREAK_INTERRUPT then rescheduleLocked else mret tt).

Definition segFaultHandler (addr : Z) : K Mem unit := debugBreakHandler.

Definition illInstHandler : K Mem unit :=
  i ← (getCoreID : K Mem Z); sendInterruptsTo i DEBUG_BREAK_INTERRUPT.

(** What [kernel::init] passes to [setSVCHandler] and [setIllInstHandler]. *)
#[export] Instance kernel_hooks : CpuHooks (Mem * KState) := {
  gSVCHandler := callSVC;
  gIllInstHandler := illInstHandler;
}.

Definition stopGame : K Mem unit :=
  k ← (getK : K Mem KState);
  _ ← (closeHandleK (gCurrentProcess k) : K Mem bool);
  modK (set_gCurrentProcess INVALID_HANDLE).

Definition isGameRunning : K Mem bool :=
  k ← (getK : K Mem KState); mret (gCurrentProcess k !=? INVALID_HANDLE).

Definition getCurrentProcess : K Mem ObjectPtr :=
  k ← (getK : K Mem KState); lookupObjectK (gCurrentProcess k).

(** [launchGameCart], with [gBasePath] and the depth of the libraries. *)
Definition launchGameCart (fuel : nat) (gBasePath : string) : K Mem bool :=
  if String.eqb gBasePath "" then mret false
  else
  addMappingK 0 (Z.shiftl 1 36) MemoryType.UNMAPPED NONE;;
  addMappingK 0x700000000 (0x200 * 32) MemoryType.THEAD_LOCAL_STORAGE READ_WRITE;;
  addMappingK 0xE0000000 0x10000000 MemoryType.NORMAL READ_WRITE;;
  modLoader (set_workingPath gBasePath);;
  loaded ← loadGame fuel;
  if negb loaded then mret false
  else
    process ← (createObjectHandle OProcess : K Mem Z);
    (modK (set_gCurrentProcess process) : K Mem unit);;
    mret true.

(** ** The CPU *)

Definition modCpu (f : CpuState -> CpuState) : K Mem unit := modK (fun k => set_cpus (f (cpus k)) k).

Definition addBreakpoint (addr : Z) : K Mem unit :=
  modCpu (fun s => set_gBreakpoints ({[addr]} ∪ gBreakpoints s) s).
Definition addSingleUseBreakpoint (addr : Z) : K Mem unit :=
  modCpu (fun s => set_gSingleUseBreakpoints ({[addr]} ∪ gSingleUseBreakpoints s) s).
Definition removeBreakpoint (addr : Z) : K Mem unit :=
  modCpu (fun s => set_gBreakpoints (gBreakpoints s ∖ {[addr]}) s).
Definition setSingleStepMode (isEnabled : bool) : K Mem unit :=
  modCpu (set_gSingleStepMode isEnabled).

(** [interrupts.fetch_and(~interrupts)] on the running core. *)
Definition clearInterrupts (interrupts_ : Z) : K Mem unit :=
  onCore (fun c => set_interrupts (Z.land (interrupts c) (not64 interrupts_)) c).

(** [interrupts.fetch_and(0)] *)
Definition takeInterrupts : K Mem Z :=
  c ← (getCore : K Mem Core);
  (onCore (set_interrupts 0) : K Mem unit);;
  mret (interrupts c).

Definition checkInterrupts : K Mem unit :=
  interrupts ← takeInterrupts;
  if interrupts !=? 0 then interruptHandler interrupts else mret tt.

(** [waitForInterrupt]: without a pending interrupt the thread waits on the condition
    variable, where only another thread can release it. *)
Definition waitForInterrupt : K Mem unit :=
  interrupts ← takeInterrupts;
  if interrupts !=? 0 then interruptHandler interrupts else fail Blocked.

(** [step] of the engine that is switched on. *)
Definition stepCore : K Mem unit :=
  k ← (getK : K Mem KState);
  if gIsJitEnabled (cpus k) then jitStep else Interp.step.

Definition breakHere : K Mem unit :=
  i ← (getCoreID : K Mem Z); sendInterruptsTo i DEBUG_BREAK_INTERRUPT.

(** The tests after each step. *)
Definition checkBreakpoints : K Mem unit :=
  k ← (getK : K Mem KState);
  c ← (getCore : K Mem Core);
  (if decide (PC c ∈ gBreakpoints (cpus k)) then breakHere else mret tt);;
  (if decide (PC c ∈ gSingleUseBreakpoints (cpus k)) then
     breakHere;;
     modCpu (fun s => set_gSingleUseBreakpoints (gSingleUseBreakpoints s ∖ {[PC c]}) s)
   else mret tt);;
  (if gSingleStepMode (cpus k) then breakHere else mret tt).

(** The body of the loop of [resume]. *)
Definition resumeBody : K Mem unit := checkInterrupts;; stepCore;; checkBreakpoints.

(** [resume], for at most [n] instructions: whether the loop ended. *)
Fixpoint resume (n : nat) : K Mem bool :=
  match n with
  | O => c ← (getCore : K Mem Core); mret (negb (isActive c))
  | S n =>
      c ← (getCore : K Mem Core);
      if isActive c then resumeBody;; resume n else mret true
  end.

(** [cpu::step], the debugger's: one step of the running core. *)
Definition cpu_step : K Mem unit := stepCore.

(** The start of [cpuEntry]: core 0 creates the main thread. *)
Definition startMainThread : K Mem unit :=
  i ← (getCoreID : K Mem Z);
  if i =? 0 then
    programEntry ← getProgramEntry;
    coreThread ← createThread programEntry 0 0x00000000F0000000 0 CORE0;
    p ← getThread coreThread;
    (updateThread p (fun t => set_context (let x := context t in
       Context.mk (<[0%nat := 0]> (Context.GPRegs x)) (Context.VRegs x) (Context.PC x)
         (Context.SP x) (Context.PState x) (Context.TLSAddr x)) t) : K Mem unit);;
    p ← getThread coreThread;
    (updateThread p (fun t => set_context (let x := context t in
       Context.mk (<[1%nat := coreThread]> (Context.GPRegs x)) (Context.VRegs x) (Context.PC x)
         (Context.SP x) (Context.PState x) (Context.TLSAddr x)) t) : K Mem unit);;
    startThread coreThread;;
    sendInterruptsTo 0 GENERIC_INTERRUPT
  else mret tt.

(** One round of the loop of [cpuEntry]. *)
Definition cpuRound (n : nat) : K Mem bool := waitForInterrupt;; resume n.

(** [cpuEntry], for [rounds] rounds of at most [n] instructions. *)
Fixpoint cpuRounds (rounds n : nat) : K Mem unit :=
  match rounds with
  | O => mret tt
  | S rounds => _ ← cpuRound n; cpuRounds rounds n
  end.
Definition cpuEntry (rounds n : nat) : K Mem unit := startMainThread;; cpuRounds rounds n.
End RunLoop.
