(* ===== verification/RunLoopSpec.v ===== *)
(** * Guest code and the scheduler together

    What a supervisor call does when it changes the running thread in the middle of an
    interpreter step, and what the run loop does with a core that has just become
    idle.

    Then, which cores are told to reschedule.  A core reschedules when it takes an interrupt
    other than those of the debugger and the reset.  [Keeps] says of a function that it leaves
    such interrupts of cores 1 to 3 as they were, whatever state it is called in; it is
    shown, function by function, of everything the kernel runs. *)
From S2P Require Import Prelude BitUtils Instructions DecodeSystem Decode Core InstUtils Machine Memory.
From S2P Require Import Float InterpBranch Interp StepSpec HandleManager MemoryMapper Thread KernelState Scheduler.
From S2P Require Import KernelLemmas SchedulerSpec SchedulerInv SchedulerSafety SchedulerPolicy Alarm AlarmSpec Ipc SmService.
From S2P Require Import Svc RunLoop.

(** [SVC #0xB], [svcSleepThread]. *)
Definition svc_sleep_word : Z := 0xD4000161.

Lemma wf_set_isActive b c : wf_Core c -> wf_Core (set_isActive b c).
Proof. intros []. by constructor. Qed.

Lemma fetched_wf c : wf_Core c -> wf_Core (fetched c).
Proof. intros Hc. apply wf_set_nextPC; auto with emu. Qed.

Lemma same_registers_fetched c c' : same_registers c' (fetched c) -> same_registers c' c.
Proof. intros (? & ? & ? & ? & ? & ?). by repeat split. Qed.

(** Of the thread's registers, the end of a step changes [PC] alone. *)
Lemma finishStep_registers c : 
  (forall r, 0 <= r < 31 -> getX (finishStep c) r = getX c r) /\ VRegs (finishStep c) = VRegs c /\
  PC (finishStep c) = nextPC c /\ SP (finishStep c) = SP c /\ isActive (finishStep c) = isActive c.
Proof.
  split; [|unfold finishStep; cbv zeta; by destruct (_ =? _)].
  intros r Hr. apply getX_finishStep; [unfold Core.reg|]; lia.
Qed.

Section Svc.
Context {Mem : Type} `{GuestMemory Mem} `{PageAdmin Mem} `{HostMemory Mem} `{Services Mem}.
Context `{HostEnv} `{FrontEnd Mem} `{ShiftTarget} `{HostFloat}.
Context (m : Mem) (timer : Z) (k : KState) (c : Core).
Context (Hk : sched_inv k) (Hl : unlocked k) (Hi : core_id (coreNum c)) (Hc : wf_Core c).
Abbreviation St := (St m timer).
Let i := coreNum c.
Let cur := currentOf k i.
Context (Hrun : statusOf k cur = Some ThreadStatus.RUNNING).
Context (Hfetch : mread 4 (PC c) m = Ok svc_sleep_word) (Hx0 : getX c 0 = 0).

Lemma svc_handler : getInstructionFunc (Mem := Mem * KState) instructionID.SVC = svc.
Proof.
  apply lookup_handler_in; [apply init_registrations_NoDup|].
  unfold init_registrations. rewrite !in_app_iff. right. left. by left.
Qed.

(** The step of the call that yields, as a scheduler operation between the two halves
    of a step. *)
Lemma step_svc_yield :
  Interp.step (St k c) =
  let '(k', c') := yieldK i (fetched c) k in Ok (tt, St k' (finishStep c')).
Proof.
  assert (getX (fetched c) 0 = 0) as Hx by exact Hx0.
  destruct (yield_current k Hk i Hi Hrun) as (_ & a & t & Ht & _).
  pose proof (yieldThread_eq m timer k (fetched c) a t (si_wf k Hk) Hl Hi Ht) as Ey.
  change (coreNum (fetched c)) with i in Ey.
  assert (gSVCHandler (Inst._5_20 svc_sleep_word) (St k (fetched c)) =
    yieldThread (St k (fetched c))) as Eh.
  { change (gSVCHandler (Inst._5_20 svc_sleep_word)) with (callSVC (Mem := Mem) 0xB).
    change (callSVC (Mem := Mem) 0xB) with (svcSleepThread (Mem := Mem)).
    unfold svcSleepThread. rewrite (bind_ok _ _ _ 0 (St k (fetched c))); [done|].
    unfold getGPR. rewrite (bind_ok _ _ _ (fetched c) (St k (fetched c))) by done.
    by rewrite Hx. }
  assert (id (decode svc_sleep_word) = instructionID.SVC) as Hid by (vm_compute; reflexivity).
  assert (DecodeSystem.inst (decode svc_sleep_word) = svc_sleep_word) as Hw by (vm_compute; reflexivity).
  unfold Interp.step, mbind, M_bind, getCore, mem_fetch, askMemory, onCore.
  cbn [core memory SchedulerSpec.St]. change (mread 4 (PC c) (m, k)) with (mread 4 (PC c) m).
  rewrite Hfetch. cbv zeta. cbn [core memory set_core SchedulerSpec.St].
  rewrite Hid, svc_handler. unfold svc. rewrite Hw.
  change (mkMachine (set_nextPC (u64 (PC c + 4)) c) (m, k) timer) with (St k (fetched c)).
  change (set_core (set_nextPC (u64 (PC c + 4)) c) (St k c)) with (St k (fetched c)).
  rewrite Eh, Ey. by destruct (yieldK i (fetched c) k).
Qed.

(** C29: a supervisor call that switches threads: the handler runs before the step writes
    [nextPC] into [PC], so the thread switched to does not go on where it was saved
    but at the instruction after the call of the thread switched out, with its own
    registers otherwise; and the thread switched out is saved with [PC] at its call. *)
Theorem svc_switch_misplaces_PC (j : nat) (next : Z) :
  listOf k i !! j = Some next -> best_at (prioOf k) (listOf k i) (prioOf k cur) j ->
  exists k' c' x y, Interp.step (St k c) = Ok (tt, St k' c') /\ sched_inv k' /\
    currentOf k' i = next /\ contextOf k next = Some x /\
    (forall r, 0 <= r < 31 -> getX c' r = getX (restoreState x c) r) /\
    SP c' = Context.SP x /\ PC c' = u64 (PC c + 4) /\
    contextOf k' cur = Some y /\ Context.PC y = PC c.
Proof.
  intros Hj Hb. rewrite step_svc_yield.
  pose proof (yield_switch_state k Hk i Hi (fetched c) Hrun j next Hj Hb) as Hy.
  destruct (yieldK i (fetched c) k) as [k' c'].
  destruct Hy as (Hk' & _ & Hcur & Hctx & x & Hx & ->).
  destruct (finishStep_registers (set_isActive true (set_exclusiveAccess false
    (restoreState x (fetched c))))) as (F1 & _ & F3 & F4 & _).
  eexists k', _, x, (saveState (fetched c)). split; [reflexivity|].
  split; [done|]. split; [done|]. split; [done|]. split; [|split; [|split; [|done]]].
  - intros r Hr. by rewrite F1.
  - by rewrite F4.
  - by rewrite F3.
Qed.

(** yielding never completes: alone on its core, a thread that calls [svcSleepThread]
    with 0 leaves the core idle, and when an interrupt schedules it again, whatever the
    core holds then, it stands before the same call with the same registers. *)
Theorem svc_yield_repeats (c1 : Core) :
  listOf k i = [] -> prioOf k cur < NO_PRIORITY -> wf_Core c1 -> coreNum c1 = i ->
  exists k' c' k'' c'', Interp.step (St k c) = Ok (tt, St k' c') /\
    isActive c' = false /\ currentOf k' i = INVALID_THREAD /\
    rescheduleNoLock (St k' c1) = Ok (tt, St k'' c'') /\
    currentOf k'' i = cur /\ isActive c'' = true /\ same_registers c'' c.
Proof.
  intros Hempty Hprio Hc1 Hn. rewrite step_svc_yield.
  assert (forall h, h ∈ listOf k i -> prioOf k cur <= prioOf k h) as Hnb
    by (rewrite Hempty; by intros h ?%not_elem_of_nil).
  destruct (yield_resume m timer k (fetched c) c1 Hk Hl Hi (fetched_wf c Hc) Hc1 Hn Hrun Hempty Hprio)
    as (k' & c' & k'' & c'' & E1 & E2 & Hcur & Hst & Hact & Hsame).
  pose proof (yield_idle_state k Hk i Hi (fetched c) Hrun Hnb) as Hy.
  destruct (yield_current k Hk i Hi Hrun) as (_ & a & t & Ht & _).
  pose proof (yieldThread_eq m timer k (fetched c) a t (si_wf k Hk) Hl Hi Ht) as Ey.
  change (coreNum (fetched c)) with i in Ey. destruct (yieldK i (fetched c) k) as [k1 c0].
  rewrite E1 in Ey. injection Ey as -> ->. destruct Hy as (_ & _ & Hcur' & -> & _).
  eexists k1, _, k'', c''. split; [reflexivity|].
  destruct (finishStep_registers (set_isActive false (set_exclusiveAccess false (fetched c))))
    as (_ & _ & _ & _ & F).
  split; [by rewrite F|]. split; [done|]. split; [done|]. split; [done|]. split; [done|].
  by apply same_registers_fetched.
Qed.
End Svc.

(** ** The run loop *)

Section Resume.
Context {Mem : Type} `{GuestMemory Mem} `{PageAdmin Mem} `{HostMemory Mem} `{Services Mem}.
Context `{HostEnv} `{FrontEnd Mem} `{ShiftTarget} `{HostFloat}.
Context (m : Mem) (timer : Z) (k : KState) (c : Core).
Context (Hk : sched_inv k) (Hl : unlocked k) (Hi : core_id (coreNum c)) (Hc : wf_Core c).
Abbreviation St := (St m timer).
Let i := coreNum c.
Let cur := currentOf k i.

Lemma rescheduleLocked_eq c0 : coreNum c0 = i ->
  rescheduleLocked (St k c0) =
  let '(k', c') := reschedK i c0 (locked k) in Ok (tt, St (setLock false k') c').
Proof.
  intros En. unfold rescheduleLocked. run (lockScheduler_eq m timer k c0 Hl).
  assert (sched_wf (locked k)) as Hw by (apply sched_wf_setLock, Hk).
  assert (core_id (coreNum c0)) as Hi0 by by rewrite En.
  pose proof (rescheduleNoLock_eq m timer (locked k) c0 Hw Hi0) as E. rewrite En in E.
  destruct (reschedK i c0 (locked k)) as [k' c']. by run E.
Qed.

(** a core that goes idle runs one more instruction: when the current thread has gone
    to sleep and nobody else waits, the interrupt check saves its registers and leaves
    the core without a thread, and the loop of [resume] then executes an instruction
    of that thread all the same.  What the thread gets back later are the registers
    saved before it, so it executes that instruction twice. *)
Theorem idle_core_replays :
  cur <> INVALID_THREAD -> statusOf k cur <> Some ThreadStatus.RUNNING -> listOf k i = [] ->
  interrupts c = GENERIC_INTERRUPT ->
  exists k' c', resumeBody (St k c) = ((stepCore ;; checkBreakpoints) : K Mem unit) (St k' c') /\
    currentOf k' i = INVALID_THREAD /\ isActive c' = false /\ same_registers c' c /\
    contextOf k' cur = Some (saveState c') /\
    (forall c2, wf_Core c2 -> same_registers (restoreState (saveState c') c2) c').
Proof.
  intros Hne Hns Hempty Hint.
  set (c0 := set_interrupts 0 c). set (k1 := locked k).
  assert (wf_Core c0) as Hc0 by (destruct Hc; by constructor).
  assert (sched_wf k1) as Hw1 by (apply sched_wf_setLock, Hk).
  destruct (currentOf_live k (si_wf k Hk) i Hi Hne) as (Hcan & _).
  assert (nextOf k1 i = None) as Hn.
  { apply nextOf_none. change (listOf k1 i) with (listOf k i). rewrite Hempty.
    by intros h ?%not_elem_of_nil. }
  destruct (resched_idle k1 Hw1 i Hi c0 Hn Hns) as [W K S A L C].
  pose proof (idle_contexts k1 Hw1 i Hi c0 cur Hn Hns Hcan Hne) as Hx.
  change (currentOf k1 i) with cur in Hx. rewrite decide_True in Hx by done.
  assert (snd (reschedK i c0 k1) = set_isActive false (set_exclusiveAccess false c0)) as Ec.
  { unfold reschedK. rewrite Hn. change (currentOf k1 i) with cur.
    rewrite (proj2 (Z.eqb_neq cur _) Hne). by rewrite decide_False. }
  pose proof (rescheduleLocked_eq c0 eq_refl) as Er. fold k1 in Er.
  destruct (reschedK i c0 k1) as [k' c'] eqn:Ek. cbn [fst snd] in *. subst c'.
  exists (setLock false k'), (set_isActive false (set_exclusiveAccess false c0)).
  split; [|split; [|split; [|split; [|split]]]].
  - unfold resumeBody. rewrite (bind_ok _ _ _ tt
      (St (setLock false k') (set_isActive false (set_exclusiveAccess false c0)))); [done|].
    unfold checkInterrupts, takeInterrupts.
    rewrite (bind_ok _ _ _ GENERIC_INTERRUPT (St k c0)).
    2: { rewrite (bind_ok _ _ _ c (St k c)) by done. unfold mbind, K_bind, M_bind, onCore.
         cbn. by rewrite Hint. }
    change (negb (GENERIC_INTERRUPT =? 0)) with true. cbn [negb]. unfold interruptHandler.
    rewrite (bind_ok _ _ _ tt (St k c0)) by done. rewrite (bind_ok _ _ _ tt (St k c0)) by done.
    exact Er.
  - change (currentOf (setLock false k') i) with (currentOf k' i). by rewrite C, decide_True by done.
  - done.
  - by repeat split.
  - exact Hx.
  - intros c2 Hc2. apply restore_save; [|done]. destruct Hc0. by constructor.
Qed.
End Resume.

(** ** The theorems at example states *)

#[local] Instance run_host : HostEnv := host_example.
#[local] Instance run_services : Services MemState := {
  mFunctions i := if i =? 1 then sm_functions else [];
}.
#[local] Instance run_frontend : FrontEnd MemState := {
  debugBreakHandler := mret tt;
  jitStep := mret tt;
}.

(** Core 0 before the instruction [SVC #0xB] at 0x5000. *)
Definition svc_core : Core := set_PC 0x5000 (core_example 0).
Definition svc_memory : MemState := (program svc_sleep_word 0 5).(memory).

Lemma svc_core_ok : wf_Core svc_core /\ core_id (coreNum svc_core) /\
  mread 4 (PC svc_core) svc_memory = Ok svc_sleep_word /\ getX svc_core 0 = 0.
Proof.
  split; [apply wf_set_PC; [apply core_example_wf|unfold uint; lia]|].
  split; [unfold core_id; cbn; lia|]. split; [apply reads_ok; vm_compute; reflexivity|done].
Qed.

Lemma svc_switch_misplaces_PC_witness :
  exists k' c', Interp.step (St svc_memory 0 waiting_example svc_core) = Ok (tt, St svc_memory 0 k' c') /\
    currentOf k' 0 = 2 /\ PC c' = 0x5004 /\
    exists x y, contextOf waiting_example 2 = Some x /\ Context.PC x = 0x9000000 /\
      contextOf k' 1 = Some y /\ Context.PC y = 0x5000.
Proof.
  destruct svc_core_ok as (Hc & Hi & Hf & Hx).
  assert (best_at (prioOf waiting_example) (listOf waiting_example 0) (prioOf waiting_example 1) 0) as Hb.
  { exists 2. split; [vm_compute; reflexivity|]. split; [vm_compute; reflexivity|].
    split; intros [|[|j]] h' Hh'; vm_compute in Hh'; try discriminate Hh'; try lia.
    injection Hh' as <-. vm_compute. discriminate. }
  destruct (svc_switch_misplaces_PC svc_memory 0 waiting_example svc_core waiting_example_inv
    ltac:(vm_compute; reflexivity) Hi ltac:(vm_compute; reflexivity) Hf Hx 0 2
    ltac:(vm_compute; reflexivity) Hb)
    as (k' & c' & x & y & E & _ & Hcur & Hcx & _ & _ & Hpc & Hcy & Hpy).
  exists k', c'. split; [exact E|]. split; [exact Hcur|]. split; [rewrite Hpc; vm_compute; reflexivity|].
  exists x, y. split; [exact Hcx|]. split; [|split; [exact Hcy|exact Hpy]].
  vm_compute in Hcx. injection Hcx as <-. reflexivity.
Defined.

Lemma svc_yield_repeats_witness :
  exists k' c' k'' c'',
    Interp.step (St svc_memory 0 running_example svc_core) = Ok (tt, St svc_memory 0 k' c') /\
    isActive c' = false /\
    rescheduleNoLock (St svc_memory 0 k' (set_PC 0xBAD (core_example 0))) =
      Ok (tt, St svc_memory 0 k'' c'') /\
    currentOf k'' 0 = 1 /\ PC c'' = 0x5000.
Proof.
  destruct svc_core_ok as (Hc & Hi & Hf & Hx).
  assert (wf_Core (set_PC 0xBAD (core_example 0))) as Hw
    by (apply wf_set_PC; [apply core_example_wf|unfold uint; lia]).
  destruct (svc_yield_repeats svc_memory 0 running_example svc_core running_example_inv
    ltac:(vm_compute; reflexivity) Hi Hc ltac:(vm_compute; reflexivity) Hf Hx
    (set_PC 0xBAD (core_example 0)) ltac:(vm_compute; reflexivity) ltac:(vm_compute; reflexivity)
    Hw eq_refl) as (k' & c' & k'' & c'' & E & Ha & _ & E' & Hcur & _ & (_ & _ & Hpc & _)).
  exists k', c', k'', c''. split; [exact E|]. split; [exact Ha|]. split; [exact E'|].
  split; [exact Hcur|exact Hpc].
Defined.

(** The running thread has just gone to sleep. *)
Definition asleep_example : KState := modT 1 wait running_example.

Lemma asleep_example_inv : sched_inv asleep_example.
Proof.
  destruct (threadOf running_example 1) as [[a t]|] eqn:Ht; [|by vm_compute in Ht].
  apply (set_status_inv running_example running_example_inv 1 a t); try done.
  all: vm_compute in Ht; injection Ht as <- <-; done.
Qed.

Lemma idle_core_replays_witness :
  exists k' c',
    resumeBody (St svc_memory 0 asleep_example (set_interrupts 1 svc_core)) =
      ((stepCore ;; checkBreakpoints) : K MemState unit) (St svc_memory 0 k' c') /\
    currentOf k' 0 = INVALID_THREAD /\ PC c' = 0x5000 /\
    exists x, contextOf k' 1 = Some x /\ Context.PC x = 0x5000.
Proof.
  destruct svc_core_ok as (Hc & Hi & _).
  assert (wf_Core (set_interrupts 1 svc_core)) as Hc1 by (apply wf_set_interrupts; [exact Hc|unfold uint; lia]).
  destruct (idle_core_replays svc_memory 0 asleep_example (set_interrupts 1 svc_core) asleep_example_inv
    ltac:(vm_compute; reflexivity) Hi Hc1 ltac:(vm_compute; discriminate)
    ltac:(vm_compute; discriminate) ltac:(vm_compute; reflexivity) eq_refl)
    as (k' & c' & E & Hcur & _ & Hs & Hx & _).
  exists k', c'. split; [exact E|]. split; [exact Hcur|]. destruct Hs as (_ & _ & Hpc & _).
  split; [exact Hpc|]. exists (saveState c'). split; [exact Hx|exact Hpc].
Defined.

(** The interrupts of a core but for the debugger's and the reset. *)
Definition otherInterrupts (v : Z) : Z :=
  Z.ldiff v (Z.lor DEBUG_BREAK_INTERRUPT RESET_INTERRUPT).

Lemma otherInterrupts_lor a v :
  otherInterrupts (Z.lor a v) = Z.lor (otherInterrupts a) (otherInterrupts v).
Proof.
  apply Z.bits_inj. intros n. unfold otherInterrupts.
  rewrite Z.lor_spec, !Z.ldiff_spec, (Z.lor_spec a). apply andb_orb_distrib_l.
Qed.

Lemma otherInterrupts_add c v : otherInterrupts v = 0 ->
  otherInterrupts (interrupts (sendInterrupts v c)) = otherInterrupts (interrupts c).
Proof.
  intros Hv. change (interrupts (sendInterrupts v c)) with (Z.lor (interrupts c) v).
  rewrite otherInterrupts_lor, Hv. apply Z.lor_0_r.
Qed.

(** Those pending on core [j]. *)
Definition genericAt {Mem} (s : Machine (Mem * KState)) (j : Z) : Z :=
  otherInterrupts (pendingOf (kernel s) (s.(core)) j).

Class Keeps {Mem A} (P : K Mem A) : Prop :=
  keeps : forall s a s', P s = Ok (a, s') ->
    coreNum (s'.(core)) = coreNum (s.(core)) /\
    coreNum <$> gCores (cpus (kernel s')) = coreNum <$> gCores (cpus (kernel s)) /\
    forall j, 1 <= j <= 3 -> genericAt s' j = genericAt s j.

Create HintDb keeps.

Section Rules.
Context {Mem : Type}.

Lemma keeps_ret {A} (a : A) : Keeps (mret a : K Mem A).
Proof. by intros s b s' [= <- <-]. Qed.

Lemma keeps_bind {A B} (P : K Mem A) (Q : A -> K Mem B) :
  Keeps P -> (forall a, Keeps (Q a)) -> Keeps (P ≫= Q).
Proof.
  intros HP HQ s b s' E. unfold mbind, K_bind, M_bind in E.
  destruct (P s) as [[a s1]|] eqn:E1; [|done].
  destruct (HP s a s1 E1) as (C1 & N1 & G1), (HQ a s1 b s' E) as (C2 & N2 & G2).
  split; [congruence|]. split; [congruence|]. intros j Hj. by rewrite G2, G1.
Qed.

Lemma keeps_fail {A} e : Keeps (fail e : K Mem A).
Proof. done. Qed.

Lemma keeps_getK : Keeps (getK : K Mem KState).
Proof. by intros s a s' [= <- <-]. Qed.
Lemma keeps_getCore : Keeps (getCore : K Mem Core).
Proof. by intros s a s' [= <- <-]. Qed.

Lemma keeps_modK f : (forall k, cpus (f k) = cpus k) -> Keeps (modK f : K Mem unit).
Proof.
  intros Hf s a s' [= <- <-]. split; [done|]. split; [cbn; by rewrite Hf|]. intros j _.
  unfold genericAt, pendingOf. cbn. by rewrite Hf.
Qed.

Lemma keeps_liftK {A} (f : KState -> A * KState) :
  (forall k, cpus (snd (f k)) = cpus k) -> Keeps (liftK f : K Mem A).
Proof.
  intros Hf s a s' E. unfold liftK in E. specialize (Hf (kernel s)).
  destruct (f (kernel s)) as [b k]. injection E as <- <-. split; [done|].
  split; [cbn in *; by rewrite Hf|]. intros j _.
  unfold genericAt, pendingOf. cbn in *. by rewrite Hf.
Qed.

Lemma keeps_liftR {A} (f : KState -> result (A * KState)) :
  (forall k a k', f k = Ok (a, k') -> cpus k' = cpus k) -> Keeps (liftR f : K Mem A).
Proof.
  intros Hf s a s' E. unfold liftR in E. specialize (Hf (kernel s)).
  destruct (f (kernel s)) as [[b k]|]; [|done]. injection E as <- <-.
  specialize (Hf b k eq_refl). split; [done|]. split; [cbn in *; by rewrite Hf|]. intros j _.
  unfold genericAt, pendingOf. cbn in *. by rewrite Hf.
Qed.

Lemma keeps_onCore f :
  (forall c, coreNum (f c) = coreNum c /\ otherInterrupts (interrupts (f c)) = otherInterrupts (interrupts c)) ->
  Keeps (onCore f : K Mem unit).
Proof.
  intros Hf s a s' [= <- <-]. destruct (Hf (s.(core))) as [H1 H2]. split; [done|].
  split; [done|]. intros j _. unfold genericAt, pendingOf. cbn. rewrite H1. by destruct (j =? _).
Qed.

Lemma keeps_at_index {A} i (l : list A) : Keeps (at_index i l : K Mem A).
Proof. unfold at_index. destruct (if i <? 0 then _ else _); [apply keeps_ret|apply keeps_fail]. Qed.

(** Any interrupt to core 0, and any other than the generic one to any core. *)
Lemma keeps_sendInterruptsTo i v : i = 0 \/ otherInterrupts v = 0 ->
  Keeps (sendInterruptsTo i v : K Mem unit).
Proof.
  intros Hiv s a s' E. unfold sendInterruptsTo in E. destruct (Z.eqb_spec i (coreNum (s.(core)))) as [Ei|Ei].
  - injection E as <- <-. split; [done|]. split; [done|].
    intros j Hj. unfold genericAt, pendingOf. cbn.
    destruct (Z.eqb_spec j (coreNum (s.(core)))) as [Ej|]; [|done].
    destruct Hiv as [Hv|Hv]; [lia|by apply otherInterrupts_add].
  - unfold at_index, mbind, K_bind, M_bind in E.
    destruct (Z.ltb_spec i 0) as [|Hi]; [done|].
    destruct (gCores (cpus (kernel s)) !! Z.to_nat i) as [c|] eqn:Ec; [|done].
    injection E as <- <-. split; [done|]. split.
    { cbn. rewrite list_fmap_insert. apply list_insert_id.
      by rewrite list_lookup_fmap, Ec. }
    intros j Hj. unfold genericAt, pendingOf. cbn.
    destruct (Z.eqb_spec j (coreNum (s.(core)))) as [Ej|Ej]; [done|].
    destruct (Z.eq_dec j i) as [->|Hne].
    + rewrite list_lookup_insert_eq by (apply lookup_lt_is_Some_1; by eexists).
      rewrite Ec. destruct Hiv as [Hv|Hv]; [lia|by apply otherInterrupts_add].
    + by rewrite list_lookup_insert_ne by lia.
Qed.

Lemma keeps_askMemory {A} (f : Mem * KState -> result A) : Keeps (askMemory f : K Mem A).
Proof. intros s a s' E. unfold askMemory in E. by destruct (f _); simplify_eq. Qed.

Lemma keeps_onMemory {A} (f : Mem * KState -> result (A * (Mem * KState))) :
  (forall m a m', f m = Ok (a, m') -> cpus (snd m') = cpus (snd m)) ->
  Keeps (onMemory f : K Mem A).
Proof.
  intros Hf s a s' E. unfold onMemory in E. specialize (Hf (s.(memory))).
  destruct (f (memory s)) as [[b m]|]; [|done]. injection E as <- <-.
  specialize (Hf b m eq_refl). split; [done|].
  split; [unfold kernel; cbn in *; by rewrite Hf|]. intros j _.
  unfold genericAt, pendingOf, kernel. cbn in *. by rewrite Hf.
Qed.
End Rules.

#[export] Hint Resolve keeps_ret keeps_fail keeps_getK keeps_getCore keeps_at_index keeps_askMemory : keeps.
#[export] Hint Extern 4 (Keeps (modK _)) => apply keeps_modK; intros []; reflexivity : keeps.
#[export] Hint Extern 4 (Keeps (onCore _)) => apply keeps_onCore; intros []; split; reflexivity : keeps.
#[export] Hint Extern 4 (Keeps (sendInterruptsTo _ _)) =>
  apply keeps_sendInterruptsTo; first [left; reflexivity | right; reflexivity] : keeps.

(** Through the binds and the case distinctions of a function, down to what the database
    knows. *)
Ltac keeps :=
  cbv zeta;
  repeat first
    [ solve [auto with keeps nocore]
    | apply keeps_bind; [|intros; cbv zeta]
    | match goal with
      | |- Keeps (match ?x with _ => _ end) => destruct x
      | |- Keeps ((fun _ => _) _) => cbv beta
      end ].

Section Functions.
Context {Mem : Type}.

Lemma keeps_createObjectHandle o : Keeps (createObjectHandle o : K Mem Z).
Proof.
  apply keeps_liftR. intros k a k' E. destruct (newObject o (heap k)) as [p h].
  destruct (createHandle p _ (handles k)) as [handle hs].
  cbv zeta in E. unfold mbind, result_bind in E.
  destruct (dec (default None _) h) as [h1|]; [|done]. destruct (inc (Some p) h1) as [h2|]; [|done].
  by injection E as <- <-.
Qed.

Lemma keeps_lookupObjectK h : Keeps (lookupObjectK h : K Mem ObjectPtr).
Proof. apply keeps_liftK. intros k. by destruct (lookupObject h (handles k)). Qed.

Lemma keeps_closeHandleK h : Keeps (closeHandleK h : K Mem bool).
Proof.
  apply keeps_liftR. intros k a k' E. destruct (closeHandle h (handles k)) as [[b p] hs].
  destruct (dec p (heap k)) as [h1|]; [|done]. by injection E as <- <-.
Qed.

Lemma keeps_object_at p : Keeps (object_at p : K Mem KObject).
Proof. unfold object_at. keeps. Qed.
Hint Resolve keeps_object_at : keeps.
Lemma keeps_thread_at p : Keeps (thread_at p : K Mem Thread).
Proof. unfold thread_at. keeps. Qed.
Lemma keeps_update_object a o : Keeps (update_object a o : K Mem unit).
Proof. unfold update_object. keeps. Qed.
Hint Resolve keeps_thread_at keeps_update_object : keeps.
Lemma keeps_updateThread p f : Keeps (updateThread p f : K Mem unit).
Proof. unfold updateThread. keeps. Qed.
Lemma keeps_getCoreID : Keeps (getCoreID : K Mem Z).
Proof. unfold getCoreID. keeps. Qed.
End Functions.
#[export] Hint Resolve keeps_createObjectHandle keeps_lookupObjectK keeps_closeHandleK keeps_object_at
  keeps_thread_at keeps_update_object keeps_updateThread keeps_getCoreID : keeps.

(** ** The scheduler, the alarms and the clock *)

Section Scheduling.
Context {Mem : Type} `{HostEnv}.

Lemma keeps_modSched f : Keeps (modSched f : K Mem unit).
Proof. unfold modSched. keeps. Qed.
Hint Resolve keeps_modSched : keeps.
Lemma keeps_lockScheduler : Keeps (lockScheduler : K Mem unit).
Proof. unfold lockScheduler. keeps. Qed.
Lemma keeps_unlockScheduler : Keeps (unlockScheduler : K Mem unit).
Proof. unfold unlockScheduler. keeps. Qed.
Lemma keeps_getCurrentHandle : Keeps (getCurrentHandle : K Mem Z).
Proof. unfold getCurrentHandle. keeps. Qed.
Lemma keeps_getThread h : Keeps (getThread h : K Mem ObjectPtr).
Proof. unfold getThread. keeps. Qed.
Hint Resolve keeps_lockScheduler keeps_unlockScheduler keeps_getCurrentHandle keeps_getThread : keeps.
Lemma keeps_getCurrentThread : Keeps (getCurrentThread : K Mem ObjectPtr).
Proof. unfold getCurrentThread. keeps. Qed.
Lemma keeps_pushThreadList i h : Keeps (pushThreadList i h : K Mem unit).
Proof. unfold pushThreadList. keeps. Qed.
Hint Resolve keeps_getCurrentThread keeps_pushThreadList : keeps.
Lemma keeps_startThread h : Keeps (startThread h : K Mem unit).
Proof. unfold startThread. keeps. Qed.
Lemma keeps_createThread e a st p cs : Keeps (createThread e a st p cs : K Mem Z).
Proof. unfold createThread. keeps. Qed.
Lemma keeps_queueThreadNoLock h : Keeps (queueThreadNoLock h : K Mem unit).
Proof. unfold queueThreadNoLock. keeps. Qed.
Hint Resolve keeps_queueThreadNoLock : keeps.
Lemma keeps_popBestLoop l : forall i b bp, Keeps (popBestLoop l i b bp : K Mem (option nat)).
Proof. induction l as [|h l IH]; intros i b bp; cbn [popBestLoop]; keeps. Qed.
Hint Resolve keeps_popBestLoop : keeps.
Lemma keeps_popBest i p : Keeps (popBest i p : K Mem Z).
Proof. unfold popBest. keeps. Qed.
Lemma keeps_contextSwitch p : Keeps (contextSwitch p : K Mem unit).
Proof. unfold contextSwitch. keeps. Qed.
Lemma keeps_requeueRunning p h : Keeps (requeueRunning p h : K Mem unit).
Proof. unfold requeueRunning. keeps. Qed.
Hint Resolve keeps_popBest keeps_contextSwitch keeps_requeueRunning : keeps.
Lemma keeps_rescheduleNoLock : Keeps (rescheduleNoLock : K Mem unit).
Proof. unfold rescheduleNoLock. keeps. Qed.
Hint Resolve keeps_rescheduleNoLock : keeps.
Lemma keeps_yieldThread : Keeps (yieldThread : K Mem unit).
Proof. unfold yieldThread. keeps. Qed.
Lemma keeps_exitThread : Keeps (exitThread : K Mem unit).
Proof. unfold exitThread. keeps. Qed.
Lemma keeps_queueAll l : Keeps (queueAll l : K Mem unit).
Proof. induction l as [|h l IH]; cbn [queueAll]; keeps. Qed.
Hint Resolve keeps_queueAll : keeps.
Lemma keeps_Thread_sync p h : Keeps (Thread_sync p h : K Mem unit).
Proof. unfold Thread_sync. keeps. Qed.

Lemma keeps_alarm_at i : Keeps (alarm_at i : K Mem Alarm).
Proof. unfold alarm_at. keeps. Qed.
Lemma keeps_setAlarm i a : Keeps (setAlarm i a : K Mem unit).
Proof. unfold setAlarm. keeps. Qed.
Hint Resolve keeps_alarm_at keeps_setAlarm : keeps.
Lemma keeps_Alarm_update i now : Keeps (Alarm_update i now : K Mem bool).
Proof. unfold Alarm_update. keeps. Qed.
Lemma keeps_Alarm_wait i h : Keeps (Alarm_wait i h : K Mem unit).
Proof. unfold Alarm_wait. keeps. Qed.
Lemma keeps_destroyAlarms l : Keeps (destroyAlarms l : K Mem unit).
Proof. induction l as [|a l IH]; cbn [destroyAlarms]; unfold destroyAlarm; keeps. Qed.
Hint Resolve keeps_Alarm_update keeps_Alarm_wait keeps_destroyAlarms : keeps.
Lemma keeps_createAlarm time : Keeps (createAlarm time : K Mem nat).
Proof. unfold createAlarm. keeps. Qed.
Lemma keeps_getTime : Keeps (getTimeInNanoseconds : K Mem Z).
Proof. by apply keeps_liftK. Qed.
Hint Resolve keeps_createAlarm keeps_getTime : keeps.
Lemma keeps_updateLoop now l : Keeps (updateLoop now l : K Mem unit).
Proof. induction l as [|i l IH]; cbn [updateLoop]; keeps. Qed.
Hint Resolve keeps_updateLoop : keeps.
Lemma keeps_updateAlarms : Keeps (updateAlarms : K Mem bool).
Proof. unfold updateAlarms. keeps. Qed.
Lemma keeps_sleepThread nano : Keeps (sleepThread nano : K Mem unit).
Proof. unfold sleepThread. keeps. Qed.
Hint Resolve keeps_updateAlarms : keeps.
Lemma keeps_callbackLoop l : Keeps (callbackLoop l : K Mem (list ClockCallbackFunc)).
Proof. induction l as [|[] l IH]; cbn [callbackLoop runCallback]; keeps. Qed.
Hint Resolve keeps_callbackLoop : keeps.
Lemma keeps_clockRound : Keeps (clockRound : K Mem unit).
Proof. unfold clockRound. keeps. Qed.
End Scheduling.
#[export] Hint Resolve keeps_modSched keeps_lockScheduler keeps_unlockScheduler keeps_getCurrentHandle
  keeps_getThread keeps_getCurrentThread keeps_startThread keeps_createThread keeps_rescheduleNoLock
  keeps_yieldThread keeps_exitThread keeps_Thread_sync keeps_sleepThread keeps_clockRound : keeps.

(** ** Messages and supervisor calls *)

Class KeepsServices (Mem : Type) `{Services Mem} : Prop :=
  keeps_services : forall i f p info reply,
    f ∈ mFunctions i -> functionPtr f = Some p -> Keeps (p info reply).

Section Calls.
Context {Mem : Type} `{GuestMemory Mem} `{PageAdmin Mem} `{HostMemory Mem} `{Services Mem} `{HostEnv}.

Lemma keeps_breakpointTest addr : Keeps (breakpointTest addr : K Mem unit).
Proof.
  intros s a s' E. unfold breakpointTest in E. destruct (mbreakpoint addr _).
  - apply (keeps_onCore (Mem := Mem) (sendInterrupts DEBUG_BREAK_INTERRUPT)) with (a := a); [|done].
    intros c. split; [done|]. by apply otherInterrupts_add.
  - by injection E as <- <-.
Qed.

Lemma keeps_mem_read n addr : Keeps (mem_read n addr : K Mem Z).
Proof. apply keeps_bind; [apply keeps_breakpointTest|intros; apply keeps_askMemory]. Qed.

Lemma keeps_mem_write n addr v : Keeps (mem_write n addr v : K Mem unit).
Proof.
  apply keeps_bind; [apply keeps_breakpointTest|intros _]. apply keeps_onMemory.
  intros m a m' E. unfold mwrite, Kernel_GuestMemory, mbind, result_bind in E.
  destruct (mwrite n addr v (fst m)); [|done]. by injection E as <- <-.
Qed.
Hint Resolve keeps_mem_read keeps_mem_write : keeps.

Hint Extern 3 (Keeps (read8 _)) => unfold read8 : keeps.
Hint Extern 3 (Keeps (read16 _)) => unfold read16 : keeps.
Hint Extern 3 (Keeps (read32 _)) => unfold read32 : keeps.
Hint Extern 3 (Keeps (read64 _)) => unfold read64 : keeps.
Hint Extern 3 (Keeps (write8 _ _)) => unfold write8 : keeps.
Hint Extern 3 (Keeps (write32 _ _)) => unfold write32 : keeps.
Hint Extern 3 (Keeps (write64 _ _)) => unfold write64 : keeps.

Lemma keeps_readItems {A} n w (item : Z -> K Mem A) o :
  (forall o, Keeps (item o)) -> Keeps (readItems n w item o).
Proof. intros Hi. revert o. induction n as [|n IH]; intros o; cbn [readItems]; keeps. Qed.
Hint Resolve keeps_readItems : keeps.

Lemma keeps_copiedHandleAt b o : Keeps (copiedHandleAt b o : K Mem Z).
Proof. unfold copiedHandleAt. keeps. Qed.
Lemma keeps_pointerAt b o : Keeps (pointerAt b o : K Mem PointerDescriptor).
Proof. unfold pointerAt. keeps. Qed.
Lemma keeps_regularAt b o : Keeps (regularAt b o : K Mem RegularDescriptor).
Proof. unfold regularAt. keeps. Qed.
Lemma keeps_receiveList n : forall i s d, Keeps (receiveList n i s d : K Mem _).
Proof. induction n as [|n IH]; intros i s d; cbn [receiveList]; keeps. Qed.
Hint Resolve keeps_copiedHandleAt keeps_pointerAt keeps_regularAt keeps_receiveList : keeps.
Lemma keeps_readReceiveList f s w : Keeps (readReceiveList f s w : K Mem _).
Proof. unfold readReceiveList. keeps. Qed.
Lemma keeps_readBytes n : forall a, Keeps (readBytes n a : K Mem (list Z)).
Proof. induction n as [|n IH]; intros a; cbn [readBytes]; keeps. Qed.
Hint Resolve keeps_readReceiveList keeps_readBytes : keeps.
Lemma keeps_readHeader b : Keeps (readHeader b : K Mem _).
Proof. unfold readHeader. keeps. Qed.
Lemma keeps_readBody d t w o info : Keeps (readBody d t w o info : K Mem IpcInfo).
Proof. unfold readBody. keeps. Qed.
Lemma keeps_writeBytes l : forall a, Keeps (writeBytes l a : K Mem unit).
Proof. induction l as [|b l IH]; intros a; cbn [writeBytes]; keeps. Qed.
Lemma keeps_writeWords l : forall a, Keeps (writeWords l a : K Mem unit).
Proof. induction l as [|b l IH]; intros a; cbn [writeWords]; keeps. Qed.
Hint Resolve keeps_readHeader keeps_readBody keeps_writeBytes keeps_writeWords : keeps.
Lemma keeps_construct r : Keeps (construct r : K Mem unit).
Proof. unfold construct. keeps. Qed.
Lemma keeps_interface_at p : Keeps (interface_at p : K Mem (Z * bool)).
Proof. unfold interface_at. keeps. Qed.
Lemma keeps_connect i : Keeps (connect i : K Mem Z).
Proof. unfold connect. keeps. Qed.
Hint Resolve keeps_construct keeps_interface_at keeps_connect : keeps.

Context `{!KeepsServices Mem}.

Lemma findFunction_elem cmd l p : findFunction cmd l = Some p ->
  exists f : FunctionEntry Mem, f ∈ l /\ functionPtr f = Some p.
Proof.
  induction l as [|f l IH]; cbn; [done|]. intros E.
  assert (findFunction cmd l = Some p -> exists f' : FunctionEntry Mem, f' ∈ f :: l /\ functionPtr f' = Some p) as Hl.
  { intros E'. destruct (IH E') as (f' & ? & ?). exists f'. split; [by apply list_elem_of_further|done]. }
  destruct (functionPtr f) as [q|] eqn:Eq; [|by apply Hl].
  destruct (functionId f =? cmd); [|by apply Hl]. injection E as ->.
  exists f. split; [apply list_elem_of_here|done].
Qed.

Lemma keeps_handleSyncRequest i info : Keeps (handleSyncRequest i info : K Mem unit).
Proof.
  unfold handleSyncRequest. destruct (i =? 0); [keeps|].
  destruct (findFunction (cmdId info) (mFunctions i)) as [p|] eqn:E; [|keeps].
  destruct (findFunction_elem _ _ _ E) as (f & Hf & Hp).
  pose proof (keeps_services i f p info (newCons true 0 info) Hf Hp). keeps.
Qed.
Hint Resolve keeps_handleSyncRequest : keeps.
Lemma keeps_controlMessage h info : Keeps (controlMessage h info : K Mem unit).
Proof. unfold controlMessage. keeps. Qed.
Lemma keeps_forwardRequest h info : Keeps (forwardRequest h info : K Mem unit).
Proof. unfold forwardRequest. keeps. Qed.
Hint Resolve keeps_controlMessage keeps_forwardRequest : keeps.
Lemma keeps_doIpcCall h b n : Keeps (doIpcCall h b n : K Mem Z).
Proof. unfold doIpcCall. keeps. Qed.
Hint Resolve keeps_doIpcCall : keeps.

Lemma keeps_getGPR r : Keeps (getGPR r : K Mem Z).
Proof. unfold getGPR. keeps. Qed.
Lemma keeps_setGPR r v : Keeps (setGPR r v : K Mem unit).
Proof. unfold setGPR. keeps. Qed.
Lemma keeps_askHost {A} (f : Mem -> result A) : Keeps (askHost f : K Mem A).
Proof. unfold askHost. keeps. Qed.
Lemma keeps_addMappingK b n t q : Keeps (addMappingK b n t q : K Mem unit).
Proof.
  intros s a s' E. unfold addMappingK in E. destruct (addMapping b n t q _) as [[l m]|]; [|done].
  by injection E as <- <-.
Qed.
Hint Resolve keeps_getGPR keeps_setGPR keeps_askHost keeps_addMappingK : keeps.
Lemma keeps_copyBytes n : forall d s, Keeps (copyBytes n d s : K Mem unit).
Proof. induction n as [|n IH]; intros d s; cbn [copyBytes]; keeps. Qed.
Lemma keeps_syncObject p h : Keeps (syncObject p h : K Mem unit).
Proof. unfold syncObject. keeps. Qed.
Hint Resolve keeps_copyBytes keeps_syncObject : keeps.
Lemma keeps_syncHandles l h : Keeps (syncHandles l h : K Mem unit).
Proof. induction l as [|x l IH]; cbn [syncHandles]; keeps. Qed.
Lemma keeps_newTransferMemory b n q : Keeps (newTransferMemory b n q : K Mem KObject).
Proof. unfold newTransferMemory. keeps. Qed.
Lemma keeps_halt : Keeps (halt : K Mem unit).
Proof. unfold halt. keeps. Qed.
Hint Resolve keeps_syncHandles keeps_newTransferMemory keeps_halt : keeps.

Lemma keeps_svcFunctionTable id f : svcFunctionTable id = Some f -> Keeps (f : K Mem unit).
Proof.
  unfold svcFunctionTable. intros E.
  repeat match type of E with
  | context [match ?x with _ => _ end] => is_var x; destruct x; try discriminate E
  end; injection E as <-;
  unfold svcSetHeapSize, svcSetMemoryAttribute, svcMapMemory, svcQueryMemory, svcExitProcess,
    svcCreateThread, svcStartThread, svcExitThread, svcSleepThread, svcGetThreadPriority,
    svcSetThreadPriority, svcSetThreadCoreMask, svcGetCurrentProcessorNumber, svcMapSharedMemory,
    svcCreateTransferMemory, svcCloseHandle, svcResetSignal, svcWaitSynchronization,
    svcSignalProcessWideKey, svcConnectToPort, svcSendSyncRequest, svcSendSyncRequestWithUserBuffer,
    svcGetThreadId, svcBreak, svcOutputDebugString, svcGetInfo; keeps.
Qed.

Lemma keeps_callSVC id : Keeps (callSVC id : K Mem unit).
Proof.
  unfold callSVC. destruct (_ && _); [|keeps].
  destruct (svcFunctionTable id) as [f|] eqn:E; [by apply (keeps_svcFunctionTable id)|keeps].
Qed.
End Calls.

(** ** The system *)

Section System.
Context {Mem : Type} `{GuestMemory Mem} `{PageAdmin Mem} `{HostMemory Mem} `{Services Mem}.
Context `{HostEnv} `{FrontEnd Mem} `{ShiftTarget} `{HostFloat}.
Context `{!KeepsServices Mem} (Hdebug : Keeps (debugBreakHandler : K Mem unit)).

Lemma keeps_interruptHandler v : Keeps (interruptHandler v : K Mem unit).
Proof using Hdebug. unfold interruptHandler, rescheduleLocked. keeps. Qed.

Lemma keeps_startMainThread : Keeps (startMainThread : K Mem unit).
Proof. unfold startMainThread. keeps. Qed.

(** What runs on a core or on the clock thread. *)
Inductive kernel_op : Type :=
  | CallSVC (id : Z)
  | IllegalInstruction
  | Interrupt (interrupts : Z)
  | StartMainThread
  | ClockRound.

Definition exec_kernel (op : kernel_op) : K Mem unit :=
  match op with
  | CallSVC id => callSVC id
  | IllegalInstruction => illInstHandler
  | Interrupt v => interruptHandler v
  | StartMainThread => startMainThread
  | ClockRound => clockRound
  end.

Lemma keeps_exec_kernel op : Keeps (exec_kernel op).
Proof using Hdebug KeepsServices0.
  destruct op; cbn [exec_kernel]; unfold illInstHandler;
    auto using keeps_callSVC, keeps_interruptHandler, keeps_startMainThread with keeps.
  keeps.
Qed.

(** Another core goes on: the running core is stored, and core [j] loaded. *)
Definition switchCore (j : Z) (s : Machine (Mem * KState)) : Machine (Mem * KState) :=
  let cs := <[Z.to_nat (coreNum (s.(core))) := s.(core)]> (gCores (cpus (kernel s))) in
  match cs !! Z.to_nat j with
  | Some c => set_core c (set_kernel (set_cpus (set_gCores cs (cpus (kernel s))) (kernel s)) s)
  | None => s
  end.

(** The cores are four, and each knows its number. *)
Definition cores_ok (s : Machine (Mem * KState)) : Prop :=
  core_id (coreNum (s.(core))) /\ coreNum <$> gCores (cpus (kernel s)) = [0; 1; 2; 3].

(** The cores and the clock thread in any order; between them a core runs guest code,
    which changes its registers, takes its interrupts and may raise the debugger's, and
    changes the guest's memory. *)
Inductive system_run (s0 : Machine (Mem * KState)) : Machine (Mem * KState) -> Prop :=
  | run_start : system_run s0 s0
  | run_kernel s op s' :
      system_run s0 s -> exec_kernel op s = Ok (tt, s') -> system_run s0 s'
  | run_switch s j :
      system_run s0 s -> core_id j -> system_run s0 (switchCore j s)
  | run_guest s c m t :
      system_run s0 s -> coreNum c = coreNum (s.(core)) ->
      (otherInterrupts (interrupts c) = otherInterrupts (interrupts (s.(core))) \/
       otherInterrupts (interrupts c) = 0) ->
      system_run s0 (mkMachine c (m, kernel s) t).

Lemma cores_numbers (cs : list Core) : coreNum <$> cs = [0; 1; 2; 3] ->
  length cs = 4%nat /\ forall j c, cs !! j = Some c -> coreNum c = Z.of_nat j.
Proof.
  intros E. split; [by rewrite <-(length_fmap coreNum cs), E|]. intros j c Hc.
  assert ((coreNum <$> cs) !! j = Some (coreNum c)) as Hm by (rewrite list_lookup_fmap, Hc; done).
  rewrite E in Hm. destruct j as [|[|[|[|j]]]]; cbn in Hm; simplify_eq/=; lia.
Qed.

Lemma switchCore_ok j s : cores_ok s -> core_id j ->
  cores_ok (switchCore j s) /\ coreNum ((switchCore j s).(core)) = j /\
  forall j', core_id j' -> genericAt (switchCore j s) j' = genericAt s j'.
Proof.
  intros [Hi Hn] Hj. destruct (cores_numbers _ Hn) as [Hl Hnum].
  unfold switchCore. set (i := coreNum (s.(core))) in *.
  set (cs := <[Z.to_nat i := s.(core)]> (gCores (cpus (kernel s)))).
  assert (coreNum <$> cs = [0; 1; 2; 3]) as Hmc.
  { unfold cs. rewrite list_fmap_insert, Hn. fold i.
    apply list_insert_id. clear -Hi. unfold core_id in Hi.
    assert (i = 0 \/ i = 1 \/ i = 2 \/ i = 3) as [->|[->|[->| ->]]] by lia; done. }
  destruct (cores_numbers _ Hmc) as [Hlc Hnc].
  destruct (lookup_lt_is_Some_2 cs (Z.to_nat j)) as [c Ec]; [unfold core_id in Hj; lia|]. rewrite Ec.
  assert (coreNum c = j) as Ecn by (rewrite (Hnc _ _ Ec); unfold core_id in Hj; lia).
  split; [by split; cbn; [rewrite Ecn|]|]. split; [done|].
  intros j' Hj'. unfold genericAt, pendingOf. f_equal. cbn [core set_core kernel memory snd].
  rewrite Ecn. fold i. destruct (Z.eqb_spec j' j) as [->|Hne].
  - unfold cs in Ec. destruct (Z.eqb_spec j i) as [->|Hji].
    + rewrite list_lookup_insert_eq in Ec by (unfold core_id in Hi; lia). by injection Ec as <-.
    + rewrite list_lookup_insert_ne in Ec by (unfold core_id in *; lia). by rewrite Ec.
  - cbn. unfold cs. destruct (Z.eqb_spec j' i) as [->|Hji].
    + by rewrite list_lookup_insert_eq by (unfold core_id in Hi; lia).
    + by rewrite list_lookup_insert_ne by (unfold core_id in *; lia).
Qed.

Lemma system_run_quiet s0 s : cores_ok s0 -> (forall j, 1 <= j <= 3 -> genericAt s0 j = 0) ->
  system_run s0 s -> cores_ok s /\ forall j, 1 <= j <= 3 -> genericAt s j = 0.
Proof using Hdebug KeepsServices0.
  intros Hc0 Hq0. induction 1 as [|s op s' _ [Hc Hq] E|s j _ [Hc Hq] Hj|s c m t _ [Hc Hq] Hn Hint];
    [done| | |].
  - destruct (keeps_exec_kernel op s tt s' E) as (En & Em & G), Hc as [Hc1 Hc2].
    split; [split; congruence|]. intros j Hj. rewrite G by done. by apply Hq.
  - destruct (switchCore_ok j s Hc Hj) as (Hs1 & _ & Hs3). split; [done|].
    intros j' Hj'. rewrite Hs3 by (unfold core_id; lia). by apply Hq.
  - destruct Hc as (Hc1 & Hc2). split; [by split; [cbn; rewrite Hn|]|].
    intros j Hj. specialize (Hq j Hj). unfold genericAt, pendingOf in *. cbn. rewrite Hn.
    destruct (j =? coreNum (s.(core))); [|done]. destruct Hint as [->|]; done.
Qed.

End System.

(** ** The theorem at an example: the main thread was started, and core 1 waits *)

#[local] Instance starve_host : HostEnv := host_example.
#[local] Instance starve_services : Services MemState := {
  mFunctions i := if i =? 1 then sm_functions else [];
}.
#[local] Instance starve_frontend : FrontEnd MemState := {
  debugBreakHandler := mret tt;
  jitStep := mret tt;
}.

(** The service manager is such a service. *)
Lemma sm_keeps f p info reply :
  f ∈ (sm_functions : list (FunctionEntry MemState)) -> functionPtr f = Some p -> Keeps (p info reply).
Proof.
  assert (forall n, Keeps (needArgs n info : K MemState (list Z))) as Hargs
    by (intros n; unfold needArgs; keeps).
  unfold sm_functions. rewrite !elem_of_cons, elem_of_nil.
  intros [->|[->|[->|[->|[]]]]] [= <-];
    unfold Initialize, GetService, RegisterService, UnregisterService, serviceAt, connect; keeps.
Qed.

#[local] Instance starve_keeps : KeepsServices MemState.
Proof.
  intros i f p info reply. unfold mFunctions, starve_services.
  destruct (i =? 1); [apply sm_keeps|by intros ?%not_elem_of_nil].
Qed.

Lemma starve_debug : Keeps (debugBreakHandler : K MemState unit).
Proof. by intros s a s' [= <- <-]. Qed.

Definition start_example : Machine (MemState * KState) :=
  mkMachine (core_example 0) (mem_static, kernel_static (core_example <$> [0; 1; 2; 3])) 0.

