(* ===== verification/DebugPause.v ===== *)
(** * The pause barrier of the debugger: [debug/debug.cpp]

    A core that meets a breakpoint stops all cores; the user interface lets them go on.
    [debugBreakHandler] is given point by point, one step of one core between two
    accesses to what the cores and the interface share; the mutex, the condition
    variable with its spurious wake-ups, and the order of the steps are explicit. *)
From S2P Require Import Prelude BitUtils Core Machine.

(** ** The state *)

(** Where a core is in [debugBreakHandler]. *)
Inductive location : Set :=
  | Outside                             (* not in the handler *)
  | Entering                            (* about to lock [gDebugBreakMutex] *)
  | Pausing                             (* locked; up to the first loop *)
  | TestPaused                          (* at the test of the first loop, locked *)
  | WaitPaused                          (* in its [wait] *)
  | WakePaused                          (* woken, to lock again *)
  | Resuming                            (* between the loops, locked *)
  | TestResumed                         (* at the test of the second loop, locked *)
  | WaitResumed
  | WakeResumed
  | Leaving.                            (* before the destructor of [lock] *)
#[export] Instance location_eq_dec : EqDecision location.
Proof. solve_decision. Defined.

Record PauseState := mkPause {
  gPausingCores : Z;
  gResumingCores : Z;
  gIsPaused : bool;
  gBreakInitiator : Z;
  gSingleStepping : bool;
  singleStepMode : bool;                (* [gSingleStepMode] of [cpu.cpp] *)
  gDebugBreakMutex : option nat;        (* the core that holds it *)
  breakPending : list bool;             (* [DEBUG_BREAK_INTERRUPT] of each core *)
  locations : list location;
  notifying : bool;                     (* the interface is before its [notify_all] *)
}.

Definition ALL_CORES : Z := 0xF.
Definition NO_CORES : Z := 0.

(** The globals at the start, with every core outside. *)
Definition pause_static : PauseState :=
  mkPause 0 0 false 0 false false None (replicate 4 false) (replicate 4 Outside) false.

Definition set_mutex v s := mkPause (gPausingCores s) (gResumingCores s) (gIsPaused s)
  (gBreakInitiator s) (gSingleStepping s) (singleStepMode s) v (breakPending s) (locations s) (notifying s).
Definition set_locations v s := mkPause (gPausingCores s) (gResumingCores s) (gIsPaused s)
  (gBreakInitiator s) (gSingleStepping s) (singleStepMode s) (gDebugBreakMutex s) (breakPending s) v
  (notifying s).
Definition set_breakPending v s := mkPause (gPausingCores s) (gResumingCores s) (gIsPaused s)
  (gBreakInitiator s) (gSingleStepping s) (singleStepMode s) (gDebugBreakMutex s) v (locations s)
  (notifying s).

Definition locationOf (s : PauseState) (i : nat) : location := nth i (locations s) Outside.
Definition goto (i : nat) (l : location) (s : PauseState) : PauseState :=
  set_locations (<[i := l]> (locations s)) s.

Definition coreBit (i : nat) : Z := Z.shiftl 1 (Z.of_nat i).

(** [notify_all]: every waiting core is woken; it goes on when it has the mutex. *)
Definition wake (l : location) : location :=
  match l with WaitPaused => WakePaused | WaitResumed => WakeResumed | _ => l end.
Definition notify_all (s : PauseState) : PauseState := set_locations (map wake (locations s)) s.

(** ** The handler *)

(** From the lock to the first loop. *)
Definition pausing (i : nat) (s : PauseState) : PauseState :=
  let alreadyPausing := gPausingCores s in
  let now := Z.lor alreadyPausing (coreBit i) in
  let initiates := alreadyPausing =? NO_CORES in
  let everyone := now =? ALL_CORES in
  mkPause (if everyone then 0 else now)
    (if initiates then 0 else gResumingCores s)
    (if everyone then true else gIsPaused s)
    (if initiates then Z.of_nat i else gBreakInitiator s)
    false
    (if everyone then false else singleStepMode s)
    (gDebugBreakMutex s)
    (if initiates then imap (fun j b => if Nat.eqb j i then b else true) (breakPending s)
     else breakPending s)
    (locations s) (notifying s).

(** Between the loops: the interrupt is cleared, and the last core to resume wakes the
    others. *)
Definition resuming (i : nat) (s : PauseState) : PauseState :=
  let now := Z.lor (gResumingCores s) (coreBit i) in
  let s := mkPause (gPausingCores s) now (gIsPaused s) (gBreakInitiator s) (gSingleStepping s)
    (singleStepMode s) (gDebugBreakMutex s) (<[i := false]> (breakPending s)) (locations s) (notifying s) in
  if now =? ALL_CORES then goto i Leaving (notify_all s) else goto i TestResumed s.

Definition isFree (s : PauseState) : bool :=
  match gDebugBreakMutex s with None => true | Some _ => false end.

(** One step of core [i] in the handler; a core that waits, or wants a mutex that is
    taken, has none. *)
Definition coreStep (i : nat) (s : PauseState) : option PauseState :=
  match locationOf s i with
  | Outside => None
  | Entering => if isFree s then Some (goto i Pausing (set_mutex (Some i) s)) else None
  | Pausing => Some (goto i TestPaused (pausing i s))
  | TestPaused =>
      if gIsPaused s then Some (goto i WaitPaused (set_mutex None s)) else Some (goto i Resuming s)
  | WaitPaused => None
  | WakePaused => if isFree s then Some (goto i TestPaused (set_mutex (Some i) s)) else None
  | Resuming => Some (resuming i s)
  | TestResumed =>
      if Z.lor (gResumingCores s) (coreBit i) =? ALL_CORES then Some (goto i Leaving s)
      else Some (goto i WaitResumed (set_mutex None s))
  | WaitResumed => None
  | WakeResumed => if isFree s then Some (goto i TestResumed (set_mutex (Some i) s)) else None
  | Leaving => Some (goto i Outside (set_mutex None s))
  end.

(** [resumeFromDebugBreak], in two steps: the exchange, and [notify_all]. *)
Definition resumeExchange (singleStep : bool) (s : PauseState) : PauseState :=
  mkPause (gPausingCores s) (gResumingCores s) false (gBreakInitiator s)
    (if singleStep then true else gSingleStepping s) (singleStepMode s) (gDebugBreakMutex s)
    (breakPending s) (locations s) (gIsPaused s).
Definition resumeNotify (s : PauseState) : PauseState :=
  let s' := notify_all s in
  mkPause (gPausingCores s') (gResumingCores s') (gIsPaused s') (gBreakInitiator s') (gSingleStepping s')
    (singleStepMode s') (gDebugBreakMutex s') (breakPending s') (locations s') false.

(** ** Runs *)

Inductive event : Set :=
  | Break (i : nat)                     (* core [i] enters the handler *)
  | Step (i : nat)
  | Spurious (i : nat)                  (* the [wait] of core [i] returns unasked *)
  | Resume (singleStep : bool)          (* the user lets the cores go on *)
  | Notify.

Definition fire (e : event) (s : PauseState) : option PauseState :=
  match e with
  | Break i =>
      if decide (i < 4 /\ locationOf s i = Outside)%nat then Some (goto i Entering s) else None
  | Step i => coreStep i s
  | Spurious i => Some (goto i (wake (locationOf s i)) s)
  | Resume b => if notifying s then None else Some (resumeExchange b s)
  | Notify => if notifying s then Some (resumeNotify s) else None
  end.

Fixpoint runEvents (es : list event) (s : PauseState) : option PauseState :=
  match es with
  | [] => Some s
  | e :: es => match fire e s with Some s => runEvents es s | None => None end
  end.

(** A round in which the cores stop one after the other, the user resumes, and all
    leave: core 3 is the last to stop and the last to resume. *)
Definition stops (i : nat) : list event := [Break i; Step i; Step i; Step i; Step i; Step i].
Definition round : list event :=
  stops 0 ++ stops 1 ++ stops 2 ++ [Break 3; Step 3; Step 3; Step 3; Resume false; Notify;
    Step 3; Step 3; Step 3; Step 3].
Definition leaves (i : nat) : list event := [Step i; Step i; Step i].

Example round_completes :
  (fun s => (locations s, gDebugBreakMutex s, gIsPaused s)) <$>
    runEvents (round ++ leaves 0 ++ leaves 1 ++ leaves 2) pause_static =
  Some (replicate 4 Outside, None, false).
Proof. reflexivity. Qed.

(** ** A core that breaks again before the others have left *)

(** In the second barrier, with nobody's bit but that of core 3 set. *)
Definition in_second_loop (l : location) : Prop :=
  l = TestResumed \/ l = WaitResumed \/ l = WakeResumed.

Record stuck (s : PauseState) : Prop := {
  st_resuming : gResumingCores s = coreBit 3;
  st_paused : gIsPaused s = false;
  st_quiet : notifying s = false;
  st_length : length (locations s) = 4%nat;
  st_locations : Forall in_second_loop (locations s);
}.

Lemma stuck_location s i : stuck s -> (i < 4)%nat -> in_second_loop (locationOf s i).
Proof.
  intros [_ _ _ Hn Hl] Hi. unfold locationOf.
  destruct (nth_in_or_default i (locations s) Outside) as [Hin|E].
  - rewrite Forall_forall in Hl. apply Hl. by apply list_elem_of_In.
  - destruct (lookup_lt_is_Some_2 (locations s) i) as [l El]; [lia|].
    rewrite Forall_forall in Hl. apply Hl. rewrite (nth_lookup_Some _ _ _ _ El).
    by apply list_elem_of_lookup_2 with i.
Qed.

Lemma stuck_outside s i : stuck s -> (4 <= i)%nat -> locationOf s i = Outside.
Proof. intros [_ _ _ Hn _] Hi. unfold locationOf. apply nth_overflow. lia. Qed.

Lemma stuck_goto s i l mutex : stuck s -> in_second_loop l -> stuck (goto i l (set_mutex mutex s)).
Proof.
  intros [H1 H2 H3 H4 H5] Hl. constructor; cbn; [done|done|done|by rewrite length_insert|].
  by apply Forall_insert.
Qed.

(** Nobody completes the set of bits. *)
Lemma no_core_completes i : (i < 4)%nat -> (Z.lor (coreBit 3) (coreBit i) =? ALL_CORES) = false.
Proof. intros Hi. do 4 (destruct i as [|i]; [reflexivity|]). lia. Qed.

Lemma stuck_step i s s' : stuck s -> coreStep i s = Some s' -> stuck s'.
Proof.
  intros Hs. destruct (decide (i < 4)%nat) as [Hi|Hi].
  2: { unfold coreStep. by rewrite (stuck_outside s i Hs) by lia. }
  unfold coreStep. destruct (stuck_location s i Hs Hi) as [-> |[-> | ->]]; [|done|].
  - rewrite (st_resuming s Hs), (no_core_completes i Hi). intros [= <-].
    apply stuck_goto; [done|by right; left].
  - destruct (isFree s); [|done]. intros [= <-]. apply stuck_goto; [done|by left].
Qed.

Lemma stuck_fire e s s' : stuck s -> fire e s = Some s' -> stuck s'.
Proof.
  intros Hs. destruct e as [i|i|i|b|]; cbn [fire].
  - case_decide as Hd; [|done]. destruct Hd as [Hi E].
    destruct (stuck_location s i Hs Hi) as [F|[F|F]]; congruence.
  - by apply stuck_step.
  - intros [= <-]. destruct (decide (i < 4)%nat) as [Hi|Hi].
    + assert (in_second_loop (wake (locationOf s i))) as Hl
        by (destruct (stuck_location s i Hs Hi) as [-> |[-> | ->]]; unfold in_second_loop; cbn; tauto).
      pose proof (stuck_goto s i _ (gDebugBreakMutex s) Hs Hl) as Hg. by destruct s.
    + replace (goto i (wake (locationOf s i)) s) with s; [done|].
      unfold goto. rewrite list_insert_ge by (rewrite (st_length s Hs); lia). by destruct s.
  - rewrite (st_quiet s Hs). intros [= <-]. destruct Hs as [H1 H2 H3 H4 H5]. by constructor.
  - by rewrite (st_quiet s Hs).
Qed.

Lemma stuck_run es s s' : stuck s -> runEvents es s = Some s' -> stuck s'.
Proof.
  revert s. induction es as [|e es IH]; intros s Hs; cbn [runEvents]; [by intros [= <-]|].
  destruct (fire e s) as [s1|] eqn:E; [|done]. apply IH. by apply (stuck_fire e s).
Qed.

(** Core 3 stops again while the others are still on their way out. *)
Definition stopped_again : PauseState :=
  mkPause 8 8 false 3 false false None [true; true; true; false]
    [WakeResumed; WakeResumed; WakeResumed; WaitResumed] false.

Lemma stopped_again_reached : runEvents (round ++ stops 3) pause_static = Some stopped_again.
Proof. vm_compute. reflexivity. Qed.

Lemma stopped_again_stuck : stuck stopped_again.
Proof.
  constructor; try done. cbn. unfold in_second_loop. repeat constructor; tauto.
Qed.

(** C30: the debugger's barrier can lock up: when the last core to resume meets another
    breakpoint before the other three have woken, it clears the set they are waiting
    for; from then on no core leaves the handler, whatever the cores and the user do
    and however often a wait returns unasked. *)
Theorem pause_barrier_deadlock :
  exists es s, runEvents es pause_static = Some s /\
    forall es' s', runEvents es' s = Some s' -> forall i, (i < 4)%nat -> in_second_loop (locationOf s' i).
Proof.
  exists (round ++ stops 3), stopped_again. split; [exact stopped_again_reached|].
  intros es' s' E i Hi. apply stuck_location; [|done].
  exact (stuck_run es' _ s' stopped_again_stuck E).
Qed.
