(* ===== verification/TestBase.v ===== *)
(** * The fixture and the tables of the unit tests: [InterpreterUnitTest/baseTestClass.h],
    [util.h], [constants.h] *)
From stdpp Require Import strings.
From S2P Require Import Prelude BitUtils Instructions Decode Core InstUtils Machine Memory Float.
From S2P Require Import InterpBranch Interp.
#[global] Open Scope Z_scope.

(** ** Writing a bit-field of [AArch64Inst] *)

(** The bits [from] to [to] of a 32-bit union become the low bits of [v]. *)
Definition setField (from to v inst : Z) : Z :=
  Z.lor (Z.ldiff inst (Z.shiftl (Z.ones (to - from + 1)) from))
    (Z.shiftl (Z.land v (Z.ones (to - from + 1))) from).

Module Fld.
Definition cond := setField 0 3.
Definition _0_25 := setField 0 25.
Definition _5_18 := setField 5 18.
Definition _5_20 := setField 5 20.
Definition _5_23 := setField 5 23.
Definition _10_12 := setField 10 12.
Definition _10_15 := setField 10 15.
Definition _10_21 := setField 10 21.
Definition hw := setField 21 22.
Definition shift := setField 22 23.
Definition Rt := setField 0 4.
Definition Rd := setField 0 4.
Definition Rn := setField 5 9.
Definition Rm := setField 16 20.
Definition immlo := setField 29 30.
Definition immhi := setField 5 23.
Definition b40 := setField 19 23.
Definition b5 := setField 31 31.
End Fld.

Lemma testbit_setField from to v inst i : 0 <= from <= to -> 0 <= i ->
  Z.testbit (setField from to v inst) i =
    if (from <=? i) && (i <=? to) then Z.testbit v (i - from) else Z.testbit inst i.
Proof.
  intros Hf Hi. unfold setField.
  rewrite Z.lor_spec, Z.ldiff_spec, !testbit_shiftl, Z.land_spec by lia.
  destruct (Z.leb_spec from i) as [H1|H1], (Z.leb_spec 0 (i - from)); try lia; cbn [andb].
  - rewrite testbit_ones by lia.
    destruct (Z.leb_spec i to), (Z.ltb_spec (i - from) (to - from + 1)); try lia; cbn [negb andb];
      by rewrite ?andb_true_r, ?andb_false_r, ?orb_false_l, ?orb_false_r.
  - by rewrite andb_true_r, orb_false_r.
Qed.

(** What the handlers read of a field that was written: its low bits, and the other
    fields as they were. *)
Lemma bitRange_setField from to v inst : 0 <= from <= to ->
  bitRange from to (setField from to v inst) = wrap (to - from + 1) v.
Proof.
  intros Hf. apply Z.bits_inj'. intros i Hi.
  rewrite testbit_bitRange, testbit_setField, testbit_wrap by lia.
  replace (from + i - from) with i by lia.
  destruct (Z.leb_spec i (to - from)), (Z.ltb_spec i (to - from + 1)); try lia; cbn [andb]; try done.
  by rewrite (proj2 (Z.leb_le from _)), (proj2 (Z.leb_le _ to)) by lia.
Qed.

Lemma bitRange_setField_ne from to v inst a b : 0 <= from <= to -> 0 <= a <= b ->
  b < from \/ to < a -> bitRange a b (setField from to v inst) = bitRange a b inst.
Proof.
  intros Hf Ha Hd. apply Z.bits_inj'. intros i Hi.
  rewrite !testbit_bitRange, testbit_setField by lia.
  destruct (Z.leb_spec i (b - a)); cbn [andb]; [|done].
  destruct (Z.leb_spec from (a + i)), (Z.leb_spec (a + i) to); cbn [andb]; done || lia.
Qed.

(** ** The fixture *)

Definition GPREG_DEFAULT : Z := 0.
Definition VREG_DEFAULT0 : Z := 0.
Definition VREG_DEFAULT1 : Z := 0.
Definition SP_DEFAULT : Z := 0x8070605040302010.
Definition PC_DEFAULT : Z := 0x0000000076543210.
Definition NEXT_PC_DEFAULT : Z := PC_DEFAULT + 4.
Definition TLS_DEFAULT : Z := 0x1234123412340000.
Definition TEST_NUM_PAGES : Z := 0x10.

(** The members [coreInitializer] leaves alone are never compared, and no handler of a
    tested instruction reads them. *)
Definition coreInitializer : Core :=
  mkCore false 0 (replicate 32 GPREG_DEFAULT) (replicate 32 (mkVReg VREG_DEFAULT0 VREG_DEFAULT1))
    PC_DEFAULT SP_DEFAULT (PSTATE.mk false false false false) TLS_DEFAULT NEXT_PC_DEFAULT 0
    false 0 0 0 0.

(** A failed assertion with its message, or the end of the process. *)
Inductive failure :=
  | AssertFail (msg : string)
  | Crash (e : fault).

(** The members of [BaseTestClass]. *)
Record Fixture := mkFixture {
  fcore : Core;
  expected : Core;
  instFunc : interptfptr_t MemState;
  inst : Z;
  fmem : MemState;
}.
Definition set_fcore v f := mkFixture v (expected f) (instFunc f) (inst f) (fmem f).
Definition set_expected v f := mkFixture (fcore f) v (instFunc f) (inst f) (fmem f).
Definition set_inst v f := mkFixture (fcore f) (expected f) (instFunc f) v (fmem f).
Definition set_fmem v f := mkFixture (fcore f) (expected f) (instFunc f) (inst f) v.

(** A part of a test method. *)
Definition T (A : Type) : Type := Fixture -> failure + (A * Fixture).
#[export] Instance T_ret : MRet T := fun A a f => inr (a, f).
#[export] Instance T_bind : MBind T := fun A B k p f =>
  match p f with inr (a, f) => k a f | inl e => inl e end.

Definition modFixture (g : Fixture -> Fixture) : T unit := fun f => inr (tt, g f).
Definition assert (b : bool) (msg : string) : T unit := fun f =>
  if b then inr (tt, f) else inl (AssertFail msg).
Definition hostCall {A} (r : result A) : T A := fun f =>
  match r with Ok a => inr (a, f) | Err e => inl (Crash e) end.

(** [inst.field = v], [SET_REG(reg, v)] and [expected.reg = v]; a register is given by
    its setter. *)
Definition inst_ (set : Z -> Z -> Z) (v : Z) : T unit :=
  modFixture (fun f => set_inst (set v (inst f)) f).
Definition SET_REG {V} (set : V -> Core -> Core) (v : V) : T unit :=
  modFixture (fun f => set_expected (set v (expected f)) (set_fcore (set v (fcore f)) f)).
Definition expected_ {V} (set : V -> Core -> Core) (v : V) : T unit :=
  modFixture (fun f => set_expected (set v (expected f)) f).

(** The registers of the [PSTATE]. *)
Definition flag_N b c := set_PState (PSTATE.mk b (PSTATE.Z (PState c)) (PSTATE.C (PState c)) (PSTATE.V (PState c))) c.
Definition flag_Z b c := set_PState (PSTATE.mk (PSTATE.N (PState c)) b (PSTATE.C (PState c)) (PSTATE.V (PState c))) c.
Definition flag_C b c := set_PState (PSTATE.mk (PSTATE.N (PState c)) (PSTATE.Z (PState c)) b (PSTATE.V (PState c))) c.
Definition flag_V b c := set_PState (PSTATE.mk (PSTATE.N (PState c)) (PSTATE.Z (PState c)) (PSTATE.C (PState c)) b) c.

Fixpoint for_ {A} (l : list A) (body : A -> T unit) : T unit :=
  match l with [] => mret tt | x :: l => body x;; for_ l body end.
(** [for (i = 0; i < n; i++)] *)
Definition upTo (n : nat) : list Z := map Z.of_nat (seq 0 n).

(** ** Comparing *)

Definition testFlags (e a : PSTATE.t) : bool :=
  eqb (PSTATE.N e) (PSTATE.N a) && eqb (PSTATE.Z e) (PSTATE.Z a) &&
  eqb (PSTATE.C e) (PSTATE.C a) && eqb (PSTATE.V e) (PSTATE.V a).

Definition compareCores (e a : Core) : bool :=
  forallb (fun i => getX e i =? getX a i) (upTo 31) &&
  forallb (fun i => (getD0 e i =? getD0 a i) && (getD1 e i =? getD1 a i)) (upTo 32) &&
  (PC e =? PC a) && (SP e =? SP a) && (TLSAddr e =? TLSAddr a) && (nextPC e =? nextPC a) &&
  eqb (exclusiveAccess e) (exclusiveAccess a) &&
  (if exclusiveAccess e && exclusiveAccess a then
     (exclusiveAccessAddr e =? exclusiveAccessAddr a) && (exclusiveData0 e =? exclusiveData0 a) &&
     (exclusiveData1 e =? exclusiveData1 a)
   else true) &&
  testFlags (PState e) (PState a).

(** ** Running *)

(** The handler the fixture installs fails the test. *)
#[export] Instance test_hooks : CpuHooks MemState := {
  gSVCHandler _ := mret tt;
  gIllInstHandler := fun _ => Err Undefined;
}.

(** The page of the instruction, and the instruction in it. *)
Definition copyToMem : T unit := fun f =>
  let pc := PC (fcore f) in
  if pc <? Z.shiftl 1 38 then
    (('(ok, m) ← hostCall (allocatePage (getPageNum pc) (fmem f));
      assert ok "Could not allocate page for instruction";;
      let m := protectPage (getPageNum pc) READ_EXECUTE m in
      m ← (hostCall (write 4 pc (inst f) m) : T MemState);
      modFixture (set_fmem m)) : T unit) f
  else inr (tt, f).

Definition runInst : T unit := fun f =>
  match instFunc f (inst f) (mkMachine (fcore f) (fmem f) 0) with
  | Ok (_, s) => inr (tt, set_fmem (s.(memory)) (set_fcore (s.(core)) f))
  | Err e => inl (Crash e)
  end.

(** [doTestInst], without the run through the JIT compiler. *)
Definition doTestInst (msg : string) : T unit :=
  copyToMem;;
  runInst;;
  (fun f => assert (compareCores (expected f) (fcore f)) msg f);;
  modFixture (set_fcore coreInitializer);;
  modFixture (set_expected coreInitializer).

(** ** The conditions *)

Definition truthTable : list (list bool) :=
  let f := false in let t := true in
  [[f; f; t; t; f; f; t; t; f; f; t; t; f; f; t; t];   (* EQ *)
   [t; t; f; f; t; t; f; f; t; t; f; f; t; t; f; f];   (* NE *)
   [f; f; f; f; t; t; t; t; f; f; f; f; t; t; t; t];   (* CS *)
   [t; t; t; t; f; f; f; f; t; t; t; t; f; f; f; f];   (* CC *)
   [f; t; f; t; f; t; f; t; f; t; f; t; f; t; f; t];   (* MI *)
   [t; f; t; f; t; f; t; f; t; f; t; f; t; f; t; f];   (* PL *)
   [f; f; f; f; f; f; f; f; t; t; t; t; t; t; t; t];   (* VS *)
   [t; t; t; t; t; t; t; t; f; f; f; f; f; f; f; f];   (* VC *)
   [f; f; f; f; t; t; f; f; f; f; f; f; t; t; f; f];   (* HI *)
   [t; t; t; t; f; f; t; t; t; t; t; t; f; f; t; t];   (* LS *)
   [t; f; t; f; t; f; t; f; f; t; f; t; f; t; f; t];   (* GE *)
   [f; t; f; t; f; t; f; t; t; f; t; f; t; f; t; f];   (* LT *)
   [t; f; f; f; t; f; f; f; f; t; f; f; f; t; f; f];   (* GT *)
   [f; t; t; t; f; t; t; t; t; f; t; t; t; f; t; t];   (* LE *)
   [t; t; t; t; t; t; t; t; t; t; t; t; t; t; t; t];   (* AL *)
   [t; t; t; t; t; t; t; t; t; t; t; t; t; t; t; t]].  (* AL *)

Definition testAllConditions (setupIfMet setupIfNotMet : T unit) : T unit :=
  for_ (upTo 16) (fun i =>
    inst_ Fld.cond i;;
    for_ (upTo 16) (fun j =>
      SET_REG flag_N (Z.land j 1 =? 1);;
      SET_REG flag_Z (Z.land j 2 =? 2);;
      SET_REG flag_C (Z.land j 4 =? 4);;
      SET_REG flag_V (Z.land j 8 =? 8);;
      (if nth (Z.to_nat j) (nth (Z.to_nat i) truthTable []) false
       then setupIfMet else setupIfNotMet);;
      doTestInst "Test failed for condition")).

(** ** Test classes *)

(** [TEST_CLASS(name), BaseTestClass<testInstId>] with its methods. *)
Record TestClass := mkTestClass {
  className : string;
  testInstId : instructionID.t;
  methods : list (string * T unit);
}.

(** [init] of the fixture, with the address the host gives. *)
Definition allocated : Z := 0x10000.

Definition initFixture (id : instructionID.t) : result Fixture :=
  '(_, m) ← Memory.init allocated (PAGE_SIZE * TEST_NUM_PAGES) mem_static;
  Ok (mkFixture coreInitializer coreInitializer (getInstructionFunc id)
        (encode_index (instructionID.index id)) m).

Definition runMethod (id : instructionID.t) (p : T unit) : option failure :=
  match initFixture id with
  | Ok f => match p f with inr _ => None | inl e => Some e end
  | Err e => Some (Crash e)
  end.

(** The methods of a class that fail, with their failures. *)
Definition runClass (c : TestClass) : list (string * failure) :=
  omap (fun p => e ← runMethod (testInstId c) (snd p); Some (fst p, e)) (methods c).

(** * The tables: [constants.h] *)

(** An element of a table. *)
Definition at_ (table : list Z) (i : Z) : Z := nth (Z.to_nat i) table 0.

Definition setBitTable : list Z :=
  [0x0000000000000001; 0x0000000000000002; 0x0000000000000004; 0x0000000000000008;
   0x0000000000000010; 0x0000000000000020; 0x0000000000000040; 0x0000000000000080;
   0x0000000000000100; 0x0000000000000200; 0x0000000000000400; 0x0000000000000800;
   0x0000000000001000; 0x0000000000002000; 0x0000000000004000; 0x0000000000008000;
   0x0000000000010000; 0x0000000000020000; 0x0000000000040000; 0x0000000000080000;
   0x0000000000100000; 0x0000000000200000; 0x0000000000400000; 0x0000000000800000;
   0x0000000001000000; 0x0000000002000000; 0x0000000004000000; 0x0000000008000000;
   0x0000000010000000; 0x0000000020000000; 0x0000000040000000; 0x0000000080000000;
   0x0000000100000000; 0x0000000200000000; 0x0000000400000000; 0x0000000800000000;
   0x0000001000000000; 0x0000002000000000; 0x0000004000000000; 0x0000008000000000;
   0x0000010000000000; 0x0000020000000000; 0x0000040000000000; 0x0000080000000000;
   0x0000100000000000; 0x0000200000000000; 0x0000400000000000; 0x0000800000000000;
   0x0001000000000000; 0x0002000000000000; 0x0004000000000000; 0x0008000000000000;
   0x0010000000000000; 0x0020000000000000; 0x0040000000000000; 0x0080000000000000;
   0x0100000000000000; 0x0200000000000000; 0x0400000000000000; 0x0800000000000000;
   0x1000000000000000; 0x2000000000000000; 0x4000000000000000; 0x8000000000000000].

Definition clearBitTable : list Z :=
  [0xFFFFFFFFFFFFFFFE; 0xFFFFFFFFFFFFFFFD; 0xFFFFFFFFFFFFFFFB; 0xFFFFFFFFFFFFFFF7;
   0xFFFFFFFFFFFFFFEF; 0xFFFFFFFFFFFFFFDF; 0xFFFFFFFFFFFFFFBF; 0xFFFFFFFFFFFFFF7F;
   0xFFFFFFFFFFFFFEFF; 0xFFFFFFFFFFFFFDFF; 0xFFFFFFFFFFFFFBFF; 0xFFFFFFFFFFFFF7FF;
   0xFFFFFFFFFFFFEFFF; 0xFFFFFFFFFFFFDFFF; 0xFFFFFFFFFFFFBFFF; 0xFFFFFFFFFFFF7FFF;
   0xFFFFFFFFFFFEFFFF; 0xFFFFFFFFFFFDFFFF; 0xFFFFFFFFFFFBFFFF; 0xFFFFFFFFFFF7FFFF;
   0xFFFFFFFFFFEFFFFF; 0xFFFFFFFFFFDFFFFF; 0xFFFFFFFFFFBFFFFF; 0xFFFFFFFFFF7FFFFF;
   0xFFFFFFFFFEFFFFFF; 0xFFFFFFFFFDFFFFFF; 0xFFFFFFFFFBFFFFFF; 0xFFFFFFFFF7FFFFFF;
   0xFFFFFFFFEFFFFFFF; 0xFFFFFFFFDFFFFFFF; 0xFFFFFFFFBFFFFFFF; 0xFFFFFFFF7FFFFFFF;
   0xFFFFFFFEFFFFFFFF; 0xFFFFFFFDFFFFFFFF; 0xFFFFFFFBFFFFFFFF; 0xFFFFFFF7FFFFFFFF;
   0xFFFFFFEFFFFFFFFF; 0xFFFFFFDFFFFFFFFF; 0xFFFFFFBFFFFFFFFF; 0xFFFFFF7FFFFFFFFF;
   0xFFFFFEFFFFFFFFFF; 0xFFFFFDFFFFFFFFFF; 0xFFFFFBFFFFFFFFFF; 0xFFFFF7FFFFFFFFFF;
   0xFFFFEFFFFFFFFFFF; 0xFFFFDFFFFFFFFFFF; 0xFFFFBFFFFFFFFFFF; 0xFFFF7FFFFFFFFFFF;
   0xFFFEFFFFFFFFFFFF; 0xFFFDFFFFFFFFFFFF; 0xFFFBFFFFFFFFFFFF; 0xFFF7FFFFFFFFFFFF;
   0xFFEFFFFFFFFFFFFF; 0xFFDFFFFFFFFFFFFF; 0xFFBFFFFFFFFFFFFF; 0xFF7FFFFFFFFFFFFF;
   0xFEFFFFFFFFFFFFFF; 0xFDFFFFFFFFFFFFFF; 0xFBFFFFFFFFFFFFFF; 0xF7FFFFFFFFFFFFFF;
   0xEFFFFFFFFFFFFFFF; 0xDFFFFFFFFFFFFFFF; 0xBFFFFFFFFFFFFFFF; 0x7FFFFFFFFFFFFFFF].

Definition leadingClearBitTable : list Z :=
  [0x0000000000000000; 0x0000000000000001; 0x0000000000000003; 0x0000000000000007;
   0x000000000000000F; 0x000000000000001F; 0x000000000000003F; 0x000000000000007F;
   0x00000000000000FF; 0x00000000000001FF; 0x00000000000003FF; 0x00000000000007FF;
   0x0000000000000FFF; 0x0000000000001FFF; 0x0000000000003FFF; 0x0000000000007FFF;
   0x000000000000FFFF; 0x000000000001FFFF; 0x000000000003FFFF; 0x000000000007FFFF;
   0x00000000000FFFFF; 0x00000000001FFFFF; 0x00000000003FFFFF; 0x00000000007FFFFF;
   0x0000000000FFFFFF; 0x0000000001FFFFFF; 0x0000000003FFFFFF; 0x0000000007FFFFFF;
   0x000000000FFFFFFF; 0x000000001FFFFFFF; 0x000000003FFFFFFF; 0x000000007FFFFFFF;
   0x00000000FFFFFFFF; 0x00000001FFFFFFFF; 0x00000003FFFFFFFF; 0x00000007FFFFFFFF;
   0x0000000FFFFFFFFF; 0x0000001FFFFFFFFF; 0x0000003FFFFFFFFF; 0x0000007FFFFFFFFF;
   0x000000FFFFFFFFFF; 0x000001FFFFFFFFFF; 0x000003FFFFFFFFFF; 0x000007FFFFFFFFFF;
   0x00000FFFFFFFFFFF; 0x00001FFFFFFFFFFF; 0x00003FFFFFFFFFFF; 0x00007FFFFFFFFFFF;
   0x0000FFFFFFFFFFFF; 0x0001FFFFFFFFFFFF; 0x0003FFFFFFFFFFFF; 0x0007FFFFFFFFFFFF;
   0x000FFFFFFFFFFFFF; 0x001FFFFFFFFFFFFF; 0x003FFFFFFFFFFFFF; 0x007FFFFFFFFFFFFF;
   0x00FFFFFFFFFFFFFF; 0x01FFFFFFFFFFFFFF; 0x03FFFFFFFFFFFFFF; 0x07FFFFFFFFFFFFFF;
   0x0FFFFFFFFFFFFFFF; 0x1FFFFFFFFFFFFFFF; 0x3FFFFFFFFFFFFFFF; 0x7FFFFFFFFFFFFFFF;
   0xFFFFFFFFFFFFFFFF].

Definition leadingSetBitTable : list Z :=
  [0xFFFFFFFFFFFFFFFF; 0xFFFFFFFFFFFFFFFE; 0xFFFFFFFFFFFFFFFC; 0xFFFFFFFFFFFFFFF8;
   0xFFFFFFFFFFFFFFF0; 0xFFFFFFFFFFFFFFE0; 0xFFFFFFFFFFFFFFC0; 0xFFFFFFFFFFFFFF80;
   0xFFFFFFFFFFFFFF00; 0xFFFFFFFFFFFFFE00; 0xFFFFFFFFFFFFFC00; 0xFFFFFFFFFFFFF800;
   0xFFFFFFFFFFFFF000; 0xFFFFFFFFFFFFE000; 0xFFFFFFFFFFFFC000; 0xFFFFFFFFFFFF8000;
   0xFFFFFFFFFFFF0000; 0xFFFFFFFFFFFE0000; 0xFFFFFFFFFFFC0000; 0xFFFFFFFFFFF80000;
   0xFFFFFFFFFFF00000; 0xFFFFFFFFFFE00000; 0xFFFFFFFFFFC00000; 0xFFFFFFFFFF800000;
   0xFFFFFFFFFF000000; 0xFFFFFFFFFE000000; 0xFFFFFFFFFC000000; 0xFFFFFFFFF8000000;
   0xFFFFFFFFF0000000; 0xFFFFFFFFE0000000; 0xFFFFFFFFC0000000; 0xFFFFFFFF80000000;
   0xFFFFFFFF00000000; 0xFFFFFFFE00000000; 0xFFFFFFFC00000000; 0xFFFFFFF800000000;
   0xFFFFFFF000000000; 0xFFFFFFE000000000; 0xFFFFFFC000000000; 0xFFFFFF8000000000;
   0xFFFFFF0000000000; 0xFFFFFE0000000000; 0xFFFFFC0000000000; 0xFFFFF80000000000;
   0xFFFFF00000000000; 0xFFFFE00000000000; 0xFFFFC00000000000; 0xFFFF800000000000;
   0xFFFF000000000000; 0xFFFE000000000000; 0xFFFC000000000000; 0xFFF8000000000000;
   0xFFF0000000000000; 0xFFE0000000000000; 0xFFC0000000000000; 0xFF80000000000000;
   0xFF00000000000000; 0xFE00000000000000; 0xFC00000000000000; 0xF800000000000000;
   0xF000000000000000; 0xE000000000000000; 0xC000000000000000; 0x8000000000000000;
   0x0000000000000000].

Definition bitTable_RBIT_32 : list Z :=
  [0x0000000080000000; 0x0000000040000000; 0x0000000020000000; 0x0000000010000000;
   0x0000000008000000; 0x0000000004000000; 0x0000000002000000; 0x0000000001000000;
   0x0000000000800000; 0x0000000000400000; 0x0000000000200000; 0x0000000000100000;
   0x0000000000080000; 0x0000000000040000; 0x0000000000020000; 0x0000000000010000;
   0x0000000000008000; 0x0000000000004000; 0x0000000000002000; 0x0000000000001000;
   0x0000000000000800; 0x0000000000000400; 0x0000000000000200; 0x0000000000000100;
   0x0000000000000080; 0x0000000000000040; 0x0000000000000020; 0x0000000000000010;
   0x0000000000000008; 0x0000000000000004; 0x0000000000000002; 0x0000000000000001].

Definition bitTable_REV_32 : list Z :=
  [0x0000000001000000; 0x0000000002000000; 0x0000000004000000; 0x0000000008000000;
   0x0000000010000000; 0x0000000020000000; 0x0000000040000000; 0x0000000080000000;
   0x0000000000010000; 0x0000000000020000; 0x0000000000040000; 0x0000000000080000;
   0x0000000000100000; 0x0000000000200000; 0x0000000000400000; 0x0000000000800000;
   0x0000000000000100; 0x0000000000000200; 0x0000000000000400; 0x0000000000000800;
   0x0000000000001000; 0x0000000000002000; 0x0000000000004000; 0x0000000000008000;
   0x0000000000000001; 0x0000000000000002; 0x0000000000000004; 0x0000000000000008;
   0x0000000000000010; 0x0000000000000020; 0x0000000000000040; 0x0000000000000080].

Definition bitTable_REV16_32 : list Z :=
  [0x0000000000010000; 0x0000000000020000; 0x0000000000040000; 0x0000000000080000;
   0x0000000000100000; 0x0000000000200000; 0x0000000000400000; 0x0000000000800000;
   0x0000000001000000; 0x0000000002000000; 0x0000000004000000; 0x0000000008000000;
   0x0000000010000000; 0x0000000020000000; 0x0000000040000000; 0x0000000080000000;
   0x0000000000000001; 0x0000000000000002; 0x0000000000000004; 0x0000000000000008;
   0x0000000000000010; 0x0000000000000020; 0x0000000000000040; 0x0000000000000080;
   0x0000000000000100; 0x0000000000000200; 0x0000000000000400; 0x0000000000000800;
   0x0000000000001000; 0x0000000000002000; 0x0000000000004000; 0x0000000000008000].

Definition bitTable_RBIT_64 : list Z :=
  [0x8000000000000000; 0x4000000000000000; 0x2000000000000000; 0x1000000000000000;
   0x0800000000000000; 0x0400000000000000; 0x0200000000000000; 0x0100000000000000;
   0x0080000000000000; 0x0040000000000000; 0x0020000000000000; 0x0010000000000000;
   0x0008000000000000; 0x0004000000000000; 0x0002000000000000; 0x0001000000000000;
   0x0000800000000000; 0x0000400000000000; 0x0000200000000000; 0x0000100000000000;
   0x0000080000000000; 0x0000040000000000; 0x0000020000000000; 0x0000010000000000;
   0x0000008000000000; 0x0000004000000000; 0x0000002000000000; 0x0000001000000000;
   0x0000000800000000; 0x0000000400000000; 0x0000000200000000; 0x0000000100000000;
   0x0000000080000000; 0x0000000040000000; 0x0000000020000000; 0x0000000010000000;
   0x0000000008000000; 0x0000000004000000; 0x0000000002000000; 0x0000000001000000;
   0x0000000000800000; 0x0000000000400000; 0x0000000000200000; 0x0000000000100000;
   0x0000000000080000; 0x0000000000040000; 0x0000000000020000; 0x0000000000010000;
   0x0000000000008000; 0x0000000000004000; 0x0000000000002000; 0x0000000000001000;
   0x0000000000000800; 0x0000000000000400; 0x0000000000000200; 0x0000000000000100;
   0x0000000000000080; 0x0000000000000040; 0x0000000000000020; 0x0000000000000010;
   0x0000000000000008; 0x0000000000000004; 0x0000000000000002; 0x0000000000000001].

Definition bitTable_REV_64 : list Z :=
  [0x0100000000000000; 0x0200000000000000; 0x0400000000000000; 0x0800000000000000;
   0x1000000000000000; 0x2000000000000000; 0x4000000000000000; 0x8000000000000000;
   0x0001000000000000; 0x0002000000000000; 0x0004000000000000; 0x0008000000000000;
   0x0010000000000000; 0x0020000000000000; 0x0040000000000000; 0x0080000000000000;
   0x0000010000000000; 0x0000020000000000; 0x0000040000000000; 0x0000080000000000;
   0x0000100000000000; 0x0000200000000000; 0x0000400000000000; 0x0000800000000000;
   0x0000000100000000; 0x0000000200000000; 0x0000000400000000; 0x0000000800000000;
   0x0000001000000000; 0x0000002000000000; 0x0000004000000000; 0x0000008000000000;
   0x0000000001000000; 0x0000000002000000; 0x0000000004000000; 0x0000000008000000;
   0x0000000010000000; 0x0000000020000000; 0x0000000040000000; 0x0000000080000000;
   0x0000000000010000; 0x0000000000020000; 0x0000000000040000; 0x0000000000080000;
   0x0000000000100000; 0x0000000000200000; 0x0000000000400000; 0x0000000000800000;
   0x0000000000000100; 0x0000000000000200; 0x0000000000000400; 0x0000000000000800;
   0x0000000000001000; 0x0000000000002000; 0x0000000000004000; 0x0000000000008000;
   0x0000000000000001; 0x0000000000000002; 0x0000000000000004; 0x0000000000000008;
   0x0000000000000010; 0x0000000000000020; 0x0000000000000040; 0x0000000000000080].

Definition bitTable_REV16_64 : list Z :=
  [0x0001000000000000; 0x0002000000000000; 0x0004000000000000; 0x0008000000000000;
   0x0010000000000000; 0x0020000000000000; 0x0040000000000000; 0x0080000000000000;
   0x0100000000000000; 0x0200000000000000; 0x0400000000000000; 0x0800000000000000;
   0x1000000000000000; 0x2000000000000000; 0x4000000000000000; 0x8000000000000000;
   0x0000000100000000; 0x0000000200000000; 0x0000000400000000; 0x0000000800000000;
   0x0000001000000000; 0x0000002000000000; 0x0000004000000000; 0x0000008000000000;
   0x0000010000000000; 0x0000020000000000; 0x0000040000000000; 0x0000080000000000;
   0x0000100000000000; 0x0000200000000000; 0x0000400000000000; 0x0000800000000000;
   0x0000000000010000; 0x0000000000020000; 0x0000000000040000; 0x0000000000080000;
   0x0000000000100000; 0x0000000000200000; 0x0000000000400000; 0x0000000000800000;
   0x0000000001000000; 0x0000000002000000; 0x0000000004000000; 0x0000000008000000;
   0x0000000010000000; 0x0000000020000000; 0x0000000040000000; 0x0000000080000000;
   0x0000000000000001; 0x0000000000000002; 0x0000000000000004; 0x0000000000000008;
   0x0000000000000010; 0x0000000000000020; 0x0000000000000040; 0x0000000000000080;
   0x0000000000000100; 0x0000000000000200; 0x0000000000000400; 0x0000000000000800;
   0x0000000000001000; 0x0000000000002000; 0x0000000000004000; 0x0000000000008000].

Definition bitTable_REV32_64 : list Z :=
  [0x0000000100000000; 0x0000000200000000; 0x0000000400000000; 0x0000000800000000;
   0x0000001000000000; 0x0000002000000000; 0x0000004000000000; 0x0000008000000000;
   0x0000010000000000; 0x0000020000000000; 0x0000040000000000; 0x0000080000000000;
   0x0000100000000000; 0x0000200000000000; 0x0000400000000000; 0x0000800000000000;
   0x0001000000000000; 0x0002000000000000; 0x0004000000000000; 0x0008000000000000;
   0x0010000000000000; 0x0020000000000000; 0x0040000000000000; 0x0080000000000000;
   0x0100000000000000; 0x0200000000000000; 0x0400000000000000; 0x0800000000000000;
   0x1000000000000000; 0x2000000000000000; 0x4000000000000000; 0x8000000000000000;
   0x0000000000000001; 0x0000000000000002; 0x0000000000000004; 0x0000000000000008;
   0x0000000000000010; 0x0000000000000020; 0x0000000000000040; 0x0000000000000080;
   0x0000000000000100; 0x0000000000000200; 0x0000000000000400; 0x0000000000000800;
   0x0000000000001000; 0x0000000000002000; 0x0000000000004000; 0x0000000000008000;
   0x0000000000010000; 0x0000000000020000; 0x0000000000040000; 0x0000000000080000;
   0x0000000000100000; 0x0000000000200000; 0x0000000000400000; 0x0000000000800000;
   0x0000000001000000; 0x0000000002000000; 0x0000000004000000; 0x0000000008000000;
   0x0000000010000000; 0x0000000020000000; 0x0000000040000000; 0x0000000080000000].
