(* ===== verification/TestBranch.v ===== *)
(** * Tests of the branches: [InterpreterUnitTest/branch.cpp]

    The test methods, statement by statement, and the classes they belong to. *)
From stdpp Require Import strings.
From S2P Require Import Prelude Instructions Core Machine TestBase.
#[global] Open Scope Z_scope.

(** ** [bcond] *)

Definition B_cond_branch : T unit :=
  inst_ Fld.cond 14;;
  inst_ Fld._5_23 0;;
  expected_ set_nextPC PC_DEFAULT;;
  doTestInst "B.cond jumps to itself when imm == 0";;
  SET_REG set_PC 0x1000;;
  inst_ Fld._5_23 2;;
  expected_ set_nextPC 0x1008;;
  doTestInst "B.cond is in increments of 4";;
  SET_REG set_PC 0x1000;;
  inst_ Fld._5_23 0x3FFFF;;
  expected_ set_nextPC 0x100FFC;;
  doTestInst "B.cond is in increments of 4";;
  SET_REG set_PC 0x1000;;
  inst_ Fld._5_23 0x40000;;
  expected_ set_nextPC 0xFFFFFFFFFFF01000;;
  doTestInst "B.cond has a signed offset";;
  SET_REG set_PC 0x1000;;
  inst_ Fld._5_23 0x7FFFF;;
  expected_ set_nextPC 0xFFC;;
  doTestInst "B.cond has a signed offset";;
  SET_REG flag_C false;;
  inst_ Fld.cond 2;;
  inst_ Fld._5_23 0x1;;
  doTestInst "B.cond does nothing when the condition is not met".

Definition B_cond_overflow : T unit :=
  inst_ Fld.cond 14;;
  SET_REG set_PC 0xFFFFFFFFFFFFFFFC;;
  inst_ Fld._5_23 0x1;;
  expected_ set_nextPC 0;;
  doTestInst "B.cond wraps around on overflow".

Definition B_cond_underflow : T unit :=
  inst_ Fld.cond 14;;
  SET_REG set_PC 0;;
  inst_ Fld._5_23 0x7FFFF;;
  expected_ set_nextPC 0xFFFFFFFFFFFFFFFC;;
  doTestInst "B.cond wraps around on underflow".

Definition B_cond_all : T unit :=
  inst_ Fld._5_23 0x2;;
  let setupWhenCondMet : T unit :=
    SET_REG set_PC 0x1000;;
    SET_REG set_nextPC 0x1004;;
    expected_ set_nextPC 0x1008 in
  let setupWhenCondNotMet : T unit :=
    SET_REG set_PC 0x1000;;
    SET_REG set_nextPC 0x1004 in
  testAllConditions setupWhenCondMet setupWhenCondNotMet.

Definition bcond_tests : TestClass := mkTestClass "bcond" instructionID.B_cond
  [("B_cond_branch", B_cond_branch);
   ("B_cond_overflow", B_cond_overflow);
   ("B_cond_underflow", B_cond_underflow);
   ("B_cond_all", B_cond_all)].

(** ** [br] *)

Definition BR_branch : T unit :=
  inst_ Fld.Rn 1;;
  SET_REG (setX 1) 0;;
  expected_ set_nextPC 0;;
  doTestInst "BR branches to register";;
  SET_REG (setX 1) 0x1000;;
  expected_ set_nextPC 0x1000;;
  doTestInst "BR branches to register";;
  SET_REG (setX 1) 0x1010101010101010;;
  expected_ set_nextPC 0x1010101010101010;;
  doTestInst "BR branches to register".

Definition BR_sp : T unit :=
  inst_ Fld.Rn 32;;
  expected_ set_nextPC 0;;
  doTestInst "BR does not use SP".

Definition br_tests : TestClass := mkTestClass "br" instructionID.BR
  [("BR_branch", BR_branch);
   ("BR_sp", BR_sp)].

(** ** [blr] *)

Definition BLR_branch : T unit :=
  inst_ Fld.Rn 1;;
  SET_REG (setX 1) 0;;
  expected_ set_nextPC 0;;
  expected_ (setX 30) NEXT_PC_DEFAULT;;
  doTestInst "BLR branches to register and stores PC + 4 in X30";;
  SET_REG set_PC 0x2000;;
  SET_REG (setX 1) 0x1000;;
  expected_ set_nextPC 0x1000;;
  expected_ (setX 30) 0x2004;;
  doTestInst "BLR branches to register and stores PC + 4 in X30";;
  SET_REG set_PC 0x3000;;
  SET_REG (setX 1) 0x1010101010101010;;
  expected_ set_nextPC 0x1010101010101010;;
  expected_ (setX 30) 0x3004;;
  doTestInst "BLR branches to register and stores PC + 4 in X30".

Definition BLR_sp : T unit :=
  inst_ Fld.Rn 32;;
  expected_ set_nextPC 0;;
  expected_ (setX 30) NEXT_PC_DEFAULT;;
  doTestInst "BLR does not use SP".

Definition BLR_overflow : T unit :=
  SET_REG (setX 1) 0;;
  SET_REG set_PC 0xFFFFFFFFFFFFFFFC;;
  inst_ Fld.Rn 1;;
  expected_ set_nextPC 0;;
  expected_ (setX 30) 0;;
  doTestInst "BLR X30 wraps around on overflow".

Definition blr_tests : TestClass := mkTestClass "blr" instructionID.BLR
  [("BLR_branch", BLR_branch);
   ("BLR_sp", BLR_sp);
   ("BLR_overflow", BLR_overflow)].

(** ** [ret] *)

Definition RET_branch : T unit :=
  inst_ Fld.Rn 1;;
  SET_REG (setX 1) 0;;
  expected_ set_nextPC 0;;
  doTestInst "RET branches to register";;
  SET_REG (setX 1) 0x1000;;
  expected_ set_nextPC 0x1000;;
  doTestInst "RET branches to register";;
  SET_REG (setX 1) 0x1010101010101010;;
  expected_ set_nextPC 0x1010101010101010;;
  doTestInst "RET branches to register".

Definition RET_sp : T unit :=
  inst_ Fld.Rn 32;;
  expected_ set_nextPC 0;;
  doTestInst "RET does not use SP".

Definition ret_tests : TestClass := mkTestClass "ret" instructionID.RET
  [("RET_branch", RET_branch);
   ("RET_sp", RET_sp)].

(** ** [b] *)

Definition B_branch : T unit :=
  inst_ Fld._0_25 0;;
  expected_ set_nextPC PC_DEFAULT;;
  doTestInst "B jumps to itself when imm == 0";;
  SET_REG set_PC 0x1000;;
  inst_ Fld._0_25 2;;
  expected_ set_nextPC 0x1008;;
  doTestInst "B is in increments of 4";;
  SET_REG set_PC 0x1000;;
  inst_ Fld._0_25 0x1FFFFFF;;
  expected_ set_nextPC 0x8000FFC;;
  doTestInst "B is in increments of 4";;
  SET_REG set_PC 0x1000;;
  inst_ Fld._0_25 0x2000000;;
  expected_ set_nextPC 0xFFFFFFFFF8001000;;
  doTestInst "B has a signed offset";;
  SET_REG set_PC 0x1000;;
  inst_ Fld._0_25 0x3FFFFFF;;
  expected_ set_nextPC 0xFFC;;
  doTestInst "B has a signed offset".

Definition B_overflow : T unit :=
  SET_REG set_PC 0xFFFFFFFFFFFFFFFC;;
  inst_ Fld._0_25 0x1;;
  expected_ set_nextPC 0;;
  doTestInst "B wraps around on overflow".

Definition B_underflow : T unit :=
  SET_REG set_PC 0;;
  inst_ Fld._0_25 0x3FFFFFF;;
  expected_ set_nextPC 0xFFFFFFFFFFFFFFFC;;
  doTestInst "B wraps around on underflow".

Definition b_tests : TestClass := mkTestClass "b" instructionID.B
  [("B_branch", B_branch);
   ("B_overflow", B_overflow);
   ("B_underflow", B_underflow)].

(** ** [bl] *)

Definition BL_branch : T unit :=
  inst_ Fld._0_25 0;;
  expected_ set_nextPC PC_DEFAULT;;
  expected_ (setX 30) NEXT_PC_DEFAULT;;
  doTestInst "BL jumps to itself when imm == 0 and stores PC + 4 in X30";;
  SET_REG set_PC 0x1000;;
  inst_ Fld._0_25 2;;
  expected_ set_nextPC 0x1008;;
  expected_ (setX 30) 0x1004;;
  doTestInst "BL is in increments of 4 and stores PC + 4 in X30";;
  SET_REG set_PC 0x1000;;
  inst_ Fld._0_25 0x1FFFFFF;;
  expected_ set_nextPC 0x8000FFC;;
  expected_ (setX 30) 0x1004;;
  doTestInst "BL is in increments of 4 and stores PC + 4 in X30";;
  SET_REG set_PC 0x1000;;
  inst_ Fld._0_25 0x2000000;;
  expected_ set_nextPC 0xFFFFFFFFF8001000;;
  expected_ (setX 30) 0x1004;;
  doTestInst "BL has a signed offset and stores PC + 4 in X30";;
  SET_REG set_PC 0x1000;;
  inst_ Fld._0_25 0x3FFFFFF;;
  expected_ set_nextPC 0xFFC;;
  expected_ (setX 30) 0x1004;;
  doTestInst "BL has a signed offset and stores PC + 4 in X30".

Definition BL_overflow : T unit :=
  SET_REG set_PC 0xFFFFFFFFFFFFFFFC;;
  inst_ Fld._0_25 0x1;;
  expected_ set_nextPC 0;;
  expected_ (setX 30) 0;;
  doTestInst "BL wraps around on overflow and X30 wraps around".

Definition BL_underflow : T unit :=
  SET_REG set_PC 0;;
  inst_ Fld._0_25 0x3FFFFFF;;
  expected_ set_nextPC 0xFFFFFFFFFFFFFFFC;;
  expected_ (setX 30) 4;;
  doTestInst "BL wraps around on underflow and stores PC + 4 in X30".

Definition bl_tests : TestClass := mkTestClass "bl" instructionID.BL
  [("BL_branch", BL_branch);
   ("BL_overflow", BL_overflow);
   ("BL_underflow", BL_underflow)].

(** ** [cbz32] *)

Definition CBZ_32_branch : T unit :=
  inst_ Fld.Rt 1;;
  SET_REG (setX 1) 0;;
  inst_ Fld._5_23 0;;
  expected_ set_nextPC PC_DEFAULT;;
  doTestInst "CBZ_32 jumps to itself when imm == 0";;
  SET_REG set_PC 0x1000;;
  SET_REG (setX 1) 0;;
  inst_ Fld._5_23 2;;
  expected_ set_nextPC 0x1008;;
  doTestInst "CBZ_32 is in increments of 4";;
  SET_REG set_PC 0x1000;;
  SET_REG (setX 1) 0;;
  inst_ Fld._5_23 0x3FFFF;;
  expected_ set_nextPC 0x100FFC;;
  doTestInst "CBZ_32 is in increments of 4";;
  SET_REG set_PC 0x1000;;
  SET_REG (setX 1) 0;;
  inst_ Fld._5_23 0x40000;;
  expected_ set_nextPC 0xFFFFFFFFFFF01000;;
  doTestInst "CBZ_32 has a signed offset";;
  SET_REG set_PC 0x1000;;
  SET_REG (setX 1) 0;;
  inst_ Fld._5_23 0x7FFFF;;
  expected_ set_nextPC 0xFFC;;
  doTestInst "CBZ_32 has a signed offset";;
  SET_REG (setX 1) 1;;
  inst_ Fld._5_23 0x2;;
  doTestInst "CBZ_32 does nothing when the register is not 0".

Definition CBZ_32_overflow : T unit :=
  inst_ Fld.Rt 1;;
  SET_REG set_PC 0xFFFFFFFFFFFFFFFC;;
  SET_REG (setX 1) 0;;
  inst_ Fld._5_23 0x1;;
  expected_ set_nextPC 0;;
  doTestInst "CBZ_32 wraps around on overflow".

Definition CBZ_32_underflow : T unit :=
  inst_ Fld.Rt 1;;
  SET_REG set_PC 0;;
  SET_REG (setX 1) 0;;
  inst_ Fld._5_23 0x7FFFF;;
  expected_ set_nextPC 0xFFFFFFFFFFFFFFFC;;
  doTestInst "CBZ_32 wraps around on underflow".

Definition CBZ_32_sp : T unit :=
  inst_ Fld.Rt 31;;
  SET_REG set_PC 0x1000;;
  SET_REG set_SP 0x1000;;
  inst_ Fld._5_23 0x2;;
  expected_ set_nextPC 0x1008;;
  doTestInst "CBZ_32 does not use sp".

Definition CBZ_32_high_bits : T unit :=
  inst_ Fld.Rt 1;;
  SET_REG set_PC 0x1000;;
  SET_REG (setX 1) 0xFFFFFFFF00000000;;
  inst_ Fld._5_23 0x2;;
  expected_ set_nextPC 0x1008;;
  doTestInst "CBZ_32 only uses the low bits".

Definition cbz32_tests : TestClass := mkTestClass "cbz32" instructionID.CBZ_32
  [("CBZ_32_branch", CBZ_32_branch);
   ("CBZ_32_overflow", CBZ_32_overflow);
   ("CBZ_32_underflow", CBZ_32_underflow);
   ("CBZ_32_sp", CBZ_32_sp);
   ("CBZ_32_high_bits", CBZ_32_high_bits)].

(** ** [cbnz32] *)

Definition CBNZ_32_branch : T unit :=
  inst_ Fld.Rt 1;;
  SET_REG (setX 1) 1;;
  inst_ Fld._5_23 0;;
  expected_ set_nextPC PC_DEFAULT;;
  doTestInst "CBNZ_32 jumps to itself when imm == 0";;
  SET_REG set_PC 0x1000;;
  SET_REG (setX 1) 1;;
  inst_ Fld._5_23 2;;
  expected_ set_nextPC 0x1008;;
  doTestInst "CBNZ_32 is in increments of 4";;
  SET_REG set_PC 0x1000;;
  SET_REG (setX 1) 1;;
  inst_ Fld._5_23 0x3FFFF;;
  expected_ set_nextPC 0x100FFC;;
  doTestInst "CBNZ_32 is in increments of 4";;
  SET_REG set_PC 0x1000;;
  SET_REG (setX 1) 1;;
  inst_ Fld._5_23 0x40000;;
  expected_ set_nextPC 0xFFFFFFFFFFF01000;;
  doTestInst "CBNZ_32 has a signed offset";;
  SET_REG set_PC 0x1000;;
  SET_REG (setX 1) 1;;
  inst_ Fld._5_23 0x7FFFF;;
  expected_ set_nextPC 0xFFC;;
  doTestInst "CBNZ_32 has a signed offset";;
  SET_REG (setX 1) 0;;
  inst_ Fld._5_23 0x2;;
  doTestInst "CBNZ_32 does nothing when the register is 0".

Definition CBNZ_32_overflow : T unit :=
  inst_ Fld.Rt 1;;
  SET_REG set_PC 0xFFFFFFFFFFFFFFFC;;
  SET_REG (setX 1) 1;;
  inst_ Fld._5_23 0x1;;
  expected_ set_nextPC 0;;
  doTestInst "CBNZ_32 wraps around on overflow".

Definition CBNZ_32_underflow : T unit :=
  inst_ Fld.Rt 1;;
  SET_REG set_PC 0;;
  SET_REG (setX 1) 1;;
  inst_ Fld._5_23 0x7FFFF;;
  expected_ set_nextPC 0xFFFFFFFFFFFFFFFC;;
  doTestInst "CBNZ_32 wraps around on underflow".

Definition CBNZ_32_sp : T unit :=
  inst_ Fld.Rt 31;;
  SET_REG set_PC 0x1000;;
  SET_REG set_nextPC 0x1004;;
  SET_REG set_SP 0x1000;;
  inst_ Fld._5_23 0x2;;
  doTestInst "CBNZ_32 does not use sp".

Definition CBNZ_32_high_bits : T unit :=
  inst_ Fld.Rt 1;;
  SET_REG set_PC 0x1000;;
  SET_REG set_nextPC 0x1004;;
  SET_REG (setX 1) 0xFFFFFFFF00000000;;
  inst_ Fld._5_23 0x2;;
  doTestInst "CBNZ_32 only uses the low bits".

Definition cbnz32_tests : TestClass := mkTestClass "cbnz32" instructionID.CBNZ_32
  [("CBNZ_32_branch", CBNZ_32_branch);
   ("CBNZ_32_overflow", CBNZ_32_overflow);
   ("CBNZ_32_underflow", CBNZ_32_underflow);
   ("CBNZ_32_sp", CBNZ_32_sp);
   ("CBNZ_32_high_bits", CBNZ_32_high_bits)].

(** ** [cbz64] *)

Definition CBZ_64_branch : T unit :=
  inst_ Fld.Rt 1;;
  SET_REG (setX 1) 0;;
  inst_ Fld._5_23 0;;
  expected_ set_nextPC PC_DEFAULT;;
  doTestInst "CBZ_64 jumps to itself when imm == 0";;
  SET_REG set_PC 0x1000;;
  SET_REG (setX 1) 0;;
  inst_ Fld._5_23 2;;
  expected_ set_nextPC 0x1008;;
  doTestInst "CBZ_64 is in increments of 4";;
  SET_REG set_PC 0x1000;;
  SET_REG (setX 1) 0;;
  inst_ Fld._5_23 0x3FFFF;;
  expected_ set_nextPC 0x100FFC;;
  doTestInst "CBZ_64 is in increments of 4";;
  SET_REG set_PC 0x1000;;
  SET_REG (setX 1) 0;;
  inst_ Fld._5_23 0x40000;;
  expected_ set_nextPC 0xFFFFFFFFFFF01000;;
  doTestInst "CBZ_64 has a signed offset";;
  SET_REG set_PC 0x1000;;
  SET_REG (setX 1) 0;;
  inst_ Fld._5_23 0x7FFFF;;
  expected_ set_nextPC 0xFFC;;
  doTestInst "CBZ_64 has a signed offset";;
  SET_REG (setX 1) 1;;
  inst_ Fld._5_23 0x2;;
  doTestInst "CBZ_64 does nothing when the register is not 0".

Definition CBZ_64_overflow : T unit :=
  inst_ Fld.Rt 1;;
  SET_REG set_PC 0xFFFFFFFFFFFFFFFC;;
  SET_REG (setX 1) 0;;
  inst_ Fld._5_23 0x1;;
  expected_ set_nextPC 0;;
  doTestInst "CBZ_64 wraps around on overflow".

Definition CBZ_64_underflow : T unit :=
  inst_ Fld.Rt 1;;
  SET_REG set_PC 0;;
  SET_REG (setX 1) 0;;
  inst_ Fld._5_23 0x7FFFF;;
  expected_ set_nextPC 0xFFFFFFFFFFFFFFFC;;
  doTestInst "CBZ_64 wraps around on underflow".

Definition CBZ_64_sp : T unit :=
  inst_ Fld.Rt 31;;
  SET_REG set_PC 0x1000;;
  SET_REG set_SP 0x1000;;
  inst_ Fld._5_23 0x2;;
  expected_ set_nextPC 0x1008;;
  doTestInst "CBZ_64 does not use sp".

Definition CBZ_64_high_bits : T unit :=
  inst_ Fld.Rt 1;;
  SET_REG set_PC 0x1000;;
  SET_REG set_nextPC 0x1004;;
  SET_REG (setX 1) 0xFFFFFFFF00000000;;
  inst_ Fld._5_23 0x2;;
  doTestInst "CBZ_64 does use the high bits".

Definition cbz64_tests : TestClass := mkTestClass "cbz64" instructionID.CBZ_64
  [("CBZ_64_branch", CBZ_64_branch);
   ("CBZ_64_overflow", CBZ_64_overflow);
   ("CBZ_64_underflow", CBZ_64_underflow);
   ("CBZ_64_sp", CBZ_64_sp);
   ("CBZ_64_high_bits", CBZ_64_high_bits)].

(** ** [cbnz64] *)

Definition CBNZ_64_branch : T unit :=
  inst_ Fld.Rt 1;;
  SET_REG (setX 1) 1;;
  inst_ Fld._5_23 0;;
  expected_ set_nextPC PC_DEFAULT;;
  doTestInst "CBNZ_64 jumps to itself when imm == 0";;
  SET_REG set_PC 0x1000;;
  SET_REG (setX 1) 1;;
  inst_ Fld._5_23 2;;
  expected_ set_nextPC 0x1008;;
  doTestInst "CBNZ_64 is in increments of 4";;
  SET_REG set_PC 0x1000;;
  SET_REG (setX 1) 1;;
  inst_ Fld._5_23 0x3FFFF;;
  expected_ set_nextPC 0x100FFC;;
  doTestInst "CBNZ_64 is in increments of 4";;
  SET_REG set_PC 0x1000;;
  SET_REG (setX 1) 1;;
  inst_ Fld._5_23 0x40000;;
  expected_ set_nextPC 0xFFFFFFFFFFF01000;;
  doTestInst "CBNZ_64 has a signed offset";;
  SET_REG set_PC 0x1000;;
  SET_REG (setX 1) 1;;
  inst_ Fld._5_23 0x7FFFF;;
  expected_ set_nextPC 0xFFC;;
  doTestInst "CBNZ_64 has a signed offset";;
  SET_REG (setX 1) 0;;
  inst_ Fld._5_23 0x2;;
  doTestInst "CBNZ_64 does nothing when the register is 0".

Definition CBNZ_64_overflow : T unit :=
  inst_ Fld.Rt 1;;
  SET_REG set_PC 0xFFFFFFFFFFFFFFFC;;
  SET_REG (setX 1) 1;;
  inst_ Fld._5_23 0x1;;
  expected_ set_nextPC 0;;
  doTestInst "CBNZ_64 wraps around on overflow".

Definition CBNZ_64_underflow : T unit :=
  inst_ Fld.Rt 1;;
  SET_REG set_PC 0;;
  SET_REG (setX 1) 1;;
  inst_ Fld._5_23 0x7FFFF;;
  expected_ set_nextPC 0xFFFFFFFFFFFFFFFC;;
  doTestInst "CBNZ_64 wraps around on underflow".

Definition CBNZ_64_sp : T unit :=
  inst_ Fld.Rt 31;;
  SET_REG set_PC 0x1000;;
  SET_REG set_nextPC 0x1004;;
  SET_REG set_SP 0x1000;;
  inst_ Fld._5_23 0x2;;
  doTestInst "CBNZ_64 does not use sp".

Definition CBNZ_64_high_bits : T unit :=
  inst_ Fld.Rt 1;;
  SET_REG set_PC 0x1000;;
  SET_REG set_nextPC 0x1004;;
  SET_REG (setX 1) 0xFFFFFFFF00000000;;
  inst_ Fld._5_23 0x2;;
  expected_ set_nextPC 0x1008;;
  doTestInst "CBNZ_64 does use high bits".

Definition cbnz64_tests : TestClass := mkTestClass "cbnz64" instructionID.CBNZ_64
  [("CBNZ_64_branch", CBNZ_64_branch);
   ("CBNZ_64_overflow", CBNZ_64_overflow);
   ("CBNZ_64_underflow", CBNZ_64_underflow);
   ("CBNZ_64_sp", CBNZ_64_sp);
   ("CBNZ_64_high_bits", CBNZ_64_high_bits)].

(** ** [tbz] *)

Definition TBZ_branch : T unit :=
  inst_ Fld.Rt 1;;
  SET_REG (setX 1) 0;;
  inst_ Fld._5_18 0;;
  expected_ set_nextPC PC_DEFAULT;;
  doTestInst "TBZ jumps to itself when imm == 0";;
  SET_REG set_PC 0x1000;;
  SET_REG (setX 1) 0;;
  inst_ Fld._5_18 2;;
  expected_ set_nextPC 0x1008;;
  doTestInst "TBZ is in increments of 4";;
  SET_REG set_PC 0x1000;;
  SET_REG (setX 1) 0;;
  inst_ Fld._5_18 0x1FFF;;
  expected_ set_nextPC 0x8FFC;;
  doTestInst "TBZ is in increments of 4";;
  SET_REG set_PC 0x1000;;
  SET_REG (setX 1) 0;;
  inst_ Fld._5_18 0x2000;;
  expected_ set_nextPC 0xFFFFFFFFFFFF9000;;
  doTestInst "TBZ has a signed offset";;
  SET_REG set_PC 0x1000;;
  SET_REG (setX 1) 0;;
  inst_ Fld._5_18 0x3FFF;;
  expected_ set_nextPC 0xFFC;;
  doTestInst "TBZ has a signed offset";;
  SET_REG (setX 1) 0xFFFFFFFFFFFFFFFF;;
  inst_ Fld._5_18 0x1;;
  doTestInst "TBZ does nothing when the condition is not met".

Definition TBZ_overflow : T unit :=
  inst_ Fld.Rt 1;;
  SET_REG set_PC 0xFFFFFFFFFFFFFFFC;;
  SET_REG (setX 1) 0;;
  inst_ Fld._5_18 0x1;;
  expected_ set_nextPC 0;;
  doTestInst "TBZ wraps around on overflow".

Definition TBZ_underflow : T unit :=
  inst_ Fld.Rt 1;;
  SET_REG set_PC 0;;
  SET_REG (setX 1) 0;;
  inst_ Fld._5_18 0x3FFF;;
  expected_ set_nextPC 0xFFFFFFFFFFFFFFFC;;
  doTestInst "TBZ wraps around on underflow".

Definition TBZ_all : T unit :=
  inst_ Fld.Rt 1;;
  inst_ Fld._5_18 0x2;;
  for_ (upTo 64) (fun index =>
    for_ (upTo 64) (fun bit =>
      inst_ Fld.b40 (Z.land bit 0x1F);;
      inst_ Fld.b5 (Z.shiftr bit 5);;
      SET_REG set_PC 0x1000;;
      SET_REG set_nextPC 0x1004;;
      SET_REG (setX 1) (at_ setBitTable index);;
      (if bit =? index then
          doTestInst "TBZ does not branch on a set bit"
       else
          expected_ set_nextPC 0x1008;;
          doTestInst "TBZ does branch on a clear bit");;
      SET_REG set_PC 0x1000;;
      SET_REG set_nextPC 0x1004;;
      SET_REG (setX 1) (at_ clearBitTable index);;
      (if bit !=? index then
          doTestInst "TBZ does not branch on a set bit"
       else
          expected_ set_nextPC 0x1008;;
          doTestInst "TBZ does branch on a clear bit"))).

Definition tbz_tests : TestClass := mkTestClass "tbz" instructionID.TBZ
  [("TBZ_branch", TBZ_branch);
   ("TBZ_overflow", TBZ_overflow);
   ("TBZ_underflow", TBZ_underflow);
   ("TBZ_all", TBZ_all)].

(** ** [tbnz] *)

Definition TBNZ_branch : T unit :=
  inst_ Fld.Rt 1;;
  SET_REG (setX 1) 0xFFFFFFFFFFFFFFFF;;
  inst_ Fld._5_18 0;;
  expected_ set_nextPC PC_DEFAULT;;
  doTestInst "TBNZ jumps to itself when imm == 0";;
  SET_REG set_PC 0x1000;;
  SET_REG (setX 1) 0xFFFFFFFFFFFFFFFF;;
  inst_ Fld._5_18 2;;
  expected_ set_nextPC 0x1008;;
  doTestInst "TBNZ is in increments of 4";;
  SET_REG set_PC 0x1000;;
  SET_REG (setX 1) 0xFFFFFFFFFFFFFFFF;;
  inst_ Fld._5_18 0x1FFF;;
  expected_ set_nextPC 0x8FFC;;
  doTestInst "TBNZ is in increments of 4";;
  SET_REG set_PC 0x1000;;
  SET_REG (setX 1) 0xFFFFFFFFFFFFFFFF;;
  inst_ Fld._5_18 0x2000;;
  expected_ set_nextPC 0xFFFFFFFFFFFF9000;;
  doTestInst "TBNZ has a signed offset";;
  SET_REG set_PC 0x1000;;
  SET_REG (setX 1) 0xFFFFFFFFFFFFFFFF;;
  inst_ Fld._5_18 0x3FFF;;
  expected_ set_nextPC 0xFFC;;
  doTestInst "TBNZ has a signed offset";;
  SET_REG (setX 1) 0;;
  inst_ Fld._5_18 0x1;;
  doTestInst "TBNZ does nothing when the condition is not met".

Definition TBNZ_overflow : T unit :=
  inst_ Fld.Rt 1;;
  SET_REG set_PC 0xFFFFFFFFFFFFFFFC;;
  SET_REG (setX 1) 0xFFFFFFFFFFFFFFFF;;
  inst_ Fld._5_18 0x1;;
  expected_ set_nextPC 0;;
  doTestInst "TBNZ wraps around on overflow".

Definition TBNZ_underflow : T unit :=
  inst_ Fld.Rt 1;;
  SET_REG set_PC 0;;
  SET_REG (setX 1) 0xFFFFFFFFFFFFFFFF;;
  inst_ Fld._5_18 0x3FFF;;
  expected_ set_nextPC 0xFFFFFFFFFFFFFFFC;;
  doTestInst "TBNZ wraps around on underflow".

Definition TBNZ_all : T unit :=
  inst_ Fld.Rt 1;;
  inst_ Fld._5_18 0x2;;
  for_ (upTo 64) (fun index =>
    for_ (upTo 64) (fun bit =>
      inst_ Fld.b40 (Z.land bit 0x1F);;
      inst_ Fld.b5 (Z.shiftr bit 5);;
      SET_REG set_PC 0x1000;;
      SET_REG set_nextPC 0x1004;;
      SET_REG (setX 1) (at_ setBitTable index);;
      (if bit !=? index then
          doTestInst "TBNZ does branch on a set bit"
       else
          expected_ set_nextPC 0x1008;;
          doTestInst "TBNZ does not branch on a clear bit");;
      SET_REG set_PC 0x1000;;
      SET_REG set_nextPC 0x1004;;
      SET_REG (setX 1) (at_ clearBitTable index);;
      (if bit =? index then
          doTestInst "TBNZ does branch on a clear bit"
       else
          expected_ set_nextPC 0x1008;;
          doTestInst "TBNZ does not branch on a set bit"))).

Definition tbnz_tests : TestClass := mkTestClass "tbnz" instructionID.TBNZ
  [("TBNZ_branch", TBNZ_branch);
   ("TBNZ_overflow", TBNZ_overflow);
   ("TBNZ_underflow", TBNZ_underflow);
   ("TBNZ_all", TBNZ_all)].

Definition classes : list TestClass :=
  [bcond_tests;
   br_tests;
   blr_tests;
   ret_tests;
   b_tests;
   bl_tests;
   cbz32_tests;
   cbnz32_tests;
   cbz64_tests;
   cbnz64_tests;
   tbz_tests;
   tbnz_tests].
