(* ===== verification/TestDPImm.v ===== *)
(** * Tests of the immediate instructions: [InterpreterUnitTest/dataProcessingImm.cpp]

    The test methods, statement by statement, and the classes they belong to. *)
From stdpp Require Import strings.
From S2P Require Import Prelude Instructions Core Machine TestBase.
#[global] Open Scope Z_scope.

(** ** [adr] *)

Definition ADR_write : T unit :=
  inst_ Fld.Rd 1;;
  SET_REG set_PC 0;;
  inst_ Fld.immlo 0x1;;
  inst_ Fld.immhi 0;;
  expected_ (setX 1) 1;;
  doTestInst "ADR writes to register";;
  SET_REG set_PC 0;;
  inst_ Fld.immlo 0x3;;
  inst_ Fld.immhi 0x3FFFF;;
  expected_ (setX 1) 0xFFFFF;;
  doTestInst "ADR writes to register";;
  SET_REG set_PC 0;;
  inst_ Fld.immlo 0;;
  inst_ Fld.immhi 0x40000;;
  expected_ (setX 1) 0xFFFFFFFFFFF00000;;
  doTestInst "ADR uses a signed offset";;
  SET_REG set_PC 0;;
  inst_ Fld.immlo 0x3;;
  inst_ Fld.immhi 0x40000;;
  expected_ (setX 1) 0xFFFFFFFFFFF00003;;
  doTestInst "ADR uses a signed offset";;
  SET_REG set_PC 0x12345678;;
  inst_ Fld.immlo 0x1;;
  inst_ Fld.immhi 0;;
  expected_ (setX 1) 0x12345679;;
  doTestInst "ADR uses an offset from the PC";;
  SET_REG set_PC 0x12345678;;
  inst_ Fld.immlo 0x3;;
  inst_ Fld.immhi 0x3FFFF;;
  expected_ (setX 1) 0x12445677;;
  doTestInst "ADR use an offset from the PC";;
  SET_REG set_PC 0x12345678;;
  inst_ Fld.immlo 0;;
  inst_ Fld.immhi 0x40000;;
  expected_ (setX 1) 0x0000000012245678;;
  doTestInst "ADR uses a signed offset";;
  SET_REG set_PC 0x12345678;;
  inst_ Fld.immlo 0x3;;
  inst_ Fld.immhi 0x40000;;
  expected_ (setX 1) 0x000000001224567B;;
  doTestInst "ADR uses a signed offset".

Definition ADR_sp : T unit :=
  inst_ Fld.Rd 31;;
  inst_ Fld.immlo 0x1;;
  inst_ Fld.immhi 0;;
  doTestInst "ADR does not write to SP".

Definition adr_tests : TestClass := mkTestClass "adr" instructionID.ADR
  [("ADR_write", ADR_write);
   ("ADR_sp", ADR_sp)].

(** ** [adrp] *)

Definition ADRP_write : T unit :=
  inst_ Fld.Rd 1;;
  SET_REG set_PC 0;;
  inst_ Fld.immlo 0x1;;
  inst_ Fld.immhi 0;;
  expected_ (setX 1) 0x1000;;
  doTestInst "ADRP writes to register";;
  SET_REG set_PC 0;;
  inst_ Fld.immlo 0x3;;
  inst_ Fld.immhi 0x3FFFF;;
  expected_ (setX 1) 0xFFFFF000;;
  doTestInst "ADRP writes to register";;
  SET_REG set_PC 0;;
  inst_ Fld.immlo 0;;
  inst_ Fld.immhi 0x40000;;
  expected_ (setX 1) 0xFFFFFFFF00000000;;
  doTestInst "ADRP uses a signed offset";;
  SET_REG set_PC 0;;
  inst_ Fld.immlo 0x3;;
  inst_ Fld.immhi 0x40000;;
  expected_ (setX 1) 0xFFFFFFFF00003000;;
  doTestInst "ADRP uses a signed offset";;
  SET_REG set_PC 0x12345678;;
  inst_ Fld.immlo 0;;
  inst_ Fld.immhi 0;;
  expected_ (setX 1) 0x12345000;;
  doTestInst "ADRP returns a page-aligned address";;
  SET_REG set_PC 0x12345678;;
  inst_ Fld.immlo 0x1;;
  inst_ Fld.immhi 0;;
  expected_ (setX 1) 0x12346000;;
  doTestInst "ADRP uses an offset from the PC";;
  SET_REG set_PC 0x12345678;;
  inst_ Fld.immlo 0x3;;
  inst_ Fld.immhi 0x3FFFF;;
  expected_ (setX 1) 0x112344000;;
  doTestInst "ADRP use an offset from the PC";;
  SET_REG set_PC 0x12345678;;
  inst_ Fld.immlo 0;;
  inst_ Fld.immhi 0x40000;;
  expected_ (setX 1) 0xFFFFFFFF12345000;;
  doTestInst "ADRP uses a signed offset";;
  SET_REG set_PC 0x12345678;;
  inst_ Fld.immlo 0x3;;
  inst_ Fld.immhi 0x40000;;
  expected_ (setX 1) 0xFFFFFFFF12348000;;
  doTestInst "ADRP uses a signed offset".

Definition ADRP_sp : T unit :=
  inst_ Fld.Rd 31;;
  inst_ Fld.immlo 0x1;;
  inst_ Fld.immhi 0;;
  doTestInst "ADRP does not write to SP".

Definition adrp_tests : TestClass := mkTestClass "adrp" instructionID.ADRP
  [("ADRP_write", ADRP_write);
   ("ADRP_sp", ADRP_sp)].

(** ** [add32imm] *)

Definition ADD_32_imm_basic : T unit :=
  inst_ Fld.Rn 1;;
  inst_ Fld.Rd 2;;
  SET_REG (setX 1) 5;;
  SET_REG (setX 2) 7;;
  inst_ Fld._10_21 0;;
  expected_ (setX 2) 5;;
  doTestInst "ADD_32_imm adds";;
  SET_REG (setX 1) 5;;
  SET_REG (setX 2) 7;;
  inst_ Fld._10_21 1;;
  expected_ (setX 2) 6;;
  doTestInst "ADD_32_imm adds";;
  SET_REG (setX 1) 0;;
  SET_REG (setX 2) 7;;
  inst_ Fld._10_21 1;;
  expected_ (setX 2) 1;;
  doTestInst "ADD_32_imm adds";;
  SET_REG (setX 1) 5;;
  SET_REG (setX 2) 7;;
  inst_ Fld._10_21 0xFFF;;
  expected_ (setX 2) 0x1004;;
  doTestInst "ADD_32_imm adds".

Definition ADD_32_imm_shift : T unit :=
  inst_ Fld.Rn 1;;
  inst_ Fld.Rd 2;;
  SET_REG (setX 1) 0;;
  SET_REG (setX 2) 7;;
  inst_ Fld._10_21 0xFFF;;
  expected_ (setX 2) 0xFFF;;
  doTestInst "ADD_32_imm has a shift";;
  SET_REG (setX 1) 5;;
  SET_REG (setX 2) 7;;
  inst_ Fld._10_21 0xFFF;;
  expected_ (setX 2) 0x1004;;
  doTestInst "ADD_32_imm has a shift";;
  SET_REG (setX 1) 0;;
  SET_REG (setX 2) 7;;
  inst_ Fld._10_21 0xFFF;;
  inst_ Fld.shift 1;;
  expected_ (setX 2) 0xFFF000;;
  doTestInst "ADD_32_imm has a shift";;
  SET_REG (setX 1) 5;;
  SET_REG (setX 2) 7;;
  inst_ Fld._10_21 0xFFF;;
  inst_ Fld.shift 1;;
  expected_ (setX 2) 0xFFF005;;
  doTestInst "ADD_32_imm has a shift".

Definition ADD_32_imm_sp : T unit :=
  SET_REG set_SP 5;;
  SET_REG (setX 2) 7;;
  inst_ Fld._10_21 0;;
  inst_ Fld.Rn 31;;
  inst_ Fld.Rd 2;;
  expected_ (setX 2) 5;;
  doTestInst "ADD_32_imm uses SP";;
  SET_REG set_SP 5;;
  SET_REG (setX 2) 7;;
  inst_ Fld._10_21 1;;
  inst_ Fld.Rn 31;;
  inst_ Fld.Rd 2;;
  expected_ (setX 2) 6;;
  doTestInst "ADD_32_imm uses SP";;
  SET_REG set_SP 7;;
  SET_REG (setX 2) 5;;
  inst_ Fld._10_21 0;;
  inst_ Fld.Rn 2;;
  inst_ Fld.Rd 31;;
  expected_ set_SP 5;;
  doTestInst "ADD_32_imm writes to SP";;
  SET_REG set_SP 7;;
  SET_REG (setX 2) 5;;
  inst_ Fld._10_21 1;;
  inst_ Fld.Rn 2;;
  inst_ Fld.Rd 31;;
  expected_ set_SP 6;;
  doTestInst "ADD_32_imm writes to SP".

Definition ADD_32_imm_reg_size : T unit :=
  inst_ Fld.Rn 1;;
  inst_ Fld.Rd 2;;
  SET_REG (setX 1) 0xFFFFFFFF00000000;;
  SET_REG (setX 2) 7;;
  inst_ Fld._10_21 1;;
  expected_ (setX 2) 1;;
  doTestInst "ADD_32_imm uses 32 bit regs";;
  SET_REG (setX 1) 0xFFFFFFFF00000005;;
  SET_REG (setX 2) 7;;
  inst_ Fld._10_21 1;;
  expected_ (setX 2) 6;;
  doTestInst "ADD_32_imm uses 32 bit regs";;
  SET_REG (setX 2) 7;;
  SET_REG set_SP 0xFFFFFFF0FFFFFFF0;;
  inst_ Fld._10_21 5;;
  inst_ Fld.Rn 31;;
  inst_ Fld.Rd 2;;
  expected_ (setX 2) 0xFFFFFFF5;;
  doTestInst "ADD_32_imm uses 32 bits of SP as well";;
  SET_REG (setX 1) 0xFFFFFFFFFFFFFFF0;;
  SET_REG set_SP 0xFFFFFFFFFFFFFFFF;;
  inst_ Fld._10_21 5;;
  inst_ Fld.Rn 1;;
  inst_ Fld.Rd 31;;
  expected_ set_SP 0xFFFFFFF5;;
  doTestInst "ADD_32_imm uses 32 bits of SP as well".

Definition ADD_32_imm_overflow : T unit :=
  inst_ Fld.Rn 1;;
  inst_ Fld.Rd 2;;
  SET_REG (setX 1) 0xFFFFFFFF;;
  SET_REG (setX 2) 7;;
  inst_ Fld._10_21 1;;
  expected_ (setX 2) 0;;
  doTestInst "ADD_32_imm overflows";;
  SET_REG (setX 1) 0xFFFFF001;;
  SET_REG (setX 2) 7;;
  inst_ Fld._10_21 0xFFF;;
  expected_ (setX 2) 0;;
  doTestInst "ADD_32_imm overflows";;
  SET_REG (setX 1) 0xFFFFFFFF;;
  SET_REG (setX 2) 7;;
  inst_ Fld._10_21 1;;
  inst_ Fld.shift 1;;
  expected_ (setX 2) 0xFFF;;
  doTestInst "ADD_32_imm overflows";;
  SET_REG (setX 1) 0xFF001FFF;;
  SET_REG (setX 2) 7;;
  inst_ Fld._10_21 0xFFF;;
  inst_ Fld.shift 1;;
  expected_ (setX 2) 0xFFF;;
  doTestInst "ADD_32_imm overflows".

Definition ADD_32_imm_same : T unit :=
  inst_ Fld.Rn 1;;
  inst_ Fld.Rd 1;;
  SET_REG (setX 1) 0;;
  inst_ Fld._10_21 1;;
  expected_ (setX 1) 1;;
  doTestInst "ADD_32_imm can use the same register";;
  SET_REG (setX 1) 1;;
  inst_ Fld._10_21 0;;
  expected_ (setX 1) 1;;
  doTestInst "ADD_32_imm can use the same register";;
  SET_REG (setX 1) 1;;
  inst_ Fld._10_21 5;;
  expected_ (setX 1) 6;;
  doTestInst "ADD_32_imm can use the same register";;
  SET_REG (setX 1) 0xFFFFFFFFFFFFFFFF;;
  inst_ Fld._10_21 0;;
  expected_ (setX 1) 0xFFFFFFFF;;
  doTestInst "ADD_32_imm still clears upper bits when using same register and adding 0".

Definition add32imm_tests : TestClass := mkTestClass "add32imm" instructionID.ADD_32_imm
  [("ADD_32_imm_basic", ADD_32_imm_basic);
   ("ADD_32_imm_shift", ADD_32_imm_shift);
   ("ADD_32_imm_sp", ADD_32_imm_sp);
   ("ADD_32_imm_reg_size", ADD_32_imm_reg_size);
   ("ADD_32_imm_overflow", ADD_32_imm_overflow);
   ("ADD_32_imm_same", ADD_32_imm_same)].

(** ** [add64imm] *)

Definition ADD_64_imm_basic : T unit :=
  inst_ Fld.Rn 1;;
  inst_ Fld.Rd 2;;
  SET_REG (setX 1) 5;;
  SET_REG (setX 2) 7;;
  inst_ Fld._10_21 0;;
  expected_ (setX 2) 5;;
  doTestInst "ADD_64_imm adds";;
  SET_REG (setX 1) 5;;
  SET_REG (setX 2) 7;;
  inst_ Fld._10_21 1;;
  expected_ (setX 2) 6;;
  doTestInst "ADD_64_imm adds";;
  SET_REG (setX 1) 0;;
  SET_REG (setX 2) 7;;
  inst_ Fld._10_21 1;;
  expected_ (setX 2) 1;;
  doTestInst "ADD_64_imm adds";;
  SET_REG (setX 1) 5;;
  SET_REG (setX 2) 7;;
  inst_ Fld._10_21 0xFFF;;
  expected_ (setX 2) 0x1004;;
  doTestInst "ADD_64_imm adds".

Definition ADD_64_imm_shift : T unit :=
  inst_ Fld.Rn 1;;
  inst_ Fld.Rd 2;;
  SET_REG (setX 1) 0;;
  SET_REG (setX 2) 7;;
  inst_ Fld._10_21 0xFFF;;
  expected_ (setX 2) 0xFFF;;
  doTestInst "ADD_64_imm has a shift";;
  SET_REG (setX 1) 5;;
  SET_REG (setX 2) 7;;
  inst_ Fld._10_21 0xFFF;;
  expected_ (setX 2) 0x1004;;
  doTestInst "ADD_64_imm has a shift";;
  SET_REG (setX 1) 0;;
  SET_REG (setX 2) 7;;
  inst_ Fld._10_21 0xFFF;;
  inst_ Fld.shift 1;;
  expected_ (setX 2) 0xFFF000;;
  doTestInst "ADD_64_imm has a shift";;
  SET_REG (setX 1) 5;;
  SET_REG (setX 2) 7;;
  inst_ Fld._10_21 0xFFF;;
  inst_ Fld.shift 1;;
  expected_ (setX 2) 0xFFF005;;
  doTestInst "ADD_64_imm has a shift".

Definition ADD_64_imm_sp : T unit :=
  SET_REG set_SP 5;;
  SET_REG (setX 2) 7;;
  inst_ Fld._10_21 0;;
  inst_ Fld.Rn 31;;
  inst_ Fld.Rd 2;;
  expected_ (setX 2) 5;;
  doTestInst "ADD_64_imm uses SP";;
  SET_REG set_SP 5;;
  SET_REG (setX 2) 7;;
  inst_ Fld._10_21 1;;
  inst_ Fld.Rn 31;;
  inst_ Fld.Rd 2;;
  expected_ (setX 2) 6;;
  doTestInst "ADD_64_imm uses SP";;
  SET_REG set_SP 7;;
  SET_REG (setX 2) 5;;
  inst_ Fld._10_21 0;;
  inst_ Fld.Rn 2;;
  inst_ Fld.Rd 31;;
  expected_ set_SP 5;;
  doTestInst "ADD_64_imm writes to SP";;
  SET_REG set_SP 7;;
  SET_REG (setX 2) 5;;
  inst_ Fld._10_21 1;;
  inst_ Fld.Rn 2;;
  inst_ Fld.Rd 31;;
  expected_ set_SP 6;;
  doTestInst "ADD_64_imm writes to SP".

Definition ADD_64_imm_overflow : T unit :=
  inst_ Fld.Rn 1;;
  inst_ Fld.Rd 2;;
  SET_REG (setX 1) 0xFFFFFFFFFFFFFFFF;;
  SET_REG (setX 2) 7;;
  inst_ Fld._10_21 1;;
  expected_ (setX 2) 0;;
  doTestInst "ADD_64_imm overflows";;
  SET_REG (setX 1) 0xFFFFFFFFFFFFF001;;
  SET_REG (setX 2) 7;;
  inst_ Fld._10_21 0xFFF;;
  expected_ (setX 2) 0;;
  doTestInst "ADD_64_imm overflows";;
  SET_REG (setX 1) 0xFFFFFFFFFFFFFFFF;;
  SET_REG (setX 2) 7;;
  inst_ Fld._10_21 1;;
  inst_ Fld.shift 1;;
  expected_ (setX 2) 0xFFF;;
  doTestInst "ADD_64_imm overflows";;
  SET_REG (setX 1) 0xFFFFFFFFFF001FFF;;
  SET_REG (setX 2) 7;;
  inst_ Fld._10_21 0xFFF;;
  inst_ Fld.shift 1;;
  expected_ (setX 2) 0xFFF;;
  doTestInst "ADD_64_imm overflows".

Definition ADD_64_imm_same : T unit :=
  inst_ Fld.Rn 1;;
  inst_ Fld.Rd 1;;
  SET_REG (setX 1) 0;;
  inst_ Fld._10_21 1;;
  expected_ (setX 1) 1;;
  doTestInst "ADD_64_imm can use the same register";;
  SET_REG (setX 1) 1;;
  inst_ Fld._10_21 0;;
  expected_ (setX 1) 1;;
  doTestInst "ADD_64_imm can use the same register";;
  SET_REG (setX 1) 1;;
  inst_ Fld._10_21 5;;
  expected_ (setX 1) 6;;
  doTestInst "ADD_64_imm can use the same register".

Definition add64imm_tests : TestClass := mkTestClass "add64imm" instructionID.ADD_64_imm
  [("ADD_64_imm_basic", ADD_64_imm_basic);
   ("ADD_64_imm_shift", ADD_64_imm_shift);
   ("ADD_64_imm_sp", ADD_64_imm_sp);
   ("ADD_64_imm_overflow", ADD_64_imm_overflow);
   ("ADD_64_imm_same", ADD_64_imm_same)].

(** ** [sub32imm] *)

Definition SUB_32_imm_basic : T unit :=
  inst_ Fld.Rn 1;;
  inst_ Fld.Rd 2;;
  SET_REG (setX 1) 5;;
  SET_REG (setX 2) 7;;
  inst_ Fld._10_21 0;;
  expected_ (setX 2) 5;;
  doTestInst "SUB_32_imm subtracts";;
  SET_REG (setX 1) 5;;
  SET_REG (setX 2) 7;;
  inst_ Fld._10_21 1;;
  expected_ (setX 2) 4;;
  doTestInst "SUB_32_imm subtracts";;
  SET_REG (setX 1) 0x1000;;
  SET_REG (setX 2) 7;;
  inst_ Fld._10_21 0xFFF;;
  expected_ (setX 2) 1;;
  doTestInst "SUB_32_imm subtracts".

Definition SUB_32_imm_shift : T unit :=
  inst_ Fld.Rn 1;;
  inst_ Fld.Rd 2;;
  SET_REG (setX 1) 0x1000;;
  SET_REG (setX 2) 7;;
  inst_ Fld._10_21 0xFFF;;
  expected_ (setX 2) 1;;
  doTestInst "SUB_32_imm has a shift";;
  SET_REG (setX 1) 0x1000000;;
  SET_REG (setX 2) 7;;
  inst_ Fld._10_21 0xFFF;;
  expected_ (setX 2) 0xFFF001;;
  doTestInst "SUB_32_imm has a shift";;
  SET_REG (setX 1) 0x1000000;;
  SET_REG (setX 2) 7;;
  inst_ Fld._10_21 0xFFF;;
  inst_ Fld.shift 1;;
  expected_ (setX 2) 0x1000;;
  doTestInst "SUB_32_imm has a shift".

Definition SUB_32_imm_sp : T unit :=
  SET_REG set_SP 5;;
  SET_REG (setX 2) 7;;
  inst_ Fld._10_21 0;;
  inst_ Fld.Rn 31;;
  inst_ Fld.Rd 2;;
  expected_ (setX 2) 5;;
  doTestInst "SUB_32_imm uses SP";;
  SET_REG set_SP 5;;
  SET_REG (setX 2) 7;;
  inst_ Fld._10_21 1;;
  inst_ Fld.Rn 31;;
  inst_ Fld.Rd 2;;
  expected_ (setX 2) 4;;
  doTestInst "SUB_32_imm uses SP";;
  SET_REG set_SP 7;;
  SET_REG (setX 2) 5;;
  inst_ Fld._10_21 0;;
  inst_ Fld.Rn 2;;
  inst_ Fld.Rd 31;;
  expected_ set_SP 5;;
  doTestInst "SUB_32_imm writes to SP";;
  SET_REG set_SP 7;;
  SET_REG (setX 2) 5;;
  inst_ Fld._10_21 1;;
  inst_ Fld.Rn 2;;
  inst_ Fld.Rd 31;;
  expected_ set_SP 4;;
  doTestInst "SUB_32_imm writes to SP".

Definition SUB_32_imm_reg_size : T unit :=
  inst_ Fld.Rn 1;;
  inst_ Fld.Rd 2;;
  SET_REG (setX 1) 0xFFFFFFFFFFFFFFFF;;
  SET_REG (setX 2) 7;;
  inst_ Fld._10_21 1;;
  expected_ (setX 2) 0xFFFFFFFE;;
  doTestInst "SUB_32_imm uses 32 bit regs";;
  SET_REG (setX 1) 0xFFFFFFFF00000005;;
  SET_REG (setX 2) 7;;
  inst_ Fld._10_21 1;;
  expected_ (setX 2) 4;;
  doTestInst "SUB_32_imm uses 32 bit regs";;
  SET_REG (setX 2) 7;;
  SET_REG set_SP 0xFFFFFFF0FFFFFFF0;;
  inst_ Fld._10_21 5;;
  inst_ Fld.Rn 31;;
  inst_ Fld.Rd 2;;
  expected_ (setX 2) 0xFFFFFFEB;;
  doTestInst "SUB_32_imm uses 32 bits of SP as well";;
  SET_REG (setX 1) 0xFFFFFFFFFFFFFFF0;;
  SET_REG set_SP 0xFFFFFFFFFFFFFFFF;;
  inst_ Fld._10_21 5;;
  inst_ Fld.Rn 1;;
  inst_ Fld.Rd 31;;
  expected_ set_SP 0xFFFFFFEB;;
  doTestInst "SUB_32_imm uses 32 bits of SP as well".

Definition SUB_32_imm_underflow : T unit :=
  inst_ Fld.Rn 1;;
  inst_ Fld.Rd 2;;
  SET_REG (setX 1) 0x80000000;;
  SET_REG (setX 2) 7;;
  inst_ Fld._10_21 1;;
  expected_ (setX 2) 0x7FFFFFFF;;
  doTestInst "SUB_32_imm underflows";;
  SET_REG (setX 1) 0x80000FFE;;
  SET_REG (setX 2) 7;;
  inst_ Fld._10_21 0xFFF;;
  expected_ (setX 2) 0x7FFFFFFF;;
  doTestInst "SUB_32_imm underflows";;
  SET_REG (setX 1) 0x80000FFF;;
  SET_REG (setX 2) 7;;
  inst_ Fld._10_21 1;;
  inst_ Fld.shift 1;;
  expected_ (setX 2) 0x7FFFFFFF;;
  doTestInst "SUB_32_imm underflows";;
  SET_REG (setX 1) 0x80FFEFFF;;
  SET_REG (setX 2) 7;;
  inst_ Fld._10_21 0xFFF;;
  inst_ Fld.shift 1;;
  expected_ (setX 2) 0x7FFFFFFF;;
  doTestInst "SUB_32_imm underflows".

Definition SUB_32_imm_same : T unit :=
  inst_ Fld.Rn 1;;
  inst_ Fld.Rd 1;;
  SET_REG (setX 1) 1;;
  inst_ Fld._10_21 0;;
  expected_ (setX 1) 1;;
  doTestInst "SUB_32_imm can use the same register";;
  SET_REG (setX 1) 2;;
  inst_ Fld._10_21 1;;
  expected_ (setX 1) 1;;
  doTestInst "SUB_32_imm can use the same register";;
  SET_REG (setX 1) 0xFFFFFFFFFFFFFFFF;;
  inst_ Fld._10_21 0;;
  expected_ (setX 1) 0xFFFFFFFF;;
  doTestInst "SUB_32_imm still clears upper bits when using same register and subtracting 0".

Definition sub32imm_tests : TestClass := mkTestClass "sub32imm" instructionID.SUB_32_imm
  [("SUB_32_imm_basic", SUB_32_imm_basic);
   ("SUB_32_imm_shift", SUB_32_imm_shift);
   ("SUB_32_imm_sp", SUB_32_imm_sp);
   ("SUB_32_imm_reg_size", SUB_32_imm_reg_size);
   ("SUB_32_imm_underflow", SUB_32_imm_underflow);
   ("SUB_32_imm_same", SUB_32_imm_same)].

(** ** [sub64imm] *)

Definition SUB_64_imm_basic : T unit :=
  inst_ Fld.Rn 1;;
  inst_ Fld.Rd 2;;
  SET_REG (setX 1) 5;;
  SET_REG (setX 2) 7;;
  inst_ Fld._10_21 0;;
  expected_ (setX 2) 5;;
  doTestInst "SUB_64_imm subtracts";;
  SET_REG (setX 1) 5;;
  SET_REG (setX 2) 7;;
  inst_ Fld._10_21 1;;
  expected_ (setX 2) 4;;
  doTestInst "SUB_64_imm subtracts";;
  SET_REG (setX 1) 0x1000;;
  SET_REG (setX 2) 7;;
  inst_ Fld._10_21 0xFFF;;
  expected_ (setX 2) 1;;
  doTestInst "SUB_64_imm subtracts".

Definition SUB_64_imm_shift : T unit :=
  inst_ Fld.Rn 1;;
  inst_ Fld.Rd 2;;
  SET_REG (setX 1) 0x1000;;
  SET_REG (setX 2) 7;;
  inst_ Fld._10_21 0xFFF;;
  expected_ (setX 2) 1;;
  doTestInst "SUB_64_imm has a shift";;
  SET_REG (setX 1) 0x1000000;;
  SET_REG (setX 2) 7;;
  inst_ Fld._10_21 0xFFF;;
  expected_ (setX 2) 0xFFF001;;
  doTestInst "SUB_64_imm has a shift";;
  SET_REG (setX 1) 0x1000000;;
  SET_REG (setX 2) 7;;
  inst_ Fld._10_21 0xFFF;;
  inst_ Fld.shift 1;;
  expected_ (setX 2) 0x1000;;
  doTestInst "SUB_64_imm has a shift".

Definition SUB_64_imm_sp : T unit :=
  SET_REG set_SP 5;;
  SET_REG (setX 2) 7;;
  inst_ Fld._10_21 0;;
  inst_ Fld.Rn 31;;
  inst_ Fld.Rd 2;;
  expected_ (setX 2) 5;;
  doTestInst "SUB_64_imm uses SP";;
  SET_REG set_SP 5;;
  SET_REG (setX 2) 7;;
  inst_ Fld._10_21 1;;
  inst_ Fld.Rn 31;;
  inst_ Fld.Rd 2;;
  expected_ (setX 2) 4;;
  doTestInst "SUB_64_imm uses SP";;
  SET_REG set_SP 7;;
  SET_REG (setX 2) 5;;
  inst_ Fld._10_21 0;;
  inst_ Fld.Rn 2;;
  inst_ Fld.Rd 31;;
  expected_ set_SP 5;;
  doTestInst "SUB_64_imm writes to SP";;
  SET_REG set_SP 7;;
  SET_REG (setX 2) 5;;
  inst_ Fld._10_21 1;;
  inst_ Fld.Rn 2;;
  inst_ Fld.Rd 31;;
  expected_ set_SP 4;;
  doTestInst "SUB_64_imm writes to SP".

Definition SUB_64_imm_underflow : T unit :=
  inst_ Fld.Rn 1;;
  inst_ Fld.Rd 2;;
  SET_REG (setX 1) 0x8000000000000000;;
  SET_REG (setX 2) 7;;
  inst_ Fld._10_21 1;;
  expected_ (setX 2) 0x7FFFFFFFFFFFFFFF;;
  doTestInst "SUB_64_imm underflows";;
  SET_REG (setX 1) 0x8000000000000FFE;;
  SET_REG (setX 2) 7;;
  inst_ Fld._10_21 0xFFF;;
  expected_ (setX 2) 0x7FFFFFFFFFFFFFFF;;
  doTestInst "SUB_64_imm underflows";;
  SET_REG (setX 1) 0x8000000000000FFF;;
  SET_REG (setX 2) 7;;
  inst_ Fld._10_21 1;;
  inst_ Fld.shift 1;;
  expected_ (setX 2) 0x7FFFFFFFFFFFFFFF;;
  doTestInst "SUB_64_imm underflows";;
  SET_REG (setX 1) 0x8000000000FFEFFF;;
  SET_REG (setX 2) 7;;
  inst_ Fld._10_21 0xFFF;;
  inst_ Fld.shift 1;;
  expected_ (setX 2) 0x7FFFFFFFFFFFFFFF;;
  doTestInst "SUB_64_imm underflows".

Definition SUB_64_imm_same : T unit :=
  inst_ Fld.Rn 1;;
  inst_ Fld.Rd 1;;
  SET_REG (setX 1) 1;;
  inst_ Fld._10_21 0;;
  expected_ (setX 1) 1;;
  doTestInst "SUB_64_imm can use the same register";;
  SET_REG (setX 1) 2;;
  inst_ Fld._10_21 1;;
  expected_ (setX 1) 1;;
  doTestInst "SUB_64_imm can use the same register".

Definition sub64imm_tests : TestClass := mkTestClass "sub64imm" instructionID.SUB_64_imm
  [("SUB_64_imm_basic", SUB_64_imm_basic);
   ("SUB_64_imm_shift", SUB_64_imm_shift);
   ("SUB_64_imm_sp", SUB_64_imm_sp);
   ("SUB_64_imm_underflow", SUB_64_imm_underflow);
   ("SUB_64_imm_same", SUB_64_imm_same)].

(** ** [adds32imm] *)

Definition ADDS_32_imm_basic : T unit :=
  inst_ Fld.Rn 1;;
  inst_ Fld.Rd 2;;
  SET_REG (setX 1) 5;;
  SET_REG (setX 2) 7;;
  inst_ Fld._10_21 0;;
  expected_ (setX 2) 5;;
  doTestInst "ADDS_32_imm adds";;
  SET_REG (setX 1) 5;;
  SET_REG (setX 2) 7;;
  inst_ Fld._10_21 1;;
  expected_ (setX 2) 6;;
  doTestInst "ADDS_32_imm adds";;
  SET_REG (setX 1) 0;;
  SET_REG (setX 2) 7;;
  inst_ Fld._10_21 1;;
  expected_ (setX 2) 1;;
  doTestInst "ADDS_32_imm adds";;
  SET_REG (setX 1) 5;;
  SET_REG (setX 2) 7;;
  inst_ Fld._10_21 0xFFF;;
  expected_ (setX 2) 0x1004;;
  doTestInst "ADDS_32_imm adds".

Definition ADDS_32_imm_shift : T unit :=
  inst_ Fld.Rn 1;;
  inst_ Fld.Rd 2;;
  SET_REG (setX 1) 0;;
  SET_REG (setX 2) 7;;
  inst_ Fld._10_21 0xFFF;;
  expected_ (setX 2) 0xFFF;;
  doTestInst "ADDS_32_imm has a shift";;
  SET_REG (setX 1) 5;;
  SET_REG (setX 2) 7;;
  inst_ Fld._10_21 0xFFF;;
  expected_ (setX 2) 0x1004;;
  doTestInst "ADDS_32_imm has a shift";;
  SET_REG (setX 1) 0;;
  SET_REG (setX 2) 7;;
  inst_ Fld._10_21 0xFFF;;
  inst_ Fld.shift 1;;
  expected_ (setX 2) 0xFFF000;;
  doTestInst "ADDS_32_imm has a shift";;
  SET_REG (setX 1) 5;;
  SET_REG (setX 2) 7;;
  inst_ Fld._10_21 0xFFF;;
  inst_ Fld.shift 1;;
  expected_ (setX 2) 0xFFF005;;
  doTestInst "ADDS_32_imm has a shift".

Definition ADDS_32_imm_sp : T unit :=
  SET_REG set_SP 5;;
  SET_REG (setX 2) 7;;
  inst_ Fld._10_21 0;;
  inst_ Fld.Rn 31;;
  inst_ Fld.Rd 2;;
  expected_ (setX 2) 5;;
  doTestInst "ADDS_32_imm uses SP";;
  SET_REG set_SP 5;;
  SET_REG (setX 2) 7;;
  inst_ Fld._10_21 1;;
  inst_ Fld.Rn 31;;
  inst_ Fld.Rd 2;;
  expected_ (setX 2) 6;;
  doTestInst "ADDS_32_imm uses SP";;
  SET_REG set_SP 7;;
  SET_REG (setX 2) 5;;
  inst_ Fld._10_21 0;;
  inst_ Fld.Rn 2;;
  inst_ Fld.Rd 31;;
  doTestInst "ADDS_32_imm does not write to SP";;
  SET_REG set_SP 7;;
  SET_REG (setX 2) 5;;
  inst_ Fld._10_21 1;;
  inst_ Fld.Rn 2;;
  inst_ Fld.Rd 31;;
  doTestInst "ADDS_32_imm does not writes to SP".

Definition ADDS_32_imm_reg_size : T unit :=
  inst_ Fld.Rn 1;;
  inst_ Fld.Rd 2;;
  SET_REG (setX 1) 0xFFFFFFFF00000000;;
  SET_REG (setX 2) 7;;
  inst_ Fld._10_21 1;;
  expected_ (setX 2) 1;;
  doTestInst "ADDS_32_imm uses 32 bit regs";;
  SET_REG (setX 1) 0xFFFFFFFF00000005;;
  SET_REG (setX 2) 7;;
  inst_ Fld._10_21 1;;
  expected_ (setX 2) 6;;
  doTestInst "ADDS_32_imm uses 32 bit regs";;
  SET_REG (setX 2) 7;;
  SET_REG set_SP 0xFFFFFFF0FFFFFFF0;;
  inst_ Fld._10_21 5;;
  inst_ Fld.Rn 31;;
  inst_ Fld.Rd 2;;
  expected_ (setX 2) 0xFFFFFFF5;;
  expected_ flag_N true;;
  doTestInst "ADD_32_imm uses 32 bits of SP as well".

Definition ADDS_32_imm_overflow : T unit :=
  inst_ Fld.Rn 1;;
  inst_ Fld.Rd 2;;
  SET_REG (setX 1) 0xFFFFFFFF;;
  SET_REG (setX 2) 7;;
  inst_ Fld._10_21 1;;
  expected_ (setX 2) 0;;
  expected_ flag_Z true;;
  expected_ flag_C true;;
  doTestInst "ADDS_32_imm overflows";;
  SET_REG (setX 1) 0xFFFFF001;;
  SET_REG (setX 2) 7;;
  inst_ Fld._10_21 0xFFF;;
  expected_ (setX 2) 0;;
  expected_ flag_Z true;;
  expected_ flag_C true;;
  doTestInst "ADDS_32_imm overflows";;
  SET_REG (setX 1) 0xFFFFFFFF;;
  SET_REG (setX 2) 7;;
  inst_ Fld._10_21 1;;
  inst_ Fld.shift 1;;
  expected_ (setX 2) 0xFFF;;
  expected_ flag_C true;;
  doTestInst "ADDS_32_imm overflows";;
  SET_REG (setX 1) 0xFF001FFF;;
  SET_REG (setX 2) 7;;
  inst_ Fld._10_21 0xFFF;;
  inst_ Fld.shift 1;;
  expected_ (setX 2) 0xFFF;;
  expected_ flag_C true;;
  doTestInst "ADDS_32_imm overflows".

Definition ADDS_32_imm_same : T unit :=
  inst_ Fld.Rn 1;;
  inst_ Fld.Rd 1;;
  SET_REG (setX 1) 0;;
  inst_ Fld._10_21 1;;
  expected_ (setX 1) 1;;
  doTestInst "ADDS_32_imm can use the same register";;
  SET_REG (setX 1) 1;;
  inst_ Fld._10_21 0;;
  expected_ (setX 1) 1;;
  doTestInst "ADDS_32_imm can use the same register";;
  SET_REG (setX 1) 1;;
  inst_ Fld._10_21 5;;
  expected_ (setX 1) 6;;
  doTestInst "ADDS_32_imm can use the same register";;
  SET_REG (setX 1) 0xFFFFFFFFFFFFFFFF;;
  inst_ Fld._10_21 0;;
  expected_ (setX 1) 0xFFFFFFFF;;
  expected_ flag_N true;;
  doTestInst "ADDS_32_imm still clears upper bits when using same register and adding 0".

Definition ADDS_32_imm_flag_N : T unit :=
  inst_ Fld.Rn 1;;
  inst_ Fld.Rd 2;;
  SET_REG (setX 1) 0xFFFFFFFF;;
  inst_ Fld._10_21 0;;
  expected_ (setX 2) 0xFFFFFFFF;;
  expected_ flag_N true;;
  doTestInst "ADDS_32_imm sets the N flag";;
  SET_REG (setX 1) 0x80000000;;
  inst_ Fld._10_21 0;;
  expected_ (setX 2) 0x80000000;;
  expected_ flag_N true;;
  doTestInst "ADDS_32_imm sets the N flag";;
  SET_REG (setX 1) 0x7FFFFFFF;;
  inst_ Fld._10_21 1;;
  expected_ (setX 2) 0x80000000;;
  expected_ flag_N true;;
  expected_ flag_V true;;
  doTestInst "ADDS_32_imm sets the N flag";;
  SET_REG (setX 1) 0x7FFFF001;;
  inst_ Fld._10_21 0xFFF;;
  expected_ (setX 2) 0x80000000;;
  expected_ flag_N true;;
  expected_ flag_V true;;
  doTestInst "ADDS_32_imm sets the N flag";;
  SET_REG (setX 1) 0x7FFFF000;;
  inst_ Fld._10_21 1;;
  inst_ Fld.shift 1;;
  expected_ (setX 2) 0x80000000;;
  expected_ flag_N true;;
  expected_ flag_V true;;
  doTestInst "ADDS_32_imm sets the N flag";;
  SET_REG (setX 1) 0x7F001000;;
  inst_ Fld._10_21 0xFFF;;
  inst_ Fld.shift 1;;
  expected_ (setX 2) 0x80000000;;
  expected_ flag_N true;;
  expected_ flag_V true;;
  doTestInst "ADDS_32_imm sets the N flag".

Definition ADDS_32_imm_flag_Z : T unit :=
  inst_ Fld.Rn 1;;
  inst_ Fld.Rd 2;;
  SET_REG (setX 1) 0;;
  inst_ Fld._10_21 0;;
  expected_ (setX 2) 0;;
  expected_ flag_Z true;;
  doTestInst "ADDS_32_imm sets the Z flag";;
  SET_REG (setX 1) 0xFFFFFFFF;;
  inst_ Fld._10_21 1;;
  expected_ (setX 2) 0;;
  expected_ flag_Z true;;
  expected_ flag_C true;;
  doTestInst "ADDS_32_imm sets the Z flag";;
  SET_REG (setX 1) 0xFFFFF001;;
  inst_ Fld._10_21 0xFFF;;
  expected_ (setX 2) 0;;
  expected_ flag_Z true;;
  expected_ flag_C true;;
  doTestInst "ADDS_32_imm sets the Z flag";;
  SET_REG (setX 1) 0xFFFFF000;;
  inst_ Fld._10_21 1;;
  inst_ Fld.shift 1;;
  expected_ (setX 2) 0;;
  expected_ flag_Z true;;
  expected_ flag_C true;;
  doTestInst "ADDS_32_imm sets the Z flag";;
  SET_REG (setX 1) 0xFF001000;;
  inst_ Fld._10_21 0xFFF;;
  inst_ Fld.shift 1;;
  expected_ (setX 2) 0;;
  expected_ flag_Z true;;
  expected_ flag_C true;;
  doTestInst "ADDS_32_imm sets the Z flag".

Definition ADDS_32_imm_flag_C : T unit :=
  inst_ Fld.Rn 1;;
  inst_ Fld.Rd 2;;
  SET_REG (setX 1) 0xFFFFFFFF;;
  inst_ Fld._10_21 1;;
  expected_ (setX 2) 0;;
  expected_ flag_Z true;;
  expected_ flag_C true;;
  doTestInst "ADDS_32_imm sets the C flag";;
  SET_REG (setX 1) 0xFFFFF001;;
  inst_ Fld._10_21 0xFFF;;
  expected_ (setX 2) 0;;
  expected_ flag_Z true;;
  expected_ flag_C true;;
  doTestInst "ADDS_32_imm sets the C flag";;
  SET_REG (setX 1) 0xFFFFF000;;
  inst_ Fld._10_21 1;;
  inst_ Fld.shift 1;;
  expected_ (setX 2) 0;;
  expected_ flag_Z true;;
  expected_ flag_C true;;
  doTestInst "ADDS_32_imm sets the C flag";;
  SET_REG (setX 1) 0xFF001000;;
  inst_ Fld._10_21 0xFFF;;
  inst_ Fld.shift 1;;
  expected_ (setX 2) 0;;
  expected_ flag_Z true;;
  expected_ flag_C true;;
  doTestInst "ADDS_32_imm sets the C flag".

Definition ADDS_32_imm_flag_V : T unit :=
  inst_ Fld.Rn 1;;
  inst_ Fld.Rd 2;;
  SET_REG (setX 1) 0x7FFFFFFF;;
  inst_ Fld._10_21 1;;
  expected_ (setX 2) 0x80000000;;
  expected_ flag_N true;;
  expected_ flag_V true;;
  doTestInst "ADDS_32_imm sets the V flag";;
  SET_REG (setX 1) 0x7FFFF001;;
  inst_ Fld._10_21 0xFFF;;
  expected_ (setX 2) 0x80000000;;
  expected_ flag_N true;;
  expected_ flag_V true;;
  doTestInst "ADDS_32_imm sets the V flag";;
  SET_REG (setX 1) 0x7FFFF000;;
  inst_ Fld._10_21 1;;
  inst_ Fld.shift 1;;
  expected_ (setX 2) 0x80000000;;
  expected_ flag_N true;;
  expected_ flag_V true;;
  doTestInst "ADDS_32_imm sets the V flag";;
  SET_REG (setX 1) 0x7F001000;;
  inst_ Fld._10_21 0xFFF;;
  inst_ Fld.shift 1;;
  expected_ (setX 2) 0x80000000;;
  expected_ flag_N true;;
  expected_ flag_V true;;
  doTestInst "ADDS_32_imm sets the V flag".

Definition adds32imm_tests : TestClass := mkTestClass "adds32imm" instructionID.ADDS_32_imm
  [("ADDS_32_imm_basic", ADDS_32_imm_basic);
   ("ADDS_32_imm_shift", ADDS_32_imm_shift);
   ("ADDS_32_imm_sp", ADDS_32_imm_sp);
   ("ADDS_32_imm_reg_size", ADDS_32_imm_reg_size);
   ("ADDS_32_imm_overflow", ADDS_32_imm_overflow);
   ("ADDS_32_imm_same", ADDS_32_imm_same);
   ("ADDS_32_imm_flag_N", ADDS_32_imm_flag_N);
   ("ADDS_32_imm_flag_Z", ADDS_32_imm_flag_Z);
   ("ADDS_32_imm_flag_C", ADDS_32_imm_flag_C);
   ("ADDS_32_imm_flag_V", ADDS_32_imm_flag_V)].

(** ** [adds64imm] *)

Definition ADDS_64_imm_basic : T unit :=
  inst_ Fld.Rn 1;;
  inst_ Fld.Rd 2;;
  SET_REG (setX 1) 5;;
  SET_REG (setX 2) 7;;
  inst_ Fld._10_21 0;;
  expected_ (setX 2) 5;;
  doTestInst "ADDS_64_imm adds";;
  SET_REG (setX 1) 5;;
  SET_REG (setX 2) 7;;
  inst_ Fld._10_21 1;;
  expected_ (setX 2) 6;;
  doTestInst "ADDS_64_imm adds";;
  SET_REG (setX 1) 0;;
  SET_REG (setX 2) 7;;
  inst_ Fld._10_21 1;;
  expected_ (setX 2) 1;;
  doTestInst "ADDS_64_imm adds";;
  SET_REG (setX 1) 5;;
  SET_REG (setX 2) 7;;
  inst_ Fld._10_21 0xFFF;;
  expected_ (setX 2) 0x1004;;
  doTestInst "ADDS_64_imm adds".

Definition ADDS_64_imm_shift : T unit :=
  inst_ Fld.Rn 1;;
  inst_ Fld.Rd 2;;
  SET_REG (setX 1) 0;;
  SET_REG (setX 2) 7;;
  inst_ Fld._10_21 0xFFF;;
  expected_ (setX 2) 0xFFF;;
  doTestInst "ADDS_64_imm has a shift";;
  SET_REG (setX 1) 5;;
  SET_REG (setX 2) 7;;
  inst_ Fld._10_21 0xFFF;;
  expected_ (setX 2) 0x1004;;
  doTestInst "ADDS_64_imm has a shift";;
  SET_REG (setX 1) 0;;
  SET_REG (setX 2) 7;;
  inst_ Fld._10_21 0xFFF;;
  inst_ Fld.shift 1;;
  expected_ (setX 2) 0xFFF000;;
  doTestInst "ADDS_64_imm has a shift";;
  SET_REG (setX 1) 5;;
  SET_REG (setX 2) 7;;
  inst_ Fld._10_21 0xFFF;;
  inst_ Fld.shift 1;;
  expected_ (setX 2) 0xFFF005;;
  doTestInst "ADDS_64_imm has a shift".

Definition ADDS_64_imm_sp : T unit :=
  SET_REG set_SP 5;;
  SET_REG (setX 2) 7;;
  inst_ Fld._10_21 0;;
  inst_ Fld.Rn 31;;
  inst_ Fld.Rd 2;;
  expected_ (setX 2) 5;;
  doTestInst "ADDS_64_imm uses SP";;
  SET_REG set_SP 5;;
  SET_REG (setX 2) 7;;
  inst_ Fld._10_21 1;;
  inst_ Fld.Rn 31;;
  inst_ Fld.Rd 2;;
  expected_ (setX 2) 6;;
  doTestInst "ADDS_64_imm uses SP";;
  SET_REG set_SP 7;;
  SET_REG (setX 2) 5;;
  inst_ Fld._10_21 0;;
  inst_ Fld.Rn 2;;
  inst_ Fld.Rd 31;;
  expected_ set_SP 7;;
  doTestInst "ADDS_64_imm does not write to SP";;
  SET_REG set_SP 7;;
  SET_REG (setX 2) 5;;
  inst_ Fld._10_21 1;;
  inst_ Fld.Rn 2;;
  inst_ Fld.Rd 31;;
  expected_ set_SP 7;;
  doTestInst "ADDS_64_imm does not write to SP".

Definition ADDS_64_imm_overflow : T unit :=
  inst_ Fld.Rn 1;;
  inst_ Fld.Rd 2;;
  SET_REG (setX 1) 0xFFFFFFFFFFFFFFFF;;
  SET_REG (setX 2) 7;;
  inst_ Fld._10_21 1;;
  expected_ (setX 2) 0;;
  expected_ flag_Z true;;
  expected_ flag_C true;;
  doTestInst "ADDS_64_imm overflows";;
  SET_REG (setX 1) 0xFFFFFFFFFFFFF001;;
  SET_REG (setX 2) 7;;
  inst_ Fld._10_21 0xFFF;;
  expected_ (setX 2) 0;;
  expected_ flag_Z true;;
  expected_ flag_C true;;
  doTestInst "ADDS_64_imm overflows";;
  SET_REG (setX 1) 0xFFFFFFFFFFFFFFFF;;
  SET_REG (setX 2) 7;;
  inst_ Fld._10_21 1;;
  inst_ Fld.shift 1;;
  expected_ (setX 2) 0xFFF;;
  expected_ flag_C true;;
  doTestInst "ADDS_64_imm overflows";;
  SET_REG (setX 1) 0xFFFFFFFFFF001FFF;;
  SET_REG (setX 2) 7;;
  inst_ Fld._10_21 0xFFF;;
  inst_ Fld.shift 1;;
  expected_ (setX 2) 0xFFF;;
  expected_ flag_C true;;
  doTestInst "ADDS_64_imm overflows".

Definition ADDS_64_imm_same : T unit :=
  inst_ Fld.Rn 1;;
  inst_ Fld.Rd 1;;
  SET_REG (setX 1) 0;;
  inst_ Fld._10_21 1;;
  expected_ (setX 1) 1;;
  doTestInst "ADDS_64_imm can use the same register";;
  SET_REG (setX 1) 1;;
  inst_ Fld._10_21 0;;
  expected_ (setX 1) 1;;
  doTestInst "ADDS_64_imm can use the same register";;
  SET_REG (setX 1) 1;;
  inst_ Fld._10_21 5;;
  expected_ (setX 1) 6;;
  doTestInst "ADDS_64_imm can use the same register".

Definition ADDS_64_imm_flag_N : T unit :=
  inst_ Fld.Rn 1;;
  inst_ Fld.Rd 2;;
  SET_REG (setX 1) 0xFFFFFFFFFFFFFFFF;;
  inst_ Fld._10_21 0;;
  expected_ (setX 2) 0xFFFFFFFFFFFFFFFF;;
  expected_ flag_N true;;
  doTestInst "ADDS_64_imm sets the N flag";;
  SET_REG (setX 1) 0x8000000000000000;;
  inst_ Fld._10_21 0;;
  expected_ (setX 2) 0x8000000000000000;;
  expected_ flag_N true;;
  doTestInst "ADDS_64_imm sets the N flag";;
  SET_REG (setX 1) 0x7FFFFFFFFFFFFFFF;;
  inst_ Fld._10_21 1;;
  expected_ (setX 2) 0x8000000000000000;;
  expected_ flag_N true;;
  expected_ flag_V true;;
  doTestInst "ADDS_64_imm sets the N flag";;
  SET_REG (setX 1) 0x7FFFFFFFFFFFF001;;
  inst_ Fld._10_21 0xFFF;;
  expected_ (setX 2) 0x8000000000000000;;
  expected_ flag_N true;;
  expected_ flag_V true;;
  doTestInst "ADDS_64_imm sets the N flag";;
  SET_REG (setX 1) 0x7FFFFFFFFFFFF000;;
  inst_ Fld._10_21 1;;
  inst_ Fld.shift 1;;
  expected_ (setX 2) 0x8000000000000000;;
  expected_ flag_N true;;
  expected_ flag_V true;;
  doTestInst "ADDS_64_imm sets the N flag";;
  SET_REG (setX 1) 0x7FFFFFFFFF001000;;
  inst_ Fld._10_21 0xFFF;;
  inst_ Fld.shift 1;;
  expected_ (setX 2) 0x8000000000000000;;
  expected_ flag_N true;;
  expected_ flag_V true;;
  doTestInst "ADDS_64_imm sets the N flag".

Definition ADDS_64_imm_flag_Z : T unit :=
  inst_ Fld.Rn 1;;
  inst_ Fld.Rd 2;;
  SET_REG (setX 1) 0;;
  inst_ Fld._10_21 0;;
  expected_ (setX 2) 0;;
  expected_ flag_Z true;;
  doTestInst "ADDS_64_imm sets the Z flag";;
  SET_REG (setX 1) 0xFFFFFFFFFFFFFFFF;;
  inst_ Fld._10_21 1;;
  expected_ (setX 2) 0;;
  expected_ flag_Z true;;
  expected_ flag_C true;;
  doTestInst "ADDS_64_imm sets the Z flag";;
  SET_REG (setX 1) 0xFFFFFFFFFFFFF001;;
  inst_ Fld._10_21 0xFFF;;
  expected_ (setX 2) 0;;
  expected_ flag_Z true;;
  expected_ flag_C true;;
  doTestInst "ADDS_64_imm sets the Z flag";;
  SET_REG (setX 1) 0xFFFFFFFFFFFFF000;;
  inst_ Fld._10_21 1;;
  inst_ Fld.shift 1;;
  expected_ (setX 2) 0;;
  expected_ flag_Z true;;
  expected_ flag_C true;;
  doTestInst "ADDS_64_imm sets the Z flag";;
  SET_REG (setX 1) 0xFFFFFFFFFF001000;;
  inst_ Fld._10_21 0xFFF;;
  inst_ Fld.shift 1;;
  expected_ (setX 2) 0;;
  expected_ flag_Z true;;
  expected_ flag_C true;;
  doTestInst "ADDS_64_imm sets the Z flag".

Definition ADDS_64_imm_flag_C : T unit :=
  inst_ Fld.Rn 1;;
  inst_ Fld.Rd 2;;
  SET_REG (setX 1) 0xFFFFFFFFFFFFFFFF;;
  inst_ Fld._10_21 1;;
  expected_ (setX 2) 0;;
  expected_ flag_Z true;;
  expected_ flag_C true;;
  doTestInst "ADDS_64_imm sets the C flag";;
  SET_REG (setX 1) 0xFFFFFFFFFFFFF001;;
  inst_ Fld._10_21 0xFFF;;
  expected_ (setX 2) 0;;
  expected_ flag_Z true;;
  expected_ flag_C true;;
  doTestInst "ADDS_64_imm sets the C flag";;
  SET_REG (setX 1) 0xFFFFFFFFFFFFF000;;
  inst_ Fld._10_21 1;;
  inst_ Fld.shift 1;;
  expected_ (setX 2) 0;;
  expected_ flag_Z true;;
  expected_ flag_C true;;
  doTestInst "ADDS_64_imm sets the C flag";;
  SET_REG (setX 1) 0xFFFFFFFFFF001000;;
  inst_ Fld._10_21 0xFFF;;
  inst_ Fld.shift 1;;
  expected_ (setX 2) 0;;
  expected_ flag_Z true;;
  expected_ flag_C true;;
  doTestInst "ADDS_64_imm sets the C flag".

Definition ADDS_64_imm_flag_V : T unit :=
  inst_ Fld.Rn 1;;
  inst_ Fld.Rd 2;;
  SET_REG (setX 1) 0x7FFFFFFFFFFFFFFF;;
  inst_ Fld._10_21 1;;
  expected_ (setX 2) 0x8000000000000000;;
  expected_ flag_N true;;
  expected_ flag_V true;;
  doTestInst "ADDS_64_imm sets the V flag";;
  SET_REG (setX 1) 0x7FFFFFFFFFFFF001;;
  inst_ Fld._10_21 0xFFF;;
  expected_ (setX 2) 0x8000000000000000;;
  expected_ flag_N true;;
  expected_ flag_V true;;
  doTestInst "ADDS_64_imm sets the V flag";;
  SET_REG (setX 1) 0x7FFFFFFFFFFFF000;;
  inst_ Fld._10_21 1;;
  inst_ Fld.shift 1;;
  expected_ (setX 2) 0x8000000000000000;;
  expected_ flag_N true;;
  expected_ flag_V true;;
  doTestInst "ADDS_64_imm sets the V flag";;
  SET_REG (setX 1) 0x7FFFFFFFFF001000;;
  inst_ Fld._10_21 0xFFF;;
  inst_ Fld.shift 1;;
  expected_ (setX 2) 0x8000000000000000;;
  expected_ flag_N true;;
  expected_ flag_V true;;
  doTestInst "ADDS_64_imm sets the V flag".

Definition adds64imm_tests : TestClass := mkTestClass "adds64imm" instructionID.ADDS_64_imm
  [("ADDS_64_imm_basic", ADDS_64_imm_basic);
   ("ADDS_64_imm_shift", ADDS_64_imm_shift);
   ("ADDS_64_imm_sp", ADDS_64_imm_sp);
   ("ADDS_64_imm_overflow", ADDS_64_imm_overflow);
   ("ADDS_64_imm_same", ADDS_64_imm_same);
   ("ADDS_64_imm_flag_N", ADDS_64_imm_flag_N);
   ("ADDS_64_imm_flag_Z", ADDS_64_imm_flag_Z);
   ("ADDS_64_imm_flag_C", ADDS_64_imm_flag_C);
   ("ADDS_64_imm_flag_V", ADDS_64_imm_flag_V)].

(** ** [subs32imm] *)

Definition SUBS_32_imm_basic : T unit :=
  inst_ Fld.Rn 1;;
  inst_ Fld.Rd 2;;
  SET_REG (setX 1) 5;;
  SET_REG (setX 2) 7;;
  inst_ Fld._10_21 0;;
  expected_ (setX 2) 5;;
  expected_ flag_C true;;
  doTestInst "SUBS_32_imm subtracts";;
  SET_REG (setX 1) 5;;
  SET_REG (setX 2) 7;;
  inst_ Fld._10_21 1;;
  expected_ (setX 2) 4;;
  expected_ flag_C true;;
  doTestInst "SUBS_32_imm subtracts";;
  SET_REG (setX 1) 0x1000;;
  SET_REG (setX 2) 7;;
  inst_ Fld._10_21 0xFFF;;
  expected_ (setX 2) 1;;
  expected_ flag_C true;;
  doTestInst "SUBS_32_imm subtracts".

Definition SUBS_32_imm_shift : T unit :=
  inst_ Fld.Rn 1;;
  inst_ Fld.Rd 2;;
  SET_REG (setX 1) 0x1000;;
  SET_REG (setX 2) 7;;
  inst_ Fld._10_21 0xFFF;;
  expected_ (setX 2) 1;;
  expected_ flag_C true;;
  doTestInst "SUBS_32_imm has a shift";;
  SET_REG (setX 1) 0x1000000;;
  SET_REG (setX 2) 7;;
  inst_ Fld._10_21 0xFFF;;
  expected_ (setX 2) 0xFFF001;;
  expected_ flag_C true;;
  doTestInst "SUBS_32_imm has a shift";;
  SET_REG (setX 1) 0x1000000;;
  SET_REG (setX 2) 7;;
  inst_ Fld._10_21 0xFFF;;
  inst_ Fld.shift 1;;
  expected_ (setX 2) 0x1000;;
  expected_ flag_C true;;
  doTestInst "SUBS_32_imm has a shift".

Definition SUBS_32_imm_sp : T unit :=
  SET_REG set_SP 5;;
  SET_REG (setX 2) 7;;
  inst_ Fld._10_21 0;;
  inst_ Fld.Rn 31;;
  inst_ Fld.Rd 2;;
  expected_ (setX 2) 5;;
  expected_ flag_C true;;
  doTestInst "SUBS_32_imm uses SP";;
  SET_REG set_SP 5;;
  SET_REG (setX 2) 7;;
  inst_ Fld._10_21 1;;
  inst_ Fld.Rn 31;;
  inst_ Fld.Rd 2;;
  expected_ (setX 2) 4;;
  expected_ flag_C true;;
  doTestInst "SUBS_32_imm uses SP";;
  SET_REG set_SP 7;;
  SET_REG (setX 2) 5;;
  inst_ Fld._10_21 0;;
  inst_ Fld.Rn 2;;
  inst_ Fld.Rd 31;;
  expected_ set_SP 7;;
  expected_ flag_C true;;
  doTestInst "SUBS_32_imm does not write to SP";;
  SET_REG set_SP 7;;
  SET_REG (setX 2) 5;;
  inst_ Fld._10_21 1;;
  inst_ Fld.Rn 2;;
  inst_ Fld.Rd 31;;
  expected_ set_SP 7;;
  expected_ flag_C true;;
  doTestInst "SUBS_32_imm does not write to SP".

Definition SUBS_32_imm_reg_size : T unit :=
  inst_ Fld.Rn 1;;
  inst_ Fld.Rd 2;;
  SET_REG (setX 1) 0xFFFFFFFFFFFFFFFF;;
  SET_REG (setX 2) 7;;
  inst_ Fld._10_21 1;;
  expected_ (setX 2) 0xFFFFFFFE;;
  expected_ flag_C true;;
  expected_ flag_N true;;
  doTestInst "SUBS_32_imm uses 32 bit regs";;
  SET_REG (setX 1) 0xFFFFFFFF00000005;;
  SET_REG (setX 2) 7;;
  inst_ Fld._10_21 1;;
  expected_ (setX 2) 4;;
  expected_ flag_C true;;
  doTestInst "SUBS_32_imm uses 32 bit regs";;
  SET_REG (setX 2) 7;;
  SET_REG set_SP 0xFFFFFFF0FFFFFFF0;;
  inst_ Fld._10_21 5;;
  inst_ Fld.Rn 31;;
  inst_ Fld.Rd 2;;
  expected_ (setX 2) 0xFFFFFFEB;;
  expected_ flag_C true;;
  expected_ flag_N true;;
  doTestInst "SUBS_32_imm uses 32 bits of SP as well".

Definition SUBS_32_imm_underflow : T unit :=
  inst_ Fld.Rn 1;;
  inst_ Fld.Rd 2;;
  SET_REG (setX 1) 0x80000000;;
  SET_REG (setX 2) 7;;
  inst_ Fld._10_21 1;;
  expected_ (setX 2) 0x7FFFFFFF;;
  expected_ flag_C true;;
  expected_ flag_V true;;
  doTestInst "SUBS_32_imm underflows";;
  SET_REG (setX 1) 0x80000FFE;;
  SET_REG (setX 2) 7;;
  inst_ Fld._10_21 0xFFF;;
  expected_ (setX 2) 0x7FFFFFFF;;
  expected_ flag_C true;;
  expected_ flag_V true;;
  doTestInst "SUBS_32_imm underflows";;
  SET_REG (setX 1) 0x80000FFF;;
  SET_REG (setX 2) 7;;
  inst_ Fld._10_21 1;;
  inst_ Fld.shift 1;;
  expected_ (setX 2) 0x7FFFFFFF;;
  expected_ flag_C true;;
  expected_ flag_V true;;
  doTestInst "SUBS_32_imm underflows";;
  SET_REG (setX 1) 0x80FFEFFF;;
  SET_REG (setX 2) 7;;
  inst_ Fld._10_21 0xFFF;;
  inst_ Fld.shift 1;;
  expected_ (setX 2) 0x7FFFFFFF;;
  expected_ flag_C true;;
  expected_ flag_V true;;
  doTestInst "SUBS_32_imm underflows".

Definition SUBS_32_imm_same : T unit :=
  inst_ Fld.Rn 1;;
  inst_ Fld.Rd 1;;
  SET_REG (setX 1) 1;;
  inst_ Fld._10_21 0;;
  expected_ (setX 1) 1;;
  expected_ flag_C true;;
  doTestInst "SUBS_32_imm can use the same register";;
  SET_REG (setX 1) 2;;
  inst_ Fld._10_21 1;;
  expected_ (setX 1) 1;;
  expected_ flag_C true;;
  doTestInst "SUBS_32_imm can use the same register";;
  SET_REG (setX 1) 0xFFFFFFFFFFFFFFFF;;
  inst_ Fld._10_21 0;;
  expected_ (setX 1) 0xFFFFFFFF;;
  expected_ flag_C true;;
  expected_ flag_N true;;
  doTestInst "SUBS_32_imm still clears upper bits when using same register and subtracting 0".

Definition SUBS_32_imm_flag_N : T unit :=
  inst_ Fld.Rn 1;;
  inst_ Fld.Rd 2;;
  SET_REG (setX 1) 0xFFFFFFFF;;
  inst_ Fld._10_21 0;;
  expected_ (setX 2) 0xFFFFFFFF;;
  expected_ flag_N true;;
  expected_ flag_C true;;
  doTestInst "SUBS_32_imm sets the N flag";;
  SET_REG (setX 1) 0x80000000;;
  inst_ Fld._10_21 0;;
  expected_ (setX 2) 0x80000000;;
  expected_ flag_N true;;
  expected_ flag_C true;;
  doTestInst "SUBS_32_imm sets the N flag";;
  SET_REG (setX 1) 0;;
  inst_ Fld._10_21 1;;
  expected_ (setX 2) 0xFFFFFFFF;;
  expected_ flag_N true;;
  doTestInst "SUBS_32_imm sets the N flag";;
  SET_REG (setX 1) 0;;
  inst_ Fld._10_21 0xFFF;;
  expected_ (setX 2) 0xFFFFF001;;
  expected_ flag_N true;;
  doTestInst "SUBS_32_imm sets the N flag";;
  SET_REG (setX 1) 0xFFFFFFFF;;
  inst_ Fld._10_21 1;;
  expected_ (setX 2) 0xFFFFFFFE;;
  expected_ flag_N true;;
  expected_ flag_C true;;
  doTestInst "SUBS_32_imm sets the N flag";;
  SET_REG (setX 1) 0;;
  inst_ Fld._10_21 1;;
  inst_ Fld.shift 1;;
  expected_ (setX 2) 0xFFFFF000;;
  expected_ flag_N true;;
  doTestInst "SUBS_32_imm sets the N flag";;
  SET_REG (setX 1) 0;;
  inst_ Fld._10_21 0xFFF;;
  inst_ Fld.shift 1;;
  expected_ (setX 2) 0xFF001000;;
  expected_ flag_N true;;
  doTestInst "SUBS_32_imm sets the N flag".

Definition SUBS_32_imm_flag_Z : T unit :=
  inst_ Fld.Rn 1;;
  inst_ Fld.Rd 2;;
  SET_REG (setX 1) 0;;
  inst_ Fld._10_21 0;;
  expected_ (setX 2) 0;;
  expected_ flag_Z true;;
  expected_ flag_C true;;
  doTestInst "SUBS_32_imm sets the Z flag";;
  SET_REG (setX 1) 1;;
  inst_ Fld._10_21 1;;
  expected_ (setX 2) 0;;
  expected_ flag_Z true;;
  expected_ flag_C true;;
  doTestInst "SUBS_32_imm sets the Z flag";;
  SET_REG (setX 1) 0xFFF;;
  inst_ Fld._10_21 0xFFF;;
  expected_ (setX 2) 0;;
  expected_ flag_Z true;;
  expected_ flag_C true;;
  doTestInst "SUBS_32_imm sets the Z flag";;
  SET_REG (setX 1) 0x1000;;
  inst_ Fld._10_21 1;;
  inst_ Fld.shift 1;;
  expected_ (setX 2) 0;;
  expected_ flag_Z true;;
  expected_ flag_C true;;
  doTestInst "SUBS_32_imm sets the Z flag";;
  SET_REG (setX 1) 0xFFF000;;
  inst_ Fld._10_21 0xFFF;;
  inst_ Fld.shift 1;;
  expected_ (setX 2) 0;;
  expected_ flag_Z true;;
  expected_ flag_C true;;
  doTestInst "SUBS_32_imm sets the Z flag".

Definition SUBS_32_imm_flag_C : T unit :=
  inst_ Fld.Rn 1;;
  inst_ Fld.Rd 2;;
  SET_REG (setX 1) 0xFFFFFFFF;;
  inst_ Fld._10_21 0;;
  expected_ (setX 2) 0xFFFFFFFF;;
  expected_ flag_N true;;
  expected_ flag_C true;;
  doTestInst "SUBS_32_imm sets the C flag";;
  SET_REG (setX 1) 0x80000000;;
  inst_ Fld._10_21 0;;
  expected_ (setX 2) 0x80000000;;
  expected_ flag_N true;;
  expected_ flag_C true;;
  doTestInst "SUBS_32_imm sets the C flag";;
  SET_REG (setX 1) 0;;
  inst_ Fld._10_21 0;;
  expected_ (setX 2) 0;;
  expected_ flag_Z true;;
  expected_ flag_C true;;
  doTestInst "SUBS_32_imm sets the C flag";;
  SET_REG (setX 1) 1;;
  inst_ Fld._10_21 1;;
  expected_ (setX 2) 0;;
  expected_ flag_Z true;;
  expected_ flag_C true;;
  doTestInst "SUBS_32_imm sets the C flag";;
  SET_REG (setX 1) 0xFFF;;
  inst_ Fld._10_21 0xFFF;;
  expected_ (setX 2) 0;;
  expected_ flag_Z true;;
  expected_ flag_C true;;
  doTestInst "SUBS_32_imm sets the C flag";;
  SET_REG (setX 1) 0x80000000;;
  inst_ Fld._10_21 1;;
  expected_ (setX 2) 0x7FFFFFFF;;
  expected_ flag_V true;;
  expected_ flag_C true;;
  doTestInst "SUBS_32_imm sets the C flag";;
  SET_REG (setX 1) 0x80000000;;
  inst_ Fld._10_21 0xFFF;;
  expected_ (setX 2) 0x7FFFF001;;
  expected_ flag_V true;;
  expected_ flag_C true;;
  doTestInst "SUBS_32_imm sets the C flag";;
  SET_REG (setX 1) 0x80000000;;
  inst_ Fld._10_21 1;;
  inst_ Fld.shift 1;;
  expected_ (setX 2) 0x7FFFF000;;
  expected_ flag_V true;;
  expected_ flag_C true;;
  doTestInst "SUBS_32_imm sets the C flag";;
  SET_REG (setX 1) 0x80000000;;
  inst_ Fld._10_21 0xFFF;;
  inst_ Fld.shift 1;;
  expected_ (setX 2) 0x7F001000;;
  expected_ flag_V true;;
  expected_ flag_C true;;
  doTestInst "SUBS_32_imm sets the C flag";;
  SET_REG (setX 1) 0x1000;;
  inst_ Fld._10_21 1;;
  inst_ Fld.shift 1;;
  expected_ (setX 2) 0;;
  expected_ flag_Z true;;
  expected_ flag_C true;;
  doTestInst "SUBS_32_imm sets the C flag";;
  SET_REG (setX 1) 0xFFF000;;
  inst_ Fld._10_21 0xFFF;;
  inst_ Fld.shift 1;;
  expected_ (setX 2) 0;;
  expected_ flag_Z true;;
  expected_ flag_C true;;
  doTestInst "SUBS_32_imm sets the C flag".

Definition SUBS_32_imm_flag_V : T unit :=
  inst_ Fld.Rn 1;;
  inst_ Fld.Rd 2;;
  SET_REG (setX 1) 0x80000000;;
  inst_ Fld._10_21 1;;
  expected_ (setX 2) 0x7FFFFFFF;;
  expected_ flag_V true;;
  expected_ flag_C true;;
  doTestInst "SUBS_32_imm sets the V flag";;
  SET_REG (setX 1) 0x80000000;;
  inst_ Fld._10_21 0xFFF;;
  expected_ (setX 2) 0x7FFFF001;;
  expected_ flag_V true;;
  expected_ flag_C true;;
  doTestInst "SUBS_32_imm sets the V flag";;
  SET_REG (setX 1) 0x80000000;;
  inst_ Fld._10_21 1;;
  inst_ Fld.shift 1;;
  expected_ (setX 2) 0x7FFFF000;;
  expected_ flag_V true;;
  expected_ flag_C true;;
  doTestInst "SUBS_32_imm sets the V flag";;
  SET_REG (setX 1) 0x80000000;;
  inst_ Fld._10_21 0xFFF;;
  inst_ Fld.shift 1;;
  expected_ (setX 2) 0x7F001000;;
  expected_ flag_V true;;
  expected_ flag_C true;;
  doTestInst "SUBS_32_imm sets the V flag".

Definition subs32imm_tests : TestClass := mkTestClass "subs32imm" instructionID.SUBS_32_imm
  [("SUBS_32_imm_basic", SUBS_32_imm_basic);
   ("SUBS_32_imm_shift", SUBS_32_imm_shift);
   ("SUBS_32_imm_sp", SUBS_32_imm_sp);
   ("SUBS_32_imm_reg_size", SUBS_32_imm_reg_size);
   ("SUBS_32_imm_underflow", SUBS_32_imm_underflow);
   ("SUBS_32_imm_same", SUBS_32_imm_same);
   ("SUBS_32_imm_flag_N", SUBS_32_imm_flag_N);
   ("SUBS_32_imm_flag_Z", SUBS_32_imm_flag_Z);
   ("SUBS_32_imm_flag_C", SUBS_32_imm_flag_C);
   ("SUBS_32_imm_flag_V", SUBS_32_imm_flag_V)].

(** ** [subs64imm] *)

Definition SUBS_64_imm_basic : T unit :=
  inst_ Fld.Rn 1;;
  inst_ Fld.Rd 2;;
  SET_REG (setX 1) 5;;
  SET_REG (setX 2) 7;;
  inst_ Fld._10_21 0;;
  expected_ (setX 2) 5;;
  expected_ flag_C true;;
  doTestInst "SUBS_64_imm subtracts";;
  SET_REG (setX 1) 5;;
  SET_REG (setX 2) 7;;
  inst_ Fld._10_21 1;;
  expected_ (setX 2) 4;;
  expected_ flag_C true;;
  doTestInst "SUBS_64_imm subtracts";;
  SET_REG (setX 1) 0x1000;;
  SET_REG (setX 2) 7;;
  inst_ Fld._10_21 0xFFF;;
  expected_ (setX 2) 1;;
  expected_ flag_C true;;
  doTestInst "SUBS_64_imm subtracts".

Definition SUBS_64_imm_shift : T unit :=
  inst_ Fld.Rn 1;;
  inst_ Fld.Rd 2;;
  SET_REG (setX 1) 0x1000;;
  SET_REG (setX 2) 7;;
  inst_ Fld._10_21 0xFFF;;
  expected_ (setX 2) 1;;
  expected_ flag_C true;;
  doTestInst "SUBS_64_imm has a shift";;
  SET_REG (setX 1) 0x1000000;;
  SET_REG (setX 2) 7;;
  inst_ Fld._10_21 0xFFF;;
  expected_ (setX 2) 0xFFF001;;
  expected_ flag_C true;;
  doTestInst "SUBS_64_imm has a shift";;
  SET_REG (setX 1) 0x1000000;;
  SET_REG (setX 2) 7;;
  inst_ Fld._10_21 0xFFF;;
  inst_ Fld.shift 1;;
  expected_ (setX 2) 0x1000;;
  expected_ flag_C true;;
  doTestInst "SUBS_64_imm has a shift".

Definition SUBS_64_imm_sp : T unit :=
  SET_REG set_SP 5;;
  SET_REG (setX 2) 7;;
  inst_ Fld._10_21 0;;
  inst_ Fld.Rn 31;;
  inst_ Fld.Rd 2;;
  expected_ (setX 2) 5;;
  expected_ flag_C true;;
  doTestInst "SUBS_64_imm uses SP";;
  SET_REG set_SP 5;;
  SET_REG (setX 2) 7;;
  inst_ Fld._10_21 1;;
  inst_ Fld.Rn 31;;
  inst_ Fld.Rd 2;;
  expected_ (setX 2) 4;;
  expected_ flag_C true;;
  doTestInst "SUBS_64_imm uses SP";;
  SET_REG set_SP 7;;
  SET_REG (setX 2) 5;;
  inst_ Fld._10_21 0;;
  inst_ Fld.Rn 2;;
  inst_ Fld.Rd 31;;
  expected_ set_SP 7;;
  expected_ flag_C true;;
  doTestInst "SUBS_64_imm does not write to SP";;
  SET_REG set_SP 7;;
  SET_REG (setX 2) 5;;
  inst_ Fld._10_21 1;;
  inst_ Fld.Rn 2;;
  inst_ Fld.Rd 31;;
  expected_ set_SP 7;;
  expected_ flag_C true;;
  doTestInst "SUBS_64_imm does not write to SP".

Definition SUBS_64_imm_underflow : T unit :=
  inst_ Fld.Rn 1;;
  inst_ Fld.Rd 2;;
  SET_REG (setX 1) 0x8000000000000000;;
  SET_REG (setX 2) 7;;
  inst_ Fld._10_21 1;;
  expected_ (setX 2) 0x7FFFFFFFFFFFFFFF;;
  expected_ flag_C true;;
  expected_ flag_V true;;
  doTestInst "SUBS_64_imm underflows";;
  SET_REG (setX 1) 0x8000000000000FFE;;
  SET_REG (setX 2) 7;;
  inst_ Fld._10_21 0xFFF;;
  expected_ (setX 2) 0x7FFFFFFFFFFFFFFF;;
  expected_ flag_C true;;
  expected_ flag_V true;;
  doTestInst "SUBS_64_imm underflows";;
  SET_REG (setX 1) 0x8000000000000FFF;;
  SET_REG (setX 2) 7;;
  inst_ Fld._10_21 1;;
  inst_ Fld.shift 1;;
  expected_ (setX 2) 0x7FFFFFFFFFFFFFFF;;
  expected_ flag_C true;;
  expected_ flag_V true;;
  doTestInst "SUBS_64_imm underflows";;
  SET_REG (setX 1) 0x8000000000FFEFFF;;
  SET_REG (setX 2) 7;;
  inst_ Fld._10_21 0xFFF;;
  inst_ Fld.shift 1;;
  expected_ (setX 2) 0x7FFFFFFFFFFFFFFF;;
  expected_ flag_C true;;
  expected_ flag_V true;;
  doTestInst "SUBS_64_imm underflows".

Definition SUBS_64_imm_same : T unit :=
  inst_ Fld.Rn 1;;
  inst_ Fld.Rd 1;;
  SET_REG (setX 1) 1;;
  inst_ Fld._10_21 0;;
  expected_ (setX 1) 1;;
  expected_ flag_C true;;
  doTestInst "SUBS_64_imm can use the same register";;
  SET_REG (setX 1) 2;;
  inst_ Fld._10_21 1;;
  expected_ (setX 1) 1;;
  expected_ flag_C true;;
  doTestInst "SUBS_64_imm can use the same register".

Definition SUBS_64_imm_flag_N : T unit :=
  inst_ Fld.Rn 1;;
  inst_ Fld.Rd 2;;
  SET_REG (setX 1) 0xFFFFFFFFFFFFFFFF;;
  inst_ Fld._10_21 0;;
  expected_ (setX 2) 0xFFFFFFFFFFFFFFFF;;
  expected_ flag_N true;;
  expected_ flag_C true;;
  doTestInst "SUBS_64_imm sets the N flag";;
  SET_REG (setX 1) 0x8000000000000000;;
  inst_ Fld._10_21 0;;
  expected_ (setX 2) 0x8000000000000000;;
  expected_ flag_N true;;
  expected_ flag_C true;;
  doTestInst "SUBS_64_imm sets the N flag";;
  SET_REG (setX 1) 0;;
  inst_ Fld._10_21 1;;
  expected_ (setX 2) 0xFFFFFFFFFFFFFFFF;;
  expected_ flag_N true;;
  doTestInst "SUBS_64_imm sets the N flag";;
  SET_REG (setX 1) 0;;
  inst_ Fld._10_21 0xFFF;;
  expected_ (setX 2) 0xFFFFFFFFFFFFF001;;
  expected_ flag_N true;;
  doTestInst "SUBS_64_imm sets the N flag";;
  SET_REG (setX 1) 0xFFFFFFFFFFFFFFFF;;
  inst_ Fld._10_21 1;;
  expected_ (setX 2) 0xFFFFFFFFFFFFFFFE;;
  expected_ flag_N true;;
  expected_ flag_C true;;
  doTestInst "SUBS_64_imm sets the N flag";;
  SET_REG (setX 1) 0;;
  inst_ Fld._10_21 1;;
  inst_ Fld.shift 1;;
  expected_ (setX 2) 0xFFFFFFFFFFFFF000;;
  expected_ flag_N true;;
  doTestInst "SUBS_64_imm sets the N flag";;
  SET_REG (setX 1) 0;;
  inst_ Fld._10_21 0xFFF;;
  inst_ Fld.shift 1;;
  expected_ (setX 2) 0xFFFFFFFFFF001000;;
  expected_ flag_N true;;
  doTestInst "SUBS_64_imm sets the N flag".

Definition SUBS_64_imm_flag_Z : T unit :=
  inst_ Fld.Rn 1;;
  inst_ Fld.Rd 2;;
  SET_REG (setX 1) 0;;
  inst_ Fld._10_21 0;;
  expected_ (setX 2) 0;;
  expected_ flag_Z true;;
  expected_ flag_C true;;
  doTestInst "SUBS_64_imm sets the Z flag";;
  SET_REG (setX 1) 1;;
  inst_ Fld._10_21 1;;
  expected_ (setX 2) 0;;
  expected_ flag_Z true;;
  expected_ flag_C true;;
  doTestInst "SUBS_64_imm sets the Z flag";;
  SET_REG (setX 1) 0xFFF;;
  inst_ Fld._10_21 0xFFF;;
  expected_ (setX 2) 0;;
  expected_ flag_Z true;;
  expected_ flag_C true;;
  doTestInst "SUBS_64_imm sets the Z flag";;
  SET_REG (setX 1) 0x1000;;
  inst_ Fld._10_21 1;;
  inst_ Fld.shift 1;;
  expected_ (setX 2) 0;;
  expected_ flag_Z true;;
  expected_ flag_C true;;
  doTestInst "SUBS_64_imm sets the Z flag";;
  SET_REG (setX 1) 0xFFF000;;
  inst_ Fld._10_21 0xFFF;;
  inst_ Fld.shift 1;;
  expected_ (setX 2) 0;;
  expected_ flag_Z true;;
  expected_ flag_C true;;
  doTestInst "SUBS_64_imm sets the Z flag".

Definition SUBS_64_imm_flag_C : T unit :=
  inst_ Fld.Rn 1;;
  inst_ Fld.Rd 2;;
  SET_REG (setX 1) 0xFFFFFFFFFFFFFFFF;;
  inst_ Fld._10_21 0;;
  expected_ (setX 2) 0xFFFFFFFFFFFFFFFF;;
  expected_ flag_N true;;
  expected_ flag_C true;;
  doTestInst "SUBS_64_imm sets the C flag";;
  SET_REG (setX 1) 0x8000000000000000;;
  inst_ Fld._10_21 0;;
  expected_ (setX 2) 0x8000000000000000;;
  expected_ flag_N true;;
  expected_ flag_C true;;
  doTestInst "SUBS_64_imm sets the C flag";;
  SET_REG (setX 1) 0;;
  inst_ Fld._10_21 0;;
  expected_ (setX 2) 0;;
  expected_ flag_Z true;;
  expected_ flag_C true;;
  doTestInst "SUBS_64_imm sets the C flag";;
  SET_REG (setX 1) 1;;
  inst_ Fld._10_21 1;;
  expected_ (setX 2) 0;;
  expected_ flag_Z true;;
  expected_ flag_C true;;
  doTestInst "SUBS_64_imm sets the C flag";;
  SET_REG (setX 1) 0xFFF;;
  inst_ Fld._10_21 0xFFF;;
  expected_ (setX 2) 0;;
  expected_ flag_Z true;;
  expected_ flag_C true;;
  doTestInst "SUBS_64_imm sets the C flag";;
  SET_REG (setX 1) 0x8000000000000000;;
  inst_ Fld._10_21 1;;
  expected_ (setX 2) 0x7FFFFFFFFFFFFFFF;;
  expected_ flag_V true;;
  expected_ flag_C true;;
  doTestInst "SUBS_64_imm sets the C flag";;
  SET_REG (setX 1) 0x8000000000000000;;
  inst_ Fld._10_21 0xFFF;;
  expected_ (setX 2) 0x7FFFFFFFFFFFF001;;
  expected_ flag_V true;;
  expected_ flag_C true;;
  doTestInst "SUBS_64_imm sets the C flag";;
  SET_REG (setX 1) 0x8000000000000000;;
  inst_ Fld._10_21 1;;
  inst_ Fld.shift 1;;
  expected_ (setX 2) 0x7FFFFFFFFFFFF000;;
  expected_ flag_V true;;
  expected_ flag_C true;;
  doTestInst "SUBS_64_imm sets the C flag";;
  SET_REG (setX 1) 0x8000000000000000;;
  inst_ Fld._10_21 0xFFF;;
  inst_ Fld.shift 1;;
  expected_ (setX 2) 0x7FFFFFFFFF001000;;
  expected_ flag_V true;;
  expected_ flag_C true;;
  doTestInst "SUBS_64_imm sets the C flag";;
  SET_REG (setX 1) 0x1000;;
  inst_ Fld._10_21 1;;
  inst_ Fld.shift 1;;
  expected_ (setX 2) 0;;
  expected_ flag_Z true;;
  expected_ flag_C true;;
  doTestInst "SUBS_64_imm sets the C flag";;
  SET_REG (setX 1) 0xFFF000;;
  inst_ Fld._10_21 0xFFF;;
  inst_ Fld.shift 1;;
  expected_ (setX 2) 0;;
  expected_ flag_Z true;;
  expected_ flag_C true;;
  doTestInst "SUBS_64_imm sets the C flag".

Definition SUBS_64_imm_flag_V : T unit :=
  inst_ Fld.Rn 1;;
  inst_ Fld.Rd 2;;
  SET_REG (setX 1) 0x8000000000000000;;
  inst_ Fld._10_21 1;;
  expected_ (setX 2) 0x7FFFFFFFFFFFFFFF;;
  expected_ flag_V true;;
  expected_ flag_C true;;
  doTestInst "SUBS_64_imm sets the V flag";;
  SET_REG (setX 1) 0x8000000000000000;;
  inst_ Fld._10_21 0xFFF;;
  expected_ (setX 2) 0x7FFFFFFFFFFFF001;;
  expected_ flag_V true;;
  expected_ flag_C true;;
  doTestInst "SUBS_64_imm sets the V flag";;
  SET_REG (setX 1) 0x8000000000000000;;
  inst_ Fld._10_21 1;;
  inst_ Fld.shift 1;;
  expected_ (setX 2) 0x7FFFFFFFFFFFF000;;
  expected_ flag_V true;;
  expected_ flag_C true;;
  doTestInst "SUBS_64_imm sets the V flag";;
  SET_REG (setX 1) 0x8000000000000000;;
  inst_ Fld._10_21 0xFFF;;
  inst_ Fld.shift 1;;
  expected_ (setX 2) 0x7FFFFFFFFF001000;;
  expected_ flag_V true;;
  expected_ flag_C true;;
  doTestInst "SUBS_64_imm sets the V flag".

Definition subs64imm_tests : TestClass := mkTestClass "subs64imm" instructionID.SUBS_64_imm
  [("SUBS_64_imm_basic", SUBS_64_imm_basic);
   ("SUBS_64_imm_shift", SUBS_64_imm_shift);
   ("SUBS_64_imm_sp", SUBS_64_imm_sp);
   ("SUBS_64_imm_underflow", SUBS_64_imm_underflow);
   ("SUBS_64_imm_same", SUBS_64_imm_same);
   ("SUBS_64_imm_flag_N", SUBS_64_imm_flag_N);
   ("SUBS_64_imm_flag_Z", SUBS_64_imm_flag_Z);
   ("SUBS_64_imm_flag_C", SUBS_64_imm_flag_C);
   ("SUBS_64_imm_flag_V", SUBS_64_imm_flag_V)].

(** ** [movz32] *)

Definition MOVZ_32_write : T unit :=
  inst_ Fld.Rd 1;;
  inst_ Fld._5_20 1;;
  expected_ (setX 1) 1;;
  doTestInst "MOVZ_32 writes to register";;
  inst_ Fld._5_20 0;;
  expected_ (setX 1) 0;;
  doTestInst "MOVZ_32 writes to register";;
  inst_ Fld._5_20 0xFFFF;;
  expected_ (setX 1) 0xFFFF;;
  doTestInst "MOVZ_32 writes to register".

Definition MOVZ_32_reg_size : T unit :=
  SET_REG (setX 1) 0xFFFFFFFFFFFFFFFF;;
  inst_ Fld.Rd 1;;
  inst_ Fld._5_20 0xFFFF;;
  expected_ (setX 1) 0xFFFF;;
  doTestInst "MOVZ_32 zeroes upper bits of register".

Definition MOVZ_32_shift : T unit :=
  inst_ Fld.Rd 1;;
  inst_ Fld._5_20 0xFFFF;;
  inst_ Fld.hw 1;;
  expected_ (setX 1) 0xFFFF0000;;
  doTestInst "MOVZ_32 writes to upper 16 bits with a shift".

Definition MOVZ_32_clear_with_shift : T unit :=
  SET_REG (setX 1) 0xFFFFFFFFFFFFFFFF;;
  inst_ Fld.Rd 1;;
  inst_ Fld._5_20 0xFFFF;;
  inst_ Fld.hw 1;;
  expected_ (setX 1) 0xFFFF0000;;
  doTestInst "MOVZ_32 clears lower 16 bits when there is a shift".

Definition MOVZ_32_sp : T unit :=
  inst_ Fld.Rd 31;;
  inst_ Fld._5_20 1;;
  doTestInst "MOVZ_32 does not write to SP".

Definition movz32_tests : TestClass := mkTestClass "movz32" instructionID.MOVZ_32
  [("MOVZ_32_write", MOVZ_32_write);
   ("MOVZ_32_reg_size", MOVZ_32_reg_size);
   ("MOVZ_32_shift", MOVZ_32_shift);
   ("MOVZ_32_clear_with_shift", MOVZ_32_clear_with_shift);
   ("MOVZ_32_sp", MOVZ_32_sp)].

(** ** [movz64] *)

Definition MOVZ_64_write : T unit :=
  inst_ Fld.Rd 1;;
  inst_ Fld._5_20 1;;
  expected_ (setX 1) 1;;
  doTestInst "MOVZ_64 writes to register";;
  inst_ Fld._5_20 0;;
  expected_ (setX 1) 0;;
  doTestInst "MOVZ_64 writes to register";;
  inst_ Fld._5_20 0xFFFF;;
  expected_ (setX 1) 0xFFFF;;
  doTestInst "MOVZ_64 writes to register".

Definition MOVZ_64_shift : T unit :=
  inst_ Fld.Rd 1;;
  inst_ Fld._5_20 0xFFFF;;
  inst_ Fld.hw 1;;
  expected_ (setX 1) 0xFFFF0000;;
  doTestInst "MOVZ_64 writes to upper bits with a shift";;
  inst_ Fld.hw 2;;
  expected_ (setX 1) 0xFFFF00000000;;
  doTestInst "MOVZ_64 writes to upper bits with a shift";;
  inst_ Fld.hw 3;;
  expected_ (setX 1) 0xFFFF000000000000;;
  doTestInst "MOVZ_64 writes to upper bits with a shift".

Definition MOVZ_64_clear_with_shift : T unit :=
  inst_ Fld.Rd 1;;
  inst_ Fld._5_20 0xFFFF;;
  SET_REG (setX 1) 0xFFFFFFFFFFFFFFFF;;
  inst_ Fld.hw 1;;
  expected_ (setX 1) 0xFFFF0000;;
  doTestInst "MOVZ_64 clears lower bits when there is a shift";;
  SET_REG (setX 1) 0xFFFFFFFFFFFFFFFF;;
  inst_ Fld.hw 2;;
  expected_ (setX 1) 0xFFFF00000000;;
  doTestInst "MOVZ_64 clears lower bits when there is a shift";;
  SET_REG (setX 1) 0xFFFFFFFFFFFFFFFF;;
  inst_ Fld.hw 3;;
  expected_ (setX 1) 0xFFFF000000000000;;
  doTestInst "MOVZ_64 clears lower bits when there is a shift".

Definition MOVZ_64_sp : T unit :=
  inst_ Fld.Rd 31;;
  inst_ Fld._5_20 1;;
  doTestInst "MOVZ_64 does not write to SP".

Definition movz64_tests : TestClass := mkTestClass "movz64" instructionID.MOVZ_64
  [("MOVZ_64_write", MOVZ_64_write);
   ("MOVZ_64_shift", MOVZ_64_shift);
   ("MOVZ_64_clear_with_shift", MOVZ_64_clear_with_shift);
   ("MOVZ_64_sp", MOVZ_64_sp)].

(** ** [movk32] *)

Definition MOVK_32_write : T unit :=
  inst_ Fld.Rd 1;;
  inst_ Fld._5_20 1;;
  expected_ (setX 1) 1;;
  doTestInst "MOVK_32 writes to register";;
  inst_ Fld._5_20 0;;
  expected_ (setX 1) 0;;
  doTestInst "MOVK_32 writes to register";;
  inst_ Fld._5_20 0xFFFF;;
  expected_ (setX 1) 0xFFFF;;
  doTestInst "MOVK_32 writes to register".

Definition MOVK_32_reg_size : T unit :=
  SET_REG (setX 1) 0xFFFFFFFFFFFFFFFF;;
  inst_ Fld.Rd 1;;
  inst_ Fld._5_20 0xFFFF;;
  expected_ (setX 1) 0xFFFFFFFF;;
  doTestInst "MOVK_32 zeroes upper bits of register".

Definition MOVK_32_shift : T unit :=
  inst_ Fld.Rd 1;;
  inst_ Fld._5_20 0xFFFF;;
  inst_ Fld.hw 1;;
  expected_ (setX 1) 0xFFFF0000;;
  doTestInst "MOVK_32 writes to upper 16 bits with a shift".

Definition MOVK_32_keep_with_shift : T unit :=
  SET_REG (setX 1) 0xFFFFFFFFFFFFFFFF;;
  inst_ Fld.Rd 1;;
  inst_ Fld._5_20 0xFFFF;;
  inst_ Fld.hw 1;;
  expected_ (setX 1) 0xFFFFFFFF;;
  doTestInst "MOVK_32 does not affect lower 16 bits with a shift".

Definition MOVK_32_sp : T unit :=
  inst_ Fld.Rd 31;;
  inst_ Fld._5_20 1;;
  doTestInst "MOVK_32 does not write to SP".

Definition movk32_tests : TestClass := mkTestClass "movk32" instructionID.MOVK_32
  [("MOVK_32_write", MOVK_32_write);
   ("MOVK_32_reg_size", MOVK_32_reg_size);
   ("MOVK_32_shift", MOVK_32_shift);
   ("MOVK_32_keep_with_shift", MOVK_32_keep_with_shift);
   ("MOVK_32_sp", MOVK_32_sp)].

(** ** [movk64] *)

Definition MOVK_64_write : T unit :=
  inst_ Fld.Rd 1;;
  inst_ Fld._5_20 1;;
  expected_ (setX 1) 1;;
  doTestInst "MOVK_64 writes to register";;
  inst_ Fld._5_20 0;;
  expected_ (setX 1) 0;;
  doTestInst "MOVK_64 writes to register";;
  inst_ Fld._5_20 0xFFFF;;
  expected_ (setX 1) 0xFFFF;;
  doTestInst "MOVK_64 writes to register".

Definition MOVK_64_shift : T unit :=
  inst_ Fld.Rd 1;;
  inst_ Fld._5_20 0xFFFF;;
  SET_REG (setX 1) 0;;
  inst_ Fld.hw 1;;
  expected_ (setX 1) 0xFFFF0000;;
  doTestInst "MOVK_64 writes to upper bits with a shift";;
  SET_REG (setX 1) 0;;
  inst_ Fld.hw 2;;
  expected_ (setX 1) 0xFFFF00000000;;
  doTestInst "MOVK_64 writes to upper bits with a shift";;
  SET_REG (setX 1) 0;;
  inst_ Fld.hw 3;;
  expected_ (setX 1) 0xFFFF000000000000;;
  doTestInst "MOVK_64 writes to upper bits with a shift".

Definition MOVK_64_keep_with_shift : T unit :=
  inst_ Fld.Rd 1;;
  inst_ Fld._5_20 0xFFFF;;
  SET_REG (setX 1) 0xFFFF;;
  inst_ Fld.hw 1;;
  expected_ (setX 1) 0xFFFFFFFF;;
  doTestInst "MOVK_64 does not affect lower bits with a shift";;
  SET_REG (setX 1) 0xFFFFFFFF;;
  inst_ Fld.hw 2;;
  expected_ (setX 1) 0xFFFFFFFFFFFF;;
  doTestInst "MOVK_64 does not affect lower bits with a shift";;
  SET_REG (setX 1) 0xFFFFFFFFFFFF;;
  inst_ Fld.hw 3;;
  expected_ (setX 1) 0xFFFFFFFFFFFFFFFF;;
  doTestInst "MOVK_64 does not affect lower bits with a shift".

Definition MOVK_64_sp : T unit :=
  inst_ Fld.Rd 31;;
  inst_ Fld._5_20 1;;
  doTestInst "MOVK_64 does not write to SP".

Definition movk64_tests : TestClass := mkTestClass "movk64" instructionID.MOVK_64
  [("MOVK_64_write", MOVK_64_write);
   ("MOVK_64_shift", MOVK_64_shift);
   ("MOVK_64_keep_with_shift", MOVK_64_keep_with_shift);
   ("MOVK_64_sp", MOVK_64_sp)].

(** ** [movn32] *)

Definition MOVN_32_write : T unit :=
  inst_ Fld.Rd 1;;
  inst_ Fld._5_20 1;;
  expected_ (setX 1) 0xFFFFFFFE;;
  doTestInst "MOVN_32 writes to register";;
  inst_ Fld._5_20 0;;
  expected_ (setX 1) 0xFFFFFFFF;;
  doTestInst "MOVN_32 writes to register";;
  inst_ Fld._5_20 0xFFFF;;
  expected_ (setX 1) 0xFFFF0000;;
  doTestInst "MOVN_32 writes to register".

Definition MOVN_32_reg_size : T unit :=
  SET_REG (setX 1) 0xFFFFFFFFFFFFFFFF;;
  inst_ Fld.Rd 1;;
  inst_ Fld._5_20 0;;
  expected_ (setX 1) 0xFFFFFFFF;;
  doTestInst "MOVN_32 zeroes upper bits of register".

Definition MOVN_32_shift : T unit :=
  inst_ Fld.Rd 1;;
  inst_ Fld._5_20 0xFFFF;;
  inst_ Fld.hw 1;;
  expected_ (setX 1) 0x0000FFFF;;
  doTestInst "MOVN_32 writes to upper 16 bits with a shift".

Definition MOVN_32_clear_with_shift : T unit :=
  SET_REG (setX 1) 0x12345678;;
  inst_ Fld.Rd 1;;
  inst_ Fld._5_20 0xFFFF;;
  inst_ Fld.hw 1;;
  expected_ (setX 1) 0x0000FFFF;;
  doTestInst "MOVN_32 overrides lower 16 bits when there is a shift".

Definition MOVN_32_sp : T unit :=
  inst_ Fld.Rd 31;;
  inst_ Fld._5_20 1;;
  doTestInst "MOVN_32 does not write to SP".

Definition movn32_tests : TestClass := mkTestClass "movn32" instructionID.MOVN_32
  [("MOVN_32_write", MOVN_32_write);
   ("MOVN_32_reg_size", MOVN_32_reg_size);
   ("MOVN_32_shift", MOVN_32_shift);
   ("MOVN_32_clear_with_shift", MOVN_32_clear_with_shift);
   ("MOVN_32_sp", MOVN_32_sp)].

(** ** [movn64] *)

Definition MOVN_64_write : T unit :=
  inst_ Fld.Rd 1;;
  inst_ Fld._5_20 1;;
  expected_ (setX 1) 0xFFFFFFFFFFFFFFFE;;
  doTestInst "MOVN_64 writes to register";;
  inst_ Fld._5_20 0;;
  expected_ (setX 1) 0xFFFFFFFFFFFFFFFF;;
  doTestInst "MOVN_64 writes to register";;
  inst_ Fld._5_20 0xFFFF;;
  expected_ (setX 1) 0xFFFFFFFFFFFF0000;;
  doTestInst "MOVN_64 writes to register".

Definition MOVN_64_shift : T unit :=
  inst_ Fld.Rd 1;;
  inst_ Fld._5_20 0xFFFF;;
  inst_ Fld.hw 1;;
  expected_ (setX 1) 0xFFFFFFFF0000FFFF;;
  doTestInst "MOVN_64 writes to upper bits with a shift";;
  inst_ Fld.hw 2;;
  expected_ (setX 1) 0xFFFF0000FFFFFFFF;;
  doTestInst "MOVN_64 writes to upper bits with a shift";;
  inst_ Fld.hw 3;;
  expected_ (setX 1) 0x0000FFFFFFFFFFFF;;
  doTestInst "MOVN_64 writes to upper bits with a shift".

Definition MOVN_64_clear_with_shift : T unit :=
  inst_ Fld.Rd 1;;
  inst_ Fld._5_20 0xFFFF;;
  SET_REG (setX 1) 0x123456789ABCDEF;;
  inst_ Fld.hw 1;;
  expected_ (setX 1) 0xFFFFFFFF0000FFFF;;
  doTestInst "MOVN_64 overrides lower bits when there is a shift";;
  SET_REG (setX 1) 0x123456789ABCDEF;;
  inst_ Fld.hw 2;;
  expected_ (setX 1) 0xFFFF0000FFFFFFFF;;
  doTestInst "MOVN_64 overrides lower bits when there is a shift";;
  SET_REG (setX 1) 0x123456789ABCDEF;;
  inst_ Fld.hw 3;;
  expected_ (setX 1) 0x0000FFFFFFFFFFFF;;
  doTestInst "MOVN_64 overrides lower bits when there is a shift".

Definition MOVN_64_sp : T unit :=
  inst_ Fld.Rd 31;;
  inst_ Fld._5_20 1;;
  doTestInst "MOVN_64 does not write to SP".

Definition movn64_tests : TestClass := mkTestClass "movn64" instructionID.MOVN_64
  [("MOVN_64_write", MOVN_64_write);
   ("MOVN_64_shift", MOVN_64_shift);
   ("MOVN_64_clear_with_shift", MOVN_64_clear_with_shift);
   ("MOVN_64_sp", MOVN_64_sp)].

Definition classes : list TestClass :=
  [adr_tests;
   adrp_tests;
   add32imm_tests;
   add64imm_tests;
   sub32imm_tests;
   sub64imm_tests;
   adds32imm_tests;
   adds64imm_tests;
   subs32imm_tests;
   subs64imm_tests;
   movz32_tests;
   movz64_tests;
   movk32_tests;
   movk64_tests;
   movn32_tests;
   movn64_tests].
