(* ===== verification/TestDPReg.v ===== *)
(** * Tests of the register instructions: [InterpreterUnitTest/dataProcessingReg.cpp]

    The test methods, statement by statement, and the classes they belong to. *)
From stdpp Require Import strings.
From S2P Require Import Prelude Instructions Core Machine TestBase.
#[global] Open Scope Z_scope.

(** ** [udiv32] *)

Definition UDIV_32_basic : T unit :=
  inst_ Fld.Rn 1;;
  inst_ Fld.Rm 2;;
  inst_ Fld.Rd 3;;
  SET_REG (setX 1) 1;;
  SET_REG (setX 2) 1;;
  expected_ (setX 3) 1;;
  doTestInst "UDIV_32 does basic division";;
  SET_REG (setX 1) 0;;
  SET_REG (setX 2) 1;;
  expected_ (setX 3) 0;;
  doTestInst "UDIV_32 does basic division";;
  SET_REG (setX 1) 2;;
  SET_REG (setX 2) 1;;
  expected_ (setX 3) 2;;
  doTestInst "UDIV_32 does basic division";;
  SET_REG (setX 1) 1;;
  SET_REG (setX 2) 2;;
  expected_ (setX 3) 0;;
  doTestInst "UDIV_32 does basic division";;
  SET_REG (setX 1) 1000;;
  SET_REG (setX 2) 999;;
  expected_ (setX 3) 1;;
  doTestInst "UDIV_32 rounds towards 0";;
  SET_REG (setX 1) 1000;;
  SET_REG (setX 2) 1001;;
  expected_ (setX 3) 0;;
  doTestInst "UDIV_32 rounds towards 0".

Definition UDIV_32_div_by_0 : T unit :=
  inst_ Fld.Rn 1;;
  inst_ Fld.Rm 2;;
  inst_ Fld.Rd 3;;
  SET_REG (setX 1) 1;;
  SET_REG (setX 2) 0;;
  expected_ (setX 3) 0;;
  doTestInst "UDIV_32 results in 0 when dividing by 0";;
  SET_REG (setX 1) 0;;
  SET_REG (setX 2) 0;;
  expected_ (setX 3) 0;;
  doTestInst "UDIV_32 results in 0 when dividing by 0".

Definition UDIV_32_reg_size : T unit :=
  inst_ Fld.Rn 1;;
  inst_ Fld.Rm 2;;
  inst_ Fld.Rd 3;;
  SET_REG (setX 1) 0xFFFFFFFFFFFFFFFF;;
  SET_REG (setX 2) 1;;
  expected_ (setX 3) 0xFFFFFFFF;;
  doTestInst "UDIV_32 uses only lower 32 bits of reg";;
  SET_REG (setX 1) 0xFFFFFFFF;;
  SET_REG (setX 2) 0x100000001;;
  expected_ (setX 3) 0xFFFFFFFF;;
  doTestInst "UDIV_32 uses only lower 32 bits of reg";;
  SET_REG (setX 1) 0xFFFFFFFF;;
  SET_REG (setX 2) 0x100000000;;
  expected_ (setX 3) 0;;
  doTestInst "UDIV_32 uses only lower 32 bits of reg";;
  SET_REG (setX 1) 1;;
  SET_REG (setX 2) 1;;
  SET_REG (setX 3) 0xFFFFFFFFFFFFFFFF;;
  expected_ (setX 3) 1;;
  doTestInst "UDIV_32 clears upper 32 bits of reg".

Definition UDIV_32_0_reg : T unit :=
  SET_REG set_SP 1;;
  SET_REG (setX 2) 1;;
  inst_ Fld.Rn 31;;
  inst_ Fld.Rm 2;;
  inst_ Fld.Rd 3;;
  expected_ (setX 3) 0;;
  doTestInst "UDIV_32 uses 0 reg";;
  SET_REG set_SP 1;;
  SET_REG (setX 1) 1;;
  inst_ Fld.Rn 1;;
  inst_ Fld.Rm 31;;
  inst_ Fld.Rd 3;;
  expected_ (setX 3) 0;;
  doTestInst "UDIV_32 uses 0 reg";;
  SET_REG set_SP 2;;
  SET_REG (setX 1) 1;;
  SET_REG (setX 2) 1;;
  inst_ Fld.Rn 1;;
  inst_ Fld.Rm 2;;
  inst_ Fld.Rd 31;;
  doTestInst "UDIV_32 uses 0 reg".

Definition UDIV_32_unsigned : T unit :=
  inst_ Fld.Rn 1;;
  inst_ Fld.Rm 2;;
  inst_ Fld.Rd 3;;
  SET_REG (setX 1) 1;;
  SET_REG (setX 2) 0xFFFFFFFF;;
  expected_ (setX 3) 0;;
  doTestInst "UDIV_32 is an unsigned division";;
  SET_REG (setX 1) 0x7FFFFFFF;;
  SET_REG (setX 2) 0x80000001;;
  expected_ (setX 3) 0;;
  doTestInst "UDIV_32 is an unsigned division".

Definition udiv32_tests : TestClass := mkTestClass "udiv32" instructionID.UDIV_32
  [("UDIV_32_basic", UDIV_32_basic);
   ("UDIV_32_div_by_0", UDIV_32_div_by_0);
   ("UDIV_32_reg_size", UDIV_32_reg_size);
   ("UDIV_32_0_reg", UDIV_32_0_reg);
   ("UDIV_32_unsigned", UDIV_32_unsigned)].

(** ** [sdiv32] *)

Definition SDIV_32_basic : T unit :=
  inst_ Fld.Rn 1;;
  inst_ Fld.Rm 2;;
  inst_ Fld.Rd 3;;
  SET_REG (setX 1) 1;;
  SET_REG (setX 2) 1;;
  expected_ (setX 3) 1;;
  doTestInst "SDIV_32 does basic division";;
  SET_REG (setX 1) 0;;
  SET_REG (setX 2) 1;;
  expected_ (setX 3) 0;;
  doTestInst "SDIV_32 does basic division";;
  SET_REG (setX 1) 2;;
  SET_REG (setX 2) 1;;
  expected_ (setX 3) 2;;
  doTestInst "SDIV_32 does basic division";;
  SET_REG (setX 1) 1;;
  SET_REG (setX 2) 2;;
  expected_ (setX 3) 0;;
  doTestInst "SDIV_32 does basic division";;
  SET_REG (setX 1) 1000;;
  SET_REG (setX 2) 999;;
  expected_ (setX 3) 1;;
  doTestInst "SDIV_32 rounds towards 0";;
  SET_REG (setX 1) 1000;;
  SET_REG (setX 2) 1001;;
  expected_ (setX 3) 0;;
  doTestInst "SDIV_32 rounds towards 0";;
  SET_REG (setX 1) 0x1000;;
  SET_REG (setX 2) 0xFFFFF002;;
  expected_ (setX 3) 0xFFFFFFFF;;
  doTestInst "SDIV_32 rounds towards 0";;
  SET_REG (setX 1) 0x1000;;
  SET_REG (setX 2) 0xFFFFEFFF;;
  expected_ (setX 3) 0;;
  doTestInst "SDIV_32 rounds towards 0".

Definition SDIV_32_div_by_0 : T unit :=
  inst_ Fld.Rn 1;;
  inst_ Fld.Rm 2;;
  inst_ Fld.Rd 3;;
  SET_REG (setX 1) 1;;
  SET_REG (setX 2) 0;;
  expected_ (setX 3) 0;;
  doTestInst "SDIV_32 results in 0 when dividing by 0";;
  SET_REG (setX 1) 0;;
  SET_REG (setX 2) 0;;
  expected_ (setX 3) 0;;
  doTestInst "SDIV_32 results in 0 when dividing by 0".

Definition SDIV_32_reg_size : T unit :=
  inst_ Fld.Rn 1;;
  inst_ Fld.Rm 2;;
  inst_ Fld.Rd 3;;
  SET_REG (setX 1) 0xFFFFFFFFFFFFFFFF;;
  SET_REG (setX 2) 1;;
  expected_ (setX 3) 0xFFFFFFFF;;
  doTestInst "SDIV_32 uses only lower 32 bits of reg";;
  SET_REG (setX 1) 0xFFFFFFFF;;
  SET_REG (setX 2) 0x100000001;;
  expected_ (setX 3) 0xFFFFFFFF;;
  doTestInst "SDIV_32 uses only lower 32 bits of reg";;
  SET_REG (setX 1) 0xFFFFFFFF;;
  SET_REG (setX 2) 0x100000000;;
  expected_ (setX 3) 0;;
  doTestInst "SDIV_32 uses only lower 32 bits of reg";;
  SET_REG (setX 1) 1;;
  SET_REG (setX 2) 1;;
  SET_REG (setX 3) 0xFFFFFFFFFFFFFFFF;;
  expected_ (setX 3) 1;;
  doTestInst "SDIV_32 clears upper 32 bits of reg".

Definition SDIV_32_0_reg : T unit :=
  SET_REG set_SP 1;;
  SET_REG (setX 2) 1;;
  inst_ Fld.Rn 31;;
  inst_ Fld.Rm 2;;
  inst_ Fld.Rd 3;;
  expected_ (setX 3) 0;;
  doTestInst "SDIV_32 uses 0 reg";;
  SET_REG set_SP 1;;
  SET_REG (setX 1) 1;;
  inst_ Fld.Rn 1;;
  inst_ Fld.Rm 31;;
  inst_ Fld.Rd 3;;
  expected_ (setX 3) 0;;
  doTestInst "SDIV_32 uses 0 reg";;
  SET_REG set_SP 2;;
  SET_REG (setX 1) 1;;
  SET_REG (setX 2) 1;;
  inst_ Fld.Rn 1;;
  inst_ Fld.Rm 2;;
  inst_ Fld.Rd 31;;
  doTestInst "SDIV_32 uses 0 reg".

Definition SDIV_32_signed : T unit :=
  inst_ Fld.Rn 1;;
  inst_ Fld.Rm 2;;
  inst_ Fld.Rd 3;;
  SET_REG (setX 1) 1;;
  SET_REG (setX 2) 0xFFFFFFFF;;
  expected_ (setX 3) 0xFFFFFFFF;;
  doTestInst "SDIV_32 is a signed division";;
  SET_REG (setX 1) 0x7FFFFFFF;;
  SET_REG (setX 2) 0x80000001;;
  expected_ (setX 3) 0xFFFFFFFF;;
  doTestInst "SDIV_32 is a signed division".

Definition SDIV_32_overflow : T unit :=
  SET_REG (setX 1) 0x80000000;;
  SET_REG (setX 2) 0xFFFFFFFF;;
  inst_ Fld.Rn 1;;
  inst_ Fld.Rm 2;;
  inst_ Fld.Rd 3;;
  expected_ (setX 3) 0x80000000;;
  doTestInst "SDIV_32 produces 0x80000000 on 0x80000000/0xFFFFFFFF".

Definition sdiv32_tests : TestClass := mkTestClass "sdiv32" instructionID.SDIV_32
  [("SDIV_32_basic", SDIV_32_basic);
   ("SDIV_32_div_by_0", SDIV_32_div_by_0);
   ("SDIV_32_reg_size", SDIV_32_reg_size);
   ("SDIV_32_0_reg", SDIV_32_0_reg);
   ("SDIV_32_signed", SDIV_32_signed);
   ("SDIV_32_overflow", SDIV_32_overflow)].

(** ** [udiv64] *)

Definition UDIV_64_basic : T unit :=
  inst_ Fld.Rn 1;;
  inst_ Fld.Rm 2;;
  inst_ Fld.Rd 3;;
  SET_REG (setX 1) 1;;
  SET_REG (setX 2) 1;;
  expected_ (setX 3) 1;;
  doTestInst "UDIV_64 does basic division";;
  SET_REG (setX 1) 0;;
  SET_REG (setX 2) 1;;
  expected_ (setX 3) 0;;
  doTestInst "UDIV_64 does basic division";;
  SET_REG (setX 1) 2;;
  SET_REG (setX 2) 1;;
  expected_ (setX 3) 2;;
  doTestInst "UDIV_64 does basic division";;
  SET_REG (setX 1) 1;;
  SET_REG (setX 2) 2;;
  expected_ (setX 3) 0;;
  doTestInst "UDIV_64 does basic division";;
  SET_REG (setX 1) 1000;;
  SET_REG (setX 2) 999;;
  expected_ (setX 3) 1;;
  doTestInst "UDIV_64 rounds towards 0";;
  SET_REG (setX 1) 1000;;
  SET_REG (setX 2) 1001;;
  expected_ (setX 3) 0;;
  doTestInst "UDIV_64 rounds towards 0".

Definition UDIV_64_div_by_0 : T unit :=
  inst_ Fld.Rn 1;;
  inst_ Fld.Rm 2;;
  inst_ Fld.Rd 3;;
  SET_REG (setX 1) 1;;
  SET_REG (setX 2) 0;;
  expected_ (setX 3) 0;;
  doTestInst "UDIV_64 results in 0 when dividing by 0";;
  SET_REG (setX 1) 0;;
  SET_REG (setX 2) 0;;
  expected_ (setX 3) 0;;
  doTestInst "UDIV_64 results in 0 when dividing by 0".

Definition UDIV_64_reg_size : T unit :=
  inst_ Fld.Rn 1;;
  inst_ Fld.Rm 2;;
  inst_ Fld.Rd 3;;
  SET_REG (setX 1) 0xFFFFFFFFFFFFFFFF;;
  SET_REG (setX 2) 1;;
  expected_ (setX 3) 0xFFFFFFFFFFFFFFFF;;
  doTestInst "UDIV_64 uses all 64 bits";;
  SET_REG (setX 1) 0xFFFFFFFFFFFFFFFF;;
  SET_REG (setX 2) 0x100000001;;
  expected_ (setX 3) 0xFFFFFFFF;;
  doTestInst "UDIV_64 uses all 64 bits";;
  SET_REG (setX 1) 0xFFFFFFFFFFFFFFFF;;
  SET_REG (setX 2) 0x100000000;;
  expected_ (setX 3) 0xFFFFFFFF;;
  doTestInst "UDIV_64 uses all 64 bits".

Definition UDIV_64_0_reg : T unit :=
  SET_REG set_SP 1;;
  SET_REG (setX 2) 1;;
  inst_ Fld.Rn 31;;
  inst_ Fld.Rm 2;;
  inst_ Fld.Rd 3;;
  expected_ (setX 3) 0;;
  doTestInst "UDIV_64 uses 0 reg";;
  SET_REG set_SP 1;;
  SET_REG (setX 1) 1;;
  inst_ Fld.Rn 1;;
  inst_ Fld.Rm 31;;
  inst_ Fld.Rd 3;;
  expected_ (setX 3) 0;;
  doTestInst "UDIV_64 uses 0 reg";;
  SET_REG set_SP 2;;
  SET_REG (setX 1) 1;;
  SET_REG (setX 2) 1;;
  inst_ Fld.Rn 1;;
  inst_ Fld.Rm 2;;
  inst_ Fld.Rd 31;;
  doTestInst "UDIV_64 uses 0 reg".

Definition UDIV_64_unsigned : T unit :=
  inst_ Fld.Rn 1;;
  inst_ Fld.Rm 2;;
  inst_ Fld.Rd 3;;
  SET_REG (setX 1) 1;;
  SET_REG (setX 2) 0xFFFFFFFFFFFFFFFF;;
  expected_ (setX 3) 0;;
  doTestInst "UDIV_64 is an unsigned division";;
  SET_REG (setX 1) 0x7FFFFFFFFFFFFFFF;;
  SET_REG (setX 2) 0x8000000000000001;;
  expected_ (setX 3) 0;;
  doTestInst "UDIV_64 is an unsigned division".

Definition udiv64_tests : TestClass := mkTestClass "udiv64" instructionID.UDIV_64
  [("UDIV_64_basic", UDIV_64_basic);
   ("UDIV_64_div_by_0", UDIV_64_div_by_0);
   ("UDIV_64_reg_size", UDIV_64_reg_size);
   ("UDIV_64_0_reg", UDIV_64_0_reg);
   ("UDIV_64_unsigned", UDIV_64_unsigned)].

(** ** [sdiv64] *)

Definition SDIV_64_basic : T unit :=
  inst_ Fld.Rn 1;;
  inst_ Fld.Rm 2;;
  inst_ Fld.Rd 3;;
  SET_REG (setX 1) 1;;
  SET_REG (setX 2) 1;;
  expected_ (setX 3) 1;;
  doTestInst "SDIV_64 does basic division";;
  SET_REG (setX 1) 0;;
  SET_REG (setX 2) 1;;
  expected_ (setX 3) 0;;
  doTestInst "SDIV_64 does basic division";;
  SET_REG (setX 1) 2;;
  SET_REG (setX 2) 1;;
  expected_ (setX 3) 2;;
  doTestInst "SDIV_64 does basic division";;
  SET_REG (setX 1) 1;;
  SET_REG (setX 2) 2;;
  expected_ (setX 3) 0;;
  doTestInst "SDIV_64 does basic division";;
  SET_REG (setX 1) 1000;;
  SET_REG (setX 2) 999;;
  expected_ (setX 3) 1;;
  doTestInst "SDIV_64 rounds towards 0";;
  SET_REG (setX 1) 1000;;
  SET_REG (setX 2) 1001;;
  expected_ (setX 3) 0;;
  doTestInst "SDIV_64 rounds towards 0";;
  SET_REG (setX 1) 0x1000;;
  SET_REG (setX 2) 0xFFFFFFFFFFFFF002;;
  expected_ (setX 3) 0xFFFFFFFFFFFFFFFF;;
  doTestInst "SDIV_64 rounds towards 0";;
  SET_REG (setX 1) 0x1000;;
  SET_REG (setX 2) 0xFFFFFFFFFFFFEFFF;;
  expected_ (setX 3) 0;;
  doTestInst "SDIV_64 rounds towards 0".

Definition SDIV_64_div_by_0 : T unit :=
  inst_ Fld.Rn 1;;
  inst_ Fld.Rm 2;;
  inst_ Fld.Rd 3;;
  SET_REG (setX 1) 1;;
  SET_REG (setX 2) 0;;
  expected_ (setX 3) 0;;
  doTestInst "SDIV_64 results in 0 when dividing by 0";;
  SET_REG (setX 1) 0;;
  SET_REG (setX 2) 0;;
  expected_ (setX 3) 0;;
  doTestInst "SDIV_64 results in 0 when dividing by 0".

Definition SDIV_64_reg_size : T unit :=
  inst_ Fld.Rn 1;;
  inst_ Fld.Rm 2;;
  inst_ Fld.Rd 3;;
  SET_REG (setX 1) 0xFFFFFFFFFFFFFFFF;;
  SET_REG (setX 2) 1;;
  expected_ (setX 3) 0xFFFFFFFFFFFFFFFF;;
  doTestInst "SDIV_64 uses all 64 bits";;
  SET_REG (setX 1) 0xFFFFFFFF;;
  SET_REG (setX 2) 0x100000001;;
  expected_ (setX 3) 0;;
  doTestInst "SDIV_64 uses all 64 bits";;
  SET_REG (setX 1) 0xFFFFFFFF;;
  SET_REG (setX 2) 0x100000000;;
  expected_ (setX 3) 0;;
  doTestInst "SDIV_64 uses all 64 bits".

Definition SDIV_64_0_reg : T unit :=
  SET_REG set_SP 1;;
  SET_REG (setX 2) 1;;
  inst_ Fld.Rn 31;;
  inst_ Fld.Rm 2;;
  inst_ Fld.Rd 3;;
  expected_ (setX 3) 0;;
  doTestInst "SDIV_64 uses 0 reg";;
  SET_REG set_SP 1;;
  SET_REG (setX 1) 1;;
  inst_ Fld.Rn 1;;
  inst_ Fld.Rm 31;;
  inst_ Fld.Rd 3;;
  expected_ (setX 3) 0;;
  doTestInst "SDIV_64 uses 0 reg";;
  SET_REG set_SP 2;;
  SET_REG (setX 1) 1;;
  SET_REG (setX 2) 1;;
  inst_ Fld.Rn 1;;
  inst_ Fld.Rm 2;;
  inst_ Fld.Rd 31;;
  doTestInst "SDIV_64 uses 0 reg".

Definition SDIV_64_signed : T unit :=
  inst_ Fld.Rn 1;;
  inst_ Fld.Rm 2;;
  inst_ Fld.Rd 3;;
  SET_REG (setX 1) 1;;
  SET_REG (setX 2) 0xFFFFFFFFFFFFFFFF;;
  expected_ (setX 3) 0xFFFFFFFFFFFFFFFF;;
  doTestInst "SDIV_64 is a signed division";;
  SET_REG (setX 1) 0x7FFFFFFFFFFFFFFF;;
  SET_REG (setX 2) 0x8000000000000001;;
  expected_ (setX 3) 0xFFFFFFFFFFFFFFFF;;
  doTestInst "SDIV_64 is a signed division".

Definition SDIV_64_overflow : T unit :=
  SET_REG (setX 1) 0x8000000000000000;;
  SET_REG (setX 2) 0xFFFFFFFFFFFFFFFF;;
  inst_ Fld.Rn 1;;
  inst_ Fld.Rm 2;;
  inst_ Fld.Rd 3;;
  expected_ (setX 3) 0x8000000000000000;;
  doTestInst "SDIV_64 produces 0x8000000000000000 on 0x8000000000000000/0xFFFFFFFFFFFFFFFF".

Definition sdiv64_tests : TestClass := mkTestClass "sdiv64" instructionID.SDIV_64
  [("SDIV_64_basic", SDIV_64_basic);
   ("SDIV_64_div_by_0", SDIV_64_div_by_0);
   ("SDIV_64_reg_size", SDIV_64_reg_size);
   ("SDIV_64_0_reg", SDIV_64_0_reg);
   ("SDIV_64_signed", SDIV_64_signed);
   ("SDIV_64_overflow", SDIV_64_overflow)].

(** ** [lslv32] *)

Definition LSLV_32_basic : T unit :=
  inst_ Fld.Rn 1;;
  inst_ Fld.Rm 2;;
  inst_ Fld.Rd 3;;
  SET_REG (setX 1) 0x1;;
  SET_REG (setX 2) 0;;
  SET_REG (setX 3) 0x2;;
  expected_ (setX 3) 0x1;;
  doTestInst "LSLV_32 does nothing when shift is 0";;
  SET_REG (setX 1) 0x1;;
  SET_REG (setX 2) 0x1;;
  SET_REG (setX 3) 0x1;;
  expected_ (setX 3) 0x2;;
  doTestInst "LSLV_32 can shift";;
  SET_REG (setX 1) 0x1;;
  SET_REG (setX 2) 0x1f;;
  SET_REG (setX 3) 0x2;;
  expected_ (setX 3) 0x80000000;;
  doTestInst "LSLV_32 can shift".

Definition LSLV_32_mod : T unit :=
  inst_ Fld.Rn 1;;
  inst_ Fld.Rm 2;;
  inst_ Fld.Rd 3;;
  SET_REG (setX 1) 0x1;;
  SET_REG (setX 2) 0x21;;
  SET_REG (setX 3) 0x1;;
  expected_ (setX 3) 0x2;;
  doTestInst "LSLV_32 shift is mod 32";;
  SET_REG (setX 1) 0x1;;
  SET_REG (setX 2) 0x3456378ABC356721;;
  SET_REG (setX 3) 0x1;;
  expected_ (setX 3) 0x2;;
  doTestInst "LSLV_32 shift is mod 32".

Definition LSLV_32_reg_size : T unit :=
  inst_ Fld.Rn 1;;
  inst_ Fld.Rm 2;;
  inst_ Fld.Rd 3;;
  SET_REG (setX 1) 0xFFFFFFFF;;
  SET_REG (setX 2) 0x1;;
  SET_REG (setX 3) 0x2;;
  expected_ (setX 3) 0xFFFFFFFE;;
  doTestInst "LSLV_32 uses 32bit registers";;
  SET_REG (setX 1) 0xFFFFFFFF;;
  SET_REG (setX 2) 0x100000001;;
  SET_REG (setX 3) 0x2;;
  expected_ (setX 3) 0xFFFFFFFE;;
  doTestInst "LSLV_32 uses 32bit registers";;
  SET_REG (setX 1) 0xFFFFFFFFFFFFFFFF;;
  SET_REG (setX 2) 0;;
  SET_REG (setX 3) 0x2;;
  expected_ (setX 3) 0xFFFFFFFF;;
  doTestInst "LSLV_32 uses 32bit registers".

Definition LSLV_32_same_reg : T unit :=
  SET_REG (setX 1) 0x2;;
  SET_REG (setX 2) 0x2;;
  inst_ Fld.Rn 1;;
  inst_ Fld.Rm 1;;
  inst_ Fld.Rd 2;;
  expected_ (setX 2) 0x8;;
  doTestInst "LSLV_32 can use the same register";;
  SET_REG (setX 1) 0x21;;
  SET_REG (setX 2) 0x2;;
  inst_ Fld.Rn 1;;
  inst_ Fld.Rm 1;;
  inst_ Fld.Rd 2;;
  expected_ (setX 2) 0x42;;
  doTestInst "LSLV_32 can use the same register";;
  SET_REG (setX 1) 0x1;;
  SET_REG (setX 2) 0x2;;
  inst_ Fld.Rn 1;;
  inst_ Fld.Rm 2;;
  inst_ Fld.Rd 1;;
  expected_ (setX 1) 0x4;;
  doTestInst "LSLV_32 can use the same register";;
  SET_REG (setX 1) 0x1;;
  SET_REG (setX 2) 0x2;;
  inst_ Fld.Rn 2;;
  inst_ Fld.Rm 1;;
  inst_ Fld.Rd 1;;
  expected_ (setX 1) 0x4;;
  doTestInst "LSLV_32 can use the same register";;
  SET_REG (setX 1) 0x2;;
  inst_ Fld.Rn 1;;
  inst_ Fld.Rm 1;;
  inst_ Fld.Rd 1;;
  expected_ (setX 1) 0x8;;
  doTestInst "LSLV_32 can use the same register";;
  SET_REG (setX 1) 0x21;;
  inst_ Fld.Rn 1;;
  inst_ Fld.Rm 1;;
  inst_ Fld.Rd 1;;
  expected_ (setX 1) 0x42;;
  doTestInst "LSLV_32 can use the same register".

Definition lslv32_tests : TestClass := mkTestClass "lslv32" instructionID.LSLV_32
  [("LSLV_32_basic", LSLV_32_basic);
   ("LSLV_32_mod", LSLV_32_mod);
   ("LSLV_32_reg_size", LSLV_32_reg_size);
   ("LSLV_32_same_reg", LSLV_32_same_reg)].

(** ** [lsrv32] *)

Definition LSRV_32_basic : T unit :=
  inst_ Fld.Rn 1;;
  inst_ Fld.Rm 2;;
  inst_ Fld.Rd 3;;
  SET_REG (setX 1) 0x80000000;;
  SET_REG (setX 2) 0;;
  SET_REG (setX 3) 0x2;;
  expected_ (setX 3) 0x80000000;;
  doTestInst "LSRV_32 does nothing when shift is 0";;
  SET_REG (setX 1) 0x80000000;;
  SET_REG (setX 2) 0x1;;
  SET_REG (setX 3) 0x1;;
  expected_ (setX 3) 0x40000000;;
  doTestInst "LSRV_32 can shift";;
  SET_REG (setX 1) 0x80000000;;
  SET_REG (setX 2) 0x1f;;
  SET_REG (setX 3) 0x2;;
  expected_ (setX 3) 0x1;;
  doTestInst "LSRV_32 can shift".

Definition LSRV_32_mod : T unit :=
  inst_ Fld.Rn 1;;
  inst_ Fld.Rm 2;;
  inst_ Fld.Rd 3;;
  SET_REG (setX 1) 0x80000000;;
  SET_REG (setX 2) 0x21;;
  SET_REG (setX 3) 0x1;;
  expected_ (setX 3) 0x40000000;;
  doTestInst "LSRV_32 shift is mod 32";;
  SET_REG (setX 1) 0x80000000;;
  SET_REG (setX 2) 0x3456378ABC356721;;
  SET_REG (setX 3) 0x1;;
  expected_ (setX 3) 0x40000000;;
  doTestInst "LSRV_32 shift is mod 32".

Definition LSRV_32_reg_size : T unit :=
  inst_ Fld.Rn 1;;
  inst_ Fld.Rm 2;;
  inst_ Fld.Rd 3;;
  SET_REG (setX 1) 0xFFFFFFFFFFFFFFFF;;
  SET_REG (setX 2) 0x1;;
  SET_REG (setX 3) 0x2;;
  expected_ (setX 3) 0x7FFFFFFF;;
  doTestInst "LSRV_32 uses 32bit registers";;
  SET_REG (setX 1) 0xFFFFFFFFFFFFFFFF;;
  SET_REG (setX 2) 0x100000001;;
  SET_REG (setX 3) 0x2;;
  expected_ (setX 3) 0x7FFFFFFF;;
  doTestInst "LSRV_32 uses 32bit registers";;
  SET_REG (setX 1) 0xFFFFFFFFFFFFFFFF;;
  SET_REG (setX 2) 0;;
  SET_REG (setX 3) 0x2;;
  expected_ (setX 3) 0xFFFFFFFF;;
  doTestInst "LSRV_32 uses 32bit registers".

Definition LSRV_32_same_reg : T unit :=
  SET_REG (setX 1) 0x2;;
  SET_REG (setX 2) 0x2;;
  inst_ Fld.Rn 1;;
  inst_ Fld.Rm 1;;
  inst_ Fld.Rd 2;;
  expected_ (setX 2) 0x0;;
  doTestInst "LSRV_32 can use the same register";;
  SET_REG (setX 1) 0x21;;
  SET_REG (setX 2) 0x2;;
  inst_ Fld.Rn 1;;
  inst_ Fld.Rm 1;;
  inst_ Fld.Rd 2;;
  expected_ (setX 2) 0x10;;
  doTestInst "LSRV_32 can use the same register";;
  SET_REG (setX 1) 0x80000000;;
  SET_REG (setX 2) 0x2;;
  inst_ Fld.Rn 1;;
  inst_ Fld.Rm 2;;
  inst_ Fld.Rd 1;;
  expected_ (setX 1) 0x20000000;;
  doTestInst "LSRV_32 can use the same register";;
  SET_REG (setX 1) 0x2;;
  SET_REG (setX 2) 0x80000000;;
  inst_ Fld.Rn 2;;
  inst_ Fld.Rm 1;;
  inst_ Fld.Rd 1;;
  expected_ (setX 1) 0x20000000;;
  doTestInst "LSRV_32 can use the same register";;
  SET_REG (setX 1) 0x2;;
  inst_ Fld.Rn 1;;
  inst_ Fld.Rm 1;;
  inst_ Fld.Rd 1;;
  expected_ (setX 1) 0x0;;
  doTestInst "LSRV_32 can use the same register";;
  SET_REG (setX 1) 0x21;;
  inst_ Fld.Rn 1;;
  inst_ Fld.Rm 1;;
  inst_ Fld.Rd 1;;
  expected_ (setX 1) 0x10;;
  doTestInst "LSRV_32 can use the same register".

Definition lsrv32_tests : TestClass := mkTestClass "lsrv32" instructionID.LSRV_32
  [("LSRV_32_basic", LSRV_32_basic);
   ("LSRV_32_mod", LSRV_32_mod);
   ("LSRV_32_reg_size", LSRV_32_reg_size);
   ("LSRV_32_same_reg", LSRV_32_same_reg)].

(** ** [asrv32] *)

Definition ASRV_32_basic : T unit :=
  inst_ Fld.Rn 1;;
  inst_ Fld.Rm 2;;
  inst_ Fld.Rd 3;;
  SET_REG (setX 1) 0x80000000;;
  SET_REG (setX 2) 0;;
  SET_REG (setX 3) 0x2;;
  expected_ (setX 3) 0x80000000;;
  doTestInst "ASRV_32 does nothing when shift is 0";;
  SET_REG (setX 1) 0x80000000;;
  SET_REG (setX 2) 0x1;;
  SET_REG (setX 3) 0x1;;
  expected_ (setX 3) 0xC0000000;;
  doTestInst "ASRV_32 can shift";;
  SET_REG (setX 1) 0x80000000;;
  SET_REG (setX 2) 0x1f;;
  SET_REG (setX 3) 0x2;;
  expected_ (setX 3) 0xFFFFFFFF;;
  doTestInst "ASRV_32 can shift";;
  SET_REG (setX 1) 0x40000000;;
  SET_REG (setX 2) 0x1;;
  SET_REG (setX 3) 0x2;;
  expected_ (setX 3) 0x20000000;;
  doTestInst "ASRV_32 can shift".

Definition ASRV_32_mod : T unit :=
  inst_ Fld.Rn 1;;
  inst_ Fld.Rm 2;;
  inst_ Fld.Rd 3;;
  SET_REG (setX 1) 0x80000000;;
  SET_REG (setX 2) 0x21;;
  SET_REG (setX 3) 0x1;;
  expected_ (setX 3) 0xC0000000;;
  doTestInst "ASRV_32 shift is mod 32";;
  SET_REG (setX 1) 0x80000000;;
  SET_REG (setX 2) 0x3456378ABC356721;;
  SET_REG (setX 3) 0x1;;
  expected_ (setX 3) 0xC0000000;;
  doTestInst "ASRV_32 shift is mod 32".

Definition ASRV_32_reg_size : T unit :=
  inst_ Fld.Rn 1;;
  inst_ Fld.Rm 2;;
  inst_ Fld.Rd 3;;
  SET_REG (setX 1) 0x7FFFFFFFFFFFFFFF;;
  SET_REG (setX 2) 0x1;;
  SET_REG (setX 3) 0x2;;
  expected_ (setX 3) 0xFFFFFFFF;;
  doTestInst "ASRV_32 uses 32bit registers";;
  SET_REG (setX 1) 0x7FFFFFFFFFFFFFFF;;
  SET_REG (setX 2) 0x100000001;;
  SET_REG (setX 3) 0x2;;
  expected_ (setX 3) 0xFFFFFFFF;;
  doTestInst "ASRV_32 uses 32bit registers";;
  SET_REG (setX 1) 0xFFFFFFFFFFFFFFFF;;
  SET_REG (setX 2) 0;;
  SET_REG (setX 3) 0x2;;
  expected_ (setX 3) 0xFFFFFFFF;;
  doTestInst "ASRV_32 uses 32bit registers".

Definition ASRV_32_same_reg : T unit :=
  SET_REG (setX 1) 0x2;;
  SET_REG (setX 2) 0x2;;
  inst_ Fld.Rn 1;;
  inst_ Fld.Rm 1;;
  inst_ Fld.Rd 2;;
  expected_ (setX 2) 0x0;;
  doTestInst "ASRV_32 can use the same register";;
  SET_REG (setX 1) 0x21;;
  SET_REG (setX 2) 0x2;;
  inst_ Fld.Rn 1;;
  inst_ Fld.Rm 1;;
  inst_ Fld.Rd 2;;
  expected_ (setX 2) 0x10;;
  doTestInst "ASRV_32 can use the same register";;
  SET_REG (setX 1) 0x80000000;;
  SET_REG (setX 2) 0x2;;
  inst_ Fld.Rn 1;;
  inst_ Fld.Rm 2;;
  inst_ Fld.Rd 1;;
  expected_ (setX 1) 0xE0000000;;
  doTestInst "ASRV_32 can use the same register";;
  SET_REG (setX 1) 0x2;;
  SET_REG (setX 2) 0x80000000;;
  inst_ Fld.Rn 2;;
  inst_ Fld.Rm 1;;
  inst_ Fld.Rd 1;;
  expected_ (setX 1) 0xE0000000;;
  doTestInst "ASRV_32 can use the same register";;
  SET_REG (setX 1) 0x2;;
  inst_ Fld.Rn 1;;
  inst_ Fld.Rm 1;;
  inst_ Fld.Rd 1;;
  expected_ (setX 1) 0x0;;
  doTestInst "ASRV_32 can use the same register";;
  SET_REG (setX 1) 0x21;;
  inst_ Fld.Rn 1;;
  inst_ Fld.Rm 1;;
  inst_ Fld.Rd 1;;
  expected_ (setX 1) 0x10;;
  doTestInst "ASRV_32 can use the same register".

Definition asrv32_tests : TestClass := mkTestClass "asrv32" instructionID.ASRV_32
  [("ASRV_32_basic", ASRV_32_basic);
   ("ASRV_32_mod", ASRV_32_mod);
   ("ASRV_32_reg_size", ASRV_32_reg_size);
   ("ASRV_32_same_reg", ASRV_32_same_reg)].

(** ** [rorv32] *)

Definition RORV_32_basic : T unit :=
  inst_ Fld.Rn 1;;
  inst_ Fld.Rm 2;;
  inst_ Fld.Rd 3;;
  SET_REG (setX 1) 0x80000001;;
  SET_REG (setX 2) 0;;
  SET_REG (setX 3) 0x2;;
  expected_ (setX 3) 0x80000001;;
  doTestInst "RORV_32 does nothing when shift is 0";;
  SET_REG (setX 1) 0x80000001;;
  SET_REG (setX 2) 0x1;;
  SET_REG (setX 3) 0x1;;
  expected_ (setX 3) 0xC0000000;;
  doTestInst "RORV_32 can rotate";;
  SET_REG (setX 1) 0x80000001;;
  SET_REG (setX 2) 0x1f;;
  SET_REG (setX 3) 0x2;;
  expected_ (setX 3) 0x3;;
  doTestInst "RORV_32 can rotate".

Definition RORV_32_mod : T unit :=
  inst_ Fld.Rn 1;;
  inst_ Fld.Rm 2;;
  inst_ Fld.Rd 3;;
  SET_REG (setX 1) 0x80000001;;
  SET_REG (setX 2) 0x21;;
  SET_REG (setX 3) 0x1;;
  expected_ (setX 3) 0xC0000000;;
  doTestInst "RORV_32 shift is mod 32";;
  SET_REG (setX 1) 0x80000001;;
  SET_REG (setX 2) 0x3456378ABC356721;;
  SET_REG (setX 3) 0x1;;
  expected_ (setX 3) 0xC0000000;;
  doTestInst "RORV_32 shift is mod 32".

Definition RORV_32_reg_size : T unit :=
  inst_ Fld.Rn 1;;
  inst_ Fld.Rm 2;;
  inst_ Fld.Rd 3;;
  SET_REG (setX 1) 0x100000001;;
  SET_REG (setX 2) 0x1;;
  SET_REG (setX 3) 0x2;;
  expected_ (setX 3) 0x80000000;;
  doTestInst "RORV_32 uses 32bit registers";;
  SET_REG (setX 1) 0x100000001;;
  SET_REG (setX 2) 0x100000001;;
  SET_REG (setX 3) 0x2;;
  expected_ (setX 3) 0x80000000;;
  doTestInst "RORV_32 uses 32bit registers";;
  SET_REG (setX 1) 0xFFFFFFFFFFFFFFFF;;
  SET_REG (setX 2) 0;;
  SET_REG (setX 3) 0x2;;
  expected_ (setX 3) 0xFFFFFFFF;;
  doTestInst "RORV_32 uses 32bit registers".

Definition RORV_32_same_reg : T unit :=
  SET_REG (setX 1) 0x2;;
  SET_REG (setX 2) 0x2;;
  inst_ Fld.Rn 1;;
  inst_ Fld.Rm 1;;
  inst_ Fld.Rd 2;;
  expected_ (setX 2) 0x80000000;;
  doTestInst "RORV_32 can use the same register";;
  SET_REG (setX 1) 0x21;;
  SET_REG (setX 2) 0x2;;
  inst_ Fld.Rn 1;;
  inst_ Fld.Rm 1;;
  inst_ Fld.Rd 2;;
  expected_ (setX 2) 0x80000010;;
  doTestInst "RORV_32 can use the same register";;
  SET_REG (setX 1) 0x80000001;;
  SET_REG (setX 2) 0x2;;
  inst_ Fld.Rn 1;;
  inst_ Fld.Rm 2;;
  inst_ Fld.Rd 1;;
  expected_ (setX 1) 0x60000000;;
  doTestInst "RORV_32 can use the same register";;
  SET_REG (setX 1) 0x2;;
  SET_REG (setX 2) 0x80000001;;
  inst_ Fld.Rn 2;;
  inst_ Fld.Rm 1;;
  inst_ Fld.Rd 1;;
  expected_ (setX 1) 0x60000000;;
  doTestInst "RORV_32 can use the same register";;
  SET_REG (setX 1) 0x2;;
  inst_ Fld.Rn 1;;
  inst_ Fld.Rm 1;;
  inst_ Fld.Rd 1;;
  expected_ (setX 1) 0x80000000;;
  doTestInst "RORV_32 can use the same register";;
  SET_REG (setX 1) 0x21;;
  inst_ Fld.Rn 1;;
  inst_ Fld.Rm 1;;
  inst_ Fld.Rd 1;;
  expected_ (setX 1) 0x80000010;;
  doTestInst "RORV_32 can use the same register".

Definition rorv32_tests : TestClass := mkTestClass "rorv32" instructionID.RORV_32
  [("RORV_32_basic", RORV_32_basic);
   ("RORV_32_mod", RORV_32_mod);
   ("RORV_32_reg_size", RORV_32_reg_size);
   ("RORV_32_same_reg", RORV_32_same_reg)].

(** ** [lslv64] *)

Definition LSLV_64_basic : T unit :=
  inst_ Fld.Rn 1;;
  inst_ Fld.Rm 2;;
  inst_ Fld.Rd 3;;
  SET_REG (setX 1) 0x1;;
  SET_REG (setX 2) 0;;
  SET_REG (setX 3) 0x2;;
  expected_ (setX 3) 0x1;;
  doTestInst "LSLV_64 does nothing when shift is 0";;
  SET_REG (setX 1) 0x1;;
  SET_REG (setX 2) 0x1;;
  SET_REG (setX 3) 0x1;;
  expected_ (setX 3) 0x2;;
  doTestInst "LSLV_64 can shift";;
  SET_REG (setX 1) 0x1;;
  SET_REG (setX 2) 0x3f;;
  SET_REG (setX 3) 0x2;;
  expected_ (setX 3) 0x8000000000000000;;
  doTestInst "LSLV_64 can shift".

Definition LSLV_64_mod : T unit :=
  inst_ Fld.Rn 1;;
  inst_ Fld.Rm 2;;
  inst_ Fld.Rd 3;;
  SET_REG (setX 1) 0x1;;
  SET_REG (setX 2) 0x41;;
  SET_REG (setX 3) 0x1;;
  expected_ (setX 3) 0x2;;
  doTestInst "LSLV_64 shift is mod 64";;
  SET_REG (setX 1) 0x1;;
  SET_REG (setX 2) 0x3456378ABC356741;;
  SET_REG (setX 3) 0x1;;
  expected_ (setX 3) 0x2;;
  doTestInst "LSLV_64 shift is mod 64".

Definition LSLV_64_same_reg : T unit :=
  SET_REG (setX 1) 0x2;;
  SET_REG (setX 2) 0x2;;
  inst_ Fld.Rn 1;;
  inst_ Fld.Rm 1;;
  inst_ Fld.Rd 2;;
  expected_ (setX 2) 0x8;;
  doTestInst "LSLV_64 can use the same register";;
  SET_REG (setX 1) 0x41;;
  SET_REG (setX 2) 0x2;;
  inst_ Fld.Rn 1;;
  inst_ Fld.Rm 1;;
  inst_ Fld.Rd 2;;
  expected_ (setX 2) 0x82;;
  doTestInst "LSLV_64 can use the same register";;
  SET_REG (setX 1) 0x1;;
  SET_REG (setX 2) 0x2;;
  inst_ Fld.Rn 1;;
  inst_ Fld.Rm 2;;
  inst_ Fld.Rd 1;;
  expected_ (setX 1) 0x4;;
  doTestInst "LSLV_64 can use the same register";;
  SET_REG (setX 1) 0x1;;
  SET_REG (setX 2) 0x2;;
  inst_ Fld.Rn 2;;
  inst_ Fld.Rm 1;;
  inst_ Fld.Rd 1;;
  expected_ (setX 1) 0x4;;
  doTestInst "LSLV_64 can use the same register";;
  SET_REG (setX 1) 0x2;;
  inst_ Fld.Rn 1;;
  inst_ Fld.Rm 1;;
  inst_ Fld.Rd 1;;
  expected_ (setX 1) 0x8;;
  doTestInst "LSLV_64 can use the same register";;
  SET_REG (setX 1) 0x41;;
  inst_ Fld.Rn 1;;
  inst_ Fld.Rm 1;;
  inst_ Fld.Rd 1;;
  expected_ (setX 1) 0x82;;
  doTestInst "LSLV_64 can use the same register".

Definition lslv64_tests : TestClass := mkTestClass "lslv64" instructionID.LSLV_64
  [("LSLV_64_basic", LSLV_64_basic);
   ("LSLV_64_mod", LSLV_64_mod);
   ("LSLV_64_same_reg", LSLV_64_same_reg)].

(** ** [lsrv64] *)

Definition LSRV_64_basic : T unit :=
  inst_ Fld.Rn 1;;
  inst_ Fld.Rm 2;;
  inst_ Fld.Rd 3;;
  SET_REG (setX 1) 0x8000000000000000;;
  SET_REG (setX 2) 0;;
  SET_REG (setX 3) 0x2;;
  expected_ (setX 3) 0x8000000000000000;;
  doTestInst "LSRV_64 does nothing when shift is 0";;
  SET_REG (setX 1) 0x8000000000000000;;
  SET_REG (setX 2) 0x1;;
  SET_REG (setX 3) 0x1;;
  expected_ (setX 3) 0x4000000000000000;;
  doTestInst "LSRV_64 can shift";;
  SET_REG (setX 1) 0x8000000000000000;;
  SET_REG (setX 2) 0x3f;;
  SET_REG (setX 3) 0x2;;
  expected_ (setX 3) 0x1;;
  doTestInst "LSRV_64 can shift".

Definition LSRV_64_mod : T unit :=
  inst_ Fld.Rn 1;;
  inst_ Fld.Rm 2;;
  inst_ Fld.Rd 3;;
  SET_REG (setX 1) 0x8000000000000000;;
  SET_REG (setX 2) 0x41;;
  SET_REG (setX 3) 0x1;;
  expected_ (setX 3) 0x4000000000000000;;
  doTestInst "LSRV_64 shift is mod 64";;
  SET_REG (setX 1) 0x8000000000000000;;
  SET_REG (setX 2) 0x3456378ABC356741;;
  SET_REG (setX 3) 0x1;;
  expected_ (setX 3) 0x4000000000000000;;
  doTestInst "LSRV_64 shift is mod 64".

Definition LSRV_64_same_reg : T unit :=
  SET_REG (setX 1) 0x2;;
  SET_REG (setX 2) 0x2;;
  inst_ Fld.Rn 1;;
  inst_ Fld.Rm 1;;
  inst_ Fld.Rd 2;;
  expected_ (setX 2) 0x0;;
  doTestInst "LSRV_64 can use the same register";;
  SET_REG (setX 1) 0x41;;
  SET_REG (setX 2) 0x2;;
  inst_ Fld.Rn 1;;
  inst_ Fld.Rm 1;;
  inst_ Fld.Rd 2;;
  expected_ (setX 2) 0x20;;
  doTestInst "LSRV_64 can use the same register";;
  SET_REG (setX 1) 0x8000000000000000;;
  SET_REG (setX 2) 0x2;;
  inst_ Fld.Rn 1;;
  inst_ Fld.Rm 2;;
  inst_ Fld.Rd 1;;
  expected_ (setX 1) 0x2000000000000000;;
  doTestInst "LSRV_64 can use the same register";;
  SET_REG (setX 1) 0x2;;
  SET_REG (setX 2) 0x8000000000000000;;
  inst_ Fld.Rn 2;;
  inst_ Fld.Rm 1;;
  inst_ Fld.Rd 1;;
  expected_ (setX 1) 0x2000000000000000;;
  doTestInst "LSRV_64 can use the same register";;
  SET_REG (setX 1) 0x2;;
  inst_ Fld.Rn 1;;
  inst_ Fld.Rm 1;;
  inst_ Fld.Rd 1;;
  expected_ (setX 1) 0x0;;
  doTestInst "LSRV_64 can use the same register";;
  SET_REG (setX 1) 0x41;;
  inst_ Fld.Rn 1;;
  inst_ Fld.Rm 1;;
  inst_ Fld.Rd 1;;
  expected_ (setX 1) 0x20;;
  doTestInst "LSRV_64 can use the same register".

Definition lsrv64_tests : TestClass := mkTestClass "lsrv64" instructionID.LSRV_64
  [("LSRV_64_basic", LSRV_64_basic);
   ("LSRV_64_mod", LSRV_64_mod);
   ("LSRV_64_same_reg", LSRV_64_same_reg)].

(** ** [asrv64] *)

Definition ASRV_64_basic : T unit :=
  inst_ Fld.Rn 1;;
  inst_ Fld.Rm 2;;
  inst_ Fld.Rd 3;;
  SET_REG (setX 1) 0x8000000000000000;;
  SET_REG (setX 2) 0;;
  SET_REG (setX 3) 0x2;;
  expected_ (setX 3) 0x8000000000000000;;
  doTestInst "ASRV_64 does nothing when shift is 0";;
  SET_REG (setX 1) 0x8000000000000000;;
  SET_REG (setX 2) 0x1;;
  SET_REG (setX 3) 0x1;;
  expected_ (setX 3) 0xC000000000000000;;
  doTestInst "ASRV_64 can shift";;
  SET_REG (setX 1) 0x8000000000000000;;
  SET_REG (setX 2) 0x3f;;
  SET_REG (setX 3) 0x2;;
  expected_ (setX 3) 0xFFFFFFFFFFFFFFFF;;
  doTestInst "ASRV_64 can shift";;
  SET_REG (setX 1) 0x4000000000000000;;
  SET_REG (setX 2) 0x1;;
  SET_REG (setX 3) 0x2;;
  expected_ (setX 3) 0x2000000000000000;;
  doTestInst "ASRV_64 can shift".

Definition ASRV_64_mod : T unit :=
  inst_ Fld.Rn 1;;
  inst_ Fld.Rm 2;;
  inst_ Fld.Rd 3;;
  SET_REG (setX 1) 0x8000000000000000;;
  SET_REG (setX 2) 0x41;;
  SET_REG (setX 3) 0x1;;
  expected_ (setX 3) 0xC000000000000000;;
  doTestInst "ASRV_64 shift is mod 64";;
  SET_REG (setX 1) 0x8000000000000000;;
  SET_REG (setX 2) 0x3456378ABC356741;;
  SET_REG (setX 3) 0x1;;
  expected_ (setX 3) 0xC000000000000000;;
  doTestInst "ASRV_64 shift is mod 64".

Definition ASRV_64_same_reg : T unit :=
  SET_REG (setX 1) 0x2;;
  SET_REG (setX 2) 0x2;;
  inst_ Fld.Rn 1;;
  inst_ Fld.Rm 1;;
  inst_ Fld.Rd 2;;
  expected_ (setX 2) 0x0;;
  doTestInst "ASRV_64 can use the same register";;
  SET_REG (setX 1) 0x41;;
  SET_REG (setX 2) 0x2;;
  inst_ Fld.Rn 1;;
  inst_ Fld.Rm 1;;
  inst_ Fld.Rd 2;;
  expected_ (setX 2) 0x20;;
  doTestInst "ASRV_64 can use the same register";;
  SET_REG (setX 1) 0x8000000000000000;;
  SET_REG (setX 2) 0x2;;
  inst_ Fld.Rn 1;;
  inst_ Fld.Rm 2;;
  inst_ Fld.Rd 1;;
  expected_ (setX 1) 0xE000000000000000;;
  doTestInst "ASRV_64 can use the same register";;
  SET_REG (setX 1) 0x2;;
  SET_REG (setX 2) 0x8000000000000000;;
  inst_ Fld.Rn 2;;
  inst_ Fld.Rm 1;;
  inst_ Fld.Rd 1;;
  expected_ (setX 1) 0xE000000000000000;;
  doTestInst "ASRV_64 can use the same register";;
  SET_REG (setX 1) 0x2;;
  inst_ Fld.Rn 1;;
  inst_ Fld.Rm 1;;
  inst_ Fld.Rd 1;;
  expected_ (setX 1) 0x0;;
  doTestInst "ASRV_64 can use the same register";;
  SET_REG (setX 1) 0x41;;
  inst_ Fld.Rn 1;;
  inst_ Fld.Rm 1;;
  inst_ Fld.Rd 1;;
  expected_ (setX 1) 0x20;;
  doTestInst "ASRV_64 can use the same register".

Definition asrv64_tests : TestClass := mkTestClass "asrv64" instructionID.ASRV_64
  [("ASRV_64_basic", ASRV_64_basic);
   ("ASRV_64_mod", ASRV_64_mod);
   ("ASRV_64_same_reg", ASRV_64_same_reg)].

(** ** [rorv64] *)

Definition RORV_64_basic : T unit :=
  inst_ Fld.Rn 1;;
  inst_ Fld.Rm 2;;
  inst_ Fld.Rd 3;;
  SET_REG (setX 1) 0x8000000000000001;;
  SET_REG (setX 2) 0;;
  SET_REG (setX 3) 0x2;;
  expected_ (setX 3) 0x8000000000000001;;
  doTestInst "RORV_64 does nothing when shift is 0";;
  SET_REG (setX 1) 0x8000000000000001;;
  SET_REG (setX 2) 0x1;;
  SET_REG (setX 3) 0x1;;
  expected_ (setX 3) 0xC000000000000000;;
  doTestInst "RORV_64 can rotate";;
  SET_REG (setX 1) 0x8000000000000001;;
  SET_REG (setX 2) 0x3f;;
  SET_REG (setX 3) 0x2;;
  expected_ (setX 3) 0x3;;
  doTestInst "RORV_64 can rotate".

Definition RORV_64_mod : T unit :=
  inst_ Fld.Rn 1;;
  inst_ Fld.Rm 2;;
  inst_ Fld.Rd 3;;
  SET_REG (setX 1) 0x8000000000000001;;
  SET_REG (setX 2) 0x41;;
  SET_REG (setX 3) 0x1;;
  expected_ (setX 3) 0xC000000000000000;;
  doTestInst "RORV_64 shift is mod 64";;
  SET_REG (setX 1) 0x8000000000000001;;
  SET_REG (setX 2) 0x3456378ABC356741;;
  SET_REG (setX 3) 0x1;;
  expected_ (setX 3) 0xC000000000000000;;
  doTestInst "RORV_64 shift is mod 64".

Definition RORV_64_same_reg : T unit :=
  SET_REG (setX 1) 0x2;;
  SET_REG (setX 2) 0x2;;
  inst_ Fld.Rn 1;;
  inst_ Fld.Rm 1;;
  inst_ Fld.Rd 2;;
  expected_ (setX 2) 0x8000000000000000;;
  doTestInst "RORV_64 can use the same register";;
  SET_REG (setX 1) 0x41;;
  SET_REG (setX 2) 0x2;;
  inst_ Fld.Rn 1;;
  inst_ Fld.Rm 1;;
  inst_ Fld.Rd 2;;
  expected_ (setX 2) 0x8000000000000020;;
  doTestInst "RORV_64 can use the same register";;
  SET_REG (setX 1) 0x8000000000000001;;
  SET_REG (setX 2) 0x2;;
  inst_ Fld.Rn 1;;
  inst_ Fld.Rm 2;;
  inst_ Fld.Rd 1;;
  expected_ (setX 1) 0x6000000000000000;;
  doTestInst "RORV_64 can use the same register";;
  SET_REG (setX 1) 0x2;;
  SET_REG (setX 2) 0x8000000000000001;;
  inst_ Fld.Rn 2;;
  inst_ Fld.Rm 1;;
  inst_ Fld.Rd 1;;
  expected_ (setX 1) 0x6000000000000000;;
  doTestInst "RORV_64 can use the same register";;
  SET_REG (setX 1) 0x2;;
  inst_ Fld.Rn 1;;
  inst_ Fld.Rm 1;;
  inst_ Fld.Rd 1;;
  expected_ (setX 1) 0x8000000000000000;;
  doTestInst "RORV_64 can use the same register";;
  SET_REG (setX 1) 0x41;;
  inst_ Fld.Rn 1;;
  inst_ Fld.Rm 1;;
  inst_ Fld.Rd 1;;
  expected_ (setX 1) 0x8000000000000020;;
  doTestInst "RORV_64 can use the same register".

Definition rorv64_tests : TestClass := mkTestClass "rorv64" instructionID.RORV_64
  [("RORV_64_basic", RORV_64_basic);
   ("RORV_64_mod", RORV_64_mod);
   ("RORV_64_same_reg", RORV_64_same_reg)].

(** ** [clz32] *)

Definition CLZ_32_basic : T unit :=
  inst_ Fld.Rn 1;;
  inst_ Fld.Rd 2;;
  SET_REG (setX 1) 0xFFFFFFFF;;
  SET_REG (setX 2) 99;;
  expected_ (setX 2) 0;;
  doTestInst "CLZ_32 counts leading 0s";;
  SET_REG (setX 1) 0x7FFFFFFF;;
  SET_REG (setX 2) 99;;
  expected_ (setX 2) 1;;
  doTestInst "CLZ_32 counts leading 0s";;
  SET_REG (setX 1) 0;;
  SET_REG (setX 2) 99;;
  expected_ (setX 2) 32;;
  doTestInst "CLZ_32 counts leading 0s".

Definition CLZ_32_reg_size : T unit :=
  inst_ Fld.Rn 1;;
  inst_ Fld.Rd 2;;
  SET_REG (setX 1) 0xFFFFFFFFFFFFFFFF;;
  SET_REG (setX 2) 99;;
  expected_ (setX 2) 0;;
  doTestInst "CLZ_32 uses 32bit registers";;
  SET_REG (setX 1) 0x7FFFFFFFFFFFFFFF;;
  SET_REG (setX 2) 99;;
  expected_ (setX 2) 0;;
  doTestInst "CLZ_32 uses 32bit registers";;
  SET_REG (setX 1) 0x7FFFFFFF7FFFFFFF;;
  SET_REG (setX 2) 99;;
  expected_ (setX 2) 1;;
  doTestInst "CLZ_32 uses 32bit registers".

Definition CLZ_32_same_reg : T unit :=
  SET_REG (setX 1) 0;;
  inst_ Fld.Rn 1;;
  inst_ Fld.Rd 1;;
  expected_ (setX 1) 32;;
  doTestInst "CLZ_32 can use the same register".

Definition CLZ_32_all : T unit :=
  inst_ Fld.Rn 1;;
  inst_ Fld.Rd 2;;
  for_ (upTo 32) (fun i =>
    SET_REG (setX 1) (at_ setBitTable i);;
    SET_REG (setX 2) 99;;
    expected_ (setX 2) (31 - i);;
    doTestInst "CLZ_32 counts leading 0s in setBitTable");;
  for_ (upTo 33) (fun i =>
    SET_REG (setX 1) (at_ leadingClearBitTable i);;
    SET_REG (setX 2) 99;;
    expected_ (setX 2) (32 - i);;
    doTestInst "CLZ_32 counts leading 0s in leadingClearBitTable").

Definition clz32_tests : TestClass := mkTestClass "clz32" instructionID.CLZ_32
  [("CLZ_32_basic", CLZ_32_basic);
   ("CLZ_32_reg_size", CLZ_32_reg_size);
   ("CLZ_32_same_reg", CLZ_32_same_reg);
   ("CLZ_32_all", CLZ_32_all)].

(** ** [clz64] *)

Definition CLZ_64_basic : T unit :=
  inst_ Fld.Rn 1;;
  inst_ Fld.Rd 2;;
  SET_REG (setX 1) 0xFFFFFFFFFFFFFFFF;;
  SET_REG (setX 2) 99;;
  expected_ (setX 2) 0;;
  doTestInst "CLZ_64 counts leading 0s";;
  SET_REG (setX 1) 0x7FFFFFFFFFFFFFFF;;
  SET_REG (setX 2) 99;;
  expected_ (setX 2) 1;;
  doTestInst "CLZ_64 counts leading 0s";;
  SET_REG (setX 1) 0;;
  SET_REG (setX 2) 99;;
  expected_ (setX 2) 64;;
  doTestInst "CLZ_64 counts leading 0s".

Definition CLZ_64_reg_size : T unit :=
  inst_ Fld.Rn 1;;
  inst_ Fld.Rd 2;;
  SET_REG (setX 1) 0xFFFFFFFFFFFFFFFF;;
  SET_REG (setX 2) 99;;
  expected_ (setX 2) 0;;
  doTestInst "CLZ_64 uses 64bit registers";;
  SET_REG (setX 1) 0x7FFFFFFFFFFFFFFF;;
  SET_REG (setX 2) 99;;
  expected_ (setX 2) 1;;
  doTestInst "CLZ_64 uses 64bit registers";;
  SET_REG (setX 1) 0x7FFFFFFF7FFFFFFF;;
  SET_REG (setX 2) 99;;
  expected_ (setX 2) 1;;
  doTestInst "CLZ_64 uses 64bit registers".

Definition CLZ_64_same_reg : T unit :=
  SET_REG (setX 1) 0;;
  inst_ Fld.Rn 1;;
  inst_ Fld.Rd 1;;
  expected_ (setX 1) 64;;
  doTestInst "CLZ_64 can use the same register".

Definition CLZ_64_all : T unit :=
  inst_ Fld.Rn 1;;
  inst_ Fld.Rd 2;;
  for_ (upTo 64) (fun i =>
    SET_REG (setX 1) (at_ setBitTable i);;
    SET_REG (setX 2) 99;;
    expected_ (setX 2) (63 - i);;
    doTestInst "CLZ_64 counts leading 0s in setBitTable");;
  for_ (upTo 65) (fun i =>
    SET_REG (setX 1) (at_ leadingClearBitTable i);;
    SET_REG (setX 2) 99;;
    expected_ (setX 2) (64 - i);;
    doTestInst "CLZ_64 counts leading 0s in leadingClearBitTable").

Definition clz64_tests : TestClass := mkTestClass "clz64" instructionID.CLZ_64
  [("CLZ_64_basic", CLZ_64_basic);
   ("CLZ_64_reg_size", CLZ_64_reg_size);
   ("CLZ_64_same_reg", CLZ_64_same_reg);
   ("CLZ_64_all", CLZ_64_all)].

(** ** [cls32] *)

Definition CLS_32_basic : T unit :=
  inst_ Fld.Rn 1;;
  inst_ Fld.Rd 2;;
  SET_REG (setX 1) 0;;
  SET_REG (setX 2) 99;;
  expected_ (setX 2) 0;;
  doTestInst "CLS_32 counts leading 1s";;
  SET_REG (setX 1) 0x80000000;;
  SET_REG (setX 2) 99;;
  expected_ (setX 2) 1;;
  doTestInst "CLS_32 counts leading 1s";;
  SET_REG (setX 1) 0xFFFFFFFF;;
  SET_REG (setX 2) 99;;
  expected_ (setX 2) 32;;
  doTestInst "CLS_32 counts leading 1s".

Definition CLS_32_reg_size : T unit :=
  inst_ Fld.Rn 1;;
  inst_ Fld.Rd 2;;
  SET_REG (setX 1) 0;;
  SET_REG (setX 2) 99;;
  expected_ (setX 2) 0;;
  doTestInst "CLS_32 uses 32bit registers";;
  SET_REG (setX 1) 0x8000000000000000;;
  SET_REG (setX 2) 99;;
  expected_ (setX 2) 0;;
  doTestInst "CLS_32 uses 32bit registers";;
  SET_REG (setX 1) 0x8000000080000000;;
  SET_REG (setX 2) 99;;
  expected_ (setX 2) 1;;
  doTestInst "CLS_32 uses 32bit registers".

Definition CLS_32_same_reg : T unit :=
  SET_REG (setX 1) 0xFFFFFFFFFFFFFFFF;;
  inst_ Fld.Rn 1;;
  inst_ Fld.Rd 1;;
  expected_ (setX 1) 32;;
  doTestInst "CLS_32 can use the same register".

Definition CLS_32_all : T unit :=
  inst_ Fld.Rn 1;;
  inst_ Fld.Rd 2;;
  for_ (upTo 32) (fun i =>
    SET_REG (setX 1) (at_ clearBitTable i);;
    SET_REG (setX 2) 99;;
    expected_ (setX 2) (31 - i);;
    doTestInst "CLS_32 counts leading 1s in clearBitTable");;
  for_ (upTo 33) (fun i =>
    SET_REG (setX 1) (at_ leadingSetBitTable i);;
    SET_REG (setX 2) 99;;
    expected_ (setX 2) (32 - i);;
    doTestInst "CLS_32 counts leading 1s in leadingSetBitTable").

Definition cls32_tests : TestClass := mkTestClass "cls32" instructionID.CLS_32
  [("CLS_32_basic", CLS_32_basic);
   ("CLS_32_reg_size", CLS_32_reg_size);
   ("CLS_32_same_reg", CLS_32_same_reg);
   ("CLS_32_all", CLS_32_all)].

(** ** [cls64] *)

Definition CLS_64_basic : T unit :=
  inst_ Fld.Rn 1;;
  inst_ Fld.Rd 2;;
  SET_REG (setX 1) 0;;
  SET_REG (setX 2) 99;;
  expected_ (setX 2) 0;;
  doTestInst "CLS_64 counts leading 1s";;
  SET_REG (setX 1) 0x8000000000000000;;
  SET_REG (setX 2) 99;;
  expected_ (setX 2) 1;;
  doTestInst "CLS_64 counts leading 1s";;
  SET_REG (setX 1) 0xFFFFFFFFFFFFFFFF;;
  SET_REG (setX 2) 99;;
  expected_ (setX 2) 64;;
  doTestInst "CLS_64 counts leading 1s".

Definition CLS_64_reg_size : T unit :=
  inst_ Fld.Rn 1;;
  inst_ Fld.Rd 2;;
  SET_REG (setX 1) 0;;
  SET_REG (setX 2) 99;;
  expected_ (setX 2) 0;;
  doTestInst "CLS_64 uses 64bit registers";;
  SET_REG (setX 1) 0x8000000000000000;;
  SET_REG (setX 2) 99;;
  expected_ (setX 2) 1;;
  doTestInst "CLS_64 uses 64bit registers";;
  SET_REG (setX 1) 0x8000000080000000;;
  SET_REG (setX 2) 99;;
  expected_ (setX 2) 1;;
  doTestInst "CLS_64 uses 64bit registers".

Definition CLS_64_same_reg : T unit :=
  SET_REG (setX 1) 0xFFFFFFFFFFFFFFFF;;
  inst_ Fld.Rn 1;;
  inst_ Fld.Rd 1;;
  expected_ (setX 1) 64;;
  doTestInst "CLS_64 can use the same register".

Definition CLS_64_all : T unit :=
  inst_ Fld.Rn 1;;
  inst_ Fld.Rd 2;;
  for_ (upTo 64) (fun i =>
    SET_REG (setX 1) (at_ clearBitTable i);;
    SET_REG (setX 2) 99;;
    expected_ (setX 2) (63 - i);;
    doTestInst "CLS_64 counts leading 1s in clearBitTable");;
  for_ (upTo 65) (fun i =>
    SET_REG (setX 1) (at_ leadingSetBitTable i);;
    SET_REG (setX 2) 99;;
    expected_ (setX 2) (64 - i);;
    doTestInst "CLS_64 counts leading 1s in leadingSetBitTable").

Definition cls64_tests : TestClass := mkTestClass "cls64" instructionID.CLS_64
  [("CLS_64_basic", CLS_64_basic);
   ("CLS_64_reg_size", CLS_64_reg_size);
   ("CLS_64_same_reg", CLS_64_same_reg);
   ("CLS_64_all", CLS_64_all)].

(** ** [rbit32] *)

Definition RBIT_32_all_bits : T unit :=
  inst_ Fld.Rn 1;;
  inst_ Fld.Rd 2;;
  for_ (upTo 32) (fun i =>
    SET_REG (setX 1) (Z.shiftl 1 i);;
    SET_REG (setX 2) 0;;
    expected_ (setX 2) (at_ bitTable_RBIT_32 i);;
    doTestInst "RBIT_32 reverses bits").

Definition RBIT_32_reg_size : T unit :=
  SET_REG (setX 1) 0xFFFFFFFFFFFFFFFF;;
  SET_REG (setX 2) 0x1;;
  inst_ Fld.Rn 1;;
  inst_ Fld.Rd 2;;
  expected_ (setX 2) 0xFFFFFFFF;;
  doTestInst "RBIT_32 uses 32bit registers".

Definition RBIT_32_same_reg : T unit :=
  SET_REG (setX 1) 0x1;;
  inst_ Fld.Rn 1;;
  inst_ Fld.Rd 1;;
  expected_ (setX 1) 0x80000000;;
  doTestInst "RBIT_32 can use the same register".

Definition rbit32_tests : TestClass := mkTestClass "rbit32" instructionID.RBIT_32
  [("RBIT_32_all_bits", RBIT_32_all_bits);
   ("RBIT_32_reg_size", RBIT_32_reg_size);
   ("RBIT_32_same_reg", RBIT_32_same_reg)].

(** ** [rev32] *)

Definition REV_32_all_bits : T unit :=
  inst_ Fld.Rn 1;;
  inst_ Fld.Rd 2;;
  for_ (upTo 32) (fun i =>
    SET_REG (setX 1) (Z.shiftl 1 i);;
    SET_REG (setX 2) 0;;
    expected_ (setX 2) (at_ bitTable_REV_32 i);;
    doTestInst "REV_32 reverses bits").

Definition REV_32_reg_size : T unit :=
  SET_REG (setX 1) 0xFFFFFFFFFFFFFFFF;;
  SET_REG (setX 2) 0x1;;
  inst_ Fld.Rn 1;;
  inst_ Fld.Rd 2;;
  expected_ (setX 2) 0xFFFFFFFF;;
  doTestInst "REV_32 uses 32bit registers".

Definition REV_32_same_reg : T unit :=
  SET_REG (setX 1) 0x1;;
  inst_ Fld.Rn 1;;
  inst_ Fld.Rd 1;;
  expected_ (setX 1) 0x01000000;;
  doTestInst "REV_32 can use the same register".

Definition rev32_tests : TestClass := mkTestClass "rev32" instructionID.REV_32
  [("REV_32_all_bits", REV_32_all_bits);
   ("REV_32_reg_size", REV_32_reg_size);
   ("REV_32_same_reg", REV_32_same_reg)].

(** ** [rev1632] *)

Definition REV16_32_all_bits : T unit :=
  inst_ Fld.Rn 1;;
  inst_ Fld.Rd 2;;
  for_ (upTo 32) (fun i =>
    SET_REG (setX 1) (Z.shiftl 1 i);;
    SET_REG (setX 2) 0;;
    expected_ (setX 2) (at_ bitTable_REV16_32 i);;
    doTestInst "REV16_32 reverses bits").

Definition REV16_32_reg_size : T unit :=
  SET_REG (setX 1) 0xFFFFFFFFFFFFFFFF;;
  SET_REG (setX 2) 0x1;;
  inst_ Fld.Rn 1;;
  inst_ Fld.Rd 2;;
  expected_ (setX 2) 0xFFFFFFFF;;
  doTestInst "REV16_32 uses 32bit registers".

Definition REV16_32_same_reg : T unit :=
  SET_REG (setX 1) 0x1;;
  inst_ Fld.Rn 1;;
  inst_ Fld.Rd 1;;
  expected_ (setX 1) 0x00010000;;
  doTestInst "REV16_32 can use the same register".

Definition rev1632_tests : TestClass := mkTestClass "rev1632" instructionID.REV16_32
  [("REV16_32_all_bits", REV16_32_all_bits);
   ("REV16_32_reg_size", REV16_32_reg_size);
   ("REV16_32_same_reg", REV16_32_same_reg)].

(** ** [rbit64] *)

Definition RBIT_64_all_bits : T unit :=
  inst_ Fld.Rn 1;;
  inst_ Fld.Rd 2;;
  for_ (upTo 64) (fun i =>
    SET_REG (setX 1) (Z.shiftl 1 i);;
    SET_REG (setX 2) 0;;
    expected_ (setX 2) (at_ bitTable_RBIT_64 i);;
    doTestInst "RBIT_64 reverses bits").

Definition RBIT_64_same_reg : T unit :=
  SET_REG (setX 1) 0x1;;
  inst_ Fld.Rn 1;;
  inst_ Fld.Rd 1;;
  expected_ (setX 1) 0x8000000000000000;;
  doTestInst "RBIT_64 can use the same register".

Definition rbit64_tests : TestClass := mkTestClass "rbit64" instructionID.RBIT_64
  [("RBIT_64_all_bits", RBIT_64_all_bits);
   ("RBIT_64_same_reg", RBIT_64_same_reg)].

(** ** [rev64] *)

Definition REV_64_all_bits : T unit :=
  inst_ Fld.Rn 1;;
  inst_ Fld.Rd 2;;
  for_ (upTo 64) (fun i =>
    SET_REG (setX 1) (Z.shiftl 1 i);;
    SET_REG (setX 2) 0;;
    expected_ (setX 2) (at_ bitTable_REV_64 i);;
    doTestInst "REV_64 reverses bits").

Definition REV_64_same_reg : T unit :=
  SET_REG (setX 1) 0x1;;
  inst_ Fld.Rn 1;;
  inst_ Fld.Rd 1;;
  expected_ (setX 1) 0x0100000000000000;;
  doTestInst "REV_64 can use the same register".

Definition rev64_tests : TestClass := mkTestClass "rev64" instructionID.REV_64
  [("REV_64_all_bits", REV_64_all_bits);
   ("REV_64_same_reg", REV_64_same_reg)].

(** ** [rev1664] *)

Definition REV16_64_all_bits : T unit :=
  inst_ Fld.Rn 1;;
  inst_ Fld.Rd 2;;
  for_ (upTo 64) (fun i =>
    SET_REG (setX 1) (Z.shiftl 1 i);;
    SET_REG (setX 2) 0;;
    expected_ (setX 2) (at_ bitTable_REV16_64 i);;
    doTestInst "REV16_64 reverses bits").

Definition REV16_64_same_reg : T unit :=
  SET_REG (setX 1) 0x1;;
  inst_ Fld.Rn 1;;
  inst_ Fld.Rd 1;;
  expected_ (setX 1) 0x0001000000000000;;
  doTestInst "REV16_64 can use the same register".

Definition rev1664_tests : TestClass := mkTestClass "rev1664" instructionID.REV16_64
  [("REV16_64_all_bits", REV16_64_all_bits);
   ("REV16_64_same_reg", REV16_64_same_reg)].

(** ** [rev3264] *)

Definition rev3264_REV16_64_all_bits : T unit :=
  inst_ Fld.Rn 1;;
  inst_ Fld.Rd 2;;
  for_ (upTo 64) (fun i =>
    SET_REG (setX 1) (Z.shiftl 1 i);;
    SET_REG (setX 2) 0;;
    expected_ (setX 2) (at_ bitTable_REV32_64 i);;
    doTestInst "REV16_64 reverses bits").

Definition rev3264_REV16_64_same_reg : T unit :=
  SET_REG (setX 1) 0x1;;
  inst_ Fld.Rn 1;;
  inst_ Fld.Rd 1;;
  expected_ (setX 1) 0x0000000100000000;;
  doTestInst "REV16_64 can use the same register".

Definition rev3264_tests : TestClass := mkTestClass "rev3264" instructionID.REV32_64
  [("REV16_64_all_bits", rev3264_REV16_64_all_bits);
   ("REV16_64_same_reg", rev3264_REV16_64_same_reg)].

Definition classes : list TestClass :=
  [udiv32_tests;
   sdiv32_tests;
   udiv64_tests;
   sdiv64_tests;
   lslv32_tests;
   lsrv32_tests;
   asrv32_tests;
   rorv32_tests;
   lslv64_tests;
   lsrv64_tests;
   asrv64_tests;
   rorv64_tests;
   clz32_tests;
   clz64_tests;
   cls32_tests;
   cls64_tests;
   rbit32_tests;
   rev32_tests;
   rev1632_tests;
   rbit64_tests;
   rev64_tests;
   rev1664_tests;
   rev3264_tests].
