(* ===== verification/TestSuite.v ===== *)
(** * The interpreter and the repository's unit tests: [InterpreterUnitTest/system.cpp] and
    all classes together *)
From stdpp Require Import strings.
From S2P Require Import Prelude Instructions Core Machine TestBase.
From S2P Require TestBranch TestDPImm TestDPReg.
#[global] Open Scope Z_scope.

(** * The system instructions *)

(** ** [clrex] *)

Definition CLREX_basic : T unit :=
  SET_REG set_exclusiveAccess false;;
  doTestInst "CLREX does nothing when core does not have exclusive access";;
  SET_REG set_exclusiveAccess true;;
  expected_ set_exclusiveAccess false;;
  doTestInst "CLREX clears exclusive access".

Definition clrex_tests : TestClass := mkTestClass "clrex" instructionID.CLREX
  [("CLREX_basic", CLREX_basic)].

Definition systemClasses : list TestClass :=
  [clrex_tests].

(** * All classes *)

Definition test_classes : list TestClass :=
  TestBranch.classes ++ TestDPImm.classes ++ TestDPReg.classes ++ systemClasses.

(** A class whose methods all reach their end: memory is initialised, no assertion
    fails, no handler crashes. *)
Definition passes (c : TestClass) : Prop :=
  Forall (fun p => exists f f', initFixture (testInstId c) = Ok f /\ snd p f = inr (tt, f')) (methods c).

Lemma runClass_passes c : runClass c = [] -> passes c.
Proof.
  unfold runClass, passes, runMethod. destruct (initFixture (testInstId c)) as [f|e].
  - induction (methods c) as [|[n p] l IH]; [constructor|]. cbn [omap list_omap snd fst].
    intros Hl. destruct (p f) as [e|[[] f']] eqn:E; [done|].
    constructor; [by exists f, f'|exact (IH Hl)].
  - by destruct (methods c) as [|[n p] l].
Qed.

